(* ===== verification/_CoqProject ===== *)
-Q . S2P
Prelude.v
Ring.v
Mem.v
CString.v
FrameAlloc.v
Pmm.v
KAlloc.v
Heap.v
Vmm.v
Sched.v
Ipc.v
Codec.v
BlockDev.v
DiskFs.v
Fs.v
Effects.v
Console.v
Log.v
Vterm.v
Keyboard.v
Line.v
Basic.v
Editor.v
Ports.v
Ata.v
AtaDev.v
Irq.v
Rtc.v
Pci.v
Ahci.v
Acpi.v
Linear.v
Elf.v
Vesa.v
Gdt.v
Debug.v
Sysmon.v
Syscall.v
Shell.v
Installer.v
Tui.v
