(* ===== verification/Prelude.v ===== *)
(** mexOS: a verification library for a 32-bit x86 kernel written in C.

    The library models the kernel under src/kernel as functions on explicit states, one file
    of the library for each file of C (or for the two or three that share their state), and
    proves what each component promises.  A definition has the name of the C function; names
    that the code has not are helpers, introduced where they stand.

    ** Conventions

    - A [w]-bit integer is a [Z]; [u8], [u16], [u32] and [i32] below write the wrap-around out.
    - Memory is a map from addresses to bytes (Mem); C strings and sectors that live in
      arrays of their own are lists of bytes (Codec).  A pointer is an address, the index of
      an array, or the key of a store; NULL is 0 or [None], as the file says.
    - A function that changes state takes and returns it: as a pair, or in the monad [ST] of
      Effects.  [None] is behaviour that C leaves undefined or that stops the kernel: an
      access outside an array, a NULL or dangling pointer, a division by zero, a page fault,
      a loop that does not end.  Error codes are values.  [tri P m Q] is total correctness,
      so that a theorem which says [m s = Some ...] says that the code returns.
    - A loop that sleeps until something happens is given by its iteration, and the iteration
      says that the caller waits ([WBlocked], [Blocked]).

    ** Files, from the bottom up

    - Prelude: integers, tactics, lists.  Ring: a ring that keeps the last entries.  Codec:
      little-endian words and structures in lists.  Effects: the monad and its logic.
    - Mem, CString: memory, and lib/string.c on it.
    - Pmm: mm/pmm.c, the bitmap of frames; with kernel.c:163-171, which sets it up.
      Heap: mm/heap.c.  Vmm: mm/vmm.c.  Linear: accesses through the page tables, as the
      processor makes them.
    - Sched: sched/sched.c.  Ipc: ipc/ipc.c.
    - DiskFs: fs/diskfs.c.  Fs: fs/fs.c.
    - Console, Vterm: ui/console.c, ui/vterm.c, drivers/char/serial.c.  Log: lib/log.c.
      Debug: lib/debug_utils.c.  Sysmon: sys/sysmon.c.
    - Keyboard: drivers/input/keyboard.c.  Ata, AtaDev: drivers/storage/ata.c.  Ahci:
      drivers/storage/ahci.c.  Rtc: drivers/char/rtc.c.  Pci, Acpi: drivers/bus/pci.c and
      acpi.c.  Vesa: drivers/video/vesa.c.
    - Gdt: arch/i686/gdt.c.  Irq: arch/i686/idt.c and sys/timer.c.
    - Elf: core/elf.c.  Syscall: core/syscall.c, over one machine that holds the scheduler,
      the ports, the pages, the terminals, the keyboard, the files and the devices.
    - Basic: ui/basic.c.  Editor: ui/editor.c.  Line, Shell: ui/shell.c, the command line and
      the commands.  Tui: ui/tui.c.  Installer: ui/disk_installer.c.

    ** Interfaces

    Components meet in classes.  A client is verified against the class with its laws, and
    the implementation discharges them; a device of the machine is a class that states what
    its documentation promises, with a concrete device on which the theorems are run.

    - [FrameAlloc]: frames of 4 KiB.  Pmm promises it; Vmm, Elf, Vesa and Syscall use it.
    - [KAlloc]: [kmalloc] and [kfree].  Heap promises it; Sched, Ipc and Pci use it.
    - [BlockDev]: sectors of 512 bytes.  [ramdisk] keeps the laws; so does the ATA driver on
      a machine whose drives take the last word of a write at once ([AtaPrompt]); DiskFs and
      all above it use it.
    - [Console]: output with a transcript.  Vterm keeps the laws, [teletype] too, and the
      shell by its part; Log, Basic, Editor, Line, Debug, Sysmon and Irq use it.
    - [Ports]: [inb], [outb] and their kin on the machine.  [AtaLaws], [PicLaws], [CmosLaws]
      and [PciLaws] say what drives, interrupt controllers, CMOS memory and host bridge do.
      The ATA laws give a drive its capacity and promise nothing of a command on a busy
      channel; the CMOS answers at ports 0x70 and 0x71.  [Hba] is the AHCI controller, which
      reads and writes memory by itself.
    - [Disks] and [Storage]: what the installer asks of drivers and file system.

    What is not in the C files is a parameter of the definition that uses it: uninitialised
    memory ([uninit]), the entry points of the assembly stubs ([user_task_entry]), the
    registers read by the register dump, the program linked in as initial ramdisk, the unit
    tests that the command "test" starts, the content of CR2.

    ** What the theorems show

    - Memory: the frame allocator refines a set of free frames; the heap keeps its chain of
      blocks, takes the best fit and returns NULL exactly when nothing fits; mapping changes
      one translation; a user pointer is accepted exactly when the user may access all its
      bytes; a destroyed address space gives back each frame once.
    - Processes: from [sched_init] the run queue stays well formed with one running task,
      unless the running task is destroyed, which leaves [current_task] dangling; the first
      READY task of the highest priority runs, and two of them starve a third; messages pass
      through the queue of a port in order; a fault of a user task ends that task only; an
      ELF image is loaded as its headers say; a system call with a pointer that is not the
      caller's does nothing.
    - Files: the table of nodes stays a tree, as long as the current directory is not
      removed; what is written is read back, in memory and on disk, there outside the cases
      in which the layout of the disk loses data: block 0 and every fourth inode.
    - Devices: the ATA and AHCI commands describe the transfer; the bus scan lists what
      answers; the clock driver selects no register and the ACPI search looks for a
      misspelt signature, and the theorems say what follows.
    - Terminals and programs: the screen is the window of the active terminal; keys are
      queued; a line is executed as edited, until an arrow key overruns its buffer; "write"
      and "cat", "kill" and "ps" do what they say; editor, BASIC, panels and installer.

    A theorem whose comment has a number is a claim about the program; those that need
    hypotheses have a witness, which applies them to a concrete state.

    ** Fuel and bounds

    Loops bounded by an argument, a list or a table recurse on it and need no fuel.  The
    others: [heap_fuel] is more than the number of blocks that fit in the heap; the walk
    of the run queue takes the number of tasks; [check_fuel] (786434) is two
    more than the number of pages below 3 GB; loading a segment takes 2^20 pages, the whole address
    space, and 65536 program headers, the range of their number; a run of a BASIC program
    takes one turn more than its 100 lines.  The polls of the ATA driver (100000) and the spins
    of the AHCI driver (1000000) are the bounds of the code.  Where the code has no bound the
    fuel is a parameter and the theorem holds for every value that is enough ([polls] of
    Ahci and Shell, [depth] of Basic).

    ** Not modelled

    - Assembly and inline assembly: boot.s, gdt_asm.s, idt_asm.s, switch.s, arch.h.  Ports is
      the interface of the port instructions; the switch of stacks is a step of
      [Sched.schedule]; what Gdt loads is recorded.
    - The rest of kernel.c: calls of the other components in order, and output.
    - The devices themselves beyond their classes, the UART, and the caches of the processor.
    - The user programs under src/user and the unit tests under src/tests; core/initrd.h
      (symbols of a linked binary), fs/vfs.h (empty), include/types.h and cast.h (names). *)

From Stdlib Require Export ZArith Lia String Ascii.
From stdpp Require Export base numbers list gmap sets.

Declare Scope kernel_scope.
Delimit Scope kernel_scope with kernel.
Local Open Scope Z_scope.

(** ** Machine integers

    A [w]-bit unsigned C integer is a [Z] in [[0, 2^w)]; every operation that
    can leave that range is followed by the wrap-around the C type makes. *)
Definition u8 (x : Z) : Z := x mod 256.
Definition u16 (x : Z) : Z := x mod 65536.
Definition u32 (x : Z) : Z := x mod 4294967296.

(** Conversion to [int]: two's complement. *)
Definition i32 (x : Z) : Z :=
  let y := x mod 4294967296 in
  if y <? 2147483648 then y else y - 4294967296.

Definition is_u8 (x : Z) : Prop := 0 <= x < 256.
Definition is_u32 (x : Z) : Prop := 0 <= x < 4294967296.

(** Bitwise complement of a 32-bit word. *)
Definition not32 (x : Z) : Z := u32 (Z.lnot x).

(** ** Tactics *)

(** [zdm] proves linear goals over [/] and [mod] by constants. *)
Ltac zdm := Z.div_mod_to_equations; lia.

(** Case split on the boolean comparisons that occur in a goal. *)
Ltac zcases :=
  repeat match goal with
  | |- context [Z.eqb ?a ?b] => destruct (Z.eqb_spec a b); cbn [negb andb orb]
  | |- context [Z.ltb ?a ?b] => destruct (Z.ltb_spec a b); cbn [negb andb orb]
  | |- context [Z.leb ?a ?b] => destruct (Z.leb_spec a b); cbn [negb andb orb]
  end.

(** The same, in a hypothesis. *)
Ltac zcases_in H :=
  repeat match type of H with
  | context [Z.eqb ?a ?b] => destruct (Z.eqb_spec a b); cbn [negb andb orb] in H
  | context [Z.ltb ?a ?b] => destruct (Z.ltb_spec a b); cbn [negb andb orb] in H
  | context [Z.leb ?a ?b] => destruct (Z.leb_spec a b); cbn [negb andb orb] in H
  end.

(** ** Machine integer lemmas *)

Lemma u8_range x : 0 <= u8 x < 256.
Proof. apply Z.mod_pos_bound. lia. Qed.

Lemma u32_range x : 0 <= u32 x < 4294967296.
Proof. apply Z.mod_pos_bound. lia. Qed.

Lemma u8_small x : 0 <= x < 256 -> u8 x = x.
Proof. intros. by apply Z.mod_small. Qed.

Lemma u32_small x : 0 <= x < 4294967296 -> u32 x = x.
Proof. intros. by apply Z.mod_small. Qed.

Lemma u8_idemp x : u8 (u8 x) = u8 x.
Proof. apply u8_small, u8_range. Qed.

Lemma u32_idemp x : u32 (u32 x) = u32 x.
Proof. apply u32_small, u32_range. Qed.

Lemma i32_small x : 0 <= x < 2147483648 -> i32 x = x.
Proof. intros. unfold i32. rewrite Z.mod_small by lia. by zcases; try lia. Qed.

Lemma i32_range x : -2147483648 <= i32 x < 2147483648.
Proof.
  unfold i32. pose proof (Z.mod_pos_bound x 4294967296 ltac:(lia)).
  zcases; lia.
Qed.

Lemma u32_i32 x : u32 (i32 x) = u32 x.
Proof.
  unfold i32, u32. zcases; [by rewrite Z.mod_mod|].
  rewrite <- (Z.mod_mod x) at 2.
  rewrite <- (Z_mod_plus_full (x mod _) (-1)). f_equal. lia.
Qed.

Create HintDb machr.
Create Rewrite HintDb mach.
#[export] Hint Resolve u8_range u32_range i32_range : machr.
#[export] Hint Rewrite u8_idemp u32_idemp : mach.
#[export] Hint Rewrite u8_small u32_small i32_small using lia : mach.

(** Remove the wrap-arounds that the context shows to be harmless. *)
Ltac mach := autorewrite with mach in *.

(** ** Address ranges *)

(** [a] is one of the [len] addresses from [lo]. *)
Definition in_range (lo len a : Z) : bool := (lo <=? a) && (a <? lo + len).

Lemma in_range_spec lo len a :
  reflect (lo <= a < lo + len) (in_range lo len a).
Proof.
  apply iff_reflect. unfold in_range. rewrite andb_true_iff. lia.
Qed.

(** Case split on the range tests of a goal. *)
Ltac rcases :=
  repeat match goal with
  | |- context [in_range ?lo ?len ?a] => destruct (in_range_spec lo len a)
  | |- context [decide (?a = ?b :> Z)] => destruct (decide (a = b :> Z))
  end; try lia.

(** ** Bits of a word *)

Lemma testbit_small x n k : 0 <= x < 2 ^ n -> n <= k -> Z.testbit x k = false.
Proof.
  intros [Hx Hn] Hk. destruct (decide (0 <= n)) as [H0|H0].
  - rewrite <- (Z.mod_small x (2 ^ n)) by lia. apply Z.mod_pow2_bits_high. lia.
  - rewrite Z.pow_neg_r in Hn by lia. lia.
Qed.

Lemma u32_testbit x k : 0 <= k -> Z.testbit (u32 x) k = (k <? 32) && Z.testbit x k.
Proof.
  intros Hk. unfold u32. change 4294967296 with (2 ^ 32). zcases.
  - by rewrite Z.mod_pow2_bits_low by lia.
  - by rewrite Z.mod_pow2_bits_high by lia.
Qed.

Lemma testbit_pow2 j k : 0 <= j -> Z.testbit (Z.shiftl 1 j) k = (k =? j).
Proof.
  intros Hj. rewrite Z.shiftl_1_l, Z.pow2_bits_eqb by lia. apply Z.eqb_sym.
Qed.

Lemma land_pow2_eq0 x j :
  0 <= j -> Z.land x (Z.shiftl 1 j) = 0 <-> Z.testbit x j = false.
Proof.
  intros Hj. split; intros H.
  - apply (f_equal (fun z => Z.testbit z j)) in H.
    rewrite Z.land_spec, testbit_pow2, Z.eqb_refl, Z.bits_0, andb_true_r in H by lia.
    done.
  - apply Z.bits_inj'. intros k Hk.
    rewrite Z.land_spec, testbit_pow2, Z.bits_0 by lia.
    destruct (Z.eqb_spec k j) as [->|]; [by rewrite H|apply andb_false_r].
Qed.

(** Clearing the low [k] bits of a word rounds it down to a multiple of [2^k]. *)
Lemma land_not_mask x k :
  0 <= x < 4294967296 -> 0 <= k -> Z.land x (not32 (2 ^ k - 1)) = 2 ^ k * (x / 2 ^ k).
Proof.
  intros Hx Hk. replace (2 ^ k * (x / 2 ^ k)) with (Z.shiftl (Z.shiftr x k) k)
    by (rewrite Z.shiftr_div_pow2, Z.shiftl_mul_pow2 by lia; lia).
  apply Z.bits_inj'. intros j Hj. unfold not32.
  rewrite Z.land_spec, Z.shiftl_spec, u32_testbit, Z.lnot_spec by lia.
  replace (2 ^ k - 1) with (Z.ones k) by (rewrite Z.ones_equiv; lia).
  destruct (decide (j < k)) as [H|H].
  - rewrite (Z.testbit_neg_r _ (j - k)), Z.ones_spec_low by lia.
    by rewrite andb_false_r, andb_false_r.
  - rewrite Z.shiftr_spec, Z.ones_spec_high by lia. replace (j - k + k) with j by lia.
    destruct (Z.ltb_spec j 32); [by rewrite andb_true_r|].
    by rewrite (testbit_small x 32) by (simpl; lia).
Qed.

(** Or-ing a multiple of [2^k] with a value below [2^k] adds them. *)
Lemma lor_low f x k : 0 <= k -> 0 <= x < 2 ^ k -> Z.lor (f * 2 ^ k) x = f * 2 ^ k + x.
Proof.
  intros Hk Hx. symmetry. apply Z.add_nocarry_lor. apply Z.bits_inj'. intros j Hj.
  rewrite Z.land_spec, Z.bits_0, <- Z.shiftl_mul_pow2, Z.shiftl_spec by lia.
  destruct (decide (j < k)).
  - by rewrite Z.testbit_neg_r by lia.
  - rewrite (testbit_small x k) by lia. apply andb_false_r.
Qed.

Lemma is_u32_bits x : is_u32 x <-> 0 <= x /\ forall k, 32 <= k -> Z.testbit x k = false.
Proof.
  split.
  - intros [H1 H2]. split; [done|]. intros k Hk. by apply (testbit_small x 32).
  - intros [H1 H2]. split; [done|].
    replace x with (x mod 2 ^ 32); [apply Z.mod_pos_bound; lia|].
    apply Z.bits_inj'. intros k Hk. destruct (decide (k < 32)).
    + by rewrite Z.mod_pow2_bits_low by lia.
    + rewrite Z.mod_pow2_bits_high by lia. symmetry. apply H2. lia.
Qed.

(** ** Counted loops

    [for (i = a; i < a + n; i++) s = f(s, i)] is a left fold over [seqZ a n]. *)
Definition for_range {S} (a n : Z) (f : S -> Z -> S) (s : S) : S :=
  foldl f s (seqZ a n).

Lemma for_range_foldl {S} a n (f : S -> Z -> S) s : for_range a n f s = foldl f s (seqZ a n).
Proof. done. Qed.

Lemma for_range_0 {S} a n (f : S -> Z -> S) s : n <= 0 -> for_range a n f s = s.
Proof. intros. unfold for_range. by rewrite seqZ_nil by lia. Qed.

Lemma seqZ_1 a : seqZ a 1 = [a].
Proof. by rewrite seqZ_cons, seqZ_nil by lia. Qed.

Lemma for_range_succ {S} a n (f : S -> Z -> S) s :
  0 <= n -> for_range a (n + 1) f s = f (for_range a n f s) (a + n).
Proof.
  intros Hn. unfold for_range. rewrite seqZ_app by lia.
  by rewrite foldl_app.
Qed.

Lemma for_range_ext {S} a n (f g : S -> Z -> S) s :
  (forall t i, a <= i < a + n -> f t i = g t i) -> for_range a n f s = for_range a n g s.
Proof.
  intros H. unfold for_range.
  assert (forall i, i ∈ seqZ a n -> a <= i < a + n) as Hin by (intros i; by rewrite elem_of_seqZ).
  revert s Hin. induction (seqZ a n) as [|i l IH]; intros s Hin; [done|].
  cbn [foldl]. rewrite H by (apply Hin; left). apply IH. intros j Hj. apply Hin. by right.
Qed.

(** Invariant rule for counted loops. *)
Lemma for_range_ind {S} (P : Z -> S -> Prop) a n (f : S -> Z -> S) s :
  0 <= n -> P 0 s ->
  (forall i t, 0 <= i < n -> P i t -> P (i + 1) (f t (a + i))) ->
  P n (for_range a n f s).
Proof.
  intros Hn H0 Hstep.
  assert (forall k, 0 <= k -> k <= n -> P k (for_range a k f s)) as H.
  { intros k Hk. pattern k. apply natlike_ind; [..|done].
    - intros _. by rewrite for_range_0 by lia.
    - intros j Hj IH Hle. unfold Z.succ. rewrite for_range_succ by lia.
      apply Hstep; [lia|]. apply IH. lia. }
  apply H; lia.
Qed.

(** First index of a range that passes a test: the [for] loops that return. *)
Fixpoint find_range (p : Z -> bool) (a : Z) (n : nat) : option Z :=
  match n with
  | O => None
  | S n' => if p a then Some a else find_range p (a + 1) n'
  end.

Lemma find_range_Some p a n i :
  find_range p a n = Some i ->
  a <= i < a + Z.of_nat n /\ p i = true /\ forall j, a <= j < i -> p j = false.
Proof.
  revert a. induction n as [|n IH]; intros a; simpl; [done|].
  destruct (p a) eqn:Hp; intros H.
  - injection H as <-. repeat split; [lia..|done|]. intros. lia.
  - apply IH in H as (H1 & H2 & H3). repeat split; [lia..|done|].
    intros j Hj. destruct (decide (j = a)) as [->|]; [done|]. apply H3. lia.
Qed.

Lemma find_range_None p a n :
  find_range p a n = None <-> forall j, a <= j < a + Z.of_nat n -> p j = false.
Proof.
  revert a. induction n as [|n IH]; intros a; simpl.
  - split; [intros; lia|done].
  - destruct (p a) eqn:Hp.
    + split; [done|]. intros H. rewrite H in Hp; [done|lia].
    + rewrite IH. split; intros H j Hj.
      * destruct (decide (j = a)) as [->|]; [done|]. apply H. lia.
      * apply H. lia.
Qed.

(** The least index that passes the test, characterised. *)
Lemma find_range_least p a n i :
  a <= i < a + Z.of_nat n -> p i = true ->
  (forall j, a <= j < i -> p j = false) -> find_range p a n = Some i.
Proof.
  intros Hi Hp Hj. destruct (find_range p a n) as [k|] eqn:E.
  - apply find_range_Some in E as (H1 & H2 & H3). f_equal.
    destruct (Z.lt_trichotomy k i) as [Hlt|[->|Hlt]]; [|done|].
    + rewrite Hj in H2; [done|lia].
    + rewrite H3 in Hp; [done|lia].
  - rewrite (proj1 (find_range_None p a n)) in Hp; done.
Qed.

Lemma find_range_ext p q a n :
  (forall j, a <= j < a + Z.of_nat n -> p j = q j) -> find_range p a n = find_range q a n.
Proof.
  revert a. induction n as [|n IH]; intros a H; simpl; [done|].
  rewrite H by lia. rewrite IH by (intros; apply H; lia). done.
Qed.

Lemma find_range_app p a n1 n2 :
  find_range p a (n1 + n2) =
    match find_range p a n1 with
    | Some i => Some i
    | None => find_range p (a + Z.of_nat n1) n2
    end.
Proof.
  revert a. induction n1 as [|n1 IH]; intros a; simpl; [by rewrite Z.add_0_r|].
  destruct (p a); [done|]. rewrite IH. destruct (find_range p (a + 1) n1); [done|].
  f_equal. lia.
Qed.

Lemma find_range_shift p a b n :
  find_range p (a + b) n = Z.add a <$> find_range (fun j => p (a + j)) b n.
Proof.
  revert b. induction n as [|n IH]; intros b; simpl; [done|].
  destruct (p (a + b)); [done|]. rewrite <- IH. f_equal. lia.
Qed.

#[global] Arguments find_range : simpl never.

(** ** Sets of frames *)

Lemma diff_singleton_sub (F : gset Z) x : F ∖ {[x]} ⊆ F.
Proof. set_solver. Qed.

Lemma diff_singleton_size (F : gset Z) x : x ∈ F -> size F = S (size (F ∖ {[x]})).
Proof.
  intros Hx. rewrite size_difference, size_singleton by set_solver.
  assert (size F <> 0%nat) by (intros ?%size_empty_inv; set_solver). lia.
Qed.
