(* ===== verification/Ring.v ===== *)
(** Rings that keep the last entries: a buffer of [N] elements, the index that is
    written next, and a count that stops at [N].  The kernel log and the trace of the
    debugging utilities are such rings; [ring_entries] is their abstract state. *)

From S2P Require Import Prelude.
Local Open Scope Z_scope.

(** The last [n] elements. *)
Definition last_n {A} (n : nat) (l : list A) : list A := drop (length l - n) l.

Lemma last_n_all {A} n (l : list A) : (length l <= n)%nat -> last_n n l = l.
Proof. intros H. unfold last_n. by replace (length l - n)%nat with 0%nat by lia. Qed.

Lemma take_insert_end {A} (l : list A) i x : (i < length l)%nat -> take (S i) (<[i := x]> l) = take i l ++ [x].
Proof.
  intros Hi. rewrite (take_S_r _ _ x) by (by rewrite list_lookup_insert_eq).
  f_equal. by apply take_insert_ge.
Qed.

Lemma last_n_app {A} n (l1 l2 : list A) : last_n n (last_n n l1 ++ l2) = last_n n (l1 ++ l2).
Proof.
  unfold last_n. rewrite !length_app, length_drop.
  destruct (decide (length l1 <= n)%nat).
  { replace (length l1 - n)%nat with 0%nat by lia. rewrite drop_0. f_equal. lia. }
  replace (length l1 - (length l1 - n))%nat with n by lia.
  replace (length l1 + length l2 - n)%nat with (length l1 - n + (n + length l2 - n))%nat by lia.
  rewrite <- drop_drop, (drop_app_le l1) by lia. done.
Qed.

Lemma length_last_n {A} n (l : list A) : length (last_n n l) = (length l `min` n)%nat.
Proof. unfold last_n. rewrite length_drop. lia. Qed.

Section ring.
Context {A : Type} (N : Z).
Implicit Types (buf : list A) (head count : Z).

(** The entries, oldest first. *)
Definition ring_entries buf head count : list A :=
  if count <? N then take (Z.to_nat count) buf else drop (Z.to_nat head) buf ++ take (Z.to_nat head) buf.

Record ring_wf buf head count : Prop := {
  rw_length : length buf = Z.to_nat N;
  rw_head : 0 <= head < N;
  rw_count : 0 <= count <= N;
  rw_first : count < N -> head = count
}.

Lemma length_ring buf head count : ring_wf buf head count -> length (ring_entries buf head count) = Z.to_nat count.
Proof.
  intros [Hl Hh Hc Hf]. unfold ring_entries. zcases; [rewrite length_take; lia|].
  rewrite length_app, length_drop, length_take. lia.
Qed.

(** The index of entry [i] of a ring: its position, or the position after the head. *)
Lemma ring_lookup buf head count i : ring_wf buf head count -> 0 <= i < count ->
  ring_entries buf head count !! Z.to_nat i = buf !! Z.to_nat (if count <? N then i else (head + i) mod N).
Proof.
  intros [Hl Hh Hc Hf] Hi. unfold ring_entries. destruct (Z.ltb_spec count N); [by rewrite lookup_take_lt by lia|].
  assert (count = N) as -> by lia. destruct (Z.ltb_spec (head + i) N).
  - rewrite Z.mod_small by lia. rewrite lookup_app_l by (rewrite length_drop; lia). rewrite lookup_drop. f_equal. lia.
  - replace ((head + i) mod N) with (head + i - N) by (rewrite <- (Z_mod_plus_full _ (-1)), Z.mod_small; lia).
    rewrite lookup_app_r by (rewrite length_drop; lia). rewrite length_drop, lookup_take_lt by lia. f_equal. lia.
Qed.

(** Writing at the head adds an entry, and drops the oldest of a full ring. *)
Lemma ring_push buf head count e : 0 < N < 4294967295 -> ring_wf buf head count ->
  let buf' := <[Z.to_nat head := e]> buf in
  let head' := u32 (head + 1) mod N in
  let count' := if count <? N then u32 (count + 1) else count in
  ring_wf buf' head' count' /\ ring_entries buf' head' count' = last_n (Z.to_nat N) (ring_entries buf head count ++ [e]).
Proof.
  intros HN Hw. pose proof (length_ring _ _ _ Hw) as He. destruct Hw as [Hl Hh Hc Hf]. cbv zeta.
  rewrite !u32_small by lia. pose proof (Z.mod_pos_bound (head + 1) N ltac:(lia)) as Hm.
  assert (Hwrap : head + 1 = N /\ (head + 1) mod N = 0 \/ head + 1 < N /\ (head + 1) mod N = head + 1).
  { destruct (Z.eq_dec (head + 1) N) as [E|]; [left|right]; (split; [lia|]); [rewrite E; apply Z_mod_same_full|apply Z.mod_small; lia]. }
  unfold ring_entries in *. destruct (Z.ltb_spec count N) as [Hn|Hn].
  - assert (head = count) as -> by auto. split; [split; [by rewrite length_insert|lia..]|].
    rewrite last_n_all by (rewrite length_app, He; simpl; lia).
    rewrite <- take_insert_end by lia. replace (S (Z.to_nat count)) with (Z.to_nat (count + 1)) by lia.
    destruct (Z.ltb_spec (count + 1) N); [done|]. destruct Hwrap as [[E ->]|[? _]]; [|lia].
    rewrite drop_0, take_0, app_nil_r. symmetry. apply take_ge. rewrite length_insert. lia.
  - assert (count = N) as -> by lia. split; [split; [by rewrite length_insert|lia..]|].
    destruct (Z.ltb_spec N N); [lia|]. unfold last_n. rewrite length_app, He.
    replace (Z.to_nat N + length [e] - Z.to_nat N)%nat with 1%nat by (cbn [length]; lia).
    destruct (lookup_lt_is_Some_2 buf (Z.to_nat head)) as [x Hx]; [lia|].
    rewrite (drop_S _ _ _ Hx). cbn [app drop]. rewrite drop_0, <- app_assoc, <- take_insert_end by lia.
    rewrite <- (drop_insert_lt buf (S (Z.to_nat head)) (Z.to_nat head) e) by lia. destruct Hwrap as [[E ->]|[E ->]].
    + change (Z.to_nat 0) with 0%nat. rewrite drop_0, take_0, app_nil_r. rewrite drop_ge, take_ge by (rewrite length_insert; lia). done.
    + by replace (Z.to_nat (head + 1)) with (S (Z.to_nat head)) by lia.
Qed.
End ring.
