(* ===== verification/Mem.v ===== *)
(** Byte-addressed memory.

    The kernel runs in one flat 32-bit physical address space and casts
    integers to pointers freely (include/cast.h), so memory is a map from
    addresses to bytes, and a [uint32_t] access is four byte accesses in
    little-endian order.  A cell that the map does not hold reads as 0: every
    content of a finite RAM is the content of some map.  Two maps with the same
    bytes are the same memory ([mem_eq]), and every access respects that. *)

From S2P Require Import Prelude.
Local Open Scope Z_scope.

Abbreviation mem := (gmap Z Z).

Definition load8 (m : mem) (a : Z) : Z := u8 (default 0 (m !! a)).
Definition store8 (m : mem) (a v : Z) : mem := <[a := u8 v]> m.

Definition load32 (m : mem) (a : Z) : Z :=
  load8 m a + 256 * load8 m (a + 1) + 65536 * load8 m (a + 2)
  + 16777216 * load8 m (a + 3).

Definition store32 (m : mem) (a v : Z) : mem :=
  store8 (store8 (store8 (store8 m a v) (a + 1) (v / 256)) (a + 2) (v / 65536))
    (a + 3) (v / 16777216).

(** Same bytes everywhere. *)
Definition mem_eq (m m' : mem) : Prop := forall a, load8 m a = load8 m' a.

(** [m'] differs from [m] at most on the [len] bytes from [lo]. *)
Definition frame (lo len : Z) (m m' : mem) : Prop :=
  forall a, ~ (lo <= a < lo + len) -> load8 m' a = load8 m a.

(** [m] and [m'] hold the same bytes on the [len] bytes from [lo]. *)
Definition same_range (lo len : Z) (m m' : mem) : Prop :=
  forall a, lo <= a < lo + len -> load8 m' a = load8 m a.

Infix "≅" := mem_eq (at level 70) : kernel_scope.
Local Open Scope kernel_scope.

(** ** Bytes *)

Lemma load8_range m a : 0 <= load8 m a < 256.
Proof. apply u8_range. Qed.

Lemma load8_store8 m a v b :
  load8 (store8 m a v) b = if decide (a = b) then u8 v else load8 m b.
Proof.
  unfold load8, store8. rewrite lookup_insert.
  case_decide; simpl; [apply u8_idemp|done].
Qed.

Lemma load8_store8_eq m a v : load8 (store8 m a v) a = u8 v.
Proof. rewrite load8_store8. by case_decide. Qed.

Lemma load8_store8_ne m a v b : a <> b -> load8 (store8 m a v) b = load8 m b.
Proof. intros. rewrite load8_store8. by case_decide. Qed.

Lemma load8_store32 m a v b :
  load8 (store32 m a v) b =
    if decide (b = a) then u8 v
    else if decide (b = a + 1) then u8 (v / 256)
    else if decide (b = a + 2) then u8 (v / 65536)
    else if decide (b = a + 3) then u8 (v / 16777216)
    else load8 m b.
Proof. unfold store32. rewrite !load8_store8. repeat case_decide; try lia; done. Qed.

Lemma load8_store32_ne m a v b :
  b < a \/ a + 4 <= b -> load8 (store32 m a v) b = load8 m b.
Proof. intros. rewrite load8_store32. repeat case_decide; lia. Qed.

(** ** Words *)

Lemma load32_range m a : 0 <= load32 m a < 4294967296.
Proof.
  unfold load32.
  pose proof (load8_range m a). pose proof (load8_range m (a + 1)).
  pose proof (load8_range m (a + 2)). pose proof (load8_range m (a + 3)). lia.
Qed.

#[export] Hint Resolve load8_range load32_range : machr.

Lemma bytes_of_u32 v :
  u8 v + 256 * u8 (v / 256) + 65536 * u8 (v / 65536) + 16777216 * u8 (v / 16777216)
  = u32 v.
Proof.
  unfold u8, u32.
  replace (v / 65536) with (v / 256 / 256) by (rewrite Z.div_div; [done|lia..]).
  replace (v / 16777216) with (v / 256 / 256 / 256)
    by (rewrite !Z.div_div; [done|lia..]).
  zdm.
Qed.

Lemma load32_store32_eq m a v : load32 (store32 m a v) a = u32 v.
Proof.
  unfold load32. rewrite !load8_store32.
  repeat (case_decide; try lia). apply bytes_of_u32.
Qed.

Lemma load32_same m m' a : same_range a 4 m m' -> load32 m' a = load32 m a.
Proof. intros H. unfold load32. rewrite !H by lia. done. Qed.

Lemma load32_store32_ne m a v b :
  b + 4 <= a \/ a + 4 <= b -> load32 (store32 m a v) b = load32 m b.
Proof. intros. apply load32_same. intros x Hx. apply load8_store32_ne. lia. Qed.

Lemma load32_store8_ne m a v b :
  a < b \/ b + 4 <= a -> load32 (store8 m a v) b = load32 m b.
Proof. intros. apply load32_same. intros x Hx. apply load8_store8_ne. lia. Qed.

Create Rewrite HintDb memory.
#[export] Hint Rewrite load8_store8_eq load32_store32_eq : memory.
#[export] Hint Rewrite load8_store8_ne load8_store32_ne load32_store32_ne
  load32_store8_ne using lia : memory.

(** Normalise reads through writes at provably equal or disjoint addresses. *)
Ltac memsimp := autorewrite with memory mach.

(** ** Frames *)

Lemma frame_refl lo len m : frame lo len m m.
Proof. done. Qed.

Lemma frame_trans lo len m1 m2 m3 :
  frame lo len m1 m2 -> frame lo len m2 m3 -> frame lo len m1 m3.
Proof. intros H1 H2 a Ha. by rewrite H2, H1. Qed.

Lemma frame_weaken lo len lo' len' m m' :
  frame lo len m m' -> lo' <= lo -> lo + len <= lo' + len' -> frame lo' len' m m'.
Proof. intros H ?? a Ha. apply H. lia. Qed.

Lemma frame_store8 lo len m a v :
  lo <= a < lo + len -> frame lo len m (store8 m a v).
Proof. intros H b Hb. apply load8_store8_ne. lia. Qed.

Lemma frame_store32 lo len m a v :
  lo <= a -> a + 4 <= lo + len -> frame lo len m (store32 m a v).
Proof. intros ?? b Hb. apply load8_store32_ne. lia. Qed.

Lemma frame_load32 lo len m m' a :
  frame lo len m m' -> a + 4 <= lo \/ lo + len <= a -> load32 m' a = load32 m a.
Proof. intros H Ha. apply load32_same. intros b Hb. apply H. lia. Qed.

Lemma frame_same lo len m m' lo' len' :
  frame lo len m m' -> lo' + len' <= lo \/ lo + len <= lo' -> same_range lo' len' m m'.
Proof. intros H Ha b Hb. apply H. lia. Qed.

Lemma same_range_refl lo len m : same_range lo len m m.
Proof. done. Qed.

Lemma same_range_trans lo len m1 m2 m3 :
  same_range lo len m1 m2 -> same_range lo len m2 m3 -> same_range lo len m1 m3.
Proof. intros H1 H2 a Ha. by rewrite H2, H1. Qed.

Lemma same_range_sub lo len lo' len' m m' :
  same_range lo len m m' -> lo <= lo' -> lo' + len' <= lo + len ->
  same_range lo' len' m m'.
Proof. intros H ?? a Ha. apply H. lia. Qed.

#[export] Hint Resolve frame_refl same_range_refl : machr.

(** ** Memory equivalence *)

#[export] Instance mem_eq_equivalence : Equivalence mem_eq.
Proof.
  split.
  - done.
  - intros m m' H a. by rewrite H.
  - intros m1 m2 m3 H1 H2 a. by rewrite H1, H2.
Qed.

#[export] Instance load8_proper : Proper (mem_eq ==> eq ==> eq) load8.
Proof. intros m m' H a ? <-. apply H. Qed.

#[export] Instance load32_proper : Proper (mem_eq ==> eq ==> eq) load32.
Proof. intros m m' H a ? <-. unfold load32. by rewrite !H. Qed.

#[export] Instance store8_proper : Proper (mem_eq ==> eq ==> eq ==> mem_eq) store8.
Proof.
  intros m m' H a ? <- v ? <- b. rewrite !load8_store8. by case_decide.
Qed.

#[export] Instance store32_proper : Proper (mem_eq ==> eq ==> eq ==> mem_eq) store32.
Proof. intros m m' H a ? <- v ? <-. unfold store32. by rewrite H. Qed.

#[export] Instance frame_proper lo len :
  Proper (mem_eq ==> mem_eq ==> iff) (frame lo len).
Proof.
  intros m1 m1' H1 m2 m2' H2. unfold frame.
  split; intros H a Ha; specialize (H a Ha); [by rewrite <- H1, <- H2|by rewrite H1, H2].
Qed.

(** Storing the word that is already there changes nothing. *)
Lemma store32_id m a : store32 m a (load32 m a) ≅ m.
Proof.
  intros b. rewrite load8_store32. unfold load32.
  pose proof (load8_range m a). pose proof (load8_range m (a + 1)).
  pose proof (load8_range m (a + 2)). pose proof (load8_range m (a + 3)).
  repeat case_decide; subst; try done; unfold u8; zdm.
Qed.

Lemma store32_store32 m a v w : store32 (store32 m a v) a w ≅ store32 m a w.
Proof.
  intros b. rewrite !load8_store32. repeat case_decide; done.
Qed.

(** Two memories that agree outside a word and on the word are equal. *)
Lemma mem_eq_word m m' a :
  frame a 4 m m' -> load32 m' a = load32 m a -> m' ≅ m.
Proof.
  intros Hf Hw b. destruct (decide (a <= b < a + 4)) as [Hb|Hb]; [|by apply Hf].
  unfold load32 in Hw.
  pose proof (load8_range m a). pose proof (load8_range m (a + 1)).
  pose proof (load8_range m (a + 2)). pose proof (load8_range m (a + 3)).
  pose proof (load8_range m' a). pose proof (load8_range m' (a + 1)).
  pose proof (load8_range m' (a + 2)). pose proof (load8_range m' (a + 3)).
  assert (b = a \/ b = a + 1 \/ b = a + 2 \/ b = a + 3) as [-> | [-> | [-> | ->]]]
    by lia; lia.
Qed.
