(* ===== verification/CString.v ===== *)
(** kernel/lib/string.c: the kernel's memory and string routines.

    Every routine works on [mem]; a pointer is an address.  Loops bounded by a
    length argument recurse on it; loops that run to a terminator take a fuel
    and return [None] when it runs out, and the theorems give a fuel that is
    enough for every terminated string ([cstr]). *)

From S2P Require Import Prelude Mem.
Local Open Scope Z_scope.
Local Open Scope kernel_scope.

(** ** Definitions *)

Definition memset (m : mem) (dest val len : Z) : mem :=
  for_range 0 len (fun m i => store8 m (dest + i) val) m.

Definition memcpy (m : mem) (dest src len : Z) : mem :=
  for_range 0 len (fun m i => store8 m (dest + i) (load8 m (src + i))) m.

Fixpoint memcmp_loop (m : mem) (p1 p2 : Z) (len : nat) : Z :=
  match len with
  | O => 0
  | S len' =>
      if negb (load8 m p1 =? load8 m p2) then load8 m p1 - load8 m p2
      else memcmp_loop m (p1 + 1) (p2 + 1) len'
  end.

Definition memcmp (m : mem) (s1 s2 len : Z) : Z := memcmp_loop m s1 s2 (Z.to_nat len).

Fixpoint strlen_loop (fuel : nat) (m : mem) (str len : Z) : option Z :=
  match fuel with
  | O => None
  | S f =>
      if load8 m (str + len) =? 0 then Some len
      else strlen_loop f m str (u32 (len + 1))
  end.

Definition strlen (fuel : nat) (m : mem) (str : Z) : option Z := strlen_loop fuel m str 0.

Fixpoint strcmp (fuel : nat) (m : mem) (s1 s2 : Z) : option Z :=
  match fuel with
  | O => None
  | S f =>
      if negb (load8 m s1 =? 0) && (load8 m s1 =? load8 m s2)
      then strcmp f m (s1 + 1) (s2 + 1)
      else Some (load8 m s1 - load8 m s2)
  end.

Fixpoint strncmp (m : mem) (s1 s2 : Z) (n : nat) : Z :=
  match n with
  | O => 0
  | S n' =>
      if negb (load8 m s1 =? 0) && (load8 m s1 =? load8 m s2)
      then strncmp m (s1 + 1) (s2 + 1) n'
      else load8 m s1 - load8 m s2
  end.

(** [while (( *d++ = *src++ )) {}] *)
Fixpoint strcpy (fuel : nat) (m : mem) (d src : Z) : option mem :=
  match fuel with
  | O => None
  | S f =>
      let c := load8 m src in
      let m' := store8 m d c in
      if c =? 0 then Some m' else strcpy f m' (d + 1) (src + 1)
  end.

(** [while (n && ( *d++ = *src++ )) n--;]: the memory, [d] and [n] it leaves. *)
Fixpoint copy_upto (m : mem) (d src : Z) (n : nat) : mem * Z * nat :=
  match n with
  | O => (m, d, O)
  | S n' =>
      let c := load8 m src in
      let m' := store8 m d c in
      if c =? 0 then (m', d + 1, S n') else copy_upto m' (d + 1) (src + 1) n'
  end.

Definition strncpy (m : mem) (dest src : Z) (n : nat) : mem :=
  let '(m1, d, n1) := copy_upto m dest src n in
  memset m1 d 0 (Z.of_nat n1).

(** [while ( *d) d++;] *)
Fixpoint find_end (fuel : nat) (m : mem) (d : Z) : option Z :=
  match fuel with
  | O => None
  | S f => if load8 m d =? 0 then Some d else find_end f m (d + 1)
  end.

Definition strcat (fuel : nat) (m : mem) (dest src : Z) : option mem :=
  match find_end fuel m dest with
  | None => None
  | Some d => strcpy fuel m d src
  end.

Definition strncat (fuel : nat) (m : mem) (dest src : Z) (n : nat) : option mem :=
  match find_end fuel m dest with
  | None => None
  | Some d =>
      let '(m1, d1, n1) := copy_upto m d src n in
      Some (if (n1 =? 0)%nat then store8 m1 d1 0 else m1)
  end.

(** The digits [int_to_str_pad] leaves in [temp], least significant first. *)
Fixpoint dec_digits (room : nat) (value : Z) : list Z :=
  match room with
  | O => []
  | S r => if 0 <? value then (48 + Z.rem value 10) :: dec_digits r (Z.quot value 10) else []
  end.

Definition int_to_str_pad (m : mem) (value str width : Z) : mem :=
  let temp := if value =? 0 then [48] else dec_digits 11 value in
  let temp := temp ++ replicate (Z.to_nat (Z.min width 11 - Z.of_nat (length temp))) 48 in
  let i := Z.of_nat (length temp) in
  let m1 := for_range 0 i
    (fun m j => store8 m (str + j) (temp !!! Z.to_nat (i - j - 1))) m in
  store8 m1 (str + i) 0.

Definition hex_chars : list Z :=
  [48; 49; 50; 51; 52; 53; 54; 55; 56; 57; 65; 66; 67; 68; 69; 70].

(** [for (i = width - 1; i >= 0; i--)]: [k] iterations are left, so [i = k - 1]. *)
Fixpoint hex_loop (k : nat) (m : mem) (value str : Z) : mem :=
  match k with
  | O => m
  | S k' =>
      hex_loop k' (store8 m (str + Z.of_nat k') (hex_chars !!! Z.to_nat (Z.land value 15)))
        (Z.shiftr value 4) str
  end.

Definition int_to_hex_pad (m : mem) (value str width : Z) : mem :=
  store8 (hex_loop (Z.to_nat width) m value str) (str + width) 0.

(** The 36 entries of [digits], without the terminator that C adds: reading the
    terminator, or any entry outside the array, is no digit. *)
Definition itoa_digit (i : Z) : option Z :=
  if (0 <=? i) && (i <? 10) then Some (48 + i)
  else if (10 <=? i) && (i <? 36) then Some (55 + i)
  else None.

(** The [do ... while (value)] loop. [None]: an index outside [digits]. *)
Fixpoint itoa_loop (fuel : nat) (m : mem) (ptr value base : Z) : option (mem * Z) :=
  match fuel with
  | O => None
  | S f =>
      let tmp_value := value in
      let value := Z.quot value base in
      match itoa_digit (tmp_value - value * base) with
      | None => None
      | Some c =>
          let m' := store8 m ptr c in
          if value =? 0 then Some (m', ptr + 1) else itoa_loop f m' (ptr + 1) value base
      end
  end.

(** [while (ptr1 < ptr)] swap and move inwards. *)
Fixpoint swap_loop (fuel : nat) (m : mem) (ptr1 ptr : Z) : mem :=
  match fuel with
  | O => m
  | S f =>
      if ptr1 <? ptr then
        let tmp_char := load8 m ptr in
        let m1 := store8 m ptr (load8 m ptr1) in
        let m2 := store8 m1 ptr1 tmp_char in
        swap_loop f m2 (ptr1 + 1) (ptr - 1)
      else m
  end.

(** [None]: the negation of INT_MIN or an index outside [digits] (undefined in C). *)
Definition itoa (m : mem) (value str base : Z) : option mem :=
  if (base <? 2) || (36 <? base) then Some (store8 m str 0)
  else
    let is_negative := (value <? 0) && (base =? 10) in
    if is_negative && (value =? -2147483648) then None else
    let value := if is_negative then - value else value in
    match itoa_loop 32 m str value base with
    | None => None
    | Some (m1, ptr) =>
        let '(m2, ptr) := if is_negative then (store8 m1 ptr 45, ptr + 1) else (m1, ptr) in
        let m3 := store8 m2 ptr 0 in
        Some (swap_loop 33 m3 str (ptr - 1))
    end.

(** ** Terminated strings *)

(** The bytes at [a] are those of [s], none of them 0, and then a 0. *)
Fixpoint cstr (m : mem) (a : Z) (s : list Z) : Prop :=
  match s with
  | [] => load8 m a = 0
  | c :: s' => load8 m a = c /\ c <> 0 /\ cstr m (a + 1) s'
  end.

(** The bytes at [a] are those of [l]. *)
Fixpoint bytes_at (m : mem) (a : Z) (l : list Z) : Prop :=
  match l with
  | [] => True
  | c :: l' => load8 m a = c /\ bytes_at m (a + 1) l'
  end.

(** The value of a string of base-[base] digits, most significant first, after
    an optional minus sign. *)
Definition digit_value (c : Z) : Z := if c <? 65 then c - 48 else c - 55.
Definition digits_value (base : Z) (s : list Z) : Z :=
  foldl (fun v c => v * base + digit_value c) 0 s.
Definition parse_int (base : Z) (s : list Z) : Z :=
  match s with
  | 45 :: s' => - digits_value base s'
  | _ => digits_value base s
  end.

(** Comparison of terminated strings as lists of characters. *)
Fixpoint str_compare (s t : list Z) : Z :=
  match s, t with
  | [], [] => 0
  | c :: _, [] => c
  | [], d :: _ => - d
  | c :: s', d :: t' => if c =? d then str_compare s' t' else c - d
  end.

(** Consecutive byte stores. *)
Fixpoint write_bytes (m : mem) (a : Z) (l : list Z) : mem :=
  match l with
  | [] => m
  | c :: l' => write_bytes (store8 m a c) (a + 1) l'
  end.

(** Two byte ranges do not meet. *)
Definition disjoint (a la b lb : Z) : Prop := a + la <= b \/ b + lb <= a.

(** ** Block operations *)

Lemma load8_memset m d v len b :
  0 <= len ->
  load8 (memset m d v len) b = if in_range d len b then u8 v else load8 m b.
Proof.
  intros Hlen. unfold memset.
  apply (for_range_ind (fun i t => load8 t b = if in_range d i b then u8 v else load8 m b));
    [done|..].
  - by rcases.
  - intros i t Hi IH. rewrite load8_store8, IH. rcases; done.
Qed.

Lemma frame_memset m d v len : 0 <= len -> frame d len m (memset m d v len).
Proof. intros ? b Hb. rewrite load8_memset by lia. by rcases. Qed.

Lemma load32_memset0 m d len a :
  0 <= len -> d <= a -> a + 4 <= d + len -> load32 (memset m d 0 len) a = 0.
Proof.
  intros. unfold load32. rewrite !load8_memset by lia. by rcases.
Qed.

(** A forward copy reads unmodified source bytes when the destination starts
    at or below the source, or above its end. *)
Lemma load8_memcpy m d s len b :
  0 <= len -> d <= s \/ s + len <= d ->
  load8 (memcpy m d s len) b =
    if in_range d len b then load8 m (s + (b - d)) else load8 m b.
Proof.
  intros Hlen Hds. unfold memcpy.
  apply (for_range_ind (fun i t => forall b, load8 t b =
    if in_range d i b then load8 m (s + (b - d)) else load8 m b)); [done|..].
  - intros x. by rcases.
  - intros i t Hi IH x. rewrite load8_store8, !IH.
    rcases; subst; try done; rewrite u8_small by apply load8_range; f_equal; lia.
Qed.

Lemma frame_memcpy m d s len : 0 <= len -> frame d len m (memcpy m d s len).
Proof.
  intros Hlen. unfold memcpy.
  apply (for_range_ind (fun i t => frame d len m t)); [done|done|].
  intros i t Hi IH. eapply frame_trans; [exact IH|]. apply frame_store8. lia.
Qed.

Lemma load32_memcpy m d s len a :
  0 <= len -> d <= s \/ s + len <= d -> d <= a -> a + 4 <= d + len ->
  load32 (memcpy m d s len) a = load32 m (s + (a - d)).
Proof.
  intros. unfold load32. rewrite !load8_memcpy by lia.
  rcases. repeat (lia || f_equal).
Qed.

Lemma memcmp_loop_0 m p1 p2 n :
  memcmp_loop m p1 p2 n = 0 <->
  forall i, 0 <= i < Z.of_nat n -> load8 m (p1 + i) = load8 m (p2 + i).
Proof.
  revert p1 p2. induction n as [|n IH]; intros p1 p2; simpl.
  - split; [intros; lia|done].
  - destruct (Z.eqb_spec (load8 m p1) (load8 m p2)) as [E|E]; simpl.
    + rewrite IH. split; intros H i Hi.
      * destruct (decide (i = 0)) as [->|]; [by rewrite !Z.add_0_r|].
        assert (load8 m (p1 + 1 + (i - 1)) = load8 m (p2 + 1 + (i - 1))) by (apply H; lia).
        replace (p1 + i) with (p1 + 1 + (i - 1)) by lia.
        by replace (p2 + i) with (p2 + 1 + (i - 1)) by lia.
      * assert (load8 m (p1 + (i + 1)) = load8 m (p2 + (i + 1))) by (apply H; lia).
        replace (p1 + 1 + i) with (p1 + (i + 1)) by lia.
        by replace (p2 + 1 + i) with (p2 + (i + 1)) by lia.
    + split; [lia|]. intros H.
      assert (load8 m (p1 + 0) = load8 m (p2 + 0)) by (apply H; lia).
      rewrite !Z.add_0_r in *. lia.
Qed.

(** ** Terminated strings *)

Lemma cstr_char m a s c : cstr m a s -> c ∈ s -> 0 < c < 256.
Proof.
  revert a. induction s as [|d s IH]; intros a; simpl.
  - intros _ H. by apply not_elem_of_nil in H.
  - intros (H1 & H2 & H3) [->|H]%elem_of_cons.
    + pose proof (load8_range m a). lia.
    + by eapply IH.
Qed.

Lemma cstr_same m m' a s :
  cstr m a s -> same_range a (Z.of_nat (length s) + 1) m m' -> cstr m' a s.
Proof.
  revert a. induction s as [|c s IH]; intros a; simpl; intros H Hs.
  - by rewrite Hs by lia.
  - destruct H as (H1 & H2 & H3). rewrite Hs by lia. repeat split; [done..|].
    apply IH; [done|]. eapply same_range_sub; [exact Hs|lia..].
Qed.

Lemma cstr_inj m a s t : cstr m a s -> cstr m a t -> s = t.
Proof.
  revert a t. induction s as [|c s IH]; intros a [|d t]; simpl; try done.
  - intros H1 (H2 & H3 & _). congruence.
  - intros (H2 & H3 & _) H1. congruence.
  - intros (H1 & H2 & H3) (H4 & H5 & H6). f_equal; [congruence|]. by eapply IH.
Qed.

Lemma cstr_bytes m a s :
  (forall c, c ∈ s -> c <> 0) ->
  cstr m a s <-> bytes_at m a (s ++ [0]).
Proof.
  revert a. induction s as [|c s IH]; intros a Hs; simpl.
  - tauto.
  - rewrite IH by (intros d Hd; apply Hs; by right).
    pose proof (Hs c ltac:(by left)). tauto.
Qed.

Lemma length_str {A} (s : list A) : 0 <= Z.of_nat (length s).
Proof. lia. Qed.

Lemma load8_write_bytes m a l b :
  load8 (write_bytes m a l) b =
    if in_range a (Z.of_nat (length l)) b
    then u8 (l !!! Z.to_nat (b - a)) else load8 m b.
Proof.
  revert m a. induction l as [|c l IH]; intros m a; simpl.
  - by rcases.
  - rewrite IH, load8_store8.
    destruct (decide (a = b)) as [<-|Hab].
    + rcases. by rewrite Z.sub_diag.
    + rcases.
      replace (Z.to_nat (b - a)) with (S (Z.to_nat (b - (a + 1)))) by lia. done.
Qed.

Lemma frame_write_bytes m a l : frame a (Z.of_nat (length l)) m (write_bytes m a l).
Proof. intros b Hb. rewrite load8_write_bytes. by rcases. Qed.

Lemma bytes_at_lookup m a l :
  bytes_at m a l <-> forall i c, l !! i = Some c -> load8 m (a + Z.of_nat i) = c.
Proof.
  revert a. induction l as [|c l IH]; intros a; simpl.
  - split; [intros _ i c H; by rewrite lookup_nil in H|done].
  - rewrite IH. split.
    + intros [H1 H2] [|i] d; simpl; intros H; simplify_eq.
      * by rewrite Z.add_0_r.
      * replace (a + Z.of_nat (S i)) with (a + 1 + Z.of_nat i) by lia. by apply H2.
    + intros H. split; [rewrite <- (Z.add_0_r a); by apply (H O)|].
      intros i d Hi. replace (a + 1 + Z.of_nat i) with (a + Z.of_nat (S i)) by lia.
      by apply H.
Qed.

Lemma bytes_at_app m a l1 l2 :
  bytes_at m a (l1 ++ l2) <-> bytes_at m a l1 /\ bytes_at m (a + Z.of_nat (length l1)) l2.
Proof.
  revert a. induction l1 as [|c l IH]; intros a; simpl.
  - rewrite Z.add_0_r. tauto.
  - rewrite IH. replace (a + 1 + Z.of_nat (length l)) with (a + Z.of_nat (S (length l))) by lia.
    tauto.
Qed.

Lemma bytes_at_same m m' a l :
  bytes_at m a l -> same_range a (Z.of_nat (length l)) m m' -> bytes_at m' a l.
Proof.
  rewrite !bytes_at_lookup. intros H Hs i c Hi. rewrite Hs; [by apply H|].
  apply lookup_lt_Some in Hi. lia.
Qed.

Lemma write_bytes_at m a l :
  Forall (fun c => 0 <= c < 256) l -> bytes_at (write_bytes m a l) a l.
Proof.
  intros Hl. apply bytes_at_lookup. intros i c Hi.
  pose proof (lookup_lt_Some _ _ _ Hi). rewrite load8_write_bytes. rcases.
  replace (Z.to_nat (a + Z.of_nat i - a)) with i by lia.
  rewrite (list_lookup_total_correct _ _ _ Hi). apply u8_small.
  by apply (Forall_lookup_1 _ _ _ _ Hl Hi).
Qed.

Lemma write_bytes_app m a l1 l2 :
  write_bytes m a (l1 ++ l2) = write_bytes (write_bytes m a l1) (a + Z.of_nat (length l1)) l2.
Proof.
  revert m a. induction l1 as [|c l IH]; intros m a; simpl.
  - by rewrite Z.add_0_r.
  - rewrite IH. f_equal. lia.
Qed.

Lemma same_range_store8 m a v lo len :
  a < lo \/ lo + len <= a -> same_range lo len m (store8 m a v).
Proof. intros H b Hb. apply load8_store8_ne. lia. Qed.

Lemma cstr_store8 m a s d v :
  cstr m a s -> d < a \/ a + Z.of_nat (length s) + 1 <= d -> cstr (store8 m d v) a s.
Proof. intros H Hd. eapply cstr_same; [exact H|]. apply same_range_store8. lia. Qed.

Lemma write_bytes_cstr m a s :
  Forall (fun c => 0 < c < 256) s -> cstr (write_bytes m a (s ++ [0])) a s.
Proof.
  intros Hs. apply cstr_bytes.
  - intros c Hc. rewrite Forall_forall in Hs. specialize (Hs _ Hc). lia.
  - apply write_bytes_at. apply Forall_app. split; [|repeat constructor; lia].
    eapply Forall_impl; [exact Hs|]. simpl. lia.
Qed.

(** ** The routines on terminated strings *)

Lemma strlen_loop_cstr fuel m str s k :
  cstr m (str + k) s -> 0 <= k -> k + Z.of_nat (length s) < 4294967296 ->
  (length s < fuel)%nat -> strlen_loop fuel m str k = Some (k + Z.of_nat (length s)).
Proof.
  revert k fuel. induction s as [|c s IH]; intros k [|fuel] H Hk Hb Hf; simpl in *; try lia.
  - rewrite H. simpl. f_equal. lia.
  - destruct H as (H1 & H2 & H3). rewrite H1. zcases; [done|].
    rewrite u32_small by lia. rewrite IH by (try rewrite Z.add_assoc; done || lia).
    f_equal. lia.
Qed.

Lemma strlen_cstr fuel m str s :
  cstr m str s -> Z.of_nat (length s) < 4294967296 -> (length s < fuel)%nat ->
  strlen fuel m str = Some (Z.of_nat (length s)).
Proof.
  intros. unfold strlen. rewrite (strlen_loop_cstr _ _ _ s); [done|..]; try lia.
  by rewrite Z.add_0_r.
Qed.

Lemma strcmp_cstr fuel m a b s t :
  cstr m a s -> cstr m b t -> (length s < fuel)%nat ->
  strcmp fuel m a b = Some (str_compare s t).
Proof.
  revert a b t fuel. induction s as [|c s IH]; intros a b [|d t] [|fuel] Ha Hb Hf;
    simpl in *; try lia.
  - by rewrite Ha, Hb.
  - destruct Hb as (H1 & H2 & H3). by rewrite Ha, H1.
  - destruct Ha as (H1 & H2 & H3). rewrite H1, Hb. zcases; try done. f_equal. lia.
  - destruct Ha as (H1 & H2 & H3), Hb as (H4 & H5 & H6). rewrite H1, H4.
    zcases; try done. apply IH; [done..|lia].
Qed.

(** Comparison is 0 exactly on equal strings. *)
Lemma str_compare_0 s t :
  (forall c, c ∈ s -> c <> 0) -> (forall c, c ∈ t -> c <> 0) ->
  str_compare s t = 0 <-> s = t.
Proof.
  revert t. induction s as [|c s IH]; intros [|d t] Hs Ht; simpl; try done.
  - split; [|done]. pose proof (Ht d ltac:(by left)). lia.
  - split; [|done]. pose proof (Hs c ltac:(by left)). lia.
  - zcases.
    + subst. rewrite IH by (intros x Hx; first [apply Hs; by right|apply Ht; by right]).
      split; [by intros ->|by intros [= ->]].
    + split; [lia|intros [= -> _]; lia].
Qed.

Lemma str_compare_antisym s t : str_compare t s = - str_compare s t.
Proof.
  revert t. induction s as [|c s IH]; intros [|d t]; simpl; try lia.
  rewrite (Z.eqb_sym d c). zcases; [apply IH|lia].
Qed.

Lemma copy_upto_short m d src s n :
  cstr m src s -> disjoint d (Z.of_nat (length s) + 1) src (Z.of_nat (length s) + 1) ->
  (length s < n)%nat ->
  copy_upto m d src n =
    (write_bytes m d (s ++ [0]), d + Z.of_nat (length s) + 1, (n - length s)%nat).
Proof.
  revert m d src n. induction s as [|c s IH]; intros m d src [|n] H Hd Hn; simpl in *; try lia.
  - rewrite H. simpl. f_equal. f_equal. lia.
  - destruct H as (H1 & H2 & H3). rewrite H1. zcases; [done|].
    unfold disjoint in Hd. rewrite IH.
    + f_equal. f_equal. lia.
    + apply cstr_store8; [done|lia].
    + unfold disjoint. lia.
    + lia.
Qed.

Lemma copy_upto_long m d src s n :
  cstr m src s -> disjoint d (Z.of_nat n) src (Z.of_nat (length s) + 1) ->
  (n <= length s)%nat ->
  copy_upto m d src n = (write_bytes m d (take n s), d + Z.of_nat n, O).
Proof.
  revert m d src n. induction s as [|c s IH]; intros m d src [|n] H Hd Hn; simpl in *; try lia;
    try (by rewrite Z.add_0_r).
  destruct H as (H1 & H2 & H3). rewrite H1. zcases; [done|].
  unfold disjoint in Hd. rewrite IH.
  - f_equal. f_equal. lia.
  - apply cstr_store8; [done|lia].
  - unfold disjoint. lia.
  - lia.
Qed.

Lemma memset_write_bytes m d v n :
  memset m d v (Z.of_nat n) ≅ write_bytes m d (replicate n v).
Proof.
  intros b. rewrite load8_memset, load8_write_bytes, length_replicate by lia.
  rcases. rewrite lookup_total_replicate_2; [done|lia].
Qed.

#[export] Instance write_bytes_proper : Proper (mem_eq ==> eq ==> eq ==> mem_eq) write_bytes.
Proof.
  intros m m' H a ? <- l ? <-. revert m m' a H.
  induction l as [|c l IH]; intros m m' a H; simpl; [done|]. apply IH. by rewrite H.
Qed.

(** The bytes [strncpy] writes: a source shorter than [n] is followed by
    [n - length s + 1] zeros, one more than the standard's padding. *)
Definition strncpy_bytes (s : list Z) (n : nat) : list Z :=
  if decide (length s < n)%nat then s ++ replicate (S (n - length s)) 0 else take n s.

Lemma length_strncpy_bytes s n :
  length (strncpy_bytes s n) = (if decide (length s < n)%nat then S n else n).
Proof.
  unfold strncpy_bytes. case_decide.
  - rewrite length_app, length_replicate. lia.
  - rewrite length_take. lia.
Qed.

Lemma strncpy_exact m d src s n :
  cstr m src s -> disjoint d (Z.of_nat n + 1) src (Z.of_nat (length s) + 1) ->
  strncpy m d src n ≅ write_bytes m d (strncpy_bytes s n).
Proof.
  intros H Hd. unfold strncpy, strncpy_bytes, disjoint in *. case_decide.
  - rewrite (copy_upto_short _ _ _ s) by (done || unfold disjoint; lia).
    rewrite memset_write_bytes. simpl replicate.
    rewrite (cons_middle 0 s (replicate _ _)), app_assoc, (write_bytes_app _ _ (s ++ [0])), length_app. simpl.
    replace (d + Z.of_nat (length s) + 1) with (d + Z.of_nat (length s + 1)) by lia. reflexivity.
  - rewrite (copy_upto_long _ _ _ s) by (done || unfold disjoint; lia).
    intros b. rewrite load8_memset by lia. by rcases.
Qed.

(** The bytes of a bounded copy once its last byte is cleared. *)
Lemma strncpy_clear m d src s n :
  cstr m src s -> disjoint d (Z.of_nat n + 1) src (Z.of_nat (length s) + 1) ->
  store8 (strncpy m d src n) (d + Z.of_nat n) 0 ≅
    write_bytes m d (take n s ++ 0 :: replicate (n - length s) 0).
Proof.
  intros H Hd. rewrite strncpy_exact by done. unfold strncpy_bytes. case_decide.
  - rewrite take_ge by lia. intros b. rewrite load8_store8. case_decide; [|done].
    subst. rewrite load8_write_bytes, length_app, length_cons, length_replicate. rcases.
    replace (Z.to_nat _) with n by lia. rewrite lookup_total_app_r by lia.
    change (0 :: replicate (n - length s) 0) with (replicate (S (n - length s)) 0).
    by rewrite lookup_total_replicate_2 by lia.
  - replace (n - length s)%nat with O by lia. rewrite write_bytes_app, length_take.
    simpl. by rewrite Nat.min_l by lia.
Qed.

(** The idiom of every bounded copy in the kernel: [strncpy(dst, src, n)] and
    then [dst[n] = 0] leaves the first [n] characters, terminated, in the
    [n + 1] bytes of the buffer. *)
Lemma strncpy_terminated m d src s n :
  cstr m src s -> disjoint d (Z.of_nat n + 1) src (Z.of_nat (length s) + 1) ->
  let m' := store8 (strncpy m d src n) (d + Z.of_nat n) 0 in
  cstr m' d (take n s) /\ frame d (Z.of_nat n + 1) m m'.
Proof.
  intros H Hd m'. pose proof (strncpy_clear m d src s n H Hd) as He. fold m' in He.
  assert (Hs : Forall (fun c => 0 < c < 256) (take n s)).
  { apply Forall_take, Forall_forall. intros c Hc. by eapply cstr_char. }
  split.
  - eapply cstr_same; [by apply (write_bytes_cstr m d)|].
    intros b Hb. rewrite He, cons_middle, app_assoc, write_bytes_app.
    apply frame_write_bytes. rewrite length_app. simpl. lia.
  - rewrite He. eapply frame_weaken; [apply frame_write_bytes|lia|].
    rewrite length_app, length_take, length_cons, length_replicate. lia.
Qed.

Lemma strcpy_cstr fuel m d src s :
  cstr m src s -> disjoint d (Z.of_nat (length s) + 1) src (Z.of_nat (length s) + 1) ->
  (length s < fuel)%nat -> strcpy fuel m d src = Some (write_bytes m d (s ++ [0])).
Proof.
  revert m d src fuel. induction s as [|c s IH]; intros m d src [|fuel] H Hd Hf;
    simpl in *; try lia.
  - by rewrite H.
  - destruct H as (H1 & H2 & H3). rewrite H1. unfold disjoint in *. zcases; [done|].
    apply IH; [apply cstr_store8; [done|lia]|unfold disjoint; lia|lia].
Qed.

Lemma find_end_cstr fuel m d s :
  cstr m d s -> (length s < fuel)%nat -> find_end fuel m d = Some (d + Z.of_nat (length s)).
Proof.
  revert d fuel. induction s as [|c s IH]; intros d [|fuel] H Hf; simpl in *; try lia.
  - rewrite H. simpl. f_equal. lia.
  - destruct H as (H1 & H2 & H3). rewrite H1. zcases; [done|].
    rewrite IH by (done || lia). f_equal. lia.
Qed.

(** ** Numbers to strings *)

(** Characters that are digits in base 36. *)
Definition is_digit_char (base c : Z) : Prop := 0 < c < 256 /\ 0 <= digit_value c < base.

Lemma digits_value_snoc base s c :
  digits_value base (s ++ [c]) = digits_value base s * base + digit_value c.
Proof. unfold digits_value. by rewrite foldl_app. Qed.

Lemma digits_value_zeros base k s :
  digits_value base (replicate k 48 ++ s) = digits_value base s.
Proof.
  induction k as [|k IH]; [done|]. simpl. unfold digits_value in *. simpl. exact IH.
Qed.

Lemma write_bytes_store8 m a l b v :
  b < a \/ a + Z.of_nat (length l) <= b ->
  write_bytes (store8 m b v) a l ≅ store8 (write_bytes m a l) b v.
Proof.
  intros Hb x. rewrite load8_store8, !load8_write_bytes, load8_store8.
  rcases; done.
Qed.

Lemma write_bytes_snoc m a l c :
  write_bytes m a (l ++ [c]) = store8 (write_bytes m a l) (a + Z.of_nat (length l)) c.
Proof. by rewrite write_bytes_app. Qed.

(** A counted loop that stores a function of the index is one block write. *)
Lemma for_store_write_bytes m a (f : Z -> Z) l :
  (forall j, 0 <= j < Z.of_nat (length l) -> f j = l !!! Z.to_nat j) ->
  for_range 0 (Z.of_nat (length l)) (fun m j => store8 m (a + j) (f j)) m
    ≅ write_bytes m a l.
Proof.
  intros Hf. rewrite <- (firstn_all l) at 2. rewrite <- (Nat2Z.id (length l)) at 2.
  apply (for_range_ind (fun i t => t ≅ write_bytes m a (take (Z.to_nat i) l)));
    [lia|by rewrite take_0|].
  intros i t Hi IH. rewrite IH, Hf by lia.
  replace (Z.to_nat (i + 1)) with (S (Z.to_nat i)) by lia.
  destruct (lookup_lt_is_Some_2 l (Z.to_nat i)) as [c Hc]; [lia|].
  rewrite (take_S_r _ _ _ Hc), write_bytes_snoc, length_take.
  rewrite (list_lookup_total_correct _ _ _ Hc).
  replace (a + (0 + i)) with (a + Z.of_nat (Z.to_nat i `min` length l)) by lia. done.
Qed.

Lemma dec_digits_spec room value :
  0 <= value < 10 ^ Z.of_nat room ->
  digits_value 10 (reverse (dec_digits room value)) = value /\
  Forall (is_digit_char 10) (dec_digits room value).
Proof.
  revert value. induction room as [|r IH]; intros value Hv.
  - change (10 ^ Z.of_nat 0) with 1 in Hv. simpl.
    replace value with 0 by lia. by split; [|constructor].
  - rewrite Nat2Z.inj_succ, Z.pow_succ_r in Hv by lia.
    simpl. zcases; [|replace value with 0 by lia; by split; [|constructor]].
    rewrite Z.quot_div_nonneg, Z.rem_mod_nonneg by lia.
    destruct (IH (value / 10)) as [IH1 IH2]; [zdm|].
    pose proof (Z.mod_pos_bound value 10 ltac:(lia)).
    assert (Hd : digit_value (48 + value mod 10) = value mod 10)
      by (unfold digit_value; zcases; lia).
    split; [|by constructor; [unfold is_digit_char; lia|]].
    rewrite reverse_cons, digits_value_snoc, IH1, Hd. zdm.
Qed.

Lemma dec_digits_nonpos room value : value <= 0 -> dec_digits room value = [].
Proof. intros. destruct room; [done|]. simpl. by zcases; [lia|]. Qed.

Lemma length_dec_digits room value : (length (dec_digits room value) <= room)%nat.
Proof. revert value. induction room as [|r IH]; intros v; simpl; [lia|]. zcases; simpl; [|lia]. specialize (IH (Z.quot v 10)). lia. Qed.

Lemma is_digit_48 base : 0 < base -> is_digit_char base 48.
Proof. intros. unfold is_digit_char, digit_value. simpl. lia. Qed.

(** The characters that [int_to_str_pad] leaves in [temp], padding included. *)
Definition str_pad_temp (value width : Z) : list Z :=
  let temp := if value =? 0 then [48] else dec_digits 11 value in
  temp ++ replicate (Z.to_nat (Z.min width 11 - Z.of_nat (length temp))) 48.

Lemma int_to_str_pad_bytes m value str width :
  int_to_str_pad m value str width ≅
    write_bytes m str (reverse (str_pad_temp value width) ++ [0]).
Proof.
  unfold int_to_str_pad. fold (str_pad_temp value width).
  set (temp := str_pad_temp value width). rewrite write_bytes_snoc.
  rewrite <- (for_store_write_bytes m str
    (fun j => temp !!! Z.to_nat (Z.of_nat (length temp) - j - 1)) (reverse temp)).
  - by rewrite length_reverse.
  - intros j Hj. rewrite length_reverse in Hj.
    destruct (lookup_lt_is_Some_2 temp (Z.to_nat (Z.of_nat (length temp) - j - 1)))
      as [c Hc]; [lia|].
    rewrite (list_lookup_total_correct _ _ _ Hc). symmetry.
    apply list_lookup_total_correct.
    rewrite reverse_lookup by lia. rewrite <- Hc. f_equal. lia.
Qed.

Lemma str_pad_temp_spec value width :
  0 <= value < 2147483648 ->
  digits_value 10 (reverse (str_pad_temp value width)) = value /\
  Forall (is_digit_char 10) (str_pad_temp value width).
Proof.
  intros Hv. unfold str_pad_temp.
  set (temp := if value =? 0 then [48] else dec_digits 11 value).
  assert (digits_value 10 (reverse temp) = value /\ Forall (is_digit_char 10) temp)
    as [H1 H2].
  { subst temp. zcases.
    2: { apply dec_digits_spec. change (10 ^ Z.of_nat 11) with 100000000000. lia. }
    subst value. split; [reflexivity|].
    apply Forall_singleton. by apply is_digit_48. }
  rewrite reverse_app, reverse_replicate, digits_value_zeros. split; [done|].
  apply Forall_app. split; [done|]. by apply Forall_replicate, is_digit_48.
Qed.

Fixpoint hex_string (k : nat) (value : Z) : list Z :=
  match k with
  | O => []
  | S k' => hex_string k' (Z.shiftr value 4) ++ [hex_chars !!! Z.to_nat (Z.land value 15)]
  end.

Lemma length_hex_string k value : length (hex_string k value) = k.
Proof. revert value. induction k as [|k IH]; intros v; simpl; [done|]. rewrite length_app, IH. simpl. lia. Qed.

Lemma hex_loop_bytes k m value str :
  hex_loop k m value str ≅ write_bytes m str (hex_string k value).
Proof.
  revert m value. induction k as [|k IH]; intros m value; simpl; [done|].
  rewrite IH, write_bytes_snoc, length_hex_string. apply write_bytes_store8.
  rewrite length_hex_string. lia.
Qed.

Lemma hex_chars_digit i :
  0 <= i < 16 -> is_digit_char 16 (hex_chars !!! Z.to_nat i) /\
  digit_value (hex_chars !!! Z.to_nat i) = i.
Proof.
  intros Hi.
  assert (forallb (fun k => let c := hex_chars !!! k in
    (0 <? c) && (c <? 256) && (digit_value c =? Z.of_nat k)) (seq 0 16) = true) as H
    by reflexivity.
  rewrite forallb_forall in H. specialize (H (Z.to_nat i) ltac:(apply in_seq; lia)).
  cbv zeta beta in H. rewrite !andb_true_iff in H. destruct H as [[H1 H2] H3].
  apply Z.ltb_lt in H1, H2. apply Z.eqb_eq in H3. rewrite Z2Nat.id in H3 by lia.
  unfold is_digit_char. by rewrite H3.
Qed.

Lemma hex_string_spec k value :
  0 <= value ->
  digits_value 16 (hex_string k value) = value mod 16 ^ Z.of_nat k /\
  Forall (is_digit_char 16) (hex_string k value).
Proof.
  revert value. induction k as [|k IH]; intros value Hv.
  - simpl. change (16 ^ Z.of_nat 0) with 1. rewrite Z.mod_1_r. by split; [|constructor].
  - simpl hex_string. rewrite digits_value_snoc. destruct (IH (Z.shiftr value 4)) as [H1 H2].
    { by apply Z.shiftr_nonneg. }
    assert (Hl : 0 <= Z.land value 15 < 16).
    { change 15 with (Z.ones 4). rewrite Z.land_ones by lia. apply Z.mod_pos_bound. lia. }
    destruct (hex_chars_digit (Z.land value 15) Hl) as [H3 H4].
    split; [|by apply Forall_app; split; [|constructor]].
    rewrite H1, H4, Z.shiftr_div_pow2 by lia. change 15 with (Z.ones 4).
    rewrite Z.land_ones by lia. change (2 ^ 4) with 16.
    rewrite Nat2Z.inj_succ, Z.pow_succ_r by lia.
    rewrite Z.rem_mul_r by lia. lia.
Qed.

(** The characters [itoa] stores before it reverses them. *)
Fixpoint itoa_list (fuel : nat) (value base : Z) : list Z :=
  match fuel with
  | O => []
  | S f =>
      let r := value mod base in
      (if r <? 10 then 48 + r else 55 + r) ::
      (if value / base =? 0 then [] else itoa_list f (value / base) base)
  end.

Lemma itoa_digit_char base r :
  2 <= base <= 36 -> 0 <= r < base ->
  itoa_digit r = Some (if r <? 10 then 48 + r else 55 + r) /\
  is_digit_char base (if r <? 10 then 48 + r else 55 + r) /\
  digit_value (if r <? 10 then 48 + r else 55 + r) = r.
Proof.
  intros Hb Hr. unfold itoa_digit, is_digit_char, digit_value.
  zcases; (split; [f_equal; lia|lia]).
Qed.

Lemma itoa_loop_list fuel m ptr value base :
  2 <= base <= 36 -> 0 <= value < 2 ^ Z.of_nat fuel -> (0 < fuel)%nat ->
  itoa_loop fuel m ptr value base =
    Some (write_bytes m ptr (itoa_list fuel value base),
          ptr + Z.of_nat (length (itoa_list fuel value base))).
Proof.
  intros Hb. revert m ptr value. induction fuel as [|f IH]; intros m ptr value Hv Hf; [lia|].
  cbn [itoa_loop itoa_list]. rewrite Z.quot_div_nonneg by lia.
  replace (value - value / base * base) with (value mod base)
    by (rewrite Z.mod_eq by lia; lia).
  destruct (itoa_digit_char base (value mod base) Hb) as (Hd & _ & _).
  { apply Z.mod_pos_bound. lia. }
  rewrite Hd. destruct (Z.eqb_spec (value / base) 0) as [E|E]; [done|].
  rewrite Nat2Z.inj_succ, Z.pow_succ_r in Hv by lia.
  assert (0 <= value / base < 2 ^ Z.of_nat f).
  { split; [apply Z.div_pos; lia|]. apply Z.div_lt_upper_bound; [lia|]. nia. }
  rewrite IH; [|done|].
  - cbn [length write_bytes]. do 2 f_equal. lia.
  - destruct f; [|lia]. change (2 ^ Z.of_nat 0) with 1 in *. lia.
Qed.

Lemma itoa_list_spec fuel value base :
  2 <= base <= 36 -> 0 <= value < 2 ^ Z.of_nat fuel -> (0 < fuel)%nat ->
  digits_value base (reverse (itoa_list fuel value base)) = value /\
  Forall (is_digit_char base) (itoa_list fuel value base) /\
  itoa_list fuel value base <> [].
Proof.
  intros Hb. revert value. induction fuel as [|f IH]; intros value Hv Hf; [lia|].
  cbn [itoa_list].
  assert (Hr : 0 <= value mod base < base) by (apply Z.mod_pos_bound; lia).
  destruct (itoa_digit_char base _ Hb Hr) as (_ & Hc & Hd).
  pose proof (Z_div_mod_eq_full value base) as Hdm.
  destruct (Z.eqb_spec (value / base) 0) as [E|E].
  - split; [|split; [by apply Forall_singleton|done]].
    rewrite reverse_singleton. unfold digits_value. simpl foldl. rewrite Hd. lia.
  - rewrite Nat2Z.inj_succ, Z.pow_succ_r in Hv by lia.
    assert (0 <= value / base < 2 ^ Z.of_nat f).
    { split; [apply Z.div_pos; lia|]. apply Z.div_lt_upper_bound; [lia|]. nia. }
    destruct (IH (value / base)) as (IH1 & IH2 & IH3); [done| |].
    { destruct f; [|lia]. change (2 ^ Z.of_nat 0) with 1 in *. lia. }
    split; [|split; [by constructor|done]].
    rewrite reverse_cons, digits_value_snoc, IH1, Hd. lia.
Qed.

Lemma length_itoa_list fuel value base : (length (itoa_list fuel value base) <= fuel)%nat.
Proof.
  revert value. induction fuel as [|f IH]; intros v; cbn [itoa_list length]; [lia|].
  destruct (_ =? 0); cbn [length]; [lia|]. specialize (IH (v / base)). lia.
Qed.

(** The in-place reversal leaves the reversed bytes. *)
Lemma swap_loop_reverse fuel m a l :
  bytes_at m a l -> (length l <= 2 * fuel)%nat ->
  swap_loop fuel m a (a + Z.of_nat (length l) - 1) ≅ write_bytes m a (reverse l).
Proof.
  revert m a l. induction fuel as [|f IH]; intros m a l Hl Hf.
  { destruct l; [done|simpl in Hf; lia]. }
  cbn [swap_loop]. destruct l as [|x l].
  { zcases; [simpl in *; lia|done]. }
  destruct (decide (l = [])) as [->|Hne].
  { simpl in *. zcases; [lia|]. intros b. rewrite load8_store8. case_decide; [|done].
    subst. destruct Hl as [<- _]. rewrite u8_small by apply load8_range. done. }
  destruct (exists_last Hne) as (l' & y & ->).
  cbn [length] in *. rewrite length_app in *. cbn [length] in *.
  zcases; [|lia]. destruct Hl as [Hx Hl]. apply bytes_at_app in Hl as [Hl [Hy _]].
  replace (a + Z.of_nat (S (length l' + 1)) - 1) with (a + 1 + Z.of_nat (length l')) by lia.
  rewrite Hy, Hx, reverse_cons, reverse_app, reverse_singleton.
  rewrite <- app_assoc. cbn [app write_bytes].
  replace (a + 1 + Z.of_nat (length l') - 1) with (a + 1 + Z.of_nat (length l') - 1) by lia.
  rewrite IH.
  - rewrite write_bytes_snoc, length_reverse.
    rewrite !write_bytes_store8 by (rewrite length_reverse; lia).
    intros b. rewrite !load8_store8. rcases; done.
  - eapply bytes_at_same; [exact Hl|]. intros b Hb. rewrite !load8_store8_ne by lia. done.
  - lia.
Qed.

(** [itoa] on every argument for which C defines it: the bytes it writes. *)
Lemma itoa_bytes m value str base :
  2 <= base <= 36 ->
  0 <= value < 2147483648 \/ (base = 10 /\ -2147483648 < value < 0) ->
  exists s m',
    itoa m value str base = Some m' /\
    m' ≅ write_bytes m str (s ++ [0]) /\
    parse_int base s = value /\
    Forall (fun c => 0 < c < 256) s /\ (0 < length s <= 33)%nat.
Proof.
  intros Hb Hv. unfold itoa.
  rewrite (proj2 (Z.ltb_ge base 2)), (proj2 (Z.ltb_ge 36 base)) by lia. cbn [orb].
  set (neg := (value <? 0) && (base =? 10)).
  assert (Hneg : neg = (value <? 0)) by (subst neg; zcases; try done; lia).
  assert (Hmin : (neg && (value =? -2147483648)) = false) by (zcases; [lia|apply andb_false_r]).
  rewrite Hmin. set (v := if neg then - value else value).
  assert (Hvr : 0 <= v < 2 ^ Z.of_nat 32).
  { change (2 ^ Z.of_nat 32) with 4294967296. subst v. rewrite Hneg. zcases; lia. }
  rewrite itoa_loop_list by (done || lia).
  destruct (itoa_list_spec 32 v base Hb Hvr ltac:(lia)) as (HL1 & HL2 & HL3).
  pose proof (length_itoa_list 32 v base) as HL4.
  set (L := itoa_list 32 v base) in *. clearbody L neg.
  set (L' := L ++ (if neg then [45] else [])).
  assert (HL' : Forall (fun c => 0 < c < 256) L').
  { subst L'. apply Forall_app. split.
    - eapply Forall_impl; [exact HL2|]. by intros c [? _].
    - destruct neg; repeat constructor; lia. }
  assert (Hlen : (0 < length L' <= 33)%nat).
  { subst L'. rewrite length_app. destruct L; [done|]. destruct neg; simpl in *; lia. }
  destruct (if neg then (store8 _ _ 45, _) else _) as [m2 ptr] eqn:E.
  assert (m2 = write_bytes m str L' /\ ptr = str + Z.of_nat (length L')) as [-> ->].
  { subst L'. destruct neg; injection E as <- <-.
    - rewrite write_bytes_snoc, length_app. simpl. split; [done|lia].
    - by rewrite app_nil_r. }
  exists (reverse L'), (swap_loop 33
    (store8 (write_bytes m str L') (str + Z.of_nat (length L')) 0) str
    (str + Z.of_nat (length L') - 1)).
  split; [done|]. split; [|split; [|split; [by apply Forall_reverse|by rewrite length_reverse]]].
  - rewrite swap_loop_reverse.
    + rewrite write_bytes_snoc, length_reverse, write_bytes_store8 by (rewrite length_reverse; lia).
      intros b. rewrite !load8_store8, !load8_write_bytes, length_reverse. rcases; done.
    + eapply bytes_at_same.
      * apply write_bytes_at. eapply Forall_impl; [exact HL'|]. simpl. lia.
      * apply same_range_store8. lia.
    + lia.
  - subst L' v. rewrite reverse_app. destruct neg eqn:En; simpl.
    + by rewrite HL1; lia.
    +
      destruct (reverse L) as [|c s] eqn:EL; [done|].
      assert (Hc : c <> 45).
      { intros ->. assert (45 ∈ L) as Hin.
        { apply elem_of_reverse. rewrite EL. by left. }
        rewrite Forall_forall in HL2. destruct (HL2 _ Hin) as [_ H]. change (digit_value 45) with (-3) in H. lia. }
      rewrite <- HL1. unfold parse_int.
      repeat (match goal with |- context [match ?x with _ => _ end] => destruct x end; try done).
Qed.

(** ** Properties *)

(** [strcmp] on two terminated strings stops, and its result is 0 exactly when
    the strings are equal; swapping the arguments negates it. *)
Theorem strcmp_decides_equality fuel m a b s t :
  cstr m a s -> cstr m b t -> (length s + length t < fuel)%nat ->
  exists r, strcmp fuel m a b = Some r /\ strcmp fuel m b a = Some (- r) /\
            (r = 0 <-> s = t).
Proof.
  intros Ha Hb Hf. exists (str_compare s t). repeat split.
  - apply strcmp_cstr; [done..|lia].
  - rewrite (strcmp_cstr _ _ _ _ t s) by (done || lia). f_equal. apply str_compare_antisym.
  - apply str_compare_0; intros c Hc.
    + pose proof (cstr_char _ _ _ _ Ha Hc). lia.
    + pose proof (cstr_char _ _ _ _ Hb Hc). lia.
  - intros ->. apply str_compare_0; [..|done]; intros c Hc;
      pose proof (cstr_char _ _ _ _ Hb Hc); lia.
Qed.

Definition demo_mem : mem := write_bytes (write_bytes ∅ 100 [97; 98; 0]) 200 [97; 99; 0].

Lemma strcmp_decides_equality_witness :
  exists r, strcmp 9 demo_mem 100 200 = Some r /\ strcmp 9 demo_mem 200 100 = Some (- r) /\
            (r = 0 <-> [97; 98] = [97; 99]).
Proof.
  apply (strcmp_decides_equality 9 demo_mem 100 200 [97; 98] [97; 99]);
    [vm_compute; repeat split; discriminate..|simpl; lia].
Defined.

(** [strncpy] with a source shorter than [n] writes [n + 1] bytes: the byte
    past the [n] bytes it was given becomes 0, and nothing further changes. *)
Theorem strncpy_writes_one_past m d src s n :
  cstr m src s -> (length s < n)%nat ->
  disjoint d (Z.of_nat n + 1) src (Z.of_nat (length s) + 1) ->
  let m' := strncpy m d src n in
  cstr m' d s /\ load8 m' (d + Z.of_nat n) = 0 /\ frame d (Z.of_nat n + 1) m m'.
Proof.
  intros H Hn Hd m'. pose proof (strncpy_exact m d src s n H Hd) as He. fold m' in He.
  pose proof (length_strncpy_bytes s n) as HL. rewrite decide_True in HL by lia.
  unfold strncpy_bytes in *. rewrite decide_True in * by lia.
  assert (Hs : Forall (fun c => 0 < c < 256) s).
  { apply Forall_forall. intros c Hc. by eapply cstr_char. }
  split; [|split].
  - eapply cstr_same; [by apply (write_bytes_cstr m d)|]. intros b Hb.
    change (replicate (S (n - length s)) 0) with (0 :: replicate (n - length s) 0) in He.
    rewrite He, (cons_middle 0 s (replicate _ _)), app_assoc, write_bytes_app.
    apply frame_write_bytes. rewrite length_app. simpl. lia.
  - rewrite He, load8_write_bytes, HL. rcases.
    replace (Z.to_nat _) with n by lia. rewrite lookup_total_app_r by lia.
    by rewrite lookup_total_replicate_2 by lia.
  - rewrite He. eapply frame_weaken; [apply frame_write_bytes|lia|]. rewrite HL. lia.
Qed.

Lemma strncpy_writes_one_past_witness :
  let m' := strncpy demo_mem 300 100 8 in
  cstr m' 300 [97; 98] /\ load8 m' (300 + Z.of_nat 8) = 0 /\
  frame 300 (Z.of_nat 8 + 1) demo_mem m'.
Proof.
  apply (strncpy_writes_one_past demo_mem 300 100 [97; 98] 8);
    [vm_compute; repeat split; discriminate|simpl; lia|unfold disjoint; simpl; lia].
Defined.

(** the bounded-copy idiom of the kernel, [strncpy(dst, src, n); dst[n] = 0]
    on a buffer of [n + 1] bytes, stores the first [n] characters of the source
    as a terminated string and touches no byte outside the buffer. *)
Theorem bounded_copy_stays_in_buffer m d src s n :
  cstr m src s -> disjoint d (Z.of_nat n + 1) src (Z.of_nat (length s) + 1) ->
  let m' := store8 (strncpy m d src n) (d + Z.of_nat n) 0 in
  cstr m' d (take n s) /\ frame d (Z.of_nat n + 1) m m'.
Proof. apply strncpy_terminated. Qed.

Lemma bounded_copy_stays_in_buffer_witness :
  let m' := store8 (strncpy demo_mem 300 100 1) (300 + Z.of_nat 1) 0 in
  cstr m' 300 (take 1 [97; 98]) /\ frame 300 (Z.of_nat 1 + 1) demo_mem m'.
Proof.
  apply (bounded_copy_stays_in_buffer demo_mem 300 100 [97; 98] 1);
    [vm_compute; repeat split; discriminate|unfold disjoint; simpl; lia].
Defined.

(** [itoa] round trip. For every base from 2 to 36 and every value that C
    lets it convert (non-negative, or negative but not INT_MIN in base 10), the
    buffer holds a terminated string of at most 33 characters that reads back
    as the value, and only those bytes change. *)
Theorem itoa_roundtrip m value str base :
  2 <= base <= 36 ->
  0 <= value < 2147483648 \/ (base = 10 /\ -2147483648 < value < 0) ->
  exists s m',
    itoa m value str base = Some m' /\ cstr m' str s /\ parse_int base s = value /\
    (0 < length s <= 33)%nat /\ frame str (Z.of_nat (length s) + 1) m m'.
Proof.
  intros Hb Hv. destruct (itoa_bytes m value str base Hb Hv) as (s & m' & H1 & H2 & H3 & H4 & H5).
  exists s, m'. split; [done|]. split; [|split; [done|split; [done|]]].
  - eapply cstr_same; [by apply (write_bytes_cstr m)|]. intros b Hb'. by rewrite H2.
  - rewrite H2. eapply frame_weaken; [apply frame_write_bytes|lia|]. rewrite length_app. simpl. lia.
Qed.

Lemma itoa_roundtrip_witness :
  exists s m',
    itoa ∅ (-4207) 16 10 = Some m' /\ cstr m' 16 s /\ parse_int 10 s = -4207 /\
    (0 < length s <= 33)%nat /\ frame 16 (Z.of_nat (length s) + 1) ∅ m'.
Proof. apply (itoa_roundtrip ∅ (-4207) 16 10); lia. Defined.

(** [int_to_str_pad] of a non-negative [int] leaves a terminated decimal
    string of the value; of a negative one it leaves only zeros, so the sign
    and the value are lost. *)
Theorem int_to_str_pad_value m value str width :
  -2147483648 <= value < 2147483648 ->
  exists s, cstr (int_to_str_pad m value str width) str s /\
    digits_value 10 s = Z.max value 0 /\
    Z.min width 11 <= Z.of_nat (length s) <= 11 /\
    (value < 0 -> s = replicate (Z.to_nat (Z.min width 11)) 48).
Proof.
  intros Hv. exists (reverse (str_pad_temp value width)).
  pose proof (int_to_str_pad_bytes m value str width) as He.
  assert (Hneg : value < 0 ->
    str_pad_temp value width = replicate (Z.to_nat (Z.min width 11)) 48).
  { intros Hn. unfold str_pad_temp. rewrite (proj2 (Z.eqb_neq value 0)) by lia.
    rewrite dec_digits_nonpos by lia. simpl. by rewrite Z.sub_0_r. }
  assert (digits_value 10 (reverse (str_pad_temp value width)) = Z.max value 0 /\
    Forall (is_digit_char 10) (str_pad_temp value width)) as [HD1 HD2].
  { destruct (decide (value < 0)) as [Hn|Hn].
    - rewrite Hneg by done. rewrite reverse_replicate. split.
      + rewrite <- (app_nil_r (replicate _ _)), digits_value_zeros. unfold digits_value. simpl. lia.
      + by apply Forall_replicate, is_digit_48.
    - rewrite Z.max_l by lia. apply str_pad_temp_spec. lia. }
  split; [|split; [done|split]].
  - eapply cstr_same; [apply (write_bytes_cstr m)|].
    + apply Forall_reverse. eapply Forall_impl; [exact HD2|]. by intros c [? _].
    + intros b Hb. by rewrite He.
  - rewrite length_reverse. unfold str_pad_temp. pose proof (length_dec_digits 11 value).
    zcases; rewrite length_app, length_replicate; cbn [length]; lia.
  - intros Hn. by rewrite Hneg, reverse_replicate.
Qed.

Lemma int_to_str_pad_value_witness :
  exists s, cstr (int_to_str_pad ∅ (-5) 16 2) 16 s /\
    digits_value 10 s = Z.max (-5) 0 /\
    Z.min 2 11 <= Z.of_nat (length s) <= 11 /\
    (-5 < 0 -> s = replicate (Z.to_nat (Z.min 2 11)) 48).
Proof. apply (int_to_str_pad_value ∅ (-5) 16 2). lia. Defined.
