(* ===== verification/FrameAlloc.v ===== *)
(** The interface between the physical memory manager and the code that maps
    pages: what an allocator of 4 KiB frames promises.

    The client's theorems (Vmm) are proved against this class; Pmm is its
    implementation.  The allocator may keep its own data in memory, in the range
    [fa_lo, fa_lo + fa_len); it promises to write nowhere else and never to hand
    out a frame that overlaps that range, and the client promises not to write
    there. *)

From S2P Require Import Prelude Mem.
Local Open Scope Z_scope.

Class FrameAlloc (St : Type) := {
  (** The address of a frame, or 0. *)
  fa_alloc : St -> mem -> Z * St * mem;
  fa_free : St -> mem -> Z -> St * mem;
  (** [F] is the set of free frames. *)
  fa_inv : St -> mem -> gset Z -> Prop;
  (** The frames that the allocator can own. *)
  fa_managed : St -> Z -> Prop;
  fa_lo : St -> Z;
  fa_len : St -> Z
}.

(** Same frames and same private memory. *)
Definition fa_same `{FrameAlloc St} (s s' : St) : Prop :=
  fa_lo s' = fa_lo s /\ fa_len s' = fa_len s /\
  forall f, fa_managed s' f <-> fa_managed s f.

Class FrameAllocLaws (St : Type) `{FrameAlloc St} := {
  fa_alloc_none s m : fa_inv s m ∅ -> fa_alloc s m = (0, s, m);
  fa_alloc_some s m F : fa_inv s m F -> F <> ∅ ->
    exists f s' m', f ∈ F /\ fa_alloc s m = (f * 4096, s', m') /\
      fa_inv s' m' (F ∖ {[f]}) /\ frame (fa_lo s) (fa_len s) m m' /\ fa_same s s';
  fa_free_ok s m F f off s' m' : fa_inv s m F -> fa_managed s f -> f ∉ F ->
    0 <= off < 4096 -> fa_free s m (f * 4096 + off) = (s', m') ->
    fa_inv s' m' ({[f]} ∪ F) /\ frame (fa_lo s) (fa_len s) m m' /\ fa_same s s';
  fa_free_managed s m F f : fa_inv s m F -> f ∈ F -> fa_managed s f;
  fa_managed_range s m F f : fa_inv s m F -> fa_managed s f ->
    0 < f < 1048576 /\
    (f * 4096 + 4096 <= fa_lo s \/ fa_lo s + fa_len s <= f * 4096);
  fa_inv_same s m m' F : fa_inv s m F -> same_range (fa_lo s) (fa_len s) m m' ->
    fa_inv s m' F
}.

Lemma fa_same_refl `{FrameAlloc St} s : fa_same s s.
Proof. done. Qed.

Lemma fa_same_trans `{FrameAlloc St} s1 s2 s3 :
  fa_same s1 s2 -> fa_same s2 s3 -> fa_same s1 s3.
Proof.
  intros (H1 & H2 & H3) (H4 & H5 & H6). split; [congruence|split; [congruence|]].
  intros f. by rewrite H6, H3.
Qed.
