(* ===== verification/Pmm.v ===== *)
(** kernel/mm/pmm.c: the physical memory manager, a bitmap of 4 KiB frames.

    The bitmap lives in memory at [pmm_bitmap], one bit per frame, 32 to a
    word; a set bit is a frame in use.  The file's static variables are the
    fields of [pmm].  The abstract state is the set of free frames. *)

From S2P Require Import Prelude Mem CString FrameAlloc.
Local Open Scope Z_scope.
Local Open Scope kernel_scope.

Definition PMM_BLOCK_SIZE : Z := 4096.
Definition PMM_BLOCKS_PER_BYTE : Z := 8.

Record pmm := Pmm {
  pmm_bitmap : Z;
  pmm_bitmap_size : Z;
  pmm_memory_size : Z;
  pmm_used_blocks : Z;
  pmm_max_blocks : Z
}.

Definition set_used (p : pmm) (n : Z) : pmm :=
  Pmm (pmm_bitmap p) (pmm_bitmap_size p) (pmm_memory_size p) n (pmm_max_blocks p).

(** ** The bitmap *)

(** The word that holds a bit. *)
Definition word_addr (p : pmm) (bit : Z) : Z := pmm_bitmap p + 4 * (bit / 32).

Definition bitmap_set (p : pmm) (m : mem) (bit : Z) : mem :=
  store32 m (word_addr p bit)
    (Z.lor (load32 m (word_addr p bit)) (Z.shiftl 1 (bit mod 32))).

Definition bitmap_unset (p : pmm) (m : mem) (bit : Z) : mem :=
  store32 m (word_addr p bit)
    (Z.land (load32 m (word_addr p bit)) (not32 (Z.shiftl 1 (bit mod 32)))).

Definition bitmap_test (p : pmm) (m : mem) (bit : Z) : bool :=
  negb (Z.land (load32 m (word_addr p bit)) (Z.shiftl 1 (bit mod 32)) =? 0).

(** The inner loop of the searches: the first clear bit of a word. *)
Definition scan_word (w : Z) : option Z :=
  find_range (fun j => Z.land w (Z.shiftl 1 j) =? 0) 0 32.

(** The outer loop over the [n] words from word [i]; [-1] when none has a clear bit. *)
Fixpoint first_free_loop (p : pmm) (m : mem) (i : Z) (n : nat) : Z :=
  match n with
  | O => -1
  | S n' =>
      let w := load32 m (pmm_bitmap p + 4 * i) in
      if negb (w =? 4294967295) then
        match scan_word w with
        | Some j => i * 32 + j
        | None => first_free_loop p m (i + 1) n'
        end
      else first_free_loop p m (i + 1) n'
  end.

Definition bitmap_first_free (p : pmm) (m : mem) : Z :=
  first_free_loop p m 0 (Z.to_nat (pmm_max_blocks p / 32)).

(** The [k] loop: true when the count of free frames from [start] reaches [size]. *)
Fixpoint run_loop (p : pmm) (m : mem) (start size k free : Z) (n : nat) : bool :=
  match n with
  | O => false
  | S n' =>
      let free := if negb (bitmap_test p m (u32 (start + k))) then free + 1 else free in
      if free =? size then true else run_loop p m start size (k + 1) free n'
  end.

Definition run_free (p : pmm) (m : mem) (start size : Z) : bool :=
  run_loop p m start size 0 0 (Z.to_nat size).

Fixpoint first_run_loop (p : pmm) (m : mem) (size i : Z) (n : nat) : Z :=
  match n with
  | O => -1
  | S n' =>
      let w := load32 m (pmm_bitmap p + 4 * i) in
      if negb (w =? 4294967295) then
        match find_range (fun j => (Z.land w (Z.shiftl 1 j) =? 0)
                                   && run_free p m (i * 32 + j) size) 0 32 with
        | Some j => i * 32 + j
        | None => first_run_loop p m size (i + 1) n'
        end
      else first_run_loop p m size (i + 1) n'
  end.

Definition bitmap_first_free_s (p : pmm) (m : mem) (size : Z) : Z :=
  if size =? 0 then -1
  else if size =? 1 then bitmap_first_free p m
  else first_run_loop p m size 0 (Z.to_nat (pmm_max_blocks p / 32)).

(** ** The operations *)

Definition pmm_init (m : mem) (mem_size bitmap_addr : Z) : pmm * mem :=
  let max := mem_size / PMM_BLOCK_SIZE in
  let size := max / PMM_BLOCKS_PER_BYTE in
  (Pmm bitmap_addr size mem_size max max, memset m bitmap_addr 255 size).

Definition pmm_init_region (p : pmm) (m : mem) (base size : Z) : pmm * mem :=
  let align := Z.quot (i32 base) PMM_BLOCK_SIZE in
  let blocks := Z.quot (i32 size) PMM_BLOCK_SIZE in
  let '(p1, m1) := for_range 0 blocks
    (fun '(p, m) k => (set_used p (u32 (pmm_used_blocks p - 1)),
                       bitmap_unset p m (u32 (align + k)))) (p, m) in
  (p1, bitmap_set p1 m1 0).

Definition pmm_deinit_region (p : pmm) (m : mem) (base size : Z) : pmm * mem :=
  let align := Z.quot (i32 base) PMM_BLOCK_SIZE in
  let blocks := Z.quot (i32 size) PMM_BLOCK_SIZE in
  for_range 0 blocks
    (fun '(p, m) k => (set_used p (u32 (pmm_used_blocks p + 1)),
                       bitmap_set p m (u32 (align + k)))) (p, m).

Definition pmm_get_memory_size (p : pmm) : Z := pmm_memory_size p.
Definition pmm_get_block_count (p : pmm) : Z := pmm_max_blocks p.
Definition pmm_get_used_block_count (p : pmm) : Z := pmm_used_blocks p.
Definition pmm_get_free_block_count (p : pmm) : Z :=
  u32 (pmm_max_blocks p - pmm_used_blocks p).

(** The result of an allocation is an address; NULL is 0. *)
Definition pmm_alloc_block (p : pmm) (m : mem) : Z * pmm * mem :=
  if pmm_get_free_block_count p =? 0 then (0, p, m) else
  let frame := bitmap_first_free p m in
  if frame =? -1 then (0, p, m) else
  (u32 (frame * PMM_BLOCK_SIZE), set_used p (u32 (pmm_used_blocks p + 1)),
   bitmap_set p m frame).

Definition pmm_free_block (p : pmm) (m : mem) (addr : Z) : pmm * mem :=
  let frame := addr / PMM_BLOCK_SIZE in
  (set_used p (u32 (pmm_used_blocks p - 1)), bitmap_unset p m frame).

Definition pmm_alloc_blocks (p : pmm) (m : mem) (count : Z) : Z * pmm * mem :=
  if pmm_get_free_block_count p <? count then (0, p, m) else
  let frame := bitmap_first_free_s p m count in
  if frame =? -1 then (0, p, m) else
  (u32 (frame * PMM_BLOCK_SIZE), set_used p (u32 (pmm_used_blocks p + count)),
   for_range 0 count (fun m i => bitmap_set p m (u32 (frame + i))) m).

Definition pmm_free_blocks (p : pmm) (m : mem) (addr count : Z) : pmm * mem :=
  let frame := addr / PMM_BLOCK_SIZE in
  (set_used p (u32 (pmm_used_blocks p - count)),
   for_range 0 count (fun m i => bitmap_unset p m (u32 (frame + i))) m).

(** The memory part of [kernel_main]'s boot sequence: 128 MiB of RAM, the bitmap
    placed at [_kernel_end], everything above 1 MiB made available and the kernel
    image up to the next page boundary taken back. *)
Definition boot_mem_end : Z := 134217728.
Definition boot_kernel_size (kernel_end : Z) : Z :=
  Z.land (u32 (kernel_end - 1048576 + 4095)) (not32 4095).
Definition boot_pmm (m : mem) (kernel_end : Z) : pmm * mem :=
  let '(p, m) := pmm_init m boot_mem_end kernel_end in
  let '(p, m) := pmm_init_region p m 1048576 (boot_mem_end - 1048576) in
  pmm_deinit_region p m 1048576 (boot_kernel_size kernel_end).

(** ** Abstract state: the free frames *)

(** [F] is the set of frames whose bit is clear, and the counter agrees.  The
    searches look at whole words, so the number of frames is a multiple of 32;
    frame 0 is never free ([NULL] protection). *)
Record pmm_inv (p : pmm) (m : mem) (F : gset Z) : Prop := {
  inv_max : 0 <= pmm_max_blocks p <= 1048576;
  inv_words : pmm_max_blocks p mod 32 = 0;
  inv_used : pmm_used_blocks p = pmm_max_blocks p - Z.of_nat (size F);
  inv_bits : forall f, f ∈ F <-> 0 <= f < pmm_max_blocks p /\ bitmap_test p m f = false;
  inv_null : 0 ∉ F
}.

(** No free frame overlaps the bitmap itself. *)
Definition bitmap_reserved (p : pmm) (F : gset Z) : Prop :=
  forall f, f ∈ F ->
    disjoint (f * 4096) 4096 (pmm_bitmap p) (pmm_max_blocks p / 8).

(** The frames [start, start + count). *)
Definition frames (start count : Z) : gset Z := list_to_set (seqZ start count).

(** ** Bits *)

Lemma bitmap_test_bit p m b :
  bitmap_test p m b = Z.testbit (load32 m (word_addr p b)) (b mod 32).
Proof.
  unfold bitmap_test. pose proof (Z.mod_pos_bound b 32 ltac:(lia)).
  pose proof (land_pow2_eq0 (load32 m (word_addr p b)) (b mod 32) ltac:(lia)) as H1.
  destruct (Z.testbit _ _); destruct (Z.eqb_spec (Z.land (load32 m (word_addr p b))
    (Z.shiftl 1 (b mod 32))) 0) as [E|E]; simpl; try done.
  - by apply H1 in E.
  - by rewrite H1 in E.
Qed.

Lemma word_addr_eq p a b : word_addr p a = word_addr p b <-> a / 32 = b / 32.
Proof. unfold word_addr. lia. Qed.

Lemma word_addr_ne p a b :
  a / 32 <> b / 32 ->
  word_addr p a + 4 <= word_addr p b \/ word_addr p b + 4 <= word_addr p a.
Proof. unfold word_addr. lia. Qed.

Lemma bit_eq a b : a / 32 = b / 32 -> (a =? b) = (a mod 32 =? b mod 32).
Proof. intros H. zcases; try done; zdm. Qed.

(** Setting and clearing a bit change that bit and no other. *)
Lemma bitmap_test_set p m b f :
  bitmap_test p (bitmap_set p m b) f = (f =? b) || bitmap_test p m f.
Proof.
  rewrite !bitmap_test_bit. unfold bitmap_set.
  destruct (decide (f / 32 = b / 32)) as [E|E].
  - rewrite (proj2 (word_addr_eq p f b) E), load32_store32_eq.
    pose proof (Z.mod_pos_bound f 32 ltac:(lia)).
    pose proof (Z.mod_pos_bound b 32 ltac:(lia)).
    rewrite u32_testbit, Z.lor_spec, testbit_pow2, (bit_eq f b E) by lia.
    zcases; try lia; by rewrite ?orb_true_r, ?orb_false_r.
  - rewrite load32_store32_ne by (apply word_addr_ne; done).
    zcases; [by subst|done].
Qed.

Lemma bitmap_test_unset p m b f :
  bitmap_test p (bitmap_unset p m b) f = negb (f =? b) && bitmap_test p m f.
Proof.
  rewrite !bitmap_test_bit. unfold bitmap_unset.
  destruct (decide (f / 32 = b / 32)) as [E|E].
  - rewrite (proj2 (word_addr_eq p f b) E), load32_store32_eq.
    pose proof (Z.mod_pos_bound f 32 ltac:(lia)).
    pose proof (Z.mod_pos_bound b 32 ltac:(lia)).
    unfold not32. rewrite u32_testbit, Z.land_spec, u32_testbit, Z.lnot_spec,
      testbit_pow2, (bit_eq f b E) by lia.
    zcases; try lia; by rewrite ?andb_true_r, ?andb_false_r.
  - rewrite load32_store32_ne by (apply word_addr_ne; done).
    zcases; [by subst|done].
Qed.

(** The bytes of the bitmap that hold the bits below [n]. *)
Lemma bitmap_set_frame p m b n :
  0 <= b < 32 * n -> frame (pmm_bitmap p) (4 * n) m (bitmap_set p m b).
Proof.
  intros Hb. unfold bitmap_set. apply frame_store32; unfold word_addr; zdm.
Qed.

Lemma bitmap_unset_frame p m b n :
  0 <= b < 32 * n -> frame (pmm_bitmap p) (4 * n) m (bitmap_unset p m b).
Proof.
  intros Hb. unfold bitmap_unset. apply frame_store32; unfold word_addr; zdm.
Qed.

Lemma bitmap_test_same p m m' n f :
  same_range (pmm_bitmap p) (4 * n) m m' -> 0 <= f < 32 * n ->
  bitmap_test p m' f = bitmap_test p m f.
Proof.
  intros H Hf. rewrite !bitmap_test_bit. f_equal. apply load32_same.
  eapply same_range_sub; [exact H|unfold word_addr; zdm..].
Qed.

#[export] Instance bitmap_test_proper p :
  Proper (mem_eq ==> eq ==> eq) (bitmap_test p).
Proof. intros m m' H f ? <-. unfold bitmap_test. by rewrite H. Qed.

(** Bit operations do not look at the counters. *)
Lemma bitmap_test_used p n m f : bitmap_test (set_used p n) m f = bitmap_test p m f.
Proof. done. Qed.

(** ** The searches as first-match searches over frames *)

Lemma scan_word_find p m i :
  0 <= i ->
  find_range (fun f => negb (bitmap_test p m f)) (32 * i) 32 =
    Z.add (32 * i) <$> scan_word (load32 m (pmm_bitmap p + 4 * i)).
Proof.
  intros Hi. rewrite <- (Z.add_0_r (32 * i)) at 1. rewrite find_range_shift. f_equal.
  unfold scan_word. apply find_range_ext. intros j Hj. rewrite bitmap_test_bit.
  unfold word_addr. replace ((32 * i + j) / 32) with i by zdm.
  replace ((32 * i + j) mod 32) with j by zdm.
  pose proof (land_pow2_eq0 (load32 m (pmm_bitmap p + 4 * i)) j ltac:(lia)) as H.
  destruct (Z.testbit _ _); zcases; try done; [by apply H in e|by rewrite H in n].
Qed.

Lemma full_word_testbit p m i f :
  load32 m (pmm_bitmap p + 4 * i) = 4294967295 -> 32 * i <= f < 32 * i + 32 ->
  bitmap_test p m f = true.
Proof.
  intros Hw Hf. rewrite bitmap_test_bit. unfold word_addr.
  replace (f / 32) with i by zdm. rewrite Hw. change 4294967295 with (Z.ones 32).
  apply Z.ones_spec_low. apply Z.mod_pos_bound. lia.
Qed.

Lemma first_free_loop_find p m i n :
  0 <= i ->
  first_free_loop p m i n =
    default (-1) (find_range (fun f => negb (bitmap_test p m f)) (32 * i) (32 * n)).
Proof.
  revert i. induction n as [|n IH]; intros i Hi; [done|].
  cbn [first_free_loop]. replace (32 * S n)%nat with (32 + 32 * n)%nat by lia.
  rewrite find_range_app, scan_word_find, IH by lia.
  replace (32 * (i + 1)) with (32 * i + Z.of_nat 32) by lia.
  destruct (Z.eqb_spec (load32 m (pmm_bitmap p + 4 * i)) 4294967295) as [E|E];
    cbn [negb].
  - destruct (scan_word _) as [j|] eqn:Es; [|done]. exfalso.
    pose proof (scan_word_find p m i Hi) as H. rewrite Es in H. simpl in H.
    apply find_range_Some in H as (H1 & H2 & _).
    by rewrite (full_word_testbit p m i) in H2 by (done || lia).
  - destruct (scan_word _) as [j|]; simpl; [lia|done].
Qed.

Lemma bitmap_first_free_find p m :
  0 <= pmm_max_blocks p -> pmm_max_blocks p mod 32 = 0 ->
  bitmap_first_free p m =
    default (-1) (find_range (fun f => negb (bitmap_test p m f)) 0
                    (Z.to_nat (pmm_max_blocks p))).
Proof.
  intros H0 H32. unfold bitmap_first_free. rewrite first_free_loop_find by lia.
  do 2 f_equal. zdm.
Qed.

(** A run of frames is free when every frame of it is. *)
Lemma run_loop_spec p m start size k free n :
  free <= k -> k + Z.of_nat n = size -> (0 < n)%nat ->
  run_loop p m start size k free n = true <->
  free = k /\ forall j, k <= j < size -> bitmap_test p m (u32 (start + j)) = false.
Proof.
  revert k free. induction n as [|n IH]; intros k free Hf Hk Hn; [lia|]. cbn [run_loop].
  destruct (bitmap_test p m (u32 (start + k))) eqn:Ht; cbn [negb].
  - destruct (Z.eqb_spec free size); [lia|]. destruct n as [|n].
    + simpl. split; [done|]. intros [_ H]. by rewrite H in Ht by lia.
    + rewrite IH by lia. split; [lia|]. intros [_ H]. by rewrite H in Ht by lia.
  - destruct (Z.eqb_spec (free + 1) size).
    + split; [|done]. intros _. split; [lia|]. intros j Hj. by replace j with k by lia.
    + destruct n as [|n].
      * simpl. split; [done|lia].
      * rewrite IH by lia. split; intros [H1 H2].
        -- split; [lia|]. intros j Hj. destruct (decide (j = k)) as [->|]; [done|].
           apply H2. lia.
        -- split; [lia|]. intros j Hj. apply H2. lia.
Qed.

Lemma run_free_spec p m start size :
  0 < size ->
  run_free p m start size = true <->
  forall j, 0 <= j < size -> bitmap_test p m (u32 (start + j)) = false.
Proof. intros Hs. unfold run_free. rewrite run_loop_spec by lia. naive_solver lia. Qed.

Definition run_at (p : pmm) (m : mem) (size f : Z) : bool :=
  negb (bitmap_test p m f) && run_free p m f size.

Lemma first_run_loop_find p m size i n :
  0 <= i ->
  first_run_loop p m size i n =
    default (-1) (find_range (run_at p m size) (32 * i) (32 * n)).
Proof.
  revert i. induction n as [|n IH]; intros i Hi; [done|].
  cbn [first_run_loop]. replace (32 * S n)%nat with (32 + 32 * n)%nat by lia.
  rewrite find_range_app, IH by lia.
  replace (32 * (i + 1)) with (32 * i + Z.of_nat 32) by lia.
  assert (Hw : find_range (run_at p m size) (32 * i) 32 = Z.add (32 * i) <$>
    find_range (fun j => (Z.land (load32 m (pmm_bitmap p + 4 * i)) (Z.shiftl 1 j) =? 0)
                         && run_free p m (i * 32 + j) size) 0 32).
  { rewrite <- (Z.add_0_r (32 * i)) at 1. rewrite find_range_shift. f_equal.
    apply find_range_ext. intros j Hj. unfold run_at, bitmap_test, word_addr.
    rewrite negb_involutive. replace ((32 * i + j) / 32) with i by zdm.
    replace ((32 * i + j) mod 32) with j by zdm. do 2 f_equal. lia. }
  rewrite Hw.
  destruct (Z.eqb_spec (load32 m (pmm_bitmap p + 4 * i)) 4294967295) as [E|E]; cbn [negb].
  - destruct (find_range _ 0 32) as [j|] eqn:Es; [|done]. exfalso. simpl in Hw.
    apply find_range_Some in Hw as (H1 & H2 & _).
    apply andb_true_iff in H2 as [H2 _].
    by rewrite (full_word_testbit p m i) in H2 by (done || lia).
  - destruct (find_range _ 0 32) as [j|]; simpl; [lia|done].
Qed.

Lemma bitmap_first_free_s_find p m size :
  0 <= pmm_max_blocks p <= 1048576 -> pmm_max_blocks p mod 32 = 0 -> 0 < size ->
  bitmap_first_free_s p m size =
    default (-1) (find_range (run_at p m size) 0 (Z.to_nat (pmm_max_blocks p))).
Proof.
  intros H0 H32 Hs. unfold bitmap_first_free_s.
  rewrite (proj2 (Z.eqb_neq size 0)) by lia. destruct (Z.eqb_spec size 1) as [->|].
  - rewrite bitmap_first_free_find by lia. f_equal. apply find_range_ext. intros j Hj.
    unfold run_at. destruct (bitmap_test p m j) eqn:Ht; [done|]. simpl. symmetry.
    apply run_free_spec; [lia|]. intros k Hk. replace k with 0 by lia.
    by rewrite Z.add_0_r, u32_small by lia.
  - rewrite first_run_loop_find by lia. do 2 f_equal. zdm.
Qed.

(** ** The invariant *)

Section Invariant.
Context (p : pmm) (m : mem) (F : gset Z).
Hypothesis Hinv : pmm_inv p m F.

Lemma inv_subset : F ⊆ frames 0 (pmm_max_blocks p).
Proof.
  intros f Hf. apply (inv_bits _ _ _ Hinv) in Hf as [Hf _].
  apply elem_of_list_to_set, elem_of_seqZ. lia.
Qed.

Lemma inv_size : Z.of_nat (size F) <= pmm_max_blocks p.
Proof.
  pose proof (subseteq_size _ _ inv_subset) as H. unfold frames in H.
  rewrite size_list_to_set, length_seqZ in H by apply NoDup_seqZ.
  pose proof (inv_max _ _ _ Hinv). lia.
Qed.

Lemma inv_free_count : pmm_get_free_block_count p = Z.of_nat (size F).
Proof.
  unfold pmm_get_free_block_count. rewrite (inv_used _ _ _ Hinv).
  pose proof inv_size. pose proof (inv_max _ _ _ Hinv). rewrite u32_small; lia.
Qed.

Lemma inv_test_in f : f ∈ F -> bitmap_test p m f = false.
Proof. intros H. by apply (inv_bits _ _ _ Hinv) in H as [_ ?]. Qed.

Lemma inv_test_out f : 0 <= f < pmm_max_blocks p -> f ∉ F -> bitmap_test p m f = true.
Proof.
  intros Hf H. destruct (bitmap_test p m f) eqn:E; [done|].
  exfalso. apply H, (inv_bits _ _ _ Hinv). done.
Qed.

Lemma inv_range f : f ∈ F -> 0 < f < pmm_max_blocks p.
Proof.
  intros H. assert (f <> 0) by (intros ->; by apply (inv_null _ _ _ Hinv)).
  apply (inv_bits _ _ _ Hinv) in H. lia.
Qed.

(** Taking a free frame. *)
Lemma inv_set f :
  f ∈ F ->
  pmm_inv (set_used p (u32 (pmm_used_blocks p + 1))) (bitmap_set p m f) (F ∖ {[f]}).
Proof.
  intros Hf. pose proof inv_size. pose proof (inv_range f Hf).
  pose proof (inv_max _ _ _ Hinv).
  assert (HS : size (F ∖ {[f]}) = (size F - 1)%nat).
  { rewrite size_difference by set_solver. by rewrite size_singleton. }
  assert (size F <> 0%nat) by (intros ?%size_empty_inv; set_solver).
  split; simpl.
  - done.
  - apply Hinv.
  - rewrite HS, (inv_used _ _ _ Hinv), u32_small; lia.
  - intros g. rewrite bitmap_test_used, bitmap_test_set, elem_of_difference,
      elem_of_singleton, (inv_bits _ _ _ Hinv g).
    destruct (Z.eqb_spec g f); simpl; naive_solver.
  - pose proof (inv_null _ _ _ Hinv). set_solver.
Qed.

(** Giving a frame back. *)
Lemma inv_unset f :
  0 < f < pmm_max_blocks p -> f ∉ F ->
  pmm_inv (set_used p (u32 (pmm_used_blocks p - 1))) (bitmap_unset p m f) ({[f]} ∪ F).
Proof.
  intros Hr Hf.
  assert (HS : size ({[f]} ∪ F) = S (size F)).
  { rewrite size_union by set_solver. by rewrite size_singleton. }
  assert (Hlt : Z.of_nat (size ({[f]} ∪ F)) <= pmm_max_blocks p).
  { assert ({[f]} ∪ F ⊆ frames 0 (pmm_max_blocks p)) as Hs.
    { apply union_subseteq. split; [|apply inv_subset].
      apply singleton_subseteq_l, elem_of_list_to_set, elem_of_seqZ. lia. }
    apply subseteq_size in Hs. unfold frames in Hs.
    rewrite (size_list_to_set (C := gset Z) (seqZ _ _)), length_seqZ in Hs by apply NoDup_seqZ. lia. }
  pose proof (inv_max _ _ _ Hinv).
  split; simpl.
  - done.
  - apply Hinv.
  - rewrite HS in *. rewrite (inv_used _ _ _ Hinv), u32_small; lia.
  - intros g. rewrite bitmap_test_used, bitmap_test_unset, elem_of_union,
      elem_of_singleton, (inv_bits _ _ _ Hinv g).
    destruct (Z.eqb_spec g f); simpl; naive_solver lia.
  - pose proof (inv_null _ _ _ Hinv). rewrite elem_of_union, elem_of_singleton. by intros [?|?]; [lia|].
Qed.

(** The invariant only looks at the bitmap. *)
Lemma inv_same m' :
  same_range (pmm_bitmap p) (pmm_max_blocks p / 8) m m' -> pmm_inv p m' F.
Proof.
  intros Hs. pose proof (inv_words _ _ _ Hinv) as H32. pose proof (inv_max _ _ _ Hinv).
  split; try apply Hinv. intros f. rewrite (inv_bits _ _ _ Hinv f).
  split; intros [H1 H2]; (split; [done|]);
    rewrite (bitmap_test_same p m m' (pmm_max_blocks p / 32)) in *; try done; try zdm;
    eapply same_range_sub; try exact Hs; zdm.
Qed.

Lemma inv_proper m' : m ≅ m' -> pmm_inv p m' F.
Proof. intros H. apply inv_same. intros a _. symmetry. apply H. Qed.

End Invariant.

(** ** Allocation and release of one block *)

(** What an allocator of frames does, on sets: take the least free frame. *)
Definition least (F : gset Z) (f : Z) : Prop := f ∈ F /\ forall g, g ∈ F -> f <= g.

Lemma alloc_block_spec p m F :
  pmm_inv p m F ->
  (F = ∅ /\ pmm_alloc_block p m = (0, p, m)) \/
  (exists f, least F f /\ 0 < f < pmm_max_blocks p /\
     pmm_alloc_block p m =
       (f * 4096, set_used p (u32 (pmm_used_blocks p + 1)), bitmap_set p m f)).
Proof.
  intros Hinv. unfold pmm_alloc_block. rewrite (inv_free_count _ _ _ Hinv).
  pose proof (inv_max _ _ _ Hinv) as Hmax.
  destruct (Z.eqb_spec (Z.of_nat (size F)) 0) as [E|E].
  { left. split; [|done]. apply leibniz_equiv, size_empty_inv. lia. }
  right. rewrite bitmap_first_free_find by (apply Hinv || lia).
  destruct (find_range _ _ _) as [f|] eqn:Hf; simpl.
  - apply find_range_Some in Hf as (H1 & H2 & H3).
    assert (Hin : f ∈ F).
    { apply (inv_bits _ _ _ Hinv). split; [lia|]. by apply negb_true_iff in H2. }
    exists f. pose proof (inv_range _ _ _ Hinv f Hin).
    rewrite (proj2 (Z.eqb_neq f (-1))) by lia.
    split; [|split; [done|unfold PMM_BLOCK_SIZE; by rewrite u32_small by lia]].
    split; [done|]. intros g Hg. pose proof (inv_range _ _ _ Hinv g Hg).
    destruct (decide (f <= g)); [done|]. specialize (H3 g ltac:(lia)).
    by rewrite (inv_test_in _ _ _ Hinv g Hg) in H3.
  - exfalso. assert (F <> ∅) as Hne by (intros ->; by rewrite size_empty in E).
    apply set_choose_L in Hne as [g Hg]. pose proof (inv_range _ _ _ Hinv g Hg).
    rewrite find_range_None in Hf. specialize (Hf g ltac:(lia)).
    by rewrite (inv_test_in _ _ _ Hinv g Hg) in Hf.
Qed.

Lemma free_block_spec p m F f off :
  pmm_inv p m F -> 0 < f < pmm_max_blocks p -> f ∉ F -> 0 <= off < 4096 ->
  pmm_free_block p m (f * 4096 + off) =
    (set_used p (u32 (pmm_used_blocks p - 1)), bitmap_unset p m f).
Proof.
  intros Hinv Hr Hf Ho. unfold pmm_free_block, PMM_BLOCK_SIZE.
  by replace ((f * 4096 + off) / 4096) with f by zdm.
Qed.

(** ** Ranges of frames *)

Lemma elem_of_frames f start n : f ∈ frames start n <-> start <= f < start + n.
Proof. unfold frames. by rewrite elem_of_list_to_set, elem_of_seqZ. Qed.

Lemma size_frames start n : Z.of_nat (size (frames start n)) = Z.max 0 n.
Proof.
  unfold frames. rewrite size_list_to_set by apply NoDup_seqZ.
  rewrite length_seqZ. lia.
Qed.

#[global] Opaque frames.

Lemma set_used_id p : set_used p (pmm_used_blocks p) = p.
Proof. by destruct p. Qed.

Definition set_bits (p : pmm) (m : mem) (start n : Z) : mem :=
  for_range 0 n (fun m i => bitmap_set p m (u32 (start + i))) m.
Definition unset_bits (p : pmm) (m : mem) (start n : Z) : mem :=
  for_range 0 n (fun m i => bitmap_unset p m (u32 (start + i))) m.

Lemma set_bits_test p m start n f :
  0 <= n -> 0 <= start -> start + n <= 4294967296 ->
  bitmap_test p (set_bits p m start n) f = in_range start n f || bitmap_test p m f.
Proof.
  intros Hn Hs Hb. unfold set_bits.
  apply (for_range_ind (fun i t =>
    bitmap_test p t f = in_range start i f || bitmap_test p m f)); [done|by rcases|].
  intros i t Hi IH. rewrite bitmap_test_set, IH, u32_small by lia.
  zcases; rcases; try done; by rewrite ?orb_true_r.
Qed.

Lemma unset_bits_test p m start n f :
  0 <= n -> 0 <= start -> start + n <= 4294967296 ->
  bitmap_test p (unset_bits p m start n) f = negb (in_range start n f) && bitmap_test p m f.
Proof.
  intros Hn Hs Hb. unfold unset_bits.
  apply (for_range_ind (fun i t =>
    bitmap_test p t f = negb (in_range start i f) && bitmap_test p m f)); [done|by rcases|].
  intros i t Hi IH. rewrite bitmap_test_unset, IH, u32_small by lia.
  zcases; rcases; try done.
Qed.

Lemma set_bits_frame p m start n k :
  0 <= n -> 0 <= start -> start + n <= 32 * k -> 32 * k <= 4294967296 ->
  frame (pmm_bitmap p) (4 * k) m (set_bits p m start n).
Proof.
  intros Hn Hs Hb Hk. unfold set_bits.
  apply (for_range_ind (fun i t => frame (pmm_bitmap p) (4 * k) m t)); [done|done|].
  intros i t Hi IH. eapply frame_trans; [exact IH|]. apply bitmap_set_frame.
  rewrite u32_small; lia.
Qed.

Lemma unset_bits_frame p m start n k :
  0 <= n -> 0 <= start -> start + n <= 32 * k -> 32 * k <= 4294967296 ->
  frame (pmm_bitmap p) (4 * k) m (unset_bits p m start n).
Proof.
  intros Hn Hs Hb Hk. unfold unset_bits.
  apply (for_range_ind (fun i t => frame (pmm_bitmap p) (4 * k) m t)); [done|done|].
  intros i t Hi IH. eapply frame_trans; [exact IH|]. apply bitmap_unset_frame.
  rewrite u32_small; lia.
Qed.

Lemma inv_set_range p m F start n :
  pmm_inv p m F -> 0 <= n -> frames start n ⊆ F ->
  pmm_inv (set_used p (u32 (pmm_used_blocks p + n))) (set_bits p m start n)
    (F ∖ frames start n).
Proof.
  intros Hinv Hn Hsub. pose proof (inv_size _ _ _ Hinv). pose proof (inv_max _ _ _ Hinv).
  destruct (decide (n = 0)) as [->|Hn0].
  { replace (F ∖ frames start 0) with F.
    2: { apply set_eq. intros f. rewrite elem_of_difference, elem_of_frames. naive_solver lia. }
    rewrite Z.add_0_r, u32_small, set_used_id; [done|]. rewrite (inv_used _ _ _ Hinv). lia. }
  assert (Hs : 0 < start) by
    (eapply (inv_range _ _ _ Hinv), Hsub, elem_of_frames; lia).
  assert (He : start + n - 1 < pmm_max_blocks p) by
    (eapply (inv_range _ _ _ Hinv), Hsub, elem_of_frames; lia).
  assert (HS : Z.of_nat (size (F ∖ frames start n)) = Z.of_nat (size F) - n).
  { rewrite size_difference by done. pose proof (subseteq_size _ _ Hsub).
    pose proof (size_frames start n). lia. }
  split; simpl.
  - done.
  - apply Hinv.
  - rewrite HS, (inv_used _ _ _ Hinv), u32_small; lia.
  - intros f. rewrite bitmap_test_used, set_bits_test by lia.
    rewrite elem_of_difference, elem_of_frames, (inv_bits _ _ _ Hinv f).
    destruct (in_range_spec start n f); simpl; naive_solver.
  - pose proof (inv_null _ _ _ Hinv). set_solver.
Qed.

Lemma inv_unset_range p m F start n :
  pmm_inv p m F -> 0 <= n -> 0 < start -> start + n <= pmm_max_blocks p ->
  frames start n ## F ->
  pmm_inv (set_used p (u32 (pmm_used_blocks p - n))) (unset_bits p m start n)
    (frames start n ∪ F).
Proof.
  intros Hinv Hn Hs He Hdis. pose proof (inv_max _ _ _ Hinv).
  assert (HS : Z.of_nat (size (frames start n ∪ F)) = n + Z.of_nat (size F)).
  { rewrite size_union by done. pose proof (size_frames start n). lia. }
  assert (Hle : Z.of_nat (size (frames start n ∪ F)) <= pmm_max_blocks p).
  { assert (frames start n ∪ F ⊆ frames 0 (pmm_max_blocks p)) as Hsub%subseteq_size.
    { apply union_subseteq. split; [|by eapply inv_subset].
      intros f. rewrite !elem_of_frames. lia. }
    pose proof (size_frames 0 (pmm_max_blocks p)). lia. }
  split; simpl.
  - done.
  - apply Hinv.
  - rewrite HS in *. rewrite (inv_used _ _ _ Hinv), u32_small; lia.
  - intros f. rewrite bitmap_test_used, unset_bits_test by lia.
    rewrite elem_of_union, elem_of_frames, (inv_bits _ _ _ Hinv f).
    destruct (in_range_spec start n f); simpl; naive_solver lia.
  - pose proof (inv_null _ _ _ Hinv). rewrite elem_of_union, elem_of_frames.
    intros [?|?]; [lia|done].
Qed.

(** The region loops change the counter and the bits together. *)
Lemma region_loop_set p m start n :
  is_u32 (pmm_used_blocks p) -> 0 <= n ->
  for_range 0 n (fun '(p, m) k => (set_used p (u32 (pmm_used_blocks p + 1)),
                       bitmap_set p m (u32 (start + k)))) (p, m) =
  (set_used p (u32 (pmm_used_blocks p + n)), set_bits p m start n).
Proof.
  intros Hu Hn. revert n Hn. apply natlike_ind.
  - unfold set_bits. rewrite !for_range_0 by lia.
    by rewrite Z.add_0_r, u32_small, set_used_id by (unfold is_u32 in *; lia).
  - intros n Hn IH. unfold set_bits in *. unfold Z.succ. rewrite !for_range_succ, IH by lia.
    cbn. f_equal. unfold set_used. cbn. f_equal. unfold u32. zdm.
Qed.

Lemma region_loop_unset p m start n :
  is_u32 (pmm_used_blocks p) -> 0 <= n ->
  for_range 0 n (fun '(p, m) k => (set_used p (u32 (pmm_used_blocks p - 1)),
                       bitmap_unset p m (u32 (start + k)))) (p, m) =
  (set_used p (u32 (pmm_used_blocks p - n)), unset_bits p m start n).
Proof.
  intros Hu Hn. revert n Hn. apply natlike_ind.
  - unfold unset_bits. rewrite !for_range_0 by lia.
    by rewrite Z.sub_0_r, u32_small, set_used_id by (unfold is_u32 in *; lia).
  - intros n Hn IH. unfold unset_bits in *. unfold Z.succ. rewrite !for_range_succ, IH by lia.
    cbn. f_equal. unfold set_used. cbn. f_equal. unfold u32. zdm.
Qed.

Lemma inv_used_u32 p m F : pmm_inv p m F -> is_u32 (pmm_used_blocks p).
Proof.
  intros Hinv. pose proof (inv_size _ _ _ Hinv). pose proof (inv_max _ _ _ Hinv).
  rewrite (inv_used _ _ _ Hinv). unfold is_u32. lia.
Qed.

(** ** Initialisation *)

Lemma pmm_init_inv m mem_size bitmap_addr p m' :
  is_u32 mem_size -> (mem_size / 4096) mod 32 = 0 -> 0 < mem_size / 4096 ->
  pmm_init m mem_size bitmap_addr = (p, m') ->
  pmm_inv p m' ∅ /\ frame bitmap_addr (mem_size / 4096 / 8) m m'.
Proof.
  unfold is_u32, pmm_init, PMM_BLOCK_SIZE, PMM_BLOCKS_PER_BYTE. intros Hm H32 H0 [= <- <-].
  assert (Hmax : 0 <= mem_size / 4096 <= 1048576) by zdm. split.
  2: { apply frame_memset. zdm. }
  split; cbn [pmm_max_blocks pmm_used_blocks pmm_bitmap]; [done|done|rewrite size_empty; lia| |set_solver].
  intros f. split; [set_solver|]. intros [Hf Ht]. exfalso.
  rewrite bitmap_test_bit in Ht. unfold word_addr in Ht. cbn [pmm_bitmap] in Ht.
  assert (Hw : load32 (memset m bitmap_addr 255 (mem_size / 4096 / 8))
                 (bitmap_addr + 4 * (f / 32)) = 4294967295).
  { unfold load32. rewrite !load8_memset by zdm.
    set (q := mem_size / 4096) in *. clearbody q.
    assert (4 * (f / 32) + 4 <= q / 8) by zdm.
    assert (0 <= f / 32) by zdm. rcases. done. }
  rewrite Hw in Ht. change 4294967295 with (Z.ones 32) in Ht.
  rewrite Z.ones_spec_low in Ht; [done|]. apply Z.mod_pos_bound. lia.
Qed.

Lemma pmm_init_region_inv p m F base size p' m' :
  pmm_inv p m F -> 4096 <= base -> 0 <= size -> base + size < 2147483648 ->
  base / 4096 + size / 4096 <= pmm_max_blocks p ->
  frames (base / 4096) (size / 4096) ## F ->
  pmm_init_region p m base size = (p', m') ->
  pmm_inv p' m' (frames (base / 4096) (size / 4096) ∪ F).
Proof.
  intros Hinv Hb Hs Hsum Hmax Hdis. unfold pmm_init_region, PMM_BLOCK_SIZE.
  rewrite !i32_small, !Z.quot_div_nonneg by lia.
  rewrite region_loop_unset by (by eapply inv_used_u32 || zdm). intros [= <- <-].
  pose proof (inv_unset_range p m F (base / 4096) (size / 4096) Hinv
    ltac:(zdm) ltac:(zdm) Hmax Hdis) as H1.
  pose proof (inv_max _ _ _ Hinv).
  assert (H0 : bitmap_test p (unset_bits p m (base / 4096) (size / 4096)) 0 = true).
  { rewrite unset_bits_test by zdm. rcases; [exfalso; zdm|]. simpl.
    apply (inv_test_out _ _ _ Hinv); [zdm|apply Hinv]. }
  split; try apply H1. intros f. rewrite (inv_bits _ _ _ H1 f).
  change (bitmap_set ?q ?x 0) with (bitmap_set p x 0).
  rewrite !bitmap_test_used, bitmap_test_set. destruct (Z.eqb_spec f 0) as [->|]; simpl; [|done].
  rewrite H0. naive_solver.
Qed.

Lemma pmm_deinit_region_inv p m F base size p' m' :
  pmm_inv p m F -> 0 <= base -> 0 <= size -> base + size < 2147483648 ->
  frames (base / 4096) (size / 4096) ⊆ F ->
  pmm_deinit_region p m base size = (p', m') ->
  pmm_inv p' m' (F ∖ frames (base / 4096) (size / 4096)).
Proof.
  intros Hinv Hb Hs Hsum Hsub. unfold pmm_deinit_region, PMM_BLOCK_SIZE.
  rewrite !i32_small, !Z.quot_div_nonneg by lia.
  rewrite region_loop_set by (by eapply inv_used_u32 || zdm). intros [= <- <-].
  apply inv_set_range; [done|zdm|done].
Qed.

(** ** The implementation of the frame allocator interface *)

Lemma bitmap_set_same p n m b : bitmap_set (set_used p n) m b = bitmap_set p m b.
Proof. done. Qed.

(** The bitmap's bytes, as the word range the bit operations touch. *)
Lemma bitmap_bytes p m F :
  pmm_inv p m F -> pmm_max_blocks p / 8 = 4 * (pmm_max_blocks p / 32) /\
    pmm_max_blocks p = 32 * (pmm_max_blocks p / 32).
Proof. intros H. pose proof (inv_words _ _ _ H). zdm. Qed.

#[export] Instance pmm_frame_alloc : FrameAlloc pmm := {
  fa_alloc := pmm_alloc_block;
  fa_free := pmm_free_block;
  fa_inv := fun p m F => pmm_inv p m F /\ bitmap_reserved p F;
  fa_managed := fun p f => 0 < f < pmm_max_blocks p /\
    disjoint (f * 4096) 4096 (pmm_bitmap p) (pmm_max_blocks p / 8);
  fa_lo := pmm_bitmap;
  fa_len := fun p => pmm_max_blocks p / 8
}.

#[export] Instance pmm_frame_alloc_laws : FrameAllocLaws pmm.
Proof.
  split; simpl.
  - intros p m [Hinv _]. destruct (alloc_block_spec p m ∅ Hinv) as [[_ H]|(f & [H _] & _)];
      [done|set_solver].
  - intros p m F [Hinv Hres] Hne.
    destruct (alloc_block_spec p m F Hinv) as [[? _]|(f & Hl & Hr & He)]; [done|].
    destruct (bitmap_bytes _ _ _ Hinv) as [Hb1 Hb2].
    exists f. do 2 eexists. split; [apply Hl|]. split; [exact He|]. split; [split|split].
    + apply inv_set; [done|apply Hl].
    + intros g Hg. apply Hres. set_solver.
    + rewrite Hb1. apply bitmap_set_frame. lia.
    + done.
  - intros p m F f off p' m' [Hinv Hres] [Hr Hd] Hf Ho.
    destruct (bitmap_bytes _ _ _ Hinv) as [Hb1 Hb2].
    rewrite (free_block_spec p m F) by done. intros [= <- <-]. split; [split|split].
    + by apply inv_unset.
    + intros g [->%elem_of_singleton|Hg]%elem_of_union; [done|by apply Hres].
    + rewrite Hb1. apply bitmap_unset_frame. lia.
    + done.
  - intros p m F f [Hinv Hres] Hf. split; [by eapply inv_range|by apply Hres].
  - intros p m F f [Hinv _] [Hr Hd]. pose proof (inv_max _ _ _ Hinv).
    unfold disjoint in Hd. lia.
  - intros p m m' F [Hinv Hres] Hs. split; [by eapply inv_same|done].
Qed.

(** ** Checking the invariant by computation *)

Definition free_list (p : pmm) (m : mem) : list Z :=
  filter (fun f => bitmap_test p m f = false) (seqZ 0 (pmm_max_blocks p)).
Definition free_frames (p : pmm) (m : mem) : gset Z := list_to_set (free_list p m).

Definition pmm_ok (p : pmm) (m : mem) : bool :=
  (0 <=? pmm_max_blocks p) && (pmm_max_blocks p <=? 1048576)
  && (pmm_max_blocks p mod 32 =? 0) && bitmap_test p m 0
  && (pmm_used_blocks p =? pmm_max_blocks p - Z.of_nat (length (free_list p m))).

Lemma pmm_ok_inv p m : pmm_ok p m = true -> pmm_inv p m (free_frames p m).
Proof.
  unfold pmm_ok. rewrite !andb_true_iff. intros ((((H1 & H2) & H3) & H4) & H5).
  split; try lia.
  - unfold free_frames. rewrite size_list_to_set; [lia|].
    unfold free_list. apply NoDup_filter, NoDup_seqZ.
  - intros f. unfold free_frames, free_list.
    rewrite elem_of_list_to_set, list_elem_of_filter, elem_of_seqZ. naive_solver lia.
  - unfold free_frames, free_list.
    rewrite elem_of_list_to_set, list_elem_of_filter. rewrite H4. naive_solver.
Qed.

Definition reserved_ok (p : pmm) (m : mem) : bool :=
  forallb (fun f => (f * 4096 + 4096 <=? pmm_bitmap p)
                    || (pmm_bitmap p + pmm_max_blocks p / 8 <=? f * 4096)) (free_list p m).

Lemma reserved_ok_spec p m : reserved_ok p m = true -> bitmap_reserved p (free_frames p m).
Proof.
  unfold reserved_ok. intros H f Hf%elem_of_list_to_set%list_elem_of_In.
  rewrite forallb_forall in H. specialize (H f Hf). unfold disjoint. lia.
Qed.

(** ** Several blocks at once *)

Lemma run_at_spec p m size f :
  0 < size -> run_at p m size f = true <->
  bitmap_test p m f = false /\
  forall k, 0 <= k < size -> bitmap_test p m (u32 (f + k)) = false.
Proof.
  intros Hs. unfold run_at. rewrite andb_true_iff, run_free_spec by done.
  by rewrite negb_true_iff.
Qed.

Lemma run_at_false p m size f :
  0 < size <= 1048576 -> 0 <= f < 1048576 ->
  run_at p m size f = false -> exists k, 0 <= k < size /\ bitmap_test p m (f + k) = true.
Proof.
  intros Hs Hf H.
  destruct (find_range (fun k => bitmap_test p m (f + k)) 0 (Z.to_nat size)) as [k|] eqn:E.
  - apply find_range_Some in E as (H1 & H2 & _). exists k. split; [lia|done].
  - exfalso. rewrite find_range_None in E.
    assert (run_at p m size f = true) as H'; [|congruence].
    apply run_at_spec; [lia|]. split.
    + rewrite <- (Z.add_0_r f). apply E. lia.
    + intros k Hk. rewrite u32_small by lia. apply E. lia.
Qed.

(** C10: allocation of one block refines "take the least free frame": it fails
    exactly when no frame is free and then changes nothing; otherwise it returns
    the address of the least free frame, which is not NULL, marks that frame and
    only that frame, and writes only the bitmap. *)
Theorem pmm_alloc_block_refines p m F :
  pmm_inv p m F ->
  let '(a, p', m') := pmm_alloc_block p m in
  (F = ∅ /\ a = 0 /\ p' = p /\ m' = m) \/
  (exists f, least F f /\ a = f * 4096 /\ 0 < f < pmm_max_blocks p /\
     pmm_inv p' m' (F ∖ {[f]}) /\
     (forall g, bitmap_test p' m' g = (g =? f) || bitmap_test p m g) /\
     frame (pmm_bitmap p) (pmm_max_blocks p / 8) m m').
Proof.
  intros Hinv. destruct (bitmap_bytes _ _ _ Hinv) as [Hb1 Hb2].
  destruct (alloc_block_spec p m F Hinv) as [[HF He]|(f & Hl & Hr & He)]; rewrite He.
  - by left.
  - right. exists f. repeat (split; [done|]). split; [by apply inv_set; [|apply Hl]|].
    split; [intros g; by rewrite bitmap_test_used, bitmap_test_set|].
    rewrite Hb1. apply bitmap_set_frame. lia.
Qed.

(** A small machine: 32 frames, the bitmap at 0x1000, frames 5 and 31 free, and
    zeros in the memory after the bitmap. *)
Definition demo_pmm : pmm := Pmm 4096 4 131072 30 32.
Definition demo_bits : mem := store32 ∅ 4096 (not32 (2 ^ 5 + 2 ^ 31)).

Lemma demo_pmm_inv : pmm_inv demo_pmm demo_bits {[5; 31]}.
Proof.
  assert (free_frames demo_pmm demo_bits = {[5; 31]}) as <- by (vm_compute; reflexivity).
  apply pmm_ok_inv. vm_compute. reflexivity.
Qed.

Lemma pmm_alloc_block_refines_witness :
  let '(a, p', m') := pmm_alloc_block demo_pmm demo_bits in
  ({[5; 31]} = (∅ : gset Z) /\ a = 0 /\ p' = demo_pmm /\ m' = demo_bits) \/
  (exists f, least {[5; 31]} f /\ a = f * 4096 /\ 0 < f < pmm_max_blocks demo_pmm /\
     pmm_inv p' m' ({[5; 31]} ∖ {[f]}) /\
     (forall g, bitmap_test p' m' g = (g =? f) || bitmap_test demo_pmm demo_bits g) /\
     frame (pmm_bitmap demo_pmm) (pmm_max_blocks demo_pmm / 8) demo_bits m').
Proof. exact (pmm_alloc_block_refines demo_pmm demo_bits {[5; 31]} demo_pmm_inv). Defined.

(** releasing an allocated block undoes an allocation exactly: freeing the
    address that [pmm_alloc_block] returned gives back the same counters and
    the same memory, bit for bit. *)
Theorem pmm_alloc_free_roundtrip p m F a p' m' :
  pmm_inv p m F -> pmm_alloc_block p m = (a, p', m') -> a <> 0 ->
  exists m'', pmm_free_block p' m' a = (p, m'') /\ m'' ≅ m.
Proof.
  intros Hinv Ha Hne.
  destruct (alloc_block_spec p m F Hinv) as [[_ He]|(f & [Hf _] & Hr & He)];
    rewrite He in Ha; injection Ha as <- <- <-; [done|].
  pose proof (inv_used_u32 _ _ _ Hinv) as Hu. unfold is_u32 in Hu.
  eexists. split.
  - rewrite <- (Z.add_0_r (f * 4096)).
    rewrite (free_block_spec _ _ (F ∖ {[f]})); [|apply inv_set; done|done|set_solver|lia].
    f_equal. unfold set_used. destruct p; simpl in *. f_equal. unfold u32. zdm.
  - pose proof (inv_test_in _ _ _ Hinv f Hf) as Ht. rewrite bitmap_test_bit in Ht.
    apply (mem_eq_word _ _ (word_addr p f)).
    + eapply frame_trans; apply frame_store32; try done; unfold word_addr; simpl; lia.
    + unfold bitmap_unset. change (word_addr (set_used _ _) f) with (word_addr p f).
      unfold bitmap_set. rewrite !load32_store32_eq.
      set (w := load32 m (word_addr p f)) in *.
      assert (Hw : is_u32 w) by apply load32_range.
      pose proof (Z.mod_pos_bound f 32 ltac:(lia)).
      apply is_u32_bits in Hw as [_ Hw]. apply Z.bits_inj'. intros k Hk.
      unfold not32. rewrite u32_testbit, Z.land_spec, !u32_testbit, Z.lor_spec,
        Z.lnot_spec, testbit_pow2 by lia.
      zcases; simpl; try (by rewrite Hw by lia); subst.
      * by rewrite Ht, andb_false_r.
      * by rewrite orb_false_r, andb_true_r.
Qed.

Lemma pmm_alloc_free_roundtrip_witness :
  exists m'', pmm_free_block (set_used demo_pmm 31) (bitmap_set demo_pmm demo_bits 5) 20480
    = (demo_pmm, m'') /\ m'' ≅ demo_bits.
Proof.
  apply (pmm_alloc_free_roundtrip demo_pmm demo_bits {[5; 31]} 20480);
    [exact demo_pmm_inv|vm_compute; reflexivity|discriminate].
Defined.

(** allocation of a run of [count] blocks is first fit over the bits: it
    returns the least start below the managed limit from which [count] bits are
    clear, sets exactly those bits, and fails without effect when there is no
    such start or fewer than [count] frames are free.  When the run ends inside
    the managed range, exactly its frames leave the free set. *)
Theorem pmm_alloc_blocks_first_fit p m F count :
  pmm_inv p m F -> 0 < count ->
  let '(a, p', m') := pmm_alloc_blocks p m count in
  (a = 0 /\ p' = p /\ m' = m /\
     (Z.of_nat (size F) < count \/
      forall s, 0 <= s < pmm_max_blocks p ->
        exists k, 0 <= k < count /\ bitmap_test p m (s + k) = true)) \/
  (exists s, a = s * 4096 /\ 0 < s < pmm_max_blocks p /\
     (forall k, 0 <= k < count -> bitmap_test p m (s + k) = false) /\
     (forall s', 0 <= s' < s -> exists k, 0 <= k < count /\ bitmap_test p m (s' + k) = true) /\
     (forall g, bitmap_test p' m' g = in_range s count g || bitmap_test p m g) /\
     (s + count <= pmm_max_blocks p -> pmm_inv p' m' (F ∖ frames s count))).
Proof.
  intros Hinv Hc. unfold pmm_alloc_blocks. rewrite (inv_free_count _ _ _ Hinv).
  pose proof (inv_max _ _ _ Hinv) as Hmax. pose proof (inv_size _ _ _ Hinv) as Hsize.
  destruct (Z.ltb_spec (Z.of_nat (size F)) count); [left; naive_solver|].
  rewrite bitmap_first_free_s_find by (apply Hinv || done).
  destruct (find_range _ _ _) as [s|] eqn:E; simpl.
  - apply find_range_Some in E as (H1 & H2 & H3).
    apply run_at_spec in H2 as [H2 H4]; [|lia].
    assert (Hin : s ∈ F) by (apply (inv_bits _ _ _ Hinv); split; [lia|done]).
    pose proof (inv_range _ _ _ Hinv s Hin).
    rewrite (proj2 (Z.eqb_neq s (-1))) by lia. right. exists s.
    split; [unfold PMM_BLOCK_SIZE; by rewrite u32_small by lia|]. split; [done|].
    assert (Hrun : forall k, 0 <= k < count -> bitmap_test p m (s + k) = false).
    { intros k Hk. specialize (H4 k Hk). by rewrite u32_small in H4 by lia. }
    split; [done|]. split; [|split].
    + intros s' Hs'. apply run_at_false; [lia|lia|]. apply H3. lia.
    + intros g. rewrite bitmap_test_used. apply set_bits_test; lia.
    + intros Hend. apply (inv_set_range p m F s count Hinv); [lia|].
      intros f Hf%elem_of_frames. apply (inv_bits _ _ _ Hinv). split; [lia|].
      replace f with (s + (f - s)) by lia. apply Hrun. lia.
  - left. split; [done|]. split; [done|]. split; [done|]. right.
    rewrite find_range_None in E. intros s Hs. apply run_at_false; [lia..|]. apply E. lia.
Qed.

Lemma pmm_alloc_blocks_first_fit_witness :
  let '(a, p', m') := pmm_alloc_blocks demo_pmm demo_bits 1 in
  (a = 0 /\ p' = demo_pmm /\ m' = demo_bits /\
     (Z.of_nat (size ({[5; 31]} : gset Z)) < 1 \/
      forall s, 0 <= s < pmm_max_blocks demo_pmm ->
        exists k, 0 <= k < 1 /\ bitmap_test demo_pmm demo_bits (s + k) = true)) \/
  (exists s, a = s * 4096 /\ 0 < s < pmm_max_blocks demo_pmm /\
     (forall k, 0 <= k < 1 -> bitmap_test demo_pmm demo_bits (s + k) = false) /\
     (forall s', 0 <= s' < s ->
        exists k, 0 <= k < 1 /\ bitmap_test demo_pmm demo_bits (s' + k) = true) /\
     (forall g, bitmap_test p' m' g = in_range s 1 g || bitmap_test demo_pmm demo_bits g) /\
     (s + 1 <= pmm_max_blocks demo_pmm -> pmm_inv p' m' ({[5; 31]} ∖ frames s 1))).
Proof. exact (pmm_alloc_blocks_first_fit demo_pmm demo_bits {[5; 31]} 1 demo_pmm_inv eq_refl). Defined.

(** The search for a run tests bits past the end of the bitmap: here the last
    frame and the zero word behind the bitmap make a run of two blocks, of which
    the second is outside the managed memory. *)
Example pmm_alloc_blocks_past_the_end :
  pmm_inv demo_pmm demo_bits {[5; 31]} /\
  (pmm_alloc_blocks demo_pmm demo_bits 2).1.1 = 31 * 4096 /\
  pmm_max_blocks demo_pmm < 31 + 2.
Proof. split; [exact demo_pmm_inv|]. by vm_compute. Qed.

(** Making a region available that starts at address 0 counts frame 0 as free
    and then protects it, so the counter exceeds the free frames by one. *)
Example pmm_init_region_zero_miscounts :
  let '(p, m) := pmm_init ∅ 131072 4096 in
  let '(p, m) := pmm_init_region p m 0 16384 in
  pmm_get_free_block_count p = 4 /\ length (free_list p m) = 3%nat.
Proof. by vm_compute. Qed.

(** ** The boot sequence *)

Lemma boot_kernel_size_pages kernel_end :
  1048576 < kernel_end <= 67108864 ->
  boot_kernel_size kernel_end = (kernel_end - 1048576 + 4095) / 4096 * 4096.
Proof.
  intros Hk. unfold boot_kernel_size. rewrite u32_small by lia.
  set (x := kernel_end - 1048576 + 4095). assert (Hx : 0 <= x < 2 ^ 32) by lia.
  clearbody x. apply Z.bits_inj'. intros k Hk'.
  change 4096 with (2 ^ 12). rewrite <- Z.shiftl_mul_pow2, <- Z.shiftr_div_pow2 by lia.
  rewrite Z.shiftl_spec by done. rewrite Z.land_spec. unfold not32.
  rewrite u32_testbit, Z.lnot_spec by done. change 4095 with (Z.ones 12).
  destruct (decide (k < 12)).
  - rewrite Z.ones_spec_low, andb_false_r, andb_false_r by lia.
    by rewrite Z.testbit_neg_r by lia.
  - rewrite Z.ones_spec_high, Z.shiftr_spec by lia. replace (k - 12 + 12) with k by lia.
    zcases; [by rewrite andb_true_r|]. by rewrite (testbit_small x 32) by lia.
Qed.

(** The operations keep the place and the size of the bitmap. *)
Definition same_shape (p q : pmm) : Prop :=
  pmm_bitmap q = pmm_bitmap p /\ pmm_max_blocks q = pmm_max_blocks p.

Lemma region_loop_shape (g : pmm -> Z) (h : pmm -> mem -> Z -> mem) p m n :
  0 <= n ->
  same_shape p (for_range 0 n (fun '(p, m) k => (set_used p (g p), h p m k)) (p, m)).1.
Proof.
  intros Hn. apply (for_range_ind (fun _ t => same_shape p t.1)); [done|done|].
  by intros i [q t] Hi IH.
Qed.

Lemma pmm_init_shape m size addr p m' :
  pmm_init m size addr = (p, m') -> pmm_bitmap p = addr /\ pmm_max_blocks p = size / 4096.
Proof. unfold pmm_init. by intros [= <- _]. Qed.

Lemma pmm_init_region_shape p m base size p' m' :
  0 <= Z.quot (i32 size) 4096 -> pmm_init_region p m base size = (p', m') -> same_shape p p'.
Proof.
  intros H. unfold pmm_init_region.
  pose proof (region_loop_shape (fun p => u32 (pmm_used_blocks p - 1))
    (fun p m k => bitmap_unset p m (u32 (Z.quot (i32 base) PMM_BLOCK_SIZE + k))) p m _ H) as Hs.
  unfold PMM_BLOCK_SIZE in *. destruct (for_range _ _ _ _) as [q t]. by intros [= <- _].
Qed.

Lemma pmm_deinit_region_shape p m base size p' m' :
  0 <= Z.quot (i32 size) 4096 -> pmm_deinit_region p m base size = (p', m') -> same_shape p p'.
Proof.
  intros H. unfold pmm_deinit_region.
  pose proof (region_loop_shape (fun p => u32 (pmm_used_blocks p + 1))
    (fun p m k => bitmap_set p m (u32 (Z.quot (i32 base) PMM_BLOCK_SIZE + k))) p m _ H) as Hs.
  unfold PMM_BLOCK_SIZE in *. destruct (for_range _ _ _ _) as [q t]. by intros [= <- _].
Qed.

Lemma boot_pmm_inv m kernel_end p m' :
  1048576 < kernel_end <= 67108864 -> boot_pmm m kernel_end = (p, m') ->
  let n := (kernel_end - 1048576 + 4095) / 4096 in
  pmm_inv p m' (frames 256 32512 ∖ frames 256 n) /\ pmm_bitmap p = kernel_end /\
  pmm_max_blocks p = 32768.
Proof.
  intros Hk. unfold boot_pmm, boot_mem_end.
  destruct (pmm_init m 134217728 kernel_end) as [p1 m1] eqn:E1.
  destruct (pmm_init_region p1 m1 _ _) as [p2 m2] eqn:E2. intros E3. set (n := (kernel_end - 1048576 + 4095) / 4096).
  pose proof (pmm_init_shape _ _ _ _ _ E1) as [Hb1 Hm1].
  change (134217728 / 4096) with 32768 in Hm1.
  apply pmm_init_inv in E1 as [H1 _]; [|unfold is_u32; lia|done|done].
  assert (Hq : 0 <= Z.quot (i32 (134217728 - 1048576)) 4096) by (vm_compute; discriminate).
  pose proof (pmm_init_region_shape _ _ _ _ _ _ Hq E2) as [Hb2 Hm2].
  apply (pmm_init_region_inv p1 m1 ∅) in E2;
    [|done|lia|lia|lia|rewrite Hm1; vm_compute; discriminate|apply disjoint_empty_r].
  change (1048576 / 4096) with 256 in E2.
  change ((134217728 - 1048576) / 4096) with 32512 in E2. rewrite union_empty_r_L in E2.
  assert (Hn : 0 <= n <= 16128) by (subst n; zdm).
  rewrite boot_kernel_size_pages in E3 by done. fold n in E3.
  assert (Hq' : 0 <= Z.quot (i32 (n * 4096)) 4096).
  { rewrite i32_small by lia. apply Z.quot_pos; lia. }
  pose proof (pmm_deinit_region_shape _ _ _ _ _ _ Hq' E3) as [Hb3 Hm3].
  apply (pmm_deinit_region_inv p2 m2 (frames 256 32512)) in E3; [|exact E2|lia|lia|lia|].
  - rewrite Z.div_mul in E3 by lia. split; [done|]. split; congruence.
  - rewrite Z.div_mul by lia. intros f. rewrite !elem_of_frames.
    change (1048576 / 4096) with 256. lia.
Qed.

(** after the boot sequence of [kernel_main] the first frame that the
    manager hands out overlaps the manager's own bitmap, for every end address of
    the kernel image: the bitmap placed at [_kernel_end] is never reserved. *)
Theorem boot_hands_out_the_bitmap m kernel_end p m' :
  1048576 < kernel_end <= 67108864 -> boot_pmm m kernel_end = (p, m') ->
  exists f, (pmm_alloc_block p m').1.1 = f * 4096 /\
    ~ disjoint (f * 4096) 4096 (pmm_bitmap p) (pmm_max_blocks p / 8).
Proof.
  intros Hk E. destruct (boot_pmm_inv _ _ _ _ Hk E) as (Hinv & Hb & Hm).
  set (n := (kernel_end - 1048576 + 4095) / 4096) in *.
  assert (Hn : 0 < n <= 16128) by (subst n; zdm).
  assert (Hf : 256 + n ∈ frames 256 32512 ∖ frames 256 n).
  { rewrite elem_of_difference, !elem_of_frames. lia. }
  destruct (alloc_block_spec p m' _ Hinv) as [[HF _]|(f & [Hin Hl] & _ & He)].
  { rewrite HF in Hf. destruct (not_elem_of_empty (C := gset Z) _ Hf). }
  assert (f = 256 + n) as ->.
  { specialize (Hl _ Hf). rewrite elem_of_difference, !elem_of_frames in Hin. lia. }
  exists (256 + n). rewrite He. split; [done|]. rewrite Hb, Hm. unfold disjoint.
  change (32768 / 8) with 4096. subst n. zdm.
Qed.

Lemma boot_hands_out_the_bitmap_witness :
  exists f, (pmm_alloc_block (boot_pmm ∅ 6000000).1 (boot_pmm ∅ 6000000).2).1.1 = f * 4096 /\
    ~ disjoint (f * 4096) 4096 (pmm_bitmap (boot_pmm ∅ 6000000).1)
        (pmm_max_blocks (boot_pmm ∅ 6000000).1 / 8).
Proof.
  apply (boot_hands_out_the_bitmap ∅ 6000000); [lia|apply surjective_pairing].
Defined.
