(* ===== verification/KAlloc.v ===== *)
(** The interface of the kernel heap: what [kmalloc] and [kfree] promise to the
    code that allocates its structures with them.

    The state of an allocator describes a set of live blocks, a map from the
    address of each block to its size.  An allocation that succeeds adds a new
    block and leaves the bytes of every live block alone; a release removes
    one.  The users of the heap (Sched, Ipc) are verified against this class;
    Heap is its implementation. *)

From S2P Require Import Prelude Mem.
Local Open Scope Z_scope.

(** The bytes of all live blocks are the same in [m] and [m']. *)
Definition preserves (L : gmap Z Z) (m m' : mem) : Prop :=
  forall q k, L !! q = Some k -> same_range q k m m'.

Class KAlloc (St : Type) := {
  (** [None] is a computation that does not end. *)
  ka_malloc : St -> mem -> Z -> option (Z * St * mem);
  ka_free : St -> mem -> Z -> option (St * mem);
  ka_inv : St -> mem -> gmap Z Z -> Prop;
  ka_lo : St -> Z;
  ka_len : St -> Z
}.

Class KAllocLaws (St : Type) `{KAlloc St} := {
  ka_malloc_ok s m L n : ka_inv s m L -> 0 < n <= 4294967292 ->
    exists a s' m', ka_malloc s m n = Some (a, s', m') /\
      ka_lo s' = ka_lo s /\ ka_len s' = ka_len s /\
      preserves L m m' /\ frame (ka_lo s) (ka_len s) m m' /\
      (a = 0 /\ ka_inv s' m' L \/
       exists k, n <= k /\ L !! a = None /\ ka_inv s' m' (<[a := k]> L));
  ka_free_ok s m L a k : ka_inv s m L -> L !! a = Some k ->
    exists s' m', ka_free s m a = Some (s', m') /\
      ka_lo s' = ka_lo s /\ ka_len s' = ka_len s /\
      preserves L m m' /\ frame (ka_lo s) (ka_len s) m m' /\
      ka_inv s' m' (delete a L);
  ka_free_null s m : ka_free s m 0 = Some (s, m);
  ka_range s m L a k : ka_inv s m L -> L !! a = Some k ->
    0 < a /\ 0 <= k /\ ka_lo s <= a /\ a + k <= ka_lo s + ka_len s /\ a + k < 4294967296;
  ka_disjoint s m L a k b j : ka_inv s m L -> L !! a = Some k -> L !! b = Some j ->
    a <> b -> a + k <= b \/ b + j <= a;
  (** The owner of a block may write to it, and nobody else's writes matter
      as long as they stay outside the heap. *)
  ka_write s m L a k m' : ka_inv s m L -> L !! a = Some k -> frame a k m m' ->
    ka_inv s m' L;
  ka_outside s m L m' : ka_inv s m L -> same_range (ka_lo s) (ka_len s) m m' ->
    ka_inv s m' L
}.

Lemma preserves_refl L m : preserves L m m.
Proof. done. Qed.

Lemma preserves_trans L m1 m2 m3 :
  preserves L m1 m2 -> preserves L m2 m3 -> preserves L m1 m3.
Proof. intros H1 H2 q k Hq. eapply same_range_trans; [by apply H1|by apply H2]. Qed.

Lemma preserves_delete L a m m' : preserves L m m' -> preserves (delete a L) m m'.
Proof. intros H q k [_ Hq]%lookup_delete_Some. by apply H. Qed.
