(* ===== verification/Heap.v ===== *)
(** kernel/mm/heap.c: the kernel heap, a chain of headed blocks in memory.

    A block at address [b] is a 12-byte [struct heap_block] (size at [b], used
    flag at [b + 4], next pointer at [b + 8]) followed by [size] bytes.  The
    operations read and write those bytes.  The abstract state is the list of
    (size, used) pairs of the blocks in address order: [heap_inv] says that the
    chain in memory is that list and that the blocks tile the heap.  Loops along
    the chain take [heap_fuel], one more than the blocks the heap can hold. *)

From S2P Require Import Prelude Mem KAlloc.
Local Open Scope Z_scope.
Local Open Scope kernel_scope.

(** ** Definitions *)

Record heap := Heap { heap_start : Z; heap_size : Z; heap_used : Z }.

Definition set_heap_used (h : heap) (n : Z) : heap := Heap (heap_start h) (heap_size h) n.

(** sizeof(struct heap_block) on i386 *)
Definition HDR : Z := 12.

Definition blk_size (m : mem) (b : Z) : Z := load32 m b.
Definition blk_used (m : mem) (b : Z) : Z := load8 m (b + 4).
Definition blk_next (m : mem) (b : Z) : Z := load32 m (b + 8).
Definition set_size (m : mem) (b v : Z) : mem := store32 m b v.
Definition set_flag (m : mem) (b v : Z) : mem := store8 m (b + 4) v.
Definition set_next (m : mem) (b v : Z) : mem := store32 m (b + 8) v.

Definition heap_end (h : heap) : Z := u32 (heap_start h + heap_size h).

(** The bounds test of the walking loops. *)
Definition outside (h : heap) (b : Z) : bool := (b <? heap_start h) || (heap_end h <=? b).

Definition heap_init (m : mem) (start size : Z) : Z * heap * mem :=
  let m := set_size m start (u32 (size - HDR)) in
  let m := set_flag m start 0 in
  let m := set_next m start 0 in
  (u32 (start + HDR), Heap start size HDR, m).

Definition split_block (m : mem) (block size : Z) : mem :=
  if u32 (size + HDR + 16) <=? blk_size m block then
    let new_block := u32 (block + HDR + size) in
    let m := set_size m new_block (u32 (blk_size m block - size - HDR)) in
    let m := set_flag m new_block 0 in
    let m := set_next m new_block (blk_next m block) in
    let m := set_size m block size in
    set_next m block new_block
  else m.

Fixpoint merge_loop (fuel : nat) (h : heap) (m : mem) (block : Z) : option mem :=
  match fuel with
  | O => None
  | S f =>
      if (block =? 0) || (blk_next m block =? 0) then Some m
      else if outside h block then Some m
      else if outside h (blk_next m block) then Some m
      else if (blk_used m block =? 0) && (blk_used m (blk_next m block) =? 0) then
        let new_size := u32 (blk_size m block + HDR + blk_size m (blk_next m block)) in
        if (new_size <? blk_size m block) || (heap_size h <=? new_size) then
          merge_loop f h m (blk_next m block)
        else
          let m := set_size m block new_size in
          let m := set_next m block (blk_next m (blk_next m block)) in
          merge_loop f h m block
      else merge_loop f h m (blk_next m block)
  end.

Definition heap_fuel (h : heap) : nat := S (S (Z.to_nat (heap_size h / HDR))).

Definition merge_free_blocks (h : heap) (m : mem) : option mem :=
  merge_loop (heap_fuel h) h m (heap_start h).

Fixpoint best_fit_loop (fuel : nat) (m : mem) (size block best best_diff : Z) : option Z :=
  match fuel with
  | O => None
  | S f =>
      if block =? 0 then Some best
      else if (blk_used m block =? 0) && (size <=? blk_size m block) then
        let diff := u32 (blk_size m block - size) in
        if diff <? best_diff then
          if diff =? 0 then Some block
          else best_fit_loop f m size (blk_next m block) block diff
        else best_fit_loop f m size (blk_next m block) best best_diff
      else best_fit_loop f m size (blk_next m block) best best_diff
  end.

Definition find_best_fit (h : heap) (m : mem) (size : Z) : option Z :=
  best_fit_loop (heap_fuel h) m size (heap_start h) 0 4294967295.

(** The common tail of [kmalloc]: split, mark and count the block that was found. *)
Definition take_block (h : heap) (m : mem) (block size : Z) : Z * heap * mem :=
  let m := split_block m block size in
  let m := set_flag m block 1 in
  (u32 (block + HDR), set_heap_used h (u32 (heap_used h + size + HDR)), m).

(** [None]: a loop along the chain does not end within the fuel. *)
Definition kmalloc (h : heap) (m : mem) (size : Z) : option (Z * heap * mem) :=
  if size =? 0 then Some (0, h, m) else
  let size := Z.land (u32 (size + 3)) (not32 3) in
  match find_best_fit h m size with
  | None => None
  | Some block =>
      if negb (block =? 0) then Some (take_block h m block size) else
      match merge_free_blocks h m with
      | None => None
      | Some m =>
          match find_best_fit h m size with
          | None => None
          | Some block =>
              if negb (block =? 0) then Some (take_block h m block size) else Some (0, h, m)
          end
      end
  end.

Definition ALIGN_MAGIC : Z := 2702987245.

Definition kmalloc_aligned (h : heap) (m : mem) (size align : Z) : option (Z * heap * mem) :=
  if (align =? 0) || negb (Z.land align (u32 (align - 1)) =? 0) then Some (0, h, m) else
  let total := u32 (size + align + 4 + 4) in
  match kmalloc h m total with
  | None => None
  | Some (ptr, h, m) =>
      if ptr =? 0 then Some (0, h, m) else
      let aligned := Z.land (u32 (ptr + 4 + 4 + align - 1)) (not32 (u32 (align - 1))) in
      let m := store32 m (u32 (aligned - 4 - 4)) ALIGN_MAGIC in
      let m := store32 m (u32 (aligned - 4)) ptr in
      Some (aligned, h, m)
  end.

Fixpoint validate_loop (fuel : nat) (h : heap) (m : mem) (block : Z) : option mem :=
  match fuel with
  | O => None
  | S f =>
      if block =? 0 then Some m
      else if outside h block then Some m
      else if (blk_used m block =? 0) && (blk_size m block =? 0) && negb (blk_next m block =? 0)
      then merge_free_blocks h m
      else validate_loop f h m (blk_next m block)
  end.

Definition heap_validate (h : heap) (m : mem) : option mem :=
  validate_loop (heap_fuel h) h m (heap_start h).

Definition kfree (h : heap) (m : mem) (ptr : Z) : option (heap * mem) :=
  if ptr =? 0 then Some (h, m) else
  if outside h ptr then Some (h, m) else
  let magic_location := u32 (ptr - 4 - 4) in
  let aligned := load32 m magic_location =? ALIGN_MAGIC in
  let orig_ptr := load32 m (u32 (ptr - 4)) in
  if aligned && outside h orig_ptr then Some (h, m) else
  let ptr := if aligned then orig_ptr else ptr in
  let block := u32 (ptr - HDR) in
  if negb (blk_used m block =? 0) then
    let h := set_heap_used h (u32 (heap_used h - (blk_size m block + HDR))) in
    let m := set_flag m block 0 in
    match merge_free_blocks h m with
    | None => None
    | Some m =>
        match heap_validate h m with
        | None => None
        | Some m => Some (h, m)
        end
    end
  else Some (h, m).

Definition heap_get_used (h : heap) : Z := heap_used h.
Definition heap_get_free (h : heap) : Z := u32 (heap_size h - heap_used h).

(** The counting loop, which starts again after a merge; [None] when [fuel] ends. *)
Fixpoint fragmentation_loop (fuel : nat) (h : heap) (m : mem)
    (block count largest iterations : Z) : option (Z * Z * mem) :=
  match fuel with
  | O => None
  | S f =>
      if negb (negb (block =? 0) && (iterations <? 10000)) then Some (count, largest, m)
      else if outside h block then Some (count, largest, m)
      else if (blk_size m block =? 0) && negb (blk_next m block =? 0) then
        match merge_free_blocks h m with
        | None => None
        | Some m => fragmentation_loop f h m (heap_start h) 0 0 iterations
        end
      else if blk_used m block =? 0 then
        fragmentation_loop f h m (blk_next m block) (u32 (count + 1))
          (Z.max largest (blk_size m block)) (u32 (iterations + 1))
      else fragmentation_loop f h m (blk_next m block) count largest (u32 (iterations + 1))
  end.

Definition heap_get_fragmentation (fuel : nat) (h : heap) (m : mem) : option (Z * Z * mem) :=
  fragmentation_loop fuel h m (heap_start h) 0 0 0.

Definition heap_defragment (h : heap) (m : mem) : option mem := merge_free_blocks h m.

(** ** The abstract heap *)

(** Size and used flag of a block. *)
Abbreviation ablock := (Z * bool)%type.

(** Bytes of a list of blocks, headers included. *)
Fixpoint span (bs : list ablock) : Z :=
  match bs with
  | [] => 0
  | (s, _) :: bs' => HDR + s + span bs'
  end.

(** The blocks [bs] lie one after the other from [p]; the last points to [e]. *)
Fixpoint hseg (m : mem) (p : Z) (bs : list ablock) (e : Z) : Prop :=
  match bs with
  | [] => True
  | (s, u) :: bs' =>
      0 <= s /\ blk_size m p = s /\ blk_used m p = Z.b2z u /\
      blk_next m p = (match bs' with [] => e | _ => p + HDR + s end) /\
      hseg m (p + HDR + s) bs' e
  end.

Record heap_inv (h : heap) (m : mem) (bs : list ablock) : Prop := {
  hi_start : 0 < heap_start h;  (* and room for the additions of [split_block] *)
  hi_end : heap_start h + heap_size h + 16 < 4294967296;
  hi_tile : span bs = heap_size h;
  hi_ne : bs <> [];
  hi_chain : hseg m (heap_start h) bs 0
}.

(** Coalescing on lists. *)
Fixpoint amerge (cur : ablock) (rest : list ablock) : list ablock :=
  match rest with
  | [] => [cur]
  | nxt :: rest' =>
      if negb cur.2 && negb nxt.2 then amerge (cur.1 + HDR + nxt.1, false) rest'
      else cur :: amerge nxt rest'
  end.
Definition coalesce (bs : list ablock) : list ablock :=
  match bs with [] => [] | b :: bs' => amerge b bs' end.

(** No two neighbouring free blocks. *)
Fixpoint coalesced (bs : list ablock) : Prop :=
  match bs with
  | (_, u) :: (((_, v) :: _) as bs') => (u = true \/ v = true) /\ coalesced bs'
  | _ => True
  end.

(** What a block of [s] bytes becomes when [size] bytes of it are taken. *)
Definition asplit (s size : Z) : list ablock :=
  if size + HDR + 16 <=? s then [(size, true); (s - size - HDR, false)] else [(s, true)].

(** A header byte of one of the blocks laid out from [p]. *)
Fixpoint header_byte (p : Z) (bs : list ablock) (a : Z) : Prop :=
  match bs with
  | [] => False
  | (s, _) :: bs' => p <= a < p + HDR \/ header_byte (p + HDR + s) bs' a
  end.

(** The first block, with its address, that fits [size] with the least excess. *)
Fixpoint abest (size p : Z) (bs : list ablock) (best : option (Z * Z)) : option (Z * Z) :=
  match bs with
  | [] => best
  | (s, u) :: bs' =>
      let best' :=
        if negb u && (size <=? s) then
          match best with
          | Some (_, d) => if s - size <? d then Some (p, s - size) else best
          | None => Some (p, s - size)
          end
        else best in
      abest size (p + HDR + s) bs' best'
  end.

(** Payload address and size of the used blocks. *)
Fixpoint live (p : Z) (bs : list ablock) : list (Z * Z) :=
  match bs with
  | [] => []
  | (s, u) :: bs' => (if u then [(p + HDR, s)] else []) ++ live (p + HDR + s) bs'
  end.

(** ** Lemmas on block lists *)

Lemma HDR_eq : HDR = 12.
Proof. done. Qed.

Definition sizes_ok (bs : list ablock) : Prop := Forall (fun b => 0 <= b.1) bs.

Lemma span_app bs cs : span (bs ++ cs) = span bs + span cs.
Proof. induction bs as [|[s u] bs IH]; simpl; lia. Qed.

Lemma hseg_sizes m p bs e : hseg m p bs e -> sizes_ok bs.
Proof.
  revert p. induction bs as [|[s u] bs IH]; intros p H; [constructor|].
  destruct H as (? & _ & _ & _ & H). constructor; [done|]. by eapply IH.
Qed.

Lemma span_length bs : sizes_ok bs -> HDR * Z.of_nat (length bs) <= span bs.
Proof. unfold HDR. induction 1 as [|[s u] bs Hs _ IH]; simpl in *; unfold HDR in *; lia. Qed.

Lemma span_nonneg bs : sizes_ok bs -> 0 <= span bs.
Proof. intros H. pose proof (span_length bs H). unfold HDR in *. lia. Qed.

Lemma hseg_app m p bs cs e :
  hseg m p (bs ++ cs) e <->
  hseg m p bs (match cs with [] => e | _ => p + span bs end) /\ hseg m (p + span bs) cs e.
Proof.
  revert p. induction bs as [|[s u] bs IH]; intros p; simpl.
  - rewrite Z.add_0_r. tauto.
  - rewrite IH, !Z.add_assoc.
    destruct bs as [|b bs]; destruct cs as [|c cs]; simpl; rewrite ?Z.add_0_r; tauto.
Qed.

Lemma header_byte_app p bs cs a :
  header_byte p (bs ++ cs) a <-> header_byte p bs a \/ header_byte (p + span bs) cs a.
Proof.
  revert p. induction bs as [|[s u] bs IH]; intros p; simpl.
  - rewrite Z.add_0_r. tauto.
  - rewrite IH, !Z.add_assoc. tauto.
Qed.

Lemma header_byte_range p bs a :
  sizes_ok bs -> header_byte p bs a -> p <= a < p + span bs.
Proof.
  intros H. revert p. induction H as [|[s u] bs Hs Hbs IH]; intros p; simpl in *; [done|].
  pose proof (span_nonneg _ Hbs). intros [Ha|Ha]; [unfold HDR in *; lia|].
  apply IH in Ha. unfold HDR in *. lia.
Qed.

(** A chain reads only its header bytes. *)
Lemma hseg_frame m m' p bs e :
  (forall a, header_byte p bs a -> load8 m' a = load8 m a) ->
  hseg m p bs e -> hseg m' p bs e.
Proof.
  revert p. induction bs as [|[s u] bs IH]; intros p Hf; simpl; [done|].
  intros (Hs & H1 & H2 & H3 & H).
  assert (Hh : same_range p 12 m m') by (intros a Ha; apply Hf; left; unfold HDR; lia).
  unfold blk_size, blk_used, blk_next in *.
  rewrite (load32_same m m' p) by (intros a Ha; apply Hh; lia).
  rewrite (Hh (p + 4)) by lia.
  rewrite (load32_same m m' (p + 8)) by (intros a Ha; apply Hh; lia).
  repeat split; try done. apply IH; [|done]. intros a Ha. apply Hf. by right.
Qed.

Lemma live_app p bs cs : live p (bs ++ cs) = live p bs ++ live (p + span bs) cs.
Proof.
  revert p. induction bs as [|[s u] bs IH]; intros p; simpl.
  - by rewrite Z.add_0_r.
  - by rewrite IH, !Z.add_assoc, (assoc_L (++)).
Qed.

(** No header byte lies in the payload of a used block. *)
Lemma live_in p bs q n : (q, n) ∈ live p bs ->
  exists l r, bs = l ++ (n, true) :: r /\ q = p + span l + HDR.
Proof.
  revert p. induction bs as [|[s u] bs IH]; intros p; simpl; [by intros ?%not_elem_of_nil|].
  rewrite elem_of_app. intros [H|H].
  - destruct u; [|by apply not_elem_of_nil in H].
    apply list_elem_of_singleton in H. simplify_eq. exists [], bs. simpl. split; [done|lia].
  - destruct (IH _ H) as (l & r & -> & ->). exists ((s, u) :: l), r. simpl. split; [done|lia].
Qed.

Lemma live_no_header p bs q n a :
  sizes_ok bs -> (q, n) ∈ live p bs -> q <= a < q + n -> ~ header_byte p bs a.
Proof.
  intros Hs (l & r & -> & ->)%live_in Ha.
  apply Forall_app in Hs as [Hl Hr]. apply Forall_cons in Hr as [_ Hr].
  rewrite header_byte_app. simpl. intros [H|[H|H]].
  - apply header_byte_range in H; [|done]. unfold HDR in *. lia.
  - unfold HDR in *. lia.
  - apply header_byte_range in H; [|done]. simpl in *. lia.
Qed.

(** ** Coalescing on lists *)

Lemma amerge_span cur rest : span (amerge cur rest) = span (cur :: rest).
Proof.
  revert cur. induction rest as [|[s2 u2] rest IH]; intros [s u]; simpl; [done|].
  destruct u, u2; simpl; rewrite ?IH; simpl; lia.
Qed.

Lemma amerge_sizes cur rest : sizes_ok (cur :: rest) -> sizes_ok (amerge cur rest).
Proof.
  revert cur. induction rest as [|[s2 u2] rest IH]; intros [s u] H; simpl; [done|].
  apply Forall_cons in H as [H1 H]. pose proof H as [H2 H3]%Forall_cons. simpl in *.
  destruct u, u2; simpl; try (constructor; [done|]; apply IH; done).
  apply IH. constructor; [unfold HDR; simpl; lia|done].
Qed.

Lemma amerge_live p cur rest : live p (amerge cur rest) = live p (cur :: rest).
Proof.
  revert p cur. induction rest as [|[s2 u2] rest IH]; intros p [s u]; simpl; [done|].
  destruct u, u2; simpl; rewrite ?IH; simpl; try done.
  rewrite !Z.add_assoc. done.
Qed.

Lemma amerge_cons cur rest : exists s r, amerge cur rest = (s, cur.2) :: r.
Proof.
  revert cur. induction rest as [|[s2 u2] rest IH]; intros [s u]; simpl; [eauto|].
  destruct u, u2; simpl; eauto.
Qed.

Lemma coalesced_cons s u bs :
  coalesced bs -> (forall t r, bs <> (t, false) :: r) \/ u = true -> coalesced ((s, u) :: bs).
Proof.
  destruct bs as [|[t v] bs]; [done|]. intros H Hu. split; [|done].
  destruct v; [by right|]. destruct Hu as [Hu| ->]; [by destruct (Hu t bs)|by left].
Qed.

Lemma amerge_coalesced cur rest : coalesced (amerge cur rest).
Proof.
  revert cur. induction rest as [|[s2 u2] rest IH]; intros [s u]; simpl; [done|].
  destruct u, u2; simpl; try apply IH; apply coalesced_cons; try apply IH; auto.
  left. intros t r. destruct (amerge_cons (s2, true) rest) as (? & ? & ->). done.
Qed.

Lemma coalesced_amerge cur rest : coalesced (cur :: rest) -> amerge cur rest = cur :: rest.
Proof.
  revert cur. induction rest as [|[s2 u2] rest IH]; intros [s u]; simpl; [done|].
  intros [Hu Hc]. destruct u, u2; simpl; try (by destruct Hu); by rewrite IH.
Qed.

Lemma coalesce_coalesced bs : coalesced (coalesce bs).
Proof. destruct bs; [done|apply amerge_coalesced]. Qed.

Lemma coalesced_id bs : coalesced bs -> coalesce bs = bs.
Proof. destruct bs; [done|apply coalesced_amerge]. Qed.

Lemma coalesce_span bs : span (coalesce bs) = span bs.
Proof. destruct bs; [done|apply amerge_span]. Qed.

Lemma coalesce_live p bs : live p (coalesce bs) = live p bs.
Proof. destruct bs; [done|apply amerge_live]. Qed.

Lemma coalesce_sizes bs : sizes_ok bs -> sizes_ok (coalesce bs).
Proof. destruct bs; [done|apply amerge_sizes]. Qed.

Lemma coalesce_ne bs : bs <> [] -> coalesce bs <> [].
Proof. destruct bs as [|b bs]; [done|]. intros _. simpl. by destruct (amerge_cons b bs) as (? & ? & ->). Qed.

(** Two adjacent free blocks coalesce like their union. *)
Lemma amerge_join cur l s1 s2 r :
  amerge cur (l ++ (s1, false) :: (s2, false) :: r) =
  amerge cur (l ++ (s1 + HDR + s2, false) :: r).
Proof.
  revert cur. induction l as [|[s u] l IH]; intros [cs cu]; simpl.
  - destruct cu; simpl; [done|]. do 2 f_equal. lia.
  - destruct cu, u; simpl; by rewrite IH.
Qed.

Lemma coalesce_join l s1 s2 r :
  coalesce (l ++ (s1, false) :: (s2, false) :: r) = coalesce (l ++ (s1 + HDR + s2, false) :: r).
Proof. destruct l as [|b l]; simpl; [done|]. apply amerge_join. Qed.

(** ** [merge_free_blocks] *)

Lemma merge_step m p s1 u2 s2 r e :
  0 < p -> p + span ((s1, false) :: (s2, u2) :: r) < 4294967296 ->
  hseg m p ((s1, false) :: (s2, u2) :: r) e ->
  let m' := set_next (set_size m p (s1 + HDR + s2)) p (blk_next m (p + HDR + s1)) in
  hseg m' p ((s1 + HDR + s2, false) :: r) e /\ frame p HDR m m'.
Proof.
  intros Hp Hb H m'. pose proof (hseg_sizes _ _ _ _ H) as Hs.
  apply Forall_cons in Hs as [_ Hs]. apply Forall_cons in Hs as [_ Hs].
  pose proof (span_nonneg _ Hs) as Hsp.
  assert (Hf : frame p HDR m m').
  { unfold m', set_next, set_size, HDR. eapply frame_trans; apply frame_store32; lia. }
  destruct H as (H1 & H2 & H3 & H4 & H5 & H6 & H7 & H8 & H). simpl in Hb.
  split; [|done].
  assert (Hn : u32 (blk_next m (p + HDR + s1)) = blk_next m (p + HDR + s1))
    by (apply u32_small, load32_range).
  simpl. split; [unfold HDR; lia|].
  unfold m', blk_size, blk_used, blk_next, set_next, set_size in *. unfold HDR in *.
  split; [memsimp; done|].
  split; [memsimp; done|].
  split.
  { memsimp. rewrite Hn, H8. destruct r; [done|lia]. }
  replace (p + 12 + (s1 + 12 + s2)) with (p + 12 + s1 + 12 + s2) by lia.
  eapply hseg_frame; [|exact H]. intros a Ha. apply Hf.
  apply header_byte_range in Ha; [|done]. lia.
Qed.

Lemma merge_loop_spec h f m p cur rest :
  0 < heap_start h <= p -> p + span (cur :: rest) = heap_start h + heap_size h ->
  heap_start h + heap_size h < 4294967296 ->
  hseg m p (cur :: rest) 0 -> (length rest < f)%nat ->
  exists m', merge_loop f h m p = Some m' /\ hseg m' p (amerge cur rest) 0 /\
    (forall a, ~ header_byte p (cur :: rest) a -> load8 m' a = load8 m a).
Proof.
  revert m p cur f. induction rest as [|[s2 u2] rest IH]; intros m p [s u] f Hp Hend Hlim H Hf;
    (destruct f as [|f]; [simpl in Hf; lia|]).
  { exists m. destruct H as (H1 & H2 & H3 & H4 & _).
    cbn [merge_loop amerge]. rewrite H4, orb_true_r. repeat split; done. }
  pose proof (hseg_sizes _ _ _ _ H) as Hs. pose proof (span_nonneg _ Hs) as Hsp.
  pose proof Hs as [_ Hs2]%Forall_cons. pose proof (span_nonneg _ Hs2) as Hsp2.
  pose proof Hs2 as [Hs2' Hs3]%Forall_cons. pose proof (span_nonneg _ Hs3) as Hsp3.
  pose proof H as (H1 & H2 & H3 & H4 & Hn). pose proof Hn as (H5 & H6 & H7 & H8 & Hr).
  cbn [span] in *. cbn [merge_loop].
  rewrite H4. unfold outside, heap_end. rewrite u32_small by (unfold HDR in *; lia).
  replace (p =? 0) with false by lia.
  replace (p + HDR + s =? 0) with false by (unfold HDR; lia).
  replace (p <? heap_start h) with false by lia.
  replace (heap_start h + heap_size h <=? p) with false by (unfold HDR in *; lia).
  replace (p + HDR + s <? heap_start h) with false by (unfold HDR in *; lia).
  replace (heap_start h + heap_size h <=? p + HDR + s) with false by (unfold HDR in *; lia).
  cbn [orb]. rewrite H3, H7, H2, H6.
  destruct (negb u && negb u2) eqn:Eu.
  - destruct u, u2; try discriminate. cbn [Z.b2z Z.eqb andb].
    rewrite (u32_small (s + HDR + s2)) by (unfold HDR in *; lia).
    replace (s + HDR + s2 <? s) with false by (unfold HDR; lia).
    replace (heap_size h <=? s + HDR + s2) with false by (unfold HDR in *; lia).
    cbn [orb].
    assert (Hb : p + span ((s, false) :: (s2, false) :: rest) < 4294967296)
      by (cbn [span]; lia).
    pose proof (merge_step m p s false s2 rest 0 ltac:(lia) Hb H) as [Hm Hfr].
    replace (blk_next (set_size m p (s + HDR + s2)) p) with (p + HDR + s);
      [|unfold blk_next, set_size; memsimp; by rewrite <- H4].
    replace (blk_next (set_size m p (s + HDR + s2)) (p + HDR + s))
      with (blk_next m (p + HDR + s));
      [|unfold blk_next, set_size; unfold HDR; memsimp; done].
    destruct (IH _ p (s + HDR + s2, false) f Hp ltac:(cbn [span]; lia) Hlim Hm
      ltac:(simpl in Hf; lia)) as (m' & Hl & Hh & Hu).
    exists m'. split; [done|]. split; [done|]. intros a Ha.
    rewrite Hu; [apply Hfr; contradict Ha; left; done|].
    contradict Ha. destruct Ha as [Ha|Ha]; [by left|]. right. right.
    by replace (p + HDR + s + HDR + s2) with (p + HDR + (s + HDR + s2)) by lia.
  - replace ((Z.b2z u =? 0) && (Z.b2z u2 =? 0)) with false by (by destruct u, u2).
    destruct (IH m (p + HDR + s) (s2, u2) f ltac:(unfold HDR; lia) ltac:(cbn [span]; lia)
      Hlim Hn ltac:(simpl in Hf; lia)) as (m' & Hl & Hh & Hu).
    exists m'. split; [done|]. split.
    + cbn [amerge fst snd]. rewrite Eu.
      destruct (amerge_cons (s2, u2) rest) as (x & y & Ha). rewrite Ha in *.
      assert (Hc : hseg m' p [(s, u)] (p + HDR + s)).
      { apply (hseg_frame m); [|simpl; tauto].
        intros a [Hb|[]]. apply Hu. intros Hc.
        apply header_byte_range in Hc; [unfold HDR in *; lia|done]. }
      apply (proj2 (hseg_app m' p [(s, u)] ((x, u2) :: y) 0)).
      cbn [span]. rewrite Z.add_0_r, Z.add_assoc. split; done.
    + intros a Ha. apply Hu. contradict Ha. by right.
Qed.

Lemma heap_inv_fuel h m bs : heap_inv h m bs -> (length bs < heap_fuel h)%nat.
Proof.
  intros [Hs He Ht _ Hc]. pose proof (span_length _ (hseg_sizes _ _ _ _ Hc)) as Hl.
  unfold heap_fuel, HDR in *. rewrite Ht in Hl.
  assert (Z.of_nat (length bs) <= heap_size h / 12) by (apply Z.div_le_lower_bound; lia).
  lia.
Qed.

(** The bytes outside the headers of [bs] are the same in [m] and [m']. *)
Definition headers_only (h : heap) (bs : list ablock) (m m' : mem) : Prop :=
  forall a, ~ header_byte (heap_start h) bs a -> load8 m' a = load8 m a.

Lemma merge_free_blocks_spec h m bs :
  heap_inv h m bs ->
  exists m', merge_free_blocks h m = Some m' /\ heap_inv h m' (coalesce bs) /\
    headers_only h bs m m'.
Proof.
  intros H. pose proof (heap_inv_fuel _ _ _ H) as Hf. destruct H as [Hs He Ht Hne Hc].
  destruct bs as [|b bs]; [done|].
  destruct (merge_loop_spec h (heap_fuel h) m (heap_start h) b bs) as (m' & H1 & H2 & H3);
    [lia|lia|lia|done|simpl in Hf; lia|].
  exists m'. split; [done|]. split; [|done].
  split; [done|done|by rewrite coalesce_span|by apply coalesce_ne|done].
Qed.

(** ** [find_best_fit] *)

Definition best_addr (b : option (Z * Z)) : Z := match b with Some (a, _) => a | None => 0 end.
Definition best_diff (b : option (Z * Z)) : Z := match b with Some (_, d) => d | None => 4294967295 end.

Lemma abest_exact size p bs a : abest size p bs (Some (a, 0)) = Some (a, 0).
Proof.
  revert p. induction bs as [|[s u] bs IH]; intros p; simpl; [done|].
  destruct (negb u && (size <=? s)) eqn:E; [|apply IH].
  apply andb_true_iff in E as [_ E]. replace (s - size <? 0) with false by lia. apply IH.
Qed.

Lemma best_fit_loop_spec m size f p bs best :
  0 < p -> p + span bs < 4294967296 -> 0 <= size -> hseg m p bs 0 ->
  (length bs < f)%nat ->
  best_fit_loop f m size (match bs with [] => 0 | _ => p end) (best_addr best) (best_diff best)
    = Some (best_addr (abest size p bs best)).
Proof.
  revert f p best. induction bs as [|[s u] bs IH]; intros f p best Hp Hb Hsz H Hf;
    (destruct f as [|f]; [simpl in Hf; lia|]); [done|].
  pose proof (hseg_sizes _ _ _ _ H) as [_ Hs]%Forall_cons.
  pose proof (span_nonneg _ Hs) as Hsp. destruct H as (H1 & H2 & H3 & H4 & H).
  cbn [best_fit_loop abest span] in *. replace (p =? 0) with false by lia.
  rewrite H2, H3, H4.
  assert (Hnext : (match bs with [] => 0 | _ :: _ => p + HDR + s end)
    = (match bs with [] => 0 | _ => p + HDR + s end)) by done.
  assert (Hgo : forall b, best_fit_loop f m size (match bs with [] => 0 | _ :: _ => p + HDR + s end)
      (best_addr b) (best_diff b) = Some (best_addr (abest size (p + HDR + s) bs b))).
  { intros b. apply IH; [unfold HDR; lia|lia|done|done|simpl in Hf; lia]. }
  replace (Z.b2z u =? 0) with (negb u) by (by destruct u).
  destruct (negb u && (size <=? s)) eqn:E; [|apply Hgo].
  apply andb_true_iff in E as [_ E]. unfold HDR in *.
  rewrite (u32_small (s - size)) by lia.
  destruct best as [[ba bd]|]; cbn [best_diff best_addr].
  - destruct (Z.ltb_spec (s - size) bd); [|apply (Hgo (Some (ba, bd)))].
    destruct (Z.eqb_spec (s - size) 0) as [->|]; [by rewrite abest_exact|].
    apply (Hgo (Some (p, s - size))).
  - replace (s - size <? 4294967295) with true by lia.
    destruct (Z.eqb_spec (s - size) 0) as [->|]; [by rewrite abest_exact|].
    apply (Hgo (Some (p, s - size))).
Qed.

(** [b] is the address of a free block of [bs] that fits [size]; none fits better. *)
Definition best_fit_of (size p : Z) (bs : list ablock) (b : Z) : Prop :=
  exists l s r, bs = l ++ (s, false) :: r /\ b = p + span l /\ size <= s /\
    forall t, (t, false) ∈ bs -> size <= t -> s <= t.

Definition none_fits (size : Z) (bs : list ablock) : Prop :=
  forall t, (t, false) ∈ bs -> t < size.

Lemma abest_spec size p bs best :
  match abest size p bs best with
  | None => best = None /\ none_fits size bs
  | Some (b, d) =>
      (forall t, (t, false) ∈ bs -> size <= t -> d <= t - size) /\
      (forall a' d', best = Some (a', d') -> d <= d') /\
      (best = Some (b, d) \/
       exists l s r, bs = l ++ (s, false) :: r /\ b = p + span l /\ size <= s /\ d = s - size)
  end.
Proof.
  revert p best. induction bs as [|[s u] bs IH]; intros p best; cbn [abest].
  { destruct best as [[b d]|]; [|split; [done|by intros t ?%not_elem_of_nil]].
    split; [by intros t ?%not_elem_of_nil|]. split; [intros; simplify_eq; lia|by left]. }
  match goal with |- context [abest _ _ bs ?b] => set (best' := b) end.
  assert (Hstep : (best' = best \/ (best' = Some (p, s - size) /\ u = false /\ size <= s)) /\
    (forall t, (t, false) = (s, u) -> size <= t ->
      exists a' d', best' = Some (a', d') /\ d' <= t - size) /\
    (forall a d, best = Some (a, d) -> exists a' d', best' = Some (a', d') /\ d' <= d)).
  { subst best'. destruct u; cbn [negb andb].
    { split; [by left|]. split; [done|]. intros a d ->. exists a, d. split; [done|lia]. }
    destruct (Z.leb_spec size s).
    - destruct best as [[ba bd]|].
      + destruct (Z.ltb_spec (s - size) bd).
        * split; [by right|]. split.
          -- intros t [= ->] _. eexists _, _. split; [done|lia].
          -- intros a d [= -> ->]. eexists _, _. split; [done|lia].
        * split; [by left|]. split.
          -- intros t [= ->] _. eexists _, _. split; [done|lia].
          -- intros a d [= -> ->]. eexists _, _. split; [done|lia].
      + split; [by right|]. split; [|done].
        intros t [= ->] _. eexists _, _. split; [done|lia].
    - split; [by left|]. split; [intros t [= ->] ?; lia|].
      intros a d ->. exists a, d. split; [done|lia]. }
  destruct Hstep as (Hcase & Hthis & Hbest).
  specialize (IH (p + HDR + s) best').
  destruct (abest size (p + HDR + s) bs best') as [[b d]|] eqn:E.
  - destruct IH as (IH1 & IH2 & IH3). split; [|split].
    + intros t [Ht|Ht]%elem_of_cons Hsz; [|auto].
      destruct (Hthis t Ht Hsz) as (a' & d' & Hb & Hd). specialize (IH2 _ _ Hb). lia.
    + intros a' d' Hb. destruct (Hbest _ _ Hb) as (a2 & d2 & Hb2 & Hd).
      specialize (IH2 _ _ Hb2). lia.
    + destruct IH3 as [IH3|(l & s' & r & -> & -> & Hsz & ->)].
      * destruct Hcase as [Hc|(Hc & -> & Hsz)]; [left; congruence|].
        right. exists [], s, bs. rewrite Hc in IH3. simplify_eq. cbn [span app].
        repeat split; try done; lia.
      * right. exists ((s, u) :: l), s', r. cbn [span app]. repeat split; try done; lia.
  - destruct IH as [IH1 IH2]. split.
    + destruct best as [[a d]|]; [|done]. by destruct (Hbest a d) as (? & ? & ? & _); [|congruence].
    + intros t [Ht|Ht]%elem_of_cons; [|auto].
      destruct (decide (t < size)) as [|Hge]; [done|].
      destruct (Hthis t Ht ltac:(lia)) as (? & ? & ? & _). congruence.
Qed.

Lemma find_best_fit_spec h m bs size :
  heap_inv h m bs -> 0 <= size ->
  (find_best_fit h m size = Some 0 /\ none_fits size bs) \/
  exists b, find_best_fit h m size = Some b /\ 0 < b /\ best_fit_of size (heap_start h) bs b.
Proof.
  intros H Hsz. pose proof (heap_inv_fuel _ _ _ H) as Hf. destruct H as [Hs He Ht Hne Hc].
  pose proof (best_fit_loop_spec m size (heap_fuel h) (heap_start h) bs None
    Hs ltac:(lia) Hsz Hc Hf) as Hl.
  unfold find_best_fit. destruct bs as [|b0 bs']; [done|]. cbn [best_addr best_diff] in Hl.
  rewrite Hl. pose proof (abest_spec size (heap_start h) (b0 :: bs') None) as Ha.
  destruct (abest size (heap_start h) (b0 :: bs') None) as [[b d]|].
  - right. exists b. destruct Ha as (Ha1 & _ & [?|(l & s & r & Hbs & -> & Hs1 & ->)]); [done|].
    pose proof (hseg_sizes _ _ _ _ Hc) as Hsz'. rewrite Hbs in Hsz'.
    apply Forall_app in Hsz' as [Hl' _]. pose proof (span_nonneg _ Hl').
    split; [done|]. split; [lia|]. exists l, s, r. repeat split; try done.
    intros t Hin Hge. specialize (Ha1 t Hin Hge). lia.
  - left. by destruct Ha.
Qed.

(** ** [split_block] and [take_block] *)

Lemma asplit_span s n : span (asplit s n) = HDR + s.
Proof. unfold asplit. zcases; cbn [span]; unfold HDR in *; lia. Qed.

Lemma asplit_ne s n : asplit s n <> [].
Proof. unfold asplit. by zcases. Qed.

(** Marking the block at [p]; the rest of the chain starts where [p] ends. *)
Lemma take_block_spec h m p s n r e :
  0 < p -> 0 <= n <= s -> p + HDR + s + 16 < 4294967296 -> span r + p + HDR + s < 4294967296 ->
  hseg m p ((s, false) :: r) e ->
  let '(a, h', m') := take_block h m p n in
  a = p + HDR /\ h' = set_heap_used h (u32 (heap_used h + n + HDR)) /\
  hseg m' p (asplit s n ++ r) e /\ frame p (HDR + s) m m' /\
  (forall x, p + HDR <= x < p + HDR + n -> load8 m' x = load8 m x).
Proof.
  intros Hp Hn Hb Hb2 H. pose proof (hseg_sizes _ _ _ _ H) as [_ Hs]%Forall_cons.
  destruct H as (H1 & H2 & H3 & H4 & H).
  unfold take_block. split; [apply u32_small; unfold HDR in *; lia|]. split; [done|].
  unfold split_block, asplit. rewrite H2.
  rewrite (u32_small (n + HDR + 16)) by (unfold HDR in *; lia).
  assert (Hrest : forall m', frame p (HDR + s) m m' -> hseg m' (p + HDR + s) r e).
  { intros m' Hf. eapply hseg_frame; [|exact H]. intros a Ha. apply Hf.
    apply header_byte_range in Ha; [|done]. lia. }
  destruct (Z.leb_spec (n + HDR + 16) s) as [Hle|Hle].
  - rewrite (u32_small (p + HDR + n)) by (unfold HDR in *; lia).
    rewrite (u32_small (s - n - HDR)) by (unfold HDR in *; lia).
    match goal with |- hseg ?m' _ _ _ /\ _ => set (m2 := m') end.
    assert (Hf : frame p (HDR + s) m m2).
    { unfold m2, set_flag, set_size, set_next, HDR in *.
      repeat (eapply frame_trans; [|first [apply frame_store8|apply frame_store32]; lia]).
      apply frame_refl. }
    assert (Hnx : u32 (load32 m (p + 8)) = load32 m (p + 8)) by apply u32_small, load32_range.
    split; [|split; [done|]].
    + simpl. split; [lia|].
      replace (p + HDR + n + HDR + (s - n - HDR)) with (p + HDR + s) by lia.
      unfold m2, blk_size, blk_used, blk_next, set_size, set_flag, set_next in *.
      unfold HDR in *.
      split; [memsimp; try apply u32_small; lia|].
      split; [memsimp; done|].
      split; [memsimp; try apply u32_small; lia|].
      split; [lia|].
      split; [memsimp; try apply u32_small; lia|].
      split; [memsimp; done|].
      split; [memsimp; rewrite Hnx, H4; by destruct r|].
      by apply Hrest.
    + intros x Hx. unfold m2, set_flag, set_size, set_next, HDR in *. memsimp. done.
  - match goal with |- hseg ?m' _ _ _ /\ _ => set (m2 := m') end.
    assert (Hf : frame p (HDR + s) m m2)
      by (unfold m2, set_flag, HDR; apply frame_store8; lia).
    split; [|split; [done|]].
    + simpl. split; [lia|].
      unfold m2, blk_size, blk_used, blk_next, set_flag in *. unfold HDR in *.
      split; [memsimp; done|]. split; [memsimp; done|]. split; [memsimp; by destruct r|].
      by apply Hrest.
    + intros x Hx. unfold m2, set_flag, HDR in *. memsimp. done.
Qed.

(** Replacing a block in the middle of the chain by blocks of the same extent. *)
Lemma heap_inv_replace h m m' l b r bs used :
  heap_inv h m (l ++ b :: r) -> span bs = span [b] -> bs <> [] ->
  hseg m' (heap_start h + span l) (bs ++ r) 0 ->
  frame (heap_start h + span l) (span [b]) m m' ->
  heap_inv (set_heap_used h used) m' (l ++ bs ++ r).
Proof.
  intros [Hs He Ht Hne Hc] Hsp Hbs Hb Hf.
  pose proof (hseg_sizes _ _ _ _ Hc) as Hz. apply Forall_app in Hz as [Hl _].
  rewrite hseg_app in Hc. destruct Hc as [Hc _].
  split; [done|done| |by destruct l, bs|].
  - cbn [heap_size set_heap_used]. rewrite <- Ht, !span_app.
    destruct b as [s u]. cbn [span] in *. rewrite !span_app in *. lia.
  - cbn [heap_start set_heap_used]. apply hseg_app. split; [|done].
    assert (Hc' : hseg m' (heap_start h) l (heap_start h + span l)).
    { eapply hseg_frame; [|exact Hc]. intros a Ha. apply Hf.
      apply header_byte_range in Ha; [|done]. lia. }
    by destruct bs.
Qed.

Lemma heap_inv_block h m l s u r :
  heap_inv h m (l ++ (s, u) :: r) ->
  0 <= span l /\ 0 <= s /\ 0 <= span r /\
  heap_start h + span l + HDR + s + span r = heap_start h + heap_size h /\
  sizes_ok l /\ sizes_ok r /\
  hseg m (heap_start h + span l) ((s, u) :: r) 0.
Proof.
  intros [Hs He Ht Hne Hc]. pose proof (hseg_sizes _ _ _ _ Hc) as Hz.
  apply Forall_app in Hz as [Hl Hr]. apply Forall_cons in Hr as [Hx Hr].
  rewrite hseg_app in Hc. destruct Hc as [_ Hc].
  rewrite span_app in Ht. cbn [span] in Ht.
  pose proof (span_nonneg _ Hl). pose proof (span_nonneg _ Hr).
  split_and!; try done; lia.
Qed.

(** What [kmalloc] has done when it took a block of [bs] for [n] bytes. *)
Definition took (h : heap) (m : mem) (bs : list ablock) (n a : Z) (h' : heap) (m' : mem) : Prop :=
  exists l s r,
    bs = l ++ (s, false) :: r /\ a = heap_start h + span l + HDR /\ n <= s /\
    (forall t, (t, false) ∈ bs -> n <= t -> s <= t) /\
    h' = set_heap_used h (u32 (heap_used h + n + HDR)) /\
    heap_inv h' m' (l ++ asplit s n ++ r) /\
    frame (heap_start h + span l) (HDR + s) m m' /\
    (forall x, a <= x < a + n -> load8 m' x = load8 m x).

Lemma take_best h m bs n b :
  heap_inv h m bs -> 0 <= n -> best_fit_of n (heap_start h) bs b ->
  let '(a, h', m') := take_block h m b n in took h m bs n a h' m'.
Proof.
  intros H Hn (l & s & r & -> & -> & Hsz & Hbest).
  pose proof (heap_inv_block _ _ _ _ _ _ H) as (B1 & B2 & B3 & B4 & B5 & B6 & B7).
  pose proof (hi_start _ _ _ H). pose proof (hi_end _ _ _ H).
  pose proof (take_block_spec h m (heap_start h + span l) s n r 0) as Ht.
  destruct (take_block h m (heap_start h + span l) n) as [[a h'] m'].
  destruct Ht as (-> & -> & Hh & Hf & Hp); [lia|lia|unfold HDR in *; lia|lia|done|].
  exists l, s, r. split_and!; try done.
  eapply heap_inv_replace; [exact H|rewrite asplit_span; cbn [span]; lia|apply asplit_ne|done|].
  cbn [span]. by rewrite Z.add_0_r.
Qed.

(** ** [kmalloc] *)

(** The size [kmalloc] looks for: the next multiple of four. *)
Definition round4 (size : Z) : Z := 4 * ((size + 3) / 4).

Lemma land_not3 x : 0 <= x < 4294967296 -> Z.land x (not32 3) = 4 * (x / 4).
Proof. intros Hx. apply (land_not_mask x 2); lia. Qed.

Lemma round4_spec size : 0 <= size -> size <= round4 size < size + 4 /\ round4 size mod 4 = 0.
Proof. intros. unfold round4. zdm. Qed.

Lemma kmalloc_cases h m bs size :
  heap_inv h m bs -> 0 < size <= 4294967292 ->
  exists a h' m', kmalloc h m size = Some (a, h', m') /\
    (took h m bs (round4 size) a h' m' \/
     none_fits (round4 size) bs /\
     exists m1, heap_inv h m1 (coalesce bs) /\ headers_only h bs m m1 /\
       (took h m1 (coalesce bs) (round4 size) a h' m' \/
        a = 0 /\ h' = h /\ m' = m1 /\ none_fits (round4 size) (coalesce bs))).
Proof.
  intros H Hsz. pose proof (round4_spec size ltac:(lia)) as [Hr _]. unfold kmalloc.
  replace (size =? 0) with false by lia.
  rewrite (u32_small (size + 3)), land_not3 by lia. fold (round4 size).
  destruct (find_best_fit_spec h m bs (round4 size) H ltac:(lia)) as [[-> Hn]|(b & -> & Hb & Hfit)].
  - cbn [Z.eqb negb].
    destruct (merge_free_blocks_spec h m bs H) as (m1 & -> & H1 & Ho).
    destruct (find_best_fit_spec h m1 _ (round4 size) H1 ltac:(lia)) as [[-> Hn1]|(b & -> & Hb & Hfit)].
    + cbn [Z.eqb negb]. exists 0, h, m1. split; [done|]. right. split; [done|].
      exists m1. split_and!; try done. by right.
    + replace (b =? 0) with false by lia. cbn [negb].
      pose proof (take_best h m1 _ (round4 size) b H1 ltac:(lia) Hfit) as Ht.
      destruct (take_block h m1 b (round4 size)) as [[a h'] m'].
      exists a, h', m'. split; [done|]. right. split; [done|]. exists m1. split_and!; try done. by left.
  - replace (b =? 0) with false by lia. cbn [negb].
    pose proof (take_best h m _ (round4 size) b H ltac:(lia) Hfit) as Ht.
    destruct (take_block h m b (round4 size)) as [[a h'] m'].
    exists a, h', m'. split; [done|]. by left.
Qed.

(** ** Payloads *)

Lemma live_range p bs q k :
  sizes_ok bs -> (q, k) ∈ live p bs -> p + HDR <= q /\ 0 <= k /\ q + k <= p + span bs.
Proof.
  intros Hs (l & r & -> & ->)%live_in.
  apply Forall_app in Hs as [Hl Hr]. apply Forall_cons in Hr as [Hk Hr].
  pose proof (span_nonneg _ Hl). pose proof (span_nonneg _ Hr).
  rewrite span_app. cbn [span fst] in *. lia.
Qed.

Lemma live_nodup p bs : sizes_ok bs -> NoDup (live p bs).*1.
Proof.
  intros Hs. revert p. induction Hs as [|[s u] bs Hx Hs IH]; intros p; simpl; [constructor|].
  destruct u; simpl; [|apply IH]. constructor; [|apply IH].
  intros ([q k] & Hq & Hin)%list_elem_of_fmap. simpl in *. subst q.
  apply live_range in Hin; [|done]. unfold HDR in *. lia.
Qed.

Lemma live_disjoint p bs q k q' k' :
  sizes_ok bs -> (q, k) ∈ live p bs -> (q', k') ∈ live p bs -> q <> q' ->
  q + k + HDR <= q' \/ q' + k' + HDR <= q.
Proof.
  intros Hs. revert p. induction Hs as [|[s u] bs Hx Hs IH]; intros p; simpl;
    [by intros ?%not_elem_of_nil|].
  rewrite !elem_of_app. destruct u; intros [H|H] [H'|H'] Hne.
  all: try (by apply not_elem_of_nil in H); try (by apply not_elem_of_nil in H').
  all: try apply list_elem_of_singleton in H; try apply list_elem_of_singleton in H'.
  all: simplify_eq/=; try (by eapply IH).
  - apply live_range in H'; [|done]. lia.
  - apply live_range in H; [|done]. lia.
Qed.

Lemma headers_only_live h bs m m' q k :
  sizes_ok bs -> headers_only h bs m m' -> (q, k) ∈ live (heap_start h) bs -> same_range q k m m'.
Proof. intros Hs Ho Hin a Ha. apply Ho. by eapply live_no_header. Qed.

Lemma headers_only_frame h bs m m' :
  sizes_ok bs -> headers_only h bs m m' -> frame (heap_start h) (span bs) m m'.
Proof. intros Hs Ho a Ha. apply Ho. by intros ?%header_byte_range. Qed.

Lemma asplit_live p s n : live p (asplit s n) = [(p + HDR, if n + HDR + 16 <=? s then n else s)].
Proof. unfold asplit. by zcases. Qed.

(** The blocks on either side of a freshly changed one are untouched. *)
Lemma around_live h m m' l s u r q k bs :
  bs = l ++ (s, u) :: r -> sizes_ok bs ->
  frame (heap_start h + span l) (HDR + s) m m' ->
  (q, k) ∈ live (heap_start h) l ++ live (heap_start h + span l + HDR + s) r ->
  same_range q k m m'.
Proof.
  intros -> Hs Hf Hin. apply Forall_app in Hs as [Hl Hr]. apply Forall_cons in Hr as [_ Hr].
  eapply frame_same; [exact Hf|].
  apply elem_of_app in Hin as [Hin|Hin]; apply live_range in Hin; try done; [left|right]; unfold HDR in *; lia.
Qed.

(** Taking a block adds one live block and touches no other. *)
Lemma took_live h m bs n a h' m' :
  heap_inv h m bs -> took h m bs n a h' m' ->
  exists bs' k, heap_inv h' m' bs' /\ heap_start h' = heap_start h /\ heap_size h' = heap_size h /\
    n <= k /\ 0 < a /\
    live (heap_start h) bs' ≡ₚ (a, k) :: live (heap_start h) bs /\
    (forall q j, (q, j) ∈ live (heap_start h) bs -> same_range q j m m') /\
    frame (heap_start h) (heap_size h) m m'.
Proof.
  intros H (l & s & r & -> & -> & Hn & _ & -> & H' & Hf & _).
  pose proof (heap_inv_block _ _ _ _ _ _ H) as (B1 & B2 & B3 & B4 & B5 & B6 & B7).
  pose proof (hi_start _ _ _ H).
  eexists (l ++ asplit s n ++ r), (if n + HDR + 16 <=? s then n else s).
  split_and!; try done.
  - by zcases.
  - unfold HDR in *. lia.
  - rewrite !live_app, asplit_live, asplit_span. cbn [live app].
    rewrite Z.add_assoc. by rewrite <- Permutation_middle.
  - intros q j Hq. apply (around_live h m m' l s false r q j _ eq_refl); [|exact Hf|].
    + apply Forall_app. split; [done|]. by apply Forall_cons.
    + rewrite live_app in Hq. exact Hq.
  - eapply frame_weaken; [exact Hf|lia|]. unfold HDR in *. lia.
Qed.

(** ** [kfree] *)

Lemma heap_inv_used h m bs n : heap_inv h m bs -> heap_inv (set_heap_used h n) m bs.
Proof. by intros [? ? ? ? ?]. Qed.

Lemma heap_inv_used' h m bs n : heap_inv (set_heap_used h n) m bs -> heap_inv h m bs.
Proof. by intros [? ? ? ? ?]. Qed.

Lemma header_byte_flag p l s u v r a :
  header_byte p (l ++ (s, u) :: r) a <-> header_byte p (l ++ (s, v) :: r) a.
Proof. by rewrite !header_byte_app. Qed.

Lemma amerge_header_byte p cur rest a :
  sizes_ok (cur :: rest) -> header_byte p (amerge cur rest) a -> header_byte p (cur :: rest) a.
Proof.
  revert p cur. induction rest as [|[s2 u2] rest IH]; intros p [s u] Hs; [done|].
  apply Forall_cons in Hs as [H1 Hs]. pose proof Hs as [H2 H3]%Forall_cons.
  cbn [amerge fst snd]. destruct (negb u && negb u2).
  - intros [H|H]%IH; [by left|right; right|].
    + by replace (p + HDR + s + HDR + s2) with (p + HDR + (s + HDR + s2)) by lia.
    + constructor; [unfold HDR; simpl in *; lia|done].
  - intros [H|H]; [by left|]. right. by apply IH.
Qed.

Lemma headers_only_coalesce h bs m1 m2 m3 :
  sizes_ok bs -> headers_only h bs m1 m2 -> headers_only h (coalesce bs) m2 m3 ->
  headers_only h bs m1 m3.
Proof.
  intros Hs H1 H2 a Ha. rewrite H2, H1; [done|done|]. contradict Ha.
  destruct bs as [|b bs]; [done|]. by apply amerge_header_byte.
Qed.

Lemma validate_loop_cases f h m p bs :
  0 < p -> sizes_ok bs -> hseg m p bs 0 -> (length bs < f)%nat ->
  let start := match bs with [] => 0 | _ => p end in
  validate_loop f h m start = Some m \/ validate_loop f h m start = merge_free_blocks h m.
Proof.
  revert f p. induction bs as [|[s u] bs IH]; intros f p Hp Hs H Hf;
    (destruct f as [|f]; [simpl in Hf; lia|]); cbn [validate_loop]; [by left|].
  replace (p =? 0) with false by lia.
  destruct (outside h p); [by left|].
  apply Forall_cons in Hs as [H0 Hs]. destruct H as (H1 & H2 & H3 & H4 & H).
  rewrite H2, H3, H4. destruct (_ && _); [by right|].
  apply (IH f (p + HDR + s)); [unfold HDR; lia|done|done|simpl in Hf; lia].
Qed.

Lemma heap_validate_spec h m bs :
  heap_inv h m bs -> coalesced bs ->
  exists m', heap_validate h m = Some m' /\ heap_inv h m' bs /\ headers_only h bs m m'.
Proof.
  intros H Hco. pose proof (heap_inv_fuel _ _ _ H) as Hf.
  pose proof (validate_loop_cases (heap_fuel h) h m (heap_start h) bs (hi_start _ _ _ H)
    (hseg_sizes _ _ _ _ (hi_chain _ _ _ H)) (hi_chain _ _ _ H) Hf) as Hv.
  unfold heap_validate. pose proof (hi_ne _ _ _ H). destruct bs as [|b bs]; [done|].
  destruct Hv as [-> | ->]; [by exists m|].
  destruct (merge_free_blocks_spec h m _ H) as (m' & Hm & Hi & Ho).
  exists m'. by rewrite coalesced_id in Hi.
Qed.

Lemma not_magic m a : load8 m a = 1 -> (load32 m a =? ALIGN_MAGIC) = false.
Proof.
  intros H. apply Z.eqb_neq. intros E. unfold load32, ALIGN_MAGIC in E. rewrite H in E.
  pose proof (load8_range m (a + 1)). pose proof (load8_range m (a + 2)).
  pose proof (load8_range m (a + 3)). lia.
Qed.

(** The part of [kfree] behind its guards, at the block that is released. *)
Lemma release_spec h m l s r :
  heap_inv h m (l ++ (s, true) :: r) ->
  let h' := set_heap_used h (u32 (heap_used h - (s + HDR))) in
  exists m1 m', merge_free_blocks h' (set_flag m (heap_start h + span l) 0) = Some m1 /\
    heap_validate h' m1 = Some m' /\
    heap_inv h' m' (coalesce (l ++ (s, false) :: r)) /\
    headers_only h (l ++ (s, true) :: r) m m'.
Proof.
  intros H h'. pose proof (heap_inv_block _ _ _ _ _ _ H) as (B1 & B2 & B3 & B4 & B5 & B6 & B7).
  pose proof (hseg_sizes _ _ _ _ (hi_chain _ _ _ H)) as Hz.
  set (b := heap_start h + span l) in *.
  assert (Hf : frame b HDR m (set_flag m b 0))
    by (unfold set_flag, HDR; apply frame_store8; lia).
  assert (H1 : heap_inv h' (set_flag m b 0) (l ++ [(s, false)] ++ r)).
  { eapply heap_inv_replace; [exact H|done|done| |].
    - destruct B7 as (C1 & C2 & C3 & C4 & C5). fold b. simpl.
      split; [done|]. unfold blk_size, blk_used, blk_next, set_flag in *.
      split; [memsimp; done|]. split; [memsimp; done|]. split; [memsimp; done|].
      eapply hseg_frame; [|exact C5]. intros a Ha. apply Hf.
      apply header_byte_range in Ha; [|done]. unfold HDR in *. lia.
    - eapply frame_weaken; [exact Hf|done|]. cbn [span]. lia. }
  destruct (merge_free_blocks_spec _ _ _ H1) as (m1 & Hm1 & Hi1 & Ho1).
  destruct (heap_validate_spec _ _ _ Hi1 (coalesce_coalesced _)) as (m2 & Hm2 & Hi2 & Ho2).
  exists m1, m2. split_and!; try done.
  pose proof (hseg_sizes _ _ _ _ (hi_chain _ _ _ H1)) as Hz1.
  pose proof (headers_only_coalesce h' _ _ _ _ Hz1 Ho1 Ho2) as Ho.
  intros a Ha. rewrite Ho; [|intros Hc; apply Ha; by apply (header_byte_flag _ _ _ true) in Hc].
  apply Hf. intros Hc. apply Ha. apply header_byte_app. right. by left.
Qed.

Lemma kfree_spec h m l s r :
  heap_inv h m (l ++ (s, true) :: r) -> 0 < s ->
  let h' := set_heap_used h (u32 (heap_used h - (s + HDR))) in
  exists m', kfree h m (heap_start h + span l + HDR) = Some (h', m') /\
    heap_inv h' m' (coalesce (l ++ (s, false) :: r)) /\
    headers_only h (l ++ (s, true) :: r) m m'.
Proof.
  intros H Hs h'. destruct (release_spec h m l s r H) as (m1 & m2 & Hm1 & Hm2 & Hi & Ho).
  pose proof (heap_inv_block _ _ _ _ _ _ H) as (B1 & B2 & B3 & B4 & B5 & B6 & B7).
  pose proof (hi_start _ _ _ H). pose proof (hi_end _ _ _ H).
  exists m2. split; [|done]. destruct B7 as (C1 & C2 & C3 & C4 & C5).
  set (b := heap_start h + span l) in *. unfold kfree, outside, heap_end. unfold HDR in *.
  rewrite (u32_small (heap_start h + heap_size h)) by lia.
  replace (b + 12 =? 0) with false by lia.
  replace (b + 12 <? heap_start h) with false by lia.
  replace (heap_start h + heap_size h <=? b + 12) with false by lia. cbn [orb].
  replace (b + 12 - 4 - 4) with (b + 4) by lia. rewrite (u32_small (b + 4)) by lia.
  rewrite not_magic by done. cbn [andb]. replace (b + 12 - 12) with b by lia.
  rewrite (u32_small b) by lia. rewrite C3. cbn [Z.b2z Z.eqb negb].
  rewrite C2. fold h'. unfold h' in *. rewrite Hm1, Hm2. done.
Qed.

(** ** Aligned blocks *)

Lemma asplit_cons s n : n <= s -> exists k rest, asplit s n = (k, true) :: rest /\ n <= k.
Proof. intros. unfold asplit. zcases; eexists _, _; split; try done; lia. Qed.

(** Writes to the payload of a used block. *)
Lemma heap_inv_payload h m m' l s r :
  heap_inv h m (l ++ (s, true) :: r) -> frame (heap_start h + span l + HDR) s m m' ->
  heap_inv h m' (l ++ (s, true) :: r).
Proof.
  intros H Hf. pose proof (heap_inv_block _ _ _ _ _ _ H) as (B1 & B2 & B3 & B4 & B5 & B6 & _).
  destruct H as [H1 H2 H3 H4 H5]. split; try done.
  eapply hseg_frame; [|exact H5]. intros a Ha. apply Hf. intros Hin.
  eapply live_no_header; [by eapply hseg_sizes| |exact Hin|exact Ha].
  rewrite live_app. cbn [live]. apply elem_of_app. right. left.
Qed.

Lemma pow2_align align : 0 < align < 4294967296 -> Z.land align (align - 1) = 0 ->
  exists k, 0 <= k < 32 /\ align = 2 ^ k.
Proof.
  intros Ha Hl. exists (Z.log2 align). pose proof (Z.log2_spec align ltac:(lia)) as [L1 L2].
  assert (Hk : Z.log2 align < 32) by (apply Z.log2_lt_pow2; simpl; lia).
  pose proof (Z.log2_nonneg align). split; [done|].
  destruct (decide (align = 2 ^ Z.log2 align)) as [|Hne]; [done|].
  exfalso. assert (Hb : Z.testbit (Z.land align (align - 1)) (Z.log2 align) = true).
  { rewrite Z.land_spec, Z.bit_log2 by lia.
    replace (Z.log2 align) with (Z.log2 (align - 1)) at 1.
    - apply Z.bit_log2. pose proof (Z.pow_pos_nonneg 2 (Z.log2 align)). lia.
    - apply Z.log2_unique; [done|]. rewrite <- Z.add_1_r in *. lia. }
  rewrite Hl, Z.bits_0 in Hb. done.
Qed.

(** The address [kmalloc_aligned] returns, inside the block at [ptr]. *)
Lemma aligned_addr ptr k :
  0 < ptr -> 0 <= k < 32 -> ptr + 4 + 4 + 2 ^ k - 1 < 4294967296 ->
  let a := Z.land (u32 (ptr + 4 + 4 + 2 ^ k - 1)) (not32 (u32 (2 ^ k - 1))) in
  a mod 2 ^ k = 0 /\ ptr + 8 <= a <= ptr + 8 + 2 ^ k - 1.
Proof.
  intros Hp Hk Hb a. assert (0 < 2 ^ k) by (apply Z.pow_pos_nonneg; lia).
  unfold a. rewrite (u32_small (2 ^ k - 1)), (u32_small (ptr + _ + _ + _ - _)) by lia.
  rewrite land_not_mask by lia.
  rewrite (Z.mul_comm (2 ^ k)), Z.mod_mul by lia. split; [done|].
  pose proof (Z.div_mod (ptr + 4 + 4 + 2 ^ k - 1) (2 ^ k) ltac:(lia)).
  pose proof (Z.mod_pos_bound (ptr + 4 + 4 + 2 ^ k - 1) (2 ^ k) ltac:(lia)). lia.
Qed.

(** The two words that [kmalloc_aligned] leaves below the address it returns. *)
Definition aligned_in (h : heap) (m : mem) (l : list ablock) (s a : Z) : Prop :=
  heap_start h + span l + HDR + 8 <= a <= heap_start h + span l + HDR + s /\
  load32 m (a - 8) = ALIGN_MAGIC /\ load32 m (a - 4) = heap_start h + span l + HDR.

Lemma kfree_aligned_spec h m l s r a :
  heap_inv h m (l ++ (s, true) :: r) -> aligned_in h m l s a ->
  a < heap_start h + span l + HDR + s ->
  let h' := set_heap_used h (u32 (heap_used h - (s + HDR))) in
  exists m', kfree h m a = Some (h', m') /\
    heap_inv h' m' (coalesce (l ++ (s, false) :: r)) /\
    headers_only h (l ++ (s, true) :: r) m m'.
Proof.
  intros H (Ha & Hm & Hp) Has h'.
  destruct (release_spec h m l s r H) as (m1 & m2 & Hm1 & Hm2 & Hi & Ho).
  pose proof (heap_inv_block _ _ _ _ _ _ H) as (B1 & B2 & B3 & B4 & B5 & B6 & B7).
  pose proof (hi_start _ _ _ H). pose proof (hi_end _ _ _ H).
  exists m2. split; [|done]. destruct B7 as (C1 & C2 & C3 & C4 & C5).
  set (b := heap_start h + span l) in *. unfold kfree, outside, heap_end. unfold HDR in *.
  rewrite (u32_small (heap_start h + heap_size h)) by lia.
  replace (a =? 0) with false by lia.
  replace (a <? heap_start h) with false by lia.
  replace (heap_start h + heap_size h <=? a) with false by lia. cbn [orb].
  replace (a - 4 - 4) with (a - 8) by lia. rewrite (u32_small (a - 8)), (u32_small (a - 4)) by lia.
  rewrite Hm, Hp, Z.eqb_refl.
  replace (b + 12 <? heap_start h) with false by lia.
  replace (heap_start h + heap_size h <=? b + 12) with false by lia. cbn [orb andb].
  replace (b + 12 - 12) with b by lia.
  rewrite (u32_small b) by lia. rewrite C3. cbn [Z.b2z Z.eqb negb].
  rewrite C2. fold h'. unfold h' in *. rewrite Hm1, Hm2. done.
Qed.

Lemma heap_init_inv m start size :
  0 < start -> 12 <= size -> start + size + 16 < 4294967296 ->
  let '(a, h, m') := heap_init m start size in
  a = start + HDR /\ heap_inv h m' [(size - HDR, false)].
Proof.
  intros Hs Hz He. unfold heap_init, HDR.
  split; [apply u32_small; lia|]. split; cbn [heap_start heap_size]; try done.
  - cbn [span]. unfold HDR. lia.
  - unfold set_size, set_flag, set_next. simpl. unfold blk_size, blk_used, blk_next.
    split; [lia|]. split; [memsimp; try apply u32_small; lia|].
    split; [memsimp; done|]. split; [memsimp; done|]. done.
Qed.

(** Releasing what was taken coalesces back to the list before. *)
Lemma untake l s n k rest r :
  coalesced (l ++ (s, false) :: r) -> asplit s n = (k, true) :: rest ->
  coalesce (l ++ (k, false) :: rest ++ r) = l ++ (s, false) :: r.
Proof.
  intros Hc Ha. rewrite <- (coalesced_id _ Hc). unfold asplit in Ha.
  destruct (Z.leb_spec (n + HDR + 16) s); simplify_eq; [|done].
  cbn [app]. rewrite coalesce_join. do 4 f_equal. lia.
Qed.

(** ** The heap as an allocator *)

Definition live_map (h : heap) (bs : list ablock) : gmap Z Z := list_to_map (live (heap_start h) bs).

Lemma live_map_lookup h bs q k :
  sizes_ok bs -> live_map h bs !! q = Some k <-> (q, k) ∈ live (heap_start h) bs.
Proof. intros Hs. symmetry. apply elem_of_list_to_map. by apply live_nodup. Qed.

Definition heap_live (h : heap) (m : mem) (L : gmap Z Z) : Prop :=
  exists bs, heap_inv h m bs /\ L = live_map h bs /\
    (forall q k, (q, k) ∈ live (heap_start h) bs -> 0 < k).

#[export] Instance heap_kalloc : KAlloc heap := {
  ka_malloc := kmalloc;
  ka_free := kfree;
  ka_inv := heap_live;
  ka_lo := heap_start;
  ka_len := heap_size
}.

Lemma heap_sizes h m bs : heap_inv h m bs -> sizes_ok bs.
Proof. intros H. eapply hseg_sizes, H. Qed.

Lemma heap_live_malloc h m L n :
  heap_live h m L -> 0 < n <= 4294967292 ->
  exists a h' m', kmalloc h m n = Some (a, h', m') /\
    heap_start h' = heap_start h /\ heap_size h' = heap_size h /\
    preserves L m m' /\ frame (heap_start h) (heap_size h) m m' /\
    (a = 0 /\ heap_live h' m' L \/
     exists k, n <= k /\ L !! a = None /\ heap_live h' m' (<[a := k]> L)).
Proof.
  intros (bs & H & -> & Hpos) Hn. pose proof (heap_sizes _ _ _ H) as Hs.
  pose proof (round4_spec n ltac:(lia)) as [Hr _].
  assert (Htook : forall bs1 m1 a h' m', heap_inv h m1 bs1 ->
    live (heap_start h) bs1 = live (heap_start h) bs ->
    (forall q k, (q, k) ∈ live (heap_start h) bs -> same_range q k m m1) ->
    frame (heap_start h) (heap_size h) m m1 ->
    took h m1 bs1 (round4 n) a h' m' ->
    heap_start h' = heap_start h /\ heap_size h' = heap_size h /\
    preserves (live_map h bs) m m' /\ frame (heap_start h) (heap_size h) m m' /\
    exists k, n <= k /\ live_map h bs !! a = None /\ heap_live h' m' (<[a := k]> (live_map h bs))).
  { intros bs1 m1 a h' m' H1 Hl Hp Hf Ht.
    destruct (took_live _ _ _ _ _ _ _ H1 Ht) as (bs' & k & Hi & Hst & Hsz & Hk & Ha & Hperm & Hq & Hf').
    rewrite Hl in *. pose proof (heap_sizes _ _ _ Hi) as Hs'.
    assert (Hnd : NoDup ((a, k) :: live (heap_start h) bs).*1).
    { rewrite <- Hperm, <- Hst. by apply live_nodup. }
    split_and!; [done|done| | |exists k; split_and!; [lia| |]].
    - intros q j Hqj%live_map_lookup; [|done]. eapply same_range_trans; [by apply Hp|by apply Hq].
    - by eapply frame_trans.
    - apply not_elem_of_list_to_map. cbn [fmap list_fmap] in Hnd. by apply NoDup_cons in Hnd as [? _].
    - exists bs'. split; [done|]. unfold live_map. rewrite Hst. split.
      + rewrite <- list_to_map_cons. symmetry. apply list_to_map_proper; [|done].
        rewrite <- Hst. by apply live_nodup.
      + intros q j Hqj. rewrite Hperm in Hqj. apply elem_of_cons in Hqj as [Hqj|Hqj]; [|by eapply Hpos].
        simplify_eq. lia. }
  destruct (kmalloc_cases h m bs n H Hn) as (a & h' & m' & Hk & [Ht|(_ & m1 & H1 & Ho & Hc)]).
  - destruct (Htook bs m a h' m') as (A1 & A2 & A3 & A4 & A5); [done|done|done|done|done|].
    exists a, h', m'. split_and!; try done. by right.
  - assert (Hq : forall q k, (q, k) ∈ live (heap_start h) bs -> same_range q k m m1)
      by (intros; by eapply headers_only_live).
    assert (Hf : frame (heap_start h) (heap_size h) m m1).
    { rewrite <- (hi_tile _ _ _ H). by apply headers_only_frame. }
    destruct Hc as [Ht|(-> & -> & -> & _)].
    + destruct (Htook (coalesce bs) m1 a h' m') as (A1 & A2 & A3 & A4 & A5);
        [done|by rewrite coalesce_live|done|done|done|].
      exists a, h', m'. split_and!; try done. by right.
    + exists 0, h, m1. split_and!; try done.
      * intros q k Hqk%live_map_lookup; [|done]. by apply Hq.
      * left. split; [done|]. exists (coalesce bs). unfold live_map. rewrite coalesce_live. done.
Qed.

Lemma live_flag p l s r :
  live p (l ++ (s, true) :: r) ≡ₚ (p + span l + HDR, s) :: live p (l ++ (s, false) :: r).
Proof. rewrite !live_app. cbn [live app]. by rewrite <- Permutation_middle. Qed.

Lemma heap_live_free h m L a k :
  heap_live h m L -> L !! a = Some k ->
  exists h' m', kfree h m a = Some (h', m') /\
    heap_start h' = heap_start h /\ heap_size h' = heap_size h /\
    preserves L m m' /\ frame (heap_start h) (heap_size h) m m' /\
    heap_live h' m' (delete a L).
Proof.
  intros (bs & H & -> & Hpos) Ha. pose proof (heap_sizes _ _ _ H) as Hs.
  apply live_map_lookup in Ha; [|done]. specialize (Hpos a k) as Hk.
  pose proof Ha as (l & r & -> & ->)%live_in.
  destruct (kfree_spec h m l k r H ltac:(auto)) as (m' & Hf & Hi & Ho).
  eexists _, m'. split; [exact Hf|]. split_and!; try done.
  - intros q j Hq%live_map_lookup; [|done]. by eapply headers_only_live.
  - rewrite <- (hi_tile _ _ _ H). by apply headers_only_frame.
  - exists (coalesce (l ++ (k, false) :: r)). split; [done|]. unfold live_map.
    cbn [heap_start set_heap_used]. rewrite coalesce_live.
    assert (Hnd : NoDup (live (heap_start h) (l ++ (k, true) :: r)).*1) by by apply live_nodup.
    split.
    + pose proof Hnd as Hnd'. rewrite live_flag in Hnd'. cbn [fmap list_fmap fst] in Hnd'.
      apply NoDup_cons in Hnd' as [Hni _].
      rewrite (list_to_map_proper (live (heap_start h) (l ++ (k, true) :: r))
        ((heap_start h + span l + HDR, k) :: live (heap_start h) (l ++ (k, false) :: r)));
        [|done|apply live_flag].
      rewrite list_to_map_cons, delete_insert_id; [done|]. by apply not_elem_of_list_to_map.
    + intros q j Hq. apply (Hpos q j). rewrite live_flag. by right.
Qed.

#[export] Instance heap_kalloc_laws : KAllocLaws heap.
Proof.
  split; cbn [ka_malloc ka_free ka_inv ka_lo ka_len heap_kalloc].
  - apply heap_live_malloc.
  - apply heap_live_free.
  - done.
  - intros h m L a k (bs & H & -> & Hpos) Ha. pose proof (heap_sizes _ _ _ H) as Hs.
    apply live_map_lookup in Ha; [|done]. apply live_range in Ha; [|done].
    pose proof (hi_tile _ _ _ H). pose proof (hi_start _ _ _ H). pose proof (hi_end _ _ _ H).
    unfold HDR in *. lia.
  - intros h m L a k b j (bs & H & -> & Hpos) Ha Hb Hne. pose proof (heap_sizes _ _ _ H) as Hs.
    apply live_map_lookup in Ha; [|done]. apply live_map_lookup in Hb; [|done].
    pose proof (live_disjoint _ _ _ _ _ _ Hs Ha Hb Hne). unfold HDR in *. lia.
  - intros h m L a k m' (bs & H & -> & Hpos) Ha Hf. exists bs. split; [|done].
    apply live_map_lookup in Ha; [|by eapply heap_sizes].
    apply live_in in Ha as (l & r & -> & ->). by eapply heap_inv_payload.
  - intros h m L m' (bs & H & -> & Hpos) Hf. exists bs. split; [|done].
    pose proof (heap_sizes _ _ _ H) as Hs. destruct H as [H1 H2 H3 H4 H5]. split; try done.
    eapply hseg_frame; [|exact H5]. intros x Hx%header_byte_range; [|done]. apply Hf. lia.
Qed.

(** ** Properties *)

Definition demo_heap : heap := (heap_init ∅ 4096 1024).1.2.
Definition demo_heap_mem : mem := (heap_init ∅ 4096 1024).2.

Lemma demo_heap_inv : heap_inv demo_heap demo_heap_mem [(1012, false)].
Proof. apply (heap_init_inv ∅ 4096 1024); lia. Qed.

(** C9: [kmalloc] on a well-formed heap always ends.  With the request rounded up
    to a multiple of four it takes the best fit, i.e. the smallest free block
    that is large enough, splits it when at least 16 bytes and a header are
    left over, and returns its payload; it looks again after coalescing when
    nothing fits, and returns NULL exactly when nothing fits even then.  The
    chain stays well formed, the payload of every used block and everything
    outside the heap stay as they were. *)
Theorem kmalloc_best_fit h m bs size :
  heap_inv h m bs -> 0 < size <= 4294967292 ->
  exists a h' m', kmalloc h m size = Some (a, h', m') /\
    (a = 0 /\ h' = h /\ heap_inv h' m' (coalesce bs) /\
       none_fits (round4 size) bs /\ none_fits (round4 size) (coalesce bs) \/
     exists l s r, (bs = l ++ (s, false) :: r \/
                    none_fits (round4 size) bs /\ coalesce bs = l ++ (s, false) :: r) /\
       a = heap_start h + span l + HDR /\ round4 size <= s /\
       (forall t, (t, false) ∈ l ++ (s, false) :: r -> round4 size <= t -> s <= t) /\
       h' = set_heap_used h (u32 (heap_used h + round4 size + HDR)) /\
       heap_inv h' m' (l ++ asplit s (round4 size) ++ r)) /\
    (forall q k, (q, k) ∈ live (heap_start h) bs -> same_range q k m m') /\
    frame (heap_start h) (heap_size h) m m'.
Proof.
  intros H Hsz. pose proof (heap_sizes _ _ _ H) as Hs.
  destruct (kmalloc_cases h m bs size H Hsz) as (a & h' & m' & Hk & [Ht|(Hn & m1 & H1 & Ho & Hc)]);
    exists a, h', m'; (split; [done|]).
  - destruct (took_live _ _ _ _ _ _ _ H Ht) as (_ & _ & _ & _ & _ & _ & _ & _ & Hq & Hf).
    split; [|done]. right. destruct Ht as (l & s & r & -> & Ha & Hle & Hb & Hh & Hi & _).
    exists l, s, r. split_and!; try done. by left.
  - assert (Hq : forall q k, (q, k) ∈ live (heap_start h) bs -> same_range q k m m1)
      by (intros; by eapply headers_only_live).
    assert (Hf : frame (heap_start h) (heap_size h) m m1).
    { rewrite <- (hi_tile _ _ _ H). by apply headers_only_frame. }
    destruct Hc as [Ht|(-> & -> & -> & Hn2)]; [|split; [by left|done]].
    destruct (took_live _ _ _ _ _ _ _ H1 Ht) as (_ & _ & _ & _ & _ & _ & _ & _ & Hq' & Hf').
    rewrite coalesce_live in Hq'. split_and!.
    + right. destruct Ht as (l & s & r & Hbs & Ha & Hle & Hb & Hh & Hi & _).
      exists l, s, r. rewrite Hbs in *. split_and!; try done. by right.
    + intros q k Hqk. eapply same_range_trans; [by apply Hq|by apply Hq'].
    + by eapply frame_trans.
Qed.

Lemma kmalloc_best_fit_witness : exists a h' m',
  kmalloc demo_heap demo_heap_mem 100 = Some (a, h', m') /\
  frame (heap_start demo_heap) (heap_size demo_heap) demo_heap_mem m'.
Proof.
  destruct (kmalloc_best_fit demo_heap demo_heap_mem _ 100 demo_heap_inv ltac:(lia))
    as (a & h' & m' & H & _ & _ & Hf).
  exact (ex_intro _ a (ex_intro _ h' (ex_intro _ m' (conj H Hf)))).
Defined.

(** C25: releasing a block undoes its allocation: on a coalesced heap, [kfree] of
    what [kmalloc] returned gives back the same chain of blocks, whether or not
    the block was split.  The counter of used bytes does not come back when it
    was not split: the request was added and the whole block is subtracted. *)
Theorem kmalloc_kfree_roundtrip h m bs size a h1 m1 :
  heap_inv h m bs -> coalesced bs -> 0 < size <= 4294967292 ->
  kmalloc h m size = Some (a, h1, m1) -> a <> 0 ->
  exists h2 m2 slack, kfree h1 m1 a = Some (h2, m2) /\ heap_inv h2 m2 bs /\
    0 <= slack < HDR + 16 /\ heap_used h2 = u32 (heap_used h - slack) /\
    (forall q k, (q, k) ∈ live (heap_start h) bs -> same_range q k m m2).
Proof.
  intros H Hco Hsz Hk Ha. pose proof (heap_sizes _ _ _ H) as Hs.
  pose proof (round4_spec size ltac:(lia)) as [Hr _].
  assert (exists m0, took h m0 bs (round4 size) a h1 m1 /\ heap_inv h m0 bs /\
    (forall q k, (q, k) ∈ live (heap_start h) bs -> same_range q k m m0))
    as (m0 & Ht & H0 & Hq).
  { destruct (kmalloc_cases h m bs size H Hsz) as (a' & h' & m' & Hk' & Hc).
    rewrite Hk in Hk'. simplify_eq. destruct Hc as [Ht|(_ & m0 & H0 & Ho & [Ht|[? _]])]; [by exists m| |done].
    rewrite coalesced_id in * by done. exists m0. split_and!; try done.
    intros q k Hq. by eapply headers_only_live. }
  destruct (took_live _ _ _ _ _ _ _ H0 Ht) as (_ & _ & _ & _ & _ & _ & _ & _ & Hq1 & _).
  destruct Ht as (l & s & r & -> & -> & Hle & _ & -> & Hi & _ & _).
  destruct (asplit_cons s (round4 size) Hle) as (k & rest & Has & Hk2).
  rewrite Has in Hi. cbn [app] in Hi.
  destruct (kfree_spec _ _ _ _ _ Hi ltac:(lia)) as (m2 & Hf & Hi2 & Ho).
  rewrite (untake l s _ k rest r Hco Has) in Hi2.
  eexists _, m2, (k - round4 size). split; [exact Hf|]. split; [done|].
  cbn [heap_used set_heap_used heap_start] in *. split; [|split].
  - unfold asplit in Has. zcases_in Has; simplify_eq; unfold HDR in *; lia.
  - unfold u32. rewrite Zminus_mod_idemp_l. f_equal. lia.
  - intros q j Hin. eapply same_range_trans; [by apply Hq|].
    eapply same_range_trans; [by apply Hq1|].
    apply (headers_only_live _ _ _ _ q j (heap_sizes _ _ _ Hi) Ho).
    cbn [heap_start set_heap_used]. rewrite app_comm_cons, <- Has.
    rewrite !live_app in *. rewrite asplit_live, asplit_span. cbn [live app] in Hin.
    rewrite Z.add_assoc. set_solver.
Qed.

Lemma kmalloc_kfree_roundtrip_witness :
  match kmalloc demo_heap demo_heap_mem 100 with
  | Some (a, h1, m1) => exists h2 m2 slack, kfree h1 m1 a = Some (h2, m2) /\
      heap_inv h2 m2 [(1012, false)] /\ 0 <= slack < HDR + 16 /\
      heap_used h2 = u32 (heap_used demo_heap - slack) /\
      (forall q k, (q, k) ∈ live (heap_start demo_heap) [(1012, false)] -> same_range q k demo_heap_mem m2)
  | None => False
  end.
Proof.
  assert (Ha : match kmalloc demo_heap demo_heap_mem 100 with Some (a, _, _) => a = 4108 | None => False end)
    by (vm_compute; reflexivity).
  destruct (kmalloc demo_heap demo_heap_mem 100) as [[[a h1] m1]|] eqn:E; [|done].
  apply (kmalloc_kfree_roundtrip demo_heap demo_heap_mem _ 100 a h1 m1 demo_heap_inv);
    [done|lia|exact E|lia].
Defined.

Lemma kmalloc_aligned_bad h m size align :
  0 <= align < 4294967296 -> (align = 0 \/ Z.land align (align - 1) <> 0) ->
  kmalloc_aligned h m size align = Some (0, h, m).
Proof.
  intros Ha Hb. unfold kmalloc_aligned. destruct (Z.eqb_spec align 0); [done|]. cbn [orb].
  rewrite u32_small by lia. destruct (Z.eqb_spec (Z.land align (align - 1)) 0); [lia|done].
Qed.

Lemma kmalloc_aligned_ok h m bs size align :
  heap_inv h m bs -> 0 <= size -> 0 < align < 4294967296 -> Z.land align (align - 1) = 0 ->
  size + align + 8 <= 4294967292 ->
  exists a h1 m1, kmalloc_aligned h m size align = Some (a, h1, m1) /\
    (a = 0 /\ h1 = h /\ heap_inv h m1 (coalesce bs) \/
     a mod align = 0 /\ exists l s r, heap_inv h1 m1 (l ++ (s, true) :: r) /\
       aligned_in h1 m1 l s a /\ a + size <= heap_start h1 + span l + HDR + s /\
       a < heap_start h1 + span l + HDR + s).
Proof.
  intros H Hsz Ha Hl Hb. destruct (pow2_align align Ha Hl) as (k & Hk & Hal).
  unfold kmalloc_aligned. replace (align =? 0) with false by lia.
  rewrite (u32_small (align - 1)), Hl by lia. cbn [Z.eqb orb negb].
  rewrite (u32_small (size + align + 4 + 4)) by lia.
  set (total := size + align + 4 + 4).
  destruct (kmalloc_cases h m bs total H ltac:(lia)) as (ptr & h1 & m1 & Hkm & Hc). rewrite Hkm.
  assert (Ht : (exists m0 bs0, heap_inv h m0 bs0 /\ took h m0 bs0 (round4 total) ptr h1 m1) \/
    (ptr = 0 /\ h1 = h /\ heap_inv h m1 (coalesce bs))).
  { destruct Hc as [Ht|(_ & m0 & H0 & _ & [Ht|(-> & -> & -> & _)])].
    - left. by exists m, bs.
    - left. by exists m0, (coalesce bs).
    - by right. }
  destruct Ht as [(m0 & bs0 & H0 & Ht)|(-> & -> & Hi)].
  2: { exists 0, h, m1. split; [done|by left]. }
  destruct Ht as (l & s & r & -> & Hptr & Hle & _ & -> & Hi & _).
  destruct (asplit_cons s _ Hle) as (k0 & rest & Has & Hk0). rewrite Has in Hi. cbn [app] in Hi.
  pose proof (round4_spec total ltac:(lia)) as [Hr _].
  pose proof (heap_inv_block _ _ _ _ _ _ Hi) as (B1 & B2 & B3 & B4 & _).
  pose proof (hi_start _ _ _ Hi). pose proof (hi_end _ _ _ Hi).
  cbn [heap_start heap_size set_heap_used] in *. unfold HDR in *.
  replace (ptr =? 0) with false by lia.
  assert (Hpow : 0 < 2 ^ k) by (apply Z.pow_pos_nonneg; lia).
  pose proof (aligned_addr ptr k ltac:(lia) Hk ltac:(lia)) as [Hmod Hrange].
  rewrite <- Hal in Hmod, Hrange. rewrite (u32_small (align - 1)) in Hmod, Hrange by lia.
  set (a := Z.land (u32 (ptr + 4 + 4 + align - 1)) (not32 (align - 1))) in *.
  rewrite (u32_small (a - 4 - 4)), (u32_small (a - 4)) by lia.
  eexists a, _, _. split; [done|]. right. split; [done|]. exists l, k0, (rest ++ r).
  assert (Hfr : frame (heap_start h + span l + 12) k0 m1
    (store32 (store32 m1 (a - 4 - 4) ALIGN_MAGIC) (a - 4) ptr)).
  { eapply frame_trans; apply frame_store32; lia. }
  cbn [heap_start set_heap_used]. split_and!.
  - apply (heap_inv_payload _ _ _ _ _ _ Hi). exact Hfr.
  - unfold aligned_in, HDR. cbn [heap_start set_heap_used]. split; [lia|].
    replace (a - 4 - 4) with (a - 8) by lia. split; [memsimp; done|].
    memsimp. rewrite <- Hptr. try apply u32_small; lia.
  - lia.
  - lia.
Qed.

(** [kmalloc_aligned] refuses an alignment that is not a power of two; for
    one that is, it returns NULL or an aligned address whose [size] bytes lie
    inside one used block, and [kfree] of that address, whatever its owner wrote
    there, finds the block through the two words below the address and coalesces it. *)
Theorem kmalloc_aligned_correct h m bs size align :
  heap_inv h m bs -> 0 <= size -> 0 <= align -> size + align + 8 <= 4294967292 ->
  if negb (align =? 0) && (Z.land align (align - 1) =? 0) then
    exists a h1 m1, kmalloc_aligned h m size align = Some (a, h1, m1) /\
      (a = 0 /\ h1 = h /\ heap_inv h m1 (coalesce bs) \/
       a mod align = 0 /\ exists l s r, heap_inv h1 m1 (l ++ (s, true) :: r) /\
         heap_start h1 + span l + HDR <= a /\ a + size <= heap_start h1 + span l + HDR + s /\
         forall m2, frame a size m1 m2 ->
           exists h3 m3, kfree h1 m2 a = Some (h3, m3) /\
             heap_inv h3 m3 (coalesce (l ++ (s, false) :: r)))
  else kmalloc_aligned h m size align = Some (0, h, m).
Proof.
  intros H Hsz Ha Hb. destruct (negb (align =? 0) && (Z.land align (align - 1) =? 0)) eqn:E.
  2: { apply kmalloc_aligned_bad; [lia|]. lia. }
  destruct (kmalloc_aligned_ok h m bs size align H Hsz ltac:(lia) ltac:(lia) Hb)
    as (a & h1 & m1 & Hk & [Hz|(Hm & l & s & r & Hi & (Hal & Hm8 & Hm4) & Hle & Hlt)]);
    exists a, h1, m1; (split; [done|]); [by left|right].
  split; [done|]. exists l, s, r. split_and!; try done; [lia|].
  intros m2 Hf. unfold HDR in *.
  assert (Hi2 : heap_inv h1 m2 (l ++ (s, true) :: r)).
  { apply (heap_inv_payload _ _ _ _ _ _ Hi). eapply frame_weaken; [exact Hf|unfold HDR; lia|unfold HDR; lia]. }
  destruct (kfree_aligned_spec h1 m2 l s r a Hi2) as (m3 & Hfree & Hi3 & _).
  - split; [unfold HDR; lia|]. split; (erewrite frame_load32; [|exact Hf|lia]); done.
  - unfold HDR. lia.
  - eexists _, m3. split; [exact Hfree|done].
Qed.

Lemma kmalloc_aligned_correct_witness :
  exists a h1 m1, kmalloc_aligned demo_heap demo_heap_mem 64 32 = Some (a, h1, m1) /\
      (a = 0 /\ h1 = demo_heap /\ heap_inv demo_heap m1 (coalesce [(1012, false)]) \/
       a mod 32 = 0 /\ exists l s r, heap_inv h1 m1 (l ++ (s, true) :: r) /\
         heap_start h1 + span l + HDR <= a /\ a + 64 <= heap_start h1 + span l + HDR + s /\
         forall m2, frame a 64 m1 m2 ->
           exists h3 m3, kfree h1 m2 a = Some (h3, m3) /\
             heap_inv h3 m3 (coalesce (l ++ (s, false) :: r))).
Proof. apply (kmalloc_aligned_correct demo_heap demo_heap_mem _ 64 32 demo_heap_inv); lia. Defined.

(** *** Fragmentation *)

Definition free_sizes (bs : list ablock) : list Z :=
  map fst (filter (fun b => b.2 = false) bs).
Definition largest (bs : list ablock) (z : Z) : Z := foldl Z.max z (free_sizes bs).

(** Blocks without payload, except the last of the chain. *)
Definition no_empty_block (bs : list ablock) : Prop := Forall (fun b => b.1 <> 0) (removelast bs).

Lemma fragmentation_loop_spec h m f p bs count z i :
  heap_start h <= p -> 0 < p -> p + span bs = heap_start h + heap_size h ->
  heap_start h + heap_size h < 4294967296 -> hseg m p bs 0 -> no_empty_block bs ->
  (length bs < f)%nat -> 0 <= i -> i + Z.of_nat (length bs) <= 10000 ->
  0 <= count -> count + Z.of_nat (length bs) < 4294967296 ->
  fragmentation_loop f h m (match bs with [] => 0 | _ => p end) count z i =
  Some (count + Z.of_nat (length (free_sizes bs)), largest bs z, m).
Proof.
  revert f p count z i. induction bs as [|[s u] bs IH];
    intros f p count z i Hp Hp0 Hend Hlim H Hne Hf Hi Hi2 Hc Hc2;
    (destruct f as [|f]; [simpl in Hf; lia|]); cbn [fragmentation_loop].
  { unfold largest, free_sizes. simpl. by rewrite Z.add_0_r. }
  pose proof (hseg_sizes _ _ _ _ H) as [_ Hs]%Forall_cons. pose proof (span_nonneg _ Hs) as Hsp.
  destruct H as (H1 & H2 & H3 & H4 & H). cbn [span length] in *.
  replace (p =? 0) with false by lia. replace (i <? 10000) with true by lia. cbn [negb andb].
  unfold outside, heap_end. rewrite (u32_small (heap_start h + heap_size h)) by (unfold HDR in *; lia).
  replace (p <? heap_start h) with false by lia.
  replace (heap_start h + heap_size h <=? p) with false by (unfold HDR in *; lia). cbn [orb].
  rewrite H2, H3, H4.
  replace ((s =? 0) && negb ((match bs with [] => 0 | _ :: _ => p + HDR + s end) =? 0)) with false.
  2: { destruct bs; [by rewrite andb_false_r|]. unfold no_empty_block in Hne.
       cbn [removelast] in Hne. apply Forall_cons in Hne as [Hne _]. cbn [fst] in Hne. lia. }
  assert (Hne' : no_empty_block bs).
  { unfold no_empty_block in *. destruct bs; [constructor|]. cbn [removelast] in Hne.
    by apply Forall_cons in Hne as [_ ?]. }
  replace (Z.b2z u =? 0) with (negb u) by (by destruct u).
  destruct u; cbn [negb].
  - rewrite (u32_small (i + 1)) by lia.
    rewrite (IH f (p + HDR + s)); [done|unfold HDR in *; lia..|done|done|lia|lia|lia|lia|lia].
  - rewrite (u32_small (i + 1)), (u32_small (count + 1)) by lia.
    rewrite (IH f (p + HDR + s)); [|unfold HDR in *; lia..|done|done|lia|lia|lia|lia|lia].
    unfold largest, free_sizes. rewrite filter_cons_True by done. simpl.
    do 3 f_equal. lia.
Qed.

(** [heap_get_fragmentation] counts the free blocks and finds the largest,
    changing nothing, on every well-formed heap of at most 10000 blocks in which
    only the last block may be empty. *)
Theorem heap_get_fragmentation_counts h m bs :
  heap_inv h m bs -> no_empty_block bs -> Z.of_nat (length bs) <= 10000 ->
  heap_get_fragmentation (heap_fuel h) h m =
  Some (Z.of_nat (length (free_sizes bs)), largest bs 0, m).
Proof.
  intros H Hne Hl. pose proof (heap_inv_fuel _ _ _ H) as Hf. destruct H as [H1 H2 H3 H4 H5].
  unfold heap_get_fragmentation. destruct bs as [|b bs']; [done|].
  apply (fragmentation_loop_spec h m (heap_fuel h) (heap_start h) (b :: bs') 0 0 0);
    try done; lia.
Qed.

Lemma heap_get_fragmentation_counts_witness :
  heap_get_fragmentation (heap_fuel demo_heap) demo_heap demo_heap_mem = Some (1, 1012, demo_heap_mem).
Proof.
  apply (heap_get_fragmentation_counts demo_heap demo_heap_mem _ demo_heap_inv);
    [constructor|vm_compute; discriminate].
Defined.

Lemma fragmentation_diverges h x f : forall m c l i,
  heap_inv h m [(0, true); (x, false)] -> i < 10000 ->
  fragmentation_loop f h m (heap_start h) c l i = None.
Proof.
  induction f as [|f IH]; intros m c l i H Hi; [done|]. cbn [fragmentation_loop].
  pose proof (heap_inv_block h m [] 0 true [(x, false)] H) as (_ & _ & B3 & B4 & _ & _ & B7).
  pose proof (hi_start _ _ _ H). pose proof (hi_end _ _ _ H).
  cbn [span] in *. rewrite !Z.add_0_r in *. destruct B7 as (C1 & C2 & C3 & C4 & _).
  replace (heap_start h =? 0) with false by lia. replace (i <? 10000) with true by lia.
  cbn [negb andb]. unfold outside, heap_end.
  rewrite (u32_small (heap_start h + heap_size h)) by (unfold HDR in *; lia).
  replace (heap_start h <? heap_start h) with false by lia.
  replace (heap_start h + heap_size h <=? heap_start h) with false by (unfold HDR in *; lia).
  cbn [orb]. rewrite C2, C4. cbn [Z.eqb andb].
  replace (heap_start h + HDR + 0 =? 0) with false by (unfold HDR in *; lia). cbn [negb].
  destruct (merge_free_blocks_spec h m _ H) as (m' & -> & H' & _). by apply IH.
Qed.

(** the rounding in [kmalloc] wraps: on a fresh heap a request for the last
    three sizes below 2^32 succeeds with a block of no bytes at all, and from
    then on [heap_get_fragmentation] never returns, whatever the fuel. *)
Theorem kmalloc_size_wraps m start size n a h m0 :
  0 < start -> 40 <= size -> start + size + 16 < 4294967296 ->
  4294967293 <= n < 4294967296 -> heap_init m start size = (a, h, m0) ->
  exists h1 m1, kmalloc h m0 n = Some (start + HDR, h1, m1) /\
    heap_inv h1 m1 [(0, true); (size - 2 * HDR, false)] /\
    forall fuel, heap_get_fragmentation fuel h1 m1 = None.
Proof.
  intros Hst Hsz He Hn Hi.
  pose proof (heap_init_inv m start size Hst ltac:(lia) He) as Hinv. rewrite Hi in Hinv.
  destruct Hinv as [_ H]. assert (Hhs : heap_start h = start).
  { unfold heap_init in Hi. by simplify_eq. }
  assert (Hk : exists a h1 m1, kmalloc h m0 n = Some (a, h1, m1) /\
    took h m0 [(size - HDR, false)] 0 a h1 m1).
  { unfold kmalloc. replace (n =? 0) with false by lia.
    replace (u32 (n + 3)) with (n + 3 - 4294967296) by (unfold u32; zdm).
    rewrite land_not3 by lia. replace (4 * ((n + 3 - 4294967296) / 4)) with 0 by zdm.
    destruct (find_best_fit_spec h m0 _ 0 H ltac:(lia)) as [[_ Hnf]|(b & -> & Hb & Hfit)].
    { specialize (Hnf (size - HDR) ltac:(by left)). unfold HDR in *. lia. }
    replace (b =? 0) with false by lia. cbn [negb].
    pose proof (take_best h m0 _ 0 b H ltac:(lia) Hfit) as Ht.
    destruct (take_block h m0 b 0) as [[a' h1] m1]. by exists a', h1, m1. }
  destruct Hk as (a' & h1 & m1 & Hk & (l & s & r & Hbs & -> & _ & _ & -> & Hi1 & _)).
  destruct l as [|? l]; [|by destruct l]. cbn [app] in Hbs. simplify_eq.
  cbn [span app] in *. rewrite !Z.add_0_r in *. unfold asplit in Hi1.
  replace (0 + HDR + 16 <=? size - HDR) with true in Hi1 by (unfold HDR; lia). cbn [app] in Hi1.
  eexists _, m1. split; [exact Hk|].
  replace (size - HDR - 0 - HDR) with (size - 2 * HDR) in Hi1 by lia.
  split; [exact Hi1|]. intros fuel. apply (fragmentation_diverges _ (size - 2 * HDR)); [done|lia].
Qed.

Lemma kmalloc_size_wraps_witness : exists h1 m1,
  kmalloc demo_heap demo_heap_mem 4294967295 = Some (4108, h1, m1) /\
  heap_inv h1 m1 [(0, true); (1000, false)] /\
  forall fuel, heap_get_fragmentation fuel h1 m1 = None.
Proof.
  apply (kmalloc_size_wraps ∅ 4096 1024 4294967295 4108 demo_heap demo_heap_mem);
    [lia|lia|lia|lia|reflexivity].
Defined.
