(* ===== verification/Vmm.v ===== *)
(** kernel/mm/vmm.c: page directories and page tables in physical memory.

    A directory or table is 1024 words at a frame address; the operations read
    and write those words, and take frames from a physical memory manager that is
    known only through the class [FrameAlloc].  The state [vst] holds the file's
    static variables, the control registers it writes, the pages whose TLB
    entries it has invalidated, the frame allocator and the memory.  A NULL
    pointer is 0.  [pte] is the abstract view: the table entry of an address. *)

From S2P Require Import Prelude Mem CString FrameAlloc Pmm.
Local Open Scope Z_scope.
Local Open Scope kernel_scope.

(** ** Definitions *)

Definition PAGE_SIZE : Z := 4096.
Definition KERNEL_VIRTUAL_BASE : Z := 3221225472.
Definition USER_SPACE_END : Z := 3221225471.
Definition PAGE_PRESENT : Z := 1.
Definition PAGE_WRITE : Z := 2.
Definition PAGE_USER : Z := 4.
Definition PAGE_DIRECTORY_INDEX (x : Z) : Z := Z.land (Z.shiftr x 22) 1023.
Definition PAGE_TABLE_INDEX (x : Z) : Z := Z.land (Z.shiftr x 12) 1023.

(** [x & ~0xFFF], [x & 0xFFF] and [x & PAGE_PRESENT]. *)
Definition page_of (x : Z) : Z := Z.land x (not32 4095).
Definition offset_of (x : Z) : Z := Z.land x 4095.
Definition has (x flag : Z) : bool := negb (Z.land x flag =? 0).

Record vmm := Vmm {
  kernel_directory : Z;
  current_directory : Z;
  kernel_directory_phys : Z;
  cr3 : Z;
  cr0 : Z;
  flushed : list Z       (* arguments of [invlpg], latest first *)
}.

Definition invlpg (v : vmm) (addr : Z) : vmm :=
  Vmm (kernel_directory v) (current_directory v) (kernel_directory_phys v) (cr3 v) (cr0 v)
    (addr :: flushed v).

Definition phys_to_virt (v : vmm) (phys : Z) : Z :=
  if kernel_directory_phys v =? 0 then phys
  else if kernel_directory v <? KERNEL_VIRTUAL_BASE then phys
  else u32 (phys + u32 (kernel_directory v - kernel_directory_phys v)).

(** Entry [i] of the directory or table at [t]. *)
Definition entry (m : mem) (t i : Z) : Z := load32 m (t + 4 * i).
Definition set_entry (m : mem) (t i e : Z) : mem := store32 m (t + 4 * i) e.

Section operations.
Context {St : Type} `{FrameAlloc St}.

Record vst := Vst { vs : vmm; al : St; vm : mem }.

Definition with_vm (s : vst) (m : mem) : vst := Vst (vs s) (al s) m.
Definition with_vs (s : vst) (v : vmm) : vst := Vst v (al s) (vm s).

Definition alloc_frame (s : vst) : Z * vst :=
  let '(p, a, m) := fa_alloc (al s) (vm s) in (p, Vst (vs s) a m).
Definition free_frame (s : vst) (addr : Z) : vst :=
  let '(a, m) := fa_free (al s) (vm s) addr in Vst (vs s) a m.

(** The address of the table of [virt_addr], 0 when there is none. *)
Definition get_page_table (s : vst) (page_dir virt_addr : Z) (create : bool) : Z * vst :=
  let dir_index := PAGE_DIRECTORY_INDEX virt_addr in
  let dir := phys_to_virt (vs s) page_dir in
  if has (entry (vm s) dir dir_index) PAGE_PRESENT then
    (phys_to_virt (vs s) (page_of (entry (vm s) dir dir_index)), s)
  else if create then
    let '(table_phys, s) := alloc_frame s in
    if table_phys =? 0 then (0, s) else
    let table_virt := phys_to_virt (vs s) table_phys in
    let m := memset (vm s) table_virt 0 4096 in
    let flags := Z.lor PAGE_PRESENT PAGE_WRITE in
    let flags := if virt_addr <? KERNEL_VIRTUAL_BASE then Z.lor flags PAGE_USER else flags in
    let m := set_entry m dir dir_index (Z.lor table_phys flags) in
    (table_virt, with_vm s m)
  else (0, s).

Definition vmm_map_page (s : vst) (page_dir virt_addr phys_addr flags : Z) : Z * vst :=
  let virt_addr := page_of virt_addr in
  let phys_addr := page_of phys_addr in
  let '(table, s) := get_page_table s page_dir virt_addr true in
  if table =? 0 then (-1, s) else
  let s := with_vm s (set_entry (vm s) table (PAGE_TABLE_INDEX virt_addr) (Z.lor phys_addr flags)) in
  (0, if page_dir =? current_directory (vs s) then with_vs s (invlpg (vs s) virt_addr) else s).

Definition vmm_unmap_page (s : vst) (page_dir virt_addr : Z) : vst :=
  let virt_addr := page_of virt_addr in
  let '(table, s) := get_page_table s page_dir virt_addr false in
  if table =? 0 then s else
  let s := with_vm s (set_entry (vm s) table (PAGE_TABLE_INDEX virt_addr) 0) in
  if page_dir =? current_directory (vs s) then with_vs s (invlpg (vs s) virt_addr) else s.

Definition vmm_get_physical_address (s : vst) (page_dir virt_addr : Z) : Z :=
  let '(table, s) := get_page_table s page_dir virt_addr false in
  if table =? 0 then 0 else
  let e := entry (vm s) table (PAGE_TABLE_INDEX virt_addr) in
  if negb (has e PAGE_PRESENT) then 0 else Z.lor (page_of e) (offset_of virt_addr).

Definition vmm_is_mapped (s : vst) (page_dir virt_addr : Z) : bool :=
  let '(table, s) := get_page_table s page_dir virt_addr false in
  if table =? 0 then false
  else has (entry (vm s) table (PAGE_TABLE_INDEX virt_addr)) PAGE_PRESENT.

Definition vmm_alloc_page (s : vst) (page_dir virt_addr flags : Z) : Z * vst :=
  let '(phys, s) := alloc_frame s in
  if phys =? 0 then (-1, s) else
  let '(r, s) := vmm_map_page s page_dir virt_addr phys (Z.lor flags PAGE_PRESENT) in
  if negb (r =? 0) then (-1, free_frame s phys) else (0, s).

Definition vmm_free_page (s : vst) (page_dir virt_addr : Z) : vst :=
  let phys := vmm_get_physical_address s page_dir virt_addr in
  let s := if negb (phys =? 0) then free_frame s (page_of phys) else s in
  vmm_unmap_page s page_dir virt_addr.

Definition vmm_create_address_space (s : vst) : Z * vst :=
  let '(page_dir, s) := alloc_frame s in
  if page_dir =? 0 then (0, s) else
  let dst := phys_to_virt (vs s) page_dir in
  let m := memset (vm s) dst 0 4096 in
  let m :=
    if negb (kernel_directory (vs s) =? 0) then
      let src := phys_to_virt (vs s) (kernel_directory (vs s)) in
      for_range 768 256 (fun m i => set_entry m dst i (entry m src i)) m
    else m in
  (page_dir, with_vm s m).

(** The pages of one table, then the table. *)
Definition destroy_table (s : vst) (table_phys : Z) : vst :=
  let table_ptr := phys_to_virt (vs s) table_phys in
  let s := for_range 0 1024 (fun s j =>
    if has (entry (vm s) table_ptr j) PAGE_PRESENT
    then free_frame s (page_of (entry (vm s) table_ptr j)) else s) s in
  free_frame s table_phys.

Definition vmm_destroy_address_space (s : vst) (page_dir : Z) : vst :=
  if (page_dir =? 0) || (page_dir =? kernel_directory (vs s)) then s else
  let dir := phys_to_virt (vs s) page_dir in
  let s := for_range 0 768 (fun s i =>
    if has (entry (vm s) dir i) PAGE_PRESENT
    then destroy_table s (page_of (entry (vm s) dir i)) else s) s in
  free_frame s page_dir.

Definition vmm_switch_address_space (s : vst) (page_dir : Z) : vst :=
  if page_dir =? 0 then s else
  let v := vs s in
  with_vs s (Vmm (kernel_directory v) page_dir (kernel_directory_phys v) page_dir (cr0 v) (flushed v)).

Definition vmm_get_current_directory (s : vst) : Z := current_directory (vs s).

(** The inner loop of [vmm_clone_address_space], entries [j, j + n) of a table;
    the flag says that it ran out of frames. *)
Fixpoint clone_entries (n : nat) (s : vst) (src_table dst_table j : Z) : bool * vst :=
  match n with
  | O => (true, s)
  | S n' =>
      let e := entry (vm s) src_table j in
      if has e PAGE_PRESENT then
        let '(new_phys, s) := alloc_frame s in
        if new_phys =? 0 then (false, s) else
        let m := memcpy (vm s) (phys_to_virt (vs s) new_phys)
                   (phys_to_virt (vs s) (page_of (entry (vm s) src_table j))) PAGE_SIZE in
        let m := set_entry m dst_table j (Z.lor new_phys (offset_of (entry m src_table j))) in
        clone_entries n' (with_vm s m) src_table dst_table (j + 1)
      else clone_entries n' (with_vm s (set_entry (vm s) dst_table j 0)) src_table dst_table (j + 1)
  end.

(** The outer loop, entries [i, i + n) of the directories; the result is [dst] or 0. *)
Fixpoint clone_tables (n : nat) (s : vst) (src_dir dst_dir dst i : Z) : Z * vst :=
  match n with
  | O => (dst, s)
  | S n' =>
      let e := entry (vm s) src_dir i in
      if negb (has e PAGE_PRESENT) then clone_tables n' s src_dir dst_dir dst (i + 1)
      else
        let '(dst_table_phys, s) := alloc_frame s in
        if dst_table_phys =? 0 then (0, vmm_destroy_address_space s dst) else
        let '(ok, s) := clone_entries 1024 s (phys_to_virt (vs s) (page_of e))
                          (phys_to_virt (vs s) dst_table_phys) 0 in
        if negb ok then (0, vmm_destroy_address_space (free_frame s dst_table_phys) dst)
        else
          let m := set_entry (vm s) dst_dir i
                     (Z.lor dst_table_phys (offset_of (entry (vm s) src_dir i))) in
          clone_tables n' (with_vm s m) src_dir dst_dir dst (i + 1)
  end.

Definition vmm_clone_address_space (s : vst) (src : Z) : Z * vst :=
  let '(dst, s) := vmm_create_address_space s in
  if dst =? 0 then (0, s)
  else clone_tables 768 s (phys_to_virt (vs s) src) (phys_to_virt (vs s) dst) dst 0.

(** The loop of [vmm_check_user_ptr]; [None] when the fuel ends first. *)
Fixpoint check_pages (fuel : nat) (s : vst) (pd page last : Z) (write : bool) : option bool :=
  match fuel with
  | O => None
  | S f =>
      if negb (page <=? last) then Some true else
      let e := entry (vm s) (phys_to_virt (vs s) pd) (PAGE_DIRECTORY_INDEX page) in
      if negb (has e PAGE_PRESENT) then Some false else
      let t := entry (vm s) (phys_to_virt (vs s) (page_of e)) (PAGE_TABLE_INDEX page) in
      if negb (has t PAGE_PRESENT) then Some false
      else if negb (has t PAGE_USER) then Some false
      else if write && negb (has t PAGE_WRITE) then Some false
      else check_pages f s pd (u32 (page + PAGE_SIZE)) last write
  end.

(** One more than the pages of the user half. *)
Definition check_fuel : nat := Z.to_nat 786434.

Definition vmm_check_user_ptr (s : vst) (ptr len : Z) (write : bool) : option bool :=
  if ptr =? 0 then Some false else
  if len =? 0 then Some true else
  let last := u32 (u32 (ptr + len) - 1) in
  if (USER_SPACE_END <? ptr) || (USER_SPACE_END <? last) then Some false else
  let pd := vmm_get_current_directory s in
  if pd =? 0 then Some false
  else check_pages check_fuel s pd (page_of ptr) last write.

(** One identity-mapped table of [vmm_init]; false when no frame is left. *)
Definition init_table (s : vst) (dir table_idx : Z) : bool * vst :=
  let '(table_phys, s) := alloc_frame s in
  if table_phys =? 0 then (false, s) else
  let table_ptr := phys_to_virt (vs s) table_phys in
  let m := for_range 0 1024 (fun m i => set_entry m table_ptr i 0) (vm s) in
  let m := for_range 0 1024 (fun m i =>
    set_entry m table_ptr i
      (Z.lor (Z.lor (table_idx * 4194304 + i * PAGE_SIZE) PAGE_PRESENT) PAGE_WRITE)) m in
  let m := set_entry m dir table_idx (Z.lor (Z.lor table_phys PAGE_PRESENT) PAGE_WRITE) in
  (true, with_vm s m).

(** The log messages of [vmm_init] are not modelled here. *)
Definition vmm_init (s : vst) : vst :=
  let '(kd, s) := alloc_frame s in
  let v := vs s in
  if kd =? 0 then
    with_vs s (Vmm 0 (current_directory v) (kernel_directory_phys v) (cr3 v) (cr0 v) (flushed v))
  else
    let s := with_vs s (Vmm kd kd kd (cr3 v) (cr0 v) (flushed v)) in
    let dir := phys_to_virt (vs s) kd in
    let s := with_vm s (for_range 0 1024 (fun m i => set_entry m dir i 0) (vm s)) in
    let '(ok, s) := init_table s dir 0 in
    if negb ok then s else
    let '(ok, s) := init_table s dir 1 in
    if negb ok then s else
    let v := vs s in
    with_vs s (Vmm kd kd kd (kernel_directory_phys v) (Z.lor (cr0 v) 2147483648) (flushed v)).

End operations.

Arguments vst : clear implicits.

(** ** Words of a directory or table *)

Lemma page_of_eq x : 0 <= x < 4294967296 -> page_of x = 4096 * (x / 4096).
Proof. intros. apply (land_not_mask x 12); lia. Qed.

Lemma offset_of_eq x : offset_of x = x mod 4096.
Proof. apply (Z.land_ones x 12). lia. Qed.

Lemma dir_index_eq x : 0 <= x < 4294967296 -> PAGE_DIRECTORY_INDEX x = x / 4194304.
Proof.
  intros. unfold PAGE_DIRECTORY_INDEX. rewrite Z.shiftr_div_pow2 by lia.
  rewrite (Z.land_ones _ 10) by lia. change (2 ^ 10) with 1024. change (2 ^ 22) with 4194304.
  apply Z.mod_small. zdm.
Qed.

Lemma table_index_eq x : PAGE_TABLE_INDEX x = (x / 4096) mod 1024.
Proof.
  unfold PAGE_TABLE_INDEX. rewrite Z.shiftr_div_pow2 by lia.
  by rewrite (Z.land_ones _ 10) by lia.
Qed.

Lemma dir_index_page x : 0 <= x < 4294967296 ->
  PAGE_DIRECTORY_INDEX (page_of x) = PAGE_DIRECTORY_INDEX x.
Proof. intros. rewrite page_of_eq by lia. rewrite !dir_index_eq by zdm. zdm. Qed.

Lemma table_index_page x : 0 <= x < 4294967296 ->
  PAGE_TABLE_INDEX (page_of x) = PAGE_TABLE_INDEX x.
Proof. intros. rewrite page_of_eq by lia. rewrite !table_index_eq. f_equal. zdm. Qed.

Lemma dir_index_range x : 0 <= PAGE_DIRECTORY_INDEX x < 1024.
Proof. unfold PAGE_DIRECTORY_INDEX. rewrite (Z.land_ones _ 10) by lia. apply Z.mod_pos_bound. lia. Qed.

Lemma table_index_range x : 0 <= PAGE_TABLE_INDEX x < 1024.
Proof. rewrite table_index_eq. apply Z.mod_pos_bound. lia. Qed.

(** Two addresses with the same indices are on the same page. *)
Lemma index_inj x y : 0 <= x < 4294967296 -> 0 <= y < 4294967296 ->
  PAGE_DIRECTORY_INDEX x = PAGE_DIRECTORY_INDEX y -> PAGE_TABLE_INDEX x = PAGE_TABLE_INDEX y ->
  x / 4096 = y / 4096.
Proof. intros ??. rewrite !dir_index_eq, !table_index_eq by lia. zdm. Qed.

Lemma has_bit0 x : has x PAGE_PRESENT = Z.odd x.
Proof.
  unfold has, PAGE_PRESENT. change 1 with (Z.ones 1) at 1. rewrite (Z.land_ones x 1) by lia.
  change (2 ^ 1) with 2.  rewrite Zmod_odd. by destruct (Z.odd x).
Qed.

(** The addresses that the allocator hands out and that directories hold. *)
Definition is_frame (t : Z) : Prop := t mod 4096 = 0 /\ 0 < t < 4294967296.

(** An entry made of a frame address and twelve bits of flags. *)
Lemma entry_parts t fl : is_frame t -> 0 <= fl < 4096 ->
  Z.lor t fl = t + fl /\ 0 <= t + fl < 4294967296 /\
  page_of (t + fl) = t /\ offset_of (t + fl) = fl.
Proof.
  intros [Ht1 Ht2] Hf. assert (Hq : t = t / 4096 * 2 ^ 12) by (change (2 ^ 12) with 4096; zdm).
  split; [rewrite Hq at 1; rewrite lor_low by (simpl; lia); lia|].
  split; [zdm|]. split; [rewrite page_of_eq by zdm; zdm|rewrite offset_of_eq; zdm].
Qed.

Lemma has_parts t fl : is_frame t -> has (t + fl) PAGE_PRESENT = has fl PAGE_PRESENT.
Proof.
  intros [Ht _]. rewrite !has_bit0. rewrite Z.odd_add.
  replace (Z.odd t) with false; [by destruct (Z.odd fl)|].
  symmetry. rewrite <- Z.negb_even. apply negb_false_iff, Z.even_spec.
  exists (t / 4096 * 2048). zdm.
Qed.

Lemma entry_set_eq m t i e : 0 <= e < 4294967296 -> entry (set_entry m t i e) t i = e.
Proof. intros. unfold entry, set_entry. memsimp. try apply u32_small; lia. Qed.

Lemma entry_set_ne m t i e t' i' :
  t mod 4096 = 0 -> t' mod 4096 = 0 -> 0 <= i < 1024 -> 0 <= i' < 1024 ->
  t <> t' \/ i <> i' -> entry (set_entry m t i e) t' i' = entry m t' i'.
Proof.
  intros. unfold entry, set_entry. apply load32_store32_ne.
  destruct (decide (t = t')) as [->|Hne]; [lia|]. zdm.
Qed.

Lemma entry_frame m m' lo len t i :
  frame lo len m m' -> t mod 4096 = 0 -> 0 <= i < 1024 ->
  t + 4096 <= lo \/ lo + len <= t -> entry m' t i = entry m t i.
Proof. intros Hf Ht Hi Hd. unfold entry. eapply frame_load32; [exact Hf|]. lia. Qed.

Lemma entry_memset0 m t i : 0 <= i < 1024 -> entry (memset m t 0 4096) t i = 0.
Proof. intros. apply load32_memset0; lia. Qed.

Lemma entry_range m t i : 0 <= entry m t i < 4294967296.
Proof. apply load32_range. Qed.

Lemma set_entry_frame m t i e :
  0 <= i < 1024 -> frame t 4096 m (set_entry m t i e).
Proof. intros. apply frame_store32; lia. Qed.

(** A loop that writes entries [a, a + n) of the frame [t] from values that do
    not depend on that frame. *)
Lemma fill_spec (g : mem -> Z -> Z) m t a n :
  t mod 4096 = 0 -> 0 <= a -> 0 <= n -> a + n <= 1024 ->
  (forall m' i, frame t 4096 m m' -> a <= i < a + n -> g m' i = g m i) ->
  (forall i, 0 <= g m i < 4294967296) ->
  let m' := for_range a n (fun m i => set_entry m t i (g m i)) m in
  frame t 4096 m m' /\
  forall j, 0 <= j < 1024 -> entry m' t j = if in_range a n j then g m j else entry m t j.
Proof.
  intros Ht Ha Hn Han Hg Hr m'. unfold m'.
  apply (for_range_ind (fun k x => frame t 4096 m x /\
    forall j, 0 <= j < 1024 -> entry x t j = if in_range a k j then g m j else entry m t j)); [done|..].
  - split; [done|]. intros j Hj. by rcases.
  - intros k x Hk [Hf He]. rewrite (Hg x (a + k)) by (done || lia). split.
    + eapply frame_trans; [exact Hf|]. apply set_entry_frame. lia.
    + intros j Hj. destruct (decide (j = a + k)) as [->|Hne].
      * rewrite entry_set_eq by apply Hr. by rcases.
      * rewrite entry_set_ne by (done || lia || (right; lia)). rewrite He by done. by rcases.
Qed.

Lemma has_3 : has 3 PAGE_PRESENT = true.
Proof. done. Qed.

Lemma has_0 fl : has 0 fl = false.
Proof. unfold has. by rewrite Z.land_0_l. Qed.

#[export] Hint Resolve dir_index_range table_index_range entry_range : machr.

(** The entry of the page of [va]: 0 when its table is missing. *)
Definition pte (m : mem) (pd va : Z) : Z :=
  let e := entry m pd (PAGE_DIRECTORY_INDEX va) in
  if has e PAGE_PRESENT then entry m (page_of e) (PAGE_TABLE_INDEX va) else 0.

(** [t] is a table of the directory. *)
Definition is_table (m : mem) (pd t : Z) : Prop :=
  exists i, 0 <= i < 1024 /\ has (entry m pd i) PAGE_PRESENT = true /\ page_of (entry m pd i) = t.

Lemma is_table_ext m m' pd t :
  (forall i, 0 <= i < 1024 -> entry m' pd i = entry m pd i) -> is_table m' pd t -> is_table m pd t.
Proof. intros He (i & Hi & Hp & Ht). rewrite He in Hp, Ht by done. by exists i. Qed.

Lemma pte_ext m m' pd va :
  (forall i, 0 <= i < 1024 -> entry m' pd i = entry m pd i) ->
  (forall t i, is_table m pd t -> 0 <= i < 1024 -> entry m' t i = entry m t i) ->
  pte m' pd va = pte m pd va.
Proof.
  intros Hd Ht. unfold pte. rewrite Hd by auto with machr.
  destruct (has _ _) eqn:E; [|done]. apply Ht; [|auto with machr].
  exists (PAGE_DIRECTORY_INDEX va). auto with machr.
Qed.

(* the proofs below go through the lemmas above, not through the bytes *)
Local Opaque memset memcpy for_range entry set_entry page_of offset_of has
  PAGE_DIRECTORY_INDEX PAGE_TABLE_INDEX.

Section laws.
Context {St : Type} `{FrameAllocLaws St}.
Implicit Types (s : vst St) (F : gset Z).

(** The frame at [t] does not meet the allocator's own memory. *)
Definition outside_private (a : St) (t : Z) : Prop :=
  t + 4096 <= fa_lo a \/ fa_lo a + fa_len a <= t.

(** A frame in use: real, not free, and not the allocator's. *)
Definition owned (a : St) (F : gset Z) (t : Z) : Prop :=
  is_frame t /\ t / 4096 ∉ F /\ outside_private a t.

(** What holds between operations for the directory [pd], with [F] the free frames. *)
Record vinv s F pd : Prop := {
  vi_virt : kernel_directory_phys (vs s) = 0 \/
            kernel_directory (vs s) = kernel_directory_phys (vs s);
  vi_alloc : fa_inv (al s) (vm s) F;
  vi_dir : owned (al s) F pd;
  vi_table : forall t, is_table (vm s) pd t -> owned (al s) F t /\ t <> pd;
  vi_inj : forall i j, 0 <= i < 1024 -> 0 <= j < 1024 ->
    has (entry (vm s) pd i) PAGE_PRESENT = true -> has (entry (vm s) pd j) PAGE_PRESENT = true ->
    page_of (entry (vm s) pd i) = page_of (entry (vm s) pd j) -> i = j
}.

(** A byte that an operation on [pd] has no business to write. *)
Definition foreign s F pd (b : Z) : Prop :=
  ~ (fa_lo (al s) <= b < fa_lo (al s) + fa_len (al s)) /\
  b / 4096 ∉ F /\ b / 4096 * 4096 <> pd /\ ~ is_table (vm s) pd (b / 4096 * 4096).

Lemma virt_id s p : (kernel_directory_phys (vs s) = 0 \/
    kernel_directory (vs s) = kernel_directory_phys (vs s)) ->
  0 <= p < 4294967296 -> phys_to_virt (vs s) p = p.
Proof.
  intros Hv Hp. unfold phys_to_virt. destruct (Z.eqb_spec (kernel_directory_phys (vs s)) 0); [done|].
  destruct Hv as [?| ->]; [done|]. destruct (_ <? _); [done|].
  rewrite Z.sub_diag. change (u32 0) with 0. rewrite Z.add_0_r. by apply u32_small.
Qed.

Lemma frame_index f : f * 4096 / 4096 = f.
Proof. apply Z.div_mul. lia. Qed.

Lemma alloc_frame_cases s F :
  fa_inv (al s) (vm s) F ->
  (F = ∅ /\ alloc_frame s = (0, s)) \/
  exists t s', t / 4096 ∈ F /\ is_frame t /\ outside_private (al s) t /\
    alloc_frame s = (t, s') /\ vs s' = vs s /\ fa_same (al s) (al s') /\
    fa_inv (al s') (vm s') (F ∖ {[t / 4096]}) /\
    frame (fa_lo (al s)) (fa_len (al s)) (vm s) (vm s').
Proof.
  intros Hi. unfold alloc_frame. destruct (decide (F = ∅)) as [->|Hne].
  - left. rewrite fa_alloc_none by done. split; [done|]. by destruct s.
  - right. destruct (fa_alloc_some _ _ _ Hi Hne) as (f & a' & m' & Hf & -> & Hi' & Hfr & Hsame).
    pose proof (fa_free_managed _ _ _ _ Hi Hf) as Hm.
    pose proof (fa_managed_range _ _ _ _ Hi Hm) as [Hr Hd].
    exists (f * 4096), (Vst (vs s) a' m'). rewrite !frame_index.
    split; [done|]. split; [split; [by rewrite Z.mod_mul|lia]|]. split; [done|]. split; [done|].
    split; [done|]. split; [done|]. split; [done|]. done.
Qed.

Lemma owned_same a a' F F' t : fa_same a a' -> F' ⊆ F -> owned a F t -> owned a' F' t.
Proof.
  intros (H1 & H2 & _) Hs (A & B & C). unfold owned, outside_private in *. rewrite H1, H2.
  split; [done|]. split; [set_solver|done].
Qed.

Lemma owned_ne a F t t' : owned a F t -> t' / 4096 ∈ F -> t <> t'.
Proof. intros (_ & Hn & _) Hin ->. done. Qed.

Lemma owned_range a F t : owned a F t -> 0 <= t < 4294967296 /\ t mod 4096 = 0 /\ t <> 0.
Proof. intros [[? ?] _]. lia. Qed.

(** Entries of owned frames survive a write to the allocator's own memory. *)
Lemma entry_private a F m m' t i :
  owned a F t -> frame (fa_lo a) (fa_len a) m m' -> 0 <= i < 1024 -> entry m' t i = entry m t i.
Proof. intros ([? ?] & _ & Ho) Hf Hi. eapply entry_frame; [exact Hf|done|done|exact Ho]. Qed.

(** Entries of owned frames survive a write to a frame that was free. *)
Lemma entry_fresh a F m m' t t' i :
  owned a F t -> is_frame t' -> t' / 4096 ∈ F -> frame t' 4096 m m' -> 0 <= i < 1024 ->
  entry m' t i = entry m t i.
Proof.
  intros Ho [Hm' _] Hin Hf Hi. pose proof (owned_ne _ _ _ _ Ho Hin) as Hne.
  destruct Ho as ([Hm _] & _). eapply entry_frame; [exact Hf|done|done|]. zdm.
Qed.
(** A directory with one entry changed. *)
Lemma is_table_set m pd i e t :
  pd mod 4096 = 0 -> 0 <= i < 1024 -> 0 <= e < 4294967296 ->
  is_table (set_entry m pd i e) pd t -> t = page_of e \/ is_table m pd t.
Proof.
  intros Hpd Hi He (j & Hj & Hp & Ht). destruct (decide (j = i)) as [->|Hne].
  - rewrite entry_set_eq in Ht by done. by left.
  - rewrite entry_set_ne in Hp, Ht by (done || by right; lia). right. by exists j.
Qed.

Lemma present_table m pd i : 0 <= i < 1024 -> has (entry m pd i) PAGE_PRESENT = true ->
  is_table m pd (page_of (entry m pd i)).
Proof. intros. by exists i. Qed.

(** ** [get_page_table] *)

Lemma get_page_table_find s F pd va create :
  vinv s F pd -> has (entry (vm s) pd (PAGE_DIRECTORY_INDEX va)) PAGE_PRESENT = true ->
  get_page_table s pd va create = (page_of (entry (vm s) pd (PAGE_DIRECTORY_INDEX va)), s).
Proof.
  intros Hv Hp. unfold get_page_table.
  rewrite (virt_id s pd (vi_virt _ _ _ Hv)) by apply (owned_range _ _ _ (vi_dir _ _ _ Hv)).
  rewrite Hp. rewrite virt_id; [done|apply Hv|].
  destruct (vi_table _ _ _ Hv _ (present_table _ _ _ (dir_index_range va) Hp)) as [Ho _].
  apply owned_range in Ho. lia.
Qed.

Lemma get_page_table_absent s F pd va :
  vinv s F pd -> has (entry (vm s) pd (PAGE_DIRECTORY_INDEX va)) PAGE_PRESENT = false ->
  get_page_table s pd va false = (0, s).
Proof.
  intros Hv Hp. unfold get_page_table.
  rewrite (virt_id s pd (vi_virt _ _ _ Hv)) by apply (owned_range _ _ _ (vi_dir _ _ _ Hv)).
  by rewrite Hp.
Qed.

(** The memory in which frame [t], filled before, has become table [i] of [pd]. *)
Definition add_table (m : mem) (pd t i fl : Z) : mem := set_entry m pd i (Z.lor t fl).

Section add_table.
Variables (s s1 : vst St) (F : gset Z) (pd t i fl : Z).
Hypothesis (Hv : vinv s F pd).
Hypothesis (Hi : 0 <= i < 1024) (Hfl : 0 <= fl < 4096) (Hflp : has fl PAGE_PRESENT = true).
Hypothesis (Habs : has (entry (vm s) pd i) PAGE_PRESENT = false).
Hypothesis (Hin : t / 4096 ∈ F) (Ht : is_frame t) (Hout : outside_private (al s) t).
Hypothesis (Hvs : vs s1 = vs s) (Hsame : fa_same (al s) (al s1)).
Hypothesis (Hinv1 : fa_inv (al s1) (vm s1) (F ∖ {[t / 4096]})).
Hypothesis (Hfr1 : frame (fa_lo (al s)) (fa_len (al s)) (vm s) (vm s1)).
Variable (m2 : mem).
Hypothesis (Hfr2 : frame t 4096 (vm s1) m2).
Local Abbreviation m3 := (add_table m2 pd t i fl).

Lemma add_table_pd_ne : pd <> t.
Proof using Hv Hin. eapply owned_ne; [apply Hv|done]. Qed.

Lemma add_table_at : entry m3 pd i = t + fl.
Proof using Ht Hfl.
  destruct (entry_parts t fl Ht Hfl) as (E1 & E2 & _).
  unfold add_table. rewrite E1. by apply entry_set_eq.
Qed.

Lemma add_table_dir j : 0 <= j < 1024 -> j <> i -> entry m3 pd j = entry (vm s) pd j.
Proof using Hv Hi Hin Ht Hfr1 Hfr2.
  intros Hj Hne. pose proof (vi_dir _ _ _ Hv) as Hd.
  unfold add_table. rewrite entry_set_ne; try done; [|apply Hd..|right; congruence].
  rewrite (entry_fresh (al s) F (vm s1) m2 pd t j) by done.
  by apply (entry_private (al s) F).
Qed.

Lemma add_table_old u j : is_table (vm s) pd u -> 0 <= j < 1024 -> entry m3 u j = entry (vm s) u j.
Proof using Hv Hi Hin Ht Hfr1 Hfr2.
  intros Hu Hj. destruct (vi_table _ _ _ Hv _ Hu) as [Ho Hne].
  unfold add_table. rewrite entry_set_ne; try done; [|apply (vi_dir _ _ _ Hv)|apply Ho|left; congruence].
  rewrite (entry_fresh (al s) F (vm s1) m2 u t j) by done.
  by apply (entry_private (al s) F).
Qed.

Lemma add_table_new j : 0 <= j < 1024 -> entry m3 t j = entry m2 t j.
Proof using Hv Hi Hin Ht.
  intros Hj. unfold add_table. pose proof add_table_pd_ne.
  by rewrite entry_set_ne; [|apply (vi_dir _ _ _ Hv)|apply Ht|done|done|left].
Qed.

Lemma add_table_pte va' :
  pte m3 pd va' = if decide (PAGE_DIRECTORY_INDEX va' = i)
                  then entry m2 t (PAGE_TABLE_INDEX va') else pte (vm s) pd va'.
Proof using All.
  unfold pte. destruct (decide (PAGE_DIRECTORY_INDEX va' = i)) as [->|Hne].
  - rewrite add_table_at, has_parts, Hflp by done.
    destruct (entry_parts t fl Ht Hfl) as (_ & _ & -> & _).
    apply add_table_new, table_index_range.
  - rewrite add_table_dir by (done || apply dir_index_range).
    destruct (has (entry (vm s) pd (PAGE_DIRECTORY_INDEX va')) PAGE_PRESENT) eqn:E; [|done].
    apply add_table_old; [|apply table_index_range].
    apply present_table; [apply dir_index_range|done].
Qed.

Lemma add_table_is_table u : is_table m3 pd u -> u = t \/ is_table (vm s) pd u.
Proof using All.
  intros (j & Hj & Hp & Hu). destruct (decide (j = i)) as [->|Hne].
  - rewrite add_table_at in Hu. left. by destruct (entry_parts t fl Ht Hfl) as (_ & _ & <- & _).
  - rewrite add_table_dir in Hp, Hu by done. right. by exists j.
Qed.

Lemma add_table_foreign b : foreign s F pd b -> load8 m3 b = load8 (vm s) b.
Proof using All.
  intros (H1 & H2 & H3 & H4). unfold add_table.
  assert (Hb : b / 4096 <> t / 4096) by congruence.
  pose proof (vi_dir _ _ _ Hv) as ([Hm _] & _ & _). destruct Ht as [Htm _].
  rewrite (set_entry_frame _ pd i _ Hi) by zdm. rewrite Hfr2 by zdm. by apply Hfr1.
Qed.

Lemma add_table_vinv : vinv (with_vm s1 m3) (F ∖ {[t / 4096]}) pd.
Proof using All.
  pose proof (owned_same (al s) (al s1) F (F ∖ {[t / 4096]})) as Hos.
  assert (Hot : owned (al s1) (F ∖ {[t / 4096]}) t).
  { split; [done|]. split; [set_solver|]. destruct Hsame as (A & B & _).
    unfold outside_private in *. by rewrite A, B. }
  split; cbn [vs al vm with_vm].
  - rewrite Hvs. apply Hv.
  - eapply fa_inv_same; [exact Hinv1|]. destruct Hsame as (Hlo & Hlen & _). rewrite Hlo, Hlen.
    pose proof (vi_dir _ _ _ Hv) as ([Hm _] & _ & Hpo). destruct Ht as [Htm _].
    unfold add_table, outside_private in *. intros b Hb.
    rewrite (set_entry_frame _ pd i _ Hi) by lia. apply Hfr2; lia.
  - apply Hos; [done|set_solver|apply Hv].
  - intros u [->|Hu]%add_table_is_table; [split; [done|]|].
    + pose proof add_table_pd_ne. congruence.
    + destruct (vi_table _ _ _ Hv _ Hu) as [Ho Hne]. split; [|done]. apply Hos; [done|set_solver|done].
  - assert (Hfresh : forall j, 0 <= j < 1024 -> j <> i ->
      has (entry m3 pd j) PAGE_PRESENT = true -> page_of (entry m3 pd j) <> page_of (t + fl)).
    { intros j Hj Hne Hp. rewrite add_table_dir in * by done.
      destruct (entry_parts t fl Ht Hfl) as (_ & _ & -> & _).
      destruct (vi_table _ _ _ Hv _ (present_table _ _ _ Hj Hp)) as [Ho _].
      by eapply owned_ne. }
    intros j k Hj Hk Hpj Hpk Heq.
    destruct (decide (j = i)) as [->|Hji]; destruct (decide (k = i)) as [->|Hki]; [done|..].
    + rewrite add_table_at in Heq. by destruct (Hfresh k).
    + rewrite add_table_at in Heq. by destruct (Hfresh j).
    + rewrite !add_table_dir in * by done. by apply (vi_inj _ _ _ Hv).
Qed.
End add_table.

Lemma alloc_none s F : fa_inv (al s) (vm s) F -> F = ∅ -> alloc_frame s = (0, s).
Proof. intros Hi ->. unfold alloc_frame. rewrite fa_alloc_none by done. by destruct s. Qed.

(** At most one frame was taken. *)
Definition one_less (F F' : gset Z) : Prop := F' ⊆ F /\ (size F <= S (size F'))%nat.

Lemma one_less_refl F : one_less F F.
Proof. split; [done|lia]. Qed.

Lemma one_less_take F f : f ∈ F -> one_less F (F ∖ {[f]}).
Proof. intros Hf. split; [apply diff_singleton_sub|]. by rewrite (diff_singleton_size F f Hf). Qed.

(** [get_page_table] with [create]: it fails only without free frames, and a new
    table changes the translation of no address. *)
Lemma get_page_table_true s F pd va :
  vinv s F pd ->
  (get_page_table s pd va true = (0, s) /\ F = ∅ /\
     has (entry (vm s) pd (PAGE_DIRECTORY_INDEX va)) PAGE_PRESENT = false) \/
  exists t s' F', get_page_table s pd va true = (t, s') /\ vs s' = vs s /\
    fa_same (al s) (al s') /\ vinv s' F' pd /\ one_less F F' /\ t <> 0 /\
    has (entry (vm s') pd (PAGE_DIRECTORY_INDEX va)) PAGE_PRESENT = true /\
    page_of (entry (vm s') pd (PAGE_DIRECTORY_INDEX va)) = t /\
    (forall va', pte (vm s') pd va' = pte (vm s) pd va') /\
    (forall b, foreign s F pd b ->
       load8 (vm s') b = load8 (vm s) b /\ b / 4096 * 4096 <> t /\ foreign s' F' pd b).
Proof.
  intros Hv. destruct (has (entry (vm s) pd (PAGE_DIRECTORY_INDEX va)) PAGE_PRESENT) eqn:E.
  { right. eexists _, s, F. split; [by apply (get_page_table_find s F)|].
    pose proof (present_table _ _ _ (dir_index_range va) E) as Htb.
    destruct (vi_table _ _ _ Hv _ Htb) as [Ho _]. apply owned_range in Ho.
    split_and!; try done; [apply one_less_refl|tauto|]. intros b Hfb. split; [done|]. split; [|done].
    destruct Hfb as (_ & _ & _ & Hb). intros Hx. by rewrite Hx in Hb. }
  pose proof (owned_range _ _ _ (vi_dir _ _ _ Hv)) as (Hpd & _ & _).
  unfold get_page_table. rewrite (virt_id s pd (vi_virt _ _ _ Hv) Hpd), E.
  destruct (alloc_frame_cases s F (vi_alloc _ _ _ Hv))
    as [[-> ->]|(t & s1 & Hin & Ht & Hout & -> & Hvs & Hsame & Hi1 & Hfr)]; [by left|right].
  replace (t =? 0) with false by (destruct Ht; lia).
  rewrite (virt_id s1 t) by (first [rewrite Hvs; apply Hv|destruct Ht; lia]).
  match goal with |- context [Z.lor t ?x] => set (fl := x) end.
  assert (Hfl : 0 <= fl < 4096 /\ has fl PAGE_PRESENT = true) by (unfold fl; by destruct (va <? _)).
  destruct Hfl as [Hfl Hflp].
  change (set_entry (memset (vm s1) t 0 4096) pd (PAGE_DIRECTORY_INDEX va) (Z.lor t fl))
    with (add_table (memset (vm s1) t 0 4096) pd t (PAGE_DIRECTORY_INDEX va) fl).
  assert (Hfr2 : frame t 4096 (vm s1) (memset (vm s1) t 0 4096)) by (apply frame_memset; lia).
  eexists t, _, (F ∖ {[t / 4096]}). split; [done|].
  pose proof (entry_parts t fl Ht Hfl) as (_ & _ & Ep & _).
  pose proof (dir_index_range va) as Hdi.
  cbn [vs al vm with_vm]. split_and!.
  - exact Hvs.
  - exact Hsame.
  - by apply (add_table_vinv s s1 F).
  - by apply one_less_take.
  - destruct Ht; lia.
  - by rewrite add_table_at, has_parts.
  - by rewrite add_table_at.
  - intros va'. rewrite (add_table_pte s s1 F) by done.
    case_decide as Hx; [|done]. unfold pte. rewrite Hx, E.
    apply entry_memset0, table_index_range.
  - intros b Hb. split; [by apply (add_table_foreign s s1 F)|].
    destruct Hb as (Hb0 & Hb & Hb1 & Hb2).
    assert (Hx : b / 4096 * 4096 <> t) by (intros Hx; apply Hb; rewrite <- Hx, frame_index in Hin; exact Hin).
    split; [done|]. pose proof Hsame as (A & B & _). unfold foreign. cbn [al vm with_vm]. rewrite A, B.
    split; [done|]. split; [set_solver|]. split; [done|]. intros Hu.
    destruct (add_table_is_table s s1 F pd t _ fl Hv Hdi Hfl Hflp E Hin Ht Hout Hvs Hsame Hi1 Hfr _ Hfr2 _ Hu) as [?|?]; done.
Qed.

(** Writing the entry of [va] in its table. *)
Lemma set_pte_spec s F pd va e :
  0 <= va < 4294967296 -> vinv s F pd -> 0 <= e < 4294967296 ->
  has (entry (vm s) pd (PAGE_DIRECTORY_INDEX va)) PAGE_PRESENT = true ->
  let t := page_of (entry (vm s) pd (PAGE_DIRECTORY_INDEX va)) in
  let m' := set_entry (vm s) t (PAGE_TABLE_INDEX va) e in
  vinv (with_vm s m') F pd /\ pte m' pd va = e /\
  (forall va', 0 <= va' < 4294967296 -> va' / 4096 <> va / 4096 -> pte m' pd va' = pte (vm s) pd va') /\
  frame t 4096 (vm s) m' /\ (forall b, foreign s F pd b -> foreign (with_vm s m') F pd b).
Proof.
  intros Hva Hv He Hp t m'. pose proof (present_table _ _ _ (dir_index_range va) Hp) as Htb.
  destruct (vi_table _ _ _ Hv _ Htb) as [Ho Hne]. pose proof (table_index_range va) as Hti.
  assert (Hd : forall i, 0 <= i < 1024 -> entry m' pd i = entry (vm s) pd i).
  { intros i Hi. apply entry_set_ne; try done; [apply Ho|apply Hv|by left]. }
  assert (Htab : forall u, is_table m' pd u -> is_table (vm s) pd u)
    by (intros u; by apply is_table_ext).
  assert (Hfr : frame t 4096 (vm s) m') by (by apply set_entry_frame).
  split_and!; [split; cbn [vs al vm with_vm]|..|exact Hfr|
    by intros b (?&?&?&Hb); split_and!; [..|intros Hu; by apply Hb, Htab]].
  - apply Hv.
  - eapply fa_inv_same; [apply Hv|]. eapply frame_same; [exact Hfr|].
    destruct Ho as (_ & _ & Ho). unfold outside_private in Ho. lia.
  - apply Hv.
  - intros u Hu. apply (vi_table _ _ _ Hv). by apply Htab.
  - intros i j Hi Hj. rewrite !Hd by done. by apply (vi_inj _ _ _ Hv).
  - unfold pte. rewrite Hd, Hp by apply dir_index_range. by apply entry_set_eq.
  - intros va' Hva' Hpage. unfold pte. rewrite Hd by apply dir_index_range.
    destruct (has (entry (vm s) pd (PAGE_DIRECTORY_INDEX va')) PAGE_PRESENT) eqn:E; [|done].
    pose proof (present_table _ _ _ (dir_index_range va') E) as Htb'.
    destruct (vi_table _ _ _ Hv _ Htb') as [Ho' _].
    apply entry_set_ne; [apply Ho|apply Ho'|done|apply table_index_range|].
    destruct (decide (PAGE_TABLE_INDEX va = PAGE_TABLE_INDEX va')) as [Ht|]; [|by right].
    left. intros Hx. apply Hpage. symmetry.
    apply index_inj; [done|done| |done].
    apply (vi_inj _ _ _ Hv); try done; apply dir_index_range.
Qed.

Lemma page_of_range va : 0 <= va < 4294967296 -> 0 <= page_of va < 4294967296.
Proof. intros. rewrite page_of_eq by done. zdm. Qed.

Lemma pte_page m pd va : 0 <= va < 4294967296 -> pte m pd (page_of va) = pte m pd va.
Proof. intros. unfold pte. by rewrite dir_index_page, table_index_page. Qed.

(** Reading through [get_page_table] is reading [pte]. *)
Lemma lookup_spec s F pd va :
  vinv s F pd ->
  vmm_is_mapped s pd va = has (pte (vm s) pd va) PAGE_PRESENT /\
  vmm_get_physical_address s pd va =
    if has (pte (vm s) pd va) PAGE_PRESENT
    then Z.lor (page_of (pte (vm s) pd va)) (offset_of va) else 0.
Proof.
  intros Hv. unfold vmm_is_mapped, vmm_get_physical_address, pte.
  destruct (has (entry (vm s) pd (PAGE_DIRECTORY_INDEX va)) PAGE_PRESENT) eqn:E.
  - rewrite (get_page_table_find s F) by done.
    destruct (vi_table _ _ _ Hv _ (present_table _ _ _ (dir_index_range va) E)) as [Ho _].
    apply owned_range in Ho. destruct Ho as (_ & _ & Ho). apply Z.eqb_neq in Ho. rewrite Ho.
    split; [reflexivity|]. by destruct (has (entry _ (page_of _) _) _).
  - rewrite (get_page_table_absent s F) by done. cbn [Z.eqb]. by rewrite has_0.
Qed.

(** ** Mapping *)

Definition flags_ok (fl : Z) : Prop := 0 <= fl < 4096.

Lemma map_page_spec s F pd va pa fl :
  vinv s F pd -> 0 <= va < 4294967296 -> 0 <= pa < 4294967296 -> flags_ok fl ->
  let '(r, s') := vmm_map_page s pd va pa fl in
  (r = -1 /\ s' = s /\ F = ∅ /\
     has (entry (vm s) pd (PAGE_DIRECTORY_INDEX va)) PAGE_PRESENT = false) \/
  exists F', r = 0 /\ one_less F F' /\ vinv s' F' pd /\ fa_same (al s) (al s') /\
    pte (vm s') pd va = page_of pa + fl /\
    (forall va', 0 <= va' < 4294967296 -> va' / 4096 <> va / 4096 ->
       pte (vm s') pd va' = pte (vm s) pd va') /\
    (forall b, foreign s F pd b -> load8 (vm s') b = load8 (vm s) b /\ foreign s' F' pd b) /\
    vs s' = if pd =? current_directory (vs s) then invlpg (vs s) (page_of va) else vs s.
Proof.
  intros Hv Hva Hpa Hfl. unfold vmm_map_page.
  pose proof (get_page_table_true s F pd (page_of va) Hv) as Hg.
  rewrite dir_index_page in Hg by done.
  destruct Hg as [(-> & HF & Hp)|(t & s1 & F' & -> & Hvs & Hsm & Hv1 & Hsub & Ht0 & Hp & Ht & Hpte & Hb)].
  { cbn [Z.eqb]. left. done. }
  replace (t =? 0) with false by lia. rewrite table_index_page by done.
  assert (Hlor : Z.lor (page_of pa) fl = page_of pa + fl /\ 0 <= page_of pa + fl < 4294967296).
  { unfold flags_ok in Hfl. rewrite page_of_eq by done. rewrite (Z.mul_comm 4096).
    rewrite (lor_low _ _ 12) by (simpl; lia). split; [done|]. zdm. }
  destruct Hlor as [-> Hr].
  destruct (set_pte_spec s1 F' pd va (page_of pa + fl) Hva Hv1 Hr Hp) as (Hv2 & Hnew & Hold & Hfr & Hfo).
  rewrite Ht in *. right. exists F'.
  match goal with |- context [set_entry ?m ?u ?i ?e] => set (m2 := set_entry m u i e) in * end.
  assert (Hfin : forall v, kernel_directory v = kernel_directory (vs s1) ->
    kernel_directory_phys v = kernel_directory_phys (vs s1) ->
    vinv (Vst v (al s1) m2) F' pd).
  { intros v Hk1 Hk2. destruct Hv2 as [A B C D E]. split; try done. cbn [vs]. by rewrite Hk1, Hk2. }
  cbn [vs with_vm]. rewrite Hvs. split; [done|]. split; [done|].
  assert (Hrest : pte m2 pd va = page_of pa + fl /\
    (forall va', 0 <= va' < 4294967296 -> va' / 4096 <> va / 4096 -> pte m2 pd va' = pte (vm s) pd va') /\
    (forall b, foreign s F pd b -> load8 m2 b = load8 (vm s) b /\ foreign (with_vm s1 m2) F' pd b)).
  { split; [done|]. split; [intros va' ? ?; by rewrite Hold, Hpte|].
    intros b Hfb. destruct (Hb b Hfb) as (<- & Hbt & Hbf). split; [|by apply Hfo]. apply Hfr.
    destruct (vi_table _ _ _ Hv1 t) as [[[Hm _] _] _].
    { rewrite <- Ht. apply present_table; [apply dir_index_range|done]. }
    zdm. }
  destruct (pd =? current_directory (vs s)); cbn [vs al vm with_vm with_vs];
    (split; [apply Hfin; cbn; by rewrite ?Hvs|]); (split; [done|]); destruct Hrest as (? & ? & ?); done.
Qed.

Lemma unmap_page_spec s F pd va :
  vinv s F pd -> 0 <= va < 4294967296 ->
  let s' := vmm_unmap_page s pd va in
  vinv s' F pd /\ pte (vm s') pd va = 0 /\
  (forall va', 0 <= va' < 4294967296 -> va' / 4096 <> va / 4096 ->
     pte (vm s') pd va' = pte (vm s) pd va') /\
  (forall b, foreign s F pd b -> load8 (vm s') b = load8 (vm s) b).
Proof.
  intros Hv Hva. unfold vmm_unmap_page.
  destruct (has (entry (vm s) pd (PAGE_DIRECTORY_INDEX va)) PAGE_PRESENT) eqn:E.
  2: { rewrite (get_page_table_absent s F) by (rewrite ?dir_index_page; done). cbn [Z.eqb].
       split; [done|]. split; [unfold pte; by rewrite E|]. done. }
  rewrite (get_page_table_find s F) by (rewrite ?dir_index_page; done).
  rewrite dir_index_page, table_index_page by done.
  pose proof (present_table _ _ _ (dir_index_range va) E) as Htb.
  destruct (vi_table _ _ _ Hv _ Htb) as [Ho _].
  destruct (set_pte_spec s F pd va 0 Hva Hv ltac:(lia) E) as (Hv2 & Hnew & Hold & Hfr & _).
  set (t := page_of (entry (vm s) pd (PAGE_DIRECTORY_INDEX va))) in *.
  replace (t =? 0) with false by (destruct Ho as [[? ?] _]; lia).
  set (m' := set_entry (vm s) t (PAGE_TABLE_INDEX va) 0) in *.
  assert (Hb : forall b, foreign s F pd b -> load8 m' b = load8 (vm s) b).
  { intros b (_ & _ & _ & Hb). apply Hfr. destruct Ho as [[Hm _] _]. intros Hr. apply Hb.
    replace (b / 4096 * 4096) with t by zdm. exact Htb. }
  destruct (pd =? current_directory (vs (with_vm s m'))); cbn [vs al vm with_vm with_vs].
  - split; [|split; [exact Hnew|split; [exact Hold|exact Hb]]].
    destruct Hv2 as [A B C D G]. split; [exact A|exact B|exact C|exact D|exact G].
  - split; [exact Hv2|split; [exact Hnew|split; [exact Hold|exact Hb]]].
Qed.

(** ** Checking user pointers *)

(** The page of [a] is present, accessible from user mode, and writable if asked. *)
Definition page_ok (m : mem) (pd a : Z) (write : bool) : bool :=
  has (entry m pd (PAGE_DIRECTORY_INDEX a)) PAGE_PRESENT &&
  has (pte m pd a) PAGE_PRESENT && has (pte m pd a) PAGE_USER &&
  (negb write || has (pte m pd a) PAGE_WRITE).

Lemma page_ok_page m pd a w : 0 <= a < 4294967296 -> page_ok m pd (page_of a) w = page_ok m pd a w.
Proof. intros Ha. unfold page_ok. by rewrite dir_index_page, pte_page. Qed.

Lemma check_pages_spec s F pd write last f page :
  vinv s F pd -> 0 <= page < 4294963200 -> 0 <= last <= USER_SPACE_END ->
  (0 < f)%nat -> last < page + 4096 * (Z.of_nat f - 1) ->
  exists b, check_pages f s pd page last write = Some b /\
    (b = true <-> forall k, 0 <= k -> page + 4096 * k <= last ->
                   page_ok (vm s) pd (page + 4096 * k) write = true).
Proof.
  intros Hv. revert page. induction f as [|f IH]; intros page Hpg Hl Hf0 Hf; [lia|]. cbn [check_pages].
  destruct (Z.leb_spec page last) as [Hle|Hle]; cbn [negb].
  2: { exists true. split; [done|]. split; [|done]. intros _ k Hk Hle'. lia. }
  unfold USER_SPACE_END in *.
  rewrite (virt_id s pd (vi_virt _ _ _ Hv)) by apply (owned_range _ _ _ (vi_dir _ _ _ Hv)).
  assert (Hstop : forall b, page_ok (vm s) pd page write = false -> b = Some false ->
    exists r, b = Some r /\ (r = true <-> forall k, 0 <= k -> page + 4096 * k <= last ->
       page_ok (vm s) pd (page + 4096 * k) write = true)).
  { intros b Hk ->. exists false. split; [done|]. split; [done|]. intros Hall.
    specialize (Hall 0 ltac:(lia) ltac:(lia)). rewrite Z.mul_0_r, Z.add_0_r in Hall. congruence. }
  destruct (has (entry (vm s) pd (PAGE_DIRECTORY_INDEX page)) PAGE_PRESENT) eqn:E; cbn [negb].
  2: { apply Hstop; [|done]. unfold page_ok. by rewrite E. }
  destruct (vi_table _ _ _ Hv _ (present_table _ _ _ (dir_index_range page) E)) as [Ho _].
  apply owned_range in Ho. rewrite virt_id by (tauto || apply Hv).
  assert (Hp : pte (vm s) pd page = entry (vm s)
    (page_of (entry (vm s) pd (PAGE_DIRECTORY_INDEX page))) (PAGE_TABLE_INDEX page))
    by (unfold pte; by rewrite E).
  rewrite <- Hp. unfold page_ok in Hstop. rewrite E in Hstop. cbn [andb] in Hstop.
  destruct (has (pte (vm s) pd page) PAGE_PRESENT) eqn:E1; cbn [negb]; [|by apply Hstop].
  destruct (has (pte (vm s) pd page) PAGE_USER) eqn:E2; cbn [negb]; [|by apply Hstop].
  destruct (write && negb (has (pte (vm s) pd page) PAGE_WRITE)) eqn:E3.
  { apply Hstop; [|done]. cbn [andb]. by destruct write, (has (pte (vm s) pd page) PAGE_WRITE). }
  unfold PAGE_SIZE. rewrite (u32_small (page + 4096)) by lia.
  destruct (decide (page + 4096 < 4294963200)) as [Hlt|]; [|lia].
  destruct (IH (page + 4096) ltac:(lia) ltac:(lia) ltac:(lia) ltac:(lia)) as (b & -> & Hb).
  exists b. split; [done|]. rewrite Hb. split; intros Hall k Hk Hle'.
  - destruct (decide (k = 0)) as [->|Hne].
    + rewrite Z.mul_0_r, Z.add_0_r. unfold page_ok. rewrite E, E1, E2. cbn [andb].
      by destruct write, (has (pte (vm s) pd page) PAGE_WRITE).
    + replace (page + 4096 * k) with (page + 4096 + 4096 * (k - 1)) by lia. apply Hall; lia.
  - replace (page + 4096 + 4096 * k) with (page + 4096 * (k + 1)) by lia. apply Hall; lia.
Qed.

(** ** [vmm_init] *)

(** The entry of an identity-mapped kernel page. *)
Definition identity_entry (page : Z) : Z := Z.lor (Z.lor page PAGE_PRESENT) PAGE_WRITE.

Lemma identity_entry_eq a : 0 <= a < 1048576 ->
  identity_entry (a * 4096) = a * 4096 + 3.
Proof.
  intros Ha. unfold identity_entry. rewrite <- Z.lor_assoc. change (Z.lor PAGE_PRESENT PAGE_WRITE) with 3.
  apply (lor_low a 3 12); simpl; lia.
Qed.

(** One table of the identity map. *)
Lemma init_table_spec s F pd idx :
  vinv s F pd -> 0 <= idx < 1024 -> has (entry (vm s) pd idx) PAGE_PRESENT = false ->
  let '(ok, s') := init_table s pd idx in
  (ok = false /\ s' = s /\ F = ∅) \/
  exists F', ok = true /\ vs s' = vs s /\ fa_same (al s) (al s') /\ vinv s' F' pd /\ F' ⊆ F /\
    size F = S (size F') /\
    (forall j, 0 <= j < 1024 -> j <> idx -> entry (vm s') pd j = entry (vm s) pd j) /\
    (forall va, 0 <= va < 4294967296 -> pte (vm s') pd va =
       if decide (PAGE_DIRECTORY_INDEX va = idx) then va / 4096 * 4096 + 3 else pte (vm s) pd va).
Proof.
  intros Hv Hi E. unfold init_table.
  destruct (alloc_frame_cases s F (vi_alloc _ _ _ Hv))
    as [[-> ->]|(t & s1 & Hin & Ht & Hout & -> & Hvs & Hsame & Hi1 & Hfr)]; [by left|].
  assert (Ht0 : (t =? 0) = false) by (destruct Ht; lia). rewrite Ht0.
  rewrite (virt_id s1 t) by (first [rewrite Hvs; apply Hv|destruct Ht; lia]).
  rewrite <- Z.lor_assoc. change (Z.lor PAGE_PRESENT PAGE_WRITE) with 3.
  destruct (fill_spec (fun _ _ => 0) (vm s1) t 0 1024) as [Hf1 _];
    [apply Ht|lia|lia|lia|done|lia|].
  match type of Hf1 with frame _ _ _ ?x => set (m1 := x) in * end.
  set (g := fun (_ : mem) i => identity_entry (idx * 4194304 + i * PAGE_SIZE)).
  assert (Hg : forall i, 0 <= i < 1024 -> g m1 i = (idx * 1024 + i) * 4096 + 3).
  { intros i Hi'. unfold g, PAGE_SIZE. rewrite <- identity_entry_eq by lia. f_equal. lia. }
  destruct (fill_spec (fun m i => if in_range 0 1024 i then g m i else 0) m1 t 0 1024) as [Hf2 He2];
    [apply Ht|lia|lia|lia|done| |].
  { intros i. destruct (in_range_spec 0 1024 i); [rewrite Hg by lia; lia|lia]. }
  match type of Hf2 with frame _ _ _ ?x => set (m2 := x) in * end.
  assert (Hm2 : for_range 0 1024 (fun m i => set_entry m t i
      (Z.lor (Z.lor (idx * 4194304 + i * PAGE_SIZE) PAGE_PRESENT) PAGE_WRITE)) m1 = m2).
  { unfold m2. apply for_range_ext. intros m i Hi'. destruct (in_range_spec 0 1024 i); [done|lia]. }
  rewrite Hm2. change (set_entry m2 pd idx (Z.lor t 3)) with (add_table m2 pd t idx 3).
  assert (Hfr2 : frame t 4096 (vm s1) m2) by (eapply frame_trans; [exact Hf1|exact Hf2]).
  right. exists (F ∖ {[t / 4096]}). cbn [vs al vm with_vm].
  split; [reflexivity|]. split; [exact Hvs|]. split; [exact Hsame|].
  split; [apply (add_table_vinv s s1 F); first [assumption|lia|exact has_3]|]. split; [apply diff_singleton_sub|]. split; [|split].
  - by apply diff_singleton_size.
  - intros j Hj Hne. apply (add_table_dir s s1 F); first [assumption|lia].
  - intros va Hva. rewrite (add_table_pte s s1 F) by first [assumption|lia|exact has_3].
    case_decide as Hx; [|reflexivity]. pose proof (table_index_range va) as Hti.
    rewrite He2 by done. destruct (in_range_spec 0 1024 (PAGE_TABLE_INDEX va)); [|lia].
    rewrite Hg by done. rewrite dir_index_eq in Hx by done. rewrite table_index_eq. zdm.
Qed.

(** A fresh frame filled as a directory. *)
Section fresh_dir.
Variables (s s1 : vst St) (F : gset Z) (t : Z) (m2 : mem) (v : vmm).
Hypothesis (Hin : t / 4096 ∈ F) (Ht : is_frame t) (Hout : outside_private (al s) t).
Hypothesis (Hsame : fa_same (al s) (al s1)).
Hypothesis (Hinv1 : fa_inv (al s1) (vm s1) (F ∖ {[t / 4096]})).
Hypothesis (Hfr2 : frame t 4096 (vm s1) m2).

Lemma fresh_alloc : fa_inv (al s1) m2 (F ∖ {[t / 4096]}).
Proof using H0 Hinv1 Hfr2 Hout Hsame.
  eapply fa_inv_same; [exact Hinv1|]. destruct Hsame as (-> & -> & _).
  eapply frame_same; [exact Hfr2|]. unfold outside_private in Hout. lia.
Qed.

Lemma fresh_owned : owned (al s1) (F ∖ {[t / 4096]}) t.
Proof using Ht Hout Hsame.
  split; [exact Ht|]. split.
  { intros [_ Hn]%elem_of_difference. apply Hn. by apply elem_of_singleton. }
  destruct Hsame as (Hlo & Hlen & _). unfold outside_private in *. rewrite Hlo, Hlen. exact Hout.
Qed.
End fresh_dir.

Lemma index_lt_8mb va : 0 <= va < 4294967296 ->
  (PAGE_DIRECTORY_INDEX va = 0 \/ PAGE_DIRECTORY_INDEX va = 1 <-> va < 8388608).
Proof. intros Hva. rewrite dir_index_eq by done. zdm. Qed.

Lemma vmm_init_spec s F :
  fa_inv (al s) (vm s) F -> (3 <= size F)%nat ->
  let s' := vmm_init s in let kd := kernel_directory (vs s') in
  (exists F', vinv s' F' kd /\ F' ⊆ F) /\ kd <> 0 /\
  current_directory (vs s') = kd /\ kernel_directory_phys (vs s') = kd /\ cr3 (vs s') = kd /\
  cr0 (vs s') = Z.lor (cr0 (vs s)) 2147483648 /\
  forall va, 0 <= va < 4294967296 ->
    pte (vm s') kd va = if va <? 8388608 then va / 4096 * 4096 + 3 else 0.
Proof.
  intros Hi Hsz. unfold vmm_init.
  destruct (alloc_frame_cases s F Hi) as
    [[-> _]|(kd & s1 & Hin & Ht & Hout & -> & Hvs & Hsame & Hi1 & Hfr)];
    [rewrite size_empty in Hsz; lia|].
  assert (Hkd : 0 < kd < 4294967296 /\ kd mod 4096 = 0) by (destruct Ht; lia).
  replace (kd =? 0) with false by lia.
  set (v1 := Vmm kd kd kd (cr3 (vs s1)) (cr0 (vs s1)) (flushed (vs s1))).
  rewrite (virt_id (with_vs s1 v1) kd) by (first [by right|lia]).
  destruct (fill_spec (fun _ _ => 0) (vm s1) kd 0 1024) as [Hf1 He1];
    [tauto|lia|lia|lia|done|lia|].
  cbn [vm with_vs]. match type of Hf1 with frame _ _ _ ?x => set (m1 := x) in * end.
  assert (Hnone : forall i, 0 <= i < 1024 -> has (entry m1 kd i) PAGE_PRESENT = false).
  { intros i Hir. rewrite He1 by done. destruct (in_range_spec 0 1024 i); [apply has_0|lia]. }
  set (s2 := with_vm (with_vs s1 v1) m1). set (F2 := F ∖ {[kd / 4096]}).
  assert (Hv2 : vinv s2 F2 kd).
  { split; cbn.
    - by right.
    - by apply (fresh_alloc s s1 F kd m1).
    - by apply (fresh_owned s s1 F kd).
    - intros u (i & Hir & Hp & _). rewrite Hnone in Hp by done. destruct (Bool.diff_false_true Hp).
    - intros i j Hir _ Hp. rewrite Hnone in Hp by done. destruct (Bool.diff_false_true Hp). }
  assert (Hp2 : forall va, pte m1 kd va = 0).
  { intros va. unfold pte. rewrite Hnone; [done|apply dir_index_range]. }
  pose proof (diff_singleton_size F _ Hin) as Hs2. fold F2 in Hs2.
  pose proof (init_table_spec s2 F2 kd 0 Hv2 ltac:(lia) (Hnone 0 ltac:(lia))) as H3.
  destruct (init_table s2 kd 0) as [ok s3].
  destruct H3 as [(_ & _ & HF)|(F3 & -> & Hvs3 & Hsm3 & Hv3 & Hsub3 & Hsz3 & He3 & Hp3)];
    [rewrite HF, size_empty in Hs2; lia|].
  cbn [negb].
  pose proof (init_table_spec s3 F3 kd 1 Hv3 ltac:(lia)) as H4.
  rewrite He3 in H4 by lia. specialize (H4 (Hnone 1 ltac:(lia))).
  destruct (init_table s3 kd 1) as [ok s4].
  destruct H4 as [(_ & _ & HF)|(F4 & -> & Hvs4 & Hsm4 & Hv4 & Hsub4 & Hsz4 & He4 & Hp4)];
    [rewrite HF, size_empty in Hsz3; lia|].
  cbn [negb]. rewrite Hvs4, Hvs3. cbn.
  split; [exists F4; split|].
  - destruct Hv4 as [A B C D G]. split; [by right|exact B|exact C|exact D|exact G].
  - transitivity F3; [exact Hsub4|]. transitivity F2; [exact Hsub3|]. apply diff_singleton_sub.
  - split; [lia|]. split; [done|]. split; [done|]. split; [done|]. split; [by rewrite Hvs|].
    intros va Hva. pose proof (index_lt_8mb va Hva). rewrite Hp4, Hp3 by done.
    change (vm s2) with m1. rewrite Hp2. repeat case_decide; destruct (Z.ltb_spec va 8388608); lia.
Qed.

(** ** [vmm_create_address_space] *)

Lemma create_spec s F kd :
  vinv s F kd -> kernel_directory (vs s) = kd ->
  let '(dst, s') := vmm_create_address_space s in
  (dst = 0 /\ s' = s /\ F = ∅) \/
  exists F', dst <> 0 /\ dst / 4096 ∈ F /\ F' = F ∖ {[dst / 4096]} /\
    vs s' = vs s /\ fa_same (al s) (al s') /\
    vinv s' F' dst /\ vinv s' F' kd /\
    (forall i, 0 <= i < 1024 -> entry (vm s') dst i = if i <? 768 then 0 else entry (vm s) kd i) /\
    (forall va, pte (vm s') kd va = pte (vm s) kd va) /\
    (forall va, 0 <= va < 4294967296 -> pte (vm s') dst va =
       if va <? KERNEL_VIRTUAL_BASE then 0 else pte (vm s) kd va).
Proof.
  intros Hv Hkd. unfold vmm_create_address_space.
  destruct (alloc_frame_cases s F (vi_alloc _ _ _ Hv)) as
    [[-> ->]|(t & s1 & Hin & Ht & Hout & -> & Hvs & Hsame & Hi1 & Hfr)]; [by left|].
  assert (Ht0 : 0 < t < 4294967296 /\ t mod 4096 = 0) by (destruct Ht; lia).
  assert (Hfalse : (t =? 0) = false) by lia. rewrite Hfalse.
  pose proof (owned_range _ _ _ (vi_dir _ _ _ Hv)) as (Hkr & Hkm & Hk0).
  pose proof (owned_ne _ _ _ _ (vi_dir _ _ _ Hv) Hin) as Hne.
  rewrite !(virt_id s1) by (first [rewrite Hvs; apply Hv|rewrite Hvs, Hkd; exact Hkr|lia]).
  rewrite Hvs, Hkd. replace (kd =? 0) with false by lia. cbn [negb].
  set (m1 := memset (vm s1) t 0 4096).
  assert (Hf1 : frame t 4096 (vm s1) m1) by (apply frame_memset; lia).
  destruct (fill_spec (fun m i => entry m kd i) m1 t 768 256) as [Hf2 He2];
    [tauto|lia|lia|lia| |intros; apply entry_range|].
  { intros m' i Hf Hir. eapply entry_frame; [exact Hf|done|lia|]. zdm. }
  match type of Hf2 with frame _ _ _ ?x => set (m2 := x) in * end.
  assert (Hf12 : frame t 4096 (vm s1) m2) by (eapply frame_trans; [exact Hf1|exact Hf2]).
  assert (Hold : forall u i, owned (al s) F u -> 0 <= i < 1024 -> entry m2 u i = entry (vm s) u i).
  { intros u i Hu Hir. rewrite (entry_fresh (al s) F (vm s1) m2 u t i) by done.
    by apply (entry_private (al s) F). }
  assert (Hnew : forall i, 0 <= i < 1024 -> entry m2 t i = if i <? 768 then 0 else entry (vm s) kd i).
  { intros i Hir. rewrite He2 by done.
    destruct (in_range_spec 768 256 i); destruct (Z.ltb_spec i 768); try lia.
    - rewrite (entry_fresh (al s) F (vm s1) m1 kd t i) by first [assumption|apply Hv].
      apply (entry_private (al s) F); [apply Hv|done|done].
    - by apply entry_memset0. }
  assert (Hkt : forall u, is_table (vm s) kd u -> owned (al s1) (F ∖ {[t / 4096]}) u /\ u <> kd /\ u <> t).
  { intros u Hu. destruct (vi_table _ _ _ Hv _ Hu) as [Ho Hn].
    split; [|split; [done|by eapply owned_ne]].
    eapply owned_same; [exact Hsame|apply diff_singleton_sub|exact Ho]. }
  right. exists (F ∖ {[t / 4096]}). cbn [vs al vm with_vm].
  assert (Hkd' : forall i, 0 <= i < 1024 -> entry m2 kd i = entry (vm s) kd i)
    by (intros; apply Hold; [apply Hv|done]).
  assert (Htk : forall u, is_table m2 t u -> is_table (vm s) kd u).
  { intros u (i & Hir & Hp & Hu). rewrite Hnew in Hp, Hu by done.
    destruct (i <? 768); [rewrite has_0 in Hp; discriminate|]. by exists i. }
  split; [lia|]. split; [done|]. split; [done|]. split; [exact Hvs|]. split; [exact Hsame|].
  split; [|split; [|split; [exact Hnew|split]]].
  - split; cbn [vs al vm with_vm].
    + rewrite Hvs. apply Hv.
    + by apply (fresh_alloc s s1 F t m2).
    + by apply (fresh_owned s s1 F t).
    + intros u Hu. destruct (Hkt u (Htk u Hu)) as (A & B & C). done.
    + intros i j Hir Hj. rewrite !Hnew by done.
      destruct (i <? 768); [rewrite has_0; discriminate|].
      destruct (j <? 768); [rewrite has_0; discriminate|]. by apply (vi_inj _ _ _ Hv).
  - split; cbn [vs al vm with_vm].
    + rewrite Hvs. apply Hv.
    + by apply (fresh_alloc s s1 F t m2).
    + eapply owned_same; [exact Hsame|apply diff_singleton_sub|apply Hv].
    + intros u Hu. destruct (Hkt u) as (A & B & C); [by eapply is_table_ext|done].
    + intros i j Hir Hj. rewrite !Hkd' by done. by apply (vi_inj _ _ _ Hv).
  - intros va. apply pte_ext; [exact Hkd'|]. intros u i Hu Hir.
    apply Hold; [by apply (vi_table _ _ _ Hv)|done].
  - intros va Hva. unfold pte, KERNEL_VIRTUAL_BASE. pose proof (dir_index_range va) as Hdr.
    rewrite Hnew by done.
    replace (PAGE_DIRECTORY_INDEX va <? 768) with (va <? 3221225472).
    2: { pose proof (dir_index_eq va Hva).
         destruct (Z.ltb_spec va 3221225472); destruct (Z.ltb_spec (PAGE_DIRECTORY_INDEX va) 768); zdm. }
    destruct (va <? 3221225472); [by rewrite has_0|].
    destruct (has (entry (vm s) kd (PAGE_DIRECTORY_INDEX va)) PAGE_PRESENT) eqn:E; [|done].
    apply Hold; [|apply table_index_range].
    apply (vi_table _ _ _ Hv). by apply present_table.
Qed.

(** ** [vmm_destroy_address_space] *)

Local Opaque seqZ.

(** The frames of a table: the pages it maps, then the table itself. *)
Definition mapped_page (m : mem) (table j : Z) : option Z :=
  if has (entry m table j) PAGE_PRESENT then Some (page_of (entry m table j)) else None.
Definition table_frames (m : mem) (table : Z) : list Z :=
  omap (mapped_page m table) (seqZ 0 1024) ++ [table].
Definition dir_frames (m : mem) (pd i : Z) : list Z :=
  if has (entry m pd i) PAGE_PRESENT then table_frames m (page_of (entry m pd i)) else [].
(** All frames of the user half of an address space, in the order of release. *)
Definition space_frames (m : mem) (pd : Z) : list Z :=
  (seqZ 0 768 ≫= dir_frames m pd) ++ [pd].

(** The frames [l] are distinct, in use, and belong to the allocator. *)
Definition freeable s F (l : list Z) : Prop :=
  fa_inv (al s) (vm s) F /\ NoDup l /\
  forall t, t ∈ l -> is_frame t /\ fa_managed (al s) (t / 4096) /\ t / 4096 ∉ F.

Definition frame_set (l : list Z) : gset Z := list_to_set ((fun t => t / 4096) <$> l).

(** [s'] differs from [s] only in the allocator. *)
Definition only_alloc s s' : Prop :=
  vs s' = vs s /\ fa_same (al s) (al s') /\ frame (fa_lo (al s)) (fa_len (al s)) (vm s) (vm s').

Lemma only_alloc_refl s : only_alloc s s.
Proof. split; [done|]. split; [apply fa_same_refl|done]. Qed.

Lemma only_alloc_trans s1 s2 s3 : only_alloc s1 s2 -> only_alloc s2 s3 -> only_alloc s1 s3.
Proof.
  intros (A1 & B1 & C1) (A2 & B2 & C2). split; [congruence|].
  split; [by eapply fa_same_trans|]. destruct B1 as (L1 & L2 & _). rewrite L1, L2 in C2.
  by eapply frame_trans.
Qed.

Lemma free_one s F t l :
  freeable s F (t :: l) ->
  only_alloc s (free_frame s t) /\ freeable (free_frame s t) ({[t / 4096]} ∪ F) l.
Proof.
  intros (Hi & [Hn Hnd]%NoDup_cons & Hall). unfold free_frame.
  destruct (Hall t ltac:(left)) as ([Ht1 Ht2] & Hm & Hf).
  destruct (fa_free (al s) (vm s) t) as [a' m'] eqn:E.
  replace t with (t / 4096 * 4096 + 0) in E at 1 by zdm.
  destruct (fa_free_ok _ _ _ _ 0 _ _ Hi Hm Hf ltac:(lia) E) as (Hi' & Hfr & Hsame).
  split; [done|]. split; [exact Hi'|]. split; [done|]. cbn [al vm].
  intros u Hu. destruct (Hall u ltac:(by right)) as ([Hu1 Hu2] & Hmu & Hfu).
  split; [done|]. split; [by apply Hsame|]. rewrite elem_of_union, elem_of_singleton.
  intros [Heq|?]; [|done]. apply Hn. replace t with u; [done|zdm].
Qed.

Lemma frame_set_cons t l : frame_set (t :: l) = {[t / 4096]} ∪ frame_set l.
Proof. done. Qed.

Lemma release_list s F l l' :
  freeable s F (l ++ l') ->
  only_alloc s (foldl free_frame s l) /\ freeable (foldl free_frame s l) (frame_set l ∪ F) l'.
Proof.
  revert s F. induction l as [|t l IH]; intros s F Hf.
  - split; [apply only_alloc_refl|]. cbn [foldl]. unfold frame_set. simpl. by rewrite (left_id_L ∅ (∪)).
  - destruct (free_one s F t (l ++ l') Hf) as [Ho Hf1]. destruct (IH _ _ Hf1) as [Ho2 Hf2].
    split; [by eapply only_alloc_trans|]. cbn [foldl]. rewrite frame_set_cons.
    by replace ({[t / 4096]} ∪ frame_set l ∪ F) with (frame_set l ∪ ({[t / 4096]} ∪ F)) by set_solver.
Qed.

Definition virt_ok s : Prop :=
  kernel_directory_phys (vs s) = 0 \/ kernel_directory (vs s) = kernel_directory_phys (vs s).

(** Entries of a frame that belongs to the allocator survive releases. *)
Lemma only_alloc_entry s s' t i :
  only_alloc s s' -> is_frame t -> outside_private (al s) t -> 0 <= i < 1024 ->
  entry (vm s') t i = entry (vm s) t i.
Proof. intros (_ & _ & Hf) [Ht _] Ho Hi. by eapply entry_frame. Qed.

Lemma freeable_outside s F l t : freeable s F l -> t ∈ l -> outside_private (al s) t.
Proof.
  intros (Hi & _ & Hall) Hin. destruct (Hall t Hin) as ([Ht _] & Hm & _).
  destruct (fa_managed_range _ _ _ _ Hi Hm) as [_ Hr]. unfold outside_private.
  replace (t / 4096 * 4096) with t in Hr by zdm. done.
Qed.

Lemma freeable_tail s F l l' : freeable s F (l ++ l') -> freeable s F l.
Proof.
  intros (Hi & [Hnd _]%NoDup_app & Hall). split; [done|]. split; [done|].
  intros t Ht. apply Hall. apply elem_of_app. by left.
Qed.

Lemma table_loop s s0 F t js l :
  only_alloc s0 s -> is_frame t -> outside_private (al s0) t ->
  (forall j, j ∈ js -> 0 <= j < 1024) ->
  freeable s F (omap (mapped_page (vm s0) t) js ++ l) ->
  foldl (fun s j => if has (entry (vm s) t j) PAGE_PRESENT
                    then free_frame s (page_of (entry (vm s) t j)) else s) s js
  = foldl free_frame s (omap (mapped_page (vm s0) t) js).
Proof.
  revert s F. induction js as [|j js IH]; intros s F Hoa Ht Ho Hjs Hf; [done|].
  cbn [foldl omap list_omap] in *.
  assert (Hj : 0 <= j < 1024) by (apply Hjs; left).
  rewrite (only_alloc_entry s0 s t j) by done. unfold mapped_page at 1 in Hf. unfold mapped_page at 1.
  destruct (has (entry (vm s0) t j) PAGE_PRESENT); cbn [foldl].
  - destruct (free_one _ _ _ _ Hf) as [Ho1 Hf1].
    eapply IH; [by eapply only_alloc_trans|done|done| |exact Hf1]. intros k Hk. apply Hjs. by right.
  - eapply IH; [done|done|done| |exact Hf]. intros k Hk. apply Hjs. by right.
Qed.

Lemma destroy_table_eq s s0 F t l :
  only_alloc s0 s -> virt_ok s -> is_frame t -> outside_private (al s0) t ->
  freeable s F (table_frames (vm s0) t ++ l) ->
  destroy_table s t = foldl free_frame s (table_frames (vm s0) t).
Proof.
  intros Hoa Hv Ht Ho Hf. unfold destroy_table, table_frames in *.
  rewrite (virt_id s t Hv) by (destruct Ht; lia). rewrite foldl_app, for_range_foldl. cbn [foldl].
  rewrite <- (assoc_L (++)) in Hf. apply (f_equal (fun x => free_frame x t)).
  eapply table_loop; [done|done|done| |exact Hf]. intros j Hj%elem_of_seqZ. lia.
Qed.

Lemma dir_loop s s0 F pd ds l :
  only_alloc s0 s -> virt_ok s -> is_frame pd -> outside_private (al s0) pd ->
  (forall i, i ∈ ds -> 0 <= i < 1024) ->
  freeable s F ((ds ≫= dir_frames (vm s0) pd) ++ l) ->
  foldl (fun s i => if has (entry (vm s) pd i) PAGE_PRESENT
                    then destroy_table s (page_of (entry (vm s) pd i)) else s) s ds
  = foldl free_frame s (ds ≫= dir_frames (vm s0) pd).
Proof.
  revert s F. induction ds as [|i ds IH]; intros s F Hoa Hv Hpd Ho His Hf; [done|].
  rewrite bind_cons in *. rewrite <- (assoc_L (++)) in Hf. rewrite foldl_app. cbn [foldl].
  assert (Hi : 0 <= i < 1024) by (apply His; left).
  assert (His' : forall j, j ∈ ds -> 0 <= j < 1024) by (intros j Hj; apply His; by right).
  rewrite (only_alloc_entry s0 s pd i) by done.
  pose proof (eq_refl (dir_frames (vm s0) pd i)) as Hd. unfold dir_frames at 2 in Hd.
  destruct (has (entry (vm s0) pd i) PAGE_PRESENT); rewrite Hd in *; clear Hd.
  2: { cbn [app foldl] in *. eapply IH; [exact Hoa|done|done|done|done|exact Hf]. }
  destruct (release_list _ _ _ _ Hf) as [Ho1 Hf1].
  set (t := page_of (entry (vm s0) pd i)) in *.
  assert (Hin : t ∈ table_frames (vm s0) t ++ (ds ≫= dir_frames (vm s0) pd) ++ l).
  { unfold table_frames. rewrite !elem_of_app, list_elem_of_singleton. tauto. }
  assert (Ht : is_frame t) by (destruct Hf as (_ & _ & Hall); by apply Hall).
  assert (Hot : outside_private (al s0) t).
  { pose proof (freeable_outside _ _ _ _ Hf Hin) as Hx. destruct Hoa as (_ & (L1 & L2 & _) & _).
    unfold outside_private in *. by rewrite L1, L2 in Hx. }
  rewrite (destroy_table_eq s s0 F t _ Hoa Hv Ht Hot Hf).
  eapply IH; [by eapply only_alloc_trans| |done|done|done|exact Hf1].
  unfold virt_ok. by rewrite (proj1 Ho1).
Qed.

Lemma destroy_spec s F pd :
  virt_ok s -> pd <> kernel_directory (vs s) -> freeable s F (space_frames (vm s) pd) ->
  let s' := vmm_destroy_address_space s pd in
  s' = foldl free_frame s (space_frames (vm s) pd) /\ only_alloc s s' /\
  fa_inv (al s') (vm s') (frame_set (space_frames (vm s) pd) ∪ F).
Proof.
  intros Hv Hk Hf.
  assert (Hin : pd ∈ space_frames (vm s) pd).
  { unfold space_frames. rewrite elem_of_app, list_elem_of_singleton. by right. }
  assert (Hpd : is_frame pd) by (destruct Hf as (_ & _ & Hall); by apply Hall).
  pose proof (freeable_outside _ _ _ _ Hf Hin) as Ho.
  assert (Heq : vmm_destroy_address_space s pd = foldl free_frame s (space_frames (vm s) pd)).
  { unfold vmm_destroy_address_space.
    replace ((pd =? 0) || (pd =? kernel_directory (vs s))) with false by (destruct Hpd; lia).
    rewrite (virt_id s pd Hv) by (destruct Hpd; lia).
    unfold space_frames. rewrite foldl_app, for_range_foldl. cbn [foldl].
    apply (f_equal (fun x => free_frame x pd)).
    eapply dir_loop; [apply only_alloc_refl|done|done|done| |exact Hf].
    intros i Hi%elem_of_seqZ. lia. }
  cbn zeta. rewrite Heq. split; [done|].
  rewrite <- (app_nil_r (space_frames _ _)) in Hf.
  destruct (release_list s F _ _ Hf) as [H1 [H2 _]]. done.
Qed.

(** ** Allocating a page *)

Lemma vinv_only_alloc s s' F F' pd :
  vinv s F pd -> only_alloc s s' -> fa_inv (al s') (vm s') F' ->
  (forall u, u = pd \/ is_table (vm s) pd u -> u / 4096 ∉ F') ->
  vinv s' F' pd /\ forall va, pte (vm s') pd va = pte (vm s) pd va.
Proof.
  intros Hv Hoa Hi Hn. pose proof Hoa as (Hvs & Hsame & Hfr).
  assert (He : forall u i, u = pd \/ is_table (vm s) pd u -> 0 <= i < 1024 ->
    entry (vm s') u i = entry (vm s) u i).
  { intros u i [->|Hu] Hir; (eapply entry_private; [|exact Hfr|done]).
    - apply Hv.
    - by apply (vi_table _ _ _ Hv). }
  assert (Hd : forall i, 0 <= i < 1024 -> entry (vm s') pd i = entry (vm s) pd i)
    by (intros; apply He; [by left|done]).
  assert (Ho : forall u, owned (al s) F u -> u / 4096 ∉ F' -> owned (al s') F' u).
  { intros u (A & _ & C) B. split; [done|]. split; [done|].
    destruct Hsame as (L1 & L2 & _). unfold outside_private in *. by rewrite L1, L2. }
  split.
  - split.
    + rewrite Hvs. apply Hv.
    + exact Hi.
    + apply Ho; [apply Hv|apply Hn; by left].
    + intros u Hu. assert (Hu' : is_table (vm s) pd u) by (by eapply is_table_ext).
      destruct (vi_table _ _ _ Hv u Hu') as [A B]. split; [|exact B]. apply Ho; [exact A|apply Hn; by right].
    + intros i j Hir Hjr. rewrite !Hd by done. by apply (vi_inj _ _ _ Hv).
  - intros va. apply pte_ext; [exact Hd|]. intros u i Hu Hir. apply He; [by right|exact Hir].
Qed.

(** Going from [s], with the frames [F] free, to [s'], with [F'], left everything
    alone that is foreign to [pd]. *)
Definition leaves s F s' F' pd : Prop :=
  forall b, foreign s F pd b -> load8 (vm s') b = load8 (vm s) b /\ foreign s' F' pd b.

Lemma leaves_trans s1 F1 s2 F2 s3 F3 pd : leaves s1 F1 s2 F2 pd -> leaves s2 F2 s3 F3 pd -> leaves s1 F1 s3 F3 pd.
Proof. intros L1 L2 b Hb. destruct (L1 b Hb) as [<- Hb2]. by apply L2. Qed.

Lemma leaves_only_alloc s s' F F' pd : vinv s F pd -> only_alloc s s' -> F' ⊆ F -> leaves s F s' F' pd.
Proof.
  intros Hv (_ & (L1 & L2 & _) & Hfr) Hsub b (H1 & H2 & H3 & H4). split; [by apply Hfr|].
  unfold foreign. rewrite L1, L2. split; [done|]. split; [set_solver|]. split; [done|].
  intros Hu. apply H4. eapply is_table_ext; [|exact Hu]. intros i Hi. by eapply entry_private; [apply Hv|..].
Qed.

Lemma vinv_used s F pd u : vinv s F pd -> u = pd \/ is_table (vm s) pd u -> u / 4096 ∉ F.
Proof.
  intros Hv [->|Hu]; [apply (vi_dir _ _ _ Hv)|apply (vi_table _ _ _ Hv _ Hu)].
Qed.

Lemma lor_present_ok fl : flags_ok fl -> flags_ok (Z.lor fl PAGE_PRESENT).
Proof.
  unfold flags_ok, PAGE_PRESENT. intros [H1 H2]. split; [by apply Z.lor_nonneg|].
  destruct (decide (Z.lor fl 1 = 0)) as [->|Hne]; [lia|].
  assert (0 <= Z.lor fl 1) by (by apply Z.lor_nonneg).
  apply (Z.log2_lt_pow2 _ 12); [lia|]. rewrite Z.log2_lor by lia.
  apply Z.max_lub_lt; [|done]. destruct (decide (fl = 0)) as [->|]; [done|].
  apply Z.log2_lt_pow2; simpl; lia.
Qed.

Lemma alloc_page_spec s F pd va fl :
  vinv s F pd -> 0 <= va < 4294967296 -> flags_ok fl ->
  let '(r, s') := vmm_alloc_page s pd va fl in
  (r = -1 /\ vinv s' F pd /\ (forall va', pte (vm s') pd va' = pte (vm s) pd va') /\
     leaves s F s' F pd /\ vs s' = vs s /\ (size F <= 1)%nat) \/
  exists t F', r = 0 /\ is_frame t /\ t / 4096 ∈ F /\ F' ⊆ F ∖ {[t / 4096]} /\ vinv s' F' pd /\
    pte (vm s') pd va = t + Z.lor fl PAGE_PRESENT /\
    (forall va', 0 <= va' < 4294967296 -> va' / 4096 <> va / 4096 ->
       pte (vm s') pd va' = pte (vm s) pd va') /\
    leaves s F s' F' pd /\ (forall b, b / 4096 * 4096 = t -> foreign s' F' pd b) /\
    vs s' = if pd =? current_directory (vs s) then invlpg (vs s) (page_of va) else vs s.
Proof.
  intros Hv Hva Hfl. unfold vmm_alloc_page.
  destruct (alloc_frame_cases s F (vi_alloc _ _ _ Hv)) as
    [[-> ->]|(t & s1 & Hin & Ht & Hout & -> & Hvs & Hsame & Hi1 & Hfr)].
  { left. split_and!; try done; rewrite size_empty; lia. }
  assert (Ht0 : (t =? 0) = false) by (destruct Ht; lia). rewrite Ht0.
  assert (Hoa : only_alloc s s1) by done.
  destruct (vinv_only_alloc s s1 F (F ∖ {[t / 4096]}) pd Hv Hoa Hi1) as [Hv1 Hp1].
  { intros u Hu Hx. apply (vinv_used s F pd u Hv Hu). by apply elem_of_difference in Hx as [? _]. }
  pose proof (leaves_only_alloc s s1 F (F ∖ {[t / 4096]}) pd Hv Hoa ltac:(set_solver +)) as HL1.
  pose proof (map_page_spec s1 _ pd va t (Z.lor fl PAGE_PRESENT) Hv1 Hva
    ltac:(destruct Ht; lia) (lor_present_ok _ Hfl)) as Hm.
  destruct (vmm_map_page s1 pd va t (Z.lor fl PAGE_PRESENT)) as [r s2].
  destruct Hm as [(-> & -> & HF & _)|(F' & -> & [Hsub _] & Hv2 & _ & Hnew & Hold & HL2 & Hvs2)]; cbn [negb Z.eqb].
  - left. split; [done|].
    assert (Hfz : freeable s1 (F ∖ {[t / 4096]}) [t]).
    { split; [exact Hi1|]. split; [apply NoDup_singleton|]. intros u ->%list_elem_of_singleton.
      split; [done|]. split; [apply Hsame; exact (fa_free_managed _ _ _ _ (vi_alloc _ _ _ Hv) Hin)|]. set_solver +. }
    destruct (free_one _ _ _ _ Hfz) as [Hoa2 [Hi2 _]].
    replace ({[t / 4096]} ∪ F ∖ {[t / 4096]}) with F in Hi2.
    2: { apply leibniz_equiv. rewrite <- union_difference by (by apply singleton_subseteq_l). done. }
    pose proof (only_alloc_trans _ _ _ Hoa Hoa2) as Hoa3.
    destruct (vinv_only_alloc s _ F F pd Hv Hoa3 Hi2) as [A B].
    { intros u Hu. by apply (vinv_used s F pd u Hv Hu). }
    split; [exact A|]. split; [exact B|]. split; [by apply leaves_only_alloc|]. split; [apply Hoa3|].
    rewrite (diff_singleton_size F _ Hin), HF, size_empty. done.
  - right. exists t, F'. split; [done|]. split; [done|]. split; [done|]. split; [done|]. split; [exact Hv2|].
    split; [|split; [|split; [|split]]].
    + rewrite Hnew. f_equal. destruct Ht as [Hm Hr]. rewrite page_of_eq by lia. zdm.
    + intros va' Hva' Hne. rewrite Hold by done. apply Hp1.
    + by eapply leaves_trans.
    + intros b Hb. apply HL2. pose proof Hsame as (L1 & L2 & _). unfold foreign, outside_private in *. rewrite L1, L2.
      assert (Hq : b / 4096 = t / 4096) by (rewrite <- Hb; by rewrite frame_index). rewrite Hb, Hq.
      split; [destruct Ht; zdm|]. split; [set_solver +|]. split; [intros <-; by apply (vinv_used s F t t Hv (or_introl eq_refl))|].
      intros Hu. apply (vinv_used s F pd t Hv); [right|done]. eapply is_table_ext; [|exact Hu].
      intros i Hi. by eapply entry_private; [apply Hv|..].
    + by rewrite Hvs2, Hvs.
Qed.
End laws.

(** ** Properties *)

Section properties.
Context {St : Type} `{FrameAllocLaws St}.
Implicit Types (s : vst St) (F : gset Z).

(** C3: [vmm_map_page] and translation.  Mapping fails only when the page needs a
    new table and no frame is left, and then changes nothing.  When it succeeds,
    the page translates to the given frame, every other page translates as
    before with the same entry, directory and tables stay well formed, no byte
    outside the allocator, the free frames, the directory and its tables is
    written, and the TLB entry is flushed when the directory is the current one. *)
Theorem vmm_map_page_translates s F pd va pa fl :
  vinv s F pd -> 0 <= va < 4294967296 -> 0 <= pa < 4294967296 -> flags_ok fl ->
  has fl PAGE_PRESENT = true ->
  let '(r, s') := vmm_map_page s pd va pa fl in
  (r = -1 /\ s' = s /\ F = ∅) \/
  (r = 0 /\ (exists F', F' ⊆ F /\ vinv s' F' pd) /\
   (forall va', 0 <= va' < 4294967296 -> va' / 4096 = va / 4096 ->
      vmm_get_physical_address s' pd va' = pa / 4096 * 4096 + va' mod 4096 /\
      pte (vm s') pd va' = pa / 4096 * 4096 + fl) /\
   (forall va', 0 <= va' < 4294967296 -> va' / 4096 <> va / 4096 ->
      vmm_get_physical_address s' pd va' = vmm_get_physical_address s pd va' /\
      pte (vm s') pd va' = pte (vm s) pd va') /\
   (forall b, foreign s F pd b -> load8 (vm s') b = load8 (vm s) b) /\
   (pd = current_directory (vs s) -> flushed (vs s') = va / 4096 * 4096 :: flushed (vs s))).
Proof.
  intros Hv Hva Hpa Hfl Hfp. pose proof (map_page_spec s F pd va pa fl Hv Hva Hpa Hfl) as Hm.
  destruct (vmm_map_page s pd va pa fl) as [r s'].
  destruct Hm as [(-> & -> & HF & _)|(F' & -> & [Hsub _] & Hv' & _ & Hnew & Hold & Hb & Hvs)]; [by left|right].
  rewrite page_of_eq in Hnew by done. rewrite page_of_eq in Hvs by done.
  split; [done|]. split; [by exists F'|].
  assert (Hfr : is_frame (4096 * (pa / 4096)) \/ 4096 * (pa / 4096) = 0).
  { destruct (decide (4096 * (pa / 4096) = 0)); [by right|left]. split; zdm. }
  assert (Hparts : page_of (4096 * (pa / 4096) + fl) = 4096 * (pa / 4096) /\
    has (4096 * (pa / 4096) + fl) PAGE_PRESENT = true).
  { destruct Hfr as [Hf|Hf].
    - destruct (entry_parts _ _ Hf Hfl) as (_ & _ & -> & _). by rewrite has_parts.
    - rewrite Hf. split; [|done]. unfold flags_ok in Hfl. rewrite page_of_eq by lia. zdm. }
  destruct Hparts as [Hpo Hhas]. split; [|split; [|split; [intros b Hfb; by apply Hb|]]].
  - intros va' Hva' Hpage.
    assert (Hp : pte (vm s') pd va' = 4096 * (pa / 4096) + fl).
    { rewrite <- Hnew, <- (pte_page _ _ va) by done. rewrite <- (pte_page _ _ va') by done.
      f_equal. rewrite !page_of_eq by done. by rewrite Hpage. }
    destruct (lookup_spec s' F' pd va' Hv') as [_ ->]. rewrite Hp, Hhas, Hpo, offset_of_eq.
    split; [|lia]. rewrite (Z.mul_comm 4096), (lor_low _ _ 12); [done|lia|].
    apply (Z.mod_pos_bound va' 4096). lia.
  - intros va' Hva' Hpage. destruct (lookup_spec s' F' pd va' Hv') as [_ ->].
    destruct (lookup_spec s F pd va' Hv) as [_ ->]. by rewrite Hold.
  - intros Hcur. rewrite Hvs, Hcur, Z.eqb_refl. cbn. f_equal. lia.
Qed.

(** [vmm_unmap_page] takes away the translation of its page and of no other. *)
Theorem vmm_unmap_page_removes s F pd va :
  vinv s F pd -> 0 <= va < 4294967296 ->
  let s' := vmm_unmap_page s pd va in
  vinv s' F pd /\ vmm_is_mapped s' pd va = false /\ vmm_get_physical_address s' pd va = 0 /\
  (forall va', 0 <= va' < 4294967296 -> va' / 4096 <> va / 4096 ->
     vmm_is_mapped s' pd va' = vmm_is_mapped s pd va' /\
     vmm_get_physical_address s' pd va' = vmm_get_physical_address s pd va') /\
  (forall b, foreign s F pd b -> load8 (vm s') b = load8 (vm s) b).
Proof.
  intros Hv Hva. pose proof (unmap_page_spec s F pd va Hv Hva) as Hu.
  set (s' := vmm_unmap_page s pd va) in *. destruct Hu as (Hv' & Hz & Hold & Hb).
  destruct (lookup_spec s' F pd va Hv') as [H1 H2]. rewrite Hz, has_0 in H1, H2.
  split; [done|]. split; [done|]. split; [done|]. split; [|done].
  intros va' Hva' Hpage. destruct (lookup_spec s' F pd va' Hv') as [-> ->].
  destruct (lookup_spec s F pd va' Hv) as [-> ->]. by rewrite Hold.
Qed.

(** [vmm_alloc_page] either maps a frame that was free, which is then free no
    more, or fails and gives back every frame it took: nothing leaks and no
    translation changes. *)
Theorem vmm_alloc_page_no_leak s F pd va fl :
  vinv s F pd -> 0 <= va < 4294967296 -> flags_ok fl ->
  let '(r, s') := vmm_alloc_page s pd va fl in
  (r = -1 /\ vinv s' F pd /\ forall va', pte (vm s') pd va' = pte (vm s) pd va') \/
  exists t F', r = 0 /\ t / 4096 ∈ F /\ F' ⊆ F ∖ {[t / 4096]} /\ vinv s' F' pd /\
    pte (vm s') pd va = t + Z.lor fl PAGE_PRESENT /\
    (forall va', 0 <= va' < 4294967296 -> va' / 4096 <> va / 4096 ->
       pte (vm s') pd va' = pte (vm s) pd va').
Proof.
  intros Hv Hva Hfl. pose proof (alloc_page_spec s F pd va fl Hv Hva Hfl) as Ha.
  destruct (vmm_alloc_page s pd va fl) as [r s'].
  destruct Ha as [(A & B & C & _)|(t & F' & A & B & C & D & E & Hn & Ho & _)]; [by left|right]. by exists t, F'.
Qed.

(** The check of a buffer that does not wrap. *)
Lemma check_user_ptr_spec s F ptr len write :
  vinv s F (current_directory (vs s)) -> 0 < ptr -> 0 < len -> ptr + len <= 4294967296 ->
  exists b, vmm_check_user_ptr s ptr len write = Some b /\
    (b = true <-> forall a, ptr <= a < ptr + len ->
       a <= USER_SPACE_END /\ page_ok (vm s) (current_directory (vs s)) a write = true).
Proof.
  intros Hv Hp Hl Hw. unfold vmm_check_user_ptr, vmm_get_current_directory.
  replace (ptr =? 0) with false by lia. replace (len =? 0) with false by lia.
  assert (Hlast : u32 (u32 (ptr + len) - 1) = ptr + len - 1).
  { unfold u32. rewrite Zminus_mod_idemp_l. apply Z.mod_small. lia. }
  rewrite Hlast. unfold USER_SPACE_END.
  destruct (Z.ltb_spec 3221225471 ptr); cbn [orb].
  { exists false. split; [done|]. split; [done|]. intros Hall.
    destruct (Hall ptr ltac:(lia)) as [? _]. lia. }
  destruct (Z.ltb_spec 3221225471 (ptr + len - 1)).
  { exists false. split; [done|]. split; [done|]. intros Hall.
    destruct (Hall (ptr + len - 1) ltac:(lia)) as [? _]. lia. }
  set (pd := current_directory (vs s)) in *.
  replace (pd =? 0) with false by (pose proof (owned_range _ _ _ (vi_dir _ _ _ Hv)); lia).
  pose proof (page_of_eq ptr ltac:(lia)) as Hpo.
  destruct (check_pages_spec s F pd write (ptr + len - 1) check_fuel (page_of ptr) Hv)
    as (b & -> & Hb); [zdm|unfold USER_SPACE_END; lia|unfold check_fuel; lia|unfold check_fuel; rewrite Z2Nat.id by lia; zdm|].
  exists b. split; [done|]. rewrite Hb. split.
  - intros Hall a Ha. split; [lia|].
    rewrite <- (page_ok_page _ _ a) by lia.
    specialize (Hall (a / 4096 - ptr / 4096) ltac:(zdm)).
    rewrite (page_of_eq a) by lia. rewrite Hpo in Hall.
    replace (4096 * (a / 4096)) with (4096 * (ptr / 4096) + 4096 * (a / 4096 - ptr / 4096)) by lia.
    apply Hall. zdm.
  - intros Hall k Hk Hle. rewrite Hpo in *.
    destruct (decide (k = 0)) as [->|Hne].
    + destruct (Hall ptr ltac:(lia)) as [_ Ho]. rewrite <- (page_ok_page _ _ ptr) in Ho by lia.
      rewrite Hpo in Ho. by rewrite Z.mul_0_r, Z.add_0_r.
    + apply Hall. zdm.
Qed.

(** C28: [vmm_check_user_ptr] always ends and, on a buffer that does not run past
    the top of the address space, accepts exactly when every byte of the buffer
    lies below the end of user space on a present user page, writable if asked. *)
Theorem vmm_check_user_ptr_decides s F ptr len write :
  vinv s F (current_directory (vs s)) -> 0 < ptr -> 0 < len -> ptr + len <= 4294967296 ->
  exists b, vmm_check_user_ptr s ptr len write = Some b /\
    (b = true <-> forall a, ptr <= a < ptr + len ->
       a <= USER_SPACE_END /\ page_ok (vm s) (current_directory (vs s)) a write = true).
Proof. apply check_user_ptr_spec. Qed.

(** the same check accepts, without looking at any page, every buffer whose
    last byte wraps around to below its first page: [start + len - 1] is computed
    modulo 2^32. *)
Theorem vmm_check_user_ptr_wraps s ptr len write :
  0 < ptr <= USER_SPACE_END -> current_directory (vs s) <> 0 ->
  4294967296 < ptr + len <= 4294967296 + ptr / 4096 * 4096 ->
  vmm_check_user_ptr s ptr len write = Some true.
Proof.
  unfold USER_SPACE_END. intros Hp Hc Hl.
  unfold vmm_check_user_ptr, vmm_get_current_directory, USER_SPACE_END.
  replace (ptr =? 0) with false by lia. replace (len =? 0) with false by lia.
  assert (Hlast : u32 (u32 (ptr + len) - 1) = ptr + len - 1 - 4294967296).
  { unfold u32. rewrite Zminus_mod_idemp_l. zdm. }
  rewrite Hlast. replace (3221225471 <? ptr) with false by lia.
  replace (3221225471 <? ptr + len - 1 - 4294967296) with false by zdm. cbn [orb].
  replace (current_directory (vs s) =? 0) with false by lia.
  assert (Hfuel : exists f, check_fuel = S f) by (exists (Z.to_nat 786433); unfold check_fuel; lia).
  destruct Hfuel as [f ->]. cbn [check_pages]. rewrite page_of_eq by lia.
  by replace (4096 * (ptr / 4096) <=? ptr + len - 1 - 4294967296) with false by lia.
Qed.

(** [vmm_init] with three free frames turns paging on with a directory that
    maps the first 8 MB to themselves, writable and for the kernel only, and maps
    no other address. *)
Theorem vmm_init_identity_maps_8mb s F :
  fa_inv (al s) (vm s) F -> (3 <= size F)%nat ->
  let s' := vmm_init s in let kd := kernel_directory (vs s') in
  (exists F', vinv s' F' kd /\ F' ⊆ F) /\ current_directory (vs s') = kd /\ cr3 (vs s') = kd /\
  cr0 (vs s') = Z.lor (cr0 (vs s)) 2147483648 /\
  forall va, 0 <= va < 4294967296 ->
    vmm_is_mapped s' kd va = (va <? 8388608) /\
    (va < 8388608 -> vmm_get_physical_address s' kd va = va /\
       pte (vm s') kd va = va / 4096 * 4096 + 3).
Proof.
  intros Hi Hsz. pose proof (vmm_init_spec s F Hi Hsz) as Hs. cbv zeta in Hs. cbv zeta.
  set (s' := vmm_init s) in *.
  destruct Hs as ((F' & Hv & Hsub) & Hk & Hc & _ & H3 & H0' & Hp).
  split; [by exists F'|]. split; [exact Hc|]. split; [exact H3|]. split; [exact H0'|].
  intros va Hva. destruct (lookup_spec s' F' _ va Hv) as [-> ->]. rewrite Hp by done.
  destruct (Z.ltb_spec va 8388608) as [Hlt|Hge]; [|split; [apply has_0|lia]].
  assert (Hfr : is_frame (va / 4096 * 4096) \/ va / 4096 * 4096 = 0).
  { destruct (decide (va / 4096 * 4096 = 0)); [by right|left]. split; zdm. }
  assert (Hparts : page_of (va / 4096 * 4096 + 3) = va / 4096 * 4096 /\
    has (va / 4096 * 4096 + 3) PAGE_PRESENT = true).
  { destruct Hfr as [Hf|Hf].
    - destruct (entry_parts _ 3 Hf ltac:(lia)) as (_ & _ & -> & _).
      rewrite has_parts by done. split; [reflexivity|exact has_3].
    - rewrite Hf. split; [|exact has_3]. by rewrite page_of_eq. }
  destruct Hparts as [-> ->]. split; [done|]. intros _. split; [|done].
  rewrite offset_of_eq, (lor_low _ _ 12) by (first [lia|apply (Z.mod_pos_bound va 4096); lia]). zdm.
Qed.

(** a new address space shares the kernel's tables above 3 GB and maps nothing
    below; the kernel's own directory is unchanged.  In particular it does not
    hold the identity map of the kernel image made by [vmm_init]. *)
Theorem vmm_create_address_space_shares_kernel s F :
  vinv s F (kernel_directory (vs s)) ->
  let '(dst, s') := vmm_create_address_space s in
  (dst = 0 /\ s' = s /\ F = ∅) \/
  exists F', dst <> 0 /\ dst / 4096 ∈ F /\ F' = F ∖ {[dst / 4096]} /\
    vinv s' F' dst /\ vinv s' F' (kernel_directory (vs s)) /\
    (forall va, pte (vm s') (kernel_directory (vs s)) va = pte (vm s) (kernel_directory (vs s)) va) /\
    (forall va, 0 <= va < KERNEL_VIRTUAL_BASE -> vmm_is_mapped s' dst va = false) /\
    (forall va, KERNEL_VIRTUAL_BASE <= va < 4294967296 ->
       vmm_get_physical_address s' dst va = vmm_get_physical_address s (kernel_directory (vs s)) va).
Proof.
  intros Hv. pose proof (create_spec s F _ Hv eq_refl) as Hc.
  destruct (vmm_create_address_space s) as [dst s'].
  destruct Hc as [Hc|(F' & A & B & C & _ & _ & D & G & _ & I & J)]; [by left|right].
  exists F'. split; [exact A|]. split; [exact B|]. split; [exact C|]. split; [exact D|].
  split; [exact G|]. split; [exact I|]. unfold KERNEL_VIRTUAL_BASE in *. split.
  - intros va Hva. destruct (lookup_spec s' F' dst va D) as [-> _].
    rewrite J by lia. replace (va <? 3221225472) with true by lia. apply has_0.
  - intros va Hva. destruct (lookup_spec s' F' dst va D) as [_ ->].
    destruct (lookup_spec s F _ va Hv) as [_ ->].
    rewrite J by lia. by replace (va <? 3221225472) with false by lia.
Qed.

(** C34: destroying an address space releases each frame of its user half once:
    the pages its user tables map, those tables, and the directory, provided they
    are distinct frames in use.  Only the allocator's own memory is written. *)
Theorem vmm_destroy_releases_every_frame s F pd :
  virt_ok s -> pd <> kernel_directory (vs s) -> freeable s F (space_frames (vm s) pd) ->
  let s' := vmm_destroy_address_space s pd in
  fa_inv (al s') (vm s') (frame_set (space_frames (vm s) pd) ∪ F) /\
  vs s' = vs s /\ frame (fa_lo (al s)) (fa_len (al s)) (vm s) (vm s').
Proof.
  intros Hv Hk Hf. destruct (destroy_spec s F pd Hv Hk Hf) as (_ & (A & _ & B) & C). done.
Qed.
End properties.

(** ** A small machine *)

(** 32 frames, the bitmap at 0x1000, frames 5 to 12 free. *)
Definition small_pmm : pmm := Pmm 4096 4 131072 24 32.
Definition small_bits : mem := store32 ∅ 4096 (not32 8160).
Definition small_vmm : vst pmm := Vst (Vmm 0 0 0 0 0 []) small_pmm small_bits.
Definition small_free : gset Z := free_frames small_pmm small_bits.

Lemma small_alloc : fa_inv (al small_vmm) (vm small_vmm) small_free.
Proof.
  split; [apply pmm_ok_inv; vm_compute; reflexivity|apply reserved_ok_spec; vm_compute; reflexivity].
Qed.

Definition booted : vst pmm := vmm_init small_vmm.

Lemma booted_inv : exists F, vinv booted F (kernel_directory (vs booted)).
Proof.
  destruct (vmm_init_spec small_vmm small_free small_alloc) as ((F & Hv & _) & _);
    [vm_compute; lia|]. by exists F.
Qed.

Lemma vmm_init_identity_maps_8mb_witness :
  vmm_is_mapped booted (kernel_directory (vs booted)) 7340032 = true.
Proof.
  destruct (vmm_init_identity_maps_8mb small_vmm small_free small_alloc ltac:(vm_compute; lia))
    as (_ & _ & _ & _ & H). apply (H 7340032). lia.
Defined.

Lemma vmm_map_page_translates_witness : exists F : gset Z,
  let '(r, s') := vmm_map_page booted (kernel_directory (vs booted)) 1073741824 8192 7 in
  (r = -1 /\ s' = booted /\ F = ∅) \/
  (r = 0 /\ vmm_get_physical_address s' (kernel_directory (vs booted)) 1073741900 = 8268).
Proof.
  destruct booted_inv as (F & Hv). exists F.
  pose proof (vmm_map_page_translates booted F (kernel_directory (vs booted)) 1073741824 8192 7 Hv
    ltac:(lia) ltac:(lia) ltac:(unfold flags_ok; lia) eq_refl) as H.
  destruct (vmm_map_page booted (kernel_directory (vs booted)) 1073741824 8192 7) as [r s'].
  destruct H as [H|(Hr & _ & Ht & _)]; [left; exact H|right].
  split; [exact Hr|]. destruct (Ht 1073741900 ltac:(lia) eq_refl) as [Ht' _]. exact Ht'.
Defined.

Lemma vmm_unmap_page_removes_witness : exists F,
  vinv (vmm_unmap_page booted (kernel_directory (vs booted)) 4096) F (kernel_directory (vs booted)) /\
  vmm_is_mapped (vmm_unmap_page booted (kernel_directory (vs booted)) 4096)
    (kernel_directory (vs booted)) 4096 = false.
Proof.
  destruct booted_inv as (F & Hv). exists F.
  destruct (vmm_unmap_page_removes booted F (kernel_directory (vs booted)) 4096 Hv ltac:(lia))
    as (A & B & _). exact (conj A B).
Defined.

Lemma vmm_alloc_page_no_leak_witness : exists F,
  let '(r, s') := vmm_alloc_page booted (kernel_directory (vs booted)) 1073741824 6 in
  (r = -1 /\ vinv s' F (kernel_directory (vs booted)) /\
     forall va', pte (vm s') (kernel_directory (vs booted)) va' = pte (vm booted) (kernel_directory (vs booted)) va') \/
  exists t F', r = 0 /\ t / 4096 ∈ F /\ F' ⊆ F ∖ {[t / 4096]} /\
    vinv s' F' (kernel_directory (vs booted)) /\
    pte (vm s') (kernel_directory (vs booted)) 1073741824 = t + Z.lor 6 PAGE_PRESENT /\
    (forall va', 0 <= va' < 4294967296 -> va' / 4096 <> 1073741824 / 4096 ->
       pte (vm s') (kernel_directory (vs booted)) va' = pte (vm booted) (kernel_directory (vs booted)) va').
Proof.
  destruct booted_inv as (F & Hv). exists F.
  exact (vmm_alloc_page_no_leak booted F (kernel_directory (vs booted)) 1073741824 6 Hv
    ltac:(lia) ltac:(unfold flags_ok; lia)).
Defined.

Lemma booted_current : current_directory (vs booted) = kernel_directory (vs booted).
Proof. vm_compute. reflexivity. Qed.

(** The kernel pages are not for user mode: a user pointer to them is refused. *)
Lemma vmm_check_user_ptr_decides_witness :
  exists b, vmm_check_user_ptr booted 4096 16 false = Some b /\
    (b = true <-> forall a, 4096 <= a < 4112 ->
       a <= USER_SPACE_END /\ page_ok (vm booted) (current_directory (vs booted)) a false = true).
Proof.
  destruct booted_inv as (F & Hv). rewrite <- booted_current in Hv.
  exact (vmm_check_user_ptr_decides booted F 4096 16 false Hv ltac:(lia) ltac:(lia) ltac:(lia)).
Defined.

(** A kernel page and everything from it to the top: accepted. *)
Lemma vmm_check_user_ptr_wraps_witness :
  vmm_check_user_ptr booted 3221221376 1073745921 true = Some true.
Proof.
  apply (vmm_check_user_ptr_wraps booted);
    [unfold USER_SPACE_END; lia|vm_compute; discriminate|vm_compute; split; congruence].
Defined.

Lemma vmm_create_address_space_shares_kernel_witness :
  vmm_is_mapped (vmm_create_address_space booted).2 (vmm_create_address_space booted).1 1048576 = false.
Proof.
  destruct booted_inv as (F & Hv).
  pose proof (vmm_create_address_space_shares_kernel booted F Hv) as H.
  assert (Hne : (vmm_create_address_space booted).1 <> 0) by (vm_compute; discriminate).
  destruct (vmm_create_address_space booted) as [dst s'].
  destruct H as [(Hz & _)|(F' & _ & _ & _ & _ & _ & _ & H & _)]; [destruct (Hne Hz)|].
  apply H. unfold KERNEL_VIRTUAL_BASE. lia.
Defined.

(** [freeable] checked by computation. *)
Definition freeable_ok (s : vst pmm) (l : list Z) : bool :=
  pmm_ok (al s) (vm s) && reserved_ok (al s) (vm s) && bool_decide (NoDup l) &&
  forallb (fun t => (t mod 4096 =? 0) && (0 <? t) && (t / 4096 <? pmm_max_blocks (al s))
    && (t <? 4294967296) && (pmm_bitmap (al s) + pmm_max_blocks (al s) / 8 <=? t)
    && negb (bool_decide (t / 4096 ∈ free_list (al s) (vm s)))) l.

Lemma freeable_ok_spec s l :
  freeable_ok s l = true -> freeable s (free_frames (al s) (vm s)) l.
Proof.
  unfold freeable_ok. rewrite !andb_true_iff. intros (((A & B) & C) & D).
  split; [split; [by apply pmm_ok_inv|by apply reserved_ok_spec]|].
  split; [by apply bool_decide_eq_true in C|].
  rewrite forallb_forall in D. intros t Ht%list_elem_of_In. specialize (D t Ht).
  rewrite !andb_true_iff, negb_true_iff, bool_decide_eq_false in D.
  destruct D as (((((D1 & D2) & D3) & D4) & D5) & D6).
  split; [split; lia|]. split; [split; [zdm|]|].
  - right. zdm.
  - by intros Hin%elem_of_list_to_set.
Qed.

(** A process with one user page at 1 GB: three frames to release. *)
Definition process : vst pmm * Z :=
  let '(pd, s) := vmm_create_address_space booted in
  ((vmm_alloc_page s pd 1073741824 6).2, pd).

Lemma process_freeable :
  space_frames (vm process.1) process.2 = [36864; 40960; 32768] /\
  freeable process.1 (free_frames (al process.1) (vm process.1)) (space_frames (vm process.1) process.2).
Proof. split; [vm_compute; reflexivity|]. apply freeable_ok_spec. vm_compute. reflexivity. Qed.

Lemma vmm_destroy_releases_every_frame_witness :
  fa_inv (al (vmm_destroy_address_space process.1 process.2)) (vm (vmm_destroy_address_space process.1 process.2))
    (frame_set (space_frames (vm process.1) process.2) ∪ free_frames (al process.1) (vm process.1)).
Proof.
  apply (vmm_destroy_releases_every_frame process.1 _ process.2);
    [right; vm_compute; reflexivity|vm_compute; discriminate|exact (proj2 process_freeable)].
Defined.
