(* ===== verification/Sched.v ===== *)
(** kernel/sched/sched.c: tasks and the scheduler.

    A [struct task] is a record in the store [tasks], under the address that
    [kmalloc] gave it; the run queue is the chain of [next] pointers from
    [task_queue].  Task structures, kernel stacks and user stacks come from an
    allocator known through [KAlloc]; stack contents are bytes of [kmem].
    [esp0] is the field of the TSS that [tss_set_kernel_stack] writes, and
    [switches] records the calls of [switch_context], latest first, as pairs of
    the address of the outgoing task (0 for NULL) and of the incoming one.

    An operation that can dereference a pointer outside the store, walk a cyclic
    queue, or call an allocator that does not end, returns an [option]: [None]
    stands for these.  [task_wait] is one iteration of its loop: [WBlocked] means
    that the caller sleeps and repeats the iteration when it is resumed. *)

From S2P Require Import Prelude Mem CString KAlloc Heap.
Local Open Scope Z_scope.

(** ** Definitions *)

Definition TASK_RUNNING : Z := 0.
Definition TASK_READY : Z := 1.
Definition TASK_BLOCKED : Z := 2.
Definition TASK_ZOMBIE : Z := 3.
Definition KERNEL_STACK_SIZE : Z := 16384.
Definition USER_STACK_SIZE : Z := 16384.
(** sizeof(struct task) on i386 *)
Definition TASK_SIZE : Z := 100.

Record task_context := Context {
  c_edi : Z; c_esi : Z; c_ebp : Z; c_esp : Z; c_ebx : Z; c_edx : Z;
  c_ecx : Z; c_eax : Z; c_eip : Z; c_eflags : Z; c_cr3 : Z
}.

Record task := Task {
  t_id : Z;
  t_pid : Z;
  t_parent_pid : Z;
  t_state : Z;
  t_priority : Z;
  t_time_slice : Z;
  t_kernel_mode : bool;
  t_kernel_stack : Z;
  t_kernel_stack_top : Z;
  t_user_stack : Z;
  t_user_stack_top : Z;
  t_cpu_ticks : Z;
  t_exit_code : Z;
  t_waiting_for : Z;
  t_context : task_context;
  t_next : Z
}.

(** What [memset(t, 0, sizeof(struct task))] leaves. *)
Definition zero_context : task_context := Context 0 0 0 0 0 0 0 0 0 0 0.
Definition zero_task : task := Task 0 0 0 0 0 0 false 0 0 0 0 0 0 0 zero_context 0.

Definition set_state (t : task) (v : Z) : task :=
  Task (t_id t) (t_pid t) (t_parent_pid t) v (t_priority t) (t_time_slice t) (t_kernel_mode t)
    (t_kernel_stack t) (t_kernel_stack_top t) (t_user_stack t) (t_user_stack_top t)
    (t_cpu_ticks t) (t_exit_code t) (t_waiting_for t) (t_context t) (t_next t).
Definition set_time_slice (t : task) (v : Z) : task :=
  Task (t_id t) (t_pid t) (t_parent_pid t) (t_state t) (t_priority t) v (t_kernel_mode t)
    (t_kernel_stack t) (t_kernel_stack_top t) (t_user_stack t) (t_user_stack_top t)
    (t_cpu_ticks t) (t_exit_code t) (t_waiting_for t) (t_context t) (t_next t).
Definition set_cpu_ticks (t : task) (v : Z) : task :=
  Task (t_id t) (t_pid t) (t_parent_pid t) (t_state t) (t_priority t) (t_time_slice t) (t_kernel_mode t)
    (t_kernel_stack t) (t_kernel_stack_top t) (t_user_stack t) (t_user_stack_top t)
    v (t_exit_code t) (t_waiting_for t) (t_context t) (t_next t).
Definition set_exit_code (t : task) (v : Z) : task :=
  Task (t_id t) (t_pid t) (t_parent_pid t) (t_state t) (t_priority t) (t_time_slice t) (t_kernel_mode t)
    (t_kernel_stack t) (t_kernel_stack_top t) (t_user_stack t) (t_user_stack_top t)
    (t_cpu_ticks t) v (t_waiting_for t) (t_context t) (t_next t).
Definition set_waiting_for (t : task) (v : Z) : task :=
  Task (t_id t) (t_pid t) (t_parent_pid t) (t_state t) (t_priority t) (t_time_slice t) (t_kernel_mode t)
    (t_kernel_stack t) (t_kernel_stack_top t) (t_user_stack t) (t_user_stack_top t)
    (t_cpu_ticks t) (t_exit_code t) v (t_context t) (t_next t).
Definition set_next (t : task) (v : Z) : task :=
  Task (t_id t) (t_pid t) (t_parent_pid t) (t_state t) (t_priority t) (t_time_slice t) (t_kernel_mode t)
    (t_kernel_stack t) (t_kernel_stack_top t) (t_user_stack t) (t_user_stack_top t)
    (t_cpu_ticks t) (t_exit_code t) (t_waiting_for t) (t_context t) v.

Inductive wait_result :=
| WReaped (pid exit_code : Z)   (* returns [pid]; [*status = exit_code] *)
| WNone                         (* returns -1 *)
| WBlocked.                     (* sleeps, then repeats the iteration *)

Section operations.
Context {St : Type} `{KAlloc St}.
(** The address of the function [user_task_entry]. *)
Variable user_task_entry : Z.

Record sched := Sched {
  task_queue : Z;
  current_task : Z;
  next_tid : Z;
  tick_count : Z;
  tasks : gmap Z task;
  esp0 : Z;
  switches : list (Z * Z);
  ks : St;
  kmem : mem
}.

Definition set_queue (s : sched) (q : Z) : sched :=
  Sched q (current_task s) (next_tid s) (tick_count s) (tasks s) (esp0 s) (switches s) (ks s) (kmem s).
Definition set_current (s : sched) (c : Z) : sched :=
  Sched (task_queue s) c (next_tid s) (tick_count s) (tasks s) (esp0 s) (switches s) (ks s) (kmem s).
Definition set_next_tid (s : sched) (n : Z) : sched :=
  Sched (task_queue s) (current_task s) n (tick_count s) (tasks s) (esp0 s) (switches s) (ks s) (kmem s).
Definition set_tick_count (s : sched) (n : Z) : sched :=
  Sched (task_queue s) (current_task s) (next_tid s) n (tasks s) (esp0 s) (switches s) (ks s) (kmem s).
Definition set_tasks (s : sched) (m : gmap Z task) : sched :=
  Sched (task_queue s) (current_task s) (next_tid s) (tick_count s) m (esp0 s) (switches s) (ks s) (kmem s).
Definition set_kmem (s : sched) (m : mem) : sched :=
  Sched (task_queue s) (current_task s) (next_tid s) (tick_count s) (tasks s) (esp0 s) (switches s) (ks s) m.
Definition tss_set_kernel_stack (s : sched) (v : Z) : sched :=
  Sched (task_queue s) (current_task s) (next_tid s) (tick_count s) (tasks s) v (switches s) (ks s) (kmem s).
Definition switch_context (s : sched) (old new : Z) : sched :=
  Sched (task_queue s) (current_task s) (next_tid s) (tick_count s) (tasks s) (esp0 s)
    ((old, new) :: switches s) (ks s) (kmem s).

Definition do_kmalloc (s : sched) (n : Z) : option (Z * sched) :=
  match ka_malloc (ks s) (kmem s) n with
  | None => None
  | Some (a, k, m) =>
      Some (a, Sched (task_queue s) (current_task s) (next_tid s) (tick_count s) (tasks s) (esp0 s)
                 (switches s) k m)
  end.
Definition do_kfree (s : sched) (a : Z) : option sched :=
  match ka_free (ks s) (kmem s) a with
  | None => None
  | Some (k, m) =>
      Some (Sched (task_queue s) (current_task s) (next_tid s) (tick_count s) (tasks s) (esp0 s)
              (switches s) k m)
  end.
(** [kfree] of a task structure: the record leaves the store. *)
Definition kfree_task (s : sched) (a : Z) : option sched :=
  s ← do_kfree s a; Some (set_tasks s (delete a (tasks s))).
(** [t->field = ...] *)
Definition put (s : sched) (a : Z) (t : task) : sched := set_tasks s (<[a := t]> (tasks s)).

Definition sched_init (s : sched) : sched :=
  Sched 0 0 1 0 (tasks s) (esp0 s) (switches s) (ks s) (kmem s).

Definition sched_get_task_list (s : sched) : Z := task_queue s.

(** A walk along the queue to the first task with [P]; 0 when there is none. *)
Fixpoint find_from (fuel : nat) (m : gmap Z task) (p : Z) (P : task -> bool) : option Z :=
  if p =? 0 then Some 0 else
  match fuel with
  | O => None
  | S f => t ← m !! p; if P t then Some p else find_from f m (t_next t) P
  end.
Definition find_task (s : sched) (P : task -> bool) : option Z :=
  find_from (size (tasks s)) (tasks s) (task_queue s) P.

Definition task_find (s : sched) (pid : Z) : option Z := find_task s (fun t => t_pid t =? pid).

(** The common start of the three creators: the fields that they set alike. *)
Definition new_task (s : sched) (priority : Z) (kernel_mode : bool) : option task :=
  parent ← (if current_task s =? 0 then Some 0 else t_pid <$> tasks s !! current_task s);
  Some (Task (next_tid s) (i32 (next_tid s)) parent TASK_READY priority 10 kernel_mode
          0 0 0 0 0 0 0 zero_context 0).

(** The five words that a new kernel stack starts with. *)
Definition push_frame (m : mem) (top eip : Z) : mem :=
  let m := store32 m (u32 (top - 4)) eip in
  let m := store32 m (u32 (top - 8)) 0 in
  let m := store32 m (u32 (top - 12)) 0 in
  let m := store32 m (u32 (top - 16)) 0 in
  store32 m (u32 (top - 20)) 0.

(** [t->next = task_queue; task_queue = t] *)
Definition enqueue (s : sched) (a : Z) (t : task) : sched :=
  set_queue (put s a (set_next t (task_queue s))) a.

Definition with_stacks (t : task) (kstack ustack ustack_top : Z) (c : task_context) : task :=
  Task (t_id t) (t_pid t) (t_parent_pid t) (t_state t) (t_priority t) (t_time_slice t) (t_kernel_mode t)
    kstack (u32 (kstack + KERNEL_STACK_SIZE)) ustack ustack_top
    (t_cpu_ticks t) (t_exit_code t) (t_waiting_for t) c (t_next t).

Definition entry_context (esp eip : Z) : task_context := Context 0 0 0 esp 0 0 0 0 eip 514 0.

(** The result is the address of the new task, or 0. *)
Definition task_create (s : sched) (entry priority : Z) (kernel_mode : bool) : option (Z * sched) :=
  '(a, s) ← do_kmalloc s TASK_SIZE;
  if a =? 0 then Some (0, s) else
  t ← new_task s priority kernel_mode;
  let s := set_next_tid (put s a t) (u32 (next_tid s + 1)) in
  '(kstack, s) ← do_kmalloc s KERNEL_STACK_SIZE;
  if kstack =? 0 then s ← kfree_task s a; Some (0, s) else
  let top := u32 (kstack + KERNEL_STACK_SIZE) in
  if kernel_mode then
    let s := set_kmem s (push_frame (kmem s) top entry) in
    Some (a, enqueue s a (with_stacks t kstack 0 0 (entry_context (u32 (top - 20)) entry)))
  else
    '(ustack, s) ← do_kmalloc s USER_STACK_SIZE;
    if ustack =? 0 then
      s ← do_kfree s kstack;
      s ← kfree_task s a;
      Some (0, s)
    else
      let s := set_kmem s (push_frame (kmem s) top user_task_entry) in
      Some (a, enqueue s a (with_stacks t kstack ustack (u32 (ustack + USER_STACK_SIZE))
                              (entry_context (u32 (top - 20)) entry))).

Definition task_create_user (s : sched) (entry_point priority : Z) : option (Z * sched) :=
  '(a, s) ← do_kmalloc s TASK_SIZE;
  if a =? 0 then Some (0, s) else
  t ← new_task s priority false;
  let s := set_next_tid (put s a t) (u32 (next_tid s + 1)) in
  '(kstack, s) ← do_kmalloc s KERNEL_STACK_SIZE;
  if kstack =? 0 then s ← kfree_task s a; Some (0, s) else
  '(ustack, s) ← do_kmalloc s USER_STACK_SIZE;
  if ustack =? 0 then
    s ← do_kfree s kstack;
    s ← kfree_task s a;
    Some (0, s)
  else
    let top := u32 (kstack + KERNEL_STACK_SIZE) in
    let s := set_kmem s (push_frame (kmem s) top user_task_entry) in
    Some (a, enqueue s a (with_stacks t kstack ustack (u32 (ustack + USER_STACK_SIZE))
                            (entry_context (u32 (top - 20)) entry_point))).

Fixpoint destroy_from (fuel : nat) (s : sched) (prev p id : Z) : option sched :=
  if p =? 0 then Some s else
  match fuel with
  | O => None
  | S f =>
      t ← tasks s !! p;
      if t_id t =? id then
        s ← (if negb (prev =? 0) then
               u ← tasks s !! prev; Some (put s prev (set_next u (t_next t)))
             else Some (set_queue s (t_next t)));
        s ← (if negb (t_kernel_stack t =? 0) then do_kfree s (t_kernel_stack t) else Some s);
        s ← (if negb (t_user_stack t =? 0) then do_kfree s (t_user_stack t) else Some s);
        kfree_task s p
      else destroy_from f s p (t_next t) id
  end.

Definition task_destroy (s : sched) (id : Z) : option sched :=
  destroy_from (size (tasks s)) s 0 (task_queue s) id.

Definition task_exit (s : sched) (id exit_code : Z) : option sched :=
  a ← find_task s (fun t => t_id t =? id);
  if a =? 0 then Some s else
  t ← tasks s !! a;
  let s := put s a (set_exit_code (set_state t TASK_ZOMBIE) exit_code) in
  parent ← task_find s (t_parent_pid t);
  if parent =? 0 then Some s else
  p ← tasks s !! parent;
  if (t_state p =? TASK_BLOCKED) &&
     ((t_waiting_for p =? t_pid t) || (t_waiting_for p =? -1))
  then Some (put s parent (set_state p TASK_READY)) else Some s.

(** The fields of a child that [task_fork] does not copy. *)
Definition fork_task (parent : task) (tid kstack ustack ustack_top : Z) : task :=
  let c := t_context parent in
  let esp := u32 (kstack + u32 (c_esp c - t_kernel_stack parent)) in
  Task tid (i32 tid) (t_pid parent) TASK_READY (t_priority parent) 10 (t_kernel_mode parent)
    kstack (u32 (kstack + KERNEL_STACK_SIZE)) ustack ustack_top 0 0 0
    (Context (c_edi c) (c_esi c) (c_ebp c) esp (c_ebx c) (c_edx c) (c_ecx c) 0 (c_eip c)
       (c_eflags c) (c_cr3 c))
    (t_next parent).

(** The pid of the child, or -1. *)
Definition task_fork (s : sched) : option (Z * sched) :=
  if current_task s =? 0 then Some (-1, s) else
  '(child, s) ← do_kmalloc s TASK_SIZE;
  if child =? 0 then Some (-1, s) else
  cur ← tasks s !! current_task s;
  let tid := next_tid s in
  let s := set_next_tid (put s child (fork_task cur tid 0 (t_user_stack cur) (t_user_stack_top cur)))
             (u32 (tid + 1)) in
  '(kstack, s) ← do_kmalloc s KERNEL_STACK_SIZE;
  if kstack =? 0 then s ← kfree_task s child; Some (-1, s) else
  let s := set_kmem s (memcpy (kmem s) kstack (t_kernel_stack cur) KERNEL_STACK_SIZE) in
  if negb (t_kernel_mode cur) && negb (t_user_stack cur =? 0) then
    '(ustack, s) ← do_kmalloc s USER_STACK_SIZE;
    if ustack =? 0 then
      s ← do_kfree s kstack;
      s ← kfree_task s child;
      Some (-1, s)
    else
      let s := set_kmem s (memcpy (kmem s) ustack (t_user_stack cur) USER_STACK_SIZE) in
      Some (i32 tid, enqueue s child (fork_task cur tid kstack ustack (u32 (ustack + USER_STACK_SIZE))))
  else
    Some (i32 tid, enqueue s child (fork_task cur tid kstack (t_user_stack cur) (t_user_stack_top cur))).

(** The loop of [pick_next_task]; [best] is a task address or 0. *)
Fixpoint pick_from (fuel : nat) (m : gmap Z task) (p best : Z) : option Z :=
  if p =? 0 then Some best else
  match fuel with
  | O => None
  | S f =>
      t ← m !! p;
      if t_state t =? TASK_READY then
        if best =? 0 then pick_from f m (t_next t) p
        else
          b ← m !! best;
          if t_priority b <? t_priority t then pick_from f m (t_next t) p
          else pick_from f m (t_next t) best
      else pick_from f m (t_next t) best
  end.

Definition pick_next_task (s : sched) : option Z :=
  pick_from (size (tasks s)) (tasks s) (task_queue s) 0.

Definition schedule (s : sched) : option sched :=
  if task_queue s =? 0 then Some s else
  next ← pick_next_task s;
  if next =? 0 then Some s else
  let old := current_task s in
  s ← (if old =? 0 then Some s else
       c ← tasks s !! old;
       Some (if t_state c =? TASK_RUNNING then put s old (set_state c TASK_READY) else s));
  n ← tasks s !! next;
  let n := set_time_slice (set_state n TASK_RUNNING) 10 in
  let s := put (set_current s next) next n in
  let s := if negb (t_kernel_stack n =? 0)
           then tss_set_kernel_stack s (u32 (t_kernel_stack n + KERNEL_STACK_SIZE)) else s in
  Some (if negb (old =? 0) && negb (old =? next) then switch_context s old next
        else if old =? 0 then switch_context s 0 next else s).

Definition sched_yield (s : sched) : option sched := schedule s.

Definition sched_tick (s : sched) : option sched :=
  let s := set_tick_count s (u32 (tick_count s + 1)) in
  if current_task s =? 0 then Some s else
  c ← tasks s !! current_task s;
  let c := set_cpu_ticks c (u32 (t_cpu_ticks c + 1)) in
  let c := if 0 <? t_time_slice c then set_time_slice c (t_time_slice c - 1) else c in
  let s := put s (current_task s) c in
  if t_time_slice c =? 0 then schedule s else Some s.

Definition sched_get_current (s : sched) : Z := current_task s.

Definition sched_block (s : sched) : option sched :=
  if current_task s =? 0 then Some s else
  c ← tasks s !! current_task s;
  schedule (put s (current_task s) (set_state c TASK_BLOCKED)).

Definition sched_unblock (s : sched) (id : Z) : option sched :=
  a ← find_task s (fun t => t_id t =? id);
  if a =? 0 then Some s else
  t ← tasks s !! a;
  Some (put s a (set_state t TASK_READY)).

Definition sched_get_total_ticks (s : sched) : Z := tick_count s.

Definition sched_get_idle_task (s : sched) : option Z :=
  find_task s (fun t => t_priority t =? 0).

(** One iteration of the loop of [task_wait]. *)
Definition task_wait (s : sched) (pid : Z) : option (wait_result * sched) :=
  if current_task s =? 0 then Some (WNone, s) else
  c ← tasks s !! current_task s;
  let mine (t : task) := (t_parent_pid t =? t_pid c) && ((pid =? -1) || (t_pid t =? pid)) in
  z ← find_task s (fun t => mine t && (t_state t =? TASK_ZOMBIE));
  if negb (z =? 0) then
    t ← tasks s !! z;
    s ← task_destroy s (t_id t);
    Some (WReaped (t_pid t) (t_exit_code t), s)
  else
    k ← find_task s mine;
    if k =? 0 then Some (WNone, s) else
    s ← schedule (put s (current_task s) (set_state (set_waiting_for c pid) TASK_BLOCKED));
    Some (WBlocked, s).

(** [user_task_entry]: the arguments of [enter_usermode], or a plain return. *)
Definition user_task_enter (s : sched) : option (option (Z * Z * Z * Z)) :=
  if current_task s =? 0 then Some None else
  t ← tasks s !! current_task s;
  Some (if t_kernel_mode t then None else Some (c_eip (t_context t), t_user_stack_top t, 27, 35)).
End operations.

Arguments sched : clear implicits.

(** ** The queue as a list *)

(** The chain of [next] pointers from [p] visits the tasks at [q] and ends in NULL. *)
Fixpoint qseg (m : gmap Z task) (p : Z) (q : list Z) : Prop :=
  match q with
  | [] => p = 0
  | a :: q' => p = a /\ a <> 0 /\ exists t, m !! a = Some t /\ qseg m (t_next t) q'
  end.

(** The blocks of a task: its structure, its kernel stack, and its user stack if any. *)
Definition blocks (a : Z) (t : task) : list (Z * Z) :=
  [(a, TASK_SIZE); (t_kernel_stack t, KERNEL_STACK_SIZE)]
  ++ (if t_user_stack t =? 0 then [] else [(t_user_stack t, USER_STACK_SIZE)]).

Definition blocks_at (m : gmap Z task) (a : Z) : list (Z * Z) :=
  match m !! a with Some t => blocks a t | None => [] end.

(** All blocks of the tasks of [q]. *)
Definition all_blocks (m : gmap Z task) (q : list Z) : list (Z * Z) := q ≫= blocks_at m.

(** A change that leaves identity, queue link and blocks of a task alone. *)
Definition same_shape (t t' : task) : Prop :=
  t_id t' = t_id t /\ t_pid t' = t_pid t /\ t_parent_pid t' = t_parent_pid t /\
  t_kernel_stack t' = t_kernel_stack t /\ t_user_stack t' = t_user_stack t /\
  t_next t' = t_next t /\ t_kernel_mode t' = t_kernel_mode t.

Lemma qseg_nil_inv m q : qseg m 0 q -> q = [].
Proof. destruct q as [|a q]; [done|]. intros (<- & Hn & _). done. Qed.

Lemma qseg_lookup m p q a : qseg m p q -> a ∈ q -> a <> 0 /\ exists t, m !! a = Some t.
Proof.
  revert p. induction q as [|b q IH]; intros p H Hin; [by apply not_elem_of_nil in Hin|].
  destruct H as (-> & Hb & t & Ht & H). apply elem_of_cons in Hin as [->|Hin]; [|by eapply IH].
  split; [done|by exists t].
Qed.

Lemma qseg_ext m m' p q :
  (forall a t, a ∈ q -> m !! a = Some t -> exists t', m' !! a = Some t' /\ t_next t' = t_next t) ->
  qseg m p q -> qseg m' p q.
Proof.
  revert p. induction q as [|a q IH]; intros p He; [done|].
  intros (-> & Ha & t & Ht & H). split; [done|]. split; [done|].
  destruct (He a t ltac:(left) Ht) as (t' & Ht' & Hn). exists t'. split; [done|].
  rewrite Hn. apply IH; [|done]. intros b u Hb. apply He. by right.
Qed.

(** A walk finds the first task of the queue with [P]. *)
Lemma find_from_spec m P fuel p q :
  qseg m p q -> (length q <= fuel)%nat ->
  (find_from fuel m p P = Some 0 /\ forall a t, a ∈ q -> m !! a = Some t -> P t = false) \/
  exists l a r t, q = l ++ a :: r /\ find_from fuel m p P = Some a /\ a <> 0 /\
    m !! a = Some t /\ P t = true /\
    forall b u, b ∈ l -> m !! b = Some u -> P u = false.
Proof.
  revert fuel p. induction q as [|a q IH]; intros fuel p H Hl.
  - simpl in H. subst p. left. split; [by destruct fuel|]. by intros a t ?%not_elem_of_nil.
  - destruct H as (-> & Ha & t & Ht & H). destruct fuel as [|f]; [simpl in Hl; lia|].
    cbn [find_from]. replace (a =? 0) with false by lia. rewrite Ht. cbn [mbind option_bind].
    destruct (P t) eqn:E.
    { right. exists [], a, q, t. repeat (split; [done|]). by intros b u ?%not_elem_of_nil. }
    destruct (IH f (t_next t) H ltac:(simpl in Hl; lia)) as [[Hf Hn]|(l & b & r & u & -> & Hf & Hb & Hu & Hp & Hn)].
    + left. split; [done|]. intros b u [->|Hb]%elem_of_cons Hu; [congruence|by eapply Hn].
    + right. exists (a :: l), b, r, u. repeat (split; [done|]).
      intros c w [->|Hc]%elem_of_cons Hw; [congruence|by eapply Hn].
Qed.

Lemma all_blocks_app m q1 q2 : all_blocks m (q1 ++ q2) = all_blocks m q1 ++ all_blocks m q2.
Proof. apply bind_app. Qed.

Lemma all_blocks_cons m a q : all_blocks m (a :: q) = blocks_at m a ++ all_blocks m q.
Proof. done. Qed.

Lemma all_blocks_ext m m' q :
  (forall a, a ∈ q -> blocks_at m' a = blocks_at m a) -> all_blocks m' q = all_blocks m q.
Proof.
  intros He. induction q as [|a q IH]; [done|]. rewrite !all_blocks_cons.
  rewrite He by left. rewrite IH; [done|]. intros b Hb. apply He. by right.
Qed.

Lemma all_blocks_in m q x : x ∈ all_blocks m q -> exists a t, a ∈ q /\ m !! a = Some t /\ x ∈ blocks a t.
Proof.
  intros (a & Hx & Ha)%list_elem_of_bind. unfold blocks_at in Hx.
  destruct (m !! a) as [t|] eqn:E; [|by apply not_elem_of_nil in Hx]. by exists a, t.
Qed.

Lemma same_shape_blocks a t t' : same_shape t t' -> blocks a t' = blocks a t.
Proof. intros (_ & _ & _ & Hk & Hu & _ & _). unfold blocks. by rewrite Hk, Hu. Qed.

Section proofs.
Context {St : Type} `{KAllocLaws St}.
Variable user_task_entry : Z.
Implicit Types (s : sched St) (L : gmap Z Z) (q : list Z).

(** ** The invariant

    [L] is the live blocks of the heap, [q] the queue. *)
Record score s L q : Prop := {
  si_queue : qseg (tasks s) (task_queue s) q;
  si_nodup : NoDup q;
  si_dom : forall a, is_Some (tasks s !! a) <-> a ∈ q;
  si_alloc : ka_inv (ks s) (kmem s) L;
  si_live : forall b n, (b, n) ∈ all_blocks (tasks s) q -> exists k, L !! b = Some k /\ n <= k;
  si_owner : NoDup (all_blocks (tasks s) q).*1;
  si_ids : forall a t, tasks s !! a = Some t ->
    0 < t_id t < next_tid s /\ t_pid t = t_id t /\ 0 <= t_parent_pid t < t_pid t;
  si_tid : 0 < next_tid s <= 2147483648;
  si_mode : forall a t, tasks s !! a = Some t -> t_kernel_mode t = true -> t_user_stack t = 0;
  si_unique : forall a b t u, tasks s !! a = Some t -> tasks s !! b = Some u -> t_id t = t_id u -> a = b
}.

Record sinv s L q : Prop := {
  si_core :> score s L q;
  si_current : current_task s = 0 \/ current_task s ∈ q;
  si_running : forall a t, tasks s !! a = Some t -> t_state t = TASK_RUNNING -> a = current_task s
}.

Lemma score_size s L q : score s L q -> (length q <= size (tasks s))%nat.
Proof.
  intros H1. pose proof (si_dom _ _ _ H1) as Hd.
  rewrite <- (size_dom (tasks s)), <- (size_list_to_set (C:=gset Z) q) by apply H1.
  apply subseteq_size. intros a Ha%elem_of_list_to_set. apply elem_of_dom. by apply Hd.
Qed.

Lemma score_lookup s L q a : score s L q -> a ∈ q -> a <> 0 /\ exists t, tasks s !! a = Some t.
Proof. intros H1 Ha. eapply qseg_lookup; [apply H1|done]. Qed.

Lemma score_in s L q a t : score s L q -> tasks s !! a = Some t -> a ∈ q.
Proof. intros H1 Ha. apply (si_dom _ _ _ H1). by exists t. Qed.

Lemma score_ne0 s L q a t : score s L q -> tasks s !! a = Some t -> a <> 0.
Proof. intros H1 Ha. by apply (score_lookup s L q a H1), (score_in s L q a t). Qed.

Lemma find_task_spec s L q P :
  score s L q ->
  (find_task s P = Some 0 /\ forall a t, tasks s !! a = Some t -> P t = false) \/
  exists l a r t, q = l ++ a :: r /\ find_task s P = Some a /\ a <> 0 /\
    tasks s !! a = Some t /\ P t = true /\
    forall b u, b ∈ l -> tasks s !! b = Some u -> P u = false.
Proof.
  intros H1. destruct (find_from_spec (tasks s) P (size (tasks s)) _ q (si_queue _ _ _ H1)
    (score_size _ _ _ H1)) as [[Hf Hn]|Hf]; [left|right; exact Hf].
  split; [exact Hf|]. intros a t Ha. eapply Hn; [by eapply score_in|done].
Qed.

(** Finding by id. *)
Lemma find_id s L q a t :
  score s L q -> tasks s !! a = Some t -> find_task s (fun u => t_id u =? t_id t) = Some a.
Proof.
  intros H1 Ha. destruct (find_task_spec s L q (fun u => t_id u =? t_id t) H1)
    as [[_ Hn]|(l & b & r & u & _ & Hf & _ & Hu & Hp & _)].
  - specialize (Hn a t Ha). simpl in Hn. lia.
  - rewrite Hf. f_equal. eapply (si_unique _ _ _ H1); [exact Hu|exact Ha|]. simpl in Hp. lia.
Qed.

(** The core does not see the current task, the ticks, the TSS or the switches. *)
Lemma score_ext s s' L q :
  score s L q -> tasks s' = tasks s -> task_queue s' = task_queue s -> next_tid s' = next_tid s ->
  ks s' = ks s -> kmem s' = kmem s -> score s' L q.
Proof. intros [] E1 E2 E3 E4 E5. split; rewrite ?E1, ?E2, ?E3, ?E4, ?E5; assumption. Qed.

(** Rewriting fields that are not part of the shape of a task. *)
Lemma score_put s L q a t t' :
  score s L q -> tasks s !! a = Some t -> same_shape t t' -> score (put s a t') L q.
Proof.
  intros H1 Ha Hs. pose proof (score_in _ _ _ _ _ H1 Ha) as Hin.
  assert (Hb : all_blocks (<[a:=t']> (tasks s)) q = all_blocks (tasks s) q).
  { apply all_blocks_ext. intros b _. unfold blocks_at. destruct (decide (a = b)) as [<-|Hne].
    - rewrite lookup_insert_eq, Ha. by apply same_shape_blocks.
    - by rewrite lookup_insert_ne. }
  destruct Hs as (S1 & S2 & S3 & S4 & S5 & S6 & S7).
  assert (Hl : forall b u, <[a:=t']> (tasks s) !! b = Some u ->
    exists u0, tasks s !! b = Some u0 /\ t_id u = t_id u0 /\ t_pid u = t_pid u0 /\
      t_parent_pid u = t_parent_pid u0 /\ t_kernel_mode u = t_kernel_mode u0 /\
      t_user_stack u = t_user_stack u0).
  { intros b u. destruct (decide (a = b)) as [<-|Hne].
    - rewrite lookup_insert_eq. intros [= <-]. by exists t.
    - rewrite lookup_insert_ne by done. intros Hu. by exists u. }
  split; cbn [tasks put set_tasks task_queue ks kmem next_tid current_task].
  - eapply qseg_ext; [|apply H1]. intros b u _ Hu. destruct (decide (a = b)) as [<-|Hne].
    + exists t'. rewrite lookup_insert_eq. split; [done|]. congruence.
    + exists u. by rewrite lookup_insert_ne.
  - apply H1.
  - intros b. rewrite <- (si_dom _ _ _ H1). destruct (decide (a = b)) as [<-|Hne].
    + rewrite lookup_insert_eq, Ha. split; eauto.
    + by rewrite lookup_insert_ne.
  - apply H1.
  - rewrite Hb. apply H1.
  - rewrite Hb. apply H1.
  - intros b u (u0 & Hu & -> & -> & -> & _)%Hl. by apply (si_ids _ _ _ H1 b).
  - apply H1.
  - intros b u (u0 & Hu & _ & _ & _ & -> & ->)%Hl. by apply (si_mode _ _ _ H1 b).
  - intros b c u w (u0 & Hu & -> & _)%Hl (w0 & Hw & -> & _)%Hl. by apply (si_unique _ _ _ H1).
Qed.

(** The same, for the whole invariant. *)
Lemma sinv_put s L q a t t' :
  sinv s L q -> tasks s !! a = Some t -> same_shape t t' ->
  (t_state t' = TASK_RUNNING -> a = current_task s) -> sinv (put s a t') L q.
Proof.
  intros H1 Ha Hs Hr. split; [by apply (score_put _ _ _ _ t); [apply H1|..]|apply H1|].
  cbn [tasks put set_tasks current_task]. intros b u.
  destruct (decide (a = b)) as [<-|Hne].
  - rewrite lookup_insert_eq. by intros [= <-].
  - rewrite lookup_insert_ne by done. by apply (si_running _ _ _ H1).
Qed.

(** ** [pick_next_task] *)

(** [r] is the first task of the highest priority among the READY tasks of [q],
    or 0 when none is READY. *)
Definition is_pick (m : gmap Z task) (q : list Z) (r : Z) : Prop :=
  (r = 0 /\ forall b u, b ∈ q -> m !! b = Some u -> t_state u <> TASK_READY) \/
  exists l1 l2 t, q = l1 ++ r :: l2 /\ r <> 0 /\ m !! r = Some t /\ t_state t = TASK_READY /\
    (forall b u, b ∈ l1 -> m !! b = Some u -> t_state u = TASK_READY -> t_priority u < t_priority t) /\
    (forall b u, b ∈ l2 -> m !! b = Some u -> t_state u = TASK_READY -> t_priority u <= t_priority t).

Lemma pick_skip m q r a t :
  is_pick m q r -> m !! a = Some t ->
  (t_state t <> TASK_READY \/
   exists b, m !! r = Some b /\ r <> 0 /\ t_priority t <= t_priority b) ->
  is_pick m (q ++ [a]) r.
Proof.
  intros [(-> & Hn)|(l1 & l2 & u & -> & Hr & Hu & Hst & H1 & H2)] Ha Hc.
  - left. split; [done|]. intros b w [Hb|Hb]%elem_of_app Hw; [by eapply Hn|].
    apply list_elem_of_singleton in Hb as ->. destruct Hc as [?|(_ & _ & ? & _)]; congruence.
  - right. exists l1, (l2 ++ [a]), u. split; [by rewrite <- (assoc_L (++))|]. repeat (split; [done|]).
    intros b w [Hb|Hb]%elem_of_app Hw; [by eapply H2|].
    apply list_elem_of_singleton in Hb as ->. intros Hws. simplify_eq.
    destruct Hc as [?|(b & Hb & _ & Hle)]; congruence.
Qed.

Lemma pick_take m q r a t :
  is_pick m q r -> m !! a = Some t -> a <> 0 -> t_state t = TASK_READY ->
  (r = 0 \/ exists b, m !! r = Some b /\ r <> 0 /\ t_priority b < t_priority t) ->
  is_pick m (q ++ [a]) a.
Proof.
  intros Hp Ha Ha0 Hst Hc. right. exists q, [], t. split; [done|]. repeat (split; [done|]).
  split; [|by intros b u ?%not_elem_of_nil]. intros b u Hb Hu Hus.
  destruct Hp as [(-> & Hn)|(l1 & l2 & v & -> & Hr & Hv & Hvs & H1 & H2)]; [by destruct (Hn b u Hb Hu)|].
  destruct Hc as [?|(w & Hw & _ & Hlt)]; [done|]. simplify_eq.
  apply elem_of_app in Hb as [Hb|[->|Hb]%elem_of_cons].
  - specialize (H1 b u Hb Hu Hus). lia.
  - by simplify_eq.
  - specialize (H2 b u Hb Hu Hus). lia.
Qed.

Lemma pick_from_spec m fuel p q1 q2 best :
  qseg m p q2 -> (length q2 <= fuel)%nat -> is_pick m q1 best ->
  exists r, pick_from fuel m p best = Some r /\ is_pick m (q1 ++ q2) r.
Proof.
  revert fuel p q1 best. induction q2 as [|a q2 IH]; intros fuel p q1 best Hq Hl Hp.
  - simpl in Hq. subst p. exists best. rewrite app_nil_r. split; [by destruct fuel|done].
  - destruct Hq as (-> & Ha & t & Ht & Hq). destruct fuel as [|f]; [simpl in Hl; lia|].
    cbn [pick_from]. replace (a =? 0) with false by lia. rewrite Ht. cbn [mbind option_bind].
    rewrite (cons_middle a q1 q2), (assoc_L (++)).
    assert (Hl' : (length q2 <= f)%nat) by (simpl in Hl; lia).
    destruct (Z.eqb_spec (t_state t) TASK_READY) as [Hst|Hst].
    2: { apply IH; [done|done|]. eapply pick_skip; [done|done|by left]. }
    destruct (Z.eqb_spec best 0) as [->|Hb].
    { apply IH; [done|done|]. eapply pick_take; [done|done|done|done|by left]. }
    pose proof Hp as [(? & _)|(l1 & l2 & b & _ & _ & Hbt & _)]; [done|].
    rewrite Hbt. cbn [mbind option_bind].
    destruct (Z.ltb_spec (t_priority b) (t_priority t)); (apply IH; [done|done|]).
    + eapply pick_take; [done|done|done|done|right]. by exists b.
    + eapply pick_skip; [done|done|right]. by exists b.
Qed.

Lemma pick_next_spec s L q :
  score s L q -> exists r, pick_next_task s = Some r /\ is_pick (tasks s) q r.
Proof.
  intros H1. apply (pick_from_spec (tasks s) _ _ [] q); [apply H1|by eapply score_size|].
  left. split; [done|]. by intros b u ?%not_elem_of_nil.
Qed.

(** ** [schedule] *)

(** The task store in which the current task, if RUNNING, is READY again. *)
Definition demote s : gmap Z task :=
  match tasks s !! current_task s with
  | Some c => if t_state c =? TASK_RUNNING
              then <[current_task s := set_state c TASK_READY]> (tasks s) else tasks s
  | None => tasks s
  end.

Lemma demote_code s L q :
  sinv s L q ->
  (if current_task s =? 0 then Some s
   else tasks s !! current_task s ≫= λ c, Some (if t_state c =? TASK_RUNNING
     then put s (current_task s) (set_state c TASK_READY) else s)) = Some (set_tasks s (demote s)).
Proof.
  intros H1. unfold demote. destruct (Z.eqb_spec (current_task s) 0) as [Hc|Hc].
  - rewrite Hc. destruct (tasks s !! 0) as [c|] eqn:E; [|by destruct s].
    by destruct (score_ne0 _ _ _ _ _ (si_core _ _ _ H1) E).
  - destruct (si_current _ _ _ H1) as [?|Hcq]; [done|].
    destruct (score_lookup _ _ _ _ (si_core _ _ _ H1) Hcq) as (_ & c & Hc'). rewrite Hc'. cbn [mbind option_bind].
    destruct (t_state c =? TASK_RUNNING); [done|by destruct s].
Qed.

Lemma demote_score s L q : sinv s L q -> score (set_tasks s (demote s)) L q.
Proof.
  intros H1. unfold demote. destruct (tasks s !! current_task s) as [c|] eqn:E.
  - destruct (t_state c =? TASK_RUNNING).
    + by apply (score_put s L q _ c); [apply H1|..].
    + destruct s. apply H1.
  - destruct s. apply H1.
Qed.

(** Nothing runs in the demoted store. *)
Lemma demote_not_running s L q a t :
  sinv s L q -> demote s !! a = Some t -> t_state t <> TASK_RUNNING.
Proof.
  intros H1 Ha Hr. unfold demote in Ha.
  assert (Hcur : tasks s !! a = Some t -> a = current_task s)
    by (intros Hx; by apply (si_running _ _ _ H1 a t)).
  destruct (tasks s !! current_task s) as [c|] eqn:E.
  - destruct (Z.eqb_spec (t_state c) TASK_RUNNING) as [Hs|Hs].
    + destruct (decide (current_task s = a)) as [<-|Hne].
      * rewrite lookup_insert_eq in Ha. by injection Ha as <-.
      * rewrite lookup_insert_ne in Ha by done. by destruct Hne; rewrite Hcur.
    + rewrite (Hcur Ha), E in Ha. congruence.
  - rewrite (Hcur Ha), E in Ha. congruence.
Qed.

Lemma demote_ready s n t :
  tasks s !! n = Some t -> t_state t = TASK_READY -> demote s !! n = Some t.
Proof.
  intros Hn Hs. unfold demote. destruct (tasks s !! current_task s) as [c|] eqn:E; [|done].
  destruct (Z.eqb_spec (t_state c) TASK_RUNNING) as [Hc|]; [|done].
  rewrite lookup_insert_ne; [done|]. intros Heq. rewrite Heq, Hn in E. simplify_eq.
  rewrite Hs in Hc. discriminate.
Qed.

Definition resumed (t : task) : task := set_time_slice (set_state t TASK_RUNNING) 10.

(** [s'] is [s] after a switch to [n]. *)
Definition switched_to s (n : Z) (t : task) s' : Prop :=
  current_task s' = n /\ tasks s' = <[n := resumed t]> (demote s) /\
  esp0 s' = (if t_kernel_stack t =? 0 then esp0 s else u32 (t_kernel_stack t + KERNEL_STACK_SIZE)) /\
  switches s' = (if current_task s =? n then switches s else (current_task s, n) :: switches s) /\
  task_queue s' = task_queue s /\ tick_count s' = tick_count s /\ next_tid s' = next_tid s /\
  ks s' = ks s /\ kmem s' = kmem s.

Lemma schedule_cases s L q :
  sinv s L q ->
  (schedule s = Some s /\ forall a t, tasks s !! a = Some t -> t_state t <> TASK_READY) \/
  exists n t s', is_pick (tasks s) q n /\ n <> 0 /\ tasks s !! n = Some t /\ t_state t = TASK_READY /\
    schedule s = Some s' /\ sinv s' L q /\ switched_to s n t s'.
Proof.
  intros H1. unfold schedule. destruct (Z.eqb_spec (task_queue s) 0) as [Hz|Hz].
  { left. split; [done|]. pose proof (si_queue _ _ _ H1) as Hq. rewrite Hz in Hq.
    apply qseg_nil_inv in Hq as ->. intros a t Ha%(score_in _ _ _ _ _ (si_core _ _ _ H1)).
    by apply not_elem_of_nil in Ha. }
  destruct (pick_next_spec s L q (si_core _ _ _ H1)) as (n & -> & Hp). cbn [mbind option_bind].
  pose proof Hp as [(-> & Hn)|(l1 & l2 & t & Hq & Hn0 & Ht & Hst & _)].
  { left. split; [done|]. intros a t Ha. eapply Hn; [|done].
    by eapply score_in; [apply H1|]. }
  right. replace (n =? 0) with false by lia.
  rewrite (demote_code s L q H1). cbn [mbind option_bind tasks set_tasks].
  pose proof (demote_ready s n t Ht Hst) as Hd. rewrite Hd. cbn [mbind option_bind].
  fold (resumed t). change (t_kernel_stack (resumed t)) with (t_kernel_stack t).
  exists n, t. eexists. split; [exact Hp|]. split; [done|]. split; [done|]. split; [done|].
  split; [reflexivity|].
  assert (Hs : sinv (put (set_current (set_tasks s (demote s)) n) n (resumed t)) L q).
  { split.
    - apply (score_ext (put (set_tasks s (demote s)) n (resumed t))); try done.
      apply (score_put _ L q n t); [by apply demote_score|exact Hd|done].
    - right. rewrite Hq. apply elem_of_app. right. left.
    - cbn. intros a u. destruct (decide (n = a)) as [<-|Hne]; [done|].
      rewrite lookup_insert_ne by done. intros Ha Hr. by destruct (demote_not_running s L q a u H1 Ha). }
  set (s2 := put (set_current (set_tasks s (demote s)) n) n (resumed t)) in *.
  assert (Hall : forall e w, sinv (Sched (task_queue s2) (current_task s2) (next_tid s2) (tick_count s2)
      (tasks s2) e w (ks s2) (kmem s2)) L q).
  { intros e w. split; [|apply Hs|apply Hs]. by eapply score_ext; [apply Hs|..]. }
  split.
  - destruct (t_kernel_stack t =? 0), (current_task s =? 0), (current_task s =? n); apply Hall.
  - unfold switched_to. pose proof Hn0 as Hnz.
    destruct (t_kernel_stack t =? 0); destruct (Z.eqb_spec (current_task s) 0) as [Hc0|Hc0];
      destruct (Z.eqb_spec (current_task s) n) as [Hcn|Hcn]; cbn [negb andb]; cbn; try congruence;
      rewrite ?Hc0; done.
Qed.

(** ** Heap steps

    [mk s k m n T h] is [s] with another heap, memory, next id, store and queue head:
    every state inside the creators and [task_destroy] is one of these. *)
Definition mk s (k : St) (m : mem) (n : Z) (T : gmap Z task) (h : Z) : sched St :=
  Sched h (current_task s) n (tick_count s) T (esp0 s) (switches s) k m.

Lemma mk_id s : s = mk s (ks s) (kmem s) (next_tid s) (tasks s) (task_queue s).
Proof. by destruct s. Qed.

Lemma mk_malloc s k m n T h L sz :
  ka_inv k m L -> 0 < sz <= 4294967292 ->
  exists a k' m', do_kmalloc (mk s k m n T h) sz = Some (a, mk s k' m' n T h) /\
    preserves L m m' /\
    (a = 0 /\ ka_inv k' m' L \/
     a <> 0 /\ L !! a = None /\ exists z, sz <= z /\ a + z < 4294967296 /\ 0 < a /\
       ka_inv k' m' (<[a := z]> L)).
Proof.
  intros Hi Hs. unfold do_kmalloc. cbn [ks kmem mk].
  destruct (ka_malloc_ok k m L sz Hi Hs) as (a & k' & m' & -> & _ & _ & Hp & _ & Hc).
  exists a, k', m'. split; [done|]. split; [done|].
  destruct Hc as [Hc|(z & Hz & Hn & Hi')]; [by left|right].
  destruct (ka_range k' m' (<[a:=z]> L) a z Hi') as (R1 & _ & _ & _ & R2); [by rewrite lookup_insert_eq|].
  split; [lia|]. split; [done|]. exists z. done.
Qed.

Lemma mk_free s k m n T h L a z :
  ka_inv k m L -> L !! a = Some z ->
  exists k' m', do_kfree (mk s k m n T h) a = Some (mk s k' m' n T h) /\
    preserves L m m' /\ ka_inv k' m' (delete a L).
Proof.
  intros Hi Ha. unfold do_kfree. cbn [ks kmem mk].
  destruct (ka_free_ok k m L a z Hi Ha) as (k' & m' & -> & _ & _ & Hp & _ & Hi').
  by exists k', m'.
Qed.

(** Giving a task structure back. *)
Lemma mk_free_task s k m n T h L a z :
  ka_inv k m L -> L !! a = Some z ->
  exists k' m', kfree_task (mk s k m n T h) a = Some (mk s k' m' n (delete a T) h) /\
    preserves L m m' /\ ka_inv k' m' (delete a L).
Proof.
  intros Hi Ha. unfold kfree_task.
  destruct (mk_free s k m n T h L a z Hi Ha) as (k' & m' & -> & Hp & Hi').
  exists k', m'. done.
Qed.

(** Another heap that still holds the blocks of the tasks, and a later next id. *)
Lemma score_mk s k m n L L' q :
  score s L q -> ka_inv k m L' -> next_tid s <= n <= 2147483648 ->
  (forall b z, L !! b = Some z -> L' !! b = Some z) ->
  score (mk s k m n (tasks s) (task_queue s)) L' q.
Proof.
  intros [] Hk Hn HL. split; cbn; try done.
  - intros b z Hb. destruct (si_live0 b z Hb) as (j & Hj & Hle). exists j. split; [by apply HL|done].
  - intros a t Ha. specialize (si_ids0 a t Ha). lia.
  - lia.
Qed.

Lemma sinv_mk s k m n L L' q :
  sinv s L q -> ka_inv k m L' -> next_tid s <= n <= 2147483648 ->
  (forall b z, L !! b = Some z -> L' !! b = Some z) ->
  sinv (mk s k m n (tasks s) (task_queue s)) L' q.
Proof.
  intros [] Hk Hn HL. split; [by eapply score_mk|done|done].
Qed.

(** A new task in front of the queue. *)
Lemma score_add s L q a t :
  score s L q -> next_tid s < 2147483648 -> tasks s !! a = None -> a <> 0 ->
  t_id t = next_tid s -> t_pid t = t_id t -> 0 <= t_parent_pid t < t_pid t ->
  NoDup (blocks a t).*1 -> (t_kernel_mode t = true -> t_user_stack t = 0) ->
  (forall b n, (b, n) ∈ blocks a t ->
     (exists k, L !! b = Some k /\ n <= k) /\ b ∉ (all_blocks (tasks s) q).*1) ->
  score (mk s (ks s) (kmem s) (next_tid s + 1) (<[a := set_next t (task_queue s)]> (tasks s)) a) L (a :: q).
Proof.
  intros H1 Hn Ha Ha0 Hid Hpid Hpar Hnd Hmode Hb.
  assert (Haq : a ∉ q).
  { intros Hin. destruct (score_lookup _ _ _ _ H1 Hin) as (_ & u & Hu). congruence. }
  assert (Hold : all_blocks (<[a:=set_next t (task_queue s)]> (tasks s)) q = all_blocks (tasks s) q).
  { apply all_blocks_ext. intros b Hbq. unfold blocks_at. rewrite lookup_insert_ne; [done|]. by intros ->. }
  assert (Hab : all_blocks (<[a:=set_next t (task_queue s)]> (tasks s)) (a :: q) = blocks a t ++ all_blocks (tasks s) q).
  { rewrite all_blocks_cons, Hold. f_equal. unfold blocks_at. by rewrite lookup_insert_eq. }
  assert (Hl : forall b u, <[a:=set_next t (task_queue s)]> (tasks s) !! b = Some u ->
    (b = a /\ u = set_next t (task_queue s)) \/ (b <> a /\ tasks s !! b = Some u)).
  { intros b u. destruct (decide (a = b)) as [<-|Hne].
    - rewrite lookup_insert_eq. intros [= <-]. by left.
    - rewrite lookup_insert_ne by done. by right. }
  split; cbn [mk tasks task_queue ks kmem next_tid].
  - split; [done|]. split; [done|]. eexists. rewrite lookup_insert_eq. split; [done|].
    eapply qseg_ext; [|apply H1]. intros b u Hbq Hu. exists u. split; [|done].
    rewrite lookup_insert_ne; [done|]. by intros ->.
  - apply NoDup_cons. split; [done|apply H1].
  - intros b. rewrite elem_of_cons, <- (si_dom _ _ _ H1). destruct (decide (a = b)) as [<-|Hne].
    + rewrite lookup_insert_eq. split; [by left|eauto].
    + rewrite lookup_insert_ne by done. split; [by right|]. by intros [?|?].
  - apply H1.
  - intros b n. rewrite Hab, elem_of_app. intros [Hin|Hin]; [by apply Hb|by apply (si_live _ _ _ H1)].
  - rewrite Hab, fmap_app. apply NoDup_app. split; [done|]. split; [|apply H1].
    intros b ([b' n] & -> & Hin)%list_elem_of_fmap. by apply (Hb b' n).
  - intros b u [[-> ->]|[_ Hu]]%Hl; [cbn; pose proof (si_tid _ _ _ H1); lia|].
    pose proof (si_ids _ _ _ H1 b u Hu). lia.
  - pose proof (si_tid _ _ _ H1). lia.
  - intros b u [[-> ->]|[_ Hu]]%Hl; [done|by apply (si_mode _ _ _ H1 b)].
  - intros b c u w [[-> ->]|[_ Hu]]%Hl [[-> ->]|[_ Hw]]%Hl; cbn.
    + done.
    + pose proof (si_ids _ _ _ H1 c w Hw). lia.
    + pose proof (si_ids _ _ _ H1 b u Hu). lia.
    + by apply (si_unique _ _ _ H1).
Qed.

(** Addresses the heap does not know belong to no task. *)
Lemma fresh_block s L q b : score s L q -> L !! b = None -> b ∉ (all_blocks (tasks s) q).*1.
Proof.
  intros H1 Hb ([b' n] & -> & Hin)%list_elem_of_fmap.
  destruct (si_live _ _ _ H1 _ _ Hin) as (k & Hk & _). simpl in Hb. congruence.
Qed.

Lemma fresh_task s L q a : score s L q -> L !! a = None -> tasks s !! a = None.
Proof.
  intros H1 Ha. destruct (tasks s !! a) as [t|] eqn:E; [|done].
  destruct (si_live _ _ _ H1 a TASK_SIZE) as (k & Hk & _); [|congruence].
  apply list_elem_of_bind. exists a. split; [|by eapply score_in].
  unfold blocks_at. rewrite E. left.
Qed.

Lemma push_frame_frame m kstack eip :
  0 < kstack -> kstack + KERNEL_STACK_SIZE < 4294967296 ->
  frame kstack KERNEL_STACK_SIZE m (push_frame m (u32 (kstack + KERNEL_STACK_SIZE)) eip).
Proof.
  intros Hk Hb. unfold push_frame, KERNEL_STACK_SIZE in *.
  rewrite (u32_small (kstack + 16384)), !(u32_small (kstack + 16384 - _)) by lia.
  repeat (eapply frame_trans; [|apply frame_store32; lia]). apply frame_refl.
Qed.

Lemma new_task_spec s L q priority mode :
  sinv s L q -> next_tid s < 2147483648 ->
  exists t, new_task s priority mode = Some t /\
    t_id t = next_tid s /\ t_pid t = next_tid s /\ 0 <= t_parent_pid t < next_tid s /\
    t_state t = TASK_READY /\ t_priority t = priority /\ t_time_slice t = 10 /\
    t_kernel_mode t = mode.
Proof.
  intros H1 Hn. pose proof (si_tid _ _ _ H1). unfold new_task.
  assert (Hp : exists p, (if current_task s =? 0 then Some 0 else t_pid <$> tasks s !! current_task s) = Some p
    /\ 0 <= p < next_tid s).
  { destruct (Z.eqb_spec (current_task s) 0) as [|Hc]; [exists 0; split; [done|lia]|].
    destruct (si_current _ _ _ H1) as [?|Hin]; [done|].
    destruct (score_lookup _ _ _ _ (si_core _ _ _ H1) Hin) as (_ & c & Hc'). rewrite Hc'.
    exists (t_pid c). split; [done|]. pose proof (si_ids _ _ _ H1 _ _ Hc'). lia. }
  destruct Hp as (p & -> & Hp). cbn [mbind option_bind].
  eexists. split; [done|]. cbn. rewrite i32_small by lia. done.
Qed.

(** ** Creating tasks *)

(** Nothing was created and every block that was taken is back. *)
Definition not_created s L q s' : Prop :=
  sinv s' L q /\ tasks s' = tasks s /\ task_queue s' = task_queue s /\
  current_task s' = current_task s /\ preserves L (kmem s) (kmem s').

(** [t], at [a], is the new head of the queue; the other tasks and the contents of
    their stacks are as before. *)
Definition created s L q s' (a : Z) (t : task) : Prop :=
  tasks s !! a = None /\ tasks s' = <[a := t]> (tasks s) /\ task_queue s' = a /\
  current_task s' = current_task s /\ next_tid s' = next_tid s + 1 /\
  preserves L (kmem s) (kmem s') /\
  exists L', sinv s' L' (a :: q) /\ L ⊆ L'.

Lemma sinv_add s L q a t :
  sinv s L q -> next_tid s < 2147483648 -> tasks s !! a = None -> a <> 0 ->
  t_id t = next_tid s -> t_pid t = t_id t -> 0 <= t_parent_pid t < t_pid t ->
  t_state t = TASK_READY -> NoDup (blocks a t).*1 -> (t_kernel_mode t = true -> t_user_stack t = 0) ->
  (forall b n, (b, n) ∈ blocks a t ->
     (exists k, L !! b = Some k /\ n <= k) /\ b ∉ (all_blocks (tasks s) q).*1) ->
  sinv (mk s (ks s) (kmem s) (next_tid s + 1) (<[a := set_next t (task_queue s)]> (tasks s)) a) L (a :: q).
Proof.
  intros H1 Hn Ha Ha0 Hid Hpid Hpar Hst Hnd Hmode Hb. split.
  - by apply score_add; [apply H1|..].
  - cbn. destruct (si_current _ _ _ H1); [by left|right; by right].
  - cbn. intros b u. destruct (decide (a = b)) as [<-|Hne].
    + rewrite lookup_insert_eq. intros [= <-]. cbn. rewrite Hst. discriminate.
    + rewrite lookup_insert_ne by done. apply (si_running _ _ _ H1).
Qed.

(** Two fresh addresses: the lookups after inserting them. *)
Lemma insert_fresh_sub L a z : L !! a = None -> L ⊆ <[a := z]> L.
Proof. apply insert_subseteq. Qed.

Lemma preserves_sub L L' m m' : L ⊆ L' -> preserves L' m m' -> preserves L m m'.
Proof. intros Hs Hp a k Ha. apply Hp. by eapply lookup_weaken. Qed.

Lemma preserves_outside L m m' a k lo len :
  frame lo len m m' -> (forall b j, L !! b = Some j -> b + j <= lo \/ lo + len <= b) ->
  L !! a = Some k -> same_range a k m m'.
Proof. intros Hf Hd Ha. eapply frame_same; [exact Hf|]. by apply Hd. Qed.

(** Writing inside a block that is not in [L]. *)
Lemma preserves_write k m L L' a z lo len m' :
  ka_inv k m L' -> L ⊆ L' -> L' !! a = Some z -> L !! a = None ->
  a <= lo -> lo + len <= a + z -> frame lo len m m' -> preserves L m m'.
Proof.
  intros Hi Hs Ha Hn Hlo Hhi Hf b j Hb. eapply frame_same; [exact Hf|].
  assert (b <> a) by congruence.
  destruct (ka_disjoint k m L' b j a z Hi) as [?|?]; [by eapply lookup_weaken|done|done|lia|lia].
Qed.

Lemma rollback s L q k m n :
  sinv s L q -> ka_inv k m L -> next_tid s <= n <= 2147483648 -> preserves L (kmem s) m ->
  not_created s L q (mk s k m n (tasks s) (task_queue s)).
Proof. intros H1 Hi Hn Hp. split; [by eapply sinv_mk|]. done. Qed.

Lemma finish s L L' q k m a t :
  sinv s L q -> next_tid s < 2147483648 -> ka_inv k m L' -> L ⊆ L' -> a <> 0 -> preserves L (kmem s) m ->
  t_id t = next_tid s -> t_pid t = next_tid s -> 0 <= t_parent_pid t < next_tid s ->
  t_state t = TASK_READY -> NoDup (blocks a t).*1 -> (t_kernel_mode t = true -> t_user_stack t = 0) ->
  (forall b n, (b, n) ∈ blocks a t -> L !! b = None /\ exists j, L' !! b = Some j /\ n <= j) ->
  created s L q (mk s k m (next_tid s + 1) (<[a := set_next t (task_queue s)]> (tasks s)) a) a
    (set_next t (task_queue s)).
Proof.
  intros H1 Hn Hi Hsub Ha0 Hp Hid Hpid Hpar Hst Hnd Hmode Hb.
  assert (Ha : tasks s !! a = None).
  { apply (fresh_task s L q); [apply H1|]. apply (Hb a TASK_SIZE). left. }
  split; [exact Ha|]. split; [done|]. split; [done|]. split; [done|]. split; [done|]. split; [done|].
  exists L'. split; [|exact Hsub].
  pose proof (si_tid _ _ _ H1) as Htid.
  assert (H2 : sinv (mk s k m (next_tid s) (tasks s) (task_queue s)) L' q).
  { eapply sinv_mk; [exact H1|exact Hi|lia|]. intros b z Hbz. by eapply lookup_weaken. }
  apply (sinv_add _ L' q a t H2); try done; [congruence|cbn; lia|].
  intros b n Hin. destruct (Hb b n Hin) as [HbL Hj]. split; [exact Hj|].
  apply (fresh_block s L q); [apply H1|exact HbL].
Qed.

(** A task with both stacks, in blocks that are new to the heap. *)
Lemma blocks_two a t kst :
  t_kernel_stack t = kst -> t_user_stack t = 0 -> blocks a t = [(a, TASK_SIZE); (kst, KERNEL_STACK_SIZE)].
Proof. intros Hk Hu. unfold blocks. by rewrite Hk, Hu. Qed.

Lemma blocks_three a t kst ust :
  t_kernel_stack t = kst -> t_user_stack t = ust -> ust <> 0 ->
  blocks a t = [(a, TASK_SIZE); (kst, KERNEL_STACK_SIZE); (ust, USER_STACK_SIZE)].
Proof. intros Hk Hu Hn. unfold blocks. rewrite Hk, Hu. by replace (ust =? 0) with false by lia. Qed.

Lemma finish_two s L q k m a t kst z1 z2 :
  sinv s L q -> next_tid s < 2147483648 -> a <> 0 -> preserves L (kmem s) m ->
  ka_inv k m (<[kst := z2]> (<[a := z1]> L)) -> L !! a = None -> <[a := z1]> L !! kst = None ->
  TASK_SIZE <= z1 -> KERNEL_STACK_SIZE <= z2 ->
  t_id t = next_tid s -> t_pid t = next_tid s -> 0 <= t_parent_pid t < next_tid s ->
  t_state t = TASK_READY -> t_kernel_stack t = kst -> t_user_stack t = 0 ->
  created s L q (mk s k m (next_tid s + 1) (<[a := set_next t (task_queue s)]> (tasks s)) a) a
    (set_next t (task_queue s)).
Proof.
  intros H1 Hn Ha0 Hp Hi Ha Hk Hz1 Hz2 Hid Hpid Hpar Hst Hks Hus.
  apply lookup_insert_None in Hk as [Hk Hne].
  eapply finish; try done.
  - transitivity (<[a := z1]> L); [by apply insert_subseteq|]. apply insert_subseteq.
    by rewrite lookup_insert_ne.
  - rewrite (blocks_two a t kst) by done. cbn. apply NoDup_cons. split; [|apply NoDup_singleton].
    rewrite list_elem_of_singleton. done.
  - intros b n. rewrite (blocks_two a t kst) by done. rewrite !elem_of_cons.
    intros [[= -> ->]|[[= -> ->]|Hx]]; [..|by apply not_elem_of_nil in Hx].
    + split; [done|]. exists z1. rewrite lookup_insert_ne, lookup_insert_eq by done. done.
    + split; [done|]. exists z2. rewrite lookup_insert_eq. done.
Qed.

Lemma finish_three s L q k m a t kst ust z1 z2 z3 :
  sinv s L q -> next_tid s < 2147483648 -> a <> 0 -> ust <> 0 -> preserves L (kmem s) m ->
  ka_inv k m (<[ust := z3]> (<[kst := z2]> (<[a := z1]> L))) -> L !! a = None ->
  <[a := z1]> L !! kst = None -> <[kst := z2]> (<[a := z1]> L) !! ust = None ->
  TASK_SIZE <= z1 -> KERNEL_STACK_SIZE <= z2 -> USER_STACK_SIZE <= z3 ->
  t_id t = next_tid s -> t_pid t = next_tid s -> 0 <= t_parent_pid t < next_tid s ->
  t_state t = TASK_READY -> t_kernel_stack t = kst -> t_user_stack t = ust ->
  t_kernel_mode t = false ->
  created s L q (mk s k m (next_tid s + 1) (<[a := set_next t (task_queue s)]> (tasks s)) a) a
    (set_next t (task_queue s)).
Proof.
  intros H1 Hn Ha0 Hu0 Hp Hi Ha Hk Hu Hz1 Hz2 Hz3 Hid Hpid Hpar Hst Hks Hus Hmode.
  apply lookup_insert_None in Hu as [Hu Hne2]. pose proof Hu as [Hu' Hne3]%lookup_insert_None.
  pose proof Hk as [Hk' Hne]%lookup_insert_None.
  eapply finish; try done.
  - transitivity (<[a := z1]> L); [by apply insert_subseteq|].
    transitivity (<[kst := z2]> (<[a := z1]> L)); apply insert_subseteq; [done|].
    by rewrite lookup_insert_ne.
  - rewrite (blocks_three a t kst ust) by done. cbn.
    apply NoDup_cons. split; [rewrite !elem_of_cons; by intros [?|[?|?%not_elem_of_nil]]|].
    apply NoDup_cons. split; [rewrite list_elem_of_singleton; done|apply NoDup_singleton].
  - intros Hm. congruence.
  - intros b n. rewrite (blocks_three a t kst ust) by done. rewrite !elem_of_cons.
    intros [[= -> ->]|[[= -> ->]|[[= -> ->]|Hx]]]; [..|by apply not_elem_of_nil in Hx].
    + split; [done|]. exists z1. rewrite !lookup_insert_ne, lookup_insert_eq by done. done.
    + split; [done|]. exists z2. rewrite lookup_insert_ne, lookup_insert_eq by done. done.
    + split; [done|]. exists z3. rewrite lookup_insert_eq. done.
Qed.

(** Freeing, in reverse order, what was taken. *)
Lemma undo_one s k m n L a z T :
  ka_inv k m (<[a := z]> L) -> L !! a = None -> T !! a = None ->
  exists k' m', (forall t, kfree_task (mk s k m n (<[a := t]> T) (task_queue s)) a
                  = Some (mk s k' m' n T (task_queue s))) /\
    preserves L m m' /\ ka_inv k' m' L.
Proof.
  intros Hi Ha HT.
  destruct (mk_free s k m n T (task_queue s) _ a z Hi) as (k' & m' & E & Hp & Hi'); [apply lookup_insert_eq|].
  rewrite delete_insert_id in Hi' by done. exists k', m'. split; [|split; [|done]].
  - intros t. unfold kfree_task, do_kfree in *. cbn [ks kmem mk] in *.
    destruct (ka_free k m a) as [[k2 m2]|]; [|done].
    cbn [mbind option_bind]. injection E as <- <-. unfold set_tasks, mk. cbn.
    by rewrite delete_insert_id.
  - eapply preserves_sub; [|exact Hp]. by apply insert_subseteq.
Qed.

Local Opaque push_frame memcpy.

(** The first steps that all creators share: a structure, then a kernel stack. *)
Lemma take_struct s L q :
  sinv s L q ->
  exists a k m, do_kmalloc s TASK_SIZE = Some (a, mk s k m (next_tid s) (tasks s) (task_queue s)) /\
    preserves L (kmem s) m /\
    (a = 0 /\ ka_inv k m L \/
     a <> 0 /\ L !! a = None /\ tasks s !! a = None /\
     exists z, TASK_SIZE <= z /\ ka_inv k m (<[a := z]> L)).
Proof.
  intros H1. destruct (mk_malloc s (ks s) (kmem s) (next_tid s) (tasks s) (task_queue s) L TASK_SIZE)
    as (a & k & m & E & Hp & Hc); [apply H1|by unfold TASK_SIZE|].
  rewrite <- mk_id in E. exists a, k, m. split; [done|]. split; [done|].
  destruct Hc as [Hc|(Ha0 & Ha & z & Hz & _ & _ & Hi)]; [by left|right].
  split; [done|]. split; [done|]. split; [eapply fresh_task; [apply H1|done]|]. by exists z.
Qed.

Lemma take_stack s k m n T L a z :
  ka_inv k m (<[a := z]> L) -> L !! a = None ->
  exists st k' m', do_kmalloc (mk s k m n T (task_queue s)) KERNEL_STACK_SIZE
      = Some (st, mk s k' m' n T (task_queue s)) /\
    preserves L m m' /\ preserves (<[a := z]> L) m m' /\
    (st = 0 /\ ka_inv k' m' (<[a := z]> L) \/
     st <> 0 /\ <[a := z]> L !! st = None /\
     exists y, KERNEL_STACK_SIZE <= y /\ st + y < 4294967296 /\ 0 < st /\
       ka_inv k' m' (<[st := y]> (<[a := z]> L))).
Proof.
  intros Hi Ha.
  destruct (mk_malloc s k m n T (task_queue s) _ KERNEL_STACK_SIZE Hi) as (st & k' & m' & E & Hp & Hc);
    [by unfold KERNEL_STACK_SIZE|].
  exists st, k', m'. split; [done|]. split; [|split; [done|]].
  - eapply preserves_sub; [|exact Hp]. by apply insert_subseteq.
  - destruct Hc as [Hc|(H1 & H2 & y & H3 & H4 & H5 & H6)]; [by left|right]. split; [done|]. split; [done|]. by exists y.
Qed.

Lemma sub_insert2 L a z b y : L !! a = None -> <[a := z]> L !! b = None -> L ⊆ <[b := y]> (<[a := z]> L).
Proof. intros Ha Hb. transitivity (<[a := z]> L); by apply insert_subseteq. Qed.

Lemma sub_insert3 L a z b y c x :
  L !! a = None -> <[a := z]> L !! b = None -> <[b := y]> (<[a := z]> L) !! c = None ->
  L ⊆ <[c := x]> (<[b := y]> (<[a := z]> L)).
Proof. intros Ha Hb Hc. transitivity (<[b := y]> (<[a := z]> L)); [by apply sub_insert2|by apply insert_subseteq]. Qed.

(** Filling a fresh kernel stack keeps the heap and the old blocks. *)
Lemma write_fresh k m m' L L' b y :
  ka_inv k m L' -> L' !! b = Some y -> L ⊆ L' -> L !! b = None ->
  frame b KERNEL_STACK_SIZE m m' -> KERNEL_STACK_SIZE <= y ->
  ka_inv k m' L' /\ preserves L m m'.
Proof.
  intros Hi Hb Hsub HbL Hf Hy. split.
  - eapply ka_write; [exact Hi|exact Hb|]. eapply frame_weaken; [exact Hf|lia|lia].
  - by eapply (preserves_write k m L L' b y b KERNEL_STACK_SIZE); [..|lia|lia|exact Hf].
Qed.

Lemma task_create_spec s L q entry priority mode :
  sinv s L q -> next_tid s < 2147483648 ->
  exists a s', task_create user_task_entry s entry priority mode = Some (a, s') /\
    ((a = 0 /\ not_created s L q s') \/
     exists t, created s L q s' a t /\ t_id t = next_tid s /\ t_pid t = next_tid s /\
       t_state t = TASK_READY /\ t_priority t = priority /\ t_kernel_mode t = mode /\
       c_eip (t_context t) = entry).
Proof.
  intros H1 Hn. pose proof (si_tid _ _ _ H1) as Htid. unfold task_create.
  destruct (take_struct s L q H1) as (a & k1 & m1 & -> & Hp1 & Hc). cbn [mbind option_bind].
  destruct Hc as [(-> & Hi1)|(Ha0 & HaL & HaT & z1 & Hz1 & Hi1)].
  { eexists 0, _. split; [reflexivity|]. left. split; [done|]. apply rollback; [done|done|lia|done]. }
  replace (a =? 0) with false by lia.
  destruct (new_task_spec s L q priority mode H1 Hn) as (t & Ht & Hid & Hpid & Hpar & Hst & Hpr & Hts & Hmode).
  change (new_task (mk s k1 m1 (next_tid s) (tasks s) (task_queue s)) priority mode)
    with (new_task s priority mode). rewrite Ht. cbn [mbind option_bind].
  change (next_tid (mk s k1 m1 (next_tid s) (tasks s) (task_queue s))) with (next_tid s).
  rewrite (u32_small (next_tid s + 1)) by lia.
  change (set_next_tid (put (mk s k1 m1 (next_tid s) (tasks s) (task_queue s)) a t) (next_tid s + 1))
    with (mk s k1 m1 (next_tid s + 1) (<[a := t]> (tasks s)) (task_queue s)).
  destruct (take_stack s k1 m1 (next_tid s + 1) (<[a := t]> (tasks s)) L a z1 Hi1 HaL)
    as (kst & k2 & m2 & -> & Hp2 & _ & Hc). cbn [mbind option_bind].
  destruct Hc as [(-> & Hi2)|(Hk0 & HkL & z2 & Hz2 & Hkr & Hk1 & Hi2)].
  { cbn [Z.eqb].
    destruct (undo_one s k2 m2 (next_tid s + 1) L a z1 (tasks s) Hi2 HaL HaT) as (k3 & m3 & -> & Hp3 & Hi3).
    cbn [mbind option_bind]. eexists 0, _. split; [reflexivity|]. left. split; [done|].
    apply rollback; [done|done|lia|]. eapply preserves_trans; [|exact Hp3]. by eapply preserves_trans. }
  replace (kst =? 0) with false by lia.
  pose proof HkL as [HkL' _]%lookup_insert_None.
  destruct mode.
  - set (m3 := push_frame m2 (u32 (kst + KERNEL_STACK_SIZE)) entry).
    destruct (write_fresh k2 m2 m3 L _ kst z2 Hi2) as [Hi3 Hp3];
      [apply lookup_insert_eq|by apply sub_insert2|done|apply push_frame_frame; unfold KERNEL_STACK_SIZE in *; lia|done|].
    eexists a, _. split; [reflexivity|]. right. eexists. split.
    { unfold enqueue, set_queue, put, set_tasks, set_kmem. cbn [task_queue current_task next_tid tick_count
        tasks esp0 switches ks kmem mk]. rewrite insert_insert_eq.
      apply (finish_two s L q k2 m3 a _ kst z1 z2); try done.
      eapply preserves_trans; [|exact Hp3]. by eapply preserves_trans. }
    cbn. done.
  - change USER_STACK_SIZE with KERNEL_STACK_SIZE.
    destruct (take_stack s k2 m2 (next_tid s + 1) (<[a := t]> (tasks s)) _ kst z2 Hi2 HkL)
      as (ust & k3 & m3 & -> & Hp3 & _ & Hc). cbn [mbind option_bind].
    assert (Hp3' : preserves L (kmem s) m3).
    { eapply preserves_trans; [by eapply preserves_trans|]. eapply preserves_sub; [|exact Hp3].
      by apply insert_subseteq. }
    destruct Hc as [(-> & Hi3)|(Hu0 & HuL & z3 & Hz3 & _ & _ & Hi3)].
    { cbn [Z.eqb].
      destruct (mk_free s k3 m3 (next_tid s + 1) (<[a := t]> (tasks s)) (task_queue s) _ kst z2 Hi3)
        as (k4 & m4 & -> & Hp4 & Hi4); [apply lookup_insert_eq|]. cbn [mbind option_bind].
      rewrite delete_insert_id in Hi4 by done.
      destruct (undo_one s k4 m4 (next_tid s + 1) L a z1 (tasks s) Hi4 HaL HaT) as (k5 & m5 & -> & Hp5 & Hi5).
      cbn [mbind option_bind]. eexists 0, _. split; [reflexivity|]. left. split; [done|].
      apply rollback; [done|done|lia|]. eapply preserves_trans; [|exact Hp5].
      eapply preserves_trans; [exact Hp3'|]. eapply preserves_sub; [|exact Hp4]. by apply sub_insert2. }
    replace (ust =? 0) with false by lia.
    set (m4 := push_frame m3 (u32 (kst + KERNEL_STACK_SIZE)) user_task_entry).
    pose proof HuL as [HuL' Hne]%lookup_insert_None.
    destruct (write_fresh k3 m3 m4 L _ kst z2 Hi3) as [Hi4 Hp4];
      [by rewrite lookup_insert_ne, lookup_insert_eq|by apply sub_insert3|done
      |apply push_frame_frame; unfold KERNEL_STACK_SIZE in *; lia|done|].
    eexists a, _. split; [reflexivity|]. right. eexists. split.
    { unfold enqueue, set_queue, put, set_tasks, set_kmem. cbn [task_queue current_task next_tid tick_count
        tasks esp0 switches ks kmem mk]. rewrite insert_insert_eq.
      apply (finish_three s L q k3 m4 a _ kst ust z1 z2 z3); try done.
      by eapply preserves_trans. }
    cbn. done.
Qed.

Lemma task_create_user_eq s entry priority :
  task_create_user user_task_entry s entry priority = task_create user_task_entry s entry priority false.
Proof. reflexivity. Qed.

(** ** [task_fork] *)

(** The bytes of two stacks are the same. *)
Definition same_bytes (m m' : mem) (src dst : Z) : Prop :=
  forall i, 0 <= i < KERNEL_STACK_SIZE -> load8 m' (dst + i) = load8 m (src + i).

Lemma memcpy_frame m dst src n : 0 <= n -> frame dst n m (memcpy m dst src n).
Proof. apply frame_memcpy. Qed.

Lemma memcpy_bytes m dst src : dst + KERNEL_STACK_SIZE <= src \/ src + KERNEL_STACK_SIZE <= dst ->
  same_bytes m (memcpy m dst src KERNEL_STACK_SIZE) src dst.
Proof.
  intros Hd i Hi. unfold KERNEL_STACK_SIZE in *. rewrite load8_memcpy by lia.
  rcases. f_equal. lia.
Qed.

Lemma stack_live s L q a t b :
  score s L q -> tasks s !! a = Some t ->
  b = t_kernel_stack t \/ (b = t_user_stack t /\ t_user_stack t <> 0) ->
  exists z, L !! b = Some z /\ KERNEL_STACK_SIZE <= z.
Proof.
  intros H1 Ha Hb. apply (si_live _ _ _ H1 b KERNEL_STACK_SIZE).
  apply list_elem_of_bind. exists a. split; [|by eapply score_in].
  unfold blocks_at. rewrite Ha. unfold blocks. destruct Hb as [->|[-> Hn]].
  - right. left.
  - replace (t_user_stack t =? 0) with false by lia. right. right. left.
Qed.

(** A fresh block and a live block of at least a stack do not meet. *)
Lemma fresh_disjoint k m L L' b y c z :
  ka_inv k m L' -> L ⊆ L' -> L !! b = None -> L' !! b = Some y -> KERNEL_STACK_SIZE <= y ->
  L !! c = Some z -> KERNEL_STACK_SIZE <= z ->
  b + KERNEL_STACK_SIZE <= c \/ c + KERNEL_STACK_SIZE <= b.
Proof.
  intros Hi Hs Hb Hby Hy Hc Hz. assert (b <> c) by congruence.
  destruct (ka_disjoint k m L' b y c z Hi Hby) as [?|?]; [by eapply lookup_weaken|done|lia|lia].
Qed.

Lemma preserves_bytes L m m' c z :
  preserves L m m' -> L !! c = Some z -> KERNEL_STACK_SIZE <= z ->
  forall i, 0 <= i < KERNEL_STACK_SIZE -> load8 m' (c + i) = load8 m (c + i).
Proof. intros Hp Hc Hz i Hi. apply (Hp c z Hc). lia. Qed.

Lemma task_fork_spec s L q c :
  sinv s L q -> next_tid s < 2147483648 -> tasks s !! current_task s = Some c ->
  exists r s', task_fork s = Some (r, s') /\
    ((r = -1 /\ not_created s L q s') \/
     exists a t kst ust utop, r = next_tid s /\ created s L q s' a t /\
       t = set_next (fork_task c (next_tid s) kst ust utop) (task_queue s) /\
       same_bytes (kmem s) (kmem s') (t_kernel_stack c) kst /\
       (t_kernel_mode c = false -> t_user_stack c <> 0 ->
          same_bytes (kmem s) (kmem s') (t_user_stack c) ust)).
Proof.
  intros H1 Hn Hc. pose proof (si_tid _ _ _ H1) as Htid. unfold task_fork.
  pose proof (score_ne0 _ _ _ _ _ (si_core _ _ _ H1) Hc) as Hcur. apply Z.eqb_neq in Hcur. rewrite Hcur.
  destruct (take_struct s L q H1) as (a & k1 & m1 & -> & Hp1 & Ho). cbn [mbind option_bind].
  destruct Ho as [(-> & Hi1)|(Ha0 & HaL & HaT & z1 & Hz1 & Hi1)].
  { eexists (-1), _. split; [reflexivity|]. left. split; [done|]. apply rollback; [done|done|lia|done]. }
  replace (a =? 0) with false by lia.
  change (tasks (mk s k1 m1 (next_tid s) (tasks s) (task_queue s)) !!
    current_task (mk s k1 m1 (next_tid s) (tasks s) (task_queue s))) with (tasks s !! current_task s).
  rewrite Hc. cbn [mbind option_bind].
  change (next_tid (mk s k1 m1 (next_tid s) (tasks s) (task_queue s))) with (next_tid s).
  rewrite (u32_small (next_tid s + 1)) by lia.
  set (t0 := fork_task c (next_tid s) 0 (t_user_stack c) (t_user_stack_top c)).
  change (set_next_tid (put (mk s k1 m1 (next_tid s) (tasks s) (task_queue s)) a t0) (next_tid s + 1))
    with (mk s k1 m1 (next_tid s + 1) (<[a := t0]> (tasks s)) (task_queue s)).
  destruct (take_stack s k1 m1 (next_tid s + 1) (<[a := t0]> (tasks s)) L a z1 Hi1 HaL)
    as (kst & k2 & m2 & -> & Hp2 & _ & Ho). cbn [mbind option_bind].
  destruct Ho as [(-> & Hi2)|(Hk0 & HkL & z2 & Hz2 & Hkr & Hk1 & Hi2)].
  { cbn [Z.eqb].
    destruct (undo_one s k2 m2 (next_tid s + 1) L a z1 (tasks s) Hi2 HaL HaT) as (k3 & m3 & -> & Hp3 & Hi3).
    cbn [mbind option_bind]. eexists (-1), _. split; [reflexivity|]. left. split; [done|].
    apply rollback; [done|done|lia|]. eapply preserves_trans; [|exact Hp3]. by eapply preserves_trans. }
  replace (kst =? 0) with false by lia. pose proof HkL as [HkL' _]%lookup_insert_None.
  change (kmem (mk s k2 m2 (next_tid s + 1) (<[a:=t0]> (tasks s)) (task_queue s))) with m2.
  change (set_kmem (mk s k2 m2 (next_tid s + 1) (<[a:=t0]> (tasks s)) (task_queue s)) ?m)
    with (mk s k2 m (next_tid s + 1) (<[a:=t0]> (tasks s)) (task_queue s)).
  set (m3 := memcpy m2 kst (t_kernel_stack c) KERNEL_STACK_SIZE).
  assert (Hf3 : frame kst KERNEL_STACK_SIZE m2 m3) by (apply memcpy_frame; by unfold KERNEL_STACK_SIZE).
  destruct (stack_live s L q _ c (t_kernel_stack c) (si_core _ _ _ H1) Hc) as (zc & Hzc & Hzc'); [by left|].
  destruct (write_fresh k2 m2 m3 L _ kst z2 Hi2) as [Hi3 Hp3];
    [apply lookup_insert_eq|by apply sub_insert2|done|exact Hf3|done|].
  assert (Hp03 : preserves L (kmem s) m3).
  { eapply preserves_trans; [|exact Hp3]. by eapply preserves_trans. }
  assert (Hbytes : same_bytes (kmem s) m3 (t_kernel_stack c) kst).
  { intros i Hi. rewrite <- (preserves_bytes L (kmem s) m2 _ zc (preserves_trans _ _ _ _ Hp1 Hp2) Hzc Hzc' i Hi).
    apply memcpy_bytes; [|done]. eapply (fresh_disjoint k2 m2 L _ kst z2); [exact Hi2|by apply sub_insert2|done
      |apply lookup_insert_eq|done|exact Hzc|done]. }
  assert (Hpar : 0 <= t_pid c < next_tid s) by (pose proof (si_ids _ _ _ H1 _ _ Hc); lia).
  assert (Htid' : i32 (next_tid s) = next_tid s) by (apply i32_small; lia).
  rewrite Htid'.
  destruct (negb (t_kernel_mode c) && negb (t_user_stack c =? 0)) eqn:Eu.
  2: { eexists (next_tid s), _. split; [reflexivity|]. right.
       assert (Hu0 : t_user_stack c = 0).
       { destruct (t_kernel_mode c) eqn:Em; [by apply (si_mode _ _ _ H1 (current_task s) c)|]. cbn [negb andb] in Eu. lia. }
       exists a. eexists _, kst, _, _. split; [done|]. split.
       { unfold enqueue, set_queue, put, set_tasks. cbn [task_queue current_task next_tid tick_count
           tasks esp0 switches ks kmem mk]. rewrite insert_insert_eq.
         apply (finish_two s L q k2 m3 a _ kst z1 z2); try done. }
       split; [reflexivity|]. split; [exact Hbytes|]. intros _ ?. done. }
  apply andb_true_iff in Eu as [Em Eus]. apply negb_true_iff in Em, Eus. apply Z.eqb_neq in Eus.
  change USER_STACK_SIZE with KERNEL_STACK_SIZE.
  destruct (take_stack s k2 m3 (next_tid s + 1) (<[a := t0]> (tasks s)) _ kst z2 Hi3 HkL)
    as (ust & k4 & m4 & -> & Hp4 & Hp4' & Ho). cbn [mbind option_bind].
  assert (Hp04 : preserves L (kmem s) m4).
  { eapply preserves_trans; [exact Hp03|]. eapply preserves_sub; [|exact Hp4]. by apply insert_subseteq. }
  destruct Ho as [(-> & Hi4)|(Hu0 & HuL & z3 & Hz3 & _ & _ & Hi4)].
  { cbn [Z.eqb].
    destruct (mk_free s k4 m4 (next_tid s + 1) (<[a := t0]> (tasks s)) (task_queue s) _ kst z2 Hi4)
      as (k5 & m5 & -> & Hp5 & Hi5); [apply lookup_insert_eq|]. cbn [mbind option_bind].
    rewrite delete_insert_id in Hi5 by done.
    destruct (undo_one s k5 m5 (next_tid s + 1) L a z1 (tasks s) Hi5 HaL HaT) as (k6 & m6 & -> & Hp6 & Hi6).
    cbn [mbind option_bind]. eexists (-1), _. split; [reflexivity|]. left. split; [done|].
    apply rollback; [done|done|lia|]. eapply preserves_trans; [|exact Hp6].
    eapply preserves_trans; [exact Hp04|]. eapply preserves_sub; [|exact Hp5]. by apply sub_insert2. }
  replace (ust =? 0) with false by lia.
  change (kmem (mk s k4 m4 (next_tid s + 1) (<[a:=t0]> (tasks s)) (task_queue s))) with m4.
  set (m5 := memcpy m4 ust (t_user_stack c) KERNEL_STACK_SIZE).
  assert (Hf5 : frame ust KERNEL_STACK_SIZE m4 m5) by (apply memcpy_frame; by unfold KERNEL_STACK_SIZE).
  destruct (stack_live s L q _ c (t_user_stack c) (si_core _ _ _ H1) Hc) as (zu & Hzu & Hzu'); [by right|].
  pose proof HuL as [HuL1 Hne]%lookup_insert_None. pose proof HuL1 as [HuL' _]%lookup_insert_None.
  destruct (write_fresh k4 m4 m5 L _ ust z3 Hi4) as [Hi5 Hp5];
    [apply lookup_insert_eq|by apply sub_insert3|done|exact Hf5|done|].
  eexists (next_tid s), _. split; [reflexivity|]. right.
  exists a. eexists _, kst, ust, _. split; [done|]. split.
  { unfold enqueue, set_queue, put, set_tasks, set_kmem. cbn [task_queue current_task next_tid tick_count
      tasks esp0 switches ks kmem mk]. rewrite insert_insert_eq.
    apply (finish_three s L q k4 m5 a _ kst ust z1 z2 z3 H1 Hn Ha0 Hu0 (preserves_trans _ _ _ _ Hp04 Hp5)
      Hi5 HaL HkL HuL Hz1 Hz2 Hz3); [reflexivity|exact Htid'|exact Hpar|reflexivity|reflexivity|reflexivity|exact Em]. }
  split; [reflexivity|]. cbn [kmem mk set_queue enqueue put set_tasks set_kmem]. split.
  - intros i Hi. rewrite Hf5.
    + rewrite <- (Hbytes i Hi). apply (Hp4' kst z2); [apply lookup_insert_eq|lia].
    + intros Hin. destruct (ka_disjoint k4 m4 _ ust z3 kst z2 Hi4) as [?|?];
        [apply lookup_insert_eq|by rewrite lookup_insert_ne, lookup_insert_eq|done|lia|lia].
  - intros _ _ i Hi. rewrite <- (preserves_bytes L (kmem s) m4 _ zu Hp04 Hzu Hzu' i Hi).
    apply memcpy_bytes; [|done]. eapply (fresh_disjoint k4 m4 L _ ust z3); [exact Hi4|by apply sub_insert3|done
      |apply lookup_insert_eq|done|exact Hzu|done].
Qed.

(** ** [task_destroy] *)

(** The body of the loop at the task that is found. *)
Definition destroy_at s (prev p : Z) (t : task) : option (sched St) :=
  s ← (if negb (prev =? 0) then
         u ← tasks s !! prev; Some (put s prev (set_next u (t_next t)))
       else Some (set_queue s (t_next t)));
  s ← (if negb (t_kernel_stack t =? 0) then do_kfree s (t_kernel_stack t) else Some s);
  s ← (if negb (t_user_stack t =? 0) then do_kfree s (t_user_stack t) else Some s);
  kfree_task s p.

Lemma destroy_from_reach s id l a r t p prev fuel :
  qseg (tasks s) p (l ++ a :: r) -> (length (l ++ a :: r) <= fuel)%nat ->
  tasks s !! a = Some t -> t_id t = id ->
  (forall b u, b ∈ l -> tasks s !! b = Some u -> t_id u <> id) ->
  destroy_from fuel s prev p id = destroy_at s (default prev (last l)) a t.
Proof.
  revert p prev fuel. induction l as [|b l IH]; intros p prev fuel Hq Hl Ha Hid Hn.
  - destruct Hq as (-> & Ha0 & _).
    destruct fuel as [|f]; [simpl in Hl; lia|]. cbn [destroy_from].
    replace (a =? 0) with false by lia. rewrite Ha. subst id. cbn [mbind option_bind]. rewrite Z.eqb_refl. done.
  - destruct Hq as (-> & Hb0 & u & Hu & Hq). destruct fuel as [|f]; [simpl in Hl; lia|].
    cbn [destroy_from]. replace (b =? 0) with false by lia. rewrite Hu. cbn [mbind option_bind].
    specialize (Hn b u ltac:(left) Hu) as Hne. replace (t_id u =? id) with false by lia.
    rewrite (IH (t_next u) b f Hq); [|simpl in Hl; lia|done|done|].
    + rewrite last_cons. by destruct (last l).
    + intros c w Hc. apply Hn. by right.
Qed.

Lemma destroy_from_none s id q p prev fuel :
  qseg (tasks s) p q -> (length q <= fuel)%nat ->
  (forall b u, b ∈ q -> tasks s !! b = Some u -> t_id u <> id) ->
  destroy_from fuel s prev p id = Some s.
Proof.
  revert p prev fuel. induction q as [|b q IH]; intros p prev fuel Hq Hl Hn.
  - simpl in Hq. subst p. by destruct fuel.
  - destruct Hq as (-> & Hb0 & u & Hu & Hq). destruct fuel as [|f]; [simpl in Hl; lia|].
    cbn [destroy_from]. replace (b =? 0) with false by lia. rewrite Hu. cbn [mbind option_bind].
    specialize (Hn b u ltac:(left) Hu) as Hne. replace (t_id u =? id) with false by lia.
    apply IH; [done|simpl in Hl; lia|]. intros c w Hc. apply Hn. by right.
Qed.

(** The store and the head of the queue without the task [a] behind [prev]. *)
Definition unlink_store (m : gmap Z task) (prev : Z) (t : task) : gmap Z task :=
  if prev =? 0 then m else
  match m !! prev with Some u => <[prev := set_next u (t_next t)]> m | None => m end.
Definition unlink_head (h prev : Z) (t : task) : Z := if prev =? 0 then t_next t else h.

Lemma last_in (l : list Z) b : last l = Some b -> b ∈ l.
Proof.
  induction l as [|x l IH]; [done|]. destruct l as [|y l].
  - intros [= ->]. left.
  - intros Hb. right. by apply IH.
Qed.

Lemma qseg_unlink m p l a r t :
  NoDup (l ++ a :: r) -> m !! a = Some t -> qseg m p (l ++ a :: r) ->
  let prev := default 0 (last l) in
  qseg (delete a (unlink_store m prev t)) (unlink_head p prev t) (l ++ r).
Proof.
  intros Hnd Ha. revert p. induction l as [|b l IH]; intros p Hq; cbn zeta.
  - destruct Hq as (-> & Ha0 & t' & Ht & Hq). simplify_eq. cbn.
    apply NoDup_cons in Hnd as [Hni _]. eapply qseg_ext; [|exact Hq].
    intros c u Hc Hu. exists u. rewrite lookup_delete_ne; [done|]. by intros ->.
  - destruct Hq as (-> & Hb0 & u & Hu & Hq).
    apply NoDup_cons in Hnd as [Hni Hnd]. assert (Hba : b <> a).
    { intros ->. apply Hni. apply elem_of_app. right. left. }
    destruct l as [|c l].
    + cbn. unfold unlink_store, unlink_head. replace (b =? 0) with false by lia. rewrite Hu.
      split; [done|]. split; [done|]. eexists. rewrite lookup_delete_ne, lookup_insert_eq by done.
      split; [done|]. cbn. destruct Hq as (_ & _ & t' & Ht & Hq). simplify_eq.
      cbn in Hnd. apply NoDup_cons in Hnd as [Hna _]. cbn in Hni.
      eapply qseg_ext; [|exact Hq]. intros d w Hd Hw. exists w.
      rewrite lookup_delete_ne, lookup_insert_ne; [done|..].
      * intros ->. apply Hni. by right.
      * by intros ->.
    + specialize (IH Hnd (t_next u) Hq). cbn zeta in IH.
      replace (last (b :: c :: l)) with (last (c :: l)) by done.
      destruct (last (c :: l)) as [d|] eqn:Ed; [|by apply last_None in Ed].
      pose proof (last_in _ _ Ed) as Hd. cbn [default from_option] in *. unfold id in *.
      assert (Hdq : d ∈ (c :: l) ++ a :: r) by (apply elem_of_app; by left).
      assert (Hd0 : d <> 0) by (by eapply qseg_lookup).
      assert (Hdb : d <> b) by (by intros ->).
      unfold unlink_head in *. replace (d =? 0) with false in * by lia.
      split; [done|]. split; [done|]. exists u. split; [|exact IH].
      rewrite lookup_delete_ne by done. unfold unlink_store. replace (d =? 0) with false by lia.
      destruct (m !! d); [by rewrite lookup_insert_ne|done].
Qed.

(** What [delete a (unlink_store ..)] holds: the other tasks, up to their links. *)
Lemma unlink_lookup m l a r p t b u' :
  qseg m p (l ++ a :: r) -> delete a (unlink_store m (default 0 (last l)) t) !! b = Some u' ->
  b <> a /\ exists u, m !! b = Some u /\ u' = set_next u (t_next u').
Proof.
  intros Hq [Hne Hb]%lookup_delete_Some. split; [done|]. unfold unlink_store in Hb.
  assert (Hsame : m !! b = Some u' -> exists u, m !! b = Some u /\ u' = set_next u (t_next u'))
    by (intros Hx; exists u'; split; [done|by destruct u']).
  destruct (default 0 (last l) =? 0); [by apply Hsame|].
  destruct (m !! default 0 (last l)) as [w|] eqn:E; [|by apply Hsame].
  destruct (decide (default 0 (last l) = b)) as [<-|Hd].
  - rewrite lookup_insert_eq in Hb. simplify_eq. exists w. done.
  - rewrite lookup_insert_ne in Hb by done. by apply Hsame.
Qed.

Lemma unlink_some m l a t b u :
  m !! b = Some u -> b <> a ->
  exists n, delete a (unlink_store m (default 0 (last l)) t) !! b = Some (set_next u n).
Proof.
  intros Hb Hne. rewrite lookup_delete_ne by done. unfold unlink_store.
  assert (Hsame : exists n, m !! b = Some (set_next u n))
    by (exists (t_next u); rewrite Hb; by destruct u).
  destruct (default 0 (last l) =? 0); [done|].
  destruct (m !! default 0 (last l)) as [w|] eqn:E; [|done].
  destruct (decide (default 0 (last l) = b)) as [<-|Hd].
  - rewrite lookup_insert_eq. exists (t_next t). congruence.
  - by rewrite lookup_insert_ne.
Qed.

Definition drop_blocks (L : gmap Z Z) (a : Z) (t : task) : gmap Z Z :=
  delete a (if t_user_stack t =? 0 then delete (t_kernel_stack t) L
            else delete (t_user_stack t) (delete (t_kernel_stack t) L)).

Lemma drop_blocks_lookup L a t b :
  b ∉ (blocks a t).*1 -> drop_blocks L a t !! b = L !! b.
Proof.
  unfold blocks, drop_blocks. cbn. rewrite !not_elem_of_cons. intros (Ha & Hk & Hu).
  rewrite lookup_delete_ne by done. destruct (t_user_stack t =? 0).
  - by rewrite lookup_delete_ne.
  - apply not_elem_of_cons in Hu as [Hu _]. by rewrite !lookup_delete_ne.
Qed.

Lemma blocks_live s L q a t b n :
  score s L q -> tasks s !! a = Some t -> (b, n) ∈ blocks a t ->
  exists z, L !! b = Some z /\ n <= z /\ 0 < b.
Proof.
  intros H1 Ha Hb. destruct (si_live _ _ _ H1 b n) as (z & Hz & Hn).
  { apply list_elem_of_bind. exists a. split; [|by eapply score_in]. unfold blocks_at. by rewrite Ha. }
  exists z. split; [done|]. split; [done|].
  destruct (ka_range _ _ _ _ _ (si_alloc _ _ _ H1) Hz) as [? _]. done.
Qed.

(** The releases of [task_destroy], on any state that shares the heap of [s]. *)
Lemma free_task_blocks s L q a t T h :
  score s L q -> tasks s !! a = Some t -> NoDup (blocks a t).*1 ->
  exists k m,
    (s1 ← (if negb (t_kernel_stack t =? 0)
           then do_kfree (mk s (ks s) (kmem s) (next_tid s) T h) (t_kernel_stack t)
           else Some (mk s (ks s) (kmem s) (next_tid s) T h));
     s2 ← (if negb (t_user_stack t =? 0) then do_kfree s1 (t_user_stack t) else Some s1);
     kfree_task s2 a) = Some (mk s k m (next_tid s) (delete a T) h) /\
    preserves (drop_blocks L a t) (kmem s) m /\ ka_inv k m (drop_blocks L a t).
Proof.
  intros H1 Ha Hnd.
  destruct (blocks_live s L q a t a TASK_SIZE H1 Ha) as (za & Hza & _ & Ha0); [left|].
  destruct (blocks_live s L q a t (t_kernel_stack t) KERNEL_STACK_SIZE H1 Ha) as (zk & Hzk & _ & Hk0); [right; left|].
  replace (t_kernel_stack t =? 0) with false by lia. cbn [negb].
  destruct (mk_free s (ks s) (kmem s) (next_tid s) T h L _ zk (si_alloc _ _ _ H1) Hzk)
    as (k1 & m1 & -> & Hp1 & Hi1). cbn [mbind option_bind].
  unfold blocks in Hnd. cbn in Hnd. apply NoDup_cons in Hnd as [Hna Hnd].
  apply not_elem_of_cons in Hna as [Hak Hna]. apply NoDup_cons in Hnd as [Hnk _].
  unfold drop_blocks.
  destruct (t_user_stack t =? 0) eqn:Eu; cbn [negb mbind option_bind].
  - destruct (mk_free_task s k1 m1 (next_tid s) T h _ a za Hi1) as (k2 & m2 & -> & Hp2 & Hi2);
      [by rewrite lookup_delete_ne|].
    exists k2, m2. split; [done|]. split; [|done].
    eapply preserves_trans; [|by apply preserves_delete]. by do 2 apply preserves_delete.
  - cbn in Hna, Hnk. apply not_elem_of_cons in Hna as [Hau _]. apply not_elem_of_cons in Hnk as [Hku _].
    destruct (blocks_live s L q a t (t_user_stack t) USER_STACK_SIZE H1 Ha) as (zu & Hzu & _ & _).
    { unfold blocks. rewrite Eu. right. right. left. }
    destruct (mk_free s k1 m1 (next_tid s) T h _ (t_user_stack t) zu Hi1) as (k2 & m2 & -> & Hp2 & Hi2);
      [by rewrite lookup_delete_ne|]. cbn [mbind option_bind].
    destruct (mk_free_task s k2 m2 (next_tid s) T h _ a za Hi2) as (k3 & m3 & -> & Hp3 & Hi3);
      [by rewrite !lookup_delete_ne|].
    exists k3, m3. split; [done|]. split; [|done].
    eapply preserves_trans; [|by apply preserves_delete].
    eapply preserves_trans; [|by do 2 apply preserves_delete]. by do 3 apply preserves_delete.
Qed.

Lemma destroy_score s L q a t :
  score s L q -> tasks s !! a = Some t ->
  exists l r k m, q = l ++ a :: r /\
    let T := delete a (unlink_store (tasks s) (default 0 (last l)) t) in
    let s' := mk s k m (next_tid s) T (unlink_head (task_queue s) (default 0 (last l)) t) in
    task_destroy s (t_id t) = Some s' /\ score s' (drop_blocks L a t) (l ++ r) /\
    preserves (drop_blocks L a t) (kmem s) m.
Proof.
  intros H1 Ha. pose proof (score_in _ _ _ _ _ H1 Ha) as Hin.
  apply list_elem_of_split in Hin as (l & r & ->).
  pose proof (si_owner _ _ _ H1) as Hown. rewrite all_blocks_app, all_blocks_cons, !fmap_app in Hown.
  assert (Hba : blocks_at (tasks s) a = blocks a t) by (unfold blocks_at; by rewrite Ha).
  rewrite Hba in Hown. pose proof Hown as (Hn1 & Hd1 & (Hn2 & Hd2 & Hn3)%NoDup_app)%NoDup_app.
  destruct (free_task_blocks s L _ a t (unlink_store (tasks s) (default 0 (last l)) t)
    (unlink_head (task_queue s) (default 0 (last l)) t) H1 Ha Hn2) as (k & m & E & Hp & Hi).
  exists l, r, k, m. split; [done|]. cbn zeta.
  assert (Hprev : default 0 (last l) = 0 \/ exists u, tasks s !! default 0 (last l) = Some u /\ default 0 (last l) <> 0).
  { destruct (last l) as [b|] eqn:El; [right|by left]. apply last_in in El.
    destruct (score_lookup _ _ _ b H1) as (Hb0 & u & Hu); [apply elem_of_app; by left|]. by exists u. }
  split.
  { unfold task_destroy. rewrite (destroy_from_reach s (t_id t) l a r t); try done.
    - rewrite <- E. clear E. unfold destroy_at. revert Hprev. unfold unlink_store, unlink_head.
      generalize (default 0 (last l)). intros prev [->|(u & Hu & Hne)].
      + cbn [Z.eqb negb mbind option_bind]. reflexivity.
      + replace (prev =? 0) with false by lia. rewrite Hu. reflexivity.
    - apply H1.
    - by eapply score_size.
    - intros b u Hb Hu Heq. assert (b = a) as -> by (by eapply (si_unique _ _ _ H1)).
      pose proof (si_nodup _ _ _ H1) as Hnd. apply NoDup_app in Hnd as (_ & Hd & _).
      apply (Hd a Hb). left. }
  split; [|exact Hp].
  pose proof (si_queue _ _ _ H1) as Hq. pose proof (si_nodup _ _ _ H1) as Hnd.
  set (T := delete a (unlink_store (tasks s) (default 0 (last l)) t)).
  assert (Hlk : forall b u', T !! b = Some u' -> b <> a /\ exists u, tasks s !! b = Some u /\ u' = set_next u (t_next u')).
  { intros b u'. by eapply unlink_lookup. }
  assert (Hall : all_blocks T (l ++ r) = all_blocks (tasks s) l ++ all_blocks (tasks s) r).
  { rewrite <- all_blocks_app. apply all_blocks_ext. intros b Hb. unfold blocks_at.
    assert (Hbin : b ∈ l ++ a :: r) by (rewrite elem_of_app in *; rewrite elem_of_cons; tauto).
    destruct (score_lookup _ _ _ b H1 Hbin) as (_ & u & Hu). rewrite Hu.
    assert (b <> a).
    { intros ->. apply NoDup_app in Hnd as (_ & Hd & [Hni _]%NoDup_cons).
      apply elem_of_app in Hb as [Hb|Hb]; [|done]. apply (Hd a Hb). left. }
    destruct (unlink_some (tasks s) l a t b u Hu) as (n & Hn); [done|]. unfold T. rewrite Hn. done. }
  split; cbn [tasks mk task_queue ks kmem next_tid].
  - by apply (qseg_unlink (tasks s) (task_queue s) l a r t).
  - apply NoDup_app in Hnd as (A & B & [C D]%NoDup_cons). apply NoDup_app. split; [done|]. split; [|done].
    intros b Hb Hbr. apply (B b Hb). by right.
  - intros b. split.
    + intros [u' Hu']. destruct (Hlk b u' Hu') as (Hne & u & Hu & _).
      pose proof (score_in _ _ _ _ _ H1 Hu) as Hin. rewrite elem_of_app, elem_of_cons in Hin.
      apply elem_of_app. tauto.
    + intros Hb. assert (Hbin : b ∈ l ++ a :: r) by (rewrite elem_of_app in *; rewrite elem_of_cons; tauto).
      destruct (score_lookup _ _ _ b H1 Hbin) as (_ & u & Hu).
      destruct (unlink_some (tasks s) l a t b u Hu) as (n & Hn); [|by eexists].
      intros ->. apply NoDup_app in Hnd as (_ & Hd & [Hni _]%NoDup_cons).
      apply elem_of_app in Hb as [Hb|Hb]; [|done]. apply (Hd a Hb). left.
  - exact Hi.
  - intros b n. rewrite Hall. intros Hb.
    assert (Hni : b ∉ (blocks a t).*1).
    { intros Hx. apply elem_of_app in Hb as [Hb|Hb].
      - apply (Hd1 b); [by apply (list_elem_of_fmap_2' fst _ (b, n))|]. apply elem_of_app. by left.
      - apply (Hd2 b Hx). by apply (list_elem_of_fmap_2' fst _ (b, n)). }
    rewrite drop_blocks_lookup by done. apply (si_live _ _ _ H1).
    rewrite all_blocks_app, all_blocks_cons, !elem_of_app. apply elem_of_app in Hb. tauto.
  - rewrite Hall, fmap_app. apply NoDup_app. split; [done|]. split; [|done].
    intros b Hb Hbr. apply (Hd1 b Hb). apply elem_of_app. by right.
  - intros b u' (_ & u & Hu & ->)%Hlk. exact (si_ids _ _ _ H1 b u Hu).
  - apply H1.
  - intros b u' (_ & u & Hu & ->)%Hlk. exact (si_mode _ _ _ H1 b u Hu).
  - intros b c u' w' (_ & u & Hu & ->)%Hlk (_ & w & Hw & ->)%Hlk.
    intros Heq. exact (si_unique _ _ _ H1 b c u w Hu Hw Heq).
Qed.

Lemma destroy_sinv s L q a t :
  sinv s L q -> tasks s !! a = Some t -> a <> current_task s ->
  exists l r s', q = l ++ a :: r /\ task_destroy s (t_id t) = Some s' /\
    sinv s' (drop_blocks L a t) (l ++ r) /\ current_task s' = current_task s /\
    tasks s' !! a = None /\
    (forall b u, b <> a -> tasks s !! b = Some u -> exists n, tasks s' !! b = Some (set_next u n)) /\
    preserves (drop_blocks L a t) (kmem s) (kmem s').
Proof.
  intros H1 Ha Hc. destruct (destroy_score s L q a t (si_core _ _ _ H1) Ha)
    as (l & r & k & m & Hq & E & Hs & Hp). cbn zeta in *.
  eexists l, r, _. split; [exact Hq|]. split; [exact E|]. split; [|split; [done|split; [|split; [|exact Hp]]]].
  - split; [exact Hs|cbn|cbn].
    + destruct (si_current _ _ _ H1) as [|Hin]; [by left|right].
      rewrite Hq, elem_of_app, elem_of_cons in Hin. apply elem_of_app.
      destruct Hin as [?|[?|?]]; [by left|by destruct Hc|by right].
    + intros b u' Hb Hr. pose proof (si_queue _ _ _ H1) as Hqs. rewrite Hq in Hqs.
      destruct (unlink_lookup _ _ _ _ _ _ _ _ Hqs Hb) as (_ & u & Hu & Heq).
      apply (si_running _ _ _ H1 b u Hu). rewrite Heq in Hr. exact Hr.
  - cbn. apply lookup_delete_eq.
  - intros b u Hne Hu. cbn. by apply unlink_some.
Qed.

Lemma destroy_absent s L q id :
  score s L q -> (forall b u, tasks s !! b = Some u -> t_id u <> id) -> task_destroy s id = Some s.
Proof.
  intros H1 Hn. unfold task_destroy. eapply destroy_from_none; [apply H1|by eapply score_size|].
  intros b u _. apply Hn.
Qed.

(** ** The remaining operations *)

(** [task_exit] on a task that exists. *)
Lemma task_exit_spec s L q a t code :
  sinv s L q -> tasks s !! a = Some t ->
  exists s', task_exit s (t_id t) code = Some s' /\ sinv s' L q /\ current_task s' = current_task s /\
    tasks s' !! a = Some (set_exit_code (set_state t TASK_ZOMBIE) code) /\
    forall b u, b <> a -> tasks s !! b = Some u ->
      tasks s' !! b = Some (if (t_pid u =? t_parent_pid t) && (t_state u =? TASK_BLOCKED) &&
                               ((t_waiting_for u =? t_pid t) || (t_waiting_for u =? -1))
                            then set_state u TASK_READY else u).
Proof.
  intros H1 Ha. unfold task_exit. rewrite (find_id s L q a t (si_core _ _ _ H1) Ha). cbn [mbind option_bind].
  pose proof (score_ne0 _ _ _ _ _ (si_core _ _ _ H1) Ha) as Ha0. replace (a =? 0) with false by lia.
  rewrite Ha. cbn [mbind option_bind].
  set (tz := set_exit_code (set_state t TASK_ZOMBIE) code). set (s1 := put s a tz).
  assert (Hs1 : sinv s1 L q).
  { apply (sinv_put s L q a t); [done|done|done|]. cbn. discriminate. }
  assert (Hl1 : forall b u, b <> a -> tasks s !! b = Some u -> tasks s1 !! b = Some u).
  { intros b u Hne Hu. cbn. by rewrite lookup_insert_ne. }
  pose proof (si_ids _ _ _ H1 _ _ Ha) as (_ & Hpid & Hpar).
  assert (Hquiet : forall b u, b <> a -> tasks s !! b = Some u -> (t_pid u =? t_parent_pid t) = false \/
    (t_state u =? TASK_BLOCKED) && ((t_waiting_for u =? t_pid t) || (t_waiting_for u =? -1)) = false ->
    tasks s1 !! b = Some (if (t_pid u =? t_parent_pid t) && (t_state u =? TASK_BLOCKED) &&
      ((t_waiting_for u =? t_pid t) || (t_waiting_for u =? -1)) then set_state u TASK_READY else u)).
  { intros b u Hne Hu Hq. rewrite (Hl1 b u Hne Hu). rewrite <- andb_assoc.
    destruct Hq as [->| ->]; by rewrite ?andb_false_r. }
  unfold task_find.
  destruct (find_task_spec s1 L q (fun u => t_pid u =? t_parent_pid t) (si_core _ _ _ Hs1))
    as [[-> Hn]|(_ & p & _ & tp & _ & -> & Hp0 & Htp & Hpp & _)]; cbn [mbind option_bind].
  - cbn [Z.eqb]. exists s1. split; [done|]. split; [done|]. split; [done|].
    split; [cbn; by rewrite lookup_insert_eq|]. intros b u Hne Hu. apply Hquiet; [done|done|left].
    exact (Hn b u (Hl1 b u Hne Hu)).
  - replace (p =? 0) with false by lia. rewrite Htp. cbn [mbind option_bind].
    assert (Hpa : p <> a).
    { intros ->. cbn in Htp. rewrite lookup_insert_eq in Htp. injection Htp as <-. cbn in Hpp. lia. }
    assert (Huniq : forall b u, b <> a -> b <> p -> tasks s !! b = Some u -> (t_pid u =? t_parent_pid t) = false).
    { intros b u Hba Hbp Hu. apply Z.eqb_neq. intros Heq. apply Hbp.
      pose proof (Hl1 b u Hba Hu) as Hu1.
      apply (si_unique _ _ _ Hs1 b p u tp Hu1 Htp).
      pose proof (si_ids _ _ _ Hs1 _ _ Hu1). pose proof (si_ids _ _ _ Hs1 _ _ Htp). lia. }
    assert (Htp0 : tasks s !! p = Some tp) by (cbn in Htp; by rewrite lookup_insert_ne in Htp).
    destruct ((t_state tp =? TASK_BLOCKED) &&
      ((t_waiting_for tp =? t_pid t) || (t_waiting_for tp =? -1))) eqn:Ew.
    + exists (put s1 p (set_state tp TASK_READY)). split; [done|].
      split; [apply (sinv_put s1 L q p tp); [done|done|done|cbn; discriminate]|]. split; [done|].
      split; [cbn; by rewrite lookup_insert_ne, lookup_insert_eq|].
      intros b u Hne Hu. destruct (decide (b = p)) as [->|Hbp].
      * assert (u = tp) as -> by congruence. cbn [tasks put set_tasks].
        rewrite lookup_insert_eq, Hpp. cbn [andb]. by rewrite Ew.
      * cbn [tasks put set_tasks]. rewrite lookup_insert_ne by done.
        apply Hquiet; [done|done|left; by eapply Huniq].
    + exists s1. split; [done|]. split; [done|]. split; [done|].
      split; [cbn; by rewrite lookup_insert_eq|]. intros b u Hne Hu.
      apply Hquiet; [done|done|]. destruct (decide (b = p)) as [->|Hbp]; [right|left; by eapply Huniq].
      by assert (u = tp) as -> by congruence.
Qed.

Lemma task_exit_absent s L q id code :
  score s L q -> (forall b u, tasks s !! b = Some u -> t_id u <> id) -> task_exit s id code = Some s.
Proof.
  intros H1 Hn. unfold task_exit.
  destruct (find_task_spec s L q (fun u => t_id u =? id) H1)
    as [[-> _]|(_ & a & _ & t & _ & _ & _ & Ht & Hp & _)]; [done|].
  specialize (Hn a t Ht). simpl in Hp. lia.
Qed.

(** Every operation keeps the invariant and returns. *)
Lemma schedule_ok s L q : sinv s L q -> exists s', schedule s = Some s' /\ sinv s' L q.
Proof.
  intros H1. destruct (schedule_cases s L q H1) as [[-> _]|(n & t & s' & _ & _ & _ & _ & -> & Hs & _)];
    [by exists s|by exists s'].
Qed.

Lemma current_lookup s L q :
  sinv s L q -> current_task s <> 0 -> exists c, tasks s !! current_task s = Some c.
Proof.
  intros H1 Hc. destruct (si_current _ _ _ H1) as [?|Hin]; [done|].
  by destruct (score_lookup _ _ _ _ (si_core _ _ _ H1) Hin) as [_ ?].
Qed.

Lemma sched_tick_ok s L q : sinv s L q -> exists s', sched_tick s = Some s' /\ sinv s' L q.
Proof.
  intros H1. unfold sched_tick. set (s1 := set_tick_count s (u32 (tick_count s + 1))).
  assert (Hs1 : sinv s1 L q).
  { split; [by eapply score_ext; [apply H1|..]|apply H1|apply H1]. }
  destruct (Z.eqb_spec (current_task s1) 0) as [|Hc]; [by exists s1|].
  destruct (current_lookup s1 L q Hs1 Hc) as (c & Hcl). rewrite Hcl. cbn [mbind option_bind].
  set (c' := if 0 <? t_time_slice (set_cpu_ticks c (u32 (t_cpu_ticks c + 1)))
    then set_time_slice (set_cpu_ticks c (u32 (t_cpu_ticks c + 1)))
           (t_time_slice (set_cpu_ticks c (u32 (t_cpu_ticks c + 1))) - 1)
    else set_cpu_ticks c (u32 (t_cpu_ticks c + 1))).
  assert (Hs2 : sinv (put s1 (current_task s1) c') L q).
  { apply (sinv_put s1 L q _ c); [done|done| |done]. unfold c'. by destruct (0 <? _). }
  destruct (t_time_slice c' =? 0); [by apply schedule_ok|by eexists].
Qed.

Lemma sched_block_ok s L q : sinv s L q -> exists s', sched_block s = Some s' /\ sinv s' L q.
Proof.
  intros H1. unfold sched_block.
  destruct (Z.eqb_spec (current_task s) 0) as [|Hc]; [by exists s|].
  destruct (current_lookup s L q H1 Hc) as (c & Hcl). rewrite Hcl. cbn [mbind option_bind].
  apply schedule_ok. by apply (sinv_put s L q _ c).
Qed.

Lemma sched_unblock_ok s L q id : sinv s L q -> exists s', sched_unblock s id = Some s' /\ sinv s' L q.
Proof.
  intros H1. unfold sched_unblock.
  destruct (find_task_spec s L q (fun u => t_id u =? id) (si_core _ _ _ H1))
    as [[-> _]|(_ & a & _ & t & _ & -> & Ha0 & Ht & _)]; cbn [mbind option_bind]; [by exists s|].
  replace (a =? 0) with false by lia. rewrite Ht. cbn [mbind option_bind].
  eexists. split; [done|]. apply (sinv_put s L q a t); [done|done|done|]. cbn. discriminate.
Qed.

Lemma task_wait_spec s L q c pid :
  sinv s L q -> tasks s !! current_task s = Some c ->
  let mine (t : task) := (t_parent_pid t =? t_pid c) && ((pid =? -1) || (t_pid t =? pid)) in
  (exists a t s' L' q', tasks s !! a = Some t /\ mine t = true /\ t_state t = TASK_ZOMBIE /\
     task_wait s pid = Some (WReaped (t_pid t) (t_exit_code t), s') /\
     sinv s' L' q' /\ tasks s' !! a = None /\ current_task s' = current_task s) \/
  ((forall a t, tasks s !! a = Some t -> mine t = true -> t_state t <> TASK_ZOMBIE) /\
   ((task_wait s pid = Some (WNone, s) /\ forall a t, tasks s !! a = Some t -> mine t = false) \/
    (exists a t s' s1, tasks s !! a = Some t /\ mine t = true /\
       s1 = put s (current_task s) (set_state (set_waiting_for c pid) TASK_BLOCKED) /\ sinv s1 L q /\
       schedule s1 = Some s' /\ task_wait s pid = Some (WBlocked, s') /\ sinv s' L q))).
Proof.
  intros H1 Hc mine.
 unfold task_wait.
  pose proof (score_ne0 _ _ _ _ _ (si_core _ _ _ H1) Hc) as Hc0. replace (current_task s =? 0) with false by lia.
  rewrite Hc. cbn [mbind option_bind]. cbv zeta.
  change (fun t : task => (t_parent_pid t =? t_pid c) && ((pid =? -1) || (t_pid t =? pid))) with mine.
  change (fun t : task => (t_parent_pid t =? t_pid c) && ((pid =? -1) || (t_pid t =? pid)) && (t_state t =? TASK_ZOMBIE))
    with (fun t => mine t && (t_state t =? TASK_ZOMBIE)).
  destruct (find_task_spec s L q (fun t => mine t && (t_state t =? TASK_ZOMBIE)) (si_core _ _ _ H1))
    as [[Ez Hn]|(_ & z & _ & t & _ & Ez & Hz0 & Hz & Hp & _)]; rewrite Ez; cbn [mbind option_bind].
  2: { left. replace (z =? 0) with false by lia. cbn [negb]. rewrite Hz. cbn [mbind option_bind].
       apply andb_true_iff in Hp as [Hm Hs]. apply Z.eqb_eq in Hs.
       assert (Hzc : z <> current_task s).
       { intros ->. assert (t = c) as -> by congruence. unfold mine in Hm.
         pose proof (si_ids _ _ _ H1 _ _ Hc). lia. }
       destruct (destroy_sinv s L q z t H1 Hz Hzc) as (l & r & s' & _ & -> & Hs' & Hcur & Hgone & _ & _).
       cbn [mbind option_bind]. exists z, t, s', (drop_blocks L z t), (l ++ r). done. }
  right. cbn [Z.eqb negb]. split.
  { intros a t Ha Hm Hs. specialize (Hn a t Ha). simpl in Hn. rewrite Hm, Hs in Hn. discriminate. }
  destruct (find_task_spec s L q mine (si_core _ _ _ H1))
    as [[Ek Hk]|(_ & k & _ & t & _ & Ek & Hk0 & Hk & Hp & _)]; rewrite Ek; cbn [mbind option_bind].
  - left. cbn [Z.eqb]. done.
  - right. replace (k =? 0) with false by lia.
    set (s1 := put s (current_task s) (set_state (set_waiting_for c pid) TASK_BLOCKED)).
    assert (Hs1 : sinv s1 L q).
    { apply (sinv_put s L q _ c); [done|done|done|]. cbn. discriminate. }
    destruct (schedule_ok s1 L q Hs1) as (s' & E & Hs'). rewrite E. cbn [mbind option_bind].
    exists k, t, s', s1. done.
Qed.

(** ** Runs of the scheduler *)

(** A call into the scheduler, or a task writing to one of its stacks. *)
Inductive op :=
| OCreate (entry priority : Z) (mode : bool)
| OCreateUser (entry priority : Z)
| OFork
| ODestroy (id : Z)
| OExit (id code : Z)
| OWait (pid : Z)
| OSchedule
| OTick
| OBlock
| OUnblock (id : Z)
| OStack.

Inductive step : op -> sched St -> sched St -> Prop :=
| st_create s entry priority mode a s' :
    next_tid s < 2147483648 -> task_create user_task_entry s entry priority mode = Some (a, s') -> step (OCreate entry priority mode) s s'
| st_create_user s entry priority a s' :
    next_tid s < 2147483648 -> task_create_user user_task_entry s entry priority = Some (a, s') -> step (OCreateUser entry priority) s s'
| st_fork s r s' : next_tid s < 2147483648 -> task_fork s = Some (r, s') -> step OFork s s'
| st_destroy s id s' : task_destroy s id = Some s' -> step (ODestroy id) s s'
| st_exit s id code s' : task_exit s id code = Some s' -> step (OExit id code) s s'
| st_wait s pid r s' : task_wait s pid = Some (r, s') -> step (OWait pid) s s'
| st_schedule s s' : schedule s = Some s' -> step OSchedule s s'
| st_tick s s' : sched_tick s = Some s' -> step OTick s s'
| st_block s s' : sched_block s = Some s' -> step OBlock s s'
| st_unblock s id s' : sched_unblock s id = Some s' -> step (OUnblock id) s s'
| st_stack s a t b n m' :
    tasks s !! a = Some t -> (b, n) ∈ blocks a t -> b <> a -> frame b n (kmem s) m' ->
    step OStack s (set_kmem s m').

(** The operation releases the task that runs, which then is a dangling pointer: see
    [task_destroy_current_dangles]. *)
Definition destroys_current (o : op) s : Prop := exists c, tasks s !! current_task s = Some c /\ o = ODestroy (t_id c).

(** The states that runs without such an operation pass through. *)
Inductive reachable (s0 : sched St) : sched St -> Prop :=
| reach_refl : reachable s0 s0
| reach_step s o s' : reachable s0 s -> step o s s' -> ~ destroys_current o s -> reachable s0 s'.

(** [sched_init] on an allocator with live blocks [L]. *)
Definition initial s : Prop :=
  task_queue s = 0 /\ current_task s = 0 /\ next_tid s = 1 /\ tasks s = ∅ /\
  exists L, ka_inv (ks s) (kmem s) L.

Lemma initial_sinv s : initial s -> exists L, sinv s L [].
Proof.
  intros (Hq & Hc & Hn & Ht & L & Hi). exists L. split; [split|by left|].
  - done.
  - apply NoDup_nil_2.
  - intros a. rewrite Ht, lookup_empty. split; [by intros [? ?]|by intros ?%not_elem_of_nil].
  - done.
  - by intros b n ?%not_elem_of_nil.
  - apply NoDup_nil_2.
  - intros a t. by rewrite Ht, lookup_empty.
  - lia.
  - intros a t. by rewrite Ht, lookup_empty.
  - intros a b t u. by rewrite Ht, lookup_empty.
  - intros a t. by rewrite Ht, lookup_empty.
Qed.

Definition good s : Prop := exists L q, sinv s L q.

Lemma step_good o s s' : good s -> step o s s' -> ~ destroys_current o s -> good s'.
Proof.
  intros (L & q & H1) Hs Hself.
  destruct Hs as [s entry pr mode a s' Hn E|s entry pr a s' Hn E|s r s' Hn E|s id s' E|s id code s' E
    |s pid r s' E|s s' E|s s' E|s s' E|s id s' E|s a t b n m' Ha Hb Hne Hf].
  - destruct (task_create_spec s L q entry pr mode H1 Hn) as (a' & s2 & E' & Hc).
    rewrite E in E'. simplify_eq. destruct Hc as [(_ & Hc & _)|(t & (_ & _ & _ & _ & _ & _ & L' & Hc & _) & _)];
      by eexists _, _.
  - rewrite task_create_user_eq in E.
    destruct (task_create_spec s L q entry pr false H1 Hn) as (a' & s2 & E' & Hc).
    rewrite E in E'. simplify_eq. destruct Hc as [(_ & Hc & _)|(t & (_ & _ & _ & _ & _ & _ & L' & Hc & _) & _)];
      by eexists _, _.
  - destruct (decide (current_task s = 0)) as [Hz|Hz].
    { unfold task_fork in E. rewrite Hz in E. cbn in E. simplify_eq. by exists L, q. }
    destruct (current_lookup s L q H1 Hz) as (c & Hc).
    destruct (task_fork_spec s L q c H1 Hn Hc) as (r' & s2 & E' & Ho). rewrite E in E'. simplify_eq.
    destruct Ho as [(_ & Ho & _)|(a & t & _ & _ & _ & _ & (_ & _ & _ & _ & _ & _ & L' & Ho & _) & _)];
      by eexists _, _.
  - destruct (find_task_spec s L q (fun u => t_id u =? id) (si_core _ _ _ H1))
      as [[_ Hn]|(_ & a & _ & t & _ & _ & _ & Ht & Hp & _)].
    + rewrite (destroy_absent s L q) in E; [simplify_eq; by exists L, q|apply H1|].
      intros b u Hu. specialize (Hn b u Hu). simpl in Hn. lia.
    + simpl in Hp. apply Z.eqb_eq in Hp. subst id.
      destruct (destroy_sinv s L q a t H1 Ht) as (l & r & s2 & _ & E' & Hs2 & _).
      { intros ->. apply Hself. by exists t. }
      rewrite E in E'. simplify_eq. by eexists _, _.
  - destruct (find_task_spec s L q (fun u => t_id u =? id) (si_core _ _ _ H1))
      as [[_ Hn]|(_ & a & _ & t & _ & _ & _ & Ht & Hp & _)].
    + rewrite (task_exit_absent s L q) in E; [simplify_eq; by exists L, q|apply H1|].
      intros b u Hu. specialize (Hn b u Hu). simpl in Hn. lia.
    + simpl in Hp. apply Z.eqb_eq in Hp. subst id.
      destruct (task_exit_spec s L q a t code H1 Ht) as (s2 & E' & Hs2 & _).
      rewrite E in E'. simplify_eq. by eexists _, _.
  - destruct (decide (current_task s = 0)) as [Hz|Hz].
    { unfold task_wait in E. rewrite Hz in E. cbn in E. simplify_eq. by exists L, q. }
    destruct (current_lookup s L q H1 Hz) as (c & Hc).
    destruct (task_wait_spec s L q c pid H1 Hc) as [(a & t & s2 & L' & q' & _ & _ & _ & E' & Hs2 & _)|
      (_ & [(E' & _)|(a & t & s2 & s1 & _ & _ & _ & _ & _ & E' & Hs2)])];
      rewrite E in E'; simplify_eq; by eexists _, _.
  - destruct (schedule_ok s L q H1) as (s2 & E' & Hs2). rewrite E in E'. simplify_eq. by exists L, q.
  - destruct (sched_tick_ok s L q H1) as (s2 & E' & Hs2). rewrite E in E'. simplify_eq. by exists L, q.
  - destruct (sched_block_ok s L q H1) as (s2 & E' & Hs2). rewrite E in E'. simplify_eq. by exists L, q.
  - destruct (sched_unblock_ok s L q id H1) as (s2 & E' & Hs2). rewrite E in E'. simplify_eq. by exists L, q.
  - exists L, q. destruct (blocks_live s L q a t b n (si_core _ _ _ H1) Ha Hb) as (z & Hz & Hnz & _).
    assert (Hi : ka_inv (ks s) m' L).
    { eapply ka_write; [apply (si_alloc _ _ _ H1)|exact Hz|]. eapply frame_weaken; [exact Hf|lia|lia]. }
    split; [|apply H1|apply H1]. destruct (si_core _ _ _ H1). by split.
Qed.

Lemma reachable_good s0 s : initial s0 -> reachable s0 s -> good s.
Proof.
  intros H1 Hr. induction Hr as [|s o s' Hr IH Hs Hself]; [|by eapply step_good].
  destruct (initial_sinv _ H1) as (L & Hs). by exists L, [].
Qed.

(** ** Alternation of two tasks *)

Lemma position (q x y l1 l2 : list Z) b n :
  NoDup q -> q = x ++ b :: y -> q = l1 ++ n :: l2 -> n ∈ y -> b ∈ l1.
Proof.
  revert q l1. induction x as [|h x IH]; intros q l1 Hnd -> Hq Hn.
  - cbn in Hq, Hnd. apply NoDup_cons in Hnd as [Hnb _]. destruct l1 as [|g l1].
    + cbn in Hq. injection Hq as -> _. done.
    + cbn in Hq. injection Hq as -> _. left.
  - cbn in Hq, Hnd. apply NoDup_cons in Hnd as [Hnh Hnd]. destruct l1 as [|g l1].
    + cbn in Hq. injection Hq as -> _. destruct Hnh. apply elem_of_app. right. by right.
    + cbn in Hq. injection Hq as -> Hq. right. by eapply IH.
Qed.

Lemma pick_ge m q n t b u :
  is_pick m q n -> n <> 0 -> m !! n = Some t -> b ∈ q -> m !! b = Some u -> t_state u = TASK_READY ->
  t_priority u <= t_priority t.
Proof.
  intros [(? & _)|(l1 & l2 & t' & -> & _ & Ht & Hst & H1 & H2)] Hn Hn' Hb Hu Hus; [done|].
  simplify_eq. apply elem_of_app in Hb as [Hb|[->|Hb]%elem_of_cons].
  - specialize (H1 b u Hb Hu Hus). lia.
  - by simplify_eq.
  - by apply (H2 b u).
Qed.

Lemma pick_before m q n t b u x y :
  is_pick m q n -> n <> 0 -> NoDup q -> q = x ++ b :: y -> m !! n = Some t -> n ∈ y ->
  m !! b = Some u -> t_state u = TASK_READY -> t_priority u < t_priority t.
Proof.
  intros [(? & _)|(l1 & l2 & t' & Hq & _ & Ht & Hst & H1 & H2)] Hn Hnd Hq' Hn' Hny Hu Hus; [done|].
  simplify_eq. eapply H1; [|exact Hu|exact Hus]. by eapply position; [|..|exact Hny].
Qed.

(** [a] and [b] are the first two tasks of priority [p] of the queue; one of them
    runs and the other is READY; nobody that could run has a higher priority. *)
Definition duel s (p a b : Z) : Prop :=
  exists L q x y z ta tb,
    sinv s L q /\ q = x ++ a :: y ++ b :: z /\
    tasks s !! a = Some ta /\ tasks s !! b = Some tb /\ t_priority ta = p /\ t_priority tb = p /\
    ((current_task s = a /\ t_state ta = TASK_RUNNING /\ t_state tb = TASK_READY) \/
     (current_task s = b /\ t_state ta = TASK_READY /\ t_state tb = TASK_RUNNING)) /\
    (forall d u, tasks s !! d = Some u -> d <> a -> d <> b -> t_state u = TASK_READY ->
       t_priority u <= p /\ (d ∈ x ++ y -> t_priority u < p)).

Lemma duel_step s p a b :
  duel s p a b -> a <> b /\ exists s', schedule s = Some s' /\ duel s' p a b /\ current_task s' = if current_task s =? a then b else a.
Proof.
  intros (L & q & x & y & z & ta & tb & H1 & Hq & Ha & Hb & Hpa & Hpb & Hcase & Hoth).
  pose proof (si_nodup _ _ _ H1) as Hnd.
  assert (Hab : a <> b).
  { intros ->. rewrite Hq in Hnd. apply NoDup_app in Hnd as (_ & _ & [Hn _]%NoDup_cons).
    apply Hn. apply elem_of_app. right. left. }
  destruct (schedule_cases s L q H1) as [[_ Hn]|(n & t & s' & Hp & Hn0 & Ht & Hst & E & Hs' & Hsw)].
  { destruct Hcase as [(_ & _ & Hr)|(_ & Hr & _)]; [by destruct (Hn b tb Hb)|by destruct (Hn a ta Ha)]. }
  split; [exact Hab|]. exists s'. split; [exact E|].
  pose proof (score_in _ _ _ _ _ (si_core _ _ _ H1) Ha) as Hina.
  pose proof (score_in _ _ _ _ _ (si_core _ _ _ H1) Hb) as Hinb.
  pose proof (score_in _ _ _ _ _ (si_core _ _ _ H1) Ht) as Hinn.
  assert (Hnn : n = a \/ n = b).
  { destruct (decide (n = a)) as [|Hna]; [by left|]. destruct (decide (n = b)) as [|Hnb]; [by right|].
    destruct (Hoth n t Ht Hna Hnb Hst) as [Hle Hlt].
    assert (Hz : n ∈ x ++ y \/ n ∈ z).
    { rewrite Hq in Hinn. rewrite !elem_of_app, !elem_of_cons in Hinn. rewrite !elem_of_app, elem_of_cons in Hinn.
      rewrite elem_of_app. tauto. }
    destruct Hcase as [(_ & _ & Hrb)|(_ & Hra & _)].
    - pose proof (pick_ge _ _ _ _ _ _ Hp Hn0 Ht Hinb Hb Hrb).
      destruct Hz as [Hz|Hz]; [specialize (Hlt Hz); lia|].
      assert (Hq' : q = (x ++ a :: y) ++ b :: z) by (rewrite Hq; by rewrite <- (assoc_L (++))).
      pose proof (pick_before _ _ _ _ _ _ _ _ Hp Hn0 Hnd Hq' Ht Hz Hb Hrb). lia.
    - pose proof (pick_ge _ _ _ _ _ _ Hp Hn0 Ht Hina Ha Hra).
      destruct Hz as [Hz|Hz]; [specialize (Hlt Hz); lia|].
      assert (Hin : n ∈ y ++ b :: z) by (apply elem_of_app; right; by right).
      pose proof (pick_before _ _ _ _ _ _ _ _ Hp Hn0 Hnd Hq Ht Hin Ha Hra). lia. }
  destruct Hsw as (Hcur & Htasks & _).
  assert (Hothers : forall d u, tasks s' !! d = Some u -> d <> a -> d <> b -> tasks s !! d = Some u).
  { intros d u. rewrite Htasks. intros Hd Hda Hdb. rewrite lookup_insert_ne in Hd by (by destruct Hnn; congruence).
    unfold demote in Hd. destruct (tasks s !! current_task s) as [c|]; [|done].
    destruct (t_state c =? TASK_RUNNING); [|done].
    rewrite lookup_insert_ne in Hd; [done|]. destruct Hcase as [(-> & _)|(-> & _)]; congruence. }
  destruct Hcase as [(Hc & Hra & Hrb)|(Hc & Hra & Hrb)].
  - assert (n = b) as ->. { destruct Hnn as [Hna|]; [|done]. subst n. assert (t = ta) as -> by congruence. by rewrite Hra in Hst. }
    split; [|rewrite Hcur, Hc; by rewrite Z.eqb_refl].
    exists L, q, x, y, z, (set_state ta TASK_READY), (resumed tb).
    assert (HT : tasks s' = <[b := resumed tb]> (<[a := set_state ta TASK_READY]> (tasks s))).
    { rewrite Htasks. unfold demote. rewrite Hc, Ha, Hra, Z.eqb_refl. congruence. }
    split; [exact Hs'|]. split; [exact Hq|].
    split; [by rewrite HT, lookup_insert_ne, lookup_insert_eq|].
    split; [by rewrite HT, lookup_insert_eq|]. split; [done|]. split; [done|].
    split; [right; done|]. intros d u Hd Hda Hdb. apply Hoth; [|done|done]. by apply Hothers.
  - assert (n = a) as ->. { destruct Hnn as [|Hnb]; [done|]. subst n. assert (t = tb) as -> by congruence. by rewrite Hrb in Hst. }
    split; [|rewrite Hcur, Hc; by replace (b =? a) with false by lia].
    exists L, q, x, y, z, (resumed ta), (set_state tb TASK_READY).
    assert (HT : tasks s' = <[a := resumed ta]> (<[b := set_state tb TASK_READY]> (tasks s))).
    { rewrite Htasks. unfold demote. rewrite Hc, Hb, Hrb, Z.eqb_refl. congruence. }
    split; [exact Hs'|]. split; [exact Hq|].
    split; [by rewrite HT, lookup_insert_eq|].
    split; [by rewrite HT, lookup_insert_ne, lookup_insert_eq|]. split; [done|]. split; [done|].
    split; [left; done|]. intros d u Hd Hda Hdb. apply Hoth; [|done|done]. by apply Hothers.
Qed.

(** [n] calls of [schedule]. *)
Fixpoint schedules (n : nat) s : option (sched St) :=
  match n with O => Some s | S n' => schedule s ≫= schedules n' end.

(** [task_destroy] of the current task, which the shell's kill command allows,
    leaves [current_task] pointing to the released structure: the next timer
    tick reads it. *)
Lemma destroy_running s L q c :
  sinv s L q -> tasks s !! current_task s = Some c ->
  exists l r s', q = l ++ current_task s :: r /\ task_destroy s (t_id c) = Some s' /\
    score s' (drop_blocks L (current_task s) c) (l ++ r) /\ current_task s' = current_task s /\
    tasks s' !! current_task s = None /\
    (forall b u, b <> current_task s -> tasks s !! b = Some u -> exists n, tasks s' !! b = Some (set_next u n)) /\
    sched_tick s' = None.
Proof.
  intros H1 Hc. pose proof (score_ne0 _ _ _ _ _ (si_core _ _ _ H1) Hc) as Hc0.
  destruct (destroy_score s L q _ c (si_core _ _ _ H1) Hc) as (l & r & k & m & Hq & E & Hs & _).
  cbn zeta in E, Hs. eexists l, r, _. split; [exact Hq|]. split; [exact E|]. split; [exact Hs|]. split; [done|].
  assert (Hd : forall T : gmap Z task, delete (current_task s) T !! current_task s = None)
    by (intros; apply lookup_delete_eq).
  split; [apply Hd|]. split; [intros b u Hne Hu; cbn; by apply unlink_some|].
  unfold sched_tick. cbn. replace (current_task s =? 0) with false by lia. by rewrite Hd.
Qed.

Theorem task_destroy_current_dangles s L q c :
  sinv s L q -> tasks s !! current_task s = Some c ->
  exists s', task_destroy s (t_id c) = Some s' /\ current_task s' = current_task s /\
    tasks s' !! current_task s' = None /\ sched_tick s' = None.
Proof.
  intros H1 Hc. destruct (destroy_running s L q c H1 Hc) as (l & r & s' & _ & E & _ & Hcur & Hn & _ & Ht).
  exists s'. by rewrite Hcur.
Qed.

Lemma task_destroy_total s L q id : sinv s L q -> task_destroy s id <> None.
Proof.
  intros H1. destruct (find_task_spec s L q (fun u => t_id u =? id) (si_core _ _ _ H1)) as [[_ Hn]|(_ & a & _ & t & _ & _ & _ & Ht & Hp & _)].
  - rewrite (destroy_absent s L q); [done|apply H1|]. intros b u Hu. specialize (Hn b u Hu). simpl in Hn. lia.
  - simpl in Hp. apply Z.eqb_eq in Hp. subst id. destruct (destroy_score s L q a t (si_core _ _ _ H1) Ht) as (l & r & k & m & _ & E & _).
    cbn zeta in E. by rewrite E.
Qed.

(** ** Properties *)

(** C1: safety of the scheduler under every interleaving of its operations in which
    no task that runs is destroyed.  From [sched_init], whatever tasks do, the run queue is
    a NULL-terminated chain of distinct live tasks with distinct ids, each owning its own
    heap blocks; at most one task is RUNNING, the current one; and every operation returns.
    Destroying the task that runs returns too, but leaves [current_task] at the released
    structure, and the next tick follows it. *)
Theorem scheduler_safe s0 s :
  initial s0 -> reachable s0 s ->
  (exists L q, sinv s L q) /\
  (forall a b t u, tasks s !! a = Some t -> tasks s !! b = Some u ->
     t_state t = TASK_RUNNING -> t_state u = TASK_RUNNING -> a = b) /\
  schedule s <> None /\ sched_tick s <> None /\ sched_block s <> None /\
  (forall id, sched_unblock s id <> None) /\ (forall id code, task_exit s id code <> None) /\
  (forall pid, task_wait s pid <> None) /\
  (next_tid s < 2147483648 -> task_fork s <> None /\
     (forall e p k, task_create user_task_entry s e p k <> None) /\ forall e p, task_create_user user_task_entry s e p <> None) /\
  (forall id, task_destroy s id <> None) /\
  (forall c, tasks s !! current_task s = Some c -> exists s', task_destroy s (t_id c) = Some s' /\ current_task s' = current_task s /\
     tasks s' !! current_task s' = None /\ sched_tick s' = None).
Proof.
  intros Hi Hr. destruct (reachable_good s0 s Hi Hr) as (L & q & H1).
  split; [by exists L, q|]. split.
  { intros a b t u Ha Hb Hta Hub. by rewrite (si_running _ _ _ H1 a t Ha Hta), (si_running _ _ _ H1 b u Hb Hub). }
  destruct (schedule_ok s L q H1) as (s1 & -> & _). destruct (sched_tick_ok s L q H1) as (s2 & -> & _).
  destruct (sched_block_ok s L q H1) as (s3 & -> & _).
  split; [done|]. split; [done|]. split; [done|]. split; [|split; [|split; [|split; [|split]]]].
  - intros id. by destruct (sched_unblock_ok s L q id H1) as (s4 & -> & _).
  - intros id code. destruct (find_task_spec s L q (fun u => t_id u =? id) (si_core _ _ _ H1))
      as [[_ Hn]|(_ & a & _ & t & _ & _ & _ & Ht & Hp & _)].
    + rewrite (task_exit_absent s L q); [done|apply H1|]. intros b u Hu. specialize (Hn b u Hu). simpl in Hn. lia.
    + simpl in Hp. apply Z.eqb_eq in Hp. subst id. by destruct (task_exit_spec s L q a t code H1 Ht) as (s5 & -> & _).
  - intros pid. destruct (decide (current_task s = 0)) as [Hz|Hz]; [unfold task_wait; by rewrite Hz|].
    destruct (current_lookup s L q H1 Hz) as (c & Hc).
    by destruct (task_wait_spec s L q c pid H1 Hc) as [(? & ? & ? & ? & ? & _ & _ & _ & -> & _)|
      (_ & [(-> & _)|(? & ? & ? & ? & _ & _ & _ & _ & _ & -> & _)])].
  - intros Hn. split.
    + destruct (decide (current_task s = 0)) as [Hz|Hz]; [unfold task_fork; by rewrite Hz|].
      destruct (current_lookup s L q H1 Hz) as (c & Hc).
      by destruct (task_fork_spec s L q c H1 Hn Hc) as (? & ? & -> & _).
    + assert (Hc : forall e p k, task_create user_task_entry s e p k <> None)
        by (intros e p k; by destruct (task_create_spec s L q e p k H1 Hn) as (? & ? & -> & _)).
      split; [exact Hc|]. intros e p. rewrite task_create_user_eq. apply Hc.
  - intros id. by eapply task_destroy_total.
  - intros c Hc. by eapply task_destroy_current_dangles.
Qed.

(** C6: [schedule] switches to the first task of the highest priority among the
    READY tasks of the queue, and does nothing when no task is READY.  The task
    that was running is not a candidate: it becomes READY and loses the CPU even
    to a task of lower priority.  Only these two tasks change; the kernel stack
    of the new one goes into the TSS. *)
Theorem schedule_picks_highest_ready s L q :
  sinv s L q ->
  (schedule s = Some s /\ forall a t, tasks s !! a = Some t -> t_state t <> TASK_READY) \/
  exists l1 l2 n t s', schedule s = Some s' /\ sinv s' L q /\ q = l1 ++ n :: l2 /\
    tasks s !! n = Some t /\ t_state t = TASK_READY /\ current_task s' = n /\
    tasks s' !! n = Some (set_time_slice (set_state t TASK_RUNNING) 10) /\
    (forall b u, b ∈ l1 -> tasks s !! b = Some u -> t_state u = TASK_READY -> t_priority u < t_priority t) /\
    (forall b u, b ∈ l2 -> tasks s !! b = Some u -> t_state u = TASK_READY -> t_priority u <= t_priority t) /\
    (forall b u, b <> n -> tasks s !! b = Some u -> tasks s' !! b =
       Some (if t_state u =? TASK_RUNNING then set_state u TASK_READY else u)) /\
    esp0 s' = (if t_kernel_stack t =? 0 then esp0 s else u32 (t_kernel_stack t + KERNEL_STACK_SIZE)) /\
    switches s' = (if current_task s =? n then switches s else (current_task s, n) :: switches s).
Proof.
  intros H1. destruct (schedule_cases s L q H1) as [Hn|(n & t & s' & Hp & Hn0 & Ht & Hst & E & Hs' & Hsw)];
    [by left|right].
  destruct Hp as [(? & _)|(l1 & l2 & t' & Hq & _ & Ht' & _ & Hlt & Hle)]; [done|].
  assert (t' = t) as -> by congruence.
  destruct Hsw as (Hcur & Htasks & He & Hw & _).
  exists l1, l2, n, t, s'. split; [done|]. split; [done|]. split; [done|]. split; [done|]. split; [done|].
  split; [done|]. split; [by rewrite Htasks, lookup_insert_eq|]. split; [done|]. split; [done|].
  split; [|done]. intros b u Hbn Hu. rewrite Htasks, lookup_insert_ne by done. unfold demote.
  destruct (Z.eqb_spec (t_state u) TASK_RUNNING) as [Hr|Hr].
  - pose proof (si_running _ _ _ H1 b u Hu Hr) as <-. rewrite Hu.
    by rewrite Hr, Z.eqb_refl, lookup_insert_eq.
  - destruct (tasks s !! current_task s) as [c|] eqn:Ec; [|done].
    destruct (Z.eqb_spec (t_state c) TASK_RUNNING) as [Hrc|]; [|done].
    rewrite lookup_insert_ne; [done|]. intros <-. congruence.
Qed.

(** a child's exit code reaches its parent.  After [task_exit] of a child,
    a [task_wait] of the parent for that pid or for any child ends at once and
    reaps a zombie child; waiting for that pid returns it with its exit code and
    removes the task. *)
Theorem wait_returns_exit_code s L q a t c code :
  sinv s L q -> tasks s !! a = Some t -> tasks s !! current_task s = Some c ->
  t_parent_pid t = t_pid c ->
  exists s1 s2 L' q', task_exit s (t_id t) code = Some s1 /\
    task_wait s1 (t_pid t) = Some (WReaped (t_pid t) code, s2) /\
    sinv s2 L' q' /\ tasks s2 !! a = None /\ current_task s2 = current_task s.
Proof.
  intros H1 Ha Hc Hpar. destruct (task_exit_spec s L q a t code H1 Ha) as (s1 & E1 & Hs1 & Hcur & Hz & Hoth).
  pose proof (si_ids _ _ _ H1 _ _ Ha) as (_ & Hid & Hlt).
  assert (Hca : current_task s <> a).
  { intros Hx. rewrite Hx, Ha in Hc. simplify_eq. lia. }
  pose proof (Hoth _ c Hca Hc) as Hc1. rewrite <- Hcur in Hc1.
  match type of Hc1 with _ = Some ?x => set (c1 := x) in * end.
  assert (Hpid : t_pid c1 = t_pid c) by (unfold c1; by destruct (_ && _)).
  destruct (task_wait_spec s1 L q c1 (t_pid t) Hs1 Hc1) as [(b & u & s2 & L' & q' & Hb & Hm & _ & E2 & Hs2 & Hgone & Hcur2)|(Hn & _)].
  - assert (b = a) as ->.
    { apply andb_true_iff in Hm as [_ Hm]. pose proof (si_ids _ _ _ Hs1 _ _ Hb) as Hib.
      pose proof (si_ids _ _ _ Hs1 _ _ Hz) as Hiz. cbn in Hiz.
      apply (si_unique _ _ _ Hs1 b a u _ Hb Hz). cbn. lia. }
    rewrite Hz in Hb. simplify_eq. cbn [t_pid t_exit_code set_exit_code set_state] in E2.
    exists s1, s2, L', q'. split; [done|]. split; [done|]. split; [done|]. split; [done|congruence].
  - exfalso. apply (Hn a _ Hz); [|done]. cbn. rewrite Hpid, Hpar, !Z.eqb_refl. by rewrite orb_true_r.
Qed.

(** [task_create] and [task_create_user] are all or nothing: they add one READY
    task with the requested priority and entry point in front of the queue, with
    the next id, or return NULL with every block they had taken released.  No
    live block changes in either case. *)
Theorem task_create_all_or_nothing s L q entry priority mode :
  sinv s L q -> next_tid s < 2147483648 ->
  task_create_user user_task_entry s entry priority = task_create user_task_entry s entry priority false /\
  exists a s', task_create user_task_entry s entry priority mode = Some (a, s') /\
    preserves L (kmem s) (kmem s') /\ current_task s' = current_task s /\
    ((a = 0 /\ sinv s' L q /\ tasks s' = tasks s /\ task_queue s' = task_queue s) \/
     exists t L', sinv s' L' (a :: q) /\ L ⊆ L' /\ tasks s !! a = None /\ tasks s' = <[a := t]> (tasks s) /\
       t_id t = next_tid s /\ t_pid t = next_tid s /\ t_state t = TASK_READY /\
       t_priority t = priority /\ t_kernel_mode t = mode /\ c_eip (t_context t) = entry).
Proof.
  intros H1 Hn. split; [apply task_create_user_eq|].
  destruct (task_create_spec s L q entry priority mode H1 Hn) as (a & s' & E & Hc).
  exists a, s'. split; [done|].
  destruct Hc as [(-> & A & B & C & D & F)|(t & (A & B & C & D & _ & F & L' & G & I) & J)].
  - split; [done|]. split; [done|]. left. done.
  - split; [done|]. split; [done|]. right. exists t, L'. done.
Qed.

(** [task_fork] copies the current task: the child has the next id, is READY,
    sees 0 in [eax], has the parent's pid as parent, and its kernel stack (and
    user stack) hold the same bytes with the stack pointer at the same offset;
    or the call returns -1 and nothing was taken. *)
Theorem task_fork_copies s L q c :
  sinv s L q -> next_tid s < 2147483648 -> tasks s !! current_task s = Some c ->
  exists r s', task_fork s = Some (r, s') /\
    ((r = -1 /\ sinv s' L q /\ tasks s' = tasks s) \/
     exists a t L', r = next_tid s /\ sinv s' L' (a :: q) /\ tasks s' = <[a := t]> (tasks s) /\
       t_id t = next_tid s /\ t_parent_pid t = t_pid c /\ t_state t = TASK_READY /\
       c_eax (t_context t) = 0 /\ c_eip (t_context t) = c_eip (t_context c) /\
       c_esp (t_context t) = u32 (t_kernel_stack t + u32 (c_esp (t_context c) - t_kernel_stack c)) /\
       same_bytes (kmem s) (kmem s') (t_kernel_stack c) (t_kernel_stack t) /\
       (t_kernel_mode c = false -> t_user_stack c <> 0 ->
          same_bytes (kmem s) (kmem s') (t_user_stack c) (t_user_stack t))).
Proof.
  intros H1 Hn Hc. destruct (task_fork_spec s L q c H1 Hn Hc) as (r & s' & E & Ho).
  exists r, s'. split; [done|].
  destruct Ho as [(-> & A & B & _)|(a & t & kst & ust & utop & -> & (_ & B & _ & _ & _ & _ & L' & G & _) & Ht & S1 & S2)];
    [by left|right].
  exists a, t, L'. split; [done|]. split; [done|]. split; [done|]. subst t. by split_and!.
Qed.

(** [task_destroy] of a task other than the current one unlinks it from the
    queue and releases its structure and stacks, and only those. *)
Theorem task_destroy_releases s L q a t :
  sinv s L q -> tasks s !! a = Some t -> a <> current_task s ->
  exists l r s', q = l ++ a :: r /\ task_destroy s (t_id t) = Some s' /\
    sinv s' (drop_blocks L a t) (l ++ r) /\ tasks s' !! a = None /\
    (forall b u, b <> a -> tasks s !! b = Some u -> exists n, tasks s' !! b = Some (set_next u n)) /\
    preserves (drop_blocks L a t) (kmem s) (kmem s').
Proof.
  intros H1 Ha Hc. destruct (destroy_sinv s L q a t H1 Ha Hc) as (l & r & s' & A & B & C & _ & D & E & F).
  exists l, r, s'. done.
Qed.

(** C40: [schedule] is not fair: when the first two tasks of the highest priority
    are both willing to run, each call of [schedule] gives the processor to the other of
    the two, for ever, and no call reaches a third task. *)
Theorem schedule_starves_third_task s p a b n :
  duel s p a b ->
  exists s', schedules n s = Some s' /\ duel s' p a b /\ (current_task s = a \/ current_task s = b) /\
    current_task s' = if Nat.even n then current_task s else if current_task s =? a then b else a.
Proof.
  revert s. induction n as [|n IH]; intros s Hd.
  - exists s. split; [done|]. split; [done|]. split; [|done].
    destruct Hd as (L & q & x & y & z & ta & tb & _ & _ & _ & _ & _ & _ & Hc & _). tauto.
  - destruct (duel_step s p a b Hd) as (Hab & s1 & E & Hd1 & Hc1). cbn [schedules]. rewrite E. cbn [mbind option_bind].
    destruct (IH s1 Hd1) as (s' & E' & Hd' & _ & Hc'). exists s'. split; [exact E'|]. split; [exact Hd'|].
    assert (Hc : current_task s = a \/ current_task s = b)
      by (destruct Hd as (L & q & x & y & z & ta & tb & _ & _ & _ & _ & _ & _ & Hc & _); tauto).
    split; [exact Hc|]. rewrite Hc', Hc1, Nat.even_succ, <- Nat.negb_even.
    assert (Eb : (b =? a) = false) by (apply Z.eqb_neq; congruence).
    destruct (Nat.even n), Hc as [->| ->]; cbn [negb]; by rewrite ?Z.eqb_refl, ?Eb, ?Z.eqb_refl, ?Eb.
Qed.
End proofs.

(** ** A small machine

    The heap of Heap.v with 256 KiB, and tasks of priority 5 created one after the
    other; [user_task_entry] is at 99. *)

Definition d0 : sched heap :=
  let '(_, h, m) := heap_init ∅ 65536 262144 in Sched 0 0 1 0 ∅ 0 [] h m.

Definition result {A} (o : option (A * sched heap)) : sched heap :=
  match o with Some (_, s) => s | None => d0 end.
Definition defined {A} (o : option A) : bool := match o with Some _ => true | None => false end.

Lemma result_some {A} (o : option (A * sched heap)) :
  defined o = true -> exists x, o = Some (x, result o).
Proof. destruct o as [[x s]|]; [|done]. by exists x. Qed.

Definition d1 : sched heap := result (task_create 99 d0 1000 5 true).
Definition d2 : sched heap := default d0 (schedule d1).
(** Two more tasks, children of the first, which runs. *)
Definition d3 : sched heap := result (task_create 99 d2 2000 5 true).
Definition d4 : sched heap := result (task_create 99 d3 3000 5 true).
(** The first of the queue runs now. *)
Definition d5 : sched heap := default d0 (schedule d4).

Lemma d0_initial : initial d0.
Proof.
  split; [done|]. split; [done|]. split; [done|]. split; [done|].
  exists (live_map (ks d0) [(262132, false)]).
  exists [(262132, false)]. split; [|split; [done|]].
  - apply (heap_init_inv ∅ 65536 262144); lia.
  - by intros q k ?%not_elem_of_nil.
Qed.

Lemma d1_reachable : reachable 99 d0 d1.
Proof.
  destruct (result_some (task_create 99 d0 1000 5 true)) as (a & E); [vm_compute; reflexivity|].
  eapply reach_step; [apply reach_refl|eapply st_create; [|exact E]; vm_compute; reflexivity|by intros (c & _ & ?)].
Qed.

Lemma schedule_reachable s : reachable 99 d0 s -> defined (schedule s) = true ->
  reachable 99 d0 (default d0 (schedule s)).
Proof.
  intros Hr Hd. destruct (schedule s) as [s'|] eqn:E; [|done].
  eapply reach_step; [exact Hr|by apply st_schedule|by intros (c & _ & ?)].
Qed.

Lemma d2_reachable : reachable 99 d0 d2.
Proof. apply schedule_reachable; [apply d1_reachable|vm_compute; reflexivity]. Qed.

Lemma d3_reachable : reachable 99 d0 d3.
Proof.
  destruct (result_some (task_create 99 d2 2000 5 true)) as (a & E); [vm_compute; reflexivity|].
  eapply reach_step; [apply d2_reachable|eapply st_create; [|exact E]; vm_compute; reflexivity|by intros (c & _ & ?)].
Qed.

Lemma d4_reachable : reachable 99 d0 d4.
Proof.
  destruct (result_some (task_create 99 d3 3000 5 true)) as (a & E); [vm_compute; reflexivity|].
  eapply reach_step; [apply d3_reachable|eapply st_create; [|exact E]; vm_compute; reflexivity|by intros (c & _ & ?)].
Qed.

Lemma d5_reachable : reachable 99 d0 d5.
Proof. apply schedule_reachable; [apply d4_reachable|vm_compute; reflexivity]. Qed.

Lemma scheduler_safe_witness : schedule d5 <> None /\ sched_tick d5 <> None.
Proof.
  destruct (scheduler_safe 99 d0 d5 d0_initial d5_reachable) as (_ & _ & A & B & _). exact (conj A B).
Defined.

Lemma good_of s : reachable 99 d0 s -> exists L q, sinv s L q.
Proof. intros Hr. exact (reachable_good 99 d0 s d0_initial Hr). Qed.

Definition task_at (s : sched heap) (a : Z) : task := default zero_task (tasks s !! a).

(** The addresses of the tasks with ids 1, 2 and 3. *)
Definition a1 : Z := current_task d2.
Definition a2 : Z := task_queue d3.
Definition a3 : Z := task_queue d4.

Lemma task_at_some s a : defined (tasks s !! a) = true -> tasks s !! a = Some (task_at s a).
Proof. unfold task_at. by destruct (tasks s !! a). Qed.

Lemma schedule_picks_highest_ready_witness : exists (q : list Z) n t s',
  schedule d4 = Some s' /\ n ∈ q /\ tasks d4 !! n = Some t /\ current_task s' = n.
Proof.
  destruct (good_of d4 d4_reachable) as (L & q & H1). exists q.
  destruct (schedule_picks_highest_ready d4 L q H1) as [[_ Hn]|
    (l1 & l2 & n & t & s' & E & _ & -> & Ht & _ & Hc & _)].
  - exfalso. apply (Hn a3 (task_at d4 a3)); [apply task_at_some; vm_compute; reflexivity|vm_compute; reflexivity].
  - exists n, t, s'. split; [exact E|]. split; [|exact (conj Ht Hc)].
    apply elem_of_app. right. left.
Defined.

Lemma wait_returns_exit_code_witness : exists s1 s2,
  task_exit d4 (t_id (task_at d4 a2)) 7 = Some s1 /\
  task_wait s1 (t_pid (task_at d4 a2)) = Some (WReaped (t_pid (task_at d4 a2)) 7, s2).
Proof.
  destruct (good_of d4 d4_reachable) as (L & q & H1).
  destruct (wait_returns_exit_code d4 L q a2 (task_at d4 a2) (task_at d4 a1) 7 H1) as
    (s1 & s2 & _ & _ & A & B & _).
  - apply task_at_some. vm_compute. reflexivity.
  - apply (task_at_some d4 (current_task d4)). vm_compute. reflexivity.
  - vm_compute. reflexivity.
  - exact (ex_intro _ s1 (ex_intro _ s2 (conj A B))).
Defined.

Lemma task_create_all_or_nothing_witness : exists a s',
  task_create 99 d4 4000 1 false = Some (a, s') /\ current_task s' = current_task d4.
Proof.
  destruct (good_of d4 d4_reachable) as (L & q & H1).
  destruct (task_create_all_or_nothing 99 d4 L q 4000 1 false H1 ltac:(vm_compute; reflexivity))
    as (_ & a & s' & A & _ & B & _).
  exact (ex_intro _ a (ex_intro _ s' (conj A B))).
Defined.

Lemma task_fork_copies_witness : exists r s', task_fork d4 = Some (r, s').
Proof.
  destruct (good_of d4 d4_reachable) as (L & q & H1).
  destruct (task_fork_copies d4 L q (task_at d4 a1) H1 ltac:(vm_compute; reflexivity)) as (r & s' & A & _).
  - apply (task_at_some d4 (current_task d4)). vm_compute. reflexivity.
  - exact (ex_intro _ r (ex_intro _ s' A)).
Defined.

Lemma task_destroy_releases_witness : exists s',
  task_destroy d4 (t_id (task_at d4 a2)) = Some s' /\ tasks s' !! a2 = None.
Proof.
  destruct (good_of d4 d4_reachable) as (L & q & H1).
  destruct (task_destroy_releases d4 L q a2 (task_at d4 a2) H1) as (l & r & s' & _ & A & _ & B & _).
  - apply task_at_some. vm_compute. reflexivity.
  - vm_compute. discriminate.
  - exact (ex_intro _ s' (conj A B)).
Defined.

Lemma task_destroy_current_dangles_witness : exists s',
  task_destroy d4 (t_id (task_at d4 a1)) = Some s' /\ sched_tick s' = None.
Proof.
  destruct (good_of d4 d4_reachable) as (L & q & H1).
  destruct (task_destroy_current_dangles d4 L q (task_at d4 a1) H1) as (s' & A & _ & _ & B).
  - apply (task_at_some d4 (current_task d4)). vm_compute. reflexivity.
  - exact (ex_intro _ s' (conj A B)).
Defined.

Lemma qseg_det m p q q' : qseg m p q -> qseg m p q' -> q = q'.
Proof.
  revert p q'. induction q as [|a q IH]; intros p q' H1 H2.
  - simpl in H1. subst p. by apply qseg_nil_inv in H2.
  - destruct H1 as (-> & Ha & t & Ht & H1). destruct q' as [|b q']; [simpl in H2; lia|].
    destruct H2 as (-> & _ & u & Hu & H2). f_equal. eapply IH; [exact H1|]. congruence.
Qed.

(** Three tasks of one priority: the third in the queue never runs again. *)
Lemma d5_duel : duel d5 5 a3 a2.
Proof.
  destruct (good_of d5 d5_reachable) as (L & q & H1).
  assert (Hq : q = [a3; a2; a1]).
  { eapply qseg_det; [apply (si_queue _ _ _ (si_core _ _ _ H1))|].
    assert (forall a, defined (tasks d5 !! a) = true -> exists t, tasks d5 !! a = Some t /\ t = task_at d5 a) as Hx.
    { intros a Ha. exists (task_at d5 a). split; [by apply task_at_some|done]. }
    split; [vm_compute; reflexivity|]. split; [vm_compute; discriminate|].
    destruct (Hx a3) as (t & Ht & ->); [vm_compute; reflexivity|]. eexists. split; [exact Ht|].
    split; [vm_compute; reflexivity|]. split; [vm_compute; discriminate|].
    destruct (Hx a2) as (t & Ht2 & ->); [vm_compute; reflexivity|]. eexists. split; [exact Ht2|].
    split; [vm_compute; reflexivity|]. split; [vm_compute; discriminate|].
    destruct (Hx a1) as (t & Ht3 & ->); [vm_compute; reflexivity|]. eexists. split; [exact Ht3|].
    vm_compute. reflexivity. }
  exists L, q, [], [], [a1], (task_at d5 a3), (task_at d5 a2).
  split; [exact H1|]. split; [exact Hq|].
  split; [apply task_at_some; vm_compute; reflexivity|].
  split; [apply task_at_some; vm_compute; reflexivity|].
  split; [vm_compute; reflexivity|]. split; [vm_compute; reflexivity|].
  split; [left; vm_compute; done|].
  assert (Hall : map_Forall (fun _ u => t_priority u <= 5) (tasks d5)).
  { apply (bool_decide_unpack _). vm_compute. exact I. }
  intros d u Hd _ _ _. split; [exact (Hall d u Hd)|]. intros Hx. destruct (not_elem_of_nil d Hx).
Qed.

Lemma schedule_starves_third_task_witness : exists s s', schedules 1000 d5 = Some s /\ current_task s = a3 /\ schedules 1001 d5 = Some s' /\ current_task s' = a2.
Proof.
  destruct (schedule_starves_third_task d5 5 a3 a2 1000 d5_duel) as (s & A & _ & _ & B).
  destruct (schedule_starves_third_task d5 5 a3 a2 1001 d5_duel) as (s' & A' & _ & _ & B').
  exists s, s'. split; [exact A|]. split; [rewrite B; vm_compute; reflexivity|]. split; [exact A'|rewrite B'; vm_compute; reflexivity].
Defined.

(** [sched_unblock] does not look at the state: it makes a zombie READY again. *)
Example sched_unblock_revives_zombie :
  match task_exit d4 (t_id (task_at d4 a2)) 7 with
  | Some s => match sched_unblock s (t_id (task_at d4 a2)) with
              | Some s' => t_state (task_at s a2) = TASK_ZOMBIE /\ t_state (task_at s' a2) = TASK_READY
              | None => False
              end
  | None => False
  end.
Proof. vm_compute. done. Qed.
