(* ===== verification/Ipc.v ===== *)
(** kernel/ipc/ipc.c: ports and messages.

    The port table is a list of 256 records; the queue of a port is a ring of 16
    messages of 272 bytes in a heap block.  Blocking goes through the scheduler
    (Sched), whose state the IPC state contains.  The [while (1)] loops of
    [msg_send] and [msg_receive] are given by their iteration: [Blocked] means
    that the caller has called [sched_block] and runs the iteration again when it
    is scheduled.  [None] is a fault: a division by zero, or a fault of the
    scheduler or of the heap.

    [contents] is the abstract view of a port: the messages waiting in it. *)

From S2P Require Import Prelude Mem CString KAlloc Heap Sched.
Local Open Scope Z_scope.

(** ** Definitions *)

Definition MSG_QUEUE_SIZE : Z := 16.
Definition MAX_PORTS : Z := 256.
Definition MAX_MSG_SIZE : Z := 256.
Definition IPC_NONBLOCK : Z := 2.
(** sizeof(struct message) *)
Definition MSG_BYTES : Z := 16 + MAX_MSG_SIZE.

Record port := Port {
  owner : Z;
  p_id : Z;
  p_flags : Z;
  queue : Z;
  queue_head : Z;
  queue_tail : Z;
  queue_size : Z;
  waiting_sender : Z;
  waiting_receiver : Z
}.

(** What [memset] to 0 leaves. *)
Definition zero_port : port := Port 0 0 0 0 0 0 0 0 0.
#[export] Instance port_inhabited : Inhabited port := populate zero_port.

Definition set_tail (p : port) (v : Z) : port :=
  Port (owner p) (p_id p) (p_flags p) (queue p) (queue_head p) v (queue_size p)
    (waiting_sender p) (waiting_receiver p).
Definition set_head (p : port) (v : Z) : port :=
  Port (owner p) (p_id p) (p_flags p) (queue p) v (queue_tail p) (queue_size p)
    (waiting_sender p) (waiting_receiver p).
Definition set_waiting_sender (p : port) (v : Z) : port :=
  Port (owner p) (p_id p) (p_flags p) (queue p) (queue_head p) (queue_tail p) (queue_size p)
    v (waiting_receiver p).
Definition set_waiting_receiver (p : port) (v : Z) : port :=
  Port (owner p) (p_id p) (p_flags p) (queue p) (queue_head p) (queue_tail p) (queue_size p)
    (waiting_sender p) v.

Inductive outcome := Done (code : Z) | Blocked.

Section operations.
Context {St : Type} `{KAlloc St}.

Record ipc := Ipc { ports : list port; port_count : Z; sc : sched St }.

Definition with_sc (s : ipc) (c : sched St) : ipc := Ipc (ports s) (port_count s) c.
Definition port_at (s : ipc) (i : Z) : port := ports s !!! Z.to_nat i.
Definition set_port (s : ipc) (i : Z) (p : port) : ipc :=
  Ipc (<[Z.to_nat i := p]> (ports s)) (port_count s) (sc s).
Definition set_count (s : ipc) (n : Z) : ipc := Ipc (ports s) n (sc s).

Definition ipc_init (s : ipc) : ipc := Ipc (replicate (Z.to_nat MAX_PORTS) zero_port) 0 (sc s).

(** The first port that passes the test, in the [for] loops over the table. *)
Definition find_port (s : ipc) (P : port -> bool) : option Z :=
  find_range (fun i => P (port_at s i)) 0 (Z.to_nat MAX_PORTS).

Definition port_create (s : ipc) (own : Z) : option (Z * ipc) :=
  if MAX_PORTS <=? port_count s then Some (-1, s) else
  match find_port s (fun p => owner p =? 0) with
  | None => Some (-1, s)
  | Some i =>
      let p := port_at s i in
      '(a, c) ← do_kmalloc (sc s) (MSG_BYTES * MSG_QUEUE_SIZE);
      let p := Port own i 0 a (queue_head p) (queue_tail p) (queue_size p)
                 (waiting_sender p) (waiting_receiver p) in
      let s := set_port (with_sc s c) i p in
      if a =? 0 then Some (-1, s) else
      let s := with_sc s (set_kmem c (memset (kmem c) a 0 (MSG_BYTES * MSG_QUEUE_SIZE))) in
      let s := set_port s i (Port own i 0 a 0 0 MSG_QUEUE_SIZE 0 0) in
      Some (i, set_count s (u32 (port_count s + 1)))
  end.

Definition port_destroy (s : ipc) (port_id : Z) : option (Z * ipc) :=
  if (port_id <? 0) || (MAX_PORTS <=? port_id) then Some (-1, s) else
  let p := port_at s port_id in
  if owner p =? 0 then Some (-1, s) else
  c ← (if waiting_sender p =? 0 then Some (sc s) else sched_unblock (sc s) (waiting_sender p));
  c ← (if waiting_receiver p =? 0 then Some c else sched_unblock c (waiting_receiver p));
  c ← (if queue p =? 0 then Some c else do_kfree c (queue p));
  let s := set_port (with_sc s c) port_id zero_port in
  Some (0, set_count s (u32 (port_count s - 1))).

(** [p->waiting_x = current->id; sched_block(0); continue;], or the code when
    there is no current task. *)
Definition wait_on (s : ipc) (port_id : Z) (mark : Z -> port) : option (outcome * ipc) :=
  let current := sched_get_current (sc s) in
  if current =? 0 then Some (Done (-2), s) else
  t ← tasks (sc s) !! current;
  let s := set_port s port_id (mark (t_id t)) in
  c ← sched_block (sc s);
  Some (Blocked, with_sc s c).

(** One iteration of the loop of [msg_send].  [put] stores the caller's message at an
    address of the queue: the pointer [msg] may be one that the kernel shares with its
    caller, or one into the address space of a user (Syscall). *)
Definition send_step_by (put : mem -> Z -> option mem) (s : ipc) (port_id flags : Z) : option (outcome * ipc) :=
  let p := port_at s port_id in
  if queue_size p =? 0 then None else
  let next_tail := u32 (queue_tail p + 1) mod queue_size p in
  if next_tail =? queue_head p then
    if negb (Z.land flags IPC_NONBLOCK =? 0) then Some (Done (-2), s) else
    wait_on s port_id (set_waiting_sender p)
  else
    m ← put (kmem (sc s)) (queue p + MSG_BYTES * queue_tail p);
    let p := set_tail p next_tail in
    let c := set_kmem (sc s) m in
    c ← (if waiting_receiver p =? 0 then Some c else sched_unblock c (waiting_receiver p));
    Some (Done 0, set_port (with_sc s c) port_id (set_waiting_receiver p 0)).

Definition msg_send_by (put : mem -> Z -> option mem) (s : ipc) (port_id msg flags : Z) : option (outcome * ipc) :=
  if (port_id <? 0) || (MAX_PORTS <=? port_id) then Some (Done (-1), s) else
  if owner (port_at s port_id) =? 0 then Some (Done (-1), s) else
  if msg =? 0 then Some (Done (-1), s) else
  send_step_by put s port_id flags.

(** One iteration of the loop of [msg_receive]; [get] copies a message of the queue to
    the caller. *)
Definition receive_step_by (get : mem -> Z -> option mem) (s : ipc) (port_id flags : Z) : option (outcome * ipc) :=
  let p := port_at s port_id in
  if queue_head p =? queue_tail p then
    if negb (Z.land flags IPC_NONBLOCK =? 0) then Some (Done (-2), s) else
    wait_on s port_id (set_waiting_receiver p)
  else
    m ← get (kmem (sc s)) (queue p + MSG_BYTES * queue_head p);
    if queue_size p =? 0 then None else
    let p := set_head p (u32 (queue_head p + 1) mod queue_size p) in
    let c := set_kmem (sc s) m in
    c ← (if waiting_sender p =? 0 then Some c else sched_unblock c (waiting_sender p));
    Some (Done 0, set_port (with_sc s c) port_id (set_waiting_sender p 0)).

Definition msg_receive_by (get : mem -> Z -> option mem) (s : ipc) (port_id msg flags : Z) : option (outcome * ipc) :=
  if (port_id <? 0) || (MAX_PORTS <=? port_id) then Some (Done (-1), s) else
  if owner (port_at s port_id) =? 0 then Some (Done (-1), s) else
  if msg =? 0 then Some (Done (-1), s) else
  receive_step_by get s port_id flags.

(** The callers in the kernel. *)
Definition send_step (s : ipc) (port_id msg flags : Z) : option (outcome * ipc) :=
  send_step_by (fun m dst => Some (memcpy m dst msg MSG_BYTES)) s port_id flags.
Definition msg_send (s : ipc) (port_id msg flags : Z) : option (outcome * ipc) :=
  msg_send_by (fun m dst => Some (memcpy m dst msg MSG_BYTES)) s port_id msg flags.
Definition receive_step (s : ipc) (port_id msg flags : Z) : option (outcome * ipc) :=
  receive_step_by (fun m src => Some (memcpy m msg src MSG_BYTES)) s port_id flags.
Definition msg_receive (s : ipc) (port_id msg flags : Z) : option (outcome * ipc) :=
  msg_receive_by (fun m src => Some (memcpy m msg src MSG_BYTES)) s port_id msg flags.

Definition msg_reply (s : ipc) (dest msg : Z) : option (outcome * ipc) :=
  match find_port s (fun p => owner p =? dest) with
  | None => Some (Done (-1), s)
  | Some i => msg_send s i msg IPC_NONBLOCK
  end.
End operations.

Arguments ipc : clear implicits.

(** ** The messages of a port *)

(** The [n] bytes at [a]. *)
Definition bytes (m : mem) (a n : Z) : list Z := (fun i => load8 m (a + i)) <$> seqZ 0 n.

(** How many messages wait, and the address of the [k]th. *)
Definition waiting (p : port) : Z := (queue_tail p - queue_head p) mod 16.
Definition slot (p : port) (k : Z) : Z := queue p + MSG_BYTES * ((queue_head p + k) mod 16).
Definition contents (m : mem) (p : port) : list (list Z) :=
  (fun k => bytes m (slot p k) MSG_BYTES) <$> seqZ 0 (waiting p).

(** A port in use, with a queue in the heap block of [L] at [queue p]. *)
Definition opened (L : gmap Z Z) (p : port) : Prop :=
  owner p <> 0 /\ queue_size p = 16 /\ 0 <= queue_head p < 16 /\ 0 <= queue_tail p < 16 /\
  exists k, L !! queue p = Some k /\ MSG_BYTES * MSG_QUEUE_SIZE <= k.

(** Queue and position of a port are all that [contents] sees. *)
Lemma contents_same_ring m p p' :
  queue p' = queue p -> queue_head p' = queue_head p -> queue_tail p' = queue_tail p ->
  contents m p' = contents m p.
Proof. intros E1 E2 E3. unfold contents, waiting, slot. by rewrite E1, E2, E3. Qed.

Lemma bytes_same m m' a n : same_range a n m m' -> bytes m' a n = bytes m a n.
Proof.
  intros Hs. unfold bytes. apply list_fmap_ext. intros i x Hx%list_elem_of_lookup_2.
  apply Hs. apply elem_of_seqZ in Hx. lia.
Qed.

Lemma length_bytes m a n : 0 <= n -> Z.of_nat (length (bytes m a n)) = n.
Proof. intros. unfold bytes. rewrite length_fmap, length_seqZ. lia. Qed.

Lemma length_contents m p : Z.of_nat (length (contents m p)) = waiting p.
Proof.
  unfold contents. rewrite length_fmap, length_seqZ.
  pose proof (Z.mod_pos_bound (queue_tail p - queue_head p) 16). unfold waiting. lia.
Qed.

Lemma slot_range p k :
  queue p <= slot p k /\ slot p k + MSG_BYTES <= queue p + MSG_BYTES * MSG_QUEUE_SIZE.
Proof.
  unfold slot, MSG_BYTES, MSG_QUEUE_SIZE, MAX_MSG_SIZE.
  pose proof (Z.mod_pos_bound (queue_head p + k) 16). lia.
Qed.

Lemma contents_ext m m' p :
  same_range (queue p) (MSG_BYTES * MSG_QUEUE_SIZE) m m' -> contents m' p = contents m p.
Proof.
  intros Hs. unfold contents. apply list_fmap_ext. intros i k _. apply bytes_same.
  eapply same_range_sub; [exact Hs|apply slot_range..].
Qed.

Lemma bytes_memcpy m d src n :
  0 <= n -> src + n <= d \/ d + n <= src -> bytes (memcpy m d src n) d n = bytes m src n.
Proof.
  intros Hn Hd. unfold bytes. apply list_fmap_ext. intros i x Hx%list_elem_of_lookup_2.
  apply elem_of_seqZ in Hx. rewrite load8_memcpy by lia. rcases. f_equal. lia.
Qed.

Section ring.
Context (L : gmap Z Z) (p : port) (Hp : opened L p).

Lemma slot_tail : slot p (waiting p) = queue p + MSG_BYTES * queue_tail p.
Proof using Hp.
  destruct Hp as (_ & _ & Hh & Ht & _). unfold slot, waiting. f_equal. f_equal. zdm.
Qed.

Lemma slot_disjoint j k :
  0 <= j < 16 -> 0 <= k < 16 -> j <> k -> slot p j + MSG_BYTES <= slot p k \/ slot p k + MSG_BYTES <= slot p j.
Proof using Hp.
  intros Hj Hk Hne. destruct Hp as (_ & _ & Hh & _). unfold slot, MSG_BYTES, MAX_MSG_SIZE.
  assert ((queue_head p + j) mod 16 <> (queue_head p + k) mod 16) by zdm. lia.
Qed.

(** [next_tail == queue_head] is fullness: 15 messages. *)
Lemma full_spec m : u32 (queue_tail p + 1) mod queue_size p = queue_head p <-> length (contents m p) = 15%nat.
Proof using Hp.
  destruct Hp as (_ & Hs & Hh & Ht & _). rewrite Hs, u32_small by lia.
  pose proof (length_contents m p). unfold waiting in *.
  split; intros; [|assert ((queue_tail p - queue_head p) mod 16 = 15) by lia]; zdm.
Qed.

Lemma empty_spec m : queue_head p = queue_tail p <-> contents m p = [].
Proof using Hp.
  destruct Hp as (_ & _ & Hh & Ht & _). rewrite <- length_zero_iff_nil.
  pose proof (length_contents m p). unfold waiting in *.
  split; intros; [|assert ((queue_tail p - queue_head p) mod 16 = 0) by lia]; zdm.
Qed.

(** Storing a message at the tail appends it. *)
Lemma contents_push m m' data :
  (length (contents m p) <> 15)%nat ->
  frame (queue p + MSG_BYTES * queue_tail p) MSG_BYTES m m' -> bytes m' (queue p + MSG_BYTES * queue_tail p) MSG_BYTES = data ->
  contents m' (set_tail p (u32 (queue_tail p + 1) mod queue_size p)) = contents m p ++ [data].
Proof using Hp.
  intros Hl Hfr Hda. pose proof (length_contents m p) as Hlc. rewrite <- slot_tail in Hfr, Hda.
  pose proof Hp as (_ & Hs & Hh & Ht & _).
  rewrite Hs, u32_small by lia. set (p' := set_tail p ((queue_tail p + 1) mod 16)).
  assert (Hw : 0 <= waiting p < 15) by (unfold waiting in *; zdm).
  assert (Hw' : waiting p' = waiting p + 1) by (unfold waiting, p' in *; cbn; zdm).
  unfold contents. rewrite Hw', seqZ_app, fmap_app by lia. f_equal.
  - apply list_fmap_ext. intros i k Hk%list_elem_of_lookup_2. apply elem_of_seqZ in Hk.
    change (slot p' k) with (slot p k). apply bytes_same.
    eapply frame_same; [exact Hfr|]. destruct (slot_disjoint k (waiting p)); lia.
  - rewrite Z.add_0_l, seqZ_1. cbn [fmap list_fmap]. change (slot p' (waiting p)) with (slot p (waiting p)). by rewrite Hda.
Qed.

(** Moving the head drops the first message. *)
Lemma contents_pop m :
  queue_head p <> queue_tail p ->
  contents m p = bytes m (queue p + MSG_BYTES * queue_head p) MSG_BYTES
                 :: contents m (set_head p (u32 (queue_head p + 1) mod queue_size p)).
Proof using Hp.
  intros Hne. pose proof Hp as (_ & Hs & Hh & Ht & _).
  rewrite Hs, u32_small by lia. set (p' := set_head p ((queue_head p + 1) mod 16)).
  assert (Hw : waiting p = 1 + waiting p') by (unfold waiting, p'; cbn; zdm).
  assert (0 <= waiting p') by (unfold waiting; zdm).
  unfold contents. rewrite Hw, seqZ_app by lia. rewrite Z.add_0_l.
  rewrite seqZ_1. cbn [fmap list_fmap app].
  f_equal.
  - f_equal. unfold slot. f_equal. f_equal. zdm.
  - rewrite <- (fmap_add_seqZ 1 0), <- list_fmap_compose. apply list_fmap_ext. intros i k _. cbn.
    f_equal. unfold slot, p'. cbn. f_equal. f_equal. zdm.
Qed.
End ring.

Section proofs.
Context {St : Type} `{KAllocLaws St}.
Implicit Types (s : ipc St) (L : gmap Z Z) (q : list Z).

(** ** What the scheduler's operations leave alone *)

(** Same tasks up to state, time slice and the like. *)
Definition same_tasks (T T' : gmap Z task) : Prop :=
  forall a t, T !! a = Some t -> exists t', T' !! a = Some t' /\ same_shape t t'.

Lemma same_tasks_blocks T T' q :
  (forall a, a ∈ q -> is_Some (T !! a)) -> same_tasks T T' -> all_blocks T' q = all_blocks T q.
Proof.
  intros Hd Hs. apply all_blocks_ext. intros a Ha. destruct (Hd a Ha) as (t & Ht).
  destruct (Hs a t Ht) as (t' & Ht' & Hsh). unfold blocks_at. rewrite Ht, Ht'.
  by apply same_shape_blocks.
Qed.

Lemma same_tasks_put (c : sched St) a t t' :
  tasks c !! a = Some t -> same_shape t t' -> same_tasks (tasks c) (tasks (put c a t')).
Proof.
  intros Ha Hs b u Hb. cbn [tasks put set_tasks]. destruct (decide (a = b)) as [<-|Hne].
  - rewrite Ha in Hb. injection Hb as <-. exists t'. by rewrite lookup_insert_eq.
  - exists u. by rewrite lookup_insert_ne.
Qed.

Lemma same_tasks_trans T1 T2 T3 : same_tasks T1 T2 -> same_tasks T2 T3 -> same_tasks T1 T3.
Proof.
  intros H1 H2 a t Ha. destruct (H1 a t Ha) as (t2 & Ht2 & S2).
  destruct (H2 a t2 Ht2) as (t3 & Ht3 & S3). exists t3. split; [done|].
  unfold same_shape in *. naive_solver congruence.
Qed.

Lemma same_tasks_demote (c : sched St) : same_tasks (tasks c) (demote c).
Proof.
  unfold demote. destruct (tasks c !! current_task c) as [t|] eqn:E; [|intros a u ?; by exists u].
  destruct (_ =? _); [|intros a u ?; by exists u]. by apply (same_tasks_put c _ t).
Qed.

(** A step of the scheduler that only changes task states: the invariant, the
    heap, the memory and the blocks of every task are kept. *)
Definition quiet (c : sched St) L q (c' : sched St) : Prop :=
  sinv c' L q /\ ks c' = ks c /\ kmem c' = kmem c /\ all_blocks (tasks c') q = all_blocks (tasks c) q.

Lemma quiet_same (c : sched St) L q c' :
  sinv c L q -> sinv c' L q -> same_tasks (tasks c) (tasks c') -> ks c' = ks c -> kmem c' = kmem c ->
  quiet c L q c'.
Proof.
  intros H1 H2 Hs Hk Hm. repeat (split; [done|]). apply same_tasks_blocks; [|done].
  intros a Ha. by apply (si_dom _ _ _ (si_core _ _ _ H1)).
Qed.

Lemma sched_block_quiet (c : sched St) L q :
  sinv c L q -> exists c', sched_block c = Some c' /\ quiet c L q c'.
Proof.
  intros H1. unfold sched_block.
  destruct (Z.eqb_spec (current_task c) 0) as [|Hc]; [by exists c|].
  destruct (current_lookup c L q H1 Hc) as (t & Ht). rewrite Ht. cbn [mbind option_bind].
  set (c1 := put c (current_task c) (set_state t TASK_BLOCKED)).
  assert (Hs1 : sinv c1 L q) by by apply (sinv_put c L q _ t).
  assert (Hst : same_tasks (tasks c) (tasks c1)) by by apply (same_tasks_put c _ t).
  destruct (schedule_cases c1 L q Hs1) as [[-> _]|(n & u & s' & _ & _ & Hu & Hr & -> & Hs & Hsw)].
  - exists c1. split; [done|]. by apply quiet_same.
  - exists s'. split; [done|]. destruct Hsw as (_ & Ht' & _ & _ & _ & _ & _ & Hk & Hm).
    apply quiet_same; [done|done| |by rewrite Hk|by rewrite Hm].
    eapply same_tasks_trans; [exact Hst|]. eapply same_tasks_trans; [apply same_tasks_demote|].
    rewrite Ht'. apply (same_tasks_put (set_tasks c1 (demote c1)) n u); [|done].
    by apply demote_ready.
Qed.

(** The task with id [tid], if there is one, is READY; nothing else changes. *)
Definition woken (tid : Z) (T T' : gmap Z task) : Prop :=
  T' = (fun t => if t_id t =? tid then set_state t TASK_READY else t) <$> T.

Lemma sched_unblock_quiet (c : sched St) L q tid :
  sinv c L q -> exists c', sched_unblock c tid = Some c' /\ quiet c L q c' /\
    woken tid (tasks c) (tasks c') /\ current_task c' = current_task c.
Proof.
  intros H1. unfold sched_unblock, woken.
  destruct (find_task_spec c L q (fun u => t_id u =? tid) (si_core _ _ _ H1))
    as [[-> Hn]|(_ & a & _ & t & _ & -> & Ha0 & Ht & Hid & _)]; cbn [mbind option_bind].
  - exists c. split; [done|]. split; [done|]. split; [|done]. symmetry. etrans; [|apply map_fmap_id].
    apply map_fmap_ext. intros a t Ha. by rewrite (Hn a t Ha).
  - replace (a =? 0) with false by lia. rewrite Ht. cbn [mbind option_bind].
    eexists. split; [done|]. split; [|split; [|done]].
    { apply quiet_same; [done| |by apply (same_tasks_put c a t)|done|done].
      apply (sinv_put c L q a t); [done|done|done|]. cbn. discriminate. }
    cbn [tasks put set_tasks]. apply map_eq. intros b. rewrite lookup_fmap.
    destruct (decide (a = b)) as [<-|Hne].
    + rewrite lookup_insert_eq, Ht. cbn. by rewrite Hid.
    + rewrite lookup_insert_ne by done. destruct (tasks c !! b) as [u|] eqn:E; [|done]. cbn. f_equal.
      destruct (Z.eqb_spec (t_id u) tid) as [He|]; [|done]. destruct Hne.
      eapply (si_unique _ _ _ (si_core _ _ _ H1)); [exact Ht|exact E|]. simpl in Hid. lia.
Qed.

(** [if (p->waiting_x) sched_unblock(p->waiting_x);]: ids are positive, so 0 wakes nobody. *)
Lemma wake_quiet (c : sched St) L q tid :
  sinv c L q -> exists c', (if tid =? 0 then Some c else sched_unblock c tid) = Some c' /\
    quiet c L q c' /\ woken tid (tasks c) (tasks c') /\ current_task c' = current_task c.
Proof.
  intros H1. destruct (Z.eqb_spec tid 0) as [->|]; [|by apply sched_unblock_quiet].
  exists c. split; [done|]. split; [done|]. split; [|done]. unfold woken. symmetry. etrans; [|apply map_fmap_id].
  apply map_fmap_ext. intros a t Ha. pose proof (si_ids _ _ _ (si_core _ _ _ H1) a t Ha).
  by replace (t_id t =? 0) with false by lia.
Qed.

(** The kernel memory under the scheduler changes. *)
Lemma sinv_kmem (c : sched St) L q m :
  sinv c L q -> ka_inv (ks c) m L -> sinv (set_kmem c m) L q.
Proof.
  intros H1 Hi. destruct c as [h cur n tk T e w k m0]. apply (sinv_mk _ k m n L L q H1 Hi); [|done].
  pose proof (si_tid _ _ _ (si_core _ _ _ H1)). cbn in *. lia.
Qed.

(** ** The invariant *)

(** The queue blocks of the ports in use are distinct live blocks that no task
    owns; a port not in use is zero. *)
Record iinv s L q : Prop := {
  ii_sched : sinv (sc s) L q;
  ii_len : length (ports s) = 256%nat;
  ii_port : forall i p, ports s !! i = Some p -> p = zero_port \/ opened L p;
  ii_owner : forall i p, ports s !! i = Some p -> owner p <> 0 -> queue p ∉ (all_blocks (tasks (sc s)) q).*1;
  ii_distinct : forall i j p p', ports s !! i = Some p -> ports s !! j = Some p' ->
    owner p <> 0 -> owner p' <> 0 -> queue p = queue p' -> i = j
}.

(** Port [i] is in use and is [p]. *)
Definition live_port s (i : Z) (p : port) : Prop :=
  0 <= i < 256 /\ ports s !! Z.to_nat i = Some p /\ owner p <> 0.

Lemma live_opened s L q i p : iinv s L q -> live_port s i p -> opened L p.
Proof.
  intros H1 (_ & Hp & Ho). destruct (ii_port _ _ _ H1 _ _ Hp) as [->|?]; [done|done].
Qed.

Lemma live_port_at s i p : live_port s i p -> port_at s i = p.
Proof. intros (_ & Hp & _). unfold port_at. by apply list_lookup_total_correct. Qed.

(** [s'] differs from [s] in port [i], which is [p'], in the states of tasks and
    in memory outside the queues of the other ports. *)
Definition only_port s (i : Z) (p' : port) s' : Prop :=
  live_port s' i p' /\ port_count s' = port_count s /\
  forall j p, j <> i -> live_port s j p ->
    live_port s' j p /\ contents (kmem (sc s')) p = contents (kmem (sc s)) p.

(** Same queue block, same owner. *)
Definition same_queue (p p' : port) : Prop :=
  owner p' = owner p /\ queue p' = queue p /\ queue_size p' = queue_size p /\
  0 <= queue_head p' < 16 /\ 0 <= queue_tail p' < 16.

Lemma iinv_set s L q i p p' c :
  iinv s L q -> live_port s i p -> same_queue p p' -> sinv c L q ->
  all_blocks (tasks c) q = all_blocks (tasks (sc s)) q ->
  iinv (set_port (with_sc s c) i p') L q /\ live_port (set_port (with_sc s c) i p') i p' /\
  forall j r, j <> i -> live_port s j r -> live_port (set_port (with_sc s c) i p') j r.
Proof.
  intros H1 Hl (E1 & E2 & E3 & Hh & Ht) Hc Hb. pose proof (live_opened _ _ _ _ _ H1 Hl) as Hop.
  destruct Hl as (Hi & Hp & Ho). pose proof (ii_len _ _ _ H1) as Hlen.
  assert (Hlk : forall j r, <[Z.to_nat i := p']> (ports s) !! j = Some r ->
    r = p' /\ j = Z.to_nat i \/ ports s !! j = Some r /\ j <> Z.to_nat i).
  { intros j r Hj. destruct (decide (j = Z.to_nat i)) as [->|Hne].
    - rewrite list_lookup_insert_eq in Hj by lia. left. by injection Hj as <-.
    - rewrite list_lookup_insert_ne in Hj by done. by right. }
  assert (Hx : forall j r, <[Z.to_nat i := p']> (ports s) !! j = Some r ->
    exists r0, ports s !! j = Some r0 /\ owner r = owner r0 /\ queue r = queue r0).
  { intros j r [[-> ->]|[Hj _]]%Hlk; [by exists p|by exists r]. }
  split; [split|split].
  - done.
  - cbn. by rewrite length_insert.
  - cbn. intros j r [[-> ->]|[Hj _]]%Hlk; [right|by apply (ii_port _ _ _ H1 j)].
    destruct Hop as (_ & Hs & _ & _ & k & Hk & Hle).
    split; [by rewrite E1|]. split; [by rewrite E3|]. split; [done|]. split; [done|].
    exists k. by rewrite E2.
  - cbn. rewrite Hb. intros j r (r0 & Hj & -> & ->)%Hx. by apply (ii_owner _ _ _ H1 j).
  - cbn. intros j k r w (r0 & Hj & -> & ->)%Hx (w0 & Hk & -> & ->)%Hx. by apply (ii_distinct _ _ _ H1).
  - split; [done|]. split; [|by rewrite E1]. cbn. rewrite list_lookup_insert_eq; [done|lia].
  - intros j r Hne (Hj & Hr & Hor). split; [done|]. split; [|done]. cbn.
    rewrite list_lookup_insert_ne; [done|lia].
Qed.

(** The queues of two ports do not meet. *)
Lemma queues_disjoint s L q i j p p' :
  iinv s L q -> live_port s i p -> live_port s j p' -> i <> j ->
  queue p + MSG_BYTES * MSG_QUEUE_SIZE <= queue p' \/ queue p' + MSG_BYTES * MSG_QUEUE_SIZE <= queue p.
Proof.
  intros H1 Hi Hj Hne.
  destruct (live_opened _ _ _ _ _ H1 Hi) as (_ & _ & _ & _ & k & Hk & Hle).
  destruct (live_opened _ _ _ _ _ H1 Hj) as (_ & _ & _ & _ & k' & Hk' & Hle').
  destruct Hi as (Hi & Hpi & Hoi), Hj as (Hj & Hpj & Hoj).
  destruct (decide (queue p = queue p')) as [He|Hq].
  - pose proof (ii_distinct _ _ _ H1 _ _ _ _ Hpi Hpj Hoi Hoj He). lia.
  - destruct (ka_disjoint _ _ L _ _ _ _ (si_alloc _ _ _ (si_core _ _ _ (ii_sched _ _ _ H1))) Hk Hk' Hq); lia.
Qed.

(** A place for a message outside the queues: a live heap block, or memory that
    is not the heap's. *)
Definition buffer s L (msg : Z) : Prop :=
  ((exists a k, L !! a = Some k /\ a <= msg /\ msg + MSG_BYTES <= a + k) \/
   msg + MSG_BYTES <= ka_lo (ks (sc s)) \/ ka_lo (ks (sc s)) + ka_len (ks (sc s)) <= msg) /\
  forall i p, live_port s i p -> msg + MSG_BYTES <= queue p \/ queue p + MSG_BYTES * MSG_QUEUE_SIZE <= msg.

Lemma buffer_write s L msg m :
  ka_inv (ks (sc s)) (kmem (sc s)) L -> buffer s L msg ->
  frame msg MSG_BYTES (kmem (sc s)) m -> ka_inv (ks (sc s)) m L.
Proof.
  intros Hi [[(a & k & Ha & H1 & H2)|H1] _] Hf.
  - eapply ka_write; [exact Hi|exact Ha|]. by eapply frame_weaken.
  - eapply ka_outside; [exact Hi|]. eapply frame_same; [exact Hf|]. lia.
Qed.

(** A write into the queue of a port. *)
Lemma queue_write s L q p m :
  iinv s L q -> opened L p -> frame (queue p) (MSG_BYTES * MSG_QUEUE_SIZE) (kmem (sc s)) m ->
  ka_inv (ks (sc s)) m L.
Proof.
  intros H1 (_ & _ & _ & _ & k & Hk & Hle) Hf.
  eapply ka_write; [apply (ii_sched _ _ _ H1)|exact Hk|]. eapply frame_weaken; [exact Hf|lia|lia].
Qed.

(** ** The operations *)

(** The caller sleeps: [mark] records it in the port. *)
Lemma wait_on_spec s L q i p mark :
  iinv s L q -> live_port s i p -> (forall v, same_queue p (mark v)) ->
  (forall m v, contents m (mark v) = contents m p) ->
  (current_task (sc s) = 0 /\ wait_on s i mark = Some (Done (-2), s)) \/
  exists t s', tasks (sc s) !! current_task (sc s) = Some t /\ wait_on s i mark = Some (Blocked, s') /\
    sched_block (sc s) = Some (sc s') /\ iinv s' L q /\ only_port s i (mark (t_id t)) s' /\
    kmem (sc s') = kmem (sc s).
Proof.
  intros H1 Hl Hm Hcm. unfold wait_on, sched_get_current.
  destruct (Z.eqb_spec (current_task (sc s)) 0) as [|Hc]; [by left|right].
  destruct (current_lookup _ L q (ii_sched _ _ _ H1) Hc) as (t & Ht). rewrite Ht. cbn [mbind option_bind].
  destruct (sched_block_quiet _ L q (ii_sched _ _ _ H1)) as (c & Hb & Hq1 & Hk & Hkm & Hbl).
  change (sc (set_port s i (mark (t_id t)))) with (sc s). rewrite Hb. cbn [mbind option_bind].
  destruct (iinv_set s L q i p _ c H1 Hl (Hm (t_id t)) Hq1 Hbl) as (I1 & I2 & I3).
  exists t. eexists. split; [done|]. split; [done|]. split; [done|]. split; [exact I1|]. split; [|done].
  split; [exact I2|]. split; [done|]. intros j r Hne Hr. split; [by apply I3|]. cbn. by rewrite Hkm.
Qed.

(** Storing [m] in memory, then waking [tid], then port [i] becomes [p']. *)
Lemma done_spec s L q i p p' m tid :
  iinv s L q -> live_port s i p -> same_queue p p' -> ka_inv (ks (sc s)) m L ->
  (forall j r, j <> i -> live_port s j r ->
     same_range (queue r) (MSG_BYTES * MSG_QUEUE_SIZE) (kmem (sc s)) m) ->
  exists c, (if tid =? 0 then Some (set_kmem (sc s) m) else sched_unblock (set_kmem (sc s) m) tid) = Some c /\
    let s' := set_port (with_sc s c) i p' in
    iinv s' L q /\ only_port s i p' s' /\ kmem (sc s') = m /\
    woken tid (tasks (sc s)) (tasks (sc s')) /\ current_task (sc s') = current_task (sc s).
Proof.
  intros H1 Hl Hsq Hi Hs.
  destruct (wake_quiet _ L q tid (sinv_kmem _ L q m (ii_sched _ _ _ H1) Hi)) as (c & E & (Hq1 & Hk & Hkm & Hbl) & Hw & Hcur).
  exists c. split; [exact E|].
  destruct (iinv_set s L q i p p' c H1 Hl Hsq Hq1 Hbl) as (I1 & I2 & I3).
  split; [exact I1|]. split; [|done].
  split; [exact I2|]. split; [done|]. intros j r Hne Hr. split; [by apply I3|]. cbn. rewrite Hkm.
  apply contents_ext. by apply (Hs j).
Qed.

(** [put] stores [data] at the tail of the queue, and nothing elsewhere. *)
Definition stores (put : mem -> Z -> option mem) (m : mem) (p : port) (data : list Z) : Prop :=
  let dst := queue p + MSG_BYTES * queue_tail p in
  exists m', put m dst = Some m' /\ frame dst MSG_BYTES m m' /\ bytes m' dst MSG_BYTES = data.

(** What a send comes to: the message is queued, or the queue is full. *)
Definition sent s (i : Z) (p : port) (data : list Z) (fl : Z) (o : outcome) s' : Prop :=
  let old := contents (kmem (sc s)) p in
  (o = Done 0 /\ length old <> 15%nat /\ exists p', only_port s i p' s' /\
      contents (kmem (sc s')) p' = old ++ [data] /\
      waiting_receiver p' = 0 /\ woken (waiting_receiver p) (tasks (sc s)) (tasks (sc s'))) \/
  (o = Done (-2) /\ s' = s /\ length old = 15%nat /\
      (Z.land fl IPC_NONBLOCK <> 0 \/ current_task (sc s) = 0)) \/
  (o = Blocked /\ length old = 15%nat /\ Z.land fl IPC_NONBLOCK = 0 /\ exists t,
      tasks (sc s) !! current_task (sc s) = Some t /\ sched_block (sc s) = Some (sc s') /\
      only_port s i (set_waiting_sender p (t_id t)) s' /\ kmem (sc s') = kmem (sc s)).

Lemma send_step_by_spec s L q i p put data fl :
  iinv s L q -> live_port s i p -> stores put (kmem (sc s)) p data ->
  exists o s', send_step_by put s i fl = Some (o, s') /\ iinv s' L q /\ sent s i p data fl o s' /\
    frame (queue p) (MSG_BYTES * MSG_QUEUE_SIZE) (kmem (sc s)) (kmem (sc s')).
Proof.
  intros H1 Hl (m & Eput & Hfr0 & Hda). unfold sent. set (old := contents (kmem (sc s)) p).
  pose proof (live_opened _ _ _ _ _ H1 Hl) as Hop.
  pose proof Hop as (_ & Hsz & Hh & Ht & _). unfold send_step_by. rewrite (live_port_at _ _ _ Hl).
  replace (queue_size p =? 0) with false by lia.
  pose proof (full_spec L p Hop (kmem (sc s))) as Hfull. fold old in Hfull.
  destruct (Z.eqb_spec (u32 (queue_tail p + 1) mod queue_size p) (queue_head p)) as [Hf|Hf].
  - apply Hfull in Hf. destruct (Z.eqb_spec (Z.land fl IPC_NONBLOCK) 0) as [Hn|Hn]; cbn [negb].
    + destruct (wait_on_spec s L q i p (set_waiting_sender p) H1 Hl) as
        [[Hc ->]|(t & s' & Ht' & -> & Hb & Hi & Ho & Hk)]; [done|done| |].
      * exists (Done (-2)), s. split; [done|]. split; [done|]. split; [|apply frame_refl]. right. left. eauto.
      * exists Blocked, s'. split; [done|]. split; [done|]. split; [|rewrite Hk; apply frame_refl].
        right. right. split; [done|]. split; [done|]. split; [done|]. by exists t.
    + exists (Done (-2)), s. split; [done|]. split; [done|]. split; [|apply frame_refl]. right. left. eauto.
  - assert (Hlen : length old <> 15%nat) by tauto.
    set (p1 := set_tail p (u32 (queue_tail p + 1) mod queue_size p)).
    rewrite Eput. cbn [mbind option_bind].
    assert (Hfr : frame (queue p) (MSG_BYTES * MSG_QUEUE_SIZE) (kmem (sc s)) m).
    { unfold MSG_BYTES, MSG_QUEUE_SIZE, MAX_MSG_SIZE in *. eapply frame_weaken; [exact Hfr0|lia|lia]. }
    destruct (done_spec s L q i p (set_waiting_receiver p1 0) m (waiting_receiver p1) H1 Hl)
      as (c & E & Hi & Ho & Hk & Hw & _).
    { split; [done|]. split; [done|]. split; [done|]. split; [done|]. cbn. rewrite Hsz.
      apply Z.mod_pos_bound. lia. }
    { by eapply queue_write. }
    { intros j r Hne Hr. eapply frame_same; [exact Hfr|].
      destruct (queues_disjoint s L q i j p r H1 Hl Hr); lia. }
    rewrite E. cbn [mbind option_bind]. eexists _, _. split; [done|]. split; [exact Hi|]. split; [|by rewrite Hk].
    left. split; [done|]. split; [done|]. eexists. split; [exact Ho|]. rewrite Hk. split; [|done].
    rewrite (contents_same_ring _ p1) by done. by apply (contents_push L).
Qed.

(** [memcpy] from a message outside the queue. *)
Lemma memcpy_stores s L q i p msg : iinv s L q -> live_port s i p ->
  msg + MSG_BYTES <= queue p \/ queue p + MSG_BYTES * MSG_QUEUE_SIZE <= msg ->
  stores (fun m dst => Some (memcpy m dst msg MSG_BYTES)) (kmem (sc s)) p (bytes (kmem (sc s)) msg MSG_BYTES).
Proof.
  intros H1 Hl Hd. destruct (live_opened _ _ _ _ _ H1 Hl) as (_ & Hsz & Hh & Ht & _). unfold MSG_BYTES, MAX_MSG_SIZE, MSG_QUEUE_SIZE in *.
  eexists. split; [done|]. split; [apply frame_memcpy; unfold MSG_BYTES, MAX_MSG_SIZE; lia|].
  apply bytes_memcpy; unfold MSG_BYTES, MAX_MSG_SIZE; lia.
Qed.

Lemma send_step_spec s L q i p msg fl :
  iinv s L q -> live_port s i p ->
  msg + MSG_BYTES <= queue p \/ queue p + MSG_BYTES * MSG_QUEUE_SIZE <= msg ->
  exists o s', send_step s i msg fl = Some (o, s') /\ iinv s' L q /\ sent s i p (bytes (kmem (sc s)) msg MSG_BYTES) fl o s'.
Proof.
  intros H1 Hl Hd. destruct (send_step_by_spec s L q i p _ _ fl H1 Hl (memcpy_stores s L q i p msg H1 Hl Hd)) as (o & s' & E & Hi & Hs & _).
  by exists o, s'.
Qed.

Lemma receive_step_spec s L q i p msg fl :
  iinv s L q -> live_port s i p -> buffer s L msg ->
  let old := contents (kmem (sc s)) p in
  exists o s', receive_step s i msg fl = Some (o, s') /\ iinv s' L q /\
    ((exists first rest p', o = Done 0 /\ old = first :: rest /\ only_port s i p' s' /\
        contents (kmem (sc s')) p' = rest /\ bytes (kmem (sc s')) msg MSG_BYTES = first /\
        waiting_sender p' = 0 /\ woken (waiting_sender p) (tasks (sc s)) (tasks (sc s'))) \/
     (o = Done (-2) /\ s' = s /\ old = [] /\
        (Z.land fl IPC_NONBLOCK <> 0 \/ current_task (sc s) = 0)) \/
     (o = Blocked /\ old = [] /\ Z.land fl IPC_NONBLOCK = 0 /\ exists t,
        tasks (sc s) !! current_task (sc s) = Some t /\ sched_block (sc s) = Some (sc s') /\
        only_port s i (set_waiting_receiver p (t_id t)) s' /\ kmem (sc s') = kmem (sc s))).
Proof.
  intros H1 Hl Hbuf old. pose proof (live_opened _ _ _ _ _ H1 Hl) as Hop.
  pose proof Hop as (_ & Hsz & Hh & Ht & _). unfold receive_step, receive_step_by. cbn [mbind option_bind]. rewrite (live_port_at _ _ _ Hl).
  pose proof (empty_spec L p Hop (kmem (sc s))) as Hemp. fold old in Hemp.
  destruct (Z.eqb_spec (queue_head p) (queue_tail p)) as [Hf|Hf].
  - apply Hemp in Hf. destruct (Z.eqb_spec (Z.land fl IPC_NONBLOCK) 0) as [Hn|Hn]; cbn [negb].
    + destruct (wait_on_spec s L q i p (set_waiting_receiver p) H1 Hl) as
        [[Hc ->]|(t & s' & Ht' & -> & Hb & Hi & Ho & Hk)]; [done|done| |].
      * exists (Done (-2)), s. split; [done|]. split; [done|]. right. left. eauto.
      * exists Blocked, s'. split; [done|]. split; [done|]. right. right. split; [done|].
        split; [done|]. split; [done|]. by exists t.
    + exists (Done (-2)), s. split; [done|]. split; [done|]. right. left. eauto.
  - replace (queue_size p =? 0) with false by lia.
    set (p1 := set_head p (u32 (queue_head p + 1) mod queue_size p)).
    set (m := memcpy _ _ _ _).
    assert (Hfr : frame msg MSG_BYTES (kmem (sc s)) m)
      by (apply frame_memcpy; unfold MSG_BYTES, MAX_MSG_SIZE; lia).
    assert (Hsame : forall j r, live_port s j r ->
      same_range (queue r) (MSG_BYTES * MSG_QUEUE_SIZE) (kmem (sc s)) m).
    { intros j r Hr. eapply frame_same; [exact Hfr|]. destruct Hbuf as [_ Hb]. specialize (Hb j r Hr). lia. }
    destruct (done_spec s L q i p (set_waiting_sender p1 0) m (waiting_sender p1) H1 Hl)
      as (c & E & Hi & Ho & Hk & Hw & _).
    { split; [done|]. split; [done|]. split; [done|]. split; [|done]. cbn. rewrite Hsz.
      apply Z.mod_pos_bound. lia. }
    { eapply buffer_write; [apply (ii_sched _ _ _ H1)|exact Hbuf|exact Hfr]. }
    { intros j r _. apply Hsame. }
    rewrite E. cbn [mbind option_bind]. eexists _, _. split; [done|]. split; [exact Hi|].
    left. pose proof (contents_pop L p Hop (kmem (sc s)) Hf) as Hpop.
    eexists _, _, _. split; [done|]. split; [exact Hpop|]. split; [exact Ho|]. rewrite Hk.
    split; [|split; [|done]].
    + rewrite (contents_same_ring _ p1) by done. apply contents_ext. by apply (Hsame i p).
    + unfold m. apply bytes_memcpy; [unfold MSG_BYTES, MAX_MSG_SIZE; lia|].
      destruct Hbuf as [_ Hb]. specialize (Hb i p Hl). unfold MSG_BYTES, MSG_QUEUE_SIZE, MAX_MSG_SIZE in *. lia.
Qed.

(** ** Creation and destruction *)

Lemma find_port_spec s P i :
  find_port s P = Some i -> length (ports s) = 256%nat ->
  0 <= i < 256 /\ ports s !! Z.to_nat i = Some (port_at s i) /\ P (port_at s i) = true.
Proof.
  intros (H1 & H2 & _)%find_range_Some Hlen. unfold MAX_PORTS in H1.
  split; [lia|]. split; [|done]. unfold port_at. apply list_lookup_lookup_total_lt. lia.
Qed.

(** Every port that is in use keeps its place and its messages. *)
Definition keeps_ports (i : Z) s s' : Prop :=
  forall j p, j <> i -> live_port s j p ->
    live_port s' j p /\ contents (kmem (sc s')) p = contents (kmem (sc s)) p.

Lemma live_other s c n i p' j r :
  j <> i -> 0 <= i -> live_port s j r -> live_port (Ipc (<[Z.to_nat i := p']> (ports s)) n c) j r.
Proof.
  intros Hne Hi (Hj & Hr & Ho). split; [done|]. split; [|done]. cbn.
  rewrite list_lookup_insert_ne; [done|lia].
Qed.

Lemma contents_preserved s L q i p m :
  iinv s L q -> live_port s i p -> preserves L (kmem (sc s)) m -> contents m p = contents (kmem (sc s)) p.
Proof.
  intros H1 Hl Hp. destruct (live_opened _ _ _ _ _ H1 Hl) as (_ & _ & _ & _ & k & Hk & Hle).
  apply contents_ext. eapply same_range_sub; [by apply (Hp _ k)|lia|lia].
Qed.

(** The kernel heap changes under the scheduler. *)
Definition with_heap (c : sched St) (k : St) (m : mem) : sched St :=
  Sched (task_queue c) (current_task c) (next_tid c) (tick_count c) (tasks c) (esp0 c) (switches c) k m.

Lemma sinv_heap (c : sched St) L L' q k m :
  sinv c L q -> ka_inv k m L' ->
  (forall b n, (b, n) ∈ all_blocks (tasks c) q -> exists j, L' !! b = Some j /\ n <= j) ->
  sinv (with_heap c k m) L' q.
Proof. intros [[]] Hk Hb. split; [split|..]; done. Qed.

Lemma sinv_heap_insert (c : sched St) L q a z k m :
  sinv c L q -> L !! a = None -> ka_inv k m (<[a := z]> L) -> sinv (with_heap c k m) (<[a := z]> L) q.
Proof.
  intros H1 Ha Hk. eapply sinv_heap; [exact H1|exact Hk|]. intros b n Hb.
  destruct (si_live _ _ _ (si_core _ _ _ H1) b n Hb) as (j & Hj & Hle). exists j.
  split; [|done]. rewrite lookup_insert_ne; [done|congruence].
Qed.

Lemma sinv_heap_delete (c : sched St) L q a k m :
  sinv c L q -> a ∉ (all_blocks (tasks c) q).*1 -> ka_inv k m (delete a L) ->
  sinv (with_heap c k m) (delete a L) q.
Proof.
  intros H1 Ha Hk. eapply sinv_heap; [exact H1|exact Hk|]. intros b n Hb.
  destruct (si_live _ _ _ (si_core _ _ _ H1) b n Hb) as (j & Hj & Hle). exists j.
  split; [|done]. rewrite lookup_delete_ne; [done|]. intros ->. destruct Ha.
  apply list_elem_of_fmap. by exists (b, n).
Qed.

Lemma port_create_spec s L q own :
  iinv s L q -> own <> 0 ->
  (port_create s own = Some (-1, s) /\
     (256 <= port_count s \/ forall i, 0 <= i < 256 -> owner (port_at s i) <> 0)) \/
  exists i, 0 <= i < 256 /\ port_at s i = zero_port /\
    ((exists a k s' p', port_create s own = Some (i, s') /\ L !! a = None /\
        iinv s' (<[a := k]> L) q /\ live_port s' i p' /\ owner p' = own /\ queue p' = a /\
        contents (kmem (sc s')) p' = [] /\ keeps_ports i s s' /\
        port_count s' = u32 (port_count s + 1)) \/
     (exists s', port_create s own = Some (-1, s') /\ port_at s' i = Port own i 0 0 0 0 0 0 0 /\
        keeps_ports i s s' /\ port_count s' = port_count s)).
Proof.
  intros H1 Hown. unfold port_create, MAX_PORTS.
  destruct (Z.leb_spec 256 (port_count s)); [by left; eauto|].
  destruct (find_port s _) as [i|] eqn:E; cycle 1.
  { left. split; [done|]. right. intros i Hi. pose proof (proj1 (find_range_None _ _ _) E i) as Hx.
    unfold MAX_PORTS in Hx. specialize (Hx ltac:(lia)). simpl in Hx. lia. }
  right. apply find_port_spec in E as (Hi & Hp & Ho); [|apply H1]. apply Z.eqb_eq in Ho.
  assert (Hz : port_at s i = zero_port) by (destruct (ii_port _ _ _ H1 _ _ Hp) as [?|[? _]]; done).
  exists i. split; [done|]. split; [done|]. rewrite Hz. cbn [queue_head queue_tail queue_size waiting_sender waiting_receiver zero_port].
  pose proof (ii_sched _ _ _ H1) as Hsi. pose proof (si_alloc _ _ _ (si_core _ _ _ Hsi)) as Hal.
  pose proof (ii_len _ _ _ H1) as Hlen.
  destruct (ka_malloc_ok (ks (sc s)) (kmem (sc s)) L (MSG_BYTES * MSG_QUEUE_SIZE) Hal)
    as (a & k' & m' & E & _ & _ & Hpr & _ & Hc); [unfold MSG_BYTES, MSG_QUEUE_SIZE, MAX_MSG_SIZE; lia|].
  unfold do_kmalloc. rewrite E. cbn [mbind option_bind].
  destruct Hc as [[-> Hk]|(k & Hle & Hn & Hk)].
  - right. cbn [Z.eqb]. eexists. split; [reflexivity|]. split; [|split; [|done]].
    + unfold port_at. cbn. apply list_lookup_total_correct. rewrite list_lookup_insert_eq; [done|lia].
    + intros j p Hne Hl. split; [by apply live_other; [done|lia|]|]. cbn. by eapply contents_preserved.
  - left. destruct (ka_range k' m' _ a k Hk) as (Ha & _); [by rewrite lookup_insert_eq|].
    replace (a =? 0) with false by lia. cbn [kmem set_kmem].
    set (m2 := memset m' a 0 (MSG_BYTES * MSG_QUEUE_SIZE)).
    assert (Hf2 : frame a (MSG_BYTES * MSG_QUEUE_SIZE) m' m2)
      by (apply frame_memset; unfold MSG_BYTES, MSG_QUEUE_SIZE, MAX_MSG_SIZE; lia).
    assert (Hk2 : ka_inv k' m2 (<[a := k]> L)).
    { eapply ka_write; [exact Hk|by rewrite lookup_insert_eq|]. eapply frame_weaken; [exact Hf2|lia|lia]. }
    assert (Hpr2 : preserves L (kmem (sc s)) m2).
    { eapply preserves_trans; [exact Hpr|]. intros b j Hb. eapply frame_same; [exact Hf2|].
      destruct (ka_disjoint k' m' _ b j a k Hk); [|by rewrite lookup_insert_eq|congruence|lia|lia].
      rewrite lookup_insert_ne; [done|congruence]. }
    pose proof (fresh_block _ L q a (si_core _ _ _ Hsi) Hn) as Hfb.
    set (p' := Port own i 0 a 0 0 MSG_QUEUE_SIZE 0 0).
    exists a, k. eexists _, p'. split; [done|]. split; [done|].
    unfold set_port, set_count, with_sc. cbn [ports sc port_count]. rewrite list_insert_insert_eq.
    assert (Hlk : forall j r, <[Z.to_nat i := p']> (ports s) !! j = Some r ->
      r = p' /\ j = Z.to_nat i \/ ports s !! j = Some r /\ j <> Z.to_nat i).
    { intros j r Hj. destruct (decide (j = Z.to_nat i)) as [->|Hne].
      - rewrite list_lookup_insert_eq in Hj by lia. left. by injection Hj as <-.
      - rewrite list_lookup_insert_ne in Hj by done. by right. }
    assert (Hold : forall j r, ports s !! j = Some r -> owner r <> 0 -> queue r <> a).
    { intros j r Hj Hr. destruct (ii_port _ _ _ H1 _ _ Hj) as [->|(_ & _ & _ & _ & z & Hz' & _)]; [done|congruence]. }
    split; [split|split; [|split; [done|split; [done|split; [done|split; [|done]]]]]].
    + exact (sinv_heap_insert _ L q a k k' m2 Hsi Hn Hk2).
    + cbn. by rewrite length_insert.
    + cbn. intros j r [[-> _]|[Hj _]]%Hlk.
      * right. split; [done|]. split; [done|]. cbn. split; [lia|]. split; [lia|]. exists k.
        by rewrite lookup_insert_eq.
      * destruct (ii_port _ _ _ H1 _ _ Hj) as [?|(O1 & O2 & O3 & O4 & z & Hz' & Hlez)]; [by left|right].
        repeat (split; [done|]). exists z. rewrite lookup_insert_ne; [done|congruence].
    + cbn. intros j r [[-> _]|[Hj _]]%Hlk Hr; [done|by apply (ii_owner _ _ _ H1 j)].
    + cbn. intros j l r w [[-> ->]|[Hj Hnj]]%Hlk [[-> ->]|[Hk3 Hnk]]%Hlk Hr Hw Hq; [done|..].
      * by destruct (Hold _ _ Hk3 Hw).
      * by destruct (Hold _ _ Hj Hr).
      * by apply (ii_distinct _ _ _ H1 j l r w).
    + split; [done|]. split; [|done]. cbn. rewrite list_lookup_insert_eq; [done|lia].
    + intros j r Hne Hl. split; [by apply live_other; [done|lia|]|]. cbn. by eapply contents_preserved.
Qed.

Lemma port_destroy_spec s L q i p :
  iinv s L q -> live_port s i p ->
  exists s', port_destroy s i = Some (0, s') /\ iinv s' (delete (queue p) L) q /\
    ports s' = <[Z.to_nat i := zero_port]> (ports s) /\ port_count s' = u32 (port_count s - 1) /\
    keeps_ports i s s' /\ current_task (sc s') = current_task (sc s) /\
    exists T, woken (waiting_sender p) (tasks (sc s)) T /\ woken (waiting_receiver p) T (tasks (sc s')).
Proof.
  intros H1 Hl. pose proof (live_opened _ _ _ _ _ H1 Hl) as Hop.
  pose proof Hop as (_ & _ & _ & _ & k & Hk & _). pose proof Hl as (Hi & Hp & Ho).
  unfold port_destroy. rewrite (live_port_at _ _ _ Hl).
  replace ((i <? 0) || (MAX_PORTS <=? i)) with false by (unfold MAX_PORTS; lia).
  replace (owner p =? 0) with false by lia.
  destruct (wake_quiet _ L q (waiting_sender p) (ii_sched _ _ _ H1)) as (c1 & -> & (S1 & K1 & M1 & B1) & W1 & C1).
  cbn [mbind option_bind].
  destruct (wake_quiet c1 L q (waiting_receiver p) S1) as (c2 & -> & (S2 & K2 & M2 & B2) & W2 & C2).
  cbn [mbind option_bind].
  pose proof (si_alloc _ _ _ (si_core _ _ _ S2)) as Hal.
  destruct (ka_range _ _ _ _ _ Hal Hk) as (Hq0 & _). replace (queue p =? 0) with false by lia.
  destruct (ka_free_ok _ _ L (queue p) k Hal Hk) as (k' & m' & E & _ & _ & Hpr & _ & Hfi).
  unfold do_kfree. rewrite E. cbn [mbind option_bind]. rewrite M2, M1 in Hpr.
  eexists. split; [reflexivity|]. unfold set_port, set_count, with_sc. cbn [ports sc port_count].
  pose proof (ii_len _ _ _ H1) as Hlen.
  assert (Hlk : forall j r, <[Z.to_nat i := zero_port]> (ports s) !! j = Some r ->
    r = zero_port \/ ports s !! j = Some r /\ j <> Z.to_nat i).
  { intros j r Hj. destruct (decide (j = Z.to_nat i)) as [->|Hne].
    - rewrite list_lookup_insert_eq in Hj by lia. left. by injection Hj as <-.
    - rewrite list_lookup_insert_ne in Hj by done. by right. }
  split; [split|split; [done|split; [done|split; [|split; [cbn; congruence|by exists (tasks c1)]]]]].
  - apply (sinv_heap_delete c2 L q (queue p) k' m' S2); [|done]. rewrite B2, B1. by apply (ii_owner _ _ _ H1 _ _ Hp).
  - cbn. by rewrite length_insert.
  - cbn. intros j r [->|[Hj Hne]]%Hlk; [by left|].
    destruct (ii_port _ _ _ H1 _ _ Hj) as [?|(O1 & O2 & O3 & O4 & z & Hz & Hle)]; [by left|right].
    repeat (split; [done|]). exists z. rewrite lookup_delete_ne; [done|].
    intros Heq. apply Hne. by apply (ii_distinct _ _ _ H1 _ _ _ _ Hj Hp O1 Ho).
  - cbn. rewrite B2, B1. intros j r [->|[Hj _]]%Hlk Hr; [done|by apply (ii_owner _ _ _ H1 j)].
  - cbn. intros j l r w [->|[Hj _]]%Hlk [->|[Hw _]]%Hlk Hr Hw' Hq; [done..|]. by apply (ii_distinct _ _ _ H1 j l r w).
  - intros j r Hne Hr. split; [apply live_other; [done|lia|done]|]. cbn. by eapply contents_preserved.
Qed.

(** ** Properties *)

Lemma guards s i p msg : live_port s i p -> msg <> 0 ->
  (i <? 0) || (MAX_PORTS <=? i) = false /\ (owner (port_at s i) =? 0) = false /\ (msg =? 0) = false.
Proof.
  intros Hl Hm. rewrite (live_port_at _ _ _ Hl). destruct Hl as (Hi & _ & Ho). unfold MAX_PORTS. lia.
Qed.

(** The port survives a send. *)
Lemma send_live s L q i p msg fl :
  iinv s L q -> live_port s i p -> msg <> 0 ->
  msg + MSG_BYTES <= queue p \/ queue p + MSG_BYTES * MSG_QUEUE_SIZE <= msg ->
  exists o s' p', msg_send s i msg fl = Some (o, s') /\ iinv s' L q /\ live_port s' i p'.
Proof.
  intros H1 Hl Hm Hd. unfold msg_send, msg_send_by. destruct (guards s i p msg Hl Hm) as (-> & -> & ->).
  destruct (send_step_spec s L q i p msg fl H1 Hl Hd) as (o & s' & E & Hi & Hc).
  exists o, s'. destruct Hc as [(_ & _ & p' & (Hl' & _) & _)|[(_ & -> & _)|(_ & _ & _ & t & _ & _ & (Hl' & _) & _)]]; eauto.
Qed.

(** C18: [msg_send] refines the enqueue of a bounded queue.  A port with fewer
    than 15 messages takes a copy of the message at the back and its waiting
    receiver becomes READY; a full one returns -2 and changes nothing when the
    call may not block, and otherwise puts the caller to sleep.  No other port
    changes and the invariant of ports, heap and scheduler is kept. *)
Theorem msg_send_enqueues s L q i p msg fl :
  iinv s L q -> live_port s i p -> msg <> 0 ->
  msg + MSG_BYTES <= queue p \/ queue p + MSG_BYTES * MSG_QUEUE_SIZE <= msg ->
  let old := contents (kmem (sc s)) p in
  exists o s', msg_send s i msg fl = Some (o, s') /\ iinv s' L q /\
    ((o = Done 0 /\ length old <> 15%nat /\ exists p', only_port s i p' s' /\
        contents (kmem (sc s')) p' = old ++ [bytes (kmem (sc s)) msg MSG_BYTES] /\
        waiting_receiver p' = 0 /\ woken (waiting_receiver p) (tasks (sc s)) (tasks (sc s'))) \/
     (o = Done (-2) /\ s' = s /\ length old = 15%nat /\
        (Z.land fl IPC_NONBLOCK <> 0 \/ current_task (sc s) = 0)) \/
     (o = Blocked /\ length old = 15%nat /\ Z.land fl IPC_NONBLOCK = 0 /\ exists t,
        tasks (sc s) !! current_task (sc s) = Some t /\ sched_block (sc s) = Some (sc s') /\
        only_port s i (set_waiting_sender p (t_id t)) s' /\ kmem (sc s') = kmem (sc s))).
Proof.
  intros H1 Hl Hm Hd. unfold msg_send, msg_send_by. destruct (guards s i p msg Hl Hm) as (-> & -> & ->).
  by apply send_step_spec.
Qed.

(** C19: [msg_receive] refines the dequeue: it hands out the oldest message, byte
    for byte, and wakes the waiting sender; on an empty port it returns -2 or puts
    the caller to sleep. *)
Theorem msg_receive_dequeues s L q i p msg fl :
  iinv s L q -> live_port s i p -> msg <> 0 -> buffer s L msg ->
  let old := contents (kmem (sc s)) p in
  exists o s', msg_receive s i msg fl = Some (o, s') /\ iinv s' L q /\
    ((exists first rest p', o = Done 0 /\ old = first :: rest /\ only_port s i p' s' /\
        contents (kmem (sc s')) p' = rest /\ bytes (kmem (sc s')) msg MSG_BYTES = first /\
        waiting_sender p' = 0 /\ woken (waiting_sender p) (tasks (sc s)) (tasks (sc s'))) \/
     (o = Done (-2) /\ s' = s /\ old = [] /\
        (Z.land fl IPC_NONBLOCK <> 0 \/ current_task (sc s) = 0)) \/
     (o = Blocked /\ old = [] /\ Z.land fl IPC_NONBLOCK = 0 /\ exists t,
        tasks (sc s) !! current_task (sc s) = Some t /\ sched_block (sc s) = Some (sc s') /\
        only_port s i (set_waiting_receiver p (t_id t)) s' /\ kmem (sc s') = kmem (sc s))).
Proof.
  intros H1 Hl Hm Hd. unfold msg_receive, msg_receive_by. destruct (guards s i p msg Hl Hm) as (-> & -> & ->).
  by apply receive_step_spec.
Qed.

(** a port is destroyed while a sender sleeps on it.  The sender is woken
    and runs its loop again, on a port of queue size 0: the remainder by
    [queue_size] is a division by zero. *)
Theorem port_destroy_traps_blocked_sender s L q i p msg fl s1 :
  iinv s L q -> live_port s i p -> msg_send s i msg fl = Some (Blocked, s1) ->
  msg + MSG_BYTES <= queue p \/ queue p + MSG_BYTES * MSG_QUEUE_SIZE <= msg ->
  exists s2, port_destroy s1 i = Some (0, s2) /\ iinv s2 (delete (queue p) L) q /\
    forall s3, ports s3 = ports s2 -> send_step s3 i msg fl = None.
Proof.
  intros H1 Hl Hs Hd.
  assert (Hm : msg <> 0).
  { intros ->. unfold msg_send, msg_send_by in Hs. repeat case_match; simplify_eq. }
  unfold msg_send, msg_send_by in Hs. destruct (guards s i p msg Hl Hm) as (G1 & G2 & G3).
  rewrite G1, G2, G3 in Hs.
  destruct (send_step_spec s L q i p msg fl H1 Hl Hd) as (o & s' & E & H1' & Hc).
  unfold send_step in E. rewrite Hs in E. injection E as <- <-.
  destruct Hc as [(E & _)|[(E & _)|(_ & _ & _ & t & _ & _ & (Hl' & _) & _)]]; [done..|].
  destruct (port_destroy_spec s1 L q i _ H1' Hl') as (s2 & Ed & Hi2 & Hp2 & _).
  exists s2. split; [done|]. split; [done|]. intros s3 Hp3. unfold send_step, send_step_by, port_at. rewrite Hp3, Hp2.
  rewrite (list_lookup_total_correct _ _ zero_port); [done|].
  apply list_lookup_insert_eq. destruct Hl'. rewrite (ii_len _ _ _ H1'). lia.
Qed.

(** when [kmalloc] fails, [port_create] returns -1 but keeps the owner in the
    slot: every later [msg_send] to that slot passes the owner check and divides
    by the queue size, 0. *)
Theorem port_create_failure_leaves_owner s L q own c :
  iinv s L q -> own <> 0 -> port_count s < 256 -> do_kmalloc (sc s) (MSG_BYTES * MSG_QUEUE_SIZE) = Some (0, c) ->
  (exists i, 0 <= i < 256 /\ owner (port_at s i) = 0) ->
  exists i s', 0 <= i < 256 /\ port_create s own = Some (-1, s') /\ port_at s' i = Port own i 0 0 0 0 0 0 0 /\
    forall msg fl, msg <> 0 -> msg_send s' i msg fl = None.
Proof.
  intros H1 Hown Hcnt Hm (j & Hj & Hjo).
  destruct (port_create_spec s L q own H1 Hown) as [[_ [?|Hno]]|(i & Hi & Hz & Hc)]; [lia|by destruct (Hno j Hj)|].
  destruct Hc as [(a & k & s' & p' & E & Hn & Hinv & Hl & _ & Hq & _)|(s' & E & Hp & _)].
  - exfalso. unfold port_create in E. rewrite Hm in E. cbn [mbind option_bind Z.eqb] in E.
    destruct (MAX_PORTS <=? port_count s); [injection E; lia|]. destruct (find_port s _); injection E; lia.
  - exists i, s'. split; [done|]. split; [done|]. split; [done|]. intros msg fl Hmsg.
    unfold msg_send, msg_send_by, send_step_by. rewrite Hp. cbn [owner queue_size Z.eqb].
    replace ((i <? 0) || (MAX_PORTS <=? i)) with false by (unfold MAX_PORTS; lia).
    replace (own =? 0) with false by lia. by replace (msg =? 0) with false by lia.
Qed.
End proofs.

(** ** A small system

    The scheduler of Sched's examples with one port, owned by pid 1; messages are
    at address 1000, below the heap. *)

Lemma init_iinv {St : Type} `{KAllocLaws St} (s : ipc St) L q : sinv (sc s) L q -> iinv (ipc_init s) L q.
Proof.
  intros H1. assert (Hp : forall (i : nat) p, ports (ipc_init s) !! i = Some p -> p = zero_port).
  { intros i p Hp. by apply lookup_replicate in Hp as [-> _]. }
  split.
  - exact H1.
  - apply length_replicate.
  - intros i p Hi. left. by eapply Hp.
  - intros i p ->%Hp Ho. by destruct Ho.
  - intros i j p p' ->%Hp _ Ho. by destruct Ho.
Qed.

(** A message below every block of the heap is clear of the queues. *)
Lemma low_buffer {St : Type} `{KAllocLaws St} (s : ipc St) L q i p msg :
  iinv s L q -> live_port s i p -> (forall a k, L !! a = Some k -> msg + MSG_BYTES <= a) ->
  msg + MSG_BYTES <= queue p \/ queue p + MSG_BYTES * MSG_QUEUE_SIZE <= msg.
Proof.
  intros H1 Hl Hb. destruct (live_opened _ _ _ _ _ H1 Hl) as (_ & _ & _ & _ & k & Hk & _).
  left. by eapply Hb.
Qed.

Definition p0 : ipc heap := ipc_init (Ipc [] 0 d5).
Definition p1 : ipc heap := match port_create p0 1 with Some (_, s) => s | None => p0 end.
(** A non-blocking send of the bytes at 1000, and 15 of them. *)
Definition send1 (s : ipc heap) : ipc heap :=
  match msg_send s 0 1000 IPC_NONBLOCK with Some (_, s') => s' | None => s end.
Definition p16 : ipc heap := Nat.iter 15 send1 p1.

(** Port 0 of [s] is in use and the heap begins above the message. *)
Definition ready (s : ipc heap) : Prop := exists L q p,
  iinv s L q /\ live_port s 0 p /\ forall a k, L !! a = Some k -> 1000 + MSG_BYTES <= a.

Lemma some_fst {A B} (o : option (A * B)) a : fst <$> o = Some a -> exists b, o = Some (a, b).
Proof. destruct o as [[x b]|]; [|done]. intros [= ->]. by exists b. Qed.

Lemma p1_created : fst <$> port_create p0 1 = Some 0.
Proof. vm_compute. reflexivity. Qed.

Lemma p1_lo : ka_lo (ks (sc p1)) = 65536.
Proof. vm_compute. reflexivity. Qed.

Lemma p1_ready : ready p1.
Proof.
  destruct (good_of d5 d5_reachable) as (L & q & Hs).
  pose proof (init_iinv (Ipc [] 0 d5) L q Hs) as Hi. fold p0 in Hi.
  destruct (some_fst (port_create p0 1) 0 p1_created) as (s & E).
  assert (Hp1 : p1 = s) by (unfold p1; rewrite E; reflexivity). rewrite Hp1.
  destruct (port_create_spec p0 L q 1 Hi) as [[E' _]|(i & _ & _ & [(a & k & s' & p & E' & _ & H1 & Hl & _)|(s' & E' & _)])];
    [lia|congruence| |congruence].
  rewrite E in E'. injection E' as Hi0 Hs'. subst i s'. exists (<[a := k]> L), q, p. split; [exact H1|]. split; [exact Hl|].
  intros b z Hb. destruct (ka_range _ _ _ _ _ (si_alloc _ _ _ (si_core _ _ _ (ii_sched _ _ _ H1))) Hb) as (_ & _ & Hlo & _).
  pose proof p1_lo as Hlo0. rewrite Hp1 in Hlo0. unfold MSG_BYTES, MAX_MSG_SIZE. lia.
Qed.

Lemma send1_ready s : ready s -> ready (send1 s).
Proof.
  intros (L & q & p & H1 & Hl & Hb). pose proof (low_buffer s L q 0 p 1000 H1 Hl Hb) as Hd.
  destruct (send_live s L q 0 p 1000 IPC_NONBLOCK H1 Hl ltac:(lia) Hd) as (o & s' & p' & E & Hi & Hl').
  unfold send1. rewrite E. by exists L, q, p'.
Qed.

Lemma p16_ready : ready p16.
Proof.
  unfold p16. generalize 15%nat. intros n. induction n as [|n IH]; [apply p1_ready|].
  by apply send1_ready.
Qed.

Lemma ready_destruct s : ready s -> exists L q p, iinv s L q /\ live_port s 0 p /\
  (1000 + MSG_BYTES <= queue p \/ queue p + MSG_BYTES * MSG_QUEUE_SIZE <= 1000) /\
  (ka_lo (ks (sc s)) = 65536 -> buffer s L 1000).
Proof.
  intros (L & q & p & H1 & Hl & Hb). exists L, q, p. split; [done|]. split; [done|].
  split; [by eapply low_buffer|]. intros Hlo. split.
  - right. left. rewrite Hlo. unfold MSG_BYTES, MAX_MSG_SIZE. lia.
  - intros i r Hr. by eapply low_buffer.
Qed.

Lemma fst_some {A B} (o : option (A * B)) a b c : fst <$> o = Some a -> o = Some (b, c) -> b = a.
Proof. intros H1 ->. by injection H1 as ->. Qed.

Lemma p1_sends : fst <$> msg_send p1 0 1000 IPC_NONBLOCK = Some (Done 0).
Proof. vm_compute. reflexivity. Qed.

Lemma msg_send_enqueues_witness : exists s', msg_send p1 0 1000 IPC_NONBLOCK = Some (Done 0, s').
Proof.
  destruct (ready_destruct p1 p1_ready) as (L & q & p & H1 & Hl & Hd & _).
  destruct (msg_send_enqueues p1 L q 0 p 1000 IPC_NONBLOCK H1 Hl ltac:(lia) Hd) as (o & s' & E & _).
  rewrite (fst_some _ _ _ _ p1_sends E) in E. exact (ex_intro _ s' E).
Defined.

Lemma p16_receives : fst <$> msg_receive p16 0 1000 IPC_NONBLOCK = Some (Done 0).
Proof. vm_compute. reflexivity. Qed.
Lemma p16_lo : ka_lo (ks (sc p16)) = 65536.
Proof. vm_compute. reflexivity. Qed.

Lemma msg_receive_dequeues_witness : exists s', msg_receive p16 0 1000 IPC_NONBLOCK = Some (Done 0, s').
Proof.
  destruct (ready_destruct p16 p16_ready) as (L & q & p & H1 & Hl & Hd & Hbuf).
  destruct (msg_receive_dequeues p16 L q 0 p 1000 IPC_NONBLOCK H1 Hl ltac:(lia) (Hbuf p16_lo)) as (o & s' & E & _).
  rewrite (fst_some _ _ _ _ p16_receives E) in E. exact (ex_intro _ s' E).
Defined.

Lemma p16_blocks : fst <$> msg_send p16 0 1000 0 = Some Blocked.
Proof. vm_compute. reflexivity. Qed.

Lemma port_destroy_traps_blocked_sender_witness : exists s1 s2,
  msg_send p16 0 1000 0 = Some (Blocked, s1) /\ port_destroy s1 0 = Some (0, s2) /\ send_step s2 0 1000 0 = None.
Proof.
  destruct (ready_destruct p16 p16_ready) as (L & q & p & H1 & Hl & Hd & _).
  destruct (some_fst _ _ p16_blocks) as (s1 & E).
  destruct (port_destroy_traps_blocked_sender p16 L q 0 p 1000 0 s1 H1 Hl E Hd) as (s2 & E2 & _ & Hn).
  exact (ex_intro _ s1 (ex_intro _ s2 (conj E (conj E2 (Hn s2 eq_refl))))).
Defined.

(** A heap of 4 KiB has no room for a queue. *)
Definition tiny : ipc heap :=
  let '(_, h, m) := heap_init ∅ 65536 4096 in ipc_init (Ipc [] 0 (Sched 0 0 1 0 ∅ 0 [] h m)).

Lemma tiny_iinv : exists L, iinv tiny L [].
Proof.
  assert (initial (sc tiny)) as Hi.
  { split; [done|]. split; [done|]. split; [done|]. split; [done|].
    exists (live_map (ks (sc tiny)) [(4084, false)]), [(4084, false)].
    split; [|split; [done|]]; [apply (heap_init_inv ∅ 65536 4096); lia|by intros q k ?%not_elem_of_nil]. }
  destruct (initial_sinv _ Hi) as (L & Hs). exists L.
  exact (init_iinv (Ipc [] 0 (sc tiny)) L [] Hs).
Qed.

Lemma tiny_full : fst <$> do_kmalloc (sc tiny) (MSG_BYTES * MSG_QUEUE_SIZE) = Some 0.
Proof. vm_compute. reflexivity. Qed.

Lemma port_create_failure_leaves_owner_witness : exists i s',
  port_create tiny 1 = Some (-1, s') /\ msg_send s' i 1000 0 = None.
Proof.
  destruct tiny_iinv as (L & H1).
  destruct (some_fst _ _ tiny_full) as (c & Hm).
  destruct (port_create_failure_leaves_owner tiny L [] 1 c H1 ltac:(lia) ltac:(vm_compute; reflexivity) Hm)
    as (i & s' & _ & E & _ & Hs); [exists 0; vm_compute; intuition discriminate|].
  exact (ex_intro _ i (ex_intro _ s' (conj E (Hs 1000 0 ltac:(lia))))).
Defined.
