(* ===== verification/Codec.v ===== *)
(** Byte lists: little-endian words, structures of words, writes into a buffer, C strings.

    Disk sectors, ELF images and saved files are lists of bytes.  [splice] is a
    [memcpy] into the middle of a buffer, [slice] one out of it; a [struct] of
    [uint32_t] fields is the concatenation of its words. *)

From S2P Require Import Prelude.
Local Open Scope Z_scope.

(** ** Buffers *)

Section buffers.
Context {A : Type}.
Implicit Types (l d : list A).

(** [memcpy(buf + off, data, length data)] inside the bounds of [buf]. *)
Definition splice l (off : nat) d : list A := take off l ++ d ++ drop (off + length d) l.
(** [memcpy(dst, buf + off, n)]. *)
Definition slice l (off n : nat) : list A := take n (drop off l).

Lemma length_splice l off d : (off + length d <= length l)%nat -> length (splice l off d) = length l.
Proof. intros Hl. unfold splice. rewrite !length_app, length_take, length_drop. lia. Qed.

Lemma length_slice l off n : (off + n <= length l)%nat -> length (slice l off n) = n.
Proof. intros Hl. unfold slice. rewrite length_take, length_drop. lia. Qed.

Lemma lookup_slice l off n i : (i < n)%nat -> slice l off n !! i = l !! (off + i)%nat.
Proof. intros Hi. unfold slice. by rewrite lookup_take_lt, lookup_drop by done. Qed.

Lemma lookup_splice_in l off d i :
  (off + length d <= length l)%nat -> (off <= i < off + length d)%nat -> splice l off d !! i = d !! (i - off)%nat.
Proof.
  intros Hl Hi. unfold splice. rewrite lookup_app_r; rewrite length_take; [|lia].
  rewrite lookup_app_l by lia. f_equal. lia.
Qed.

Lemma lookup_splice_out l off d i :
  (off + length d <= length l)%nat -> (i < off \/ off + length d <= i)%nat -> splice l off d !! i = l !! i.
Proof.
  intros Hl [Hi|Hi]; unfold splice.
  - rewrite lookup_app_l by (rewrite length_take; lia). by apply lookup_take_lt.
  - rewrite lookup_app_r; rewrite length_take; [|lia]. rewrite lookup_app_r by lia.
    rewrite lookup_drop. f_equal. lia.
Qed.

Lemma slice_splice l off d :
  (off + length d <= length l)%nat -> slice (splice l off d) off (length d) = d.
Proof.
  intros Hl. unfold slice, splice. rewrite drop_app_length' by (rewrite length_take; lia).
  by rewrite take_app_length.
Qed.

(** Part of what was spliced in. *)
Lemma slice_splice_part l off d a n :
  (off + length d <= length l)%nat -> (a + n <= length d)%nat ->
  slice (splice l off d) (off + a) n = slice d a n.
Proof.
  intros Hl Ha. apply list_eq. intros i. destruct (decide (i < n)%nat).
  - rewrite !lookup_slice by done. rewrite lookup_splice_in by lia. f_equal. lia.
  - rewrite !lookup_ge_None_2; [done|rewrite length_slice; lia|].
    rewrite length_slice; [lia|]. rewrite length_splice; lia.
Qed.

Lemma slice_app_r l1 l2 a n : (length l1 <= a)%nat -> slice (l1 ++ l2) a n = slice l2 (a - length l1) n.
Proof. intros Ha. unfold slice. by rewrite drop_app_ge. Qed.

Lemma splice_whole l d : length d = length l -> splice l 0 d = d.
Proof. intros Hl. unfold splice. rewrite take_0, drop_ge by lia. by rewrite app_nil_l, app_nil_r. Qed.

Lemma slice_whole l : slice l 0 (length l) = l.
Proof. unfold slice. by rewrite drop_0, firstn_all. Qed.

Lemma slice_app l off n k : slice l off (n + k) = slice l off n ++ slice l (off + n) k.
Proof. unfold slice. by rewrite <- drop_drop, take_take_drop. Qed.
End buffers.

Section disjoint.
Context {A : Type}.
Implicit Types (l d : list A).

(** A part that the splice does not touch. *)
Lemma slice_splice_out l off d a n :
  (off + length d <= length l)%nat -> (a + n <= off \/ off + length d <= a)%nat ->
  slice (splice l off d) a n = slice l a n.
Proof.
  intros Hl Ha. apply list_eq. intros i. destruct (decide (i < n)%nat).
  - rewrite !lookup_slice by done. apply lookup_splice_out; [done|]. lia.
  - assert (Hs : forall l' : list A, slice l' a n !! i = None)
      by (intros l'; apply lookup_ge_None_2; unfold slice; rewrite length_take; lia).
    by rewrite !Hs.
Qed.
End disjoint.

(** ** Words *)

Definition le32 (v : Z) : list Z := [u8 v; u8 (v / 256); u8 (v / 65536); u8 (v / 16777216)].
Definition unle32 (l : list Z) : Z :=
  match l with
  | a :: b :: c :: d :: _ => a + 256 * b + 65536 * c + 16777216 * d
  | _ => 0
  end.

Definition encode_words (ws : list Z) : list Z := ws ≫= le32.
Fixpoint decode_words (n : nat) (l : list Z) : list Z :=
  match n with
  | O => []
  | S n => unle32 l :: decode_words n (drop 4 l)
  end.

Definition all_u32 (ws : list Z) : Prop := Forall is_u32 ws.
Definition all_u8 (l : list Z) : Prop := Forall is_u8 l.

Lemma unle32_le32 v l : is_u32 v -> unle32 (le32 v ++ l) = v.
Proof. unfold is_u32. intros H. cbn. unfold u8. zdm. Qed.

Lemma le32_unle32 a b c d :
  all_u8 [a; b; c; d] -> le32 (unle32 [a; b; c; d]) = [a; b; c; d].
Proof.
  unfold all_u8. rewrite !Forall_cons. unfold is_u8. intros (Ha & Hb & Hc & Hd & _).
  cbn. unfold le32, u8. repeat f_equal; zdm.
Qed.

Lemma length_encode_words ws : length (encode_words ws) = (4 * length ws)%nat.
Proof. unfold encode_words. induction ws as [|w ws IH]; [done|]. cbn in *. lia. Qed.

Lemma length_decode_words n l : length (decode_words n l) = n.
Proof. revert l. induction n as [|n IH]; intros l; [done|]. cbn. by rewrite IH. Qed.

Lemma decode_encode_words ws l :
  all_u32 ws -> decode_words (length ws) (encode_words ws ++ l) = ws.
Proof.
  induction 1 as [|w ws Hw Hws IH]; [done|]. cbn [length decode_words].
  unfold encode_words. cbn [mbind list_bind]. rewrite <- app_assoc. rewrite unle32_le32 by done.
  f_equal. exact IH.
Qed.

Lemma encode_decode_words n l :
  all_u8 l -> length l = (4 * n)%nat -> encode_words (decode_words n l) = l.
Proof.
  revert l. induction n as [|n IH]; intros l Hl Hlen; [by destruct l|].
  destruct l as [|a [|b [|c [|d l]]]]; try (cbn in Hlen; lia).
  cbn [decode_words drop]. unfold encode_words. cbn [mbind list_bind].
  change (unle32 (a :: b :: c :: d :: l)) with (unle32 [a; b; c; d]).
  assert (all_u8 [a; b; c; d] /\ all_u8 l) as [H1 H2] by (by apply (Forall_app _ [a; b; c; d])).
  rewrite le32_unle32 by done. cbn [app]. do 4 f_equal. apply IH; [done|]. cbn in Hlen. lia.
Qed.

Lemma le32_bytes v : all_u8 (le32 v).
Proof. unfold le32. repeat constructor; apply u8_range. Qed.

Lemma encode_words_bytes ws : all_u8 (encode_words ws).
Proof.
  unfold encode_words. induction ws as [|w ws IH]; [constructor|].
  cbn [mbind list_bind]. apply Forall_app. split; [apply le32_bytes|done].
Qed.

Lemma all_u8_slice l off n : all_u8 l -> all_u8 (slice l off n).
Proof. intros Hl. unfold slice. by apply Forall_take, Forall_drop. Qed.

Lemma all_u8_splice l off d : all_u8 l -> all_u8 d -> all_u8 (splice l off d).
Proof. intros Hl Hd. unfold splice, all_u8. rewrite !Forall_app. split; [by apply Forall_take|]. split; [done|by apply Forall_drop]. Qed.

Lemma u8_bytes l : all_u8 l -> u8 <$> l = l.
Proof. induction 1 as [|x l Hx _ IH]; [done|]. cbn. by rewrite IH, u8_small. Qed.

Lemma zeros_u8 n : all_u8 (replicate n 0).
Proof. apply Forall_replicate. unfold is_u8. lia. Qed.

Lemma unle32_range l : all_u8 l -> is_u32 (unle32 l).
Proof.
  unfold is_u32. intros Hl. destruct l as [|a [|b [|c [|d l]]]]; cbn; try lia.
  unfold all_u8 in Hl. rewrite !Forall_cons in Hl. unfold is_u8 in Hl. lia.
Qed.

(** ** Strings in fixed arrays *)

(** [strcmp(field, name) == 0], reading [field] byte by byte; [None] when the
    comparison runs past the end of the array. *)
Fixpoint field_is (field name : list Z) : option bool :=
  match field, name with
  | [], _ => None
  | c :: _, [] => Some (c =? 0)
  | c :: f, n :: ns => if c =? n then field_is f ns else Some false
  end.

(** [strncpy(field, name, N - 1); field[N - 1] = 0] for a name shorter than [N]. *)
Definition padded (n : nat) (name : list Z) : list Z :=
  take (n - 1) name ++ replicate (n - length (take (n - 1) name)) 0.

Definition is_string (s : list Z) : Prop := Forall (fun c => 0 < c < 256) s.

Lemma length_padded n name : (0 < n)%nat -> length (padded n name) = n.
Proof. intros Hn. unfold padded. rewrite length_app, length_replicate, !length_take. lia. Qed.

Lemma field_is_padded_gen name k s :
  is_string name -> is_string s -> field_is (name ++ replicate (S k) 0) s = Some (bool_decide (name = s)).
Proof.
  intros Hn. revert s. induction Hn as [|c name Hc Hn IH]; intros s Hs.
  - destruct Hs as [|d s Hd Hs]; [done|]. cbn [field_is app replicate]. replace (0 =? d) with false by lia. done.
  - destruct Hs as [|d s Hd Hs]; cbn [field_is app].
    + replace (c =? 0) with false by lia. done.
    + destruct (Z.eqb_spec c d) as [->|Hne].
      * change (0 :: replicate k 0) with (replicate (S k) 0). rewrite IH by done.
        f_equal. apply bool_decide_ext. naive_solver.
      * f_equal. symmetry. apply bool_decide_eq_false. naive_solver.
Qed.

(** A stored name compares equal to exactly itself. *)
Lemma field_is_padded n name s :
  (length name < n)%nat -> is_string name -> is_string s ->
  field_is (padded n name) s = Some (bool_decide (name = s)).
Proof.
  intros Hl Hn Hs. unfold padded. rewrite take_ge by lia.
  replace (n - length name)%nat with (S (n - length name - 1)) by lia. by apply field_is_padded_gen.
Qed.

(** ** C strings in buffers *)

(** The bytes up to the first zero. *)
Fixpoint until_nul (l : list Z) : list Z :=
  match l with c :: l => if c =? 0 then [] else c :: until_nul l | [] => [] end.

Lemma until_nul_app t l : Forall (fun c => c <> 0) t -> until_nul (t ++ 0 :: l) = t.
Proof. induction 1 as [|c t Hc _ IH]; [done|]. cbn. replace (c =? 0) with false by lia. by rewrite IH. Qed.

Lemma until_nul_id t : Forall (fun c => c <> 0) t -> until_nul t = t.
Proof. induction 1 as [|c t Hc _ IH]; [done|]. cbn [until_nul]. by rewrite IH, (proj2 (Z.eqb_neq _ _) Hc). Qed.

Lemma until_nul_zeros b : Forall (fun c => c <> 0) (until_nul b).
Proof.
  induction b as [|c b IH]; [by apply Forall_nil|]. cbn. destruct (Z.eqb_spec c 0); [by apply Forall_nil|by apply Forall_cons].
Qed.

Lemma until_nul_prefix b : (length (until_nul b) < length b)%nat ->
  take (length (until_nul b)) b = until_nul b.
Proof.
  induction b as [|c b IH]; cbn; [lia|]. destruct (Z.eqb_spec c 0); [done|]. cbn. intros Hl. f_equal. apply IH. lia.
Qed.

(** Bytes and a zero stored right behind a prefix [t] of the buffer. *)
Lemma until_nul_splice b t l :
  Forall (fun c => c <> 0) (t ++ l) -> take (length t) b = t -> until_nul (splice b (length t) (l ++ [0])) = t ++ l.
Proof. intros Hz Ht. unfold splice. rewrite Ht, <- (app_assoc l). cbn [app]. rewrite app_assoc. by apply until_nul_app. Qed.
