(* ===== verification/BlockDev.v ===== *)
(** The interface of a block device: what drivers/storage/ata.h promises to the
    file system on top of it.

    A device state answers reads and writes of 512-byte sectors.  A read returns
    the code of the C function and the bytes it stored in the caller's buffer (a
    failed read may have stored some).  The clock of the kernel is part of the
    same environment, since it moves while a request is served.  DiskFs is
    verified against these laws; [ramdisk] satisfies them. *)

From S2P Require Import Prelude Codec.
Local Open Scope Z_scope.

Class BlockDev (D : Type) := {
  ata_drive_exists : D -> Z -> bool;
  (** drive, first sector, count *)
  ata_read_sectors : D -> Z -> Z -> Z -> Z * list Z * D;
  ata_write_sectors : D -> Z -> Z -> Z -> list Z -> Z * D;
  timer_get_ticks : D -> Z
}.

(** The requests that a device for a file system serves: it has 131072 sectors (64 MB) at
    least, twice as many as a disk file system uses. *)
Definition sector_range (lba count : Z) : Prop := 0 <= lba /\ 1 <= count <= 255 /\ lba + count <= 131072.

(** The [count] sectors from [lba], one after the other. *)
Definition sectors_at (f : Z -> list Z) (lba count : Z) : list Z := seqZ lba count ≫= f.

Class BlockDevLaws (D : Type) `{BlockDev D} := {
  (** The drive is present, large enough, and serves every request. *)
  bd_good : D -> Z -> Prop;
  bd_sector : D -> Z -> Z -> list Z;
  bd_exists d v : bd_good d v -> ata_drive_exists d v = true;
  bd_length d v l : length (bd_sector d v l) = 512%nat;
  bd_bytes d v l : all_u8 (bd_sector d v l);
  bd_ticks d : is_u32 (timer_get_ticks d);
  bd_read_ok d v lba count : bd_good d v -> sector_range lba count ->
    exists d', ata_read_sectors d v lba count = (0, sectors_at (bd_sector d v) lba count, d') /\
      bd_good d' v /\ bd_sector d' = bd_sector d;
  bd_write_ok d v lba count data : bd_good d v -> sector_range lba count ->
    length data = Z.to_nat (512 * count) -> all_u8 data ->
    exists d', ata_write_sectors d v lba count data = (0, d') /\ bd_good d' v /\
      forall v' l, bd_sector d' v' l =
        if decide (v' = v /\ lba <= l < lba + count)
        then slice data (Z.to_nat (512 * (l - lba))) 512 else bd_sector d v' l
}.

Lemma length_sectors_at f lba count :
  (forall l, length (f l) = 512%nat) -> 0 <= count -> length (sectors_at f lba count) = Z.to_nat (512 * count).
Proof.
  intros Hf Hc. unfold sectors_at.
  assert (length (seqZ lba count) = Z.to_nat count) as Hl by apply length_seqZ.
  revert Hl. generalize (Z.to_nat count) as n. intros n Hl.
  replace (Z.to_nat (512 * count)) with (512 * Z.to_nat count)%nat by lia.
  rewrite <- (length_seqZ lba count). clear Hl. induction (seqZ lba count) as [|x xs IH]; [done|].
  cbn [mbind list_bind length]. rewrite length_app, Hf. cbn in *. lia.
Qed.

Lemma sectors_at_1 f lba : sectors_at f lba 1 = f lba.
Proof. unfold sectors_at. rewrite seqZ_1. cbn. apply app_nil_r. Qed.

(** Reading back the sectors that a write of [data] produced. *)
Lemma sectors_at_slices f lba count data :
  0 <= count -> length data = Z.to_nat (512 * count) ->
  (forall l, lba <= l < lba + count -> f l = slice data (Z.to_nat (512 * (l - lba))) 512) ->
  sectors_at f lba count = data.
Proof.
  intros Hc. unfold sectors_at. revert lba data.
  pattern count. apply natlike_ind; [..|done].
  - intros lba data Hl _. cbn. symmetry. apply length_zero_iff_nil. lia.
  - intros n Hn IH lba data Hl Hf. rewrite seqZ_cons by lia. cbn [mbind list_bind].
    rewrite Hf by lia. rewrite Z.sub_diag. cbn [Z.mul Z.to_nat].
    replace (Z.pred (Z.succ n)) with n by lia.
    rewrite (IH (Z.succ lba) (drop 512 data)).
    + unfold slice. by rewrite drop_0, take_drop.
    + rewrite length_drop. lia.
    + intros l Hl'. rewrite Hf by lia. unfold slice. rewrite drop_drop. do 2 f_equal. lia.
Qed.

(** ** A device in memory *)

Record ramdisk := Ramdisk { rd_drive : Z; rd_sectors : gmap Z (list Z); rd_clock : Z }.

Definition rd_sector (d : ramdisk) (v l : Z) : list Z :=
  u8 <$> resize 512 0 (if v =? rd_drive d then default [] (rd_sectors d !! l) else []).

Definition rd_write (m : gmap Z (list Z)) (lba count : Z) (data : list Z) : gmap Z (list Z) :=
  for_range 0 count (fun m i => <[lba + i := slice data (Z.to_nat (512 * i)) 512]> m) m.

#[export] Instance ramdisk_dev : BlockDev ramdisk := {|
  ata_drive_exists d v := v =? rd_drive d;
  ata_read_sectors d v lba count :=
    if v =? rd_drive d then (0, sectors_at (rd_sector d v) lba count, d) else (-1, [], d);
  ata_write_sectors d v lba count data :=
    if v =? rd_drive d
    then (0, Ramdisk (rd_drive d) (rd_write (rd_sectors d) lba count data) (u32 (rd_clock d + 1)))
    else (-1, d);
  timer_get_ticks d := u32 (rd_clock d)
|}.

Lemma rd_write_lookup m lba count data l :
  0 <= count ->
  rd_write m lba count data !! l =
    if in_range lba count l then Some (slice data (Z.to_nat (512 * (l - lba))) 512) else m !! l.
Proof.
  intros Hc. unfold rd_write. pattern count. apply natlike_ind; [..|exact Hc].
  - rewrite for_range_0 by lia. by rcases.
  - intros n Hn IH. rewrite <- Z.add_1_r, for_range_succ, Z.add_0_l by lia.
    destruct (decide (l = lba + n)) as [->|Hne].
    + rewrite lookup_insert_eq. rcases. do 3 f_equal. lia.
    + rewrite lookup_insert_ne, IH by lia. by rcases.
Qed.

#[export, refine] Instance ramdisk_laws : BlockDevLaws ramdisk := {|
  bd_good d v := v = rd_drive d;
  bd_sector := rd_sector
|}.
Proof.
  - intros d v ->. apply Z.eqb_refl.
  - intros d v l. unfold rd_sector. rewrite length_fmap. apply length_resize.
  - intros d v l. apply Forall_fmap, Forall_true. intros x. apply u8_range.
  - intros d. apply u32_range.
  - intros d v lba count -> _. exists d. cbn. by rewrite Z.eqb_refl.
  - intros d v lba count data -> (Hl & Hc & _) Hd Hb. cbn. rewrite Z.eqb_refl.
    eexists. split; [done|]. split; [done|]. intros v' l. unfold rd_sector. cbn.
    destruct (Z.eqb_spec v' (rd_drive d)) as [->|Hv].
    + rewrite rd_write_lookup by lia. destruct (in_range_spec lba count l).
      * rewrite decide_True by done. change (u8 <$> resize 512 0 (slice data (Z.to_nat (512 * (l - lba))) 512) = slice data (Z.to_nat (512 * (l - lba))) 512).
        rewrite resize_all_alt by (rewrite length_slice; [done|lia]). apply u8_bytes. by apply all_u8_slice.
      * rewrite decide_False by naive_solver. done.
    + rewrite decide_False by naive_solver. done.
Defined.
