(* ===== verification/DiskFs.v ===== *)
(** kernel/fs/diskfs.c: the file system on disk.

    An operation is a computation [M]: it passes the file's static variables and
    the device along, and is [None] where the C code has no defined behaviour: an
    access outside a bitmap, a sector buffer, a caller's buffer or a name array.
    Structures are read and written as the packed bytes of diskfs.h (Codec).
    [uninit i] is what the uninitialised local [entry] holds in iteration [i] of
    a loop over directory entries, and is arbitrary.  [logged] are the messages
    passed to the log, latest first. *)

From S2P Require Import Prelude Codec BlockDev.
Local Open Scope Z_scope.

(** ** Definitions *)

Definition DISKFS_MAGIC : Z := 1836607091.
Definition DISKFS_VERSION : Z := 1.
Definition DISKFS_BLOCK_SIZE : Z := 512.
Definition DISKFS_SUPERBLOCK_SECTOR : Z := 0.
Definition DISKFS_INODE_BITMAP_START : Z := 1.
Definition DISKFS_INODE_BITMAP_SECTORS : Z := 16.
Definition DISKFS_BLOCK_BITMAP_START : Z := 17.
Definition DISKFS_BLOCK_BITMAP_SECTORS : Z := 16.
Definition DISKFS_INODE_TABLE_START : Z := 33.
Definition DISKFS_DATA_START : Z := 545.
Definition DISKFS_MAX_INODES : Z := 512.
Definition DISKFS_MAX_BLOCKS : Z := 65536.
Definition DISKFS_MAX_FILENAME : Z := 28.
Definition DISKFS_DIRECT_BLOCKS : Z := 12.
Definition DISKFS_MAX_FILE_SIZE : Z := DISKFS_DIRECT_BLOCKS * DISKFS_BLOCK_SIZE.
Definition DISKFS_TYPE_FILE : Z := 1.
Definition DISKFS_TYPE_DIR : Z := 2.

Record diskfs_superblock := Superblock {
  magic : Z;
  version : Z;
  total_inodes : Z;
  total_blocks : Z;
  free_inodes : Z;
  free_blocks : Z;
  root_inode : Z;
  block_size : Z;
  sb_pad : list Z
}.

Record diskfs_inode := Inode {
  i_type : Z;
  i_size : Z;
  blocks : list Z;
  ctime : Z;
  mtime : Z;
  parent_inode : Z;
  i_pad : list Z
}.

Record diskfs_dirent := Dirent { d_inode : Z; d_name : list Z }.

Definition SUPERBLOCK_BYTES : nat := 512.
Definition INODE_BYTES : nat := 136.
Definition DIRENT_BYTES : nat := 32.

Definition encode_superblock (b : diskfs_superblock) : list Z :=
  encode_words [magic b; version b; total_inodes b; total_blocks b; free_inodes b; free_blocks b;
                root_inode b; block_size b] ++ sb_pad b.
Definition decode_superblock (l : list Z) : diskfs_superblock :=
  let w := decode_words 8 l in
  Superblock (w !!! 0%nat) (w !!! 1%nat) (w !!! 2%nat) (w !!! 3%nat) (w !!! 4%nat) (w !!! 5%nat)
    (w !!! 6%nat) (w !!! 7%nat) (drop 32 l).

Definition encode_inode (i : diskfs_inode) : list Z :=
  encode_words (i_type i :: i_size i :: blocks i ++ [ctime i; mtime i; parent_inode i]) ++ i_pad i.
Definition decode_inode (l : list Z) : diskfs_inode :=
  let w := decode_words 17 l in
  Inode (w !!! 0%nat) (w !!! 1%nat) (slice w 2 12) (w !!! 14%nat) (w !!! 15%nat) (w !!! 16%nat) (drop 68 l).

Definition encode_dirent (e : diskfs_dirent) : list Z := le32 (d_inode e) ++ d_name e.
Definition decode_dirent (l : list Z) : diskfs_dirent := Dirent (unle32 l) (drop 4 l).

(** What [memset] to 0 leaves. *)
Definition zero_superblock : diskfs_superblock := Superblock 0 0 0 0 0 0 0 0 (replicate 480 0).
Definition zero_inode : diskfs_inode := Inode 0 0 (replicate 12 0) 0 0 0 (replicate 68 0).

Definition set_size (i : diskfs_inode) (n : Z) : diskfs_inode :=
  Inode (i_type i) n (blocks i) (ctime i) (mtime i) (parent_inode i) (i_pad i).
Definition set_mtime (i : diskfs_inode) (n : Z) : diskfs_inode :=
  Inode (i_type i) (i_size i) (blocks i) (ctime i) n (parent_inode i) (i_pad i).
Definition set_block (i : diskfs_inode) (k : nat) (b : Z) : diskfs_inode :=
  Inode (i_type i) (i_size i) (<[k := b]> (blocks i)) (ctime i) (mtime i) (parent_inode i) (i_pad i).

Definition set_free_blocks (b : diskfs_superblock) (n : Z) : diskfs_superblock :=
  Superblock (magic b) (version b) (total_inodes b) (total_blocks b) (free_inodes b) n
    (root_inode b) (block_size b) (sb_pad b).
Definition set_free_inodes (b : diskfs_superblock) (n : Z) : diskfs_superblock :=
  Superblock (magic b) (version b) (total_inodes b) (total_blocks b) n (free_blocks b)
    (root_inode b) (block_size b) (sb_pad b).

(** [bitmap[bit / 8] |= 1 << bit % 8] and the like. *)
Definition bitmap_set (bitmap : list Z) (bit : Z) : option (list Z) :=
  b ← bitmap !! Z.to_nat (bit / 8);
  Some (<[Z.to_nat (bit / 8) := Z.lor b (Z.shiftl 1 (bit mod 8))]> bitmap).
Definition bitmap_clear (bitmap : list Z) (bit : Z) : option (list Z) :=
  b ← bitmap !! Z.to_nat (bit / 8);
  Some (<[Z.to_nat (bit / 8) := u8 (Z.land b (Z.lnot (Z.shiftl 1 (bit mod 8))))]> bitmap).
Definition bitmap_test (bitmap : list Z) (bit : Z) : option bool :=
  b ← bitmap !! Z.to_nat (bit / 8); Some (negb (Z.land b (Z.shiftl 1 (bit mod 8)) =? 0)).

Fixpoint find_free_from (n : nat) (bitmap : list Z) (i : Z) : option Z :=
  match n with
  | O => Some (-1)
  | S n => t ← bitmap_test bitmap i; if (t : bool) then find_free_from n bitmap (i + 1) else Some i
  end.
Definition bitmap_find_free (bitmap : list Z) (max_bits : Z) : option Z :=
  find_free_from (Z.to_nat max_bits) bitmap 0.

(** One of the 8 places of the inode cache. *)
Record cache_slot := Slot { ic_valid : bool; ic_num : Z; ic_inode : diskfs_inode }.

(** The valid cache slots of an inode. *)
Definition cached (ino : Z) (c : cache_slot) : Prop := ic_valid c = true /\ ic_num c = ino.
#[export] Instance cached_dec ino c : Decision (cached ino c).
Proof. unfold cached. apply _. Defined.

Inductive log_level := LOG_INFO | LOG_WARN | LOG_ERROR.

Section operations.
Context {D : Type} `{BlockDev D}.
Variable uninit : Z -> list Z.

Record dfs := Dfs {
  mounted_drive : Z;
  superblock : diskfs_superblock;
  inode_bitmap : list Z;
  block_bitmap : list Z;
  inode_cache : list cache_slot;
  cache_idx : Z;
  dev : D;
  logged : list (log_level * string * list Z)
}.

Definition M (A : Type) : Type := dfs -> option (A * dfs).
#[local] Instance M_ret : MRet M := fun A a s => Some (a, s).
#[local] Instance M_bind : MBind M := fun A B k m s =>
  match m s with Some (a, s') => k a s' | None => None end.

Definition get : M dfs := fun s => Some (s, s).
Definition fault {A} : M A := fun _ => None.
Definition of_option {A} (o : option A) : M A := fun s => match o with Some a => Some (a, s) | None => None end.

Definition put_mounted (v : Z) : M unit := fun s =>
  Some (tt, Dfs v (superblock s) (inode_bitmap s) (block_bitmap s) (inode_cache s) (cache_idx s) (dev s) (logged s)).
Definition put_superblock (v : diskfs_superblock) : M unit := fun s =>
  Some (tt, Dfs (mounted_drive s) v (inode_bitmap s) (block_bitmap s) (inode_cache s) (cache_idx s) (dev s) (logged s)).
Definition put_inode_bitmap (v : list Z) : M unit := fun s =>
  Some (tt, Dfs (mounted_drive s) (superblock s) v (block_bitmap s) (inode_cache s) (cache_idx s) (dev s) (logged s)).
Definition put_block_bitmap (v : list Z) : M unit := fun s =>
  Some (tt, Dfs (mounted_drive s) (superblock s) (inode_bitmap s) v (inode_cache s) (cache_idx s) (dev s) (logged s)).
Definition put_cache (v : list cache_slot) (k : Z) : M unit := fun s =>
  Some (tt, Dfs (mounted_drive s) (superblock s) (inode_bitmap s) (block_bitmap s) v k (dev s) (logged s)).
Definition log (lv : log_level) (msg : string) (args : list Z) : M unit := fun s =>
  Some (tt, Dfs (mounted_drive s) (superblock s) (inode_bitmap s) (block_bitmap s) (inode_cache s) (cache_idx s)
              (dev s) ((lv, msg, args) :: logged s)).

(** The driver's requests, on the device of the state. *)
Definition disk_read (drive lba count : Z) : M (Z * list Z) := fun s =>
  let '(r, data, d) := ata_read_sectors (dev s) drive lba count in
  Some ((r, data), Dfs (mounted_drive s) (superblock s) (inode_bitmap s) (block_bitmap s) (inode_cache s)
                     (cache_idx s) d (logged s)).
Definition disk_write (drive lba count : Z) (data : list Z) : M Z := fun s =>
  let '(r, d) := ata_write_sectors (dev s) drive lba count data in
  Some (r, Dfs (mounted_drive s) (superblock s) (inode_bitmap s) (block_bitmap s) (inode_cache s)
             (cache_idx s) d (logged s)).
Definition ticks : M Z := fun s => Some (timer_get_ticks (dev s), s).

Definition read_superblock (drive : Z) : M Z :=
  '(r, data) ← disk_read drive DISKFS_SUPERBLOCK_SECTOR 1;
  s ← get;
  _ ← put_superblock (decode_superblock (splice (encode_superblock (superblock s)) 0 data));
  mret r.

Definition write_superblock (drive : Z) : M Z :=
  s ← get; disk_write drive DISKFS_SUPERBLOCK_SECTOR 1 (encode_superblock (superblock s)).

Definition read_bitmaps (drive : Z) : M Z :=
  '(r, data) ← disk_read drive DISKFS_INODE_BITMAP_START DISKFS_INODE_BITMAP_SECTORS;
  s ← get;
  _ ← put_inode_bitmap (splice (inode_bitmap s) 0 data);
  if negb (r =? 0) then mret r else
  '(r, data) ← disk_read drive DISKFS_BLOCK_BITMAP_START DISKFS_BLOCK_BITMAP_SECTORS;
  s ← get;
  _ ← put_block_bitmap (splice (block_bitmap s) 0 data);
  mret r.

Definition write_bitmaps (drive : Z) : M Z :=
  s ← get;
  r ← disk_write drive DISKFS_INODE_BITMAP_START DISKFS_INODE_BITMAP_SECTORS (inode_bitmap s);
  if negb (r =? 0) then mret r else
  s ← get;
  disk_write drive DISKFS_BLOCK_BITMAP_START DISKFS_BLOCK_BITMAP_SECTORS (block_bitmap s).

Definition inode_sector (ino : Z) : Z := DISKFS_INODE_TABLE_START + ino / 4.
Definition inode_offset (ino : Z) : nat := Z.to_nat (ino mod 4 * 128).

(** The code and, when it is 0, the inode stored in the caller's structure. *)
Definition read_inode (drive ino : Z) : M (Z * diskfs_inode) :=
  if DISKFS_MAX_INODES <=? ino then mret (-1, zero_inode) else
  s ← get;
  match list_find (cached ino) (inode_cache s) with
  | Some (_, c) => mret (0, ic_inode c)
  | None =>
      '(r, sector_buf) ← disk_read drive (inode_sector ino) 1;
      if negb (r =? 0) then mret (r, zero_inode) else
      (* memcpy(inode, sector_buf + offset, sizeof) *)
      if (512 <? inode_offset ino + INODE_BYTES)%nat then fault else
      let inode := decode_inode (slice sector_buf (inode_offset ino) INODE_BYTES) in
      s ← get;
      _ ← put_cache (<[Z.to_nat (cache_idx s) := Slot true ino inode]> (inode_cache s)) ((cache_idx s + 1) mod 8);
      mret (0, inode)
  end.

Definition write_inode (drive ino : Z) (inode : diskfs_inode) : M Z :=
  if DISKFS_MAX_INODES <=? ino then mret (-1) else
  '(r, sector_buf) ← disk_read drive (inode_sector ino) 1;
  if negb (r =? 0) then mret r else
  if (512 <? inode_offset ino + INODE_BYTES)%nat then fault else
  r ← disk_write drive (inode_sector ino) 1 (splice sector_buf (inode_offset ino) (encode_inode inode));
  if negb (r =? 0) then mret r else
  s ← get;
  _ ← match list_find (cached ino) (inode_cache s) with
      | Some (k, c) => put_cache (<[k := Slot true (ic_num c) inode]> (inode_cache s)) (cache_idx s)
      | None => mret tt
      end;
  mret 0.

Definition alloc_block : M Z :=
  s ← get;
  block ← of_option (bitmap_find_free (block_bitmap s) (total_blocks (superblock s)));
  if block <? 0 then mret (-1) else
  bm ← of_option (bitmap_set (block_bitmap s) block);
  _ ← put_block_bitmap bm;
  _ ← put_superblock (set_free_blocks (superblock s) (u32 (free_blocks (superblock s) - 1)));
  mret block.

Definition free_block (block : Z) : M unit :=
  s ← get;
  if total_blocks (superblock s) <=? block then mret tt else
  bm ← of_option (bitmap_clear (block_bitmap s) block);
  _ ← put_block_bitmap bm;
  put_superblock (set_free_blocks (superblock s) (u32 (free_blocks (superblock s) + 1))).

Definition alloc_inode : M Z :=
  s ← get;
  ino ← of_option (bitmap_find_free (inode_bitmap s) (total_inodes (superblock s)));
  if ino <? 0 then mret (-1) else
  bm ← of_option (bitmap_set (inode_bitmap s) ino);
  _ ← put_inode_bitmap bm;
  _ ← put_superblock (set_free_inodes (superblock s) (u32 (free_inodes (superblock s) - 1)));
  mret ino.

Definition free_inode (ino : Z) : M unit :=
  s ← get;
  if total_inodes (superblock s) <=? ino then mret tt else
  bm ← of_option (bitmap_clear (inode_bitmap s) ino);
  _ ← put_inode_bitmap bm;
  put_superblock (set_free_inodes (superblock s) (u32 (free_inodes (superblock s) + 1))).

Definition diskfs_format (drive : Z) : M Z :=
  s ← get;
  if negb (ata_drive_exists (dev s) drive) then
    _ ← log LOG_ERROR "diskfs_format: drive does not exist" []; mret (-1) else
  _ ← log LOG_INFO "diskfs: Formatting drive..." [];
  _ ← put_superblock (Superblock DISKFS_MAGIC DISKFS_VERSION DISKFS_MAX_INODES DISKFS_MAX_BLOCKS
        (DISKFS_MAX_INODES - 1) DISKFS_MAX_BLOCKS 0 DISKFS_BLOCK_SIZE (replicate 480 0));
  _ ← put_block_bitmap (replicate 8192 0);
  bm ← of_option (bitmap_set (replicate 8192 0) 0);
  _ ← put_inode_bitmap bm;
  r ← write_superblock drive;
  if negb (r =? 0) then _ ← log LOG_ERROR "diskfs_format: failed to write superblock" []; mret (-1) else
  r ← write_bitmaps drive;
  if negb (r =? 0) then _ ← log LOG_ERROR "diskfs_format: failed to write bitmaps" []; mret (-1) else
  now ← ticks;
  r ← write_inode drive 0 (Inode DISKFS_TYPE_DIR 0 (replicate 12 0) now now 0 (replicate 68 0));
  if negb (r =? 0) then _ ← log LOG_ERROR "diskfs_format: failed to write root inode" []; mret (-1) else
  _ ← log LOG_INFO "diskfs: Format complete" [];
  mret 0.

Definition diskfs_mount (drive : Z) : M Z :=
  s ← get;
  if negb (ata_drive_exists (dev s) drive) then
    _ ← log LOG_ERROR "diskfs_mount: drive does not exist" []; mret (-1) else
  _ ← log LOG_INFO "diskfs: Mounting drive..." [];
  r ← read_superblock drive;
  if negb (r =? 0) then _ ← log LOG_ERROR "diskfs_mount: failed to read superblock" []; mret (-1) else
  s ← get;
  if negb (magic (superblock s) =? DISKFS_MAGIC) then
    _ ← log LOG_ERROR "diskfs_mount: invalid magic number" []; mret (-1) else
  r ← read_bitmaps drive;
  if negb (r =? 0) then _ ← log LOG_ERROR "diskfs_mount: failed to read bitmaps" []; mret (-1) else
  s ← get;
  _ ← put_cache ((fun c => Slot false (ic_num c) (ic_inode c)) <$> inode_cache s) (cache_idx s);
  _ ← put_mounted drive;
  _ ← log LOG_INFO "diskfs: Mounted successfully (%d free inodes, %d free blocks)"
        [free_inodes (superblock s); free_blocks (superblock s)];
  mret 0.

Definition diskfs_sync : M Z :=
  s ← get;
  if mounted_drive s =? 255 then mret (-1) else
  _ ← write_superblock (mounted_drive s);
  _ ← write_bitmaps (mounted_drive s);
  mret 0.

Definition diskfs_unmount : M Z :=
  s ← get;
  if mounted_drive s =? 255 then mret 0 else
  _ ← log LOG_INFO "diskfs: Unmounting..." [];
  _ ← diskfs_sync;
  _ ← put_mounted 255;
  mret 0.

Definition diskfs_init (drive : Z) : M Z :=
  r ← diskfs_mount drive;
  if r =? 0 then _ ← log LOG_INFO "diskfs: Existing filesystem found" []; mret 0 else
  _ ← log LOG_WARN "diskfs: No valid filesystem found, formatting..." [];
  r ← diskfs_format drive;
  if negb (r =? 0) then mret (-1) else diskfs_mount drive.

(** The loop of [diskfs_read]: the code and the bytes stored at [buf]. *)
Fixpoint read_loop (fuel : nat) (drive : Z) (inode : diskfs_inode) (offset size : Z) (acc : list Z) : M (Z * list Z) :=
  match fuel with
  | O => fault
  | S fuel =>
      let bytes_read := Z.of_nat (length acc) in
      if negb (bytes_read <? size) then mret (bytes_read, acc) else
      let block_idx := u32 (offset + bytes_read) / DISKFS_BLOCK_SIZE in
      let block_offset := u32 (offset + bytes_read) mod DISKFS_BLOCK_SIZE in
      let to_read := if size - bytes_read <? DISKFS_BLOCK_SIZE - block_offset
                     then size - bytes_read else DISKFS_BLOCK_SIZE - block_offset in
      if DISKFS_DIRECT_BLOCKS <=? block_idx then mret (bytes_read, acc) else
      b ← of_option (blocks inode !! Z.to_nat block_idx);
      if b =? 0 then mret (bytes_read, acc) else
      '(r, block_buf) ← disk_read drive (u32 (DISKFS_DATA_START + b)) 1;
      if negb (r =? 0) then mret (-1, acc) else
      read_loop fuel drive inode offset size (acc ++ slice block_buf (Z.to_nat block_offset) (Z.to_nat to_read))
  end.

(** Iterations of the two data loops: each one but the first starts a block. *)
Definition data_fuel : nat := 14.

Definition diskfs_read (ino offset size : Z) : M (Z * list Z) :=
  s ← get;
  if mounted_drive s =? 255 then mret (-1, []) else
  '(r, inode) ← read_inode (mounted_drive s) ino;
  if negb (r =? 0) then mret (-1, []) else
  if i_size inode <=? offset then mret (0, []) else
  let size := if i_size inode <? u32 (offset + size) then i_size inode - offset else size in
  read_loop data_fuel (mounted_drive s) inode offset size [].

(** The loop of [diskfs_write]: [None] for the early [return -1], or the bytes
    written and the inode. *)
Fixpoint write_loop (fuel : nat) (drive : Z) (inode : diskfs_inode) (buf : list Z) (offset size bytes_written : Z)
    : M (option (Z * diskfs_inode)) :=
  match fuel with
  | O => fault
  | S fuel =>
      if negb (bytes_written <? size) then mret (Some (bytes_written, inode)) else
      let block_idx := u32 (offset + bytes_written) / DISKFS_BLOCK_SIZE in
      let block_offset := u32 (offset + bytes_written) mod DISKFS_BLOCK_SIZE in
      let to_write := if size - bytes_written <? DISKFS_BLOCK_SIZE - block_offset
                      then size - bytes_written else DISKFS_BLOCK_SIZE - block_offset in
      if DISKFS_DIRECT_BLOCKS <=? block_idx then mret (Some (bytes_written, inode)) else
      b ← of_option (blocks inode !! Z.to_nat block_idx);
      block ← (if b =? 0 then alloc_block else mret b);
      if block <? 0 then mret (Some (bytes_written, inode)) else
      let inode := set_block inode (Z.to_nat block_idx) block in
      let sector := u32 (DISKFS_DATA_START + block) in
      (* the buffer is read first unless the whole of it is overwritten *)
      '(r, block_buf) ← (if negb (block_offset =? 0) || (to_write <? DISKFS_BLOCK_SIZE)
                         then disk_read drive sector 1 else mret (0, replicate 512 0));
      if negb (r =? 0) then mret None else
      let chunk := slice buf (Z.to_nat bytes_written) (Z.to_nat to_write) in
      if (length chunk <? Z.to_nat to_write)%nat then fault else
      r ← disk_write drive sector 1 (splice block_buf (Z.to_nat block_offset) chunk);
      if negb (r =? 0) then mret None else
      write_loop fuel drive inode buf offset size (bytes_written + to_write)
  end.

Definition diskfs_write (ino : Z) (buf : list Z) (offset size : Z) : M Z :=
  s ← get;
  if mounted_drive s =? 255 then mret (-1) else
  '(r, inode) ← read_inode (mounted_drive s) ino;
  if negb (r =? 0) then mret (-1) else
  let size := if DISKFS_MAX_FILE_SIZE <? u32 (offset + size) then u32 (DISKFS_MAX_FILE_SIZE - offset) else size in
  o ← write_loop data_fuel (mounted_drive s) inode buf offset size 0;
  match o with
  | None => mret (-1)
  | Some (bytes_written, inode) =>
      let inode := if i_size inode <? u32 (offset + bytes_written)
                   then set_size inode (u32 (offset + bytes_written)) else inode in
      now ← ticks;
      _ ← write_inode (mounted_drive s) ino (set_mtime inode now);
      mret bytes_written
  end.

(** The loop of [diskfs_lookup]; [n] entries are left from [i]. *)
Fixpoint lookup_loop (n : nat) (dir_ino : Z) (name : list Z) (i : Z) : M Z :=
  match n with
  | O => mret (-1)
  | S n =>
      '(r, data) ← diskfs_read dir_ino (i * 32) 32;
      if r <? 0 then mret (-1) else
      let entry := decode_dirent (splice (uninit i) 0 data) in
      if d_inode entry =? 0 then lookup_loop n dir_ino name (i + 1) else
      same ← of_option (field_is (d_name entry) name);
      if (same : bool) then mret (i32 (d_inode entry)) else lookup_loop n dir_ino name (i + 1)
  end.

Definition diskfs_lookup (dir_ino : Z) (name : list Z) : M Z :=
  s ← get;
  if mounted_drive s =? 255 then mret (-1) else
  '(r, dir) ← read_inode (mounted_drive s) dir_ino;
  if negb (r =? 0) then mret (-1) else
  if negb (i_type dir =? DISKFS_TYPE_DIR) then mret (-1) else
  lookup_loop (Z.to_nat (i_size dir / 32)) dir_ino name 0.

Definition diskfs_create (parent_ino : Z) (name : list Z) (type : Z) : M Z :=
  s ← get;
  if mounted_drive s =? 255 then mret (-1) else
  if DISKFS_MAX_FILENAME <=? Z.of_nat (length name) then mret (-1) else
  '(r, parent) ← read_inode (mounted_drive s) parent_ino;
  if negb (r =? 0) then mret (-1) else
  if negb (i_type parent =? DISKFS_TYPE_DIR) then mret (-1) else
  found ← diskfs_lookup parent_ino name;
  if 0 <=? found then mret (-2) else
  ino ← alloc_inode;
  if ino <? 0 then mret (-3) else
  now ← ticks;
  r ← write_inode (mounted_drive s) ino (Inode type 0 (replicate 12 0) now now parent_ino (replicate 68 0));
  if negb (r =? 0) then _ ← free_inode ino; mret (-1) else
  r ← diskfs_write parent_ino (encode_dirent (Dirent ino (padded 28 name))) (i_size parent) 32;
  if r <? 0 then _ ← free_inode ino; mret (-1) else
  _ ← diskfs_sync;
  mret ino.

Fixpoint readdir_loop (n : nat) (dir_ino i : Z) (acc : list diskfs_dirent) : M (bool * list diskfs_dirent) :=
  match n with
  | O => mret (true, acc)
  | S n =>
      '(r, data) ← diskfs_read dir_ino (i * 32) 32;
      if r <? 0 then mret (false, acc) else
      readdir_loop n dir_ino (i + 1) (acc ++ [decode_dirent (splice (uninit i) 0 data)])
  end.

(** The code and the entries stored; here [uninit] is the caller's array. *)
Definition diskfs_readdir (dir_ino max_entries : Z) : M (Z * list diskfs_dirent) :=
  s ← get;
  if mounted_drive s =? 255 then mret (-1, []) else
  '(r, dir) ← read_inode (mounted_drive s) dir_ino;
  if negb (r =? 0) then mret (-1, []) else
  if negb (i_type dir =? DISKFS_TYPE_DIR) then mret (-1, []) else
  let num_entries := i_size dir / 32 in
  let to_read := if num_entries <? max_entries then num_entries else max_entries in
  '(ok, entries) ← readdir_loop (Z.to_nat to_read) dir_ino 0 [];
  mret (if ok : bool then to_read else -1, entries).

Definition diskfs_stat (ino : Z) : M (Z * diskfs_inode) :=
  s ← get;
  if mounted_drive s =? 255 then mret (-1, zero_inode) else read_inode (mounted_drive s) ino.

Fixpoint free_blocks_of (bs : list Z) : M unit :=
  match bs with
  | [] => mret tt
  | b :: bs => _ ← (if b =? 0 then mret tt else free_block b); free_blocks_of bs
  end.

(** Clearing the entry of [ino] in the parent; [n] entries are left from [i]. *)
Fixpoint clear_entry (n : nat) (parent_ino ino i : Z) : M unit :=
  match n with
  | O => mret tt
  | S n =>
      '(_, data) ← diskfs_read parent_ino (i * 32) 32;
      let entry := decode_dirent (splice (uninit i) 0 data) in
      if d_inode entry =? ino then
        _ ← diskfs_write parent_ino (encode_dirent (Dirent 0 (d_name entry))) (i * 32) 32; mret tt
      else clear_entry n parent_ino ino (i + 1)
  end.

Definition diskfs_delete (parent_ino : Z) (name : list Z) : M Z :=
  s ← get;
  if mounted_drive s =? 255 then mret (-1) else
  ino ← diskfs_lookup parent_ino name;
  if ino <? 0 then mret (-1) else
  '(r, inode) ← read_inode (mounted_drive s) (u32 ino);
  if negb (r =? 0) then mret (-1) else
  if (i_type inode =? DISKFS_TYPE_DIR) && (0 <? i_size inode) then mret (-2) else
  _ ← free_blocks_of (blocks inode);
  _ ← free_inode ino;
  '(r, parent) ← read_inode (mounted_drive s) parent_ino;
  if negb (r =? 0) then mret (-1) else
  _ ← clear_entry (Z.to_nat (i_size parent / 32)) parent_ino ino 0;
  _ ← diskfs_sync;
  mret 0.

Definition diskfs_is_mounted : M bool := s ← get; mret (negb (mounted_drive s =? 255)).
End operations.

Arguments dfs : clear implicits.

(** ** Structures on disk *)

(** Every field fits its width. *)
Definition wf_inode (i : diskfs_inode) : Prop :=
  all_u32 (i_type i :: i_size i :: blocks i ++ [ctime i; mtime i; parent_inode i]) /\
  length (blocks i) = 12%nat /\ length (i_pad i) = 68%nat /\ all_u8 (i_pad i).

Lemma length_encode_inode i : wf_inode i -> length (encode_inode i) = INODE_BYTES.
Proof.
  intros (_ & Hb & Hp & _). unfold encode_inode. rewrite length_app, length_encode_words. cbn [length].
  rewrite length_app, Hb, Hp. done.
Qed.

Lemma encode_inode_bytes i : wf_inode i -> all_u8 (encode_inode i).
Proof. intros (_ & _ & _ & Hp). unfold encode_inode, all_u8. rewrite Forall_app. split; [apply encode_words_bytes|done]. Qed.

Lemma decode_encode_inode i : wf_inode i -> decode_inode (encode_inode i) = i.
Proof.
  intros (Hw & Hb & Hp). unfold decode_inode, encode_inode.
  set (ws := i_type i :: i_size i :: blocks i ++ [ctime i; mtime i; parent_inode i]) in *.
  assert (Hl : length ws = 17%nat) by (unfold ws; cbn; rewrite length_app, Hb; done).
  rewrite <- Hl, decode_encode_words by done. rewrite drop_app_length' by (rewrite length_encode_words; lia).
  destruct i as [ty sz bs ct mt pa pad]. cbn [blocks] in Hb. unfold ws. cbn [i_type i_size blocks ctime mtime parent_inode i_pad].
  do 13 (destruct bs as [|? bs]; try (cbn in Hb; lia)). reflexivity.
Qed.

Lemma decode_encode_superblock b :
  all_u32 [magic b; version b; total_inodes b; total_blocks b; free_inodes b; free_blocks b; root_inode b; block_size b] ->
  decode_superblock (encode_superblock b) = b.
Proof.
  intros Hw. unfold decode_superblock, encode_superblock.
  rewrite (decode_encode_words [magic b; version b; total_inodes b; total_blocks b; free_inodes b; free_blocks b;
                root_inode b; block_size b]) by done.
  rewrite drop_app_length' by (rewrite length_encode_words; done). by destruct b.
Qed.

(** ** The bitmaps *)

Lemma byte_bitmap_test_set bm bm' b b' :
  0 <= b -> 0 <= b' -> bitmap_set bm b = Some bm' ->
  bitmap_test bm' b' = if decide (b' = b) then Some true else bitmap_test bm b'.
Proof.
  intros Hb Hb'. unfold bitmap_set, bitmap_test.
  destruct (bm !! Z.to_nat (b / 8)) as [x|] eqn:E; [|done]. cbn [mbind option_bind]. intros [= <-].
  pose proof (lookup_lt_Some _ _ _ E) as Hlt.
  pose proof (Z.mod_pos_bound b 8 ltac:(lia)). pose proof (Z.mod_pos_bound b' 8 ltac:(lia)).
  destruct (decide (b' / 8 = b / 8)) as [Hd|Hd].
  - rewrite Hd, list_lookup_insert_eq, E by done. cbn [mbind option_bind].
    rewrite Z.land_lor_distr_l. destruct (decide (b' = b)) as [->|Hne].
    + f_equal. apply negb_true_iff, Z.eqb_neq. intros Hz. apply Z.lor_eq_0_iff in Hz as [_ Hz].
      rewrite land_pow2_eq0, testbit_pow2, Z.eqb_refl in Hz by lia. done.
    + do 3 f_equal. replace (Z.land (Z.shiftl 1 (b mod 8)) (Z.shiftl 1 (b' mod 8))) with 0; [by rewrite Z.lor_0_r|].
      symmetry. rewrite land_pow2_eq0, testbit_pow2 by lia. zdm.
  - assert (b' <> b) by congruence. rewrite decide_False by done.
    rewrite list_lookup_insert_ne; [done|]. zdm.
Qed.

Lemma bitmap_set_some bm b : 0 <= b -> b / 8 < Z.of_nat (length bm) -> exists bm', bitmap_set bm b = Some bm' /\ length bm' = length bm.
Proof.
  intros Hb Hl. unfold bitmap_set.
  destruct (lookup_lt_is_Some_2 bm (Z.to_nat (b / 8))) as (x & ->); [zdm|]. cbn.
  eexists. split; [done|]. apply length_insert.
Qed.

Lemma bitmap_test_some bm b : 0 <= b -> b / 8 < Z.of_nat (length bm) -> exists t, bitmap_test bm b = Some t.
Proof.
  intros Hb Hl. unfold bitmap_test.
  destruct (lookup_lt_is_Some_2 bm (Z.to_nat (b / 8))) as (x & ->); [zdm|]. by eexists.
Qed.

(** The search finds the least clear bit. *)
Lemma find_free_from_spec n bm i :
  0 <= i -> (i + Z.of_nat n + 7) / 8 <= Z.of_nat (length bm) ->
  (find_free_from n bm i = Some (-1) /\ forall j, i <= j < i + Z.of_nat n -> bitmap_test bm j = Some true) \/
  exists b, find_free_from n bm i = Some b /\ i <= b < i + Z.of_nat n /\ bitmap_test bm b = Some false /\
    forall j, i <= j < b -> bitmap_test bm j = Some true.
Proof.
  revert i. induction n as [|n IH]; intros i Hi Hl; cbn [find_free_from].
  - left. split; [done|]. lia.
  - destruct (bitmap_test_some bm i Hi) as ([|] & Ht); [zdm|..]; rewrite Ht; cbn [mbind option_bind].
    + destruct (IH (i + 1)) as [(-> & Ha)|(b & -> & Hb & Hf & Ha)]; [lia|zdm| |].
      * left. split; [done|]. intros j Hj. destruct (decide (j = i)) as [->|]; [done|]. apply Ha. lia.
      * right. exists b. split; [done|]. split; [lia|]. split; [done|].
        intros j Hj. destruct (decide (j = i)) as [->|]; [done|]. apply Ha. lia.
    + right. exists i. split; [done|]. split; [lia|]. split; [done|]. lia.
Qed.

(** One step of the monad. *)
Ltac run := unfold get, mbind, M_bind, mret, M_ret, of_option; cbv beta iota.

(** The slot just filled is the one that is found. *)
Lemma cache_insert_new (c : list cache_slot) k ino i :
  list_find (cached ino) c = None -> (k < length c)%nat ->
  list_find (cached ino) (<[k := Slot true ino i]> c) = Some (k, Slot true ino i).
Proof.
  intros Hn Hk. apply list_find_Some. rewrite list_lookup_insert_eq by done.
  split; [done|]. split; [done|]. intros j y Hj Hjk. rewrite list_lookup_insert_ne in Hj by lia.
  rewrite list_find_None in Hn. eapply Forall_lookup_1 in Hn; [exact Hn|exact Hj].
Qed.

Lemma cache_insert_old (c : list cache_slot) k ino i y :
  list_find (cached ino) c = Some (k, y) ->
  list_find (cached ino) (<[k := Slot true (ic_num y) i]> c) = Some (k, Slot true (ic_num y) i).
Proof.
  rewrite !list_find_Some. intros (Hk & (_ & Hc) & Hj). pose proof (lookup_lt_Some _ _ _ Hk).
  rewrite list_lookup_insert_eq by done. split; [done|]. split; [done|].
  intros j z Hz Hlt. rewrite list_lookup_insert_ne in Hz by lia. by eapply Hj.
Qed.

Section proofs.
Context {D : Type} `{BlockDevLaws D}.
Implicit Types (s : dfs D).

(** ** The invariant *)

(** The drive serves requests, the cache has its 8 places, the bitmap its 64 Ki
    bits, and block 0 is in use: 0 stands for "no block" in an inode. *)
Record dinv s : Prop := {
  di_good : bd_good (dev s) (mounted_drive s);
  di_mounted : mounted_drive s <> 255;
  di_cache : length (inode_cache s) = 8%nat;
  di_index : 0 <= cache_idx s < 8;
  di_bitmap : length (block_bitmap s) = 8192%nat;
  di_blocks : 0 < total_blocks (superblock s) <= DISKFS_MAX_BLOCKS;
  di_zero : bitmap_test (block_bitmap s) 0 = Some true
}.

(** Inodes whose 136 bytes lie inside their sector. *)
Definition ino_ok (ino : Z) : Prop := 0 <= ino < DISKFS_MAX_INODES /\ ino mod 4 <> 3.

(** The inode as the operations see it: the cached one, or the one on disk. *)
Definition inode_of s (ino : Z) : diskfs_inode :=
  match list_find (cached ino) (inode_cache s) with
  | Some (_, c) => ic_inode c
  | None => decode_inode (slice (bd_sector (dev s) (mounted_drive s) (inode_sector ino)) (inode_offset ino) INODE_BYTES)
  end.

Definition used s (b : Z) : Prop := bitmap_test (block_bitmap s) b = Some true.
Definition block_data s (b : Z) : list Z := bd_sector (dev s) (mounted_drive s) (DISKFS_DATA_START + b).

(** The byte at position [p] of a file. *)
Definition byte_at s (i : diskfs_inode) (p : Z) : option Z :=
  match blocks i !! Z.to_nat (p / 512) with
  | Some b => if b =? 0 then None else block_data s b !! Z.to_nat (p mod 512)
  | None => None
  end.

(** Everything but the cache and the clock is the same. *)
Definition same_disk s s' : Prop :=
  mounted_drive s' = mounted_drive s /\ superblock s' = superblock s /\ inode_bitmap s' = inode_bitmap s /\
  block_bitmap s' = block_bitmap s /\ bd_sector (dev s') = bd_sector (dev s).

Definition with_dev s (d : D) : dfs D :=
  Dfs (mounted_drive s) (superblock s) (inode_bitmap s) (block_bitmap s) (inode_cache s) (cache_idx s) d (logged s).

Lemma same_disk_bytes s s' i p : same_disk s s' -> byte_at s' i p = byte_at s i p.
Proof. intros (Hm & _ & _ & _ & Hs). unfold byte_at, block_data. by rewrite Hm, Hs. Qed.

Lemma same_disk_trans s1 s2 s3 : same_disk s1 s2 -> same_disk s2 s3 -> same_disk s1 s3.
Proof. intros (?&?&?&?&?) (?&?&?&?&?). repeat split; congruence. Qed.

Lemma block_length s b : length (block_data s b) = 512%nat.
Proof. apply bd_length. Qed.

Lemma dinv_dev s d : dinv s -> bd_good d (mounted_drive s) -> dinv (with_dev s d).
Proof. by intros []. Qed.

Lemma disk_read_ok s lba n :
  dinv s -> sector_range lba n ->
  exists d, disk_read (mounted_drive s) lba n s
    = Some ((0, sectors_at (bd_sector (dev s) (mounted_drive s)) lba n), with_dev s d) /\
    dinv (with_dev s d) /\ bd_sector d = bd_sector (dev s).
Proof.
  intros Hi Hr. unfold disk_read.
  destruct (bd_read_ok (dev s) (mounted_drive s) lba n (di_good _ Hi) Hr) as (d & -> & Hg & Hs).
  exists d. split; [done|]. split; [by apply dinv_dev|done].
Qed.

Lemma disk_write_ok s lba n data :
  dinv s -> sector_range lba n -> length data = Z.to_nat (512 * n) -> all_u8 data ->
  exists d, disk_write (mounted_drive s) lba n data s = Some (0, with_dev s d) /\ dinv (with_dev s d) /\
    forall v l, bd_sector d v l =
      if decide (v = mounted_drive s /\ lba <= l < lba + n)
      then slice data (Z.to_nat (512 * (l - lba))) 512 else bd_sector (dev s) v l.
Proof.
  intros Hi Hr Hl Hby. unfold disk_write.
  destruct (bd_write_ok (dev s) (mounted_drive s) lba n data (di_good _ Hi) Hr Hl Hby) as (d & -> & Hg & Hs).
  exists d. split; [done|]. split; [by apply dinv_dev|done].
Qed.

Lemma inode_sector_range ino : ino_ok ino -> sector_range (inode_sector ino) 1 /\ inode_sector ino < DISKFS_DATA_START.
Proof.
  unfold ino_ok, sector_range, inode_sector, DISKFS_INODE_TABLE_START, DISKFS_DATA_START, DISKFS_MAX_INODES.
  intros [Hi _]. zdm.
Qed.

Lemma inode_offset_ok ino : ino_ok ino -> (512 <? inode_offset ino + INODE_BYTES)%nat = false /\
  (inode_offset ino + INODE_BYTES <= 512)%nat.
Proof.
  unfold ino_ok, inode_offset, INODE_BYTES. intros [Hi Hm].
  assert (0 <= ino mod 4 < 3) by zdm. split; [apply Nat.ltb_ge|]; lia.
Qed.

(** ** Inodes *)

Lemma read_inode_spec s ino :
  dinv s -> ino_ok ino ->
  exists s', read_inode (mounted_drive s) ino s = Some ((0, inode_of s ino), s') /\ dinv s' /\
    same_disk s s' /\ inode_of s' ino = inode_of s ino.
Proof.
  intros Hi Hok. unfold read_inode, inode_of.
  replace (DISKFS_MAX_INODES <=? ino) with false by (unfold ino_ok in Hok; lia).
  run.
  destruct (list_find (cached ino) (inode_cache s)) as [[k c]|] eqn:E.
  { exists s. by rewrite E. }
  destruct (inode_sector_range ino Hok) as [Hr _].
  destruct (disk_read_ok s _ 1 Hi Hr) as (d & -> & Hd & Hs). rewrite sectors_at_1.
  destruct (inode_offset_ok ino Hok) as [-> Ho]. cbn [negb Z.eqb].
  eexists. split; [reflexivity|].
  set (i := decode_inode _). set (c := Slot true ino i).
  unfold put_cache. cbn [mounted_drive superblock inode_bitmap block_bitmap inode_cache cache_idx dev logged with_dev].
  pose proof (di_cache _ Hi) as Hlen. pose proof (di_index _ Hi) as Hidx.
  split; [|split; [by repeat split|]].
  - destruct Hd. split; try done; cbn.
    + by rewrite length_insert.
    + apply Z.mod_pos_bound. lia.
  - cbn [inode_cache]. unfold c. by rewrite cache_insert_new by (done || lia).
Qed.

Lemma write_inode_spec s ino i :
  dinv s -> ino_ok ino -> wf_inode i ->
  exists s', write_inode (mounted_drive s) ino i s = Some (0, s') /\ dinv s' /\ inode_of s' ino = i /\
    mounted_drive s' = mounted_drive s /\ superblock s' = superblock s /\ inode_bitmap s' = inode_bitmap s /\
    block_bitmap s' = block_bitmap s /\ (forall b, 0 <= b -> block_data s' b = block_data s b) /\
    bd_sector (dev s') (mounted_drive s) (inode_sector ino)
      = splice (bd_sector (dev s) (mounted_drive s) (inode_sector ino)) (inode_offset ino) (encode_inode i).
Proof.
  intros Hi Hok Hwf. unfold write_inode.
  replace (DISKFS_MAX_INODES <=? ino) with false by (unfold ino_ok in Hok; lia). run.
  destruct (inode_sector_range ino Hok) as [Hr Hlt].
  destruct (disk_read_ok s _ 1 Hi Hr) as (d & -> & Hd & Hs). rewrite sectors_at_1.
  destruct (inode_offset_ok ino Hok) as [-> Ho]. cbn [negb Z.eqb].
  set (sec := bd_sector (dev s) (mounted_drive s) (inode_sector ino)).
  assert (Hsec : length sec = 512%nat) by apply bd_length.
  assert (Hspl : (inode_offset ino + length (encode_inode i) <= length sec)%nat)
    by (rewrite length_encode_inode by done; lia).
  destruct (disk_write_ok (with_dev s d) (inode_sector ino) 1 (splice sec (inode_offset ino) (encode_inode i)) Hd Hr)
    as (d' & E & Hd' & Hs');
    [rewrite length_splice by done; lia|apply all_u8_splice; [apply bd_bytes|by apply encode_inode_bytes]|].
  change (mounted_drive (with_dev s d)) with (mounted_drive s) in *. rewrite E. cbn [negb Z.eqb].
  change (inode_cache (with_dev (with_dev s d) d')) with (inode_cache s).
  assert (Hdata : forall b, 0 <= b -> bd_sector d' (mounted_drive s) (DISKFS_DATA_START + b)
                                      = bd_sector (dev s) (mounted_drive s) (DISKFS_DATA_START + b)).
  { intros b Hb. rewrite Hs', decide_False by lia. cbn. by rewrite Hs. }
  assert (Hspliced : bd_sector d' (mounted_drive s) (inode_sector ino) = splice sec (inode_offset ino) (encode_inode i)).
  { rewrite Hs', decide_True by lia. rewrite Z.sub_diag. change (Z.to_nat (512 * 0)) with 0%nat.
    rewrite <- (slice_whole (splice _ _ _)) at 2. by rewrite length_splice, Hsec by done. }
  destruct (list_find (cached ino) (inode_cache s)) as [[k c]|] eqn:Ec.
  - eexists. split; [reflexivity|]. split; [|split; [|by repeat split]].
    + destruct Hd'. split; try done. cbn. rewrite length_insert. apply Hi.
    + unfold inode_of. cbn. by rewrite (cache_insert_old _ _ _ _ _ Ec).
  - exists (with_dev (with_dev s d) d'). split; [done|]. split; [done|]. split; [|by repeat split].
    unfold inode_of. cbn [inode_cache dev mounted_drive with_dev]. rewrite Ec, Hspliced.
    rewrite <- (length_encode_inode i) by done. rewrite slice_splice by done. by apply decode_encode_inode.
Qed.

(** ** Blocks *)

Lemma disk_alloc_spec s :
  dinv s ->
  (alloc_block s = Some (-1, s) /\ forall b, 0 <= b < total_blocks (superblock s) -> used s b) \/
  exists b s', alloc_block s = Some (b, s') /\ dinv s' /\ 0 < b < total_blocks (superblock s) /\
    ~ used s b /\ (forall b', 0 <= b' -> used s' b' <-> b' = b \/ used s b') /\
    mounted_drive s' = mounted_drive s /\ bd_sector (dev s') = bd_sector (dev s) /\
    inode_cache s' = inode_cache s /\ inode_bitmap s' = inode_bitmap s /\
    superblock s' = set_free_blocks (superblock s) (u32 (free_blocks (superblock s) - 1)).
Proof.
  intros Hi. unfold alloc_block. run. unfold bitmap_find_free.
  pose proof (di_bitmap _ Hi) as Hlen. pose proof (di_blocks _ Hi) as Htot. unfold DISKFS_MAX_BLOCKS in Htot.
  destruct (find_free_from_spec (Z.to_nat (total_blocks (superblock s))) (block_bitmap s) 0)
    as [(-> & Ha)|(b & -> & Hb & Hf & _)]; [lia|rewrite Hlen, Z2Nat.id by lia; change (Z.of_nat 8192) with 8192; zdm|left|right].
  - cbn. split; [done|]. intros b Hb. apply Ha. lia.
  - assert (Hb0 : b <> 0) by (intros ->; rewrite (di_zero _ Hi) in Hf; done).
    replace (b <? 0) with false by lia.
    destruct (bitmap_set_some (block_bitmap s) b) as (bm & Hbm & Hl); [lia|rewrite Hlen; change (Z.of_nat 8192) with 8192; rewrite Z2Nat.id in Hb by lia; zdm|].
    rewrite Hbm. exists b. eexists. split; [reflexivity|].
    assert (Ht : forall b', 0 <= b' -> bitmap_test bm b' = if decide (b' = b) then Some true else bitmap_test (block_bitmap s) b')
      by (intros b' Hb'; eapply byte_bitmap_test_set; [lia|done|exact Hbm]).
    split; [|split; [lia|split; [|split; [|done]]]].
    + destruct Hi. split; try done; cbn; [by rewrite Hl|]. rewrite Ht, decide_False by lia. done.
    + unfold used. rewrite Hf. discriminate.
    + intros b' Hb'. unfold used at 1. cbn. rewrite Ht by done. case_decide; naive_solver.
Qed.

(** ** The data loops *)

(** Iterations left when the data from [a] to [e] remains: one per block it meets. *)
Definition spans (a e : Z) : Z := if a <? e then (e - 1) / 512 - a / 512 + 1 else 0.

Lemma spans_step a e : 0 <= a < e ->
  let n := if e - a <? 512 - a mod 512 then e - a else 512 - a mod 512 in
  0 < n <= 512 - a mod 512 /\ n <= e - a /\ spans (a + n) e < spans a e.
Proof.
  intros Ha n. unfold spans, n. replace (a <? e) with true by lia.
  destruct (Z.ltb_spec (e - a) (512 - a mod 512)).
  - replace (a + (e - a) <? e) with false by lia. zdm.
  - destruct (Z.ltb_spec (a + (512 - a mod 512)) e); zdm.
Qed.

(** Positions of one chunk lie in one block. *)
Lemma chunk_div a n p : 0 <= a -> n <= 512 - a mod 512 -> a <= p < a + n ->
  p / 512 = a / 512 /\ p mod 512 = a mod 512 + (p - a).
Proof. intros. zdm. Qed.

Lemma read_loop_spec fuel s i offset size acc :
  dinv s -> 0 <= offset -> offset + size <= DISKFS_MAX_FILE_SIZE -> 0 <= Z.of_nat (length acc) <= size ->
  spans (offset + Z.of_nat (length acc)) (offset + size) < Z.of_nat fuel ->
  (forall b, b ∈ blocks i -> 0 <= b < DISKFS_MAX_BLOCKS) ->
  (forall p, offset + Z.of_nat (length acc) <= p < offset + size -> is_Some (byte_at s i p)) ->
  exists data s', read_loop fuel (mounted_drive s) i offset size acc s = Some ((size, acc ++ data), s') /\
    dinv s' /\ same_disk s s' /\ inode_cache s' = inode_cache s /\ Z.of_nat (length (acc ++ data)) = size /\
    forall p, offset + Z.of_nat (length acc) <= p < offset + size ->
      byte_at s i p = data !! Z.to_nat (p - offset - Z.of_nat (length acc)).
Proof.
  revert s acc. induction fuel as [|fuel IH]; intros s acc Hi Ho Hsz Hacc Hf Hbl Hp.
  { unfold spans in Hf. destruct (_ <? _) in Hf; zdm. }
  cbn [read_loop]. run. set (n0 := Z.of_nat (length acc)) in *.
  destruct (Z.ltb_spec n0 size) as [Hlt|Hge]; cbn [negb]; cycle 1.
  { assert (n0 = size) as Heq by lia. exists [], s. rewrite app_nil_r, Heq.
    split; [done|]. split; [done|]. split; [done|]. split; [done|].
    split; [unfold n0 in Heq; lia|]. intros p Hx. exfalso. lia. }
  unfold DISKFS_MAX_FILE_SIZE, DISKFS_DIRECT_BLOCKS, DISKFS_BLOCK_SIZE in *.
  rewrite (u32_small (offset + n0)) by lia.
  set (a := offset + n0) in *.
  destruct (spans_step a (offset + size)) as (Hn1 & Hn2 & Hn3); [lia|].
  replace (offset + size - a) with (size - n0) in * by lia.
  set (n := if size - n0 <? 512 - a mod 512 then size - n0 else 512 - a mod 512) in *.
  replace (12 <=? a / 512) with false by zdm.
  pose proof (Hp a ltac:(lia)) as [x Hx]. unfold byte_at in Hx.
  destruct (blocks i !! Z.to_nat (a / 512)) as [b|] eqn:Eb; [|done].
  destruct (Z.eqb_spec b 0) as [|Hb0]; [done|].
  pose proof (Hbl b (list_elem_of_lookup_2 _ _ _ Eb)) as Hb. unfold DISKFS_MAX_BLOCKS in Hb.
  unfold DISKFS_DATA_START. rewrite (u32_small (545 + b)) by lia.
  destruct (disk_read_ok s (545 + b) 1 Hi) as (d & -> & Hd & Hs); [unfold sector_range; lia|].
  rewrite sectors_at_1. cbn [negb Z.eqb].
  change (bd_sector (dev s) (mounted_drive s) (545 + b)) with (block_data s b).
  set (chunk := slice (block_data s b) (Z.to_nat (a mod 512)) (Z.to_nat n)).
  assert (Hchunk : length chunk = Z.to_nat n).
  { apply length_slice. rewrite block_length. pose proof (Z.mod_pos_bound a 512). lia. }
  assert (Hsd : same_disk s (with_dev s d)) by by repeat split.
  assert (Hacc' : Z.of_nat (length (acc ++ chunk)) = n0 + n) by (rewrite length_app; lia).
  change (mounted_drive s) with (mounted_drive (with_dev s d)).
  destruct (IH (with_dev s d) (acc ++ chunk) Hd Ho Hsz) as (data & s' & E & Hd' & Hsd' & Hc' & Hl' & Hby).
  { lia. }
  { rewrite Hacc'. replace (offset + (n0 + n)) with (a + n) by lia. lia. }
  { done. }
  { intros p Hpp. rewrite (same_disk_bytes _ _ _ _ Hsd). apply Hp. lia. }
  rewrite E. exists (chunk ++ data), s'. rewrite app_assoc. split; [done|]. split; [done|].
  split; [by eapply same_disk_trans|].
  split; [done|]. split; [done|]. intros p Hpp. destruct (decide (p < a + n)).
  - destruct (chunk_div a n p) as [Hd1 Hd2]; [lia..|].
    rewrite lookup_app_l by (rewrite Hchunk; lia). unfold chunk. rewrite lookup_slice by lia.
    unfold byte_at. rewrite Hd1, Eb. replace (b =? 0) with false by lia. f_equal. fold n0. pose proof (Z.mod_pos_bound a 512). unfold a in *. lia.
  - rewrite lookup_app_r by (rewrite Hchunk; lia).
    rewrite <- (same_disk_bytes _ _ _ _ Hsd), Hby by lia. f_equal. rewrite Hacc', Hchunk. fold n0. lia.
Qed.

(** The blocks of an inode are in use and distinct. *)
Definition blocks_ok s (i : diskfs_inode) : Prop :=
  length (blocks i) = 12%nat /\
  (forall k b, blocks i !! k = Some b -> b <> 0 -> 0 < b < DISKFS_MAX_BLOCKS /\ used s b) /\
  (forall k k' b, blocks i !! k = Some b -> blocks i !! k' = Some b -> b <> 0 -> k = k').

(** What a write to a file may change: the sectors of its blocks and of blocks
    that were free, the block bitmap and the count of free blocks. *)
Definition written s (i : diskfs_inode) s' (i' : diskfs_inode) : Prop :=
  mounted_drive s' = mounted_drive s /\ inode_cache s' = inode_cache s /\ inode_bitmap s' = inode_bitmap s /\
  total_blocks (superblock s') = total_blocks (superblock s) /\
  (forall l, l < DISKFS_DATA_START -> bd_sector (dev s') (mounted_drive s) l = bd_sector (dev s) (mounted_drive s) l) /\
  (forall b, used s b -> 0 <= b -> used s' b) /\
  (forall b, 0 < b -> used s b -> b ∉ blocks i -> block_data s' b = block_data s b /\ b ∉ blocks i') /\
  i_type i' = i_type i /\ i_size i' = i_size i /\ parent_inode i' = parent_inode i /\ ctime i' = ctime i /\
  mtime i' = mtime i /\ i_pad i' = i_pad i.

Lemma written_refl s i : written s i s i.
Proof. repeat split; done. Qed.

Lemma written_trans s1 i1 s2 i2 s3 i3 : written s1 i1 s2 i2 -> written s2 i2 s3 i3 -> written s1 i1 s3 i3.
Proof.
  intros (A1 & A2 & A3 & A4 & A5 & A6 & A7 & A8 & A9 & A10 & A11 & A12 & A13)
         (B1 & B2 & B3 & B4 & B5 & B6 & B7 & B8 & B9 & B10 & B11 & B12 & B13).
  unfold written. repeat (split; [congruence|]). split.
  { intros l Hl. rewrite <- A5 by done. rewrite A1 in B5. by apply B5. }
  split; [intros b Hb H1; by apply B6; [apply A6|]|]. split; [|repeat split; congruence].
  intros b Hb Hu Hn. destruct (A7 b Hb Hu Hn) as [E1 N1].
  destruct (B7 b Hb) as [E2 N2]; [by apply A6; [|lia]|done|]. split; [congruence|done].
Qed.

(** The block of position [a], allocated if there is none. *)
Lemma claim_block_spec s i k b :
  dinv s -> blocks_ok s i -> blocks i !! k = Some b -> 0 <= b ->
  ((if b =? 0 then alloc_block else fun s => Some (b, s)) s = Some (-1, s) /\
     forall b, 0 <= b < total_blocks (superblock s) -> used s b) \/
  exists blk s', (if b =? 0 then alloc_block else fun s => Some (b, s)) s = Some (blk, s') /\ dinv s' /\
    0 < blk < DISKFS_MAX_BLOCKS /\ (b <> 0 -> blk = b) /\ blocks_ok s' (set_block i k blk) /\ written s i s' (set_block i k blk) /\
    (forall p, bd_sector (dev s') (mounted_drive s) p = bd_sector (dev s) (mounted_drive s) p).
Proof.
  intros Hi (Hl & Hu & Hd) Hk Hb0. pose proof (lookup_lt_Some _ _ _ Hk) as Hkl.
  destruct (Z.eqb_spec b 0) as [->|Hb].
  - destruct (disk_alloc_spec s Hi) as [Ha|(blk & s' & E & Hi' & Hr & Hnu & Hus & Hm & Hs & Hc & Hib & Hsb)]; [by left|right].
    pose proof (di_blocks _ Hi) as Ht.
    assert (Hnot : forall j, blocks i !! j = Some blk -> False).
    { intros j Hj. by destruct (Hu j blk Hj) as [_ ?]; [lia|]. }
    exists blk, s'. split; [done|]. split; [done|]. split; [lia|]. split; [done|]. split; [|split; [|by rewrite Hs]].
    + unfold blocks_ok. cbn [blocks set_block]. rewrite length_insert. split; [done|]. split.
      * intros j c [(-> & -> & _)|[Hne Hj]]%list_lookup_insert_Some Hc0.
        { split; [lia|]. apply Hus; [lia|by left]. }
        destruct (Hu j c Hj Hc0) as [? ?]. split; [done|]. apply Hus; [lia|by right].
      * intros j j' c [(-> & -> & _)|[Hne Hj]]%list_lookup_insert_Some
          [(-> & Hc1 & _)|[Hne' Hj']]%list_lookup_insert_Some Hc0; try done; subst.
        -- by destruct (Hnot _ Hj').
        -- by destruct (Hnot _ Hj).
        -- by eapply Hd.
    + unfold written. rewrite Hm, Hc, Hib, Hsb, Hs. cbn [blocks set_block].
      repeat (split; [done|]). split; [intros c Hc1 Hc2; apply Hus; [done|by right]|].
      split; [|done]. intros c Hc0 Huc Hn. split; [unfold block_data; by rewrite Hm, Hs|].
      intros [j Hj]%list_elem_of_lookup. apply list_lookup_insert_Some in Hj as [(-> & -> & _)|[_ Hj]]; [done|].
      apply Hn. by eapply list_elem_of_lookup_2.
  - right. exists b, s. split; [done|]. split; [done|]. split; [by apply (Hu k)|]. split; [done|].
    assert (Hid : set_block i k b = i) by (unfold set_block; rewrite list_insert_id by done; by destruct i).
    rewrite Hid. split; [done|]. split; [apply written_refl|done].
Qed.

(** Storing a sector of a block of the file. *)
Lemma store_block_spec s i k b data :
  dinv s -> blocks_ok s i -> blocks i !! k = Some b -> 0 < b < DISKFS_MAX_BLOCKS -> length data = 512%nat -> all_u8 data ->
  exists d, disk_write (mounted_drive s) (545 + b) 1 data s = Some (0, with_dev s d) /\ dinv (with_dev s d) /\
    blocks_ok (with_dev s d) i /\ written s i (with_dev s d) i /\
    block_data (with_dev s d) b = data /\
    (forall c, 0 <= c -> c <> b -> block_data (with_dev s d) c = block_data s c).
Proof.
  intros Hi Hok Hk Hb Hl Hby. unfold DISKFS_MAX_BLOCKS in Hb.
  destruct (disk_write_ok s (545 + b) 1 data Hi) as (d & E & Hd & Hs);
    [unfold sector_range; lia|rewrite Hl; done|done|].
  assert (Hbd : forall c, block_data (with_dev s d) c = if decide (c = b) then data else block_data s c).
  { intros c. unfold block_data. cbn. rewrite Hs. unfold DISKFS_DATA_START. case_decide as H1; case_decide; try lia; [|done].
    subst c. rewrite Z.sub_diag. change (Z.to_nat (512 * 0)) with 0%nat. rewrite <- Hl at 1. apply slice_whole. }
  exists d. split; [done|]. split; [done|]. split; [done|]. split; [|split].
  - unfold written. split_and!; try done.
    + intros l Hlt. cbn. rewrite Hs, decide_False; [done|]. unfold DISKFS_DATA_START in Hlt. lia.
    + intros c Hc Hu Hn. split; [|done]. rewrite Hbd, decide_False; [done|].
      intros ->. apply Hn. by eapply list_elem_of_lookup_2.
  - by rewrite Hbd, decide_True.
  - intros c _ Hc. by rewrite Hbd, decide_False.
Qed.

(** Reading the sector of a block, or not at all. *)
Lemma load_block_spec s i b (c : bool) :
  dinv s -> blocks_ok s i -> 0 < b < DISKFS_MAX_BLOCKS ->
  exists d, (if c then disk_read (mounted_drive s) (545 + b) 1 else fun s => Some ((0, replicate 512 0), s)) s
      = Some ((0, if c then block_data s b else replicate 512 0), if c then with_dev s d else s) /\
    let s' := if c then with_dev s d else s in
    dinv s' /\ blocks_ok s' i /\ written s i s' i /\ same_disk s s'.
Proof.
  intros Hi Hok Hb. unfold DISKFS_MAX_BLOCKS in Hb. destruct c.
  - destruct (disk_read_ok s (545 + b) 1 Hi) as (d & E & Hd & Hs); [unfold sector_range; lia|].
    exists d. rewrite E, sectors_at_1. split; [done|]. split; [done|]. split; [done|]. split; [|by repeat split].
    unfold written, block_data. cbn. rewrite Hs. by split_and!.
  - exists (dev s). split; [done|]. split; [done|]. split; [done|]. split; [apply written_refl|by repeat split].
Qed.

(** The bytes of a file after one chunk has been stored at [a]. *)
Lemma chunk_bytes s s1 i blk a n sec chunk :
  0 <= a -> 0 < n <= 512 - a mod 512 -> length sec = 512%nat -> length chunk = Z.to_nat n ->
  let k := Z.to_nat (a / 512) in let i1 := set_block i k blk in
  (k < length (blocks i))%nat -> 0 < blk -> blocks_ok s1 i1 ->
  block_data s1 blk = splice sec (Z.to_nat (a mod 512)) chunk ->
  (forall c, 0 <= c -> c <> blk -> block_data s1 c = block_data s c) ->
  (is_Some (byte_at s i (a / 512 * 512)) -> (n < 512 -> sec = block_data s blk) /\ blocks i !! k = Some blk) ->
  (forall p, a <= p < a + n -> byte_at s1 i1 p = chunk !! Z.to_nat (p - a)) /\
  (forall p, 0 <= p -> p < a \/ a + n <= p -> is_Some (byte_at s i p) -> byte_at s1 i1 p = byte_at s i p).
Proof.
  intros Ha Hn Hsec Hch k i1 Hk Hblk Hok Hb Hother Hsame.
  pose proof (Z.mod_pos_bound a 512 ltac:(lia)) as Hmod.
  assert (Hspl : (Z.to_nat (a mod 512) + length chunk <= length sec)%nat) by lia.
  assert (Hki : blocks i1 !! k = Some blk) by (cbn; by apply list_lookup_insert_eq).
  split.
  - intros p Hp. destruct (chunk_div a n p) as [Hd1 Hd2]; [lia..|].
    unfold byte_at. rewrite Hd1. fold k. rewrite Hki. replace (blk =? 0) with false by lia.
    rewrite Hb, Hd2, lookup_splice_in by lia. f_equal. lia.
  - intros p Hp0 Hp Hsome. destruct (decide (p / 512 = a / 512)) as [Hd|Hd].
    + assert (is_Some (byte_at s i (a / 512 * 512))) as Hs0.
      { unfold byte_at in *. rewrite Z.div_mul, Z.mod_mul by lia. rewrite Hd in Hsome.
        destruct (blocks i !! Z.to_nat (a / 512)) as [b|]; [|by destruct Hsome].
        destruct (b =? 0); [by destruct Hsome|]. apply lookup_lt_is_Some_2. rewrite block_length. lia. }
      destruct (Hsame Hs0) as [Hsec' Hki0]. unfold byte_at. rewrite Hd. fold k. rewrite Hki, Hki0.
      replace (blk =? 0) with false by lia. rewrite Hb.
      rewrite <- Hsec' by zdm. apply lookup_splice_out; [lia|]. zdm.
    + unfold byte_at in *. assert (Hne : Z.to_nat (p / 512) <> k) by (unfold k; zdm).
      unfold i1. cbn [blocks set_block]. rewrite list_lookup_insert_ne by done.
      destruct (blocks i !! Z.to_nat (p / 512)) as [c|] eqn:Ec; [|done].
      destruct (Z.eqb_spec c 0) as [|Hc]; [done|]. f_equal.
      assert (Hci : blocks i1 !! Z.to_nat (p / 512) = Some c) by (unfold i1; cbn; by rewrite list_lookup_insert_ne).
      destruct Hok as (_ & Hu & Hdist). destruct (Hu _ _ Hci Hc) as [Hcr _].
      apply Hother; [lia|]. intros ->. apply Hne. by eapply Hdist.
Qed.

Lemma write_loop_spec fuel s i buf offset size bw :
  dinv s -> blocks_ok s i -> 0 <= offset -> offset + size <= DISKFS_MAX_FILE_SIZE -> 0 <= bw <= size ->
  size <= Z.of_nat (length buf) -> all_u8 buf -> spans (offset + bw) (offset + size) < Z.of_nat fuel ->
  exists n i' s', write_loop fuel (mounted_drive s) i buf offset size bw s = Some (Some (n, i'), s') /\
    dinv s' /\ blocks_ok s' i' /\ written s i s' i' /\ bw <= n <= size /\
    (forall p, offset + bw <= p < offset + n -> byte_at s' i' p = buf !! Z.to_nat (p - offset)) /\
    (forall p, 0 <= p -> p < offset + bw \/ offset + n <= p -> is_Some (byte_at s i p) ->
       byte_at s' i' p = byte_at s i p) /\
    (n = size \/ forall b, 0 <= b < total_blocks (superblock s') -> used s' b).
Proof.
  revert s i bw. induction fuel as [|fuel IH]; intros s i bw Hi Hok Ho Hsz Hbw Hlen Hbytes Hf.
  { unfold spans in Hf. destruct (_ <? _) in Hf; zdm. }
  cbn [write_loop]. run.
  destruct (Z.ltb_spec bw size) as [Hlt|Hge]; cbn [negb]; cycle 1.
  { exists bw, i, s. split; [done|]. split; [done|]. split; [done|]. split; [apply written_refl|].
    split; [lia|]. split; [intros p Hp; lia|]. split; [done|]. left. lia. }
  pose proof Hok as (Hbl & Hbu & _).
  unfold DISKFS_MAX_FILE_SIZE, DISKFS_DIRECT_BLOCKS, DISKFS_BLOCK_SIZE, DISKFS_DATA_START in *.
  rewrite (u32_small (offset + bw)) by lia.
  set (a := offset + bw) in *.
  destruct (spans_step a (offset + size)) as (Hn1 & Hn2 & Hn3); [lia|].
  replace (offset + size - a) with (size - bw) in * by lia.
  set (n := if size - bw <? 512 - a mod 512 then size - bw else 512 - a mod 512) in *.
  replace (12 <=? a / 512) with false by zdm.
  set (k := Z.to_nat (a / 512)) in *.
  assert (Hk : (k < length (blocks i))%nat) by (rewrite Hbl; unfold k; zdm).
  destruct (lookup_lt_is_Some_2 _ _ Hk) as (b & Eb). rewrite Eb.
  assert (Hb0 : 0 <= b) by (destruct (decide (b = 0)) as [->|Hx]; [lia|destruct (Hbu k b Eb Hx); lia]).
  destruct (claim_block_spec s i k b Hi Hok Eb Hb0) as [[E Hfull]|(blk & s1 & E & Hi1 & Hblk & Hsame & Hok1 & Hw1 & Hs1)].
  { rewrite E. cbn [Z.ltb Z.compare]. exists bw, i, s. split; [done|]. split; [done|]. split; [done|].
    split; [apply written_refl|]. split; [lia|]. split; [intros p Hp; lia|]. split; [done|]. by right. }
  rewrite E. replace (blk <? 0) with false by lia.
  assert (Hblk' := Hblk). unfold DISKFS_MAX_BLOCKS in Hblk'. rewrite (u32_small (545 + blk)) by lia.
  pose proof Hw1 as (Hm1 & _). rewrite <- Hm1.
  set (c := negb (a mod 512 =? 0) || (n <? 512)).
  destruct (load_block_spec s1 _ blk c Hi1 Hok1 Hblk) as (d & E2 & Hi2 & Hok2 & Hw2 & Hsd2). rewrite E2.
  cbn [negb Z.eqb]. set (s2 := if c then with_dev s1 d else s1) in *.
  set (sec := if c then block_data s1 blk else replicate 512 0).
  assert (Hsec : length sec = 512%nat) by (unfold sec; destruct c; [apply block_length|apply length_replicate]).
  set (chunk := slice buf (Z.to_nat bw) (Z.to_nat n)).
  assert (Hch : length chunk = Z.to_nat n) by (apply length_slice; lia).
  rewrite Hch, Nat.ltb_irrefl. pose proof (Z.mod_pos_bound a 512 ltac:(lia)) as Hmod.
  set (i1 := set_block i k blk) in *.
  assert (Eb1 : blocks i1 !! k = Some blk) by (cbn; by apply list_lookup_insert_eq).
  pose proof Hw2 as (Hm2 & _). rewrite <- Hm2.
  destruct (store_block_spec s2 i1 k blk (splice sec (Z.to_nat (a mod 512)) chunk) Hi2 Hok2 Eb1 Hblk)
    as (d3 & E3 & Hi3 & Hok3 & Hw3 & Hd3 & Ho3); [rewrite length_splice; lia| |].
  { apply all_u8_splice; [unfold sec; destruct c; [apply bd_bytes|apply zeros_u8]|by apply all_u8_slice]. }
  rewrite E3. cbn [negb Z.eqb]. set (s3 := with_dev s2 d3) in *.
  assert (Hdata : forall x, block_data s2 x = block_data s x).
  { intros x. destruct Hsd2 as (Ha & _ & _ & _ & Hb). unfold block_data. rewrite Hb, Ha, Hm1. apply Hs1. }
  destruct (chunk_bytes s s3 i blk a n sec chunk) as [Hin Hout]; try done; [lia|lia| | |].
  { intros x Hx0 Hx. rewrite Ho3 by done. apply Hdata. }
  { intros Hsome. unfold byte_at in Hsome. rewrite Z.div_mul in Hsome by lia. fold k in Hsome.
    rewrite Eb in Hsome. destruct (Z.eqb_spec b 0) as [|Hbz]; [by destruct Hsome|].
    split; [|by rewrite (Hsame Hbz)]. intros Hn. unfold sec, c.
    replace (n <? 512) with true by lia. rewrite orb_true_r. rewrite <- Hdata.
    destruct Hsd2 as (Ha & _ & _ & _ & Hb). unfold block_data. by rewrite Ha, Hb. }
  fold k i1 in Hin, Hout.
  change (mounted_drive s2) with (mounted_drive s3).
  destruct (IH s3 i1 (bw + n) Hi3 Hok3 Ho Hsz) as (m & i' & s' & E4 & Hi4 & Hok4 & Hw4 & Hm & Hby & Hkeep & Hdone);
    [lia|lia|done|replace (offset + (bw + n)) with (a + n) by lia; lia|].
  exists m, i', s'. rewrite E4. split; [done|]. split; [done|]. split; [done|]. split.
  { eapply written_trans; [exact Hw1|]. eapply written_trans; [exact Hw2|]. eapply written_trans; [exact Hw3|done]. }
  split; [lia|]. split; [|split; [|done]].
  - intros p Hp. destruct (decide (p < a + n)) as [Hpn|Hpn]; [|apply Hby; lia].
    assert (Hx : byte_at s3 i1 p = buf !! Z.to_nat (p - offset)).
    { rewrite Hin by lia. unfold chunk. rewrite lookup_slice by lia. f_equal. lia. }
    rewrite Hkeep; [done|lia|lia|]. rewrite Hx. apply lookup_lt_is_Some_2. lia.
  - intros p Hp0 Hp Hs. assert (Hx : byte_at s3 i1 p = byte_at s i p) by (apply Hout; [done|lia|done]).
    rewrite Hkeep; [done|done|lia|]. by rewrite Hx.
Qed.

(** ** Reading and writing files *)

Lemma byte_at_ext s s' i i' p :
  (forall k b, blocks i !! k = Some b -> 0 <= b) ->
  (forall b, 0 <= b -> block_data s' b = block_data s b) -> blocks i' = blocks i ->
  byte_at s' i' p = byte_at s i p.
Proof.
  intros Hn Hb Hi. unfold byte_at. rewrite Hi. destruct (blocks i !! _) as [b|] eqn:E; [|done].
  destruct (b =? 0); [done|]. by rewrite Hb by (by eapply Hn).
Qed.

Lemma blocks_nonneg s i k b : blocks_ok s i -> blocks i !! k = Some b -> 0 <= b.
Proof. intros (_ & Hu & _) Hk. destruct (decide (b = 0)) as [->|Hb]; [lia|]. destruct (Hu k b Hk Hb). lia. Qed.

Lemma wf_inode_update s i i' size now :
  wf_inode i -> blocks_ok s i' -> i_type i' = i_type i -> parent_inode i' = parent_inode i ->
  ctime i' = ctime i -> i_pad i' = i_pad i -> is_u32 size -> is_u32 now ->
  wf_inode (Inode (i_type i') size (blocks i') (ctime i') now (parent_inode i') (i_pad i')).
Proof.
  intros (Hw & Hl & Hp) Hok -> -> -> -> Hs Hn. pose proof Hok as (Hl' & Hu & _). split; [|done].
  unfold all_u32 in *. cbn. rewrite !Forall_cons, Forall_app, !Forall_cons in *.
  destruct Hw as (Ht & _ & _ & Hc & _ & Hpa & _).
  split; [done|]. split; [done|]. split; [|by split_and!].
  apply Forall_lookup_2. intros k b Hk. unfold is_u32.
  destruct (decide (b = 0)) as [->|Hb]; [lia|]. destruct (Hu k b Hk Hb) as [Hr _].
  unfold DISKFS_MAX_BLOCKS in Hr. lia.
Qed.

Lemma wf_size i : wf_inode i -> 0 <= i_size i < 4294967296.
Proof. intros (Hw & _). unfold all_u32 in Hw. rewrite !Forall_cons in Hw. apply Hw. Qed.

Lemma diskfs_read_spec s ino offset size :
  dinv s -> ino_ok ino -> wf_inode (inode_of s ino) -> blocks_ok s (inode_of s ino) ->
  0 <= offset -> 0 <= size -> offset + size <= Z.min (i_size (inode_of s ino)) DISKFS_MAX_FILE_SIZE ->
  (forall p, offset <= p < offset + size -> is_Some (byte_at s (inode_of s ino) p)) ->
  exists data s', diskfs_read ino offset size s = Some ((size, data), s') /\ dinv s' /\ same_disk s s' /\
    inode_of s' ino = inode_of s ino /\ Z.of_nat (length data) = size /\
    forall p, offset <= p < offset + size -> byte_at s (inode_of s ino) p = data !! Z.to_nat (p - offset).
Proof.
  intros Hi Hok Hwf Hbl Ho Hs Hle Hb. unfold diskfs_read. run.
  replace (mounted_drive s =? 255) with false by (pose proof (di_mounted _ Hi); lia).
  destruct (read_inode_spec s ino Hi Hok) as (s1 & -> & Hi1 & Hsd & Hino). cbn [negb Z.eqb].
  set (i := inode_of s ino) in *. pose proof (wf_size i Hwf) as Hsz.
  destruct (Z.leb_spec (i_size i) offset) as [Hx|Hx].
  { assert (size = 0) as -> by lia. exists [], s1. split_and!; try done. intros p Hp. exfalso. lia. }
  unfold DISKFS_MAX_FILE_SIZE, DISKFS_DIRECT_BLOCKS, DISKFS_BLOCK_SIZE in *. rewrite u32_small by lia.
  replace (i_size i <? offset + size) with false by lia.
  pose proof Hsd as (Hm & _). rewrite <- Hm.
  assert (Hn : Z.of_nat (@length Z []) = 0) by done.
  destruct (read_loop_spec data_fuel s1 i offset size [] Hi1 Ho) as (data & s2 & E & Hi2 & Hsd2 & Hc2 & Hl2 & Hby).
  - unfold DISKFS_MAX_FILE_SIZE, DISKFS_DIRECT_BLOCKS, DISKFS_BLOCK_SIZE. lia.
  - rewrite Hn. lia.
  - rewrite Hn. unfold spans, data_fuel. destruct (_ <? _); zdm.
  - intros b [k Hk]%list_elem_of_lookup. pose proof Hbl as (_ & Hu & _).
    destruct (decide (b = 0)) as [->|Hb0]; [unfold DISKFS_MAX_BLOCKS; lia|]. destruct (Hu k b Hk Hb0). lia.
  - rewrite Hn. intros p Hp. rewrite (same_disk_bytes _ _ _ _ Hsd). apply Hb. lia.
  - exists data, s2. rewrite E, app_nil_l in *. split; [done|]. split; [done|].
    split; [by eapply same_disk_trans|]. split; [|split; [done|]].
    + rewrite <- Hino. unfold inode_of. rewrite Hc2. destruct Hsd2 as (Ha & _ & _ & _ & Hc). by rewrite Ha, Hc.
    + intros p Hp. rewrite <- (same_disk_bytes _ _ _ _ Hsd). rewrite Hby by (rewrite Hn; lia).
      rewrite Hn. f_equal. lia.
Qed.

Lemma diskfs_write_spec s ino buf offset size :
  dinv s -> ino_ok ino -> wf_inode (inode_of s ino) -> blocks_ok s (inode_of s ino) ->
  0 <= offset -> 0 <= size <= Z.of_nat (length buf) -> offset + size <= DISKFS_MAX_FILE_SIZE -> all_u8 buf ->
  exists n s', diskfs_write ino buf offset size s = Some (n, s') /\ dinv s' /\ 0 <= n <= size /\
    let i := inode_of s ino in let i' := inode_of s' ino in
    wf_inode i' /\ blocks_ok s' i' /\ i_size i' = Z.max (i_size i) (offset + n) /\ i_type i' = i_type i /\
    (forall p, offset <= p < offset + n -> byte_at s' i' p = buf !! Z.to_nat (p - offset)) /\
    (forall p, 0 <= p -> p < offset \/ offset + n <= p -> is_Some (byte_at s i p) -> byte_at s' i' p = byte_at s i p) /\
    (forall b, 0 < b -> used s b -> b ∉ blocks i -> block_data s' b = block_data s b) /\
    (n = size \/ forall b, 0 <= b < total_blocks (superblock s') -> used s' b).
Proof.
  intros Hi Hok Hwf Hbl Ho Hs Hle Hbytes. unfold diskfs_write. run.
  replace (mounted_drive s =? 255) with false by (pose proof (di_mounted _ Hi); lia).
  destruct (read_inode_spec s ino Hi Hok) as (s1 & -> & Hi1 & Hsd & Hino). cbn [negb Z.eqb].
  set (i := inode_of s ino) in *. pose proof (wf_size i Hwf) as Hsz.
  assert (Hle' : offset + size <= 6144) by exact Hle.
  rewrite (u32_small (offset + size)) by lia.
  replace (DISKFS_MAX_FILE_SIZE <? offset + size) with false
    by (unfold DISKFS_MAX_FILE_SIZE, DISKFS_DIRECT_BLOCKS, DISKFS_BLOCK_SIZE; lia).
  pose proof Hsd as (Hm & Hsb & Hib & Hbb & Hsec).
  assert (Hbl1 : blocks_ok s1 i) by (unfold blocks_ok, used; by rewrite Hbb).
  destruct (write_loop_spec data_fuel s1 i buf offset size 0 Hi1 Hbl1 Ho Hle)
    as (n & i' & s2 & E & Hi2 & Hbl2 & Hw & Hn & Hby & Hkeep & Hfull); [lia|lia|done| |].
  { unfold spans, data_fuel. destruct (_ <? _); zdm. }
  rewrite <- Hm, E. rewrite (u32_small (offset + n)) by lia.
  destruct Hw as (Hm2 & Hc2 & Hib2 & Ht2 & Hlow & Hus & Hfr & Hty & His & Hpar & Hct & Hmt & Hpad).
  unfold ticks. set (now := timer_get_ticks (dev s2)).
  set (i2 := if i_size i' <? offset + n then set_size i' (offset + n) else i').
  set (i3 := set_mtime i2 now).
  assert (Hi3 : i3 = Inode (i_type i') (Z.max (i_size i) (offset + n)) (blocks i') (ctime i') now (parent_inode i') (i_pad i')).
  { unfold i3, i2, set_mtime, set_size. destruct (Z.ltb_spec (i_size i') (offset + n)); cbn; f_equal; lia. }
  assert (Hwf3 : wf_inode i3).
  { rewrite Hi3. apply (wf_inode_update s2 i); try done; [unfold is_u32; lia|]. apply bd_ticks. }
  rewrite <- Hm2.
  destruct (write_inode_spec s2 ino i3 Hi2 Hok Hwf3) as (s3 & E3 & Hi4 & Hino3 & Hm3 & Hsb3 & Hib3 & Hbb3 & Hd3 & _).
  rewrite E3. exists n, s3. split; [done|]. split; [done|]. split; [lia|]. cbv zeta. rewrite Hino3.
  assert (Hblk : blocks i3 = blocks i') by by rewrite Hi3.
  assert (Hbl3 : blocks_ok s3 i3) by (unfold blocks_ok, used in *; by rewrite Hbb3, Hblk).
  assert (Hext : forall p, byte_at s3 i3 p = byte_at s2 i' p).
  { intros p. apply byte_at_ext; [|done|done]. intros k b. by apply (blocks_nonneg s2). }
  split; [done|]. split; [done|]. split; [by rewrite Hi3|]. split; [by rewrite Hi3|].
  split; [|split; [|split]].
  - intros p Hp. rewrite Hext. apply Hby. lia.
  - intros p Hp0 Hp Hsome. rewrite Hext, <- (same_disk_bytes s s1 i p Hsd). apply Hkeep; [done|lia|].
    by rewrite (same_disk_bytes s s1 i p Hsd).
  - intros b Hb Hu Hnin. rewrite Hd3 by lia. destruct (Hfr b Hb) as [-> _]; [unfold used; by rewrite Hbb|done|].
    unfold block_data. by rewrite Hsec, Hm.
  - destruct Hfull as [->|Hall]; [by left|right]. rewrite Hsb3. unfold used. by rewrite Hbb3.
Qed.

(** ** Formatting and mounting *)

Lemma good_read s v lba n :
  bd_good (dev s) v -> sector_range lba n ->
  exists d, disk_read v lba n s = Some ((0, sectors_at (bd_sector (dev s) v) lba n), with_dev s d) /\
    bd_good d v /\ bd_sector d = bd_sector (dev s).
Proof.
  intros Hg Hr. unfold disk_read. destruct (bd_read_ok (dev s) v lba n Hg Hr) as (d & -> & Hd).
  by exists d.
Qed.

Lemma good_write s v lba n data :
  bd_good (dev s) v -> sector_range lba n -> length data = Z.to_nat (512 * n) -> all_u8 data ->
  exists d, disk_write v lba n data s = Some (0, with_dev s d) /\ bd_good d v /\
    sectors_at (bd_sector d v) lba n = data /\
    forall l, ~ (lba <= l < lba + n) -> bd_sector d v l = bd_sector (dev s) v l.
Proof.
  intros Hg Hr Hl Hby. unfold disk_write. destruct (bd_write_ok (dev s) v lba n data Hg Hr Hl Hby) as (d & -> & Hd & Hs).
  exists d. split; [done|]. split; [done|]. destruct Hr as (_ & Hn & _). split.
  - apply sectors_at_slices; [lia|done|]. intros l Hx. by rewrite Hs, decide_True.
  - intros l Hx. rewrite Hs, decide_False; [done|naive_solver].
Qed.

Lemma sectors_at_ext f g lba n : (forall l, lba <= l < lba + n -> f l = g l) -> sectors_at f lba n = sectors_at g lba n.
Proof.
  intros He. unfold sectors_at.
  assert (Hx : forall l, l ∈ seqZ lba n -> f l = g l) by (intros l Hl%elem_of_seqZ; by apply He).
  induction (seqZ lba n) as [|x xs IH]; [done|]. cbn [mbind list_bind].
  rewrite (Hx x) by left. f_equal. apply IH. intros l Hl. apply Hx. by right.
Qed.

(** What [diskfs_format] puts on the disk. *)
Definition fresh_superblock : diskfs_superblock :=
  Superblock DISKFS_MAGIC DISKFS_VERSION DISKFS_MAX_INODES DISKFS_MAX_BLOCKS
    (DISKFS_MAX_INODES - 1) DISKFS_MAX_BLOCKS 0 DISKFS_BLOCK_SIZE (replicate 480 0).
Definition fresh_root (now : Z) : diskfs_inode := Inode DISKFS_TYPE_DIR 0 (replicate 12 0) now now 0 (replicate 68 0).
Definition fresh_inode_bitmap : list Z := <[0%nat := 1]> (replicate 8192 0).

Definition formatted (d : D) (v : Z) : Prop :=
  bd_good d v /\ sectors_at (bd_sector d v) 0 1 = encode_superblock fresh_superblock /\
  sectors_at (bd_sector d v) 1 16 = fresh_inode_bitmap /\
  sectors_at (bd_sector d v) 17 16 = replicate 8192 0 /\
  exists now, is_u32 now /\ slice (bd_sector d v 33) 0 INODE_BYTES = encode_inode (fresh_root now).

Lemma fresh_root_wf now : is_u32 now -> wf_inode (fresh_root now).
Proof.
  intros Hn. split; [|split; [done|split; [done|apply zeros_u8]]]. unfold all_u32, is_u32 in *. cbn. rewrite !Forall_cons.
  unfold DISKFS_TYPE_DIR. split_and!; try lia. constructor.
Qed.

Lemma fresh_bitmap_bytes : all_u8 fresh_inode_bitmap.
Proof. unfold fresh_inode_bitmap. apply Forall_insert; [apply zeros_u8|unfold is_u8; lia]. Qed.

Lemma write_root s v now :
  bd_good (dev s) v -> is_u32 now ->
  exists s', write_inode v 0 (fresh_root now) s = Some (0, s') /\ bd_good (dev s') v /\
    slice (bd_sector (dev s') v 33) 0 INODE_BYTES = encode_inode (fresh_root now) /\
    (forall l, l <> 33 -> bd_sector (dev s') v l = bd_sector (dev s) v l).
Proof.
  intros Hg Hn. unfold write_inode. change (DISKFS_MAX_INODES <=? 0) with false.
  change (inode_sector 0) with 33. change (inode_offset 0) with 0%nat. run.
  destruct (good_read s v 33 1 Hg) as (d & -> & Hd & Hs); [unfold sector_range; lia|].
  rewrite sectors_at_1. cbn [negb Z.eqb]. change (512 <? 0 + INODE_BYTES)%nat with false. cbv iota.
  pose proof (length_encode_inode _ (fresh_root_wf now Hn)) as Hl.
  assert (Hsp : (0 + length (encode_inode (fresh_root now)) <= length (bd_sector (dev s) v 33))%nat)
    by (rewrite Hl, bd_length; unfold INODE_BYTES; lia).
  destruct (good_write (with_dev s d) v 33 1 (splice (bd_sector (dev s) v 33) 0 (encode_inode (fresh_root now))) Hd)
    as (d' & -> & Hd' & Hs' & Ho'); [unfold sector_range; lia|rewrite length_splice, bd_length by done; done|
      apply all_u8_splice; [apply bd_bytes|apply encode_inode_bytes; by apply fresh_root_wf]|].
  cbn [negb Z.eqb]. rewrite sectors_at_1 in Hs'.
  assert (Hend : forall s', dev s' = d' ->
    slice (bd_sector (dev s') v 33) 0 INODE_BYTES = encode_inode (fresh_root now) /\
    (forall l, l <> 33 -> bd_sector (dev s') v l = bd_sector (dev s) v l)).
  { intros s' ->. split; [rewrite Hs', <- Hl; by apply slice_splice|].
    intros l Hx. rewrite Ho' by lia. cbn. by rewrite Hs. }
  destruct (list_find _ _) as [[k c]|].
  - eexists. split; [reflexivity|]. split; [done|]. by apply Hend.
  - exists (with_dev (with_dev s d) d'). split; [done|]. split; [done|]. by apply Hend.
Qed.

Lemma diskfs_format_spec s v :
  bd_good (dev s) v -> exists s', diskfs_format v s = Some (0, s') /\ formatted (dev s') v.
Proof.
  intros Hg. unfold diskfs_format. run. rewrite (bd_exists _ _ Hg). cbn [negb].
  unfold log, put_superblock, put_block_bitmap, put_inode_bitmap, bitmap_set. cbv beta iota.
  change (replicate 8192 0 !! Z.to_nat (0 / 8)) with (Some 0). cbn [mbind option_bind].
  change (<[Z.to_nat (0 / 8):=Z.lor 0 (1 ≪ (0 mod 8))]> (replicate 8192 0)) with fresh_inode_bitmap.
  unfold write_superblock. run. cbn [superblock mounted_drive inode_bitmap block_bitmap inode_cache cache_idx dev logged].
  set (s1 := Dfs _ _ _ _ _ _ (dev s) _).
  destruct (good_write s1 v 0 1 (encode_superblock fresh_superblock) Hg) as (d1 & E1 & G1 & W1 & O1);
    [unfold sector_range; lia|done|by apply Forall_app; split; [apply encode_words_bytes|apply zeros_u8]|].
  change (disk_write v DISKFS_SUPERBLOCK_SECTOR 1) with (@disk_write D _ v 0 1).
  fold fresh_superblock. rewrite E1. cbn [negb Z.eqb]. unfold write_bitmaps. run.
  destruct (good_write (with_dev s1 d1) v 1 16 fresh_inode_bitmap G1) as (d2 & E2 & G2 & W2 & O2);
    [unfold sector_range; lia|done|apply fresh_bitmap_bytes|].
  change (inode_bitmap (with_dev s1 d1)) with fresh_inode_bitmap.
  change (disk_write v DISKFS_INODE_BITMAP_START DISKFS_INODE_BITMAP_SECTORS) with (@disk_write D _ v 1 16).
  rewrite E2. cbn [negb Z.eqb].
  destruct (good_write (with_dev (with_dev s1 d1) d2) v 17 16 (replicate 8192 0) G2) as (d3 & E3 & G3 & W3 & O3);
    [unfold sector_range; lia|done|apply zeros_u8|].
  change (block_bitmap (with_dev (with_dev s1 d1) d2)) with (replicate 8192 0).
  change (disk_write v DISKFS_BLOCK_BITMAP_START DISKFS_BLOCK_BITMAP_SECTORS) with (@disk_write D _ v 17 16).
  rewrite E3. cbn [negb Z.eqb]. unfold ticks.
  set (s3 := with_dev _ d3). set (now := timer_get_ticks (dev s3)).
  destruct (write_root s3 v now G3 (bd_ticks _)) as (s4 & E4 & G4 & W4 & O4).
  change (Inode DISKFS_TYPE_DIR 0 (replicate 12 0) now now 0 (replicate 68 0)) with (fresh_root now). rewrite E4.
  cbn [negb Z.eqb]. eexists. split; [reflexivity|]. cbn [dev]. split; [done|].
  assert (H4 : forall l, l < 33 -> bd_sector (dev s4) v l = bd_sector d3 v l) by (intros l Hl; apply O4; lia).
  split; [|split; [|split; [|by exists now; split; [apply bd_ticks|]]]].
  - rewrite <- W1. apply sectors_at_ext. intros l Hl. rewrite H4, O3, O2 by lia. done.
  - rewrite <- W2. apply sectors_at_ext. intros l Hl. rewrite H4, O3 by lia. done.
  - rewrite <- W3. apply sectors_at_ext. intros l Hl. by rewrite H4 by lia.
Qed.

Lemma diskfs_mount_spec s v :
  formatted (dev s) v -> length (encode_superblock (superblock s)) = 512%nat ->
  length (inode_bitmap s) = 8192%nat -> length (block_bitmap s) = 8192%nat ->
  exists s' now, diskfs_mount v s = Some (0, s') /\ mounted_drive s' = v /\ superblock s' = fresh_superblock /\
    inode_bitmap s' = fresh_inode_bitmap /\ block_bitmap s' = replicate 8192 0 /\
    inode_of s' 0 = fresh_root now /\ bd_good (dev s') v.
Proof.
  intros (Hg & W0 & W1 & W2 & now & Hnow & W3) Hl0 Hl1 Hl2. unfold diskfs_mount, read_superblock. run.
  rewrite (bd_exists _ _ Hg). cbn [negb]. unfold log. cbv beta iota.
  set (s1 := Dfs _ _ _ _ _ _ (dev s) _).
  destruct (good_read s1 v 0 1 Hg) as (d1 & E1 & G1 & S1); [unfold sector_range; lia|].
  change (disk_read v DISKFS_SUPERBLOCK_SECTOR 1) with (@disk_read D _ v 0 1). rewrite E1.
  change (dev s1) with (dev s). rewrite W0. cbn [negb Z.eqb].
  change (superblock (with_dev s1 d1)) with (superblock s).
  rewrite splice_whole by (rewrite Hl0; done).
  assert (Hde : decode_superblock (encode_superblock fresh_superblock) = fresh_superblock) by reflexivity.
  rewrite Hde. unfold put_superblock. cbv beta iota. unfold read_bitmaps, put_inode_bitmap, put_block_bitmap. run.
  set (s2 := Dfs _ _ _ _ _ _ (dev (with_dev s1 d1)) _).
  cbn [negb Z.eqb]. cbv beta iota. change (magic (superblock s2) =? DISKFS_MAGIC) with true.
  cbn [negb Z.eqb]. cbv beta iota.
  destruct (good_read s2 v 1 16 G1) as (d2 & E2 & G2 & S2); [unfold sector_range; lia|].
  change (disk_read v DISKFS_INODE_BITMAP_START DISKFS_INODE_BITMAP_SECTORS) with (@disk_read D _ v 1 16). rewrite E2.
  change (dev s2) with d1. rewrite S1. change (dev s1) with (dev s). rewrite W1. cbn [negb Z.eqb].
  change (inode_bitmap (with_dev s2 d2)) with (inode_bitmap s).
  rewrite splice_whole by (rewrite Hl1; done).
  set (s3 := Dfs _ _ _ _ _ _ (dev (with_dev s2 d2)) _).
  destruct (good_read s3 v 17 16 G2) as (d3 & E3 & G3 & S3); [unfold sector_range; lia|].
  change (disk_read v DISKFS_BLOCK_BITMAP_START DISKFS_BLOCK_BITMAP_SECTORS) with (@disk_read D _ v 17 16). rewrite E3.
  change (dev s3) with d2. rewrite S2. change (dev s2) with d1. rewrite S1. change (dev s1) with (dev s). rewrite W2.
  cbn [negb Z.eqb]. change (block_bitmap (with_dev s3 d3)) with (block_bitmap s).
  rewrite splice_whole by (rewrite Hl2; done).
  unfold put_cache, put_mounted. cbv beta iota. eexists _, now. split; [reflexivity|].
  split; [done|]. split; [done|]. split; [done|]. split; [done|]. split; [|done].
  unfold inode_of. cbn [inode_cache mounted_drive dev].
  rewrite (proj2 (list_find_None _ _)).
  - change (inode_sector 0) with 33. change (inode_offset 0) with 0%nat.
    change (dev (with_dev s3 d3)) with d3. rewrite S3. change (dev s3) with d2. rewrite S2. change (dev s2) with d1.
    rewrite S1. change (dev s1) with (dev s). rewrite W3. apply decode_encode_inode. by apply fresh_root_wf.
  - apply Forall_fmap, Forall_true. intros c [Hc _]. discriminate.
Qed.

(** ** Properties *)


(** formatting a drive that works and mounting it, also after a restart,
    succeeds and gives the empty file system: the fresh superblock and bitmaps
    and a root directory without entries.  In the fresh block bitmap block 0 is
    free, so it is the first block allocated, although 0 means "no block" in an
    inode: what is written to it cannot be read back. *)
Theorem diskfs_format_mount_roundtrip s v :
  bd_good (dev s) v ->
  exists s1, diskfs_format v s = Some (0, s1) /\
  forall s2, dev s2 = dev s1 -> length (encode_superblock (superblock s2)) = 512%nat ->
    length (inode_bitmap s2) = 8192%nat -> length (block_bitmap s2) = 8192%nat ->
    exists s3 now, diskfs_mount v s2 = Some (0, s3) /\ mounted_drive s3 = v /\ superblock s3 = fresh_superblock /\
      inode_of s3 0 = fresh_root now /\ (exists s4, alloc_inode s3 = Some (1, s4)) /\
      exists s4, alloc_block s3 = Some (0, s4).
Proof.
  intros Hg. destruct (diskfs_format_spec s v Hg) as (s1 & E1 & Hf). exists s1. split; [done|].
  intros s2 Hd Hl0 Hl1 Hl2. rewrite <- Hd in Hf.
  destruct (diskfs_mount_spec s2 v Hf Hl0 Hl1 Hl2) as (s3 & now & E3 & Hm & Hsb & Hib & Hbb & Hr & _).
  exists s3, now. split; [done|]. split; [done|]. split; [done|]. split; [done|].
  split; [unfold alloc_inode|unfold alloc_block]; run.
  - rewrite Hib, Hsb. eexists. reflexivity.
  - rewrite Hbb, Hsb. eexists. reflexivity.
Qed.

(** C37: an inode of 136 bytes does not fit its slot of 128.  Reading or writing
    the last inode of a sector leaves the sector buffer; writing another one
    zeroes the type and the size of the inode that follows it on disk. *)
Theorem inode_slots_overlap s ino i :
  dinv s -> 0 <= ino < DISKFS_MAX_INODES -> wf_inode i -> i_pad i = replicate 68 0 ->
  (ino mod 4 = 3 -> write_inode (mounted_drive s) ino i s = None /\
     (list_find (cached ino) (inode_cache s) = None -> read_inode (mounted_drive s) ino s = None)) /\
  (ino mod 4 <> 3 -> exists s', write_inode (mounted_drive s) ino i s = Some (0, s') /\
     slice (bd_sector (dev s') (mounted_drive s) (inode_sector ino)) (inode_offset (ino + 1)) 8 = replicate 8 0).
Proof.
  intros Hi Hr Hwf Hpad. split; intros Hm.
  - assert (Hsec : sector_range (inode_sector ino) 1)
      by (unfold sector_range, inode_sector, DISKFS_INODE_TABLE_START, DISKFS_MAX_INODES in *; zdm).
    assert (Hoff : (512 <? inode_offset ino + INODE_BYTES)%nat = true)
      by (unfold inode_offset; rewrite Hm; reflexivity).
    destruct (disk_read_ok s _ 1 Hi Hsec) as (d & E & _). unfold write_inode, read_inode.
    replace (DISKFS_MAX_INODES <=? ino) with false by lia. run. rewrite E, Hoff. cbn [negb Z.eqb].
    split; [done|]. intros Hn. rewrite Hn, E. cbn [negb Z.eqb]. reflexivity.
  - assert (Hok : ino_ok ino) by done.
    destruct (write_inode_spec s ino i Hi Hok Hwf) as (s' & E & _ & _ & _ & _ & _ & _ & _ & Hs).
    exists s'. split; [done|]. rewrite Hs. destruct (inode_offset_ok ino Hok) as [_ Ho].
    assert (Hoff : inode_offset (ino + 1) = (inode_offset ino + 128)%nat).
    { unfold inode_offset. assert ((ino + 1) mod 4 = ino mod 4 + 1) as -> by zdm.
      pose proof (Z.mod_pos_bound ino 4). lia. }
    pose proof (length_encode_inode i Hwf) as Hle. unfold INODE_BYTES in Hle, Ho.
    rewrite Hoff, slice_splice_part; [|rewrite Hle, bd_length; lia|lia].
    unfold encode_inode. rewrite slice_app_r; rewrite length_encode_words; cbn [length]; rewrite length_app;
      destruct Hwf as (_ & -> & _ & _); [|cbn; lia]. by rewrite Hpad.
Qed.
End proofs.

(** ** A small disk

    A blank drive 0, formatted and mounted; then the file "a" is created. *)

Definition blank : dfs ramdisk :=
  Dfs 255 zero_superblock (replicate 8192 0) (replicate 8192 0) (replicate 8 (Slot false 0 zero_inode)) 0
    (Ramdisk 0 ∅ 7) [].
Definition after {A} (o : option (A * dfs ramdisk)) : dfs ramdisk := match o with Some (_, s) => s | None => blank end.
Definition no_entry (_ : Z) : list Z := replicate 32 0.
Definition mounted : dfs ramdisk := after (diskfs_init 0 blank).
Definition with_a : dfs ramdisk := after (diskfs_create no_entry 0 [97] DISKFS_TYPE_FILE mounted).

Lemma blocks_ok_zero (s : dfs ramdisk) i : blocks i = replicate 12 0 -> blocks_ok s i.
Proof.
  intros Hb. unfold blocks_ok. rewrite Hb. split; [done|].
  split; [intros k b [-> _]%lookup_replicate Hn|intros k k' b [-> _]%lookup_replicate _ Hn]; done.
Qed.

Lemma with_a_inv : dinv with_a.
Proof.
  split; [vm_compute; reflexivity|vm_compute; discriminate|vm_compute; reflexivity|..].
  - assert (cache_idx with_a = 1) as -> by (vm_compute; reflexivity). lia.
  - vm_compute. reflexivity.
  - assert (total_blocks (superblock with_a) = 65536) as -> by (vm_compute; reflexivity).
    unfold DISKFS_MAX_BLOCKS. lia.
  - vm_compute. reflexivity.
Qed.

Lemma with_a_inode : inode_of with_a 1 = Inode 0 0 (replicate 12 0) 11 11 0 (replicate 68 0).
Proof. vm_compute. reflexivity. Qed.

(** The entry of "a" went to block 0: it is not found again. *)
Example created_file_not_found :
  fst <$> diskfs_create no_entry 0 [97] DISKFS_TYPE_FILE mounted = Some 1 /\
  fst <$> diskfs_lookup no_entry 0 [97] with_a = Some (-1).
Proof. split; vm_compute; reflexivity. Qed.

Lemma small_inode_wf ty n ct mt : is_u32 ty -> is_u32 n -> is_u32 ct -> is_u32 mt ->
  wf_inode (Inode ty n (replicate 12 0) ct mt 0 (replicate 68 0)).
Proof.
  intros Ht Hn Hc Hm. split; [|split; [done|split; [done|apply zeros_u8]]]. unfold all_u32, is_u32 in *. cbn. rewrite !Forall_cons.
  split_and!; try lia. constructor.
Qed.


Lemma diskfs_format_mount_roundtrip_witness : exists s1, diskfs_format 0 blank = Some (0, s1).
Proof.
  assert (Hg : bd_good (dev blank) 0) by reflexivity.
  destruct (diskfs_format_mount_roundtrip blank 0 Hg) as (s1 & E & _).
  exact (ex_intro _ s1 E).
Defined.

Lemma inode_slots_overlap_witness :
  write_inode (mounted_drive with_a) 3 zero_inode with_a = None.
Proof.
  destruct (inode_slots_overlap with_a 3 zero_inode with_a_inv) as (A & _).
  - unfold DISKFS_MAX_INODES. lia.
  - apply small_inode_wf; unfold is_u32; lia.
  - reflexivity.
  - exact (proj1 (A eq_refl)).
Defined.
