(* ===== verification/Fs.v ===== *)
(** kernel/fs/fs.c: the file system in memory, and its routing to the disk.

    The nodes are a table of 64 records.  A C string is the list of its bytes
    before the terminator; a copy into a fixed array by [strncpy] and a
    terminator is a [take] (CString.bounded_copy_stays_in_buffer).  Paths are not
    NULL here: a NULL path takes the branch of the empty one, except in
    [fs_create_file], where it is dereferenced.  An operation is a computation
    [F] on the nodes, the current directory and the disk file system (DiskFs);
    [None] is an access outside an array.

    Buffers of the caller are lists: [fs_read] and [fs_list_dir] return what they
    store. *)

From S2P Require Import Prelude Codec BlockDev DiskFs.
Local Open Scope Z_scope.

(** ** Definitions *)

Definition FS_MAX_NAME : nat := 32.
Definition FS_MAX_PATH : nat := 128.
Definition FS_MAX_FILES : nat := 64.
Definition FS_MAX_FILE_SIZE : Z := 4096.
Definition FS_MAX_PATH_DEPTH : nat := 8.
Definition FS_TYPE_FILE : Z := 0.
Definition FS_TYPE_DIR : Z := 1.
Definition FS_ERR_OK : Z := 0.
Definition FS_ERR_NOT_FOUND : Z := -1.
Definition FS_ERR_EXISTS : Z := -2.
Definition FS_ERR_FULL : Z := -3.
Definition FS_ERR_INVALID : Z := -4.
Definition FS_ERR_NOT_EMPTY : Z := -5.
Definition FS_ERR_IS_DIR : Z := -6.
Definition FS_ERR_NOT_DIR : Z := -7.

(** '/', ".", ".." *)
Definition SLASH : Z := 47.
Definition dot : list Z := [46].
Definition dotdot : list Z := [46; 46].

Record fs_node := Node {
  name : list Z;
  type : Z;
  in_use : bool;
  size : Z;
  parent_idx : Z;
  data : list Z
}.

Definition zero_data : list Z := replicate (Z.to_nat FS_MAX_FILE_SIZE) 0.
(** What [memset] to 0 leaves. *)
Definition zero_node : fs_node := Node [] 0 false 0 0 zero_data.
#[export] Instance node_inhabited : Inhabited fs_node := populate zero_node.

Definition set_data (n : fs_node) (sz : Z) (d : list Z) : fs_node :=
  Node (name n) (type n) (in_use n) sz (parent_idx n) d.

(** The first slash of a string, and the last one. *)
Definition first_slash (p : list Z) : option nat := fst <$> list_find (eq SLASH) p.
Definition last_slash (p : list Z) : option nat :=
  (fun k => (length p - 1 - k)%nat) <$> first_slash (reverse p).

(** The next component of [token], at most [room] bytes of it, and the rest. *)
Definition next_component (room : nat) (token : list Z) : list Z * list Z :=
  match first_slash token with
  | Some k => (take (if (S room <=? k)%nat then room else k) token, drop (S k) token)
  | None => (take room token, [])
  end.

(** The path with its leading slash taken off. *)
Definition relative (buf : list Z) : list Z :=
  match buf with c :: p => if c =? SLASH then p else buf | [] => [] end.
Definition is_absolute (buf : list Z) : bool :=
  match buf with c :: _ => c =? SLASH | [] => false end.

Section nodes.
Implicit Types (nodes : list fs_node).

Definition find_free_node nodes : Z :=
  match list_find (fun n => in_use n = false) nodes with Some (i, _) => Z.of_nat i | None => -1 end.

Definition in_dir (dir : Z) (nm : list Z) (n : fs_node) : Prop :=
  in_use n = true /\ parent_idx n = dir /\ name n = nm.
#[global] Instance in_dir_dec dir nm n : Decision (in_dir dir nm n).
Proof. unfold in_dir. apply _. Defined.

Definition find_node_in_dir nodes (dir_idx : Z) (nm : list Z) : Z :=
  match list_find (in_dir dir_idx nm) nodes with Some (i, _) => Z.of_nat i | None => -1 end.

(** The [while ( *token)] loop of [resolve_path]: the directory it ends in, or -1. *)
Fixpoint walk (fuel : nat) nodes (token : list Z) (current : Z) : option Z :=
  match fuel with
  | O => None
  | S fuel =>
      match token with
      | [] => Some current
      | _ =>
          let '(component, token) := next_component (FS_MAX_NAME - 1) token in
          if decide (component = []) then walk fuel nodes token current
          else if decide (component = dot) then walk fuel nodes token current
          else if decide (component = dotdot) then
            if negb (current =? 0) then
              n ← nodes !! Z.to_nat current; walk fuel nodes token (parent_idx n)
            else walk fuel nodes token current
          else
            let idx := find_node_in_dir nodes current component in
            if idx <? 0 then Some (-1) else
            n ← nodes !! Z.to_nat idx;
            if negb (type n =? FS_TYPE_DIR) then Some (-1) else walk fuel nodes token idx
      end
  end.

(** The code, and the parent and base name when it is [FS_ERR_OK]. *)
Definition resolve_path nodes (cwd_idx : Z) (path : list Z) : option (Z * Z * list Z) :=
  if decide (path = []) then Some (FS_ERR_INVALID, 0, []) else
  let buf := take (FS_MAX_PATH - 1) path in
  let current := if is_absolute buf then 0 else cwd_idx in
  let p := relative buf in
  match last_slash p with
  | None => Some (FS_ERR_OK, current, take (FS_MAX_NAME - 1) p)
  | Some k =>
      let dir_part := take k p in
      let name_part := drop (S k) p in
      dir ← walk (S (length dir_part)) nodes dir_part current;
      if dir <? 0 then Some (FS_ERR_NOT_FOUND, 0, [])
      else Some (FS_ERR_OK, dir, take (FS_MAX_NAME - 1) name_part)
  end.

Definition resolve_full_path nodes (cwd_idx : Z) (path : list Z) : option Z :=
  if decide (path = []) then Some FS_ERR_INVALID else
  if decide (path = [SLASH]) then Some 0 else
  '(ret, parent, basename) ← resolve_path nodes cwd_idx path;
  if negb (ret =? FS_ERR_OK) then Some ret else
  if decide (basename = []) then Some parent else
  if decide (basename = dot) then Some parent else
  if decide (basename = dotdot) then
    if parent =? 0 then Some 0 else n ← nodes !! Z.to_nat parent; Some (parent_idx n)
  else Some (find_node_in_dir nodes parent basename).
End nodes.

Section operations.
Context {D : Type} `{BlockDev D}.
Variable uninit : Z -> list Z.

Record fs := Fs {
  fs_nodes : list fs_node;
  disk_enabled : bool;
  cwd : list Z;
  cwd_idx : Z;
  disk : dfs D
}.

Definition F (A : Type) : Type := fs -> option (A * fs).
#[local] Instance F_ret : MRet F := fun A a s => Some (a, s).
#[local] Instance F_bind : MBind F := fun A B k m s =>
  match m s with Some (a, s') => k a s' | None => None end.
Definition fget : F fs := fun s => Some (s, s).
Definition ffault {A} : F A := fun _ => None.
Definition fopt {A} (o : option A) : F A := fun s => match o with Some a => Some (a, s) | None => None end.
Definition put_nodes (v : list fs_node) : F unit := fun s =>
  Some (tt, Fs v (disk_enabled s) (cwd s) (cwd_idx s) (disk s)).
Definition put_cwd (v : list Z) (i : Z) : F unit := fun s =>
  Some (tt, Fs (fs_nodes s) (disk_enabled s) v i (disk s)).
Definition put_enabled (v : bool) : F unit := fun s =>
  Some (tt, Fs (fs_nodes s) v (cwd s) (cwd_idx s) (disk s)).
(** A computation of the disk file system. *)
Definition on_disk {A} (m : M A) : F A := fun s =>
  match m (disk s) with
  | Some (a, d) => Some (a, Fs (fs_nodes s) (disk_enabled s) (cwd s) (cwd_idx s) d)
  | None => None
  end.

(** The [while ( *p)] loop of [resolve_to_diskfs_inode]. *)
Fixpoint disk_walk (fuel : nat) (p : list Z) (current_ino : Z) : F Z :=
  match fuel with
  | O => ffault
  | S fuel =>
      match p with
      | [] => mret current_ino
      | _ =>
          let '(component, p) := next_component (Z.to_nat DISKFS_MAX_FILENAME - 1) p in
          if decide (component = []) then disk_walk fuel p current_ino else
          ino ← on_disk (diskfs_lookup uninit (u32 current_ino) component);
          if ino <? 0 then mret (-1) else disk_walk fuel p ino
      end
  end.

Definition resolve_to_diskfs_inode (path : list Z) : F Z :=
  s ← fget;
  if negb (disk_enabled s) then mret (-1) else
  if decide (path = [SLASH]) then mret 0 else
  let buf := take (FS_MAX_PATH - 1) path in
  if negb (is_absolute buf) then mret (-1) else
  disk_walk (S (length buf)) (relative buf) 0.

Definition fs_init : F unit :=
  s ← fget;
  _ ← put_nodes (<[0%nat := Node [SLASH] FS_TYPE_DIR true 0 0 zero_data]> (replicate FS_MAX_FILES zero_node));
  _ ← put_cwd [SLASH] 0;
  put_enabled false.

(** The common part of [fs_create_file] and [fs_create_dir]; [fill] is what the
    node's data becomes. *)
Definition create_node (path : list Z) (ty : Z) (fill : list Z -> list Z) : F Z :=
  s ← fget;
  '(ret, parent, basename) ← fopt (resolve_path (fs_nodes s) (cwd_idx s) path);
  if negb (ret =? FS_ERR_OK) then mret ret else
  if decide (basename = []) then mret FS_ERR_INVALID else
  if 0 <=? find_node_in_dir (fs_nodes s) parent basename then mret FS_ERR_EXISTS else
  let idx := find_free_node (fs_nodes s) in
  if idx <? 0 then mret FS_ERR_FULL else
  n ← fopt (fs_nodes s !! Z.to_nat idx);
  _ ← put_nodes (<[Z.to_nat idx := Node (take (FS_MAX_NAME - 1) basename) ty true 0 parent (fill (data n))]> (fs_nodes s));
  mret FS_ERR_OK.

(** The parent path and base name of [fs_create_file] on disk; the copy into
    [parent_path] has no bound. *)
Definition split_disk_path (path : list Z) : option (list Z * list Z) :=
  match last_slash path with
  | None => Some ([SLASH], take (Z.to_nat DISKFS_MAX_FILENAME - 1) path)
  | Some O => Some ([SLASH], take (Z.to_nat DISKFS_MAX_FILENAME - 1) (drop 1 path))
  | Some k =>
      if (FS_MAX_PATH <=? k)%nat then None
      else Some (take k path, take (Z.to_nat DISKFS_MAX_FILENAME - 1) (drop (S k) path))
  end.

Definition fs_create_file (path : list Z) : F Z :=
  s ← fget;
  if disk_enabled s then
    '(parent_path, basename) ← fopt (split_disk_path path);
    parent_ino ← resolve_to_diskfs_inode parent_path;
    if parent_ino <? 0 then mret FS_ERR_NOT_FOUND else
    ino ← on_disk (diskfs_create uninit (u32 parent_ino) basename DISKFS_TYPE_FILE);
    mret (if 0 <=? ino then FS_ERR_OK else FS_ERR_FULL)
  else create_node path FS_TYPE_FILE (fun _ => zero_data).

Definition fs_create_dir (path : list Z) : F Z := create_node path FS_TYPE_DIR (fun d => d).

Definition has_child (idx : Z) (n : fs_node) : Prop := in_use n = true /\ parent_idx n = idx.
#[local] Instance has_child_dec idx n : Decision (has_child idx n).
Proof. unfold has_child. apply _. Defined.

Definition fs_remove (path : list Z) : F Z :=
  s ← fget;
  idx ← fopt (resolve_full_path (fs_nodes s) (cwd_idx s) path);
  if idx <? 0 then mret FS_ERR_NOT_FOUND else
  if idx =? 0 then mret FS_ERR_INVALID else
  n ← fopt (fs_nodes s !! Z.to_nat idx);
  if (type n =? FS_TYPE_DIR) && bool_decide (Exists (has_child idx) (fs_nodes s)) then mret FS_ERR_NOT_EMPTY else
  _ ← put_nodes (<[Z.to_nat idx := zero_node]> (fs_nodes s));
  mret FS_ERR_OK.

(** The code and what is stored in the caller's buffer. *)
Definition fs_read (path : list Z) (sz : Z) : F (Z * list Z) :=
  s ← fget;
  if disk_enabled s then
    ino ← resolve_to_diskfs_inode path;
    if ino <? 0 then mret (FS_ERR_NOT_FOUND, []) else on_disk (diskfs_read (u32 ino) 0 sz)
  else
  idx ← fopt (resolve_full_path (fs_nodes s) (cwd_idx s) path);
  if idx <? 0 then mret (FS_ERR_NOT_FOUND, []) else
  n ← fopt (fs_nodes s !! Z.to_nat idx);
  if negb (type n =? FS_TYPE_FILE) then mret (FS_ERR_IS_DIR, []) else
  let to_read := if sz <? size n then sz else size n in
  if (length (data n) <? Z.to_nat to_read)%nat then ffault else
  mret (to_read, take (Z.to_nat to_read) (data n)).

Definition fs_write (path buf : list Z) (sz : Z) : F Z :=
  s ← fget;
  if disk_enabled s then
    ino ← resolve_to_diskfs_inode path;
    if ino <? 0 then mret FS_ERR_NOT_FOUND else
    ret ← on_disk (diskfs_write (u32 ino) buf 0 sz);
    _ ← on_disk diskfs_sync;
    mret ret
  else
  idx ← fopt (resolve_full_path (fs_nodes s) (cwd_idx s) path);
  if idx <? 0 then mret FS_ERR_NOT_FOUND else
  n ← fopt (fs_nodes s !! Z.to_nat idx);
  if negb (type n =? FS_TYPE_FILE) then mret FS_ERR_IS_DIR else
  let sz := if FS_MAX_FILE_SIZE <? sz then FS_MAX_FILE_SIZE else sz in
  if (length buf <? Z.to_nat sz)%nat then ffault else
  _ ← put_nodes (<[Z.to_nat idx := set_data n sz (splice (data n) 0 (take (Z.to_nat sz) buf))]> (fs_nodes s));
  mret sz.

Definition fs_append (path buf : list Z) (sz : Z) : F Z :=
  s ← fget;
  idx ← fopt (resolve_full_path (fs_nodes s) (cwd_idx s) path);
  if idx <? 0 then mret FS_ERR_NOT_FOUND else
  n ← fopt (fs_nodes s !! Z.to_nat idx);
  if negb (type n =? FS_TYPE_FILE) then mret FS_ERR_IS_DIR else
  let available := u32 (FS_MAX_FILE_SIZE - size n) in
  let sz := if available <? sz then available else sz in
  if (length buf <? Z.to_nat sz)%nat then ffault else
  _ ← put_nodes (<[Z.to_nat idx := set_data n (u32 (size n + sz))
                     (splice (data n) (Z.to_nat (size n)) (take (Z.to_nat sz) buf))]> (fs_nodes s));
  mret sz.

(** The line of one entry, and the loop of [fs_list_dir] from node [i]: the text
    stored before the terminator. *)
Definition entry_line (n : fs_node) : list Z :=
  if type n =? FS_TYPE_DIR then 91 :: name n ++ [93; 10] else name n ++ [10].
Fixpoint list_loop (nodes : list fs_node) (i idx sz : Z) (text : list Z) : list Z :=
  match nodes with
  | [] => text
  | n :: nodes =>
      if in_use n && (parent_idx n =? idx) && negb (i =? idx) then
        if sz <=? u32 (Z.of_nat (length text) + (Z.of_nat (length (name n)) + 2)) then text
        else list_loop nodes (i + 1) idx sz (text ++ entry_line n)
      else list_loop nodes (i + 1) idx sz text
  end.

Definition list_index (idx sz : Z) : F (Z * list Z) :=
  if idx <? 0 then mret (FS_ERR_NOT_FOUND, []) else
  s ← fget;
  n ← fopt (fs_nodes s !! Z.to_nat idx);
  if negb (type n =? FS_TYPE_DIR) then mret (FS_ERR_NOT_DIR, []) else
  let text := list_loop (fs_nodes s) 0 idx sz [] in
  mret (Z.of_nat (length text), text).

Definition fs_list_dir (path : list Z) (sz : Z) : F (Z * list Z) :=
  s ← fget;
  if decide (path = [] \/ path = dot) then list_index (cwd_idx s) sz else
  idx ← fopt (resolve_full_path (fs_nodes s) (cwd_idx s) path);
  list_index idx sz.

(** The names from [current] up to the root, at most [depth] of them. *)
Fixpoint path_parts (depth : nat) (nodes : list fs_node) (current : Z) : option (list (list Z)) :=
  match depth with
  | O => Some []
  | S depth =>
      if current =? 0 then Some [] else
      n ← nodes !! Z.to_nat current;
      ps ← path_parts depth nodes (parent_idx n);
      Some (take (FS_MAX_NAME - 1) (name n) :: ps)
  end.

Definition fs_change_dir (path : list Z) : F Z :=
  s ← fget;
  if decide (path = []) then _ ← put_cwd [SLASH] 0; mret FS_ERR_OK else
  idx ← fopt (resolve_full_path (fs_nodes s) (cwd_idx s) path);
  if idx <? 0 then mret FS_ERR_NOT_FOUND else
  n ← fopt (fs_nodes s !! Z.to_nat idx);
  if negb (type n =? FS_TYPE_DIR) then mret FS_ERR_NOT_DIR else
  if idx =? 0 then _ ← put_cwd [SLASH] 0; mret FS_ERR_OK else
  parts ← fopt (path_parts FS_MAX_PATH_DEPTH (fs_nodes s) idx);
  let path := reverse parts ≫= (fun part => SLASH :: part) in
  (* strcat into cwd[FS_MAX_PATH] *)
  if (FS_MAX_PATH <=? length path)%nat then ffault else
  _ ← put_cwd path idx;
  mret FS_ERR_OK.

Definition fs_get_cwd (s : fs) : list Z := cwd s.

Definition fs_exists (path : list Z) : F bool :=
  s ← fget; idx ← fopt (resolve_full_path (fs_nodes s) (cwd_idx s) path); mret (0 <=? idx).

Definition fs_is_dir (path : list Z) : F bool :=
  s ← fget; idx ← fopt (resolve_full_path (fs_nodes s) (cwd_idx s) path);
  if idx <? 0 then mret false else
  n ← fopt (fs_nodes s !! Z.to_nat idx); mret (type n =? FS_TYPE_DIR).

Definition fs_get_size (path : list Z) : F Z :=
  s ← fget; idx ← fopt (resolve_full_path (fs_nodes s) (cwd_idx s) path);
  if idx <? 0 then mret 0 else
  n ← fopt (fs_nodes s !! Z.to_nat idx); mret (size n).

Definition fs_clear_cache : F unit :=
  s ← fget;
  _ ← put_nodes (take 1 (fs_nodes s) ++ replicate (FS_MAX_FILES - 1) zero_node);
  put_cwd [SLASH] 0.

(** The loop of [fs_enable_disk] that copies the nodes to the disk. *)
Fixpoint copy_nodes (nodes : list fs_node) : F unit :=
  match nodes with
  | [] => mret tt
  | n :: nodes =>
      _ ← (if in_use n then
             ino ← on_disk (diskfs_create uninit 0 (name n)
                     (if type n =? FS_TYPE_FILE then DISKFS_TYPE_FILE else DISKFS_TYPE_DIR));
             if (0 <=? ino) && (type n =? FS_TYPE_FILE)
             then _ ← on_disk (diskfs_write (u32 ino) (data n) 0 (size n)); mret tt
             else mret tt
           else mret tt);
      copy_nodes nodes
  end.

Definition fs_enable_disk (drive : Z) : F Z :=
  ret ← on_disk (diskfs_init drive);
  if ret =? 0 then
    _ ← put_enabled true;
    _ ← on_disk (log LOG_INFO "Disk filesystem enabled" []);
    s ← fget;
    _ ← copy_nodes (drop 1 (fs_nodes s));
    _ ← on_disk diskfs_sync;
    mret ret
  else mret ret.

Definition fs_sync : F Z :=
  s ← fget; if disk_enabled s then on_disk diskfs_sync else mret 0.

Definition fs_is_disk_enabled (s : fs) : bool := disk_enabled s.
End operations.

Arguments fs : clear implicits.

(** ** Strings with slashes *)

Lemma first_slash_None p : first_slash p = None <-> SLASH ∉ p.
Proof.
  unfold first_slash. rewrite fmap_None. split.
  - intros Hf%list_find_None Hin. rewrite Forall_forall in Hf. by apply (Hf SLASH).
  - intros Hn. apply list_find_None, Forall_forall. intros x Hx <-. done.
Qed.

Lemma first_slash_Some p k : first_slash p = Some k ->
  (k < length p)%nat /\ p !! k = Some SLASH /\ SLASH ∉ take k p.
Proof.
  unfold first_slash. intros ([i x] & (Hi & <- & Hj)%list_find_Some & ->)%fmap_Some.
  split; [by eapply lookup_lt_Some|]. split; [done|].
  intros [j Hx]%list_elem_of_lookup. apply lookup_take_Some in Hx as [Hx Hlt]. by apply (Hj j _ Hx Hlt).
Qed.

Lemma last_slash_None p : last_slash p = None <-> SLASH ∉ p.
Proof. unfold last_slash. rewrite fmap_None, first_slash_None. by rewrite elem_of_reverse. Qed.

Lemma last_slash_Some p k : last_slash p = Some k -> (k < length p)%nat /\ SLASH ∉ drop (S k) p.
Proof.
  unfold last_slash. intros (j & (Hj & _ & Hn)%first_slash_Some & ->)%fmap_Some.
  rewrite length_reverse in Hj. split; [lia|].
  rewrite take_reverse, elem_of_reverse in Hn.
  by replace (S (length p - 1 - j)) with (length p - j)%nat by lia.
Qed.

Lemma not_in_take {A} (x : A) n l : x ∉ l -> x ∉ take n l.
Proof. intros Hn [i Hi]%list_elem_of_lookup. apply Hn. apply lookup_take_Some in Hi as [Hi _]. by eapply list_elem_of_lookup_2. Qed.

(** A component is short, has no slash, and the rest of the string is shorter. *)
Lemma next_component_spec room token c rest :
  token <> [] -> next_component room token = (c, rest) ->
  (length c <= room)%nat /\ SLASH ∉ c /\ (length rest < length token)%nat.
Proof.
  intros Ht. unfold next_component. destruct (first_slash token) as [k|] eqn:E.
  - apply first_slash_Some in E as (Hk & _ & Hn).
    destruct (S room <=? k)%nat eqn:Hr; [apply Nat.leb_le in Hr|apply Nat.leb_gt in Hr]; intros [= <- <-];
      (split; [rewrite length_take; lia|]; split; [|rewrite length_drop; lia]); [|done]. intros Hin. apply Hn.
    replace (take room token) with (take room (take k token)) in Hin by (rewrite take_take; f_equal; lia).
    by apply (not_in_take _ room) in Hn.
  - intros [= <- <-]. apply first_slash_None in E. split; [rewrite length_take; lia|].
    split; [by apply not_in_take|]. destruct token; [done|cbn; lia].
Qed.

(** ** The node table *)

(** Node [i] is in use, and is a directory. *)
Definition used_at (nodes : list fs_node) (i : Z) : Prop :=
  0 <= i /\ exists n, nodes !! Z.to_nat i = Some n /\ in_use n = true.
Definition dir_at (nodes : list fs_node) (i : Z) : Prop :=
  0 <= i /\ exists n, nodes !! Z.to_nat i = Some n /\ in_use n = true /\ type n = FS_TYPE_DIR.

(** A node other than the root that is in use. *)
Record node_ok (nodes : list fs_node) (n : fs_node) : Prop := {
  no_parent : dir_at nodes (parent_idx n);
  no_name : (0 < length (name n) <= 31)%nat /\ SLASH ∉ name n;
  no_type : type n = FS_TYPE_FILE \/ type n = FS_TYPE_DIR;
  no_size : 0 <= size n <= FS_MAX_FILE_SIZE;
  no_data : length (data n) = 4096%nat
}.

(** The table is a tree of directories: the root is node 0, every other node in
    use has a directory as parent, of smaller rank; the names in a directory are
    distinct; nodes not in use are zero. *)
Record nodes_wf (nodes : list fs_node) : Prop := {
  nw_length : length nodes = FS_MAX_FILES;
  nw_root : exists d, nodes !! 0%nat = Some (Node [SLASH] FS_TYPE_DIR true 0 0 d) /\ length d = 4096%nat;
  nw_node : forall i n, nodes !! i = Some n -> in_use n = true -> i <> 0%nat -> node_ok nodes n;
  nw_free : forall i n, nodes !! i = Some n -> in_use n = false -> n = zero_node;
  nw_unique : forall i j n m, nodes !! i = Some n -> nodes !! j = Some m -> in_use n = true -> in_use m = true ->
    parent_idx n = parent_idx m -> name n = name m -> i = j;
  nw_tree : exists rank : nat -> nat, forall i n, nodes !! i = Some n -> in_use n = true -> i <> 0%nat ->
    (rank (Z.to_nat (parent_idx n)) < rank i)%nat
}.

Lemma dir_used nodes i : dir_at nodes i -> used_at nodes i.
Proof. intros (Hi & n & Hn & Hu & _). split; [done|by exists n]. Qed.

Lemma root_dir nodes : nodes_wf nodes -> dir_at nodes 0.
Proof. intros Hw. destruct (nw_root _ Hw) as (d & Hd & _). split; [done|]. by eexists. Qed.

Lemma parent_dir nodes i n :
  nodes_wf nodes -> nodes !! i = Some n -> in_use n = true -> dir_at nodes (parent_idx n).
Proof.
  intros Hw Hi Hu. destruct (decide (i = 0%nat)) as [->|Hne].
  - destruct (nw_root _ Hw) as (d & Hd & _). rewrite Hd in Hi. injection Hi as <-. by apply root_dir.
  - by apply (nw_node _ Hw i n).
Qed.

Lemma node_type nodes i n :
  nodes_wf nodes -> nodes !! i = Some n -> in_use n = true -> type n = FS_TYPE_FILE \/ type n = FS_TYPE_DIR.
Proof.
  intros Hw Hi Hu. destruct (decide (i = 0%nat)) as [->|Hne].
  - destruct (nw_root _ Hw) as (d & Hd & _). rewrite Hd in Hi. injection Hi as <-. by right.
  - by apply (no_type _ _ (nw_node _ Hw i n Hi Hu Hne)).
Qed.

Lemma find_node_spec nodes dir nm :
  (find_node_in_dir nodes dir nm = -1 /\ forall i n, nodes !! i = Some n -> ~ in_dir dir nm n) \/
  exists i n, find_node_in_dir nodes dir nm = Z.of_nat i /\ nodes !! i = Some n /\ in_dir dir nm n.
Proof.
  unfold find_node_in_dir. destruct (list_find _ _) as [[i n]|] eqn:E.
  - right. apply list_find_Some in E as (Hi & Hd & _). by exists i, n.
  - left. split; [done|]. apply list_find_None in E. intros i n Hi. by eapply Forall_lookup_1 in E.
Qed.

(** In a well-formed table the entry of a name is unique. *)
Lemma find_node_unique nodes dir nm i n :
  nodes_wf nodes -> nodes !! i = Some n -> in_dir dir nm n -> find_node_in_dir nodes dir nm = Z.of_nat i.
Proof.
  intros Hw Hi (Hu & Hp & Hn).
  destruct (find_node_spec nodes dir nm) as [[_ Hno]|(j & m & -> & Hj & Hu' & Hp' & Hn')].
  - by destruct (Hno i n Hi).
  - f_equal. eapply (nw_unique _ Hw); [exact Hj|exact Hi|done|done|congruence|congruence].
Qed.

Lemma find_node_used nodes dir nm :
  find_node_in_dir nodes dir nm = -1 \/ used_at nodes (find_node_in_dir nodes dir nm).
Proof.
  destruct (find_node_spec nodes dir nm) as [[-> _]|(i & n & -> & Hi & Hu & _)]; [by left|right].
  split; [lia|]. exists n. by rewrite Nat2Z.id.
Qed.

(** ** Path resolution *)

Lemma walk_spec fuel nodes token current :
  nodes_wf nodes -> dir_at nodes current -> (length token < fuel)%nat ->
  exists r, walk fuel nodes token current = Some r /\ (r = -1 \/ dir_at nodes r).
Proof.
  intros Hw. revert token current. induction fuel as [|fuel IH]; intros token current Hd Hf; [lia|].
  cbn [walk]. destruct token as [|c0 tk]; [exists current; by split; [|right]|].
  destruct (next_component (FS_MAX_NAME - 1) (c0 :: tk)) as [c rest] eqn:E.
  apply next_component_spec in E as (_ & _ & Hr); [|done]. cbn [length] in Hf, Hr.
  case_decide as N1; [apply IH; [done|lia]|]. case_decide as N2; [apply IH; [done|lia]|]. case_decide as N3.
  - destruct (Z.eqb_spec current 0); cbn [negb]; [apply IH; [done|lia]|].
    destruct Hd as (Hi & nd & Hn & Hu & _). rewrite Hn. cbn [mbind option_bind].
    apply IH; [|lia]. by eapply parent_dir.
  - destruct (find_node_used nodes current c) as [Hx|[Hi (n & Hn & Hu)]].
    { rewrite Hx. exists (-1). by split; [|left]. }
    destruct (Z.ltb_spec (find_node_in_dir nodes current c) 0); [lia|].
    rewrite Hn. cbn [mbind option_bind]. destruct (Z.eqb_spec (type n) FS_TYPE_DIR); cbn [negb].
    + apply IH; [|lia]. split; [done|]. by exists n.
    + exists (-1). by split; [|left].
Qed.

Lemma relative_length buf : (length (relative buf) <= length buf)%nat.
Proof. unfold relative. destruct buf as [|c p]; [done|]. destruct (c =? SLASH); cbn; lia. Qed.

Lemma resolve_path_spec nodes cwd path :
  nodes_wf nodes -> dir_at nodes cwd ->
  exists ret parent base, resolve_path nodes cwd path = Some (ret, parent, base) /\
    ((ret = FS_ERR_OK /\ dir_at nodes parent /\ (length base <= 31)%nat /\ SLASH ∉ base) \/
     (ret < 0 /\ ret <> FS_ERR_OK)).
Proof.
  intros Hw Hc. unfold resolve_path. case_decide; [by exists FS_ERR_INVALID, 0, []; split; [|right]|].
  set (buf := take (FS_MAX_PATH - 1) path).
  set (current := if is_absolute buf then 0 else cwd).
  assert (Hcur : dir_at nodes current) by (unfold current; destruct (is_absolute buf); [by apply root_dir|done]).
  set (p := relative buf). destruct (last_slash p) as [k|] eqn:E.
  - apply last_slash_Some in E as (Hk & Hn).
    destruct (walk_spec (S (length (take k p))) nodes (take k p) current Hw Hcur) as (r & -> & Hr); [lia|].
    cbn [mbind option_bind]. destruct (Z.ltb_spec r 0).
    + eexists _, _, _. split; [reflexivity|]. by right.
    + eexists _, _, _. split; [reflexivity|]. left. destruct Hr as [->|Hr]; [lia|].
      split; [done|]. split; [done|]. split; [rewrite length_take; unfold FS_MAX_NAME; lia|]. by apply not_in_take.
  - apply last_slash_None in E. eexists _, _, _. split; [reflexivity|]. left.
    split; [done|]. split; [done|]. split; [rewrite length_take; unfold FS_MAX_NAME; lia|]. by apply not_in_take.
Qed.

Lemma resolve_full_path_spec nodes cwd path :
  nodes_wf nodes -> dir_at nodes cwd ->
  exists r, resolve_full_path nodes cwd path = Some r /\ (r < 0 \/ used_at nodes r).
Proof.
  intros Hw Hc. unfold resolve_full_path.
  case_decide; [by exists FS_ERR_INVALID; split; [|left]|].
  case_decide; [exists 0; split; [done|right]; by apply dir_used, root_dir|].
  destruct (resolve_path_spec nodes cwd path Hw Hc) as (ret & parent & base & -> & Hr).
  cbn [mbind option_bind]. destruct Hr as [(-> & Hd & _)|[Hr Hne]]; cycle 1.
  { exists ret. replace (ret =? FS_ERR_OK) with false by lia. by split; [|left]. }
  change (negb (FS_ERR_OK =? FS_ERR_OK)) with false. cbv iota.
  case_decide; [exists parent; split; [done|right]; by apply dir_used|].
  case_decide; [exists parent; split; [done|right]; by apply dir_used|].
  case_decide.
  - destruct (Z.eqb_spec parent 0); [exists 0; split; [done|right]; by apply dir_used, root_dir|].
    destruct Hd as (_ & nd & Hn & Hu & _). rewrite Hn. cbn [mbind option_bind].
    exists (parent_idx nd). split; [done|right]. apply dir_used. by eapply parent_dir.
  - eexists. split; [done|]. destruct (find_node_used nodes parent base) as [->|?]; [by left|by right].
Qed.

(** ** Changes of the table *)

Lemma find_free_spec nodes :
  (find_free_node nodes = -1 /\ forall i n, nodes !! i = Some n -> in_use n = true) \/
  exists i n, find_free_node nodes = Z.of_nat i /\ nodes !! i = Some n /\ in_use n = false.
Proof.
  unfold find_free_node. destruct (list_find _ _) as [[i n]|] eqn:E.
  - right. apply list_find_Some in E as (Hi & Hu & _). by exists i, n.
  - left. split; [done|]. apply list_find_None in E. intros i n Hi.
    eapply Forall_lookup_1 in E; [|exact Hi]. by destruct (in_use n).
Qed.

Section change.
Context (nodes : list fs_node) (i : nat) (old new : fs_node).
Context (Hwf : nodes_wf nodes) (Hold : nodes !! i = Some old).

Lemma insert_cases j n : <[i := new]> nodes !! j = Some n -> (j = i /\ n = new) \/ (j <> i /\ nodes !! j = Some n).
Proof using Hold.
  pose proof (lookup_lt_Some _ _ _ Hold). destruct (decide (j = i)) as [->|Hne].
  - rewrite list_lookup_insert_eq by done. intros [= <-]. by left.
  - rewrite list_lookup_insert_ne by done. by right.
Qed.

Lemma insert_dir j : dir_at nodes j -> (Z.to_nat j = i -> in_use new = true /\ type new = FS_TYPE_DIR) ->
  dir_at (<[i := new]> nodes) j.
Proof using Hold.
  intros (Hj & n & Hn & Hu & Ht) Hnew. split; [done|].
  destruct (decide (Z.to_nat j = i)) as [He|Hne].
  - exists new. rewrite He, list_lookup_insert_eq by (by eapply lookup_lt_Some). by destruct (Hnew He).
  - exists n. by rewrite list_lookup_insert_ne.
Qed.

Lemma node_ok_ext nodes' n : (forall j, dir_at nodes j -> j = parent_idx n -> dir_at nodes' j) ->
  node_ok nodes n -> node_ok nodes' n.
Proof using. intros Hd []. split; auto. Qed.

(** A new node in a free place. *)
Lemma wf_create parent base ty d :
  new = Node base ty true 0 parent d -> in_use old = false -> dir_at nodes parent ->
  find_node_in_dir nodes parent base = -1 -> (0 < length base <= 31)%nat -> SLASH ∉ base ->
  ty = FS_TYPE_FILE \/ ty = FS_TYPE_DIR -> length d = 4096%nat ->
  nodes_wf (<[i := new]> nodes).
Proof using Hwf Hold.
  intros Hnew Hfree Hpar Hno Hlen Hsl Hty Hd.
  assert (Hi0 : i <> 0%nat).
  { intros ->. destruct (nw_root _ Hwf) as (r & Hr & _). rewrite Hr in Hold. by simplify_eq. }
  assert (Hdir : forall j, dir_at nodes j -> dir_at (<[i := new]> nodes) j).
  { intros j Hj. apply insert_dir; [done|]. intros He. destruct Hj as (_ & n & Hn & Hu & _).
    rewrite He, Hold in Hn. congruence. }
  assert (Hnone : forall j n, nodes !! j = Some n -> in_use n = true -> parent_idx n = parent -> name n = base -> False).
  { intros j n Hj Hu Hp Hn. destruct (find_node_spec nodes parent base) as [[_ Hx]|(k & m & Hk & _)]; [|lia].
    by apply (Hx j n Hj). }
  split.
  - rewrite length_insert. apply Hwf.
  - destruct (nw_root _ Hwf) as (r & Hr & Hl). exists r. by rewrite list_lookup_insert_ne.
  - intros j n [[-> ->]|[Hne Hj]]%insert_cases Hu Hj0.
    + pose proof (Hdir _ Hpar) as Hdp. rewrite Hnew in Hdp |- *.
      split; cbn; [done|done|done| |done]. unfold FS_MAX_FILE_SIZE. lia.
    + eapply node_ok_ext; [|by apply (nw_node _ Hwf j)]. auto.
  - intros j n [[-> ->]|[Hne Hj]]%insert_cases Hu; [by rewrite Hnew in Hu|]. by apply (nw_free _ Hwf j).
  - intros j k n m [[-> ->]|[Hne Hj]]%insert_cases [[-> ->]|[Hne' Hk]]%insert_cases Hu Hu' Hp Hn; [done|..].
    + rewrite Hnew in Hp, Hn. cbn in Hp, Hn. by destruct (Hnone k m).
    + rewrite Hnew in Hp, Hn. cbn in Hp, Hn. by destruct (Hnone j n).
    + by apply (nw_unique _ Hwf j k n m).
  - destruct (nw_tree _ Hwf) as (rank & Hr).
    exists (fun j => if decide (j = i) then S (rank (Z.to_nat parent)) else rank j).
    assert (Hpi : Z.to_nat parent <> i).
    { intros He. destruct Hpar as (_ & n & Hn & Hu & _). rewrite He, Hold in Hn. congruence. }
    intros j n [[-> ->]|[Hne Hj]]%insert_cases Hu Hj0.
    + rewrite Hnew. cbn [parent_idx]. rewrite decide_False, decide_True by done. lia.
    + rewrite (decide_False (P := j = i)) by done. rewrite decide_False; [by apply Hr|].
      intros He. destruct (parent_dir nodes j n Hwf Hj Hu) as (_ & p & Hp & Hup & _).
      rewrite He, Hold in Hp. congruence.
Qed.

(** A node without children leaves. *)
Lemma wf_remove :
  new = zero_node -> i <> 0%nat -> (forall j n, nodes !! j = Some n -> in_use n = true -> Z.to_nat (parent_idx n) <> i) ->
  nodes_wf (<[i := new]> nodes).
Proof using Hwf Hold.
  intros Hnew Hi0 Hchild. split.
  - rewrite length_insert. apply Hwf.
  - destruct (nw_root _ Hwf) as (r & Hr & Hl). exists r. by rewrite list_lookup_insert_ne.
  - intros j n [[-> ->]|[Hne Hj]]%insert_cases Hu Hj0; [by rewrite Hnew in Hu|].
    eapply node_ok_ext; [|by apply (nw_node _ Hwf j)]. intros k Hk ->. apply insert_dir; [done|].
    intros He. by destruct (Hchild j n Hj Hu).
  - intros j n [[-> ->]|[Hne Hj]]%insert_cases Hu; [done|]. by apply (nw_free _ Hwf j).
  - intros j k n m [[-> ->]|[Hne Hj]]%insert_cases [[-> ->]|[Hne' Hk]]%insert_cases Hu Hu' Hp Hn;
      [done|by rewrite Hnew in Hu|by rewrite Hnew in Hu'|]. by apply (nw_unique _ Hwf j k n m).
  - destruct (nw_tree _ Hwf) as (rank & Hr). exists rank.
    intros j n [[-> ->]|[Hne Hj]]%insert_cases Hu Hj0; [by rewrite Hnew in Hu|by apply Hr].
Qed.

(** The contents of a file change. *)
Lemma wf_data sz d :
  new = set_data old sz d -> type old = FS_TYPE_FILE -> 0 <= sz <= FS_MAX_FILE_SIZE -> length d = 4096%nat ->
  in_use old = true -> nodes_wf (<[i := new]> nodes).
Proof using Hwf Hold.
  intros Hnew Hty Hsz Hd Hu.
  assert (Hi0 : i <> 0%nat).
  { intros ->. destruct (nw_root _ Hwf) as (r & Hr & _). rewrite Hr in Hold. by simplify_eq. }
  assert (Hdir : forall j, dir_at nodes j -> dir_at (<[i := new]> nodes) j).
  { intros j Hj. apply insert_dir; [done|]. intros He. destruct Hj as (_ & n & Hn & _ & Ht).
    rewrite He, Hold in Hn. simplify_eq. rewrite Hty in Ht. discriminate. }
  assert (Hlk : forall j n, <[i := new]> nodes !! j = Some n ->
    exists n0, nodes !! j = Some n0 /\ in_use n = in_use n0 /\ parent_idx n = parent_idx n0 /\ name n = name n0).
  { intros j n [[-> ->]|[Hne Hj]]%insert_cases; [exists old; by rewrite Hnew|by exists n]. }
  split.
  - rewrite length_insert. apply Hwf.
  - destruct (nw_root _ Hwf) as (r & Hr & Hl). exists r. by rewrite list_lookup_insert_ne.
  - intros j n [[-> ->]|[Hne Hj]]%insert_cases Hun Hj0.
    + destruct (nw_node _ Hwf i old Hold Hu Hi0) as [P N T S Dt].
      pose proof (Hdir _ P) as Hdp. rewrite Hnew in Hdp |- *. split; cbn; done.
    + eapply node_ok_ext; [|by apply (nw_node _ Hwf j)]. auto.
  - intros j n [[-> ->]|[Hne Hj]]%insert_cases Hun; [rewrite Hnew in Hun; cbn in Hun; congruence|by apply (nw_free _ Hwf j)].
  - intros j k n m (n0 & Hj & -> & -> & ->)%Hlk (m0 & Hk & -> & -> & ->)%Hlk. by apply (nw_unique _ Hwf).
  - destruct (nw_tree _ Hwf) as (rank & Hr). exists rank.
    intros j n (n0 & Hj & -> & -> & _)%Hlk. by apply Hr.
Qed.
End change.

(** ** Resolution in a larger table

    [nodes'] holds the nodes of [nodes], with possibly other contents. *)
Definition extends (nodes nodes' : list fs_node) : Prop :=
  forall j n, nodes !! j = Some n -> in_use n = true ->
    exists n', nodes' !! j = Some n' /\ in_use n' = true /\ name n' = name n /\ type n' = type n /\
      parent_idx n' = parent_idx n.

Section extension.
Context (nodes nodes' : list fs_node) (Hw : nodes_wf nodes) (Hw' : nodes_wf nodes') (He : extends nodes nodes').

Lemma find_node_extends dir nm :
  0 <= find_node_in_dir nodes dir nm -> find_node_in_dir nodes' dir nm = find_node_in_dir nodes dir nm.
Proof using Hw' He.
  destruct (find_node_spec nodes dir nm) as [[-> _]|(i & n & -> & Hi & Hu & Hp & Hn)]; [lia|intros _].
  destruct (He i n Hi Hu) as (n' & Hi' & Hu' & Hn' & _ & Hp').
  apply (find_node_unique nodes' dir nm i n' Hw' Hi'). split; [done|]. split; congruence.
Qed.

Lemma walk_extends fuel token current r :
  dir_at nodes current -> walk fuel nodes token current = Some r -> 0 <= r ->
  walk fuel nodes' token current = Some r.
Proof using Hw Hw' He.
  revert token current. induction fuel as [|fuel IH]; intros token current Hd; cbn [walk]; [done|].
  destruct token as [|c0 tk]; [done|].
  destruct (next_component (FS_MAX_NAME - 1) (c0 :: tk)) as [c rest].
  case_decide as N1; [by apply IH|]. case_decide as N2; [by apply IH|]. case_decide as N3.
  - destruct (negb (current =? 0)); [|by apply IH].
    destruct Hd as (Hc & nd & Hn & Hu & _). destruct (He _ _ Hn Hu) as (nd' & Hn' & _ & _ & _ & Hp).
    rewrite Hn, Hn'. cbn [mbind option_bind]. rewrite Hp. apply IH. by eapply parent_dir.
  - destruct (find_node_used nodes current c) as [Hx|[Hi (nd & Hn & Hu)]].
    { rewrite Hx. cbn [Z.ltb Z.compare]. intros [= <-]. lia. }
    rewrite (find_node_extends current c Hi).
    destruct (Z.ltb_spec (find_node_in_dir nodes current c) 0); [lia|].
    destruct (He _ _ Hn Hu) as (nd' & Hn' & _ & _ & Ht & _). rewrite Hn, Hn'. cbn [mbind option_bind].
    rewrite Ht. destruct (Z.eqb_spec (type nd) FS_TYPE_DIR) as [Hty|]; cbn [negb]; [|intros [= <-]; lia].
    apply IH. split; [done|]. by exists nd.
Qed.

Lemma resolve_path_extends cwd path parent base :
  dir_at nodes cwd -> resolve_path nodes cwd path = Some (FS_ERR_OK, parent, base) ->
  resolve_path nodes' cwd path = Some (FS_ERR_OK, parent, base).
Proof using Hw Hw' He.
  intros Hc. unfold resolve_path. case_decide; [done|]. cbv zeta.
  destruct (last_slash _) as [k|]; [|done].
  set (cur := if is_absolute _ then 0 else cwd).
  assert (Hcur : dir_at nodes cur) by (unfold cur; destruct (is_absolute _); [by apply root_dir|done]).
  set (dp := take k _). destruct (walk_spec (S (length dp)) nodes dp cur Hw Hcur) as (r & Hr & _); [lia|].
  rewrite Hr. cbn [mbind option_bind]. destruct (Z.ltb_spec r 0); [by intros [=]|].
  rewrite (walk_extends _ _ _ r Hcur Hr) by done. cbn [mbind option_bind].
  destruct (Z.ltb_spec r 0); [lia|done].
Qed.

Lemma resolve_full_extends cwd path r :
  dir_at nodes cwd -> resolve_full_path nodes cwd path = Some r -> 0 <= r ->
  resolve_full_path nodes' cwd path = Some r.
Proof using Hw Hw' He.
  intros Hc. unfold resolve_full_path. case_decide; [done|]. case_decide; [done|].
  destruct (resolve_path_spec nodes cwd path Hw Hc) as (ret & parent & base & E & Hr). rewrite E.
  cbn [mbind option_bind]. destruct Hr as [(-> & Hd & _)|[Hr Hne]]; cycle 1.
  { replace (ret =? FS_ERR_OK) with false by lia. cbn [negb]. intros [= <-]. lia. }
  rewrite (resolve_path_extends cwd path parent base Hc E). cbn [mbind option_bind].
  change (negb (FS_ERR_OK =? FS_ERR_OK)) with false. cbv iota.
  case_decide; [done|]. case_decide; [done|]. case_decide.
  - destruct (parent =? 0); [done|]. destruct Hd as (_ & nd & Hn & Hu & _).
    destruct (He _ _ Hn Hu) as (nd' & Hn' & _ & _ & _ & Hp). rewrite Hn, Hn'. cbn [mbind option_bind].
    by rewrite Hp.
  - intros [= <-] Hge. by rewrite find_node_extends.
Qed.
End extension.

Lemma extends_data nodes i n sz d :
  nodes !! i = Some n -> in_use n = true -> extends nodes (<[i := set_data n sz d]> nodes).
Proof.
  intros Hi Hu j m Hj Hum. destruct (decide (j = i)) as [->|Hne].
  - rewrite Hi in Hj. injection Hj as <-. exists (set_data n sz d).
    rewrite list_lookup_insert_eq by (by eapply lookup_lt_Some). done.
  - exists m. by rewrite list_lookup_insert_ne.
Qed.

Lemma extends_free nodes i n new :
  nodes !! i = Some n -> in_use n = false -> extends nodes (<[i := new]> nodes).
Proof.
  intros Hi Hu j m Hj Hum. exists m. rewrite list_lookup_insert_ne; [done|]. intros ->.
  rewrite Hi in Hj. congruence.
Qed.

Section proofs.
Context {D : Type} `{BlockDevLaws D}.
Variable uninit : Z -> list Z.
Implicit Types (s : fs D).

Ltac frun := unfold fget, fopt, mbind, F_bind, mret, F_ret; cbv beta iota.

(** ** The invariant of the file system in memory *)

Record fs_wf s : Prop := {
  fw_nodes : nodes_wf (fs_nodes s);
  fw_cwd : dir_at (fs_nodes s) (cwd_idx s);
  fw_disk : disk_enabled s = false
}.

Definition with_nodes s (nodes : list fs_node) : fs D :=
  Fs nodes (disk_enabled s) (cwd s) (cwd_idx s) (disk s).

Lemma fs_init_wf s : exists s', fs_init s = Some (tt, s') /\ fs_wf s'.
Proof.
  eexists. split; [reflexivity|]. split; cbn [fs_nodes cwd_idx disk_enabled]; [|split; [lia|by eexists]|done].
  assert (Hlk : forall (i : nat) n, <[0%nat := Node [SLASH] FS_TYPE_DIR true 0 0 zero_data]>
      (replicate FS_MAX_FILES zero_node) !! i = Some n ->
      (i = 0%nat /\ n = Node [SLASH] FS_TYPE_DIR true 0 0 zero_data) \/ n = zero_node).
  { intros [|i] n; [intros [= <-]; by left|]. rewrite list_lookup_insert_ne by done.
    intros [-> _]%lookup_replicate. by right. }
  split.
  - done.
  - exists zero_data. split; [reflexivity|]. apply length_replicate.
  - intros i n [[-> ->]| ->]%Hlk Hu Hi; done.
  - intros i n [[-> ->]| ->]%Hlk Hu; done.
  - intros i j n m [[-> ->]| ->]%Hlk [[-> ->]| ->]%Hlk Hu Hu'; done.
  - exists (fun _ => 0%nat). intros i n [[-> ->]| ->]%Hlk Hu Hi; done.
Qed.

Lemma zero_data_length : length zero_data = 4096%nat.
Proof. apply length_replicate. Qed.

(** [fs_create_file] and [fs_create_dir], on every branch. *)
Lemma create_node_spec s path ty fill :
  fs_wf s -> ty = FS_TYPE_FILE \/ ty = FS_TYPE_DIR ->
  (forall d, length d = 4096%nat -> length (fill d) = 4096%nat) ->
  exists ret s' rp parent base, create_node path ty fill s = Some (ret, s') /\
    resolve_path (fs_nodes s) (cwd_idx s) path = Some (rp, parent, base) /\
    ((s' = s /\ ((rp <> FS_ERR_OK /\ ret = rp) \/
                 (rp = FS_ERR_OK /\ base = [] /\ ret = FS_ERR_INVALID) \/
                 (rp = FS_ERR_OK /\ 0 <= find_node_in_dir (fs_nodes s) parent base /\ ret = FS_ERR_EXISTS) \/
                 (rp = FS_ERR_OK /\ find_free_node (fs_nodes s) = -1 /\ ret = FS_ERR_FULL))) \/
     (rp = FS_ERR_OK /\ ret = FS_ERR_OK /\ fs_wf s' /\ find_node_in_dir (fs_nodes s) parent base = -1 /\
      base <> [] /\ exists i d, nodes_wf (<[i := Node base ty true 0 parent d]> (fs_nodes s)) /\
        fs_nodes s !! i = Some zero_node /\ d = fill zero_data /\
        s' = with_nodes s (<[i := Node base ty true 0 parent d]> (fs_nodes s)))).
Proof.
  intros [Hw Hc Hd] Hty Hfill. unfold create_node. frun.
  destruct (resolve_path_spec (fs_nodes s) (cwd_idx s) path Hw Hc) as (rp & parent & base & E & Hr).
  rewrite E. destruct Hr as [(-> & Hpar & Hlen & Hsl)|[Hlt Hne]]; cycle 1.
  { replace (rp =? FS_ERR_OK) with false by lia. cbn [negb]. exists rp, s, rp, parent, base.
    split; [done|]. split; [done|]. left. split; [done|]. left. done. }
  change (negb (FS_ERR_OK =? FS_ERR_OK)) with false. cbv iota.
  destruct (decide (base = [])) as [->|Hb].
  { eexists _, s, _, parent, []. split; [reflexivity|]. split; [done|]. left. split; [done|]. right. by left. }
  destruct (Z.leb_spec 0 (find_node_in_dir (fs_nodes s) parent base)) as [Hf|Hf].
  { eexists _, s, _, parent, base. split; [reflexivity|]. split; [done|]. left. split; [done|]. right. right. by left. }
  assert (Hno : find_node_in_dir (fs_nodes s) parent base = -1)
    by (destruct (find_node_spec (fs_nodes s) parent base) as [[? _]|(k & m & ? & _)]; lia).
  destruct (find_free_spec (fs_nodes s)) as [[Hfr _]|(i & n & Hfr & Hi & Hu)].
  { rewrite Hfr. eexists _, s, _, parent, base. split; [reflexivity|]. split; [done|].
    left. split; [done|]. right. right. by right. }
  rewrite Hfr. replace (Z.of_nat i <? 0) with false by lia. rewrite Nat2Z.id, Hi. cbn [put_nodes].
  pose proof (nw_free _ Hw i n Hi Hu) as ->. cbn [data zero_node].
  rewrite (take_ge base) by (unfold FS_MAX_NAME; lia).
  set (d := fill zero_data). assert (Hdl : length d = 4096%nat) by apply Hfill, zero_data_length.
  assert (Hbl : (0 < length base <= 31)%nat) by (destruct base; [done|cbn in *; lia]).
  pose proof (wf_create (fs_nodes s) i zero_node _ Hw Hi parent base ty d eq_refl eq_refl Hpar Hno Hbl Hsl Hty Hdl) as Hw'.
  eexists _, _, _, parent, base. split; [reflexivity|]. split; [done|]. right.
  split; [done|]. split; [done|]. split; [|split; [done|split; [done|by exists i, d]]].
  split; cbn; [done| |done]. apply (insert_dir _ i zero_node); [done|done|].
  intros He. destruct Hc as (_ & m & Hm & Hum & _). rewrite He, Hi in Hm. injection Hm as <-. discriminate.
Qed.

(** Resolving a path to a node in use. *)
Lemma resolve_full_used s path :
  fs_wf s -> exists r, resolve_full_path (fs_nodes s) (cwd_idx s) path = Some r /\
    (r < 0 \/ (0 <= r /\ exists n, fs_nodes s !! Z.to_nat r = Some n /\ in_use n = true)).
Proof. intros [Hw Hc _]. by apply resolve_full_path_spec. Qed.

(** A file is not the root, and its fields are in range. *)
Lemma file_node s i n :
  fs_wf s -> fs_nodes s !! i = Some n -> in_use n = true -> type n = FS_TYPE_FILE ->
  i <> 0%nat /\ node_ok (fs_nodes s) n.
Proof.
  intros [Hw _ _] Hi Hu Ht. assert (i <> 0%nat) as Hi0.
  { intros ->. destruct (nw_root _ Hw) as (r & Hr & _). rewrite Hr in Hi. by simplify_eq. }
  split; [done|]. by apply (nw_node _ Hw i).
Qed.

Lemma fs_remove_spec s path :
  fs_wf s ->
  exists ret s' idx, fs_remove path s = Some (ret, s') /\
    resolve_full_path (fs_nodes s) (cwd_idx s) path = Some idx /\
    ((s' = s /\ ret <> FS_ERR_OK) \/
     (ret = FS_ERR_OK /\ 0 < idx /\ s' = with_nodes s (<[Z.to_nat idx := zero_node]> (fs_nodes s)) /\
      nodes_wf (fs_nodes s') /\ (idx <> cwd_idx s -> fs_wf s'))).
Proof.
  intros Hwf. pose proof Hwf as [Hw Hc Hd]. unfold fs_remove. frun.
  destruct (resolve_full_used s path Hwf) as (idx & E & Hr). rewrite E.
  destruct (Z.ltb_spec idx 0) as [Hlt|Hge].
  { eexists _, s, idx. split; [reflexivity|]. split; [done|]. by left. }
  destruct (Z.eqb_spec idx 0) as [->|Hne].
  { eexists _, s, 0. split; [reflexivity|]. split; [done|]. by left. }
  destruct Hr as [?|(_ & n & Hn & Hu)]; [lia|]. rewrite Hn.
  destruct ((type n =? FS_TYPE_DIR) && bool_decide (Exists (has_child idx) (fs_nodes s))) eqn:Eb.
  { eexists _, s, idx. split; [reflexivity|]. split; [done|]. by left. }
  assert (Hchild : forall j m, fs_nodes s !! j = Some m -> in_use m = true -> Z.to_nat (parent_idx m) <> Z.to_nat idx).
  { intros j m Hj Hum He. pose proof (parent_dir _ _ _ Hw Hj Hum) as (Hp0 & p & Hp & _ & Hpt).
    rewrite He, Hn in Hp. injection Hp as <-. rewrite Hpt, Z.eqb_refl in Eb. cbn [andb] in Eb.
    apply bool_decide_eq_false in Eb. apply Eb. apply Exists_exists. exists m.
    split; [by eapply list_elem_of_lookup_2|]. split; [done|]. lia. }
  assert (Hw' : nodes_wf (<[Z.to_nat idx := zero_node]> (fs_nodes s))) by (eapply wf_remove; [done|done|done|lia|done]).
  eexists _, _, idx. split; [reflexivity|]. split; [done|]. right. split; [done|]. split; [lia|].
  split; [done|]. split; [done|]. intros Hcwd. split; cbn; [done| |done].
  eapply insert_dir; [done|done|]. intros He. destruct Hc as (Hc0 & _). lia.
Qed.

(** Reading a file gives a prefix of its contents. *)
Definition content (n : fs_node) : list Z := take (Z.to_nat (size n)) (data n).

Lemma fs_read_spec s path sz :
  fs_wf s -> 0 <= sz ->
  exists ret out idx, fs_read uninit path sz s = Some ((ret, out), s) /\
    resolve_full_path (fs_nodes s) (cwd_idx s) path = Some idx /\
    ((idx < 0 /\ ret = FS_ERR_NOT_FOUND /\ out = []) \/
     exists n, 0 <= idx /\ fs_nodes s !! Z.to_nat idx = Some n /\ in_use n = true /\
       ((type n = FS_TYPE_DIR /\ ret = FS_ERR_IS_DIR /\ out = []) \/
        (type n = FS_TYPE_FILE /\ ret = Z.min sz (size n) /\ out = take (Z.to_nat sz) (content n)))).
Proof.
  intros Hwf Hsz. pose proof Hwf as [Hw Hc Hd]. unfold fs_read. frun. rewrite Hd.
  destruct (resolve_full_used s path Hwf) as (idx & E & Hr). rewrite E.
  destruct (Z.ltb_spec idx 0) as [Hlt|Hge].
  { eexists _, _, idx. split; [reflexivity|]. split; [done|]. by left. }
  destruct Hr as [?|(_ & n & Hn & Hu)]; [lia|]. rewrite Hn.
  destruct (node_type _ _ _ Hw Hn Hu) as [Ht|Ht]; rewrite Ht.
  - change (negb (FS_TYPE_FILE =? FS_TYPE_FILE)) with false. cbv iota.
    destruct (file_node s _ n Hwf Hn Hu Ht) as [_ [_ _ _ Hs Hdl]]. unfold FS_MAX_FILE_SIZE in Hs.
    set (k := if sz <? size n then sz else size n).
    assert (Hk : k = Z.min sz (size n)) by (unfold k; destruct (Z.ltb_spec sz (size n)); lia).
    replace (length (data n) <? Z.to_nat k)%nat with false by (symmetry; apply Nat.ltb_ge; lia).
    eexists _, _, idx. split; [reflexivity|]. split; [done|]. right. exists n.
    split; [done|]. split; [done|]. split; [done|]. right. split; [done|]. split; [done|].
    unfold content. rewrite take_take. f_equal. lia.
  - change (negb (FS_TYPE_DIR =? FS_TYPE_FILE)) with true. cbv iota.
    eexists _, _, idx. split; [reflexivity|]. split; [done|]. right. exists n. by eauto 10.
Qed.

(** A change of the data of node [idx]. *)
Lemma fs_wf_data s i n sz d :
  fs_wf s -> fs_nodes s !! i = Some n -> in_use n = true -> type n = FS_TYPE_FILE ->
  0 <= sz <= FS_MAX_FILE_SIZE -> length d = 4096%nat ->
  fs_wf (with_nodes s (<[i := set_data n sz d]> (fs_nodes s))).
Proof.
  intros Hwf Hn Hu Ht Hsz Hdl. pose proof Hwf as [Hw Hc Hd]. split; cbn; [|..|done].
  - by eapply wf_data.
  - eapply insert_dir; [done|done|]. intros He. destruct Hc as (_ & m & Hm & _ & Hmt).
    rewrite He, Hn in Hm. injection Hm as <-. rewrite Ht in Hmt. discriminate.
Qed.

Lemma fs_write_spec s path buf sz :
  fs_wf s -> 0 <= sz <= Z.of_nat (length buf) ->
  exists ret s' idx, fs_write uninit path buf sz s = Some (ret, s') /\
    resolve_full_path (fs_nodes s) (cwd_idx s) path = Some idx /\ fs_wf s' /\
    ((idx < 0 /\ ret = FS_ERR_NOT_FOUND /\ s' = s) \/
     exists n, 0 <= idx /\ fs_nodes s !! Z.to_nat idx = Some n /\ in_use n = true /\
       ((type n = FS_TYPE_DIR /\ ret = FS_ERR_IS_DIR /\ s' = s) \/
        (type n = FS_TYPE_FILE /\ ret = Z.min sz FS_MAX_FILE_SIZE /\ exists d,
           length d = 4096%nat /\ take (Z.to_nat ret) d = take (Z.to_nat ret) buf /\
           s' = with_nodes s (<[Z.to_nat idx := set_data n ret d]> (fs_nodes s))))).
Proof.
  intros Hwf Hsz. pose proof Hwf as [Hw Hc Hd]. unfold fs_write. frun. rewrite Hd.
  destruct (resolve_full_used s path Hwf) as (idx & E & Hr). rewrite E.
  destruct (Z.ltb_spec idx 0) as [Hlt|Hge].
  { eexists _, s, idx. split; [reflexivity|]. split; [done|]. split; [done|]. by left. }
  destruct Hr as [?|(_ & n & Hn & Hu)]; [lia|]. rewrite Hn.
  destruct (node_type _ _ _ Hw Hn Hu) as [Ht|Ht]; rewrite Ht.
  - change (negb (FS_TYPE_FILE =? FS_TYPE_FILE)) with false. cbv iota.
    destruct (file_node s _ n Hwf Hn Hu Ht) as [_ [_ _ _ Hs Hdl]].
    set (k := if FS_MAX_FILE_SIZE <? sz then FS_MAX_FILE_SIZE else sz).
    assert (Hk : k = Z.min sz FS_MAX_FILE_SIZE) by (unfold k; destruct (Z.ltb_spec FS_MAX_FILE_SIZE sz); lia).
    assert (Hkb : 0 <= k <= 4096) by (unfold FS_MAX_FILE_SIZE in *; lia).
    replace (length buf <? Z.to_nat k)%nat with false by (symmetry; apply Nat.ltb_ge; lia). cbn [put_nodes].
    set (d := splice (data n) 0 (take (Z.to_nat k) buf)).
    assert (Htk : length (take (Z.to_nat k) buf) = Z.to_nat k) by (rewrite length_take; lia).
    assert (Hd4 : length d = 4096%nat) by (unfold d; rewrite length_splice; lia).
    eexists _, _, idx. split; [reflexivity|]. split; [done|].
    split; [apply (fs_wf_data s _ n k d Hwf Hn Hu Ht); [unfold FS_MAX_FILE_SIZE; lia|done]|].
    right. exists n. split; [done|]. split; [done|]. split; [done|]. right. split; [done|]. split; [done|].
    exists d. split; [done|]. split; [|done].
    change (take (Z.to_nat k) d) with (slice d 0 (Z.to_nat k)). rewrite <- Htk at 1. unfold d.
    rewrite slice_splice; [done|lia].
  - change (negb (FS_TYPE_DIR =? FS_TYPE_FILE)) with true. cbv iota.
    eexists _, s, idx. split; [reflexivity|]. split; [done|]. split; [done|]. right. exists n. by eauto 10.
Qed.

Lemma fs_append_spec s path buf sz :
  fs_wf s -> 0 <= sz <= Z.of_nat (length buf) ->
  exists ret s' idx, fs_append path buf sz s = Some (ret, s') /\
    resolve_full_path (fs_nodes s) (cwd_idx s) path = Some idx /\ fs_wf s' /\
    ((idx < 0 /\ ret = FS_ERR_NOT_FOUND /\ s' = s) \/
     exists n, 0 <= idx /\ fs_nodes s !! Z.to_nat idx = Some n /\ in_use n = true /\
       ((type n = FS_TYPE_DIR /\ ret = FS_ERR_IS_DIR /\ s' = s) \/
        (type n = FS_TYPE_FILE /\ ret = Z.min sz (FS_MAX_FILE_SIZE - size n) /\ exists d,
           s' = with_nodes s (<[Z.to_nat idx := set_data n (size n + ret) d]> (fs_nodes s)) /\
           content (set_data n (size n + ret) d) = content n ++ take (Z.to_nat ret) buf))).
Proof.
  intros Hwf Hsz. pose proof Hwf as [Hw Hc Hd]. unfold fs_append. frun.
  destruct (resolve_full_used s path Hwf) as (idx & E & Hr). rewrite E.
  destruct (Z.ltb_spec idx 0) as [Hlt|Hge].
  { eexists _, s, idx. split; [reflexivity|]. split; [done|]. split; [done|]. by left. }
  destruct Hr as [?|(_ & n & Hn & Hu)]; [lia|]. rewrite Hn.
  destruct (node_type _ _ _ Hw Hn Hu) as [Ht|Ht]; rewrite Ht.
  - change (negb (FS_TYPE_FILE =? FS_TYPE_FILE)) with false. cbv iota.
    destruct (file_node s _ n Hwf Hn Hu Ht) as [_ [_ _ _ Hs Hdl]]. unfold FS_MAX_FILE_SIZE in *.
    rewrite (u32_small (4096 - size n)) by lia.
    set (k := if 4096 - size n <? sz then 4096 - size n else sz).
    assert (Hk : k = Z.min sz (4096 - size n)) by (unfold k; destruct (Z.ltb_spec (4096 - size n) sz); lia).
    replace (length buf <? Z.to_nat k)%nat with false by (symmetry; apply Nat.ltb_ge; lia). cbn [put_nodes].
    rewrite (u32_small (size n + k)) by lia.
    set (d := splice (data n) (Z.to_nat (size n)) (take (Z.to_nat k) buf)).
    assert (Htk : length (take (Z.to_nat k) buf) = Z.to_nat k) by (rewrite length_take; lia).
    assert (Hd4 : length d = 4096%nat) by (unfold d; rewrite length_splice; lia).
    eexists _, _, idx. split; [reflexivity|]. split; [done|].
    split; [apply (fs_wf_data s _ n (size n + k) d Hwf Hn Hu Ht); [unfold FS_MAX_FILE_SIZE; lia|done]|].
    right. exists n. split; [done|]. split; [done|]. split; [done|]. right. split; [done|]. split; [done|].
    eexists. split; [reflexivity|]. unfold content. cbn [size data set_data].
    unfold d, splice. rewrite Z2Nat.inj_add by lia.
    rewrite app_assoc, take_app_length'; [done|]. rewrite length_app, !length_take. lia.
  - change (negb (FS_TYPE_DIR =? FS_TYPE_FILE)) with true. cbv iota.
    eexists _, s, idx. split; [reflexivity|]. split; [done|]. split; [done|]. right. exists n. by eauto 10.
Qed.

(** Only a text of 128 bytes or more, too long for [cwd], keeps [fs_change_dir] from returning. *)
Lemma path_parts_some nodes depth current :
  nodes_wf nodes -> dir_at nodes current -> exists ps, path_parts depth nodes current = Some ps.
Proof.
  intros Hw. revert current. induction depth as [|depth IH]; intros current Hd; cbn [path_parts]; [by eexists|].
  destruct (current =? 0); [by eexists|]. destruct Hd as (_ & nd & Hn & Hu & _). rewrite Hn. cbn [mbind option_bind].
  destruct (IH (parent_idx nd)) as (ps & ->); [by eapply parent_dir|]. by eexists.
Qed.

Lemma fs_change_dir_spec s path :
  fs_wf s ->
  (fs_change_dir path s = None /\ exists idx ps, resolve_full_path (fs_nodes s) (cwd_idx s) path = Some idx /\
     path_parts FS_MAX_PATH_DEPTH (fs_nodes s) idx = Some ps /\
     (FS_MAX_PATH <= length (reverse ps ≫= (fun part => SLASH :: part)))%nat) \/
  exists ret s', fs_change_dir path s = Some (ret, s') /\ fs_wf s' /\ fs_nodes s' = fs_nodes s.
Proof.
  intros Hwf. pose proof Hwf as [Hw Hc Hd]. unfold fs_change_dir. frun. unfold put_cwd.
  pose proof (root_dir _ Hw) as Hroot.
  destruct (decide (path = [])) as [->|Hp].
  { right. eexists _, _. split; [reflexivity|]. done. }
  destruct (resolve_full_used s path Hwf) as (idx & E & Hr). rewrite E.
  destruct (Z.ltb_spec idx 0) as [Hlt|Hge]; [right; eexists _, s; split; [reflexivity|done]|].
  destruct Hr as [?|(_ & n & Hn & Hu)]; [lia|]. rewrite Hn.
  destruct (Z.eqb_spec (type n) FS_TYPE_DIR) as [Ht|Ht]; cbn [negb]; [|right; eexists _, s; split; [reflexivity|done]].
  destruct (Z.eqb_spec idx 0) as [->|Hne]; [right; eexists _, _; split; [reflexivity|done]|].
  assert (Hdir : dir_at (fs_nodes s) idx) by (split; [done|by exists n]).
  destruct (path_parts_some _ FS_MAX_PATH_DEPTH idx Hw Hdir) as (ps & Hps). rewrite Hps.
  cbv zeta. set (text := list_bind (list Z) Z (fun part => SLASH :: part) (reverse ps)).
  destruct (Nat.leb_spec FS_MAX_PATH (length text)).
  - left. split; [done|]. by exists idx, ps.
  - right. eexists _, _. split; [reflexivity|]. done.
Qed.

Lemma fs_clear_cache_spec s : fs_wf s -> exists s', fs_clear_cache s = Some (tt, s') /\ fs_wf s'.
Proof.
  intros [Hw Hc Hd]. eexists. split; [reflexivity|].
  destruct (nw_root _ Hw) as (r & Hr & Hl).
  assert (Hlk : forall (i : nat) n, (take 1 (fs_nodes s) ++ replicate (FS_MAX_FILES - 1) zero_node) !! i = Some n ->
    (i = 0%nat /\ n = Node [SLASH] FS_TYPE_DIR true 0 0 r) \/ n = zero_node).
  { destruct (fs_nodes s) as [|n0 l]; [done|]. cbn in Hr. injection Hr as ->.
    intros [|i] n; cbn [take app lookup list_lookup]; [intros [= <-]; by left|].
    intros [-> _]%lookup_replicate. by right. }
  assert (Hlen : length (take 1 (fs_nodes s) ++ replicate (FS_MAX_FILES - 1) zero_node) = FS_MAX_FILES).
  { rewrite length_app, length_take, length_replicate, (nw_length _ Hw). done. }
  assert (Hr0 : (take 1 (fs_nodes s) ++ replicate (FS_MAX_FILES - 1) zero_node) !! 0%nat
                = Some (Node [SLASH] FS_TYPE_DIR true 0 0 r)).
  { destruct (fs_nodes s) as [|n0 l]; [done|]. exact Hr. }
  split; cbn [fs_nodes cwd_idx disk_enabled]; [|split; [lia|by eexists]|done].
  split.
  - done.
  - by exists r.
  - intros i n [[-> ->]| ->]%Hlk Hu Hi; done.
  - intros i n [[-> ->]| ->]%Hlk Hu; done.
  - intros i j n m [[-> ->]| ->]%Hlk [[-> ->]| ->]%Hlk Hu Hu'; done.
  - exists (fun _ => 0%nat). intros i n [[-> ->]| ->]%Hlk Hu Hi; done.
Qed.

(** ** [fs_list_dir] *)

Lemma list_loop_bound nodes i idx sz text :
  0 <= sz < 4294967296 - 64 -> Z.of_nat (length text) <= sz ->
  (forall k n, nodes !! k = Some n -> (length (name n) <= 31)%nat) ->
  Z.of_nat (length (list_loop nodes i idx sz text)) <= sz /\
  ((forall k n, nodes !! k = Some n -> in_use n = true -> parent_idx n = idx -> i + Z.of_nat k <> idx ->
      type n <> FS_TYPE_DIR) ->
   Z.of_nat (length text) < sz -> Z.of_nat (length (list_loop nodes i idx sz text)) < sz).
Proof.
  intros Hsz. revert i text. induction nodes as [|n nodes IH]; intros i text Ht Hn; cbn [list_loop]; [by split|].
  assert (Hn' : forall k m, nodes !! k = Some m -> (length (name m) <= 31)%nat) by (intros k; apply (Hn (S k))).
  pose proof (Hn 0%nat n eq_refl) as Hnl.
  assert (Hskip : forall tx, Z.of_nat (length tx) <= sz ->
    Z.of_nat (length (list_loop nodes (i + 1) idx sz tx)) <= sz /\
    ((forall k m, (n :: nodes) !! k = Some m -> in_use m = true -> parent_idx m = idx -> i + Z.of_nat k <> idx ->
        type m <> FS_TYPE_DIR) ->
     Z.of_nat (length tx) < sz -> Z.of_nat (length (list_loop nodes (i + 1) idx sz tx)) < sz)).
  { intros tx Htx. destruct (IH (i + 1) tx Htx Hn') as [A B]. split; [done|]. intros Hf. apply B.
    intros k m Hk Hu Hp Hi. apply (Hf (S k) m Hk Hu Hp). lia. }
  destruct (in_use n && (parent_idx n =? idx) && negb (i =? idx)) eqn:Eb; [|by apply Hskip].
  apply andb_true_iff in Eb as [Eb Ei]. apply andb_true_iff in Eb as [Eu Ep]. apply Z.eqb_eq in Ep.
  apply negb_true_iff, Z.eqb_neq in Ei.
  rewrite u32_small by lia. destruct (Z.leb_spec sz (Z.of_nat (length text) + (Z.of_nat (length (name n)) + 2))); [by split|].
  assert (Hlen : Z.of_nat (length (entry_line n)) = Z.of_nat (length (name n)) + (if type n =? FS_TYPE_DIR then 3 else 1)).
  { unfold entry_line. destruct (type n =? FS_TYPE_DIR); cbn [length]; rewrite length_app; cbn [length]; lia. }
  destruct (Hskip (text ++ entry_line n)) as [A B].
  { rewrite length_app, Nat2Z.inj_add, Hlen. destruct (type n =? FS_TYPE_DIR); lia. }
  split; [done|]. intros Hf Hlt. apply B; [done|]. rewrite length_app, Nat2Z.inj_add, Hlen.
  destruct (Z.eqb_spec (type n) FS_TYPE_DIR) as [Hty|]; [|lia].
  destruct (Hf 0%nat n eq_refl Eu Ep); [lia|done].
Qed.

(** ** Properties *)

(** The operations of the file system in memory.  [fs_remove] of the current
    directory is not among them: see [remove_cwd]. *)
Inductive fs_step (s : fs D) : fs D -> Prop :=
| st_create path r s' : fs_create_file uninit path s = Some (r, s') -> fs_step s s'
| st_mkdir path r s' : fs_create_dir path s = Some (r, s') -> fs_step s s'
| st_remove path r s' : fs_remove path s = Some (r, s') ->
    resolve_full_path (fs_nodes s) (cwd_idx s) path <> Some (cwd_idx s) -> fs_step s s'
| st_write path buf sz r s' : 0 <= sz <= Z.of_nat (length buf) ->
    fs_write uninit path buf sz s = Some (r, s') -> fs_step s s'
| st_append path buf sz r s' : 0 <= sz <= Z.of_nat (length buf) ->
    fs_append path buf sz s = Some (r, s') -> fs_step s s'
| st_chdir path r s' : fs_change_dir path s = Some (r, s') -> fs_step s s'
| st_clear s' : fs_clear_cache s = Some (tt, s') -> fs_step s s'.

Lemma create_file_memory s path : disk_enabled s = false ->
  fs_create_file uninit path s = create_node path FS_TYPE_FILE (fun _ => zero_data) s.
Proof. intros Hd. unfold fs_create_file. frun. by rewrite Hd. Qed.

Lemma create_file_spec s path : fs_wf s ->
  exists r s', fs_create_file uninit path s = Some (r, s') /\ fs_wf s'.
Proof.
  intros Hwf. rewrite create_file_memory by apply Hwf.
  destruct (create_node_spec s path FS_TYPE_FILE (fun _ => zero_data) Hwf)
    as (r & s' & rp & pa & b & E & _ & Hc); [by left|intros; apply zero_data_length|].
  exists r, s'. split; [done|]. by destruct Hc as [[-> _]|(_ & _ & ? & _)].
Qed.

Lemma create_dir_spec s path : fs_wf s -> exists r s', fs_create_dir path s = Some (r, s') /\ fs_wf s'.
Proof.
  intros Hwf. destruct (create_node_spec s path FS_TYPE_DIR (fun d => d) Hwf)
    as (r & s' & rp & pa & b & E & _ & Hc); [by right|done|].
  exists r, s'. split; [done|]. by destruct Hc as [[-> _]|(_ & _ & ? & _)].
Qed.

Lemma fs_step_wf s s' : fs_wf s -> fs_step s s' -> fs_wf s'.
Proof.
  intros Hwf Hst. destruct Hst as [path r s' E|path r s' E|path r s' E Hn|path buf sz r s' Hsz E|path buf sz r s' Hsz E|path r s' E|s' E].
  - destruct (create_file_spec s path Hwf) as (r' & s2 & E' & Hw). congruence.
  - destruct (create_dir_spec s path Hwf) as (r' & s2 & E' & Hw). congruence.
  - destruct (fs_remove_spec s path Hwf) as (r' & s2 & idx & E' & Hr & Hc). rewrite E in E'. injection E' as -> ->.
    destruct Hc as [[-> _]|(_ & _ & _ & _ & Hw)]; [done|]. apply Hw. congruence.
  - destruct (fs_write_spec s path buf sz Hwf Hsz) as (r' & s2 & idx & E' & _ & Hw & _). congruence.
  - destruct (fs_append_spec s path buf sz Hwf Hsz) as (r' & s2 & idx & E' & _ & Hw & _). congruence.
  - destruct (fs_change_dir_spec s path Hwf) as [[E' _]|(r' & s2 & E' & Hw & _)]; congruence.
  - destruct (fs_clear_cache_spec s Hwf) as (s2 & E' & Hw). congruence.
Qed.

(** [fs_remove] of the current directory. *)
Lemma remove_cwd s path s' : fs_wf s -> fs_remove path s = Some (FS_ERR_OK, s') ->
  resolve_full_path (fs_nodes s) (cwd_idx s) path = Some (cwd_idx s) ->
  cwd_idx s' = cwd_idx s /\ fs_nodes s' !! Z.to_nat (cwd_idx s') = Some zero_node.
Proof.
  intros Hwf E Er. destruct (fs_remove_spec s path Hwf) as (r & s2 & idx & E2 & Er2 & Hc).
  rewrite E in E2. injection E2 as <- <-. rewrite Er in Er2. injection Er2 as <-.
  destruct Hc as [[_ []]|(_ & _ & -> & _)]; [done|]. split; [done|]. cbn [cwd_idx fs_nodes with_nodes].
  apply list_lookup_insert_eq. destruct (fw_cwd _ Hwf) as (_ & n & Hn & _). by eapply lookup_lt_Some.
Qed.

(** C2: the file system in memory stays a tree.  Whatever operations run after
    [fs_init], as long as the current directory is not removed, the table holds a tree
    of uniquely and correctly named nodes with sizes in range and zero free
    places, and the current directory is a directory of it.  On every path creating,
    removing, reading, writing and appending return; [fs_change_dir] returns unless the
    path of the directory has 128 characters or more, which overrun its array; and
    removing the current directory, which is allowed, leaves it at a free node. *)
Theorem fs_invariant s0 s1 s :
  fs_init s0 = Some (tt, s1) -> rtc fs_step s1 s ->
  fs_wf s /\
  forall path, (exists r s', fs_create_file uninit path s = Some (r, s')) /\
    (exists r s', fs_create_dir path s = Some (r, s')) /\
    (exists r s', fs_remove path s = Some (r, s')) /\
    (forall sz, 0 <= sz -> exists r, fs_read uninit path sz s = Some (r, s)) /\
    (forall buf sz, 0 <= sz <= Z.of_nat (length buf) ->
       (exists r s', fs_write uninit path buf sz s = Some (r, s')) /\
       (exists r s', fs_append path buf sz s = Some (r, s'))) /\
    (fs_change_dir path s = None -> exists idx ps, resolve_full_path (fs_nodes s) (cwd_idx s) path = Some idx /\
       path_parts FS_MAX_PATH_DEPTH (fs_nodes s) idx = Some ps /\
       (FS_MAX_PATH <= length (reverse ps ≫= (fun part => SLASH :: part)))%nat) /\
    (forall s', fs_remove path s = Some (FS_ERR_OK, s') -> resolve_full_path (fs_nodes s) (cwd_idx s) path = Some (cwd_idx s) ->
       cwd_idx s' = cwd_idx s /\ fs_nodes s' !! Z.to_nat (cwd_idx s') = Some zero_node).
Proof.
  intros Hi Hst. assert (Hwf : fs_wf s).
  { destruct (fs_init_wf s0) as (s2 & E & Hw). rewrite Hi in E. injection E as <-. clear Hi.
    induction Hst as [|a b c Hab _ IH]; [done|]. apply IH. by eapply fs_step_wf. }
  split; [done|]. intros path.
  destruct (create_file_spec s path Hwf) as (r1 & t1 & E1 & _).
  destruct (create_dir_spec s path Hwf) as (r2 & t2 & E2 & _).
  destruct (fs_remove_spec s path Hwf) as (r3 & t3 & i3 & E3 & _).
  split; [eauto|]. split; [eauto|]. split; [eauto|]. split; [|split; [|split]].
  - intros sz Hsz. destruct (fs_read_spec s path sz Hwf Hsz) as (r & out & idx & E & _). eauto.
  - intros buf sz Hsz. destruct (fs_write_spec s path buf sz Hwf Hsz) as (r4 & t4 & i4 & E4 & _).
    destruct (fs_append_spec s path buf sz Hwf Hsz) as (r5 & t5 & i5 & E5 & _). eauto 10.
  - intros En. destruct (fs_change_dir_spec s path Hwf) as [[_ H1]|(? & ? & E & _)]; [exact H1|congruence].
  - intros s' E Er. by apply (remove_cwd s path).
Qed.

Lemma fs_exists_spec s path idx :
  resolve_full_path (fs_nodes s) (cwd_idx s) path = Some idx -> fs_exists path s = Some (0 <=? idx, s).
Proof. intros E. unfold fs_exists. frun. by rewrite E. Qed.

Lemma fs_is_dir_spec s path idx n :
  resolve_full_path (fs_nodes s) (cwd_idx s) path = Some idx -> 0 <= idx -> fs_nodes s !! Z.to_nat idx = Some n ->
  fs_is_dir path s = Some (type n =? FS_TYPE_DIR, s).
Proof.
  intros E Hi Hn. unfold fs_is_dir. frun. rewrite E. replace (idx <? 0) with false by lia. by rewrite Hn.
Qed.

(** A path that names a file. *)
Definition file_at (s : fs D) (path : list Z) (n : fs_node) : Prop := exists idx,
  resolve_full_path (fs_nodes s) (cwd_idx s) path = Some idx /\ 0 <= idx /\
  fs_nodes s !! Z.to_nat idx = Some n /\ in_use n = true /\ type n = FS_TYPE_FILE.

Lemma read_file s path n k : fs_wf s -> 0 <= k -> file_at s path n ->
  fs_read uninit path k s = Some ((Z.min k (size n), take (Z.to_nat k) (content n)), s).
Proof.
  intros Hwf Hk (idx & E & Hi & Hn & Hu & Ht). destruct (fs_read_spec s path k Hwf Hk) as (r & out & i & -> & Er & Hc).
  rewrite E in Er. injection Er as <-. destruct Hc as [(? & _)|(m & _ & Hm & _ & Hc)]; [lia|].
  rewrite Hn in Hm. injection Hm as <-. destruct Hc as [(Ht' & _)|(_ & -> & ->)]; [by rewrite Ht in Ht'|done].
Qed.

(** The same file with new data is where it was. *)
Lemma file_at_data s path n sz d : fs_wf s -> file_at s path n -> exists idx,
  resolve_full_path (fs_nodes s) (cwd_idx s) path = Some idx /\ fs_nodes s !! Z.to_nat idx = Some n /\
  (fs_wf (with_nodes s (<[Z.to_nat idx := set_data n sz d]> (fs_nodes s))) ->
   file_at (with_nodes s (<[Z.to_nat idx := set_data n sz d]> (fs_nodes s))) path (set_data n sz d)).
Proof.
  intros Hwf (idx & E & Hi & Hn & Hu & Ht). exists idx. split; [done|]. split; [done|]. intros Hwf'.
  assert (Hlt : (Z.to_nat idx < length (fs_nodes s))%nat) by (by eapply lookup_lt_Some).
  exists idx. split; [|split; [done|]; split; [by apply list_lookup_insert_eq|by split]].
  apply (resolve_full_extends (fs_nodes s)); try done; [apply Hwf|apply Hwf'| |apply Hwf]. by apply extends_data.
Qed.

Lemma write_file s path n buf sz :
  fs_wf s -> 0 <= sz <= Z.of_nat (length buf) -> file_at s path n -> exists s' n',
  fs_write uninit path buf sz s = Some (Z.min sz FS_MAX_FILE_SIZE, s') /\ fs_wf s' /\ file_at s' path n' /\
  size n' = Z.min sz FS_MAX_FILE_SIZE /\ content n' = take (Z.to_nat (Z.min sz FS_MAX_FILE_SIZE)) buf.
Proof.
  intros Hwf Hsz Hf. pose proof Hf as (_ & _ & _ & _ & _ & Ht).
  destruct (fs_write_spec s path buf sz Hwf Hsz) as (r & s' & i & E & Er & Hwf' & Hc).
  pose proof Hf as (idx & E' & Hi & Hn & _). rewrite E' in Er. injection Er as <-.
  destruct Hc as [(? & _)|(m & _ & Hm & _ & Hc)]; [lia|]. rewrite Hn in Hm. injection Hm as <-.
  destruct Hc as [(Ht' & _)|(_ & -> & d & _ & Htk & ->)]; [by rewrite Ht in Ht'|].
  destruct (file_at_data s path n (Z.min sz FS_MAX_FILE_SIZE) d Hwf Hf) as (i & Ei & _ & Hfile).
  rewrite E' in Ei. injection Ei as <-. eexists _, _. split; [exact E|]. split; [done|]. split; [by apply Hfile|]. by split.
Qed.

Lemma append_file s path n buf sz :
  fs_wf s -> 0 <= sz <= Z.of_nat (length buf) -> file_at s path n -> exists s' n',
  fs_append path buf sz s = Some (Z.min sz (FS_MAX_FILE_SIZE - size n), s') /\ fs_wf s' /\ file_at s' path n' /\
  size n' = size n + Z.min sz (FS_MAX_FILE_SIZE - size n) /\
  content n' = content n ++ take (Z.to_nat (Z.min sz (FS_MAX_FILE_SIZE - size n))) buf.
Proof.
  intros Hwf Hsz Hf. pose proof Hf as (_ & _ & _ & _ & _ & Ht).
  destruct (fs_append_spec s path buf sz Hwf Hsz) as (r & s' & i & E & Er & Hwf' & Hc).
  pose proof Hf as (idx & E' & Hi & Hn & _). rewrite E' in Er. injection Er as <-.
  destruct Hc as [(? & _)|(m & _ & Hm & _ & Hc)]; [lia|]. rewrite Hn in Hm. injection Hm as <-.
  destruct Hc as [(Ht' & _)|(_ & -> & d & -> & Hct)]; [by rewrite Ht in Ht'|].
  destruct (file_at_data s path n (size n + Z.min sz (FS_MAX_FILE_SIZE - size n)) d Hwf Hf) as (i & Ei & _ & Hfile).
  rewrite E' in Ei. injection Ei as <-. eexists _, _. split; [exact E|]. split; [done|]. split; [by apply Hfile|]. by split.
Qed.

(** A write that succeeds was to a file. *)
Lemma written_file s path buf sz n s' :
  fs_wf s -> 0 <= sz <= Z.of_nat (length buf) -> fs_write uninit path buf sz s = Some (n, s') -> 0 <= n ->
  exists nd, file_at s path nd.
Proof.
  intros Hwf Hsz Ew Hn. destruct (fs_write_spec s path buf sz Hwf Hsz) as (r & s1 & idx & E & Er & _ & Hc).
  rewrite Ew in E. injection E as <- <-.
  destruct Hc as [(_ & -> & _)|(nd & Hi & Hnd & Hu & [(_ & -> & _)|(Ht & _)])];
    [unfold FS_ERR_NOT_FOUND in Hn; lia|unfold FS_ERR_IS_DIR in Hn; lia|]. exists nd, idx. done.
Qed.

(** C24: [fs_write] then [fs_read] of the same path returns the data written, cut
    at 4096 bytes and at the size of the reader's buffer; [fs_append] after that
    adds at the end. *)
Theorem fs_write_read_roundtrip s path buf sz n s' :
  fs_wf s -> 0 <= sz <= Z.of_nat (length buf) -> fs_write uninit path buf sz s = Some (n, s') -> 0 <= n ->
  n = Z.min sz FS_MAX_FILE_SIZE /\
  (forall k, 0 <= k -> fs_read uninit path k s' = Some ((Z.min k n, take (Z.to_nat k) (take (Z.to_nat n) buf)), s')) /\
  (forall more k, 0 <= k <= Z.of_nat (length more) -> exists a s'', fs_append path more k s' = Some (a, s'') /\
  a = Z.min k (FS_MAX_FILE_SIZE - n) /\
  fs_read uninit path FS_MAX_FILE_SIZE s'' =
       Some ((n + a, take (Z.to_nat n) buf ++ take (Z.to_nat a) more), s'')).
Proof.
  intros Hwf Hsz Ew Hn. destruct (written_file s path buf sz n s' Hwf Hsz Ew Hn) as [nd Hnd].
  destruct (write_file s path nd buf sz Hwf Hsz Hnd) as (s1 & nd1 & E & Hwf1 & Hnd1 & Hs1 & Hc1).
  rewrite Ew in E. injection E as -> ->. split; [done|]. split.
  - intros k Hk. by rewrite (read_file s1 path nd1 k Hwf1 Hk Hnd1), Hc1, Hs1.
  - intros more k Hk. destruct (append_file s1 path nd1 more k Hwf1 Hk Hnd1) as (s2 & nd2 & E2 & Hwf2 & Hnd2 & Hs2 & Hc2).
    rewrite Hs1, Hc1 in *. eexists _, s2. split; [exact E2|]. split; [done|].
    rewrite (read_file s2 path nd2 FS_MAX_FILE_SIZE Hwf2 ltac:(done) Hnd2), Hs2, Hc2. unfold FS_MAX_FILE_SIZE in *.
    do 3 f_equal; [lia|]. apply take_ge. rewrite length_app, !length_take. lia.
Qed.

(** What a successful creation has made, and where its path leads. *)
Lemma created_node s path s' rp parent base (file : bool) :
  fs_wf s -> (if file then fs_create_file uninit path else fs_create_dir path) s = Some (FS_ERR_OK, s') ->
  resolve_path (fs_nodes s) (cwd_idx s) path = Some (rp, parent, base) -> base <> dot -> base <> dotdot ->
  let ty := if file then FS_TYPE_FILE else FS_TYPE_DIR in
  exists i d, fs_nodes s !! i = Some zero_node /\ rp = FS_ERR_OK /\ base <> [] /\ fs_wf s' /\
    s' = with_nodes s (<[i := Node base ty true 0 parent d]> (fs_nodes s)) /\
    resolve_full_path (fs_nodes s') (cwd_idx s') path = Some (Z.of_nat i).
Proof.
  intros Hwf Ec Er Hdot Hdd ty.
  assert (Hcr : exists i d, fs_nodes s !! i = Some zero_node /\ rp = FS_ERR_OK /\ base <> [] /\ fs_wf s' /\
    s' = with_nodes s (<[i := Node base ty true 0 parent d]> (fs_nodes s))).
  { assert (Hgen : forall fill, (forall d, length d = 4096%nat -> length (fill d) = 4096%nat) ->
      create_node path ty fill s = Some (FS_ERR_OK, s') -> exists i d, fs_nodes s !! i = Some zero_node /\
        rp = FS_ERR_OK /\ base <> [] /\ fs_wf s' /\
        s' = with_nodes s (<[i := Node base ty true 0 parent d]> (fs_nodes s))).
    { intros fill Hfill E. destruct (create_node_spec s path ty fill Hwf) as (r & s2 & rp2 & pa & b & E2 & Er2 & Hc);
        [unfold ty; destruct file; tauto|done|].
      rewrite E in E2. injection E2 as <- <-. rewrite Er in Er2. injection Er2 as <- <- <-.
      destruct Hc as [(_ & [(Hx & Hy)|[(_ & _ & Hx)|[(_ & _ & Hx)|(_ & _ & Hx)]]])|
        (-> & _ & Hw & _ & Hb & i & d & _ & Hi & _ & ->)]; [congruence|discriminate..|]. by exists i, d. }
    destruct file.
    - rewrite create_file_memory in Ec by apply Hwf. eapply Hgen; [|exact Ec]. intros; apply zero_data_length.
    - eapply Hgen; [|exact Ec]. done. }
  destruct Hcr as (i & d & Hi & -> & Hb & Hwf' & Es). exists i, d. split_and!; [done..|]. subst s'. pose proof Hwf as [Hw Hc Hd].
  set (nd := Node base ty true 0 parent d) in *. set (nodes' := <[i := nd]> (fs_nodes s)) in *.
  assert (Hw' : nodes_wf nodes') by apply Hwf'.
  assert (Hext : extends (fs_nodes s) nodes') by (by eapply extends_free).
  assert (Hlt : (i < length (fs_nodes s))%nat) by (by eapply lookup_lt_Some).
  assert (Hnd : nodes' !! i = Some nd) by (by apply list_lookup_insert_eq).
  assert (Hrp : resolve_path nodes' (cwd_idx s) path = Some (FS_ERR_OK, parent, base))
    by (by apply (resolve_path_extends (fs_nodes s) nodes')).
  cbn [fs_nodes cwd_idx with_nodes].
  unfold resolve_full_path. destruct (decide (path = [])) as [->|_]; [discriminate|].
  destruct (decide (path = [SLASH])) as [->|_]; [vm_compute in Er; congruence|].
    rewrite Hrp. cbn [mbind option_bind]. change (negb (FS_ERR_OK =? FS_ERR_OK)) with false. cbv iota.
    rewrite !decide_False by done. f_equal. by apply (find_node_unique nodes' parent base i nd).
Qed.

Lemma created_file s path s' rp parent base : fs_wf s -> fs_create_file uninit path s = Some (FS_ERR_OK, s') ->
  resolve_path (fs_nodes s) (cwd_idx s) path = Some (rp, parent, base) -> base <> dot -> base <> dotdot ->
  fs_wf s' /\ exists n, file_at s' path n.
Proof.
  intros Hwf Ec Er Hdot Hdd. destruct (created_node s path s' rp parent base true Hwf Ec Er Hdot Hdd) as (i & d & Hi & _ & _ & Hwf' & -> & Hfull).
  split; [done|]. eexists _, (Z.of_nat i). split; [exact Hfull|]. split; [lia|]. cbn [fs_nodes with_nodes]. rewrite Nat2Z.id.
  split; [apply list_lookup_insert_eq; by eapply lookup_lt_Some|done].
Qed.


Lemma list_index_bound s idx sz :
  fs_wf s -> 0 < sz < 4294967296 - 64 ->
  idx < 0 \/ (0 <= idx /\ exists n, fs_nodes s !! Z.to_nat idx = Some n /\ in_use n = true) ->
  exists ret text, list_index idx sz s = Some ((ret, text), s) /\
    (0 <= ret -> ret = Z.of_nat (length text)) /\ Z.of_nat (length text) <= sz /\
    ((forall i n, i <> 0%nat -> fs_nodes s !! i = Some n -> in_use n = true -> type n = FS_TYPE_FILE) ->
     Z.of_nat (length text) < sz).
Proof.
  intros Hwf Hsz Hr. pose proof Hwf as [Hw Hc Hd]. unfold list_index. frun.
  destruct (Z.ltb_spec idx 0) as [Hlt|Hge].
  { eexists _, _. split; [reflexivity|]. split; [unfold FS_ERR_NOT_FOUND; lia|]. simpl. lia. }
  destruct Hr as [?|(_ & n & Hn & Hu)]; [lia|]. rewrite Hn.
  destruct (negb (type n =? FS_TYPE_DIR)).
  { eexists _, _. split; [reflexivity|]. split; [unfold FS_ERR_NOT_DIR; lia|]. simpl. lia. }
  assert (Hroot : forall i m, fs_nodes s !! i = Some m -> (length (name m) <= 31)%nat).
  { intros i m Hm. destruct (decide (in_use m = true)) as [Hum|Hum].
    - destruct (decide (i = 0%nat)) as [->|Hi].
      + destruct (nw_root _ Hw) as (r & Hr & _). rewrite Hr in Hm. injection Hm as <-. cbn. lia.
      + apply (no_name _ _ (nw_node _ Hw i m Hm Hum Hi)).
    - destruct (in_use m) eqn:E; [done|]. rewrite (nw_free _ Hw i m Hm E). cbn. lia. }
  destruct (list_loop_bound (fs_nodes s) 0 idx sz []) as [A B]; [lia|simpl; lia|exact Hroot|].
  eexists _, _. split; [reflexivity|]. split; [done|]. split; [done|]. intros Hfiles.
  apply B; [|simpl; lia]. intros k m Hk Hum Hp Hi. destruct (decide (k = 0%nat)) as [->|Hk0].
  - destruct (nw_root _ Hw) as (r & Hr & _). rewrite Hr in Hk. injection Hk as <-. cbn in Hp. lia.
  - rewrite (Hfiles k m Hk0 Hk Hum). discriminate.
Qed.

(** [fs_list_dir] stores at most [size] characters before the terminator, so
    the terminator is at most one byte past the buffer; when the directory has no
    subdirectory everything stays inside. *)
Theorem fs_list_dir_bound s path sz :
  fs_wf s -> 0 < sz < 4294967296 - 64 ->
  exists ret text, fs_list_dir path sz s = Some ((ret, text), s) /\
    (0 <= ret -> ret = Z.of_nat (length text)) /\ Z.of_nat (length text) <= sz /\
    ((forall i n, i <> 0%nat -> fs_nodes s !! i = Some n -> in_use n = true -> type n = FS_TYPE_FILE) ->
     Z.of_nat (length text) < sz).
Proof.
  intros Hwf Hsz. unfold fs_list_dir. frun. case_decide as N1.
  - apply list_index_bound; [done..|]. right. by apply dir_used, Hwf.
  - destruct (resolve_full_used s path Hwf) as (r & -> & Hr). by apply list_index_bound.
Qed.
End proofs.

(** ** A small file system

    [booted] is what [fs_init] leaves; then the directory "ab" and the file "f"
    are created. *)

Definition unread (_ : Z) : list Z := replicate 32 0.
Definition unbooted : fs ramdisk := Fs (replicate FS_MAX_FILES zero_node) false [] 0 blank.
Definition fs_after {A} (o : option (A * fs ramdisk)) : fs ramdisk := match o with Some (_, s) => s | None => unbooted end.
Definition booted : fs ramdisk := fs_after (fs_init unbooted).
Definition ab : list Z := [97; 98].
Definition f_txt : list Z := [102].
Definition with_dir : fs ramdisk := fs_after (fs_create_dir ab booted).
Definition with_file : fs ramdisk := fs_after (fs_create_file unread f_txt with_dir).

Lemma booted_init : fs_init unbooted = Some (tt, booted).
Proof. reflexivity. Qed.

Lemma booted_wf : fs_wf booted.
Proof. destruct (fs_init_wf unbooted) as (s & E & Hw). rewrite booted_init in E. by injection E as <-. Qed.

(** The step that a computation with a known code makes. *)
Lemma fs_after_eq {A} (o : option (A * fs ramdisk)) r : fst <$> o = Some r -> o = Some (r, fs_after o).
Proof. destruct o as [[a s]|]; [|discriminate]. simpl. by intros [= ->]. Qed.

Lemma dir_code : fst <$> fs_create_dir ab booted = Some 0.
Proof. vm_compute. reflexivity. Qed.

Lemma with_dir_eq : fs_create_dir ab booted = Some (0, with_dir).
Proof. exact (fs_after_eq _ _ dir_code). Qed.

Lemma file_code : fst <$> fs_create_file unread f_txt with_dir = Some 0.
Proof. vm_compute. reflexivity. Qed.

Lemma with_file_eq : fs_create_file unread f_txt with_dir = Some (0, with_file).
Proof. exact (fs_after_eq _ _ file_code). Qed.

Lemma with_file_steps : rtc (fs_step unread) booted with_file.
Proof.
  eapply rtc_l; [exact (st_mkdir unread booted ab 0 with_dir with_dir_eq)|].
  eapply rtc_once. exact (st_create unread with_dir f_txt 0 with_file with_file_eq).
Qed.

Lemma with_dir_wf : fs_wf with_dir.
Proof. exact (fs_step_wf unread _ _ booted_wf (st_mkdir unread booted ab 0 with_dir with_dir_eq)). Qed.

Lemma with_file_wf : fs_wf with_file.
Proof. exact (fs_step_wf unread _ _ with_dir_wf (st_create unread with_dir f_txt 0 with_file with_file_eq)). Qed.

Lemma fs_invariant_witness : fs_wf with_file.
Proof. exact (proj1 (fs_invariant unread unbooted booted with_file booted_init with_file_steps)). Defined.

Lemma write_code : fst <$> fs_write unread f_txt [104; 105] 2 with_file = Some 2.
Proof. vm_compute. reflexivity. Qed.

Lemma fs_write_read_roundtrip_witness :
  fs_read unread f_txt 10 (fs_after (fs_write unread f_txt [104; 105] 2 with_file)) =
  Some ((2, [104; 105]), fs_after (fs_write unread f_txt [104; 105] 2 with_file)).
Proof.
  assert (H2 : 0 <= 2 <= Z.of_nat (length [104; 105])) by (simpl; lia).
  assert (Hk : 0 <= 10) by lia.
  exact (proj1 (proj2 (fs_write_read_roundtrip unread with_file f_txt [104; 105] 2 2 _ with_file_wf H2
    (fs_after_eq _ _ write_code) ltac:(lia))) 10 Hk).
Defined.

Lemma path_f : resolve_path (fs_nodes with_dir) (cwd_idx with_dir) f_txt = Some (0, 0, f_txt).
Proof. vm_compute. reflexivity. Qed.


Lemma fs_list_dir_bound_witness : exists ret text,
  fs_list_dir [] 5 with_file = Some ((ret, text), with_file) /\ Z.of_nat (length text) <= 5.
Proof.
  assert (H5 : 0 < 5 < 4294967296 - 64) by lia.
  destruct (fs_list_dir_bound with_file [] 5 with_file_wf H5) as (ret & text & E & _ & Hl & _).
  exact (ex_intro _ ret (ex_intro _ text (conj E Hl))).
Defined.

(** The bound is reached: with a directory the terminator is at [buffer[size]]. *)
Example fs_list_dir_reaches_size : fst <$> fs_list_dir [] 5 with_dir = Some (5, 91 :: ab ++ [93; 10]).
Proof. vm_compute. reflexivity. Qed.
