(* ===== verification/Effects.v ===== *)
(** Computations on a state that can fault: [ST S A] maps a state to a result and
    a new state, or to [None] when the C code would leave its arrays.

    The first half is the monad; the second a small program logic: [tri P m Q] says
    that [m], from any state in [P], returns and ends in [Q] (total correctness),
    with one rule per construct. *)

From S2P Require Import Prelude.
Local Open Scope Z_scope.

(** ** The monad *)

Definition ST (S A : Type) : Type := S -> option (A * S).

#[export] Instance ST_ret {S} : MRet (ST S) := fun A a s => Some (a, s).
#[export] Instance ST_bind {S} : MBind (ST S) := fun A B k m s =>
  match m s with Some (a, s') => k a s' | None => None end.

Definition sget {S} : ST S S := fun s => Some (s, s).
Definition smod {S} (f : S -> S) : ST S unit := fun s => Some (tt, f s).
Definition sfault {S A} : ST S A := fun _ => None.
Definition sopt {S A} (o : option A) : ST S A := match o with Some a => mret a | None => sfault end.

(** A loop over a list that has no result. *)
Fixpoint each {S A} (f : A -> ST S unit) (l : list A) : ST S unit :=
  match l with [] => mret tt | x :: l => _ ← f x; each f l end.

(** A computation on a part of the state, seen through [get] and [set]. *)
Definition zoom {S T A} (get : S -> T) (set : T -> S -> S) (m : ST T A) : ST S A := fun s =>
  match m (get s) with Some (a, t) => Some (a, set t s) | None => None end.

Lemma run_bind {S A B} (m : ST S A) (k : A -> ST S B) s a s' : m s = Some (a, s') -> mbind k m s = k a s'.
Proof. intros E. unfold mbind, ST_bind. by rewrite E. Qed.

Lemma run_none {S A B} (m : ST S A) (k : A -> ST S B) s : m s = None -> mbind k m s = None.
Proof. intros E. unfold mbind, ST_bind. by rewrite E. Qed.

Lemma run_get {S B} (k : S -> ST S B) s : mbind k sget s = k s s.
Proof. done. Qed.

Lemma run_mod {S B} (f : S -> S) (k : unit -> ST S B) s : mbind k (smod f) s = k tt (f s).
Proof. done. Qed.

Lemma bind_assoc {S A B} (m1 : ST S A) (m2 : ST S B) {C} (k : ST S C) s : (_ ← (_ ← m1; m2); k) s = (_ ← m1; _ ← m2; k) s.
Proof. unfold mbind, ST_bind. by destruct (m1 s) as [[a s']|]. Qed.

Lemma each_app {S A} (f : A -> ST S unit) l1 l2 s : each f (l1 ++ l2) s = (_ ← each f l1; each f l2) s.
Proof.
  revert s. induction l1 as [|a l1 IH]; intros s; [done|]. cbn [app each]. unfold mbind, ST_bind in *.
  destruct (f a s) as [[[] s']|]; [apply IH|done].
Qed.

(** ** Total correctness *)

Definition tri {S A} (P : S -> Prop) (m : ST S A) (Q : A -> S -> Prop) : Prop :=
  forall s, P s -> exists a s', m s = Some (a, s') /\ Q a s'.

Section rules.
Context {S : Type}.
Implicit Types (P : S -> Prop).

Lemma tri_ret {A} P (a : A) (Q : A -> S -> Prop) : (forall s, P s -> Q a s) -> tri P (mret a) Q.
Proof. intros H s Hs. exists a, s. split; [done|by apply H]. Qed.

Lemma tri_bind {A B} P (m : ST S A) (k : A -> ST S B) (R : A -> S -> Prop) Q :
  tri P m R -> (forall a, tri (R a) (k a) Q) -> tri P (mbind k m) Q.
Proof.
  intros Hm Hk s Hs. destruct (Hm s Hs) as (a & s1 & E & Hr).
  destruct (Hk a s1 Hr) as (b & s2 & E' & Hq). exists b, s2. split; [|done].
  unfold mbind, ST_bind. by rewrite E.
Qed.

Lemma tri_weaken {A} P P' (m : ST S A) (Q Q' : A -> S -> Prop) :
  tri P' m Q' -> (forall s, P s -> P' s) -> (forall a s, Q' a s -> Q a s) -> tri P m Q.
Proof. intros Hm HP HQ s Hs. destruct (Hm s (HP s Hs)) as (a & s' & E & Hq). exists a, s'. auto. Qed.

Lemma tri_get P (Q : S -> S -> Prop) : (forall s, P s -> Q s s) -> tri P sget Q.
Proof. intros H s Hs. exists s, s. auto. Qed.

Lemma tri_mod P f (Q : unit -> S -> Prop) : (forall s, P s -> Q tt (f s)) -> tri P (smod f) Q.
Proof. intros H s Hs. exists tt, (f s). auto. Qed.

Lemma tri_if {A} P (b : bool) (m1 m2 : ST S A) Q :
  (b = true -> tri P m1 Q) -> (b = false -> tri P m2 Q) -> tri P (if b then m1 else m2) Q.
Proof. destruct b; auto. Qed.

(** A fact about the state that is pure can be taken out of the precondition. *)
Lemma tri_pure {A} P (m : ST S A) Q (F : Prop) : (F -> tri P m Q) -> tri (fun s => P s /\ F) m Q.
Proof. intros H s [Hs HF]. by apply H. Qed.

(** The state the computation starts in can be named. *)
Lemma tri_start {A} P (m : ST S A) Q : (forall s0, P s0 -> tri (eq s0) m Q) -> tri P m Q.
Proof. intros H s Hs. by apply (H s Hs s). Qed.
End rules.

Lemma tri_zoom {S T A} (get : S -> T) set (P : T -> Prop) (P' : S -> Prop) (m : ST T A) Q (Q' : A -> S -> Prop) :
  tri P m Q -> (forall s, P' s -> P (get s)) -> (forall a s t, P' s -> Q a t -> Q' a (set t s)) ->
  tri P' (zoom get set m) Q'.
Proof.
  intros Hm HP HQ s Hs. destruct (Hm (get s) (HP s Hs)) as (a & t & E & Hq).
  exists a, (set t s). split; [|by apply HQ]. unfold zoom. by rewrite E.
Qed.

(** ** What no operation changes

    Partial correctness: nothing is said of a computation that faults. *)

(** From a state in [I], [m] can only return in [J]; it keeps [I] when [J] is [I]. *)
Definition ends {S A} (I J : S -> Prop) (m : ST S A) : Prop := forall s a s', I s -> m s = Some (a, s') -> J s'.
Notation keeps I m := (ends I I m).

Lemma ends_bind {S A B} (I K J : S -> Prop) (m : ST S A) (k : A -> ST S B) : ends I K m -> (forall a, ends K J (k a)) -> ends I J (mbind k m).
Proof.
  intros Hm Hk s b s' Hs E. unfold mbind, ST_bind in E. destruct (m s) as [[a s1]|] eqn:Em; [|done].
  eapply Hk; [|exact E]. by eapply Hm.
Qed.

Lemma ends_weaken {S A} (I J J' : S -> Prop) (m : ST S A) : ends I J m -> (forall s, J s -> J' s) -> ends I J' m.
Proof. intros Hm HJ s a s' Hs E. eapply HJ, Hm; done. Qed.

Section keeps.
Context {S : Type} (I : S -> Prop).

Lemma keeps_ret {A} (a : A) : keeps I (mret a).
Proof. intros s ? ? Hs [= <- <-]. done. Qed.

Lemma keeps_get : keeps I sget.
Proof. intros s ? ? Hs [= <- <-]. done. Qed.

Lemma keeps_fault {A} : keeps I (sfault : ST S A).
Proof. done. Qed.

Lemma keeps_bind {A B} (m : ST S A) (k : A -> ST S B) : keeps I m -> (forall a, keeps I (k a)) -> keeps I (mbind k m).
Proof. apply ends_bind. Qed.

Lemma keeps_each {A} (f : A -> ST S unit) l : (forall a, keeps I (f a)) -> keeps I (each f l).
Proof. intros Hf. induction l; [apply keeps_ret|]. apply keeps_bind; auto. Qed.

Lemma keeps_mod f : (forall s, I s -> I (f s)) -> keeps I (smod f).
Proof. intros H s ? ? Hs [= <- <-]. auto. Qed.

Lemma keeps_zoom {T A} get set (m : ST T A) : (forall t s, I s -> I (set t s)) -> keeps I (zoom get set m).
Proof. intros H s a s' Hs E. unfold zoom in E. destruct (m (get s)) as [[? ?]|]; [|done]. injection E as <- <-. auto. Qed.
End keeps.

(** The function that a term applies. *)
Ltac head t := match t with ?f _ => head f | _ => t end.
