(* ===== verification/Console.v ===== *)
(** The interface of the console: what ui/console.h promises to the log, the BASIC
    interpreter and the editor.

    Every character sent is also sent to the serial line, so that a console has a
    transcript, [con_text]; the laws say how each operation extends it.  Vterm
    implements the interface; [teletype] is the smallest implementation. *)

From S2P Require Import Prelude Effects.
Local Open Scope Z_scope.

(** A string literal as its bytes; '\n'. *)
Definition str (s : string) : list Z := (fun c => Z.of_nat (nat_of_ascii c)) <$> list_ascii_of_string s.
Definition NL : Z := 10.

(** The decimal digits of an unsigned value, as the conversion loops produce them. *)
Fixpoint dec_loop (fuel : nat) (val : Z) (acc : list Z) : list Z :=
  match fuel with
  | O => acc
  | S fuel => if 0 <? val then dec_loop fuel (val / 10) (48 + val mod 10 :: acc) else acc
  end.
(** Ten digits are enough for 32 bits. *)
Definition dec_text (val : Z) : list Z := if val =? 0 then [48] else dec_loop 10 val [].

Class Console (C : Type) := {
  console_putchar : Z -> ST C unit;
  console_write : list Z -> ST C unit;
  console_write_dec : Z -> ST C unit;
  console_set_color : Z -> Z -> ST C unit;
  console_clear : ST C unit
}.

Class ConsoleLaws (C : Type) `{Console C} := {
  con_ok : C -> Prop;
  con_text : C -> list Z;
  console_putchar_law t c :
    tri (fun s => con_ok s /\ con_text s = t) (console_putchar c) (fun _ s => con_ok s /\ con_text s = t ++ [c]);
  console_write_law t l :
    tri (fun s => con_ok s /\ con_text s = t) (console_write l) (fun _ s => con_ok s /\ con_text s = t ++ l);
  console_write_dec_law t v : is_u32 v ->
    tri (fun s => con_ok s /\ con_text s = t) (console_write_dec v) (fun _ s => con_ok s /\ con_text s = t ++ dec_text v);
  console_set_color_law t fg bg :
    tri (fun s => con_ok s /\ con_text s = t) (console_set_color fg bg) (fun _ s => con_ok s /\ con_text s = t);
  console_clear_law t :
    tri (fun s => con_ok s /\ con_text s = t) console_clear (fun _ s => con_ok s /\ con_text s = t)
}.

(** ** Reading a line

    The input is the list of characters that [keyboard_getchar] will return; the
    result is [None] while more are needed.  The loop of the BASIC prompt and that of
    the editor differ in the size of the line only.  [typed] is the line so far. *)
Fixpoint read_line {C} `{Console C} (size : nat) (input typed : list Z) : ST C (option (list Z * list Z)) :=
  match input with
  | [] => mret None
  | c :: input =>
      if c =? NL then _ ← console_putchar NL; mret (Some (typed, input))
      else if c =? 8 then
        if decide (typed = []) then read_line size input typed
        else
          _ ← console_putchar 8; _ ← console_putchar 32; _ ← console_putchar 8;
          read_line size input (removelast typed)
      else if ((32 <=? c) && (c <? 127)) && (length typed <? size - 1)%nat then
        _ ← console_putchar c; read_line size input (typed ++ [c])
      else read_line size input typed
  end.

(** Printable characters typed in a row, and the newline. *)
Definition printable (c : Z) : bool := (32 <=? c) && (c <? 127).

Lemma read_line_plain {C} `{ConsoleLaws C} size l rest typed (c : C) :
  con_ok c -> Forall (fun x => printable x = true) l -> (length typed + length l < size)%nat ->
  exists c', read_line size (l ++ NL :: rest) typed c = Some (Some (typed ++ l, rest), c') /\
    con_ok c' /\ con_text c' = con_text c ++ l ++ [NL].
Proof.
  intros Hc Hl. revert typed c Hc. induction Hl as [|x l Hx Hl IH]; intros typed c Hc Hsz.
  - cbn [read_line app]. change (NL =? NL) with true. cbv iota.
    destruct (console_putchar_law (con_text c) NL c) as ([] & c' & E & Hc' & Ht); [done|].
    exists c'. rewrite (run_bind _ _ _ _ _ E), app_nil_r. done.
  - cbn [length] in Hsz. assert (Hr : 32 <= x < 127) by (unfold printable in Hx; lia).
    cbn [read_line app]. replace (x =? NL) with false by (unfold NL; lia).
    replace (x =? 8) with false by lia.
    change ((32 <=? x) && (x <? 127)) with (printable x). rewrite Hx. replace (length typed <? size - 1)%nat with true by (symmetry; apply Nat.ltb_lt; lia).
    cbn [andb]. destruct (console_putchar_law (con_text c) x c) as ([] & c1 & E & Hc1 & Ht1); [done|].
    rewrite (run_bind _ _ _ _ _ E). cbv beta.
    destruct (IH (typed ++ [x]) c1 Hc1) as (c' & E' & Hc' & Ht'); [rewrite length_app; cbn [length]; lia|].
    exists c'. split; [by rewrite E', <- app_assoc|]. split; [done|]. by rewrite Ht', Ht1, <- !app_assoc.
Qed.

(** [console_write_hex] of ui/console.c, by two calls of [console_write]. *)
Fixpoint hex_digits (n : nat) (val : Z) (acc : list Z) : list Z :=
  match n with
  | O => acc
  | S n => let digit := Z.land val 15 in
           hex_digits n (Z.shiftr val 4) ((if digit <? 10 then 48 + digit else 65 + digit - 10) :: acc)
  end.
Definition hex_text (val : Z) : list Z := str "0x" ++ hex_digits 8 val [].
Definition console_write_hex {C} `{Console C} (val : Z) : ST C unit :=
  _ ← console_write (str "0x"); console_write (hex_digits 8 val []).

(** ** Computations that only print *)

Section printing.
Context {C : Type} `{ConsoleLaws C}.

(** From the transcript [t] the computation prints [l]. *)
Definition prints (m : ST C unit) (l : list Z) : Prop :=
  forall t, tri (fun c => con_ok c /\ con_text c = t) m (fun _ c => con_ok c /\ con_text c = t ++ l).

Lemma prints_write l : prints (console_write l) l.
Proof. intros t. apply console_write_law. Qed.
Lemma prints_putchar c : prints (console_putchar c) [c].
Proof. intros t. apply console_putchar_law. Qed.
Lemma prints_dec v : is_u32 v -> prints (console_write_dec v) (dec_text v).
Proof. intros Hv t. by apply console_write_dec_law. Qed.
Lemma prints_ret : prints (mret tt) [].
Proof. intros t. apply tri_ret. intros s. by rewrite app_nil_r. Qed.
Lemma prints_color fg bg : prints (console_set_color fg bg) [].
Proof. intros t. rewrite app_nil_r. apply console_set_color_law. Qed.
Lemma prints_clear : prints console_clear [].
Proof. intros t. rewrite app_nil_r. apply console_clear_law. Qed.
Lemma prints_bind m1 m2 l1 l2 : prints m1 l1 -> prints m2 l2 -> prints (_ ← m1; m2) (l1 ++ l2).
Proof.
  intros H1 H2 t. eapply tri_bind; [apply H1|]. intros []. rewrite app_assoc. apply H2.
Qed.
Lemma prints_if (b : bool) m1 m2 l1 l2 : prints m1 l1 -> prints m2 l2 -> prints (if b then m1 else m2) (if b then l1 else l2).
Proof. by destruct b. Qed.
Lemma prints_hex v : prints (console_write_hex v) (hex_text v).
Proof. apply prints_bind; apply prints_write. Qed.
Lemma prints_each {X} (f : X -> ST C unit) (g : X -> list Z) l :
  (forall x, x ∈ l -> prints (f x) (g x)) -> prints (each f l) (l ≫= g).
Proof.
  intros Hf. induction l as [|x l IH]; [apply prints_ret|]. cbn [each mbind list_bind].
  apply prints_bind; [apply Hf; by left|]. apply IH. intros y Hy. apply Hf. by right.
Qed.
Lemma prints_eq m l l' : prints m l -> l = l' -> prints m l'.
Proof. by intros Hm <-. Qed.

(** What it means for one run. *)
Lemma prints_run m l c : prints m l -> con_ok c -> exists c', m c = Some (tt, c') /\ con_ok c' /\ con_text c' = con_text c ++ l.
Proof. intros Hm Hc. destruct (Hm (con_text c) c) as ([] & c' & E & Hc'); [done|]. by exists c'. Qed.
End printing.

(** Prints a fixed sequence of calls; what is left are the facts about numbers. *)
Ltac prints :=
  repeat first [ apply prints_write | apply prints_putchar | apply prints_hex | apply prints_dec | apply prints_color
               | apply prints_clear | apply prints_ret | apply prints_if | apply prints_bind ].

(** ** Any console behaves like its transcript *)

Inductive con_op := CPut (c : Z) | CWrite (l : list Z) | CDec (v : Z) | CColor (fg bg : Z) | CClear.

Fixpoint run_ops {C} `{Console C} (ops : list con_op) : ST C unit :=
  match ops with
  | [] => mret tt
  | op :: ops =>
      _ ← match op with
          | CPut c => console_putchar c
          | CWrite l => console_write l
          | CDec v => console_write_dec v
          | CColor fg bg => console_set_color fg bg
          | CClear => console_clear
          end;
      run_ops ops
  end.

(** What the operations send. *)
Definition op_text (op : con_op) : list Z :=
  match op with CPut c => [c] | CWrite l => l | CDec v => dec_text v | CColor _ _ | CClear => [] end.
Definition op_ok (op : con_op) : Prop := match op with CDec v => is_u32 v | _ => True end.

Lemma run_ops_text {C} `{ConsoleLaws C} ops t :
  Forall op_ok ops ->
  tri (fun c => con_ok c /\ con_text c = t) (run_ops ops) (fun _ c => con_ok c /\ con_text c = t ++ (ops ≫= op_text)).
Proof.
  intros Hok. revert t. induction Hok as [|op ops Hop _ IH]; intros t; cbn [run_ops mbind list_bind].
  - apply tri_ret. intros c. by rewrite app_nil_r.
  - rewrite app_assoc. eapply (tri_bind _ _ _ (fun _ c => con_ok c /\ con_text c = t ++ op_text op)); [|intros []; apply IH].
    destruct op; cbn [op_text]; rewrite ?app_nil_r.
    + apply console_putchar_law.
    + apply console_write_law.
    + by apply console_write_dec_law.
    + apply console_set_color_law.
    + apply console_clear_law.
Qed.

(** ** Decimal text *)

Definition dec_value (l : list Z) : Z := foldl (fun v c => v * 10 + (c - 48)) 0 l.

Lemma dec_value_foldl v l : foldl (fun v c => v * 10 + (c - 48)) v l = v * 10 ^ Z.of_nat (length l) + dec_value l.
Proof.
  unfold dec_value. revert v. induction l as [|c l IH]; intros v; [simpl; lia|].
  cbn [foldl length]. rewrite IH, (IH (0 * 10 + _)), Nat2Z.inj_succ, Z.pow_succ_r by lia. lia.
Qed.

Lemma dec_value_cons c l : dec_value (c :: l) = (c - 48) * 10 ^ Z.of_nat (length l) + dec_value l.
Proof. unfold dec_value at 1. cbn [foldl]. rewrite dec_value_foldl. lia. Qed.

Lemma dec_loop_value fuel v acc :
  0 <= v < 10 ^ Z.of_nat fuel ->
  dec_value (dec_loop fuel v acc) = v * 10 ^ Z.of_nat (length acc) + dec_value acc.
Proof.
  revert v acc. induction fuel as [|fuel IH]; intros v acc Hv.
  - change (10 ^ Z.of_nat 0) with 1 in Hv. replace v with 0 by lia. by rewrite Z.mul_0_l.
  - rewrite Nat2Z.inj_succ, Z.pow_succ_r in Hv by lia. cbn [dec_loop]. zcases.
    + rewrite IH, dec_value_cons by zdm. cbn [length]. rewrite Nat2Z.inj_succ. rewrite (Z.pow_succ_r 10 (Z.of_nat (length acc))) by apply Nat2Z.is_nonneg.
      pose proof (Z.div_mod v 10 ltac:(lia)) as Hd. revert Hd.
      generalize (v / 10), (v mod 10), (10 ^ Z.of_nat (length acc)). intros q r P ->. ring.
    + replace v with 0 by lia. lia.
Qed.

(** The text of a 32-bit value reads back as the value. *)
Lemma dec_text_value v : is_u32 v -> dec_value (dec_text v) = v.
Proof.
  intros Hv. unfold dec_text. destruct (Z.eqb_spec v 0) as [->|]; [done|].
  rewrite dec_loop_value; [cbn; lia|]. change (10 ^ Z.of_nat 10) with 10000000000. unfold is_u32 in Hv. lia.
Qed.

(** ** A console that is its transcript *)

Definition teletype : Type := list Z.

#[export] Instance teletype_console : Console teletype := {|
  console_putchar c := smod (fun t => t ++ [c]);
  console_write l := smod (fun t => t ++ l);
  console_write_dec v := smod (fun t => t ++ dec_text v);
  console_set_color _ _ := mret tt;
  console_clear := mret tt
|}.

#[export, refine] Instance teletype_laws : ConsoleLaws teletype := {| con_ok _ := True; con_text t := t |}.
Proof.
  - intros t c. apply tri_mod. by intros s [_ ->].
  - intros t l. apply tri_mod. by intros s [_ ->].
  - intros t v _. apply tri_mod. by intros s [_ ->].
  - intros t fg bg. by apply tri_ret.
  - intros t. by apply tri_ret.
Defined.
