(* ===== verification/Log.v ===== *)
(** lib/log.c: the kernel log.

    A ring of 128 entries.  [entries] is the abstract state, the entries in the
    order they were written, and every operation is described by it.  The
    timestamp that [log_write] takes from [timer_get_ticks] is an argument of the
    model.  [log_dump] prints through the Console interface; [format_log_message]
    is modelled with its arguments as a list of tagged values. *)

From S2P Require Import Prelude Ring Mem CString Effects Console.
Local Open Scope Z_scope.

(** ** Definitions *)

Definition LOG_MAX_ENTRIES : Z := 128.
Definition LOG_MAX_MSG_LEN : nat := 128.
Definition LOG_LEVEL_DEBUG : Z := 0.
Definition LOG_LEVEL_INFO : Z := 1.
Definition LOG_LEVEL_WARN : Z := 2.
Definition LOG_LEVEL_ERROR : Z := 3.

Record log_entry := LogEntry { timestamp : Z; level : Z; message : list Z }.
Definition zero_entry : log_entry := LogEntry 0 0 [].

Record log := Log { log_buffer : list log_entry; log_head : Z; log_count : Z }.

Definition log_init : log := Log (replicate (Z.to_nat LOG_MAX_ENTRIES) zero_entry) 0 0.
Definition log_clear : log := Log (replicate (Z.to_nat LOG_MAX_ENTRIES) zero_entry) 0 0.

(** [None] when [log_head] is outside the ring.  A NULL message is [None] in [msg]. *)
Definition log_write (now level : Z) (msg : option (list Z)) (s : log) : option log :=
  match msg with
  | None => Some s
  | Some msg =>
      if (0 <=? log_head s) && (log_head s <? Z.of_nat (length (log_buffer s))) then
        let entry := LogEntry now level (take (LOG_MAX_MSG_LEN - 1) msg) in
        Some (Log (<[Z.to_nat (log_head s) := entry]> (log_buffer s))
                  (u32 (log_head s + 1) mod LOG_MAX_ENTRIES)
                  (if log_count s <? LOG_MAX_ENTRIES then u32 (log_count s + 1) else log_count s))
      else None
  end.

Definition log_debug now msg := log_write now LOG_LEVEL_DEBUG msg.
Definition log_info now msg := log_write now LOG_LEVEL_INFO msg.
Definition log_warn now msg := log_write now LOG_LEVEL_WARN msg.
Definition log_error now msg := log_write now LOG_LEVEL_ERROR msg.

Definition log_get_count (s : log) : Z := log_count s.

(** NULL is [None]. *)
Definition log_get_entry (index : Z) (s : log) : option log_entry :=
  if log_count s <=? index then None else
  let actual_idx := if log_count s <? LOG_MAX_ENTRIES then index else u32 (log_head s + index) mod LOG_MAX_ENTRIES in
  log_buffer s !! Z.to_nat actual_idx.

Definition level_str (level : Z) : list Z :=
  if level =? LOG_LEVEL_DEBUG then str "DBG" else
  if level =? LOG_LEVEL_INFO then str "INF" else
  if level =? LOG_LEVEL_WARN then str "WRN" else
  if level =? LOG_LEVEL_ERROR then str "ERR" else str "???".

(** The console colours that are used here. *)
Definition VGA_BLACK : Z := 0.
Definition VGA_LIGHT_GREY : Z := 7.
Definition VGA_LIGHT_GREEN : Z := 10.
Definition VGA_LIGHT_RED : Z := 12.
Definition VGA_LIGHT_BROWN : Z := 14.

(** The colour a level selects, if any. *)
Definition level_color (level : Z) : option Z :=
  if level =? LOG_LEVEL_DEBUG then Some VGA_LIGHT_GREY else
  if level =? LOG_LEVEL_INFO then Some VGA_LIGHT_GREEN else
  if level =? LOG_LEVEL_WARN then Some VGA_LIGHT_BROWN else
  if level =? LOG_LEVEL_ERROR then Some VGA_LIGHT_RED else None.

Section dump.
Context {C : Type} `{Console C}.

Definition print_entry (e : log_entry) : ST C unit :=
  let secs := timestamp e / 100 in
  let ms := (timestamp e mod 100) * 10 in
  _ ← console_write (str "["); _ ← console_write_dec secs; _ ← console_write (str ".");
  _ ← (if ms <? 100 then console_write (str "0") else mret tt);
  _ ← (if ms <? 10 then console_write (str "0") else mret tt);
  _ ← console_write_dec ms; _ ← console_write (str "] ");
  _ ← match level_color (level e) with Some c => console_set_color c VGA_BLACK | None => mret tt end;
  _ ← console_write (level_str (level e));
  _ ← console_set_color VGA_LIGHT_GREY VGA_BLACK;
  _ ← console_write (str " "); _ ← console_write (message e); console_write [NL].

(** The loop of [log_dump]; [n] entries are left from [i]. *)
Fixpoint dump_loop (n : nat) (i : Z) (s : log) : ST C unit :=
  match n with
  | O => mret tt
  | S n =>
      _ ← match log_get_entry i s with None => mret tt | Some e => print_entry e end;
      dump_loop n (i + 1) s
  end.

Definition log_dump (s : log) : ST C unit :=
  if log_count s =? 0 then console_write (str "Log is empty" ++ [NL]) else
  _ ← console_write (str "=== System Log ===" ++ [NL]);
  _ ← dump_loop (Z.to_nat (log_count s)) 0 s;
  console_write (str "==================" ++ [NL]).
End dump.

(** ** Formatted messages *)

(** An argument of a variadic call: an [int] or [uint32_t], or a string that may
    be NULL. *)
Inductive log_arg := AInt (v : Z) | AStr (s : option (list Z)).

(** The decimal width; [None] when it overflows [int]. *)
Fixpoint parse_width (fmt : list Z) (width : Z) : option (Z * list Z) :=
  match fmt with
  | c :: rest =>
      if (48 <=? c) && (c <=? 57) then
        let width := width * 10 + (c - 48) in
        if 2147483647 <? width then None else parse_width rest width
      else Some (width, fmt)
  | [] => Some (width, [])
  end.

(** What the characters after a '%' stand for: the text, the rest of the format
    and of the arguments.  [None] when the C code reads past the end of the format,
    takes an argument of another type, or overruns [tmp]. *)
Definition directive (fmt : list Z) (args : list log_arg) : option (list Z * list Z * list log_arg) :=
  let fmt := match fmt with c :: rest => if c =? 48 then rest else fmt | [] => [] end in
  '(width, fmt) ← parse_width fmt 0;
  match fmt with
  | [] => None
  | c :: fmt =>
      if (c =? 100) || (c =? 117) then                                   (* d, u *)
        match args with
        | AInt v :: args => Some (reverse (str_pad_temp (i32 v) (if 0 <? width then width else 1)), fmt, args)
        | _ => None
        end
      else if c =? 120 then                                              (* x *)
        match args with
        | AInt v :: args =>
            let width := if 0 <? width then width else 8 in
            if 16 <=? width then None else Some (hex_string (Z.to_nat width) (u32 v), fmt, args)
        | _ => None
        end
      else if c =? 115 then                                              (* s *)
        match args with AStr s :: args => Some (default [] s, fmt, args) | _ => None end
      else Some ([c], fmt, args)
  end.

(** The loop of [format_log_message]; [room] is [end - ptr]. *)
Fixpoint format_loop (fuel : nat) (room : nat) (fmt : list Z) (args : list log_arg) : option (list Z) :=
  match fuel with
  | O => None
  | S fuel =>
      match room, fmt with
      | O, _ | _, [] => Some []
      | S room', c :: rest =>
          if (c =? 37) && bool_decide (rest <> []) then                  (* % *)
            '(text, rest, args) ← directive rest args;
            let out := take room text in
            more ← format_loop fuel (room - length out) rest args;
            Some (out ++ more)
          else more ← format_loop fuel room' rest args; Some (c :: more)
      end
  end.

(** The string left in a buffer of [buffer_size] bytes. *)
Definition format_log_message (buffer_size : nat) (fmt : list Z) (args : list log_arg) : option (list Z) :=
  format_loop (S (length fmt)) (buffer_size - 1) fmt args.

Definition log_info_fmt now fmt args (s : log) : option log :=
  buffer ← format_log_message LOG_MAX_MSG_LEN fmt args; log_info now (Some buffer) s.
Definition log_warn_fmt now fmt args (s : log) : option log :=
  buffer ← format_log_message LOG_MAX_MSG_LEN fmt args; log_warn now (Some buffer) s.
Definition log_error_fmt now fmt args (s : log) : option log :=
  buffer ← format_log_message LOG_MAX_MSG_LEN fmt args; log_error now (Some buffer) s.

(** ** Specification *)

(** The entries, oldest first. *)
Definition entries (s : log) : list log_entry := ring_entries LOG_MAX_ENTRIES (log_buffer s) (log_head s) (log_count s).
Definition log_wf (s : log) : Prop := ring_wf LOG_MAX_ENTRIES (log_buffer s) (log_head s) (log_count s).

(** The text that [log_dump] prints for an entry. *)
Definition entry_text (e : log_entry) : list Z :=
  let ms := (timestamp e mod 100) * 10 in
  str "[" ++ dec_text (timestamp e / 100) ++ str "." ++
  (if ms <? 100 then str "0" else []) ++ (if ms <? 10 then str "0" else []) ++ dec_text ms ++ str "] " ++
  level_str (level e) ++ str " " ++ message e ++ [NL].

(** The text a format and its arguments stand for, without a buffer. *)
Inductive renders : list Z -> list log_arg -> list Z -> Prop :=
| renders_nil args : renders [] args []
| renders_char c rest args text :
    c <> 37 \/ rest = [] -> renders rest args text -> renders (c :: rest) args (c :: text)
| renders_directive fmt args fmt' args' text more :
    fmt <> [] -> directive fmt args = Some (text, fmt', args') -> renders fmt' args' more ->
    renders (37 :: fmt) args (text ++ more).

(** ** The ring *)

Lemma log_init_wf : log_wf log_init.
Proof. by split. Qed.

Lemma length_entries s : log_wf s -> length (entries s) = Z.to_nat (log_count s).
Proof. apply length_ring. Qed.

Lemma log_write_spec now lv msg s :
  log_wf s -> exists s', log_write now lv (Some msg) s = Some s' /\ log_wf s' /\
    entries s' = last_n (Z.to_nat LOG_MAX_ENTRIES) (entries s ++ [LogEntry now lv (take (LOG_MAX_MSG_LEN - 1) msg)]).
Proof.
  intros Hw. pose proof (ring_push LOG_MAX_ENTRIES _ _ _ (LogEntry now lv (take (LOG_MAX_MSG_LEN - 1) msg)) ltac:(done) Hw) as [Hw' He].
  unfold log_write. destruct Hw as [Hl Hh _ _]. replace ((0 <=? log_head s) && _) with true by (unfold LOG_MAX_ENTRIES in *; lia).
  eexists. split; [reflexivity|]. by split.
Qed.

Lemma log_get_entry_spec i s : log_wf s -> 0 <= i -> log_get_entry i s = entries s !! Z.to_nat i.
Proof.
  intros Hw Hi. pose proof (length_entries s Hw) as He. unfold log_get_entry. destruct (Z.leb_spec (log_count s) i).
  { symmetry. apply lookup_ge_None_2. lia. }
  unfold entries. rewrite (ring_lookup LOG_MAX_ENTRIES) by (done || lia). destruct Hw as [_ Hh Hc _]. unfold LOG_MAX_ENTRIES in *.
  by rewrite u32_small by lia.
Qed.

(** ** Printing *)

Section printing.
Context {C : Type} `{ConsoleLaws C}.

Lemma print_entry_prints e : is_u32 (timestamp e) -> prints (print_entry e) (entry_text e).
Proof.
  intros Ht. unfold print_entry, entry_text, is_u32 in *. cbv zeta.
  apply prints_bind; [apply prints_write|].
  apply prints_bind; [apply prints_dec; unfold is_u32; zdm|].
  apply prints_bind; [apply prints_write|].
  apply prints_bind; [apply prints_if; [apply prints_write|apply prints_ret]|].
  apply prints_bind; [apply prints_if; [apply prints_write|apply prints_ret]|].
  apply prints_bind; [apply prints_dec; unfold is_u32; zdm|].
  apply prints_bind; [apply prints_write|].
  change (level_str (level e) ++ _) with ([] ++ level_str (level e) ++ str " " ++ message e ++ [NL]).
  apply prints_bind; [destruct (level_color (level e)); [apply prints_color|apply prints_ret]|].
  apply prints_bind; [apply prints_write|].
  change (str " " ++ _) with ([] ++ str " " ++ message e ++ [NL]).
  apply prints_bind; [apply prints_color|].
  apply prints_bind; [apply prints_write|].
  apply prints_bind; apply prints_write.
Qed.

Lemma dump_loop_prints n i s :
  log_wf s -> 0 <= i -> i + Z.of_nat n <= log_count s -> Forall (fun e => is_u32 (timestamp e)) (entries s) ->
  prints (dump_loop n i s) (take n (drop (Z.to_nat i) (entries s)) ≫= entry_text).
Proof.
  intros Hw Hi Hn Ht. revert i Hi Hn. induction n as [|n IH]; intros i Hi Hn; [apply prints_ret|].
  cbn [dump_loop]. rewrite log_get_entry_spec by done.
  destruct (lookup_lt_is_Some_2 (entries s) (Z.to_nat i)) as [e He]; [rewrite length_entries by done; lia|].
  rewrite He, (drop_S _ _ _ He). cbn [take mbind list_bind].
  apply prints_bind; [apply print_entry_prints; by apply (Forall_lookup_1 _ _ _ _ Ht He)|].
  replace (S (Z.to_nat i)) with (Z.to_nat (i + 1)) by lia. apply IH; lia.
Qed.
End printing.

(** ** Formatting *)

Lemma parse_width_length fmt w w' rest : parse_width fmt w = Some (w', rest) -> (length rest <= length fmt)%nat.
Proof.
  revert w. induction fmt as [|c fmt IH]; intros w; cbn [parse_width]; [by intros [= <- <-]|].
  destruct ((48 <=? c) && (c <=? 57)); [|by intros [= <- <-]].
  destruct (2147483647 <? _); [done|]. intros Hp. apply IH in Hp. simpl. lia.
Qed.

Lemma directive_length fmt args text rest args' :
  directive fmt args = Some (text, rest, args') -> (length rest < length fmt)%nat \/ fmt = [].
Proof.
  unfold directive. destruct fmt as [|c0 fmt0]; [by right|]. left. revert H.
  set (f := if c0 =? 48 then fmt0 else c0 :: fmt0).
  assert (length f <= length (c0 :: fmt0))%nat by (unfold f; destruct (c0 =? 48); simpl; lia).
  destruct (parse_width f 0) as [[w g]|] eqn:Ew; [|done]. apply parse_width_length in Ew.
  cbn [mbind option_bind]. destruct g as [|c g]; [done|]. intros H1.
  assert (rest = g) as ->; [|simpl in *; lia].
  repeat (case_match; simplify_eq/=; try done).
Qed.

(** The loop stores what fits of the rendered text. *)
Lemma format_loop_renders fmt args text :
  renders fmt args text -> forall fuel room, (length fmt < fuel)%nat ->
  format_loop fuel room fmt args = Some (take room text).
Proof.
  induction 1 as [args|c rest args text Hc _ IH|fmt args fmt' args' text more Hne Hd _ IH];
    intros fuel room Hf; (destruct fuel as [|fuel]; [lia|]); cbn [format_loop]; destruct room as [|room]; try done.
  - replace ((c =? 37) && bool_decide (rest <> [])) with false.
    2: { destruct Hc as [Hc| ->]; [replace (c =? 37) with false by lia; done|by rewrite andb_false_r]. }
    rewrite IH by (simpl in Hf; lia). done.
  - rewrite bool_decide_eq_true_2 by done. cbn [andb Z.eqb Pos.eqb]. rewrite Hd. cbn [mbind option_bind].
    destruct (directive_length _ _ _ _ _ Hd) as [Hl|]; [|done].
    rewrite IH by (simpl in Hf; lia). cbn [mbind option_bind]. f_equal.
    rewrite take_app, length_take. f_equal. f_equal. lia.
Qed.

(** ** Properties *)

(** The entry a call of [log_write] records, and a sequence of calls. *)
Definition record (w : Z * Z * list Z) : log_entry :=
  LogEntry (fst (fst w)) (snd (fst w)) (take (LOG_MAX_MSG_LEN - 1) (snd w)).
Fixpoint write_all (ws : list (Z * Z * list Z)) (s : log) : option log :=
  match ws with
  | [] => Some s
  | w :: ws => s ← log_write (fst (fst w)) (snd (fst w)) (Some (snd w)) s; write_all ws s
  end.

Lemma write_all_spec ws s :
  log_wf s -> exists s', write_all ws s = Some s' /\ log_wf s' /\
    entries s' = last_n (Z.to_nat LOG_MAX_ENTRIES) (entries s ++ (record <$> ws)).
Proof.
  revert s. induction ws as [|w ws IH]; intros s Hw; cbn [write_all].
  - exists s. split; [done|]. split; [done|]. rewrite app_nil_r, last_n_all; [done|].
    rewrite length_entries by done. destruct Hw; lia.
  - destruct (log_write_spec (fst (fst w)) (snd (fst w)) (snd w) s Hw) as (s1 & -> & Hw1 & He1).
    destruct (IH s1 Hw1) as (s2 & E & Hw2 & He2). exists s2. cbn [mbind option_bind]. split; [done|]. split; [done|].
    rewrite He2, He1, last_n_app, <- app_assoc. done.
Qed.

(** the log is the list of the last 128 messages.  After any sequence of calls
    of [log_write] the count and [log_get_entry] describe the last 128 records, in
    the order they were written, each message cut at 127 characters. *)
Theorem log_keeps_last_entries ws :
  exists s, write_all ws log_init = Some s /\
    log_get_count s = Z.min (Z.of_nat (length ws)) LOG_MAX_ENTRIES /\
    forall i, 0 <= i -> log_get_entry i s = last_n (Z.to_nat LOG_MAX_ENTRIES) (record <$> ws) !! Z.to_nat i.
Proof.
  destruct (write_all_spec ws log_init log_init_wf) as (s & E & Hw & He). exists s. split; [done|].
  change (entries log_init ++ (record <$> ws)) with (record <$> ws) in He. split.
  - pose proof (length_entries s Hw) as Hl. rewrite He, length_last_n, length_fmap in Hl.
    pose proof (rw_count _ _ _ _ Hw). unfold log_get_count, LOG_MAX_ENTRIES in *. lia.
  - intros i Hi. by rewrite log_get_entry_spec, He.
Qed.

Lemma log_keeps_last_entries_witness : exists s, write_all [(5, 1, str "a"); (7, 2, str "b")] log_init = Some s /\
  log_get_entry 1 s = Some (LogEntry 7 2 (str "b")).
Proof.
  destruct (log_keeps_last_entries [(5, 1, str "a"); (7, 2, str "b")]) as (s & E & _ & Hi).
  exact (ex_intro _ s (conj E (Hi 1 ltac:(lia)))).
Defined.

(** [log_dump] prints the entries from the oldest to the newest, one line each,
    between the two rules, and leaves the console in order. *)
Theorem log_dump_prints {C : Type} `{ConsoleLaws C} s c :
  log_wf s -> log_count s <> 0 -> Forall (fun e => is_u32 (timestamp e)) (entries s) -> con_ok c ->
  exists c', log_dump s c = Some (tt, c') /\ con_ok c' /\
    con_text c' = con_text c ++ str "=== System Log ===" ++ [NL] ++ (entries s ≫= entry_text) ++
                  str "==================" ++ [NL].
Proof.
  intros Hw Hc Ht Hok. unfold log_dump. replace (log_count s =? 0) with false by lia.
  assert (Hp : prints (_ ← console_write (str "=== System Log ===" ++ [NL]);
    _ ← dump_loop (Z.to_nat (log_count s)) 0 s; console_write (str "==================" ++ [NL]))
    ((str "=== System Log ===" ++ [NL]) ++
     (take (Z.to_nat (log_count s)) (drop (Z.to_nat 0) (entries s)) ≫= entry_text) ++ str "==================" ++ [NL])).
  { apply prints_bind; [apply prints_write|]. apply prints_bind; [|apply prints_write].
    pose proof (rw_count _ _ _ _ Hw). apply dump_loop_prints; (done || lia). }
  destruct (Hp (con_text c) c) as ([] & c' & E & Hok' & Ht'); [done|]. exists c'. split; [exact E|]. split; [done|].
  rewrite Ht', drop_0, take_ge by (rewrite length_entries by done; lia). by rewrite <- !app_assoc.
Qed.

Definition two_entries : log := default log_init (write_all [(1234, 1, str "up"); (1300, 3, str "bad")] log_init).

Lemma two_entries_wf : log_wf two_entries.
Proof. destruct (write_all_spec [(1234, 1, str "up"); (1300, 3, str "bad")] log_init log_init_wf) as (s & E & Hw & _).
  unfold two_entries. by rewrite E. Qed.

Lemma log_dump_prints_witness : exists c', log_dump two_entries ([] : teletype) = Some (tt, c') /\ con_ok c' /\
  c' = str "=== System Log ===" ++ [NL] ++ (entries two_entries ≫= entry_text) ++ str "==================" ++ [NL].
Proof.
  assert (Hc : log_count two_entries <> 0) by (vm_compute; discriminate).
  assert (Ht : Forall (fun e => is_u32 (timestamp e)) (entries two_entries)).
  { change (entries two_entries) with [LogEntry 1234 1 (str "up"); LogEntry 1300 3 (str "bad")].
    repeat constructor; discriminate. }
  exact (log_dump_prints two_entries ([] : teletype) two_entries_wf Hc Ht I).
Defined.

Example two_entries_dump : snd <$> log_dump two_entries ([] : teletype) = Some
  (str "=== System Log ===" ++ NL :: str "[12.340] INF up" ++ NL :: str "[13.000] ERR bad" ++ NL ::
   str "==================" ++ [NL]).
Proof. vm_compute. reflexivity. Qed.

(** C35: [format_log_message] stores exactly the part of the rendered text that fits
    its buffer, whatever the format: it is equivalent to rendering without bound
    and truncating, and the terminator is inside the buffer. *)
Theorem format_log_message_truncates buffer_size fmt args text :
  renders fmt args text -> (0 < buffer_size)%nat ->
  format_log_message buffer_size fmt args = Some (take (buffer_size - 1) text) /\
  (length (take (buffer_size - 1) text) < buffer_size)%nat.
Proof.
  intros Hr Hb. split; [by apply format_loop_renders; [|lia]|]. rewrite length_take. lia.
Qed.

Lemma drive_renders : renders (str "Drive %d") [AInt 12] (str "Drive 12").
Proof.
  repeat (apply renders_char; [left; discriminate|]).
  apply (renders_directive (str "d") [AInt 12] [] [] (str "12") []); [discriminate|reflexivity|constructor].
Qed.

Lemma format_log_message_truncates_witness :
  format_log_message 8 (str "Drive %d") [AInt 12] = Some (str "Drive 1").
Proof.
  exact (proj1 (format_log_message_truncates 8 (str "Drive %d") [AInt 12] (str "Drive 12") drive_renders ltac:(lia))).
Defined.

(** [%X] is not a directive: elf.c prints "0xX" for every address. *)
Example percent_X : format_log_message 128 (str "entry 0x%X") [AInt 4096] = Some (str "entry 0xX").
Proof. vm_compute. reflexivity. Qed.

(** A negative [%d] prints nothing, padded with zeros. *)
Example percent_d_negative : format_log_message 128 (str "code %d") [AInt (-5)] = Some (str "code 0").
Proof. vm_compute. reflexivity. Qed.
