(* ===== verification/Vterm.v ===== *)
(** ui/vterm.c, ui/console.c and drivers/char/serial.c: the virtual terminals and
    the console on top of them.

    Four terminals of 200 lines, one of them on the screen.  A pointer to a
    terminal is its index, NULL is [None]; the state [tty] also holds the VGA
    memory, the ports written, the serial line and the kernel log.  An access
    outside an array is a fault ([None]).  The polling of the UART is not
    modelled: a byte written to it is sent.  The last section implements the
    Console interface. *)

From S2P Require Import Prelude Ring Codec Effects Console Log.
Local Open Scope Z_scope.

(** ** The serial line *)

Definition SERIAL_BUFFER_SIZE : Z := 256.

(** What waits in [serial_buffer] ([serial_buf_pos] is its length) and what was sent. *)
Record serial := Serial { serial_buffer : list Z; sent : list Z }.

Definition serial_flush_buffer (s : serial) : serial := Serial [] (sent s ++ serial_buffer s).
Definition serial_write (c : Z) (s : serial) : option serial :=
  if Z.of_nat (length (serial_buffer s)) <? SERIAL_BUFFER_SIZE then
    let s := Serial (serial_buffer s ++ [c]) (sent s) in
    Some (if (SERIAL_BUFFER_SIZE <=? Z.of_nat (length (serial_buffer s))) || (c =? NL)
          then serial_flush_buffer s else s)
  else None.
Fixpoint serial_write_str (l : list Z) (s : serial) : option serial :=
  match l with [] => Some s | c :: l => s ← serial_write c s; serial_write_str l s end.
Definition serial_flush (s : serial) : serial :=
  if 0 <? Z.of_nat (length (serial_buffer s)) then serial_flush_buffer s else s.

(** ** A terminal *)

Definition VTERM_MAX_COUNT : Z := 4.
Definition VTERM_WIDTH : Z := 80.
Definition VTERM_HEIGHT : Z := 25.
Definition VTERM_SCROLLBACK : Z := 200.
Definition VTERM_BUFFER_SIZE : Z := VTERM_WIDTH * VTERM_SCROLLBACK.
Definition VTERM_VISIBLE_SIZE : Z := VTERM_WIDTH * VTERM_HEIGHT.

Record vterm := Vterm {
  buffer : list Z;
  cursor_row : Z;
  cursor_col : Z;
  scroll_offset : Z;
  total_lines : Z;
  color : Z;
  owner_pid : Z;
  active : bool;
  vname : list Z
}.

Definition vga_entry_color (fg bg : Z) : Z := u8 (Z.lor fg (Z.shiftl bg 4)).
Definition vga_entry (c color : Z) : Z := Z.lor c (u16 (Z.shiftl color 8)).

Definition set_buffer (t : vterm) b := Vterm b (cursor_row t) (cursor_col t) (scroll_offset t) (total_lines t) (color t) (owner_pid t) (active t) (vname t).
Definition set_row (t : vterm) r := Vterm (buffer t) r (cursor_col t) (scroll_offset t) (total_lines t) (color t) (owner_pid t) (active t) (vname t).
Definition set_col (t : vterm) c := Vterm (buffer t) (cursor_row t) c (scroll_offset t) (total_lines t) (color t) (owner_pid t) (active t) (vname t).
Definition set_offset (t : vterm) o := Vterm (buffer t) (cursor_row t) (cursor_col t) o (total_lines t) (color t) (owner_pid t) (active t) (vname t).
Definition set_total (t : vterm) n := Vterm (buffer t) (cursor_row t) (cursor_col t) (scroll_offset t) n (color t) (owner_pid t) (active t) (vname t).
Definition set_color (t : vterm) k := Vterm (buffer t) (cursor_row t) (cursor_col t) (scroll_offset t) (total_lines t) k (owner_pid t) (active t) (vname t).
Definition set_owner (t : vterm) p := Vterm (buffer t) (cursor_row t) (cursor_col t) (scroll_offset t) (total_lines t) (color t) p (active t) (vname t).
Definition set_active (t : vterm) a := Vterm (buffer t) (cursor_row t) (cursor_col t) (scroll_offset t) (total_lines t) (color t) (owner_pid t) a (vname t).

(** An element of an array, and its update; a fault outside. *)
Definition aget (l : list Z) (i : Z) : option Z := if i <? 0 then None else l !! Z.to_nat i.
Definition aset (l : list Z) (i v : Z) : option (list Z) :=
  if (0 <=? i) && (i <? Z.of_nat (length l)) then Some (<[Z.to_nat i := v]> l) else None.

(** A counted loop whose body can fault. *)
Definition for_opt {A} (a n : Z) (f : A -> Z -> option A) (s : A) : option A :=
  for_range a n (fun o i => s ← o; f s i) (Some s).

Definition vterm_scroll (t : vterm) : option vterm :=
  b ← for_opt 0 (VTERM_SCROLLBACK - 1) (fun b y =>
        for_opt 0 VTERM_WIDTH (fun b x =>
          v ← aget b ((y + 1) * VTERM_WIDTH + x); aset b (y * VTERM_WIDTH + x) v) b) (buffer t);
  b ← for_opt 0 VTERM_WIDTH (fun b x =>
        aset b ((VTERM_SCROLLBACK - 1) * VTERM_WIDTH + x) (vga_entry 32 (color t))) b;
  let t := set_buffer t b in
  let t := if total_lines t <? VTERM_SCROLLBACK then set_total t (u32 (total_lines t + 1)) else t in
  Some (set_offset (set_row t (VTERM_SCROLLBACK - 1)) 0).

(** [if (++vt->cursor_row >= VTERM_SCROLLBACK) vterm_scroll(vt);] *)
Definition next_row (t : vterm) : option vterm :=
  let t := set_row t (u32 (cursor_row t + 1)) in
  if VTERM_SCROLLBACK <=? cursor_row t then vterm_scroll t else Some t.
Definition count_line (t : vterm) : vterm :=
  if total_lines t <? u32 (cursor_row t + 1) then set_total t (u32 (cursor_row t + 1)) else t.
Definition put_cell (t : vterm) (v : Z) : option vterm :=
  set_buffer t <$> aset (buffer t) (cursor_row t * VTERM_WIDTH + cursor_col t) v.

(** [vterm_putchar_internal] on the terminal itself. *)
Definition type_char (t : vterm) (c : Z) : option vterm :=
  let t := set_offset t 0 in
  if c =? 10 then t ← next_row (set_col t 0); Some (count_line t)
  else if c =? 13 then Some (set_col t 0)
  else if c =? 8 then
    if 0 <? cursor_col t then
      let t := set_col t (cursor_col t - 1) in put_cell t (vga_entry 32 (color t))
    else Some t
  else if c =? 9 then
    let t := set_col t (Z.land (u32 (cursor_col t + 8)) (not32 7)) in
    if VTERM_WIDTH <=? cursor_col t then next_row (set_col t 0) else Some t
  else if (32 <=? c) && (c <? 127) then
    t ← put_cell t (vga_entry c (color t));
    let t := set_col t (cursor_col t + 1) in
    t ← (if VTERM_WIDTH <=? cursor_col t then next_row (set_col t 0) else Some t);
    Some (count_line t)
  else Some t.

(** [current_view_end], and the rows that can be scrolled back over. *)
Definition view_end (t : vterm) : Z :=
  if u32 (cursor_row t + 1) <? VTERM_HEIGHT then VTERM_HEIGHT else u32 (cursor_row t + 1).
Definition max_offset (t : vterm) : Z := if VTERM_HEIGHT <? view_end t then view_end t - VTERM_HEIGHT else 0.

(** ** All terminals *)

Record tty := Tty {
  terminals : list vterm;
  active_terminal : Z;
  vga_buffer : list Z;
  ports : list (Z * Z);
  alt_pressed : bool;
  uart : serial;
  klog : log;
  ticks : Z
}.

Definition put_terminals s x := Tty x (active_terminal s) (vga_buffer s) (ports s) (alt_pressed s) (uart s) (klog s) (ticks s).
Definition put_active s x := Tty (terminals s) x (vga_buffer s) (ports s) (alt_pressed s) (uart s) (klog s) (ticks s).
Definition put_vga s x := Tty (terminals s) (active_terminal s) x (ports s) (alt_pressed s) (uart s) (klog s) (ticks s).
Definition put_ports s x := Tty (terminals s) (active_terminal s) (vga_buffer s) x (alt_pressed s) (uart s) (klog s) (ticks s).
Definition put_alt s x := Tty (terminals s) (active_terminal s) (vga_buffer s) (ports s) x (uart s) (klog s) (ticks s).
Definition put_uart s x := Tty (terminals s) (active_terminal s) (vga_buffer s) (ports s) (alt_pressed s) x (klog s) (ticks s).
Definition put_klog s x := Tty (terminals s) (active_terminal s) (vga_buffer s) (ports s) (alt_pressed s) (uart s) x (ticks s).

Definition T (A : Type) : Type := ST tty A.

(** A terminal, and its update. *)
Definition term (i : Z) : T vterm := s ← sget; sopt (if i <? 0 then None else terminals s !! Z.to_nat i).
Definition on_term (i : Z) (f : vterm -> option vterm) : T unit :=
  t ← term i; t ← sopt (f t); smod (fun s => put_terminals s (<[Z.to_nat i := t]> (terminals s))).
Definition outb (port v : Z) : T unit := smod (fun s => put_ports s (ports s ++ [(port, v)])).
Definition tty_serial (c : Z) : T unit :=
  s ← sget; u ← sopt (serial_write c (uart s)); smod (fun s => put_uart s u).
Definition tty_log (msg : list Z) : T unit :=
  s ← sget; l ← sopt (log_info (ticks s) (Some msg) (klog s)); smod (fun s => put_klog s l).

Definition vterm_get (id : Z) : option Z := if VTERM_MAX_COUNT <=? id then None else Some id.
Definition vterm_get_active : T (option Z) := s ← sget; mret (Some (active_terminal s)).
Definition vterm_get_active_id : T Z := s ← sget; mret (active_terminal s).

(** The offset as [vterm_refresh] corrects it, and where the view starts when it
    follows the cursor and when it is scrolled back. *)
Definition clamp_offset (t : vterm) : vterm :=
  if scroll_offset t =? 0 then t else if max_offset t <? scroll_offset t then set_offset t (max_offset t) else t.
Definition follow_start (t : vterm) : Z :=
  if VTERM_HEIGHT <=? cursor_row t then u32 (u32 (cursor_row t - VTERM_HEIGHT + 1) * VTERM_WIDTH) else 0.
Definition back_start (t : vterm) : Z := u32 (u32 (view_end t - VTERM_HEIGHT - scroll_offset t) * VTERM_WIDTH).
Definition cursor_pos (t : vterm) : Z :=
  u16 ((if VTERM_HEIGHT <=? cursor_row t then VTERM_HEIGHT - 1 else cursor_row t) * VTERM_WIDTH + cursor_col t).

Definition vterm_refresh : T unit :=
  s ← sget;
  let id := active_terminal s in
  t0 ← term id;
  _ ← on_term id (fun t => Some (clamp_offset t));
  t ← term id;
  let start := if scroll_offset t0 =? 0 then follow_start t0 else back_start t in
  let view := slice (buffer t) (Z.to_nat start) (Z.to_nat VTERM_VISIBLE_SIZE) in
  _ ← (if (length view <? Z.to_nat VTERM_VISIBLE_SIZE)%nat then sfault else smod (fun s => put_vga s view));
  if scroll_offset t =? 0 then
    _ ← outb 980 15; _ ← outb 981 (u8 (Z.land (cursor_pos t) 255));
    _ ← outb 980 14; outb 981 (u8 (Z.land (Z.shiftr (cursor_pos t) 8) 255))
  else
    _ ← outb 980 15; _ ← outb 981 255; _ ← outb 980 14; outb 981 255.

Definition refresh_if_active (id : Z) : T unit := t ← term id; if active t then vterm_refresh else mret tt.

Definition terminal_names : list (list Z) := [str "console"; str "init"; str "user1"; str "user2"].

(** What [vterm_init] makes of terminal [i]. *)
Definition fresh_term (i : Z) (name : list Z) : vterm :=
  Vterm (replicate (Z.to_nat VTERM_BUFFER_SIZE) (vga_entry 32 (vga_entry_color 7 0))) 0 0 0 0
        (vga_entry_color 7 0) (-1) (i =? 0) (take 15 name).

Definition vterm_init : T unit :=
  _ ← tty_log (str "Initializing virtual terminals");
  _ ← smod (fun s => put_terminals s (imap (fun i name => fresh_term (Z.of_nat i) name) terminal_names));
  _ ← smod (fun s => put_active s 0);
  _ ← vterm_refresh;
  tty_log (str "Virtual terminals initialized (4 terminals, 200 line scrollback)").

Definition vterm_switch (id : Z) : T Z :=
  if VTERM_MAX_COUNT <=? id then mret (-1) else
  s ← sget;
  if id =? active_terminal s then mret 0 else
  _ ← on_term (active_terminal s) (fun t => Some (set_active t false));
  _ ← smod (fun s => put_active s id);
  _ ← on_term id (fun t => Some (set_active t true));
  _ ← vterm_refresh;
  mret 0.

Definition vterm_putchar_internal (vt : option Z) (c : Z) (do_refresh : bool) : T unit :=
  match vt with
  | None => mret tt
  | Some id =>
      _ ← on_term id (fun t => type_char t c);
      if do_refresh then refresh_if_active id else mret tt
  end.

Definition vterm_putchar (vt : option Z) (c : Z) : T unit :=
  _ ← tty_serial c; vterm_putchar_internal vt c true.

Fixpoint write_chars (id : Z) (l : list Z) : T unit :=
  match l with
  | [] => mret tt
  | c :: l => _ ← tty_serial c; _ ← vterm_putchar_internal (Some id) c false; write_chars id l
  end.

Definition vterm_write (vt : option Z) (l : list Z) : T unit :=
  match vt with None => mret tt | Some id => _ ← write_chars id l; refresh_if_active id end.

Definition vterm_write_dec (vt : option Z) (val : Z) : T unit :=
  match vt with
  | None => mret tt
  | Some _ => if val =? 0 then vterm_putchar vt 48 else vterm_write vt (dec_loop 10 val [])
  end.

Definition vterm_clear (vt : option Z) : T unit :=
  match vt with
  | None => mret tt
  | Some id =>
      _ ← on_term id (fun t =>
            b ← for_opt 0 VTERM_BUFFER_SIZE (fun b i => aset b i (vga_entry 32 (color t))) (buffer t);
            Some (set_total (set_offset (set_col (set_row (set_buffer t b) 0) 0) 0) 0));
      refresh_if_active id
  end.

Definition vterm_set_color (vt : option Z) (fg bg : Z) : T unit :=
  match vt with None => mret tt | Some id => on_term id (fun t => Some (set_color t (vga_entry_color fg bg))) end.

Definition vterm_set_owner (id pid : Z) : T unit :=
  if VTERM_MAX_COUNT <=? id then mret tt else on_term id (fun t => Some (set_owner t pid)).

Definition vterm_get_by_pid (pid : Z) : T Z :=
  s ← sget; mret (match list_find (fun t => owner_pid t = pid) (terminals s) with Some (i, _) => Z.of_nat i | None => -1 end).

Definition vterm_scroll_up (vt : option Z) (lines : Z) : T unit :=
  match vt with
  | None => mret tt
  | Some id =>
      _ ← on_term id (fun t =>
            let t := set_offset t (u32 (scroll_offset t + lines)) in
            Some (if max_offset t <? scroll_offset t then set_offset t (max_offset t) else t));
      refresh_if_active id
  end.

Definition vterm_scroll_down (vt : option Z) (lines : Z) : T unit :=
  match vt with
  | None => mret tt
  | Some id =>
      _ ← on_term id (fun t => Some (set_offset t (if lines <=? scroll_offset t then scroll_offset t - lines else 0)));
      refresh_if_active id
  end.

Definition vterm_scroll_reset (vt : option Z) : T unit :=
  match vt with None => mret tt | Some id => _ ← on_term id (fun t => Some (set_offset t 0)); refresh_if_active id end.

(** F1 to F4. *)
Definition function_key (scancode : Z) : option Z :=
  if scancode =? 59 then Some 0 else if scancode =? 60 then Some 1 else
  if scancode =? 61 then Some 2 else if scancode =? 62 then Some 3 else None.

Definition vterm_handle_switch (scancode : Z) : T bool :=
  if scancode =? 56 then _ ← smod (fun s => put_alt s true); mret false else
  if scancode =? 184 then _ ← smod (fun s => put_alt s false); mret false else
  vt ← vterm_get_active;
  s ← sget;
  if scancode =? 73 then _ ← vterm_scroll_up vt (VTERM_HEIGHT - 1); mret true else
  if scancode =? 81 then _ ← vterm_scroll_down vt (VTERM_HEIGHT - 1); mret true else
  if (scancode =? 71) && alt_pressed s then
    _ ← match vt with
        | Some id => _ ← on_term id (fun t => Some (set_offset t (max_offset t))); vterm_refresh
        | None => mret tt
        end;
    mret true
  else if (scancode =? 79) && alt_pressed s then _ ← vterm_scroll_reset vt; mret true
  else if negb (alt_pressed s) then mret false else
  match function_key scancode with
  | None => mret false
  | Some new_term =>
      if (new_term <? VTERM_MAX_COUNT) && negb (new_term =? active_terminal s) then
        _ ← tty_log (str "Switching to terminal"); _ ← vterm_switch new_term; mret true
      else mret false
  end.

(** ** ui/console.c *)

Record console := Cons { vterm_initialized : bool; tty_of : tty }.

Definition on_tty {A} (m : T A) : ST console A := zoom tty_of (fun t c => Cons (vterm_initialized c) t) m.
(** [if (vterm_initialized) m1 else m2], with the active terminal for [m1]. *)
Definition on_console (m1 : option Z -> T unit) (m2 : T unit) : ST console unit :=
  c ← sget; if vterm_initialized c then on_tty (vt ← vterm_get_active; m1 vt) else on_tty m2.

Fixpoint serial_chars (l : list Z) : T unit :=
  match l with [] => mret tt | c :: l => _ ← tty_serial c; serial_chars l end.

Module ConsoleC.
Definition console_init : ST console unit := _ ← on_tty vterm_init; smod (fun c => Cons true (tty_of c)).
Definition console_clear : ST console unit := on_console vterm_clear (mret tt).
Definition console_putchar (c : Z) : ST console unit := on_console (fun vt => vterm_putchar vt c) (tty_serial c).
Definition console_write (l : list Z) : ST console unit := on_console (fun vt => vterm_write vt l) (serial_chars l).
Definition console_write_dec (val : Z) : ST console unit :=
  on_console (fun vt => vterm_write_dec vt val)
             (if val =? 0 then tty_serial 48 else serial_chars (dec_loop 10 val [])).
Definition console_set_color (fg bg : Z) : ST console unit :=
  on_console (fun vt => vterm_set_color vt fg bg) (mret tt).
End ConsoleC.

#[export] Instance vterm_console : Console console := {|
  console_putchar := ConsoleC.console_putchar;
  console_write := ConsoleC.console_write;
  console_write_dec := ConsoleC.console_write_dec;
  console_set_color := ConsoleC.console_set_color;
  console_clear := ConsoleC.console_clear
|}.

(** ** Arrays and counted loops *)

Lemma aget_some l i : 0 <= i < Z.of_nat (length l) -> exists v, aget l i = Some v /\ l !! Z.to_nat i = Some v.
Proof.
  intros Hi. unfold aget. replace (i <? 0) with false by lia.
  destruct (lookup_lt_is_Some_2 l (Z.to_nat i)) as [v Hv]; [lia|]. by exists v.
Qed.

Lemma aset_some l i v : 0 <= i < Z.of_nat (length l) -> aset l i v = Some (<[Z.to_nat i := v]> l).
Proof. intros Hi. unfold aset. by replace ((0 <=? i) && (i <? Z.of_nat (length l))) with true by lia. Qed.

(** The rule of a counted loop that does not fault. *)
Lemma for_opt_ind {A} (P : Z -> A -> Prop) a n (f : A -> Z -> option A) s :
  0 <= n -> P 0 s ->
  (forall i t, 0 <= i < n -> P i t -> exists t', f t (a + i) = Some t' /\ P (i + 1) t') ->
  exists t, for_opt a n f s = Some t /\ P n t.
Proof.
  intros Hn H0 Hs. unfold for_opt.
  apply (for_range_ind (fun i (o : option A) => exists t, o = Some t /\ P i t)); [done|by exists s|].
  intros i o Hi (t & -> & Ht). cbn [mbind option_bind]. by apply Hs.
Qed.

(** A loop that stores the same value in [n] places. *)
Lemma fill_loop a n v b :
  0 <= a -> 0 <= n -> a + n <= Z.of_nat (length b) ->
  for_opt 0 n (fun b i => aset b (a + i) v) b =
    Some (take (Z.to_nat a) b ++ replicate (Z.to_nat n) v ++ drop (Z.to_nat (a + n)) b).
Proof.
  intros Ha Hn Hl.
  destruct (for_opt_ind (fun i b' => b' = take (Z.to_nat a) b ++ replicate (Z.to_nat i) v ++ drop (Z.to_nat (a + i)) b)
    0 n (fun b i => aset b (a + i) v) b) as (t & E & ->); [done|..|exact E].
  - rewrite Z.add_0_r. change (Z.to_nat 0) with 0%nat. cbn [replicate app]. by rewrite take_drop.
  - intros i t Hi ->. set (t := _ ++ _).
    assert (Hlt : length t = length b).
    { unfold t. rewrite !length_app, length_take, length_replicate, length_drop. lia. }
    rewrite aset_some by lia. eexists. split; [reflexivity|]. unfold t.
    rewrite insert_app_r_alt by (rewrite length_take; lia).
    rewrite length_take, insert_app_r_alt by (rewrite length_replicate; lia).
    rewrite length_replicate. replace (Z.to_nat (i + 1)) with (Z.to_nat i + 1)%nat by lia.
    rewrite replicate_add, <- app_assoc. do 2 f_equal.
    replace (_ - _ - _)%nat with 0%nat by lia.
    destruct (lookup_lt_is_Some_2 b (Z.to_nat (a + i))) as [x Hx]; [lia|].
    rewrite (drop_S _ _ _ Hx). cbn. do 2 f_equal. lia.
Qed.

(** ** Scrolling *)

Definition LINES : nat := Z.to_nat VTERM_BUFFER_SIZE.

Lemma LINES_Z : Z.of_nat LINES = 16000.
Proof. reflexivity. Qed.
Global Opaque LINES.

Lemma scroll_copy b :
  length b = LINES ->
  for_opt 0 (VTERM_SCROLLBACK - 1) (fun b y =>
    for_opt 0 VTERM_WIDTH (fun b x =>
      v ← aget b ((y + 1) * VTERM_WIDTH + x); aset b (y * VTERM_WIDTH + x) v) b) b =
  Some (drop 80 b ++ drop (LINES - 80) b).
Proof.
  intros Hl. pose proof LINES_Z as HL. unfold VTERM_SCROLLBACK, VTERM_WIDTH in *.
  set (Q := fun (k : Z) (b' : list Z) => length b' = LINES /\
    forall i : nat, (i < LINES)%nat -> b' !! i = if decide (Z.of_nat i < k) then b !! (i + 80)%nat else b !! i).
  destruct (for_opt_ind (fun y b' => Q (80 * y) b') 0 (200 - 1) (fun b y =>
    for_opt 0 80 (fun b x => v ← aget b ((y + 1) * 80 + x); aset b (y * 80 + x) v) b) b) as (t & -> & Ht & Hv);
    [done|split; [done|intros i Hi; by rewrite decide_False by lia]|..].
  - intros y b0 Hy Hq.
    destruct (for_opt_ind (fun x b' => Q (80 * y + x) b') 0 80
      (fun b x => v ← aget b ((0 + y + 1) * 80 + x); aset b ((0 + y) * 80 + x) v) b0) as (t & E & Hq'); [done|by rewrite Z.add_0_r|..].
    + intros x b1 Hx [Hl1 Hv1]. destruct (aget_some b1 ((0 + y + 1) * 80 + (0 + x))) as (v & -> & Hg); [lia|].
      cbn [mbind option_bind]. rewrite aset_some by lia. eexists. split; [reflexivity|]. split; [by rewrite length_insert|].
      intros i Hi. destruct (decide (i = Z.to_nat ((0 + y) * 80 + (0 + x)))) as [->|Hne].
      * rewrite list_lookup_insert_eq, decide_True by lia. rewrite Hv1, decide_False in Hg by lia. rewrite <- Hg. f_equal. lia.
      * rewrite list_lookup_insert_ne by done. rewrite Hv1 by done.
        destruct (decide (Z.of_nat i < 80 * y + x)); [rewrite !decide_True by lia|rewrite !decide_False by lia]; reflexivity.
    + exists t. split; [exact E|]. by replace (80 * (y + 1)) with (80 * y + 80) by lia.
  - f_equal. apply list_eq. intros i. destruct (decide (i < LINES)%nat) as [Hi|Hi].
    + rewrite Hv by done. case_decide.
      * rewrite lookup_app_l by (rewrite length_drop; lia). rewrite lookup_drop. f_equal. lia.
      * rewrite lookup_app_r by (rewrite length_drop; lia). rewrite length_drop, lookup_drop. f_equal. lia.
    + rewrite !lookup_ge_None_2; [done|..]; rewrite ?length_app, ?length_drop; lia.
Qed.

Lemma vterm_scroll_spec t :
  length (buffer t) = LINES -> 0 <= total_lines t <= VTERM_SCROLLBACK ->
  vterm_scroll t = Some (Vterm (drop 80 (buffer t) ++ replicate 80 (vga_entry 32 (color t))) 199 (cursor_col t) 0
    (Z.min VTERM_SCROLLBACK (total_lines t + 1)) (color t) (owner_pid t) (active t) (vname t)).
Proof.
  intros Hl Ht. pose proof LINES_Z as HL. unfold vterm_scroll. rewrite scroll_copy by done. cbn [mbind option_bind].
  unfold VTERM_SCROLLBACK, VTERM_WIDTH in *. change ((200 - 1) * 80) with 15920.
  rewrite (fill_loop 15920 80) by (rewrite ?length_app, ?length_drop; lia). cbn [mbind option_bind].
  rewrite (drop_ge _ (Z.to_nat (15920 + 80))) by (rewrite length_app, !length_drop; lia).
  rewrite app_nil_r, take_app_le, take_ge by (rewrite length_drop; lia).
  change (Z.to_nat 80) with 80%nat. unfold set_offset, set_row, set_total, set_buffer. cbn [total_lines]. unfold u32.
  destruct (Z.ltb_spec (total_lines t) 200); cbn -[Z.min replicate]; do 2 f_equal; rewrite ?Z.mod_small by lia; lia.
Qed.

(** ** Invariants *)

(** The rows above the window that follows the cursor. *)
Definition back (t : vterm) : Z := Z.max 0 (cursor_row t - 24).

Record vt_wf (t : vterm) : Prop := {
  vw_length : length (buffer t) = LINES;
  vw_row : 0 <= cursor_row t < VTERM_SCROLLBACK;
  vw_col : 0 <= cursor_col t < VTERM_WIDTH;
  vw_offset : 0 <= scroll_offset t <= back t;
  vw_total : 0 <= total_lines t <= VTERM_SCROLLBACK
}.

(** What typing does not change. *)
Definition same_owner (t t' : vterm) : Prop :=
  color t' = color t /\ owner_pid t' = owner_pid t /\ active t' = active t /\ vname t' = vname t.

Lemma max_offset_eq t : 0 <= cursor_row t < VTERM_SCROLLBACK -> max_offset t = back t.
Proof. intros Hr. unfold max_offset, view_end, back, VTERM_HEIGHT, VTERM_SCROLLBACK in *. rewrite u32_small by lia.
  destruct (Z.ltb_spec (cursor_row t + 1) 25); zcases; lia.
Qed.

Ltac vfold := unfold VTERM_SCROLLBACK, VTERM_WIDTH, VTERM_HEIGHT, back in *;
  cbn [buffer cursor_row cursor_col scroll_offset total_lines color owner_pid active vname
       set_buffer set_row set_col set_offset set_total set_color set_owner set_active] in *.

Lemma next_row_spec t :
  vt_wf t -> scroll_offset t = 0 ->
  exists t', next_row t = Some t' /\ vt_wf t' /\ same_owner t t' /\ cursor_col t' = cursor_col t /\ scroll_offset t' = 0.
Proof.
  intros [Hl Hr Hc Ho Ht] H0. unfold next_row. vfold. rewrite u32_small by lia.
  destruct (Z.leb_spec 200 (cursor_row t + 1)).
  - rewrite vterm_scroll_spec by done. eexists. split; [reflexivity|]. pose proof LINES_Z.
    split; [split; vfold; [rewrite length_app, length_drop, length_replicate; lia|lia..]|]. by repeat split.
  - eexists. split; [reflexivity|]. split; [split; vfold; lia || done|done].
Qed.

Lemma count_line_wf t : vt_wf t -> vt_wf (count_line t) /\ same_owner t (count_line t).
Proof.
  intros [Hl Hr Hc Ho Ht]. unfold count_line. vfold. rewrite u32_small by lia.
  destruct (total_lines t <? cursor_row t + 1) eqn:E; split; try done. split; vfold; lia || done.
Qed.

Lemma put_cell_spec t v :
  vt_wf t -> put_cell t v = Some (set_buffer t (<[Z.to_nat (cursor_row t * 80 + cursor_col t) := v]> (buffer t))).
Proof. intros [Hl Hr Hc Ho Ht]. pose proof LINES_Z. unfold put_cell. vfold. by rewrite aset_some by lia. Qed.

Lemma tab_stop c : 0 <= c < 80 -> Z.land (u32 (c + 8)) (not32 7) = 8 * ((c + 8) / 8).
Proof. intros Hc. rewrite u32_small by lia. apply (land_not_mask (c + 8) 3); lia. Qed.

Lemma vt_wf_col t c : vt_wf t -> 0 <= c < VTERM_WIDTH -> vt_wf (set_col t c).
Proof. intros [Hl Hr Hc Ho Ht] H. split; vfold; lia || done. Qed.
Lemma vt_wf_offset t o : vt_wf t -> 0 <= o <= back t -> vt_wf (set_offset t o).
Proof. intros [Hl Hr Hc Ho Ht] H. split; vfold; lia || done. Qed.
Lemma vt_wf_buffer t b : vt_wf t -> length b = length (buffer t) -> vt_wf (set_buffer t b).
Proof. intros [Hl Hr Hc Ho Ht] H. split; vfold; lia || congruence || done. Qed.

Lemma same_owner_trans t1 t2 t3 : same_owner t1 t2 -> same_owner t2 t3 -> same_owner t1 t3.
Proof. unfold same_owner. intuition congruence. Qed.

(** Typing a character on a sound terminal stays inside the buffer. *)
Lemma type_char_spec t c : vt_wf t -> exists t', type_char t c = Some t' /\ vt_wf t' /\ same_owner t t' /\ scroll_offset t' = 0.
Proof.
  intros Hw. unfold type_char. assert (Hb : 0 <= 0 <= back t) by (vfold; lia).
  pose proof (vt_wf_offset t 0 Hw Hb) as Hw0. assert (Hs : same_owner t (set_offset t 0)) by done.
  assert (H0 : scroll_offset (set_offset t 0) = 0) by done. revert Hw0 Hs H0. generalize (set_offset t 0). clear Hb.
  intros u Hu Hs H0. pose proof (vw_col u Hu) as Hcol.
  assert (Hcount : forall v, scroll_offset v = 0 -> scroll_offset (count_line v) = 0).
  { intros v. unfold count_line. by destruct (_ <? _). }
  assert (Hnext : forall v k, vt_wf v -> same_owner t v -> scroll_offset v = 0 -> 0 <= k < VTERM_WIDTH ->
    exists v', next_row (set_col v k) = Some v' /\ vt_wf v' /\ same_owner t v' /\ scroll_offset v' = 0).
  { intros v k Hv Hsv Hv0 Hk. destruct (next_row_spec (set_col v k)) as (v' & E & Hv' & Hs' & _ & Ho); [by apply vt_wf_col|done|].
    exists v'. split; [done|]. split; [done|]. split; [|done]. by apply (same_owner_trans _ (set_col v k)). }
  assert (Hz : 0 <= 0 < VTERM_WIDTH) by done.
  destruct (Z.eqb_spec c 10).
  { destruct (Hnext u 0) as (v & -> & Hv & Hsv & Hv0); [done..|]. cbn [mbind option_bind].
    destruct (count_line_wf v Hv) as [Hc Hsc]. eexists. split; [done|]. split; [done|].
    split; [by eapply same_owner_trans|by apply Hcount]. }
  destruct (Z.eqb_spec c 13).
  { eexists. split; [done|]. split; [by apply vt_wf_col|done]. }
  destruct (Z.eqb_spec c 8).
  { destruct (Z.ltb_spec 0 (cursor_col u)); [|by exists u].
    assert (Hu' : vt_wf (set_col u (cursor_col u - 1))) by (apply vt_wf_col; [done|lia]).
    rewrite put_cell_spec by done. eexists. split; [done|]. split; [|done].
    apply vt_wf_buffer; [done|]. apply length_insert. }
  destruct (Z.eqb_spec c 9).
  { unfold VTERM_WIDTH in Hcol. rewrite tab_stop by done. cbn [cursor_col set_col].
    destruct (Z.leb_spec VTERM_WIDTH (8 * ((cursor_col u + 8) / 8))) as [Hge|Hlt].
    - by apply (Hnext u 0).
    - eexists. split; [done|]. split; [apply vt_wf_col; [done|]|done]. unfold VTERM_WIDTH in *. split; [|done]. zdm. }
  destruct ((32 <=? c) && (c <? 127)); [|by exists u].
  rewrite put_cell_spec by done. cbn [mbind option_bind]. set (u1 := set_buffer u _).
  assert (Hu1 : vt_wf u1) by (apply vt_wf_buffer; [done|apply length_insert]).
  cbn [cursor_col set_col]. change (cursor_col u1) with (cursor_col u).
  assert (Hrow : exists v, (if VTERM_WIDTH <=? cursor_col u + 1 then next_row (set_col (set_col u1 (cursor_col u + 1)) 0)
    else Some (set_col u1 (cursor_col u + 1))) = Some v /\ vt_wf v /\ same_owner t v /\ scroll_offset v = 0).
  { destruct (Z.leb_spec VTERM_WIDTH (cursor_col u + 1)).
    - by apply (Hnext u1 0).
    - eexists. split; [done|]. split; [apply vt_wf_col; [done|lia]|done]. }
  destruct Hrow as (v & -> & Hv & Hsv & Hv0). cbn [mbind option_bind].
  destruct (count_line_wf v Hv) as [Hc Hsc]. eexists. split; [done|]. split; [done|].
  split; [by eapply same_owner_trans|by apply Hcount].
Qed.

(** *** What a character does to the page

    A page is the grid of cells and the cursor. *)
Record page := Page { p_cell : Z -> Z -> Z; p_row : Z; p_col : Z }.

Definition put_at (f : Z -> Z -> Z) (r x v : Z) : Z -> Z -> Z := fun r' x' => if (r' =? r) && (x' =? x) then v else f r' x'.
(** The next row; from the last one all rows move up. *)
Definition line_feed (blank : Z) (g : page) : page :=
  if p_row g + 1 <? VTERM_SCROLLBACK then Page (p_cell g) (p_row g + 1) 0
  else Page (fun r x => if r <? VTERM_SCROLLBACK - 1 then p_cell g (r + 1) x else blank) (VTERM_SCROLLBACK - 1) 0.
Definition to_col (blank : Z) (g : page) (x : Z) : page :=
  if x <? VTERM_WIDTH then Page (p_cell g) (p_row g) x else line_feed blank g.
Definition type_page (colors : Z) (g : page) (c : Z) : page :=
  let blank := vga_entry 32 colors in
  if c =? 10 then line_feed blank g
  else if c =? 13 then Page (p_cell g) (p_row g) 0
  else if c =? 8 then
    if 0 <? p_col g then Page (put_at (p_cell g) (p_row g) (p_col g - 1) blank) (p_row g) (p_col g - 1) else g
  else if c =? 9 then to_col blank g (8 * (p_col g / 8 + 1))
  else if (32 <=? c) && (c <? 127) then
    to_col blank (Page (put_at (p_cell g) (p_row g) (p_col g) (vga_entry c colors)) (p_row g) (p_col g)) (p_col g + 1)
  else g.

(** The terminal shows the page. *)
Definition page_is (t : vterm) (g : page) : Prop :=
  (forall r x, 0 <= r < VTERM_SCROLLBACK -> 0 <= x < VTERM_WIDTH -> buffer t !! Z.to_nat (r * VTERM_WIDTH + x) = Some (p_cell g r x)) /\
  cursor_row t = p_row g /\ cursor_col t = p_col g.

Definition shown (t : vterm) : page := Page (fun r x => buffer t !!! Z.to_nat (r * VTERM_WIDTH + x)) (cursor_row t) (cursor_col t).
Lemma shown_is t : vt_wf t -> page_is t (shown t).
Proof.
  intros Hw. split; [|done]. intros r x Hr Hx. pose proof (vw_length t Hw) as Hl. pose proof LINES_Z.
  apply list_lookup_lookup_total_lt. unfold VTERM_WIDTH, VTERM_SCROLLBACK in *. lia.
Qed.

Lemma page_same t t' g : buffer t' = buffer t -> cursor_row t' = cursor_row t -> cursor_col t' = cursor_col t -> page_is t g -> page_is t' g.
Proof. intros Eb Er Ec (Hc & Hr & Hx). split; [by rewrite Eb|]. by rewrite Er, Ec. Qed.

Lemma count_line_page t g : page_is t g -> page_is (count_line t) g.
Proof. intros Hg. unfold count_line. destruct (_ <? _); [|done]. by apply (page_same t). Qed.

Lemma set_col_page t g x : page_is t g -> page_is (set_col t x) (Page (p_cell g) (p_row g) x).
Proof. by intros (Hc & Hr & _). Qed.

Lemma put_cell_page t g v : vt_wf t -> page_is t g ->
  exists t', put_cell t v = Some t' /\ page_is t' (Page (put_at (p_cell g) (p_row g) (p_col g) v) (p_row g) (p_col g)).
Proof.
  intros Hw (Hc & Hr & Hx). rewrite put_cell_spec by done. eexists. split; [done|]. split; [|done].
  pose proof (vw_row t Hw) as Hrow. pose proof (vw_col t Hw) as Hcol. pose proof (vw_length t Hw) as Hl. pose proof LINES_Z.
  intros r x Hr' Hx'. cbn [buffer set_buffer p_cell]. unfold put_at. rewrite <- Hr, <- Hx. vfold.
  destruct (Z.eqb_spec r (cursor_row t)) as [->|Hne]; cbn [andb]; [destruct (Z.eqb_spec x (cursor_col t)) as [->|Hne]|].
  - apply list_lookup_insert_eq. lia.
  - rewrite list_lookup_insert_ne by lia. by apply Hc.
  - rewrite list_lookup_insert_ne by lia. by apply Hc.
Qed.

Lemma next_row_page t g : vt_wf t -> page_is t g -> exists t', next_row (set_col t 0) = Some t' /\ page_is t' (line_feed (vga_entry 32 (color t)) g).
Proof.
  intros Hw (Hc & Hr & Hx). pose proof (vw_row t Hw) as Hrow. pose proof (vw_length t Hw) as Hl. pose proof (vw_total t Hw) as Ht.
  unfold next_row, line_feed. vfold. rewrite <- Hr. rewrite u32_small by lia. destruct (Z.leb_spec 200 (cursor_row t + 1)) as [Hge|Hlt].
  - rewrite vterm_scroll_spec by done. eexists. split; [reflexivity|]. replace (cursor_row t + 1 <? 200) with false by lia.
    split; [|done]. cbn [p_cell]. intros r x Hr' Hx'. vfold. change (200 - 1) with 199. pose proof LINES_Z. destruct (Z.ltb_spec r 199).
    + rewrite lookup_app_l, lookup_drop by (rewrite ?length_drop; lia). rewrite <- Hc by lia. f_equal. lia.
    + rewrite lookup_app_r by (rewrite length_drop; lia). apply lookup_replicate. split; [done|]. rewrite length_drop. lia.
  - replace (cursor_row t + 1 <? 200) with true by lia. eexists. split; [reflexivity|]. by split.
Qed.

Lemma to_col_page t g x : vt_wf t -> page_is t g -> 0 <= x ->
  exists t', (if VTERM_WIDTH <=? cursor_col (set_col t x) then next_row (set_col (set_col t x) 0) else Some (set_col t x)) = Some t' /\
    page_is t' (to_col (vga_entry 32 (color t)) g x).
Proof.
  intros Hw Hg H0. cbn [cursor_col set_col]. unfold to_col. destruct (Z.leb_spec VTERM_WIDTH x).
  - replace (x <? VTERM_WIDTH) with false by lia. exact (next_row_page t g Hw Hg).
  - replace (x <? VTERM_WIDTH) with true by lia. eexists. split; [done|]. by apply set_col_page.
Qed.

(** [vterm_putchar_internal] types on the page. *)
Lemma type_char_page t c t' g : vt_wf t -> page_is t g -> type_char t c = Some t' -> page_is t' (type_page (color t) g c).
Proof.
  intros Hw Hg. pose proof (vw_col t Hw) as Hcol. unfold type_char, type_page.
  assert (Hw0 : vt_wf (set_offset t 0)) by (apply vt_wf_offset; [done|vfold; lia]).
  assert (Hg0 : page_is (set_offset t 0) g) by (by apply (page_same t)).
  change (color t) with (color (set_offset t 0)) in *. change (cursor_col t) with (cursor_col (set_offset t 0)) in *.
  revert Hw0 Hg0 Hcol. generalize (set_offset t 0). clear t Hw Hg. intros t Hw Hg Hcol. pose proof Hg as (_ & Hr & Hx).
  destruct (c =? 10).
  { destruct (next_row_page t g Hw Hg) as (u & E & Hu). rewrite E. intros [= <-]. by apply count_line_page. }
  destruct (c =? 13); [intros [= <-]; by apply set_col_page|].
  destruct (c =? 8).
  { rewrite <- Hx. destruct (Z.ltb_spec 0 (cursor_col t)); [|by intros [= <-]].
    destruct (put_cell_page (set_col t (cursor_col t - 1)) (Page (p_cell g) (p_row g) (cursor_col t - 1)) (vga_entry 32 (color t))) as (u & E & Hu);
      [apply vt_wf_col; [done|lia]|by apply set_col_page|]. change (color (set_col t (cursor_col t - 1))) with (color t).
    rewrite E. intros [= <-]. exact Hu. }
  destruct (c =? 9).
  { unfold VTERM_WIDTH in Hcol. rewrite tab_stop by lia. rewrite <- Hx. replace ((cursor_col t + 8) / 8) with (cursor_col t / 8 + 1) by zdm.
    destruct (to_col_page t g (8 * (cursor_col t / 8 + 1)) Hw Hg) as (u & E & Hu); [zdm|]. cbv zeta. rewrite E. by intros [= <-]. }
  destruct ((32 <=? c) && (c <? 127)); [|by intros [= <-]].
  destruct (put_cell_page t g (vga_entry c (color t)) Hw Hg) as (u & E & Hu).
  assert (Hwu : vt_wf u /\ color u = color t /\ cursor_col u = cursor_col t).
  { rewrite put_cell_spec in E by done. injection E as <-. split; [apply vt_wf_buffer; [done|apply length_insert]|done]. }
  destruct Hwu as (Hwu & Hcu & Hxu). rewrite E. cbn [mbind option_bind].
  destruct (to_col_page u _ (cursor_col u + 1) Hwu Hu) as (v & E' & Hv); [lia|]. cbv zeta. rewrite E'. cbn [mbind option_bind]. intros [= <-].
  apply count_line_page. replace (p_col g + 1) with (cursor_col u + 1) by congruence. rewrite <- Hcu at 1. exact Hv.
Qed.

(** What the screen shows of a terminal. *)
Definition window (t : vterm) : list Z :=
  slice (buffer t) (Z.to_nat ((back t - scroll_offset t) * VTERM_WIDTH)) (Z.to_nat VTERM_VISIBLE_SIZE).

Record tty_wf (s : tty) : Prop := {
  tw_terms : length (terminals s) = 4%nat;
  tw_active : 0 <= active_terminal s < VTERM_MAX_COUNT;
  tw_wf i t : terminals s !! i = Some t -> vt_wf t /\ active t = bool_decide (Z.of_nat i = active_terminal s);
  tw_uart : Z.of_nat (length (serial_buffer (uart s))) < SERIAL_BUFFER_SIZE;
  tw_log : log_wf (klog s)
}.

Definition screen_ok (s : tty) : Prop :=
  forall t, terminals s !! Z.to_nat (active_terminal s) = Some t -> vga_buffer s = window t.

(** Every character written to the serial line, sent or not. *)
Definition uart_text (u : serial) : list Z := sent u ++ serial_buffer u.

(** A sound state whose transcript is [l]; in the second form the screen may be
    behind terminal [id]. *)
Definition good (l : list Z) (s : tty) : Prop := tty_wf s /\ screen_ok s /\ uart_text (uart s) = l.
Definition stale (l : list Z) (id : Z) (s : tty) : Prop :=
  tty_wf s /\ (id <> active_terminal s -> screen_ok s) /\ uart_text (uart s) = l.

(** ** Operations on the terminals *)

Definition valid (id : Z) : Prop := 0 <= id < VTERM_MAX_COUNT.

Lemma term_some s id : tty_wf s -> valid id -> exists t, terminals s !! Z.to_nat id = Some t /\ term id s = Some (t, s).
Proof.
  intros Hw Hid. unfold valid, VTERM_MAX_COUNT in Hid.
  destruct (lookup_lt_is_Some_2 (terminals s) (Z.to_nat id)) as [t Ht]; [rewrite tw_terms by done; lia|].
  exists t. split; [done|]. unfold term, sget, mbind, ST_bind. cbv beta iota.
  replace (id <? 0) with false by lia. by rewrite Ht.
Qed.

Lemma tty_wf_terminal s id t t' :
  tty_wf s -> valid id -> terminals s !! Z.to_nat id = Some t -> vt_wf t' -> active t' = active t ->
  tty_wf (put_terminals s (<[Z.to_nat id := t']> (terminals s))).
Proof.
  intros [Hn Ha Hw Hu Hl] Hid Ht Hw' Hact. split; try done; cbn [terminals put_terminals active_terminal].
  - by rewrite length_insert.
  - intros i u Hi. destruct (decide (i = Z.to_nat id)) as [->|Hne].
    + rewrite list_lookup_insert_eq in Hi by (by apply lookup_lt_Some in Ht). injection Hi as <-.
      split; [done|]. rewrite Hact. apply (Hw _ _ Ht).
    + rewrite list_lookup_insert_ne in Hi by done. by apply Hw.
Qed.

(** A change of terminal [id] that keeps it sound and its flag. *)
Definition keeps (f : vterm -> option vterm) : Prop :=
  forall t, vt_wf t -> exists t', f t = Some t' /\ vt_wf t' /\ active t' = active t.

Lemma on_term_eq s id f t t' :
  tty_wf s -> valid id -> terminals s !! Z.to_nat id = Some t -> f t = Some t' ->
  on_term id f s = Some (tt, put_terminals s (<[Z.to_nat id := t']> (terminals s))).
Proof.
  intros Hw Hid Ht Hf. destruct (term_some s id Hw Hid) as (u & Hu & E). assert (u = t) as -> by congruence.
  unfold on_term, mbind, ST_bind. rewrite E. cbn beta iota. rewrite Hf. done.
Qed.

Lemma tri_on_term id f l : valid id -> keeps f -> tri (stale l id) (on_term id f) (fun _ => stale l id).
Proof.
  intros Hid Hf s (Hw & Hs & Hl). destruct (term_some s id Hw Hid) as (t & Ht & _).
  destruct (Hf t) as (t' & E & Hw' & Ha); [by apply (tw_wf s Hw _ _ Ht)|].
  eexists _, _. split; [by apply (on_term_eq s id f t t')|]. split; [by apply (tty_wf_terminal s id t)|]. split; [|done].
  cbn [put_terminals active_terminal]. intros Hne u Hu. apply Hs; [done|]. cbn [terminals active_terminal put_terminals] in Hu.
  rewrite list_lookup_insert_ne in Hu; [done|]. apply (tw_active s) in Hw. unfold valid in *. lia.
Qed.

Lemma serial_write_spec c u :
  Z.of_nat (length (serial_buffer u)) < SERIAL_BUFFER_SIZE ->
  exists u', serial_write c u = Some u' /\ uart_text u' = uart_text u ++ [c] /\
    Z.of_nat (length (serial_buffer u')) < SERIAL_BUFFER_SIZE.
Proof.
  intros Hl. unfold serial_write. replace (_ <? _) with true by lia. eexists. split; [reflexivity|].
  unfold uart_text. cbn [serial_buffer sent].
  destruct (_ || _) eqn:E; cbn [serial_flush_buffer serial_buffer sent].
  - rewrite app_nil_r, app_assoc. done.
  - apply orb_false_iff in E as [E _]. apply Z.leb_gt in E. by rewrite app_assoc.
Qed.

Lemma tri_serial c id l : tri (stale l id) (tty_serial c) (fun _ => stale (l ++ [c]) id).
Proof.
  intros s (Hw & Hs & Hl). destruct (serial_write_spec c (uart s) (tw_uart s Hw)) as (u & E & Ht & Hlen).
  unfold tty_serial, sget, mbind, ST_bind. rewrite E. eexists _, _. split; [reflexivity|].
  split; [|split; [exact Hs|cbn [put_uart uart]; congruence]]. by destruct Hw.
Qed.

Lemma window_length t : vt_wf t -> length (window t) = Z.to_nat VTERM_VISIBLE_SIZE.
Proof.
  intros [Hl Hr Hc Ho Ht]. pose proof LINES_Z. unfold window. apply length_slice.
  unfold VTERM_VISIBLE_SIZE. vfold. lia.
Qed.

Lemma clamp_id t : vt_wf t -> clamp_offset t = t.
Proof.
  intros Hw. unfold clamp_offset. destruct (scroll_offset t =? 0); [done|]. rewrite max_offset_eq by apply Hw.
  destruct (vw_offset t Hw). by replace (back t <? scroll_offset t) with false by lia.
Qed.

Lemma start_eq t : vt_wf t ->
  (if scroll_offset t =? 0 then follow_start t else back_start t) = (back t - scroll_offset t) * VTERM_WIDTH.
Proof.
  intros [Hl Hr Hc Ho Ht]. unfold follow_start, back_start, view_end. vfold. rewrite (u32_small (cursor_row t + 1)) by lia.
  destruct (Z.eqb_spec (scroll_offset t) 0) as [E|E].
  - destruct (Z.leb_spec 25 (cursor_row t)); [|lia]. rewrite (u32_small (cursor_row t - 25 + 1)), u32_small; lia.
  - destruct (Z.ltb_spec (cursor_row t + 1) 25).
    + rewrite (u32_small (25 - 25 - scroll_offset t)), u32_small; lia.
    + rewrite (u32_small (cursor_row t + 1 - 25 - scroll_offset t)), u32_small; lia.
Qed.

(** A refresh of a sound state brings the screen up to date and changes nothing
    but the screen and the cursor ports. *)
Lemma refresh_eq s : tty_wf s ->
  exists t ps, terminals s !! Z.to_nat (active_terminal s) = Some t /\
    vterm_refresh s = Some (tt, put_ports (put_vga s (window t)) (ports s ++ ps)).
Proof.
  intros Hw. destruct (term_some s (active_terminal s) Hw (tw_active s Hw)) as (t & Ht & E).
  pose proof (proj1 (tw_wf s Hw _ _ Ht)) as Hvt.
  assert (Eon : on_term (active_terminal s) (fun t => Some (clamp_offset t)) s = Some (tt, s)).
  { rewrite (on_term_eq s _ _ t t Hw (tw_active s Hw) Ht); [|by rewrite clamp_id].
    rewrite list_insert_id by done. by destruct s. }
  unfold vterm_refresh, mbind, ST_bind, sget. rewrite E, Eon, E, start_eq by done. fold (window t).
  rewrite window_length, Nat.ltb_irrefl by done.
  destruct (scroll_offset t =? 0); (eexists t, [_; _; _; _]; split; [done|]);
    unfold outb, smod; cbn [put_ports put_vga ports terminals active_terminal vga_buffer alt_pressed uart klog ticks];
    by rewrite <- !app_assoc.
Qed.

Lemma tri_refresh l id : tri (stale l id) vterm_refresh (fun _ => good l).
Proof.
  intros s (Hw & _ & Hl). destruct (refresh_eq s Hw) as (t & ps & Ht & E). eexists _, _. split; [exact E|].
  split; [by destruct Hw|]. split; [|done]. intros u Hu. cbn [put_ports put_vga terminals active_terminal vga_buffer] in *. congruence.
Qed.

Lemma tri_refresh_if l id : valid id -> tri (stale l id) (refresh_if_active id) (fun _ => good l).
Proof.
  intros Hid s Hs. pose proof Hs as (Hw & Hok & Hl). destruct (term_some s id Hw Hid) as (t & Ht & E).
  unfold refresh_if_active, mbind, ST_bind. rewrite E. destruct (tw_wf s Hw _ _ Ht) as [_ ->].
  rewrite Z2Nat.id by (unfold valid in Hid; lia). case_bool_decide as Ha; [by apply (tri_refresh l id)|].
  exists tt, s. split; [done|]. by split; [|split; [apply Hok|]].
Qed.

Lemma good_stale l id s : good l s -> stale l id s.
Proof. intros (? & ? & ?). by split; [|split]. Qed.

(** ** The public operations *)

Lemma keeps_type c : keeps (fun t => type_char t c).
Proof. intros t Hw. destruct (type_char_spec t c Hw) as (t' & E & Hw' & (_ & _ & Ha & _) & _). by exists t'. Qed.

Lemma tri_putchar_internal id c l : valid id ->
  tri (stale l id) (vterm_putchar_internal (Some id) c true) (fun _ => good l).
Proof.
  intros Hid. cbn [vterm_putchar_internal].
  eapply tri_bind; [by apply tri_on_term, keeps_type|]. intros []. by apply tri_refresh_if.
Qed.

Lemma tri_putchar id c l : valid id -> tri (good l) (vterm_putchar (Some id) c) (fun _ => good (l ++ [c])).
Proof.
  intros Hid. unfold vterm_putchar. eapply (tri_bind _ _ _ (fun _ => stale (l ++ [c]) id)); [|intros []; by apply (tri_putchar_internal id)].
  eapply tri_weaken; [apply (tri_serial c id l)|intros s; apply good_stale|done].
Qed.

(** The terminal typed on, and the others. *)
Lemma putchar_run id c l s t : valid id -> good l s -> terminals s !! Z.to_nat id = Some t ->
  exists t' s', vterm_putchar (Some id) c s = Some (tt, s') /\ good (l ++ [c]) s' /\ type_char t c = Some t' /\
    terminals s' = <[Z.to_nat id := t']> (terminals s) /\ active_terminal s' = active_terminal s.
Proof.
  intros Hid Hg Ht. pose proof Hg as (Hw & _ & _). destruct (tri_putchar id c l Hid s Hg) as ([] & s' & E & Hg').
  destruct (type_char_spec t c) as (t' & Et & _ & _); [by apply (tw_wf s Hw _ _ Ht)|]. exists t', s'.
  split; [done|]. split; [done|]. split; [done|]. destruct (serial_write_spec c (uart s) (tw_uart s Hw)) as (u & Eu & _ & Hu).
  set (s1 := put_uart s u). assert (Hw1 : tty_wf s1) by (by destruct Hw).
  assert (E1 : tty_serial c s = Some (tt, s1)) by (unfold tty_serial; rewrite run_get, Eu; done).
  unfold vterm_putchar in E. rewrite (run_bind _ _ _ _ _ E1) in E. cbn [vterm_putchar_internal] in E.
  rewrite (run_bind _ _ _ _ _ (on_term_eq s1 id (fun t => type_char t c) t t' Hw1 Hid Ht Et)) in E. set (s2 := put_terminals s1 _) in E.
  assert (Ht2 : terminals s2 !! Z.to_nat id = Some t') by (apply list_lookup_insert_eq; by apply lookup_lt_Some in Ht).
  assert (Hw2 : tty_wf s2).
  { destruct (type_char_spec t c) as (t2 & Et2 & Hwt & (_ & _ & Ha & _) & _); [by apply (tw_wf s Hw _ _ Ht)|].
    rewrite Et in Et2. injection Et2 as <-. by apply (tty_wf_terminal s1 id t). }
  revert E. unfold refresh_if_active, mbind, ST_bind. destruct (term_some s2 id Hw2 Hid) as (t2 & Ht2' & ->).
  destruct (active t2); [|by intros [= <-]]. destruct (refresh_eq s2 Hw2) as (t3 & ps & _ & ->). by intros [= <-].
Qed.

(** The text [l] has been typed on terminal [id] and on no other. *)
Definition typed_on (id : Z) (s s' : tty) (l : list Z) : Prop :=
  active_terminal s' = active_terminal s /\ (forall j, j <> Z.to_nat id -> terminals s' !! j = terminals s !! j) /\
  forall t, terminals s !! Z.to_nat id = Some t -> exists t', terminals s' !! Z.to_nat id = Some t' /\ same_owner t t' /\
    forall g, page_is t g -> page_is t' (foldl (type_page (color t)) g l).

Lemma typed_nil id s : typed_on id s s [].
Proof. split; [done|]. split; [done|]. intros t Ht. by exists t. Qed.

Lemma typed_app id s1 s2 s3 l1 l2 : typed_on id s1 s2 l1 -> typed_on id s2 s3 l2 -> typed_on id s1 s3 (l1 ++ l2).
Proof.
  intros (A1 & O1 & T1) (A2 & O2 & T2). split; [congruence|]. split; [intros j Hj; by rewrite O2, O1|].
  intros t Ht. destruct (T1 t Ht) as (t2 & Ht2 & Hs2 & Hg2). destruct (T2 t2 Ht2) as (t3 & Ht3 & Hs3 & Hg3). exists t3.
  split; [done|]. split; [by eapply same_owner_trans|]. intros g Hg. rewrite foldl_app. pose proof (proj1 Hs2) as Hc. rewrite <- Hc at 1.
  apply Hg3, Hg2, Hg.
Qed.

Lemma putchar_types id c l s : valid id -> good l s ->
  exists s', vterm_putchar (Some id) c s = Some (tt, s') /\ good (l ++ [c]) s' /\ typed_on id s s' [c].
Proof.
  intros Hid Hg. destruct (term_some s id (proj1 Hg) Hid) as (t & Ht & _).
  destruct (putchar_run id c l s t Hid Hg Ht) as (t' & s' & E & Hg' & Et & Hts & Ha). exists s'. split; [done|]. split; [done|].
  destruct (tw_wf s (proj1 Hg) _ _ Ht) as [Hw _].
  split; [done|]. split; [intros j Hj; by rewrite Hts, list_lookup_insert_ne by done|]. intros u Hu. assert (u = t) as -> by congruence.
  exists t'. rewrite Hts. split; [apply list_lookup_insert_eq; by apply lookup_lt_Some in Ht|].
  destruct (type_char_spec t c Hw) as (t2 & E2 & _ & Hs & _). rewrite Et in E2. injection E2 as <-. split; [done|].
  intros g Hp. by apply (type_char_page t c).
Qed.

Lemma tri_putchar_later id c l : valid id ->
  tri (stale l id) (vterm_putchar_internal (Some id) c false) (fun _ => stale l id).
Proof.
  intros Hid. cbn [vterm_putchar_internal].
  eapply tri_bind; [by apply tri_on_term, keeps_type|]. intros []. by apply tri_ret.
Qed.

Lemma tri_write_chars id cs l : valid id -> tri (stale l id) (write_chars id cs) (fun _ => stale (l ++ cs) id).
Proof.
  intros Hid. revert l. induction cs as [|c cs IH]; intros l; cbn [write_chars].
  - apply tri_ret. intros s. by rewrite app_nil_r.
  - replace (l ++ c :: cs) with ((l ++ [c]) ++ cs) by by rewrite <- app_assoc.
    eapply tri_bind; [apply (tri_serial c id l)|]. intros [].
    eapply tri_bind; [by apply (tri_putchar_later id c (l ++ [c]))|]. intros []. apply IH.
Qed.

Lemma tri_write id cs l : valid id -> tri (good l) (vterm_write (Some id) cs) (fun _ => good (l ++ cs)).
Proof.
  intros Hid. cbn [vterm_write]. eapply (tri_bind _ _ _ (fun _ => stale (l ++ cs) id)); [|intros []; by apply (tri_refresh_if _ id)].
  eapply tri_weaken; [by apply (tri_write_chars id cs l)|intros s; apply good_stale|done].
Qed.

Lemma tri_write_dec id v l : valid id -> tri (good l) (vterm_write_dec (Some id) v) (fun _ => good (l ++ dec_text v)).
Proof.
  intros Hid. cbn [vterm_write_dec]. unfold dec_text. destruct (v =? 0); [by apply tri_putchar|by apply tri_write].
Qed.

(** A change of a terminal followed by a refresh. *)
Lemma tri_change id f l : valid id -> keeps f ->
  tri (good l) (_ ← on_term id f; refresh_if_active id) (fun _ => good l).
Proof.
  intros Hid Hf. eapply (tri_bind _ _ _ (fun _ => stale l id)); [|intros []; by apply (tri_refresh_if _ id)].
  eapply tri_weaken; [by apply tri_on_term|intros s; apply good_stale|done].
Qed.

(** A change that the screen does not show. *)
Lemma tri_quiet id f l : valid id ->
  (forall t, vt_wf t -> exists t', f t = Some t' /\ vt_wf t' /\ active t' = active t /\ window t' = window t) ->
  tri (good l) (on_term id f) (fun _ => good l).
Proof.
  intros Hid Hf s (Hw & Hs & Hl). destruct (term_some s id Hw Hid) as (t & Ht & _).
  destruct (Hf t) as (t' & E & Hw' & Ha & Hwin); [by apply (tw_wf s Hw _ _ Ht)|].
  eexists _, _. split; [by apply (on_term_eq s id f t t')|]. split; [by apply (tty_wf_terminal s id t)|]. split; [|done].
  intros u Hu. cbn [put_terminals terminals active_terminal vga_buffer] in *.
  destruct (decide (Z.to_nat (active_terminal s) = Z.to_nat id)) as [He|Hne].
  - rewrite He, list_lookup_insert_eq in Hu by (by apply lookup_lt_Some in Ht). injection Hu as <-.
    rewrite Hwin. apply Hs. by rewrite He.
  - rewrite list_lookup_insert_ne in Hu by done. by apply Hs.
Qed.

Lemma keeps_clear :
  keeps (fun t => b ← for_opt 0 VTERM_BUFFER_SIZE (fun b i => aset b i (vga_entry 32 (color t))) (buffer t);
                  Some (set_total (set_offset (set_col (set_row (set_buffer t b) 0) 0) 0) 0)).
Proof.
  intros t [Hl Hr Hc Ho Ht]. pose proof LINES_Z. rewrite (fill_loop 0) by (unfold VTERM_BUFFER_SIZE; vfold; lia).
  eexists. split; [reflexivity|]. split; [|done]. split; vfold; try lia.
  rewrite !length_app, length_take, length_replicate, length_drop. unfold VTERM_BUFFER_SIZE, VTERM_WIDTH, VTERM_SCROLLBACK. lia.
Qed.

Lemma keeps_offset (f : vterm -> vterm) :
  (forall t, vt_wf t -> exists o, f t = set_offset t o /\ 0 <= o <= back t) -> keeps (fun t => Some (f t)).
Proof.
  intros H t Hw. destruct (H t Hw) as (o & -> & Ho). eexists. split; [done|]. split; [by apply vt_wf_offset|done].
Qed.

Lemma set_offset_self t : set_offset t (scroll_offset t) = t.
Proof. by destruct t. Qed.

Lemma keeps_up lines : keeps (fun t =>
  let t := set_offset t (u32 (scroll_offset t + lines)) in
  Some (if max_offset t <? scroll_offset t then set_offset t (max_offset t) else t)).
Proof.
  apply keeps_offset. intros t Hw. pose proof (u32_range (scroll_offset t + lines)).
  rewrite max_offset_eq by apply Hw. cbn [scroll_offset set_offset]. change (back (set_offset t _)) with (back t).
  destruct (Z.ltb_spec (back t) (u32 (scroll_offset t + lines))).
  - exists (back t). split; [done|]. unfold back. lia.
  - eexists. split; [done|]. lia.
Qed.

Lemma keeps_down lines : 0 <= lines -> keeps (fun t => Some (set_offset t (if lines <=? scroll_offset t then scroll_offset t - lines else 0))).
Proof.
  intros Hl. apply keeps_offset. intros t Hw. eexists. split; [done|]. pose proof (vw_offset t Hw).
  destruct (Z.leb_spec lines (scroll_offset t)); lia.
Qed.

Lemma keeps_reset : keeps (fun t => Some (set_offset t 0)).
Proof. apply keeps_offset. intros t Hw. exists 0. split; [done|]. unfold back. lia. Qed.

Lemma keeps_home : keeps (fun t => Some (set_offset t (max_offset t))).
Proof. apply keeps_offset. intros t Hw. exists (max_offset t). split; [done|]. rewrite max_offset_eq by apply Hw. unfold back. lia. Qed.

Lemma tri_log msg l : tri (good l) (tty_log msg) (fun _ => good l).
Proof.
  intros s (Hw & Hs & Hl). destruct (log_write_spec (ticks s) LOG_LEVEL_INFO msg (klog s) (tw_log s Hw)) as (k & E & Hk & _).
  unfold tty_log, sget, mbind, ST_bind, log_info. rewrite E. eexists _, _. split; [reflexivity|].
  split; [by destruct Hw|]. done.
Qed.

Lemma tty_wf_lookup s i t : tty_wf s -> terminals s !! i = Some t -> (i < 4)%nat.
Proof. intros Hw Ht. apply lookup_lt_Some in Ht. by rewrite tw_terms in Ht. Qed.

(** Moving the flag from the old terminal to the new one. *)
Lemma switch_wf s id told tnew :
  tty_wf s -> valid id -> id <> active_terminal s ->
  terminals s !! Z.to_nat (active_terminal s) = Some told -> terminals s !! Z.to_nat id = Some tnew ->
  tty_wf (put_terminals (put_active s id)
    (<[Z.to_nat id := set_active tnew true]> (<[Z.to_nat (active_terminal s) := set_active told false]> (terminals s)))).
Proof.
  intros Hw Hid Hne Ho Hn. pose proof (tw_active s Hw). unfold valid in *.
  split; try apply Hw; [cbn; rewrite !length_insert; apply Hw|done|]. cbn [terminals put_terminals active_terminal put_active].
  intros i u Hi. destruct (decide (i = Z.to_nat id)) as [->|Hi1].
  { rewrite list_lookup_insert_eq in Hi by (rewrite length_insert; by apply lookup_lt_Some in Hn). injection Hi as <-.
    split; [by destruct (proj1 (tw_wf s Hw _ _ Hn))|]. symmetry. apply bool_decide_eq_true_2. lia. }
  rewrite list_lookup_insert_ne in Hi by done. destruct (decide (i = Z.to_nat (active_terminal s))) as [->|Hi2].
  { rewrite list_lookup_insert_eq in Hi by (by apply lookup_lt_Some in Ho). injection Hi as <-.
    split; [by destruct (proj1 (tw_wf s Hw _ _ Ho))|]. symmetry. apply bool_decide_eq_false_2. lia. }
  rewrite list_lookup_insert_ne in Hi by done. destruct (tw_wf s Hw _ _ Hi) as [Hv ->]. split; [done|].
  apply bool_decide_ext. lia.
Qed.

Lemma tri_switch id l : 0 <= id -> tri (good l) (vterm_switch id) (fun _ => good l).
Proof.
  intros H0 s Hg. pose proof Hg as (Hw & Hs & Hl). unfold vterm_switch. destruct (Z.leb_spec VTERM_MAX_COUNT id) as [Hge|Hlt].
  { by exists (-1), s. }
  unfold sget, mbind, ST_bind. destruct (Z.eqb_spec id (active_terminal s)) as [He|Hne]; [by exists 0, s|].
  destruct (term_some s _ Hw (tw_active s Hw)) as (told & Ho & Eo).
  destruct (term_some s id Hw) as (tnew & Hn & _); [done|].
  rewrite (on_term_eq s _ _ told (set_active told false) Hw (tw_active s Hw) Ho) by done.
  unfold smod at 1. unfold on_term, term, sget, mbind, ST_bind, sopt, smod.
  cbn [terminals put_terminals put_active active_terminal]. replace (id <? 0) with false by lia.
  rewrite list_lookup_insert_ne, Hn by (pose proof (tw_active s Hw); lia). cbn [mret ST_ret].
  set (s' := put_terminals _ _).
  assert (Hw' : tty_wf s') by (apply (switch_wf s id told tnew); done).
  destruct (tri_refresh l (active_terminal s') s') as ([] & s2 & E & Hg2); [by split; [|split]|].
  rewrite E. by exists 0, s2.
Qed.

Lemma tri_scroll_up id n l : valid id -> tri (good l) (vterm_scroll_up (Some id) n) (fun _ => good l).
Proof. intros Hid. by apply tri_change, keeps_up. Qed.

Lemma tri_scroll_down id n l : valid id -> 0 <= n -> tri (good l) (vterm_scroll_down (Some id) n) (fun _ => good l).
Proof. intros Hid Hn. by apply tri_change, keeps_down. Qed.

Lemma tri_scroll_reset id l : valid id -> tri (good l) (vterm_scroll_reset (Some id)) (fun _ => good l).
Proof. intros Hid. by apply tri_change, keeps_reset. Qed.

Lemma tri_then_ret {A B S} (P : S -> Prop) (m : ST S A) (b : B) (Q : S -> Prop) :
  tri P m (fun _ => Q) -> tri P (_ ← m; mret b) (fun _ => Q).
Proof. intros Hm. eapply tri_bind; [exact Hm|]. intros a. by apply tri_ret. Qed.

Lemma tri_handle_switch sc l : tri (good l) (vterm_handle_switch sc) (fun _ => good l).
Proof.
  intros s Hg. pose proof Hg as (Hw & Hs & Hl). pose proof (tw_active s Hw) as Ha. unfold vterm_handle_switch.
  destruct (sc =? 56). { apply (tri_then_ret (good l)); [|done]. apply tri_mod. intros s' ([] & ? & ?). by split; [|split]. }
  destruct (sc =? 184). { apply (tri_then_ret (good l)); [|done]. apply tri_mod. intros s' ([] & ? & ?). by split; [|split]. }
  rewrite (run_bind vterm_get_active _ s (Some (active_terminal s)) s eq_refl), (run_bind sget _ s s s eq_refl).
  destruct (sc =? 73). { by apply (tri_then_ret (good l)); [apply tri_scroll_up|]. }
  destruct (sc =? 81). { by apply (tri_then_ret (good l)); [apply tri_scroll_down|]. }
  destruct ((sc =? 71) && alt_pressed s).
  { apply (tri_then_ret (good l)); [|done]. eapply (tri_bind _ _ _ (fun _ => stale l (active_terminal s))).
    - eapply tri_weaken; [by apply tri_on_term, keeps_home|intros ?; apply good_stale|done].
    - intros []. apply tri_refresh. }
  destruct ((sc =? 79) && alt_pressed s). { by apply (tri_then_ret (good l)); [apply tri_scroll_reset|]. }
  destruct (negb (alt_pressed s)); [by eexists _, _|].
  destruct (function_key sc) as [k|] eqn:Ek; [|by eexists _, _].
  destruct ((k <? VTERM_MAX_COUNT) && negb (k =? active_terminal s)); [|by eexists _, _].
  assert (0 <= k). { unfold function_key in Ek. repeat (destruct (sc =? _); [injection Ek as <-; lia|]). done. }
  eapply (tri_bind (good l)); [apply tri_log| |exact Hg]. intros []. by apply tri_then_ret, tri_switch.
Qed.

Lemma fresh_term_wf i name : vt_wf (fresh_term i name).
Proof. split; cbn [fresh_term buffer]; [by rewrite length_replicate|done..]. Qed.

(** A console that was not set up yet: only the serial line and the log matter. *)
Definition unready (l : list Z) (s : tty) : Prop :=
  Z.of_nat (length (serial_buffer (uart s))) < SERIAL_BUFFER_SIZE /\ log_wf (klog s) /\ uart_text (uart s) = l.

Lemma tri_init l : tri (unready l) vterm_init (fun _ => good l).
Proof.
  unfold vterm_init. eapply (tri_bind _ _ _ (fun _ => unready l)).
  { intros s (Hu & Hk & Hl).
    destruct (log_write_spec (ticks s) LOG_LEVEL_INFO (str "Initializing virtual terminals") (klog s) Hk) as (k & E & Hk' & _).
    unfold tty_log, sget, mbind, ST_bind, log_info. rewrite E. eexists _, _. split; [reflexivity|]. by split; [|split]. }
  intros []. eapply (tri_bind _ _ _ (fun _ s => unready l s /\
    terminals s = imap (fun i name => fresh_term (Z.of_nat i) name) terminal_names)).
  { apply tri_mod. intros s Hs. by split. }
  intros []. eapply (tri_bind _ _ _ (fun _ s => stale l 0 s)).
  { apply tri_mod. intros s [(Hu & Hk & Hl) Ht]. split; [|split; [|done]].
    2: { intros Hne. by destruct Hne. }
    split; cbn [put_active terminals active_terminal uart klog]; [by rewrite Ht|done| |done..].
    rewrite Ht. intros i t Hi. destruct i as [|[|[|[|i]]]]; [..|done]; injection Hi as <-; (split; [apply fresh_term_wf|done]). }
  intros []. eapply (tri_bind _ _ _ (fun _ => good l)); [apply tri_refresh|]. intros []. apply tri_log.
Qed.

(** The operations of ui/vterm.h that change a terminal; the pointers they take are
    the terminals'. *)
Inductive public : T unit -> Prop :=
| pub_putchar id c : valid id -> public (vterm_putchar (Some id) c)
| pub_write id cs : valid id -> public (vterm_write (Some id) cs)
| pub_write_dec id v : valid id -> public (vterm_write_dec (Some id) v)
| pub_clear id : valid id -> public (vterm_clear (Some id))
| pub_set_color id fg bg : valid id -> public (vterm_set_color (Some id) fg bg)
| pub_set_owner id pid : 0 <= id -> public (vterm_set_owner id pid)
| pub_scroll_up id n : valid id -> public (vterm_scroll_up (Some id) n)
| pub_scroll_down id n : valid id -> 0 <= n -> public (vterm_scroll_down (Some id) n)
| pub_scroll_reset id : valid id -> public (vterm_scroll_reset (Some id))
| pub_switch id : 0 <= id -> public (_ ← vterm_switch id; mret tt)
| pub_key sc : public (_ ← vterm_handle_switch sc; mret tt).

Fixpoint run_all (ms : list (T unit)) : T unit := match ms with [] => mret tt | m :: ms => _ ← m; run_all ms end.

(** Some transcript; what every public operation keeps. *)
Definition sound (s : tty) : Prop := exists l, good l s.

Lemma sound_of (m : T unit) f : (forall l, tri (good l) m (fun _ => good (f l))) -> tri sound m (fun _ => sound).
Proof. intros H s [l Hg]. destruct (H l s Hg) as (a & s' & E & Hg'). exists a, s'. split; [done|]. by exists (f l). Qed.

Lemma tri_set_color id fg bg l : valid id -> tri (good l) (vterm_set_color (Some id) fg bg) (fun _ => good l).
Proof. intros Hid. apply tri_quiet; [done|]. intros t Hw. eexists. split; [done|]. split; [by destruct Hw|done]. Qed.

Lemma tri_clear id l : valid id -> tri (good l) (vterm_clear (Some id)) (fun _ => good l).
Proof. intros Hid. by apply tri_change, keeps_clear. Qed.

Lemma public_sound m : public m -> tri sound m (fun _ => sound).
Proof.
  destruct 1.
  - eapply sound_of. intros l. by apply tri_putchar.
  - eapply sound_of. intros l. by apply tri_write.
  - eapply sound_of. intros l. by apply tri_write_dec.
  - eapply sound_of. intros l. by apply tri_clear.
  - eapply sound_of. intros l. by apply tri_set_color.
  - eapply (sound_of _ (fun l => l)). intros l. unfold vterm_set_owner. destruct (Z.leb_spec VTERM_MAX_COUNT id); [by apply tri_ret|].
    apply tri_quiet; [done|]. intros t Hw. eexists. split; [done|]. split; [by destruct Hw|done].
  - eapply sound_of. intros l. by apply tri_scroll_up.
  - eapply sound_of. intros l. by apply tri_scroll_down.
  - eapply sound_of. intros l. by apply tri_scroll_reset.
  - eapply (sound_of _ (fun l => l)). intros l. by apply tri_then_ret, tri_switch.
  - eapply (sound_of _ (fun l => l)). intros l. by apply tri_then_ret, tri_handle_switch.
Qed.

(** ** The console interface *)

Definition cons_ok (c : console) : Prop :=
  if vterm_initialized c then good (uart_text (uart (tty_of c))) (tty_of c)
  else unready (uart_text (uart (tty_of c))) (tty_of c).
Definition cons_text (c : console) : list Z := uart_text (uart (tty_of c)).

Lemma tri_serial_one c l : tri (unready l) (tty_serial c) (fun _ => unready (l ++ [c])).
Proof.
  intros s (Hu & Hk & Hl). destruct (serial_write_spec c (uart s) Hu) as (u & E & Ht & Hlen).
  unfold tty_serial, sget, mbind, ST_bind. rewrite E. eexists _, _. split; [reflexivity|].
  split; [done|]. split; [done|]. cbn [put_uart uart]. congruence.
Qed.

Lemma tri_serial_chars cs l : tri (unready l) (serial_chars cs) (fun _ => unready (l ++ cs)).
Proof.
  revert l. induction cs as [|c cs IH]; intros l; cbn [serial_chars].
  - apply tri_ret. intros s. by rewrite app_nil_r.
  - replace (l ++ c :: cs) with ((l ++ [c]) ++ cs) by by rewrite <- app_assoc.
    eapply tri_bind; [apply (tri_serial_one c l)|]. intros []. apply IH.
Qed.

(** Both branches extend the transcript by the same characters. *)
Lemma tri_on_console m1 m2 l cs :
  (forall id, valid id -> tri (good l) (m1 (Some id)) (fun _ => good (l ++ cs))) ->
  tri (unready l) m2 (fun _ => unready (l ++ cs)) ->
  tri (fun c => cons_ok c /\ cons_text c = l) (on_console m1 m2) (fun _ c => cons_ok c /\ cons_text c = l ++ cs).
Proof.
  intros H1 H2 [b s] [Hok <-]. unfold on_console, cons_ok, cons_text in *. cbn [vterm_initialized tty_of] in *.
  unfold sget, mbind at 1, ST_bind at 1. cbn [vterm_initialized]. destruct b; unfold on_tty, zoom; cbn [tty_of vterm_initialized].
  - unfold vterm_get_active, sget, mbind, ST_bind, mret, ST_ret. cbv beta iota.
    destruct (H1 (active_terminal s) (tw_active s (proj1 Hok)) s Hok) as ([] & s' & E & Hg). rewrite E.
    eexists tt, (Cons true s'). cbn [vterm_initialized tty_of]. destruct Hg as (A & B & Et).
    split; [reflexivity|]. exact (conj (conj A (conj B eq_refl)) Et).
  - destruct (H2 s Hok) as ([] & s' & -> & Hg). eexists tt, (Cons false s'). cbn [vterm_initialized tty_of].
    destruct Hg as (A & B & Et).
    split; [reflexivity|]. exact (conj (conj A (conj B eq_refl)) Et).
Qed.

#[export, refine] Instance vterm_console_laws : ConsoleLaws console := {| con_ok := cons_ok; con_text := cons_text |}.
Proof.
  - intros l c. apply tri_on_console; [intros id Hid; by apply tri_putchar|]. apply tri_serial_one.
  - intros l cs. apply tri_on_console; [intros id Hid; by apply tri_write|]. apply tri_serial_chars.
  - intros l v _. apply tri_on_console; [intros id Hid; by apply tri_write_dec|]. unfold dec_text.
    destruct (v =? 0); [apply tri_serial_one|apply tri_serial_chars].
  - intros l fg bg. pose proof (tri_on_console (fun vt => vterm_set_color vt fg bg) (mret tt) l []) as H.
    rewrite app_nil_r in H. apply H; [intros id Hid; by apply tri_set_color|by apply tri_ret].
  - intros l. pose proof (tri_on_console vterm_clear (mret tt) l []) as H.
    rewrite app_nil_r in H. apply H; [intros id Hid; by apply tri_clear|by apply tri_ret].
Defined.

(** ** Properties *)

(** C7: the virtual terminals are safe.  After [vterm_init] every sequence of
    operations, scan codes included, returns: no access leaves a buffer, the cursors
    and scroll offsets stay in range, exactly the active terminal carries the flag,
    and the screen shows the window of the active terminal. *)
Theorem vterm_safe s0 ms :
  Z.of_nat (length (serial_buffer (uart s0))) < SERIAL_BUFFER_SIZE -> log_wf (klog s0) -> Forall public ms ->
  exists s, run_all (vterm_init :: ms) s0 = Some (tt, s) /\ tty_wf s /\ screen_ok s.
Proof.
  intros Hu Hk Hms. assert (H : tri (fun s => s = s0) (run_all (vterm_init :: ms)) (fun _ => sound)).
  - cbn [run_all]. eapply (tri_bind _ _ _ (fun _ => sound)).
    + intros s ->. destruct (tri_init (uart_text (uart s0)) s0) as (a & s & E & Hg); [done|].
      exists a, s. split; [done|]. by eexists.
    + intros _. induction Hms as [|m ms Hm _ IH]; cbn [run_all]; [by apply tri_ret|].
      eapply tri_bind; [by apply public_sound|]. intros []. exact IH.
  - destruct (H s0 eq_refl) as ([] & s & E & l & Hw & Hs & _). by exists s.
Qed.

(** Typing a string on a terminal. *)
Fixpoint type_all (t : vterm) (cs : list Z) : option vterm :=
  match cs with [] => Some t | c :: cs => t ← type_char t c; type_all t cs end.

Lemma type_printable t c :
  vt_wf t -> 32 <= c < 127 -> cursor_col t + 1 < VTERM_WIDTH ->
  exists n, type_char t c = Some (Vterm (<[Z.to_nat (cursor_row t * 80 + cursor_col t) := vga_entry c (color t)]> (buffer t))
    (cursor_row t) (cursor_col t + 1) 0 n (color t) (owner_pid t) (active t) (vname t)).
Proof.
  intros Hw Hc Hcol. assert (Hw0 : vt_wf (set_offset t 0)) by (apply vt_wf_offset; [done|unfold back; lia]).
  unfold type_char. replace (c =? 10) with false by lia. replace (c =? 13) with false by lia.
  replace (c =? 8) with false by lia. replace (c =? 9) with false by lia.
  replace ((32 <=? c) && (c <? 127)) with true by lia. rewrite put_cell_spec by done. cbn [mbind option_bind].
  cbn [cursor_col set_col set_buffer set_offset]. replace (VTERM_WIDTH <=? cursor_col t + 1) with false by lia.
  cbn [mbind option_bind]. unfold count_line. by destruct (_ <? _); eexists.
Qed.

(** text appears where the cursor is.  Printable characters that fit on the
    line are stored in consecutive cells from the cursor on, in the terminal's
    colour; the cursor moves behind them and no other cell changes. *)
Theorem vterm_text_at_cursor t cs :
  vt_wf t -> Forall (fun c => 32 <= c < 127) cs -> cursor_col t + Z.of_nat (length cs) < VTERM_WIDTH ->
  exists t', type_all t cs = Some t' /\ vt_wf t' /\
    cursor_row t' = cursor_row t /\ cursor_col t' = cursor_col t + Z.of_nat (length cs) /\ color t' = color t /\
    buffer t' = splice (buffer t) (Z.to_nat (cursor_row t * 80 + cursor_col t)) ((fun c => vga_entry c (color t)) <$> cs).
Proof.
  intros Hw Hcs. revert t Hw. induction Hcs as [|c cs Hc _ IH]; intros t Hw Hlen.
  - exists t. split; [done|]. split; [done|]. split; [done|]. cbn [length] in *. split; [lia|]. split; [done|].
    unfold splice. cbn. by rewrite Nat.add_0_r, take_drop.
  - cbn [length] in Hlen. destruct (type_printable t c) as (n & E); [done|done|lia|].
    destruct (type_char_spec t c Hw) as (t1 & E1 & Hw1 & _). rewrite E1 in E. injection E as ->.
    set (t1 := Vterm _ _ _ _ _ _ _ _ _) in *.
    destruct (IH t1 Hw1) as (t2 & E2 & Hw2 & Hr & Hc2 & Hk & Hb); [cbn; lia|].
    exists t2. cbn [type_all mbind option_bind]. rewrite E1. split; [exact E2|]. split; [done|]. cbn [t1 cursor_row cursor_col color buffer] in *.
    split; [done|]. split; [cbn [length]; lia|]. split; [done|]. rewrite Hb. clear - Hw.
    destruct Hw as [Hl Hrw Hcl _ _]. pose proof LINES_Z. vfold.
    replace (Z.to_nat (cursor_row t * 80 + (cursor_col t + 1))) with (S (Z.to_nat (cursor_row t * 80 + cursor_col t))) by lia.
    set (p := Z.to_nat _). assert (Hp : (p < length (buffer t))%nat) by (unfold p; lia).
    unfold splice. rewrite fmap_cons, take_insert_end, drop_insert_lt by lia. rewrite <- app_assoc. cbn [app length].
    by rewrite !length_fmap, Nat.add_succ_r.
Qed.

Lemma count_line_fields v :
  buffer (count_line v) = buffer v /\ cursor_row (count_line v) = cursor_row v /\ cursor_col (count_line v) = cursor_col v.
Proof. unfold count_line. by destruct (_ <? _). Qed.

Lemma newline_bottom t :
  vt_wf t -> cursor_row t = VTERM_SCROLLBACK - 1 ->
  exists n, type_char t 10 = Some (count_line (Vterm (drop 80 (buffer t) ++ replicate 80 (vga_entry 32 (color t)))
    199 0 0 n (color t) (owner_pid t) (active t) (vname t))).
Proof.
  intros Hw Hr. unfold type_char, next_row. cbn [Z.eqb cursor_row set_row set_col set_offset].
  rewrite Hr. change (VTERM_SCROLLBACK <=? u32 (VTERM_SCROLLBACK - 1 + 1)) with true. cbv iota.
  rewrite vterm_scroll_spec by apply Hw. by eexists.
Qed.

(** a newline on the last line scrolls: every row moves up by one, the last row
    is blank in the terminal's colour, and the cursor is at its start. *)
Theorem vterm_newline_scrolls t :
  vt_wf t -> cursor_row t = VTERM_SCROLLBACK - 1 ->
  exists t', type_char t 10 = Some t' /\ vt_wf t' /\ cursor_row t' = VTERM_SCROLLBACK - 1 /\ cursor_col t' = 0 /\
    (forall r, (r < 199)%nat -> slice (buffer t') (r * 80) 80 = slice (buffer t) (S r * 80) 80) /\
    slice (buffer t') (199 * 80) 80 = replicate 80 (vga_entry 32 (color t)).
Proof.
  intros Hw Hr. destruct (type_char_spec t 10 Hw) as (t' & E & Hw' & _). destruct (newline_bottom t Hw Hr) as (n & E').
  rewrite E in E'. injection E' as Et. destruct Hw as [Hl _ _ _ _]. pose proof LINES_Z.
  exists t'. split; [done|]. split; [done|]. rewrite Et.
  match goal with |- context [count_line ?v] => destruct (count_line_fields v) as (-> & -> & ->) end.
  cbn [buffer cursor_row cursor_col]. split; [done|]. split; [done|]. split.
  - intros r Hlt. unfold slice. rewrite drop_app_le, take_app_le, drop_drop by (rewrite ?length_drop; lia).
    do 2 f_equal.
  - unfold slice. rewrite drop_app_ge, length_drop by (rewrite length_drop; lia).
    replace (199 * 80 - (length (buffer t) - 80))%nat with 0%nat by lia. rewrite drop_0. apply take_ge.
    by rewrite length_replicate.
Qed.

(** the console is a refinement of its transcript.  Before and after
    [console_init], whatever is printed, in whatever colours, the bytes given to the
    serial line are those that printing to a plain list gives. *)
Theorem console_refines_transcript c ops :
  cons_ok c -> Forall op_ok ops ->
  exists c', run_ops ops c = Some (tt, c') /\ cons_ok c' /\
    run_ops ops (cons_text c : teletype) = Some (tt, cons_text c').
Proof.
  intros Hc Hops. destruct (run_ops_text ops (cons_text c) Hops c) as ([] & c' & E & Hok & Ht); [by split|].
  destruct (run_ops_text (C := teletype) ops (cons_text c) Hops (cons_text c)) as ([] & l & El & _ & Hl); [done|].
  exists c'. split; [done|]. split; [done|]. rewrite El. do 2 f_equal. cbn in Hl. rewrite Hl. by rewrite <- Ht.
Qed.

(** ** A terminal in use *)

Definition power_on : tty :=
  Tty (replicate 4 (Vterm (replicate LINES 0) 0 0 0 0 0 0 false [])) 0 [] [] false (Serial [] []) log_init 5.

Lemma power_on_unready : unready [] power_on.
Proof. by split; [|split; [apply log_init_wf|]]. Qed.

Definition session : list (T unit) :=
  [vterm_write (Some 0) (str "ok" ++ [NL]); (_ ← vterm_handle_switch 56; mret tt); (_ ← vterm_handle_switch 60; mret tt);
   vterm_putchar (Some 1) 65].

Lemma session_public : Forall public session.
Proof. repeat constructor; done. Qed.

Lemma vterm_safe_witness : exists s, run_all (vterm_init :: session) power_on = Some (tt, s) /\ tty_wf s /\ screen_ok s.
Proof. exact (vterm_safe power_on session ltac:(reflexivity) log_init_wf session_public). Defined.

Lemma vterm_text_at_cursor_witness : exists t', type_all (fresh_term 0 (str "console")) (str "hi") = Some t' /\
  cursor_col t' = 0 + Z.of_nat (length (str "hi")).
Proof.
  assert (Hp : Forall (fun c => 32 <= c < 127) (str "hi")) by (repeat constructor; discriminate).
  assert (Hl : cursor_col (fresh_term 0 (str "console")) + Z.of_nat (length (str "hi")) < VTERM_WIDTH) by reflexivity.
  destruct (vterm_text_at_cursor (fresh_term 0 (str "console")) (str "hi") (fresh_term_wf _ _) Hp Hl)
    as (t' & E & _ & _ & Hc & _).
  exact (ex_intro _ t' (conj E Hc)).
Defined.

Definition full_term : vterm := set_row (fresh_term 0 []) (VTERM_SCROLLBACK - 1).

Lemma full_term_wf : vt_wf full_term.
Proof.
  destruct (fresh_term_wf 0 []) as [H _ _ _ _]. unfold full_term. split; [exact H|..];
    cbn [set_row fresh_term cursor_row cursor_col scroll_offset total_lines]; vfold; lia.
Qed.

Lemma vterm_newline_scrolls_witness : exists t', type_char full_term 10 = Some t' /\ cursor_row t' = VTERM_SCROLLBACK - 1.
Proof.
  destruct (vterm_newline_scrolls full_term full_term_wf eq_refl) as (t' & E & _ & Hr & _).
  exact (ex_intro _ t' (conj E Hr)).
Defined.

Lemma console_refines_transcript_witness : exists c',
  run_ops [CWrite (str "v="); CDec 42; CColor 1 2; CPut NL] (Cons false power_on) = Some (tt, c') /\
  cons_text c' = str "v=42" ++ [NL].
Proof.
  assert (Hops : Forall op_ok [CWrite (str "v="); CDec 42; CColor 1 2; CPut NL]) by (repeat constructor; discriminate).
  destruct (console_refines_transcript (Cons false power_on) _ power_on_unready Hops) as (c' & E & _ & El).
  exists c'. split; [exact E|]. cbn in El. injection El as El. exact (eq_sym El).
Defined.
