(* ===== verification/Keyboard.v ===== *)
(** drivers/input/keyboard.c: the keyboard interrupt handler and its ring of 256
    characters.

    The scan code that [keyboard_callback] reads from the port is an argument.  The
    handler passes scan codes to the terminals first (Vterm.vterm_handle_switch), so
    the state contains theirs.  [pending] is the abstract state: the characters typed
    and not read yet. *)

From S2P Require Import Prelude Effects Console Log Vterm.
Local Open Scope Z_scope.

(** ** Definitions *)

Definition KEYBOARD_BUFFER_SIZE : Z := 256.
Definition KEY_ARROW_UP : Z := 128.
Definition KEY_ARROW_DOWN : Z := 129.
Definition KEY_ARROW_LEFT : Z := 130.
Definition KEY_ARROW_RIGHT : Z := 131.
Definition KEY_HOME : Z := 132.
Definition KEY_END : Z := 133.

Definition scancode_ascii : list Z :=
  [0; 27] ++ str "1234567890-=" ++ [8; 9] ++ str "qwertyuiop[]" ++ [10; 0] ++ str "asdfghjkl;'`" ++ [0; 92] ++
  str "zxcvbnm,./" ++ [0] ++ str "*" ++ [0] ++ str " " ++ [0].
Definition scancode_shift : list Z :=
  [0; 27] ++ str "!@#$%^&*()_+" ++ [8; 9] ++ str "QWERTYUIOP{}" ++ [10; 0] ++ str "ASDFGHJKL:" ++ [34] ++ str "~" ++ [0] ++ str "|" ++
  str "ZXCVBNM<>?" ++ [0] ++ str "*" ++ [0] ++ str " " ++ [0].

Record keyboard := Keyboard {
  key_buffer : list Z;
  buffer_head : Z;
  buffer_tail : Z;
  shift_pressed : bool;
  extended_scancode : bool;
  kb_tty : tty
}.

Definition set_shift (s : keyboard) b := Keyboard (key_buffer s) (buffer_head s) (buffer_tail s) b (extended_scancode s) (kb_tty s).
Definition set_extended (s : keyboard) b := Keyboard (key_buffer s) (buffer_head s) (buffer_tail s) (shift_pressed s) b (kb_tty s).

Definition KB (A : Type) : Type := ST keyboard A.
Definition kb_terminals {A} (m : T A) : KB A :=
  zoom kb_tty (fun t s => Keyboard (key_buffer s) (buffer_head s) (buffer_tail s) (shift_pressed s) (extended_scancode s) t) m.

(** [next_tail] and the store, when the ring is not full. *)
Definition push_key (c : Z) : KB unit :=
  s ← sget;
  let next_tail := u32 (buffer_tail s + 1) mod KEYBOARD_BUFFER_SIZE in
  if negb (next_tail =? buffer_head s) then
    b ← sopt (aset (key_buffer s) (buffer_tail s) c);
    smod (fun s => Keyboard b (buffer_head s) next_tail (shift_pressed s) (extended_scancode s) (kb_tty s))
  else mret tt.

(** The [switch] on an extended scan code; 0 when it is none of them. *)
Definition special_key (scancode : Z) : Z :=
  if scancode =? 72 then KEY_ARROW_UP else if scancode =? 80 then KEY_ARROW_DOWN else
  if scancode =? 75 then KEY_ARROW_LEFT else if scancode =? 71 then KEY_HOME else
  if scancode =? 79 then KEY_END else 0.

(** The end of the handler: the tables. *)
Definition plain_key (scancode : Z) : KB unit :=
  if scancode <? Z.of_nat (length scancode_ascii) then
    s ← sget;
    c ← sopt (aget (if shift_pressed s then scancode_shift else scancode_ascii) scancode);
    if negb (c =? 0) then push_key c else mret tt
  else mret tt.

Definition keyboard_callback (scancode : Z) : KB unit :=
  if scancode =? 224 then smod (fun s => set_extended s true) else
  if (scancode =? 42) || (scancode =? 54) then smod (fun s => set_extended (set_shift s true) false) else
  if (scancode =? 170) || (scancode =? 182) then smod (fun s => set_extended (set_shift s false) false) else
  if negb (Z.land scancode 128 =? 0) then smod (fun s => set_extended s false) else
  s ← sget;
  if extended_scancode s then
    _ ← smod (fun s => set_extended s false);
    if negb (special_key scancode =? 0) then push_key (special_key scancode) else
    handled ← kb_terminals (vterm_handle_switch scancode);
    if handled : bool then mret tt else plain_key scancode
  else
    handled ← kb_terminals (vterm_handle_switch scancode);
    if handled : bool then mret tt else plain_key scancode.

(** The registration of the handler is not part of the state. *)
Definition keyboard_init : KB unit :=
  smod (fun s => Keyboard (key_buffer s) 0 0 (shift_pressed s) (extended_scancode s) (kb_tty s)).

Definition keyboard_has_data (s : keyboard) : bool := negb (buffer_head s =? buffer_tail s).

(** [None] while the caller halts, waiting for an interrupt. *)
Definition keyboard_getchar : KB (option Z) :=
  s ← sget;
  if buffer_head s =? buffer_tail s then mret None else
  c ← sopt (aget (key_buffer s) (buffer_head s));
  _ ← smod (fun s => Keyboard (key_buffer s) (u32 (buffer_head s + 1) mod KEYBOARD_BUFFER_SIZE) (buffer_tail s)
                              (shift_pressed s) (extended_scancode s) (kb_tty s));
  mret (Some c).

(** ** Specification *)

Definition slots (s : keyboard) : Z := (buffer_tail s - buffer_head s) mod KEYBOARD_BUFFER_SIZE.

(** The characters typed and not read, oldest first. *)
Definition pending (s : keyboard) : list Z :=
  (fun i => default 0 (key_buffer s !! Z.to_nat ((buffer_head s + i) mod KEYBOARD_BUFFER_SIZE))) <$> seqZ 0 (slots s).

Record kb_wf (s : keyboard) : Prop := {
  kw_length : Z.of_nat (length (key_buffer s)) = KEYBOARD_BUFFER_SIZE;
  kw_head : 0 <= buffer_head s < KEYBOARD_BUFFER_SIZE;
  kw_tail : 0 <= buffer_tail s < KEYBOARD_BUFFER_SIZE;
  kw_tty : sound (kb_tty s)
}.

(** The character a scan code stands for, if any: with [extended] after 0xE0,
    [handled] when the terminals take it. *)
Definition decoded (shift extended handled : bool) (scancode : Z) : option Z :=
  if 128 <=? scancode then None else
  if (scancode =? 42) || (scancode =? 54) then None else
  if extended && negb (special_key scancode =? 0) then Some (special_key scancode) else
  if handled then None else
  c ← (if shift then scancode_shift else scancode_ascii) !! Z.to_nat scancode;
  if c =? 0 then None else Some c.

(** Whether the terminals take the scan code. *)
Definition handles (s : keyboard) (scancode : Z) : bool :=
  match vterm_handle_switch scancode (kb_tty s) with Some (b, _) => b | None => false end.

(** A character joins the queue when fewer than 255 are waiting. *)
Definition enqueue (q : list Z) (o : option Z) : list Z :=
  match o with Some c => if Z.of_nat (length q) <? KEYBOARD_BUFFER_SIZE - 1 then q ++ [c] else q | None => q end.

(** ** The ring *)

Lemma length_pending s : length (pending s) = Z.to_nat (slots s).
Proof. unfold pending. by rewrite length_fmap, length_seqZ. Qed.

Lemma slots_range s : 0 <= slots s < KEYBOARD_BUFFER_SIZE.
Proof. apply Z.mod_pos_bound. done. Qed.

Lemma pending_ext s s' :
  buffer_head s' = buffer_head s -> slots s' = slots s -> key_buffer s' = key_buffer s -> pending s' = pending s.
Proof. intros Hh Hs Hk. unfold pending. by rewrite Hh, Hs, Hk. Qed.

(** The ring after a store of [c] at the tail. *)
Definition pushed (s : keyboard) (c : Z) : keyboard :=
  Keyboard (<[Z.to_nat (buffer_tail s) := c]> (key_buffer s)) (buffer_head s) ((buffer_tail s + 1) mod KEYBOARD_BUFFER_SIZE)
           (shift_pressed s) (extended_scancode s) (kb_tty s).

Lemma pending_pushed s c :
  kb_wf s -> slots s < KEYBOARD_BUFFER_SIZE - 1 -> pending (pushed s c) = pending s ++ [c].
Proof.
  intros [Hl Hh Ht _] Hs. unfold KEYBOARD_BUFFER_SIZE in *.
  assert (Hsl : slots (pushed s c) = slots s + 1).
  { unfold slots, pushed, KEYBOARD_BUFFER_SIZE in *. cbn [buffer_head buffer_tail]. zdm. }
  unfold pending. rewrite Hsl. cbn [pushed buffer_head key_buffer]. pose proof (slots_range s) as Hr. unfold KEYBOARD_BUFFER_SIZE in *.
  rewrite seqZ_app, fmap_app by lia. f_equal.
  - apply list_fmap_ext. intros k i Hi. apply lookup_seqZ in Hi as [-> Hi].
    rewrite list_lookup_insert_ne; [done|]. unfold slots, KEYBOARD_BUFFER_SIZE in *. zdm.
  - rewrite seqZ_1. cbn [fmap list_fmap]. replace (Z.to_nat ((buffer_head s + (0 + slots s)) mod 256)) with (Z.to_nat (buffer_tail s)).
    { rewrite list_lookup_insert_eq by lia. done. } unfold slots, KEYBOARD_BUFFER_SIZE. zdm.
Qed.

Lemma pushed_wf s c : kb_wf s -> kb_wf (pushed s c).
Proof.
  intros [Hl Hh Ht Hs]. split; cbn [pushed key_buffer buffer_head buffer_tail kb_tty]; [by rewrite length_insert|done| |done].
  unfold KEYBOARD_BUFFER_SIZE in *. zdm.
Qed.

(** What the handler does to the rest of the state does not touch the ring. *)
Definition same_ring (s s' : keyboard) : Prop :=
  key_buffer s' = key_buffer s /\ buffer_head s' = buffer_head s /\ buffer_tail s' = buffer_tail s.

Lemma same_ring_pending s s' : same_ring s s' -> pending s' = pending s.
Proof. intros (Hk & Hh & Ht). apply pending_ext; [done| |done]. unfold slots. by rewrite Hh, Ht. Qed.

Lemma push_key_spec s c :
  kb_wf s -> exists s', push_key c s = Some (tt, s') /\ kb_wf s' /\ pending s' = enqueue (pending s) (Some c).
Proof.
  intros Hw. pose proof Hw as [Hl Hh Ht _]. pose proof (slots_range s). cbn [enqueue]. rewrite length_pending, Z2Nat.id by lia.
  unfold push_key. rewrite (run_bind sget _ s s s eq_refl). unfold KEYBOARD_BUFFER_SIZE in *. rewrite u32_small by lia.
  assert (Hfull : (buffer_tail s + 1) mod 256 = buffer_head s <-> slots s = 255) by (unfold slots, KEYBOARD_BUFFER_SIZE; zdm).
  destruct (Z.eqb_spec ((buffer_tail s + 1) mod 256) (buffer_head s)) as [E|E]; cbn [negb].
  - exists s. split; [done|]. split; [done|]. by replace (slots s <? 256 - 1) with false by lia.
  - exists (pushed s c). split; [|split; [by apply pushed_wf|]].
    + by rewrite aset_some by lia.
    + replace (slots s <? 256 - 1) with true by lia. apply pending_pushed; [done|]. unfold KEYBOARD_BUFFER_SIZE. lia.
Qed.

(** ** The handler *)

Lemma tables_same_length : length scancode_shift = length scancode_ascii.
Proof. reflexivity. Qed.

Lemma plain_key_spec s sc :
  kb_wf s -> 0 <= sc ->
  exists s', plain_key sc s = Some (tt, s') /\ kb_wf s' /\
    pending s' = enqueue (pending s)
      (c ← (if shift_pressed s then scancode_shift else scancode_ascii) !! Z.to_nat sc; if c =? 0 then None else Some c).
Proof.
  intros Hw Hsc. unfold plain_key. set (table := if shift_pressed s then scancode_shift else scancode_ascii).
  assert (Hlen : length table = length scancode_ascii) by (unfold table; by destruct (shift_pressed s)).
  destruct (Z.ltb_spec sc (Z.of_nat (length scancode_ascii))) as [Hlt|Hge].
  - rewrite (run_bind sget _ s s s eq_refl). fold table. destruct (aget_some table sc) as (c & Eg & Ec); [lia|].
    rewrite Eg, Ec. cbn [mbind option_bind]. rewrite (run_bind (sopt (Some c)) _ s c s eq_refl).
    destruct (c =? 0); cbn [negb]; [by exists s|by apply push_key_spec].
  - exists s. split; [done|]. split; [done|]. by rewrite (lookup_ge_None_2 table) by lia.
Qed.

Lemma handle_switch_spec s sc :
  kb_wf s -> exists t, vterm_handle_switch sc (kb_tty s) = Some (handles s sc, t) /\ sound t.
Proof.
  intros Hw. destruct (kw_tty s Hw) as [l Hg]. destruct (tri_handle_switch sc l (kb_tty s) Hg) as (b & t & E & Hg').
  exists t. unfold handles. rewrite E. split; [done|]. by exists l.
Qed.

(** The common tail of the handler: the terminals, then the tables. *)
Lemma handled_or_plain s sc :
  kb_wf s -> 0 <= sc < 128 ->
  exists s', (handled ← kb_terminals (vterm_handle_switch sc); if handled : bool then mret tt else plain_key sc) s = Some (tt, s') /\
    kb_wf s' /\ pending s' = enqueue (pending s) (if handles s sc then None else
      c ← (if shift_pressed s then scancode_shift else scancode_ascii) !! Z.to_nat sc; if c =? 0 then None else Some c).
Proof.
  intros Hw Hsc. destruct (handle_switch_spec s sc Hw) as (t & E & Ht).
  set (s1 := Keyboard (key_buffer s) (buffer_head s) (buffer_tail s) (shift_pressed s) (extended_scancode s) t).
  assert (Er : kb_terminals (vterm_handle_switch sc) s = Some (handles s sc, s1)) by (unfold kb_terminals, zoom; by rewrite E).
  rewrite (run_bind _ _ s _ s1 Er). assert (Hw1 : kb_wf s1) by (by destruct Hw).
  destruct (handles s sc).
  - exists s1. split; [done|]. by split.
  - destruct (plain_key_spec s1 sc Hw1) as (s' & E' & Hw' & Hp); [lia|]. exists s'. by split; [|split].
Qed.

Lemma break_bit sc : 0 <= sc < 256 -> (Z.land sc 128 =? 0) = negb (128 <=? sc).
Proof.
  intros Hs. pose proof (land_pow2_eq0 sc 7 ltac:(lia)) as H. change (Z.shiftl 1 7) with 128 in H.
  assert (Hb : Z.testbit sc 7 = (128 <=? sc)).
  { rewrite Z.testbit_eqb by lia. change (2 ^ 7) with 128. destruct (Z.leb_spec 128 sc); [|rewrite Z.div_small by lia; done].
    replace (sc / 128) with 1 by zdm. done. }
  rewrite Hb in H. destruct (Z.leb_spec 128 sc); cbn [negb]; [|by apply Z.eqb_eq, H].
  apply Z.eqb_neq. intros E. apply H in E. discriminate.
Qed.

Lemma callback_spec s sc :
  kb_wf s -> 0 <= sc < 256 ->
  exists s', keyboard_callback sc s = Some (tt, s') /\ kb_wf s' /\
    pending s' = enqueue (pending s) (decoded (shift_pressed s) (extended_scancode s) (handles s sc) sc).
Proof.
  intros Hw Hsc. unfold keyboard_callback, decoded.
  assert (Hflags : forall f, (forall s, same_ring s (f s) /\ kb_tty (f s) = kb_tty s) ->
    exists s', smod f s = Some (tt, s') /\ kb_wf s' /\ pending s' = pending s).
  { intros f Hf. exists (f s). split; [done|]. destruct (Hf s) as [Hr Ht]. split; [|by apply same_ring_pending].
    destruct Hr as (Hk & Hh & Htl), Hw as [A B C D]. split; congruence. }
  destruct (Z.eqb_spec sc 224) as [->|_]; [by apply Hflags|].
  destruct ((sc =? 42) || (sc =? 54)) eqn:Eshift.
  { replace (128 <=? sc) with false by lia. by apply Hflags. }
  destruct ((sc =? 170) || (sc =? 182)) eqn:Eunshift.
  { replace (128 <=? sc) with true by lia. by apply Hflags. }
  rewrite break_bit, negb_involutive by done.
  destruct (Z.leb_spec 128 sc); [by apply Hflags|].
  rewrite (run_bind sget _ s s s eq_refl). destruct (extended_scancode s) eqn:Eext; cbn [andb]; [|apply handled_or_plain; [done|lia]].
  set (s1 := set_extended s false). rewrite (run_bind (smod (fun s => set_extended s false)) _ s tt s1 eq_refl).
  assert (Hw1 : kb_wf s1) by (by destruct Hw). destruct (special_key sc =? 0); cbn [negb].
  - destruct (handled_or_plain s1 sc Hw1) as (s' & E & Hw' & Hp); [lia|]. exists s'. by split; [|split].
  - by apply (push_key_spec s1).
Qed.

(** C29: the keyboard is a queue of decoded characters.  Each interrupt adds the
    character its scan code stands for (none for a break code, a modifier or a scan
    code that the terminals take) to the characters waiting, unless 255 are waiting;
    the handler never leaves its arrays. *)
Theorem keyboard_callback_enqueues s sc :
  kb_wf s -> 0 <= sc < 256 ->
  exists s', keyboard_callback sc s = Some (tt, s') /\ kb_wf s' /\
    pending s' = enqueue (pending s) (decoded (shift_pressed s) (extended_scancode s) (handles s sc) sc).
Proof. apply callback_spec. Qed.

Lemma getchar_spec s :
  kb_wf s ->
  match pending s with
  | [] => keyboard_has_data s = false /\ keyboard_getchar s = Some (None, s)
  | c :: q => keyboard_has_data s = true /\
      exists s', keyboard_getchar s = Some (Some c, s') /\ kb_wf s' /\ pending s' = q /\ kb_tty s' = kb_tty s
  end.
Proof.
  intros Hw. pose proof Hw as [Hl Hh Ht Htty]. pose proof (slots_range s) as Hr.
  assert (He : slots s = 0 <-> buffer_head s = buffer_tail s) by (unfold slots, KEYBOARD_BUFFER_SIZE in *; zdm).
  unfold keyboard_has_data, keyboard_getchar. rewrite (run_bind sget _ s s s eq_refl). unfold pending.
  destruct (Z.eqb_spec (buffer_head s) (buffer_tail s)) as [E|E].
  { by rewrite (proj2 He E). }
  assert (Hpos : 0 < slots s) by lia. rewrite seqZ_cons by done. cbn [fmap list_fmap negb].
  rewrite Z.add_0_r. unfold KEYBOARD_BUFFER_SIZE in *. rewrite Z.mod_small by lia.
  destruct (aget_some (key_buffer s) (buffer_head s)) as (c & Eg & Ec); [lia|]. rewrite Eg, Ec. cbn [default].
  split; [done|].
  exists (Keyboard (key_buffer s) ((buffer_head s + 1) mod 256) (buffer_tail s) (shift_pressed s) (extended_scancode s) (kb_tty s)).
  split; [unfold mbind, ST_bind, sopt, smod, mret, ST_ret; cbv beta iota; by rewrite u32_small by lia|].
  split; [split; cbn [key_buffer buffer_head buffer_tail kb_tty]; unfold KEYBOARD_BUFFER_SIZE; try done; zdm|].
  split; [|done]. unfold pending. assert (Hsl : slots (Keyboard (key_buffer s) ((buffer_head s + 1) mod 256) (buffer_tail s)
    (shift_pressed s) (extended_scancode s) (kb_tty s)) = Z.pred (slots s)).
  { unfold slots, KEYBOARD_BUFFER_SIZE in *. cbn [buffer_head buffer_tail]. zdm. }
  rewrite Hsl. change (Z.succ 0) with (1 + 0). rewrite <- (fmap_add_seqZ 1 0 (Z.pred (slots s))), <- list_fmap_compose. apply list_fmap_ext. intros k i _.
  cbn [compose key_buffer buffer_head]. unfold compose. do 3 f_equal. unfold KEYBOARD_BUFFER_SIZE. zdm.
Qed.

(** [keyboard_getchar] returns the oldest character waiting and removes it, and
    waits exactly when none is. *)
Theorem keyboard_getchar_dequeues s :
  kb_wf s ->
  match pending s with
  | [] => keyboard_has_data s = false /\ keyboard_getchar s = Some (None, s)
  | c :: q => keyboard_has_data s = true /\
      exists s', keyboard_getchar s = Some (Some c, s') /\ kb_wf s' /\ pending s' = q
  end.
Proof.
  intros Hw. pose proof (getchar_spec s Hw) as Hs. destruct (pending s) as [|c q]; [done|].
  destruct Hs as (Hd & s' & E & Hw' & Hq & _). split; [done|]. by exists s'.
Qed.

(** ** A keyboard in use *)

Definition tty0 : tty := match vterm_init power_on with Some (_, s) => s | None => power_on end.

Lemma tty0_sound : sound tty0.
Proof.
  destruct (tri_init [] power_on power_on_unready) as ([] & s & E & Hg). unfold tty0. rewrite E. by exists [].
Qed.

Definition kb0 : keyboard := Keyboard (replicate (Z.to_nat KEYBOARD_BUFFER_SIZE) 0) 0 0 false false tty0.

Lemma kb0_wf : kb_wf kb0.
Proof. split; [reflexivity|done|done|exact tty0_sound]. Qed.

Lemma keyboard_callback_enqueues_witness : exists s', keyboard_callback 30 kb0 = Some (tt, s') /\ kb_wf s' /\ pending s' = [97].
Proof.
  assert (H30 : 0 <= 30 < 256) by lia.
  exact (keyboard_callback_enqueues kb0 30 kb0_wf H30).
Defined.

Lemma keyboard_getchar_dequeues_witness : keyboard_has_data kb0 = false /\ keyboard_getchar kb0 = Some (None, kb0).
Proof. exact (keyboard_getchar_dequeues kb0 kb0_wf). Defined.

(** The right arrow has a code in keyboard.h and is never delivered. *)
Example arrow_right_is_lost shift handled : decoded shift true handled 77 = None.
Proof. destruct shift, handled; vm_compute; reflexivity. Qed.

(** Every scan code of a letter gives it in the case that Shift selects. *)
Example shift_gives_capitals :
  Forall2 (fun a b => if (97 <=? a) && (a <=? 122) then b = a - 32 else True) scancode_ascii scancode_shift.
Proof. repeat constructor. Qed.
