(* ===== verification/Line.v ===== *)
(** ui/shell.c: the command line: its buffer, its history and the keys.

    [cmd_buffer] and [temp_buffer] are arrays of 256 bytes, and a store behind the end of
    one of them is a fault, the result [None]: the [strncpy] of the kernel stores 257
    bytes when it copies a shorter text with the bound 256, so every recall from the
    history faults.  What a command does is the parameter [execute]: Shell instantiates it.
    A key is what [keyboard_getchar] returns, as an [unsigned char]. *)

From S2P Require Import Prelude Ring Codec CString Effects Console Log Keyboard.
Local Open Scope Z_scope.

(** ** Definitions *)

Definition CMD_BUFFER_SIZE : nat := 256.
Definition MAX_ARGS : nat := 16.
Definition HISTORY_SIZE : Z := 32.

Definition BACKSPACE : Z := 8.

(** *** Arguments *)

(** [while ( *p == ' ') p++;], and the word at [p] with what follows its separator, which
    becomes its terminator. *)
Fixpoint skip_spaces (p : list Z) : list Z := match p with c :: q => if c =? 32 then skip_spaces q else p | [] => [] end.
Fixpoint take_word (p : list Z) : list Z * list Z :=
  match p with
  | [] => ([], [])
  | c :: q => if c =? 32 then ([], q) else let '(w, rest) := take_word q in (c :: w, rest)
  end.

(** The loop, with room for [room] more arguments. *)
Fixpoint parse_args_loop (room : nat) (p : list Z) : list (list Z) :=
  match room with
  | O => []
  | S room =>
      match skip_spaces p with
      | [] => []
      | q => let '(w, rest) := take_word q in w :: parse_args_loop room rest
      end
  end.
Definition parse_args (cmd : list Z) : list (list Z) := parse_args_loop MAX_ARGS cmd.

(** *** The line *)

Record line (W : Type) := Line {
  cmd_buffer : list Z;
  cmd_pos : Z;
  history : list (list Z);
  history_count : Z;
  history_pos : Z;
  temp_buffer : list Z;
  world : W
}.
Arguments Line {W}. Arguments cmd_buffer {W}. Arguments cmd_pos {W}. Arguments history {W}. Arguments history_count {W}.
Arguments history_pos {W}. Arguments temp_buffer {W}. Arguments world {W}.

Section line.
Context {W : Type} `{Console W}.
Variables (execute : list Z -> ST W unit) (timer_wait : Z -> ST W unit).
Implicit Types (s : line W).
Notation L := (ST (line W)).

Definition set_cmd s b : line W := Line b (cmd_pos s) (history s) (history_count s) (history_pos s) (temp_buffer s) (world s).
Definition set_pos s p : line W := Line (cmd_buffer s) p (history s) (history_count s) (history_pos s) (temp_buffer s) (world s).
Definition set_history s h n : line W := Line (cmd_buffer s) (cmd_pos s) h n (history_pos s) (temp_buffer s) (world s).
Definition set_history_pos s p : line W := Line (cmd_buffer s) (cmd_pos s) (history s) (history_count s) p (temp_buffer s) (world s).
Definition set_temp s b : line W := Line (cmd_buffer s) (cmd_pos s) (history s) (history_count s) (history_pos s) b (world s).
Definition set_world s w : line W := Line (cmd_buffer s) (cmd_pos s) (history s) (history_count s) (history_pos s) (temp_buffer s) w.
Definition on_world {A} (m : ST W A) : L A := zoom world (fun w s => set_world s w) m.

(** Bytes stored at an offset of an array. *)
Definition stored (b : list Z) (off : nat) (bytes : list Z) : option (list Z) :=
  if (off + length bytes <=? length b)%nat then Some (splice b off bytes) else None.
Definition store_cmd (off : nat) (bytes : list Z) : L unit := s ← sget; b ← sopt (stored (cmd_buffer s) off bytes); smod (fun s => set_cmd s b).
Definition store_temp (off : nat) (bytes : list Z) : L unit := s ← sget; b ← sopt (stored (temp_buffer s) off bytes); smod (fun s => set_temp s b).

Definition shell_prompt : ST W unit :=
  _ ← console_set_color VGA_LIGHT_GREEN VGA_BLACK; _ ← console_write (str "mexOS"); _ ← console_set_color VGA_LIGHT_GREY VGA_BLACK; console_write (str "> ").

Definition history_add (cmd : list Z) : L unit :=
  if decide (cmd = []) then mret tt else
  s ← sget;
  last ← (if 0 <? history_count s then sopt (history s !! Z.to_nat (u32 (history_count s - 1) mod HISTORY_SIZE)) else mret []);
  if (0 <? history_count s) && bool_decide (until_nul last = cmd) then mret tt else
  let idx := Z.to_nat (history_count s mod HISTORY_SIZE) in
  row ← sopt (history s !! idx);
  row ← sopt (stored row 0 (strncpy_bytes cmd (CMD_BUFFER_SIZE - 1)));
  row ← sopt (stored row (CMD_BUFFER_SIZE - 1) [0]);
  smod (fun s => set_history s (<[idx := row]> (history s)) (u32 (history_count s + 1))).

Definition rub_out : ST W unit := _ ← console_putchar BACKSPACE; _ ← console_putchar 32; console_putchar BACKSPACE.
Fixpoint clear_loop (n : nat) : L unit :=
  match n with O => mret tt | S n => _ ← on_world rub_out; _ ← smod (fun s => set_pos s (u32 (cmd_pos s - 1))); clear_loop n end.
Definition clear_line : L unit := s ← sget; clear_loop (Z.to_nat (cmd_pos s)).

Definition display_buffer : L unit :=
  s ← sget; each (fun i => c ← sopt (cmd_buffer s !! Z.to_nat i); on_world (console_putchar c)) (seqZ 0 (cmd_pos s)).

(** [cmd_pos = strlen(cmd_buffer)] *)
Definition pos_at_end : L unit := smod (fun s => set_pos s (Z.of_nat (length (until_nul (cmd_buffer s))))).

(** [strncpy(cmd_buffer, text, CMD_BUFFER_SIZE)] and its last byte. *)
Definition copy_to_cmd (text : list Z) : L unit :=
  _ ← store_cmd 0 (strncpy_bytes text CMD_BUFFER_SIZE); store_cmd (CMD_BUFFER_SIZE - 1) [0].

Definition recall (idx : Z) : L unit := s ← sget; row ← sopt (history s !! Z.to_nat idx); copy_to_cmd (until_nul row).

Definition key_enter : L unit :=
  _ ← on_world (console_putchar NL);
  s ← sget;
  _ ← store_cmd (Z.to_nat (cmd_pos s)) [0];
  s ← sget;
  let cmd := until_nul (cmd_buffer s) in
  _ ← (if negb (bool_decide (cmd = [])) then history_add cmd else mret tt);
  _ ← on_world (execute cmd);
  _ ← smod (fun s => set_pos s 0);
  _ ← store_cmd 0 (replicate CMD_BUFFER_SIZE 0);
  _ ← store_temp 0 (replicate CMD_BUFFER_SIZE 0);
  _ ← smod (fun s => set_history_pos s (i32 (history_count s)));
  on_world shell_prompt.

Definition key_backspace : L unit :=
  s ← sget;
  if 0 <? cmd_pos s then _ ← smod (fun s => set_pos s (u32 (cmd_pos s - 1))); on_world rub_out else mret tt.

Definition key_up : L unit :=
  s ← sget;
  if history_count s =? 0 then mret tt else
  _ ← (if history_pos s =? i32 (history_count s) then store_temp 0 (strncpy_bytes (until_nul (cmd_buffer s)) CMD_BUFFER_SIZE) else mret tt);
  let oldest := i32 (if HISTORY_SIZE <? history_count s then u32 (history_count s - HISTORY_SIZE) else 0) in
  if oldest <? history_pos s then
    _ ← smod (fun s => set_history_pos s (i32 (history_pos s - 1)));
    _ ← clear_line;
    s ← sget;
    _ ← recall (u32 (history_pos s) mod HISTORY_SIZE);
    _ ← pos_at_end;
    _ ← display_buffer;
    on_world (timer_wait 2)
  else mret tt.

Definition key_down : L unit :=
  s ← sget;
  if (history_count s =? 0) || (i32 (history_count s) <=? history_pos s) then mret tt else
  _ ← smod (fun s => set_history_pos s (i32 (history_pos s + 1)));
  _ ← clear_line;
  s ← sget;
  _ ← (if i32 (history_count s) <=? history_pos s then copy_to_cmd (until_nul (temp_buffer s))
       else recall (u32 (history_pos s) mod HISTORY_SIZE));
  _ ← pos_at_end;
  _ ← display_buffer;
  on_world (timer_wait 2).

Definition key_home : L unit := _ ← clear_line; smod (fun s => set_pos s 0).
Definition key_end : L unit := _ ← clear_line; _ ← pos_at_end; display_buffer.

Definition key_char (c : Z) : L unit :=
  s ← sget;
  _ ← store_cmd (Z.to_nat (cmd_pos s)) [c];
  _ ← smod (fun s => set_pos s (u32 (cmd_pos s + 1)));
  on_world (console_putchar c).

(** One turn of the loop of [shell_run]. *)
Definition shell_key (c : Z) : L unit :=
  if c =? NL then key_enter
  else if c =? BACKSPACE then key_backspace
  else if c =? KEY_ARROW_UP then key_up
  else if c =? KEY_ARROW_DOWN then key_down
  else if c =? KEY_HOME then key_home
  else if c =? KEY_END then key_end
  else s ← sget; if (32 <=? c) && (c <? 127) && (cmd_pos s <? Z.of_nat CMD_BUFFER_SIZE - 1) then key_char c else mret tt.
End line.

(** ** Specification *)

(** The line that a sequence of characters and backspaces leaves. *)
Definition edit1 (t : list Z) (c : Z) : list Z :=
  if c =? BACKSPACE then removelast t else if (length t <? CMD_BUFFER_SIZE - 1)%nat then t ++ [c] else t.
Definition edit (ks : list Z) : list Z := foldl edit1 [] ks.

(** The words of a line. *)
Fixpoint words_from (p w : list Z) : list (list Z) :=
  match p with
  | [] => match w with [] => [] | _ => [w] end
  | c :: q => if c =? 32 then match w with [] => words_from q [] | _ => w :: words_from q [] end else words_from q (w ++ [c])
  end.
Definition words (p : list Z) : list (list Z) := words_from p [].

Section specification.
Context {W : Type} `{ConsoleLaws W}.
Variables (execute : list Z -> ST W unit) (timer_wait : Z -> ST W unit).
Implicit Types (s : line W).
Notation shell_key := (shell_key execute timer_wait).

Definition oldest s : Z := Z.max 0 (history_count s - HISTORY_SIZE).
(** Command [i], and the commands that are kept, oldest first. *)
Definition command s (i : Z) : list Z := until_nul (default [] (history s !! Z.to_nat (i mod HISTORY_SIZE))).
Definition commands s : list (list Z) := command s <$> seqZ (oldest s) (history_count s - oldest s).

(** What is kept after one more command. *)
Definition remember (h : list (list Z)) (c : list Z) : list (list Z) :=
  if decide (c = [] \/ last h = Some c) then h else last_n (Z.to_nat HISTORY_SIZE) (h ++ [c]).

Definition terminated (b : list Z) (n : nat) : Prop := b !! n = Some 0.

Record line_wf s : Prop := {
  lw_cmd : length (cmd_buffer s) = CMD_BUFFER_SIZE;
  lw_cmd_end : terminated (cmd_buffer s) (CMD_BUFFER_SIZE - 1);
  lw_pos : 0 <= cmd_pos s < Z.of_nat CMD_BUFFER_SIZE;
  lw_temp : length (temp_buffer s) = CMD_BUFFER_SIZE;
  lw_temp_end : terminated (temp_buffer s) (CMD_BUFFER_SIZE - 1);
  lw_history : length (history s) = Z.to_nat HISTORY_SIZE;
  lw_rows : forall r, r ∈ history s -> length r = CMD_BUFFER_SIZE /\ terminated r (CMD_BUFFER_SIZE - 1);
  lw_count : 0 <= history_count s < 2147483648;
  lw_hpos : history_pos s = history_count s;
  lw_world : con_ok (world s)
}.

(** The line shows the text [t]. *)
Definition shows s (t : list Z) : Prop :=
  take (Z.to_nat (cmd_pos s)) (cmd_buffer s) = t /\ cmd_pos s = Z.of_nat (length t) /\ Forall (fun c => c <> 0) t.

(** ** Bytes in the buffers *)

Lemma stored_ok b off l : (off + length l <= length b)%nat -> stored b off l = Some (splice b off l).
Proof. intros Hl. unfold stored. by rewrite (proj2 (Nat.leb_le _ _) Hl). Qed.

Lemma splice_zero b n : terminated b n -> splice b n [0] = b.
Proof.
  intros Hn. unfold splice. cbn [length app]. rewrite Nat.add_1_r. by apply take_drop_middle.
Qed.

Lemma splice_one (b : list Z) n c : (n < length b)%nat -> splice b n [c] = <[n := c]> b.
Proof. intros Hn. unfold splice. cbn [length app]. rewrite Nat.add_1_r. symmetry. by apply insert_take_drop. Qed.

Lemma length_terminated b n : terminated b n -> (length (until_nul b) <= n)%nat.
Proof.
  unfold terminated. revert n. induction b as [|c b IH]; intros n Hn; [done|]. cbn. destruct (Z.eqb_spec c 0); [cbn; lia|].
  destruct n as [|n]; [by injection Hn|]. cbn in *. specialize (IH n Hn). lia.
Qed.

(** The copy of a text shorter than the array, with the size of the array as its bound,
    has a byte more than the array. *)
Lemma strncpy_overruns b text : length b = CMD_BUFFER_SIZE -> (length text < CMD_BUFFER_SIZE)%nat ->
  stored b 0 (strncpy_bytes text CMD_BUFFER_SIZE) = None.
Proof.
  intros Hb Hl. unfold stored. rewrite length_strncpy_bytes, decide_True by done. unfold CMD_BUFFER_SIZE in *.
  by rewrite (proj2 (Nat.leb_gt _ _)) by lia.
Qed.

(** ** Output *)

Lemma world_prints m l s : prints m l -> con_ok (world s) ->
  exists w, on_world m s = Some (tt, set_world s w) /\ con_ok w /\ con_text w = con_text (world s) ++ l.
Proof.
  intros Hm Hc. destruct (prints_run m l (world s) Hm Hc) as (w & E & Hw). exists w. split; [|done]. unfold on_world, zoom. by rewrite E.
Qed.

Lemma prints_rub : prints rub_out [BACKSPACE; 32; BACKSPACE].
Proof. eapply prints_eq; [unfold rub_out; prints|done]. Qed.

Lemma set_world_same s : set_world s (world s) = s.
Proof. by destruct s. Qed.

Lemma clear_loop_run n s : con_ok (world s) -> cmd_pos s = Z.of_nat n -> cmd_pos s < 4294967296 ->
  exists w, clear_loop n s = Some (tt, set_world (set_pos s 0) w) /\ con_ok w.
Proof.
  revert s. induction n as [|n IH]; intros s Hc Hp Hb; cbn [clear_loop].
  { exists (world s). split; [|done]. destruct s; cbn in *. by subst. }
  destruct (world_prints _ _ s prints_rub Hc) as (w & E & Hw & _). rewrite (run_bind _ _ _ _ _ E). cbv beta. rewrite run_mod.
  destruct (IH (set_pos (set_world s w) (u32 (cmd_pos (set_world s w) - 1)))) as (w' & E' & Hw').
  - exact Hw.
  - cbn. rewrite u32_small; lia.
  - cbn. rewrite u32_small; lia.
  - exists w'. split; [exact E'|done].
Qed.

Lemma clear_line_run s : line_wf s -> exists w, clear_line s = Some (tt, set_world (set_pos s 0) w) /\ con_ok w.
Proof.
  intros Hs. unfold clear_line. rewrite run_get. destruct (lw_pos _ Hs). unfold CMD_BUFFER_SIZE in *.
  apply clear_loop_run; [by apply Hs|lia|lia].
Qed.

Lemma display_run s : con_ok (world s) -> 0 <= cmd_pos s <= Z.of_nat (length (cmd_buffer s)) ->
  exists w, display_buffer s = Some (tt, set_world s w) /\ con_ok w.
Proof.
  intros Hc Hp. unfold display_buffer. rewrite run_get.
  assert (Hi : forall i, i ∈ seqZ 0 (cmd_pos s) -> 0 <= i < Z.of_nat (length (cmd_buffer s))) by (intros i Hi%elem_of_seqZ; lia).
  clear Hp. revert Hi. generalize (cmd_buffer s) (seqZ 0 (cmd_pos s)). intros b l Hi. revert s Hc. induction l as [|i l IH]; intros s Hc; cbn [each].
  { exists (world s). by rewrite set_world_same. }
  destruct (lookup_lt_is_Some_2 b (Z.to_nat i)) as [c Hb]; [specialize (Hi i ltac:(by left)); lia|].
  destruct (world_prints _ _ s (prints_putchar c) Hc) as (w & E & Hw & _).
  assert (E1 : (c ← sopt (b !! Z.to_nat i); on_world (console_putchar c)) s = Some (tt, set_world s w)) by (unfold sopt; by rewrite Hb).
  rewrite (run_bind _ _ _ _ _ E1). destruct (IH (fun j Hj => Hi j (list_elem_of_further _ _ _ Hj)) (set_world s w) Hw) as (w' & E' & Hw'). by exists w'.
Qed.

Lemma prefix_shows s t : cmd_pos s = Z.of_nat (length t) -> take (length t) (cmd_buffer s) = t -> Forall (fun c => c <> 0) t -> shows s t.
Proof. intros Hp Ht Hz. split; [by rewrite Hp, Nat2Z.id|done]. Qed.

(** ** The history *)

Lemma until_row r : length r = CMD_BUFFER_SIZE /\ terminated r (CMD_BUFFER_SIZE - 1) -> (length (until_nul r) < CMD_BUFFER_SIZE)%nat.
Proof. intros [_ Ht]. pose proof (length_terminated _ _ Ht). unfold CMD_BUFFER_SIZE in *. lia. Qed.

Lemma history_row s i : line_wf s -> 0 <= i -> exists r, history s !! Z.to_nat (i mod HISTORY_SIZE) = Some r /\ until_nul r = command s i /\
  length r = CMD_BUFFER_SIZE /\ terminated r (CMD_BUFFER_SIZE - 1).
Proof.
  intros Hs Hi. destruct (lookup_lt_is_Some_2 (history s) (Z.to_nat (i mod HISTORY_SIZE))) as [r Hr].
  { rewrite (lw_history _ Hs). unfold HISTORY_SIZE. zdm. }
  exists r. split; [done|]. split; [unfold command; by rewrite Hr|]. apply (lw_rows _ Hs). by eapply list_elem_of_lookup_2.
Qed.

Lemma command_ok s i : line_wf s -> 0 <= i -> (length (command s i) < CMD_BUFFER_SIZE)%nat /\ Forall (fun c => c <> 0) (command s i).
Proof.
  intros Hs Hi. destruct (history_row s i Hs Hi) as (r & _ & <- & Hr). split; [by apply until_row|apply until_nul_zeros].
Qed.

Lemma oldest_range s : line_wf s -> 0 <= oldest s <= history_count s.
Proof. intros Hs. destruct (lw_count _ Hs). unfold oldest, HISTORY_SIZE. lia. Qed.

Lemma cmd_until s : line_wf s -> (length (until_nul (cmd_buffer s)) < CMD_BUFFER_SIZE)%nat /\ Forall (fun c => c <> 0) (until_nul (cmd_buffer s)).
Proof.
  intros Hs. pose proof (length_terminated _ _ (lw_cmd_end _ Hs)). unfold CMD_BUFFER_SIZE in *. split; [lia|apply until_nul_zeros].
Qed.
(** Arrow up: the copy of the line is stored behind the end of [temp_buffer], unless
    there is no history; arrow down changes nothing. *)
Lemma up_overruns s : line_wf s -> key_up timer_wait s = if history_count s =? 0 then Some (tt, s) else None.
Proof.
  intros Hs. destruct (cmd_until s Hs) as [Hl _]. pose proof (lw_count _ Hs). unfold key_up. rewrite run_get.
  destruct (history_count s =? 0); [done|]. rewrite (i32_small (history_count s)), (lw_hpos _ Hs), Z.eqb_refl by lia.
  apply run_none. unfold store_temp. rewrite run_get. apply run_none. by rewrite strncpy_overruns by (done || apply Hs).
Qed.

Lemma down_stays s : line_wf s -> key_down timer_wait s = Some (tt, s).
Proof.
  intros Hs. pose proof (lw_count _ Hs). unfold key_down. rewrite run_get, (i32_small (history_count s)), (lw_hpos _ Hs) by lia.
  by replace ((history_count s =? 0) || (history_count s <=? history_count s)) with true by lia.
Qed.

(** ** Typing *)

(** Everything but the line being typed and the world is the same. *)
Definition same_history s s' : Prop :=
  history s' = history s /\ history_count s' = history_count s /\ history_pos s' = history_pos s /\ temp_buffer s' = temp_buffer s.

(** What is printed for a key. *)
Definition echo1 (t : list Z) (c : Z) : list Z :=
  if c =? BACKSPACE then if decide (t = []) then [] else [BACKSPACE; 32; BACKSPACE]
  else if (length t <? CMD_BUFFER_SIZE - 1)%nat then [c] else [].
Fixpoint echo (t ks : list Z) : list Z := match ks with [] => [] | c :: ks => echo1 t c ++ echo (edit1 t c) ks end.

Definition typing (c : Z) : Prop := printable c = true \/ c = BACKSPACE.

Lemma backspace_run s t : line_wf s -> shows s t -> exists s', key_backspace s = Some (tt, s') /\ line_wf s' /\ shows s' (removelast t) /\
  same_history s s' /\ con_text (world s') = con_text (world s) ++ (if decide (t = []) then [] else [BACKSPACE; 32; BACKSPACE]).
Proof.
  intros Hs (Ht & Hp & Hz). unfold key_backspace. rewrite run_get. destruct (decide (t = [])) as [->|Hne].
  { rewrite Hp. exists s. split; [done|]. split; [done|]. split; [by split|]. split; [done|by rewrite app_nil_r]. }
  assert (Hlen : (0 < length t)%nat) by (destruct t; [done|cbn; lia]). pose proof (lw_pos _ Hs) as Hpos. unfold CMD_BUFFER_SIZE in Hpos.
  replace (0 <? cmd_pos s) with true by lia. rewrite run_mod. rewrite u32_small by lia. set (s1 := set_pos s (cmd_pos s - 1)).
  destruct (world_prints _ _ s1 prints_rub (lw_world _ Hs)) as (w & E & Hw & Htw). exists (set_world s1 w). split; [exact E|].
  split; [destruct Hs; split; try done; cbn; unfold CMD_BUFFER_SIZE; lia|]. split; [|split; [done|exact Htw]].
  destruct (exists_last Hne) as (t' & c & ->). rewrite removelast_last. rewrite length_app in *. cbn [length] in *.
  apply Forall_app in Hz as [Hz _]. apply prefix_shows; [cbn; lia| |done]. cbn [set_world s1 set_pos cmd_buffer].
  replace (Z.to_nat (cmd_pos s)) with (length t' + 1)%nat in Ht by lia.
  apply (f_equal (take (length t'))) in Ht. rewrite take_take, Nat.min_l, take_app_length in Ht by lia. exact Ht.
Qed.

Lemma char_run s t c : line_wf s -> shows s t -> c <> 0 -> (length t < CMD_BUFFER_SIZE - 1)%nat ->
  exists s', key_char c s = Some (tt, s') /\ line_wf s' /\ shows s' (t ++ [c]) /\ same_history s s' /\ con_text (world s') = con_text (world s) ++ [c].
Proof.
  intros Hs (Ht & Hp & Hz) Hc Hl. unfold key_char, store_cmd. rewrite run_get. pose proof (lw_cmd _ Hs) as Hb. unfold CMD_BUFFER_SIZE in *.
  assert (Hn : Z.to_nat (cmd_pos s) = length t) by lia. rewrite Hn in *.
  set (b := <[length t := c]> (cmd_buffer s)).
  assert (E1 : (s0 ← sget; b ← sopt (stored (cmd_buffer s0) (length t) [c]); smod (fun s => set_cmd s b)) s = Some (tt, set_cmd s b)).
  { rewrite run_get, stored_ok by (cbn [length]; lia). unfold sopt. by rewrite splice_one by lia. }
  rewrite (run_bind _ _ _ _ _ E1), run_mod. change (cmd_pos (set_cmd s b)) with (cmd_pos s). rewrite u32_small by lia.
  set (s1 := set_pos (set_cmd s b) (cmd_pos s + 1)). destruct (world_prints _ _ s1 (prints_putchar c) (lw_world _ Hs)) as (w & E & Hw & Htw).
  exists (set_world s1 w). split; [exact E|]. assert (Hbl : length b = 256%nat) by (unfold b; by rewrite length_insert).
  split; [|split; [|split; [done|exact Htw]]].
  - destruct Hs. split; try done; cbn; unfold CMD_BUFFER_SIZE; try lia. unfold b, terminated. rewrite list_lookup_insert_ne by lia. exact lw_cmd_end0.
  - apply prefix_shows; [cbn; rewrite length_app; cbn; lia| |by apply Forall_app; split; [|apply Forall_singleton]].
    cbn [set_world s1 set_pos set_cmd cmd_buffer]. rewrite length_app. cbn [length]. rewrite Nat.add_1_r. unfold b. rewrite take_insert_end by lia. by rewrite Ht.
Qed.

Lemma type_run ks s t : line_wf s -> shows s t -> Forall typing ks -> exists s', each shell_key ks s = Some (tt, s') /\ line_wf s' /\
  shows s' (foldl edit1 t ks) /\ same_history s s' /\ con_text (world s') = con_text (world s) ++ echo t ks.
Proof.
  intros Hs Ht Hks. revert s t Hs Ht. induction Hks as [|c ks Hc Hks IH]; intros s t Hs Ht; cbn [each foldl echo].
  { exists s. rewrite app_nil_r. by split_and!. }
  assert (Hstep : exists s', shell_key c s = Some (tt, s') /\ line_wf s' /\ shows s' (edit1 t c) /\ same_history s s' /\
    con_text (world s') = con_text (world s) ++ echo1 t c).
  { destruct Hc as [Hc| ->]; [|apply (backspace_run s t Hs Ht)].
    assert (Hr : 32 <= c < 127) by (unfold printable in Hc; lia). unfold Line.shell_key, edit1, echo1, NL, BACKSPACE, KEY_ARROW_UP, KEY_ARROW_DOWN, KEY_HOME, KEY_END.
    repeat match goal with |- context [c =? ?b] => replace (c =? b) with false by lia end. rewrite run_get.
    replace ((32 <=? c) && (c <? 127)) with true by lia. cbn [andb]. pose proof Ht as (_ & Hp & _). rewrite Hp.
    assert (Hroom : (Z.of_nat (length t) <? Z.of_nat CMD_BUFFER_SIZE - 1) = (length t <? CMD_BUFFER_SIZE - 1)%nat).
    { unfold CMD_BUFFER_SIZE. destruct (Nat.ltb_spec (length t) (256 - 1)), (Z.ltb_spec (Z.of_nat (length t)) (Z.of_nat 256 - 1)); lia || done. }
    rewrite Hroom. destruct (Nat.ltb_spec (length t) (CMD_BUFFER_SIZE - 1)); [apply char_run; [done|done|lia|done]|].
    exists s. rewrite app_nil_r. by split_and!. }
  destruct Hstep as (s1 & E & Hs1 & Ht1 & Hh1 & Hx1). rewrite (run_bind _ _ _ _ _ E).
  destruct (IH s1 _ Hs1 Ht1) as (s2 & E2 & Hs2 & Ht2 & Hh2 & Hx2). exists s2. split; [exact E2|]. split; [done|]. split; [done|].
  split; [unfold same_history in *; intuition congruence|]. by rewrite Hx2, Hx1, <- app_assoc.
Qed.

(** ** Adding to the history *)

Lemma seqZ_end a n : 0 <= n -> seqZ a (n + 1) = seqZ a n ++ [a + n].
Proof. intros Hn. by rewrite seqZ_app, seqZ_1 by lia. Qed.

Lemma commands_last s : 0 < history_count s -> last (commands s) = Some (command s (history_count s - 1)).
Proof.
  intros Hn. unfold commands. replace (history_count s - oldest s) with (history_count s - 1 - oldest s + 1) by lia.
  rewrite seqZ_end by (unfold oldest, HISTORY_SIZE; lia). rewrite fmap_app, last_app. cbn. do 2 f_equal. lia.
Qed.

Lemma commands_push s s' c : 0 <= history_count s -> history_count s' = history_count s + 1 ->
  (forall i, oldest s' <= i < history_count s -> command s' i = command s i) -> command s' (history_count s) = c ->
  commands s' = last_n (Z.to_nat HISTORY_SIZE) (commands s ++ [c]).
Proof.
  intros Hn Hn' Hsame Hc. unfold commands. rewrite Hn'.
  replace (history_count s + 1 - oldest s') with (history_count s - oldest s' + 1) by lia.
  rewrite seqZ_end by (unfold oldest, HISTORY_SIZE; lia). rewrite fmap_app. cbn [fmap list_fmap].
  replace (oldest s' + (history_count s - oldest s')) with (history_count s) by lia. rewrite Hc.
  assert (Heq : command s' <$> seqZ (oldest s') (history_count s - oldest s') = command s <$> seqZ (oldest s') (history_count s - oldest s')).
  { apply list_fmap_ext. intros k i Hi%list_elem_of_lookup_2%elem_of_seqZ. apply Hsame. lia. }
  rewrite Heq. unfold oldest, HISTORY_SIZE in *. rewrite Hn'. change (Z.to_nat 32) with 32%nat. destruct (Z.ltb_spec (history_count s) 32).
  - replace (Z.max 0 (history_count s + 1 - 32)) with 0 by lia. replace (Z.max 0 (history_count s - 32)) with 0 by lia.
    symmetry. apply last_n_all. rewrite length_app, length_fmap, length_seqZ. cbn [length]. lia.
  - replace (Z.max 0 (history_count s + 1 - 32)) with (Z.succ (history_count s - 32)) by lia. replace (Z.max 0 (history_count s - 32)) with (history_count s - 32) by lia.
    replace (history_count s - Z.succ (history_count s - 32)) with 31 by lia. replace (history_count s - (history_count s - 32)) with 32 by lia.
    rewrite (seqZ_cons (history_count s - 32) 32) by lia. change (Z.pred 32) with 31. cbn [fmap list_fmap app].
    unfold last_n. cbn [length]. rewrite length_app, length_fmap, length_seqZ. done.
Qed.

(** The row that the copy of a command leaves. *)
Lemma row_stored row cmd : length row = CMD_BUFFER_SIZE -> (0 < length cmd < CMD_BUFFER_SIZE)%nat -> Forall (fun c => c <> 0) cmd ->
  exists row1 row2, stored row 0 (strncpy_bytes cmd (CMD_BUFFER_SIZE - 1)) = Some row1 /\ stored row1 (CMD_BUFFER_SIZE - 1) [0] = Some row2 /\
    length row2 = CMD_BUFFER_SIZE /\ terminated row2 (CMD_BUFFER_SIZE - 1) /\ until_nul row2 = cmd.
Proof.
  intros Hr Hl Hz. pose proof (length_strncpy_bytes cmd (CMD_BUFFER_SIZE - 1)) as Hn.
  set (b := strncpy_bytes cmd (CMD_BUFFER_SIZE - 1)) in *.
  assert (Hb : (length b <= CMD_BUFFER_SIZE)%nat) by (rewrite Hn; clear Hn; unfold CMD_BUFFER_SIZE; case_decide; lia).
  set (row1 := splice row 0 b). assert (Hr1 : length row1 = CMD_BUFFER_SIZE) by (unfold row1; rewrite length_splice; lia).
  exists row1, (<[(CMD_BUFFER_SIZE - 1)%nat := 0]> row1). split; [apply stored_ok; lia|].
  split; [rewrite stored_ok, splice_one by (cbn [length]; unfold CMD_BUFFER_SIZE in *; lia); done|]. split; [by rewrite length_insert|].
  split; [unfold terminated; rewrite list_lookup_insert_eq by (unfold CMD_BUFFER_SIZE in *; lia); done|].
  assert (Hpre : take (length cmd) b = cmd).
  { unfold b, strncpy_bytes. case_decide; [by apply take_app_length|]. rewrite take_take. apply take_ge. unfold CMD_BUFFER_SIZE in *. lia. }
  assert (Hcb : (length cmd <= length b)%nat) by (apply (f_equal length) in Hpre; rewrite length_take in Hpre; lia).
  assert (Hi : exists l, <[(CMD_BUFFER_SIZE - 1)%nat := 0]> row1 = cmd ++ 0 :: l); [|destruct Hi as [l ->]; by apply until_nul_app].
  assert (Ht : take (length cmd) row1 = cmd).
  { unfold row1, splice. rewrite take_0, app_nil_l, take_app_le by lia. exact Hpre. }
  exists (drop (S (length cmd)) (<[(CMD_BUFFER_SIZE - 1)%nat := 0]> row1)).
  assert (Hat : <[(CMD_BUFFER_SIZE - 1)%nat := 0]> row1 !! length cmd = Some 0).
  { destruct (decide (length cmd = (CMD_BUFFER_SIZE - 1)%nat)) as [->|Hne]; [apply list_lookup_insert_eq; unfold CMD_BUFFER_SIZE in *; lia|].
    rewrite list_lookup_insert_ne by lia. unfold row1. rewrite lookup_splice_in by (rewrite ?Hn; case_decide; unfold CMD_BUFFER_SIZE in *; lia).
    rewrite Nat.sub_0_r. unfold b, strncpy_bytes. rewrite decide_True by (unfold CMD_BUFFER_SIZE in *; lia).
    rewrite lookup_app_r, Nat.sub_diag by lia. done. }
  assert (Hp2 : take (length cmd) (<[(CMD_BUFFER_SIZE - 1)%nat := 0]> row1) = cmd) by (rewrite take_insert_ge by (unfold CMD_BUFFER_SIZE in *; lia); exact Ht).
  rewrite <- Hp2 at 1. symmetry. by apply take_drop_middle.
Qed.

Lemma history_add_run s cmd : line_wf s -> history_count s < 2147483647 -> (length cmd < CMD_BUFFER_SIZE)%nat -> Forall (fun c => c <> 0) cmd ->
  exists h n, history_add cmd s = Some (tt, set_history s h n) /\ n <= history_count s + 1 /\ line_wf (set_history_pos (set_history s h n) n) /\
    commands (set_history s h n) = remember (commands s) cmd.
Proof.
  intros Hs Hmax Hl Hz. pose proof (lw_count _ Hs) as Hcount. unfold history_add, remember. destruct (decide (cmd = [])) as [->|Hne].
  { exists (history s), (history_count s). rewrite decide_True by (by left). split; [by destruct s|]. split; [lia|]. split; [|by destruct s].
    destruct Hs. split; try done. }
  rewrite run_get. set (rest := fun last : list Z => _ : ST (line W) unit).
  assert (Elast : exists lst, (if 0 <? history_count s then sopt (history s !! Z.to_nat (u32 (history_count s - 1) mod HISTORY_SIZE)) else mret []) s = Some (lst, s) /\
    (bool_decide (last (commands s) = Some cmd) = (0 <? history_count s) && bool_decide (until_nul lst = cmd))).
  { destruct (Z.ltb_spec 0 (history_count s)).
    - rewrite u32_small by lia. destruct (history_row s (history_count s - 1) Hs ltac:(lia)) as (r & Hr & Hc & _). exists r. rewrite Hr. split; [done|].
      rewrite commands_last, <- Hc by done. cbn [andb]. apply bool_decide_ext. split; [by intros [= ->]|by intros ->].
    - exists []. split; [done|]. cbn [andb]. apply bool_decide_eq_false. unfold commands. replace (history_count s - oldest s) with 0 by (unfold oldest, HISTORY_SIZE; lia). done. }
  destruct Elast as (lst & E & Hd). rewrite (run_bind _ _ _ _ _ E). unfold rest. rewrite <- Hd. clear rest E Hd.
  case_bool_decide as Hsame.
  { exists (history s), (history_count s). rewrite decide_True by (by right). split; [by destruct s|]. split; [lia|]. split; [|by destruct s].
    destruct Hs. split; try done. }
  rewrite decide_False by tauto. destruct (history_row s (history_count s) Hs ltac:(lia)) as (row & Hrow & _ & Hrl & _).
  assert (Hcl : (0 < length cmd)%nat) by (destruct cmd; [done|cbn; lia]).
  destruct (row_stored row cmd Hrl ltac:(lia) Hz) as (row1 & row2 & E1 & E2 & H2l & H2t & H2u).
  rewrite Hrow. unfold sopt. rewrite (run_bind (mret row) _ _ _ _ eq_refl), E1, (run_bind (mret row1) _ _ _ _ eq_refl), E2, (run_bind (mret row2) _ _ _ _ eq_refl).
  unfold smod. rewrite u32_small by lia. set (idx := Z.to_nat (history_count s mod HISTORY_SIZE)) in *. assert (Hidx : (idx < length (history s))%nat) by (by eapply lookup_lt_Some).
  set (h := <[idx := row2]> (history s)). exists h, (history_count s + 1). split; [done|]. split; [lia|].
  assert (Hcmd : forall i, 0 <= i -> command (set_history s h (history_count s + 1)) i = if decide (Z.to_nat (i mod HISTORY_SIZE) = idx) then cmd else command s i).
  { intros i Hi. unfold command, h. cbn [history set_history]. case_decide as Hi'; [by rewrite Hi', list_lookup_insert_eq|by rewrite list_lookup_insert_ne by done]. }
  split.
  - destruct Hs. split; cbn [set_history_pos set_history cmd_buffer cmd_pos history history_count history_pos temp_buffer world]; try done; try lia.
    + unfold h. by rewrite length_insert.
    + intros r Hr. apply list_elem_of_lookup in Hr as [k Hk]. unfold h in Hk. apply list_lookup_insert_Some in Hk as [(_ & <- & _)|[_ Hk]]; [done|].
      apply lw_rows0. by eapply list_elem_of_lookup_2.
  - apply commands_push; [lia|done| |].
    + intros i Hi. rewrite Hcmd by (unfold oldest in Hi; lia). rewrite decide_False; [done|]. unfold idx, oldest, HISTORY_SIZE in *. cbn [set_history history_count] in Hi. zdm.
    + rewrite Hcmd by lia. by rewrite decide_True.
Qed.

(** ** Enter *)

Lemma shows_end s t : line_wf s -> shows s t -> let b := <[length t := 0]> (cmd_buffer s) in
  store_cmd (Z.to_nat (cmd_pos s)) [0] s = Some (tt, set_cmd s b) /\ until_nul b = t /\ line_wf (set_cmd s b).
Proof.
  intros Hs (Ht & Hp & Hz) b. pose proof (lw_cmd _ Hs) as Hl. pose proof (lw_pos _ Hs) as Hpos. unfold CMD_BUFFER_SIZE in *.
  assert (Hn : Z.to_nat (cmd_pos s) = length t) by lia. rewrite Hn in *. split; [|split].
  - unfold store_cmd. rewrite run_get, stored_ok by (cbn [length]; lia). unfold sopt. by rewrite splice_one by lia.
  - unfold b. assert (Hp2 : take (length t) (<[length t := 0]> (cmd_buffer s)) = t) by (rewrite take_insert_ge by lia; exact Ht).
    rewrite <- (take_drop_middle (<[length t := 0]> (cmd_buffer s)) (length t) 0) by (apply list_lookup_insert_eq; lia).
    rewrite Hp2. by apply until_nul_app.
  - destruct Hs. split; try done; unfold b, terminated; cbn [set_cmd cmd_buffer]; [by rewrite length_insert|].
    destruct (decide (length t = (CMD_BUFFER_SIZE - 1)%nat)) as [->|Hne]; [apply list_lookup_insert_eq; unfold CMD_BUFFER_SIZE; lia|].
    by rewrite list_lookup_insert_ne by lia.
Qed.

Lemma prints_prompt : prints shell_prompt (str "mexOS> ").
Proof. eapply prints_eq; [unfold shell_prompt; prints|done]. Qed.

(** What a line that is typed and entered does. *)
Definition empty_line s : Prop := shows s [] /\ until_nul (cmd_buffer s) = [] /\ history_pos s = history_count s.

Lemma zeroed_run s s1 : line_wf s1 -> cmd_pos s = 0 -> cmd_buffer s = cmd_buffer s1 -> temp_buffer s = temp_buffer s1 ->
  exists b t, (_ ← store_cmd 0 (replicate CMD_BUFFER_SIZE 0); store_temp 0 (replicate CMD_BUFFER_SIZE 0)) s = Some (tt, set_temp (set_cmd s b) t) /\
    length b = CMD_BUFFER_SIZE /\ terminated b (CMD_BUFFER_SIZE - 1) /\ until_nul b = [] /\ length t = CMD_BUFFER_SIZE /\ terminated t (CMD_BUFFER_SIZE - 1).
Proof.
  intros Hs1 Hp Hc Ht. pose proof (lw_cmd _ Hs1) as Hl. pose proof (lw_temp _ Hs1) as Hlt. rewrite <- Hc in Hl. rewrite <- Ht in Hlt.
  assert (Hz : forall a, length a = CMD_BUFFER_SIZE -> let r := splice a 0 (replicate CMD_BUFFER_SIZE 0) in
    stored a 0 (replicate CMD_BUFFER_SIZE 0) = Some r /\ length r = CMD_BUFFER_SIZE /\ terminated r (CMD_BUFFER_SIZE - 1) /\ until_nul r = []).
  { intros a Ha. split; [apply stored_ok; rewrite length_replicate; lia|]. split; [rewrite length_splice; [done|rewrite length_replicate; lia]|].
    split; [|done]. unfold terminated. rewrite lookup_splice_in; rewrite ?length_replicate; [|lia|unfold CMD_BUFFER_SIZE; lia].
    apply lookup_replicate. unfold CMD_BUFFER_SIZE. split; [done|lia]. }
  destruct (Hz _ Hl) as (E1 & A1 & A2 & A3). destruct (Hz _ Hlt) as (E2 & B1 & B2 & _).
  eexists _, _. split; [|split; [exact A1|split; [exact A2|split; [exact A3|split; [exact B1|exact B2]]]]].
  assert (Ec : store_cmd 0 (replicate CMD_BUFFER_SIZE 0) s = Some (tt, set_cmd s (splice (cmd_buffer s) 0 (replicate CMD_BUFFER_SIZE 0)))).
  { unfold store_cmd. rewrite run_get. unfold sopt. by rewrite E1. }
  rewrite (run_bind _ _ _ _ _ Ec). unfold store_temp. rewrite run_get. unfold sopt.
  change (temp_buffer (set_cmd s _)) with (temp_buffer s). by rewrite E2.
Qed.

(** Enter, up to the command. *)
Definition enter_rest : ST (line W) unit :=
  _ ← smod (fun s => set_pos s 0);
  _ ← store_cmd 0 (replicate CMD_BUFFER_SIZE 0);
  _ ← store_temp 0 (replicate CMD_BUFFER_SIZE 0);
  _ ← smod (fun s => set_history_pos s (i32 (history_count s)));
  on_world shell_prompt.

Lemma enter_prefix s t : line_wf s -> shows s t -> history_count s < 2147483647 -> exists w1 h n,
  let s3 := set_history (set_cmd (set_world s w1) (<[length t := 0]> (cmd_buffer s))) h n in
  console_putchar NL (world s) = Some (tt, w1) /\ con_ok w1 /\ con_text w1 = con_text (world s) ++ [NL] /\
  key_enter execute s = (_ ← on_world (execute t); enter_rest) s3 /\
  n <= history_count s + 1 /\ line_wf (set_history_pos s3 n) /\ commands s3 = remember (commands s) t.
Proof.
  intros Hs Ht Hmax. unfold key_enter. destruct (world_prints _ _ s (prints_putchar NL) (lw_world _ Hs)) as (w1 & E1 & Hw1 & Ht1).
  assert (E1' : console_putchar NL (world s) = Some (tt, w1)).
  { revert E1. unfold on_world, zoom. destruct (console_putchar NL (world s)) as [[[] w]|]; [|done]. intros [= E]. by rewrite E. }
  rewrite (run_bind _ _ _ _ _ E1), run_get. set (s1 := set_world s w1). assert (Hs1 : line_wf s1) by (by destruct Hs).
  assert (Hsh : shows s1 t) by exact Ht. destruct (shows_end s1 t Hs1 Hsh) as (E2 & Hu & Hs2). rewrite (run_bind _ _ _ _ _ E2), run_get.
  set (s2 := set_cmd s1 _) in *. change (until_nul (cmd_buffer s2)) with (until_nul (<[length t := 0]> (cmd_buffer s1))). rewrite Hu.
  pose proof (cmd_until s2 Hs2) as Hc2. change (until_nul (cmd_buffer s2)) with (until_nul (<[length t := 0]> (cmd_buffer s1))) in Hc2. rewrite Hu in Hc2. destruct Hc2 as [Hl Hz].
  assert (Eh : exists h n, (if negb (bool_decide (t = [])) then history_add t else mret tt) s2 = Some (tt, set_history s2 h n) /\ n <= history_count s2 + 1 /\
    line_wf (set_history_pos (set_history s2 h n) n) /\ commands (set_history s2 h n) = remember (commands s2) t).
  { destruct (history_add_run s2 t Hs2 Hmax Hl Hz) as (h & n & E & Hrest). case_bool_decide as Hnil; cbn [negb]; [|by exists h, n].
    exists h, n. split; [|exact Hrest]. unfold history_add in E. by rewrite decide_True in E. }
  destruct Eh as (h & n & Eh & Hn & Hs3 & Hcmds). rewrite (run_bind _ _ _ _ _ Eh). exists w1, h, n. by split_and!.
Qed.

(** The state in which the command that Enter executes is done, if it returns. *)
Definition entered s t : option W := snd <$> (_ ← console_putchar NL; execute t) (world s).

Lemma enter_fails s t : line_wf s -> shows s t -> history_count s < 2147483647 -> entered s t = None -> key_enter execute s = None.
Proof.
  intros Hs Ht Hmax He. destruct (enter_prefix s t Hs Ht Hmax) as (w1 & h & n & E1 & _ & _ & -> & _). unfold entered in He.
  rewrite (run_bind _ _ _ _ _ E1) in He. apply run_none. unfold on_world, zoom. change (world (set_history _ _ _)) with w1.
  by destruct (execute t w1) as [[[] w]|].
Qed.

Lemma enter_runs s t w2 : line_wf s -> shows s t -> history_count s < 2147483647 -> entered s t = Some w2 -> con_ok w2 ->
  exists w1 s', console_putchar NL (world s) = Some (tt, w1) /\ con_text w1 = con_text (world s) ++ [NL] /\ execute t w1 = Some (tt, w2) /\
    shell_prompt w2 = Some (tt, world s') /\
    key_enter execute s = Some (tt, s') /\ line_wf s' /\ empty_line s' /\ commands s' = remember (commands s) t /\
    history_count s' <= history_count s + 1 /\ con_text (world s') = con_text w2 ++ str "mexOS> ".
Proof.
  intros Hs Ht Hmax He Hw2. destruct (enter_prefix s t Hs Ht Hmax) as (w1 & h & n & E1 & Hw1 & Ht1 & Ek & Hn & Hs3 & Hcmds).
  set (s3 := set_history _ h n) in *. unfold entered in He. rewrite (run_bind _ _ _ _ _ E1) in He.
  assert (Ex : execute t w1 = Some (tt, w2)) by (destruct (execute t w1) as [[[] w]|]; [by injection He as ->|done]).
  assert (Ew : on_world (execute t) s3 = Some (tt, set_world s3 w2)) by (unfold on_world, zoom; change (world s3) with w1; by rewrite Ex).
  rewrite (run_bind _ _ _ _ _ Ew) in Ek. unfold enter_rest in Ek. rewrite run_mod in Ek. set (s4 := set_pos (set_world s3 w2) 0) in *.
  destruct (zeroed_run s4 (set_history_pos s3 n) Hs3 eq_refl eq_refl eq_refl) as (b & tb & Ez & Hb & Hbt & Hbu & Htb & Htt).
  pose proof (lw_count _ Hs3) as Hcount. change (0 <= n < 2147483648) in Hcount.
  set (s5 := set_history_pos (set_temp (set_cmd s4 b) tb) n).
  assert (Efin : key_enter execute s = on_world shell_prompt s5).
  { rewrite Ek. unfold mbind, ST_bind in Ez |- *. destruct (store_cmd 0 _ s4) as [[[] s6]|]; [|done]. rewrite Ez. unfold smod.
    change (history_count (set_temp (set_cmd s4 b) tb)) with n. by rewrite i32_small by lia. }
  destruct (world_prints _ _ s5 prints_prompt Hw2) as (w3 & E3 & Hw3 & Ht3).
  assert (E3' : shell_prompt w2 = Some (tt, w3)).
  { revert E3. unfold on_world, zoom. change (world s5) with w2. destruct (shell_prompt w2) as [[[] w]|]; [|done]. intros [= E]. by rewrite E. }
  exists w1, (set_world s5 w3). split; [done|]. split; [exact Ht1|]. split; [done|]. split; [exact E3'|]. split; [by rewrite Efin|].
  split; [destruct Hs3; split; try done; cbn; unfold CMD_BUFFER_SIZE; lia|]. split; [split; [|split; [exact Hbu|done]]|].
  - by apply prefix_shows.
  - split; [exact Hcmds|]. split; [exact Hn|exact Ht3].
Qed.

(** ** Any key *)

(** Every key but Enter: an arrow up with a history faults, and nothing else does. *)
Lemma key_plain s t c : line_wf s -> shows s t -> c <> NL -> ~ (c = KEY_ARROW_UP /\ 0 < history_count s) ->
  exists s' t', shell_key c s = Some (tt, s') /\ line_wf s' /\ shows s' t' /\ history_count s' = history_count s.
Proof.
  intros Hs Ht Hnl Hup. pose proof (lw_count _ Hs) as Hn. unfold Line.shell_key.
  replace (c =? NL) with false by lia.
  assert (Hstay : exists s' t', Some (tt, s) = Some (tt, s') /\ line_wf s' /\ shows s' t' /\ history_count s' = history_count s) by (by exists s, t).
  destruct (c =? BACKSPACE).
  { destruct (backspace_run s t Hs Ht) as (s' & E & Hs' & Ht' & (_ & Hc & _) & _). exists s', (removelast t). rewrite E, Hc. by split_and!. }
  destruct (Z.eqb_spec c KEY_ARROW_UP).
  { rewrite up_overruns by done. by replace (history_count s =? 0) with true by lia. }
  destruct (c =? KEY_ARROW_DOWN); [by rewrite down_stays|].
  destruct (clear_line_run s Hs) as (w & E & Hw).
  destruct (c =? KEY_HOME).
  { exists (set_world (set_pos s 0) w), []. unfold key_home. rewrite (run_bind _ _ _ _ _ E). split; [done|].
    split; [destruct Hs; split; try done; cbn; unfold CMD_BUFFER_SIZE; lia|]. split; [by apply prefix_shows|done]. }
  destruct (c =? KEY_END).
  { destruct (cmd_until s Hs) as [Hl Hz]. unfold key_end. rewrite (run_bind _ _ _ _ _ E). unfold pos_at_end. rewrite run_mod.
    set (s1 := set_pos (set_world (set_pos s 0) w) _). destruct (display_run s1 Hw) as (w' & E' & Hw').
    { cbn. rewrite (lw_cmd _ Hs). unfold CMD_BUFFER_SIZE in *. lia. }
    exists (set_world s1 w'), (until_nul (cmd_buffer s)). split; [exact E'|]. split; [|split; [|done]].
    - destruct Hs. split; try done. cbn. unfold CMD_BUFFER_SIZE in *. lia.
    - apply prefix_shows; [done| |done]. apply until_nul_prefix. rewrite (lw_cmd _ Hs). unfold CMD_BUFFER_SIZE in *. lia. }
  rewrite run_get. destruct ((32 <=? c) && (c <? 127) && (cmd_pos s <? Z.of_nat CMD_BUFFER_SIZE - 1)) eqn:Ec; [|exact Hstay].
  apply andb_true_iff in Ec as [Ec1 Ec2%Z.ltb_lt]. pose proof Ht as (_ & Hp & _). rewrite Hp in Ec2.
  destruct (char_run s t c Hs Ht) as (s' & E' & Hs' & Ht' & (_ & Hc & _) & _); [lia|unfold CMD_BUFFER_SIZE in *; lia|].
  exists s', (t ++ [c]). rewrite Hc. by split_and!.
Qed.

Lemma key_up_faults s : line_wf s -> 0 < history_count s -> shell_key KEY_ARROW_UP s = None.
Proof. intros Hs Hn. change (key_up timer_wait s = None). rewrite up_overruns by done. by replace (history_count s =? 0) with false by lia. Qed.

Lemma keys_plain ks s t : line_wf s -> shows s t -> NL ∉ ks ->
  (each shell_key ks s = None <-> KEY_ARROW_UP ∈ ks /\ 0 < history_count s) /\
  (forall s', each shell_key ks s = Some (tt, s') -> line_wf s' /\ exists t', shows s' t').
Proof.
  revert s t. induction ks as [|c ks IH]; intros s t Hs Ht Hnl; cbn [each].
  { split; [split; [done|by intros [?%not_elem_of_nil _]]|]. intros s' [= <-]. by split; [|exists t]. }
  apply not_elem_of_cons in Hnl as [Hc Hnl].
  destruct (decide (c = KEY_ARROW_UP /\ 0 < history_count s)) as [[-> Hn]|Hup].
  { rewrite (run_none (shell_key KEY_ARROW_UP)) by (by apply key_up_faults). split; [|done]. split; [|done]. intros _. by split; [left|]. }
  destruct (key_plain s t c Hs Ht ltac:(done) Hup) as (s1 & t1 & E & Hs1 & Ht1 & Hn1). rewrite (run_bind _ _ _ _ _ E).
  destruct (IH s1 t1 Hs1 Ht1 Hnl) as [Hf Hok]. split; [|exact Hok]. rewrite Hf, Hn1, elem_of_cons. naive_solver.
Qed.

(** ** Properties *)

(** C20: the keys of a line, characters and backspaces, and Enter execute the line that
    the editing leaves: the characters are echoed one by one, the line joins the
    history unless it is empty or repeats the last one, and the prompt is shown again
    with an empty line.  The command has to return, from the state in which it is
    started, and leave the console well formed. *)
Theorem line_typed_is_executed s ks :
  line_wf s -> empty_line s -> Forall typing ks -> history_count s < 2147483647 ->
  exists s1 w1, each shell_key ks s = Some (tt, s1) /\ console_putchar NL (world s1) = Some (tt, w1) /\ con_ok w1 /\
    con_text w1 = con_text (world s) ++ echo [] ks ++ [NL] /\
    forall w2, execute (edit ks) w1 = Some (tt, w2) -> con_ok w2 ->
      exists s', each shell_key (ks ++ [NL]) s = Some (tt, s') /\ shell_prompt w2 = Some (tt, world s') /\ line_wf s' /\ empty_line s' /\
        commands s' = remember (commands s) (edit ks) /\ con_text (world s') = con_text w2 ++ str "mexOS> ".
Proof.
  intros Hs (Ht & _ & _) Hks Hmax. destruct (type_run ks s [] Hs Ht Hks) as (s1 & E1 & Hs1 & Ht1 & (Hh & Hn & _) & Hx1).
  destruct (prints_run _ _ (world s1) (prints_putchar NL) (lw_world _ Hs1)) as (w1 & Ep & Hw1 & Tp).
  exists s1, w1. split; [exact E1|]. split; [exact Ep|]. split; [exact Hw1|]. split; [by rewrite Tp, Hx1, <- app_assoc|]. intros w2 Ex Hw2.
  assert (He : entered s1 (edit ks) = Some w2) by (unfold entered; rewrite (run_bind _ _ _ _ _ Ep), Ex; done).
  destruct (enter_runs s1 _ w2 Hs1 Ht1 ltac:(lia) He Hw2) as (_ & s' & _ & _ & _ & Epr & E2 & Hs' & Hes & Hc & _ & Hp).
  exists s'. split. { rewrite each_app. rewrite (run_bind _ _ _ _ _ E1). cbn [each]. by rewrite (run_bind (shell_key NL) _ _ _ _ E2). }
  split; [exact Epr|]. split; [done|]. split; [done|]. split; [|done]. rewrite Hc. unfold edit. f_equal. unfold commands, command, oldest. by rewrite Hh, Hn.
Qed.

(** C21: the keys that fault, exactly.  From a well-formed line the arrow up stores a byte
    behind the end of [temp_buffer] as soon as one command has been entered, Enter fails
    when the command it executes does, and no other key faults: every other key, and
    every command that returns with the console well formed, leave the line well formed,
    its buffers terminated within their 256 bytes and the position inside.  So between two
    commands exactly the sequences with an arrow up fault, once there is a history. *)
Theorem line_faults_exactly s t : line_wf s -> shows s t -> history_count s < 2147483647 ->
  (forall c, c <> NL -> (shell_key c s = None <-> c = KEY_ARROW_UP /\ 0 < history_count s)) /\
  (entered s t = None -> shell_key NL s = None) /\
  (forall w, entered s t = Some w -> con_ok w -> exists s', shell_key NL s = Some (tt, s') /\ line_wf s' /\ empty_line s') /\
  (forall ks, NL ∉ ks ->
    (each shell_key ks s = None <-> KEY_ARROW_UP ∈ ks /\ 0 < history_count s) /\
    forall s', each shell_key ks s = Some (tt, s') -> line_wf s' /\ exists t', shows s' t').
Proof.
  intros Hs Ht Hmax. split; [|split; [|split]].
  - intros c Hc. split.
    + intros Hf. destruct (decide (c = KEY_ARROW_UP /\ 0 < history_count s)) as [?|Hup]; [done|].
      destruct (key_plain s t c Hs Ht Hc Hup) as (s' & t' & E & _). by rewrite E in Hf.
    + intros [-> Hn]. by apply key_up_faults.
  - intros He. by apply (enter_fails s t).
  - intros w He Hw. destruct (enter_runs s t w Hs Ht Hmax He Hw) as (_ & s' & _ & _ & _ & _ & E & Hs' & Hes & _). by exists s'.
  - intros ks Hks. by apply (keys_plain ks s t).
Qed.
End specification.

(** ** Arguments *)

(** A state of the loop of [words_from] that has begun a word. *)
Lemma words_take_word p w : w <> [] -> words_from p w = (w ++ fst (take_word p)) :: words_from (snd (take_word p)) [].
Proof.
  revert w. induction p as [|c p IH]; intros w Hw; cbn [words_from take_word fst snd].
  { rewrite app_nil_r. by destruct w. }
  destruct (c =? 32) eqn:Ec; [cbn [fst snd]; rewrite app_nil_r; by destruct w|].
  rewrite IH by (by destruct w). destruct (take_word p) as [x rest]. cbn [fst snd]. by rewrite <- app_assoc.
Qed.

Lemma words_skip p : words_from p [] = words_from (skip_spaces p) [].
Proof. induction p as [|c p IH]; [done|]. cbn [words_from skip_spaces]. by destruct (c =? 32) eqn:Ec; [|cbn [words_from]; rewrite Ec]. Qed.

Lemma skip_spaces_head p : match skip_spaces p with [] => True | c :: _ => c <> 32 end.
Proof. induction p as [|c p IH]; [done|]. cbn. by destruct (Z.eqb_spec c 32). Qed.

Lemma parse_args_eq cmd : parse_args cmd = take MAX_ARGS (words cmd).
Proof.
  unfold parse_args, words. generalize MAX_ARGS. intros n. revert cmd. induction n as [|n IH]; intros cmd; [done|]. cbn [parse_args_loop].
  rewrite words_skip. pose proof (skip_spaces_head cmd) as Hc. destruct (skip_spaces cmd) as [|c q]; [done|].
  cbn [take_word words_from]. replace (c =? 32) with false by lia. cbn [app].
  rewrite words_take_word by done. destruct (take_word q) as [w rest]. cbn [fst snd app take]. by rewrite IH.
Qed.

(** C33: [parse_args] gives the words of the line, 16 at most: the reference splits the line
    at the spaces and drops the empty pieces. *)
Theorem parse_args_words cmd : parse_args cmd = take MAX_ARGS (words cmd).
Proof. apply parse_args_eq. Qed.

(** ** A shell that prints its commands *)

Definition echo_command (c : list Z) : ST teletype unit := console_write (c ++ [NL]).
Definition no_wait (_ : Z) : ST teletype unit := mret tt.
Definition fresh_line : line teletype :=
  Line (replicate 256 0) 0 (replicate 32 (replicate 256 0)) 0 0 (replicate 256 0) [].

Lemma fresh_wf : line_wf fresh_line /\ empty_line fresh_line.
Proof.
  split; [split; try (vm_compute; done)|by split_and!]; [|vm_compute; split; intros Hx; discriminate Hx..].
  intros r Hr. change (r ∈ replicate 32 (replicate 256 0)) in Hr. apply elem_of_replicate in Hr as [-> _]. by vm_compute.
Qed.

(** After "ls", while "w" is typed. *)
Definition one_command : line teletype :=
  match each (shell_key echo_command no_wait) (str "ls" ++ [NL; 119]) fresh_line with Some (_, s) => s | None => fresh_line end.

Lemma one_command_ok : line_wf one_command /\ shows one_command (str "w").
Proof.
  split; [|split; [vm_compute; reflexivity|]; split; [vm_compute; reflexivity|]; by repeat constructor].
  split; try (vm_compute; done).
  all: match goal with |- forall _, _ => intros r Hr | _ => vm_compute; split; [intros Hx; discriminate Hx|reflexivity] end.
  assert (Hall : forallb (fun r => (length r =? 256)%nat && (nth 255 r 1 =? 0)) (history one_command) = true) by (vm_compute; reflexivity).
  rewrite forallb_forall in Hall. apply list_elem_of_In in Hr. specialize (Hall r Hr). apply andb_true_iff in Hall as [H1%Nat.eqb_eq H2%Z.eqb_eq].
  split; [exact H1|]. unfold terminated. destruct (lookup_lt_is_Some_2 r 255) as [x Hx]; [lia|].
  change (CMD_BUFFER_SIZE - 1)%nat with 255%nat. rewrite Hx. f_equal. by rewrite (nth_lookup_Some _ _ 1 _ Hx) in H2.
Qed.

Lemma line_faults_exactly_witness :
  each (shell_key echo_command no_wait) [KEY_HOME; 97; BACKSPACE; KEY_ARROW_DOWN; KEY_END; 200] one_command <> None /\
  each (shell_key echo_command no_wait) [KEY_HOME; KEY_ARROW_UP; 97] one_command = None /\ shell_key echo_command no_wait NL one_command <> None.
Proof.
  destruct one_command_ok as (Hw & Hs).
  destruct (line_faults_exactly echo_command no_wait one_command (str "w") Hw Hs) as (_ & _ & Hr & Hks); [vm_compute; reflexivity|]. split; [|split].
  - rewrite (proj1 (Hks [KEY_HOME; 97; BACKSPACE; KEY_ARROW_DOWN; KEY_END; 200] ltac:(by apply (bool_decide_unpack _)))).
    intros [Hu _]. revert Hu. by apply (bool_decide_unpack _).
  - apply (proj1 (Hks [KEY_HOME; KEY_ARROW_UP; 97] ltac:(by apply (bool_decide_unpack _)))). split; [by apply (bool_decide_unpack _)|vm_compute; reflexivity].
  - destruct (Hr _ eq_refl ltac:(exact I)) as (s' & E & _). rewrite E. discriminate.
Defined.

(** The keys after an erased character bring it back: "ab", backspace, End, Enter
    executes "ab"; Home and Enter execute nothing. *)
Example end_restores_erased : fst <$> (s ← snd <$> each (shell_key echo_command no_wait) [97; 98; BACKSPACE; KEY_END; NL] fresh_line; Some (commands s, tt))
  = Some [str "ab"].
Proof. vm_compute. reflexivity. Qed.

Example home_drops_line : (commands ∘ snd) <$> each (shell_key echo_command no_wait) [97; 98; KEY_HOME; NL] fresh_line = Some [].
Proof. vm_compute. reflexivity. Qed.
