(* ===== verification/Basic.v ===== *)
(** ui/basic.c: the BASIC interpreter.

    The lines of the program and their numbers are the bytes of the two arrays of
    [basic_state_t], one after the other ([area]), because [strncpy] can write past a
    line.  A C string is the list of its bytes; [basic_execute_line] is given
    non-NULL pointers.  [RUN] inside a program recurses, so execution has a fuel for
    the depth of calls.  Signed overflow wraps.  The console is any implementation of
    the interface. *)

From S2P Require Import Prelude Codec Mem CString Effects Console.
Local Open Scope Z_scope.

(** ** Definitions *)

Definition BASIC_MAX_VARS : nat := 26.
Definition BASIC_MAX_LINE_LEN : nat := 128.
Definition BASIC_MAX_PROGRAM_LINES : nat := 100.

(** Where [line_numbers] starts in [area], and where it ends. *)
Definition NUMBERS : nat := BASIC_MAX_PROGRAM_LINES * BASIC_MAX_LINE_LEN.
Definition AREA : nat := NUMBERS + 4 * BASIC_MAX_PROGRAM_LINES.

Record basic (C : Type) := Basic {
  variables : list Z;
  area : list Z;
  line_count : nat;
  pc : nat;
  stack_ptr : Z;
  running : bool;
  con : C
}.
Arguments Basic {C}. Arguments variables {C}. Arguments area {C}. Arguments line_count {C}.
Arguments pc {C}. Arguments stack_ptr {C}. Arguments running {C}. Arguments con {C}.

Definition is_space (c : Z) : bool := (c =? 32) || (c =? 9).
Definition is_digit (c : Z) : bool := (48 <=? c) && (c <=? 57).
Definition is_var (c : Z) : bool := (65 <=? c) && (c <=? 90).

Fixpoint skip_spaces (str : list Z) : list Z :=
  match str with c :: rest => if is_space c then skip_spaces rest else str | [] => [] end.

Fixpoint str_starts_with (str prefix : list Z) : bool :=
  match prefix, str with
  | [], _ => true
  | p :: prefix, c :: str => (c =? p) && str_starts_with str prefix
  | _ :: _, [] => false
  end.

Fixpoint digits_to_int (str : list Z) (result : Z) : Z :=
  match str with
  | c :: str => if is_digit c then digits_to_int str (i32 (result * 10 + (c - 48))) else result
  | [] => result
  end.
Definition str_to_int (str : list Z) : Z :=
  match skip_spaces str with
  | c :: rest => if c =? 45 then i32 (digits_to_int rest 0 * -1) else i32 (digits_to_int (c :: rest) 0 * 1)
  | [] => 0
  end.

Fixpoint skip_digits (str : list Z) : list Z :=
  match str with c :: rest => if is_digit c then skip_digits rest else str | [] => [] end.

Section basic.
Context {C : Type} `{Console C}.

Definition B (A : Type) : Type := ST (basic C) A.
Definition on_con {A} (m : ST C A) : B A :=
  zoom con (fun c s => Basic (variables s) (area s) (line_count s) (pc s) (stack_ptr s) (running s) c) m.
Definition put_variables (v : list Z) : B unit :=
  smod (fun s => Basic v (area s) (line_count s) (pc s) (stack_ptr s) (running s) (con s)).
Definition put_area (a : list Z) : B unit :=
  smod (fun s => Basic (variables s) a (line_count s) (pc s) (stack_ptr s) (running s) (con s)).
Definition put_count (n : nat) : B unit :=
  smod (fun s => Basic (variables s) (area s) n (pc s) (stack_ptr s) (running s) (con s)).
Definition put_pc (n : nat) : B unit :=
  smod (fun s => Basic (variables s) (area s) (line_count s) n (stack_ptr s) (running s) (con s)).
Definition put_running (b : bool) : B unit :=
  smod (fun s => Basic (variables s) (area s) (line_count s) (pc s) (stack_ptr s) b (con s)).

(** Bytes stored at an offset of [area]; the fields behind it are out of bounds. *)
Definition poke (off : nat) (bytes : list Z) : B unit :=
  s ← sget;
  if (off + length bytes <=? length (area s))%nat then put_area (splice (area s) off bytes) else sfault.

(** [state.program[i]] as a string and [state.line_numbers[i]]. *)
Definition line_text (a : list Z) (i : nat) : list Z := until_nul (drop (i * BASIC_MAX_LINE_LEN) a).
Definition line_number (a : list Z) (i : nat) : Z := unle32 (slice a (NUMBERS + 4 * i) 4).
(** [strncpy(state.program[i], src, n)]; [state.line_numbers[i] = v]. *)
Definition copy_line (i : nat) (src : list Z) (n : nat) : B unit := poke (i * BASIC_MAX_LINE_LEN) (strncpy_bytes src n).
Definition set_number (i : nat) (v : Z) : B unit := poke (NUMBERS + 4 * i) (le32 v).
(** The bounded copy of a whole line. *)
Definition store_line (i : nat) (line : list Z) : B unit :=
  _ ← copy_line i line (BASIC_MAX_LINE_LEN - 1);
  poke (i * BASIC_MAX_LINE_LEN + (BASIC_MAX_LINE_LEN - 1)) [0].

Definition evaluate_expression (expr : list Z) : B Z :=
  s ← sget;
  match skip_spaces expr with
  | c :: rest =>
      if is_var c then sopt (variables s !! Z.to_nat (c - 65))
      else if (c =? 45) || is_digit c then mret (str_to_int (c :: rest)) else mret 0
  | [] => mret 0
  end.

Definition basic_init : B unit :=
  smod (fun s => Basic (replicate BASIC_MAX_VARS 0) (area s) 0 0 0 false (con s)).

(** The characters of a quoted text. *)
Fixpoint print_quoted (line : list Z) : B unit :=
  match line with
  | c :: line => if c =? 34 then mret tt else _ ← on_con (console_putchar c); print_quoted line
  | [] => mret tt
  end.

Definition execute_print (line : list Z) : B Z :=
  _ ← match skip_spaces line with
      | c :: rest =>
          if c =? 34 then print_quoted rest
          else value ← evaluate_expression (c :: rest); on_con (console_write_dec (u32 value))
      | [] => mret tt
      end;
  _ ← on_con (console_putchar NL);
  mret 0.

Definition execute_let (line : list Z) : B Z :=
  match skip_spaces line with
  | var :: rest =>
      if negb (is_var var) then mret (-1) else
      match skip_spaces rest with
      | c :: rest =>
          if negb (c =? 61) then mret (-1) else
          value ← evaluate_expression rest;
          s ← sget;
          _ ← put_variables (<[Z.to_nat (var - 65) := value]> (variables s));
          mret 0
      | [] => mret (-1)
      end
  | [] => mret (-1)
  end.

Fixpoint list_loop (n i : nat) : B unit :=
  match n with
  | O => mret tt
  | S n =>
      s ← sget;
      _ ← on_con (console_write_dec (line_number (area s) i)); _ ← on_con (console_write (str " "));
      _ ← on_con (console_write (line_text (area s) i)); _ ← on_con (console_write [NL]);
      list_loop n (S i)
  end.

Definition basic_list_program : B unit :=
  _ ← on_con (console_write (NL :: str "=== Program Listing ===" ++ [NL]));
  s ← sget;
  if (line_count s =? 0)%nat then on_con (console_write (str "(empty)" ++ [NL])) else list_loop (line_count s) 0.

Definition basic_clear_program : B unit :=
  _ ← put_count 0; on_con (console_write (str "Program cleared" ++ [NL])).

(** The loop of [basic_run_program] over an executor of lines. *)
Fixpoint run_loop (execute : list Z -> B Z) (n : nat) : B unit :=
  match n with
  | O => sfault
  | S n =>
      s ← sget;
      if (pc s <? line_count s)%nat && running s then
        r ← execute (line_text (area s) (pc s));
        s ← sget;
        if r <? 0 then
          _ ← on_con (console_write (str "Error at line "));
          _ ← on_con (console_write_dec (line_number (area s) (pc s)));
          on_con (console_write [NL])
        else _ ← put_pc (S (pc s)); run_loop execute n
      else mret tt
  end.

(** [basic_execute_line]; [depth] is the fuel for nested [RUN]s. *)
Fixpoint basic_execute_line (depth : nat) (line : list Z) : B Z :=
  match depth with
  | O => sfault
  | S depth =>
      match skip_spaces line with
      | [] => mret 0
      | c :: rest =>
          let line := c :: rest in
          if str_starts_with line (str "PRINT") then execute_print (drop 5 line) else
          if str_starts_with line (str "LET") then execute_let (drop 3 line) else
          if is_var c && match skip_spaces rest with e :: _ => e =? 61 | [] => false end then execute_let line else
          if str_starts_with line (str "RUN") then
            _ ← put_running true; _ ← put_pc 0;
            _ ← run_loop (basic_execute_line depth) (S BASIC_MAX_PROGRAM_LINES);
            _ ← put_running false; mret 0
          else if str_starts_with line (str "LIST") then _ ← basic_list_program; mret 0
          else if str_starts_with line (str "CLEAR") then _ ← basic_clear_program; mret 0
          else mret (-1)
      end
  end.

(** At most one turn per line and one to see the end. *)
Definition basic_run_program (depth : nat) : B unit :=
  _ ← put_running true; _ ← put_pc 0;
  _ ← run_loop (basic_execute_line depth) (S BASIC_MAX_PROGRAM_LINES);
  put_running false.

(** The first index whose number is not below [line_num]. *)
Fixpoint find_line (a : list Z) (line_num : Z) (n i : nat) : nat :=
  match n with O => i | S n => if line_num <=? line_number a i then i else find_line a line_num n (S i) end.

(** [for (i = insert_idx + n; i > insert_idx; i--)] *)
Fixpoint shift_lines (n insert_idx : nat) : B unit :=
  match n with
  | O => mret tt
  | S n' =>
      let i := (insert_idx + n)%nat in
      s ← sget; _ ← set_number i (line_number (area s) (i - 1));
      s ← sget; _ ← copy_line i (line_text (area s) (i - 1)) BASIC_MAX_LINE_LEN;
      shift_lines n' insert_idx
  end.

Definition basic_add_line (line_num : Z) (line : list Z) : B Z :=
  s ← sget;
  if (BASIC_MAX_PROGRAM_LINES <=? line_count s)%nat then mret (-1) else
  let i := find_line (area s) line_num (line_count s) 0 in
  if (i <? line_count s)%nat && (line_number (area s) i =? line_num) then _ ← store_line i line; mret 0 else
  _ ← shift_lines (line_count s - i) i;
  _ ← set_number i line_num;
  _ ← store_line i line;
  _ ← put_count (S (line_count s));
  mret 0.

(** One line at the prompt. *)
Definition prompt_line (depth : nat) (input_buffer : list Z) : B unit :=
  let ptr := skip_spaces input_buffer in
  if match ptr with c :: _ => is_digit c | [] => false end then
    r ← basic_add_line (u32 (str_to_int ptr)) (skip_spaces (skip_digits ptr));
    if r <? 0 then on_con (console_write (str "Error: Program full" ++ [NL])) else mret tt
  else
    r ← basic_execute_line depth input_buffer;
    if r <? 0 then on_con (console_write (str "Syntax error" ++ [NL])) else mret tt.

(** The prompt; the input behind EXIT, or [None] when it waits for more.  A line takes at
    least one character, so [fuel] is the length of the input. *)
Fixpoint interactive_loop (fuel depth : nat) (input : list Z) : B (option (list Z)) :=
  match fuel with
  | O => sfault
  | S fuel =>
      _ ← on_con (console_write (str "] "));
      o ← on_con (read_line BASIC_MAX_LINE_LEN input []);
      match o with
      | None => mret None
      | Some (input_buffer, input) =>
          if str_starts_with input_buffer (str "EXIT") then mret (Some input) else
          _ ← prompt_line depth input_buffer;
          interactive_loop fuel depth input
      end
  end.

Definition basic_interactive_mode (depth : nat) (input : list Z) : B (option (list Z)) :=
  _ ← on_con (console_write (NL :: str "mexOS BASIC Interpreter" ++ [NL]));
  _ ← on_con (console_write (str "Commands: PRINT, LET, RUN, LIST, CLEAR" ++ [NL]));
  _ ← on_con (console_write (str "Type 'EXIT' to quit" ++ [NL; NL]));
  interactive_loop (S (length input)) depth input.
End basic.

(** ** The program in its arrays *)

(** A terminated string at an offset, and a line number. *)
Definition text_at (a : list Z) (i : nat) (t : list Z) : Prop :=
  slice a (i * BASIC_MAX_LINE_LEN) (length t + 1) = t ++ [0] /\ Forall (fun c => c <> 0) t /\ (length t < BASIC_MAX_LINE_LEN)%nat.
Definition number_at (a : list Z) (i : nat) (v : Z) : Prop := slice a (NUMBERS + 4 * i) 4 = le32 v /\ is_u32 v.

(** Line [i] is number [p.1] with text [p.2]. *)
Definition line_at (a : list Z) (i : nat) (p : Z * list Z) : Prop := number_at a i (fst p) /\ text_at a i (snd p).

Lemma line_text_at a i t : text_at a i t -> line_text a i = t.
Proof.
  intros (Hs & Hz & _). unfold line_text, slice in *.
  rewrite <- (take_drop (length t + 1) (drop _ a)), Hs, <- app_assoc. by apply until_nul_app.
Qed.

Lemma line_number_at a i v : number_at a i v -> line_number a i = v.
Proof. intros [Hs Hv]. unfold line_number. rewrite Hs. rewrite <- (app_nil_r (le32 v)). by apply unle32_le32. Qed.

(** [poke] as a function of the bytes. *)
Definition with_area {C} (s : basic C) (a : list Z) : basic C :=
  Basic (variables s) a (line_count s) (pc s) (stack_ptr s) (running s) (con s).

Lemma poke_eq {C} (s : basic C) off bytes :
  (off + length bytes <= length (area s))%nat -> poke off bytes s = Some (tt, with_area s (splice (area s) off bytes)).
Proof.
  intros Hl. unfold poke. rewrite (run_bind sget _ s s s eq_refl). by replace (_ <=? _)%nat with true by (symmetry; by apply Nat.leb_le).
Qed.

(** [0 + 12800] and the like. *)
Ltac bdims := unfold AREA, NUMBERS, BASIC_MAX_PROGRAM_LINES, BASIC_MAX_LINE_LEN in *.

Lemma area_dims (a : list Z) : length a = AREA -> Z.of_nat (length a) = 13200.
Proof. intros ->. reflexivity. Qed.

(** Storing the number of line [i]. *)
Lemma number_stored a i v :
  length a = AREA -> (i < 100)%nat -> is_u32 v ->
  let a' := splice a (NUMBERS + 4 * i) (le32 v) in
  length a' = AREA /\ number_at a' i v /\ (forall j w, j <> i -> number_at a j w -> number_at a' j w) /\
  (forall j t, (j < 100)%nat -> text_at a j t -> text_at a' j t).
Proof.
  intros Hl Hi Hv a'. pose proof (area_dims a Hl). bdims.
  assert (Hlen : (100 * 128 + 4 * i + length (le32 v) <= length a)%nat) by (cbn [length le32]; lia).
  split; [unfold a'; by rewrite length_splice|]. split.
  { split; [|done]. apply (slice_splice a _ (le32 v)). done. }
  split.
  - intros j w Hj [Hs Hw]. split; [|done]. bdims. unfold a'. rewrite slice_splice_out; [done|done|]. cbn [length le32]. lia.
  - intros j t Hj (Hs & Hz & Ht). split; [|done]. bdims. unfold a'. rewrite slice_splice_out; [done|done|]. lia.
Qed.

(** Storing the bytes [b] in line [i], up to one byte past it. *)
Lemma text_stored a i b :
  length a = AREA -> (i < 99 /\ length b <= 129 \/ i < 100 /\ length b <= 128)%nat ->
  let a' := splice a (i * BASIC_MAX_LINE_LEN) b in
  length a' = AREA /\ (forall j w, number_at a j w -> number_at a' j w) /\
  (forall j t, j <> i -> (j <> S i \/ length b <= 128)%nat -> text_at a j t -> text_at a' j t) /\
  (forall t r, b = t ++ 0 :: r -> Forall (fun c => c <> 0) t -> (length t < 128)%nat -> text_at a' i t) /\
  (forall t, b = t ++ [0] -> length b = 129%nat -> text_at a' (S i) []).
Proof.
  intros Hl Hi a'. pose proof (area_dims a Hl). bdims.
  assert (Hlen : (i * 128 + length b <= length a)%nat) by lia.
  split; [unfold a'; by rewrite length_splice|]. split.
  { intros j w [Hs Hw]. split; [|done]. bdims. unfold a'. rewrite slice_splice_out; [done|done|]. lia. }
  split.
  { intros j t Hj Hover (Hs & Hz & Ht). split; [|done]. bdims. unfold a'. rewrite slice_splice_out; [done|done|]. lia. }
  split.
  - intros t r -> Hz Ht. split; [|done]. bdims. rewrite length_app in Hlen. cbn [length] in Hlen.
    pose proof (slice_splice_part a (i * 128) (t ++ 0 :: r) 0 (length t + 1)) as Hp. rewrite Nat.add_0_r in Hp.
    unfold a'. rewrite Hp; [|rewrite length_app; cbn [length]; lia..].
    unfold slice. rewrite drop_0, cons_middle, app_assoc. apply take_app_length'. rewrite length_app. cbn. lia.
  - intros t -> Hb. unfold text_at. bdims. split; [|split; [by apply Forall_nil|cbn; lia]]. cbn [length]. rewrite Nat.add_0_l.
    rewrite length_app in Hb. cbn [length] in Hb.
    pose proof (slice_splice_part a (i * 128) (t ++ [0]) 128 1) as Hp.
    replace (S i * 128)%nat with (i * 128 + 128)%nat by lia. unfold a'. rewrite Hp; [|done|rewrite length_app; cbn [length]; lia].
    unfold slice. rewrite drop_app_ge by lia. by replace (128 - length t)%nat with 0%nat by lia.
Qed.

(** ** Listings *)

(** The arrays hold the lines [l]. *)
Definition holds (a : list Z) (l : list (Z * list Z)) : Prop := forall j p, l !! j = Some p -> line_at a j p.

Definition listing {C} (s : basic C) : list (Z * list Z) :=
  (fun j => (line_number (area s) j, line_text (area s) j)) <$> seq 0 (line_count s).

Record basic_ok {C} (s : basic C) : Prop := {
  bo_area : length (area s) = AREA;
  bo_count : (line_count s <= BASIC_MAX_PROGRAM_LINES)%nat;
  bo_lines : holds (area s) (listing s)
}.

Lemma length_listing {C} (s : basic C) : length (listing s) = line_count s.
Proof. unfold listing. by rewrite length_fmap, length_seq. Qed.

Lemma listing_holds {C} (s : basic C) l : holds (area s) l -> length l = line_count s -> listing s = l.
Proof.
  intros Hh Hl. apply list_eq. intros j. unfold listing. rewrite list_lookup_fmap, <- Hl.
  destruct (l !! j) as [[k t]|] eqn:E.
  - destruct (Hh j _ E) as [Hk Ht]. apply lookup_lt_Some in E. rewrite lookup_seq_lt by done. cbn [fmap option_fmap option_map fst snd Nat.add].
    by rewrite (line_number_at _ _ _ Hk), (line_text_at _ _ _ Ht).
  - apply lookup_ge_None in E. by rewrite lookup_seq_ge.
Qed.

(** The line a [strncpy] and a terminator leave. *)
Definition cut (line : list Z) : list Z := take (BASIC_MAX_LINE_LEN - 1) line.
Definition is_line (line : list Z) : Prop := Forall (fun c => c <> 0) line.

Lemma cut_ok line : is_line line -> is_line (cut line) /\ (length (cut line) < 128)%nat.
Proof. intros Hz. unfold cut. split; [by apply Forall_take|]. rewrite length_take. bdims. lia. Qed.

(** Storing a line keeps every number and every other line. *)
Lemma store_line_spec {C} (s : basic C) i line :
  length (area s) = AREA -> (i < 100)%nat -> is_line line ->
  exists a, store_line i line s = Some (tt, with_area s a) /\ length a = AREA /\ text_at a i (cut line) /\
    (forall j w, number_at (area s) j w -> number_at a j w) /\ (forall j t, j <> i -> text_at (area s) j t -> text_at a j t).
Proof.
  intros Hl Hi Hz. pose proof (area_dims _ Hl) as Hd. unfold store_line, copy_line.
  set (b := strncpy_bytes line (BASIC_MAX_LINE_LEN - 1)).
  assert (Hb : (length b <= 128)%nat) by (unfold b; rewrite length_strncpy_bytes; bdims; case_decide; lia).
  set (a1 := splice (area s) (i * BASIC_MAX_LINE_LEN) b).
  assert (E1 : poke (i * BASIC_MAX_LINE_LEN) b s = Some (tt, with_area s a1)) by (apply poke_eq; bdims; lia).
  rewrite (run_bind _ _ s tt _ E1). destruct (text_stored (area s) i b Hl) as (Hl1 & Hn1 & Ht1 & _ & _); [lia|]. fold a1 in Hl1, Hn1, Ht1.
  pose proof (area_dims _ Hl1) as Hd1.
  assert (E2 : splice a1 (i * BASIC_MAX_LINE_LEN + (BASIC_MAX_LINE_LEN - 1)) [0] =
    splice (area s) (i * BASIC_MAX_LINE_LEN) (cut line ++ 0 :: replicate (127 - length line) 0)).
  { apply list_eq. intros k. assert (Hc : length (cut line ++ 0 :: replicate (127 - length line) 0) = 128%nat).
    { rewrite length_app. cbn [length]. rewrite length_replicate. unfold cut. rewrite length_take. bdims. lia. }
    bdims. destruct (decide (i * 128 <= k < i * 128 + 128)%nat) as [Hk|Hk].
    - rewrite (lookup_splice_in (area s)) by lia. destruct (decide (k = i * 128 + 127)%nat) as [->|Hne].
      + rewrite lookup_splice_in by (cbn; lia). replace (i * 128 + 127 - (i * 128 + (128 - 1)))%nat with 0%nat by lia.
        replace (i * 128 + 127 - i * 128)%nat with 127%nat by lia. symmetry. unfold cut. bdims.
        rewrite lookup_app_r by (rewrite length_take; lia). rewrite length_take.
        destruct (decide (length line < 127)%nat).
        * replace (127 - _)%nat with (S (126 - length line)) by lia. cbn [lookup list_lookup].
          apply lookup_replicate_2. lia.
        * by replace (127 - _)%nat with 0%nat by lia.
      + rewrite lookup_splice_out by (cbn; lia). unfold a1. bdims. 
        assert (Hbl : length b = (if decide (length line < 127)%nat then 128 else 127)%nat) by (unfold b; apply length_strncpy_bytes).
        rewrite lookup_splice_in by (rewrite ?Hbl; case_decide; lia).
        unfold b, strncpy_bytes, cut. bdims. change (128 - 1)%nat with 127%nat. case_decide.
        * rewrite take_ge by lia. replace (S (127 - length line)) with (S (127 - length line)) by lia. done.
        * rewrite lookup_app_l; [done|]. rewrite length_take. lia.
    - rewrite (lookup_splice_out (area s)) by lia. rewrite lookup_splice_out by (cbn; lia). unfold a1. bdims.
      rewrite lookup_splice_out; [done|lia|lia]. }
  eexists. split; [apply (poke_eq (with_area s a1)); cbn [with_area area length]; bdims; lia|]. cbn [with_area area].
  rewrite E2. destruct (cut_ok line Hz) as [Hcz Hcl].
  assert (Hlen : length (cut line ++ 0 :: replicate (127 - length line) 0) = 128%nat).
  { rewrite length_app. cbn [length]. rewrite length_replicate. unfold cut. rewrite length_take. bdims. lia. }
  destruct (text_stored (area s) i (cut line ++ 0 :: replicate (127 - length line) 0) Hl) as (Hl2 & Hn2 & Ht2 & Hi2 & _); [lia|].
  split; [done|]. split; [by apply (Hi2 (cut line) _ eq_refl)|]. split; [done|].
  intros j t Hj Ht. apply Ht2; [done|right; lia|done].
Qed.

(** One turn of the shift: line [i - 1] moves to [i], and the line above [i] loses
    its text to the byte [strncpy] writes past its count. *)
Lemma shift_step {C} (s : basic C) i p :
  length (area s) = AREA -> (i < 98)%nat -> line_at (area s) i p ->
  exists a, (s0 ← sget; _ ← set_number (S i) (line_number (area s0) i);
             s0 ← sget; copy_line (S i) (line_text (area s0) i) BASIC_MAX_LINE_LEN) s = Some (tt, with_area s a) /\
    length a = AREA /\ line_at a (S i) p /\ (forall j q, j <> S i -> j <> S (S i) -> (j < 100)%nat -> line_at (area s) j q -> line_at a j q) /\
    (forall q, line_at (area s) (S (S i)) q -> line_at a (S (S i)) (fst q, [])).
Proof.
  intros Hl Hi [Hn Ht]. pose proof (area_dims _ Hl) as Hd. destruct p as [k t]. cbn [fst snd] in *.
  rewrite (run_bind sget _ s s s eq_refl), (line_number_at _ _ _ Hn).
  set (a1 := splice (area s) (NUMBERS + 4 * S i) (le32 k)).
  assert (E1 : set_number (S i) k s = Some (tt, with_area s a1)) by (apply poke_eq; cbn [length le32]; bdims; lia).
  rewrite (run_bind _ _ s tt _ E1). cbv beta. rewrite (run_bind sget _ (with_area s a1) _ _ eq_refl). cbn [area with_area].
  destruct (number_stored (area s) (S i) k Hl) as (Hl1 & Hn1 & Hother1 & Ht1); [lia|apply Hn|]. fold a1 in Hl1, Hn1, Hother1, Ht1.
  pose proof (area_dims _ Hl1) as Hd1. rewrite (line_text_at a1 i t) by (apply Ht1; [lia|done]).
  destruct Ht as (_ & Hz & Hlen). set (b := strncpy_bytes t BASIC_MAX_LINE_LEN).
  assert (Eb : b = t ++ 0 :: replicate (128 - length t) 0).
  { unfold b, strncpy_bytes. bdims. rewrite decide_True by lia. done. }
  assert (Hb : length b = 129%nat) by (rewrite Eb, length_app; cbn [length]; rewrite length_replicate; bdims; lia).
  assert (Eb' : b = (t ++ replicate (128 - length t) 0) ++ [0]).
  { rewrite Eb, <- app_assoc. f_equal. apply (replicate_cons_app (128 - length t) 0). }
  exists (splice a1 (S i * BASIC_MAX_LINE_LEN) b). split.
  { unfold copy_line. fold b. rewrite (poke_eq (with_area s a1)); [done|]. cbn [area with_area]. bdims. lia. }
  destruct (text_stored a1 (S i) b Hl1) as (Hl2 & Hn2 & Ht2 & Hi2 & Hi3); [lia|].
  split; [done|]. split; [split; [by apply Hn2|eapply Hi2; [exact Eb|exact Hz|exact Hlen]]|]. split.
  - intros j q Hj Hj2 Hj3 [Hnq Htq]. split; [by apply Hn2, Hother1|]. apply Ht2; [done|by left|]. by apply Ht1.
  - intros q [Hnq Htq]. split; [apply Hn2, Hother1; [lia|exact Hnq]|]. by eapply Hi3.
Qed.

Lemma shift_lines_spec {C} n idx f (s : basic C) :
  length (area s) = AREA -> (idx + n < 99)%nat -> (forall j, (idx <= j < idx + n)%nat -> line_at (area s) j (f j)) ->
  exists a, shift_lines n idx s = Some (tt, with_area s a) /\ length a = AREA /\
    (forall j q, (j <= idx \/ S (idx + n) < j < 100)%nat -> line_at (area s) j q -> line_at a j q) /\
    ((0 < n)%nat -> line_at a (S idx) (f idx)) /\
    (forall j, (idx < j < idx + n)%nat -> line_at a (S j) (fst (f j), [])) /\
    ((0 < n)%nat -> forall q, line_at (area s) (S (idx + n)) q -> line_at a (S (idx + n)) (fst q, [])).
Proof.
  revert s. induction n as [|n IH]; intros s Hl Hn Hf.
  { exists (area s). split; [by destruct s|]. split; [done|]. split; [done|]. split; [lia|]. split; [lia|lia]. }
  destruct (shift_step s (idx + n) (f (idx + n)%nat) Hl) as (a & E & Hla & Hnew & Hkeep & Hover); [lia|by apply Hf; lia|].
  assert (Es : shift_lines (S n) idx s = shift_lines n idx (with_area s a)).
  { revert E. cbn [shift_lines]. replace (idx + S n - 1)%nat with (idx + n)%nat by lia.
    replace (idx + S n)%nat with (S (idx + n)) by lia. rewrite !(run_bind sget _ s _ _ eq_refl). intros E.
    unfold mbind, ST_bind in *. destruct (set_number _ _ s) as [[[] s1]|]; [|done].
    unfold sget in *. cbv beta iota in *. by rewrite E. }
  rewrite Es. destruct (IH (with_area s a)) as (a' & E' & Hla' & Hk & Hfirst & Herase & Hlast);
    [done|lia|intros j Hj; cbn [with_area area]; apply Hkeep; [lia..|apply Hf; lia]|].
  cbn [with_area area] in Hk, Hlast. exists a'. split; [exact E'|]. split; [done|]. split; [|split; [|split]].
  - intros j q Hj Hq. apply Hk; [lia|]. apply Hkeep; [lia..|done].
  - intros _. destruct n as [|n]; [|apply Hfirst; lia].
    cbn [shift_lines] in E'. injection E' as E0. rewrite <- E0. by rewrite Nat.add_0_r in Hnew.
  - intros j Hj. destruct (decide (j = idx + n)%nat) as [->|Hne].
    + apply (Hlast ltac:(lia) (f (idx + n)%nat)). done.
    + apply Herase. lia.
  - intros _ q Hq. replace (idx + S n)%nat with (S (idx + n)) by lia. apply Hk; [lia|]. apply Hover.
    by replace (S (S (idx + n))) with (S (idx + S n)) by lia.
Qed.

Lemma find_line_spec a n before after i :
  (forall j p, (before ++ after) !! j = Some p -> line_at a (i + j) p) ->
  Forall (fun p => fst p < n) before -> (forall p rest, after = p :: rest -> n <= fst p) ->
  find_line a n (length (before ++ after)) i = (i + length before)%nat.
Proof.
  intros Hh Hb Ha. revert i Hh. induction Hb as [|p before Hp _ IH]; intros i Hh; cbn [app length find_line].
  - destruct after as [|p rest]; cbn [length find_line]; [lia|].
    destruct (Hh 0%nat p eq_refl) as [Hn _]. rewrite Nat.add_0_r in Hn. rewrite (line_number_at _ _ _ Hn).
    replace (n <=? fst p) with true by (specialize (Ha p rest eq_refl); lia). lia.
  - destruct (Hh 0%nat p eq_refl) as [Hn _]. rewrite Nat.add_0_r in Hn. rewrite (line_number_at _ _ _ Hn).
    replace (n <=? fst p) with false by lia. rewrite IH; [lia|].
    intros j q Hq. replace (S i + j)%nat with (i + S j)%nat by lia. by apply Hh.
Qed.

(** ** [basic_add_line] *)

(** The arrays hold [l] after the insertion of one line: enough to name the state. *)
Lemma added_ok {C} (s : basic C) a l n :
  length a = AREA -> length l = n -> (n <= BASIC_MAX_PROGRAM_LINES)%nat -> holds a l ->
  let s' := Basic (variables s) a n (pc s) (stack_ptr s) (running s) (con s) in basic_ok s' /\ listing s' = l.
Proof.
  intros Hl Hn Hle Hh s'. assert (E : listing s' = l) by (by apply listing_holds). split; [|done].
  split; [done|done|]. by rewrite E.
Qed.

(** The lines of a sound program, split at the place of a number. *)
Definition placed (n : Z) (l before after : list (Z * list Z)) : Prop :=
  l = before ++ after /\ Forall (fun p => fst p < n) before /\ forall p rest, after = p :: rest -> n <= fst p.

Lemma add_find {C} (s : basic C) n before after :
  basic_ok s -> placed n (listing s) before after ->
  find_line (area s) n (line_count s) 0 = length before /\ line_count s = (length before + length after)%nat.
Proof.
  intros Hok (El & Hb & Ha). pose proof (length_listing s) as Hlen. rewrite El, length_app in Hlen. split; [|lia].
  rewrite <- (length_listing s), El. rewrite (find_line_spec (area s) n before after 0); [done| |done|done].
  intros j p Hp. apply (bo_lines s Hok). by rewrite El.
Qed.

(** [basic_add_line] past its guard. *)
Lemma add_line_shift {C} (s : basic C) n line before after :
  basic_ok s -> (line_count s < BASIC_MAX_PROGRAM_LINES)%nat -> placed n (listing s) before after ->
  (forall t rest, after <> (n, t) :: rest) ->
  basic_add_line n line s =
    (_ ← shift_lines (length after) (length before); _ ← set_number (length before) n;
     _ ← store_line (length before) line; _ ← put_count (S (line_count s)); mret 0) s.
Proof.
  intros Hok Hlt Hp Hne. destruct (add_find s n before after Hok Hp) as [Ef Hc]. unfold basic_add_line.
  rewrite (run_bind sget _ s _ _ eq_refl). replace (BASIC_MAX_PROGRAM_LINES <=? line_count s)%nat with false by (symmetry; apply Nat.leb_gt; done).
  rewrite Ef. replace ((length before <? line_count s)%nat && _) with false.
  { by replace (line_count s - length before)%nat with (length after) by lia. }
  destruct Hp as (El & _ & _). destruct after as [|[k t] rest]; cbn [length] in Hc.
  { by rewrite Hc, Nat.add_0_r, Nat.ltb_irrefl. }
  assert (Hl : listing s !! length before = Some (k, t)) by (rewrite El; by apply list_lookup_middle).
  destruct (bo_lines s Hok _ _ Hl) as [Hn _]. rewrite (line_number_at _ _ _ Hn). cbn [fst].
  symmetry. apply andb_false_intro2. apply Z.eqb_neq. intros ->. by apply (Hne t rest).
Qed.

(** The end of an insertion, once the place is free. *)
Lemma add_line_finish {C} (s : basic C) a i n line l :
  length a = AREA -> (i < 100)%nat -> is_u32 n -> is_line line ->
  (S (line_count s) <= BASIC_MAX_PROGRAM_LINES)%nat -> length l = S (line_count s) -> l !! i = Some (n, cut line) ->
  (forall j p, j <> i -> l !! j = Some p -> line_at a j p) ->
  exists s', (_ ← set_number i n; _ ← store_line i line; _ ← put_count (S (line_count s)); mret 0) (with_area s a) = Some (0, s') /\
    basic_ok s' /\ listing s' = l.
Proof.
  intros Hl Hi Hn Hz Hc Hlen Hli Hrest. pose proof (area_dims _ Hl) as Hd.
  set (a1 := splice a (NUMBERS + 4 * i) (le32 n)).
  assert (E1 : set_number i n (with_area s a) = Some (tt, with_area s a1)).
  { unfold set_number. rewrite poke_eq; [done|]. cbn [with_area area length le32]. bdims. lia. }
  rewrite (run_bind _ _ _ tt _ E1). destruct (number_stored a i n Hl Hi Hn) as (Hl1 & Hn1 & Ho1 & Ht1). fold a1 in Hl1, Hn1, Ho1, Ht1.
  destruct (store_line_spec (with_area s a1) i line Hl1 Hi Hz) as (a2 & E2 & Hl2 & Hi2 & Hn2 & Ht2).
  rewrite (run_bind _ _ _ tt _ E2). cbn [with_area area] in Hn2, Ht2. eexists. split; [reflexivity|].
  apply (added_ok s a2 l (S (line_count s))); [done|done|done|]. intros j p Hj. destruct (decide (j = i)) as [->|Hne].
  - rewrite Hli in Hj. injection Hj as <-. split; [by apply Hn2|done].
  - destruct (Hrest j p Hne Hj) as [Hnj Htj]. apply lookup_lt_Some in Hj. split; [by apply Hn2, Ho1|].
    apply Ht2; [done|]. apply Ht1; [|done]. bdims. lia.
Qed.

(** entering a line keeps the program in order.  A line numbered above all others
    is added at the end, a line whose number exists replaces it, each cut at 127
    characters; a full program refuses every line, replacements included. *)
Theorem basic_add_line_appends_or_replaces {C : Type} (s : basic C) n line before after :
  basic_ok s -> is_u32 n -> is_line line -> placed n (listing s) before after ->
  ((line_count s < BASIC_MAX_PROGRAM_LINES)%nat ->
   (after = [] -> exists s', basic_add_line n line s = Some (0, s') /\ basic_ok s' /\ listing s' = before ++ [(n, cut line)]) /\
   (forall t rest, after = (n, t) :: rest ->
      exists s', basic_add_line n line s = Some (0, s') /\ basic_ok s' /\ listing s' = before ++ (n, cut line) :: rest)) /\
  (line_count s = BASIC_MAX_PROGRAM_LINES -> basic_add_line n line s = Some (-1, s)).
Proof.
  intros Hok Hn Hz Hp. destruct (add_find s n before after Hok Hp) as [Ef Hc]. pose proof Hok as [Hl Hcnt Hlines].
  pose proof Hp as (El & _ & _). split; [intros Hlt; split|].
  - intros ->. cbn [length] in Hc. rewrite Nat.add_0_r in Hc. rewrite (add_line_shift s n line before []) by (done || intros; discriminate).
    cbn [length shift_lines]. rewrite (run_bind (mret tt) _ s tt s eq_refl).
    assert (Es : with_area s (area s) = s) by (by destruct s).
    pose proof (add_line_finish s (area s) (length before) n line (before ++ [(n, cut line)])) as Hf. rewrite Es in Hf.
    apply Hf; try done; [bdims; lia| | |].
    + rewrite length_app. cbn. lia.
    + apply list_lookup_middle. done.
    + intros j p Hj Hlk. apply Hlines. rewrite El, app_nil_r. rewrite lookup_app_l in Hlk; [done|].
      apply lookup_lt_Some in Hlk. rewrite length_app in Hlk. cbn in Hlk. lia.
  - intros t rest ->. cbn [length] in Hc. unfold basic_add_line. rewrite (run_bind sget _ s _ _ eq_refl).
    replace (BASIC_MAX_PROGRAM_LINES <=? line_count s)%nat with false by (symmetry; apply Nat.leb_gt; done). rewrite Ef.
    assert (Hli : listing s !! length before = Some (n, t)) by (rewrite El; by apply list_lookup_middle).
    destruct (Hlines _ _ Hli) as [Hni _]. rewrite (line_number_at _ _ _ Hni). cbn [fst]. rewrite Z.eqb_refl.
    replace (length before <? line_count s)%nat with true by (symmetry; apply Nat.ltb_lt; lia). cbn [andb].
    destruct (store_line_spec s (length before) line Hl) as (a & E & Hla & Hi & Hna & Hta); [bdims; lia|done|].
    rewrite (run_bind _ _ _ tt _ E). eexists. split; [reflexivity|].
    apply (added_ok s a (before ++ (n, cut line) :: rest) (line_count s)); [done| |done|].
    { rewrite length_app. cbn [length]. lia. }
    intros j p Hj. destruct (decide (j = length before)) as [->|Hne].
    + rewrite list_lookup_middle in Hj by done. injection Hj as <-. split; [by apply Hna|done].
    + assert (Hj' : listing s !! j = Some p).
      { rewrite El. rewrite lookup_app in *. destruct (before !! j) eqn:Eb; [done|]. apply lookup_ge_None in Eb.
        replace (j - length before)%nat with (S (j - length before - 1)) in * by lia. done. }
      destruct (Hlines _ _ Hj') as [Hnj Htj]. split; [by apply Hna|by apply Hta].
  - intros Hfull. unfold basic_add_line. rewrite (run_bind sget _ s _ _ eq_refl). by rewrite Hfull, Nat.leb_refl.
Qed.

(** inserting a line before others loses them.  [strncpy] writes one byte past a
    moved line, so of the lines behind the new one only the first keeps its text;
    the others keep their numbers and become empty. *)
Theorem basic_add_line_insertion_erases {C : Type} (s : basic C) n line before k t rest :
  basic_ok s -> (line_count s < 99)%nat -> is_u32 n -> is_line line ->
  placed n (listing s) before ((k, t) :: rest) -> n <> k ->
  exists s', basic_add_line n line s = Some (0, s') /\ basic_ok s' /\
    listing s' = before ++ (n, cut line) :: (k, t) :: ((fun p => (fst p, [])) <$> rest).
Proof.
  intros Hok Hlt Hn Hz Hp Hk. destruct (add_find s n before _ Hok Hp) as [_ Hc]. cbn [length] in Hc.
  pose proof Hok as [Hl Hcnt Hlines]. pose proof Hp as (El & _ & _).
  rewrite (add_line_shift s n line before ((k, t) :: rest)); [|done|bdims; lia|done|congruence]. cbn [length].
  set (f := fun j => default (0, []) (listing s !! j)).
  assert (Hf : forall j, (length before <= j < length before + S (length rest))%nat -> line_at (area s) j (f j)).
  { intros j Hj. apply Hlines. unfold f. destruct (lookup_lt_is_Some_2 (listing s) j) as [p Hpj]; [rewrite length_listing; lia|].
    by rewrite Hpj. }
  destruct (shift_lines_spec (S (length rest)) (length before) f s Hl) as (a & E & Hla & Hkeep & Hfirst & Herase & _); [lia|exact Hf|].
  rewrite (run_bind _ _ _ tt _ E). apply add_line_finish; [done|lia|done|done|bdims; lia| | |].
  - rewrite length_app. cbn [length]. rewrite length_fmap. lia.
  - by apply list_lookup_middle.
  - intros j p Hne Hj. rewrite lookup_app in Hj. destruct (before !! j) as [q|] eqn:Eb.
    { injection Hj as <-. apply Hkeep; [apply lookup_lt_Some in Eb; lia|]. apply Hlines. rewrite El. by apply lookup_app_l_Some. }
    apply lookup_ge_None in Eb. destruct (j - length before)%nat as [|[|m]] eqn:Ej; [lia| |]; cbn [lookup list_lookup] in Hj.
    + injection Hj as <-. replace j with (S (length before)) by lia.
      replace (k, t) with (f (length before)) by (unfold f; rewrite El; by rewrite list_lookup_middle).
      apply Hfirst. lia.
    + change (((fun p => (fst p, [])) <$> rest) !! m = Some p) in Hj. rewrite list_lookup_fmap in Hj.
      destruct (rest !! m) as [q|] eqn:Em; [|done]. injection Hj as <-.
      assert (Hq : f (length before + S m)%nat = q).
      { unfold f. rewrite El, lookup_app_r by lia. replace (length before + S m - length before)%nat with (S m) by lia.
        cbn [lookup list_lookup]. change (default (0, []) (rest !! m) = q). by rewrite Em. }
      replace j with (S (length before + S m)) by lia. rewrite <- Hq. apply Herase.
      apply lookup_lt_Some in Em. lia.
Qed.

(** ** Running a program *)

Section running.
Context {C : Type} `{ConsoleLaws C}.
Variables (a : list Z) (p n : nat) (keep : bool).
Hypothesis (Ha : all_u8 a).

(** What a line of a program may change: the variables and the console; and, where [keep] is
    not set, the number of lines, to zero. *)
Definition idle (s : basic C) : Prop :=
  con_ok (con s) /\ length (variables s) = BASIC_MAX_VARS /\ area s = a /\ pc s = p /\ (line_count s = n \/ keep = false /\ line_count s = O).

Lemma tri_con {X} (m : ST C X) :
  (forall t, tri (fun c => con_ok c /\ con_text c = t) m (fun _ => con_ok)) -> tri idle (on_con m) (fun _ => idle).
Proof.
  intros Hm s (Hc & Hv & Har & Hp & Hn). destruct (Hm (con_text (con s)) (con s)) as (x & c & E & Hc'); [done|].
  exists x. eexists. unfold on_con, zoom. rewrite E. split; [reflexivity|]. by repeat split.
Qed.

Lemma tri_con_write l : tri idle (on_con (console_write l)) (fun _ => idle).
Proof. apply tri_con. intros t. eapply tri_weaken; [apply (console_write_law t l)|done|]. by intros ? ? [? _]. Qed.
Lemma tri_con_putchar c : tri idle (on_con (console_putchar c)) (fun _ => idle).
Proof. apply tri_con. intros t. eapply tri_weaken; [apply (console_putchar_law t c)|done|]. by intros ? ? [? _]. Qed.
Lemma tri_con_dec v : is_u32 v -> tri idle (on_con (console_write_dec v)) (fun _ => idle).
Proof. intros Hv. apply tri_con. intros t. eapply tri_weaken; [by apply (console_write_dec_law t v)|done|]. by intros ? ? [? _]. Qed.

Lemma evaluate_some (s : basic C) expr :
  length (variables s) = BASIC_MAX_VARS -> exists v, evaluate_expression expr s = Some (v, s).
Proof.
  intros Hv. unfold evaluate_expression. rewrite (run_bind sget _ s s s eq_refl).
  destruct (skip_spaces expr) as [|c rest]; [by exists 0|]. destruct (is_var c) eqn:Ec.
  - unfold is_var in Ec. apply andb_true_iff in Ec as [E1 E2]. apply Z.leb_le in E1, E2.
    destruct (lookup_lt_is_Some_2 (variables s) (Z.to_nat (c - 65))) as [v Ev]; [rewrite Hv; unfold BASIC_MAX_VARS; lia|].
    exists v. by rewrite Ev.
  - destruct ((c =? 45) || is_digit c); by eexists.
Qed.

Lemma tri_evaluate expr : tri idle (evaluate_expression expr) (fun _ => idle).
Proof. intros s Hs. destruct (evaluate_some s expr) as [v E]; [apply Hs|]. by exists v, s. Qed.

Lemma tri_print_quoted l : tri idle (print_quoted l) (fun _ => idle).
Proof.
  induction l as [|c l IH]; cbn [print_quoted]; [by apply tri_ret|]. destruct (c =? 34); [by apply tri_ret|].
  eapply tri_bind; [apply tri_con_putchar|]. by intros [].
Qed.

Lemma tri_execute_print l : tri idle (execute_print l) (fun _ => idle).
Proof.
  unfold execute_print. eapply (tri_bind _ _ _ (fun _ => idle)).
  - destruct (skip_spaces l) as [|c rest]; [by apply tri_ret|]. destruct (c =? 34); [apply tri_print_quoted|].
    eapply tri_bind; [apply tri_evaluate|]. intros v. apply tri_con_dec. unfold is_u32. apply u32_range.
  - intros []. eapply tri_bind; [apply tri_con_putchar|]. intros []. by apply tri_ret.
Qed.

Lemma tri_execute_let l : tri idle (execute_let l) (fun _ => idle).
Proof.
  unfold execute_let. destruct (skip_spaces l) as [|v rest]; [by apply tri_ret|].
  destruct (negb (is_var v)); [by apply tri_ret|]. destruct (skip_spaces rest) as [|c rest']; [by apply tri_ret|].
  destruct (negb (c =? 61)); [by apply tri_ret|]. eapply tri_bind; [apply tri_evaluate|]. intros x.
  intros s (Hc & Hv & Hr). eexists _, _. split; [reflexivity|].
  split; [done|]. split; [cbn [variables]; by rewrite length_insert|done].
Qed.

Lemma tri_list_loop k i : tri idle (list_loop k i) (fun _ => idle).
Proof.
  revert i. induction k as [|k IH]; intros i; cbn [list_loop]; [by apply tri_ret|].
  intros s Hs. rewrite (run_bind sget _ s s s eq_refl). revert Hs. pattern s. cbv beta.
  assert (Har : idle s -> area s = a) by (by intros (? & ? & ? & _)). intros Hs. specialize (Har Hs). rewrite Har.
  assert (Hu : is_u32 (line_number a i)).
  { unfold line_number. apply unle32_range. unfold slice, all_u8 in *. by apply Forall_take, Forall_drop. }
  revert s Hs Har. cut (tri idle (_ ← on_con (console_write_dec (line_number a i)); _ ← on_con (console_write (str " "));
    _ ← on_con (console_write (line_text a i)); _ ← on_con (console_write [NL]); list_loop k (S i)) (fun _ => idle)).
  { intros Ht s Hs _. exact (Ht s Hs). }
  eapply tri_bind; [by apply tri_con_dec|]. intros []. eapply tri_bind; [apply tri_con_write|]. intros [].
  eapply tri_bind; [apply tri_con_write|]. intros []. eapply tri_bind; [apply tri_con_write|]. intros []. apply IH.
Qed.

Lemma tri_list_program : tri idle basic_list_program (fun _ => idle).
Proof.
  unfold basic_list_program. eapply tri_bind; [apply tri_con_write|]. intros [] s Hs.
  rewrite (run_bind sget _ s s s eq_refl). destruct (line_count s =? 0)%nat; [by apply tri_con_write|by apply tri_list_loop].
Qed.

Lemma tri_clear_program : keep = false -> tri idle basic_clear_program (fun _ => idle).
Proof.
  intros Hk. unfold basic_clear_program. eapply (tri_bind _ _ _ (fun _ => idle)); [|intros []; apply tri_con_write].
  apply tri_mod. intros s (Hc & Hv & Har & Hp & Hn). repeat split; try done. by right.
Qed.

(** A line is a RUN command. *)
Definition is_run (line : list Z) : bool := str_starts_with (skip_spaces line) (str "RUN").
(** A line is a CLEAR command. *)
Definition is_clear (line : list Z) : bool := str_starts_with (skip_spaces line) (str "CLEAR").

Lemma tri_execute_line depth line : is_run line = false -> (is_clear line = true -> keep = false) -> tri idle (basic_execute_line (S depth) line) (fun _ => idle).
Proof.
  unfold is_run, is_clear. intros Hr Hk. cbn [basic_execute_line]. destruct (skip_spaces line) as [|c rest] eqn:El; [by apply tri_ret|].
  destruct (str_starts_with (c :: rest) (str "PRINT")); [apply tri_execute_print|].
  destruct (str_starts_with (c :: rest) (str "LET")); [apply tri_execute_let|].
  destruct (is_var c && _); [apply tri_execute_let|]. rewrite Hr.
  destruct (str_starts_with (c :: rest) (str "LIST")).
  { eapply tri_bind; [apply tri_list_program|]. intros []. by apply tri_ret. }
  destruct (str_starts_with (c :: rest) (str "CLEAR")).
  { eapply tri_bind; [apply tri_clear_program; by apply Hk|]. intros []. by apply tri_ret. }
  by apply tri_ret.
Qed.
End running.

Lemma run_loop_ends {C : Type} `{ConsoleLaws C} a n keep depth k p :
  all_u8 a -> (forall i, (i < n)%nat -> is_run (line_text a i) = false) ->
  (forall i, (i < n)%nat -> is_clear (line_text a i) = true -> keep = false) -> (n - p < k)%nat ->
  tri (idle a p n keep) (run_loop (basic_execute_line (S depth)) k)
    (fun _ s => con_ok (con s) /\ area s = a /\ (line_count s = n \/ keep = false /\ line_count s = O)).
Proof.
  intros Ha Hr Hcl. revert p. induction k as [|k IH]; intros p Hk s Hs; [lia|].
  pose proof Hs as (Hc & Hv & Har & Hp & Hn). cbn [run_loop]. rewrite (run_bind sget _ s s s eq_refl).
  destruct ((pc s <? line_count s)%nat && running s) eqn:Eb; [|by exists tt, s].
  assert (Hpn : (p < n)%nat) by (apply andb_true_iff in Eb as [Eb _]; apply Nat.ltb_lt in Eb; lia). apply andb_true_iff in Eb as [Eb _]. apply Nat.ltb_lt in Eb. rewrite Har, Hp in *.
  destruct (tri_execute_line a p n keep Ha depth (line_text a p)) with s as (r & s1 & E & Hs1); [by apply Hr|by apply Hcl|done|].
  rewrite (run_bind _ _ s r s1 E), (run_bind sget _ s1 s1 s1 eq_refl). destruct (r <? 0).
  - assert (Hu : is_u32 (line_number (area s1) (pc s1))).
    { destruct Hs1 as (_ & _ & -> & _). unfold line_number. apply unle32_range. unfold slice, all_u8 in *. by apply Forall_take, Forall_drop. }
    assert (Ht : tri (idle a p n keep) (_ ← on_con (console_write (str "Error at line "));
      _ ← on_con (console_write_dec (line_number (area s1) (pc s1))); on_con (console_write [NL])) (fun _ s => idle a p n keep s)).
    { eapply tri_bind; [by apply tri_con_write|]. intros []. eapply tri_bind; [by apply tri_con_dec|]. intros [].
      by apply tri_con_write. }
    destruct (Ht s1 Hs1) as (x & s2 & E2 & Hc2 & _ & Ha2 & _ & Hn2). by exists x, s2.
  - set (s2 := Basic (variables s1) (area s1) (line_count s1) (S (pc s1)) (stack_ptr s1) (running s1) (con s1)).
    rewrite (run_bind (put_pc (S (pc s1))) _ s1 tt s2 eq_refl). apply (IH (S p)); [lia|].
    destruct Hs1 as (Hc1 & Hv1 & Ha1 & Hp1 & Hn1). repeat split; try done. cbn. by rewrite Hp1.
Qed.

(** A RUN command is none of the others. *)
Lemma run_command {C : Type} `{Console C} depth line (s : basic C) :
  is_run line = true ->
  basic_execute_line (S depth) line s = (_ ← basic_run_program depth; mret 0) s.
Proof.
  unfold is_run. intros Hr. cbn [basic_execute_line]. destruct (skip_spaces line) as [|c0 l0]; [done|].
  pose proof Hr as Hr'. change (str "RUN") with [82; 85; 78] in Hr'. cbn [str_starts_with] in Hr'.
  destruct l0 as [|c1 l1]; [cbn in Hr'; lia|].
  destruct l1 as [|c2 l2]; [cbn in Hr'; lia|].
  cbn [str_starts_with] in Hr'. assert (Hc : c0 = 82 /\ c1 = 85) by lia. destruct Hc as [-> ->]. rewrite Hr.
  trans ((_ ← put_running true; _ ← put_pc 0; _ ← run_loop (basic_execute_line depth) (S BASIC_MAX_PROGRAM_LINES);
    _ ← put_running false; mret 0) s); [reflexivity|].
  unfold basic_run_program, mbind, ST_bind, put_running, put_pc, smod. by destruct (run_loop _ _ _) as [[]|].
Qed.

Lemma run_in_program {C : Type} `{Console C} depth (s : basic C) :
  (0 < line_count s)%nat -> is_run (line_text (area s) 0) = true -> basic_run_program depth s = None.
Proof.
  revert s. induction depth as [|depth IH]; intros s Hc Hr;
    set (s1 := Basic (variables s) (area s) (line_count s) 0 (stack_ptr s) true (con s));
    (assert (Hturn : forall d k, basic_execute_line d (line_text (area s) 0) s1 = None ->
       run_loop (basic_execute_line d) (S k) s1 = None) by
      (intros d k He; cbn [run_loop]; rewrite (run_bind sget _ s1 s1 s1 eq_refl);
       change (pc s1) with 0%nat; change (running s1) with true; change (line_count s1) with (line_count s);
       replace (0 <? line_count s)%nat with true by (symmetry; by apply Nat.ltb_lt); cbn [andb];
       unfold mbind, ST_bind; change (area s1) with (area s); by rewrite He)).
  - unfold basic_run_program, mbind, ST_bind, put_running, put_pc, smod. fold s1.
    change (Basic _ _ _ 0 _ _ _) with s1. by rewrite Hturn.
  - unfold basic_run_program, mbind, ST_bind, put_running, put_pc, smod.
    change (Basic _ _ _ 0 _ _ _) with s1. rewrite Hturn; [done|]. rewrite run_command by done.
    unfold mbind, ST_bind. by rewrite IH.
Qed.

(** C36: a program terminates unless it runs itself.  When no line is a RUN command,
    [basic_run_program] returns on every program, whatever else its lines hold; the memory of
    the lines stays as it is, and so does the program unless one of its lines is a CLEAR
    command, which may leave it empty.  When the first line is a RUN command, it never
    returns: each turn starts another one, whatever the depth of the stack. *)
Theorem basic_run_terminates {C : Type} `{ConsoleLaws C} (s : basic C) depth :
  basic_ok s -> con_ok (con s) -> length (variables s) = BASIC_MAX_VARS -> all_u8 (area s) ->
  (Forall (fun p => is_run (snd p) = false) (listing s) ->
   exists s', basic_run_program (S depth) s = Some (tt, s') /\ con_ok (con s') /\ area s' = area s /\ running s' = false /\
     (listing s' = listing s \/ existsb (fun p => is_clear (snd p)) (listing s) = true /\ listing s' = [])) /\
  (forall k t rest, listing s = (k, t) :: rest -> is_run t = true -> basic_run_program depth s = None).
Proof.
  intros Hok Hc Hv Ha. split.
  - intros Hr. set (s1 := Basic (variables s) (area s) (line_count s) 0 (stack_ptr s) true (con s)).
    assert (Hat : forall i, (i < line_count s)%nat -> listing s !! i = Some (line_number (area s) i, line_text (area s) i)).
    { intros i Hi. unfold listing. rewrite list_lookup_fmap, lookup_seq_lt by done. done. }
    destruct (run_loop_ends (area s) (line_count s) (negb (existsb (fun p => is_clear (snd p)) (listing s))) depth
      (S BASIC_MAX_PROGRAM_LINES) 0 Ha) with s1 as ([] & s2 & E & Hc2 & Ha2 & Hn2); [| |pose proof (bo_count s Hok); lia| |].
    { intros i Hi. rewrite Forall_lookup in Hr. exact (Hr i _ (Hat i Hi)). }
    { intros i Hi Hcl. apply negb_false_iff, existsb_exists. exists (line_number (area s) i, line_text (area s) i).
      split; [apply list_elem_of_In; exact (list_elem_of_lookup_2 _ _ _ (Hat i Hi))|exact Hcl]. }
    { split_and!; try done. by left. }
    exists (Basic (variables s2) (area s2) (line_count s2) (pc s2) (stack_ptr s2) false (con s2)). split.
    { unfold basic_run_program.
      change ((run_loop (basic_execute_line (S depth)) (S BASIC_MAX_PROGRAM_LINES) ≫= fun _ => put_running false) s1 =
        Some (tt, Basic (variables s2) (area s2) (line_count s2) (pc s2) (stack_ptr s2) false (con s2))).
      by rewrite (run_bind _ _ s1 tt s2 E). }
    split; [done|]. split; [done|]. split; [done|]. unfold listing. cbn [area line_count]. rewrite Ha2.
    destruct Hn2 as [->|[Hk ->]]; [by left|right]. split; [by apply negb_false_iff|done].
  - intros k t rest El Hr. pose proof (length_listing s) as Hlen. rewrite El in Hlen. cbn in Hlen.
    apply run_in_program; [lia|]. assert (Hl : listing s !! 0%nat = Some (k, t)) by (by rewrite El).
    destruct (bo_lines s Hok _ _ Hl) as [_ Ht]. by rewrite (line_text_at _ _ _ Ht).
Qed.

(** ** LET and PRINT *)

Lemma str_to_int_digits l v :
  Forall (fun c => is_digit c = true) l -> 0 <= v -> dec_value l + v * 10 ^ Z.of_nat (length l) < 2147483648 ->
  digits_to_int l v = dec_value l + v * 10 ^ Z.of_nat (length l).
Proof.
  intros Hl. revert v. induction Hl as [|c l Hc Hl IH]; intros v Hv Hb; cbn [digits_to_int length] in *.
  - rewrite Z.pow_0_r. unfold dec_value. cbn. lia.
  - rewrite Hc. unfold is_digit in Hc. rewrite dec_value_cons in Hb |- *. rewrite Nat2Z.inj_succ, Z.pow_succ_r in * by lia.
    assert (Hpos : 0 < 10 ^ Z.of_nat (length l)) by (apply Z.pow_pos_nonneg; lia).
    assert (Hd : 0 <= dec_value l).
    { clear - Hl. induction Hl as [|c l Hc _ IH]; [done|]. rewrite dec_value_cons. unfold is_digit in Hc.
      assert (0 < 10 ^ Z.of_nat (length l)) by (apply Z.pow_pos_nonneg; lia). nia. }
    rewrite i32_small by nia. rewrite IH by nia. ring.
Qed.

Lemma dec_loop_digits fuel v acc :
  0 <= v -> Forall (fun c => is_digit c = true) acc -> Forall (fun c => is_digit c = true) (dec_loop fuel v acc).
Proof.
  revert v acc. induction fuel as [|fuel IH]; intros v acc Hv Hacc; cbn [dec_loop]; [done|].
  destruct (0 <? v); [|done]. apply IH; [zdm|]. constructor; [|done]. unfold is_digit.
  pose proof (Z.mod_pos_bound v 10 ltac:(lia)). lia.
Qed.

Lemma dec_text_digits v : 0 <= v -> Forall (fun c => is_digit c = true) (dec_text v) /\ dec_text v <> [].
Proof.
  intros Hv. unfold dec_text. destruct (Z.eqb_spec v 0); [by repeat constructor|]. split; [by apply dec_loop_digits|].
  assert (Hne : forall fuel v acc, acc <> [] -> dec_loop fuel v acc <> []).
  { clear. induction fuel as [|fuel IH]; intros v acc Ha; cbn [dec_loop]; [done|]. destruct (0 <? v); [by apply IH|done]. }
  change (dec_loop 10 v []) with (if 0 <? v then dec_loop 9 (v / 10) [48 + v mod 10] else []).
  replace (0 <? v) with true by lia. by apply Hne.
Qed.

Lemma str_to_int_dec v : 0 <= v < 2147483648 -> str_to_int (dec_text v) = v.
Proof.
  intros Hv. destruct (dec_text_digits v) as [Hd Hne]; [lia|].
  assert (Hval : dec_value (dec_text v) = v) by (apply dec_text_value; unfold is_u32; lia).
  unfold str_to_int. destruct (dec_text v) as [|c l] eqn:E; [done|]. pose proof (Forall_inv Hd) as Hc. cbv beta in Hc.
  cbn [skip_spaces]. unfold is_space, is_digit in *. replace ((c =? 32) || (c =? 9)) with false by lia.
  replace (c =? 45) with false by lia. rewrite str_to_int_digits by (done || rewrite ?Hval; lia).
  rewrite Hval, Z.mul_0_l, Z.add_0_r, Z.mul_1_r. by apply i32_small.
Qed.

(** LET and PRINT are inverse.  Entering "LET X=" and the digits of a value and
    then "PRINT X" prints exactly those digits, for every variable and every value
    below 2^31, and changes no other variable. *)
Theorem basic_let_print_roundtrip {C : Type} `{ConsoleLaws C} (s : basic C) depth x v :
  con_ok (con s) -> length (variables s) = BASIC_MAX_VARS -> is_var x = true -> 0 <= v < 2147483648 ->
  exists s1 s2, basic_execute_line (S depth) (str "LET " ++ [x] ++ str "=" ++ dec_text v) s = Some (0, s1) /\
    basic_execute_line (S depth) (str "PRINT " ++ [x]) s1 = Some (0, s2) /\
    con_text (con s2) = con_text (con s) ++ dec_text v ++ [NL] /\ variables s2 = <[Z.to_nat (x - 65) := v]> (variables s).
Proof.
  intros Hc Hv Hx Hval. pose proof Hx as Hx'. unfold is_var in Hx'. assert (Hx65 : 65 <= x <= 90) by lia.
  destruct (dec_text_digits v) as [Hd Hne]; [lia|].
  assert (Hdig : exists c l, dec_text v = c :: l /\ is_digit c = true).
  { destruct (dec_text v) as [|c l]; [done|]. exists c, l. split; [done|]. by apply Forall_inv in Hd. }
  destruct Hdig as (c & l & El & Hcd).
  assert (Hsp : is_space x = false) by (unfold is_space; lia).
  assert (Hspc : is_space c = false) by (unfold is_space, is_digit in *; lia).
  assert (Hvc : is_var c = false) by (unfold is_var, is_digit in *; lia).
  assert (Eev : evaluate_expression (dec_text v) s = Some (v, s)).
  { unfold evaluate_expression. rewrite (run_bind sget _ s s s eq_refl). rewrite <- (str_to_int_dec v Hval) at 2. rewrite El.
    cbn [skip_spaces]. rewrite Hspc, Hvc, Hcd, orb_true_r. done. }
  set (s1 := Basic (<[Z.to_nat (x - 65) := v]> (variables s)) (area s) (line_count s) (pc s) (stack_ptr s) (running s) (con s)).
  assert (E1 : basic_execute_line (S depth) (str "LET " ++ [x] ++ str "=" ++ dec_text v) s = Some (0, s1)).
  { change (execute_let (32 :: x :: 61 :: dec_text v) s = Some (0, s1)). unfold execute_let.
    cbn [skip_spaces]. change (is_space 32) with true. cbv iota. rewrite Hsp, Hx. cbn [negb].
    change (skip_spaces (61 :: dec_text v)) with (61 :: dec_text v). cbv iota. change (61 =? 61) with true. cbn [negb].
    by rewrite (run_bind _ _ s v s Eev). }
  set (lv := dec_text v) in *.
  assert (E2 : evaluate_expression [x] s1 = Some (v, s1)).
  { unfold evaluate_expression. rewrite (run_bind sget _ s1 s1 s1 eq_refl). cbn [skip_spaces]. rewrite Hsp, Hx.
    cbn [variables s1]. rewrite list_lookup_insert_eq; [done|]. rewrite Hv. unfold BASIC_MAX_VARS. lia. }
  destruct (console_write_dec_law (con_text (con s)) (u32 v)) with (con s) as ([] & c1 & Ec1 & Hok1 & Ht1); [apply u32_range|done|].
  destruct (console_putchar_law (con_text c1) NL c1) as ([] & c2 & Ec2 & Hok2 & Ht2); [done|].
  set (s2 := Basic (variables s1) (area s) (line_count s) (pc s) (stack_ptr s) (running s) c1).
  set (s3 := Basic (variables s1) (area s) (line_count s) (pc s) (stack_ptr s) (running s) c2).
  exists s1, s3. split; [done|]. split.
  - change (execute_print [32; x] s1 = Some (0, s3)). unfold execute_print. cbn [skip_spaces].
    change (is_space 32) with true. cbv iota. rewrite Hsp. replace (x =? 34) with false by lia.
    assert (Ew : on_con (console_write_dec (u32 v)) s1 = Some (tt, s2)) by (unfold on_con, zoom; change (con s1) with (con s); by rewrite Ec1).
    assert (Ep : on_con (console_putchar NL) s2 = Some (tt, s3)) by (unfold on_con, zoom; change (con s2) with c1; by rewrite Ec2).
    rewrite (run_bind _ _ s1 tt s2); [by rewrite (run_bind _ _ s2 tt s3 Ep)|]. by rewrite (run_bind _ _ s1 v s1 E2).
  - split; [|done]. cbn [con s3]. rewrite Ht2, Ht1, u32_small by lia. by rewrite <- app_assoc.
Qed.

(** ** A small program *)

Definition empty_program : basic teletype := Basic (replicate BASIC_MAX_VARS 0) (replicate AREA 0) 0 0 0 false [].
Definition after_line {A} (o : option (A * basic teletype)) : basic teletype :=
  match o with Some (_, s) => s | None => empty_program end.
(** 10 PRINT X; 20 X=2; 30 PRINT X *)
Definition three_lines : basic teletype :=
  after_line (basic_add_line 30 (str "PRINT X") (after_line (basic_add_line 20 (str "X=2")
    (after_line (basic_add_line 10 (str "PRINT X") empty_program))))).

Lemma three_listing : listing three_lines = [(10, str "PRINT X"); (20, str "X=2"); (30, str "PRINT X")].
Proof. vm_compute. reflexivity. Qed.

(** A decision procedure for [line_at] on concrete arrays. *)
Definition line_atb (a : list Z) (i : nat) (p : Z * list Z) : bool :=
  bool_decide (slice a (NUMBERS + 4 * i) 4 = le32 (fst p)) && (0 <=? fst p) && (fst p <? 4294967296) &&
  bool_decide (slice a (i * BASIC_MAX_LINE_LEN) (length (snd p) + 1) = snd p ++ [0]) &&
  forallb (fun c => negb (c =? 0)) (snd p) && (length (snd p) <? BASIC_MAX_LINE_LEN)%nat.

Lemma line_atb_ok a i p : line_atb a i p = true -> line_at a i p.
Proof.
  unfold line_atb. rewrite !andb_true_iff, !bool_decide_eq_true. intros [[[[[H1 H2] H3] H4] H5] H6].
  split; (split; [done|]); [unfold is_u32; lia|]. split; [|by apply Nat.ltb_lt].
  rewrite forallb_forall in H5. apply Forall_forall. intros c Hc. specialize (H5 c). rewrite negb_true_iff in H5.
  apply Z.eqb_neq, H5. by apply list_elem_of_In.
Qed.

Lemma three_lines_at : forallb (fun j => line_atb (area three_lines) j (default (0, []) (listing three_lines !! j))) (seq 0 3) = true.
Proof. vm_compute. reflexivity. Qed.

Lemma three_lines_ok : basic_ok three_lines.
Proof.
  split; [vm_compute; reflexivity|apply Nat.leb_le; vm_compute; reflexivity|]. intros j p Hj.
  pose proof (lookup_lt_Some _ _ _ Hj) as Hlt. rewrite three_listing in Hlt. pose proof three_lines_at as Ht.
  rewrite forallb_forall in Ht. specialize (Ht j). rewrite Hj in Ht. apply line_atb_ok, Ht, in_seq. cbn in Hlt. lia.
Qed.

Lemma empty_ok : basic_ok empty_program.
Proof. split; [apply length_replicate|apply Nat.le_0_l|]. intros j p Hj. discriminate. Qed.

Lemma str_line s : forallb (fun c => negb (c =? 0)) s = true -> is_line s.
Proof.
  rewrite forallb_forall. intros H. apply Forall_forall. intros c Hc. specialize (H c).
  rewrite negb_true_iff in H. apply Z.eqb_neq, H. by apply list_elem_of_In.
Qed.

Lemma placed_nil n : placed n (listing empty_program) [] [].
Proof. split; [done|]. split; [constructor|discriminate]. Qed.

Lemma basic_add_line_appends_or_replaces_witness :
  exists s', basic_add_line 10 (str "PRINT X") empty_program = Some (0, s') /\ listing s' = [(10, str "PRINT X")].
Proof.
  assert (Hu : is_u32 10) by (unfold is_u32; lia).
  destruct (basic_add_line_appends_or_replaces empty_program 10 (str "PRINT X") [] [] empty_ok Hu (str_line (str "PRINT X") eq_refl)
    (placed_nil 10)) as [Happ _].
  assert (Hlt : (line_count empty_program < BASIC_MAX_PROGRAM_LINES)%nat) by apply Nat.lt_0_succ.
  destruct (proj1 (Happ Hlt) eq_refl) as (s' & E & _ & El). exact (ex_intro _ s' (conj E El)).
Defined.

Lemma placed_first : placed 5 (listing three_lines) [] ((10, str "PRINT X") :: [(20, str "X=2"); (30, str "PRINT X")]).
Proof. split; [exact three_listing|]. split; [constructor|]. by intros p rest [= <- <-]. Qed.

Lemma three_count : (line_count three_lines < 99)%nat.
Proof. apply Nat.ltb_lt. vm_compute. reflexivity. Qed.

Lemma basic_add_line_insertion_erases_witness :
  exists s', basic_add_line 5 (str "X=1") three_lines = Some (0, s') /\
    listing s' = [(5, str "X=1"); (10, str "PRINT X"); (20, []); (30, [])].
Proof.
  assert (Hu : is_u32 5) by (unfold is_u32; lia).
  destruct (basic_add_line_insertion_erases three_lines 5 (str "X=1") [] 10 (str "PRINT X") [(20, str "X=2"); (30, str "PRINT X")]
    three_lines_ok three_count Hu (str_line (str "X=1") eq_refl) placed_first ltac:(lia)) as (s' & E & _ & El).
  exact (ex_intro _ s' (conj E El)).
Defined.

Lemma bytes_ok l : forallb (fun c => (0 <=? c) && (c <? 256)) l = true -> all_u8 l.
Proof.
  rewrite forallb_forall. intros H. apply Forall_forall. intros c Hc. apply list_elem_of_In, H in Hc. unfold is_u8. lia.
Qed.

Lemma three_bytes : all_u8 (area three_lines).
Proof. apply bytes_ok. vm_compute. reflexivity. Qed.

Lemma three_vars : length (variables three_lines) = BASIC_MAX_VARS.
Proof. vm_compute. reflexivity. Qed.

Lemma three_no_run : Forall (fun p => is_run (snd p) = false) (listing three_lines).
Proof. rewrite three_listing. repeat constructor. Qed.

Lemma teletype_ok (t : teletype) : con_ok t.
Proof. exact I. Qed.

Lemma basic_run_terminates_witness :
  exists s', basic_run_program 1 three_lines = Some (tt, s') /\ area s' = area three_lines /\ listing s' = listing three_lines.
Proof.
  destruct (proj1 (basic_run_terminates three_lines 0 three_lines_ok (teletype_ok _) three_vars three_bytes) three_no_run)
    as (s' & E & _ & Ha & _ & [El|[Hcl _]]); [exact (ex_intro _ s' (conj E (conj Ha El)))|].
  rewrite three_listing in Hcl. discriminate Hcl.
Defined.

Example three_lines_output : (con <$> (snd <$> basic_run_program 1 three_lines)) = Some (str "0" ++ NL :: str "2" ++ [NL]).
Proof. vm_compute. reflexivity. Qed.

(** A negative value is printed as an unsigned one. *)
Example print_negative :
  (con <$> (snd <$> basic_execute_line 1 (str "PRINT -5") empty_program)) = Some (str "4294967291" ++ [NL]).
Proof. vm_compute. reflexivity. Qed.

Lemma basic_let_print_roundtrip_witness : exists s1 s2,
  basic_execute_line 1 (str "LET " ++ [88] ++ str "=" ++ dec_text 42) empty_program = Some (0, s1) /\
  basic_execute_line 1 (str "PRINT " ++ [88]) s1 = Some (0, s2) /\ con s2 = str "42" ++ [NL].
Proof.
  assert (Hv : 0 <= 42 < 2147483648) by lia.
  destruct (basic_let_print_roundtrip empty_program 0 88 42 (teletype_ok _) eq_refl eq_refl Hv) as (s1 & s2 & E1 & E2 & Et & _).
  exact (ex_intro _ s1 (ex_intro _ s2 (conj E1 (conj E2 Et)))).
Defined.
