(* ===== verification/Editor.v ===== *)
(** ui/editor.c: the line editor.

    A client of four components: the console (the Console interface), the keyboard
    (the list of the characters to come), the BASIC interpreter (Basic) and the file
    system (Fs).  [buffer] is the array of 4096 bytes, its text the bytes before the
    first zero; [line_buffer] is the string typed.  A computation that waits for a key
    that never comes returns [None] as its result. *)

From S2P Require Import Prelude Codec Effects Console Basic BlockDev DiskFs Fs.
Local Open Scope Z_scope.

(** ** Definitions *)

Definition EDITOR_MODE_TEXT : Z := 0.
Definition EDITOR_MODE_BASIC : Z := 1.
Definition EDITOR_MODE_HEX : Z := 2.
Definition EDITOR_MAX_FILE_SIZE : nat := 4096.
Definition EDITOR_LINE_SIZE : nat := 256.
Definition EDITOR_CMD_QUIT : Z := 0.

Record editor (C D : Type) := Editor {
  filename : list Z;
  ebuffer : list Z;
  line_buffer : list Z;
  buffer_size : Z;
  mode : Z;
  modified : bool;
  erunning : bool;
  interp : basic C;
  files : fs D;
  input : list Z
}.
Arguments Editor {C D}. Arguments filename {C D}. Arguments ebuffer {C D}. Arguments line_buffer {C D}.
Arguments buffer_size {C D}. Arguments mode {C D}. Arguments modified {C D}. Arguments erunning {C D}.
Arguments interp {C D}. Arguments files {C D}. Arguments input {C D}.

Definition zero_buffer : list Z := replicate EDITOR_MAX_FILE_SIZE 0.

(** [editor_delete_last_line]: [while (last_nl > 0 && buffer[last_nl - 1] != '\n') last_nl--;] *)
Fixpoint back_to_newline (text : list Z) (last_nl : nat) : nat :=
  match last_nl with
  | O => O
  | S n => if decide (text !! n = Some NL) then S n else back_to_newline text n
  end.

(** [while ( *ptr == ' ') ptr++;] *)
Fixpoint skip_blanks (l : list Z) : list Z :=
  match l with c :: rest => if c =? 32 then skip_blanks rest else l | [] => [] end.

(** The digits at the front as a [uint32_t], and the rest. *)
Fixpoint line_num_of (l : list Z) (line_num : Z) : Z * list Z :=
  match l with
  | c :: rest => if is_digit c then line_num_of rest (u32 (u32 (line_num * 10) + (c - 48))) else (line_num, l)
  | [] => (line_num, [])
  end.
Definition starts_with_digit (l : list Z) : bool := match l with c :: _ => is_digit c | [] => false end.

(** At most [room] characters of a line, and what follows; the newline is consumed. *)
Fixpoint take_line (room : nat) (text : list Z) : list Z * list Z :=
  match room, text with
  | S room, c :: rest =>
      if c =? NL then ([], rest) else let '(l, rest) := take_line room rest in (c :: l, rest)
  | O, c :: rest => ([], if c =? NL then rest else text)
  | _, [] => ([], [])
  end.

Section editor.
Context {C : Type} `{Console C} {D : Type} `{BlockDev D}.
(** What an uninitialised directory entry holds in DiskFs. *)
Variable uninit : Z -> list Z.

Definition E : Type -> Type := ST (editor C D).

Definition put_name (x : list Z) : E unit := smod (fun s => Editor x (ebuffer s) (line_buffer s) (buffer_size s) (mode s) (modified s) (erunning s) (interp s) (files s) (input s)).
Definition put_buffer (x : list Z) : E unit := smod (fun s => Editor (filename s) x (line_buffer s) (buffer_size s) (mode s) (modified s) (erunning s) (interp s) (files s) (input s)).
Definition put_line (x : list Z) : E unit := smod (fun s => Editor (filename s) (ebuffer s) x (buffer_size s) (mode s) (modified s) (erunning s) (interp s) (files s) (input s)).
Definition put_size (x : Z) : E unit := smod (fun s => Editor (filename s) (ebuffer s) (line_buffer s) x (mode s) (modified s) (erunning s) (interp s) (files s) (input s)).
Definition put_mode (x : Z) : E unit := smod (fun s => Editor (filename s) (ebuffer s) (line_buffer s) (buffer_size s) x (modified s) (erunning s) (interp s) (files s) (input s)).
Definition put_modified (x : bool) : E unit := smod (fun s => Editor (filename s) (ebuffer s) (line_buffer s) (buffer_size s) (mode s) x (erunning s) (interp s) (files s) (input s)).
Definition put_erunning (x : bool) : E unit := smod (fun s => Editor (filename s) (ebuffer s) (line_buffer s) (buffer_size s) (mode s) (modified s) x (interp s) (files s) (input s)).
Definition put_input (x : list Z) : E unit := smod (fun s => Editor (filename s) (ebuffer s) (line_buffer s) (buffer_size s) (mode s) (modified s) (erunning s) (interp s) (files s) x).

Definition on_basic {A} (m : B A) : E A :=
  zoom interp (fun x s => Editor (filename s) (ebuffer s) (line_buffer s) (buffer_size s) (mode s) (modified s) (erunning s) x (files s) (input s)) m.
Definition on_files {A} (m : F A) : E A :=
  zoom files (fun x s => Editor (filename s) (ebuffer s) (line_buffer s) (buffer_size s) (mode s) (modified s) (erunning s) (interp s) x (input s)) m.
Definition on_screen {A} (m : ST C A) : E A := on_basic (on_con m).
Definition say (l : list Z) : E unit := on_screen (console_write l).
(** Text and a newline. *)
Definition say_line (s : string) : E unit := say (str s ++ [NL]).
Fixpoint say_lines (ss : list string) : E unit :=
  match ss with [] => mret tt | s :: ss => _ ← say_line s; say_lines ss end.

Definition keyboard_getchar : E (option Z) :=
  s ← sget; match input s with [] => mret None | c :: rest => _ ← put_input rest; mret (Some c) end.

(** The string in the buffer. *)
Definition text (s : editor C D) : list Z := until_nul (ebuffer s).
(** Bytes stored in the buffer. *)
Definition store (off : nat) (bytes : list Z) : E unit :=
  s ← sget;
  if (off + length bytes <=? length (ebuffer s))%nat then put_buffer (splice (ebuffer s) off bytes) else sfault.

Definition editor_init : E unit :=
  smod (fun s => Editor [] zero_buffer [] 0 EDITOR_MODE_TEXT false false (interp s) (files s) (input s)).

Definition editor_clear_screen : E unit := on_screen console_clear.

Definition editor_draw_header : E unit :=
  s ← sget;
  _ ← say (str "=== mexOS Editor: "); _ ← say (filename s);
  _ ← (if mode s =? EDITOR_MODE_TEXT then say (str " [TEXT]")
       else if mode s =? EDITOR_MODE_BASIC then say (str " [BASIC]")
       else if mode s =? EDITOR_MODE_HEX then say (str " [HEX]") else mret tt);
  _ ← (if modified s then say (str " *") else mret tt);
  say_line " ===".

Definition editor_draw_status : E unit :=
  s ← sget;
  _ ← say_line "---";
  if mode s =? EDITOR_MODE_TEXT then say_line ":q quit | :w save | :wq save+quit | :d delete line | :p print | :h help"
  else if mode s =? EDITOR_MODE_BASIC then say_line "Enter line numbers to add code | RUN | LIST | :q quit | :w save | :h help"
  else if mode s =? EDITOR_MODE_HEX then say_line ":q quit | :w save | :wq save+quit | :h help" else mret tt.

(** [None] while it waits for a key. *)
Definition editor_show_help : E (option unit) :=
  s ← sget;
  _ ← say (NL :: str "=== Editor Help ===" ++ [NL]);
  _ ← (if mode s =? EDITOR_MODE_TEXT then
         say_lines ["TEXT MODE:"; "  :q          - Quit editor"; "  :w          - Save file"; "  :wq         - Save and quit";
                    "  :d          - Delete last line"; "  :p          - Print buffer"; "  :mode basic - Switch to BASIC mode";
                    "  :mode hex   - Switch to HEX mode"; "  :h          - Show this help"; "";
                    "Type text and press Enter to add lines"]%string
       else if mode s =? EDITOR_MODE_BASIC then
         say_lines ["BASIC MODE:"; "  RUN         - Execute BASIC program"; "  LIST        - List program lines";
                    "  CLEAR       - Clear program"; "  PRINT expr  - Print expression"; "  LET var=val - Assign variable (A-Z)";
                    "  10 PRINT..  - Add numbered line"; "  :q          - Quit editor"; "  :w          - Save program";
                    "  :mode text  - Switch to TEXT mode"; "  :h          - Show this help"]%string
       else if mode s =? EDITOR_MODE_HEX then
         say_lines ["HEX MODE:"; "  :q          - Quit editor"; "  :w          - Save file"; "  :wq         - Save and quit";
                    "  :mode text  - Switch to TEXT mode"; "  :h          - Show this help"; "";
                    "Hex viewer (read-only in this version)"]%string
       else mret tt);
  _ ← say (NL :: str "Press any key to continue..." ++ [NL]);
  c ← keyboard_getchar;
  mret (_ ← c; Some tt).

Definition editor_open (name : list Z) (m : Z) : E Z :=
  _ ← put_name (take 127 name); _ ← put_mode m; _ ← put_modified false; _ ← put_size 0; _ ← put_buffer zero_buffer;
  exists_ ← on_files (fs_exists name);
  if exists_ : bool then
    dir ← on_files (fs_is_dir name);
    if dir : bool then _ ← say_line "editor: is a directory"; mret (-1) else
    '(file_len, data) ← on_files (fs_read uninit name (Z.of_nat EDITOR_MAX_FILE_SIZE - 1));
    _ ← store 0 data;
    let file_len := if file_len <? 0 then 0 else file_len in
    _ ← store (Z.to_nat file_len) [0];
    _ ← put_size file_len;
    mret 0
  else
    ret ← on_files (fs_create_file uninit name);
    if negb (ret =? FS_ERR_OK) then _ ← say_line "editor: cannot create file"; mret (-1) else mret 0.

Definition editor_save : E Z :=
  s ← sget;
  ret ← on_files (fs_write uninit (filename s) (ebuffer s) (Z.of_nat (length (text s))));
  if ret =? FS_ERR_OK then _ ← put_modified false; _ ← say_line "Saved"; mret 0
  else _ ← say_line "Error: Failed to save file"; mret (-1).

Definition editor_delete_last_line : E unit :=
  s ← sget;
  let t := text s in
  let len := length t in
  if (0 <? len)%nat then
    let last_nl := if bool_decide (t !! (len - 1)%nat = Some NL) && (1 <? len)%nat then (len - 1)%nat else len in
    let last_nl := back_to_newline t last_nl in
    _ ← store last_nl [0]; _ ← put_size (Z.of_nat last_nl); _ ← put_modified true;
    say_line "Line deleted"
  else say_line "Buffer empty".

Definition editor_print_buffer : E unit :=
  s ← sget;
  _ ← say_line "---";
  _ ← (if (0 <? length (text s))%nat then
         _ ← say (text s);
         if bool_decide (text s !! (length (text s) - 1)%nat = Some NL) then mret tt else say [NL]
       else mret tt);
  say_line "---".

Definition editor_add_line (line : list Z) : E unit :=
  s ← sget;
  let buf_len := length (text s) in
  let line_len := length line in
  if (buf_len + line_len + 2 <? EDITOR_MAX_FILE_SIZE)%nat then
    _ ← store buf_len (line ++ [0]);
    _ ← store (buf_len + line_len) [NL; 0];
    _ ← put_size (Z.of_nat (buf_len + line_len + 1)); put_modified true
  else say_line "Buffer full".

(** A numbered line goes to the program. *)
Definition program_line (l : list Z) : E Z :=
  let '(line_num, rest) := line_num_of l 0 in on_basic (basic_add_line line_num (skip_blanks rest)).

(** The [while ( *line)] loop of [editor_set_mode]. *)
Fixpoint load_program (fuel : nat) (line : list Z) : E unit :=
  match fuel with
  | O => sfault
  | S fuel =>
      match line with
      | [] => mret tt
      | _ =>
          let '(temp_line, line) := take_line (EDITOR_LINE_SIZE - 1) line in
          let ptr := skip_blanks temp_line in
          _ ← (if starts_with_digit ptr then _ ← program_line ptr; mret tt else mret tt);
          load_program fuel line
      end
  end.

Definition editor_set_mode (m : Z) : E unit :=
  s ← sget;
  if negb (m =? mode s) then
    _ ← put_mode m; _ ← put_modified true;
    if m =? EDITOR_MODE_BASIC then
      _ ← on_basic basic_clear_program;
      _ ← load_program (S (length (text s))) (text s);
      say_line "Switched to BASIC mode"
    else if m =? EDITOR_MODE_TEXT then say_line "Switched to TEXT mode"
    else if m =? EDITOR_MODE_HEX then say_line "Switched to HEX mode" else mret tt
  else mret tt.

Definition editor_run_basic (depth : nat) : E unit :=
  s ← sget;
  if negb (mode s =? EDITOR_MODE_BASIC) then say_line "Not in BASIC mode" else
  _ ← say (NL :: str "=== Running BASIC Program ===" ++ [NL]);
  _ ← on_basic (basic_run_program depth);
  say (NL :: str "=== Program Finished ===" ++ [NL]).

Definition editor_list_basic : E unit :=
  s ← sget;
  if negb (mode s =? EDITOR_MODE_BASIC) then say_line "Not in BASIC mode" else on_basic basic_list_program.

(** The code, or [None] while the help waits for a key. *)
Definition editor_handle_command : E (option Z) :=
  s ← sget;
  let cmd := match line_buffer s with c :: rest => if c =? 58 then rest else line_buffer s | [] => [] end in
  if decide (cmd = str "q") then
    if modified s then _ ← say_line "Warning: unsaved changes (use :q! to force quit)"; mret (Some 0)
    else mret (Some EDITOR_CMD_QUIT)
  else if decide (cmd = str "q!") then mret (Some EDITOR_CMD_QUIT)
  else if decide (cmd = str "w") then _ ← editor_save; mret (Some 0)
  else if decide (cmd = str "wq") then _ ← editor_save; mret (Some EDITOR_CMD_QUIT)
  else if decide (cmd = str "d") then _ ← editor_delete_last_line; mret (Some 0)
  else if decide (cmd = str "p") then _ ← editor_print_buffer; mret (Some 0)
  else if decide (cmd = str "h" \/ cmd = str "help") then o ← editor_show_help; mret (_ ← o; Some 0)
  else if str_starts_with cmd (str "mode ") then
    let cmd := skip_blanks (drop 5 cmd) in
    _ ← (if decide (cmd = str "text") then editor_set_mode EDITOR_MODE_TEXT
         else if decide (cmd = str "basic") then editor_set_mode EDITOR_MODE_BASIC
         else if decide (cmd = str "hex") then editor_set_mode EDITOR_MODE_HEX
         else say_line "Unknown mode");
    mret (Some 0)
  else _ ← say_line "Unknown command (type :h for help)"; mret (Some 0).

(** A line typed in BASIC mode. *)
Definition basic_mode_line (depth : nat) (l : list Z) : E unit :=
  if str_starts_with l (str "RUN") then editor_run_basic depth
  else if str_starts_with l (str "LIST") then editor_list_basic
  else if str_starts_with l (str "CLEAR") then
    _ ← on_basic basic_clear_program; _ ← put_buffer zero_buffer; _ ← put_size 0; _ ← put_modified true;
    say_line "Program cleared"
  else
    let ptr := skip_blanks l in
    if starts_with_digit ptr then
      r ← program_line ptr;
      if r =? 0 then editor_add_line l else say_line "Error: Program full"
    else
      r ← on_basic (basic_execute_line depth l);
      if r <? 0 then say_line "Syntax error" else mret tt.

(** One turn of [while (editor_state.running)]: [Some true] to go on, [Some false] at
    the end, [None] while it waits for input. *)
Definition edit_turn (depth : nat) : E (option bool) :=
  s ← sget;
  o ← on_screen (read_line EDITOR_LINE_SIZE (input s) []);
  match o with
  | None => mret None
  | Some (l, rest) =>
      _ ← put_line l; _ ← put_input rest;
      s ← sget;
      if match l with c :: _ => c =? 58 | [] => false end then
        r ← editor_handle_command;
        match r with
        | None => mret None
        | Some cmd_result =>
            if cmd_result =? EDITOR_CMD_QUIT then _ ← put_erunning false; mret (Some false)
            else _ ← say (str "> "); mret (Some true)
        end
      else
        _ ← (if mode s =? EDITOR_MODE_BASIC then basic_mode_line depth l else editor_add_line l);
        _ ← say (str "> "); mret (Some true)
  end.

(** Each turn but the last takes a character at least: the length of the input is
    enough fuel.  The result is [true] when the editor has ended. *)
Fixpoint edit_loop (fuel depth : nat) : E bool :=
  match fuel with
  | O => sfault
  | S fuel =>
      s ← sget;
      if erunning s then
        o ← edit_turn depth;
        match o with
        | None => mret false
        | Some false => _ ← on_screen console_clear; mret true
        | Some true => edit_loop fuel depth
        end
      else _ ← on_screen console_clear; mret true
  end.

(** [editor_run] up to its loop. *)
Definition editor_run_start : E unit :=
  _ ← editor_clear_screen; _ ← editor_draw_header; _ ← editor_draw_status; _ ← say_line "---";
  s ← sget;
  _ ← (if 0 <? buffer_size s then
         _ ← say (text s);
         c ← sopt (ebuffer s !! Z.to_nat (buffer_size s - 1));
         if c =? NL then mret tt else say [NL]
       else mret tt);
  say (str "---" ++ NL :: str "> ").

Definition editor_run (depth : nat) : E bool :=
  _ ← put_erunning true;
  _ ← editor_run_start;
  s ← sget; edit_loop (S (length (input s))) depth.

Definition editor_get_state : E (editor C D) := sget.
End editor.

(** ** The text of the buffer *)

(** [back_to_newline] stops behind the last newline. *)
Lemma back_to_newline_spec t l r :
  (t = [] \/ last t = Some NL) -> NL ∉ l -> back_to_newline (t ++ l ++ r) (length t + length l) = length t.
Proof.
  intros Ht. revert r. induction l as [|x l IH] using rev_ind; intros r Hl.
  - rewrite Nat.add_0_r. destruct (length t) as [|k] eqn:E; [done|]. cbn [back_to_newline].
    destruct Ht as [->|Ht]; [done|]. rewrite last_lookup, E in Ht. cbn in Ht.
    rewrite lookup_app_l by lia. by rewrite decide_True.
  - rewrite length_app. cbn [length]. rewrite Nat.add_assoc, Nat.add_1_r. cbn [back_to_newline].
    rewrite not_elem_of_app in Hl. destruct Hl as [Hl Hx]. rewrite decide_False.
    + rewrite <- app_assoc. by apply IH.
    + rewrite lookup_app_r by lia. rewrite <- app_assoc. cbn [app].
      rewrite list_lookup_middle by lia. set_solver.
Qed.

(** ** What the commands do *)

Section proofs.
Context {C : Type} `{ConsoleLaws C} {D : Type} `{BlockDevLaws D}.
Variable uninit : Z -> list Z.
Implicit Types (s : editor C D).

Definition screen s : C := con (interp s).
(** The state with another console; with another text. *)
Definition at_con s (c : C) : editor C D :=
  let b := interp s in
  Editor (filename s) (ebuffer s) (line_buffer s) (buffer_size s) (mode s) (modified s) (erunning s)
    (Basic (variables b) (area b) (line_count b) (pc b) (stack_ptr b) (running b) c) (files s) (input s).
Definition with_text s (b : list Z) : editor C D :=
  Editor (filename s) b (line_buffer s) (Z.of_nat (length (until_nul b))) (mode s) true (erunning s) (interp s) (files s) (input s).

(** A terminated string in the array, and a working console. *)
Definition ed_ok s : Prop :=
  length (ebuffer s) = EDITOR_MAX_FILE_SIZE /\ (length (text s) < EDITOR_MAX_FILE_SIZE)%nat /\ con_ok (screen s).

(** [m] only writes on the console, the text [l]. *)
Definition says {A} (m : E A) (a : A) (l : list Z) s : Prop :=
  exists c, m s = Some (a, at_con s c) /\ con_ok c /\ con_text c = con_text (screen s) ++ l.

Lemma says_screen {A} (m : ST C A) a l s : con_ok (screen s) ->
  (forall t, tri (fun c => con_ok c /\ con_text c = t) m (fun x c => x = a /\ con_ok c /\ con_text c = t ++ l)) ->
  says (on_screen m) a l s.
Proof.
  intros Hc Hm. destruct (Hm (con_text (screen s)) (screen s)) as (x & c & E & -> & Hc' & Ht); [done|].
  exists c. split; [|done]. unfold on_screen, on_basic, on_con, zoom. unfold screen in E. by rewrite E.
Qed.

Lemma says_say l s : con_ok (screen s) -> says (say l) tt l s.
Proof.
  intros Hc. apply says_screen; [done|]. intros t. eapply tri_weaken; [apply (console_write_law t l)|done|]. by intros [] c.
Qed.

Lemma says_clear s : con_ok (screen s) -> says (on_screen console_clear) tt [] s.
Proof.
  intros Hc. apply says_screen; [done|]. intros t. rewrite app_nil_r.
  eapply tri_weaken; [apply (console_clear_law t)|done|]. by intros [] c.
Qed.

Lemma says_ret {A} (a : A) s : con_ok (screen s) -> says (mret a) a [] s.
Proof. intros Hc. exists (screen s). rewrite app_nil_r. split; [|done]. by destruct s as [? ? ? ? ? ? ? []]. Qed.

Lemma says_bind {A B} (m : E A) (k : A -> E B) a b l l' s :
  says m a l s -> (forall c, con_ok c -> says (k a) b l' (at_con s c)) -> says (mbind k m) b (l ++ l') s.
Proof.
  intros (c & E & Hc & Ht) Hk. destruct (Hk c Hc) as (c' & E' & Hc' & Ht').
  exists c'. rewrite (run_bind _ _ _ _ _ E), E'. split; [done|]. split; [done|].
  rewrite Ht'. unfold screen in *. cbn. by rewrite Ht, app_assoc.
Qed.

(** Whatever it writes. *)
Definition prints (m : E unit) s : Prop := exists l, says m tt l s.

Lemma shows_say l s : con_ok (screen s) -> prints (say l) s.
Proof. intros Hc. exists l. by apply says_say. Qed.
Lemma shows_line x s : con_ok (screen s) -> prints (say_line x) s.
Proof. apply shows_say. Qed.
Lemma shows_ret s : con_ok (screen s) -> prints (mret tt) s.
Proof. intros Hc. exists []. by apply says_ret. Qed.
Lemma shows_if (b : bool) m1 m2 s : prints m1 s -> prints m2 s -> prints (if b then m1 else m2) s.
Proof. by destruct b. Qed.
Lemma shows_bind (m : E unit) (k : unit -> E unit) s :
  prints m s -> (forall c, con_ok c -> prints (k tt) (at_con s c)) -> prints (mbind k m) s.
Proof.
  intros (l & c & E & Hc & Ht) Hk. destruct (Hk c Hc) as (l' & c' & E' & Hc' & Ht').
  exists (l ++ l'), c'. rewrite (run_bind _ _ _ _ _ E), E'. split; [done|]. split; [done|].
  rewrite Ht'. unfold screen in *. cbn. by rewrite Ht, app_assoc.
Qed.
Lemma shows_get (k : editor C D -> E unit) s : prints (k s) s -> prints (mbind k sget) s.
Proof. intros (l & c & E & Hc). exists l, c. by rewrite (run_bind sget _ s s s eq_refl). Qed.

(** Walk through a computation that only prints. *)
Ltac prints := repeat first
  [ assumption | apply shows_say | apply shows_line | apply shows_ret | apply shows_if
  | apply shows_get | apply shows_bind; [|intros ? ?] ].

Lemma header_prints s : con_ok (screen s) -> prints editor_draw_header s.
Proof. intros Hc. unfold editor_draw_header. prints. Qed.
Lemma status_prints s : con_ok (screen s) -> prints editor_draw_status s.
Proof. intros Hc. unfold editor_draw_status. prints. Qed.
Lemma clear_prints s : con_ok (screen s) -> prints (on_screen console_clear) s.
Proof. intros Hc. exists []. by apply says_clear. Qed.

Lemma text_ok s : ed_ok s ->
  take (length (text s)) (ebuffer s) = text s /\ Forall (fun c => c <> 0) (text s).
Proof. intros (Hl & Ht & _). split; [apply until_nul_prefix; unfold text in Ht; lia|apply until_nul_zeros]. Qed.

Definition with_buffer s (b : list Z) : editor C D :=
  Editor (filename s) b (line_buffer s) (buffer_size s) (mode s) (modified s) (erunning s) (interp s) (files s) (input s).

Lemma store_eq s off bytes : (off + length bytes <= length (ebuffer s))%nat ->
  store off bytes s = Some (tt, with_buffer s (splice (ebuffer s) off bytes)).
Proof.
  intros Hl. unfold store. rewrite (run_bind sget _ s s s eq_refl).
  by replace (_ <=? _)%nat with true by (symmetry; by apply Nat.leb_le).
Qed.

(** A string appended to the text. *)
Lemma append_text s l : ed_ok s -> Forall (fun c => c <> 0) l -> (length (text s) + length l + 1 <= EDITOR_MAX_FILE_SIZE)%nat ->
  exists b, store (length (text s)) (l ++ [0]) s = Some (tt, with_buffer s b) /\
    ed_ok (with_buffer s b) /\ text (with_buffer s b) = text s ++ l.
Proof.
  intros Hok Hz Hl. pose proof Hok as (Hlen & Hlt & Hc). destruct (text_ok s Hok) as [Ht Hnz].
  assert (Hb : (length (text s) + length (l ++ [0%Z]) <= length (ebuffer s))%nat) by (rewrite length_app, Hlen; cbn [length]; lia).
  exists (splice (ebuffer s) (length (text s)) (l ++ [0])). split; [by apply store_eq|].
  assert (Hu : until_nul (splice (ebuffer s) (length (text s)) (l ++ [0])) = text s ++ l).
  { apply until_nul_splice; [by apply Forall_app|done]. }
  split; [|done]. split; [cbn; by rewrite length_splice|]. split; [|done].
  unfold text at 1. cbn [ebuffer with_buffer]. rewrite Hu, length_app. lia.
Qed.

Lemma add_line_spec s l :
  ed_ok s -> Forall (fun c => c <> 0) l -> (length (text s) + length l + 2 < EDITOR_MAX_FILE_SIZE)%nat ->
  exists b, editor_add_line l s = Some (tt, with_text s b) /\ ed_ok (with_text s b) /\
    until_nul b = text s ++ l ++ [NL].
Proof.
  intros Hok Hz Hl. destruct (append_text s l Hok Hz) as (b1 & E1 & Hok1 & Ht1); [lia|].
  destruct (append_text (with_buffer s b1) [NL] Hok1) as (b2 & E2 & Hok2 & Ht2);
    [by repeat constructor|rewrite Ht1, length_app; cbn [length]; lia|].
  rewrite Ht1, length_app in E2. rewrite Ht1 in Ht2.
  exists b2. split; [|split; [exact Hok2|by rewrite app_assoc]].
  unfold editor_add_line. rewrite (run_bind sget _ s s s eq_refl). cbv beta zeta.
  replace (_ <? _)%nat with true by (symmetry; by apply Nat.ltb_lt).
  rewrite (run_bind _ _ _ _ _ E1). cbv beta. rewrite (run_bind _ _ _ _ _ E2). cbv beta.
  unfold put_size, put_modified, with_text, with_buffer. cbn. change (until_nul b2) with (text (with_buffer (with_buffer s b1) b2)).
  rewrite Ht2, !length_app. cbn [length]. do 3 f_equal. 
Qed.

(** The text cut behind its first [k] bytes. *)
Lemma cut_text s k : ed_ok s -> (k <= length (text s))%nat ->
  exists b, store k [0] s = Some (tt, with_buffer s b) /\ ed_ok (with_buffer s b) /\ until_nul b = take k (text s).
Proof.
  intros Hok Hk. pose proof Hok as (Hlen & Hlt & Hc). destruct (text_ok s Hok) as [Ht Hnz].
  assert (Hb : (k + length [0%Z] <= length (ebuffer s))%nat) by (rewrite Hlen; cbn [length]; lia).
  exists (splice (ebuffer s) k [0]). split; [by apply store_eq|].
  assert (Hu : until_nul (splice (ebuffer s) k [0]) = take k (text s)).
  { assert (Hkl : length (take k (text s)) = k) by (rewrite length_take; lia).
    rewrite <- Hkl at 1. change [0] with ([] ++ [0]). rewrite until_nul_splice; rewrite ?app_nil_r; [done|by apply Forall_take|].
    rewrite Hkl. rewrite <- Ht at 1. rewrite take_take. f_equal. lia. }
  split; [|done]. split; [cbn; by rewrite length_splice|]. split; [|done].
  unfold text at 1. cbn [ebuffer with_buffer]. rewrite Hu, length_take. lia.
Qed.

Definition last_start (t : list Z) : nat :=
  back_to_newline t (if bool_decide (t !! (length t - 1)%nat = Some NL) && (1 <? length t)%nat then (length t - 1)%nat else length t).

Lemma back_to_newline_le t n : (back_to_newline t n <= n)%nat.
Proof. induction n as [|n IH]; [done|]. cbn. case_decide; lia. Qed.

Lemma delete_spec s : ed_ok s -> text s <> [] ->
  exists b c, editor_delete_last_line s = Some (tt, at_con (with_text s b) c) /\ ed_ok (at_con (with_text s b) c) /\
    until_nul b = take (last_start (text s)) (text s).
Proof.
  intros Hok Hne. assert (Hk : (last_start (text s) <= length (text s))%nat).
  { unfold last_start. etrans; [apply back_to_newline_le|]. destruct (_ && _); lia. }
  destruct (cut_text s _ Hok Hk) as (b & E & Hokb & Hu).
  unfold editor_delete_last_line. rewrite (run_bind sget _ s s s eq_refl). cbv beta zeta.
  replace (0 <? length (text s))%nat with true by (destruct (text s); [done|reflexivity]).
  fold (last_start (text s)). rewrite (run_bind _ _ _ _ _ E). cbv beta.
  destruct (says_say (str "Line deleted" ++ [NL]) (with_text s b)) as (c & Ec & Hc & _); [apply Hok|].
  exists b, c. split; [|split; [|done]].
  - assert (Hl : length (until_nul b) = last_start (text s)) by (rewrite Hu, length_take; lia).
    rewrite <- Ec. unfold with_text, say_line. by rewrite Hl.
  - destruct Hokb as (Hl & Ht & _). by split.
Qed.

Lemma last_start_line t line : (t = [] \/ last t = Some NL) -> NL ∉ line -> t ++ line <> [] ->
  last_start (t ++ line ++ [NL]) = length t.
Proof.
  intros Ht Hl Hne. unfold last_start. assert (Hlen : length (t ++ line ++ [NL]) = S (length t + length line)).
  { rewrite !length_app. cbn [length]. lia. }
  rewrite Hlen. replace (S (length t + length line) - 1)%nat with (length t + length line)%nat by lia.
  rewrite bool_decide_eq_true_2; [|rewrite app_assoc; apply list_lookup_middle; by rewrite length_app].
  replace (1 <? S (length t + length line))%nat with true; [by apply back_to_newline_spec|].
  symmetry. apply Nat.ltb_lt. rewrite <- length_app. destruct (t ++ line); [done|cbn; lia].
Qed.

(** adding a line and deleting the last line gives the old text back, when the text
    was empty or ended in a newline; only an empty line in an empty buffer cannot be
    deleted.  The files do not change. *)
Theorem editor_add_delete_roundtrip s line :
  ed_ok s -> text s = [] \/ last (text s) = Some NL -> Forall (fun c => c <> 0) line -> NL ∉ line ->
  (length (text s) + length line + 2 < EDITOR_MAX_FILE_SIZE)%nat ->
  exists s1 s2, editor_add_line line s = Some (tt, s1) /\ text s1 = text s ++ line ++ [NL] /\
    editor_delete_last_line s1 = Some (tt, s2) /\ ed_ok s2 /\ modified s2 = true /\ files s2 = files s /\
    text s2 = (if decide (text s ++ line = []) then [NL] else text s).
Proof.
  intros Hok Ht Hz Hn Hl. destruct (add_line_spec s line Hok Hz Hl) as (b1 & E1 & Hok1 & Hu1).
  assert (Ht1 : text (with_text s b1) = text s ++ line ++ [NL]) by done.
  destruct (delete_spec (with_text s b1) Hok1) as (b2 & c & E2 & Hok2 & Hu2); [by rewrite Ht1; destruct (text s), line|].
  eexists _, _. split; [exact E1|]. split; [done|]. split; [exact E2|]. split; [done|]. split; [done|]. split; [done|].
  unfold text at 1. cbn [ebuffer at_con with_text]. rewrite Hu2, Ht1. case_decide as He.
  - apply app_eq_nil in He as [-> ->]. done.
  - by rewrite last_start_line, take_app_length.
Qed.

Lemma save_spec s n : ed_ok s -> fs_wf (files s) -> file_at (files s) (filename s) n -> text s <> [] ->
  exists c f n', editor_save uninit s =
    Some (-1, Editor (filename s) (ebuffer s) (line_buffer s) (buffer_size s) (mode s) (modified s) (erunning s)
                (interp (at_con s c)) f (input s)) /\
    con_ok c /\ con_text c = con_text (screen s) ++ str "Error: Failed to save file" ++ [NL] /\
    fs_wf f /\ file_at f (filename s) n' /\ content n' = text s /\ size n' = Z.of_nat (length (text s)).
Proof.
  intros Hok Hwf Hf Hne. pose proof Hok as (Hlen & Hlt & Hc). destruct (text_ok s Hok) as [Ht _].
  assert (HM : Z.of_nat EDITOR_MAX_FILE_SIZE = FS_MAX_FILE_SIZE) by reflexivity.
  assert (Hlz : 0 < Z.of_nat (length (text s)) < FS_MAX_FILE_SIZE) by (destruct (text s); [done|]; cbn [length] in *; lia).
  destruct (write_file uninit (files s) (filename s) n (ebuffer s) (Z.of_nat (length (text s))) Hwf) as
    (f & n' & E & Hwf' & Hf' & Hsz & Hct); [lia|done|].
  rewrite Z.min_l in E, Hsz, Hct by lia. rewrite Nat2Z.id, Ht in Hct.
  set (s1 := Editor (filename s) (ebuffer s) (line_buffer s) (buffer_size s) (mode s) (modified s) (erunning s) (interp s) f (input s)).
  destruct (says_say (str "Error: Failed to save file" ++ [NL]) s1 Hc) as (c & Ec & Hcc & Htc).
  exists c, f, n'. split; [|done]. unfold editor_save. rewrite (run_bind sget _ s s s eq_refl). cbv beta.
  assert (E1 : on_files (fs_write uninit (filename s) (ebuffer s) (Z.of_nat (length (text s)))) s = Some (Z.of_nat (length (text s)), s1))
    by (unfold on_files, zoom; by rewrite E).
  rewrite (run_bind _ _ _ _ _ E1). cbv beta. replace (_ =? FS_ERR_OK) with false by (unfold FS_ERR_OK; lia).
  by rewrite (run_bind _ _ _ _ _ Ec).
Qed.

(** [editor_save] of a text that is not empty writes the file and reports a failure:
    [fs_write] returns the number of bytes, and the editor compares it with
    [FS_ERR_OK].  The file then holds the text, and the editor still counts it as
    modified. *)
Theorem editor_save_stores_but_fails s n :
  ed_ok s -> fs_wf (files s) -> file_at (files s) (filename s) n -> text s <> [] ->
  exists s', editor_save uninit s = Some (-1, s') /\ modified s' = modified s /\
    con_text (screen s') = con_text (screen s) ++ str "Error: Failed to save file" ++ [NL] /\
    fs_read uninit (filename s) FS_MAX_FILE_SIZE (files s') = Some ((Z.of_nat (length (text s)), text s), files s').
Proof.
  intros Hok Hwf Hf Hne. destruct (save_spec s n Hok Hwf Hf Hne) as (c & f & n' & E & Hc & Ht & Hwf' & Hf' & Hct & Hsz).
  eexists. split; [exact E|]. split; [done|]. split; [done|]. cbn [files].
  rewrite (read_file uninit f _ n' FS_MAX_FILE_SIZE Hwf' ltac:(done) Hf'), Hct, Hsz.
  assert (Hlt : (length (text s) < EDITOR_MAX_FILE_SIZE)%nat) by apply Hok.
  assert (HM : Z.of_nat EDITOR_MAX_FILE_SIZE = FS_MAX_FILE_SIZE) by reflexivity.
  do 3 f_equal; [lia|]. apply take_ge. lia.
Qed.

(** ** A session *)

(** A line as it is typed: printable, shorter than the line buffer, and not a command. *)
Definition typed_line (l : list Z) : Prop :=
  Forall (fun c => printable c = true) l /\ (length l < EDITOR_LINE_SIZE)%nat /\ head l <> Some 58.

Lemma typed_nonzero l : Forall (fun c => printable c = true) l -> Forall (fun c => c <> 0) l.
Proof. intros Hp. eapply Forall_impl; [exact Hp|]. intros c. unfold printable. lia. Qed.

(** The state after a line is read, before it is acted on. *)
Definition line_read s (l rest : list Z) (c : C) : editor C D :=
  let s := at_con s c in
  Editor (filename s) (ebuffer s) l (buffer_size s) (mode s) (modified s) (erunning s) (interp s) (files s) rest.

Lemma turn_reads s l rest depth :
  con_ok (screen s) -> Forall (fun c => printable c = true) l -> (length l < EDITOR_LINE_SIZE)%nat ->
  input s = l ++ NL :: rest ->
  exists c, con_ok c /\ con_text c = con_text (screen s) ++ l ++ [NL] /\
    edit_turn uninit depth s =
    (if match l with c :: _ => c =? 58 | [] => false end then
       r ← editor_handle_command uninit;
       match r with
       | None => mret None
       | Some cmd_result =>
           if cmd_result =? EDITOR_CMD_QUIT then _ ← put_erunning false; mret (Some false)
           else _ ← say (str "> "); mret (Some true)
       end
     else
       _ ← (if mode s =? EDITOR_MODE_BASIC then basic_mode_line depth l else editor_add_line l);
       _ ← say (str "> "); mret (Some true)) (line_read s l rest c).
Proof.
  intros Hc Hp Hl Hi. destruct (read_line_plain EDITOR_LINE_SIZE l rest [] (screen s) Hc Hp) as (c & E & Hc' & Ht); [cbn [length]; lia|].
  exists c. split; [done|]. split; [done|]. unfold edit_turn. rewrite (run_bind sget _ s s s eq_refl). cbv beta.
  assert (E' : on_screen (read_line EDITOR_LINE_SIZE (input s) []) s = Some (Some (l, rest), at_con s c)).
  { rewrite Hi. unfold on_screen, on_basic, on_con, zoom. fold (screen s). by rewrite E. }
  rewrite (run_bind _ _ _ _ _ E'). cbv iota beta. reflexivity.
Qed.

Lemma text_turn depth s l rest :
  ed_ok s -> mode s = EDITOR_MODE_TEXT -> typed_line l -> input s = l ++ NL :: rest ->
  (length (text s) + length l + 2 < EDITOR_MAX_FILE_SIZE)%nat ->
  exists b c, edit_turn uninit depth s = Some (Some true, at_con (with_text (line_read s l rest (screen s)) b) c) /\
    con_ok c /\ length b = EDITOR_MAX_FILE_SIZE /\ until_nul b = text s ++ l ++ [NL].
Proof.
  intros Hok Hm (Hp & Hll & Hcolon) Hi Hl. destruct (turn_reads s l rest depth (proj2 (proj2 Hok)) Hp Hll Hi) as (c & Hc & _ & E).
  assert (Hok1 : ed_ok (line_read s l rest c)) by (destruct Hok as (? & ? & _); by split).
  destruct (add_line_spec (line_read s l rest c) l Hok1 (typed_nonzero l Hp) Hl) as (b & Eb & Hokb & Hub).
  destruct (says_say (str "> ") (with_text (line_read s l rest c) b) Hc) as (c' & Ec & Hc' & _).
  exists b, c'. split; [|split; [done|split; [apply Hokb|done]]]. rewrite E.
  replace (match l with x :: _ => x =? 58 | [] => false end) with false.
  - rewrite Hm. change (EDITOR_MODE_TEXT =? EDITOR_MODE_BASIC) with false. cbv iota.
    rewrite (run_bind _ _ _ _ _ Eb). cbv beta. by rewrite (run_bind _ _ _ _ _ Ec).
  - destruct l as [|x l]; [done|]. symmetry. apply Z.eqb_neq. intros ->. by apply Hcolon.
Qed.

(** The last turn: [:wq]. *)
Lemma save_turn depth s rest n :
  ed_ok s -> fs_wf (files s) -> file_at (files s) (filename s) n -> text s <> [] -> input s = str ":wq" ++ NL :: rest ->
  exists s' n', edit_turn uninit depth s = Some (Some false, s') /\ input s' = rest /\ modified s' = modified s /\
    con_ok (screen s') /\ filename s' = filename s /\ fs_wf (files s') /\ file_at (files s') (filename s) n' /\
    content n' = text s /\ size n' = Z.of_nat (length (text s)).
Proof.
  intros Hok Hwf Hf Hne Hi.
  destruct (turn_reads s (str ":wq") rest depth (proj2 (proj2 Hok))) as (c & Hc & _ & E); [by repeat constructor|cbn; unfold EDITOR_LINE_SIZE; lia|done|].
  set (s1 := line_read s (str ":wq") rest c) in *.
  assert (Hok1 : ed_ok s1) by (destruct Hok as (? & ? & _); by split).
  destruct (save_spec s1 n Hok1 Hwf Hf Hne) as (c2 & f & n' & E2 & Hc2 & _ & Hw2 & Hf2 & Hct & Hsz).
  match type of E2 with _ = Some (_, ?x) => set (s2 := x) in * end.
  assert (Eh : editor_handle_command uninit s1 = Some (Some EDITOR_CMD_QUIT, s2)).
  { unfold editor_handle_command. rewrite (run_bind sget _ s1 s1 s1 eq_refl). cbv beta zeta.
    match goal with |- context [decide (?cmd = str "q")] => change cmd with (str "wq") end.
    repeat (rewrite decide_False by (by vm_compute)). rewrite decide_True by done. rewrite (run_bind _ _ _ _ _ E2). reflexivity. }
  eexists _, n'. rewrite E. split.
  - change (match str ":wq" with x :: _ => x =? 58 | [] => false end) with true. cbv iota.
    rewrite (run_bind _ _ _ _ _ Eh). reflexivity.
  - done.
Qed.

Definition typed (lines : list (list Z)) : list Z := lines ≫= fun l => l ++ [NL].

Lemma session lines depth fuel s rest n :
  ed_ok s -> fs_wf (files s) -> file_at (files s) (filename s) n -> mode s = EDITOR_MODE_TEXT -> erunning s = true ->
  Forall typed_line lines -> text s ++ typed lines <> [] ->
  (length (text s) + length (typed lines) + 1 < EDITOR_MAX_FILE_SIZE)%nat ->
  input s = typed lines ++ str ":wq" ++ NL :: rest -> (length lines < fuel)%nat ->
  exists s' n', edit_loop uninit fuel depth s = Some (true, s') /\ input s' = rest /\ filename s' = filename s /\
    fs_wf (files s') /\ file_at (files s') (filename s) n' /\
    content n' = text s ++ typed lines /\ size n' = Z.of_nat (length (text s ++ typed lines)).
Proof.
  intros Hok Hwf Hf Hm Hr Hlines. revert fuel s Hok Hwf Hf Hm Hr.
  induction Hlines as [|l lines Hl _ IH]; intros [|fuel] s Hok Hwf Hf Hm Hr Hne Hlen Hi Hfuel; [cbn in Hfuel; lia| |cbn in Hfuel; lia|].
  - cbn [typed mbind list_bind] in *. rewrite app_nil_r in *.
    destruct (save_turn depth s rest n Hok Hwf Hf Hne Hi) as (s1 & n' & E & Hi1 & _ & Hc1 & Hn1 & Hw1 & Hf1 & Hct & Hsz).
    destruct (says_clear s1 Hc1) as (c & Ec & Hcc & _).
    exists (at_con s1 c), n'. split; [|done]. cbn [edit_loop]. rewrite (run_bind sget _ s s s eq_refl), Hr.
    rewrite (run_bind _ _ _ _ _ E). cbv iota beta. by rewrite (run_bind _ _ _ _ _ Ec).
  - change (typed (l :: lines)) with ((l ++ [NL]) ++ typed lines) in *. rewrite <- !app_assoc in Hi. cbn [app] in Hi.
    rewrite !length_app in Hlen. cbn [length] in Hlen, Hfuel.
    destruct (text_turn depth s l _ Hok Hm Hl Hi) as (b & c & E & Hc & Hb & Hu); [lia|].
    set (s1 := at_con (with_text (line_read s l _ (screen s)) b) c) in *.
    assert (Ht1 : text s1 = text s ++ l ++ [NL]) by done.
    assert (Hok1 : ed_ok s1) by (split; [done|split; [rewrite Ht1, !length_app; cbn [length]; lia|done]]).
    destruct (IH fuel s1 Hok1 Hwf Hf Hm Hr) as (s' & n' & E' & Hrest).
    + rewrite Ht1. by destruct (text s), l.
    + rewrite Ht1, !length_app. cbn [length]. lia.
    + done.
    + lia.
    + exists s', n'. rewrite Ht1, <- !app_assoc in Hrest. rewrite <- !app_assoc. split; [|exact Hrest].
      cbn [edit_loop]. rewrite (run_bind sget _ s s s eq_refl), Hr. by rewrite (run_bind _ _ _ _ _ E).
Qed.

Lemma shows_sopt {A} (o : option A) (k : A -> E unit) x s : o = Some x -> prints (k x) s -> prints (mbind k (sopt o)) s.
Proof. intros -> Hp. exact Hp. Qed.

Lemma run_start_prints s : ed_ok s -> buffer_size s <= Z.of_nat EDITOR_MAX_FILE_SIZE -> prints editor_run_start s.
Proof.
  intros (Hl & _ & Hc) Hb. unfold editor_run_start.
  apply shows_bind; [by apply clear_prints|intros c1 Hc1]. apply shows_bind; [by apply header_prints|intros c2 Hc2].
  apply shows_bind; [by apply status_prints|intros c3 Hc3]. apply shows_bind; [by apply shows_line|intros c4 Hc4].
  apply shows_get. apply shows_bind; [|intros c5 Hc5; by apply shows_say]. cbn [buffer_size at_con ebuffer].
  destruct (Z.ltb_spec 0 (buffer_size s)) as [Hp|Hp]; [|by apply shows_ret].
  apply shows_bind; [by apply shows_say|intros c6 Hc6].
  destruct (lookup_lt_is_Some_2 (ebuffer s) (Z.to_nat (buffer_size s - 1))) as [x Ex]; [lia|].
  eapply shows_sopt; [exact Ex|]. prints.
Qed.

Lemma length_zero_buffer : length zero_buffer = EDITOR_MAX_FILE_SIZE.
Proof. apply length_replicate. Qed.

(** The first assignment of a computation. *)
Ltac step_put := match goal with |- context [mbind ?k ?m ?s] => rewrite (run_bind m k s _ _ eq_refl) end; cbv beta.

(** [editor_open] of a file that the buffer can hold. *)
Lemma open_spec s name m n :
  con_ok (screen s) -> fs_wf (files s) -> file_at (files s) name n -> (length name < 128)%nat ->
  Forall (fun c => c <> 0) (content n) -> (length (content n) < EDITOR_MAX_FILE_SIZE)%nat ->
  exists b, editor_open uninit name m s = Some (0,
      Editor name b (line_buffer s) (Z.of_nat (length (content n))) m false (erunning s) (interp s) (files s) (input s)) /\
    length b = EDITOR_MAX_FILE_SIZE /\ until_nul b = content n.
Proof.
  intros Hc Hwf Hf Hname Hz Hlen. pose proof Hf as (idx & Er & Hi & Hn & Hu & Ht).
  assert (HM : Z.of_nat EDITOR_MAX_FILE_SIZE = 4096) by reflexivity.
  set (s1 := Editor name zero_buffer (line_buffer s) 0 m false (erunning s) (interp s) (files s) (input s)).
  assert (Hsz : size n = Z.of_nat (length (content n))).
  { destruct (file_node (files s) _ n Hwf Hn Hu Ht) as [_ [_ _ _ Hs Hdl]]. unfold content, FS_MAX_FILE_SIZE in *.
    rewrite length_take. lia. }
  assert (Hok1 : ed_ok s1) by (split; [apply length_zero_buffer|split; [cbn; lia|done]]).
  assert (Hb0 : (0 + length (content n) <= length (ebuffer s1))%nat) by (cbn [ebuffer s1]; rewrite length_zero_buffer; lia).
  set (b1 := splice zero_buffer 0 (content n)).
  assert (Hl1 : length b1 = EDITOR_MAX_FILE_SIZE) by (unfold b1; rewrite length_splice; [apply length_zero_buffer|exact Hb0]).
  set (b2 := splice b1 (length (content n)) [0]).
  exists b2. split; [|split].
  - unfold editor_open, E. do 5 step_put. cbn [filename ebuffer line_buffer buffer_size mode modified erunning interp files input].
    rewrite take_ge by lia. fold s1.
    erewrite (run_bind (on_files (fs_exists name)) _ s1); [|unfold on_files, zoom; change (files s1) with (files s); by rewrite (fs_exists_spec (files s) name idx Er)].
    fold s1. replace (0 <=? idx) with true by lia. cbv iota.
    erewrite (run_bind (on_files (fs_is_dir name)) _ s1); [|unfold on_files, zoom; change (files s1) with (files s); by rewrite (fs_is_dir_spec (files s) name idx n Er Hi Hn)].
    fold s1. rewrite Ht. change (FS_TYPE_FILE =? FS_TYPE_DIR) with false. cbv iota.
    erewrite (run_bind (on_files (fs_read uninit name _)) _ s1); [|unfold on_files, zoom; change (files s1) with (files s); by rewrite (read_file uninit (files s) name n (Z.of_nat EDITOR_MAX_FILE_SIZE - 1) Hwf ltac:(lia) Hf)].
    fold s1. rewrite HM, Z.min_r, (take_ge (content n)) by lia. cbv iota beta.
    rewrite (run_bind _ _ _ _ _ (store_eq s1 0 (content n) Hb0)). cbv beta zeta.
    replace (size n <? 0) with false by lia. rewrite Hsz, Nat2Z.id.
    rewrite (run_bind _ _ _ _ _ (store_eq (with_buffer s1 b1) (length (content n)) [0] ltac:(cbn [ebuffer with_buffer length]; lia))).
    reflexivity.
  - unfold b2. by rewrite length_splice by (cbn [length]; lia).
  - assert (Hb1 : take (length (content n)) b1 = content n) by (unfold b1, splice; rewrite take_0, app_nil_l; apply take_app_length).
    unfold b2. change [0] with ([] ++ [0]). rewrite until_nul_splice; rewrite ?app_nil_r; done.
Qed.

(** C22: a whole session.  [editor_open] of a file, lines typed in TEXT mode, then [:wq]:
    the editor ends, having read just these lines, and the file holds its old
    contents followed by the lines. *)
Theorem editor_session_saves_text s name n depth lines rest :
  con_ok (screen s) -> fs_wf (files s) -> file_at (files s) name n -> (length name < 128)%nat ->
  Forall (fun c => c <> 0) (content n) -> Forall typed_line lines -> content n ++ typed lines <> [] ->
  (length (content n) + length (typed lines) + 1 < EDITOR_MAX_FILE_SIZE)%nat ->
  input s = typed lines ++ str ":wq" ++ NL :: rest ->
  exists s1 s2, editor_open uninit name EDITOR_MODE_TEXT s = Some (0, s1) /\
    editor_run uninit depth s1 = Some (true, s2) /\ input s2 = rest /\
    fs_read uninit name FS_MAX_FILE_SIZE (files s2) =
      Some ((Z.of_nat (length (content n ++ typed lines)), content n ++ typed lines), files s2).
Proof.
  intros Hc Hwf Hf Hname Hz Hl Hne Hlen Hi.
  destruct (open_spec s name EDITOR_MODE_TEXT n Hc Hwf Hf Hname Hz) as (b & E1 & Hb & Hu); [lia|].
  eexists. match type of E1 with _ = Some (_, ?x) => set (s1 := x) in * end.
  assert (Ht1 : text s1 = content n) by done.
  set (s2 := Editor name b (line_buffer s) (Z.of_nat (length (content n))) EDITOR_MODE_TEXT false true (interp s) (files s) (input s)).
  assert (Hok2 : ed_ok s2) by (split; [done|split; [unfold text; cbn [s2 ebuffer]; rewrite Hu; lia|done]]).
  destruct (run_start_prints s2 Hok2) as (l & c & E2 & Hc2 & _); [cbn [s2 buffer_size]; lia|].
  assert (Hok3 : ed_ok (at_con s2 c)) by (destruct Hok2 as (? & ? & _); by split).
  assert (Ht3 : text (at_con s2 c) = content n) by exact Hu.
  destruct (session lines depth (S (length (input s))) (at_con s2 c) rest n) as (s3 & n' & E3 & Hi3 & Hn3 & Hw3 & Hf3 & Hct & Hsz);
    try (rewrite Ht3); try done.
  { rewrite Hi, length_app. assert (Hll : (length lines <= length (typed lines))%nat); [|lia].
    clear. induction lines as [|l lines IH]; [done|]. cbn. rewrite !length_app. cbn [length]. change (lines ≫= _) with (typed lines). lia. }
  exists s3. split; [exact E1|]. split.
  { unfold editor_run. assert (Er : put_erunning true s1 = Some (tt, s2)) by done.
    rewrite (run_bind _ _ _ _ _ Er). cbv beta. rewrite (run_bind _ _ _ _ _ E2). cbv beta.
    exact E3. }
  split; [done|]. cbn [filename at_con s2] in Hf3.
  assert (HM : Z.of_nat EDITOR_MAX_FILE_SIZE = FS_MAX_FILE_SIZE) by reflexivity. rewrite Ht3 in Hct, Hsz.
  rewrite (read_file uninit _ name n' FS_MAX_FILE_SIZE Hw3 ltac:(done) Hf3), Hct, Hsz. rewrite length_app in *.
  do 3 f_equal; [lia|]. apply take_ge. rewrite length_app. lia.
Qed.

Lemma code_zero {A} (m : E A) s r s' : mbind (fun _ => mret (Some 0)) m s = Some (Some r, s') -> r = 0.
Proof. unfold mbind, ST_bind. destruct (m s) as [[a t]|]; [|discriminate]. by intros [= <- _]. Qed.

Lemma code_of_option (m : E (option unit)) s r s' :
  mbind (fun o : option unit => mret (o ≫= fun _ => Some 0)) m s = Some (Some r, s') -> r = 0.
Proof. unfold mbind, ST_bind. destruct (m s) as [[[[]|] t]|]; try discriminate. by intros [= <- _]. Qed.

(** Every code that a command returns is that of quitting. *)
Lemma handle_command_code s r s' : editor_handle_command uninit s = Some (Some r, s') -> r = EDITOR_CMD_QUIT.
Proof.
  unfold editor_handle_command. rewrite (run_bind sget _ s s s eq_refl). cbv beta zeta.
  repeat case_decide; repeat (match goal with |- context [if ?b then _ else _] => destruct b end);
    intros Hr; try (by apply code_zero in Hr); try (by apply code_of_option in Hr); by injection Hr as <- _.
Qed.

(** a command always ends the editor, since [EDITOR_CMD_QUIT] is the code 0 that
    every command returns; [:q] with unsaved changes prints the warning and quits
    all the same, leaving the files as they were. *)
Theorem editor_quit_discards_changes s depth fuel rest :
  con_ok (screen s) -> erunning s = true -> modified s = true -> input s = str ":q" ++ NL :: rest ->
  (forall s1 r s2, editor_handle_command uninit s1 = Some (Some r, s2) -> r = EDITOR_CMD_QUIT) /\
  exists s', edit_loop uninit (S fuel) depth s = Some (true, s') /\
    files s' = files s /\ text s' = text s /\ modified s' = true /\ input s' = rest /\
    con_text (screen s') = con_text (screen s) ++ str ":q" ++ [NL] ++
      str "Warning: unsaved changes (use :q! to force quit)" ++ [NL].
Proof.
  intros Hc Hr Hm Hi. split; [exact handle_command_code|].
  destruct (turn_reads s (str ":q") rest depth Hc) as (c & Hc1 & Ht1 & E); [by repeat constructor|cbn; unfold EDITOR_LINE_SIZE; lia|done|].
  set (s1 := line_read s (str ":q") rest c) in *.
  destruct (says_say (str "Warning: unsaved changes (use :q! to force quit)" ++ [NL]) s1 Hc1) as (c2 & E2 & Hc2 & Ht2).
  assert (Eh : editor_handle_command uninit s1 = Some (Some 0, at_con s1 c2)).
  { unfold editor_handle_command. rewrite (run_bind sget _ s1 s1 s1 eq_refl). cbv beta zeta.
    match goal with |- context [decide (?cmd = str "q")] => change cmd with (str "q") end.
    rewrite decide_True by done. change (modified s1) with (modified s). rewrite Hm. cbv iota.
    unfold say_line. by rewrite (run_bind _ _ _ _ _ E2). }
  eassert (Et : edit_turn uninit depth s = Some (Some false, _)).
  { rewrite E. change (match str ":q" with x :: _ => x =? 58 | [] => false end) with true. cbv iota.
    rewrite (run_bind _ _ _ _ _ Eh). reflexivity. }
  match type of Et with _ = Some (_, ?x) => set (s2 := x) in * end.
  destruct (says_clear s2 Hc2) as (c3 & E3 & Hc3 & Ht3). exists (at_con s2 c3). split.
  { cbn [edit_loop]. rewrite (run_bind sget _ s s s eq_refl), Hr. rewrite (run_bind _ _ _ _ _ Et). cbv iota beta.
    by rewrite (run_bind _ _ _ _ _ E3). }
  do 4 (split; [done|]). rewrite app_nil_r in Ht3. change (con_text c3 = con_text c2) in Ht3.
  change (con_text c3 = con_text (screen s) ++ str ":q" ++ [NL] ++ str "Warning: unsaved changes (use :q! to force quit)" ++ [NL]).
  rewrite Ht3, Ht2. change (con_text (screen s1)) with (con_text c). rewrite Ht1. by rewrite <- !app_assoc.
Qed.
End proofs.

(** ** A small editor

    The file "f" of Fs, empty, edited on a teletype. *)

Definition on_teletype (buf keys : list Z) (dirty : bool) : editor teletype ramdisk :=
  Editor f_txt (splice zero_buffer 0 buf) [] (Z.of_nat (length buf)) EDITOR_MODE_TEXT dirty true empty_program with_file keys.
Definition f_node : fs_node := default zero_node (fs_nodes with_file !! 2%nat).

Lemma f_index : resolve_full_path (fs_nodes with_file) (cwd_idx with_file) f_txt = Some 2.
Proof. vm_compute. reflexivity. Qed.
Lemma f_lookup : fs_nodes with_file !! Z.to_nat 2 = Some f_node.
Proof. reflexivity. Qed.
Lemma f_file : file_at with_file f_txt f_node.
Proof. exact (ex_intro _ 2 (conj f_index (conj (proj1 (Z.leb_le 0 2) eq_refl) (conj f_lookup (conj eq_refl eq_refl))))). Qed.
Lemma f_content : content f_node = [].
Proof. reflexivity. Qed.

Lemma on_teletype_ok buf keys dirty : forallb (fun c => negb (c =? 0)) buf = true -> Z.of_nat (length buf) < 4000 ->
  ed_ok (on_teletype buf keys dirty) /\ text (on_teletype buf keys dirty) = buf.
Proof.
  intros Hz Hl. assert (HM : Z.of_nat EDITOR_MAX_FILE_SIZE = 4096) by reflexivity.
  assert (Hl' : (length buf < EDITOR_MAX_FILE_SIZE)%nat) by lia.
  assert (Hb : (0 + length buf <= length zero_buffer)%nat) by (rewrite length_zero_buffer; lia).
  assert (Ht : text (on_teletype buf keys dirty) = buf).
  { unfold text, on_teletype, splice. cbn [ebuffer]. rewrite take_0, app_nil_l.
    unfold zero_buffer. rewrite drop_replicate. replace (EDITOR_MAX_FILE_SIZE - _)%nat with (S (EDITOR_MAX_FILE_SIZE - length buf - 1)) by lia.
    cbn [replicate]. apply until_nul_app. exact (str_line buf Hz). }
  split; [|done]. split; [cbn [ebuffer on_teletype]; by rewrite length_splice, length_zero_buffer|].
  split; [by rewrite Ht|exact I].
Qed.

Definition hello : editor teletype ramdisk := on_teletype (str "hi" ++ [NL]) [] false.
Lemma hello_ok : ed_ok hello /\ text hello = str "hi" ++ [NL].
Proof. apply on_teletype_ok; [reflexivity|cbn; lia]. Qed.

Lemma editor_add_delete_roundtrip_witness : exists s1 s2,
  editor_add_line (str "abc") hello = Some (tt, s1) /\ text s1 = str "hi" ++ [NL] ++ str "abc" ++ [NL] /\
  editor_delete_last_line s1 = Some (tt, s2) /\ text s2 = str "hi" ++ [NL].
Proof.
  destruct hello_ok as [Hok Ht].
  assert (Hlast : last (text hello) = Some NL) by (rewrite Ht; reflexivity).
  assert (Hz : Forall (fun c => c <> 0) (str "abc")) by (apply str_line; reflexivity).
  assert (Hn : NL ∉ str "abc") by (apply (bool_decide_unpack _); vm_compute; exact I).
  assert (Hl : (length (text hello) + length (str "abc") + 2 < EDITOR_MAX_FILE_SIZE)%nat)
    by (rewrite Ht; apply Nat.ltb_lt; vm_compute; reflexivity).
  destruct (editor_add_delete_roundtrip hello (str "abc") Hok (or_intror Hlast) Hz Hn Hl) as (s1 & s2 & E1 & T1 & E2 & _ & _ & _ & T2).
  rewrite Ht in T1, T2. exact (ex_intro _ s1 (ex_intro _ s2 (conj E1 (conj T1 (conj E2 T2))))).
Defined.

Lemma editor_save_stores_but_fails_witness : exists s',
  editor_save unread hello = Some (-1, s') /\ fs_read unread f_txt FS_MAX_FILE_SIZE (files s') = Some ((3, str "hi" ++ [NL]), files s').
Proof.
  destruct hello_ok as [Hok Ht].
  assert (Hne : text hello <> []) by (rewrite Ht; discriminate).
  destruct (editor_save_stores_but_fails unread hello f_node Hok with_file_wf f_file Hne) as (s' & E & _ & _ & R).
  rewrite Ht in R. exact (ex_intro _ s' (conj E R)).
Defined.

(** A name, two lines and the command. *)
Definition two_lines : list (list Z) := [str "hello"; str "world"].
Definition fresh_editor : editor teletype ramdisk := on_teletype [] (typed two_lines ++ str ":wq" ++ NL :: []) false.

Lemma editor_session_saves_text_witness : exists s1 s2,
  editor_open unread f_txt EDITOR_MODE_TEXT fresh_editor = Some (0, s1) /\ editor_run unread 1 s1 = Some (true, s2) /\
  fs_read unread f_txt FS_MAX_FILE_SIZE (files s2) = Some ((12, str "hello" ++ NL :: str "world" ++ [NL]), files s2).
Proof.
  assert (Hn : (length f_txt < 128)%nat) by (cbn; lia).
  assert (Hz : Forall (fun c => c <> 0) (content f_node)) by (rewrite f_content; exact (List.Forall_nil _)).
  assert (Hl : Forall typed_line two_lines).
  { repeat constructor; try (by vm_compute); cbn; unfold EDITOR_LINE_SIZE; lia. }
  assert (Hne : content f_node ++ typed two_lines <> []) by (rewrite f_content; discriminate).
  assert (Hlen : (length (content f_node) + length (typed two_lines) + 1 < EDITOR_MAX_FILE_SIZE)%nat)
    by (rewrite f_content; apply Nat.ltb_lt; vm_compute; reflexivity).
  destruct (editor_session_saves_text unread fresh_editor f_txt f_node 1 two_lines [] (teletype_ok _) with_file_wf f_file
    Hn Hz Hl Hne Hlen eq_refl) as (s1 & s2 & E1 & E2 & _ & R).
  rewrite f_content in R. exact (ex_intro _ s1 (ex_intro _ s2 (conj E1 (conj E2 R)))).
Defined.

Definition unsaved : editor teletype ramdisk := on_teletype (str "hi") (str ":q" ++ NL :: []) true.

Lemma editor_quit_discards_changes_witness : exists s',
  edit_loop unread 1 1 unsaved = Some (true, s') /\ files s' = with_file /\ modified s' = true.
Proof.
  destruct (editor_quit_discards_changes unread unsaved 1 0 [] (teletype_ok _) eq_refl eq_refl eq_refl) as
    (_ & s' & E & F & _ & M & _).
  exact (ex_intro _ s' (conj E (conj F M))).
Defined.
