(* ===== verification/Ports.v ===== *)
(** The interface of the input and output ports, and the state of a driver.

    The instructions behind arch/i686/arch.h belong to the machine: a state [P] of
    the devices, on which every access may have an effect.  [None] is an access that
    the device's manual leaves undefined.  The clock that interrupts keep moving is
    part of the same environment.  The drivers (Ata, Rtc, Pci, Irq) are written
    against this class and verified against the laws that they state for their
    device.

    A driver keeps its static variables beside the machine and the kernel log. *)

From S2P Require Import Prelude Effects Console Log.
Local Open Scope Z_scope.

Class Ports (P : Type) := {
  inb : Z -> ST P Z;
  outb : Z -> Z -> ST P unit;
  inw : Z -> ST P Z;
  outw : Z -> Z -> ST P unit;
  inl : Z -> ST P Z;
  outl : Z -> Z -> ST P unit;
  ticks : P -> Z
}.

(** The environment without devices: only the log needs a clock. *)
#[export] Instance quiet_ports : Ports unit := {|
  inb _ := mret 0; outb _ _ := mret tt; inw _ := mret 0; outw _ _ := mret tt; inl _ := mret 0; outl _ _ := mret tt; ticks _ := 0
|}.

(** A write to an unused port, for its delay. *)
Definition io_wait {P} `{Ports P} : ST P unit := outb 128 0.

Record driver (D P : Type) := Driver { own : D; io : P; klog : log }.
Arguments Driver {D P}. Arguments own {D P}. Arguments io {D P}. Arguments klog {D P}.

Definition with_io {D P} (s : driver D P) (p : P) : driver D P := Driver (own s) p (klog s).
Definition with_log {D P} (s : driver D P) (l : log) : driver D P := Driver (own s) (io s) l.
Definition with_own {D P} (s : driver D P) (d : D) : driver D P := Driver d (io s) (klog s).

Section driver.
Context {D P : Type} `{Ports P}.
Implicit Types (s : driver D P).

(** An access to the ports; a store into the variables; a call of the log. *)
Definition on_io {X} (m : ST P X) : ST (driver D P) X := zoom io (fun p s => with_io s p) m.
Definition set_own (f : D -> D) : ST (driver D P) unit := smod (fun s => with_own s (f (own s))).
Definition say_log (f : Z -> log -> option log) : ST (driver D P) unit := fun s =>
  match f (ticks (io s)) (klog s) with Some l => Some (tt, with_log s l) | None => None end.
Definition say_info (msg : string) : ST (driver D P) unit := say_log (fun now => log_info now (Some (str msg))).
Definition say_info_fmt (fmt : string) (args : list log_arg) : ST (driver D P) unit := say_log (fun now => log_info_fmt now (str fmt) args).
Definition say_warn_fmt (fmt : string) (args : list log_arg) : ST (driver D P) unit := say_log (fun now => log_warn_fmt now (str fmt) args).
Definition say_error_fmt (fmt : string) (args : list log_arg) : ST (driver D P) unit := say_log (fun now => log_error_fmt now (str fmt) args).
Definition say_warn (fmt : string) (v : Z) : ST (driver D P) unit := say_warn_fmt fmt [AInt v].

Lemma on_io_eq {X} (m : ST P X) s x p : m (io s) = Some (x, p) -> on_io m s = Some (x, with_io s p).
Proof. intros E. unfold on_io, zoom. by rewrite E. Qed.

Lemma say_info_ok msg s : log_wf (klog s) -> exists l, say_info msg s = Some (tt, with_log s l) /\ log_wf l.
Proof.
  intros Hw. unfold say_info, say_log, log_info.
  destruct (log_write_spec (ticks (io s)) LOG_LEVEL_INFO (str msg) _ Hw) as (l & -> & Hl & _). by exists l.
Qed.

(** A format whose directives all have their argument can be logged. *)
Definition printable_fmt (fmt : string) (args : list log_arg) : Prop := exists text, renders (str fmt) args text.

Lemma printable_format fmt args : printable_fmt fmt args -> exists text, format_log_message LOG_MAX_MSG_LEN (str fmt) args = Some text.
Proof. intros [text Hr]. unfold format_log_message. eexists. apply format_loop_renders; [exact Hr|lia]. Qed.

Lemma say_info_fmt_ok fmt args s : printable_fmt fmt args -> log_wf (klog s) ->
  exists l, say_info_fmt fmt args s = Some (tt, with_log s l) /\ log_wf l.
Proof.
  intros (text & Ef)%printable_format Hw. unfold say_info_fmt, say_log, log_info_fmt. rewrite Ef. cbn [mbind option_bind]. unfold log_info.
  destruct (log_write_spec (ticks (io s)) LOG_LEVEL_INFO text _ Hw) as (l & -> & Hl & _). by exists l.
Qed.

Lemma say_warn_fmt_ok fmt args s : printable_fmt fmt args -> log_wf (klog s) ->
  exists l, say_warn_fmt fmt args s = Some (tt, with_log s l) /\ log_wf l.
Proof.
  intros (text & Ef)%printable_format Hw. unfold say_warn_fmt, say_log, log_warn_fmt. rewrite Ef. cbn [mbind option_bind]. unfold log_warn.
  destruct (log_write_spec (ticks (io s)) LOG_LEVEL_WARN text _ Hw) as (l & -> & Hl & _). by exists l.
Qed.

Lemma say_error_fmt_ok fmt args s : printable_fmt fmt args -> log_wf (klog s) ->
  exists l, say_error_fmt fmt args s = Some (tt, with_log s l) /\ log_wf l.
Proof.
  intros (text & Ef)%printable_format Hw. unfold say_error_fmt, say_log, log_error_fmt. rewrite Ef. cbn [mbind option_bind]. unfold log_error.
  destruct (log_write_spec (ticks (io s)) LOG_LEVEL_ERROR text _ Hw) as (l & -> & Hl & _). by exists l.
Qed.

End driver.

(** Proves [printable_fmt] of a literal format. *)
Ltac renders :=
  unfold printable_fmt;
  repeat match goal with |- context [str ?s] => let l := eval vm_compute in (str s) in change (str s) with l end;
  eexists;
  repeat first [ apply renders_nil | apply renders_char; [left; discriminate|]
               | eapply renders_directive; [discriminate|reflexivity|] ].
