(* ===== verification/Ata.v ===== *)
(** drivers/storage/ata.c: the driver of ATA disks by programmed input and output.

    [drives] are the four drives of the file's table, [io] the machine behind the
    ports (Ports), [klog] the kernel log.  The buffer of a caller is a list of bytes;
    the driver moves it as little-endian words.

    [AtaLaws] states the programmed-input-output protocol that the driver relies on: a
    disk is a little machine that is idle, sends sectors or receives sectors, answers
    after a bounded number of polls, has a capacity, and takes a command when it is not
    busy.  After the last word of a write it is busy for as long as it likes, and the
    driver does not wait before it sends the cache flush: the laws say nothing of that
    command on a busy channel. *)

From S2P Require Import Prelude Codec Effects Ports BlockDev Console Log.
Local Open Scope Z_scope.

(** ** Definitions *)

Definition ATA_PRIMARY_IO : Z := 496.
Definition ATA_PRIMARY_CTRL : Z := 1014.
Definition ATA_SECONDARY_IO : Z := 368.
Definition ATA_SECONDARY_CTRL : Z := 886.
Definition ATA_REG_DATA : Z := 0.
Definition ATA_REG_SECCOUNT : Z := 2.
Definition ATA_REG_LBA_LO : Z := 3.
Definition ATA_REG_LBA_MID : Z := 4.
Definition ATA_REG_LBA_HI : Z := 5.
Definition ATA_REG_DRIVE : Z := 6.
Definition ATA_REG_STATUS : Z := 7.
Definition ATA_REG_COMMAND : Z := 7.
Definition ATA_SR_BSY : Z := 128.
Definition ATA_SR_DRQ : Z := 8.
Definition ATA_SR_ERR : Z := 1.
Definition ATA_CMD_READ_PIO : Z := 32.
Definition ATA_CMD_WRITE_PIO : Z := 48.
Definition ATA_CMD_CACHE_FLUSH : Z := 231.
Definition ATA_CMD_IDENTIFY : Z := 236.
Definition ATA_MASTER : Z := 0.
Definition ATA_SLAVE : Z := 1.

Record ata_drive := AtaDrive { exists_ : bool; base_io : Z; ctrl_io : Z; drive_select : Z; dsize : Z }.
Definition no_drive : ata_drive := AtaDrive false 0 0 0 0.

(** [uint32_t timeout = 100000] *)
Definition POLLS : nat := Z.to_nat 100000.

(** A [uint16_t] as the two bytes it has in memory, and back. *)
Definition word_bytes (w : Z) : list Z := [u8 w; u8 (w / 256)].
Definition bytes_word (l : list Z) : Z := match l with a :: b :: _ => a + 256 * b | _ => 0 end.
Fixpoint bytes_words (n : nat) (l : list Z) : list Z :=
  match n with O => [] | S n => bytes_word l :: bytes_words n (drop 2 l) end.

(** The driver's state: its table [drives] beside the machine and the log. *)
Notation ata P := (driver (list ata_drive) P).
Notation drives := own.

Section driver.
Context {P : Type} `{Ports P}.
Notation A := (ST (ata P)).

(** A store into [drives]. *)
Definition put_drive (i : nat) (d : ata_drive) : A unit := set_own (fun ds => <[i := d]> ds).

Fixpoint wait_bsy (timeout : nat) (base_io : Z) : A Z :=
  match timeout with
  | O => mret (-1)
  | S timeout =>
      status ← on_io (inb (base_io + ATA_REG_STATUS));
      if Z.land status ATA_SR_BSY =? 0 then mret 0 else wait_bsy timeout base_io
  end.
Definition ata_wait_bsy (base_io : Z) : A Z := wait_bsy POLLS base_io.

Fixpoint wait_drq (timeout : nat) (base_io : Z) : A Z :=
  match timeout with
  | O => mret (-1)
  | S timeout =>
      status ← on_io (inb (base_io + ATA_REG_STATUS));
      if negb (Z.land status ATA_SR_ERR =? 0) then mret (-1) else
      if negb (Z.land status ATA_SR_DRQ =? 0) then mret 0 else wait_drq timeout base_io
  end.
Definition ata_wait_drq (base_io : Z) : A Z := wait_drq POLLS base_io.

Fixpoint read_words (n : nat) (base_io : Z) : A (list Z) :=
  match n with
  | O => mret []
  | S n =>
      w ← on_io (inw (base_io + ATA_REG_DATA));
      ws ← read_words n base_io; mret (w :: ws)
  end.
Fixpoint write_words (ws : list Z) (base_io : Z) : A unit :=
  match ws with
  | [] => mret tt
  | w :: ws => _ ← on_io (outw (base_io + ATA_REG_DATA) w); write_words ws base_io
  end.

Definition ata_identify (base_io ctrl_io drive_select : Z) : A bool :=
  _ ← on_io (outb (base_io + ATA_REG_DRIVE) (Z.lor 160 (Z.shiftl drive_select 4))); _ ← on_io io_wait;
  _ ← on_io (outb (base_io + ATA_REG_COMMAND) ATA_CMD_IDENTIFY); _ ← on_io io_wait;
  status ← on_io (inb (base_io + ATA_REG_STATUS));
  if status =? 0 then _ ← say_warn "ATA drive not present at I/O 0x%x" base_io; mret false else
  r ← ata_wait_bsy base_io;
  if negb (r =? 0) then _ ← say_warn "ATA drive at I/O 0x%x busy timeout" base_io; mret false else
  mid ← on_io (inb (base_io + ATA_REG_LBA_MID));
  hi ← (if negb (mid =? 0) then mret 0 else on_io (inb (base_io + ATA_REG_LBA_HI)));
  if negb (mid =? 0) || negb (hi =? 0) then _ ← say_warn "ATA drive at I/O 0x%x is not ATA device" base_io; mret false else
  r ← ata_wait_drq base_io;
  if negb (r =? 0) then _ ← say_warn "ATA drive at I/O 0x%x error waiting for DRQ" base_io; mret false else
  identify_data ← read_words 256 base_io;
  mret (0 <? Z.lor (u32 (Z.shiftl (identify_data !!! 61%nat) 16)) (identify_data !!! 60%nat)).

(** The block of [ata_init] for one drive. *)
Definition init_drive (i : nat) (base ctrl select : Z) (msg : string) : A unit :=
  s ← sget;
  let d := default no_drive (drives s !! i) in
  _ ← put_drive i (AtaDrive (exists_ d) base ctrl select (dsize d));
  e ← ata_identify base ctrl select;
  _ ← put_drive i (AtaDrive e base ctrl select (dsize d));
  if e : bool then say_info msg else mret tt.

Definition ata_init : A Z :=
  _ ← say_info "Initializing ATA driver";
  _ ← set_own (fun _ => replicate 4 no_drive);
  _ ← init_drive 0 ATA_PRIMARY_IO ATA_PRIMARY_CTRL ATA_MASTER "Primary master detected";
  _ ← init_drive 1 ATA_PRIMARY_IO ATA_PRIMARY_CTRL ATA_SLAVE "Primary slave detected";
  _ ← init_drive 2 ATA_SECONDARY_IO ATA_SECONDARY_CTRL ATA_MASTER "Secondary master detected";
  _ ← init_drive 3 ATA_SECONDARY_IO ATA_SECONDARY_CTRL ATA_SLAVE "Secondary slave detected";
  mret 0.

(** The drive of a number, if there is one. *)
Definition find_drive (s : ata P) (drive : Z) : option ata_drive :=
  if 4 <=? drive then None else
  d ← drives s !! Z.to_nat drive; if exists_ d then Some d else None.

(** What reading and writing send before the data: the address and the command. *)
Definition send_command (d : ata_drive) (lba sector_count command : Z) : A unit :=
  _ ← on_io (outb (base_io d + ATA_REG_DRIVE)
               (Z.lor (Z.lor 224 (Z.shiftl (drive_select d) 4)) (Z.land (Z.shiftr lba 24) 15)));
  _ ← on_io io_wait;
  _ ← on_io (outb (base_io d + ATA_REG_SECCOUNT) sector_count);
  _ ← on_io (outb (base_io d + ATA_REG_LBA_LO) (u8 lba));
  _ ← on_io (outb (base_io d + ATA_REG_LBA_MID) (u8 (Z.shiftr lba 8)));
  _ ← on_io (outb (base_io d + ATA_REG_LBA_HI) (u8 (Z.shiftr lba 16)));
  on_io (outb (base_io d + ATA_REG_COMMAND) command).

(** The sectors still to come: the code, and the bytes stored. *)
Fixpoint read_loop (n : nat) (base_io : Z) : A (Z * list Z) :=
  match n with
  | O => mret (0, [])
  | S n =>
      r ← ata_wait_drq base_io;
      if negb (r =? 0) then _ ← say_info "Error waiting for data"; mret (-1, []) else
      ws ← read_words 256 base_io;
      '(r, rest) ← read_loop n base_io;
      mret (r, (ws ≫= word_bytes) ++ rest)
  end.

Definition ata_read_sectors (drive lba sector_count : Z) : A (Z * list Z) :=
  s ← sget;
  match find_drive s drive with
  | None => _ ← say_warn "Invalid drive number %d for read" drive; mret (-1, [])
  | Some d =>
      if sector_count =? 0 then _ ← say_warn "Zero sector count for read on drive %d" drive; mret (0, []) else
      r ← ata_wait_bsy (base_io d);
      if negb (r =? 0) then _ ← say_info "Drive not ready for read"; mret (-1, []) else
      _ ← send_command d lba sector_count ATA_CMD_READ_PIO;
      read_loop (Z.to_nat sector_count) (base_io d)
  end.

(** The sectors still to be sent from [buf]; a buffer that is too short is a fault. *)
Fixpoint write_loop (n : nat) (base_io : Z) (buf : list Z) : A Z :=
  match n with
  | O => mret 0
  | S n =>
      r ← ata_wait_drq base_io;
      if negb (r =? 0) then _ ← say_info "Error waiting for write ready"; mret (-1) else
      if (length buf <? 512)%nat then sfault else
      _ ← write_words (bytes_words 256 buf) base_io;
      write_loop n base_io (drop 512 buf)
  end.

Definition ata_write_sectors (drive lba sector_count : Z) (buffer : list Z) : A Z :=
  s ← sget;
  match find_drive s drive with
  | None => _ ← say_warn "Invalid drive number %d for write" drive; mret (-1)
  | Some d =>
      if sector_count =? 0 then _ ← say_warn "Zero sector count for write on drive %d" drive; mret 0 else
      r ← ata_wait_bsy (base_io d);
      if negb (r =? 0) then _ ← say_info "Drive not ready for write"; mret (-1) else
      _ ← send_command d lba sector_count ATA_CMD_WRITE_PIO;
      r ← write_loop (Z.to_nat sector_count) (base_io d) buffer;
      if negb (r =? 0) then mret r else
      _ ← on_io (outb (base_io d + ATA_REG_COMMAND) ATA_CMD_CACHE_FLUSH);
      r ← ata_wait_bsy (base_io d);
      _ ← (if negb (r =? 0) then say_info "Cache flush timeout" else mret tt);
      mret 0
  end.

Definition ata_drive_exists (drive : Z) : A bool :=
  s ← sget;
  if 4 <=? drive then _ ← say_warn "Invalid drive number %d for existence check" drive; mret false else
  d ← sopt (drives s !! Z.to_nat drive); mret (exists_ d).

Definition ata_get_drive_size (drive : Z) : A Z :=
  s ← sget;
  match find_drive s drive with
  | None => _ ← say_warn "Invalid drive number %d for size query" drive; mret 0
  | Some d => mret (dsize d)
  end.
End driver.

(** ** The disks behind the ports *)

(** What a channel does: nothing; nothing, for the selected drive does not exist;
    it sends the rest of these sectors; it receives sectors for drive [v] from [lba]
    on, of which [words] have come. *)
Inductive phase := Idle | Absent | Sending (sectors : list (list Z)) | Receiving (v lba left : Z) (words : list Z).

(** [busy] is the number of polls that will find the channel busy. *)
Record channel := Chan { ph : phase; busy : nat; r_count : Z; r_lo : Z; r_mid : Z; r_hi : Z; r_dev : Z }.

Definition set_ph (c : channel) (x : phase) (n : nat) : channel := Chan x n (r_count c) (r_lo c) (r_mid c) (r_hi c) (r_dev c).
Definition set_busy (c : channel) (n : nat) : channel := set_ph c (ph c) n.
Definition set_reg (c : channel) (r v : Z) : channel :=
  Chan (ph c) (busy c) (if r =? ATA_REG_SECCOUNT then v else r_count c) (if r =? ATA_REG_LBA_LO then v else r_lo c)
    (if r =? ATA_REG_LBA_MID then v else r_mid c) (if r =? ATA_REG_LBA_HI then v else r_hi c)
    (if r =? ATA_REG_DRIVE then v else r_dev c).

Definition is_base (b : Z) : Prop := b = ATA_PRIMARY_IO \/ b = ATA_SECONDARY_IO.
(** The drive that the device register selects, and the address in the registers. *)
Definition selected (b dev : Z) : Z := (if b =? ATA_PRIMARY_IO then 0 else 2) + Z.land (Z.shiftr dev 4) 1.
Definition address (c : channel) : Z := r_lo c + 256 * r_mid c + 65536 * r_hi c + 16777216 * (r_dev c mod 16).

(** A bounded number of polls. *)
Definition soon (n : nat) : Prop := (n < POLLS)%nat.
Definition is_word (w : Z) : Prop := 0 <= w < 65536.
(** A sector as words. *)
Definition is_sector (ws : list Z) : Prop := length ws = 256%nat /\ Forall is_word ws.

Definition status_of (c : channel) (s : Z) : Prop :=
  match ph c with
  | Absent => s = 0
  | x =>
      s <> 0 /\ Z.land s ATA_SR_ERR = 0 /\
      match busy c with
      | S _ => Z.land s ATA_SR_BSY <> 0 /\ Z.land s ATA_SR_DRQ = 0
      | O => Z.land s ATA_SR_BSY = 0 /\ (Z.land s ATA_SR_DRQ = 0 <-> x = Idle)
      end
  end.

Class AtaView (P : Type) := {
  at_chan : P -> Z -> channel;
  at_disk : P -> Z -> Z -> list Z;
  (** The drives there are, and the words with which they identify themselves. *)
  at_present : Z -> bool;
  at_ident : Z -> list Z;
  (** Their capacity, in sectors. *)
  at_size : Z -> Z
}.

(** A request inside a drive. *)
Definition in_drive {P} `{AtaView P} (v lba count : Z) : Prop := 0 <= lba /\ 1 <= count <= 255 /\ lba + count <= at_size v.

(** After the step the channel at [b] is [c], the disks hold [d], and the other
    channel is as before. *)
Definition moved {P} `{AtaView P} (p p' : P) (b : Z) (c : channel) (d : Z -> Z -> list Z) : Prop :=
  (forall b', at_chan p' b' = if b' =? b then c else at_chan p b') /\ forall v l, at_disk p' v l = d v l.

Definition stored (d : Z -> Z -> list Z) (v l : Z) (ws : list Z) : Z -> Z -> list Z :=
  fun v' l' => if (v' =? v) && (l' =? l) then ws else d v' l'.

Class AtaLaws (P : Type) `{Ports P} `{AtaView P} := {
  at_sector p v l : is_sector (at_disk p v l);
  at_ident_ok v : at_present v = true -> length (at_ident v) = 256%nat /\ 0 < at_size v < 268435456 /\
    Z.lor (u32 (Z.shiftl (at_ident v !!! 61%nat) 16)) (at_ident v !!! 60%nat) = at_size v;
  at_wait p b : is_base b -> exists p', io_wait p = Some (tt, p') /\ moved p p' b (at_chan p b) (at_disk p);
  at_status p b : is_base b -> exists s p', inb (b + ATA_REG_STATUS) p = Some (s, p') /\
    status_of (at_chan p b) s /\ moved p p' b (set_busy (at_chan p b) (pred (busy (at_chan p b)))) (at_disk p);
  (** Selecting a drive, on a channel that is idle. *)
  at_select p b v : is_base b -> is_u8 v ->
    ph (at_chan p b) = Absent \/ ph (at_chan p b) = Idle /\ busy (at_chan p b) = 0%nat ->
    exists p', outb (b + ATA_REG_DRIVE) v p = Some (tt, p') /\
      moved p p' b (set_ph (set_reg (at_chan p b) ATA_REG_DRIVE v) Idle 0) (at_disk p);
  at_register p b r v : is_base b -> is_u8 v -> ATA_REG_SECCOUNT <= r <= ATA_REG_LBA_HI ->
    ph (at_chan p b) = Idle -> busy (at_chan p b) = 0%nat ->
    exists p', outb (b + r) v p = Some (tt, p') /\ moved p p' b (set_reg (at_chan p b) r v) (at_disk p);
  at_signature p b l : is_base b -> ph (at_chan p b) = Sending l -> busy (at_chan p b) = 0%nat ->
    (exists p', inb (b + ATA_REG_LBA_MID) p = Some (r_mid (at_chan p b), p') /\ moved p p' b (at_chan p b) (at_disk p)) /\
    (exists p', inb (b + ATA_REG_LBA_HI) p = Some (r_hi (at_chan p b), p') /\ moved p p' b (at_chan p b) (at_disk p));
  at_identify p b : is_base b -> ph (at_chan p b) = Idle -> busy (at_chan p b) = 0%nat ->
    let c := at_chan p b in let v := selected b (r_dev c) in
    exists p' n, outb (b + ATA_REG_COMMAND) ATA_CMD_IDENTIFY p = Some (tt, p') /\ soon n /\
      moved p p' b (if at_present v
                    then set_ph (set_reg (set_reg c ATA_REG_LBA_MID 0) ATA_REG_LBA_HI 0) (Sending [at_ident v]) n
                    else set_ph c Absent 0) (at_disk p);
  at_read p b : is_base b -> ph (at_chan p b) = Idle -> busy (at_chan p b) = 0%nat ->
    let c := at_chan p b in let v := selected b (r_dev c) in
    at_present v = true -> in_drive v (address c) (r_count c) ->
    exists p' n, outb (b + ATA_REG_COMMAND) ATA_CMD_READ_PIO p = Some (tt, p') /\ soon n /\
      moved p p' b (set_ph c (Sending (at_disk p v <$> seqZ (address c) (r_count c))) n) (at_disk p);
  at_data_in p b w ws rest : is_base b -> ph (at_chan p b) = Sending ((w :: ws) :: rest) -> busy (at_chan p b) = 0%nat ->
    exists p' n, inw (b + ATA_REG_DATA) p = Some (w, p') /\ soon n /\
      moved p p' b (match ws, rest with
                    | _ :: _, _ => set_ph (at_chan p b) (Sending (ws :: rest)) 0
                    | [], [] => set_ph (at_chan p b) Idle 0
                    | [], _ :: _ => set_ph (at_chan p b) (Sending rest) n
                    end) (at_disk p);
  at_write p b : is_base b -> ph (at_chan p b) = Idle -> busy (at_chan p b) = 0%nat ->
    let c := at_chan p b in let v := selected b (r_dev c) in
    at_present v = true -> in_drive v (address c) (r_count c) ->
    exists p' n, outb (b + ATA_REG_COMMAND) ATA_CMD_WRITE_PIO p = Some (tt, p') /\ soon n /\
      moved p p' b (set_ph c (Receiving v (address c) (r_count c) []) n) (at_disk p);
  at_data_out p b v l left ws w : is_base b -> ph (at_chan p b) = Receiving v l left ws -> busy (at_chan p b) = 0%nat ->
    Forall is_word ws -> is_word w -> (length ws < 256)%nat ->
    exists p' n, outw (b + ATA_REG_DATA) w p = Some (tt, p') /\ soon n /\
      if decide (length ws = 255%nat)
      then moved p p' b (set_ph (at_chan p b) (if left =? 1 then Idle else Receiving v (l + 1) (left - 1) []) n)
             (stored (at_disk p) v l (ws ++ [w]))
      else moved p p' b (set_ph (at_chan p b) (Receiving v l left (ws ++ [w])) 0) (at_disk p);
  at_flush p b : is_base b -> ph (at_chan p b) = Idle -> busy (at_chan p b) = 0%nat ->
    exists p' n, outb (b + ATA_REG_COMMAND) ATA_CMD_CACHE_FLUSH p = Some (tt, p') /\ soon n /\
      moved p p' b (set_ph (at_chan p b) Idle n) (at_disk p)
}.

(** The last word of a write is taken without the channel going busy.  The ATA standard does
    not promise it: a machine on which it holds is one that stores the sector before the
    access to the port returns. *)
Definition prompt (P : Type) `{Ports P, AtaView P} : Prop := forall p b v l ws w p',
  is_base b -> ph (at_chan p b) = Receiving v l 1 ws -> length ws = 255%nat ->
  outw (b + ATA_REG_DATA) w p = Some (tt, p') -> busy (at_chan p' b) = 0%nat.
Class AtaPrompt (P : Type) `{AtaLaws P} := ata_prompt : prompt P.

(** ** The driver against the laws *)

Section proofs.
Context {P : Type} `{AtaLaws P}.
Implicit Types (s : ata P) (p : P) (c : channel).

Lemma base_cases b : is_base b -> b = 496 \/ b = 368.
Proof. done. Qed.

Lemma moved_chan p p' b c d : moved p p' b c d -> at_chan p' b = c.
Proof. intros [Hm _]. by rewrite Hm, Z.eqb_refl. Qed.

Lemma moved_other p p' b c d b' : moved p p' b c d -> b' <> b -> at_chan p' b' = at_chan p b'.
Proof. intros [Hm _] Hne. rewrite Hm. by destruct (Z.eqb_spec b' b). Qed.

Lemma moved_trans p1 p2 p3 b c2 c3 d2 d3 : moved p1 p2 b c2 d2 -> moved p2 p3 b c3 d3 -> moved p1 p3 b c3 d3.
Proof. intros [H2 _] [H3 D3]. split; [|done]. intros b'. rewrite H3, H2. by destruct (b' =? b). Qed.

(** The disk named by another state with the same contents. *)
Lemma moved_disk p p' b c d d' : moved p p' b c d -> (forall v l, d v l = d' v l) -> moved p p' b c d'.
Proof. intros [Hm Hd] He. split; [done|]. intros v l. by rewrite Hd. Qed.

(** [m] comes to its part [k], with the channel at [b] in a state in [C] and the disks [d]. *)
Definition reaches {X} (m : ST (ata P) X) (b : Z) s (k : ST (ata P) X) (C : channel -> Prop) (d : Z -> Z -> list Z) : Prop :=
  exists p' c', m s = k (with_io s p') /\ moved (io s) p' b c' d /\ C c'.
(** [m] returns [x]. *)
Definition does {X} (m : ST (ata P) X) (b : Z) s (x : X) (C : channel -> Prop) (d : Z -> Z -> list Z) : Prop :=
  exists p' c', m s = Some (x, with_io s p') /\ moved (io s) p' b c' d /\ C c'.

Lemma does_reaches {X} (m : ST (ata P) X) b s x C d : reaches m b s (mret x) C d -> does m b s x C d.
Proof. done. Qed.

Lemma does_io {X} (m : ST P X) b s x p' c C d :
  m (io s) = Some (x, p') -> moved (io s) p' b c d -> C c -> does (on_io m) b s x C d.
Proof. intros E Hm Hc. exists p', c. split; [by apply on_io_eq|done]. Qed.

Lemma reaches_bind {X Y} (m : ST (ata P) X) (k : X -> ST (ata P) Y) b s x k' C1 C2 d1 d2 :
  does m b s x C1 d1 ->
  (forall p', C1 (at_chan p' b) -> (forall v l, at_disk p' v l = d1 v l) -> reaches (k x) b (with_io s p') k' C2 d2) ->
  reaches (mbind k m) b s k' C2 d2.
Proof.
  intros (p1 & c1 & E1 & M1 & Hc1) Hk. destruct (Hk p1) as (p2 & c2 & E2 & M2 & Hc2); [|apply M1|].
  - by rewrite (moved_chan _ _ _ _ _ M1).
  - exists p2, c2. rewrite (run_bind _ _ _ _ _ E1). split; [exact E2|]. split; [by eapply moved_trans|done].
Qed.

Lemma does_bind {X Y} (m : ST (ata P) X) (k : X -> ST (ata P) Y) b s x y C1 C2 d1 d2 :
  does m b s x C1 d1 ->
  (forall p', C1 (at_chan p' b) -> (forall v l, at_disk p' v l = d1 v l) -> does (k x) b (with_io s p') y C2 d2) ->
  does (mbind k m) b s y C2 d2.
Proof. exact (reaches_bind m k b s x (mret y) C1 C2 d1 d2). Qed.

Lemma does_ret {X} (x : X) b s (C : channel -> Prop) d :
  C (at_chan (io s) b) -> (forall v l, at_disk (io s) v l = d v l) -> does (mret x) b s x C d.
Proof.
  intros Hc Hd. exists (io s), (at_chan (io s) b). split; [by destruct s|]. split; [|done]. split; [|done].
  intros b'. by destruct (Z.eqb_spec b' b) as [->|].
Qed.

Lemma does_weaken {X} (m : ST (ata P) X) b s x (C C' : channel -> Prop) d d' :
  does m b s x C d -> (forall c, C c -> C' c) -> (forall v l, d v l = d' v l) -> does m b s x C' d'.
Proof. intros (p' & c' & E & M & Hc) HC He. exists p', c'. split; [done|]. split; [by eapply moved_disk|auto]. Qed.

Lemma does_value {X} (m : ST (ata P) X) b s x y C d : does m b s x C d -> x = y -> does m b s y C d.
Proof. by intros Hm <-. Qed.

Lemma does_run {X} (m m' : ST (ata P) X) b s x C d : m s = m' s -> does m' b s x C d -> does m b s x C d.
Proof. intros E (p' & c' & E' & Hm). exists p', c'. by rewrite E. Qed.

Lemma reaches_run {X} (m m' : ST (ata P) X) b s k C d : m s = m' s -> reaches m' b s k C d -> reaches m b s k C d.
Proof. intros E (p' & c' & E' & Hm). exists p', c'. by rewrite E. Qed.

Lemma reaches_refl {X} (k : ST (ata P) X) b s (C : channel -> Prop) d :
  C (at_chan (io s) b) -> (forall v l, at_disk (io s) v l = d v l) -> reaches k b s k C d.
Proof.
  intros Hc Hd. exists (io s), (at_chan (io s) b). split; [by destruct s|]. split; [|done]. split; [|done].
  intros b'. by destruct (Z.eqb_spec b' b) as [->|].
Qed.

(** Polling until the channel is ready. *)
Lemma wait_bsy_does n b s c d :
  is_base b -> at_chan (io s) b = c -> (forall v l, at_disk (io s) v l = d v l) -> (busy c < n)%nat ->
  (ph c = Absent -> busy c = 0%nat) -> does (wait_bsy n b) b s 0 (eq (set_busy c 0)) d.
Proof.
  intros Hb. revert s c. induction n as [|n IH]; intros s c Hc Hd Hn Ha; [lia|]. cbn [wait_bsy].
  destruct (at_status (io s) b Hb) as (st & p1 & E1 & Hst & M1). rewrite Hc in Hst, M1.
  eapply (does_bind _ _ _ _ st _ (eq (set_busy c (pred (busy c))))); [by eapply does_io; [exact E1|eapply moved_disk; [exact M1|exact Hd]|]|].
  intros p' Hc' Hd'. destruct (Z.eqb_spec (Z.land st ATA_SR_BSY) 0) as [Hz|Hz].
  - assert (Hb0 : busy c = 0%nat).
    { unfold status_of in Hst. destruct (ph c) eqn:Ep; try (by apply Ha);
        destruct (busy c); try done; by destruct Hst as (_ & _ & Hx & _). }
    apply does_ret; [|done]. cbn [io with_io]. by rewrite <- Hc', Hb0.
  - destruct (busy c) as [|k] eqn:Eb.
    { exfalso. apply Hz. unfold status_of in Hst. rewrite Eb in Hst.
      destruct (ph c); try (by subst st); by destruct Hst as (_ & _ & ? & _). }
    apply (IH _ (set_busy c k)); [done|done|cbn; lia|]. intros Hp. specialize (Ha Hp). discriminate.
Qed.

Lemma wait_drq_does n b s c d :
  is_base b -> at_chan (io s) b = c -> (forall v l, at_disk (io s) v l = d v l) -> (busy c < n)%nat ->
  ph c <> Absent -> ph c <> Idle -> does (wait_drq n b) b s 0 (eq (set_busy c 0)) d.
Proof.
  intros Hb. revert s c. induction n as [|n IH]; intros s c Hc Hd Hn Ha Hi; [lia|]. cbn [wait_drq].
  destruct (at_status (io s) b Hb) as (st & p1 & E1 & Hst & M1). rewrite Hc in Hst, M1.
  assert (Hst' : Z.land st ATA_SR_ERR = 0 /\
    match busy c with S _ => Z.land st ATA_SR_DRQ = 0 | O => Z.land st ATA_SR_DRQ <> 0 end).
  { unfold status_of in Hst. destruct (ph c); try done; destruct Hst as (_ & ? & Hx); (split; [done|]);
      destruct (busy c); try (by apply Hx); destruct Hx as [_ Hx]; intros Hz; by apply Hx in Hz. }
  destruct Hst' as [He Hq].
  eapply (does_bind _ _ _ _ st _ (eq (set_busy c (pred (busy c))))); [by eapply does_io; [exact E1|eapply moved_disk; [exact M1|exact Hd]|]|].
  intros p' Hc' Hd'. rewrite He. cbn [Z.eqb negb]. destruct (busy c) as [|k].
  - replace (Z.land st ATA_SR_DRQ =? 0) with false by (symmetry; by apply Z.eqb_neq). cbn [negb].
    by apply does_ret.
  - rewrite Hq. cbn [Z.eqb negb]. by apply (IH _ (set_busy c k)); [|done|cbn; lia|..].
Qed.

(** ** Reading *)

(** After a sector has been sent, [rest] is left. *)
Definition sent c (rest : list (list Z)) (c' : channel) : Prop :=
  exists n, soon n /\ (rest = [] -> n = 0%nat) /\ c' = set_ph c (match rest with [] => Idle | _ => Sending rest end) n.

(** A channel that has finished a transfer, or a command that takes no data. *)
Definition at_rest c : Prop := ph c = Idle /\ soon (busy c).

Lemma read_words_does ws b s c rest d :
  is_base b -> at_chan (io s) b = c -> (forall v l, at_disk (io s) v l = d v l) -> busy c = 0%nat ->
  ph c = Sending (ws :: rest) -> ws <> [] ->
  does (read_words (length ws) b) b s ws (sent c rest) d.
Proof.
  intros Hb. revert s c. induction ws as [|w ws IH]; intros s c Hc Hd Hz Hp Hne; [done|]. cbn [length read_words].
  destruct (at_data_in (io s) b w ws rest Hb) as (p1 & n & E1 & Hn & M1); [by rewrite Hc..|]. rewrite Hc in M1.
  destruct ws as [|w' ws'].
  - eapply (does_bind _ _ _ _ w _ (sent c rest)).
    { eapply does_io; [exact E1|eapply moved_disk; [exact M1|exact Hd]|]. destruct rest; [|by exists n; split_and!].
      exists 0%nat. split; [unfold soon, POLLS; lia|done]. }
    intros p' Hc' Hd'. cbn [length read_words]. eapply (does_bind _ _ _ _ [] _ (sent c rest)); [by apply does_ret|].
    intros p2 Hc2 Hd2. by apply does_ret.
  - set (c1 := set_ph c (Sending ((w' :: ws') :: rest)) 0) in *.
    eapply (does_bind _ _ _ _ w _ (eq c1)); [by eapply does_io; [exact E1|eapply moved_disk; [exact M1|exact Hd]|]|].
    intros p' Hc' Hd'. eapply (does_bind _ _ _ _ (w' :: ws') _ (sent c rest)).
    { eapply does_weaken; [by apply (IH _ c1)| |done]. by intros c'. }
    intros p2 Hc2 Hd2. by apply does_ret.
Qed.

Lemma read_loop_does secs b s c d :
  is_base b -> at_chan (io s) b = c -> (forall v l, at_disk (io s) v l = d v l) -> soon (busy c) ->
  ph c = (match secs with [] => Idle | _ => Sending secs end) -> Forall (fun ws => length ws = 256%nat) secs ->
  does (read_loop (length secs) b) b s (0, (secs ≫= fun ws => ws ≫= word_bytes)) at_rest d.
Proof.
  intros Hb Hc Hd Hn Hp Hl. revert s c Hc Hd Hn Hp.
  induction Hl as [|ws secs Hws Hl IH]; intros s c Hc Hd Hn Hp; cbn [length read_loop].
  - apply does_ret; [|done]. by rewrite Hc.
  - eapply (does_bind _ _ _ _ 0 _ (eq (set_busy c 0))); [apply wait_drq_does; try done; by rewrite Hp|].
    intros p1 Hc1 Hd1. cbn [Z.eqb negb]. rewrite <- Hws.
    eapply (does_bind _ _ _ _ ws _ (sent c secs)).
    { eapply does_weaken; [apply (read_words_does ws b _ (set_busy c 0) secs d); try done; by destruct ws| |done].
      intros c' (n & Hn' & Hz' & ->). by exists n. }
    intros p2 (n & Hn2 & _ & Hc2) Hd2.
    eapply (does_bind _ _ _ _ (0, secs ≫= fun ws => ws ≫= word_bytes) _ at_rest).
    { apply (IH (with_io (with_io s p1) p2) _ Hc2); try done; by destruct secs. }
    intros p3 Hc3 Hd3. by apply does_ret.
Qed.

(** ** Addressing *)

Definition dev_value (sel lba : Z) : Z := Z.lor (Z.lor 224 (Z.shiftl sel 4)) (Z.land (Z.shiftr lba 24) 15).

Lemma dev_values : forallb (fun sel => forallb (fun hi => let dev := Z.lor (Z.lor 224 (Z.shiftl sel 4)) hi in
  (dev mod 16 =? hi) && (Z.land (Z.shiftr dev 4) 1 =? sel) && (0 <=? dev) && (dev <? 256)) (seqZ 0 16)) [0; 1] = true.
Proof. vm_compute. reflexivity. Qed.

Lemma dev_value_ok sel lba : sel = 0 \/ sel = 1 -> 0 <= lba < 268435456 ->
  dev_value sel lba mod 16 = lba / 16777216 /\ Z.land (Z.shiftr (dev_value sel lba) 4) 1 = sel /\ is_u8 (dev_value sel lba).
Proof.
  intros Hs Hl. unfold dev_value. rewrite Z.shiftr_div_pow2 by lia. change (2 ^ 24) with 16777216.
  change 15 with (Z.ones 4). rewrite Z.land_ones by lia. change (2 ^ 4) with 16.
  rewrite (Z.mod_small (lba / 16777216)) by zdm.
  pose proof dev_values as Hd. rewrite forallb_forall in Hd. specialize (Hd sel). rewrite forallb_forall in Hd.
  specialize (Hd ltac:(destruct Hs as [-> | ->]; cbn; auto) (lba / 16777216)).
  cbv zeta in Hd. rewrite !andb_true_iff, !Z.eqb_eq, Z.leb_le, Z.ltb_lt in Hd. unfold is_u8.
  destruct Hd as [[[H3 H4] H5] H6]; [|done]. apply list_elem_of_In, elem_of_seqZ. zdm.
Qed.

(** The number of a drive. *)
Definition number (d : ata_drive) : Z := (if base_io d =? ATA_PRIMARY_IO then 0 else 2) + drive_select d.

(** The registers hold a request, and the channel can take a command. *)
Definition addressed (d : ata_drive) (lba count : Z) c : Prop :=
  ph c = Idle /\ busy c = 0%nat /\ r_count c = count /\ address c = lba /\ selected (base_io d) (r_dev c) = number d.

Lemma send_command_does d lba count cmd s c C dk dk' :
  is_base (base_io d) -> drive_select d = 0 \/ drive_select d = 1 -> 0 <= lba < 268435456 -> is_u8 count ->
  at_chan (io s) (base_io d) = c -> (forall v l, at_disk (io s) v l = dk v l) ->
  ph c = Absent \/ ph c = Idle /\ busy c = 0%nat ->
  (forall p c, at_chan p (base_io d) = c -> (forall v l, at_disk p v l = dk v l) -> addressed d lba count c ->
     exists p' c', outb (base_io d + ATA_REG_COMMAND) cmd p = Some (tt, p') /\ moved p p' (base_io d) c' dk' /\ C c') ->
  does (send_command d lba count cmd) (base_io d) s tt C dk'.
Proof.
  intros Hb Hsel Hlba Hcnt Hc Hd Hph Hcmd. destruct (dev_value_ok _ _ Hsel Hlba) as (Hd1 & Hd2 & Hd3).
  unfold send_command. fold (dev_value (drive_select d) lba).
  set (dev := dev_value (drive_select d) lba) in *.
  assert (Hreg : forall r v k s2 c2, at_chan (io s2) (base_io d) = c2 -> (forall v l, at_disk (io s2) v l = dk v l) ->
    is_u8 v -> ATA_REG_SECCOUNT <= r <= ATA_REG_LBA_HI -> ph c2 = Idle -> busy c2 = 0%nat ->
    (forall p', at_chan p' (base_io d) = set_reg c2 r v -> (forall v l, at_disk p' v l = dk v l) ->
       does k (base_io d) (with_io s2 p') tt C dk') ->
    does (_ ← on_io (outb (base_io d + r) v); k) (base_io d) s2 tt C dk').
  { intros r v k s2 c2 Hs2 Hk2 Hv Hr Hp2 Hz2 Hk. destruct (at_register (io s2) (base_io d) r v Hb Hv Hr) as (p' & E & M); [by rewrite Hs2..|].
    rewrite Hs2 in M. eapply (does_bind _ _ _ _ tt _ (eq (set_reg c2 r v))); [|intros p3 Hp3; by apply Hk].
    by eapply does_io; [exact E|eapply moved_disk; [exact M|exact Hk2]|]. }
  destruct (at_select (io s) (base_io d) dev Hb Hd3) as (p1 & E1 & M1); [by rewrite Hc|]. rewrite Hc in M1.
  eapply (does_bind _ _ _ _ tt _ (eq (set_ph (set_reg c ATA_REG_DRIVE dev) Idle 0)));
    [by eapply does_io; [exact E1|eapply moved_disk; [exact M1|exact Hd]|]|].
  clear E1 M1 p1. intros p1 Hc1 Hk1.
  eapply (does_bind _ _ _ _ tt _ (eq (at_chan p1 (base_io d)))).
  { destruct (at_wait p1 (base_io d) Hb) as (p2 & E & M). by eapply does_io; [exact E|eapply moved_disk; [exact M|exact Hk1]|]. }
  intros p2 Hc2 Hk2. rewrite <- Hc1 in Hc2.
  assert (Hr : forall r, 2 <= r <= 5 -> ATA_REG_SECCOUNT <= r <= ATA_REG_LBA_HI) by done.
  eapply Hreg; [exact (eq_sym Hc2)|done|done|by apply Hr|done|done|]. intros p3 Hc3 Hk3.
  eapply Hreg; [exact Hc3|done|apply u8_range|by apply Hr|done|done|]. intros p4 Hc4 Hk4.
  eapply Hreg; [exact Hc4|done|apply u8_range|by apply Hr|done|done|]. intros p5 Hc5 Hk5.
  eapply Hreg; [exact Hc5|done|apply u8_range|by apply Hr|done|done|]. intros p6 Hc6 Hk6.
  destruct (Hcmd p6 _ Hc6 Hk6) as (p7 & c7 & E7 & M7 & H7).
  - split; [done|]. split; [done|]. split; [done|]. split.
    + unfold address. cbn. rewrite Hd1. unfold u8. rewrite !Z.shiftr_div_pow2 by lia.
      change (2 ^ 8) with 256. change (2 ^ 16) with 65536. zdm.
    + unfold selected, number. cbn. by rewrite Hd2.
  - by eapply does_io.
Qed.

(** ** Requests *)

(** A channel that can be asked for something. *)
Definition quiet c : Prop := ph c = Absent /\ busy c = 0%nat \/ at_rest c.

Definition base_of (v : Z) : Z := if v <? 2 then ATA_PRIMARY_IO else ATA_SECONDARY_IO.

(** Both channels are quiet; drive [v] is in the table and there. *)
Definition bus_ok s : Prop := forall b, is_base b -> quiet (at_chan (io s) b).
Definition has_drive s (v : Z) : Prop :=
  0 <= v < 4 /\ at_present v = true /\ exists ctrl sz, drives s !! Z.to_nat v = Some (AtaDrive true (base_of v) ctrl (v mod 2) sz).

(** The bytes of a sector. *)
Definition sector_bytes p (v l : Z) : list Z := at_disk p v l ≫= word_bytes.

Lemma base_of_base v : is_base (base_of v).
Proof. unfold base_of. destruct (v <? 2); [by left|by right]. Qed.

Lemma number_of v ctrl sz : 0 <= v < 4 -> number (AtaDrive true (base_of v) ctrl (v mod 2) sz) = v.
Proof. intros Hv. unfold number, base_of. cbn. destruct (Z.ltb_spec v 2); cbn; zdm. Qed.

Lemma bus_moved s p' b c d : bus_ok s -> moved (io s) p' b c d -> quiet c -> bus_ok (with_io s p').
Proof. intros Hb [Hm _] Hq b' Hb'. cbn. rewrite Hm. destruct (b' =? b); [done|by apply Hb]. Qed.

Lemma find_has_drive s v : has_drive s v -> exists ctrl sz, find_drive s v = Some (AtaDrive true (base_of v) ctrl (v mod 2) sz).
Proof.
  intros (Hv & _ & ctrl & sz & E). exists ctrl, sz. unfold find_drive. replace (4 <=? v) with false by lia. by rewrite E.
Qed.

Lemma quiet_ready c : quiet c -> ph (set_busy c 0) = Absent \/ ph (set_busy c 0) = Idle /\ busy (set_busy c 0) = 0%nat.
Proof. intros [[Hp _]|[Hp _]]; [by left|by right]. Qed.

(** A request: wait, send the address and the command, and transfer. *)
Lemma request_reaches {X} (err k k' : ST (ata P) X) s d lba n cmd C1 C2 dk :
  is_base (base_io d) -> drive_select d = 0 \/ drive_select d = 1 -> 0 <= lba < 268435456 -> is_u8 n -> quiet (at_chan (io s) (base_io d)) ->
  (forall p c, at_chan p (base_io d) = c -> (forall v l, at_disk p v l = at_disk (io s) v l) -> addressed d lba n c ->
     exists p' c', outb (base_io d + ATA_REG_COMMAND) cmd p = Some (tt, p') /\ moved p p' (base_io d) c' (at_disk (io s)) /\ C1 c') ->
  (forall s', drives s' = drives s -> klog s' = klog s -> C1 (at_chan (io s') (base_io d)) ->
     (forall v l, at_disk (io s') v l = at_disk (io s) v l) -> reaches k (base_io d) s' k' C2 dk) ->
  reaches (r ← ata_wait_bsy (base_io d); if negb (r =? 0) then err else _ ← send_command d lba n cmd; k) (base_io d) s k' C2 dk.
Proof.
  intros Hb Hsel Hlba Hn Hq Hcmd Hk.
  eapply (reaches_bind _ _ _ _ 0 _ (eq (set_busy (at_chan (io s) (base_io d)) 0))).
  { apply wait_bsy_does; try done; destruct Hq as [[Hp Hz]|[Hp Hz]]; rewrite ?Hz; try done; [unfold POLLS; lia|by rewrite Hp]. }
  intros p1 Hc1 Hk1. cbn [Z.eqb negb]. eapply (reaches_bind _ _ _ _ tt _ C1); [|intros p2 Hc2 Hk2; by apply Hk].
  eapply (send_command_does d lba n _ _ _ _ (at_disk (io s))); try done; by apply quiet_ready.
Qed.

(** The address of a request inside a drive fits in its 28 bits. *)
Lemma in_drive_range v lba n : at_present v = true -> in_drive v lba n -> 0 <= lba < 268435456 /\ is_u8 n.
Proof. intros Hv (Hl & Hn & Hend). destruct (at_ident_ok v Hv) as (_ & Hs & _). unfold is_u8. lia. Qed.

Lemma read_spec s v lba n : bus_ok s -> has_drive s v -> in_drive v lba n ->
  does (ata_read_sectors v lba n) (base_of v) s (0, sectors_at (sector_bytes (io s) v) lba n) quiet (at_disk (io s)).
Proof.
  intros Hbus Hdr Hr. pose proof Hr as (_ & Hn & _). destruct (find_has_drive s v Hdr) as (ctrl & sz & Ef).
  destruct Hdr as (Hv & Hpres & _). set (d := AtaDrive _ _ _ _ _) in *. pose proof (base_of_base v) as Hb.
  set (secs := at_disk (io s) v <$> seqZ lba n).
  assert (Hne : exists x xs, secs = x :: xs) by (unfold secs; rewrite seqZ_cons by lia; by eexists _, _).
  eapply does_run; [unfold ata_read_sectors; rewrite (run_bind sget _ s s s eq_refl), Ef; replace (n =? 0) with false by lia; reflexivity|].
  destruct (in_drive_range v lba n Hpres Hr) as [Hlba Hn8].
  apply does_reaches, (request_reaches _ _ _ s d lba n _ (fun c => ph c = Sending secs /\ soon (busy c))); [done| |done|done|by apply Hbus| |].
  - unfold d. cbn. assert (0 <= v mod 2 < 2) by zdm. lia.
  - intros p c Hc Hk (Ha1 & Ha2 & Ha3 & Ha4 & Ha5). subst c.
    pose proof (at_read p (base_io d) Hb Ha1 Ha2) as Hx. cbv zeta in Hx.
    rewrite Ha3, Ha4, Ha5, (number_of v ctrl sz Hv : number d = v) in Hx. destruct (Hx Hpres Hr) as (p' & k & E & Hsn & M).
    exists p'. eexists. split; [exact E|]. split; [eapply moved_disk; [exact M|exact Hk]|]. cbn. split; [|done].
    f_equal. unfold secs. apply list_fmap_ext. intros i x _. apply Hk.
  - intros s' _ _ [Hc Hz] Hk. replace (Z.to_nat n) with (length secs) by (unfold secs; by rewrite length_fmap, length_seqZ).
    eapply does_weaken; [eapply does_value; [apply (read_loop_does secs (base_of v) s' _ (at_disk (io s)) Hb eq_refl Hk Hz)|]| |done].
    + destruct Hne as (x & xs & Hx). by rewrite Hx in *.
    + unfold secs. apply Forall_fmap, Forall_true. intros x. apply at_sector.
    + f_equal. unfold secs, sectors_at. by rewrite list_fmap_bind.
    + intros c' Hc'. by right.
Qed.

(** ** Writing *)

(** A sector of drive [v] has been received; [left] were to come with it. *)
Definition received (v l left : Z) c : Prop :=
  (if left =? 1 then ph c = Idle /\ (prompt P -> busy c = 0%nat) else ph c = Receiving v (l + 1) (left - 1) []) /\ soon (busy c).

(** The channel after the last word of a write. *)
Definition landed c : Prop := at_rest c /\ (prompt P -> busy c = 0%nat).

Lemma write_words_does ws b s c d v l left acc :
  is_base b -> at_chan (io s) b = c -> (forall v l, at_disk (io s) v l = d v l) -> busy c = 0%nat ->
  ph c = Receiving v l left acc -> ws <> [] -> (length acc + length ws = 256)%nat -> Forall is_word acc -> Forall is_word ws ->
  does (write_words ws b) b s tt (received v l left) (stored d v l (acc ++ ws)).
Proof.
  intros Hb. revert s c acc. induction ws as [|w ws IH]; intros s c acc Hc Hd Hz Hp Hne Hlen Ha Hw; [done|].
  apply Forall_cons in Hw as [Hw Hws]. cbn [length] in Hlen. cbn [write_words].
  destruct (at_data_out (io s) b v l left acc w Hb) as (p1 & n & E1 & Hn & M1); [by rewrite Hc..|done|done|lia|]. rewrite Hc in M1.
  case_decide as Hlast.
  - destruct ws; [|cbn [length] in Hlen; lia].
    eapply (does_bind _ _ _ _ tt _ (received v l left)); [|intros p2 Hc2 Hk2; by apply does_ret].
    eapply does_io; [exact E1| |].
    + eapply moved_disk; [exact M1|]. intros v' l'. unfold stored. by rewrite Hd.
    + unfold received. destruct (Z.eqb_spec left 1) as [->|]; [|done]. split; [|done]. split; [done|]. intros Hpr.
      rewrite <- (moved_chan _ _ _ _ _ M1). apply (Hpr (io s) b v l acc w p1); [done|by rewrite Hc|done|exact E1].
  - set (c1 := set_ph c (Receiving v l left (acc ++ [w])) 0) in *.
    eapply (does_bind _ _ _ _ tt _ (eq c1)); [by eapply does_io; [exact E1|eapply moved_disk; [exact M1|exact Hd]|]|].
    intros p2 Hc2 Hk2. rewrite cons_middle, app_assoc. apply (IH _ c1); try done.
    + destruct ws; [cbn [length] in Hlen; lia|done].
    + rewrite length_app. cbn [length]. lia.
    + by apply Forall_app_2; [|apply Forall_singleton].
Qed.

Lemma length_bytes_words n l : length (bytes_words n l) = n.
Proof. revert l. induction n as [|n IH]; intros l; [done|]. cbn. by rewrite IH. Qed.

Lemma bytes_words_ok n l : all_u8 l -> length l = (2 * n)%nat ->
  Forall is_word (bytes_words n l) /\ (bytes_words n l ≫= word_bytes) = l.
Proof.
  revert l. induction n as [|n IH]; intros l Hl Hn; [by destruct l|].
  destruct l as [|x [|y l]]; try (cbn in Hn; lia). unfold all_u8 in Hl. rewrite !Forall_cons in Hl. destruct Hl as (Hx & Hy & Hl).
  unfold is_u8 in Hx, Hy. destruct (IH l Hl) as [H3 H4]; [cbn in Hn; lia|]. cbn [bytes_words bytes_word drop]. split.
  - apply Forall_cons. split; [unfold is_word; lia|done].
  - change (word_bytes (x + 256 * y) ++ (bytes_words n l ≫= word_bytes) = x :: y :: l). rewrite H4. unfold word_bytes, u8. cbn [app]. f_equal; [zdm|]. f_equal. zdm.
Qed.

(** The first 512 bytes of a longer list. *)
Lemma bytes_words_take n l : bytes_words n (take (2 * n) l) = bytes_words n l.
Proof.
  revert l. induction n as [|n IH]; intros l; [done|]. cbn [bytes_words].
  replace (2 * S n)%nat with (S (S (2 * n))) by lia. destruct l as [|x [|y l]]; [by rewrite take_nil| |].
  - cbn [take drop bytes_word]. by rewrite ?take_nil, ?drop_nil.
  - cbn [take drop bytes_word]. by rewrite !drop_0, IH.
Qed.

(** The disks after [buf] has been written to the [n] sectors from [lba]. *)
Definition written (d : Z -> Z -> list Z) (v lba n : Z) (buf : list Z) : Z -> Z -> list Z := fun v' l =>
  if (v' =? v) && in_range lba n l then bytes_words 256 (slice buf (Z.to_nat (512 * (l - lba))) 512) else d v' l.

(** One sector, and the others after it. *)
Lemma written_succ d v lba n buf v' l :
  written (stored d v lba (bytes_words 256 (take 512 buf))) v (lba + 1) (Z.of_nat n) (drop 512 buf) v' l =
  written d v lba (Z.of_nat (S n)) buf v' l.
Proof.
  unfold written, stored. generalize (bytes_words 256) as f. intros f.
  destruct (Z.eqb_spec v' v) as [->|]; cbn [andb]; [|reflexivity].
  destruct (in_range_spec (lba + 1) (Z.of_nat n) l), (in_range_spec lba (Z.of_nat (S n)) l), (Z.eqb_spec l lba) as [->|];
    try (exfalso; lia); try reflexivity.
  - f_equal. unfold slice. rewrite drop_drop. f_equal. f_equal. lia.
  - rewrite Z.sub_diag. reflexivity.
Qed.

Lemma write_loop_does n b s c d v lba buf :
  is_base b -> at_chan (io s) b = c -> (forall v l, at_disk (io s) v l = d v l) -> soon (busy c) ->
  (if decide (n = 0%nat) then ph c = Idle /\ (prompt P -> busy c = 0%nat) else ph c = Receiving v lba (Z.of_nat n) []) ->
  length buf = (512 * n)%nat -> all_u8 buf ->
  does (write_loop n b buf) b s 0 landed (written d v lba (Z.of_nat n) buf).
Proof.
  intros Hb. revert s c d lba buf. induction n as [|n IH]; intros s c d lba buf Hc Hd Hz Hp Hl Hu; cbn [write_loop].
  - apply does_ret; [rewrite Hc; by destruct Hp|]. intros v' l. rewrite Hd. unfold written. rcases; by rewrite andb_false_r.
  - cbn in Hp.
    eapply (does_bind _ _ _ _ 0 _ (eq (set_busy c 0))); [apply wait_drq_does; try done; by rewrite Hp|].
    intros p1 Hc1 Hk1. cbn [Z.eqb negb]. replace (length buf <? 512)%nat with false by (symmetry; apply Nat.ltb_ge; lia).
    rewrite <- bytes_words_take. change (2 * 256)%nat with 512%nat.
    set (ws := bytes_words 256 (take 512 buf)).
    assert (Hws : length ws = 256%nat) by apply length_bytes_words.
    assert (Hww : Forall is_word ws) by (apply bytes_words_ok; [by apply Forall_take|rewrite length_take; lia]).
    eapply (does_bind _ _ _ _ tt _ (received v lba (Z.of_nat (S n))) _ (stored d v lba ws)).
    { apply (write_words_does ws b (with_io s p1) (set_busy c 0) d v lba (Z.of_nat (S n)) []); done. }
    intros p2 [Hc2 Hz2] Hk2.
    eapply does_weaken; [apply (IH (with_io (with_io s p1) p2) _ (stored d v lba ws) (lba + 1) (drop 512 buf) eq_refl Hk2 Hz2)| |].
    + cbn [io with_io]. destruct n as [|n].
      * done.
      * destruct (Z.eqb_spec (Z.of_nat (S (S n))) 1) as [Hx|Hx]; [lia|]. cbn [decide]. rewrite Hc2. f_equal. lia.
    + rewrite length_drop. lia.
    + by apply Forall_drop.
    + done.
    + intros v' l. unfold ws. by apply written_succ.
Qed.

(** The end of a write. *)
Definition flush_cache (b : Z) : ST (ata P) Z :=
  _ ← on_io (outb (b + ATA_REG_COMMAND) ATA_CMD_CACHE_FLUSH);
  r ← ata_wait_bsy b;
  _ ← (if negb (r =? 0) then say_info "Cache flush timeout" else mret tt);
  mret 0.

(** The transfer of a write, up to the flush. *)
Lemma write_transfer s v lba n buf : bus_ok s -> has_drive s v -> in_drive v lba n ->
  length buf = Z.to_nat (512 * n) -> all_u8 buf ->
  reaches (ata_write_sectors v lba n buf) (base_of v) s (flush_cache (base_of v)) landed (written (at_disk (io s)) v lba n buf).
Proof.
  intros Hbus Hdr Hr Hlen Hbuf. pose proof Hr as (_ & Hn & _). destruct (find_has_drive s v Hdr) as (ctrl & sz & Ef).
  destruct Hdr as (Hv & Hpres & _). set (d := AtaDrive _ _ _ _ _) in *. pose proof (base_of_base v) as Hb.
  destruct (in_drive_range v lba n Hpres Hr) as [Hlba Hn8].
  eapply reaches_run; [unfold ata_write_sectors; rewrite (run_bind sget _ s s s eq_refl), Ef; replace (n =? 0) with false by lia; reflexivity|].
  apply (request_reaches _ _ _ s d lba n _ (fun c => ph c = Receiving v lba n [] /\ soon (busy c))); [done| |done|done|by apply Hbus| |].
  - unfold d. cbn. assert (0 <= v mod 2 < 2) by zdm. lia.
  - intros p c Hc Hk (Ha1 & Ha2 & Ha3 & Ha4 & Ha5). subst c.
    pose proof (at_write p (base_io d) Hb Ha1 Ha2) as Hx. cbv zeta in Hx.
    rewrite Ha3, Ha4, Ha5, (number_of v ctrl sz Hv : number d = v) in Hx. destruct (Hx Hpres Hr) as (p' & k & E & Hsn & M).
    exists p'. eexists. split; [exact E|]. split; [eapply moved_disk; [exact M|exact Hk]|done].
  - intros s' _ _ [Hc Hz] Hk. cbn [base_io d].
    eapply (reaches_bind _ _ _ _ 0 _ landed (landed)).
    { apply (write_loop_does (Z.to_nat n) (base_of v) s' _ (at_disk (io s)) v lba buf Hb eq_refl Hk Hz); [|lia|done].
      rewrite decide_False by lia. rewrite Z2Nat.id by lia. exact Hc. }
    intros p1 Hc1 Hk1. cbn [Z.eqb negb]. rewrite Z2Nat.id in Hk1 by lia. by apply reaches_refl.
Qed.

Lemma flush_does b s : is_base b -> ph (at_chan (io s) b) = Idle -> busy (at_chan (io s) b) = 0%nat ->
  does (flush_cache b) b s 0 quiet (at_disk (io s)).
Proof.
  intros Hb Hc Hz. destruct (at_flush (io s) b Hb Hc Hz) as (p2 & k & E2 & Hk2 & M2).
  eapply (does_bind _ _ _ _ tt _ (eq (set_ph (at_chan (io s) b) Idle k))); [by eapply does_io; [exact E2|exact M2|]|].
  intros p3 Hc3 Hk3. eapply (does_bind _ _ _ _ 0 _ (eq (set_busy (at_chan p3 b) 0))).
  { apply wait_bsy_does; try done; rewrite <- Hc3; done. }
  intros p4 Hc4 Hk4. eapply (does_bind _ _ _ _ tt _ quiet); apply does_ret || (intros p5 Hc5 Hk5; by apply does_ret); [|done].
  cbn [io with_io]. rewrite <- Hc4, <- Hc3. right. split; [done|]. unfold soon, POLLS; cbn [busy set_busy set_ph]; lia.
Qed.

(** The end of a write after the transfer, when the channel is not busy. *)
Lemma transfer_flush s v lba n buf p' c : is_base (base_of v) ->
  ata_write_sectors v lba n buf s = flush_cache (base_of v) (with_io s p') ->
  moved (io s) p' (base_of v) c (written (at_disk (io s)) v lba n buf) -> ph c = Idle -> busy c = 0%nat ->
  does (ata_write_sectors v lba n buf) (base_of v) s 0 quiet (written (at_disk (io s)) v lba n buf).
Proof.
  intros Hb E M Hp Hz. pose proof (moved_chan _ _ _ _ _ M) as Hc.
  destruct (flush_does (base_of v) (with_io s p') Hb) as (p2 & c2 & E2 & M2 & Hq); [by cbn; rewrite Hc..|].
  exists p2, c2. split; [by rewrite E|]. split; [|done]. eapply moved_trans; [exact M|]. eapply moved_disk; [exact M2|]. apply M.
Qed.

Lemma write_spec `{!AtaPrompt P} s v lba n buf : bus_ok s -> has_drive s v -> in_drive v lba n ->
  length buf = Z.to_nat (512 * n) -> all_u8 buf ->
  does (ata_write_sectors v lba n buf) (base_of v) s 0 quiet (written (at_disk (io s)) v lba n buf).
Proof.
  intros Hbus Hdr Hr Hl Hu. destruct (write_transfer s v lba n buf Hbus Hdr Hr Hl Hu) as (p' & c & E & M & [Hp _] & Hz).
  by eapply transfer_flush; [apply base_of_base|exact E|exact M|exact Hp|apply Hz, ata_prompt].
Qed.

(** ** Detection *)

(** A channel that can be asked to select a drive. *)
Definition selectable c : Prop := (ph c = Absent \/ ph c = Idle) /\ busy c = 0%nat.

(** Selecting a drive and sending IDENTIFY, up to the first look at the status. *)
Lemma identify_start s b sel c :
  is_base b -> sel = 0 \/ sel = 1 -> at_chan (io s) b = c -> selectable c ->
  let v := (if b =? ATA_PRIMARY_IO then 0 else 2) + sel in
  exists st p', (forall X (k : Z -> ST (ata P) X),
      (_ ← on_io (outb (b + ATA_REG_DRIVE) (Z.lor 160 (Z.shiftl sel 4))); _ ← on_io io_wait;
       _ ← on_io (outb (b + ATA_REG_COMMAND) ATA_CMD_IDENTIFY); _ ← on_io io_wait;
       st ← on_io (inb (b + ATA_REG_STATUS)); k st) s = k st (with_io s p')) /\
    exists c', moved (io s) p' b c' (at_disk (io s)) /\
      if at_present v then st <> 0 /\ ph c' = Sending [at_ident v] /\ soon (busy c') /\ r_mid c' = 0 /\ r_hi c' = 0
      else st = 0 /\ ph c' = Absent /\ busy c' = 0%nat.
Proof.
  intros Hb Hsel Hc [Hph Hz] v. set (dev := Z.lor 160 (Z.shiftl sel 4)).
  assert (Hdev : is_u8 dev /\ selected b dev = v) by (unfold v, dev; destruct Hsel as [-> | ->]; done).
  destruct Hdev as [Hdev Hselected].
  destruct (at_select (io s) b dev Hb Hdev) as (p1 & E1 & M1); [rewrite Hc; naive_solver|].
  destruct (at_wait p1 b Hb) as (p2 & E2 & M2). pose proof (moved_chan _ _ _ _ _ M1) as C1.
  pose proof (moved_chan _ _ _ _ _ M2) as C2. rewrite C1 in C2.
  destruct (at_identify p2 b Hb) as (p3 & n & E3 & Hn & M3); [by rewrite C2..|]. rewrite C2 in M3. cbv zeta in M3.
  change (r_dev _) with dev in M3. rewrite Hselected in M3.
  destruct (at_wait p3 b Hb) as (p4 & E4 & M4). pose proof (moved_chan _ _ _ _ _ M4) as C4.
  rewrite (moved_chan _ _ _ _ _ M3) in C4.
  destruct (at_status p4 b Hb) as (st & p5 & E5 & Hst & M5). rewrite C4 in Hst, M5.
  exists st, p5. split.
  { intros X k. rewrite (run_bind _ _ _ _ _ (on_io_eq _ s _ _ E1)). rewrite (run_bind _ _ _ _ _ (on_io_eq _ (with_io s p1) _ _ E2)).
    rewrite (run_bind _ _ _ _ _ (on_io_eq _ (with_io _ p2) _ _ E3)). rewrite (run_bind _ _ _ _ _ (on_io_eq _ (with_io _ p3) _ _ E4)).
    by rewrite (run_bind _ _ _ _ _ (on_io_eq _ (with_io _ p4) _ _ E5)). }
  eexists. split.
  { eapply moved_trans; [eapply moved_trans; [exact M1|exact M2]|]. eapply moved_trans; [exact M3|].
    eapply moved_trans; [exact M4|]. eapply moved_disk; [exact M5|]. intros v' l'.
    by rewrite (proj2 M4), (proj2 M3), (proj2 M2), (proj2 M1). }
  destruct (at_present v).
  - destruct Hst as [Hne _]. split; [done|]. split; [done|]. split; [|done]. unfold soon in *. cbn. lia.
  - by split.
Qed.
Lemma identify_spec s b sel ctrl : is_base b -> sel = 0 \/ sel = 1 -> selectable (at_chan (io s) b) -> log_wf (klog s) ->
  exists s' c', ata_identify b ctrl sel s = Some (at_present ((if b =? ATA_PRIMARY_IO then 0 else 2) + sel), s') /\
    drives s' = drives s /\ log_wf (klog s') /\ moved (io s) (io s') b c' (at_disk (io s)) /\ selectable c'.
Proof.
  intros Hb Hsel Hc Hw. destruct (identify_start s b sel _ Hb Hsel eq_refl Hc) as (st & p1 & E1 & c1 & M1 & Hc1).
  set (v := _ + sel) in *. unfold ata_identify. rewrite E1. clear E1. destruct (at_present v) eqn:Hv.
  - destruct Hc1 as (Hst & Hp1 & Hz1 & Hmid & Hhi). destruct (at_ident_ok v Hv) as (Hlen & Hsize & Hwords).
    apply Z.eqb_neq in Hst. rewrite Hst.
    enough (does (r ← ata_wait_bsy b;
      if negb (r =? 0) then _ ← say_warn "ATA drive at I/O 0x%x busy timeout" b; mret false else
      mid ← on_io (inb (b + ATA_REG_LBA_MID));
      hi ← (if negb (mid =? 0) then mret 0 else on_io (inb (b + ATA_REG_LBA_HI)));
      if negb (mid =? 0) || negb (hi =? 0) then _ ← say_warn "ATA drive at I/O 0x%x is not ATA device" b; mret false else
      r ← ata_wait_drq b;
      if negb (r =? 0) then _ ← say_warn "ATA drive at I/O 0x%x error waiting for DRQ" b; mret false else
      identify_data ← read_words 256 b;
      mret (0 <? Z.lor (u32 (Z.shiftl (identify_data !!! 61%nat) 16)) (identify_data !!! 60%nat)))
      b (with_io s p1) true selectable (at_disk (io s))) as (p2 & c2 & E2 & M2 & Hc2).
    { exists (with_io s p2), c2. split; [exact E2|]. split; [done|]. split; [done|]. split; [by eapply moved_trans|done]. }
    pose proof (moved_chan _ _ _ _ _ M1) as C1.
    eapply (does_bind _ _ _ _ 0 _ (eq (set_busy c1 0))); [apply wait_bsy_does; try done; first [by apply M1|by rewrite Hp1]|].
    intros p2 Hc2 Hk2. cbn [Z.eqb negb].
    destruct (at_signature p2 b [at_ident v] Hb) as [(p3 & E3 & M3) _]; [by rewrite <- Hc2..|].
    eapply (does_bind _ _ _ _ 0 _ (eq (set_busy c1 0))).
    { rewrite <- Hc2 in E3, M3. cbn [r_mid set_busy set_ph] in E3. rewrite Hmid in E3. eapply does_io; [exact E3|eapply moved_disk; [exact M3|exact Hk2]|done]. }
    clear p3 E3 M3. intros p3 Hc3 Hk3. cbn [Z.eqb negb].
    destruct (at_signature p3 b [at_ident v] Hb) as [_ (p4 & E4 & M4)]; [by rewrite <- Hc3..|].
    eapply (does_bind _ _ _ _ 0 _ (eq (set_busy c1 0))).
    { rewrite <- Hc3 in E4, M4. cbn [r_hi set_busy set_ph] in E4. rewrite Hhi in E4. eapply does_io; [exact E4|eapply moved_disk; [exact M4|exact Hk3]|done]. }
    clear p4 E4 M4. intros p4 Hc4 Hk4. cbn [Z.eqb negb orb].
    eapply (does_bind _ _ _ _ 0 _ (eq (set_busy c1 0))).
    { apply (wait_drq_does _ _ _ (set_busy c1 0)); try done; first [cbn; by rewrite Hp1|cbn; unfold POLLS; lia]. }
    intros p5 Hc5 Hk5. cbn [Z.eqb negb]. rewrite <- Hlen.
    eapply (does_bind _ _ _ _ (at_ident v) _ (sent (set_busy c1 0) [])).
    { apply read_words_does; try done. by destruct (at_ident v). }
    intros p6 (k & Hk & Hkz & Hc6) Hk6. eapply does_value; [apply does_ret|apply Z.ltb_lt; rewrite Hwords; apply Hsize].
    + cbn [io with_io]. rewrite Hc6. split; [by right|by apply Hkz].
    + intros v' l'. cbn [io with_io]. rewrite Hk6. apply M1.
  - destruct Hc1 as (-> & Hp1 & Hz1). cbn [Z.eqb].
    destruct (say_warn_fmt_ok "ATA drive not present at I/O 0x%x" [AInt b] (with_io s p1)) as (l & El & Hl); [renders|done|].
    exists (Driver (drives s) p1 l), c1. split; [by rewrite (run_bind _ _ _ _ _ El)|]. split; [done|]. split; [done|]. split; [done|].
    split; [by left|done].
Qed.
(** Both channels can be asked to select a drive. *)
Definition bus_ready p : Prop := forall b, is_base b -> selectable (at_chan p b).

Lemma bus_ready_ok s : bus_ready (io s) -> bus_ok s.
Proof. intros Hs b Hb. destruct (Hs b Hb) as [[Hp | Hp] Hz]; [by left|right]. split; [done|rewrite Hz; unfold soon, POLLS; lia]. Qed.

Lemma init_drive_spec s i base ctrl sel msg : is_base base -> sel = 0 \/ sel = 1 -> bus_ready (io s) -> log_wf (klog s) ->
  exists s', init_drive i base ctrl sel msg s = Some (tt, s') /\
    drives s' = <[i := AtaDrive (at_present ((if base =? ATA_PRIMARY_IO then 0 else 2) + sel)) base ctrl sel
                         (dsize (default no_drive (drives s !! i)))]> (drives s) /\
    log_wf (klog s') /\ bus_ready (io s') /\ forall v l, at_disk (io s') v l = at_disk (io s) v l.
Proof.
  intros Hb Hsel Hbus Hw. unfold init_drive. rewrite (run_bind sget _ s s s eq_refl).
  set (d := default no_drive _). set (d1 := AtaDrive (exists_ d) base ctrl sel (dsize d)).
  rewrite (run_bind (put_drive i d1) _ s tt (Driver (<[i := d1]> (drives s)) (io s) (klog s)) eq_refl).
  destruct (identify_spec (Driver (<[i := d1]> (drives s)) (io s) (klog s)) base sel ctrl Hb Hsel (Hbus base Hb) Hw) as (s1 & c1 & E1 & Hd & Hl & M & Hc).
  rewrite (run_bind _ _ _ _ _ E1). set (e := at_present _) in *. set (d2 := AtaDrive e base ctrl sel (dsize d)).
  set (s2 := Driver (<[i := d2]> (drives s1)) (io s1) (klog s1)). rewrite (run_bind (put_drive i d2) _ s1 tt s2 eq_refl).
  assert (Hds : drives s2 = <[i := d2]> (drives s)) by (cbn [drives s2]; rewrite Hd; apply list_insert_insert_eq).
  assert (Hbus' : bus_ready (io s1)).
  { intros b' Hb'. rewrite (proj1 M). destruct (Z.eqb_spec b' base); [done|]. by apply Hbus. }
  destruct e.
  - destruct (say_info_ok msg s2 Hl) as (l & -> & Hl'). eexists. split; [done|]. split; [exact Hds|].
    split; [exact Hl'|]. split; [exact Hbus'|]. apply M.
  - exists s2. split; [done|]. split; [exact Hds|]. split; [exact Hl|]. split; [exact Hbus'|]. apply M.
Qed.

(** The table after detection. *)
Definition table : list ata_drive :=
  [AtaDrive (at_present 0) ATA_PRIMARY_IO ATA_PRIMARY_CTRL ATA_MASTER 0; AtaDrive (at_present 1) ATA_PRIMARY_IO ATA_PRIMARY_CTRL ATA_SLAVE 0;
   AtaDrive (at_present 2) ATA_SECONDARY_IO ATA_SECONDARY_CTRL ATA_MASTER 0; AtaDrive (at_present 3) ATA_SECONDARY_IO ATA_SECONDARY_CTRL ATA_SLAVE 0].

Lemma ata_init_spec s : bus_ready (io s) -> log_wf (klog s) ->
  exists s', ata_init s = Some (0, s') /\ drives s' = table /\ log_wf (klog s') /\ bus_ready (io s') /\
    forall v l, at_disk (io s') v l = at_disk (io s) v l.
Proof.
  intros Hbus Hw. unfold ata_init.
  destruct (say_info_ok "Initializing ATA driver" s Hw) as (l0 & E0 & W0). rewrite (run_bind _ _ _ _ _ E0). clear E0.
  set (s0 := Driver (replicate 4 no_drive) (io s) l0).
  rewrite (run_bind (set_own _) _ (Driver (drives s) (io s) l0) tt s0 eq_refl).
  assert (B0 : bus_ready (io s0)) by exact Hbus.
  destruct (init_drive_spec s0 0 ATA_PRIMARY_IO ATA_PRIMARY_CTRL ATA_MASTER "Primary master detected") as (s1 & E1 & D1 & W1 & B1 & K1);
    [by left|by left|done..|]. rewrite (run_bind _ _ _ _ _ E1). clear E1.
  destruct (init_drive_spec s1 1 ATA_PRIMARY_IO ATA_PRIMARY_CTRL ATA_SLAVE "Primary slave detected") as (s2 & E2 & D2 & W2 & B2 & K2);
    [by left|by right|done..|]. rewrite (run_bind _ _ _ _ _ E2). clear E2.
  destruct (init_drive_spec s2 2 ATA_SECONDARY_IO ATA_SECONDARY_CTRL ATA_MASTER "Secondary master detected") as (s3 & E3 & D3 & W3 & B3 & K3);
    [by right|by left|done..|]. rewrite (run_bind _ _ _ _ _ E3). clear E3.
  destruct (init_drive_spec s3 3 ATA_SECONDARY_IO ATA_SECONDARY_CTRL ATA_SLAVE "Secondary slave detected") as (s4 & E4 & D4 & W4 & B4 & K4);
    [by right|by right|done..|]. rewrite (run_bind _ _ _ _ _ E4). clear E4.
  exists s4. split; [done|]. rewrite D4, D3, D2, D1. split; [done|]. split; [done|]. split; [done|].
  intros v l. by rewrite K4, K3, K2, K1.
Qed.
End proofs.
