(* ===== verification/AtaDev.v ===== *)
(** The ATA driver as a block device.

    On every machine that satisfies [AtaLaws] the driver of Ata reads what the drive
    holds and transfers what is written, up to the cache flush, which it sends without
    waiting.  Where the last word is taken at once ([AtaPrompt], which the ATA standard
    does not promise) the driver implements the interface (BlockDev) that the file systems
    are verified against.  [pc] is such a machine, with two channels and two drives, on
    which the claims are run; it does nothing with a command on a busy channel. *)

From Stdlib Require Import FunctionalExtensionality.
From S2P Require Import Prelude Codec Effects Ports BlockDev Console Log Ata.
Local Open Scope Z_scope.

(** ** The implementation of the interface

    A call that the laws leave undefined counts as a failed request. *)
#[export] Instance ata_dev {P} `{Ports P} : BlockDev (ata P) := {|
  BlockDev.ata_drive_exists s v := match Ata.ata_drive_exists v s with Some (e, _) => e | None => false end;
  BlockDev.ata_read_sectors s v lba count :=
    match Ata.ata_read_sectors v lba count s with Some (r, s') => (r, s') | None => (-1, [], s) end;
  BlockDev.ata_write_sectors s v lba count data :=
    match Ata.ata_write_sectors v lba count data s with Some (r, s') => (r, s') | None => (-1, s) end;
  BlockDev.timer_get_ticks s := u32 (ticks (io s))
|}.

(** ** A machine

    [chan] are the channels, [disk] the sectors that have been written, [clock] the
    ticks.  A command or a sector takes two polls, the last sector of a write none. *)
Record pc := Pc { chan : Z -> channel; disk : gmap (Z * Z) (list Z); clock : Z }.

Definition zero_words : list Z := replicate 256 0.
Definition pc_sector (p : pc) (v l : Z) : list Z := u16 <$> resize 256 0 (default [] (disk p !! (v, l))).

(** The master of the first channel and the slave of the second. *)
#[export] Instance pc_view : AtaView pc := {|
  at_chan := chan;
  at_disk := pc_sector;
  at_present v := (v =? 0) || (v =? 3);
  at_ident v := replicate 60 0 ++ [16 + v; 4] ++ replicate 194 0;
  at_size v := 262160 + v
|}.

(** The channel and the register of a port. *)
Definition pc_decode (port : Z) : option (Z * Z) :=
  if in_range ATA_PRIMARY_IO 8 port then Some (ATA_PRIMARY_IO, port - ATA_PRIMARY_IO) else
  if in_range ATA_SECONDARY_IO 8 port then Some (ATA_SECONDARY_IO, port - ATA_SECONDARY_IO) else None.

Definition put_chan (p : pc) (b : Z) (c : channel) : pc := Pc (fun b' => if b' =? b then c else chan p b') (disk p) (clock p + 1).
Definition put_sector (p : pc) (v l : Z) (ws : list Z) : pc := Pc (chan p) (<[(v, l) := ws]> (disk p)) (clock p).

Definition pc_status (c : channel) : Z :=
  match ph c, busy c with
  | Absent, _ => 0
  | _, S _ => 192
  | Idle, O => 64
  | _, O => 72
  end.

Definition pc_inb (port : Z) : ST pc Z := fun p =>
  '(b, r) ← pc_decode port; let c := chan p b in
  if r =? ATA_REG_STATUS then Some (pc_status c, put_chan p b (set_busy c (pred (busy c)))) else
  if r =? ATA_REG_LBA_MID then Some (r_mid c, put_chan p b c) else
  if r =? ATA_REG_LBA_HI then Some (r_hi c, put_chan p b c) else None.

Definition in_disk (v lba n : Z) : bool := (0 <=? lba) && ((1 <=? n) && (n <=? 255)) && (lba + n <=? at_size v).

Definition pc_command (c : channel) (b cmd : Z) (p : pc) : option channel :=
  let v := selected b (r_dev c) in
  let ok := at_present v && in_disk v (address c) (r_count c) in
  if cmd =? ATA_CMD_IDENTIFY then
    Some (if at_present v then set_ph (set_reg (set_reg c ATA_REG_LBA_MID 0) ATA_REG_LBA_HI 0) (Sending [at_ident v]) 2 else set_ph c Absent 0)
  else if (cmd =? ATA_CMD_READ_PIO) && ok then Some (set_ph c (Sending (pc_sector p v <$> seqZ (address c) (r_count c))) 2)
  else if (cmd =? ATA_CMD_WRITE_PIO) && ok then Some (set_ph c (Receiving v (address c) (r_count c) []) 2)
  else if cmd =? ATA_CMD_CACHE_FLUSH then Some (set_ph c Idle 2)
  else None.

Definition pc_outb (port v : Z) : ST pc unit := fun p =>
  if port =? 128 then Some (tt, p) else
  '(b, r) ← pc_decode port; let c := chan p b in
  if r =? ATA_REG_DRIVE then
    match ph c, busy c with Absent, _ | Idle, O => Some (tt, put_chan p b (set_ph (set_reg c ATA_REG_DRIVE v) Idle 0)) | _, _ => None end
  else match ph c, busy c with
  | Idle, O =>
      if r =? ATA_REG_COMMAND then c' ← pc_command c b v p; Some (tt, put_chan p b c')
      else Some (tt, put_chan p b (set_reg c r v))
  | _, _ => None
  end.

Definition pc_inw (port : Z) : ST pc Z := fun p =>
  '(b, r) ← pc_decode port; let c := chan p b in
  match ph c with
  | Sending ((w :: ws) :: rest) =>
      Some (w, put_chan p b (match ws, rest with
        | _ :: _, _ => set_ph c (Sending (ws :: rest)) 0
        | [], [] => set_ph c Idle 0
        | [], _ :: _ => set_ph c (Sending rest) 2
        end))
  | _ => None
  end.

Definition pc_outw (port w : Z) : ST pc unit := fun p =>
  '(b, r) ← pc_decode port; let c := chan p b in
  match ph c with
  | Receiving v l n ws =>
      if decide (length ws = 255%nat)
      then Some (tt, put_sector (put_chan p b (set_ph c (if n =? 1 then Idle else Receiving v (l + 1) (n - 1) []) (if n =? 1 then 0 else 2))) v l (ws ++ [w]))
      else Some (tt, put_chan p b (set_ph c (Receiving v l n (ws ++ [w])) 0))
  | _ => None
  end.

#[export] Instance pc_ports : Ports pc := {| inb := pc_inb; outb := pc_outb; inw := pc_inw; outw := pc_outw; inl _ _ := None; outl _ _ _ := None; ticks := clock |}.

Definition pc_reset : pc := Pc (fun _ => Chan Idle 0 1 1 0 0 0) ∅ 0.

(** ** The machine satisfies the laws *)

Lemma pc_decode_base b r : is_base b -> 0 <= r < 8 -> pc_decode (b + r) = Some (b, r) /\ (b + r =? 128) = false.
Proof.
  intros [-> | ->] Hr; unfold pc_decode, ATA_PRIMARY_IO, ATA_SECONDARY_IO; (split; [|lia]); rcases; f_equal; f_equal; lia.
Qed.

Lemma put_chan_moved p b c : moved p (put_chan p b c) b c (at_disk p).
Proof. by split. Qed.

Lemma soon_2 : soon 2.
Proof. unfold soon, POLLS. lia. Qed.

Lemma in_disk_true v lba n : in_drive v lba n -> in_disk v lba n = true.
Proof. unfold in_drive, in_disk. lia. Qed.

Lemma resize_words ws : is_sector ws -> u16 <$> resize 256 0 ws = ws.
Proof.
  intros [Hl Hw]. rewrite resize_all_alt by done. induction Hw as [|w ws Hw Hws IH] in Hl |- *; [done|].
  clear IH Hl. cbn [fmap list_fmap]. f_equal; [by apply Z.mod_small|]. induction Hws as [|x xs Hx _ IH]; [done|].
  cbn [fmap list_fmap]. rewrite IH. f_equal. by apply Z.mod_small.
Qed.

Lemma pc_sector_ok p v l : is_sector (pc_sector p v l).
Proof.
  unfold pc_sector. split.
  - rewrite length_fmap. apply length_resize.
  - apply Forall_fmap, Forall_true. intros w. apply Z.mod_pos_bound. lia.
Qed.

(** A command that the machine accepts. *)
Lemma pc_outb_command p b cmd c' : is_base b -> ph (chan p b) = Idle -> busy (chan p b) = 0%nat -> pc_command (chan p b) b cmd p = Some c' ->
  exists p', outb (b + ATA_REG_COMMAND) cmd p = Some (tt, p') /\ moved p p' b c' (at_disk p).
Proof.
  intros Hb Hp Hz E. cbn. unfold pc_outb. destruct (pc_decode_base b ATA_REG_COMMAND Hb) as [-> ->]; [done|].
  eexists. split; [|apply put_chan_moved]. cbn. by rewrite Hp, Hz, E.
Qed.

#[export, refine] Instance pc_laws : AtaLaws pc := {}.
Proof.
  - apply pc_sector_ok.
  - intros v Hv. split; [done|]. cbn in Hv. apply orb_true_iff in Hv as [->%Z.eqb_eq | ->%Z.eqb_eq]; done.
  - intros p b Hb. exists p. split; [done|]. split; [|done]. intros b'. by destruct (Z.eqb_spec b' b) as [->|].
  - intros p b Hb. cbn. unfold pc_inb. destruct (pc_decode_base b ATA_REG_STATUS Hb) as [-> _]; [done|].
    eexists _, _. split; [done|]. split; [|apply put_chan_moved].
    cbn [at_chan pc_view]. unfold status_of, pc_status. destruct (ph (chan p b)), (busy (chan p b)); try done; (split; [done|]); (split; [done|]); by split.
  - intros p b v Hb Hv Hp. cbn in Hp |- *. unfold pc_outb. destruct (pc_decode_base b ATA_REG_DRIVE Hb) as [-> ->]; [done|].
    eexists. split; [|apply put_chan_moved]. cbn. by destruct Hp as [-> | [-> ->]].
  - intros p b r v Hb Hv Hr Hp Hz. cbn in Hp |- *. unfold ATA_REG_SECCOUNT, ATA_REG_LBA_HI in Hr. unfold pc_outb.
    destruct (pc_decode_base b r Hb) as [-> ->]; [lia|]. eexists. split; [|apply put_chan_moved]. cbn [mbind option_bind]. cbn in Hz. rewrite Hp, Hz.
    unfold ATA_REG_DRIVE, ATA_REG_COMMAND. by replace (r =? 6) with false by lia; replace (r =? 7) with false by lia.
  - intros p b l Hb Hp Hz. split; cbn; unfold pc_inb.
    + destruct (pc_decode_base b ATA_REG_LBA_MID Hb) as [-> _]; [done|]. eexists. by split; [|apply put_chan_moved].
    + destruct (pc_decode_base b ATA_REG_LBA_HI Hb) as [-> _]; [done|]. eexists. by split; [|apply put_chan_moved].
  - intros p b Hb Hp Hz c v.
    destruct (pc_outb_command p b ATA_CMD_IDENTIFY _ Hb Hp Hz eq_refl) as (p' & E & M).
    exists p', 2%nat. split; [exact E|]. split; [apply soon_2|exact M].
  - intros p b Hb Hp Hz c v Hv Hr. destruct (pc_outb_command p b ATA_CMD_READ_PIO
      (set_ph c (Sending (at_disk p v <$> seqZ (address c) (r_count c))) 2) Hb Hp Hz) as (p' & E & M).
    { unfold pc_command. cbn [Z.eqb ATA_CMD_IDENTIFY ATA_CMD_READ_PIO Pos.eqb]. change (chan p b) with c. change (selected b (r_dev c)) with v. by rewrite Hv, (in_disk_true _ _ _ Hr). }
    exists p', 2%nat. split; [exact E|]. split; [apply soon_2|exact M].
  - intros p b w ws rest Hb Hp Hz. cbn [inw pc_ports]. unfold pc_inw. destruct (pc_decode_base b ATA_REG_DATA Hb) as [-> _]; [done|].
    cbn in Hp. cbn [mbind option_bind]. rewrite Hp. eexists _, 2%nat. split; [done|]. split; [apply soon_2|apply put_chan_moved].
  - intros p b Hb Hp Hz c v Hv Hr. destruct (pc_outb_command p b ATA_CMD_WRITE_PIO
      (set_ph c (Receiving v (address c) (r_count c) []) 2) Hb Hp Hz) as (p' & E & M).
    { unfold pc_command. cbn [Z.eqb ATA_CMD_IDENTIFY ATA_CMD_READ_PIO ATA_CMD_WRITE_PIO Pos.eqb andb]. change (chan p b) with c. change (selected b (r_dev c)) with v. by rewrite Hv, (in_disk_true _ _ _ Hr). }
    exists p', 2%nat. split; [exact E|]. split; [apply soon_2|exact M].
  - intros p b v l n ws w Hb Hp Hz Hws Hw Hn. cbn [outw pc_ports]. unfold pc_outw. destruct (pc_decode_base b ATA_REG_DATA Hb) as [-> _]; [done|].
    cbn in Hp. cbn [mbind option_bind]. rewrite Hp. case_decide as Hl; eexists _, (if n =? 1 then 0%nat else 2%nat); (split; [reflexivity|]); (split; [destruct (n =? 1); [unfold soon, POLLS; lia|apply soon_2]|]); [|apply put_chan_moved].
    split; [done|]. intros v' l'. cbn [at_disk pc_view]. unfold stored, pc_sector, put_sector. cbn [disk put_chan].
    destruct (Z.eqb_spec v' v) as [->|Hv]; cbn [andb]; [|by rewrite lookup_insert_ne by congruence].
    destruct (Z.eqb_spec l' l) as [->|Hl']; [|by rewrite lookup_insert_ne by congruence].
    rewrite lookup_insert_eq. apply resize_words. split; [rewrite length_app, Hl; done|].
    by apply Forall_app_2; [|apply Forall_singleton].
  - intros p b Hb Hp Hz. destruct (pc_outb_command p b ATA_CMD_CACHE_FLUSH (set_ph (chan p b) Idle 2) Hb Hp Hz) as (p' & E & M).
    { unfold pc_command. done. }
    exists p', 2%nat. split; [exact E|]. split; [apply soon_2|exact M].
Defined.

#[export] Instance pc_prompt : AtaPrompt pc.
Proof.
  intros p b v l ws w p' Hb Hp Hl. cbn [outw pc_ports]. unfold pc_outw. destruct (pc_decode_base b ATA_REG_DATA Hb) as [-> _]; [done|].
  cbn in Hp. cbn [mbind option_bind]. rewrite Hp, decide_True by done. intros [= <-]. cbn. by rewrite Z.eqb_refl.
Qed.

(** ** The driver satisfies the laws of block devices *)

Section laws.
Context {P : Type} `{AtaLaws P}.
Implicit Types (s : ata P) (p : P).

Definition ata_good s (v : Z) : Prop := bus_ok s /\ has_drive s v.

Lemma words_bytes_ok ws : is_sector ws -> length (ws ≫= word_bytes) = 512%nat /\ all_u8 (ws ≫= word_bytes).
Proof.
  intros [Hl _]. split.
  - change 512%nat with (2 * 256)%nat. rewrite <- Hl. clear Hl.
    induction ws as [|w ws IH]; [done|]. cbn [mbind list_bind word_bytes app length]. cbn in *. lia.
  - clear Hl. induction ws as [|w ws IH]; [constructor|]. repeat (constructor; [apply u8_range|]). exact IH.
Qed.

Lemma sector_bytes_ok p v l : length (sector_bytes p v l) = 512%nat /\ all_u8 (sector_bytes p v l).
Proof. apply words_bytes_ok, at_sector. Qed.

(** The bytes of the disks after a write. *)
Lemma written_bytes d v lba n buf v' l : length buf = Z.to_nat (512 * n) -> all_u8 buf ->
  (written d v lba n buf v' l ≫= word_bytes) =
    if decide (v' = v /\ lba <= l < lba + n) then slice buf (Z.to_nat (512 * (l - lba))) 512 else d v' l ≫= word_bytes.
Proof.
  intros Hl Hu. unfold written. destruct (Z.eqb_spec v' v) as [->|Hv]; cbn [andb]; [|by rewrite decide_False by naive_solver].
  destruct (in_range_spec lba n l) as [Hr|Hr]; [|by rewrite decide_False by naive_solver]. rewrite decide_True by done.
  apply bytes_words_ok; [by apply all_u8_slice|]. rewrite length_slice; [done|lia].
Qed.

Lemma exists_spec s v : has_drive s v -> Ata.ata_drive_exists v s = Some (true, s).
Proof.
  intros (Hv & _ & ctrl & sz & E). unfold Ata.ata_drive_exists. rewrite (run_bind sget _ s s s eq_refl).
  replace (4 <=? v) with false by lia. by rewrite E.
Qed.

Lemma good_moved s p' b c d v : ata_good s v -> moved (io s) p' b c d -> quiet c -> ata_good (with_io s p') v.
Proof. intros [Hb Hd] M Hq. split; [by eapply bus_moved|exact Hd]. Qed.

#[export, refine] Instance ata_laws `{!AtaPrompt P} : BlockDevLaws (ata P) := {|
  bd_good s v := ata_good s v /\ 131072 <= at_size v;
  bd_sector s := sector_bytes (io s)
|}.
Proof.
  - intros s v [[_ Hd] _]. cbn. by rewrite (exists_spec s v Hd).
  - intros s v l. apply sector_bytes_ok.
  - intros s v l. apply sector_bytes_ok.
  - intros s. apply u32_range.
  - intros s v lba n [Hg Hsz] Hr. assert (Hr' : in_drive v lba n) by (unfold sector_range, in_drive in *; lia).
    destruct (read_spec s v lba n (proj1 Hg) (proj2 Hg) Hr') as (p' & c & E & M & Hc).
    exists (with_io s p'). cbn. rewrite E. split; [done|]. split; [split; [by eapply good_moved|done]|].
    extensionality v'. extensionality l. unfold sector_bytes. cbn. by rewrite (proj2 M).
  - intros s v lba n data [Hg Hsz] Hr Hl Hu. assert (Hr' : in_drive v lba n) by (unfold sector_range, in_drive in *; lia).
    destruct (write_spec s v lba n data (proj1 Hg) (proj2 Hg) Hr' Hl Hu) as (p' & c & E & M & Hc).
    exists (with_io s p'). cbn. rewrite E. split; [done|]. split; [split; [by eapply good_moved|done]|].
    intros v' l. unfold sector_bytes at 1. cbn. rewrite (proj2 M). by rewrite written_bytes.
Defined.
End laws.

(** ** The claims *)

Section claims.
Context {P : Type} `{AtaLaws P}.
Implicit Types (s : ata P).

(** C12: on every machine that satisfies the laws of ATA disks, a request for 1 to 255
    sectors inside a detected drive: reading succeeds, returns the bytes of the sectors and
    leaves every disk as it is; writing comes to its cache flush with exactly the sectors of
    the request changed, to the bytes of the buffer.  If the channel is not busy by then the
    write succeeds and the drive can be used again; if it still stores the last sector the
    driver sends the flush all the same, of which the laws say nothing. *)
Theorem ata_serves_requests s v lba n data :
  ata_good s v -> in_drive v lba n -> length data = Z.to_nat (512 * n) -> all_u8 data ->
  (exists s', Ata.ata_read_sectors v lba n s = Some ((0, sectors_at (sector_bytes (io s) v) lba n), s') /\
     ata_good s' v /\ forall v' l, sector_bytes (io s') v' l = sector_bytes (io s) v' l) /\
  (exists p', Ata.ata_write_sectors v lba n data s = flush_cache (base_of v) (with_io s p') /\
     sectors_at (sector_bytes p' v) lba n = data /\
     (forall v' l, ~ (v' = v /\ lba <= l < lba + n) -> sector_bytes p' v' l = sector_bytes (io s) v' l) /\
     ph (at_chan p' (base_of v)) = Idle /\
     (busy (at_chan p' (base_of v)) = 0%nat ->
        exists s', Ata.ata_write_sectors v lba n data s = Some (0, s') /\ ata_good s' v /\
          forall v' l, sector_bytes (io s') v' l = sector_bytes p' v' l)).
Proof.
  intros [Hb Hd] Hr Hl Hu. split.
  - destruct (read_spec s v lba n Hb Hd Hr) as (p' & c & E & M & Hc). exists (with_io s p').
    split; [exact E|]. split; [by eapply good_moved|]. intros v' l. unfold sector_bytes. cbn. by rewrite (proj2 M).
  - destruct (write_transfer s v lba n data Hb Hd Hr Hl Hu) as (p' & c & E & M & [Hp _] & _). exists p'.
    assert (Hs : forall v' l, sector_bytes p' v' l = if decide (v' = v /\ lba <= l < lba + n)
      then slice data (Z.to_nat (512 * (l - lba))) 512 else sector_bytes (io s) v' l).
    { intros v' l. unfold sector_bytes. rewrite (proj2 M). by apply written_bytes. }
    split; [exact E|]. split; [|split; [|split]].
    + apply sectors_at_slices; [destruct Hr; lia|done|]. intros l Hl'. cbn. rewrite Hs. by rewrite decide_True.
    + intros v' l Hn. cbn. rewrite Hs. by rewrite decide_False.
    + by rewrite (moved_chan _ _ _ _ _ M).
    + rewrite (moved_chan _ _ _ _ _ M). intros Hz.
      destruct (transfer_flush s v lba n data p' c (base_of_base v) E M Hp Hz) as (p2 & c2 & E2 & M2 & Hq).
      exists (with_io s p2). split; [exact E2|]. split; [by eapply good_moved; [|exact M2|]|].
      intros v' l. unfold sector_bytes. cbn. by rewrite (proj2 M2), (proj2 M).
Qed.

(** detection, started on idle channels, records exactly the drives that the machine
    has, so that the two queries answer truthfully about existence; it leaves the disks
    as they are.  The sizes are never recorded: every size query returns 0. *)
Theorem ata_init_finds_drives s : bus_ready (io s) -> log_wf (klog s) ->
  exists s', ata_init s = Some (0, s') /\
    (forall v, 0 <= v < 4 ->
       Ata.ata_drive_exists v s' = Some (at_present v, s') /\ (at_present v = true -> ata_good s' v) /\
       (at_present v = true -> ata_get_drive_size v s' = Some (0, s'))) /\
    forall v l, sector_bytes (io s') v l = sector_bytes (io s) v l.
Proof.
  intros Hb Hw. destruct (ata_init_spec s Hb Hw) as (s' & E & D & _ & B & K). exists s'.
  split; [exact E|]. split; [|intros v l; unfold sector_bytes; by rewrite K].
  intros v Hv. assert (Hlook : exists ctrl, drives s' !! Z.to_nat v = Some (AtaDrive (at_present v) (base_of v) ctrl (v mod 2) 0)).
  { rewrite D. assert (v = 0 \/ v = 1 \/ v = 2 \/ v = 3) as [-> | [-> | [-> | ->]]] by lia; by eexists. }
  destruct Hlook as [ctrl Hlook]. unfold Ata.ata_drive_exists, ata_get_drive_size, find_drive. split; [|split].
  - rewrite (run_bind sget _ s' s' s' eq_refl). replace (4 <=? v) with false by lia. by rewrite Hlook.
  - intros Hp. split; [by apply bus_ready_ok|]. split; [done|]. split; [done|]. exists ctrl, 0. by rewrite Hlook, Hp.
  - intros Hp. rewrite (run_bind sget _ s' s' s' eq_refl). replace (4 <=? v) with false by lia. rewrite Hlook, Hp. done.
Qed.
End claims.

(** ** The claims on the machine *)

Definition pc_start : ata pc := Driver [] pc_reset log_init.
Definition pc_drives : ata pc := Driver table pc_reset log_init.
Definition two_sectors : list Z := (fun i => i mod 251) <$> seqZ 0 1024.

Lemma pc_start_ready : bus_ready (io pc_start).
Proof. intros b _. split; [by right|done]. Qed.

Lemma ata_init_finds_drives_witness : exists s', ata_init pc_start = Some (0, s') /\
  Ata.ata_drive_exists 3 s' = Some (true, s') /\ Ata.ata_drive_exists 2 s' = Some (false, s') /\ ata_get_drive_size 3 s' = Some (0, s').
Proof.
  destruct (ata_init_finds_drives pc_start pc_start_ready log_init_wf) as (s' & E & Hv & _). exists s'.
  split; [exact E|]. destruct (Hv 3 ltac:(lia)) as (E3 & _ & S3). destruct (Hv 2 ltac:(lia)) as (E2 & _).
  split; [exact E3|]. split; [exact E2|by apply S3].
Defined.

Lemma pc_flush_ready b (s : ata pc) x : is_base b -> ph (chan (io s) b) = Idle -> flush_cache b s = Some x -> busy (chan (io s) b) = 0%nat.
Proof.
  intros Hb Hp E. destruct (busy (chan (io s) b)) as [|n] eqn:Hz; [done|]. unfold flush_cache in E. rewrite run_none in E; [done|].
  unfold on_io, zoom. cbn. unfold pc_outb. destruct (pc_decode_base b ATA_REG_COMMAND Hb) as [-> ->]; [done|].
  cbn. by rewrite Hp, Hz.
Qed.

Lemma ata_serves_requests_witness :
  (exists s', Ata.ata_read_sectors 3 7 2 pc_drives = Some ((0, sectors_at (sector_bytes (io pc_drives) 3) 7 2), s')) /\
  exists p' s', sectors_at (sector_bytes p' 3) 7 2 = two_sectors /\
    Ata.ata_write_sectors 3 7 2 two_sectors pc_drives = Some (0, s') /\ forall v l, sector_bytes (io s') v l = sector_bytes p' v l.
Proof.
  destruct (ata_serves_requests pc_drives 3 7 2 two_sectors) as [(s1 & E1 & _) (p' & E & Hs & _ & Hp & Hw)].
  - split; [apply bus_ready_ok, pc_start_ready|]. split; [lia|]. split; [done|]. by eexists _, _.
  - vm_compute. by repeat split.
  - by vm_compute.
  - apply Forall_fmap, Forall_true. intros i. unfold is_u8. cbn. zdm.
  - split; [exact (ex_intro _ s1 E1)|]. assert (Hz : busy (at_chan p' (base_of 3)) = 0%nat).
    { assert (Hi : is_Some (Ata.ata_write_sectors 3 7 2 two_sectors pc_drives)) by (apply (bool_decide_unpack _); vm_compute; exact I).
      destruct Hi as [x Hi]. rewrite E in Hi. exact (pc_flush_ready (base_of 3) (with_io pc_drives p') x (base_of_base 3) Hp Hi). }
    destruct (Hw Hz) as (s' & E' & _ & Hd). exists p', s'. exact (conj Hs (conj E' Hd)).
Defined.

(** A drive that is busy with the last sector does not take the flush. *)
Example pc_busy_flush : pc_outb (ATA_SECONDARY_IO + ATA_REG_COMMAND) ATA_CMD_CACHE_FLUSH
  (put_chan pc_reset ATA_SECONDARY_IO (set_busy (chan pc_reset ATA_SECONDARY_IO) 2)) = None.
Proof. vm_compute. reflexivity. Qed.

(** The sectors come back, between two that were never written. *)
Example pc_reads_back :
  match Ata.ata_write_sectors 3 7 2 two_sectors pc_drives with
  | Some (_, s) =>
      match Ata.ata_read_sectors 3 6 4 s with
      | Some ((0, l), _) => bool_decide (l = replicate 512 0 ++ two_sectors ++ replicate 512 0)
      | _ => false
      end
  | None => false
  end = true.
Proof. vm_compute. reflexivity. Qed.
