(* ===== verification/Irq.v ===== *)
(** arch/i686/idt.c and sys/timer.c: the interrupt table, the dispatch of interrupts
    and exceptions, and the timer.

    [kernel] is the state that interrupt handlers see: the table of gates and the
    table of handlers, the machine behind the ports, the scheduler (Sched), the
    console and the tick counter of the timer.  The frame that the assembly stubs push
    is [registers].  A handler ends with [Some] frame, or never returns ([None]).

    The interrupt controllers are little machines too ([pic]): what the kernel sends
    them is interpreted by [pic_write], as their data sheet has it. *)

From S2P Require Import Prelude KAlloc Heap Sched Effects Console Log Ports.
Local Open Scope Z_scope.

(** ** Definitions *)

Record idt_entry := Gate { base_lo : Z; gate_sel : Z; always0 : Z; gate_flags : Z; base_hi : Z }.
Definition zero_gate : idt_entry := Gate 0 0 0 0 0.

Record registers := Regs {
  r_ds : Z; r_edi : Z; r_esi : Z; r_ebp : Z; r_esp : Z; r_ebx : Z; r_edx : Z; r_ecx : Z; r_eax : Z;
  int_no : Z; err_code : Z;
  r_eip : Z; r_cs : Z; r_eflags : Z; useresp : Z; r_ss : Z
}.

(** The functions that are registered as handlers. *)
Inductive routine := exception_routine | timer_routine | keyboard_routine | rtc_routine | syscall_routine.

Definition KERNEL_CS : Z := 8.
Definition PIT_FREQ : Z := 1193180.

Definition idt_set_gate (num base sel flags : Z) (idt_entries : list idt_entry) : list idt_entry :=
  <[Z.to_nat num := Gate (Z.land base 65535) sel 0 flags (Z.land (Z.shiftr base 16) 65535)]> idt_entries.

Definition register_interrupt_handler (n : Z) (h : routine) (handlers : list (option routine)) : list (option routine) :=
  <[Z.to_nat n := Some h]> handlers.

(** The digits of an address on the panic screen. *)
Definition panic_hex (v : Z) : list Z :=
  (fun i => let nibble := Z.land (Z.shiftr v (i * 4)) 15 in if nibble <? 10 then 48 + nibble else 65 + nibble - 10)
    <$> [7; 6; 5; 4; 3; 2; 1; 0].

Definition exception_names : list string :=
  ["Division By Zero"; "Debug"; "Non Maskable Interrupt"; "Breakpoint"; "Overflow"; "Bound Range Exceeded";
   "Invalid Opcode"; "Device Not Available"; "Double Fault"; "Coprocessor Segment Overrun"; "Invalid TSS";
   "Segment Not Present"; "Stack-Segment Fault"; "General Protection Fault"; "Page Fault"; "Reserved";
   "x87 Floating-Point Exception"; "Alignment Check"; "Machine Check"; "SIMD Floating-Point Exception"]%string.

Record kernel (P St C : Type) := Kernel {
  idt_entries : list idt_entry;
  idt_limit : Z;
  idt_base : Z;
  handlers : list (option routine);
  hw : P;
  ksched : sched St;
  con : C;
  tick_count : Z
}.
Arguments Kernel {P St C}. Arguments idt_entries {P St C}. Arguments idt_limit {P St C}. Arguments idt_base {P St C}.
Arguments handlers {P St C}. Arguments hw {P St C}. Arguments ksched {P St C}. Arguments con {P St C}. Arguments tick_count {P St C}.

Section traps.
Context {P : Type} `{Ports P} {St : Type} `{KAlloc St} {C : Type} `{Console C}.
Notation K := (ST (kernel P St C)).
(** Assembly: the addresses of the stubs, of the tables, and the loading of the table. *)
Variables (stub : Z -> Z) (idt_address idt_pointer_address : Z) (idt_flush : Z -> ST P unit) (read_cr2 : P -> Z).
(** The handlers of other components. *)
Variable run_other : routine -> registers -> K (option registers).
Implicit Types (s : kernel P St C).

Definition set_gates s (g : list idt_entry) : kernel P St C :=
  Kernel g (idt_limit s) (idt_base s) (handlers s) (hw s) (ksched s) (con s) (tick_count s).
Definition set_handlers s (h : list (option routine)) : kernel P St C :=
  Kernel (idt_entries s) (idt_limit s) (idt_base s) h (hw s) (ksched s) (con s) (tick_count s).
Definition set_hw s (p : P) : kernel P St C :=
  Kernel (idt_entries s) (idt_limit s) (idt_base s) (handlers s) p (ksched s) (con s) (tick_count s).
Definition set_ksched s (k : sched St) : kernel P St C :=
  Kernel (idt_entries s) (idt_limit s) (idt_base s) (handlers s) (hw s) k (con s) (tick_count s).
Definition set_con s (c : C) : kernel P St C :=
  Kernel (idt_entries s) (idt_limit s) (idt_base s) (handlers s) (hw s) (ksched s) c (tick_count s).
Definition set_ticks s (n : Z) : kernel P St C :=
  Kernel (idt_entries s) (idt_limit s) (idt_base s) (handlers s) (hw s) (ksched s) (con s) n.
Definition set_pointer s (limit base : Z) : kernel P St C :=
  Kernel (idt_entries s) limit base (handlers s) (hw s) (ksched s) (con s) (tick_count s).

Definition on_hw {X} (m : ST P X) : K X := zoom hw (fun p s => set_hw s p) m.
Definition on_con {X} (m : ST C X) : K X := zoom con (fun c s => set_con s c) m.
Definition on_sched (f : sched St -> option (sched St)) : K unit := fun s =>
  match f (ksched s) with Some k => Some (tt, set_ksched s k) | None => None end.

(** The bytes that [pic_remap] sends, in order. *)
Definition remap_writes : list (Z * Z) :=
  [(32, 17); (160, 17); (33, 32); (161, 40); (33, 4); (161, 2); (33, 1); (161, 1); (33, 0); (161, 0)].
Fixpoint send_all (l : list (Z * Z)) : ST P unit :=
  match l with [] => mret tt | (port, v) :: l => _ ← outb port v; _ ← io_wait; send_all l end.
Definition pic_remap : ST P unit := send_all remap_writes.

(** The gates of the exceptions and interrupts, and of system calls. *)
Definition set_gate (n flags : Z) (g : list idt_entry) : list idt_entry := idt_set_gate n (stub n) KERNEL_CS flags g.
Definition idt_init : K unit :=
  _ ← smod (fun s => set_pointer s 2047 idt_address);
  _ ← smod (fun s => set_gates s (replicate 256 zero_gate));
  _ ← smod (fun s => set_handlers s (replicate 256 None));
  _ ← on_hw pic_remap;
  _ ← smod (fun s => set_gates s (for_range 0 48 (fun g n => set_gate n 142 g) (idt_entries s)));
  _ ← smod (fun s => set_gates s (set_gate 128 238 (idt_entries s)));
  _ ← on_hw (idt_flush idt_pointer_address);
  smod (fun s => set_handlers s (for_range 0 32 (fun h i => register_interrupt_handler i exception_routine h) (handlers s))).

(** What both exception handlers do with a task that faults. *)
Definition kill_current : K unit :=
  s ← sget;
  let current := sched_get_current (ksched s) in
  if current =? 0 then mret tt else
  t ← sopt (tasks (ksched s) !! current);
  _ ← on_sched (fun k => task_exit k (t_id t) (-1)); on_sched schedule.

(** [cli], and [hlt] for ever. *)
Definition halt : K (option registers) := mret None.
Definition say (l : list Z) : K unit := on_con (console_write l).

Definition page_fault_handler (regs : registers) : K (option registers) :=
  s ← sget;
  let faulting_address := read_cr2 (hw s) in
  let flag mask := negb (Z.land (err_code regs) mask =? 0) in
  if flag 4 then _ ← kill_current; mret (Some regs) else
  _ ← say (str "KERNEL PANIC: Page fault in kernel mode!" ++ [NL]);
  _ ← say (str "Faulting address: 0x");
  _ ← say (panic_hex faulting_address); _ ← say [NL];
  _ ← say (str "Error: ");
  _ ← (if negb (flag 1) then say (str "page-not-present ") else mret tt);
  _ ← (if flag 2 then say (str "write ") else mret tt);
  _ ← (if flag 8 then say (str "reserved-bits ") else mret tt);
  _ ← (if flag 16 then say (str "instruction-fetch ") else mret tt);
  _ ← say [NL];
  _ ← say (str "EIP: 0x"); _ ← say (panic_hex (r_eip regs)); _ ← say [NL];
  halt.

Definition exception_handler (regs : registers) : K (option registers) :=
  if int_no regs =? 14 then page_fault_handler regs else
  if Z.land (r_cs regs) 3 =? 3 then _ ← kill_current; mret (Some regs) else
  _ ← say (str "KERNEL PANIC: ");
  _ ← (if int_no regs <? 20 then name ← sopt (exception_names !! Z.to_nat (int_no regs)); say (str name)
       else say (str "Unknown Exception"));
  _ ← say [NL];
  halt.

Definition timer_callback : K unit :=
  _ ← smod (fun s => set_ticks s (u32 (tick_count s + 1))); on_sched sched_tick.

Definition run (h : routine) (regs : registers) : K (option registers) :=
  match h with
  | exception_routine => exception_handler regs
  | timer_routine => _ ← timer_callback; mret (Some regs)
  | h => run_other h regs
  end.

(** The call through [handlers[regs->int_no]]; a number outside the table is a fault. *)
Definition isr_handler (regs : registers) : K (option registers) :=
  s ← sget;
  h ← sopt (handlers s !! Z.to_nat (int_no regs));
  match h with Some h => run h regs | None => mret (Some regs) end.

Definition irq_handler (regs : registers) : K (option registers) :=
  _ ← (if 40 <=? int_no regs then on_hw (outb 160 32) else mret tt);
  _ ← on_hw (outb 32 32);
  isr_handler regs.

(** Division by a frequency of 0 is a fault. *)
Definition timer_init (frequency : Z) : K unit :=
  _ ← smod (fun s => set_handlers s (register_interrupt_handler 32 timer_routine (handlers s)));
  if frequency =? 0 then sfault else
  let divisor := PIT_FREQ / frequency in
  _ ← on_hw (outb 67 54);
  _ ← on_hw (outb 64 (u8 (Z.land divisor 255)));
  on_hw (outb 64 (u8 (Z.land (Z.shiftr divisor 8) 255))).

Definition timer_get_ticks s : Z := tick_count s.

(** [hlt] sleeps until the next interrupt: [wakes] are the frames of the interrupts to
    come.  The result is those left when the wait is over, or [None] while it lasts. *)
Fixpoint wait_until (stop : Z) (wakes : list registers) : K (option (list registers)) :=
  s ← sget;
  if tick_count s <? stop then
    match wakes with
    | [] => mret None
    | regs :: wakes => r ← irq_handler regs; match r with Some _ => wait_until stop wakes | None => mret None end
    end
  else mret (Some wakes).
Definition timer_wait (n : Z) (wakes : list registers) : K (option (list registers)) :=
  s ← sget; wait_until (u32 (tick_count s + n)) wakes.
End traps.

(** ** The interrupt controllers *)

(** [icw] is the initialisation word that is expected (0: none), [in_service] the
    interrupts that have not been acknowledged, the most urgent first. *)
Record pic := Pic { icw : Z; pic_vector : Z; pic_cascade : Z; pic_mode : Z; pic_mask : Z; in_service : list Z }.

Definition pic_write (c : pic) (data : bool) (v : Z) : pic :=
  if data then
    if icw c =? 2 then Pic 3 v (pic_cascade c) (pic_mode c) (pic_mask c) (in_service c) else
    if icw c =? 3 then Pic 4 (pic_vector c) v (pic_mode c) (pic_mask c) (in_service c) else
    if icw c =? 4 then Pic 0 (pic_vector c) (pic_cascade c) v (pic_mask c) (in_service c) else
    Pic 0 (pic_vector c) (pic_cascade c) (pic_mode c) v (in_service c)
  else if v =? 17 then Pic 2 (pic_vector c) (pic_cascade c) (pic_mode c) 0 []
  else Pic (icw c) (pic_vector c) (pic_cascade c) (pic_mode c) (pic_mask c) (tail (in_service c)).

(** The ports of the master (false) and the slave (true). *)
Definition pic_port (slave data : bool) : Z := (if slave then 160 else 32) + (if data then 1 else 0).

Class PicView (P : Type) := { pic_at : P -> bool -> pic }.
Class PicLaws (P : Type) `{Ports P} `{PicView P} := {
  (** The two commands that the kernel sends: start of initialisation, end of interrupt. *)
  pic_out p slave data v : data = true /\ is_u8 v \/ v = 17 \/ v = 32 ->
    exists p', outb (pic_port slave data) v p = Some (tt, p') /\
      forall k, pic_at p' k = if eqb k slave then pic_write (pic_at p k) data v else pic_at p k;
  pic_in p slave : icw (pic_at p slave) = 0 ->
    exists p', inb (pic_port slave true) p = Some (pic_mask (pic_at p slave), p') /\ forall k, pic_at p' k = pic_at p k;
  pic_wait p : exists p', io_wait p = Some (tt, p') /\ forall k, pic_at p' k = pic_at p k
}.

Section proofs.
Context {P : Type} `{Ports P} {St : Type} `{KAllocLaws St} {C : Type} `{ConsoleLaws C}.
Variables (stub : Z -> Z) (idt_address idt_pointer_address : Z) (idt_flush : Z -> ST P unit) (read_cr2 : P -> Z).
Variable run_other : routine -> registers -> ST (kernel P St C) (option registers).
Implicit Types (s : kernel P St C).

(** ** Faults *)

(** The fault was in user mode: page faults carry a bit, the others the selector. *)
Definition user_fault (regs : registers) : bool :=
  if int_no regs =? 14 then negb (Z.land (err_code regs) 4 =? 0) else Z.land (r_cs regs) 3 =? 3.

(** The tasks after the one at [cur], which is [t], has exited: it is a zombie, its parent is
    woken if it waits for it, and the others are as they were. *)
Definition woken (t u : task) : task :=
  if (t_pid u =? t_parent_pid t) && (t_state u =? TASK_BLOCKED) && ((t_waiting_for u =? t_pid t) || (t_waiting_for u =? -1))
  then set_state u TASK_READY else u.
Definition after_exit (m : gmap Z task) (cur : Z) (t : task) (code : Z) : gmap Z task :=
  <[cur := set_exit_code (set_state t TASK_ZOMBIE) code]> (woken t <$> m).

Lemma task_exit_tasks (c : sched St) L q a t code : sinv c L q -> tasks c !! a = Some t ->
  exists c', task_exit c (t_id t) code = Some c' /\ sinv c' L q /\ current_task c' = current_task c /\ tasks c' = after_exit (tasks c) a t code.
Proof.
  intros Hs Ha. destruct (task_exit_spec c L q a t code Hs Ha) as (c' & E & Hs' & Hc & Hz & Ho). exists c'. split; [done|]. split; [done|].
  split; [done|]. apply map_eq. intros b. unfold after_exit. destruct (decide (b = a)) as [->|Hne]; [by rewrite Hz, lookup_insert_eq|].
  rewrite lookup_insert_ne, lookup_fmap by done. destruct (tasks c !! b) as [u|] eqn:Eb; [by rewrite (Ho b u)|].
  cbn. apply eq_None_not_Some. intros Hin%(si_dom _ _ _ Hs'). apply (si_dom _ _ _ Hs) in Hin. rewrite Eb in Hin. by destruct Hin.
Qed.

(** The processor after the running task, at [cur], has been killed: [T] are the tasks without
    it.  The first READY task of the highest priority runs, or the dead one if there is none. *)
Definition handed_over (T : gmap Z task) (q : list Z) (cur : Z) (k : sched St) : Prop :=
  (current_task k = cur /\ tasks k = T /\ forall a u, T !! a = Some u -> t_state u <> TASK_READY) \/
  exists n u, is_pick T q n /\ T !! n = Some u /\ t_state u = TASK_READY /\ n <> cur /\
    current_task k = n /\ tasks k = <[n := resumed u]> T.

Lemma kill_current_spec s L q t : sinv (ksched s) L q -> tasks (ksched s) !! current_task (ksched s) = Some t ->
  exists k, kill_current s = Some (tt, set_ksched s k) /\ sinv k L q /\
    handed_over (after_exit (tasks (ksched s)) (current_task (ksched s)) t (-1)) q (current_task (ksched s)) k.
Proof.
  intros Hs Ht. set (k0 := ksched s) in *. set (cur := current_task k0) in *.
  destruct (task_exit_tasks k0 L q cur t (-1) Hs Ht) as (k1 & E1 & Hs1 & Hc1 & Ht1).
  assert (Hcur : cur <> 0) by (by eapply score_ne0; [apply Hs|]).
  assert (E : exists k2, schedule k1 = Some k2 /\ kill_current s = Some (tt, set_ksched s k2)).
  { destruct (schedule_ok k1 L q Hs1) as (k2 & E2 & _). exists k2. split; [done|].
    unfold kill_current. rewrite (run_bind sget _ s s s eq_refl). fold k0. unfold sched_get_current. fold cur.
    replace (cur =? 0) with false by lia. rewrite Ht. cbn [sopt]. unfold mbind, ST_bind, mret, ST_ret, on_sched. fold k0.
    rewrite E1. cbn [ksched set_ksched]. rewrite E2. done. }
  destruct E as (k2 & E2 & Ek). exists k2. split; [exact Ek|]. rewrite <- Ht1.
  destruct (schedule_cases k1 L q Hs1) as [[E Hn]|(n & u & k' & Hpick & Hn0 & Hu & Hst & E & Hk' & Hsw)]; rewrite E in E2; injection E2 as <-.
  - split; [done|]. by left.
  - destruct Hsw as (Hcn & Htn & _). change (current_task k1 = cur) in Hc1.
    assert (Hz : tasks k1 !! cur = Some (set_exit_code (set_state t TASK_ZOMBIE) (-1))) by (rewrite Ht1; apply lookup_insert_eq).
    assert (Hne : n <> cur) by (intros ->; rewrite Hz in Hu; by injection Hu as <-).
    assert (Hd : demote k1 = tasks k1) by (unfold demote; rewrite Hc1, Hz; done).
    rewrite Hd in Htn. split; [done|]. right. by exists n, u.
Qed.

(** A computation that only prints. *)
Definition prints {X} (m : ST (kernel P St C) X) s (text : list Z) (x : X) : Prop :=
  con_ok (con s) -> exists c, m s = Some (x, set_con s c) /\ con_ok c /\ con_text c = con_text (con s) ++ text.

Lemma prints_say l s : prints (say l) s l tt.
Proof.
  intros Hc. unfold say, on_con, zoom. destruct (console_write_law (con_text (con s)) l (con s)) as ([] & c & -> & Hok & Ht); [done|].
  by exists c.
Qed.

Lemma kprints_ret {X} (x : X) s : prints (mret x) s [] x.
Proof. intros Hc. exists (con s). split; [by destruct s|]. by rewrite app_nil_r. Qed.

Lemma kprints_bind {X Y} (m : ST (kernel P St C) X) (k : X -> ST (kernel P St C) Y) s t1 t2 x y :
  prints m s t1 x -> (forall c, prints (k x) (set_con s c) t2 y) -> prints (mbind k m) s (t1 ++ t2) y.
Proof.
  intros Hm Hk Hc. destruct (Hm Hc) as (c1 & E1 & Hc1 & T1). destruct (Hk c1 Hc1) as (c2 & E2 & Hc2 & T2).
  exists c2. rewrite (run_bind _ _ _ _ _ E1). split; [exact E2|]. split; [done|]. cbn in T2. by rewrite T2, T1, app_assoc.
Qed.

Lemma kprints_if (b : bool) l s : prints (if b then say l else mret tt) s (if b then l else []) tt.
Proof. destruct b; [apply prints_say|apply kprints_ret]. Qed.

(** What is printed for a fault in the kernel. *)
Definition panic_text (cr2 : Z) (regs : registers) : list Z :=
  let flag mask := negb (Z.land (err_code regs) mask =? 0) in
  if int_no regs =? 14 then
    (str "KERNEL PANIC: Page fault in kernel mode!" ++ [NL]) ++ str "Faulting address: 0x" ++ panic_hex cr2 ++ [NL] ++
    str "Error: " ++ (if negb (flag 1) then str "page-not-present " else []) ++ (if flag 2 then str "write " else []) ++
    (if flag 8 then str "reserved-bits " else []) ++ (if flag 16 then str "instruction-fetch " else []) ++ [NL] ++
    str "EIP: 0x" ++ panic_hex (r_eip regs) ++ [NL] ++ []
  else str "KERNEL PANIC: " ++
    (if int_no regs <? 20 then str (default EmptyString (exception_names !! Z.to_nat (int_no regs))) else str "Unknown Exception") ++ [NL] ++ [].

Lemma panic_prints s regs : 0 <= int_no regs -> user_fault regs = false ->
  prints (exception_handler read_cr2 regs) s (panic_text (read_cr2 (hw s)) regs) None.
Proof.
  intros Hn Hu. unfold exception_handler, panic_text, user_fault in *. destruct (int_no regs =? 14).
  - unfold page_fault_handler. intros Hc. rewrite (run_bind sget _ s s s eq_refl). rewrite Hu. cbv iota zeta. revert Hc.
    match goal with |- con_ok _ -> exists c, ?m s = Some (None, _) /\ _ /\ _ = _ ++ ?t => change (prints m s t None) end.
    repeat first [ eapply kprints_bind; [first [apply prints_say|apply kprints_if]|intros ?] | apply kprints_ret ].
  - rewrite Hu. eapply kprints_bind; [apply prints_say|intros c1]. eapply kprints_bind; [|intros c2].
    + destruct (Z.ltb_spec (int_no regs) 20) as [Hlt|_]; [|apply prints_say].
      destruct (lookup_lt_is_Some_2 exception_names (Z.to_nat (int_no regs))) as [name ->]; [cbn; lia|]. apply prints_say.
    + eapply kprints_bind; [apply prints_say|intros c3]. apply kprints_ret.
Qed.
End proofs.

(** ** Initialisation *)

Section init.
Context {P : Type} `{PicLaws P} {St : Type} `{KAlloc St} {C : Type} `{Console C}.
Variables (stub : Z -> Z) (idt_address idt_pointer_address : Z) (idt_flush : Z -> ST P unit) (read_cr2 : P -> Z).
Variable run_other : routine -> registers -> ST (kernel P St C) (option registers).
Hypothesis idt_flush_ok : forall a p, exists p', idt_flush a p = Some (tt, p') /\ forall k, pic_at p' k = pic_at p k.
Implicit Types (s : kernel P St C) (p : P).

(** A list of writes, as what it does to the controllers. *)
Definition replay (l : list (bool * bool * Z)) (f : bool -> pic) : bool -> pic :=
  foldl (fun f '(slave, data, v) k => if eqb k slave then pic_write (f k) data v else f k) f l.
Definition sends (l : list (bool * bool * Z)) : list (Z * Z) := (fun '(slave, data, v) => (pic_port slave data, v)) <$> l.
Definition sendable (x : bool * bool * Z) : Prop := let '(_, data, v) := x in (data = true /\ is_u8 v) \/ v = 17 \/ v = 32.

Lemma replay_ext l f g : (forall k, f k = g k) -> forall k, replay l f k = replay l g k.
Proof.
  revert f g. induction l as [|[[sl d] v] l IH]; intros f g Hfg k; [apply Hfg|]. apply IH. intros j. by rewrite Hfg.
Qed.

Lemma send_all_spec l p : Forall sendable l ->
  exists p', send_all (sends l) p = Some (tt, p') /\ forall k, pic_at p' k = replay l (pic_at p) k.
Proof.
  intros Hl. revert p. induction Hl as [|[[sl d] v] l Hx Hl IH]; intros p; [by exists p|].
  destruct (pic_out p sl d v Hx) as (p1 & E1 & W1). destruct (pic_wait p1) as (p2 & E2 & W2). destruct (IH p2) as (p3 & E3 & W3).
  exists p3. change (sends ((sl, d, v) :: l)) with ((pic_port sl d, v) :: sends l). cbn [send_all].
  rewrite (run_bind _ _ _ _ _ E1), (run_bind _ _ _ _ _ E2). split; [exact E3|]. intros k. rewrite W3.
  cbn [replay foldl]. apply replay_ext. intros j. by rewrite W2, W1.
Qed.

Lemma pic_remap_spec p : exists p', pic_remap p = Some (tt, p') /\
  pic_at p' false = Pic 0 32 4 1 0 [] /\ pic_at p' true = Pic 0 40 2 1 0 [].
Proof.
  destruct (send_all_spec [(false, false, 17); (true, false, 17); (false, true, 32); (true, true, 40); (false, true, 4);
      (true, true, 2); (false, true, 1); (true, true, 1); (false, true, 0); (true, true, 0)] p) as (p' & E & W).
  { repeat (apply Forall_cons; split; [cbn; unfold is_u8; lia|]). by apply Forall_nil. }
  exists p'. split; [exact E|]. by rewrite !W.
Qed.

(** The offset that a gate holds. *)
Definition offset (e : idt_entry) : Z := base_lo e + 65536 * base_hi e.
Definition gate_to (n flags : Z) : idt_entry := Gate (Z.land (stub n) 65535) KERNEL_CS 0 flags (Z.land (Z.shiftr (stub n) 16) 65535).

Lemma offset_gate n flags : is_u32 (stub n) -> offset (gate_to n flags) = stub n.
Proof.
  intros Hn. unfold offset, gate_to, is_u32 in *. cbn. change 65535 with (Z.ones 16). rewrite !Z.land_ones by lia.
  rewrite Z.shiftr_div_pow2 by lia. change (2 ^ 16) with 65536. zdm.
Qed.

(** Filling a prefix of a table. *)
Lemma fill_range_spec {A} (f : Z -> A) n (l : list A) :
  0 <= n <= Z.of_nat (length l) ->
  let g := for_range 0 n (fun l i => <[Z.to_nat i := f i]> l) l in
  length g = length l /\ forall i, 0 <= i < Z.of_nat (length l) -> g !! Z.to_nat i = if i <? n then Some (f i) else l !! Z.to_nat i.
Proof.
  intros Hn. apply (for_range_ind (fun k g => length g = length l /\ forall i, 0 <= i < Z.of_nat (length l) ->
    g !! Z.to_nat i = if i <? k then Some (f i) else l !! Z.to_nat i)); [lia| |].
  - split; [done|]. intros i Hi. by replace (i <? 0) with false by lia.
  - intros k g Hk [Hg Hl]. rewrite Z.add_0_l. split; [by rewrite length_insert|]. intros i Hi.
    destruct (decide (i = k)) as [->|Hne].
    + rewrite list_lookup_insert_eq by lia. by replace (k <? k + 1) with true by lia.
    + rewrite list_lookup_insert_ne by lia. rewrite Hl by done. by replace (i <? k + 1) with (i <? k) by lia.
Qed.

(** [idt_init] leaves exactly the gates of the 32 exceptions, the 16 interrupts and
    the system call, each pointing to its stub, the last one only open to user mode; the
    exceptions, and nothing else, have their handler; and both interrupt controllers
    deliver on vectors 32 and 40 with every line enabled. *)
Theorem idt_init_installs s : (forall n, is_u32 (stub n)) ->
  exists s', idt_init stub idt_address idt_pointer_address idt_flush s = Some (tt, s') /\
    idt_limit s' = 8 * Z.of_nat (length (idt_entries s')) - 1 /\ idt_base s' = idt_address /\
    (forall n, 0 <= n < 256 -> exists e, idt_entries s' !! Z.to_nat n = Some e /\
       if (n <? 48) || (n =? 128)
       then offset e = stub n /\ gate_sel e = KERNEL_CS /\ always0 e = 0 /\ gate_flags e = (if n =? 128 then 238 else 142)
       else e = zero_gate) /\
    (forall n, 0 <= n < 256 -> handlers s' !! Z.to_nat n = Some (if n <? 32 then Some exception_routine else None)) /\
    pic_at (hw s') false = Pic 0 32 4 1 0 [] /\ pic_at (hw s') true = Pic 0 40 2 1 0 [].
Proof.
  intros Hstub. unfold idt_init. destruct (pic_remap_spec (hw s)) as (p1 & E1 & M1 & S1).
  destruct (idt_flush_ok idt_pointer_address p1) as (p2 & E2 & W2).
  set (g := for_range 0 48 (fun g n => set_gate stub n 142 g) (replicate 256 zero_gate)).
  set (h := for_range 0 32 (fun h i => register_interrupt_handler i exception_routine h) (replicate 256 None)).
  destruct (fill_range_spec (fun n => gate_to n 142) 48 (replicate 256 zero_gate)) as [Lg Hg]; [by rewrite length_replicate|].
  destruct (fill_range_spec (fun _ => Some exception_routine) 32 (replicate 256 None)) as [Lh Hh]; [by rewrite length_replicate|].
  change (for_range 0 48 _ _) with g in Lg, Hg. change (for_range 0 32 _ _) with h in Lh, Hh.
  rewrite length_replicate in Lg, Hg. rewrite length_replicate in Hh. change (Z.of_nat 256) with 256 in *.
  exists (Kernel (set_gate stub 128 238 g) 2047 idt_address h p2 (ksched s) (con s) (tick_count s)).
  split.
  { unfold mbind, ST_bind, smod, on_hw, zoom. cbn [hw set_handlers set_gates set_pointer]. rewrite E1. cbn. rewrite E2. reflexivity. }
  cbn [idt_entries idt_limit idt_base handlers hw]. split.
  { unfold set_gate, idt_set_gate. by rewrite length_insert, Lg. }
  split; [done|]. split; [|split; [|by rewrite !W2]].
  - intros n Hn. unfold set_gate, idt_set_gate. fold (gate_to 128 238). destruct (Z.eqb_spec n 128) as [->|Hne].
    + rewrite list_lookup_insert_eq by lia. eexists. split; [done|]. cbn [orb Z.ltb Z.compare Pos.compare Pos.compare_cont].
      split; [by apply offset_gate|done].
    + rewrite list_lookup_insert_ne by lia. rewrite Hg by done. rewrite orb_false_r. destruct (Z.ltb_spec n 48).
      * eexists. split; [done|]. split; [by apply offset_gate|done].
      * exists zero_gate. split; [|done]. rewrite lookup_replicate_2 by lia. done.
  - intros n Hn. rewrite Hh by done. destruct (Z.ltb_spec n 32); [done|]. rewrite lookup_replicate_2 by lia. done.
Qed.
End init.

(** ** The claims *)

Section claims.
Context {P : Type} `{PicLaws P} {St : Type} `{KAllocLaws St} {C : Type} `{ConsoleLaws C}.
Variables (read_cr2 : P -> Z) (run_other : routine -> registers -> ST (kernel P St C) (option registers)).
Implicit Types (s : kernel P St C).

(** C26: a fault in user mode is contained.  The running task becomes a zombie with exit code
    -1, its parent is woken if it waits for it, and no other task changes; then the
    processor goes to the first READY task of the highest priority.  Nothing is printed and
    nothing else in the kernel changes.  Only when no task is READY does the handler return
    into the dead task. *)
Theorem user_fault_is_contained s L q t regs :
  sinv (ksched s) L q -> tasks (ksched s) !! current_task (ksched s) = Some t -> user_fault regs = true ->
  exists k, exception_handler read_cr2 regs s = Some (Some regs, set_ksched s k) /\ sinv k L q /\
    handed_over (after_exit (tasks (ksched s)) (current_task (ksched s)) t (-1)) q (current_task (ksched s)) k.
Proof.
  intros Hs Ht Hu. destruct (kill_current_spec s L q t Hs Ht) as (k & E & Hk). exists k. split; [|exact Hk].
  unfold exception_handler, page_fault_handler, user_fault in *. destruct (int_no regs =? 14).
  - rewrite (run_bind sget _ s s s eq_refl). rewrite Hu. cbv iota zeta. by rewrite (run_bind _ _ _ _ _ E).
  - rewrite Hu. by rewrite (run_bind _ _ _ _ _ E).
Qed.

(** a fault in kernel mode never returns: exactly the report of the fault is
    printed, and nothing else in the kernel changes. *)
Theorem kernel_fault_panics s regs : con_ok (con s) -> 0 <= int_no regs -> user_fault regs = false ->
  exists c, exception_handler read_cr2 regs s = Some (None, set_con s c) /\ con_ok c /\
    con_text c = con_text (con s) ++ panic_text (read_cr2 (hw s)) regs.
Proof. intros Hc Hn Hu. by apply (panic_prints read_cr2 s regs Hn Hu). Qed.

Lemma irq_dispatch s regs h : handlers s !! Z.to_nat (int_no regs) = Some (Some h) ->
  exists p, irq_handler read_cr2 run_other regs s = run read_cr2 run_other h regs (set_hw s p) /\
    forall k, pic_at p k = if k && (int_no regs <? 40) then pic_at (hw s) k else pic_write (pic_at (hw s) k) false 32.
Proof.
  intros Hh. unfold irq_handler.
  assert (Hslave : exists p1, (if 40 <=? int_no regs then on_hw (outb 160 32) else mret tt) s = Some (tt, set_hw s p1) /\
    forall k, pic_at p1 k = if k && (40 <=? int_no regs) then pic_write (pic_at (hw s) k) false 32 else pic_at (hw s) k).
  { destruct (40 <=? int_no regs).
    - destruct (pic_out (hw s) true false 32 (or_intror (or_intror eq_refl))) as (p1 & E & W). exists p1.
      split; [unfold on_hw, zoom; by change (outb 160 32) with (outb (pic_port true false) 32); rewrite E|].
      intros k. rewrite W. by destruct k.
    - exists (hw s). split; [by destruct s|]. intros k. by rewrite andb_false_r. }
  destruct Hslave as (p1 & E1 & W1). rewrite (run_bind _ _ _ _ _ E1).
  destruct (pic_out p1 false false 32 (or_intror (or_intror eq_refl))) as (p2 & E2 & W2). exists p2.
  assert (E3 : on_hw (outb 32 32) (set_hw s p1) = Some (tt, set_hw s p2)).
  { unfold on_hw, zoom. change (outb 32 32) with (outb (pic_port false false) 32). cbn [hw set_hw]. by rewrite E2. }
  rewrite (run_bind _ _ _ _ _ E3). unfold isr_handler. rewrite (run_bind sget _ (set_hw s p2) (set_hw s p2) (set_hw s p2) eq_refl).
  cbn [handlers set_hw]. rewrite Hh. split; [done|].
  intros k. rewrite W2, W1. destruct k; cbn [eqb andb]; [|done]. rewrite Z.leb_antisym. by destruct (int_no regs <? 40).
Qed.

(** an interrupt is acknowledged before its handler runs, and at every controller that
    is waiting for it: the most urgent interrupt in service is retired at the master, and
    at the slave when the vector is one of its own. *)
Theorem irq_acknowledged s regs h : handlers s !! Z.to_nat (int_no regs) = Some (Some h) ->
  exists p, irq_handler read_cr2 run_other regs s = run read_cr2 run_other h regs (set_hw s p) /\
    in_service (pic_at p false) = tail (in_service (pic_at (hw s) false)) /\
    in_service (pic_at p true) =
      (if int_no regs <? 40 then in_service (pic_at (hw s) true) else tail (in_service (pic_at (hw s) true))) /\
    forall k, pic_mask (pic_at p k) = pic_mask (pic_at (hw s) k).
Proof.
  intros Hh. destruct (irq_dispatch s regs h Hh) as (p & E & W). exists p. split; [exact E|]. rewrite !W. cbn [andb].
  split; [done|]. split; [by destruct (int_no regs <? 40)|]. intros k. rewrite W. by destruct (k && _).
Qed.

Lemma timer_irq s L q regs : handlers s !! 32%nat = Some (Some timer_routine) -> int_no regs = 32 -> sinv (ksched s) L q ->
  exists p k, irq_handler read_cr2 run_other regs s =
      Some (Some regs, Kernel (idt_entries s) (idt_limit s) (idt_base s) (handlers s) p k (con s) (u32 (tick_count s + 1))) /\ sinv k L q.
Proof.
  intros Hh Hn Hs. destruct (irq_dispatch s regs timer_routine) as (p & E & _); [by rewrite Hn|].
  destruct (sched_tick_ok (ksched s) L q Hs) as (k & Ek & Hk). exists p, k. rewrite E. split; [|done].
  unfold run, timer_callback, mbind, ST_bind, smod, on_sched. cbn [ksched set_ticks set_hw]. by rewrite Ek.
Qed.

Lemma wait_until_spec s L q stop wakes : handlers s !! 32%nat = Some (Some timer_routine) -> sinv (ksched s) L q ->
  Forall (fun r => int_no r = 32) wakes -> 0 <= tick_count s <= stop -> stop < 4294967296 ->
  stop - tick_count s <= Z.of_nat (length wakes) ->
  exists s', wait_until read_cr2 run_other stop wakes s = Some (Some (drop (Z.to_nat (stop - tick_count s)) wakes), s') /\
    tick_count s' = stop /\ sinv (ksched s') L q.
Proof.
  intros Hh Hs Hw. revert s Hh Hs. induction Hw as [|r wakes Hr Hw IH]; intros s Hh Hs Ht Hlt Hl; cbn [wait_until];
    rewrite (run_bind sget _ s s s eq_refl); destruct (Z.ltb_spec (tick_count s) stop) as [Hgo|Hgo].
  - cbn [length] in Hl. lia.
  - exists s. replace (stop - tick_count s) with 0 by lia. split; [done|]. split; [lia|done].
  - destruct (timer_irq s L q r Hh Hr Hs) as (p & k & E & Hk). rewrite (run_bind _ _ _ _ _ E).
    rewrite u32_small by lia. set (s1 := Kernel _ _ _ _ _ _ _ _). destruct (IH s1) as (s' & E' & T' & Hs'); [done|done|cbn; lia|done|cbn in *; lia|].
    exists s'. split; [|done]. rewrite E'. cbn [tick_count s1].
    replace (Z.to_nat (stop - tick_count s)) with (S (Z.to_nat (stop - (tick_count s + 1)))) by lia. done.
  - exists s. replace (stop - tick_count s) with 0 by lia. split; [done|]. split; [lia|done].
Qed.

(** [timer_wait(n)] ends, after exactly [n] timer interrupts, and the counter has
    advanced by [n], as long as the sum does not wrap; when it wraps, the wait is over
    at once. *)
Theorem timer_wait_counts s L q n wakes : handlers s !! 32%nat = Some (Some timer_routine) -> sinv (ksched s) L q ->
  Forall (fun r => int_no r = 32) wakes -> is_u32 (tick_count s) -> 0 <= n <= Z.of_nat (length wakes) -> n < 4294967296 ->
  exists s', tick_count s + n < 4294967296 /\
      timer_wait read_cr2 run_other n wakes s = Some (Some (drop (Z.to_nat n) wakes), s') /\ tick_count s' = tick_count s + n /\
      sinv (ksched s') L q \/
    4294967296 <= tick_count s + n /\ timer_wait read_cr2 run_other n wakes s = Some (Some wakes, s) /\ s' = s.
Proof.
  intros Hh Hs Hw Ht Hn Hn'. unfold timer_wait. rewrite (run_bind sget _ s s s eq_refl). unfold is_u32 in Ht.
  destruct (Z.lt_ge_cases (tick_count s + n) 4294967296) as [Hlt|Hge].
  - rewrite u32_small by lia. destruct (wait_until_spec s L q (tick_count s + n) wakes) as (s' & E & T' & Hs'); [done..|lia|lia|lia|].
    exists s'. left. split; [done|]. replace (tick_count s + n - tick_count s) with n in E by lia. done.
  - exists s. right. split; [done|]. split; [|done]. replace (u32 (tick_count s + n)) with (tick_count s + n - 4294967296) by (unfold u32; zdm).
    destruct wakes; cbn [wait_until]; rewrite (run_bind sget _ s s s eq_refl); by replace (tick_count s <? _) with false by lia.
Qed.
End claims.

(** ** A machine with the two controllers *)

Definition board : Type := bool -> pic.
Definition board_chip (port : Z) : option (bool * bool) :=
  if port =? 32 then Some (false, false) else if port =? 33 then Some (false, true) else
  if port =? 160 then Some (true, false) else if port =? 161 then Some (true, true) else None.
#[export] Instance board_ports : Ports board := {|
  inb port p := match board_chip port with Some (k, true) => Some (pic_mask (p k), p) | _ => None end;
  outb port v p :=
    match board_chip port with
    | Some (k, data) => Some (tt, fun j => if eqb j k then pic_write (p j) data v else p j)
    | None => Some (tt, p)
    end;
  inw _ _ := None; outw _ _ _ := None; inl _ _ := None; outl _ _ _ := None;
  ticks _ := 0
|}.
#[export] Instance board_view : PicView board := {| pic_at p := p |}.
#[export, refine] Instance board_laws : PicLaws board := {}.
Proof.
  - intros p slave data v _. destruct slave, data; by eexists.
  - intros p slave _. destruct slave; by eexists.
  - intros p. by exists p.
Defined.

Definition reset_board : board := fun _ => Pic 0 0 0 0 255 [].
Definition busy_board : board := fun k => Pic 0 (if k then 40 else 32) 0 1 0 (if k then [40] else [34; 32]).
Definition no_other (_ : routine) (_ : registers) : ST (kernel board heap (list Z)) (option registers) := sfault.
Definition frame (n cs err : Z) : registers := Regs 0 0 0 0 0 0 0 0 0 n err 4096 cs 514 0 0.
Definition stub_at (n : Z) : Z := u32 (1048576 + 16 * n).

(** The machine [d5] of Sched: one task runs, two are READY. *)
Definition k5 : kernel board heap (list Z) :=
  Kernel (replicate 256 zero_gate) 0 0 (<[32%nat := Some timer_routine]> (<[40%nat := Some timer_routine]> (replicate 256 None))) busy_board d5 [] 4294967290.

(** [d5] is not to be unfolded by unification. *)
#[local] Opaque d5.

Lemma idt_init_installs_witness : exists s', idt_init stub_at 4096 8192 (fun _ p => Some (tt, p)) (Kernel [] 0 0 [] reset_board d5 ([] : list Z) 0) = Some (tt, s') /\
  offset <$> (idt_entries s' !! 14%nat) = Some (stub_at 14).
Proof.
  destruct (idt_init_installs stub_at 4096 8192 (fun _ p => Some (tt, p))
    ltac:(intros a p; exists p; split; reflexivity) (Kernel [] 0 0 [] reset_board d5 ([] : list Z) 0)) as (s' & E & _ & _ & Hg & _).
  - intros n. apply u32_range.
  - exists s'. split; [exact E|]. destruct (Hg 14 ltac:(lia)) as (e & He & Ho & _). change (Z.to_nat 14) with 14%nat in He. rewrite He. cbn. by rewrite Ho.
Defined.

Definition running : task := task_at d5 (current_task d5).
Lemma running_lookup : tasks (ksched k5) !! current_task (ksched k5) = Some running.
Proof. cbn [ksched k5]. apply task_at_some. vm_compute. reflexivity. Qed.

Lemma user_fault_is_contained_witness : exists q k,
  exception_handler (fun _ => 0) (frame 13 27 0) k5 = Some (Some (frame 13 27 0), set_ksched k5 k) /\
  handed_over (after_exit (tasks d5) (current_task d5) running (-1)) q (current_task d5) k.
Proof.
  destruct (good_of d5 d5_reachable) as (L & q & Hs).
  destruct (user_fault_is_contained (fun _ => 0) k5 L q running (frame 13 27 0) Hs) as (k & E & _ & Ht).
  - exact running_lookup.
  - reflexivity.
  - exists q, k. split; [exact E|exact Ht].
Defined.

Lemma kernel_fault_panics_witness : exists c, exception_handler (fun _ => 0) (frame 14 8 2) k5 = Some (None, set_con k5 c) /\
  con_text c = panic_text 0 (frame 14 8 2).
Proof.
  destruct (kernel_fault_panics (fun _ => 0) k5 (frame 14 8 2)) as (c & E & _ & Ht); [exact I|cbn; lia|reflexivity|].
  exists c. split; [exact E|exact Ht].
Defined.

Example page_fault_report : (con <$> (snd <$> exception_handler (fun _ => 3735928559) (frame 14 8 2) k5)) =
  Some (str "KERNEL PANIC: Page fault in kernel mode!" ++ NL :: str "Faulting address: 0xDEADBEEF" ++ NL ::
        str "Error: page-not-present write " ++ NL :: str "EIP: 0x00001000" ++ [NL]).
Proof. vm_compute. reflexivity. Qed.

Lemma irq_acknowledged_witness : exists p,
  irq_handler (fun _ => 0) no_other (frame 40 8 0) k5 = run (fun _ => 0) no_other timer_routine (frame 40 8 0) (set_hw k5 p) /\
  in_service (pic_at p false) = [32] /\ in_service (pic_at p true) = [].
Proof.
  destruct (irq_acknowledged (fun _ => 0) no_other k5 (frame 40 8 0) timer_routine) as (p & E & Hm & Hs & _); [vm_compute; reflexivity|].
  exists p. split; [exact E|]. split; [exact Hm|exact Hs].
Defined.

Lemma timer_wait_counts_witness : exists s',
  timer_wait (fun _ => 0) no_other 4 (replicate 5 (frame 32 8 0)) k5 = Some (Some [frame 32 8 0], s').
Proof.
  destruct (good_of d5 d5_reachable) as (L & q & Hs).
  destruct (timer_wait_counts (fun _ => 0) no_other k5 L q 4 (replicate 5 (frame 32 8 0))) as (s' & [(_ & E & _) | (Hge & _)]).
  - vm_compute. reflexivity.
  - exact Hs.
  - repeat constructor.
  - unfold is_u32. cbn. lia.
  - cbn. lia.
  - lia.
  - exists s'. exact E.
  - cbn in Hge. lia.
Defined.

(** Ten ticks more and the sum wraps: the wait does not wait. *)
Example timer_wait_wraps : fst <$> timer_wait (fun _ => 0) no_other 10 (replicate 12 (frame 32 8 0)) k5 = Some (Some (replicate 12 (frame 32 8 0))).
Proof. vm_compute. reflexivity. Qed.
