(* ===== verification/Rtc.v ===== *)
(** drivers/char/rtc.c: the real-time clock.

    The driver keeps [rtc_ticks]; its handler is entered in the table of Irq.  The
    clock of a PC is a part of its CMOS memory, whose index port is 0x70 and whose data
    port is 0x71 ([CmosLaws]).  The driver writes its selections to 0x79, where nothing
    is: the theorems say what its operations then do. *)

From S2P Require Import Prelude KAlloc Sched Effects Console Log Ports Irq.
Local Open Scope Z_scope.

(** ** Definitions *)

Definition RTC_PORT_INDEX : Z := 121.
Definition RTC_PORT_DATA : Z := 113.
Definition IO_DELAY_PORT : Z := 128.
Definition PIC1_DATA : Z := 33.
Definition PIC2_DATA : Z := 161.
Definition RTC_REG_SECONDS : Z := 0.
Definition RTC_REG_MINUTES : Z := 2.
Definition RTC_REG_HOURS : Z := 4.
Definition RTC_REG_WEEKDAY : Z := 6.
Definition RTC_REG_DAY : Z := 7.
Definition RTC_REG_MONTH : Z := 8.
Definition RTC_REG_YEAR : Z := 9.
Definition RTC_REG_CENTURY : Z := 50.
Definition RTC_REG_STATUS_A : Z := 10.
Definition RTC_REG_STATUS_B : Z := 11.
Definition RTC_REG_STATUS_C : Z := 12.
Definition RTC_STATUS_B_24HOUR : Z := 2.
Definition RTC_STATUS_B_BINARY : Z := 4.
Definition RTC_STATUS_B_PIE : Z := 64.

Record rtc_time := Time { second : Z; minute : Z; hour : Z; day : Z; month : Z; year : Z; weekday : Z }.

Record rtc_own := RtcOwn { rtc_ticks : Z; irq_handlers : list (option routine) }.

Definition bcd_to_binary (bcd : Z) : Z := u8 (Z.shiftr bcd 4 * 10 + Z.land bcd 15).
Definition binary_to_bcd (binary : Z) : Z := u8 (Z.lor (Z.shiftl (binary / 10) 4) (binary mod 10)).

Section driver.
Context {P : Type} `{Ports P}.
Notation R := (ST (driver rtc_own P)).
Notation outp port v := (on_io (outb port v)).

Definition rtc_io_delay : R unit := outp IO_DELAY_PORT 0.
Definition rtc_select_register_nmi (reg : Z) : R unit :=
  _ ← outp RTC_PORT_INDEX (u8 (Z.lor reg 128)); rtc_io_delay.
Definition rtc_read_register (reg : Z) : R Z :=
  _ ← rtc_select_register_nmi reg; on_io (inb RTC_PORT_DATA).
Definition rtc_write_register (reg value : Z) : R unit :=
  _ ← rtc_select_register_nmi reg; _ ← outp RTC_PORT_DATA value; rtc_io_delay.

Definition rtc_is_updating : R bool :=
  a ← rtc_read_register RTC_REG_STATUS_A; mret (negb (Z.land a 128 =? 0)).
Fixpoint rtc_wait_uip_clear (max_loops : nat) : R bool :=
  match max_loops with
  | O => mret false
  | S n =>
      updating ← rtc_is_updating;
      if negb updating then mret true else _ ← rtc_io_delay; rtc_wait_uip_clear n
  end.

Definition rtc_interrupt_handler : R unit :=
  _ ← rtc_read_register RTC_REG_STATUS_C;
  set_own (fun d => RtcOwn (u32 (rtc_ticks d + 1)) (irq_handlers d)).

Definition rtc_unmask_irq : R unit :=
  mask2 ← on_io (inb PIC2_DATA); _ ← outp PIC2_DATA (Z.land mask2 254);
  mask1 ← on_io (inb PIC1_DATA); outp PIC1_DATA (Z.land mask1 251).

(** The registers of a date, in the order in which the driver reads them. *)
Definition read_fields : R rtc_time :=
  second ← rtc_read_register RTC_REG_SECONDS;
  minute ← rtc_read_register RTC_REG_MINUTES;
  hour ← rtc_read_register RTC_REG_HOURS;
  day ← rtc_read_register RTC_REG_DAY;
  month ← rtc_read_register RTC_REG_MONTH;
  year ← rtc_read_register RTC_REG_YEAR;
  weekday ← rtc_read_register RTC_REG_WEEKDAY;
  mret (Time second minute hour day month year weekday).
Definition time_bcd (t : rtc_time) : rtc_time :=
  Time (bcd_to_binary (second t)) (bcd_to_binary (minute t)) (bcd_to_binary (hour t)) (bcd_to_binary (day t))
    (bcd_to_binary (month t)) (bcd_to_binary (year t)) (bcd_to_binary (weekday t)).
Definition same_date (a b : rtc_time) : bool :=
  (second a =? second b) && (minute a =? minute b) && (hour a =? hour b) && (day a =? day b) && (month a =? month b) &&
  (year a =? year b).
Definition base_year (century : Z) : Z := if negb (century =? 0) && negb (century =? 255) then century * 100 else 2000.
Definition full_year (year century : Z) : Z := u16 (year + base_year century).
Definition century_of (binary_mode : bool) (century : Z) : Z :=
  if negb binary_mode && negb (century =? 255) then bcd_to_binary century else century.

(** One turn of the loop of [rtc_read_time]: the time, if both readings agree. *)
Definition read_attempt (attempt : Z) : R (option rtc_time) :=
  ready ← rtc_wait_uip_clear (Z.to_nat 20000);
  _ ← (if negb ready then say_warn_fmt "RTC: UIP stuck while reading (attempt %d)" [AInt (attempt + 1)] else mret tt);
  status_b ← rtc_read_register RTC_REG_STATUS_B;
  let binary_mode := negb (Z.land status_b RTC_STATUS_B_BINARY =? 0) in
  a ← read_fields;
  century ← rtc_read_register RTC_REG_CENTURY;
  b ← read_fields;
  let a := if negb binary_mode then time_bcd a else a in
  let b := if negb binary_mode then time_bcd b else b in
  let century := century_of binary_mode century in
  mret (if same_date a b
        then Some (Time (second a) (minute a) (hour a) (day a) (month a) (full_year (year a) century) (weekday a))
        else None).

(** The reading that is taken when no attempt succeeds; the weekday is not decoded. *)
Definition read_unchecked : R rtc_time :=
  status_b ← rtc_read_register RTC_REG_STATUS_B;
  let binary_mode := negb (Z.land status_b RTC_STATUS_B_BINARY =? 0) in
  a ← read_fields;
  century ← rtc_read_register RTC_REG_CENTURY;
  let b := if negb binary_mode then time_bcd a else a in
  mret (Time (second b) (minute b) (hour b) (day b) (month b) (full_year (year b) (century_of binary_mode century)) (weekday a)).

Fixpoint read_loop (n : nat) (attempt : Z) : R rtc_time :=
  match n with
  | O => read_unchecked
  | S n => t ← read_attempt attempt; match t with Some t => mret t | None => read_loop n (attempt + 1) end
  end.
Definition rtc_read_time : R rtc_time := read_loop 5 0.

Definition date_args (t : rtc_time) : list log_arg :=
  [AInt (year t); AInt (month t); AInt (day t); AInt (hour t); AInt (minute t); AInt (second t)].

Definition rtc_write_time (time : rtc_time) : R unit :=
  status_b ← rtc_read_register RTC_REG_STATUS_B;
  let binary_mode := negb (Z.land status_b RTC_STATUS_B_BINARY =? 0) in
  let enc v := if negb binary_mode then binary_to_bcd v else v in
  prev_b ← rtc_read_register RTC_REG_STATUS_B;
  _ ← rtc_write_register RTC_REG_STATUS_B (u8 (Z.lor prev_b 128));
  _ ← rtc_io_delay;
  _ ← rtc_write_register RTC_REG_SECONDS (enc (second time));
  _ ← rtc_write_register RTC_REG_MINUTES (enc (minute time));
  _ ← rtc_write_register RTC_REG_HOURS (enc (hour time));
  _ ← rtc_write_register RTC_REG_DAY (enc (day time));
  _ ← rtc_write_register RTC_REG_MONTH (enc (month time));
  _ ← rtc_write_register RTC_REG_YEAR (enc (u8 (year time mod 100)));
  _ ← rtc_write_register RTC_REG_CENTURY (enc (u8 (year time / 100)));
  _ ← rtc_write_register RTC_REG_STATUS_B (Z.land prev_b 127);
  say_info_fmt "RTC: Time set to: %04u-%02u-%02u %02u:%02u:%02u" (date_args time).

Definition rtc_enable_periodic_interrupt (rate : Z) : R unit :=
  if (rate <? 3) || (15 <? rate) then say_error_fmt "RTC: Invalid periodic interrupt rate: %u" [AInt rate] else
  _ ← rtc_unmask_irq;
  prev_a ← rtc_read_register RTC_REG_STATUS_A;
  _ ← rtc_write_register RTC_REG_STATUS_A (Z.lor (Z.land prev_a 240) (Z.land rate 15));
  prev_b ← rtc_read_register RTC_REG_STATUS_B;
  _ ← rtc_write_register RTC_REG_STATUS_B (Z.lor prev_b RTC_STATUS_B_PIE);
  say_info_fmt "RTC: Periodic interrupt frequency set to %u Hz" [AInt (Z.shiftr 32768 (rate - 1))].

Definition rtc_disable_periodic_interrupt : R unit :=
  prev_b ← rtc_read_register RTC_REG_STATUS_B;
  _ ← rtc_write_register RTC_REG_STATUS_B (Z.land prev_b 191);
  say_info "RTC: Disabled periodic interrupt".

Definition rtc_init : R unit :=
  _ ← say_info "RTC: Initializing Real-Time Clock";
  status_b ← rtc_read_register RTC_REG_STATUS_B;
  _ ← rtc_write_register RTC_REG_STATUS_B (Z.lor status_b RTC_STATUS_B_24HOUR);
  _ ← rtc_unmask_irq;
  _ ← set_own (fun d => RtcOwn (rtc_ticks d) (register_interrupt_handler 40 rtc_routine (irq_handlers d)));
  t ← rtc_read_time;
  say_info_fmt "RTC: Current time read: %04u-%02u-%02u %02u:%02u:%02u" (date_args t).

Definition rtc_get_ticks (s : driver rtc_own P) : Z := rtc_ticks (own s).
End driver.

(** ** The CMOS memory of a PC *)

(** Registers 14 to 127, except for the century, are memory; the others belong to the
    clock, which changes them by itself. *)
Definition ram (k : Z) : Prop := 14 <= k < 128 /\ k <> RTC_REG_CENTURY.

Class CmosView (P : Type) := {
  (** The selected register, and the contents of the registers. *)
  cm_sel : P -> Z;
  cm_reg : P -> Z -> Z
}.

(** The memory is as before, and the register [k] is selected. *)
Definition keeps_ram {P} `{CmosView P} (p p' : P) (k : Z) : Prop :=
  cm_sel p' = k /\ forall j, ram j -> cm_reg p' j = cm_reg p j.

Class CmosLaws (P : Type) `{Ports P} `{CmosView P} := {
  cm_byte p k : is_u8 (cm_reg p k);
  (** The index port; the top bit blocks the non-maskable interrupt. *)
  cm_index p v : is_u8 v -> exists p', outb 112 v p = Some (tt, p') /\ keeps_ram p p' (Z.land v 127);
  (** The data port. *)
  cm_read p : exists v p', inb 113 p = Some (v, p') /\ (ram (cm_sel p) -> v = cm_reg p (cm_sel p)) /\ keeps_ram p p' (cm_sel p);
  cm_write p v : is_u8 v -> exists p', outb 113 v p = Some (tt, p') /\ cm_sel p' = cm_sel p /\
    (ram (cm_sel p) -> cm_reg p' (cm_sel p) = v) /\ forall j, ram j -> j <> cm_sel p -> cm_reg p' j = cm_reg p j;
  (** Other ports do not reach it. *)
  cm_out p port v : port <> 112 -> port <> 113 -> exists p', outb port v p = Some (tt, p') /\ keeps_ram p p' (cm_sel p);
  cm_in p port : port <> 112 -> port <> 113 -> exists v p', inb port p = Some (v, p') /\ keeps_ram p p' (cm_sel p)
}.

(** ** Specification *)

(** The time that is made of the byte [v] alone. *)
Definition time_of_byte (v : Z) : rtc_time :=
  let binary_mode := negb (Z.land v RTC_STATUS_B_BINARY =? 0) in
  let d := if binary_mode then v else bcd_to_binary v in
  Time d d d d d (full_year d (century_of binary_mode v)) d.

Definition date_bytes (t : rtc_time) : Prop :=
  is_u8 (second t) /\ is_u8 (minute t) /\ is_u8 (hour t) /\ is_u8 (day t) /\ is_u8 (month t).

Lemma bcd_roundtrip b : 0 <= b < 100 -> bcd_to_binary (binary_to_bcd b) = b.
Proof.
  intros Hb. assert (Hall : forallb (fun b => bcd_to_binary (binary_to_bcd b) =? b) (seqZ 0 100) = true) by (vm_compute; reflexivity).
  rewrite forallb_forall in Hall. apply Z.eqb_eq, Hall. apply list_elem_of_In, elem_of_seqZ. lia.
Qed.

Lemma same_date_refl a : same_date a a = true.
Proof. unfold same_date. by rewrite !Z.eqb_refl. Qed.

Lemma clear_bit b : is_u8 b -> is_u8 (Z.land b 127).
Proof. intros Hb. change 127 with (Z.ones 7). rewrite Z.land_ones by lia. unfold is_u8. change (2 ^ 7) with 128. zdm. Qed.

Lemma or_byte b m : is_u8 b -> is_u8 m -> is_u8 (Z.lor b m).
Proof.
  unfold is_u8. intros Hb Hm. assert (0 <= Z.lor b m) by (apply Z.lor_nonneg; lia). split; [done|].
  assert (Hl : Z.lor b m = Z.land (Z.lor b m) (Z.ones 8)).
  { rewrite Z.land_lor_distr_l, !Z.land_ones by lia. change (2 ^ 8) with 256. by rewrite !Z.mod_small by lia. }
  rewrite Hl, Z.land_ones by lia. apply Z.mod_pos_bound. lia.
Qed.

(** ** The operations *)

Section proofs.
Context {P : Type} `{CmosLaws P}.
(** The selected register, what the memory held, and the variables of the driver. *)
Variables (k : Z) (r0 : Z -> Z) (o : rtc_own).
Hypothesis Hk : ram k.
Implicit Types (s : driver rtc_own P) (p : P).
Notation R := (ST (driver rtc_own P)).

(** The register [k] is selected and holds [v]; the rest of the memory is as it was. *)
Definition mem_at (v : Z) p : Prop := cm_sel p = k /\ cm_reg p k = v /\ forall j, ram j -> j <> k -> cm_reg p j = r0 j.
Definition holds (v : Z) s : Prop := mem_at v (io s) /\ own s = o /\ log_wf (klog s).

(** From the byte [v], [m] returns [x] and leaves the byte [v']. *)
Definition leads {X} (v : Z) (m : R X) (x : X) (v' : Z) : Prop := forall s, holds v s -> exists s', m s = Some (x, s') /\ holds v' s'.

Lemma leads_ret {X} v (x : X) : leads v (mret x) x v.
Proof. intros s Hs. by exists s. Qed.

Lemma leads_bind {X Y} v v1 v2 (m : R X) (f : X -> R Y) x y : leads v m x v1 -> leads v1 (f x) y v2 -> leads v (mbind f m) y v2.
Proof.
  intros Hm Hf s Hs. destruct (Hm s Hs) as (s1 & E1 & Hs1). destruct (Hf s1 Hs1) as (s2 & E2 & Hs2).
  exists s2. by rewrite (run_bind _ _ _ _ _ E1).
Qed.

Lemma holds_byte v s : holds v s -> is_u8 v.
Proof. intros ((_ & <- & _) & _). apply cm_byte. Qed.

Lemma mem_kept v p p' : mem_at v p -> keeps_ram p p' (cm_sel p) -> mem_at v p'.
Proof. intros (Hs & Hv & Hr) (Hs' & Hr'). split; [congruence|]. split; [by rewrite Hr'|]. intros j Hj Hne. rewrite Hr' by done. by apply Hr. Qed.

Lemma leads_out v port w : port <> 112 -> port <> 113 -> leads v (on_io (outb port w)) tt v.
Proof.
  intros H1' H2' s (Hm & Ho & Hl). destruct (cm_out (io s) port w H1' H2') as (p & E & Hp). exists (with_io s p).
  split; [by apply on_io_eq|]. split; [by eapply mem_kept|done].
Qed.

(** The selection does not arrive. *)
Lemma leads_select v reg : leads v (rtc_select_register_nmi reg) tt v.
Proof. unfold rtc_select_register_nmi. eapply leads_bind; [by apply leads_out|]. by apply leads_out. Qed.

Lemma leads_read v reg : leads v (rtc_read_register reg) v v.
Proof.
  unfold rtc_read_register. eapply leads_bind; [apply leads_select|]. intros s (Hm & Ho & Hl). pose proof Hm as (Hs & Hv & _).
  destruct (cm_read (io s)) as (x & p & E & Hx & Hp). rewrite Hs in Hx. rewrite (Hx Hk), Hv in E. exists (with_io s p).
  split; [by apply on_io_eq|]. split; [by eapply mem_kept|done].
Qed.

Lemma leads_write v reg w : is_u8 w -> leads v (rtc_write_register reg w) tt w.
Proof.
  intros Hw. unfold rtc_write_register. eapply leads_bind; [apply leads_select|]. eapply (leads_bind _ w); [|by apply leads_out].
  intros s ((Hs & Hv & Hr) & Ho & Hl). destruct (cm_write (io s) w Hw) as (p & E & Hs' & Hw' & Hr'). rewrite Hs in Hs', Hw', Hr'.
  exists (with_io s p). split; [by apply on_io_eq|]. split; [|done]. split; [done|]. split; [by apply Hw'|]. intros j Hj Hne. cbn. by rewrite Hr', Hr.
Qed.

Lemma leads_fields v : leads v read_fields (Time v v v v v v v) v.
Proof. unfold read_fields. do 7 (eapply leads_bind; [apply leads_read|]). apply leads_ret. Qed.

Lemma leads_uip v n : leads v (rtc_wait_uip_clear n) (match n with O => false | _ => Z.land v 128 =? 0 end) v.
Proof.
  induction n as [|n IH]; cbn [rtc_wait_uip_clear]; [apply leads_ret|].
  eapply (leads_bind _ _ _ _ _ (negb (Z.land v 128 =? 0))).
  { unfold rtc_is_updating. eapply leads_bind; [apply leads_read|]. apply leads_ret. }
  rewrite negb_involutive. destruct (Z.land v 128 =? 0); [apply leads_ret|]. eapply leads_bind; [by apply leads_out|].
  by destruct n.
Qed.

Lemma leads_read_time v : leads v rtc_read_time (time_of_byte v) v.
Proof.
  unfold rtc_read_time, time_of_byte. cbv zeta. generalize 0 at 1. intros attempt. cbn [read_loop]. eapply leads_bind.
  - unfold read_attempt. generalize (Z.to_nat 20000). intros loops. eapply leads_bind; [apply leads_uip|].
    eapply (leads_bind _ v _ _ _ tt).
    { destruct (match loops with O => _ | _ => _ end); cbn [negb]; [apply leads_ret|]. intros s (Hm & Ho & Hl).
      destruct (say_warn_fmt_ok "RTC: UIP stuck while reading (attempt %d)" [AInt (attempt + 1)] s) as (l & E & Hl'); [renders|done|].
      by exists (with_log s l). }
    eapply leads_bind; [apply leads_read|]. cbv zeta. eapply leads_bind; [apply leads_fields|]. eapply leads_bind; [apply leads_read|].
    eapply leads_bind; [apply leads_fields|]. rewrite same_date_refl. apply leads_ret.
  - cbv beta iota. destruct (negb (Z.land v RTC_STATUS_B_BINARY =? 0)); apply leads_ret.
Qed.

Lemma leads_say fmt args v : printable_fmt fmt args -> leads v (say_info_fmt fmt args) tt v.
Proof. intros Hp s (Hm & Ho & Hl). destruct (say_info_fmt_ok fmt args s Hp Hl) as (l & E & Hl'). by exists (with_log s l). Qed.

Lemma leads_write_time v tm : is_u8 v -> date_bytes tm -> leads v (rtc_write_time tm) tt (Z.land v 127).
Proof.
  intros Hv (D1 & D2 & D3 & D4 & D5). unfold rtc_write_time. eapply leads_bind; [apply leads_read|]. cbv zeta.
  set (enc := fun x => if negb (negb (Z.land v RTC_STATUS_B_BINARY =? 0)) then binary_to_bcd x else x).
  assert (Henc : forall x, is_u8 x -> is_u8 (enc x)) by (intros x Hx; unfold enc; destruct (negb _); [apply u8_range|done]).
  eapply leads_bind; [apply leads_read|]. eapply leads_bind; [apply leads_write, u8_range|]. eapply leads_bind; [by apply leads_out|].
  do 7 (eapply leads_bind; [apply leads_write, Henc; first [done|apply u8_range]|]).
  eapply leads_bind; [by apply leads_write, clear_bit|]. apply leads_say. unfold date_args. renders.
Qed.
End proofs.

(** ** The claims *)

Section claims.
Context {P : Type} `{CmosLaws P}.
Implicit Types (s : driver rtc_own P).

(** The register that was selected before holds [v]. *)
Definition selects s (k v : Z) : Prop := cm_sel (io s) = k /\ ram k /\ cm_reg (io s) k = v.

Lemma holds_start s k v : selects s k v -> log_wf (klog s) -> holds k (cm_reg (io s)) (own s) v s.
Proof. by intros (Hs & _ & Hv) Hl. Qed.

(** C30: on a PC the driver never selects a register, for it writes the index to port 0x79
    and the index port is 0x70.  When the register that was selected before the call is one
    of the memory, and not of the clock, the time that [rtc_read_time] returns is made of its
    byte alone, whatever the clock shows: every field is that byte, decoded as its own bit 2
    says.  [rtc_write_time] sets no
    clock: it leaves that byte with bit 7 cleared.  Everything else in the memory, and the
    selection, stay. *)
Theorem rtc_reads_one_register s k v : selects s k v -> log_wf (klog s) ->
  (exists s', rtc_read_time s = Some (time_of_byte v, s') /\ own s' = own s /\ selects s' k v /\
     forall j, ram j -> cm_reg (io s') j = cm_reg (io s) j) /\
  (forall tm, date_bytes tm -> exists s', rtc_write_time tm s = Some (tt, s') /\ own s' = own s /\ selects s' k (Z.land v 127) /\
     forall j, ram j -> j <> k -> cm_reg (io s') j = cm_reg (io s) j).
Proof.
  intros Hs Hl. pose proof (holds_start s k v Hs Hl) as Hh. pose proof (holds_byte _ _ _ _ _ Hh) as Hv. destruct Hs as (_ & Hk & Hv0). split.
  - destruct (leads_read_time k (cm_reg (io s)) (own s) Hk v s Hh) as (s' & E & (Hs' & Hv' & Hr') & Ho' & _).
    exists s'. split; [exact E|]. split; [done|]. split; [done|]. intros j Hj. destruct (decide (j = k)) as [->|Hne]; [congruence|by apply Hr'].
  - intros tm Ht. destruct (leads_write_time k (cm_reg (io s)) (own s) Hk v tm Hv Ht s Hh) as (s' & E & (Hs' & Hv' & Hr') & Ho' & _).
    exists s'. by split_and!.
Qed.
End claims.

(** ** A PC

    [c_sel] is the selected register, [c_mem] the registers; with every access to a port a
    second passes. *)
Record cmos := Cmos { c_sel : Z; c_mem : Z -> Z }.

Definition put_reg (r : Z -> Z) (k v : Z) : Z -> Z := fun j => if j =? k then v else r j.
Definition pass (c : cmos) : cmos := Cmos (c_sel c) (put_reg (c_mem c) RTC_REG_SECONDS ((c_mem c RTC_REG_SECONDS + 1) mod 60)).

#[export] Instance cmos_ports : Ports cmos := {|
  inb port c := Some (if port =? 113 then u8 (c_mem c (c_sel c)) else 255, pass c);
  outb port v c := Some (tt, pass (if port =? 112 then Cmos (Z.land v 127) (c_mem c)
    else if port =? 113 then Cmos (c_sel c) (put_reg (c_mem c) (c_sel c) v) else c));
  inw _ _ := None; outw _ _ _ := None; inl _ _ := None; outl _ _ _ := None;
  ticks _ := 0
|}.
#[export] Instance cmos_view : CmosView cmos := {| cm_sel := c_sel; cm_reg c k := u8 (c_mem c k) |}.

Lemma pass_ram c k : ram k -> c_mem (pass c) k = c_mem c k.
Proof. intros [Hk _]. cbn. unfold put_reg, RTC_REG_SECONDS. by replace (k =? 0) with false by lia. Qed.

Lemma pass_keeps c c' : c_sel c' = c_sel c -> (forall j, ram j -> c_mem c' j = c_mem c j) -> keeps_ram c (pass c') (c_sel c).
Proof. intros Hs Hm. split; [done|]. intros j Hj. cbn [cm_reg cmos_view]. by rewrite pass_ram, Hm. Qed.

#[export, refine] Instance cmos_laws : CmosLaws cmos := {}.
Proof.
  - intros c k. apply u8_range.
  - intros c v Hv. eexists. split; [done|]. split; [done|]. intros j Hj. cbn [cm_reg cmos_view]. by rewrite pass_ram.
  - intros c. eexists _, _. split; [done|]. split; [done|]. by apply pass_keeps.
  - intros c v Hv. eexists. split; [done|]. cbn [Z.eqb Pos.eqb cm_sel cm_reg cmos_view]. split; [done|]. split.
    + intros Hk. rewrite pass_ram by done. cbn. unfold put_reg. rewrite Z.eqb_refl. by apply u8_small.
    + intros j Hj Hne. rewrite pass_ram by done. cbn. unfold put_reg. by replace (j =? c_sel c) with false by lia.
  - intros c port v H1 H2. eexists. split; [done|]. replace (port =? 112) with false by lia. replace (port =? 113) with false by lia. by apply pass_keeps.
  - intros c port H1 H2. eexists _, _. split; [done|]. by apply pass_keeps.
Defined.

(** 0x90 in the register that the firmware selected last, number 16; the clock shows 23:59:59. *)
Definition pc_clock : driver rtc_own cmos :=
  Driver (RtcOwn 0 []) (Cmos 16 (fun k => if k =? 16 then 144 else if k =? 4 then 35 else if k =? 2 then 89 else if k =? 0 then 59 else 0)) log_init.

Lemma rtc_reads_one_register_witness :
  (exists s', rtc_read_time pc_clock = Some (Time 90 90 90 90 90 9090 90, s')) /\
  exists s', rtc_write_time (Time 30 15 8 1 1 2031 4) pc_clock = Some (tt, s') /\ cm_reg (io s') 16 = 16.
Proof.
  destruct (rtc_reads_one_register pc_clock 16 144) as [(s1 & E1 & _) Hw].
  - split; [reflexivity|]. split; [split; [lia|discriminate]|reflexivity].
  - exact log_init_wf.
  - split; [exact (ex_intro _ s1 E1)|]. destruct (Hw (Time 30 15 8 1 1 2031 4)) as (s2 & E2 & _ & (_ & _ & Hv) & _).
    + unfold date_bytes, is_u8. cbn. lia.
    + exact (ex_intro _ s2 (conj E2 Hv)).
Defined.

(** Through port 0x70 the same register would be selected. *)
Example through_0x70 : fst <$> (_ ← outb 112 (Z.lor RTC_REG_HOURS 128); inb RTC_PORT_DATA) (io pc_clock) = Some 35.
Proof. vm_compute. reflexivity. Qed.
