(* ===== verification/Pci.v ===== *)
(** drivers/bus/pci.c: the configuration space of the PCI bus, and the list of devices
    that a scan of it finds.

    The driver keeps the list [pci_device_list], whose cells come from [kmalloc]
    (KAlloc); a cell is its address and its contents.  [PciLaws] is the host bridge: a
    latch for the address, and a double word of configuration space for each. *)

From S2P Require Import Prelude Mem KAlloc Heap Effects Console Log Ports.
Local Open Scope Z_scope.

(** ** Definitions *)

Definition PCI_CONFIG_ADDRESS : Z := 3320.
Definition PCI_CONFIG_DATA : Z := 3324.
Definition PCI_VENDOR_INVALID : Z := 65535.
Definition PCI_MAX_DEVICE : Z := 32.
Definition PCI_MAX_FUNCTION : Z := 8.
Definition PCI_REG_VENDOR_ID : Z := 0.
Definition PCI_REG_DEVICE_ID : Z := 2.
Definition PCI_REG_COMMAND : Z := 4.
Definition PCI_REG_REVISION : Z := 8.
Definition PCI_REG_PROG_IF : Z := 9.
Definition PCI_REG_SUBCLASS : Z := 10.
Definition PCI_REG_CLASS : Z := 11.
Definition PCI_REG_HEADER_TYPE : Z := 14.
Definition PCI_REG_BAR0 : Z := 16.
Definition PCI_REG_INTERRUPT_LINE : Z := 60.
Definition PCI_REG_INTERRUPT_PIN : Z := 61.

Record pci_device := PciDevice {
  bus : Z; device : Z; function : Z; vendor_id : Z; device_id : Z; class_code : Z; subclass : Z; prog_if : Z;
  revision : Z; interrupt_line : Z; interrupt_pin : Z; bar : list Z
}.
(** [sizeof(struct pci_device)] *)
Definition PCI_DEVICE_SIZE : Z := 44.

Definition pci_class_names : list string :=
  ["Unclassified"; "Mass Storage"; "Network"; "Display"; "Multimedia"; "Memory"; "Bridge"; "Communication"; "Peripheral";
   "Input Device"; "Docking Station"; "Processor"; "Serial Bus"; "Wireless"; "Intelligent I/O"; "Satellite"; "Encryption";
   "Signal Processing"]%string.

(** The variables of the driver, and the heap. *)
Record pci_own (St : Type) := PciOwn { pci_device_list : list (Z * pci_device); heap_state : St; heap_mem : mem }.
Arguments PciOwn {St}. Arguments pci_device_list {St}. Arguments heap_state {St}. Arguments heap_mem {St}.

(** The address that selects a double word. *)
Definition config_address (bus device function offset : Z) : Z :=
  Z.lor (Z.lor (Z.lor (Z.lor (Z.shiftl bus 16) (Z.shiftl device 11)) (Z.shiftl function 8)) (Z.land offset 252)) 2147483648.

Section driver.
Context {P : Type} `{Ports P} {St : Type} `{KAlloc St}.
Notation D := (ST (driver (pci_own St) P)).
Implicit Types (s : driver (pci_own St) P).

Definition pci_config_read_byte (bus device function offset : Z) : D Z :=
  _ ← on_io (outl PCI_CONFIG_ADDRESS (config_address bus device function offset));
  v ← on_io (inl PCI_CONFIG_DATA);
  mret (Z.land (Z.shiftr v (Z.land offset 3 * 8)) 255).
Definition pci_config_read_word (bus device function offset : Z) : D Z :=
  _ ← on_io (outl PCI_CONFIG_ADDRESS (config_address bus device function offset));
  v ← on_io (inl PCI_CONFIG_DATA);
  mret (Z.land (Z.shiftr v (Z.land offset 2 * 8)) 65535).
Definition pci_config_read_dword (bus device function offset : Z) : D Z :=
  _ ← on_io (outl PCI_CONFIG_ADDRESS (config_address bus device function offset));
  on_io (inl PCI_CONFIG_DATA).
Definition pci_config_write_byte (bus device function offset value : Z) : D unit :=
  _ ← on_io (outl PCI_CONFIG_ADDRESS (config_address bus device function offset));
  data ← on_io (inl PCI_CONFIG_DATA);
  let shift := Z.land offset 3 * 8 in
  let data := Z.land data (not32 (Z.shiftl 255 shift)) in
  on_io (outl PCI_CONFIG_DATA (Z.lor data (Z.shiftl value shift))).
Definition pci_config_write_word (bus device function offset value : Z) : D unit :=
  _ ← on_io (outl PCI_CONFIG_ADDRESS (config_address bus device function offset));
  data ← on_io (inl PCI_CONFIG_DATA);
  let shift := Z.land offset 2 * 8 in
  let data := Z.land data (not32 (Z.shiftl 65535 shift)) in
  on_io (outl PCI_CONFIG_DATA (Z.lor data (Z.shiftl value shift))).
Definition pci_config_write_dword (bus device function offset value : Z) : D unit :=
  _ ← on_io (outl PCI_CONFIG_ADDRESS (config_address bus device function offset));
  on_io (outl PCI_CONFIG_DATA value).

Definition kmalloc (n : Z) : D Z := fun s =>
  match ka_malloc (heap_state (own s)) (heap_mem (own s)) n with
  | Some (a, k, m) => Some (a, with_own s (PciOwn (pci_device_list (own s)) k m))
  | None => None
  end.

Fixpoint read_bars (offsets : list Z) (bus device function : Z) : D (list Z) :=
  match offsets with
  | [] => mret []
  | o :: offsets => v ← pci_config_read_dword bus device function o; vs ← read_bars offsets bus device function; mret (v :: vs)
  end.

Definition device_args (d : pci_device) : list log_arg :=
  [AInt (bus d); AInt (device d); AInt (function d); AInt (vendor_id d); AInt (device_id d); AInt (class_code d); AInt (subclass d)].

Definition pci_check_function (bus device function : Z) : D unit :=
  vendor_id ← pci_config_read_word bus device function PCI_REG_VENDOR_ID;
  if vendor_id =? PCI_VENDOR_INVALID then mret tt else
  dev ← kmalloc PCI_DEVICE_SIZE;
  if dev =? 0 then say_log (fun now => log_error now (Some (str "PCI: Failed to allocate device structure"))) else
  device_id ← pci_config_read_word bus device function PCI_REG_DEVICE_ID;
  class_code ← pci_config_read_byte bus device function PCI_REG_CLASS;
  subclass ← pci_config_read_byte bus device function PCI_REG_SUBCLASS;
  prog_if ← pci_config_read_byte bus device function PCI_REG_PROG_IF;
  revision ← pci_config_read_byte bus device function PCI_REG_REVISION;
  interrupt_line ← pci_config_read_byte bus device function PCI_REG_INTERRUPT_LINE;
  interrupt_pin ← pci_config_read_byte bus device function PCI_REG_INTERRUPT_PIN;
  bar ← read_bars ((fun i => PCI_REG_BAR0 + i * 4) <$> [0; 1; 2; 3; 4; 5]) bus device function;
  let d := PciDevice bus device function vendor_id device_id class_code subclass prog_if revision interrupt_line interrupt_pin bar in
  _ ← set_own (fun o => PciOwn ((dev, d) :: pci_device_list o) (heap_state o) (heap_mem o));
  say_info_fmt "PCI: %d:%d.%d - Vendor: 0x%x Device: 0x%x Class: 0x%x Sub: 0x%x" (device_args d).

Definition pci_check_device (bus device : Z) : D unit :=
  vendor_id ← pci_config_read_word bus device 0 PCI_REG_VENDOR_ID;
  if vendor_id =? PCI_VENDOR_INVALID then mret tt else
  _ ← pci_check_function bus device 0;
  header_type ← pci_config_read_byte bus device 0 PCI_REG_HEADER_TYPE;
  if negb (Z.land header_type 128 =? 0) then
    each (fun function =>
      vendor_id ← pci_config_read_word bus device function PCI_REG_VENDOR_ID;
      if negb (vendor_id =? PCI_VENDOR_INVALID) then pci_check_function bus device function else mret tt)
      (seqZ 1 (PCI_MAX_FUNCTION - 1))
  else mret tt.

Definition pci_check_bus (bus : Z) : D unit := each (pci_check_device bus) (seqZ 0 PCI_MAX_DEVICE).

Definition pci_init : D unit :=
  _ ← say_info "PCI: Initializing PCI bus enumeration";
  _ ← set_own (fun o => PciOwn [] (heap_state o) (heap_mem o));
  header_type ← pci_config_read_byte 0 0 0 PCI_REG_HEADER_TYPE;
  _ ← (if Z.land header_type 128 =? 0 then pci_check_bus 0
       else each (fun function =>
         vendor_id ← pci_config_read_word 0 0 function PCI_REG_VENDOR_ID;
         if negb (vendor_id =? PCI_VENDOR_INVALID) then pci_check_bus function else mret tt) (seqZ 0 PCI_MAX_FUNCTION));
  s ← sget;
  say_info_fmt "PCI: Total devices found: %d" [AInt (Z.of_nat (length (pci_device_list (own s))))].

Definition pci_get_devices s : list (Z * pci_device) := pci_device_list (own s).

(** The searches; NULL is [None]. *)
Fixpoint find_device (p : pci_device -> bool) (l : list (Z * pci_device)) : option (Z * pci_device) :=
  match l with [] => None | d :: l => if p d.2 then Some d else find_device p l end.
Definition pci_find_device_by_class (class sub : Z) s : option (Z * pci_device) :=
  find_device (fun d => (class_code d =? class) && (subclass d =? sub)) (pci_device_list (own s)).
Definition pci_find_device_by_id (vendor id : Z) s : option (Z * pci_device) :=
  find_device (fun d => (vendor_id d =? vendor) && (device_id d =? id)) (pci_device_list (own s)).

(** The address, and what is stored through [is_io] if anything is. *)
Definition pci_get_bar (dev : option pci_device) (bar_index : Z) : Z * option Z :=
  match dev with
  | None => (0, None)
  | Some d =>
      if 6 <=? bar_index then (0, None) else
      let b := bar d !!! Z.to_nat bar_index in
      if negb (Z.land b 1 =? 0) then (Z.land b 4294967292, Some 1) else (Z.land b 4294967280, Some 0)
  end.

Definition pci_enable_bus_mastering (dev : option pci_device) : D unit :=
  match dev with
  | None => mret tt
  | Some d =>
      command ← pci_config_read_word (bus d) (device d) (function d) PCI_REG_COMMAND;
      _ ← pci_config_write_word (bus d) (device d) (function d) PCI_REG_COMMAND (Z.lor command 4);
      say_info_fmt "PCI: Enabled bus mastering for %d:%d.%d" [AInt (bus d); AInt (device d); AInt (function d)]
  end.

Definition class_name (c : Z) : string :=
  if c <? 18 then default EmptyString (pci_class_names !! Z.to_nat c) else "Unknown"%string.
Definition pci_list_devices : D unit :=
  s ← sget;
  _ ← say_log (fun now => log_info now (Some (NL :: str "PCI Devices:" ++ [NL])));
  _ ← say_log (fun now => log_info now (Some (str "============" ++ [NL])));
  _ ← each (fun d : Z * pci_device =>
        _ ← say_info_fmt "PCI: %d:%d.%d - Vendor: 0x%x Device: 0x%x Class: 0x%x Sub: 0x%x" (device_args d.2);
        say_info_fmt "Class Name: %s" [AStr (Some (str (class_name (class_code d.2))))]) (pci_device_list (own s));
  say_info_fmt "PCI: Total devices listed: %d" [AInt (Z.of_nat (length (pci_device_list (own s))))].
End driver.

(** ** The configuration space *)

(** The latch, the double words, and what a write makes of one of them. *)
Class PciView (P : Type) := {
  pci_latch : P -> Z;
  pci_conf : P -> Z -> Z;
  pci_effect : Z -> Z -> Z -> Z
}.
Class PciLaws (P : Type) `{Ports P} `{PciView P} := {
  pci_word p a : is_u32 (pci_conf p a);
  pci_select p a : exists p', outl PCI_CONFIG_ADDRESS a p = Some (tt, p') /\ pci_latch p' = a /\ forall x, pci_conf p' x = pci_conf p x;
  pci_data_in p : exists p', inl PCI_CONFIG_DATA p = Some (pci_conf p (pci_latch p), p') /\ pci_latch p' = pci_latch p /\
    forall x, pci_conf p' x = pci_conf p x;
  pci_data_out p v : is_u32 v -> exists p', outl PCI_CONFIG_DATA v p = Some (tt, p') /\
    forall x, pci_conf p' x = if x =? pci_latch p then pci_effect x (pci_conf p x) v else pci_conf p x
}.

(** The bytes of the configuration space of a function. *)
Definition conf_byte (conf : Z -> Z) (bus device function offset : Z) : Z :=
  conf (config_address bus device function offset) / 2 ^ (8 * (offset mod 4)) mod 256.
Definition conf_word (conf : Z -> Z) (bus device function offset : Z) : Z :=
  conf_byte conf bus device function offset + 256 * conf_byte conf bus device function (offset + 1).

(** What the scan looks for: the buses of the host bridge, the functions of a device. *)
Definition there (conf : Z -> Z) (bus device function : Z) : bool :=
  negb (conf_word conf bus device function PCI_REG_VENDOR_ID =? PCI_VENDOR_INVALID).
Definition many (conf : Z -> Z) (bus device : Z) : bool :=
  negb (Z.land (conf_byte conf bus device 0 PCI_REG_HEADER_TYPE) 128 =? 0).
Definition functions (conf : Z -> Z) (bus device : Z) : list Z :=
  if there conf bus device 0 then 0 :: (if many conf bus device then filter (fun f => there conf bus device f = true) (seqZ 1 7) else [])
  else [].
Definition buses (conf : Z -> Z) : list Z :=
  if many conf 0 0 then filter (fun f => there conf 0 0 f = true) (seqZ 0 8) else [0].
Definition bus_functions (conf : Z -> Z) (b : Z) : list (Z * Z * Z) := seqZ 0 32 ≫= fun d => (fun f => (b, d, f)) <$> functions conf b d.
Definition present (conf : Z -> Z) : list (Z * Z * Z) := buses conf ≫= bus_functions conf.

(** What the driver records of a function. *)
Definition described (conf : Z -> Z) (x : Z * Z * Z) : pci_device :=
  let '(b, d, f) := x in
  PciDevice b d f (conf_word conf b d f PCI_REG_VENDOR_ID) (conf_word conf b d f PCI_REG_DEVICE_ID) (conf_byte conf b d f PCI_REG_CLASS)
    (conf_byte conf b d f PCI_REG_SUBCLASS) (conf_byte conf b d f PCI_REG_PROG_IF) (conf_byte conf b d f PCI_REG_REVISION)
    (conf_byte conf b d f PCI_REG_INTERRUPT_LINE) (conf_byte conf b d f PCI_REG_INTERRUPT_PIN)
    ((fun i => conf (config_address b d f (PCI_REG_BAR0 + i * 4))) <$> [0; 1; 2; 3; 4; 5]).

(** The answers of the heap to [n] requests in a row for a cell. *)
Fixpoint requests {St} `{KAlloc St} (n : nat) (k : St) (m : mem) : option (list Z * St * mem) :=
  match n with
  | O => Some ([], k, m)
  | S n =>
      match ka_malloc k m PCI_DEVICE_SIZE with
      | Some (a, k, m) => match requests n k m with Some (l, k, m) => Some (a :: l, k, m) | None => None end
      | None => None
      end
  end.
(** The functions [l] in the cells [replies], but for those whose cell was refused. *)
Definition linked (conf : Z -> Z) (replies : list Z) (l : list (Z * Z * Z)) : list (Z * pci_device) :=
  filter (fun d => negb (d.1 =? 0) = true) (zip replies (described conf <$> l)).

Section proofs.
Context {P : Type} `{PciLaws P} {St : Type} `{KAllocLaws St}.
Implicit Types (s : driver (pci_own St) P).

(** ** Reading *)

Lemma byte_value v o : is_u32 v -> 0 <= o -> Z.land (Z.shiftr v (Z.land o 3 * 8)) 255 = v / 2 ^ (8 * (o mod 4)) mod 256.
Proof.
  intros Hv Ho. change 255 with (Z.ones 8). change 3 with (Z.ones 2). rewrite !Z.land_ones by lia.
  change (2 ^ 2) with 4. rewrite Z.shiftr_div_pow2 by zdm. by rewrite (Z.mul_comm (o mod 4) 8).
Qed.

Lemma same_dword : forallb (fun k => let o := 2 * k in (Z.land (o + 1) 252 =? Z.land o 252) && (Z.land o 2 =? o mod 4)) (seqZ 0 127) = true.
Proof. vm_compute. reflexivity. Qed.

Lemma even_offset k : 0 <= k < 127 -> Z.land (2 * k + 1) 252 = Z.land (2 * k) 252 /\ Z.land (2 * k) 2 = (2 * k) mod 4.
Proof.
  intros Hk. pose proof same_dword as Hall. rewrite forallb_forall in Hall. specialize (Hall k).
  cbv zeta in Hall. rewrite andb_true_iff, !Z.eqb_eq in Hall. apply Hall, list_elem_of_In, elem_of_seqZ. lia.
Qed.

Lemma word_value conf b d f k : is_u32 (conf (config_address b d f (2 * k))) -> 0 <= k < 127 ->
  Z.land (Z.shiftr (conf (config_address b d f (2 * k))) (Z.land (2 * k) 2 * 8)) 65535 = conf_word conf b d f (2 * k).
Proof.
  intros Hv Hk. destruct (even_offset k Hk) as [E1 E2]. unfold conf_word, conf_byte.
  replace (config_address b d f (2 * k + 1)) with (config_address b d f (2 * k)) by (unfold config_address; by rewrite E1).
  set (v := conf _) in *. rewrite E2. change 65535 with (Z.ones 16). rewrite Z.land_ones, Z.shiftr_div_pow2 by zdm.
  assert (Hm : (2 * k) mod 4 = 0 \/ (2 * k) mod 4 = 2) by zdm. destruct Hm as [Hm | Hm]; rewrite Hm.
  - replace ((2 * k + 1) mod 4) with 1 by (rewrite Zplus_mod, Hm; done). change (2 ^ 16) with (2 ^ 8 * 2 ^ 8). rewrite Z.rem_mul_r by done. by rewrite Z.div_div by done.
  - replace ((2 * k + 1) mod 4) with 3 by (rewrite Zplus_mod, Hm; done). change (2 ^ 16) with (2 ^ 8 * 2 ^ 8). rewrite Z.rem_mul_r by done. by rewrite Z.div_div by done.
Qed.

(** The configuration space is [conf]. *)
Definition conf_is (conf : Z -> Z) s : Prop := forall x, pci_conf (io s) x = conf x.
Definition reads {X} (m : ST (driver (pci_own St) P) X) conf (v : X) : Prop :=
  forall s, conf_is conf s -> exists p, m s = Some (v, with_io s p) /\ forall x, pci_conf p x = conf x.

Lemma read_dword_spec conf b d f o : reads (pci_config_read_dword b d f o) conf (conf (config_address b d f o)).
Proof.
  intros s Hc. destruct (pci_select (io s) (config_address b d f o)) as (p1 & E1 & L1 & C1). destruct (pci_data_in p1) as (p2 & E2 & _ & C2).
  exists p2. unfold pci_config_read_dword. rewrite (run_bind _ _ _ _ _ (on_io_eq _ s _ _ E1)), (on_io_eq _ (with_io s p1) _ _ E2).
  rewrite L1, C1, Hc. split; [done|]. intros x. by rewrite C2, C1.
Qed.

Lemma reads_map {X Y} (m : ST (driver (pci_own St) P) X) (g : X -> Y) conf v : reads m conf v -> reads (x ← m; mret (g x)) conf (g v).
Proof. intros Hm s Hc. destruct (Hm s Hc) as (p & E & Hp). exists p. by rewrite (run_bind _ _ _ _ _ E). Qed.

Lemma read_byte_spec conf b d f o : (forall x, is_u32 (conf x)) -> 0 <= o -> reads (pci_config_read_byte b d f o) conf (conf_byte conf b d f o).
Proof.
  intros Hw Ho s Hc. destruct (read_dword_spec conf b d f o s Hc) as (p & E & Hp). exists p. split; [|done].
  unfold pci_config_read_byte, pci_config_read_dword in *. unfold mbind, ST_bind in *. destruct (on_io _ s) as [[x s1]|]; [|done].
  rewrite E. unfold conf_byte. by rewrite byte_value.
Qed.

Lemma read_word_spec conf b d f k : (forall x, is_u32 (conf x)) -> 0 <= k < 127 ->
  reads (pci_config_read_word b d f (2 * k)) conf (conf_word conf b d f (2 * k)).
Proof.
  intros Hw Hk s Hc. destruct (read_dword_spec conf b d f (2 * k) s Hc) as (p & E & Hp). exists p. split; [|done].
  unfold pci_config_read_word, pci_config_read_dword in *. unfold mbind, ST_bind in *. destruct (on_io _ s) as [[x s1]|]; [|done].
  rewrite E. by rewrite word_value.
Qed.

Lemma read_bars_spec conf offsets b d f : reads (read_bars offsets b d f) conf ((fun o => conf (config_address b d f o)) <$> offsets).
Proof.
  induction offsets as [|o l IH]; intros s Hc; [exists (io s); split; [by destruct s|exact Hc]|].
  destruct (read_dword_spec conf b d f o s Hc) as (p1 & E1 & C1). destruct (IH (with_io s p1) C1) as (p2 & E2 & C2).
  exists p2. split; [|done]. cbn [read_bars]. rewrite (run_bind _ _ _ _ _ E1), (run_bind _ _ _ _ _ E2). done.
Qed.

(** ** The scan *)

Definition cells s : list Z := fst <$> pci_device_list (own s).
(** The heap, with the blocks [L], holds the cells of the list. *)
Record scan_ok (conf : Z -> Z) s (L : gmap Z Z) : Prop := {
  so_conf : conf_is conf s;
  so_log : log_wf (klog s);
  so_heap : ka_inv (heap_state (own s)) (heap_mem (own s)) L;
  so_nodup : NoDup (cells s);
  so_cells : forall a, a ∈ cells s -> exists k, L !! a = Some k /\ PCI_DEVICE_SIZE <= k
}.

(** [m] asks the heap for one cell per function of [l], in this order, and adds the
    functions whose cell is granted to the list. *)
Definition visits conf (m : ST (driver (pci_own St) P) unit) (l : list (Z * Z * Z)) : Prop := forall s L, scan_ok conf s L ->
  exists s' L' replies, m s = Some (tt, s') /\ scan_ok conf s' L' /\
    requests (length l) (heap_state (own s)) (heap_mem (own s)) = Some (replies, heap_state (own s'), heap_mem (own s')) /\
    pci_device_list (own s') = reverse (linked conf replies l) ++ pci_device_list (own s).

Lemma requests_app n1 n2 (k : St) m r1 k1 m1 r2 k2 m2 :
  requests n1 k m = Some (r1, k1, m1) -> requests n2 k1 m1 = Some (r2, k2, m2) ->
  requests (n1 + n2) k m = Some (r1 ++ r2, k2, m2).
Proof.
  revert k m r1. induction n1 as [|n IH]; intros k m r1 E1 E2; [by injection E1 as <- <- <-|]. cbn [requests Nat.add] in *.
  destruct (ka_malloc k m PCI_DEVICE_SIZE) as [[[a k0] m0]|]; [|done].
  destruct (requests n k0 m0) as [[[r k'] m']|] eqn:E; [|done]. injection E1 as <- -> ->. by rewrite (IH k0 m0 r E E2).
Qed.

Lemma requests_length n (k : St) m r k' m' : requests n k m = Some (r, k', m') -> length r = n.
Proof.
  revert k m r. induction n as [|n IH]; intros k m r E; [by injection E as <- _ _|]. cbn [requests] in E.
  destruct (ka_malloc k m PCI_DEVICE_SIZE) as [[[a k0] m0]|]; [|done].
  destruct (requests n k0 m0) as [[[r0 k1] m1]|] eqn:Er; [|done]. injection E as <- -> ->. cbn. by rewrite (IH _ _ _ Er).
Qed.

Lemma linked_app conf r1 r2 l1 l2 : length r1 = length l1 -> linked conf (r1 ++ r2) (l1 ++ l2) = linked conf r1 l1 ++ linked conf r2 l2.
Proof. intros Hn. unfold linked. rewrite fmap_app, zip_with_app by (by rewrite length_fmap). apply filter_app. Qed.

(** Without a refusal nothing is missing. *)
Lemma linked_all conf r l : 0 ∉ r -> length r = length l -> (snd <$> linked conf r l) = described conf <$> l.
Proof.
  revert l. induction r as [|a r IH]; intros [|x l] Hr Hn; try done. unfold linked in *. cbn [fmap list_fmap zip_with].
  apply not_elem_of_cons in Hr as [Ha Hr]. rewrite filter_cons_True by (cbn; by replace (a =? 0) with false by lia).
  cbn. f_equal. by apply IH; [|injection Hn].
Qed.

Lemma visits_ret conf : visits conf (mret tt) [].
Proof. intros s L Hs. by exists s, L, []. Qed.

Lemma visits_seq conf m1 m2 l1 l2 : visits conf m1 l1 -> visits conf m2 l2 -> visits conf (_ ← m1; m2) (l1 ++ l2).
Proof.
  intros V1 V2 s L Hs. destruct (V1 s L Hs) as (s1 & L1 & r1 & E1 & Hs1 & R1 & D1).
  destruct (V2 s1 L1 Hs1) as (s2 & L2 & r2 & E2 & Hs2 & R2 & D2). exists s2, L2, (r1 ++ r2).
  rewrite (run_bind _ _ _ _ _ E1). split; [done|]. split; [done|]. split.
  - rewrite length_app. by eapply requests_app.
  - rewrite D2, D1, linked_app, reverse_app by by eapply requests_length. by rewrite app_assoc.
Qed.

Lemma visits_each {A} conf (f : A -> ST (driver (pci_own St) P) unit) (g : A -> list (Z * Z * Z)) l :
  (forall x, x ∈ l -> visits conf (f x) (g x)) -> visits conf (each f l) (l ≫= g).
Proof.
  induction l as [|x l IH]; intros Hf; [apply visits_ret|]. cbn [each]. rewrite bind_cons.
  apply visits_seq; [apply Hf; left|]. apply IH. intros y Hy. apply Hf. by right.
Qed.

Lemma visits_read {X} conf (m : ST (driver (pci_own St) P) X) (v : X) (k : X -> ST (driver (pci_own St) P) unit) l :
  reads m conf v -> visits conf (k v) l -> visits conf (mbind k m) l.
Proof.
  intros Hm Hk s L Hs. destruct (Hm s (so_conf _ _ _ Hs)) as (p & E & C). rewrite (run_bind _ _ _ _ _ E).
  apply (Hk (with_io s p) L). destruct Hs. by split.
Qed.

Context (conf : Z -> Z) (Hw : forall x, is_u32 (conf x)).

Lemma device_printable d : printable_fmt "PCI: %d:%d.%d - Vendor: 0x%x Device: 0x%x Class: 0x%x Sub: 0x%x" (device_args d).
Proof. unfold device_args. renders. Qed.

(** A cell is linked in, and the device is announced. *)
Lemma visits_link s L x a k : scan_ok conf s L -> L !! a = Some k -> PCI_DEVICE_SIZE <= k -> a ∉ cells s ->
  exists s', (_ ← set_own (fun o => PciOwn ((a, described conf x) :: pci_device_list o) (heap_state o) (heap_mem o));
     say_info_fmt "PCI: %d:%d.%d - Vendor: 0x%x Device: 0x%x Class: 0x%x Sub: 0x%x" (device_args (described conf x))) s = Some (tt, s') /\
    scan_ok conf s' L /\ heap_state (own s') = heap_state (own s) /\ heap_mem (own s') = heap_mem (own s) /\
    pci_device_list (own s') = (a, described conf x) :: pci_device_list (own s).
Proof.
  intros [Hc Hl Hh Hn Ha] Hk Hs Hfresh.
  set (s2 := with_own s (PciOwn ((a, described conf x) :: pci_device_list (own s)) (heap_state (own s)) (heap_mem (own s)))).
  destruct (say_info_fmt_ok _ _ s2 (device_printable (described conf x)) Hl) as (l & E & Hl').
  exists (with_log s2 l). rewrite (run_bind (set_own _) _ s tt s2 eq_refl). split; [exact E|]. split; [|done]. split; [done|done|done| |].
  - by apply NoDup_cons.
  - intros b Hb. apply elem_of_cons in Hb as [-> | Hb]; [by exists k|by apply Ha].
Qed.

Lemma check_function_visits b d f : visits conf (pci_check_function b d f) (if there conf b d f then [(b, d, f)] else []).
Proof.
  unfold pci_check_function. apply (visits_read conf _ _ _ _ (read_word_spec conf b d f 0 Hw ltac:(lia))).
  change (conf_word conf b d f (2 * 0)) with (conf_word conf b d f PCI_REG_VENDOR_ID). unfold there.
  destruct (conf_word conf b d f PCI_REG_VENDOR_ID =? PCI_VENDOR_INVALID); cbn [negb]; [apply visits_ret|].
  intros s L Hs. pose proof Hs as [Hc Hl Hh Hn Ha].
  destruct (ka_malloc_ok _ _ _ PCI_DEVICE_SIZE Hh) as (a & k & m & Em & _ & _ & _ & _ & Hcase); [done|].
  set (s1 := with_own s (PciOwn (pci_device_list (own s)) k m)).
  assert (Ek : kmalloc PCI_DEVICE_SIZE s = Some (a, s1)) by (unfold kmalloc; by rewrite Em).
  rewrite (run_bind _ _ _ _ _ Ek). destruct Hcase as [[-> Hh'] | (sz & Hsz & Hnone & Hh')].
  - cbn [Z.eqb]. unfold say_log. destruct (log_write_spec (ticks (io s1)) LOG_LEVEL_ERROR (str "PCI: Failed to allocate device structure") (klog s1) Hl) as (l & El & Hl' & _).
    unfold log_error. rewrite El. exists (with_log s1 l), L, [0]. split; [done|]. split; [by split|].
    split; [cbn [length requests]; by rewrite Em|done].
  - pose proof (ka_range _ _ _ a sz Hh' (lookup_insert_eq _ _ _)) as (Ha0 & _). replace (a =? 0) with false by lia.
    assert (Hs1 : scan_ok conf s1 (<[a := sz]> L)).
    { split; [done|done|done|done|]. intros c Hin. destruct (Ha c Hin) as (j & Hj & Hle). exists j. split; [|done].
      rewrite lookup_insert_ne; [done|]. intros <-. by rewrite Hnone in Hj. }
    assert (Hfresh : a ∉ cells s1) by (intros Hin; destruct (Ha a Hin) as (j & Hj & _); by rewrite Hnone in Hj).
    assert (Hread : forall {X} (M : ST (driver (pci_own St) P) X) v (K : X -> ST (driver (pci_own St) P) unit) Q,
      reads M conf v -> (forall s2, scan_ok conf s2 (<[a := sz]> L) -> own s2 = own s1 -> exists s', K v s2 = Some (tt, s') /\ Q s') ->
      forall s2, scan_ok conf s2 (<[a := sz]> L) -> own s2 = own s1 -> exists s', mbind K M s2 = Some (tt, s') /\ Q s').
    { intros X M v K Q Hm Hk s2 Hs2 Ho. destruct (Hm s2 (so_conf _ _ _ Hs2)) as (p & E & C). rewrite (run_bind _ _ _ _ _ E).
      apply Hk; [destruct Hs2; by split|done]. }
    match goal with |- exists s' L' got, ?M s1 = _ /\ _ =>
      enough (exists s', M s1 = Some (tt, s') /\ (scan_ok conf s' (<[a := sz]> L) /\ heap_state (own s') = k /\ heap_mem (own s') = m /\
        pci_device_list (own s') = (a, described conf (b, d, f)) :: pci_device_list (own s))) as (s' & E & Hs' & Hk' & Hm' & Hd) end.
    { exists s', (<[a := sz]> L), [a]. split; [exact E|]. split; [done|]. split; [cbn [length requests]; by rewrite Em, Hk', Hm'|].
      rewrite Hd. unfold linked. cbn [fmap list_fmap zip_with]. rewrite filter_cons_True by (cbn; by replace (a =? 0) with false by lia). done. }
    generalize Hs1 (eq_refl (own s1)).
    apply (Hread _ _ _ _ _ (read_word_spec conf b d f 1 Hw ltac:(lia))).
    do 6 (eapply Hread; [by apply read_byte_spec|]).
    apply (Hread _ _ _ _ _ (read_bars_spec conf _ b d f)). cbv zeta. intros s2 Hs2 Ho.
    destruct (visits_link s2 (<[a := sz]> L) (b, d, f) a sz) as (s' & E & Hs' & Hk' & Hm' & Hd); [done|by rewrite lookup_insert_eq|done|by unfold cells; rewrite Ho|].
    exists s'. split; [exact E|]. split; [done|]. by rewrite Hk', Hm', Hd, Ho.
Qed.

Lemma check_device_visits b d : visits conf (pci_check_device b d) ((fun f => (b, d, f)) <$> functions conf b d).
Proof.
  unfold pci_check_device. apply (visits_read conf _ _ _ _ (read_word_spec conf b d 0 0 Hw ltac:(lia))).
  change (conf_word conf b d 0 (2 * 0)) with (conf_word conf b d 0 PCI_REG_VENDOR_ID). unfold functions.
  pose proof (check_function_visits b d 0) as V0. unfold there in *.
  destruct (conf_word conf b d 0 PCI_REG_VENDOR_ID =? PCI_VENDOR_INVALID); cbn [negb] in *; [apply visits_ret|].
  rewrite fmap_cons. apply (visits_seq conf _ _ [_] _ V0).
  apply (visits_read conf _ _ _ _ (read_byte_spec conf b d 0 PCI_REG_HEADER_TYPE Hw ltac:(done))). unfold many.
  destruct (negb _); [|apply visits_ret].
  replace ((fun f => (b, d, f)) <$> filter (fun f => negb (conf_word conf b d f PCI_REG_VENDOR_ID =? PCI_VENDOR_INVALID) = true) (seqZ 1 7))
    with (seqZ 1 7 ≫= fun f => if there conf b d f then [(b, d, f)] else []).
  - apply visits_each. intros f _. apply (visits_read conf _ _ _ _ (read_word_spec conf b d f 0 Hw ltac:(lia))).
    change (conf_word conf b d f (2 * 0)) with (conf_word conf b d f PCI_REG_VENDOR_ID).
    pose proof (check_function_visits b d f) as V. unfold there in *. destruct (negb _); [exact V|apply visits_ret].
  - unfold there. induction (seqZ 1 7) as [|f l IH]; [done|]. rewrite bind_cons, filter_cons, IH. by destruct (negb _).
Qed.

Lemma check_bus_visits b : visits conf (pci_check_bus b) (bus_functions conf b).
Proof. apply visits_each. intros d _. apply check_device_visits. Qed.
End proofs.

(** ** The claims *)

Section claims.
Context {P : Type} `{PciLaws P} {St : Type} `{KAllocLaws St}.
Implicit Types (s : driver (pci_own St) P).

(** C31: the scan finds exactly the functions that are present on the buses of the host
    bridge: it asks the heap for one cell per function, in the order of the scan, and the
    list holds, last found first, each function with the contents of its configuration
    space in the cell it got; the functions whose cell was refused, and only they, are
    missing.  The cells are distinct live blocks, and the configuration space is only read. *)
Theorem pci_init_enumerates s L : let conf := pci_conf (io s) in
  ka_inv (heap_state (own s)) (heap_mem (own s)) L -> log_wf (klog s) ->
  exists s' L' replies, pci_init s = Some (tt, s') /\ scan_ok conf s' L' /\
    requests (length (present conf)) (heap_state (own s)) (heap_mem (own s)) = Some (replies, heap_state (own s'), heap_mem (own s')) /\
    pci_device_list (own s') = reverse (linked conf replies (present conf)) /\
    (0 ∉ replies -> (snd <$> pci_device_list (own s')) = reverse (described conf <$> present conf)).
Proof.
  intros conf Hh Hl. assert (Hw : forall x, is_u32 (conf x)) by (intros x; apply pci_word). unfold pci_init.
  destruct (say_info_ok "PCI: Initializing PCI bus enumeration" s Hl) as (l & E0 & Hl0). rewrite (run_bind _ _ _ _ _ E0).
  set (s1 := Driver (PciOwn [] (heap_state (own s)) (heap_mem (own s))) (io s) l : driver (pci_own St) P).
  rewrite (run_bind (set_own _) _ (with_log s l) tt s1 eq_refl).
  assert (Hs1 : scan_ok conf s1 L) by (split; [done|done|done|apply NoDup_nil_2|by intros a Ha%not_elem_of_nil]).
  destruct (read_byte_spec conf 0 0 0 PCI_REG_HEADER_TYPE Hw ltac:(done) s1 (so_conf _ _ _ Hs1)) as (p & E1 & C1).
  rewrite (run_bind _ _ _ _ _ E1). set (s2 := with_io s1 p). assert (Hs2 : scan_ok conf s2 L) by (destruct Hs1; by split).
  match goal with |- context [mbind _ (if ?c then ?a else ?b) s2] => assert (V : visits conf (if c then a else b) (present conf)) end.
  { unfold present, buses, many. destruct (Z.land _ 128 =? 0); cbn [negb].
    - change ([0] ≫= bus_functions conf) with (bus_functions conf 0 ++ []). rewrite app_nil_r. by apply check_bus_visits.
    - replace (filter (fun f => there conf 0 0 f = true) (seqZ 0 8) ≫= bus_functions conf)
        with (seqZ 0 8 ≫= fun f => if there conf 0 0 f then bus_functions conf f else []).
      + apply visits_each. intros f _. apply (visits_read conf _ _ _ _ (read_word_spec conf 0 0 f 0 Hw ltac:(lia))).
        change (conf_word conf 0 0 f (2 * 0)) with (conf_word conf 0 0 f PCI_REG_VENDOR_ID). unfold there.
        destruct (negb _); [by apply check_bus_visits|apply visits_ret].
      + induction (seqZ 0 8) as [|f fs IH]; [done|]. rewrite bind_cons, filter_cons, IH. by destruct (there conf 0 0 f). }
  destruct (V s2 L Hs2) as (s3 & L3 & replies & E3 & Hs3 & Hr & Hd). rewrite app_nil_r in Hd. rewrite (run_bind _ _ _ _ _ E3).
  rewrite (run_bind sget _ s3 s3 s3 eq_refl). set (n := Z.of_nat _).
  destruct (say_info_fmt_ok "PCI: Total devices found: %d" [AInt n] s3) as (l3 & E4 & Hl3); [renders|apply Hs3|].
  exists (with_log s3 l3), L3, replies. split; [exact E4|]. split; [destruct Hs3; by split|]. split; [exact Hr|]. split; [exact Hd|].
  intros Hn. cbn [own with_log]. rewrite Hd, fmap_reverse. f_equal. by apply linked_all; [|eapply requests_length].
Qed.

(** enabling bus mastering reads the double word of the command register, sets bit 2
    and writes all 32 bits back: the status register, the upper half, is written with
    what was read from it. *)
Theorem pci_bus_mastering_writes_status s d : 
  log_wf (klog s) -> let a := config_address (bus d) (device d) (function d) PCI_REG_COMMAND in
  exists s', pci_enable_bus_mastering (Some d) s = Some (tt, s') /\ own s' = own s /\
    forall x, pci_conf (io s') x = if x =? a then pci_effect a (pci_conf (io s) a) (Z.lor (pci_conf (io s) a) 4) else pci_conf (io s) x.
Proof.
  intros Hl a. set (conf := pci_conf (io s)). assert (Hw : forall x, is_u32 (conf x)) by (intros x; apply pci_word).
  unfold pci_enable_bus_mastering.
  destruct (read_word_spec conf (bus d) (device d) (function d) 2 Hw ltac:(lia) s (fun x => eq_refl)) as (p & E & C).
  change (2 * 2) with PCI_REG_COMMAND in E. rewrite (run_bind _ _ _ _ _ E). set (cmd := conf_word _ _ _ _ _) in *.
  assert (Hcmd : cmd = Z.land (conf a) 65535).
  { unfold cmd. change PCI_REG_COMMAND with (2 * 2). rewrite <- word_value by (done || apply Hw). by rewrite Z.shiftr_0_r. }
  destruct (pci_select p a) as (p1 & E1 & L1 & C1). destruct (pci_data_in p1) as (p2 & E2 & L2 & C2).
  assert (Hv : Z.lor (Z.land (conf a) (not32 (Z.shiftl 65535 0))) (Z.shiftl (Z.lor cmd 4) 0) = Z.lor (conf a) 4).
  { rewrite Hcmd, !Z.shiftl_0_r. change (not32 65535) with 4294901760. rewrite Z.lor_assoc, <- Z.land_lor_distr_r.
    change (Z.lor 4294901760 65535) with (Z.ones 32). rewrite Z.land_ones by lia. rewrite Z.mod_small by apply Hw. done. }
  assert (Hu : is_u32 (Z.lor (conf a) 4)).
  { unfold is_u32. replace (Z.lor (conf a) 4) with (Z.land (Z.lor (conf a) 4) (Z.ones 32)); [rewrite Z.land_ones by lia; apply Z.mod_pos_bound; lia|].
    rewrite Z.land_lor_distr_l. change (Z.land 4 (Z.ones 32)) with 4. rewrite Z.land_ones by lia. by rewrite Z.mod_small by apply Hw. }
  destruct (pci_data_out p2 _ Hu) as (p3 & E3 & C3).
  assert (Ew : pci_config_write_word (bus d) (device d) (function d) PCI_REG_COMMAND (Z.lor cmd 4) (with_io s p) = Some (tt, with_io s p3)).
  { unfold pci_config_write_word. rewrite (run_bind _ _ _ _ _ (on_io_eq _ (with_io s p) _ _ E1)).
    rewrite (run_bind _ _ _ _ _ (on_io_eq _ (with_io (with_io s p) p1) _ _ E2)). cbv zeta. change (Z.land PCI_REG_COMMAND 2 * 8) with 0.
    rewrite L1, C1, C. rewrite Hv. by rewrite (on_io_eq _ (with_io (with_io (with_io s p) p1) p2) _ _ E3). }
  rewrite (run_bind _ _ _ _ _ Ew).
  destruct (say_info_fmt_ok "PCI: Enabled bus mastering for %d:%d.%d" [AInt (bus d); AInt (device d); AInt (function d)] (with_io s p3))
    as (l & El & Hl'); [renders|done|].
  exists (with_log (with_io s p3) l). split; [exact El|]. split; [done|]. intros x. cbn [io with_log with_io].
  rewrite C3, L2, L1, C2, C1, C. destruct (Z.eqb_spec x a) as [->|]; done.
Qed.
End claims.

(** ** A host bridge *)

(** Function 0 and 3 of device 1 (which has many), and device 5, on bus 0. *)
Record bridge := Bridge { latch : Z; space : gmap Z Z }.
(** The status half of a command register is cleared by ones. *)
Definition bridge_effect (a old v : Z) : Z :=
  if Z.land a 252 =? PCI_REG_COMMAND
  then Z.lor (Z.land v 65535) (Z.land (Z.land old 4294901760) (not32 v)) else u32 v.
Definition bridge_conf (p : bridge) (a : Z) : Z := u32 (default 4294967295 (space p !! a)).
#[export] Instance bridge_ports : Ports bridge := {|
  inb _ _ := None; outb _ _ _ := None; inw _ _ := None; outw _ _ _ := None;
  inl port p := if port =? PCI_CONFIG_DATA then Some (bridge_conf p (latch p), p) else None;
  outl port v p :=
    if port =? PCI_CONFIG_ADDRESS then Some (tt, Bridge v (space p))
    else if port =? PCI_CONFIG_DATA then
      Some (tt, Bridge (latch p) (<[latch p := bridge_effect (latch p) (bridge_conf p (latch p)) v]> (space p)))
    else None;
  ticks _ := 0
|}.
#[export] Instance bridge_view : PciView bridge := {|
  pci_latch := latch; pci_conf := bridge_conf; pci_effect a old v := u32 (bridge_effect a old v)
|}.
#[export, refine] Instance bridge_laws : PciLaws bridge := {}.
Proof.
  - intros p a. apply u32_range.
  - intros p a. by eexists.
  - intros p. by exists p.
  - intros p v Hv. eexists. split; [done|]. intros x. cbn [pci_conf bridge_view]. unfold bridge_conf at 1. cbn [space].
    destruct (Z.eqb_spec x (pci_latch p)) as [->|Hne]; [by rewrite lookup_insert_eq|]. rewrite lookup_insert_ne; [done|]. intros He. by destruct Hne.
Defined.

(** The registers of a function that identify it. *)
Definition add_function (d f vendor class header : Z) (m : gmap Z Z) : gmap Z Z :=
  <[config_address 0 d f 0 := vendor]> (<[config_address 0 d f 4 := 2415919104]> (<[config_address 0 d f 8 := class]>
    (<[config_address 0 d f 12 := header]> m))).
Definition bridge0 : bridge :=
  Bridge 0 (add_function 0 0 306610310 100663298 0 (add_function 1 0 1879081094 100728832 8388608 (add_function 1 3 1896906886 109051907 0
    (add_function 5 0 252580134 33554435 0 ∅)))).
Definition pci0 : driver (pci_own heap) bridge :=
  Driver (PciOwn [] (heap_init ∅ 65536 262144).1.2 (heap_init ∅ 65536 262144).2) bridge0 log_init.

Example pci_scan : (fun s => (fun d => (device d.2, function d.2)) <$> pci_device_list (own (snd s))) <$> pci_init pci0 =
  Some [(5, 0); (1, 3); (1, 0); (0, 0)].
Proof. vm_compute. reflexivity. Qed.

Lemma pci0_heap : exists L, ka_inv (heap_state (own pci0)) (heap_mem (own pci0)) L.
Proof.
  exists (live_map (heap_state (own pci0)) [(262132, false)]). pose proof (heap_init_inv ∅ 65536 262144) as Hi.
  unfold pci0. cbn [own heap_state heap_mem]. destruct (heap_init ∅ 65536 262144) as [[a h] m]. cbn [fst snd].
  exists [(262132, false)]. split; [apply Hi; lia|]. split; [done|]. by intros b n ?%not_elem_of_nil.
Qed.

(** The heap grants all four cells. *)
Lemma pci_init_enumerates_witness : exists s', pci_init pci0 = Some (tt, s') /\
  (snd <$> pci_device_list (own s')) = reverse (described (pci_conf bridge0) <$> present (pci_conf bridge0)).
Proof.
  destruct pci0_heap as (L & Hh). destruct (pci_init_enumerates pci0 L Hh log_init_wf) as (s' & L' & replies & E & _ & Hr & _ & Hd).
  exists s'. split; [exact E|]. apply Hd.
  assert (Er : (fun x => x.1.1) <$> requests 4 (heap_state (own pci0)) (heap_mem (own pci0)) = Some [65548; 65604; 65660; 65716])
    by (vm_compute; reflexivity).
  assert (Hn : length (present (pci_conf (io pci0))) = 4%nat) by (vm_compute; reflexivity).
  cbv zeta in Hr. rewrite Hn in Hr. rewrite Hr in Er. cbn [fmap option_fmap option_map fst] in Er.
  assert (Hl : replies = [65548; 65604; 65660; 65716]) by (clear - Er; congruence). clear - Hl. rewrite Hl.
  intros Hin. repeat (apply elem_of_cons in Hin as [Hin|Hin]; [discriminate|]). by apply not_elem_of_nil in Hin.
Defined.

(** The status bits of device 5 that were set are lost. *)
Lemma pci_bus_mastering_writes_status_witness : exists s',
  pci_enable_bus_mastering (Some (described (pci_conf bridge0) (0, 5, 0))) pci0 = Some (tt, s') /\
  pci_conf (io s') (config_address 0 5 0 4) = 4.
Proof.
  destruct (pci_bus_mastering_writes_status pci0 (described (pci_conf bridge0) (0, 5, 0)) log_init_wf) as (s' & E & _ & Hc).
  exists s'. split; [exact E|]. rewrite (Hc (config_address 0 5 0 4)). vm_compute. reflexivity.
Defined.
