(* ===== verification/Ahci.v ===== *)
(** drivers/storage/ahci.c: the AHCI driver.

    The registers of the controller are in memory, at [abar]; the controller reads and
    writes memory by itself, so that an access to a register may change it ([Hba]).  The
    command lists and tables are ordinary memory from the heap, at the same linear and
    physical address.  The PCI driver provides the list of devices (Pci).

    The loops that wait for the controller have no bound in the code; [polls] is the number
    of turns after which the model gives up ([None]). *)

From S2P Require Import Prelude Mem CString KAlloc Heap Effects Console Log Ports Pci.
Local Open Scope Z_scope.

(** ** Definitions *)

Definition AHCI_HBA_GHC : Z := 4.
Definition AHCI_HBA_PI : Z := 12.
Definition AHCI_PORT_CLB : Z := 0.
Definition AHCI_PORT_CLBU : Z := 4.
Definition AHCI_PORT_FB : Z := 8.
Definition AHCI_PORT_FBU : Z := 12.
Definition AHCI_PORT_IS : Z := 16.
Definition AHCI_PORT_CMD : Z := 24.
Definition AHCI_PORT_TFD : Z := 32.
Definition AHCI_PORT_SIG : Z := 36.
Definition AHCI_PORT_SSTS : Z := 40.
Definition AHCI_PORT_SACT : Z := 52.
Definition AHCI_PORT_CI : Z := 56.
Definition AHCI_PORT_CMD_ST : Z := 1.
Definition AHCI_PORT_CMD_FRE : Z := 16.
Definition AHCI_PORT_CMD_FR : Z := 16384.
Definition AHCI_PORT_CMD_CR : Z := 32768.
Definition AHCI_GHC_AHCI_EN : Z := 2147483648.
Definition AHCI_DEV_NULL : Z := 0.
Definition AHCI_DEV_SATA : Z := 1.
Definition AHCI_DEV_SATAPI : Z := 2.
Definition AHCI_DEV_SEMB : Z := 3.
Definition AHCI_DEV_PM : Z := 4.
Definition AHCI_SIG_ATAPI : Z := 3943956737.
Definition AHCI_SIG_SEMB : Z := 3275489537.
Definition AHCI_SIG_PM : Z := 2523463937.
Definition FIS_TYPE_REG_H2D : Z := 39.
Definition ATA_CMD_READ_DMA_EX : Z := 37.
Definition ATA_CMD_WRITE_DMA_EX : Z := 53.
Definition ATA_CMD_IDENTIFY : Z := 236.
(** Sizes of a [fis_reg_h2d], a [hba_cmd_header], a [hba_prdt_entry] and a [hba_cmd_tbl], in
    which the entries begin at 128; a port's registers. *)
Definition FIS_BYTES : Z := 20.
Definition CMD_HEADER_BYTES : Z := 32.
Definition PRDT_ENTRY_BYTES : Z := 16.
Definition CMD_TBL_BYTES : Z := 144.
Definition PRDT_OFFSET : Z := 128.
Definition PORT_BYTES : Z := 128.
Definition PORTS_OFFSET : Z := 256.

Class Hba (P : Type) := {
  hba_read : Z -> ST (mem * P) Z;
  hba_write : Z -> Z -> ST (mem * P) unit
}.

Record ahci := Ahci {
  abar : Z;
  ahci_available : bool;
  port_device_type : list Z;
  port_size_sectors : list Z;
  pci : pci_own heap
}.

(** *** Commands in memory *)

Definition load16 (m : mem) (a : Z) : Z := load8 m a + 256 * load8 m (u32 (a + 1)).
Definition store16 (m : mem) (a v : Z) : mem := store8 (store8 m a (u8 v)) (u32 (a + 1)) (u8 (v / 256)).

(** The first byte of a header: [cfl] in five bits, [w] in bit 6. *)
Definition header_flags (b w : Z) : Z := Z.lor (Z.land (Z.lor (Z.land b 224) (FIS_BYTES / 4)) 191) (Z.shiftl w 6).
Definition store_header (m : mem) (header w prdtl : Z) : mem :=
  store16 (store8 m header (header_flags (load8 m header) w)) (u32 (header + 2)) (u16 prdtl).

(** One entry: 22 bits of [dbc], and [i]. *)
Definition store_entry (m : mem) (a dba dbc : Z) : mem :=
  let m := store32 (store32 m a dba) (u32 (a + 4)) 0 in
  let w := load32 m (u32 (a + 12)) in
  let w := Z.lor (Z.land w 4290772992) (Z.land (u32 dbc) 4194303) in
  store32 m (u32 (a + 12)) (Z.lor w 2147483648).

(** The loop that fills all the entries but the last: [n] entries from [i] on. *)
Fixpoint store_entries (n : nat) (m : mem) (table i buffer count : Z) : mem * Z * Z * Z :=
  match n with
  | O => (m, i, buffer, count)
  | S n => store_entries n (store_entry m (u32 (table + PRDT_OFFSET + PRDT_ENTRY_BYTES * i)) buffer (8 * 1024 - 1)) table (i + 1) (u32 (buffer + 8 * 1024)) (u16 (count - 16))
  end.

Definition store_fis (m : mem) (table command : Z) : mem :=
  let m := memset m table 0 FIS_BYTES in
  let m := store8 m table FIS_TYPE_REG_H2D in
  let m := store8 m (u32 (table + 1)) (Z.lor (load8 m (u32 (table + 1))) 128) in
  store8 m (u32 (table + 2)) command.
Definition store_lba (m : mem) (table lba count : Z) : mem :=
  let m := store8 m (u32 (table + 4)) (u8 lba) in
  let m := store8 m (u32 (table + 5)) (u8 (Z.shiftr lba 8)) in
  let m := store8 m (u32 (table + 6)) (u8 (Z.shiftr lba 16)) in
  let m := store8 m (u32 (table + 7)) (Z.shiftl 1 6) in
  let m := store8 m (u32 (table + 8)) (u8 (Z.shiftr lba 24)) in
  let m := store8 m (u32 (table + 9)) (u8 (Z.shiftr lba 32)) in
  let m := store8 m (u32 (table + 10)) (u8 (Z.shiftr lba 40)) in
  store16 m (u32 (table + 12)) count.

(** What [ahci_read_sectors] and [ahci_write_sectors] store between the choice of a slot and
    the wait for the device; [header] is the header of the slot. *)
Definition build_command (m : mem) (header w command lba count buffer : Z) : mem :=
  let m := store_header m header w (Z.quot (count - 1) 16 + 1) in
  let prdtl := load16 m (u32 (header + 2)) in
  let table := load32 m (u32 (header + 8)) in
  let m := memset m table 0 (CMD_TBL_BYTES + PRDT_ENTRY_BYTES * prdtl) in
  let '(m, i, buffer, count) := store_entries (Z.to_nat (prdtl - 1)) m table 0 buffer count in
  let m := store_entry m (u32 (table + PRDT_OFFSET + PRDT_ENTRY_BYTES * i)) buffer (count * 512 - 1) in
  store_lba (store_fis m table command) table lba count.
(** The same for [ahci_identify_device]. *)
Definition build_identify (m : mem) (header buffer : Z) : mem :=
  let m := store_header m header 0 1 in
  let table := load32 m (u32 (header + 8)) in
  let m := memset m table 0 (CMD_TBL_BYTES + PRDT_ENTRY_BYTES * 8) in
  let m := store_entry m (u32 (table + PRDT_OFFSET)) buffer (512 - 1) in
  store_fis m table ATA_CMD_IDENTIFY.

(** What the controller reads of a command: an entry of the table (address, its upper half,
    length, interrupt) and the command of a header. *)
Definition prdt (m : mem) (a : Z) : Z * Z * Z * bool :=
  (load32 m a, load32 m (a + 4), Z.land (load32 m (a + 12)) 4194303 + 1, Z.testbit (load32 m (a + 12)) 31).
Record hba_command := HbaCommand {
  fis_words : Z;                           (** [cfl] *)
  to_device : bool;                        (** [w] *)
  segments : list (Z * Z * Z * bool);
  fis_type : Z;
  is_command : bool;                       (** [c] of the FIS *)
  opcode : Z;
  device_bits : Z;
  first_sector : Z;
  sector_count : Z
}.
Definition fis_lba (m : mem) (table : Z) : Z :=
  load8 m (table + 4) + 2 ^ 8 * load8 m (table + 5) + 2 ^ 16 * load8 m (table + 6)
  + 2 ^ 24 * load8 m (table + 8) + 2 ^ 32 * load8 m (table + 9) + 2 ^ 40 * load8 m (table + 10).
Definition read_command (m : mem) (header : Z) : hba_command :=
  let table := load32 m (header + 8) in
  HbaCommand (Z.land (load8 m header) 31) (Z.testbit (load8 m header) 6)
    ((fun k => prdt m (table + PRDT_OFFSET + PRDT_ENTRY_BYTES * k)) <$> seqZ 0 (load16 m (header + 2)))
    (load8 m table) (Z.testbit (load8 m (table + 1)) 7) (load8 m (table + 2)) (load8 m (table + 7))
    (fis_lba m table) (load16 m (table + 12)).
(** The pieces of [count] sectors at [buffer]: 16 sectors each, but the last. *)
Definition pieces (buffer count : Z) : list (Z * Z * Z * bool) :=
  (fun k => (buffer + 8192 * k, 0, Z.min 8192 (512 * count - 8192 * k), true)) <$> seqZ 0 ((count - 1) / 16 + 1).

Definition total (l : list (Z * Z * Z * bool)) : Z := foldr (fun s t => snd (fst s) + t) 0 l.

(** *** The driver *)

Section driver.
Context {P : Type} `{Ports P} `{Hba P}.
Notation D := (ST (driver ahci P)).
Implicit Types (s : driver ahci P).
Variable polls : nat.

Definition mem_of s : mem := heap_mem (pci (own s)).
Definition with_pci (o : ahci) (p : pci_own heap) : ahci := Ahci (abar o) (ahci_available o) (port_device_type o) (port_size_sectors o) p.
Definition with_mem s (m : mem) : driver ahci P :=
  let p := pci (own s) in with_own s (with_pci (own s) (PciOwn (pci_device_list p) (heap_state p) m)).
Definition on_mem (f : mem -> mem) : D unit := smod (fun s => with_mem s (f (mem_of s))).
Definition on_hba {A} (m : ST (mem * P) A) : D A :=
  zoom (fun s => (mem_of s, io s)) (fun x s => with_io (with_mem s (fst x)) (snd x)) m.
Definition on_pci {A} (m : ST (driver (pci_own heap) P) A) : D A :=
  zoom (fun s => Driver (pci (own s)) (io s) (klog s)) (fun d s => Driver (with_pci (own s) (own d)) (io d) (klog d)) m.
Definition set_type (i v : Z) : D unit := set_own (fun o => Ahci (abar o) (ahci_available o) (<[Z.to_nat i := v]> (port_device_type o)) (port_size_sectors o) (pci o)).
Definition set_sectors (i v : Z) : D unit := set_own (fun o => Ahci (abar o) (ahci_available o) (port_device_type o) (<[Z.to_nat i := v]> (port_size_sectors o)) (pci o)).

(** The registers of a port. *)
Definition port_reg (i reg : Z) : D Z := s ← sget; mret (u32 (abar (own s) + PORTS_OFFSET + PORT_BYTES * i + reg)).
Definition rd (i reg : Z) : D Z := a ← port_reg i reg; on_hba (hba_read a).
Definition wr (i reg v : Z) : D unit := a ← port_reg i reg; on_hba (hba_write a v).
(** [port->reg = f(port->reg)] *)
Definition update (i reg : Z) (f : Z -> Z) : D unit := v ← rd i reg; wr i reg (u32 (f v)).
Definition aligned_block (size align : Z) : D Z := fun s =>
  let p := pci (own s) in
  match kmalloc_aligned (heap_state p) (heap_mem p) size align with
  | Some (a, h, m) => Some (a, with_own s (with_pci (own s) (PciOwn (pci_device_list p) h m)))
  | None => None
  end.

Definition ahci_check_type (i : Z) : D Z :=
  ssts ← rd i AHCI_PORT_SSTS;
  let ipm := Z.land (Z.shiftr ssts 8) 15 in
  let det := Z.land ssts 15 in
  if negb (det =? 3) || negb (ipm =? 1) then mret AHCI_DEV_NULL else
  sig ← rd i AHCI_PORT_SIG;
  mret (if sig =? AHCI_SIG_ATAPI then AHCI_DEV_SATAPI else if sig =? AHCI_SIG_SEMB then AHCI_DEV_SEMB
        else if sig =? AHCI_SIG_PM then AHCI_DEV_PM else AHCI_DEV_SATA).

Fixpoint wait_stopped (fuel : nat) (i : Z) : D unit :=
  match fuel with
  | O => sfault
  | S fuel =>
      c ← rd i AHCI_PORT_CMD;
      if negb (Z.land c AHCI_PORT_CMD_FR =? 0) then wait_stopped fuel i else
      c ← rd i AHCI_PORT_CMD;
      if negb (Z.land c AHCI_PORT_CMD_CR =? 0) then wait_stopped fuel i else mret tt
  end.
Definition ahci_stop_cmd (i : Z) : D unit :=
  _ ← update i AHCI_PORT_CMD (fun c => Z.land c (not32 AHCI_PORT_CMD_ST));
  _ ← update i AHCI_PORT_CMD (fun c => Z.land c (not32 AHCI_PORT_CMD_FRE));
  wait_stopped polls i.

Fixpoint wait_idle (fuel : nat) (i : Z) : D unit :=
  match fuel with
  | O => sfault
  | S fuel => c ← rd i AHCI_PORT_CMD; if negb (Z.land c AHCI_PORT_CMD_CR =? 0) then wait_idle fuel i else mret tt
  end.
Definition ahci_start_cmd (i : Z) : D unit :=
  _ ← wait_idle polls i;
  _ ← update i AHCI_PORT_CMD (fun c => Z.lor c AHCI_PORT_CMD_FRE);
  update i AHCI_PORT_CMD (fun c => Z.lor c AHCI_PORT_CMD_ST).

(** The first free slot of [slots], -1 when there is none. *)
Definition free_slot (slots : Z) : Z :=
  match find (fun i => negb (Z.testbit slots i)) (seqZ 0 32) with Some i => i | None => -1 end.
Definition ahci_find_cmdslot (i : Z) : D Z :=
  sact ← rd i AHCI_PORT_SACT; ci ← rd i AHCI_PORT_CI; mret (free_slot (Z.lor sact ci)).

Definition ahci_port_rebase (i : Z) : D unit :=
  _ ← ahci_stop_cmd i;
  clb ← aligned_block 1024 1024;
  _ ← wr i AHCI_PORT_CLB clb; _ ← wr i AHCI_PORT_CLBU 0;
  _ ← on_mem (fun m => memset m clb 0 1024);
  fb ← aligned_block 256 256;
  _ ← wr i AHCI_PORT_FB fb; _ ← wr i AHCI_PORT_FBU 0;
  _ ← on_mem (fun m => memset m fb 0 256);
  cmdheader ← rd i AHCI_PORT_CLB;
  _ ← each (fun k =>
        let h := u32 (cmdheader + CMD_HEADER_BYTES * k) in
        _ ← on_mem (fun m => store16 m (u32 (h + 2)) 8);
        ctba ← aligned_block 256 256;
        on_mem (fun m => memset (store32 (store32 m (u32 (h + 8)) ctba) (u32 (h + 12)) 0) ctba 0 256)) (seqZ 0 32);
  ahci_start_cmd i.

(** [while ((tfd & (BSY | DRQ)) && spin < 1000000)]: the value of [spin] at the end. *)
Fixpoint wait_ready (n : nat) (i spin : Z) : D Z :=
  tfd ← rd i AHCI_PORT_TFD;
  if Z.land tfd 136 =? 0 then mret spin else
  match n with O => mret spin | S n => wait_ready n i (spin + 1) end.
Definition SPINS : Z := 1000000.

(** [true] when the command has completed, [false] when the device reports an error. *)
Fixpoint wait_done (fuel : nat) (i slot : Z) : D bool :=
  match fuel with
  | O => sfault
  | S fuel =>
      ci ← rd i AHCI_PORT_CI;
      if negb (Z.testbit ci slot) then mret true else
      st ← rd i AHCI_PORT_IS;
      if Z.testbit st 30 then mret false else wait_done fuel i slot
  end.

Definition error (msg : string) : D unit := say_log (fun now => log_error now (Some (str msg))).

(** A command from the choice of a slot to its end; [build] stores it at its header. *)
Definition run_command (i : Z) (build : Z -> mem -> mem) (no_slot hung failed : D unit) : D Z :=
  _ ← wr i AHCI_PORT_IS 4294967295;
  slot ← ahci_find_cmdslot i;
  if slot =? -1 then _ ← no_slot; mret (-1) else
  clb ← rd i AHCI_PORT_CLB;
  _ ← on_mem (build (u32 (clb + CMD_HEADER_BYTES * slot)));
  spin ← wait_ready (Z.to_nat SPINS) i 0;
  if spin =? SPINS then _ ← hung; mret (-1) else
  _ ← wr i AHCI_PORT_CI (u32 (Z.shiftl 1 slot));
  ok ← wait_done polls i slot;
  if ok : bool then mret 0 else _ ← failed; mret (-1).

Definition type_of s (port : Z) : Z := default 0 (port_device_type (own s) !! Z.to_nat port).

Definition ahci_identify_device (port buffer : Z) : D Z :=
  s ← sget;
  if negb (ahci_available (own s)) || (32 <=? port) then _ ← say_error_fmt "Invalid port number %d for IDENTIFY" [AInt port]; mret (-1) else
  if negb (type_of s port =? AHCI_DEV_SATA) then _ ← say_error_fmt "No SATA device at port %d for IDENTIFY" [AInt port]; mret (-1) else
  run_command port (fun header m => build_identify m header buffer)
    (error "Cannot find free command slot") (error "Port is hung") (error "IDENTIFY command failed").

(** The sectors of a drive from the words of its IDENTIFY data. *)
Definition word_of (m : mem) (buffer i : Z) : Z := load16 m (u32 (buffer + 2 * i)).
Definition identified_size (m : mem) (b : Z) : Z :=
  let size := Z.lor (Z.lor (Z.lor (Z.shiftl (word_of m b 103) 48) (Z.shiftl (word_of m b 102) 32)) (Z.shiftl (word_of m b 101) 16)) (word_of m b 100) in
  if size =? 0 then Z.lor (Z.shiftl (word_of m b 61) 16) (word_of m b 60) else size.

(** [identify_buf] is the array of 256 words on the stack. *)
Variable identify_buf : Z.
Definition probe_port (i : Z) : D unit :=
  dt ← ahci_check_type i;
  _ ← set_type i (u8 dt);
  if dt =? AHCI_DEV_SATA then
    _ ← say_info_fmt "SATA drive found at port %d" [AInt i];
    _ ← ahci_port_rebase i;
    r ← ahci_identify_device i identify_buf;
    if r =? 0 then
      s ← sget;
      let size := identified_size (mem_of s) identify_buf in
      _ ← set_sectors i size;
      say_info_fmt "  Size: %u MB (%llu sectors)" [AInt (u32 ((size * 512) mod 2 ^ 64 / (1024 * 1024))); AInt (u32 size); AInt (u32 (size / 2 ^ 32))]
    else mret tt
  else if dt =? AHCI_DEV_SATAPI then say_info_fmt "SATAPI drive found at port %d" [AInt i]
  else if dt =? AHCI_DEV_SEMB then say_info_fmt "SEMB device found at port %d" [AInt i]
  else if dt =? AHCI_DEV_PM then say_info_fmt "Port multiplier found at port %d" [AInt i]
  else mret tt.
Definition ahci_probe_ports : D unit :=
  s ← sget;
  pi ← on_hba (hba_read (u32 (abar (own s) + AHCI_HBA_PI)));
  each (fun i => if Z.testbit pi i then probe_port i else mret tt) (seqZ 0 32).

Definition ahci_init : D Z :=
  _ ← say_info "Initializing AHCI driver";
  _ ← set_own (fun o => Ahci (abar o) (ahci_available o) (replicate 32 0) (replicate 32 0) (pci o));
  s ← sget;
  match pci_find_device_by_class 1 6 (Driver (pci (own s)) (io s) (klog s)) with
  | None => _ ← say_log (fun now => log_warn now (Some (str "No AHCI controller found"))); mret (-1)
  | Some (_, dev) =>
      _ ← say_info_fmt "Found AHCI controller (vendor: 0x%x, device: 0x%x)" [AInt (vendor_id dev); AInt (device_id dev)];
      let bar5 := bar dev !!! 5%nat in
      if (bar5 =? 0) || (bar5 =? 4294967295) then _ ← error "Invalid BAR5 address"; mret (-1) else
      _ ← set_own (fun o => Ahci (Z.land bar5 4294967280) (ahci_available o) (port_device_type o) (port_size_sectors o) (pci o));
      _ ← say_info_fmt "AHCI ABAR at 0x%x" [AInt (Z.land bar5 4294967280)];
      command ← on_pci (pci_config_read_word (bus dev) (device dev) (function dev) PCI_REG_COMMAND);
      _ ← on_pci (pci_config_write_word (bus dev) (device dev) (function dev) PCI_REG_COMMAND (Z.lor command 4));
      s ← sget;
      let ghc := u32 (abar (own s) + AHCI_HBA_GHC) in
      v ← on_hba (hba_read ghc);
      _ ← on_hba (hba_write ghc (Z.lor v AHCI_GHC_AHCI_EN));
      _ ← ahci_probe_ports;
      _ ← set_own (fun o => Ahci (abar o) true (port_device_type o) (port_size_sectors o) (pci o));
      _ ← say_info "AHCI driver initialized successfully";
      mret 0
  end.

(** A transfer; [lba] is a [uint64_t] and [count] a [uint16_t]. *)
Definition transfer (w command port lba count buffer : Z) : D Z :=
  s ← sget;
  if negb (ahci_available (own s)) || (32 <=? port) then mret (-1) else
  if negb (type_of s port =? AHCI_DEV_SATA) then mret (-1) else
  run_command port (fun header m => build_command m header w command lba count buffer) (mret tt) (mret tt) (mret tt).
Definition ahci_read_sectors (port lba count buffer : Z) : D Z := transfer 0 ATA_CMD_READ_DMA_EX port lba count buffer.
Definition ahci_write_sectors (port lba count buffer : Z) : D Z := transfer 1 ATA_CMD_WRITE_DMA_EX port lba count buffer.

Definition ahci_port_exists (port : Z) : D bool :=
  s ← sget;
  if negb (ahci_available (own s)) || (32 <=? port) then _ ← say_warn "Invalid port number %d for existence check" port; mret false
  else mret (type_of s port =? AHCI_DEV_SATA).
Definition ahci_get_port_size (port : Z) : D Z :=
  s ← sget;
  if negb (ahci_available (own s)) || (32 <=? port) then _ ← say_warn "Invalid port number %d for size query" port; mret 0
  else if negb (type_of s port =? AHCI_DEV_SATA) then _ ← say_warn "No SATA device at port %d for size query" port; mret 0
  else mret (default 0 (port_size_sectors (own s) !! Z.to_nat port)).
End driver.

(** ** Commands in memory *)

Lemma load16_store16_eq m a v : 0 <= a < 4294967295 -> load16 (store16 m a v) a = u16 v.
Proof.
  intros Ha. unfold load16, store16. rewrite !(u32_small (a + 1)) by lia. memsimp.
  unfold u8, u16. zdm.
Qed.

Lemma frame_store16 lo len m a v : 0 <= a < 4294967295 -> lo <= a -> a + 2 <= lo + len -> frame lo len m (store16 m a v).
Proof.
  intros Ha ??. unfold store16. rewrite (u32_small (a + 1)) by lia.
  eapply frame_trans; apply frame_store8; lia.
Qed.

Lemma load16_same m m' a : 0 <= a < 4294967295 -> same_range a 2 m m' -> load16 m' a = load16 m a.
Proof. intros Ha H. unfold load16. rewrite (u32_small (a + 1)) by lia. by rewrite !H by lia. Qed.

Lemma prdt_same m m' a : same_range a 16 m m' -> prdt m' a = prdt m a.
Proof. intros H. unfold prdt. by rewrite !(load32_same m m') by (eapply same_range_sub; [exact H|lia..]). Qed.

Lemma land_u32_low x : Z.land (u32 x) 4194303 = Z.land x 4194303.
Proof. change 4194303 with (Z.ones 22). rewrite !Z.land_ones by lia. unfold u32. change (2 ^ 22) with 4194304. zdm. Qed.

Lemma entry_low w d : Z.land (Z.lor (Z.lor (Z.land w 4290772992) (Z.land d 4194303)) 2147483648) 4194303 = d mod 4194304.
Proof.
  rewrite !Z.land_lor_distr_l, <- !Z.land_assoc. change (Z.land 4290772992 4194303) with 0.
  change (Z.land 4194303 4194303) with 4194303. change (Z.land 2147483648 4194303) with 0.
  rewrite Z.land_0_r, Z.lor_0_l, Z.lor_0_r. change 4194303 with (Z.ones 22). by rewrite Z.land_ones by lia.
Qed.

Lemma store_entry_frame m a dba dbc : 0 <= a -> a + 16 <= 4294967296 -> frame a 16 m (store_entry m a dba dbc).
Proof.
  intros ??. unfold store_entry. rewrite !u32_small by lia.
  repeat (eapply frame_trans; [|apply frame_store32; lia]). apply frame_refl.
Qed.

Lemma store_entry_prdt m a dba dbc : 0 <= a -> a + 16 <= 4294967296 -> is_u32 dba ->
  prdt (store_entry m a dba dbc) a = (dba, 0, u32 dbc mod 4194304 + 1, true).
Proof.
  intros ?? Hd. unfold store_entry, prdt. rewrite !(u32_small (a + _)) by lia. memsimp.
  rewrite (u32_small dba) by exact Hd. rewrite land_u32_low, entry_low, u32_testbit by lia.
  rewrite Z.lor_spec. change (Z.testbit 2147483648 31) with true. by rewrite orb_true_r.
Qed.

(** The entries that the loop has filled. *)
Lemma store_entries_spec n : forall m table i buffer count,
  0 <= table -> 0 <= i -> table + 128 + 16 * (i + Z.of_nat n) <= 4294967296 ->
  0 <= buffer -> buffer + 8192 * Z.of_nat n < 4294967296 -> 0 <= count - 16 * Z.of_nat n -> count < 65536 ->
  exists m', store_entries n m table i buffer count = (m', i + Z.of_nat n, buffer + 8192 * Z.of_nat n, count - 16 * Z.of_nat n)
    /\ frame (table + 128 + 16 * i) (16 * Z.of_nat n) m m'
    /\ forall k, i <= k < i + Z.of_nat n -> prdt m' (table + 128 + 16 * k) = (buffer + 8192 * (k - i), 0, 8192, true).
Proof.
  induction n as [|n IH]; intros m table i buffer count ???????.
  { exists m. split; [|split; [apply frame_refl|lia]]. cbn [store_entries]. f_equal; [f_equal; [f_equal|]|]; lia. }
  cbn [store_entries]. unfold PRDT_OFFSET, PRDT_ENTRY_BYTES, u16.
  rewrite !u32_small, Z.mod_small by lia.
  edestruct (IH (store_entry m (table + 128 + 16 * i) buffer (8 * 1024 - 1)) table (i + 1) (buffer + 8 * 1024) (count - 16))
    as (m' & -> & Hf & Hp); [lia..|].
  exists m'. split; [f_equal; [f_equal; [f_equal|]|]; lia|]. split.
  - eapply frame_trans; [eapply frame_weaken; [apply store_entry_frame|..]|eapply frame_weaken; [exact Hf|..]]; lia.
  - intros k Hk. destruct (decide (k = i)) as [->|].
    + rewrite (prdt_same (store_entry m (table + 128 + 16 * i) buffer (8 * 1024 - 1))).
      * rewrite store_entry_prdt by (lia || unfold is_u32; lia). f_equal. f_equal. f_equal. lia.
      * eapply frame_same; [exact Hf|lia].
    + rewrite Hp by lia. f_equal. f_equal. f_equal. lia.
Qed.

(** Stores that stay in a range of memory. *)
Ltac frames :=
  repeat match goal with
  | |- frame _ _ ?m ?m => apply frame_refl
  | |- frame _ _ _ (store8 _ _ _) => eapply frame_trans; [|apply frame_store8; lia]
  | |- frame _ _ _ (store16 _ _ _) => eapply frame_trans; [|apply frame_store16; lia]
  | |- frame _ _ _ (memset _ _ _ _) => eapply frame_trans; [|eapply frame_weaken; [apply frame_memset; lia|lia..]]
  end.

(** The bytes of the FIS. *)
Lemma store_fis_bytes m t command : 0 <= t -> t + 20 <= 4294967296 -> is_u8 command ->
  let m' := store_fis m t command in
  frame t 20 m m' /\ load8 m' t = 39 /\ Z.testbit (load8 m' (t + 1)) 7 = true /\ load8 m' (t + 2) = command.
Proof.
  intros Ht Ht' Hc m'. unfold m', store_fis, FIS_TYPE_REG_H2D, FIS_BYTES. clear m'.
  rewrite !(u32_small (t + _)) by lia. split; [frames|]. memsimp.
  rewrite load8_memset by lia. rcases. rewrite (u8_small command) by exact Hc. done.
Qed.

Lemma store_lba_bytes m t lba count : 0 <= t -> t + 20 <= 4294967296 -> 0 <= lba < 2 ^ 48 -> 0 <= count < 65536 ->
  let m' := store_lba m t lba count in
  frame (t + 4) 10 m m' /\ load8 m' (t + 7) = 64 /\ fis_lba m' t = lba /\ load16 m' (t + 12) = count.
Proof.
  intros Ht Ht' Hl Hn m'. unfold m', store_lba, fis_lba. clear m'.
  rewrite !(u32_small (t + _)) by lia. change (Z.shiftl 1 6) with 64. split; [frames|].
  rewrite load16_store16_eq by lia. unfold store16. rewrite (u32_small (t + 12 + 1)) by lia. memsimp.
  rewrite !Z.shiftr_div_pow2 by lia. split; [done|]. split; [|unfold u16; zdm].
  change (2 ^ 48) with 281474976710656 in Hl.
  change (2 ^ 8) with 256; change (2 ^ 16) with 65536; change (2 ^ 24) with 16777216; change (2 ^ 32) with 4294967296; change (2 ^ 40) with 1099511627776.
  unfold u8. clear -Hl. zdm.
Qed.

Lemma header_flags_read b w : w = 0 \/ w = 1 ->
  Z.land (u8 (header_flags b w)) 31 = 5 /\ Z.testbit (u8 (header_flags b w)) 6 = (w =? 1).
Proof.
  intros Hw. unfold header_flags, u8. change (FIS_BYTES / 4) with 5. split.
  - change 31 with (Z.ones 5). rewrite Z.land_ones by lia. change (2 ^ 5) with 32.
    replace (_ mod 256 mod 32) with (Z.land (Z.lor (Z.land (Z.lor (Z.land b 224) 5) 191) (Z.shiftl w 6)) (Z.ones 5)).
    + rewrite !Z.land_lor_distr_l, <- !Z.land_assoc. change (Z.land 191 (Z.ones 5)) with 31.
      change (Z.land 224 31) with 0. rewrite Z.land_0_r.
      by destruct Hw as [-> | ->].
    + rewrite Z.land_ones by lia. change (2 ^ 5) with 32. zdm.
  - change 256 with (2 ^ 8). rewrite Z.mod_pow2_bits_low, Z.lor_spec, Z.land_spec by lia.
    change (Z.testbit 191 6) with false. rewrite andb_false_r. by destruct Hw as [-> | ->].
Qed.

(** A header with its table apart, and room for [n] entries. *)
Definition command_area (m : mem) (header n : Z) : Prop :=
  let table := load32 m (header + 8) in
  0 <= header /\ header + 32 <= 4294967296 /\ table + 144 + 16 * n <= 4294967296
  /\ (header + 32 <= table \/ table + 144 + 16 * n <= header).

Lemma store_header_spec m header w n : 0 <= header -> header + 32 <= 4294967296 -> 0 <= n < 65536 -> w = 0 \/ w = 1 ->
  let m' := store_header m header w n in
  frame header 4 m m' /\ Z.land (load8 m' header) 31 = 5 /\ Z.testbit (load8 m' header) 6 = (w =? 1)
  /\ load16 m' (header + 2) = n /\ load32 m' (header + 8) = load32 m (header + 8).
Proof.
  intros ??? Hw. cbv zeta. unfold store_header. rewrite (u32_small (header + 2)) by lia.
  assert (Hf : frame header 4 m (store16 (store8 m header (header_flags (load8 m header) w)) (header + 2) (u16 n))) by frames.
  split; [exact Hf|]. rewrite load16_store16_eq by lia. unfold u16 in *. rewrite !Z.mod_small by (try apply Z.mod_pos_bound; lia).
  split; [|split; [|split; [done|]]].
  - unfold store16. rewrite (u32_small (header + 2 + 1)) by lia. memsimp. by apply header_flags_read.
  - unfold store16. rewrite (u32_small (header + 2 + 1)) by lia. memsimp. by apply header_flags_read.
  - rewrite Z.mod_small in Hf by lia. eapply frame_load32; [exact Hf|lia].
Qed.

(** The pieces cover the buffer. *)
Lemma pieces_from buffer t n : forall a, 8192 * (a + Z.of_nat n) < t <= 8192 * (a + Z.of_nat n + 1) ->
  total ((fun k => (buffer + 8192 * k, 0, Z.min 8192 (t - 8192 * k), true)) <$> seqZ a (Z.of_nat n + 1)) = t - 8192 * a.
Proof.
  induction n as [|n IH]; intros a Ht.
  - rewrite seqZ_cons by lia. rewrite seqZ_nil by lia. cbn. lia.
  - rewrite seqZ_cons by lia. replace (Z.pred (Z.of_nat (S n) + 1)) with (Z.of_nat n + 1) by lia.
    cbn [fmap list_fmap total foldr fst snd]. unfold total in IH. rewrite IH by lia. lia.
Qed.

Lemma pieces_total buffer count : 1 <= count -> total (pieces buffer count) = 512 * count.
Proof.
  intros Hc. unfold pieces. replace ((count - 1) / 16) with (Z.of_nat (Z.to_nat ((count - 1) / 16))) by zdm.
  rewrite pieces_from by zdm. lia.
Qed.

(** The entries of a table whose last one has just been stored. *)
Lemma table_entries m m' table buffer count n :
  n = (count - 1) / 16 -> 1 <= count < 65536 -> 0 <= buffer -> buffer + 512 * count <= 4294967296 ->
  (forall k, 0 <= k < n -> prdt m' (table + 128 + 16 * k) = (buffer + 8192 * k, 0, 8192, true)) ->
  0 <= table -> table + 144 + 16 * n <= 4294967296 ->
  m = store_entry m' (table + 128 + 16 * n) (buffer + 8192 * n) ((count - 16 * n) * 512 - 1) ->
  (fun k => prdt m (table + PRDT_OFFSET + PRDT_ENTRY_BYTES * k)) <$> seqZ 0 (n + 1) = pieces buffer count.
Proof.
  intros Hn Hc Hb Hb' Hp Ht Ht' ->. unfold pieces. rewrite <- Hn. unfold PRDT_OFFSET, PRDT_ENTRY_BYTES.
  apply list_fmap_ext. intros i k [Hk Hi]%lookup_seqZ. rewrite Z.add_0_l in Hk. subst k.
  destruct (decide (Z.of_nat i = n)) as [E|E].
  - rewrite E. rewrite store_entry_prdt by (unfold is_u32; zdm). f_equal. f_equal.
    rewrite u32_small by zdm. rewrite Z.mod_small by zdm. zdm.
  - rewrite (prdt_same m') by (eapply frame_same; [apply store_entry_frame; zdm|lia]).
    rewrite Hp by lia. f_equal. f_equal. zdm.
Qed.

(** C13: the command that a read or a write of [count] sectors at sector [lba] stores is the one that the controller must execute: five words of FIS, the right direction and opcode, the 48-bit sector number, and entries that cut the buffer into consecutive pieces of 8 KB, the last one for the rest, which together cover exactly the 512 * [count] bytes; nothing else in memory changes than the header's first word and the table.  The number of sectors in the FIS is however what the loop over the entries has left of [count]: it is [count] only up to 16 sectors. *)
Theorem ahci_command_describes_transfer m header w command lba count buffer :
  1 <= count < 65536 -> command_area m header ((count - 1) / 16 + 1) -> w = 0 \/ w = 1 -> is_u8 command -> 0 <= lba < 2 ^ 48 ->
  0 <= buffer -> buffer + 512 * count <= 4294967296 ->
  let m' := build_command m header w command lba count buffer in
  let n := (count - 1) / 16 in
  read_command m' header = HbaCommand 5 (w =? 1) (pieces buffer count) FIS_TYPE_REG_H2D true command 64 lba (count - 16 * n)
  /\ total (pieces buffer count) = 512 * count
  /\ forall a, ~ (header <= a < header + 4) -> ~ (load32 m (header + 8) <= a < load32 m (header + 8) + 144 + 16 * (n + 1)) -> load8 m' a = load8 m a.
Proof.
  intros Hc Ha Hw Hcmd Hl Hb Hb'. cbv zeta.
  remember ((count - 1) / 16) as n eqn:Hn. assert (0 <= n <= 4095 /\ 16 * n < count <= 16 * n + 16) as [Hn1 Hn2] by zdm.
  unfold command_area in Ha. set (table := load32 m (header + 8)) in *.
  destruct Ha as (Hh & Hh' & Ht' & Hdis). pose proof (load32_range m (header + 8)) as Ht. fold table in Ht.
  unfold build_command. rewrite Z.quot_div_nonneg, <- Hn by lia.
  destruct (store_header_spec m header w (n + 1)) as (Hf1 & Hcfl & Hdir & Hn' & Htab); [lia..|done|].
  set (m1 := store_header m header w (n + 1)) in *. rewrite !(u32_small (header + _)) by lia.
  rewrite Hn', Htab. fold table. unfold CMD_TBL_BYTES, PRDT_ENTRY_BYTES.
  set (m2 := memset m1 table 0 (144 + 16 * (n + 1))). replace (n + 1 - 1) with n by lia.
  destruct (store_entries_spec (Z.to_nat n) m2 table 0 buffer count) as (m3 & -> & Hf3 & Hp3); [lia..|].
  rewrite !Z2Nat.id in * by lia. rewrite !Z.add_0_l in *. unfold PRDT_OFFSET. rewrite (u32_small (table + _ + _)) by lia.
  set (m4 := store_entry m3 (table + 128 + 16 * n) (buffer + 8192 * n) ((count - 16 * n) * 512 - 1)).
  pose proof (store_entry_frame m3 (table + 128 + 16 * n) (buffer + 8192 * n) ((count - 16 * n) * 512 - 1) ltac:(lia) ltac:(lia)) as Hf4. fold m4 in Hf4.
  destruct (store_fis_bytes m4 table command) as (Hf5 & Htype & Hcbit & Hop); [lia..|done|]. set (m5 := store_fis m4 table command) in *.
  destruct (store_lba_bytes m5 table lba (count - 16 * n)) as (Hf6 & Hdev & Hlba & Hcnt); [lia..|]. set (m6 := store_lba m5 table lba (count - 16 * n)) in *.
  assert (Hout : frame table (144 + 16 * (n + 1)) m1 m6).
  { eapply frame_trans; [apply frame_memset; lia|]. fold m2.
    eapply frame_trans; [eapply frame_weaken; [exact Hf3|lia..]|]. eapply frame_trans; [eapply frame_weaken; [exact Hf4|lia..]|].
    eapply frame_trans; [eapply frame_weaken; [exact Hf5|lia..]|]. eapply frame_weaken; [exact Hf6|lia..]. }
  split; [|split; [apply pieces_total; lia|]].
  - unfold read_command.
    rewrite (frame_load32 _ _ _ _ (header + 8) Hout), Htab by lia. fold table.
    rewrite (Hout header) by lia. rewrite (load16_same m1 m6 (header + 2)) by (lia || (eapply frame_same; [exact Hout|lia])).
    rewrite Hcfl, Hdir, Hn', Hdev, Hlba, Hcnt. rewrite !(Hf6 table), !(Hf6 (table + 1)), !(Hf6 (table + 2)) by lia.
    rewrite Htype, Hcbit, Hop. f_equal.
    rewrite <- (table_entries m4 m3 table buffer count n) by (done || lia || (intros; rewrite Hp3 by lia; repeat f_equal; lia)).
    apply list_fmap_ext. intros i k [Hk Hi]%lookup_seqZ. apply prdt_same. unfold PRDT_OFFSET, PRDT_ENTRY_BYTES.
    intros a Ha. rewrite (Hf6 a), (Hf5 a) by lia. done.
  - intros a Ha1 Ha2. rewrite (Hout a), (Hf1 a) by lia. done.
Qed.

(** ** Sizes *)

Section sizes.
Context {P : Type} `{Ports P} `{Hba P}.
Implicit Types (s : driver ahci P).

(** Before [ahci_init] has ended. *)
Definition starting s : Prop := ahci_available (own s) = false /\ port_size_sectors (own s) = replicate 32 0.

Lemma say_ends (I : driver ahci P -> Prop) f : (forall s l, I s -> I (with_log s l)) -> keeps I (say_log f).
Proof. intros H1 s a s' Hs E. unfold say_log in E. destruct (f _ _); [|done]. injection E as <- <-. by apply H1. Qed.

Lemma keeps_say f : keeps starting (say_log (P := P) f).
Proof. apply say_ends. by intros. Qed.

Lemma keeps_block n align : keeps starting (aligned_block (P := P) n align).
Proof. intros s a s' Hs E. unfold aligned_block in E. destruct (kmalloc_aligned _ _ _ _) as [[[??]?]|]; [|done]. by injection E as <- <-. Qed.

Ltac kept :=
  repeat match goal with
  | |- ends _ _ (mret _) => apply keeps_ret
  | |- ends _ _ sfault => apply keeps_fault
  | |- ends _ _ sget => apply keeps_get
  | |- ends _ _ (mbind _ _) => apply keeps_bind; [|intros ?]
  | |- ends _ _ (if ?b then _ else _) => destruct b
  | |- ends _ _ (each _ _) => apply keeps_each; intros ?
  | |- ends _ _ (smod _) => apply keeps_mod; by intros ?
  | |- ends _ _ (zoom _ _ _) => apply keeps_zoom; by intros ?
  | |- ends _ _ (aligned_block _ _) => apply keeps_block
  | |- ends _ _ (say_log _) => apply keeps_say
  | |- forall _, _ => intros ?
  | H : ends _ _ ?m |- ends _ _ ?m => exact H
  | H : forall _, ends _ _ _ |- ends _ _ _ => apply H
  | |- ends _ _ ?m => let f := head m in unfold f
  end.

Lemma keeps_rebase polls i : keeps starting (ahci_port_rebase (P := P) polls i).
Proof.
  assert (Hs : forall fuel, keeps starting (wait_stopped (P := P) fuel i)) by (induction fuel; cbn [wait_stopped]; kept).
  assert (Hi : forall fuel, keeps starting (wait_idle (P := P) fuel i)) by (induction fuel; cbn [wait_idle]; kept).
  unfold ahci_port_rebase, ahci_stop_cmd, ahci_start_cmd. kept.
Qed.
Lemma keeps_say_error fmt args : keeps starting (say_error_fmt (P := P) fmt args).
Proof. apply keeps_say. Qed.

(** A function that refuses on its first test. *)
Lemma refuses_first {D} (b : bool) (k : ST D Z) (m : ST D unit) (s : D) (r : Z) (s' : D) : b = true ->
  (if b then _ ← m; mret (-1) else k) s = Some (r, s') -> r = -1 /\ m s = Some (tt, s').
Proof. intros ->. unfold mbind, ST_bind. destruct (m s) as [[[] s1]|]; [|done]. by intros [= <- <-]. Qed.

Lemma keeps_identify polls port buffer s r s' : starting s ->
  ahci_identify_device polls port buffer s = Some (r, s') -> r = -1 /\ starting s'.
Proof.
  intros Hs E. unfold ahci_identify_device in E. rewrite run_get in E.
  apply refuses_first in E as [-> E]; [|by rewrite (proj1 Hs)]. split; [done|]. by eapply keeps_say_error.
Qed.

Lemma keeps_probe polls buffer i : keeps starting (probe_port (P := P) polls buffer i).
Proof.
  pose proof (keeps_rebase polls i) as Hr. unfold probe_port.
  apply keeps_bind; [kept|]. intros dt. apply keeps_bind; [kept|]. intros _. destruct (dt =? AHCI_DEV_SATA); [|kept].
  apply keeps_bind; [kept|]. intros _. apply keeps_bind; [exact Hr|]. intros _ s a s' Hs.
  unfold mbind at 1, ST_bind at 1. destruct (ahci_identify_device _ _ _ s) as [[r s1]|] eqn:E; [|done].
  apply keeps_identify in E as [-> Hs1]; [|done]. by intros [= <- <-].
Qed.

(** [ahci_init] leaves every drive at 0 sectors, whatever the controller answers: while it probes the ports, [ahci_available] is still false, so that [ahci_identify_device] refuses every port and no size is ever stored. *)
Theorem ahci_sizes_stay_unknown polls buffer s r s' : ahci_available (own s) = false ->
  ahci_init (P := P) polls buffer s = Some (r, s') -> port_size_sectors (own s') = replicate 32 0.
Proof.
  revert s r s'. change (ends (fun s => ahci_available (own s) = false) (fun s => port_size_sectors (own s) = replicate 32 0) (ahci_init (P := P) polls buffer)).
  pose proof (keeps_probe polls buffer) as Hp. unfold ahci_init.
  apply (ends_bind _ (fun s => ahci_available (own s) = false)); [apply say_ends; by intros|]. intros _.
  apply (ends_bind _ starting); [intros s a s' Hs [= <- <-]; by split|]. intros _.
  apply (ends_bind _ starting); [apply keeps_get|]. intros s0.
  destruct (pci_find_device_by_class 1 6 _) as [[n dev]|]; [|apply (ends_weaken _ starting); [kept|by intros ? []]].
  apply (ends_bind _ starting); [kept|]. intros _.
  destruct (_ || _); [apply (ends_weaken _ starting); [kept|by intros ? []]|].
  unfold ahci_probe_ports.
  repeat (apply (ends_bind _ starting); [kept; fail|intros ?]).
  apply (ends_bind _ (fun s => port_size_sectors (own s) = replicate 32 0)); [intros s a8 s' [_ Hs] [= <- <-]; exact Hs|]. intros _.
  apply (ends_bind _ (fun s => port_size_sectors (own s) = replicate 32 0)); [apply say_ends; by intros|]. intros _. apply keeps_ret.
Qed.
End sizes.

(** ** Witnesses *)

(** A table at 8192 for the header at 4096, and a read of 20 sectors: the FIS asks for 4. *)
Definition demo_area : mem := store32 ∅ 4104 8192.

Lemma ahci_command_describes_transfer_witness :
  command_area demo_area 4096 2 /\
  read_command (build_command demo_area 4096 0 ATA_CMD_READ_DMA_EX 1000 20 65536) 4096 =
    HbaCommand 5 false [(65536, 0, 8192, true); (73728, 0, 2048, true)] 39 true 37 64 1000 4.
Proof.
  assert (Ha : command_area demo_area 4096 ((20 - 1) / 16 + 1)).
  { unfold command_area. change (load32 demo_area (4096 + 8)) with (load32 (store32 ∅ 4104 8192) 4104). rewrite load32_store32_eq. vm_compute. intuition discriminate. }
  split; [exact Ha|].
  destruct (ahci_command_describes_transfer demo_area 4096 0 ATA_CMD_READ_DMA_EX 1000 20 65536) as [E _];
    [lia|exact Ha|by left|unfold is_u8, ATA_CMD_READ_DMA_EX; lia|lia..|].
  rewrite E. reflexivity.
Defined.

(** A controller whose registers keep what is stored in them, with a drive at port 0. *)
Definition memory_hba : Hba unit := {|
  hba_read a := fun s => Some (load32 (fst s) a, s);
  hba_write a v := fun s => Some (tt, (store32 (fst s) a v, snd s))
|}.
Definition demo_registers : mem :=
  foldr (fun r m => store32 m (1048576 + fst r) (snd r)) (heap_init ∅ 65536 65536).2
    [(AHCI_HBA_PI, 1); (256 + AHCI_PORT_SSTS, 275); (256 + AHCI_PORT_SIG, 257)].
Definition demo_ahci : driver ahci unit :=
  Driver (Ahci 0 false [] [] (PciOwn [(0, PciDevice 0 1 0 32902 10530 1 6 1 2 11 1 [0; 0; 0; 0; 0; 1048576])] (heap_init ∅ 65536 65536).1.2 demo_registers)) tt log_init.

Lemma demo_init : (fun p => (fst p, port_device_type (own (snd p)) !! 0%nat)) <$> ahci_init (H0 := memory_hba) 10 4096 demo_ahci = Some (0, Some AHCI_DEV_SATA).
Proof. vm_compute. reflexivity. Qed.

(** The driver finds the drive and sets its command list up, but its size stays 0. *)
Lemma ahci_sizes_stay_unknown_witness : exists s', ahci_init (H0 := memory_hba) 10 4096 demo_ahci = Some (0, s') /\
  port_device_type (own s') !! 0%nat = Some AHCI_DEV_SATA /\ port_size_sectors (own s') !! 0%nat = Some 0.
Proof.
  pose proof demo_init as ([r s'] & E & Hr)%fmap_Some. cbn [fst snd] in Hr. injection Hr as Hr Ht. rewrite <- Hr in E.
  exists s'. split; [exact E|]. split; [by rewrite <- Ht|].
  by rewrite (ahci_sizes_stay_unknown 10 4096 demo_ahci 0 s' eq_refl E).
Defined.
