(* ===== verification/Acpi.v ===== *)
(** drivers/bus/acpi.c: the search for the ACPI tables that the firmware leaves in memory,
    and the parser of the table of interrupt controllers (MADT).

    The file acpi.c ends its lines with carriage returns alone: for the manifest it is one
    line.  The code only reads memory, so that memory is a parameter; the variables of the driver
    and the kernel log are its state (Ports). *)

From S2P Require Import Prelude Mem CString Codec Effects Console Log Ports.
Local Open Scope Z_scope.

(** ** Definitions *)

Definition ACPI_RSDP_SIGNATURE : string := "RDS PTR ".
Definition ACPI_RSDP_ALIGN : Z := 16.
Definition ACPI_SIG_MADT : Z := 1128878145.
Definition ACPI_SIG_FADT : Z := 1346584902.
Definition ACPI_MADT_TYPE_LOCAL_APIC : Z := 0.
Definition ACPI_MADT_TYPE_IO_APIC : Z := 1.
Definition ACPI_MADT_TYPE_INT_OVERRIDE : Z := 2.
(** Sizes of a [acpi_sdt_header] and of a [acpi_madt] without its entries; the place of
    [rsdt_address] in a [acpi_rdsp]; of [dsdt] in a [acpi_fadt]. *)
Definition SDT_HEADER_BYTES : Z := 36.
Definition MADT_BYTES : Z := 44.
Definition RSDT_ADDRESS : Z := 16.
Definition FADT_DSDT : Z := 40.

Record acpi := Acpi {
  rsdp : Z;
  rsdt : Z;
  acpi_available : bool;
  cpu_count : Z;
  local_apic_addr : Z;
  io_apic_addr : Z
}.
Definition acpi_start : acpi := Acpi 0 0 false 0 0 0.

(** The places where the RSDP is searched for: 0xE0000 to 0xFFFFF in steps of 16. *)
Definition rsdp_places : list Z := (fun i => 917504 + ACPI_RSDP_ALIGN * i) <$> seqZ 0 8192.

Section acpi.
Context {P : Type} `{Ports P}.
Variable m : mem.
Notation D := (ST (driver acpi P)).
Implicit Types (s : driver acpi P).

Definition set_rsdp (v : Z) : D unit := set_own (fun o => Acpi v (rsdt o) (acpi_available o) (cpu_count o) (local_apic_addr o) (io_apic_addr o)).
Definition set_rsdt (v : Z) : D unit := set_own (fun o => Acpi (rsdp o) v (acpi_available o) (cpu_count o) (local_apic_addr o) (io_apic_addr o)).
Definition set_available (v : bool) : D unit := set_own (fun o => Acpi (rsdp o) (rsdt o) v (cpu_count o) (local_apic_addr o) (io_apic_addr o)).
Definition set_cpus (v : Z) : D unit := set_own (fun o => Acpi (rsdp o) (rsdt o) (acpi_available o) v (local_apic_addr o) (io_apic_addr o)).
Definition set_local (v : Z) : D unit := set_own (fun o => Acpi (rsdp o) (rsdt o) (acpi_available o) (cpu_count o) v (io_apic_addr o)).
Definition set_io (v : Z) : D unit := set_own (fun o => Acpi (rsdp o) (rsdt o) (acpi_available o) (cpu_count o) (local_apic_addr o) v).
Definition warn (msg : string) : D unit := say_log (fun now => log_warn now (Some (str msg))).
Definition error (msg : string) : D unit := say_log (fun now => log_error now (Some (str msg))).

(** The [n] bytes at [a]. *)
Definition read_bytes (a : Z) (n : nat) : list Z := (fun i => load8 m (u32 (a + i))) <$> seqZ 0 (Z.of_nat n).
Definition word_at (a : Z) : Z := load32 m (u32 a).

Definition acpi_checksum (data length : Z) : bool := foldl (fun sum b => u8 (sum + b)) 0 (read_bytes data (Z.to_nat length)) =? 0.

(** [memcmp(ptr, ACPI_RSDP_SIGNATURE, 8) == 0] and the checksum. *)
Definition is_rsdp (ptr : Z) : bool := bool_decide (read_bytes ptr 8 = str ACPI_RSDP_SIGNATURE) && acpi_checksum ptr 20.
Definition acpi_find_rsdp : Z := default 0 (find is_rsdp rsdp_places).

(** One entry of the MADT, at [ptr]. *)
Definition parse_entry (ptr : Z) : D unit :=
  let type := load8 m ptr in
  if type =? ACPI_MADT_TYPE_LOCAL_APIC then
    if Z.testbit (word_at (ptr + 4)) 0 then
      s ← sget;
      _ ← set_cpus (u32 (cpu_count (own s) + 1));
      say_info_fmt "ACPI: Found CPU - Processor ID: %d, APIC ID: %d" [AInt (load8 m (u32 (ptr + 2))); AInt (load8 m (u32 (ptr + 3)))]
    else mret tt
  else if type =? ACPI_MADT_TYPE_IO_APIC then
    _ ← set_io (word_at (ptr + 4));
    say_info_fmt "ACPI: Found I/O APIC - ID: %d, Address: 0x%x" [AInt (load8 m (u32 (ptr + 2))); AInt (word_at (ptr + 4))]
  else if type =? ACPI_MADT_TYPE_INT_OVERRIDE then say_info "ACPI: Found Interrupt Override entry"
  else mret tt.
Fixpoint parse_entries (fuel : nat) (ptr end_ : Z) : D unit :=
  if negb (ptr <? end_) then mret tt else
  match fuel with
  | O => sfault
  | S fuel =>
      _ ← parse_entry ptr;
      let length := load8 m (u32 (ptr + 1)) in
      if length =? 0 then mret tt else parse_entries fuel (u32 (ptr + length)) end_
  end.
Definition acpi_parse_madt (madt : Z) : D unit :=
  if madt =? 0 then mret tt else
  _ ← set_local (word_at (madt + 36));
  _ ← set_cpus 0;
  let end_ := u32 (madt + word_at (madt + 4)) in
  _ ← parse_entries (Z.to_nat (word_at (madt + 4))) (u32 (madt + MADT_BYTES)) end_;
  s ← sget;
  say_info_fmt "ACPI: CPU Count: %d, Local APIC: 0x%x, IO APIC: 0x%x" [AInt (cpu_count (own s)); AInt (local_apic_addr (own s)); AInt (io_apic_addr (own s))].

(** [(rsdt->header.length - sizeof(struct acpi_sdt_header)) / 4], unsigned. *)
Definition entry_count (rsdt : Z) : Z := u32 (word_at (rsdt + 4) - SDT_HEADER_BYTES) / 4.
Definition table_at (rsdt i : Z) : Z := word_at (rsdt + SDT_HEADER_BYTES + 4 * i).
Fixpoint find_table_from (n : nat) (i rsdt signature : Z) : D Z :=
  match n with
  | O => mret 0
  | S n =>
      let header := table_at rsdt i in
      if word_at header =? signature then
        if acpi_checksum header (word_at (header + 4)) then mret header else
        _ ← say_error_fmt "ACPI: Table with signature %.4s has invalid checksum" [AStr (Some (le32 signature))];
        find_table_from n (i + 1) rsdt signature
      else find_table_from n (i + 1) rsdt signature
  end.
Definition acpi_find_table (signature : Z) : D Z :=
  s ← sget;
  if rsdt (own s) =? 0 then mret 0 else find_table_from (Z.to_nat (entry_count (rsdt (own s)))) 0 (rsdt (own s)) signature.

Definition acpi_init : D unit :=
  _ ← say_info "ACPI: Initializing ACPI subsystem";
  _ ← set_rsdp acpi_find_rsdp;
  if acpi_find_rsdp =? 0 then _ ← warn "ACPI: RSDP not found, ACPI not available"; set_available false else
  _ ← say_info_fmt "ACPI: RSDP found at address %p" [AInt acpi_find_rsdp];
  let table := word_at (acpi_find_rsdp + RSDT_ADDRESS) in
  _ ← set_rsdt table;
  if (table =? 0) || negb (acpi_checksum table (word_at (table + 4))) then
    _ ← error "ACPI: RSDT checksum invalid or RSDT not accessible, ACPI not available"; set_available false
  else
  _ ← say_info "ACPI: RSDT checksum valid";
  _ ← set_available true;
  _ ← say_info_fmt "ACPI: Parsing RSDT with length %d" [AInt (word_at (table + 4))];
  madt ← acpi_find_table ACPI_SIG_MADT;
  _ ← (if negb (madt =? 0) then _ ← say_info "ACPI: MADT found, parsing entries"; acpi_parse_madt madt
       else warn "ACPI: MADT not found");
  fadt ← acpi_find_table ACPI_SIG_FADT;
  if negb (fadt =? 0) then say_info_fmt "ACPI: FADT found, DSDT Address: 0x%x" [AInt (word_at (fadt + FADT_DSDT))]
  else warn "ACPI: FADT not found".

Definition acpi_is_available : D bool := s ← sget; mret (acpi_available (own s)).
Definition acpi_get_cpu_count : D Z := s ← sget; mret (cpu_count (own s)).
Definition acpi_get_local_apic_address : D Z := s ← sget; mret (local_apic_addr (own s)).
Definition acpi_get_io_apic_address : D Z := s ← sget; mret (io_apic_addr (own s)).

(** The lines of one table. *)
Definition list_table (header : Z) : D unit :=
  let sig := AStr (Some (until_nul (read_bytes header 4))) in
  _ ← (if negb (acpi_checksum header (word_at (header + 4))) then say_error_fmt "ACPI: Table %.4s has invalid checksum" [sig]
       else say_info_fmt "ACPI: Table %.4s checksum valid" [sig]);
  _ ← say_info_fmt "ACPI: Table %.4s Length: %d" [sig; AInt (word_at (header + 4))];
  _ ← say_info_fmt "OEM ID: %.6s, OEM Table ID: %.8s" [AStr (Some (read_bytes (header + 10) 6)); AStr (Some (read_bytes (header + 16) 8))];
  say_info_fmt "Creator ID: 0x%x, Creator Revision: 0x%x" [AInt (word_at (header + 28)); AInt (word_at (header + 32))].
Definition acpi_list_tables : D unit :=
  s ← sget;
  let r := rsdt (own s) in
  if r =? 0 then say_log (fun now => log_info now (Some (str "ACPI not available" ++ [NL]))) else
  _ ← say_log (fun now => log_info now (Some ([NL] ++ str "ACPI Tables:" ++ [NL])));
  _ ← say_log (fun now => log_info now (Some (str "============" ++ [NL])));
  _ ← each (fun i => list_table (table_at r i)) (seqZ 0 (entry_count r));
  say_log (fun now => log_info_fmt now (str "Total ACPI Tables: %d" ++ [NL]) [AInt (entry_count r)]).
End acpi.

(** ** Tables *)

(** The entries of a MADT. *)
Inductive madt_entry :=
| LocalApic (processor apic flags : Z)
| IoApic (id address gsi_base : Z)
| Other (type : Z) (payload : list Z).

Definition encode_entry (e : madt_entry) : list Z :=
  match e with
  | LocalApic p a f => [0; 8; p; a] ++ le32 f
  | IoApic i a g => [1; 12; i; 0] ++ le32 a ++ le32 g
  | Other t l => t :: 2 + Z.of_nat (length l) :: l
  end.
Definition entry_ok (e : madt_entry) : Prop :=
  match e with
  | LocalApic _ _ f => is_u32 f
  | IoApic _ a _ => is_u32 a
  | Other t l => t <> 0 /\ t <> 1 /\ (length l <= 253)%nat
  end.
Definition enabled (e : madt_entry) : bool := match e with LocalApic _ _ f => Z.testbit f 0 | _ => false end.
Definition io_address (old : Z) (e : madt_entry) : Z := match e with IoApic _ a _ => a | _ => old end.
Definition size_of (es : list madt_entry) : Z := Z.of_nat (length (es ≫= encode_entry)).

(** The MADT at [madt] holds the entries [es]. *)
Definition madt_holds (m : mem) (madt : Z) (es : list madt_entry) : Prop :=
  0 < madt /\ madt + MADT_BYTES + size_of es + 256 < 4294967296 /\ word_at m (madt + 4) = MADT_BYTES + size_of es /\
  Forall entry_ok es /\ CString.bytes_at m (madt + MADT_BYTES) (es ≫= encode_entry).

(** The tables that the RSDT at [r] lists; the first with a signature and a valid checksum. *)
Definition tables (m : mem) (r : Z) : list Z := table_at m r <$> seqZ 0 (entry_count m r).
Definition is_table (m : mem) (signature h : Z) : bool := (word_at m h =? signature) && acpi_checksum m h (word_at m (h + 4)).
Definition first_table (m : mem) (r signature : Z) : option Z := find (is_table m signature) (tables m r).
Section proofs.
Context {P : Type} `{Ports P}.
Variable m : mem.
Implicit Types (s : driver acpi P).

(** From [s] the computation returns, leaves the devices alone and the log well formed, and
    ends with the variables [o]. *)
Definition leaves {A} (c : ST (driver acpi P) A) s (a : A) (o : acpi) : Prop :=
  exists s', c s = Some (a, s') /\ io s' = io s /\ log_wf (klog s') /\ own s' = o.

Lemma leaves_ret {A} (a : A) s : log_wf (klog s) -> leaves (mret a) s a (own s).
Proof. intros Hw. by exists s. Qed.

Lemma leaves_bind {A B} (c : ST (driver acpi P) A) (k : A -> ST (driver acpi P) B) s a o b o' :
  leaves c s a o -> (forall s', io s' = io s -> log_wf (klog s') -> own s' = o -> leaves (k a) s' b o') -> leaves (mbind k c) s b o'.
Proof.
  intros (s1 & E & Hio & Hw & Ho) Hk. destruct (Hk s1 Hio Hw Ho) as (s2 & E2 & Hio2 & Hw2 & Ho2).
  exists s2. split; [by rewrite (run_bind _ _ _ _ _ E)|]. split; [by rewrite Hio2|done].
Qed.

Lemma leaves_set s f : log_wf (klog s) -> leaves (set_own f) s tt (f (own s)).
Proof. intros Hw. by exists (with_own s (f (own s))). Qed.

Lemma leaves_get s : log_wf (klog s) -> leaves sget s s (own s).
Proof. intros Hw. by exists s. Qed.

Lemma leaves_log (f : Z -> log -> option log) s : log_wf (klog s) ->
  (forall now l, log_wf l -> exists l', f now l = Some l' /\ log_wf l') -> leaves (say_log f) s tt (own s).
Proof.
  intros Hw Hf. destruct (Hf (ticks (io s)) _ Hw) as (l & E & Hl). exists (with_log s l). split; [|done]. unfold say_log. by rewrite E.
Qed.

Lemma leaves_fmt fmt args s : printable_fmt fmt args -> log_wf (klog s) -> leaves (say_info_fmt fmt args) s tt (own s).
Proof. intros Hf Hw. destruct (say_info_fmt_ok fmt args s Hf Hw) as (l & E & Hl). by exists (with_log s l). Qed.

Lemma leaves_error_fmt fmt args s : printable_fmt fmt args -> log_wf (klog s) -> leaves (say_error_fmt fmt args) s tt (own s).
Proof. intros Hf Hw. destruct (say_error_fmt_ok fmt args s Hf Hw) as (l & E & Hl). by exists (with_log s l). Qed.

Lemma leaves_info msg s : log_wf (klog s) -> leaves (say_info msg) s tt (own s).
Proof. intros Hw. destruct (say_info_ok msg s Hw) as (l & E & Hl). by exists (with_log s l). Qed.

Lemma leaves_warn msg s : log_wf (klog s) -> leaves (warn msg) s tt (own s).
Proof. intros Hw. apply leaves_log; [done|]. intros now l Hl. unfold log_warn. destruct (log_write_spec now LOG_LEVEL_WARN (str msg) l Hl) as (l' & -> & Hl' & _). eauto. Qed.

Lemma leaves_failed msg s : log_wf (klog s) -> leaves (error msg) s tt (own s).
Proof. intros Hw. apply leaves_log; [done|]. intros now l Hl. unfold log_error. destruct (log_write_spec now LOG_LEVEL_ERROR (str msg) l Hl) as (l' & -> & Hl' & _). eauto. Qed.

(** *** The search for a table *)

Lemma find_table_from_spec n : forall i r signature s, log_wf (klog s) ->
  leaves (find_table_from m n i r signature) s (default 0 (find (is_table m signature) (table_at m r <$> seqZ i (Z.of_nat n)))) (own s).
Proof.
  induction n as [|n IH]; intros i r signature s Hw; [by apply leaves_ret|].
  rewrite seqZ_cons by lia. replace (Z.pred (Z.of_nat (S n))) with (Z.of_nat n) by lia. rewrite <- Z.add_1_r.
  cbn [find_table_from fmap list_fmap find]. unfold is_table at 1.
  destruct (word_at m (table_at m r i) =? signature); [|by apply IH]. cbn [andb].
  destruct (acpi_checksum m (table_at m r i) (word_at m (table_at m r i + 4))); [by apply leaves_ret|].
  eapply leaves_bind; [apply leaves_error_fmt; [renders|done]|]. intros s' _ Hw' <-. by apply IH.
Qed.

Lemma find_table_spec signature s : log_wf (klog s) ->
  leaves (acpi_find_table m signature) s (if rsdt (own s) =? 0 then 0 else default 0 (first_table m (rsdt (own s)) signature)) (own s).
Proof.
  intros Hw.
  change (leaves (if rsdt (own s) =? 0 then mret 0 else find_table_from m (Z.to_nat (entry_count m (rsdt (own s)))) 0 (rsdt (own s)) signature) s
    (if rsdt (own s) =? 0 then 0 else default 0 (first_table m (rsdt (own s)) signature)) (own s)).
  destruct (rsdt (own s) =? 0); [by apply leaves_ret|]. unfold first_table, tables.
  replace (entry_count m (rsdt (own s))) with (Z.of_nat (Z.to_nat (entry_count m (rsdt (own s))))) at 2; [by apply find_table_from_spec|].
  unfold entry_count. pose proof (u32_range (word_at m (rsdt (own s) + 4) - SDT_HEADER_BYTES)). zdm.
Qed.

(** *** The MADT *)

Lemma bytes_word a v l : CString.bytes_at m a (le32 v ++ l) -> is_u32 v -> 0 <= a < 4294967296 -> word_at m a = v /\ CString.bytes_at m (a + 4) l.
Proof.
  intros (H0 & H1 & H2 & H3 & Hl) Hv Ha. unfold word_at, load32. rewrite u32_small by lia.
  replace (a + 1 + 1 + 1) with (a + 3) in * by lia. replace (a + 1 + 1) with (a + 2) in * by lia. replace (a + 3 + 1) with (a + 4) in * by lia.
  split; [|done]. rewrite H0, H1, H2, H3, bytes_of_u32. by apply u32_small.
Qed.

(** What an entry does to the variables. *)
Definition apply_entry (o : acpi) (e : madt_entry) : acpi :=
  Acpi (rsdp o) (rsdt o) (acpi_available o) (if enabled e then u32 (cpu_count o + 1) else cpu_count o) (local_apic_addr o) (io_address (io_apic_addr o) e).

Lemma acpi_eta o : Acpi (rsdp o) (rsdt o) (acpi_available o) (cpu_count o) (local_apic_addr o) (io_apic_addr o) = o.
Proof. by destruct o. Qed.

Lemma apply_other o t l : apply_entry o (Other t l) = o.
Proof. by destruct o. Qed.

Lemma encode_length e : entry_ok e -> 2 <= Z.of_nat (length (encode_entry e)) <= 255.
Proof. destruct e; intros He; cbn [encode_entry length app le32] in *; [lia..|]. destruct He as (_ & _ & He). lia. Qed.

Lemma encode_head e : entry_ok e -> exists t l, encode_entry e = t :: Z.of_nat (length (encode_entry e)) :: l.
Proof. destruct e; intros He; [by do 2 eexists..|]. cbn [encode_entry length]. do 2 eexists. repeat f_equal. lia. Qed.

Lemma parse_entry_spec e ptr s : entry_ok e -> 0 <= ptr -> ptr + 256 < 4294967296 -> CString.bytes_at m ptr (encode_entry e) -> log_wf (klog s) ->
  leaves (parse_entry m ptr) s tt (apply_entry (own s) e).
Proof.
  intros He Hp Hp' Hb Hw. unfold parse_entry.
  destruct e as [p a f|i a g|t l]; cbn [encode_entry app CString.bytes_at] in Hb.
  - destruct Hb as (-> & _ & Hb2 & Hb3 & Hb).
    replace (ptr + 1 + 1 + 1 + 1) with (ptr + 4) in Hb by lia. rewrite <- (app_nil_r (le32 f)) in Hb.
    destruct (bytes_word _ _ _ Hb He ltac:(lia)) as [-> _]. cbn -[Z.testbit apply_entry say_info_fmt]. unfold apply_entry. cbn [enabled io_address].
    destruct (Z.testbit f 0); [|rewrite acpi_eta; by apply leaves_ret].
    eapply leaves_bind; [by apply leaves_get|]. intros s1 _ Hw1 E1.
    eapply leaves_bind; [by apply leaves_set|]. intros s2 _ Hw2 E2. rewrite E1 in E2. rewrite <- E2. apply leaves_fmt; [renders|done].
  - destruct Hb as (-> & _ & Hb2 & Hb3 & Hb).
    replace (ptr + 1 + 1 + 1 + 1) with (ptr + 4) in Hb by lia.
    destruct (bytes_word _ _ _ Hb He ltac:(lia)) as [-> _]. cbn -[Z.testbit apply_entry say_info_fmt]. unfold apply_entry. cbn [enabled io_address].
    eapply leaves_bind; [by apply leaves_set|]. intros s2 _ Hw2 E2. rewrite <- E2. apply leaves_fmt; [renders|done].
  - destruct Hb as (-> & _). destruct He as (H0 & H1 & _). rewrite apply_other.
    unfold ACPI_MADT_TYPE_LOCAL_APIC, ACPI_MADT_TYPE_IO_APIC. rewrite (proj2 (Z.eqb_neq t 0)), (proj2 (Z.eqb_neq t 1)) by done.
    destruct (t =? _); [by apply leaves_info|by apply leaves_ret].
Qed.

Lemma size_cons e es : size_of (e :: es) = Z.of_nat (length (encode_entry e)) + size_of es.
Proof. unfold size_of. cbn [mbind list_bind]. rewrite length_app. lia. Qed.

(** The loop applies the entries in order; it needs one round per entry. *)
Lemma parse_entries_spec es : forall fuel ptr s, Forall entry_ok es -> 0 <= ptr -> ptr + size_of es + 256 < 4294967296 -> (length es <= fuel)%nat ->
  CString.bytes_at m ptr (es ≫= encode_entry) -> log_wf (klog s) ->
  leaves (parse_entries m fuel ptr (ptr + size_of es)) s tt (foldl apply_entry (own s) es).
Proof.
  induction es as [|e es IH]; intros fuel ptr s He Hp Hp' Hf Hb Hw.
  { assert (E : ptr <? ptr + size_of [] = false) by (change (size_of []) with 0; lia). destruct fuel; cbn [parse_entries]; rewrite E; by apply leaves_ret. }
  apply Forall_cons in He as [He Hes]. pose proof (encode_length e He) as Hl. rewrite size_cons in *.
  assert (Hz : 0 <= size_of es) by (unfold size_of; lia).
  cbn [mbind list_bind] in Hb. apply CString.bytes_at_app in Hb as [Hb Hb'].
  destruct fuel as [|fuel]; cbn [length] in Hf; [lia|]. cbn [parse_entries].
  replace (ptr <? _) with true by lia. cbn [negb].
  eapply leaves_bind; [apply (parse_entry_spec e); [done..|lia|done|done]|]. intros s1 _ Hw1 E1.
  destruct (encode_head e He) as (t & l & E). rewrite E in Hb. cbn [CString.bytes_at] in Hb. destruct Hb as (_ & Hb & _).
  rewrite (u32_small (ptr + 1)) by lia. rewrite Hb. cbn zeta. replace (_ =? 0) with false by lia. rewrite u32_small by lia.
  rewrite Z.add_assoc. cbn [foldl]. rewrite <- E1. apply IH; [done|lia|lia|lia|done|done].
Qed.

Lemma apply_entries o es : foldl apply_entry o es =
  Acpi (rsdp o) (rsdt o) (acpi_available o) (foldl (fun n e => if enabled e then u32 (n + 1) else n) (cpu_count o) es) (local_apic_addr o) (foldl io_address (io_apic_addr o) es).
Proof. revert o. induction es as [|e es IH]; intros o; [by destruct o|]. cbn [foldl]. by rewrite IH. Qed.

Lemma count_enabled es : forall n, 0 <= n -> n + Z.of_nat (length es) < 4294967296 ->
  foldl (fun n e => if enabled e then u32 (n + 1) else n) n es = n + Z.of_nat (length (filter (fun e => enabled e) es)).
Proof.
  induction es as [|e es IH]; intros n Hn Hl; cbn [foldl length] in *; [cbn; lia|]. rewrite filter_cons. destruct (enabled e) eqn:E.
  - rewrite u32_small, IH, decide_True by (lia || done). cbn [length]. lia.
  - rewrite IH, decide_False by (lia || by intros ?). lia.
Qed.

Lemma size_length es : Forall entry_ok es -> 2 * Z.of_nat (length es) <= size_of es.
Proof. induction 1 as [|e es He _ IH]; [done|]. rewrite size_cons. pose proof (encode_length e He). cbn [length]. lia. Qed.

(** The variables after a MADT with the entries [es] whose local APICs are at [a]. *)
Definition after_madt (o : acpi) (a : Z) (es : list madt_entry) : acpi :=
  Acpi (rsdp o) (rsdt o) (acpi_available o) (Z.of_nat (length (filter (fun e => enabled e) es))) a (foldl io_address (io_apic_addr o) es).

Lemma parse_madt_spec madt es s : madt_holds m madt es -> log_wf (klog s) ->
  leaves (acpi_parse_madt m madt) s tt (after_madt (own s) (word_at m (madt + 36)) es).
Proof.
  intros (Hm & Hend & Hlen & Hok & Hb) Hw. unfold acpi_parse_madt. replace (madt =? 0) with false by lia.
  pose proof (size_length es Hok) as Hs. unfold MADT_BYTES in *. rewrite Hlen.
  eapply leaves_bind; [by apply leaves_set|]. intros s1 _ Hw1 E1.
  eapply leaves_bind; [by apply leaves_set|]. intros s2 _ Hw2 E2. rewrite E1 in E2. cbn zeta.
  rewrite (u32_small (madt + 44)), (u32_small (madt + (44 + size_of es))) by lia. rewrite (Z.add_assoc madt).
  eapply leaves_bind; [apply parse_entries_spec; [done|lia|lia|lia|done|done]|]. intros s3 _ Hw3 E3.
  rewrite E2, apply_entries in E3. cbn in E3. rewrite count_enabled in E3 by lia.
  eapply leaves_bind; [by apply leaves_get|]. intros s4 _ Hw4 E4. rewrite <- E4 in E3. unfold after_madt. rewrite Z.add_0_l in E3. rewrite <- E3.
  apply leaves_fmt; [renders|done].
Qed.
(** *** The initialisation *)

Lemma rsdp_not_found : (forall a, a ∈ rsdp_places -> read_bytes m a 8 <> str ACPI_RSDP_SIGNATURE) -> acpi_find_rsdp m = 0.
Proof.
  unfold acpi_find_rsdp. generalize rsdp_places. intros l Hn.
  induction l as [|a l IH]; [done|]. cbn [find]. unfold is_rsdp at 1. rewrite bool_decide_eq_false_2 by (apply Hn; by left). cbn [andb].
  apply IH. intros a' Ha'. apply Hn. by right.
Qed.

#[local] Opaque acpi_find_rsdp rsdp_places.

(** The variables after a failed search: only [rsdp] and [acpi_available] are written. *)
Definition not_found (o : acpi) : acpi := Acpi 0 (rsdt o) false (cpu_count o) (local_apic_addr o) (io_apic_addr o).

(** C38: the text that [acpi_init] searches for is "RDS PTR ", and firmware writes "RSD PTR ".
    On every memory that holds the misspelt text at none of the places searched, whatever
    tables it holds, [acpi_init] ends with ACPI unavailable, no processor counted and no address
    taken, and no table is found afterwards. *)
Theorem acpi_init_finds_nothing s : log_wf (klog s) ->
  (forall a, a ∈ rsdp_places -> read_bytes m a 8 <> str ACPI_RSDP_SIGNATURE) ->
  leaves (acpi_init m) s tt (not_found (own s)) /\
  (rsdt (own s) = 0 -> forall signature, leaves (_ ← acpi_init m; acpi_find_table m signature) s 0 (not_found (own s))).
Proof.
  intros Hw Hn. assert (Hi : leaves (acpi_init m) s tt (not_found (own s))).
  { unfold acpi_init. rewrite (rsdp_not_found Hn). cbn [Z.eqb].
    eapply leaves_bind; [by apply leaves_info|]. intros s1 _ Hw1 E1.
    eapply leaves_bind; [by apply leaves_set|]. intros s2 _ Hw2 E2.
    eapply leaves_bind; [by apply leaves_warn|]. intros s3 _ Hw3 E3.
    eassert (E : not_found (own s) = _); [|rewrite E; by apply leaves_set]. by rewrite E3, E2, E1. }
  split; [done|]. intros H0 signature. eapply leaves_bind; [exact Hi|]. intros s1 _ Hw1 E1.
  pose proof (find_table_spec signature s1 Hw1) as Hf. rewrite E1 in Hf. cbn [rsdt not_found] in Hf. by rewrite H0, Z.eqb_refl in Hf.
Qed.

(** C39: [acpi_parse_madt] of a table with the layout of the ACPI specification returns with the
    enabled local APICs counted, their common address, and the address of the last I/O APIC,
    whatever other entries there are; and [acpi_find_table] gives the first table of the RSDT
    with the signature and a right checksum. *)
Theorem acpi_reads_madt s madt es : log_wf (klog s) -> madt_holds m madt es ->
  leaves (acpi_parse_madt m madt) s tt (after_madt (own s) (word_at m (madt + 36)) es) /\
  (rsdt (own s) <> 0 -> forall signature,
     leaves (acpi_find_table m signature) s (default 0 (first_table m (rsdt (own s)) signature)) (own s)).
Proof.
  intros Hw Hm. split; [by apply parse_madt_spec|]. intros H0 signature. pose proof (find_table_spec signature s Hw) as Hf.
  by replace (rsdt (own s) =? 0) with false in Hf by lia.
Qed.

(** An RSDT whose checksum is wrong makes ACPI unavailable; its address stays. *)
Lemma rejected_rsdt_stays s r : log_wf (klog s) -> (acpi_find_rsdp m =? 0) = false -> word_at m (acpi_find_rsdp m + RSDT_ADDRESS) = r ->
  acpi_checksum m r (word_at m (r + 4)) = false ->
  leaves (acpi_init m) s tt (Acpi (acpi_find_rsdp m) r false (cpu_count (own s)) (local_apic_addr (own s)) (io_apic_addr (own s))).
Proof.
  intros Hw E0 Er Hc. unfold acpi_init. rewrite E0, Er. cbn zeta. rewrite Hc. cbn [negb]. rewrite orb_true_r.
  eapply leaves_bind; [by apply leaves_info|]. intros s1 _ Hw1 E1.
  eapply leaves_bind; [by apply leaves_set|]. intros s2 _ Hw2 E2.
  eapply leaves_bind; [apply leaves_fmt; [renders|done]|]. intros s3 _ Hw3 E3.
  eapply leaves_bind; [by apply leaves_set|]. intros s4 _ Hw4 E4.
  eapply leaves_bind; [by apply leaves_failed|]. intros s5 _ Hw5 E5.
  eassert (E : Acpi _ r false _ _ _ = _); [|rewrite E; by apply leaves_set].
  by rewrite E5, E4, E3, E2, E1.
Qed.
End proofs.

(** ** A machine *)

Definition entries0 : list madt_entry :=
  [LocalApic 0 0 1; Other 2 [0; 0; 2; 0; 0; 0; 0; 0]; LocalApic 1 1 0; IoApic 2 4273995776 0; LocalApic 2 2 1].
(** The text, whose byte [i] makes the sum 0. *)
Definition sealed (i : nat) (l : list Z) : list Z := <[i := u8 (- foldl (fun sum b => u8 (sum + b)) 0 l)]> l.
Definition header_bytes (signature length : Z) : list Z := le32 signature ++ le32 length ++ repeat 0 28.
Definition madt0 : list Z :=
  sealed 9 (header_bytes ACPI_SIG_MADT (MADT_BYTES + size_of entries0) ++ le32 4276092928 ++ le32 1 ++ (entries0 ≫= encode_entry)).
Definition rsdt0 : list Z := sealed 9 (header_bytes 1413763922 44 ++ le32 1049088 ++ le32 1048832).
Definition rsdp0 : list Z := sealed 8 (str ACPI_RSDP_SIGNATURE ++ repeat 0 8 ++ le32 1048576).
Definition memory0 (rsdp : list Z) : mem :=
  write_bytes (write_bytes (write_bytes (write_bytes ∅ 917520 rsdp) 1048576 rsdt0) 1048832 madt0) 1049088 (header_bytes ACPI_SIG_MADT 48).
Definition kernel0 : driver acpi unit := Driver acpi_start tt log_init.

(** A MADT is read, and the first one that the RSDT lists, whose checksum is wrong, is not it. *)
Definition given0 : driver acpi unit := Driver (Acpi 917520 1048576 true 0 0 0) tt log_init.
Lemma acpi_reads_madt_witness :
  leaves (acpi_parse_madt (memory0 rsdp0) 1048832) given0 tt (Acpi 917520 1048576 true 2 4276092928 4273995776) /\
  leaves (acpi_find_table (memory0 rsdp0) ACPI_SIG_MADT) given0 1048832 (own given0).
Proof.
  assert (Ef : first_table (memory0 rsdp0) 1048576 ACPI_SIG_MADT = Some 1048832) by (vm_compute; reflexivity).
  destruct (acpi_reads_madt (memory0 rsdp0) given0 1048832 entries0 log_init_wf) as [Hp Hf].
  - split; [done|]. split; [done|]. split; [vm_compute; reflexivity|]. split; [repeat constructor; cbn; lia|vm_compute; repeat split].
  - specialize (Hf ltac:(discriminate) ACPI_SIG_MADT). change (rsdt (own given0)) with 1048576 in Hf. rewrite Ef in Hf. split; [|exact Hf].
    assert (Ho : after_madt (own given0) (word_at (memory0 rsdp0) (1048832 + 36)) entries0 = Acpi 917520 1048576 true 2 4276092928 4273995776)
      by (vm_compute; reflexivity).
    rewrite Ho in Hp. exact Hp.
Defined.

(** The same tables behind an RSDP with the text that the ACPI specification asks for. *)
Definition documented : mem := memory0 (sealed 8 (str "RSD PTR " ++ repeat 0 8 ++ le32 1048576)).
Lemma acpi_init_finds_nothing_witness :
  leaves (acpi_init documented) kernel0 tt (Acpi 0 0 false 0 0 0) /\
  leaves (_ ← acpi_init documented; acpi_find_table documented ACPI_SIG_MADT) kernel0 0 (Acpi 0 0 false 0 0 0).
Proof.
  destruct (acpi_init_finds_nothing documented kernel0 log_init_wf) as [Hi Hf].
  - intros a Ha. assert (Hall : forallb (fun a => negb (bool_decide (read_bytes documented a 8 = str ACPI_RSDP_SIGNATURE))) rsdp_places = true) by (vm_compute; reflexivity).
    rewrite forallb_forall in Hall. specialize (Hall a (proj1 (list_elem_of_In _ _) Ha)). apply negb_true_iff, bool_decide_eq_false in Hall. exact Hall.
  - exact (conj Hi (Hf eq_refl ACPI_SIG_MADT)).
Defined.

(** The directive of the length takes the text of the signature. *)
Example list_table_takes_the_text : list_table (memory0 rsdp0) 1048832 kernel0 = None.
Proof. vm_compute. reflexivity. Qed.

(** A length under 36 in the RSDT, as an unsigned number of entries. *)
Example short_rsdt : entry_count (write_bytes ∅ 4096 (header_bytes 1413763922 32)) 4096 = 1073741823.
Proof. vm_compute. reflexivity. Qed.
