(* ===== verification/Linear.v ===== *)
(** The processor's view of memory: linear addresses, through the page directory in
    the control register.

    The kernel runs with paging on and with write protection off, so that it can
    write every present page.  [translate] is the walk of the tables; the loads and
    stores of the code that follows a pointer into an address space (Elf, Syscall)
    go through it, and [None] is the page fault that they raise.  A page that has
    just been mapped is visible at once: the processor caches no absent page. *)

From S2P Require Import Prelude Mem CString FrameAlloc Pmm Vmm Codec.
Local Open Scope Z_scope.
Local Open Scope kernel_scope.

(** ** Definitions *)

(** Bit 31 of the control register. *)
Definition paging (v : vmm) : bool := has (cr0 v) 2147483648.

Section operations.
Context {St : Type} `{FrameAlloc St}.
Implicit Types (s : vst St).

Definition translate s (a : Z) : option Z :=
  if negb (paging (vs s)) then Some a else
  let e := pte (vm s) (page_of (cr3 (vs s))) a in
  if has e PAGE_PRESENT then Some (page_of e + offset_of a) else None.

Definition lin_load s (a : Z) : option Z := p ← translate s a; Some (load8 (vm s) p).
Definition lin_store s (a v : Z) : option (vst St) := p ← translate s a; Some (with_vm s (store8 (vm s) p v)).

(** [n] bytes from [a] on. *)
Fixpoint lin_bytes (n : nat) s (a : Z) : option (list Z) :=
  match n with
  | O => Some []
  | S n => v ← lin_load s a; l ← lin_bytes n s (u32 (a + 1)); Some (v :: l)
  end.

(** A little-endian number of [n] bytes. *)
Fixpoint le_value (l : list Z) : Z := match l with [] => 0 | b :: l => b + 256 * le_value l end.
Definition lin_word (n : nat) s (a : Z) : option Z := l ← lin_bytes n s a; Some (le_value l).

(** [memcpy], [memset] and the storing of a list of bytes, at linear addresses. *)
Fixpoint lin_copy (n : nat) s (dst src : Z) : option (vst St) :=
  match n with
  | O => Some s
  | S n => v ← lin_load s src; s ← lin_store s dst v; lin_copy n s (u32 (dst + 1)) (u32 (src + 1))
  end.
Fixpoint lin_fill (n : nat) s (dst v : Z) : option (vst St) :=
  match n with
  | O => Some s
  | S n => s ← lin_store s dst v; lin_fill n s (u32 (dst + 1)) v
  end.
Fixpoint lin_put (l : list Z) s (dst : Z) : option (vst St) :=
  match l with
  | [] => Some s
  | v :: l => s ← lin_store s dst v; lin_put l s (u32 (dst + 1))
  end.
End operations.

(** ** Stores into memory that is foreign to the page tables *)

Section laws.
Context {St : Type} `{FrameAllocLaws St}.
Implicit Types (s : vst St) (F : gset Z).

(** Memory that changed only where it is foreign to [pd]. *)
Definition foreign_change s F pd (m' : mem) : Prop := forall b, ~ foreign s F pd b -> load8 m' b = load8 (vm s) b.

Lemma entry_same_bytes m m' t i : t mod 4096 = 0 -> 0 <= i < 1024 ->
  (forall b, b / 4096 * 4096 = t -> load8 m' b = load8 m b) -> entry m' t i = entry m t i.
Proof. intros Ht Hi Hb. apply load32_same. intros b Hr. apply Hb. zdm. Qed.

Lemma foreign_entries s F pd m' : vinv s F pd -> foreign_change s F pd m' ->
  (forall i, 0 <= i < 1024 -> entry m' pd i = entry (vm s) pd i) /\
  (forall t i, is_table (vm s) pd t -> 0 <= i < 1024 -> entry m' t i = entry (vm s) t i).
Proof.
  intros Hv Hc. split.
  - intros i Hi. apply entry_same_bytes; [apply Hv|done|]. intros b Hb. apply Hc. by intros (_ & _ & Hn & _).
  - intros t i Ht Hi. apply entry_same_bytes; [by apply (vi_table _ _ _ Hv)|done|]. intros b Hb. apply Hc.
    intros (_ & _ & _ & Hn). by rewrite Hb in Hn.
Qed.

Lemma foreign_is_table s F pd m' t : vinv s F pd -> foreign_change s F pd m' -> is_table m' pd t <-> is_table (vm s) pd t.
Proof.
  intros Hv Hc. destruct (foreign_entries _ _ _ _ Hv Hc) as [Hd _]. split; apply is_table_ext; [done|].
  intros i Hi. by rewrite Hd.
Qed.

Lemma foreign_pte s F pd m' a : vinv s F pd -> foreign_change s F pd m' -> pte m' pd a = pte (vm s) pd a.
Proof. intros Hv Hc. destruct (foreign_entries _ _ _ _ Hv Hc) as [Hd Ht]. by apply pte_ext. Qed.

Lemma foreign_same s F pd m' b : vinv s F pd -> foreign_change s F pd m' ->
  foreign (with_vm s m') F pd b <-> foreign s F pd b.
Proof. intros Hv Hc. unfold foreign. cbn [al vm with_vm]. by rewrite foreign_is_table. Qed.

Lemma foreign_vinv s F pd m' : vinv s F pd -> foreign_change s F pd m' -> vinv (with_vm s m') F pd.
Proof.
  intros Hv Hc. destruct (foreign_entries _ _ _ _ Hv Hc) as [Hd Ht]. split; cbn [vs al vm with_vm].
  - apply Hv.
  - eapply fa_inv_same; [apply Hv|]. intros b Hb. apply Hc. intros (Hn & _). lia.
  - apply Hv.
  - intros t Hb. apply (vi_table _ _ _ Hv). by apply (foreign_is_table s F pd m').
  - intros i j Hi Hj. rewrite !Hd by done. by apply (vi_inj _ _ _ Hv).
Qed.

(** ** Access through the directory in use *)

(** [pd] is the directory of the processor. *)
Definition in_use s pd : Prop := paging (vs s) = true /\ cr3 (vs s) = pd.

(** [a] is on a present page, at the byte [p], which is foreign to the tables. *)
Definition at_byte s F pd (a p : Z) : Prop :=
  has (pte (vm s) pd a) PAGE_PRESENT = true /\ page_of (pte (vm s) pd a) + offset_of a = p /\ foreign s F pd p.

Lemma translate_in_use s F pd a : vinv s F pd -> in_use s pd ->
  translate s a = if has (pte (vm s) pd a) PAGE_PRESENT then Some (page_of (pte (vm s) pd a) + offset_of a) else None.
Proof.
  intros Hv [Hp Hc]. unfold translate. rewrite Hp, Hc. cbn [negb].
  assert (Hpd : page_of pd = pd) by (destruct (vi_dir _ _ _ Hv) as [[Hm Hr] _]; rewrite page_of_eq by lia; zdm).
  by rewrite Hpd.
Qed.

Lemma at_translate s F pd a p : vinv s F pd -> in_use s pd -> at_byte s F pd a p -> translate s a = Some p.
Proof. intros Hv Hu (Hp & He & _). rewrite (translate_in_use s F pd) by done. by rewrite Hp, He. Qed.

Lemma at_load s F pd a p : vinv s F pd -> in_use s pd -> at_byte s F pd a p -> lin_load s a = Some (load8 (vm s) p).
Proof. intros Hv Hu Ha. unfold lin_load. by rewrite (at_translate s F pd a p). Qed.

Lemma at_foreign_change s F pd m' a p : vinv s F pd -> foreign_change s F pd m' ->
  at_byte (with_vm s m') F pd a p <-> at_byte s F pd a p.
Proof. intros Hv Hc. unfold at_byte. cbn [vm with_vm]. rewrite (foreign_pte s F), (foreign_same s F) by done. done. Qed.

Lemma store_foreign s F pd p v : foreign s F pd p -> foreign_change s F pd (store8 (vm s) p v).
Proof. intros Hp b Hb. apply load8_store8_ne. congruence. Qed.

Lemma foreign_change_trans s F pd m1 m2 : vinv s F pd -> foreign_change s F pd m1 ->
  foreign_change (with_vm s m1) F pd m2 -> foreign_change s F pd m2.
Proof.
  intros Hv H1 H2 b Hb. rewrite H2; [by apply H1|]. intros Hf. apply Hb. by apply (foreign_same s F pd m1).
Qed.

Lemma at_store s F pd a p v : vinv s F pd -> in_use s pd -> at_byte s F pd a p ->
  lin_store s a v = Some (with_vm s (store8 (vm s) p v)).
Proof. intros Hv Hu Ha. unfold lin_store. by rewrite (at_translate s F pd a p). Qed.

(** The bytes [n] from [a] on are at [P 0], ..., [P (n - 1)]. *)
Definition at_range s F pd (a n : Z) (P : Z -> Z) : Prop :=
  0 <= a /\ 0 <= n /\ a + n <= 4294967296 /\ forall i, 0 <= i < n -> at_byte s F pd (a + i) (P i).

Lemma at_range_step s F pd a n P : at_range s F pd a n P -> 0 < n ->
  at_byte s F pd a (P 0) /\ (1 < n -> u32 (a + 1) = a + 1) /\ (1 < n -> at_range s F pd (a + 1) (n - 1) (fun i => P (i + 1))).
Proof.
  intros (Ha & _ & Hr & Hp) Hn. split; [specialize (Hp 0 ltac:(lia)); by rewrite Z.add_0_r in Hp|].
  split; [intros; apply u32_small; lia|]. intros Hn1. split; [lia|]. split; [lia|]. split; [lia|].
  intros i Hi. rewrite <- Z.add_assoc, (Z.add_comm 1). apply Hp. lia.
Qed.

Lemma fmap_seqZ_succ {A} (f : Z -> A) (n : nat) :
  f <$> seqZ 0 (Z.of_nat (S n)) = f 0 :: ((fun i => f (i + 1)) <$> seqZ 0 (Z.of_nat n)).
Proof.
  rewrite seqZ_cons by lia. rewrite fmap_cons. f_equal. replace (Z.pred (Z.of_nat (S n))) with (Z.of_nat n) by lia.
  change (Z.succ 0) with (1 + 0). rewrite <- (fmap_add_seqZ 1 0 (Z.of_nat n)), <- list_fmap_compose.
  apply list_fmap_ext. intros i x _. cbn. f_equal. lia.
Qed.

Lemma lin_bytes_spec s F pd n a P : vinv s F pd -> in_use s pd -> at_range s F pd a (Z.of_nat n) P ->
  lin_bytes n s a = Some ((fun i => load8 (vm s) (P i)) <$> seqZ 0 (Z.of_nat n)).
Proof.
  intros Hv Hu. revert a P. induction n as [|n IH]; intros a P Hr; [done|]. cbn [lin_bytes].
  destruct (at_range_step _ _ _ _ _ _ Hr ltac:(lia)) as (HB & Hnext & Hrest).
  rewrite (at_load _ _ _ _ _ Hv Hu HB). cbn [mbind option_bind].
  assert (E : lin_bytes n s (u32 (a + 1)) = Some ((fun i => load8 (vm s) (P (i + 1))) <$> seqZ 0 (Z.of_nat n))).
  { destruct n as [|n]; [done|]. rewrite Hnext by lia. apply IH. replace (Z.of_nat (S n)) with (Z.of_nat (S (S n)) - 1) by lia. apply Hrest. lia. }
  rewrite E. cbn [mbind option_bind]. by rewrite fmap_seqZ_succ.
Qed.

Definition distinct (n : Z) (P : Z -> Z) : Prop := forall i j, 0 <= i < n -> 0 <= j < n -> P i = P j -> i = j.

Lemma at_range_change s F pd m' a n P : vinv s F pd -> foreign_change s F pd m' ->
  at_range s F pd a n P -> at_range (with_vm s m') F pd a n P.
Proof. intros Hv Hc (? & ? & ? & Hp). split_and!; try done. intros i Hi. rewrite at_foreign_change by done. by apply Hp. Qed.

(** Storing a list leaves exactly its bytes, and all others as they were. *)
Lemma lin_put_spec l s F pd a P : vinv s F pd -> in_use s pd ->
  at_range s F pd a (Z.of_nat (length l)) P -> distinct (Z.of_nat (length l)) P ->
  exists m', lin_put l s a = Some (with_vm s m') /\ foreign_change s F pd m' /\
    (forall i v, l !! i = Some v -> load8 m' (P (Z.of_nat i)) = u8 v) /\
    (forall b, (forall i, 0 <= i < Z.of_nat (length l) -> b <> P i) -> load8 m' b = load8 (vm s) b).
Proof.
  revert s a P. induction l as [|v l IH]; intros s a P Hv Hu Hr Hd.
  { exists (vm s). split; [by destruct s|]. split; [by intros b _|]. by split. }
  cbn [lin_put]. destruct (at_range_step _ _ _ _ _ _ Hr ltac:(cbn; lia)) as (HB & Hnext & Hrest).
  rewrite (at_store _ _ _ _ _ _ Hv Hu HB). cbn [mbind option_bind].
  set (m1 := store8 (vm s) (P 0) v). assert (Hc : foreign_change s F pd m1) by (apply store_foreign; apply HB).
  destruct l as [|w l].
  { exists m1. split; [done|]. split; [done|]. split.
    - intros [|i] w Hw; [|done]. injection Hw as ->. apply load8_store8_eq.
    - intros b Hb. apply load8_store8_ne. intros E. by apply (Hb 0); [cbn; lia|]. }
  rewrite Hnext by (cbn; lia). destruct (IH (with_vm s m1) (a + 1) (fun i => P (i + 1))) as (m2 & E & Hc2 & Hin & Hout).
  - by apply (foreign_vinv s F pd).
  - exact Hu.
  - apply at_range_change; [done|done|]. replace (Z.of_nat (length (w :: l))) with (Z.of_nat (length (v :: w :: l)) - 1) by (cbn; lia).
    apply Hrest. cbn. lia.
  - intros i j Hi Hj Hp. enough (i + 1 = j + 1) by lia. apply Hd; [cbn in *; lia..|done].
  - exists m2. split; [exact E|]. split; [by eapply foreign_change_trans|]. split.
    + intros [|i] x Hx.
      * injection Hx as ->. rewrite Hout; [apply load8_store8_eq|]. intros i Hi Hp.
        enough (0 = i + 1) by lia. apply Hd; [cbn in *; lia..|exact Hp].
      * cbn in Hx. rewrite <- (Hin i x Hx). do 2 f_equal. lia.
    + intros b Hb. rewrite Hout; [|intros i Hi Hp; by apply (Hb (i + 1)); [cbn in *; lia|]].
      cbn [vm with_vm]. apply load8_store8_ne. intros E2. by apply (Hb 0); [cbn; lia|].
Qed.

Lemma lin_fill_put n s a v : lin_fill n s a v = lin_put (replicate n v) s a.
Proof. revert s a. induction n as [|n IH]; intros s a; [done|]. cbn. destruct (lin_store s a v); [apply IH|done]. Qed.

(** A copy whose source does not meet its destination stores the bytes of the source. *)
Lemma lin_copy_put n s F pd dst src P Q : vinv s F pd -> in_use s pd ->
  at_range s F pd dst (Z.of_nat n) P -> at_range s F pd src (Z.of_nat n) Q ->
  (forall i j, 0 <= i < Z.of_nat n -> 0 <= j < Z.of_nat n -> P i <> Q j) ->
  lin_copy n s dst src = lin_put ((fun i => load8 (vm s) (Q i)) <$> seqZ 0 (Z.of_nat n)) s dst.
Proof.
  revert s dst src P Q. induction n as [|n IH]; intros s dst src P Q Hv Hu Hd Hs Hpq; [done|].
  destruct (at_range_step _ _ _ _ _ _ Hd ltac:(lia)) as (D0 & Dn & Dr).
  destruct (at_range_step _ _ _ _ _ _ Hs ltac:(lia)) as (S0 & Sn & Sr).
  rewrite fmap_seqZ_succ. cbn [lin_copy lin_put].
  rewrite (at_load _ _ _ _ _ Hv Hu S0). cbn [mbind option_bind]. rewrite (at_store _ _ _ _ _ _ Hv Hu D0). cbn [mbind option_bind].
  destruct n as [|n]; [done|]. rewrite Dn, Sn by lia.
  set (m1 := store8 (vm s) (P 0) (load8 (vm s) (Q 0))). assert (Hc : foreign_change s F pd m1) by (apply store_foreign; apply D0).
  replace (Z.of_nat (S (S n)) - 1) with (Z.of_nat (S n)) in * by lia.
  rewrite (IH (with_vm s m1) _ _ (fun i => P (i + 1)) (fun i => Q (i + 1))).
  - f_equal. apply list_fmap_ext. intros i x Hx%lookup_seqZ. cbn. unfold m1.
    apply load8_store8_ne. apply Hpq; lia.
  - by apply (foreign_vinv s F pd).
  - exact Hu.
  - apply at_range_change; [done|done|]. apply Dr. lia.
  - apply at_range_change; [done|done|]. apply Sr. lia.
  - intros i j Hi Hj. apply Hpq; lia.
Qed.

(** The bytes of a list, of a number of [n] bytes at offset [k] of it, and where the
    list is in memory. *)
Definition img_le (img : list Z) (n : nat) (k : Z) : Z := le_value (slice img (Z.to_nat k) n).
Definition holds_at s F pd (a : Z) (l : list Z) : Prop :=
  exists Q, at_range s F pd a (Z.of_nat (length l)) Q /\ forall i v, l !! i = Some v -> load8 (vm s) (Q (Z.of_nat i)) = v.

Lemma lin_bytes_held s F pd a l k n : vinv s F pd -> in_use s pd -> holds_at s F pd a l ->
  0 <= k -> k + Z.of_nat n <= Z.of_nat (length l) -> lin_bytes n s (a + k) = Some (slice l (Z.to_nat k) n).
Proof.
  intros Hv Hu (Q & (A & _ & B & C) & Hb) Hk Hn. rewrite (lin_bytes_spec s F pd n (a + k) (fun i => Q (k + i))) by
    (first [done|split; [lia|]; split; [lia|]; split; [lia|]; intros i Hi; rewrite <- Z.add_assoc; apply C; lia]).
  f_equal. apply list_eq. intros i. rewrite list_lookup_fmap. destruct (decide (i < n)%nat) as [Hi|Hi].
  - rewrite lookup_seqZ_lt, lookup_slice by lia. cbn. destruct (lookup_lt_is_Some_2 l (Z.to_nat k + i)) as [v Hl]; [lia|].
    rewrite Hl. f_equal. rewrite <- (Hb _ _ Hl). do 2 f_equal. lia.
  - rewrite lookup_seqZ_ge by lia. symmetry. apply lookup_ge_None_2. rewrite length_slice; lia.
Qed.

Lemma lin_word_held s F pd a l k n : vinv s F pd -> in_use s pd -> holds_at s F pd a l ->
  0 <= k -> k + Z.of_nat n <= Z.of_nat (length l) -> lin_word n s (a + k) = Some (img_le l n k).
Proof. intros Hv Hu Hh Hk Hn. unfold lin_word. by rewrite (lin_bytes_held s F pd a l). Qed.

Lemma holds_at_change s F pd m' a l : vinv s F pd -> foreign_change s F pd m' -> holds_at s F pd a l ->
  (forall Q i, at_range s F pd a (Z.of_nat (length l)) Q -> 0 <= i < Z.of_nat (length l) -> load8 m' (Q i) = load8 (vm s) (Q i)) ->
  holds_at (with_vm s m') F pd a l.
Proof.
  intros Hv Hc (Q & Hr & Hb) Hm. exists Q. split; [by apply at_range_change|]. intros i v Hl. cbn [vm with_vm].
  rewrite (Hm Q) by (done || (apply lookup_lt_Some in Hl; lia)). by apply Hb.
Qed.

(** Reading back what was stored. *)
Lemma le_value_bound l : Forall is_u8 l -> 0 <= le_value l < 256 ^ Z.of_nat (length l).
Proof.
  induction 1 as [|b l Hb _ IH]; [done|]. cbn [le_value length]. rewrite Nat2Z.inj_succ, Z.pow_succ_r by lia. unfold is_u8 in Hb. lia.
Qed.
End laws.

(** ** A small machine

    The machine of Vmm's examples after [vmm_init]; the components that follow pointers
    run their examples on it. *)

Definition kd0 : Z := kernel_directory (vs Vmm.booted).

(** What lies behind the frames of a small machine is foreign to its tables, and a page
    that is mapped to itself is accessible. *)
Lemma behind_foreign (v : vst pmm) F pd b : vinv v F pd -> 131072 <= b ->
  pmm_bitmap (al v) + pmm_max_blocks (al v) / 8 <= 131072 -> pmm_max_blocks (al v) <= 32 -> pd < 131072 ->
  (forall t, is_table (vm v) pd t -> t < 131072) -> foreign v F pd b.
Proof.
  intros Hv Hb Hbits Hmax Hpd Htab. split; [|split; [|split]].
  - change (fa_lo (al v)) with (pmm_bitmap (al v)). change (fa_len (al v)) with (pmm_max_blocks (al v) / 8). lia.
  - intros Hin. destruct (fa_free_managed _ _ _ _ (vi_alloc _ _ _ Hv) Hin) as [Hm _]. zdm.
  - zdm.
  - intros Ht. specialize (Htab _ Ht). zdm.
Qed.

Lemma identity_at (v : vst pmm) F pd a : foreign v F pd a -> 131072 <= a < 8388608 ->
  pte (vm v) pd a = a / 4096 * 4096 + 3 -> at_byte v F pd a a.
Proof.
  intros Hf Ha Hpte. assert (Hfr : is_frame (a / 4096 * 4096)) by (split; zdm).
  destruct (entry_parts _ 3 Hfr ltac:(lia)) as (_ & _ & Hpo & _). unfold at_byte. rewrite Hpte.
  split; [by rewrite has_parts|]. split; [rewrite Hpo, offset_of_eq; zdm|done].
Qed.

Lemma small_tables (m : mem) (pd : Z) :
  forallb (fun i => negb (has (entry m pd i) PAGE_PRESENT) || (page_of (entry m pd i) <? 131072)) (seqZ 0 1024) = true ->
  forall t, is_table m pd t -> t < 131072.
Proof.
  intros E t (i & Hi & Hp & He). rewrite forallb_forall in E. specialize (E i). rewrite Hp, He in E. cbn [negb orb] in E.
  assert (Hin : In i (seqZ 0 1024)) by (apply list_elem_of_In, elem_of_seqZ; lia). specialize (E Hin). lia.
Qed.

(** After booting, the memory between the frames and 8 MB is mapped to itself. *)
Record identity_map (v : vst pmm) (pd : Z) (F : gset Z) : Prop := {
  im_vinv : vinv v F pd;
  im_use : in_use v pd;
  im_current : current_directory (vs v) = pd;
  im_frames : Z.of_nat (stdpp.base.size F) = pmm_max_blocks (al v) - pmm_used_blocks (al v);
  im_foreign : forall b, 131072 <= b -> foreign v F pd b;
  im_low : forall a, 131072 <= a < 8388608 -> at_byte v F pd a a;
  im_pte : forall a, 0 <= a < 4294967296 -> pte (vm v) pd a = if a <? 8388608 then a / 4096 * 4096 + 3 else 0
}.

Lemma init_identity_map (s : vst pmm) F0 : fa_inv (al s) (vm s) F0 -> (3 <= stdpp.base.size F0)%nat ->
  let v := vmm_init s in let pd := kernel_directory (vs v) in
  pmm_bitmap (al v) + pmm_max_blocks (al v) / 8 <= 131072 /\ pmm_max_blocks (al v) <= 32 /\ pd < 131072 ->
  cr0 (vs s) = 0 -> (forall t, is_table (vm v) pd t -> t < 131072) -> exists F, identity_map v pd F.
Proof.
  intros Hf Hs v pd (Hb & Hm & Hk) Hz Htab. destruct (vmm_init_spec s F0 Hf Hs) as ((F & Hv & _) & _ & Hcur & _ & Hcr3 & Hcr0 & Hpte).
  fold v in Hv, Hcr3, Hcr0, Hpte, Hcur. fold pd in Hv, Hcr3, Hpte, Hcur. clearbody pd. clearbody v. rewrite Hz in Hcr0.
  exists F. assert (Hfor : forall b, 131072 <= b -> foreign v F pd b) by (intros b Hb1; by apply behind_foreign). split; try done.
  - split; [unfold paging; by rewrite Hcr0|exact Hcr3].
  - destruct (vi_alloc _ _ _ Hv) as [Hi _]. pose proof (inv_used _ _ _ Hi). lia.
  - intros a Ha. apply identity_at; [apply Hfor; lia|done|]. rewrite Hpte by lia. by replace (a <? 8388608) with true by lia.
Qed.

Lemma booted_ok : exists F, identity_map Vmm.booted kd0 F.
Proof.
  apply (init_identity_map small_vmm small_free small_alloc).
  - vm_compute. lia.
  - vm_compute. repeat split; discriminate.
  - reflexivity.
  - apply small_tables. change (vmm_init small_vmm) with Vmm.booted. change (kernel_directory (vs Vmm.booted)) with kd0. vm_compute. reflexivity.
Qed.

(** Bytes stored where memory is mapped to itself. *)
Lemma identity_put (v : vst pmm) pd F a l : identity_map v pd F -> all_u8 l -> 131072 <= a -> a + Z.of_nat (length l) <= 8388608 ->
  exists m', lin_put l v a = Some (with_vm v m') /\ foreign_change v F pd m' /\ holds_at (with_vm v m') F pd a l.
Proof.
  intros Hi Hu Ha Hl. assert (Hr : at_range v F pd a (Z.of_nat (length l)) (fun i => a + i)).
  { split; [lia|]. split; [lia|]. split; [lia|]. intros i Hx. apply (im_low _ _ _ Hi). lia. }
  destruct (lin_put_spec l v F pd a _ (im_vinv _ _ _ Hi) (im_use _ _ _ Hi) Hr) as (m' & E & Hc & Hb & _); [intros i j _ _; lia|].
  exists m'. split; [done|]. split; [done|]. exists (fun i => a + i). split; [apply at_range_change; [apply Hi|done|done]|].
  intros i x Hx. cbn [vm with_vm]. rewrite (Hb i x Hx). apply u8_small. by apply (Forall_lookup_1 _ _ _ _ Hu Hx).
Qed.

Lemma identity_change v pd F m' : identity_map v pd F -> foreign_change v F pd m' -> identity_map (with_vm v m') pd F.
Proof.
  intros [A B C D E G I] Hc. split; try done.
  - by apply foreign_vinv.
  - intros b Hb. rewrite foreign_same by done. by apply E.
  - intros a Ha. rewrite at_foreign_change by done. by apply G.
  - intros a Ha. cbn [vm with_vm]. rewrite (foreign_pte v F) by done. by apply I.
Qed.
