(* ===== verification/Elf.v ===== *)
(** kernel/core/elf.c: the loader of executable files.

    The image is read, and the segments are written, at linear addresses of the
    address space that is in use (Linear); [None] is a page fault of the kernel, after
    which it panics.  The pages of the segments are allocated in the directory that
    the caller names, which need not be the one in use.  Every field is read from
    memory where the code reads it. *)

From S2P Require Import Prelude Mem CString FrameAlloc Pmm Vmm Codec BlockDev DiskFs Fs Effects Console Log Ports Linear.
Local Open Scope Z_scope.
Local Open Scope kernel_scope.

(** ** Definitions *)

Definition ELF_MAGIC0 : Z := 127.
Definition ELF_MAGIC1 : Z := 69.
Definition ELF_MAGIC2 : Z := 76.
Definition ELF_MAGIC3 : Z := 70.
Definition ELFCLASS32 : Z := 1.
Definition ELFDATA2LSB : Z := 1.
Definition ET_EXEC : Z := 2.
Definition EM_386 : Z := 3.
Definition PT_LOAD : Z := 1.
Definition PF_W : Z := 2.
(** The sizes of [struct elf32_header] and [struct elf32_phdr]; the offsets of their
    fields are written where they are read. *)
Definition ELF_HEADER_BYTES : Z := 52.
Definition ELF_PHDR_BYTES : Z := 32.

Record elf_load_result := LoadResult { entry_point : Z; brk : Z }.

(** The memory, the files, and the result that the caller's pointer designates. *)
Record loader (St D : Type) := Loader { space : vst St; files : fs D; result : elf_load_result }.
Arguments Loader {St D}. Arguments space {St D}. Arguments files {St D}. Arguments result {St D}.

Section loader.
Context {St : Type} `{FrameAlloc St} {D : Type} `{BlockDev D} {P : Type} `{Ports P}.
Notation E := (ST (driver (loader St D) P)).
Implicit Types (s : driver (loader St D) P).

Definition set_space s (v : vst St) : driver (loader St D) P := with_own s (Loader v (files (own s)) (result (own s))).
Definition set_result s (r : elf_load_result) : driver (loader St D) P := with_own s (Loader (space (own s)) (files (own s)) r).

(** Accesses through the address space in use. *)
Definition ld (n : nat) (a : Z) : E Z := fun s => v ← lin_word n (space (own s)) a; Some (v, s).
Definition lin (f : vst St -> option (vst St)) : E unit := fun s => v ← f (space (own s)); Some (tt, set_space s v).

Definition warn (msg : string) : E unit := say_log (fun now => log_warn now (Some (str msg))).

(** The bytes at [a] are those of [l]; the comparison stops at the first difference. *)
Fixpoint has_magic (l : list Z) (a : Z) : E bool :=
  match l with
  | [] => mret true
  | v :: l => b ← ld 1 a; if negb (b =? v) then mret false else has_magic l (u32 (a + 1))
  end.

Definition elf_validate (header : Z) : E Z :=
  if header =? 0 then _ ← warn "elf_validate: null header"; mret (-1) else
  magic ← has_magic [ELF_MAGIC0; ELF_MAGIC1; ELF_MAGIC2; ELF_MAGIC3] header;
  if negb magic then _ ← warn "elf_validate: invalid ELF magic number"; mret (-1) else
  class ← ld 1 (u32 (header + 4));
  if negb (class =? ELFCLASS32) then _ ← warn "elf_validate: unsupported ELF class (not 32-bit)"; mret (-1) else
  encoding ← ld 1 (u32 (header + 5));
  if negb (encoding =? ELFDATA2LSB) then _ ← warn "elf_validate: unsupported ELF data encoding (not little-endian)"; mret (-1) else
  e_type ← ld 2 (u32 (header + 16));
  if negb (e_type =? ET_EXEC) then _ ← warn "elf_validate: unsupported ELF type (not executable)"; mret (-1) else
  e_machine ← ld 2 (u32 (header + 18));
  if negb (e_machine =? EM_386) then _ ← warn "elf_validate: unsupported ELF machine (not i386)"; mret (-1) else
  mret 0.

(** The pages from [page] up to [vaddr_end]: false when one cannot be allocated. *)
Fixpoint load_pages (fuel : nat) (page_dir page vaddr_end flags : Z) : E bool :=
  match fuel with
  | O => sfault
  | S fuel =>
      if negb (page <? vaddr_end) then mret true else
      s ← sget;
      ok ← (if negb (vmm_is_mapped (space (own s)) page_dir page) then
              let '(r, v) := vmm_alloc_page (space (own s)) page_dir page flags in
              _ ← smod (fun s => set_space s v);
              if negb (r =? 0) then
                _ ← say_warn "elf_load: failed to allocate page for segment at virtual address 0x%X" page; mret false
              else mret true
            else mret true);
      if negb ok then mret false else load_pages fuel page_dir (u32 (page + PAGE_SIZE)) vaddr_end flags
  end.

(** The contents of a segment, and the end of the image; false is the return with an
    error. *)
Definition load_bytes (data size phdr : Z) : E bool :=
  let field k := ld 4 (u32 (phdr + k)) in
  p_filesz ← field 16;
  ok ← (if 0 <? p_filesz then
          p_offset ← field 4;
          if size <? u32 (p_offset + p_filesz) then
            _ ← say_warn_fmt "elf_load: segment file size exceeds ELF data size: offset 0x%X, size 0x%X" [AInt p_offset; AInt p_filesz];
            mret false
          else
            p_vaddr ← field 8;
            _ ← lin (fun v => lin_copy (Z.to_nat p_filesz) v p_vaddr (u32 (data + p_offset)));
            mret true
        else mret true);
  if negb ok then mret false else
  p_memsz ← field 20; p_filesz ← field 16;
  _ ← (if p_filesz <? p_memsz then
         p_vaddr ← field 8;
         lin (fun v => lin_fill (Z.to_nat (p_memsz - p_filesz)) v (u32 (p_vaddr + p_filesz)) 0)
       else mret tt);
  p_vaddr ← field 8; p_memsz ← field 20;
  let segment_end := u32 (p_vaddr + p_memsz) in
  _ ← smod (fun s => if brk (result (own s)) <? segment_end
                     then set_result s (LoadResult (entry_point (result (own s))) segment_end) else s);
  mret true.

(** One turn of the loop over the program headers, for the header at [phdr]; false is
    the return with an error. *)
Definition load_segment (data size page_dir phdr : Z) : E bool :=
  let field k := ld 4 (u32 (phdr + k)) in
  p_type ← field 0;
  if negb (p_type =? PT_LOAD) then mret true else
  p_memsz ← field 20;
  if p_memsz =? 0 then mret true else
  p_vaddr ← field 8;
  if KERNEL_VIRTUAL_BASE <=? p_vaddr then
    _ ← say_warn "elf_load: segment at virtual address 0x%X is in kernel space" p_vaddr; mret false else
  p_flags ← field 24;
  let flags := Z.lor PAGE_PRESENT PAGE_USER in
  let flags := if negb (Z.land p_flags PF_W =? 0) then Z.lor flags PAGE_WRITE else flags in
  let vaddr := page_of p_vaddr in
  let vaddr_end := page_of (u32 (u32 (p_vaddr + p_memsz) + 4095)) in
  ok ← load_pages (Z.to_nat 1048576) page_dir vaddr vaddr_end flags;
  if negb ok then mret false else
  load_bytes data size phdr.

(** The loop, from header [i] on; the number of headers is read in every turn. *)
Fixpoint load_segments (fuel : nat) (data size page_dir phdrs i : Z) : E bool :=
  match fuel with
  | O => sfault
  | S fuel =>
      e_phnum ← ld 2 (u32 (data + 44));
      if negb (i <? e_phnum) then mret true else
      ok ← load_segment data size page_dir (u32 (phdrs + ELF_PHDR_BYTES * i));
      if negb ok then mret false else load_segments fuel data size page_dir phdrs (i + 1)
  end.

Definition elf_load (data size page_dir : Z) (have_result : bool) : E Z :=
  if (data =? 0) || (page_dir =? 0) || negb have_result then _ ← warn "elf_load: invalid arguments"; mret (-1) else
  if size <? ELF_HEADER_BYTES then _ ← warn "elf_load: data size too small for ELF header"; mret (-1) else
  valid ← elf_validate data;
  if negb (valid =? 0) then
    e_entry ← ld 4 (u32 (data + 24));
    _ ← say_warn "elf_load: ELF validation failed: entry 0x%X" e_entry; mret (-1) else
  e_phoff ← ld 4 (u32 (data + 28)); e_phnum ← ld 2 (u32 (data + 44));
  if (e_phoff =? 0) || (e_phnum =? 0) then _ ← warn "elf_load: no program headers found"; mret (-1) else
  if size <? u32 (e_phoff + e_phnum * ELF_PHDR_BYTES) then
    _ ← warn "elf_load: program headers exceed ELF data size"; mret (-1) else
  let phdrs := u32 (data + e_phoff) in
  e_entry ← ld 4 (u32 (data + 24));
  _ ← smod (fun s => set_result s (LoadResult e_entry 0));
  ok ← load_segments (Z.to_nat 65536) data size page_dir phdrs 0;
  if negb ok then mret (-1) else
  _ ← smod (fun s => set_result s (LoadResult (entry_point (result (own s))) (page_of (u32 (brk (result (own s)) + 4095)))));
  mret 0.

(** The static buffer of [elf_load_file] is at [file_buffer]; the bytes that
    [fs_read] leaves are stored there. *)
Variable (uninit : Z -> list Z) (file_buffer : Z).
Definition read_file (path : list Z) : E Z := fun s =>
  match fs_read uninit path FS_MAX_FILE_SIZE (files (own s)) with
  | Some ((n, bytes), f) =>
      v ← lin_put bytes (space (own s)) file_buffer;
      Some (n, with_own s (Loader v f (result (own s))))
  | None => None
  end.

Definition elf_load_file (path : option (list Z)) (page_dir : Z) (have_result : bool) : E Z :=
  match path with
  | None => _ ← warn "elf_load_file: invalid arguments"; mret (-1)
  | Some path =>
      if (page_dir =? 0) || negb have_result then _ ← warn "elf_load_file: invalid arguments"; mret (-1) else
      bytes_read ← read_file path;
      if bytes_read <? 0 then
        _ ← say_warn_fmt "elf_load_file: failed to read file '%s'" [AStr (Some path)]; mret (-1)
      else elf_load file_buffer bytes_read page_dir have_result
  end.
End loader.

(** ** Images *)

Record phdr := Phdr { p_type : Z; p_offset : Z; p_vaddr : Z; p_filesz : Z; p_memsz : Z; p_flags : Z }.
Definition phdr_at (img : list Z) (k : Z) : phdr :=
  Phdr (img_le img 4 k) (img_le img 4 (k + 4)) (img_le img 4 (k + 8)) (img_le img 4 (k + 16)) (img_le img 4 (k + 20))
    (img_le img 4 (k + 24)).
Definition phnum (img : list Z) : Z := img_le img 2 44.
Definition phoff (img : list Z) : Z := img_le img 4 28.
(** The segments that are to be loaded. *)
Definition loadable (h : phdr) : bool := (p_type h =? PT_LOAD) && negb (p_memsz h =? 0).
Definition phdrs (img : list Z) (n : Z) : list phdr := (fun i => phdr_at img (phoff img + ELF_PHDR_BYTES * i)) <$> seqZ 0 n.

Definition header_ok (img : list Z) : bool :=
  bool_decide (slice img 0 6 = [ELF_MAGIC0; ELF_MAGIC1; ELF_MAGIC2; ELF_MAGIC3; ELFCLASS32; ELFDATA2LSB]) &&
  (img_le img 2 16 =? ET_EXEC) && (img_le img 2 18 =? EM_386).

(** A segment lies below the kernel, its bytes within the image, and none of them
    behind its end. *)
Definition segment_ok (img : list Z) (h : phdr) : Prop :=
  p_vaddr h + p_memsz h <= KERNEL_VIRTUAL_BASE /\ p_filesz h <= p_memsz h /\ p_offset h + p_filesz h <= Z.of_nat (length img).

(** The pages of a segment, and the byte that it puts at an address. *)
Definition seg_page (h : phdr) (g : Z) : Prop :=
  loadable h = true /\ p_vaddr h / 4096 <= g < (p_vaddr h + p_memsz h + 4095) / 4096.
#[export] Instance seg_page_dec h g : Decision (seg_page h g).
Proof. unfold seg_page. apply _. Defined.
(** The flags that the entry of a page gets: those of the first segment that has the page,
    [None] when no segment has it. *)
Definition seg_flags (h : phdr) : Z := PAGE_PRESENT + PAGE_USER + if Z.land (p_flags h) PF_W =? 0 then 0 else PAGE_WRITE.
Fixpoint page_flags (hs : list phdr) (g : Z) : option Z :=
  match hs with
  | [] => None
  | h :: hs => if decide (seg_page h g) then Some (seg_flags h) else page_flags hs g
  end.
Definition seg_byte (img : list Z) (h : phdr) (a : Z) : Z :=
  if a - p_vaddr h <? p_filesz h then img !!! Z.to_nat (p_offset h + (a - p_vaddr h)) else 0.
(** What the addresses hold after a segment is loaded over [c]. *)
Definition overlay (img : list Z) (c : Z -> option Z) (h : phdr) : Z -> option Z := fun a =>
  if loadable h && in_range (p_vaddr h) (p_memsz h) a then Some (seg_byte img h a) else c a.
Definition loaded (img : list Z) (hs : list phdr) : Z -> option Z := foldl (overlay img) (fun _ => None) hs.
Definition top (b : Z) (h : phdr) : Z := if loadable h then Z.max b (p_vaddr h + p_memsz h) else b.
Definition brk_of (hs : list phdr) : Z := (foldl top 0 hs + 4095) / 4096 * 4096.

Lemma le_value_slice_range img n k : all_u8 img -> 0 <= img_le img n k < 256 ^ Z.of_nat n.
Proof.
  intros Hu. unfold img_le. pose proof (le_value_bound (slice img (Z.to_nat k) n) (all_u8_slice _ _ _ Hu)) as [A B].
  split; [exact A|]. eapply Z.lt_le_trans; [exact B|]. apply Z.pow_le_mono_r; [lia|]. unfold slice. rewrite length_take. lia.
Qed.

Lemma phdr_at_range img k : all_u8 img -> let h := phdr_at img k in
  is_u32 (p_offset h) /\ is_u32 (p_vaddr h) /\ is_u32 (p_filesz h) /\ is_u32 (p_memsz h) /\ is_u32 (p_flags h).
Proof. intros Hu. repeat split; apply (le_value_slice_range img 4 _ Hu). Qed.

(** ** The loading of an image *)

Section loading.
Context {St : Type} `{FrameAllocLaws St} {D : Type} `{BlockDev D} {P : Type} `{Ports P}.
Notation E := (ST (driver (loader St D) P)).
Implicit Types (s : driver (loader St D) P) (F : gset Z).

(** The state that the loader starts in: the image [img] is at the address [data] of
    the directory [pd] that is in use, at the bytes [Q]. *)
Variables (s0 : driver (loader St D) P) (F0 : gset Z) (pd data : Z) (img : list Z) (Q : Z -> Z).
Local Abbreviation size := (Z.of_nat (length img)).
Local Abbreviation mem_of s := (vm (space (own s))).
Hypothesis (Hvinv0 : vinv (space (own s0)) F0 pd).
Hypothesis (Himg0 : at_range (space (own s0)) F0 pd data size Q).
Hypothesis (Hbytes0 : forall i v, img !! i = Some v -> load8 (mem_of s0) (Q (Z.of_nat i)) = v).
Hypothesis (Hu8 : all_u8 img) (Hdata : 0 < data).

(** The page at [4096 * g] as it was. *)
Local Abbreviation absent g := (has (pte (mem_of s0) pd (4096 * g)) PAGE_PRESENT = false).

(** What the entries of new pages are to be. *)
Variable (want : Z -> option Z).

(** During the load [G] maps the pages allocated so far to their frames. *)
Record linv s F (G : gmap Z Z) : Prop := {
  li_vinv : vinv (space (own s)) F pd;
  li_use : in_use (space (own s)) pd;
  li_sub : F ⊆ F0;
  li_log : log_wf (klog s);
  li_leaves : leaves (space (own s0)) F0 (space (own s)) F pd;
  li_map : forall g f, G !! g = Some f -> 0 <= g < 1048576 /\ absent g /\ f ∈ F0 /\ is_frame (f * 4096) /\
    (exists fl, flags_ok fl /\ has fl PAGE_PRESENT = true /\ has fl PAGE_USER = true /\
       pte (mem_of s) pd (4096 * g) = f * 4096 + fl) /\
    (forall b, b / 4096 = f -> foreign (space (own s)) F pd b);
  li_inj : forall g g' f, G !! g = Some f -> G !! g' = Some f -> g = g';
  li_old : forall g, 0 <= g < 1048576 -> G !! g = None -> pte (mem_of s) pd (4096 * g) = pte (mem_of s0) pd (4096 * g);
  li_want : forall g f, G !! g = Some f -> exists fl, want g = Some fl /\ pte (mem_of s) pd (4096 * g) = f * 4096 + fl
}.

Lemma pte_of_page m a : 0 <= a < 4294967296 -> pte m pd a = pte m pd (4096 * (a / 4096)).
Proof. intros Ha. rewrite <- (pte_page m pd a) by done. by rewrite page_of_eq. Qed.

(** The byte behind an address of a page of [G]. *)
Definition phys (G : gmap Z Z) (a : Z) : Z := default 0 (G !! (a / 4096)) * 4096 + a mod 4096.

Lemma linv_at s F G a : linv s F G -> 0 <= a < 4294967296 -> is_Some (G !! (a / 4096)) -> at_byte (space (own s)) F pd a (phys G a).
Proof.
  intros Hi Ha [f Hf]. destruct (li_map _ _ _ Hi _ _ Hf) as (_ & _ & _ & Hfr & (fl & Hfl & Hp & _ & He) & Hb).
  destruct (entry_parts _ _ Hfr Hfl) as (_ & _ & Hpo & _). unfold at_byte. rewrite pte_of_page, He by done.
  assert (Hph : phys G a = f * 4096 + a mod 4096) by (unfold phys; by rewrite Hf).
  rewrite has_parts, Hpo, offset_of_eq, Hph by done. split; [done|]. split; [done|]. apply Hb. zdm.
Qed.

Lemma phys_inj s F G a b : linv s F G -> is_Some (G !! (a / 4096)) -> is_Some (G !! (b / 4096)) -> phys G a = phys G b -> a = b.
Proof.
  intros Hi [f Hf] [g Hg]. unfold phys. rewrite Hf, Hg. intros He. change (f * 4096 + a mod 4096 = g * 4096 + b mod 4096) in He.
  assert (f = g) as <- by zdm. pose proof (li_inj _ _ _ Hi _ _ _ Hf Hg). zdm.
Qed.

(** The image stays where it was. *)
Lemma img_foreign i : 0 <= i < size -> foreign (space (own s0)) F0 pd (Q i).
Proof. intros Hi. destruct Himg0 as (_ & _ & _ & Ha). by apply Ha. Qed.

Lemma linv_img s F G : linv s F G -> at_range (space (own s)) F pd data size Q /\
  forall i v, img !! i = Some v -> load8 (mem_of s) (Q (Z.of_nat i)) = v.
Proof.
  intros Hi. split.
  - destruct Himg0 as (H1' & H2' & H3' & Ha). split_and!; try done. intros i Hr. destruct (Ha i Hr) as (Hp & He & Hf).
    assert (Hg : G !! ((data + i) / 4096) = None).
    { destruct (G !! ((data + i) / 4096)) as [f|] eqn:Hg; [|done]. destruct (li_map _ _ _ Hi _ _ Hg) as (_ & Hn & _).
      rewrite pte_of_page, Hn in Hp by lia. done. }
    unfold at_byte. rewrite pte_of_page by lia. rewrite (li_old _ _ _ Hi) by (done || zdm). rewrite <- pte_of_page by lia. split; [done|]. split; [done|].
    by apply (li_leaves _ _ _ Hi).
  - intros i v Hv. pose proof (lookup_lt_Some _ _ _ Hv). destruct (li_leaves _ _ _ Hi (Q (Z.of_nat i))) as [-> _]; [|by apply Hbytes0].
    apply img_foreign. lia.
Qed.

Lemma img_bytes s F G k n : linv s F G -> 0 <= k -> 0 <= n -> k + n <= size ->
  (fun i => load8 (mem_of s) (Q (k + i))) <$> seqZ 0 n = slice img (Z.to_nat k) (Z.to_nat n).
Proof.
  intros Hi Hk Hn Hr. destruct (linv_img _ _ _ Hi) as [_ Hb]. apply list_eq. intros i.
  destruct (decide (i < Z.to_nat n)%nat) as [Hlt|Hge].
  - rewrite list_lookup_fmap, lookup_slice by done. rewrite lookup_seqZ_lt by lia. cbn [fmap option_fmap option_map].
    destruct (lookup_lt_is_Some_2 img (Z.to_nat k + i)) as [v Hv]; [lia|]. rewrite Hv. f_equal.
    rewrite <- (Hb _ _ Hv). do 2 f_equal. lia.
  - rewrite !lookup_ge_None_2; [done| |]; [unfold slice; rewrite length_take; lia|rewrite length_fmap, length_seqZ; lia].
Qed.

Lemma img_range s F G k n : linv s F G -> 0 <= k -> 0 <= n -> k + n <= size ->
  at_range (space (own s)) F pd (data + k) n (fun i => Q (k + i)).
Proof.
  intros Hi Hk Hn Hr. destruct (linv_img _ _ _ Hi) as [(A & _ & B & C) _]. split; [lia|]. split; [lia|]. split; [lia|].
  intros i Hl. rewrite <- Z.add_assoc. apply C. lia.
Qed.

Lemma ld_img s F G k n a : linv s F G -> 0 <= k -> k + Z.of_nat n <= size -> a = data + k ->
  ld n a s = Some (img_le img n k, s).
Proof.
  intros Hi Hk Hr ->. unfold ld, lin_word.
  rewrite (lin_bytes_spec _ F pd n (data + k) (fun i => Q (k + i))) by (first [apply Hi|apply (img_range s F G); [done|lia..]]).
  cbn [mbind option_bind]. rewrite (img_bytes s F G) by (done || lia). unfold img_le. by rewrite Nat2Z.id.
Qed.

(** *** Pages *)

(** What a step may do, besides what [linv] says: allocate pages, keep the contents
    of those that are there. *)
Record step_ok s F (G : gmap Z Z) s' F' (G' : gmap Z Z) : Prop := {
  so_linv : linv s' F' G';
  so_grows : G ⊆ G';
  so_files : files (own s') = files (own s);
  so_result : result (own s') = result (own s);
  so_bytes : forall a, is_Some (G !! (a / 4096)) -> load8 (mem_of s') (phys G a) = load8 (mem_of s) (phys G a)
}.

Lemma phys_grows G G' a : G ⊆ G' -> is_Some (G !! (a / 4096)) -> phys G' a = phys G a.
Proof. intros Hs [f Hf]. unfold phys. by rewrite Hf, (lookup_weaken _ _ _ _ Hf Hs). Qed.

Lemma step_refl s F G : linv s F G -> step_ok s F G s F G.
Proof. by split. Qed.

Lemma step_trans s1 F1 G1 s2 F2 G2 s3 F3 G3 : step_ok s1 F1 G1 s2 F2 G2 -> step_ok s2 F2 G2 s3 F3 G3 -> step_ok s1 F1 G1 s3 F3 G3.
Proof.
  intros [A1 B1 C1 D1 E1] [A2 B2 C2 D2 E2]. split; [done|by etrans|congruence|congruence|].
  intros a Ha. rewrite <- E1 by done. rewrite <- (phys_grows G1 G2) by done. apply E2.
  destruct Ha as [f Hf]. exists f. by eapply lookup_weaken.
Qed.

(** A change of the log. *)
Lemma linv_log s F G l : linv s F G -> log_wf l -> linv (with_log s l) F G.
Proof. intros [] Hl. by split. Qed.

Lemma step_log s F G l : linv s F G -> log_wf l -> step_ok s F G (with_log s l) F G.
Proof. intros Hi Hl. split; [by apply linv_log|done..]. Qed.

Definition grain (fl : Z) : Prop := flags_ok fl /\ has fl PAGE_PRESENT = true /\ has fl PAGE_USER = true /\ Z.lor fl PAGE_PRESENT = fl.

(** A page that was absent at the start gets a frame of its own, or nothing is left. *)
Lemma alloc_step s F G g fl : linv s F G -> 0 <= g < 1048576 -> absent g -> G !! g = None -> grain fl -> want g = Some fl ->
  let '(r, v) := vmm_alloc_page (space (own s)) pd (4096 * g) fl in
  (r = -1 /\ step_ok s F G (set_space s v) F G /\ (stdpp.base.size F <= 1)%nat) \/
  (r = 0 /\ exists f F', step_ok s F G (set_space s v) F' (<[g := f]> G)).
Proof.
  intros Hi Hg Hab HGg (Hfl & Hpr & Hus & Hlor) Hwant.
  pose proof (alloc_page_spec (space (own s)) F pd (4096 * g) fl (li_vinv _ _ _ Hi) ltac:(lia) Hfl) as Ha.
  destruct (vmm_alloc_page (space (own s)) pd (4096 * g) fl) as [r v].
  destruct Ha as [(-> & Hv & Hp & HL & Hvs & Hsz)|(t & F' & -> & Ht & Hin & HF & Hv & Hnew & Hold & HL & Hfo & Hvs)]; [left|right].
  - split; [done|]. split; [|done]. split; [|done..|].
    + destruct Hi as [A B C Dl El M I O W]. split; cbn; try done.
      * unfold in_use. by rewrite Hvs.
      * by eapply leaves_trans.
      * intros g' f Hg'. destruct (M g' f Hg') as (M1 & M2 & M3 & M4 & (fl' & M5) & M6). refine (conj M1 (conj M2 (conj M3 (conj M4 (conj _ _))))).
        { exists fl'. by rewrite Hp. } { intros b Hb. by apply HL, M6. }
      * intros g' Hr Hg'. rewrite Hp. by apply O.
      * intros g' f Hg'. rewrite Hp. by apply W.
    + intros a [f Hf]. destruct (li_map _ _ _ Hi _ _ Hf) as (_ & _ & _ & _ & _ & M). cbn. apply HL, M. unfold phys. rewrite Hf. cbn. zdm.
  - split; [done|]. exists (t / 4096), F'. assert (Ht4 : t / 4096 * 4096 = t) by (destruct Ht; zdm).
    assert (HF' : F' ⊆ F) by (etrans; [exact HF|apply diff_singleton_sub]).
    assert (Hfresh : forall g' f, G !! g' = Some f -> f <> t / 4096).
    { intros g' f Hg' ->. destruct (li_map _ _ _ Hi _ _ Hg') as (_ & _ & _ & _ & _ & M). by destruct (M t eq_refl) as (_ & Hn & _). }
    split; [|by apply insert_subseteq|done|done|].
    + destruct Hi as [A B C Dl El M I O W]. split; cbn; try done.
      * unfold in_use. rewrite Hvs. by destruct (pd =? _).
      * by etrans.
      * by eapply leaves_trans.
      * intros g' f [[<- <-]|[Hne Hg']]%lookup_insert_Some.
        -- rewrite Ht4. refine (conj Hg (conj Hab (conj (C _ Hin) (conj Ht (conj _ _))))).
           ++ exists fl. by rewrite Hnew, Hlor.
           ++ intros b Hb. apply Hfo. by rewrite Hb.
        -- destruct (M g' f Hg') as (M1 & M2 & M3 & M4 & (fl' & M5) & M6). refine (conj M1 (conj M2 (conj M3 (conj M4 (conj _ _))))).
           { exists fl'. rewrite Hold; [done|lia|]. intros E. apply Hne. zdm. } { intros b Hb. by apply HL, M6. }
      * intros g1 g2 f [[<- <-]|[Hn1 H1']]%lookup_insert_Some [[<- E]|[Hn2 H2']]%lookup_insert_Some; [done|..].
        -- by destruct (Hfresh _ _ H2').
        -- subst f. by destruct (Hfresh _ _ H1').
        -- by apply (I g1 g2 f).
      * intros g' Hr [Hn Hne]%lookup_insert_None. rewrite Hold; [by apply O|lia|]. intros E. apply Hne. zdm.
      * intros g' f [[<- <-]|[Hne Hg']]%lookup_insert_Some; [exists fl; by rewrite Ht4, Hnew, Hlor|].
        destruct (M g' f Hg') as (M1 & _). rewrite Hold; [by apply W|lia|]. intros E. apply Hne. zdm.
    + intros a [f Hf]. destruct (li_map _ _ _ Hi _ _ Hf) as (_ & _ & _ & _ & _ & M). cbn. apply HL, M. unfold phys. rewrite Hf. cbn. zdm.
Qed.

Lemma mapped_page s F G g : linv s F G -> 0 <= g < 1048576 -> absent g ->
  vmm_is_mapped (space (own s)) pd (4096 * g) = bool_decide (is_Some (G !! g)).
Proof.
  intros Hi Hg Hab. destruct (lookup_spec _ _ _ (4096 * g) (li_vinv _ _ _ Hi)) as [-> _]. destruct (G !! g) as [f|] eqn:E.
  - destruct (li_map _ _ _ Hi _ _ E) as (_ & _ & _ & Hfr & (fl & _ & Hp & _ & ->) & _). rewrite has_parts by done.
    rewrite Hp, bool_decide_true by (by exists f). done.
  - rewrite (li_old _ _ _ Hi) by done. rewrite Hab, bool_decide_false by (by intros []). done.
Qed.

Lemma warn_step (fmt : string) args s F G : printable_fmt fmt args -> linv s F G ->
  exists s', say_warn_fmt fmt args s = Some (tt, s') /\ step_ok s F G s' F G.
Proof.
  intros Hf Hi. destruct (say_warn_fmt_ok fmt args s Hf (li_log _ _ _ Hi)) as (l & E & Hl).
  exists (with_log s l). split; [exact E|by apply step_log].
Qed.

Lemma load_pages_spec fuel s F G lo hi fl : linv s F G -> 0 <= lo -> hi < 1048576 -> (0 < fuel)%nat -> hi - lo < Z.of_nat fuel ->
  (forall g, lo <= g < hi -> absent g) -> grain fl -> (forall g, lo <= g < hi -> G !! g = None -> want g = Some fl) ->
  exists ok s' F' G', load_pages fuel pd (4096 * lo) (4096 * hi) fl s = Some (ok, s') /\ step_ok s F G s' F' G' /\
    (if (ok : bool) then forall g, lo <= g < hi -> is_Some (G' !! g) else (stdpp.base.size F' <= 1)%nat).
Proof.
  revert s F G lo. induction fuel as [|fuel IH]; intros s F G lo Hi Hlo Hhi Hpos Hf Hab Hgr Hwant; [lia|]. cbn [load_pages].
  destruct (Z.ltb_spec (4096 * lo) (4096 * hi)) as [Hlt|Hge]; cbn [negb].
  2: { exists true, s, F, G. split; [done|]. split; [by apply step_refl|]. intros g Hg. lia. }
  rewrite (run_bind sget _ s s s eq_refl). rewrite (mapped_page s F G) by (first [done|lia|apply Hab; lia]).
  assert (Hnext : forall s1 F1 G1, step_ok s F G s1 F1 G1 -> is_Some (G1 !! lo) ->
    exists ok s' F' G', load_pages fuel pd (u32 (4096 * lo + PAGE_SIZE)) (4096 * hi) fl s1 = Some (ok, s') /\ step_ok s F G s' F' G' /\
    (if (ok : bool) then forall g, lo <= g < hi -> is_Some (G' !! g) else (stdpp.base.size F' <= 1)%nat)).
  { intros s1 F1 G1 H1' Hin. rewrite u32_small by (unfold PAGE_SIZE; lia). replace (4096 * lo + PAGE_SIZE) with (4096 * (lo + 1)) by (unfold PAGE_SIZE; lia).
    destruct (IH s1 F1 G1 (lo + 1)) as (ok & s2 & F2 & G2 & E2 & H2' & Hok); [apply H1'|lia..|intros g Hg; apply Hab; lia|done| |].
    { intros g Hg Hn. apply Hwant; [lia|]. destruct (G !! g) as [f|] eqn:Eg; [|done]. by rewrite (lookup_weaken _ _ _ _ Eg (so_grows _ _ _ _ _ _ H1')) in Hn. }
    exists ok, s2, F2, G2. split; [exact E2|]. split; [by eapply step_trans|]. destruct ok; [|done]. intros g Hg.
    destruct (decide (g = lo)) as [->|]; [|apply Hok; lia]. destruct Hin as [f Hf']. exists f. eapply lookup_weaken; [exact Hf'|apply H2']. }
  destruct (G !! lo) as [f|] eqn:EG.
  - rewrite bool_decide_true by (by exists f). cbn [negb]. rewrite (run_bind _ _ s true s eq_refl). cbn [negb].
    apply (Hnext s F G); [by apply step_refl|by exists f].
  - rewrite bool_decide_false by (by intros []). cbn [negb].
    pose proof (alloc_step s F G lo fl Hi ltac:(lia) (Hab lo ltac:(lia)) EG Hgr (Hwant lo ltac:(lia) EG)) as Ha.
    destruct (vmm_alloc_page (space (own s)) pd (4096 * lo) fl) as [r v].
    destruct Ha as [(-> & H1' & Hsz)|(-> & f & F1 & H1')].
    + destruct (warn_step "elf_load: failed to allocate page for segment at virtual address 0x%X" [AInt (4096 * lo)]
        (set_space s v) F G) as (s2 & E2 & H2'); [renders|apply H1'|].
      exists false, s2, F, G. split; [|split; [by eapply step_trans|done]].
      assert (E : (_ ← smod (fun s => set_space s v);
                  (if negb (-1 =? 0) then
                _ ← say_warn "elf_load: failed to allocate page for segment at virtual address 0x%X" (4096 * lo); mret false
              else mret true)) s = Some (false, s2)).
      { rewrite (run_bind (smod _) _ s tt (set_space s v) eq_refl). cbn [Z.eqb negb]. by rewrite (run_bind _ _ _ _ _ E2). }
      rewrite (run_bind _ _ _ _ _ E). done.
    + assert (E : (_ ← smod (fun s => set_space s v);
                  (if negb (0 =? 0) then
                _ ← say_warn "elf_load: failed to allocate page for segment at virtual address 0x%X" (4096 * lo); mret false
              else mret true)) s = Some (true, set_space s v)) by done.
      rewrite (run_bind _ _ _ _ _ E). cbn [negb]. apply (Hnext _ F1 (<[lo := f]> G)); [done|]. by rewrite lookup_insert_eq.
Qed.

(** *** Contents *)

(** The page of every address in a range is there. *)
Definition has_pages (G : gmap Z Z) (a n : Z) : Prop :=
  0 <= a /\ 0 <= n /\ a + n <= 4294967296 /\ forall b, a <= b < a + n -> is_Some (G !! (b / 4096)).

Lemma has_pages_at s F G a n : linv s F G -> has_pages G a n -> at_range (space (own s)) F pd a n (fun i => phys G (a + i)).
Proof.
  intros Hi (A & B & C & Hp). split; [done|]. split; [done|]. split; [done|].
  intros i Hr. apply linv_at; [done|lia|]. apply Hp. lia.
Qed.

Lemma phys_frame s F G a : linv s F G -> is_Some (G !! (a / 4096)) -> phys G a / 4096 ∈ F0 /\ foreign (space (own s)) F pd (phys G a).
Proof.
  intros Hi [f Hf]. destruct (li_map _ _ _ Hi _ _ Hf) as (_ & _ & Hin & _ & _ & Hb).
  assert (Hph : phys G a = f * 4096 + a mod 4096) by (unfold phys; by rewrite Hf). assert (phys G a / 4096 = f) by (rewrite Hph; zdm).
  split; [by subst f|by apply Hb].
Qed.

(** Memory that changed at the pages of [G] only. *)
Lemma linv_change s F G m' : linv s F G -> foreign_change (space (own s)) F pd m' ->
  (forall b, b / 4096 ∉ F0 -> load8 m' b = load8 (mem_of s) b) -> linv (set_space s (with_vm (space (own s)) m')) F G.
Proof.
  intros Hi Hc Hout. assert (Hv : vinv (space (own s)) F pd) by apply Hi.
  assert (Hpte : forall a, pte m' pd a = pte (mem_of s) pd a) by (intros a; by apply (foreign_pte (space (own s)) F)).
  destruct Hi as [A B C Dl El M I O W]. split; cbn; try done.
  - by apply foreign_vinv.
  - intros b Hb. destruct (El b Hb) as [<- Hb']. split; [apply Hout; apply Hb|]. by apply (foreign_same (space (own s))).
  - intros g f Hg. destruct (M g f Hg) as (M1 & M2 & M3 & M4 & (fl & M5) & M6).
    refine (conj M1 (conj M2 (conj M3 (conj M4 (conj _ _))))).
    { exists fl. by rewrite Hpte. } { intros b Hb. apply (foreign_same (space (own s))); [done|done|by apply M6]. }
  - intros g Hr Hg. rewrite Hpte. by apply O.
  - intros g f Hg. rewrite Hpte. by apply W.
Qed.

Lemma put_step s F G l a : linv s F G -> has_pages G a (Z.of_nat (length l)) -> all_u8 l ->
  exists v, lin_put l (space (own s)) a = Some v /\ linv (set_space s v) F G /\
    forall b, is_Some (G !! (b / 4096)) ->
      load8 (vm v) (phys G b) = if in_range a (Z.of_nat (length l)) b then l !!! Z.to_nat (b - a) else load8 (mem_of s) (phys G b).
Proof.
  intros Hi Hp Hl. pose proof Hp as (Ha & _ & Hr & Hpg).
  destruct (lin_put_spec l (space (own s)) F pd a (fun i => phys G (a + i))) as (m' & E & Hc & Hin & Hout).
  - apply Hi.
  - apply Hi.
  - by apply has_pages_at.
  - intros i j Hir Hjr He. enough (a + i = a + j) by lia. apply (phys_inj s F G); [done|apply Hpg; lia..|done].
  - exists (with_vm (space (own s)) m'). split; [exact E|]. split.
    + apply linv_change; [done|done|]. intros b Hb. apply Hout. intros i Hir ->. apply Hb. apply (phys_frame s F G); [done|apply Hpg; lia].
    + intros b Hb. cbn [vm with_vm]. destruct (in_range_spec a (Z.of_nat (length l)) b) as [Hr'|Hr'].
      * destruct (lookup_lt_is_Some_2 l (Z.to_nat (b - a))) as [v Hv]; [lia|].
        pose proof (Hin _ _ Hv) as Hx. rewrite Z2Nat.id in Hx by lia. replace (a + (b - a)) with b in Hx by lia. rewrite Hx.
        rewrite (list_lookup_total_correct _ _ _ Hv). apply u8_small. by apply (Forall_lookup_1 _ _ _ _ Hl Hv).
      * apply Hout. intros i Hir He. apply (phys_inj s F G) in He; [lia|done|done|apply Hpg; lia].
Qed.

Lemma copy_step s F G a off n : linv s F G -> has_pages G a n -> 0 <= off -> off + n <= size ->
  exists v, lin_copy (Z.to_nat n) (space (own s)) a (data + off) = Some v /\ linv (set_space s v) F G /\
    forall b, is_Some (G !! (b / 4096)) ->
      load8 (vm v) (phys G b) = if in_range a n b then img !!! Z.to_nat (off + (b - a)) else load8 (mem_of s) (phys G b).
Proof.
  intros Hi Hp Ho Hr. pose proof Hp as (Ha & Hn & Hr2 & Hpg).
  assert (Hl : length (slice img (Z.to_nat off) (Z.to_nat n)) = Z.to_nat n) by (apply length_slice; lia).
  destruct (put_step s F G (slice img (Z.to_nat off) (Z.to_nat n)) a) as (v & E & Hi' & Hb); [done|by rewrite Hl, Z2Nat.id|by apply all_u8_slice|].
  rewrite Hl, Z2Nat.id in Hb by done. exists v. split; [|split; [done|]].
  - rewrite (lin_copy_put _ _ F pd a (data + off) (fun i => phys G (a + i)) (fun i => Q (off + i))).
    + by rewrite Z2Nat.id, (img_bytes s F G) by done.
    + apply Hi.
    + apply Hi.
    + rewrite Z2Nat.id by done. by apply has_pages_at.
    + rewrite Z2Nat.id by done. by apply (img_range s F G).
    + intros i j Hir Hjr He. destruct (img_foreign (off + j)) as (_ & Hx & _); [lia|]. apply Hx. rewrite <- He.
      apply (phys_frame s F G); [done|apply Hpg; lia].
  - intros b Hs. rewrite Hb by done. destruct (in_range_spec a n b) as [Hir|]; [|done].
    apply list_lookup_total_correct. rewrite lookup_slice by lia.
    destruct (lookup_lt_is_Some_2 img (Z.to_nat (off + (b - a)))) as [x Hx]; [lia|]. rewrite (list_lookup_total_correct _ _ _ Hx).
    rewrite <- Hx. f_equal. lia.
Qed.

Lemma fill_step s F G a n : linv s F G -> has_pages G a n ->
  exists v, lin_fill (Z.to_nat n) (space (own s)) a 0 = Some v /\ linv (set_space s v) F G /\
    forall b, is_Some (G !! (b / 4096)) -> load8 (vm v) (phys G b) = if in_range a n b then 0 else load8 (mem_of s) (phys G b).
Proof.
  intros Hi Hp. pose proof Hp as (Ha & Hn & Hr2 & Hpg).
  destruct (put_step s F G (replicate (Z.to_nat n) 0) a) as (v & E & Hi' & Hb);
    [done|by rewrite length_replicate, Z2Nat.id|apply zeros_u8|]. rewrite length_replicate, Z2Nat.id in Hb by done.
  exists v. split; [by rewrite lin_fill_put|]. split; [done|]. intros b Hs. rewrite Hb by done.
  destruct (in_range_spec a n b) as [Hir|]; [|done]. apply list_lookup_total_correct, lookup_replicate_2. lia.
Qed.

(** The addresses of [c] hold its values. *)
Definition holds s (G : gmap Z Z) (c : Z -> option Z) : Prop := forall b v, c b = Some v ->
  0 <= b < 4294967296 /\ is_Some (G !! (b / 4096)) /\ load8 (mem_of s) (phys G b) = v.

Lemma field_img s F G k a j : linv s F G -> 0 <= k -> 0 <= j -> k + j + 4 <= size -> a = data + k ->
  ld 4 (u32 (a + j)) s = Some (img_le img 4 (k + j), s).
Proof.
  intros Hi Hk Hj Hr ->. destruct (linv_img _ _ _ Hi) as [(A & _ & B & _) _]. rewrite u32_small by lia.
  apply (ld_img s F G); [done|lia..].
Qed.

Lemma segment_pages h : is_u32 (p_vaddr h) -> is_u32 (p_memsz h) -> p_vaddr h + p_memsz h <= KERNEL_VIRTUAL_BASE ->
  page_of (p_vaddr h) = 4096 * (p_vaddr h / 4096) /\
  page_of (u32 (u32 (p_vaddr h + p_memsz h) + 4095)) = 4096 * ((p_vaddr h + p_memsz h + 4095) / 4096) /\
  (p_vaddr h + p_memsz h + 4095) / 4096 < 1048576.
Proof.
  unfold is_u32, KERNEL_VIRTUAL_BASE. intros Hv Hm Hr. rewrite (u32_small (p_vaddr h + p_memsz h)) by lia. rewrite u32_small by lia.
  rewrite !page_of_eq by lia. split; [done|]. split; [done|zdm].
Qed.

Lemma set_result_id s : set_result s (LoadResult (entry_point (result (own s))) (brk (result (own s)))) = s.
Proof. by destruct s as [[? ? []] ? ?]. Qed.

Lemma load_bytes_spec s F G k a : linv s F G -> 0 <= k -> k + 32 <= size -> a = data + k ->
  let h := phdr_at img k in segment_ok img h -> has_pages G (p_vaddr h) (p_memsz h) ->
  exists s', load_bytes data size a s = Some (true, s') /\ linv s' F G /\ files (own s') = files (own s) /\
    result (own s') = LoadResult (entry_point (result (own s))) (Z.max (brk (result (own s))) (p_vaddr h + p_memsz h)) /\
    forall b, is_Some (G !! (b / 4096)) ->
      load8 (mem_of s') (phys G b) = if in_range (p_vaddr h) (p_memsz h) b then seg_byte img h b else load8 (mem_of s) (phys G b).
Proof.
  intros Hi Hk Hr Ha h (Hbase & Hfm & Hof) Hp. destruct (phdr_at_range img k Hu8) as (Ro & Rv & Rf & Rm & _). fold h in Ro, Rv, Rf, Rm.
  assert (Hf : forall s G j, linv s F G -> 0 <= j -> j + 4 <= 32 -> ld 4 (u32 (a + j)) s = Some (img_le img 4 (k + j), s))
    by (intros; eapply field_img; [done|lia..|done]).
  unfold is_u32, KERNEL_VIRTUAL_BASE in *. pose proof Hp as (Hpa & Hpn & Hp32 & Hpg). pose proof Himg0 as (_ & _ & Hd2 & _).
  unfold load_bytes. rewrite (run_bind _ _ _ _ _ (Hf s G 16 Hi ltac:(lia) ltac:(lia))). change (img_le img 4 (k + 16)) with (p_filesz h).
  (* the copy *)
  assert (Hcopy : exists v, linv (set_space s v) F G /\
    (if 0 <? p_filesz h then
       p_offset ← ld 4 (u32 (a + 4));
       if size <? u32 (p_offset + p_filesz h) then
         _ ← say_warn_fmt "elf_load: segment file size exceeds ELF data size: offset 0x%X, size 0x%X" [AInt p_offset; AInt (p_filesz h)];
         mret false
       else
         p_vaddr ← ld 4 (u32 (a + 8));
         _ ← lin (fun v => lin_copy (Z.to_nat (p_filesz h)) v p_vaddr (u32 (data + p_offset)));
         mret true
     else mret true) s = Some (true, set_space s v) /\
    forall b, is_Some (G !! (b / 4096)) -> load8 (vm v) (phys G b) =
      if in_range (p_vaddr h) (p_filesz h) b then img !!! Z.to_nat (p_offset h + (b - p_vaddr h)) else load8 (mem_of s) (phys G b)).
  { destruct (Z.ltb_spec 0 (p_filesz h)) as [Hpos|Hneg].
    - destruct (copy_step s F G (p_vaddr h) (p_offset h) (p_filesz h)) as (v & E & Hi' & Hb); [done|..|lia|lia|].
      { split; [lia|]. split; [lia|]. split; [lia|]. intros b Hb. apply Hpg. lia. }
      exists v. split; [done|]. split; [|done]. rewrite (run_bind _ _ _ _ _ (Hf s G 4 Hi ltac:(lia) ltac:(lia))). change (img_le img 4 (k + 4)) with (p_offset h).
      rewrite (u32_small (p_offset h + p_filesz h)) by lia. replace (size <? p_offset h + p_filesz h) with false by lia.
      rewrite (run_bind _ _ _ _ _ (Hf s G 8 Hi ltac:(lia) ltac:(lia))). change (img_le img 4 (k + 8)) with (p_vaddr h).
      rewrite (u32_small (data + _)) by lia.
      erewrite run_bind; [reflexivity|]. unfold lin. by rewrite E.
    - exists (space (own s)). assert (Hs : set_space s (space (own s)) = s) by (destruct s as [[] ? ?]; done). rewrite Hs.
      split; [done|]. split; [done|]. intros b Hb. by destruct (in_range_spec (p_vaddr h) (p_filesz h) b); [lia|]. }
  destruct Hcopy as (v1 & Hi1 & E1 & Hb1). rewrite (run_bind _ _ _ _ _ E1). cbn [negb]. set (s1 := set_space s v1) in *.
  rewrite (run_bind _ _ _ _ _ (Hf s1 G 20 Hi1 ltac:(lia) ltac:(lia))). change (img_le img 4 (k + 20)) with (p_memsz h).
  rewrite (run_bind _ _ _ _ _ (Hf s1 G 16 Hi1 ltac:(lia) ltac:(lia))). change (img_le img 4 (k + 16)) with (p_filesz h).
  (* the zeros *)
  assert (Hfill : exists v, linv (set_space s1 v) F G /\
    (if p_filesz h <? p_memsz h then
       p_vaddr ← ld 4 (u32 (a + 8));
       lin (fun v => lin_fill (Z.to_nat (p_memsz h - p_filesz h)) v (u32 (p_vaddr + p_filesz h)) 0)
     else mret tt) s1 = Some (tt, set_space s1 v) /\
    forall b, is_Some (G !! (b / 4096)) -> load8 (vm v) (phys G b) =
      if in_range (p_vaddr h + p_filesz h) (p_memsz h - p_filesz h) b then 0 else load8 (mem_of s1) (phys G b)).
  { destruct (Z.ltb_spec (p_filesz h) (p_memsz h)) as [Hpos|Hneg].
    - destruct (fill_step s1 F G (p_vaddr h + p_filesz h) (p_memsz h - p_filesz h)) as (v & E & Hi' & Hb); [done|..].
      { split; [lia|]. split; [lia|]. split; [lia|]. intros b Hb. apply Hpg. lia. }
      exists v. split; [done|]. split; [|done]. rewrite (run_bind _ _ _ _ _ (Hf s1 G 8 Hi1 ltac:(lia) ltac:(lia))). change (img_le img 4 (k + 8)) with (p_vaddr h).
      rewrite u32_small by lia. unfold lin. by rewrite E.
    - exists (space (own s1)). assert (Hs : set_space s1 (space (own s1)) = s1) by (by unfold s1). rewrite Hs.
      split; [done|]. split; [done|]. intros b Hb. by destruct (in_range_spec (p_vaddr h + p_filesz h) (p_memsz h - p_filesz h) b); [lia|]. }
  destruct Hfill as (v2 & Hi2 & E2 & Hb2). rewrite (run_bind _ _ _ _ _ E2). set (s2 := set_space s1 v2) in *.
  rewrite (run_bind _ _ _ _ _ (Hf s2 G 8 Hi2 ltac:(lia) ltac:(lia))). change (img_le img 4 (k + 8)) with (p_vaddr h).
  rewrite (run_bind _ _ _ _ _ (Hf s2 G 20 Hi2 ltac:(lia) ltac:(lia))). change (img_le img 4 (k + 20)) with (p_memsz h). rewrite u32_small by lia.
  set (e := p_vaddr h + p_memsz h) in *. set (r2 := result (own s2)) in *.
  assert (E3 : smod (fun s => if brk (result (own s)) <? e then set_result s (LoadResult (entry_point (result (own s))) e) else s) s2 =
    Some (tt, set_result s2 (LoadResult (entry_point r2) (Z.max (brk r2) e)))).
  { unfold smod. do 2 f_equal. destruct (Z.ltb_spec (brk (result (own s2))) e); [rewrite Z.max_r by (subst r2; lia); done|].
    rewrite Z.max_l by (subst r2; lia). symmetry. apply set_result_id. }
  rewrite (run_bind _ _ _ _ _ E3). eexists. split; [done|]. split; [by destruct Hi2; split|]. split; [done|]. split; [done|].
  intros b Hb. clearbody h. cbn. rewrite Hb2 by done. unfold seg_byte. change (mem_of s1) with (vm v1). rewrite Hb1 by done.
  destruct (in_range_spec (p_vaddr h + p_filesz h) (p_memsz h - p_filesz h) b), (in_range_spec (p_vaddr h) (p_memsz h) b),
    (in_range_spec (p_vaddr h) (p_filesz h) b); try lia.
  - by replace (b - p_vaddr h <? p_filesz h) with false by lia.
  - by replace (b - p_vaddr h <? p_filesz h) with true by lia.
Qed.

Lemma load_segment_spec s F G k a : linv s F G -> 0 <= k -> k + 32 <= size -> a = data + k ->
  let h := phdr_at img k in (loadable h = true -> segment_ok img h) -> (forall g, seg_page h g -> absent g) ->
  (forall g, seg_page h g -> G !! g = None -> want g = Some (seg_flags h)) ->
  exists ok s' F' G', load_segment data size pd a s = Some (ok, s') /\ linv s' F' G' /\ G ⊆ G' /\ files (own s') = files (own s) /\
    entry_point (result (own s')) = entry_point (result (own s)) /\
    if (ok : bool) then brk (result (own s')) = top (brk (result (own s))) h /\ (forall g, seg_page h g -> is_Some (G' !! g)) /\
      forall c, holds s G c -> holds s' G' (overlay img c h)
    else (stdpp.base.size F' <= 1)%nat.
Proof.
  intros Hi Hk Hr Ha h Hok Hab Hwant. destruct (phdr_at_range img k Hu8) as (Ro & Rv & Rf & Rm & Rfl). fold h in Ro, Rv, Rf, Rm, Rfl.
  assert (Hskip : loadable h = false -> exists ok s' F' G', Some (true, s) = Some (ok, s') /\ linv s' F' G' /\ G ⊆ G' /\
    files (own s') = files (own s) /\ entry_point (result (own s')) = entry_point (result (own s)) /\
    if (ok : bool) then brk (result (own s')) = top (brk (result (own s))) h /\ (forall g, seg_page h g -> is_Some (G' !! g)) /\
      forall c, holds s G c -> holds s' G' (overlay img c h)
    else (stdpp.base.size F' <= 1)%nat).
  { intros Hl. exists true, s, F, G. split; [done|]. split; [done|]. split; [done|]. split; [done|]. split; [done|].
    unfold top, seg_page, overlay. rewrite Hl. split; [done|]. split; [by intros g [? _]|]. done. }
  assert (Hf : forall j, 0 <= j -> j + 4 <= 32 -> ld 4 (u32 (a + j)) s = Some (img_le img 4 (k + j), s))
    by (intros; apply (field_img s F G k a j); [done|lia..|done]).
  unfold load_segment. rewrite (run_bind _ _ _ _ _ (Hf 0 ltac:(lia) ltac:(lia))), Z.add_0_r. change (img_le img 4 k) with (p_type h).
  unfold loadable in *. destruct (p_type h =? PT_LOAD) eqn:Ht; cbn [negb andb] in *; [|by apply Hskip].
  rewrite (run_bind _ _ _ _ _ (Hf 20 ltac:(lia) ltac:(lia))). change (img_le img 4 (k + 20)) with (p_memsz h).
  destruct (p_memsz h =? 0) eqn:Hm; cbn [negb] in *; [by apply Hskip|]. clear Hskip.
  destruct (Hok eq_refl) as (Hbase & Hfm & Hoff). destruct (segment_pages h Rv Rm Hbase) as (Elo & Ehi & Hhi).
  rewrite (run_bind _ _ _ _ _ (Hf 8 ltac:(lia) ltac:(lia))). change (img_le img 4 (k + 8)) with (p_vaddr h).
  unfold is_u32, KERNEL_VIRTUAL_BASE in *. replace (3221225472 <=? p_vaddr h) with false by lia.
  rewrite (run_bind _ _ _ _ _ (Hf 24 ltac:(lia) ltac:(lia))). cbv zeta. rewrite Elo, Ehi.
  set (fl := if negb (Z.land _ PF_W =? 0) then _ else _). assert (Hfl : grain fl) by (unfold fl; by destruct (negb _)).
  assert (Hpages : forall g, p_vaddr h / 4096 <= g < (p_vaddr h + p_memsz h + 4095) / 4096 -> absent g).
  { intros g Hg. apply Hab. split; [unfold loadable; by rewrite Ht, Hm|done]. }
  assert (Hfw : forall g, p_vaddr h / 4096 <= g < (p_vaddr h + p_memsz h + 4095) / 4096 -> G !! g = None -> want g = Some fl).
  { intros g Hg Hn. rewrite (Hwant g); [|split; [unfold loadable; by rewrite Ht, Hm|done]|done]. f_equal. unfold seg_flags, fl.
    change (p_flags h) with (img_le img 4 (k + 24)). by destruct (Z.land _ PF_W =? 0). }
  destruct (load_pages_spec (Z.to_nat 1048576) s F G (p_vaddr h / 4096) ((p_vaddr h + p_memsz h + 4095) / 4096) fl Hi ltac:(zdm) Hhi ltac:(lia) ltac:(zdm) Hpages Hfl Hfw) as (ok & s1 & F1 & G1 & E1 & H1' & Hres).
  rewrite (run_bind _ _ _ _ _ E1). destruct ok; cbn [negb].
  2: { exists false, s1, F1, G1. split; [done|]. split; [apply H1'|]. split; [apply H1'|]. split; [apply H1'|]. split; [|done].
       by rewrite (so_result _ _ _ _ _ _ H1'). }
  assert (Hpg : has_pages G1 (p_vaddr h) (p_memsz h)).
  { split; [lia|]. split; [lia|]. split; [lia|]. intros b Hb. apply Hres. zdm. }
  destruct (load_bytes_spec s1 F1 G1 k a (so_linv _ _ _ _ _ _ H1') Hk Hr Ha (Hok eq_refl) Hpg) as (s2 & E2 & Hi2 & Hfi & Hre & Hb).
  exists true, s2, F1, G1. split; [exact E2|]. split; [done|]. split; [apply H1'|].
  split; [by rewrite Hfi, (so_files _ _ _ _ _ _ H1')|]. rewrite Hre. cbn [entry_point brk]. rewrite (so_result _ _ _ _ _ _ H1').
  split; [done|]. split; [unfold top, loadable; by rewrite Ht, Hm|]. split; [intros g [_ Hg]; by apply Hres|].
  intros c Hc b v Hv. unfold overlay, loadable in Hv. rewrite Ht, Hm in Hv. cbn [negb andb] in Hv. fold h in Hb.
  destruct (in_range_spec (p_vaddr h) (p_memsz h) b) as [Hir|Hir].
  - injection Hv as <-. split; [lia|]. assert (Hs : is_Some (G1 !! (b / 4096))) by (apply Hpg; lia). split; [done|].
    rewrite Hb by done. destruct (in_range_spec (p_vaddr h) (p_memsz h) b); [done|lia].
  - destruct (Hc b v Hv) as (Hr32 & Hs & Hl). split; [done|]. assert (Hs1 : is_Some (G1 !! (b / 4096))).
    { destruct Hs as [f Hf']. exists f. eapply lookup_weaken; [exact Hf'|apply H1']. }
    split; [done|]. rewrite Hb by done. destruct (in_range_spec (p_vaddr h) (p_memsz h) b); [lia|].
    rewrite (phys_grows G G1) by (done || apply H1'). by rewrite (so_bytes _ _ _ _ _ _ H1').
Qed.

(** *** The header *)

Lemma byte_img s F G j a : linv s F G -> 0 <= j -> j < size -> a = data + j -> ld 1 a s = Some (img !!! Z.to_nat j, s).
Proof.
  intros Hi Hj Hr Ha. rewrite (ld_img s F G j 1 a) by (done || lia). do 2 f_equal. unfold img_le.
  destruct (lookup_lt_is_Some_2 img (Z.to_nat j)) as [v Hv]; [lia|]. rewrite (list_lookup_total_correct _ _ _ Hv).
  unfold slice. rewrite (drop_S _ _ _ Hv). rewrite firstn_cons, take_0. cbn [le_value]. lia.
Qed.

Lemma has_magic_spec s F G l j : linv s F G -> 0 <= j -> j + Z.of_nat (length l) <= size ->
  has_magic l (data + j) s = Some (bool_decide (slice img (Z.to_nat j) (length l) = l), s).
Proof.
  intros Hi. revert j. induction l as [|v l IH]; intros j Hj Hr; [done|]. cbn [has_magic length] in *.
  rewrite (run_bind _ _ _ _ _ (byte_img s F G j _ Hi Hj ltac:(lia) eq_refl)).
  destruct (lookup_lt_is_Some_2 img (Z.to_nat j)) as [b Hb]; [lia|]. rewrite (list_lookup_total_correct _ _ _ Hb).
  unfold slice. rewrite (drop_S _ _ _ Hb), firstn_cons. destruct (Z.eqb_spec b v) as [->|Hne]; cbn [negb].
  2: { rewrite bool_decide_false; [done|]. intros E. by injection E. }
  destruct l as [|w l]; [by rewrite take_0, bool_decide_true|].
  destruct Himg0 as (_ & _ & Hd2 & _). cbn [length] in *. rewrite u32_small by lia. replace (data + j + 1) with (data + (j + 1)) by lia.
  rewrite IH by lia. do 2 f_equal. replace (Z.to_nat (j + 1)) with (S (Z.to_nat j)) by lia. apply bool_decide_ext. unfold slice.
  split; [by intros ->|]. intros E. by injection E.
Qed.

Lemma warn_ok msg s F G : linv s F G -> exists s', warn msg s = Some (tt, s') /\ step_ok s F G s' F G /\ own s' = own s.
Proof.
  intros Hi. unfold warn, say_log, log_warn. destruct (log_write_spec (ticks (io s)) LOG_LEVEL_WARN (str msg) _ (li_log _ _ _ Hi)) as (l & -> & Hl & _).
  exists (with_log s l). split; [done|]. split; [by apply step_log|done].
Qed.

(** A refusal with a message in the log. *)
Lemma refuse_ok {X} (x : X) msg s F G : linv s F G -> exists s', (_ ← warn msg; mret x) s = Some (x, s') /\ step_ok s F G s' F G /\ own s' = own s.
Proof. intros Hi. destruct (warn_ok msg s F G Hi) as (s' & E & Hs). exists s'. by rewrite (run_bind _ _ _ _ _ E). Qed.

Lemma validate_spec s F G : linv s F G -> ELF_HEADER_BYTES <= size ->
  exists s', elf_validate data s = Some (if header_ok img then 0 else -1, s') /\ step_ok s F G s' F G /\ own s' = own s.
Proof.
  intros Hi Hs. unfold ELF_HEADER_BYTES in *. destruct Himg0 as (_ & _ & Hd2 & _). unfold elf_validate. replace (data =? 0) with false by lia.
  pose proof (has_magic_spec s F G [ELF_MAGIC0; ELF_MAGIC1; ELF_MAGIC2; ELF_MAGIC3] 0 Hi ltac:(lia) ltac:(cbn; lia)) as Em.
  rewrite Z.add_0_r in Em. rewrite (run_bind _ _ _ _ _ Em). unfold header_ok.
  assert (Hsix : slice img 0 6 = slice img 0 4 ++ [img !!! 4%nat; img !!! 5%nat]).
  { destruct img as [|? [|? [|? [|? [|? [|? ?]]]]]]; cbn in Hs; try lia. done. }
  assert (H4 : length (slice img 0 4) = 4%nat) by (apply length_slice; lia).
  change (Z.to_nat 0) with 0%nat in *. change (length [ELF_MAGIC0; ELF_MAGIC1; ELF_MAGIC2; ELF_MAGIC3]) with 4%nat in *.
  rewrite Hsix.
  change [ELF_MAGIC0; ELF_MAGIC1; ELF_MAGIC2; ELF_MAGIC3; ELFCLASS32; ELFDATA2LSB]
    with ([ELF_MAGIC0; ELF_MAGIC1; ELF_MAGIC2; ELF_MAGIC3] ++ [ELFCLASS32; ELFDATA2LSB]).
  destruct (bool_decide_reflect (slice img 0 4 = [ELF_MAGIC0; ELF_MAGIC1; ELF_MAGIC2; ELF_MAGIC3])) as [Hm|Hm]; cbn [negb].
  2: { rewrite bool_decide_false; [by apply refuse_ok|]. intros [E _]%app_inj_1; [done|by rewrite H4]. }
  rewrite Hm. rewrite (run_bind _ _ _ _ _ (byte_img s F G 4 _ Hi ltac:(lia) ltac:(lia) ltac:(apply u32_small; lia))).
  change (Z.to_nat 4) with 4%nat. destruct (Z.eqb_spec (img !!! 4%nat) ELFCLASS32) as [Hc|Hc]; cbn [negb].
  2: { rewrite bool_decide_false; [by apply refuse_ok|]. intros [_ E]%app_inj_1; [by injection E|done]. }
  rewrite (run_bind _ _ _ _ _ (byte_img s F G 5 _ Hi ltac:(lia) ltac:(lia) ltac:(apply u32_small; lia))).
  change (Z.to_nat 5) with 5%nat. destruct (Z.eqb_spec (img !!! 5%nat) ELFDATA2LSB) as [He|He]; cbn [negb].
  2: { rewrite bool_decide_false; [by apply refuse_ok|]. intros [_ E]%app_inj_1; [by injection E|done]. }
  rewrite Hc, He, bool_decide_true by done. cbn [andb].
  rewrite (run_bind _ _ _ _ _ (ld_img s F G 16 2 _ Hi ltac:(lia) ltac:(cbn; lia) ltac:(apply u32_small; lia))).
  destruct (img_le img 2 16 =? ET_EXEC); cbn [negb andb]; [|by apply refuse_ok].
  rewrite (run_bind _ _ _ _ _ (ld_img s F G 18 2 _ Hi ltac:(lia) ltac:(cbn; lia) ltac:(apply u32_small; lia))).
  destruct (img_le img 2 18 =? EM_386); cbn [negb]; [|by apply refuse_ok]. exists s. split; [done|]. split; [by apply step_refl|done].
Qed.

(** *** The whole image *)

Definition rest (i : Z) : list phdr := (fun j => phdr_at img (phoff img + ELF_PHDR_BYTES * j)) <$> seqZ i (phnum img - i).

Lemma rest_cons i : i < phnum img -> rest i = phdr_at img (phoff img + ELF_PHDR_BYTES * i) :: rest (i + 1).
Proof.
  intros Hi. unfold rest. rewrite seqZ_cons by lia. rewrite fmap_cons. do 3 f_equal. lia.
Qed.

Hypothesis (Hsize : ELF_HEADER_BYTES <= size) (Hphs : phoff img + ELF_PHDR_BYTES * phnum img <= size).
Hypothesis (Hsegs : forall h, h ∈ rest 0 -> loadable h = true -> segment_ok img h).
Hypothesis (Habs : forall h g, h ∈ rest 0 -> seg_page h g -> absent g).

Lemma rest_in i : 0 <= i -> i < phnum img -> phdr_at img (phoff img + ELF_PHDR_BYTES * i) ∈ rest 0.
Proof. intros Hi Hn. apply list_elem_of_fmap. exists i. split; [done|]. apply elem_of_seqZ. lia. Qed.

Lemma load_segments_spec fuel s F G i c : linv s F G -> 0 <= i -> (0 < fuel)%nat -> phnum img - i < Z.of_nat fuel -> holds s G c ->
  (forall g, G !! g = None -> want g = page_flags (rest i) g) ->
  exists ok s' F' G', load_segments fuel data size pd (u32 (data + phoff img)) i s = Some (ok, s') /\ linv s' F' G' /\ G ⊆ G' /\
    files (own s') = files (own s) /\ entry_point (result (own s')) = entry_point (result (own s)) /\
    if (ok : bool) then brk (result (own s')) = foldl top (brk (result (own s))) (rest i) /\
      (forall h g, h ∈ rest i -> seg_page h g -> is_Some (G' !! g)) /\ holds s' G' (foldl (overlay img) c (rest i))
    else (stdpp.base.size F' <= 1)%nat.
Proof.
  revert s F G i c. induction fuel as [|fuel IH]; intros s F G i c Hi Hi0 Hpos Hf Hc Hwant; [lia|]. cbn [load_segments].
  pose proof (le_value_slice_range img 4 28 Hu8) as Hphoff. change (256 ^ Z.of_nat 4) with 4294967296 in Hphoff. fold (phoff img) in Hphoff.
  destruct Himg0 as (_ & _ & Hd2 & _). unfold ELF_HEADER_BYTES, ELF_PHDR_BYTES in *.
  rewrite (run_bind _ _ _ _ _ (ld_img s F G 44 2 (u32 (data + 44)) Hi ltac:(lia) ltac:(cbn; lia) ltac:(apply u32_small; lia))).
  fold (phnum img). destruct (Z.ltb_spec i (phnum img)) as [Hlt|Hge]; cbn [negb].
  2: { exists true, s, F, G. assert (rest i = []) as -> by (unfold rest; by rewrite seqZ_nil by lia). cbn.
       repeat (split; [done|]). split; [by intros h g Hn%not_elem_of_nil|done]. }
  rewrite (u32_small (data + phoff img)) by nia. rewrite (u32_small (data + phoff img + 32 * i)) by nia.
  assert (Hw1 : forall g, seg_page (phdr_at img (phoff img + 32 * i)) g -> G !! g = None -> want g = Some (seg_flags (phdr_at img (phoff img + 32 * i)))).
  { intros g Hg Hn. rewrite Hwant, rest_cons by done. cbn [page_flags]. by rewrite decide_True. }
  destruct (load_segment_spec s F G (phoff img + 32 * i) (data + phoff img + 32 * i) Hi ltac:(nia) ltac:(nia) ltac:(lia)
    (Hsegs _ (rest_in i Hi0 Hlt)) (fun g => Habs _ g (rest_in i Hi0 Hlt)) Hw1) as (ok & s1 & F1 & G1 & E1 & Hi1 & Hg1 & Hfi1 & He1 & Hok).
  rewrite (run_bind _ _ _ _ _ E1). destruct ok; cbn [negb].
  2: { exists false, s1, F1, G1. done. }
  destruct Hok as (Hb1 & Hp1 & Hh1).
  assert (Hw2 : forall g, G1 !! g = None -> want g = page_flags (rest (i + 1)) g).
  { intros g Hn. assert (Hn0 : G !! g = None) by (destruct (G !! g) as [f|] eqn:Eg; [by rewrite (lookup_weaken _ _ _ _ Eg Hg1) in Hn|done]).
    rewrite Hwant, rest_cons by done. cbn [page_flags]. apply decide_False. intros Hsp. destruct (Hp1 g Hsp). congruence. }
  destruct (IH s1 F1 G1 (i + 1) _ Hi1 ltac:(lia) ltac:(lia) ltac:(lia) (Hh1 c Hc) Hw2) as (ok & s2 & F2 & G2 & E2 & Hi2 & Hg2 & Hfi2 & He2 & Hok2).
  exists ok, s2, F2, G2. rewrite (u32_small (data + phoff img)) in E2 by nia. split; [exact E2|]. split; [done|]. split; [by etrans|].
  split; [congruence|]. split; [congruence|]. destruct ok; [|done]. rewrite (rest_cons i) by done. cbn [foldl].
  destruct Hok2 as (Hb2 & Hp2 & Hh2). unfold ELF_PHDR_BYTES. rewrite Hb2, Hb1. split; [done|]. split; [|done].
  intros h g [->|Hin]%elem_of_cons Hg; [|by apply (Hp2 h)]. destruct (Hp1 g Hg) as [f Hf']. exists f. by eapply lookup_weaken.
Qed.

Lemma linv_start : in_use (space (own s0)) pd -> log_wf (klog s0) -> linv s0 F0 ∅.
Proof. intros Hu Hl. by split. Qed.

Lemma foldl_top_bound hs b : 0 <= b <= KERNEL_VIRTUAL_BASE -> (forall h, h ∈ hs -> loadable h = true -> segment_ok img h) ->
  (forall h, h ∈ hs -> 0 <= p_vaddr h /\ 0 <= p_memsz h) -> 0 <= foldl top b hs <= KERNEL_VIRTUAL_BASE.
Proof.
  revert b. induction hs as [|h hs IH]; intros b Hb Hs Hp; [done|]. cbn [foldl]. apply IH; [|intros; apply Hs; [by right|done]|intros; apply Hp; by right].
  unfold top. destruct (loadable h) eqn:E; [|done]. destruct (Hs h ltac:(left) E) as (Hle & _). destruct (Hp h ltac:(left)). lia.
Qed.

Lemma elf_load_spec : in_use (space (own s0)) pd -> log_wf (klog s0) -> (forall g, want g = page_flags (rest 0) g) -> header_ok img = true -> 0 < phoff img -> 0 < phnum img ->
  exists r s' F' G', elf_load data size pd true s0 = Some (r, s') /\ linv s' F' G' /\ files (own s') = files (own s0) /\
    ((r = -1 /\ (stdpp.base.size F' <= 1)%nat) \/
     (r = 0 /\ result (own s') = LoadResult (img_le img 4 24) (brk_of (rest 0)) /\
      (forall h g, h ∈ rest 0 -> seg_page h g -> is_Some (G' !! g)) /\ holds s' G' (loaded img (rest 0)))).
Proof.
  intros Hu Hl Hw Hh Hpo Hpn. pose proof (linv_start Hu Hl) as Hi. destruct (vi_dir _ _ _ Hvinv0) as [[_ Hpd] _].
  pose proof Himg0 as (_ & _ & Hd2 & _). unfold ELF_HEADER_BYTES, ELF_PHDR_BYTES in *.
  unfold elf_load. replace (data =? 0) with false by lia. replace (pd =? 0) with false by lia. cbn [orb negb].
  replace (size <? ELF_HEADER_BYTES) with false by (unfold ELF_HEADER_BYTES; lia).
  destruct (validate_spec s0 F0 ∅ Hi Hsize) as (s1 & E1 & H1' & _). rewrite Hh in E1. rewrite (run_bind _ _ _ _ _ E1). cbn [Z.eqb negb].
  pose proof (so_linv _ _ _ _ _ _ H1') as Hi1.
  rewrite (run_bind _ _ _ _ _ (ld_img s1 F0 ∅ 28 4 _ Hi1 ltac:(lia) ltac:(cbn; lia) ltac:(apply u32_small; lia))). fold (phoff img).
  rewrite (run_bind _ _ _ _ _ (ld_img s1 F0 ∅ 44 2 _ Hi1 ltac:(lia) ltac:(cbn; lia) ltac:(apply u32_small; lia))). fold (phnum img).
  replace (phoff img =? 0) with false by lia. replace (phnum img =? 0) with false by lia. cbn [orb].
  rewrite (u32_small (phoff img + _)) by (unfold ELF_PHDR_BYTES; lia).
  replace (size <? phoff img + phnum img * ELF_PHDR_BYTES) with false by (unfold ELF_PHDR_BYTES; lia). cbv zeta.
  rewrite (run_bind _ _ _ _ _ (ld_img s1 F0 ∅ 24 4 _ Hi1 ltac:(lia) ltac:(cbn; lia) ltac:(apply u32_small; lia))).
  set (s2 := set_result s1 (LoadResult (img_le img 4 24) 0)). rewrite run_mod. fold s2.
  assert (Hi2 : linv s2 F0 ∅) by (destruct Hi1; by split).
  pose proof (le_value_slice_range img 2 44 Hu8) as Hn2. change (256 ^ Z.of_nat 2) with 65536 in Hn2. fold (phnum img) in Hn2.
  destruct (load_segments_spec (Z.to_nat 65536) s2 F0 ∅ 0 (fun _ => None) Hi2 ltac:(lia) ltac:(lia) ltac:(lia) ltac:(by intros b v ?) (fun g _ => Hw g))
    as (ok & s3 & F3 & G3 & E3 & Hi3 & _ & Hfi3 & He3 & Hok).
  rewrite (run_bind _ _ _ _ _ E3). assert (Hfiles : files (own s3) = files (own s0)) by (rewrite Hfi3; apply H1').
  destruct ok; cbn [negb].
  2: { exists (-1), s3, F3, G3. split; [done|]. split; [done|]. split; [done|]. by left. }
  destruct Hok as (Hb & Hp & Hc). set (s4 := set_result s3 (LoadResult (entry_point (result (own s3))) (page_of (u32 (brk (result (own s3)) + 4095))))).
  rewrite run_mod. fold s4. exists 0, s4, F3, G3. split; [done|]. split; [destruct Hi3; by split|]. split; [done|].
  right. split; [done|]. split; [|by split].
  unfold s4. cbn [result own with_own set_result]. rewrite He3, Hb. cbn [entry_point result own set_result with_own brk s2]. f_equal.
  destruct (foldl_top_bound (rest 0) 0) as [B1 B2]; [done|exact Hsegs| |].
  { intros h (i & -> & _)%list_elem_of_fmap. destruct (phdr_at_range img (phoff img + ELF_PHDR_BYTES * i) Hu8) as (_ & Rv & _ & Rm & _).
    unfold is_u32 in *. lia. }
  unfold brk_of, KERNEL_VIRTUAL_BASE in *. rewrite u32_small by lia. rewrite page_of_eq by lia. lia.
Qed.
End loading.

(** ** The claims *)

Section claims.
Context {St : Type} `{FrameAllocLaws St} {D : Type} `{BlockDev D} {P : Type} `{Ports P}.
Implicit Types (s : driver (loader St D) P) (F : gset Z).

(** The image [img] is in memory at [data], outside the page tables and the free frames. *)
Definition image_at s F pd (data : Z) (img : list Z) : Prop :=
  0 < data /\ all_u8 img /\ exists Q, at_range (space (own s)) F pd data (Z.of_nat (length img)) Q /\
    forall i v, img !! i = Some v -> load8 (vm (space (own s))) (Q (Z.of_nat i)) = v.
Definition image_phdrs (img : list Z) : list phdr := phdrs img (phnum img).
(** An executable whose headers lie within it, and whose segments are well formed. *)
Definition program (img : list Z) : Prop :=
  ELF_HEADER_BYTES <= Z.of_nat (length img) /\ header_ok img = true /\ 0 < phoff img /\ 0 < phnum img /\
  phoff img + ELF_PHDR_BYTES * phnum img <= Z.of_nat (length img) /\
  forall h, h ∈ image_phdrs img -> loadable h = true -> segment_ok img h.

Lemma rest_phdrs img : rest img 0 = image_phdrs img.
Proof. unfold rest, image_phdrs, phdrs. by rewrite Z.sub_0_r. Qed.

(** The pages allocated by the load, [G]: each has a frame of its own that was free and is
    free no more, and the entry that its segments ask for; no other page's entry changed. *)
Record allocated (v : vst St) F (v' : vst St) F' pd (hs : list phdr) (G : gmap Z Z) : Prop := {
  al_page : forall g f, G !! g = Some f -> f ∈ F /\ f ∉ F' /\ exists fl, page_flags hs g = Some fl /\ pte (vm v') pd (4096 * g) = f * 4096 + fl;
  al_inj : forall g g' f, G !! g = Some f -> G !! g' = Some f -> g = g';
  al_other : forall g, 0 <= g < 1048576 -> G !! g = None -> pte (vm v') pd (4096 * g) = pte (vm v) pd (4096 * g)
}.

(** C4: A well-formed program is loaded into the address space in use, when none of the
    pages of its segments is mapped there: the entry point and the end of the image are
    reported, exactly the pages of the segments are new, each on a frame of its own, present,
    open to user mode, and writable when the first segment that has the page says so; and
    every byte of the segments holds what the file says, zeros behind the file's part, and
    the last segment winning where they overlap.  It fails only when the frames run out (at
    most one is left), with some of the pages allocated.  In either case the other entries of
    the page tables stay as they are, the tables well formed, and no byte is written that was
    in use before. *)
Theorem elf_load_loads s F pd data img :
  vinv (space (own s)) F pd -> in_use (space (own s)) pd -> log_wf (klog s) -> image_at s F pd data img -> program img ->
  (forall h g, h ∈ image_phdrs img -> seg_page h g -> vmm_is_mapped (space (own s)) pd (4096 * g) = false) ->
  exists r s' F' G, elf_load data (Z.of_nat (length img)) pd true s = Some (r, s') /\
    vinv (space (own s')) F' pd /\ F' ⊆ F /\ leaves (space (own s)) F (space (own s')) F' pd /\ files (own s') = files (own s) /\
    allocated (space (own s)) F (space (own s')) F' pd (image_phdrs img) G /\
    ((r = -1 /\ (stdpp.base.size F' <= 1)%nat) \/
     (r = 0 /\ result (own s') = LoadResult (img_le img 4 24) (brk_of (image_phdrs img)) /\
      (forall h g, h ∈ image_phdrs img -> seg_page h g -> is_Some (G !! g) /\ page_ok (vm (space (own s'))) pd (4096 * g) false = true) /\
      forall a v, loaded img (image_phdrs img) a = Some v -> lin_load (space (own s')) a = Some v)).
Proof.
  intros Hv Hu Hl (Hd & Hu8 & Q & Hr & Hb) (Hsz & Hh & Hpo & Hpn & Hph & Hs) Hm. rewrite <- rest_phdrs in *.
  assert (Hm' : forall h g, h ∈ rest img 0 -> seg_page h g -> has (pte (vm (space (own s))) pd (4096 * g)) PAGE_PRESENT = false).
  { intros h g Hin Hg. rewrite <- (Hm h g Hin Hg). symmetry. apply (lookup_spec _ F). done. }
  destruct (elf_load_spec s F pd data img Q) with (want := page_flags (rest img 0)) as (r & s' & F' & G' & E & Hi & Hfiles & Hres); try done.
  exists r, s', F', G'. split; [exact E|]. split; [apply Hi|]. split; [apply Hi|]. split; [apply Hi|]. split; [done|]. split.
  { split; [|apply Hi|apply Hi]. intros g f Hf. destruct (li_map _ _ _ _ _ _ _ Hi _ _ Hf) as (_ & _ & Hin & _ & _ & Hbf).
    split; [done|]. split; [|by apply (li_want _ _ _ _ _ _ _ Hi)]. destruct (Hbf (f * 4096)) as (_ & Hn & _); [apply Z.div_mul; lia|].
    by rewrite Z.div_mul in Hn by lia. }
  destruct Hres as [Hres|(-> & Hre & Hp & Hc)]; [by left|right]. split; [done|]. split; [done|]. split.
  - intros h g Hin Hg. destruct (Hp h g Hin Hg) as [f Hf]. split; [by exists f|].
    destruct (li_map _ _ _ _ _ _ _ Hi _ _ Hf) as (Hg' & _ & _ & Hfr & (fl & Hfl & Hpr & Hus & He) & _).
    assert (Hd' : has (entry (vm (space (own s'))) pd (PAGE_DIRECTORY_INDEX (4096 * g))) PAGE_PRESENT = true).
    { destruct (has (entry _ _ _) _) eqn:Ex; [done|]. unfold pte in He. rewrite Ex in He. destruct Hfr, Hfl. lia. }
    unfold page_ok. rewrite Hd', He, has_parts by done. rewrite Hpr. cbn [andb negb orb].
    rewrite andb_true_r. unfold has, PAGE_USER in *. replace (Z.land (f * 4096 + fl) 4) with (Z.land fl 4); [done|].
    destruct Hfl as [Hf0 Hf1]. change 4096 with (2 ^ 12). rewrite <- (lor_low f fl 12) by (change (2 ^ 12) with 4096; lia).
    rewrite Z.land_lor_distr_l. replace (Z.land (f * 2 ^ 12) 4) with 0; [done|]. symmetry. apply Z.bits_inj'. intros n Hn.
    rewrite Z.land_spec, Z.bits_0. destruct (decide (n < 12)); [by rewrite Z.mul_pow2_bits_low by lia|].
    rewrite (testbit_small 4 3 n) by lia. apply andb_false_r.
  - intros a v Ha. destruct (Hc a v Ha) as (Hr32 & Hsome & Hval). rewrite <- Hval.
    apply (at_load _ F' pd); [apply Hi|apply Hi|]. by apply linv_at with (s0 := s) (F0 := F) (want := page_flags (rest img 0)).
Qed.

(** What is not an executable is refused, and nothing but the log changes: an image
    shorter than a header, one whose header is not that of a 32-bit little-endian
    program for this processor, one without program headers, and one whose program
    headers do not fit. *)
Theorem elf_load_refuses s F pd data img :
  vinv (space (own s)) F pd -> in_use (space (own s)) pd -> log_wf (klog s) -> image_at s F pd data img ->
  Z.of_nat (length img) < ELF_HEADER_BYTES \/ header_ok img = false \/ phoff img = 0 \/ phnum img = 0 \/
    Z.of_nat (length img) < u32 (phoff img + phnum img * ELF_PHDR_BYTES) ->
  exists s', elf_load data (Z.of_nat (length img)) pd true s = Some (-1, s') /\ own s' = own s.
Proof.
  intros Hv Hu Hl (Hd & Hu8 & Q & Hr & Hb) Hbad.
  set (nowant := fun _ : Z => @None Z).
  pose proof (linv_start s F pd Hv nowant Hu Hl) as Hi. destruct (vi_dir _ _ _ Hv) as [[_ Hpd] _]. pose proof Hr as (_ & _ & Hd2 & _).
  unfold elf_load. replace (data =? 0) with false by lia. replace (pd =? 0) with false by lia. cbn [orb negb].
  assert (Hno : forall msg s1, linv s F pd nowant s1 F ∅ -> own s1 = own s -> exists s', (_ ← warn msg; mret (-1)) s1 = Some (-1, s') /\ own s' = own s).
  { intros msg s1 H1' Ho. destruct (refuse_ok s F pd nowant (-1) msg s1 F ∅ H1') as (s2 & E2 & _ & Ho2). exists s2. by rewrite Ho2. }
  destruct (Z.ltb_spec (Z.of_nat (length img)) ELF_HEADER_BYTES) as [Hlt|Hge]; [by apply Hno|].
  destruct Hbad as [?|Hbad]; [lia|].
  destruct (validate_spec s F pd data img Q Hr Hb Hu8 Hd nowant s F ∅ Hi Hge) as (s1 & E1 & H1' & Ho). rewrite (run_bind _ _ _ _ _ E1).
  pose proof (so_linv _ _ _ _ _ _ _ _ _ _ H1') as Hi1. unfold ELF_HEADER_BYTES in Hge.
  assert (Hf : forall s2 k n, linv s F pd nowant s2 F ∅ -> 0 <= k < 52 -> k + Z.of_nat n <= 52 -> ld n (u32 (data + k)) s2 = Some (img_le img n k, s2)).
  { intros s2 k n Hi2 Hk Hn. apply (ld_img s F pd data img Q Hr Hb Hd nowant s2 F ∅); [done|lia|lia|apply u32_small; lia]. }
  destruct (header_ok img) eqn:Hh; cbn [Z.eqb negb].
  2: { rewrite (run_bind _ _ _ _ _ (Hf s1 24 4%nat Hi1 ltac:(lia) ltac:(lia))).
       destruct (say_warn_fmt_ok "elf_load: ELF validation failed: entry 0x%X" [AInt (img_le img 4 24)] s1) as (l & El & Hl1);
         [renders|apply Hi1|]. exists (with_log s1 l). split; [|exact Ho]. unfold say_warn. by rewrite (run_bind _ _ _ _ _ El). }
  destruct Hbad as [?|Hbad]; [done|].
  rewrite (run_bind _ _ _ _ _ (Hf s1 28 4%nat Hi1 ltac:(lia) ltac:(lia))). fold (phoff img).
  rewrite (run_bind _ _ _ _ _ (Hf s1 44 2%nat Hi1 ltac:(lia) ltac:(lia))). fold (phnum img).
  destruct (Z.eqb_spec (phoff img) 0), (Z.eqb_spec (phnum img) 0); cbn [orb]; try (by apply Hno).
  destruct Hbad as [?|[?|Hbad]]; [done|done|]. replace (_ <? _) with true by lia. by apply Hno.
Qed.
End claims.

(** ** A program in memory *)

(** Three bytes of code at 0x8000010, and five zeros behind them. *)
Definition tiny : list Z :=
  [127; 69; 76; 70; 1; 1; 1; 0] ++ replicate 8 0 ++ [2; 0; 3; 0; 1; 0; 0; 0; 16; 0; 0; 8; 52; 0; 0; 0; 0; 0; 0; 0; 0; 0; 0; 0;
   52; 0; 32; 0; 1; 0; 0; 0; 0; 0; 0; 0] ++
  [1; 0; 0; 0; 84; 0; 0; 0; 16; 0; 0; 8; 0; 0; 0; 0; 3; 0; 0; 0; 8; 0; 0; 0; 7; 0; 0; 0; 0; 16; 0; 0] ++ [184; 1; 205].
Definition at_2mb : Z := 2097152.
Definition with_image (img : list Z) : driver (loader pmm ramdisk) unit :=
  Driver (Loader (default Vmm.booted (lin_put img Vmm.booted at_2mb)) unbooted (LoadResult 0 0)) tt log_init.

#[local] Opaque Vmm.booted kd0.

Lemma with_image_ok img : all_u8 img -> Z.of_nat (length img) <= 4096 -> exists F, let s := with_image img in
  vinv (space (own s)) F kd0 /\ in_use (space (own s)) kd0 /\ image_at s F kd0 at_2mb img /\
  forall a, 8388608 <= a < 4294967296 -> pte (vm (space (own s))) kd0 a = 0.
Proof.
  intros Hu Hl. destruct booted_ok as (F & Hi). exists F.
  destruct (identity_put _ _ _ at_2mb img Hi Hu) as (m' & E & Hc & Hh); [by unfold at_2mb|unfold at_2mb; lia|].
  pose proof (identity_change _ _ _ _ Hi Hc) as Hi'. assert (Es : space (own (with_image img)) = with_vm Vmm.booted m') by (unfold with_image; cbn [own space]; by rewrite E).
  unfold image_at. cbv zeta. rewrite Es. split; [apply Hi'|]. split; [apply Hi'|]. split; [split; [done|]; split; [done|exact Hh]|].
  intros a Ha. rewrite (im_pte _ _ _ Hi') by lia. by replace (a <? 8388608) with false by lia.
Qed.

Lemma tiny_bytes : all_u8 tiny.
Proof. apply Forall_forall. intros x Hx. assert (E : forallb (fun x => (0 <=? x) && (x <? 256)) tiny = true) by done.
  rewrite forallb_forall in E. apply list_elem_of_In in Hx. specialize (E x Hx). unfold is_u8. lia. Qed.

Lemma tiny_program : program tiny.
Proof.
  split; [by vm_compute|]. split; [done|]. split; [done|]. split; [done|]. split; [by vm_compute|].
  intros h ->%list_elem_of_singleton _. split; [by vm_compute|]. split; by vm_compute.
Qed.

(** The code is at its address, zeros follow it, and the break is the next page. *)
Lemma elf_load_loads_witness : exists s', elf_load at_2mb 87 kd0 true (with_image tiny) = Some (0, s') /\
  result (own s') = LoadResult 134217744 134221824 /\
  lin_load (space (own s')) 134217745 = Some 1 /\ lin_load (space (own s')) 134217747 = Some 0.
Proof.
  destruct (with_image_ok tiny tiny_bytes ltac:(by vm_compute)) as (F & Hv & Hu & Hi & Hp).
  destruct (elf_load_loads (with_image tiny) F kd0 at_2mb tiny Hv Hu log_init_wf Hi tiny_program) as (r & s' & F' & G & E & _ & _ & _ & _ & _ & Hres).
  - intros h g ->%list_elem_of_singleton [_ Hg]. destruct (lookup_spec _ F kd0 (4096 * g) Hv) as [-> _].
    change (32768 <= g < 32769) in Hg. rewrite Hp by lia. done.
  - assert (E0 : fst <$> elf_load at_2mb 87 kd0 true (with_image tiny) = Some 0) by (by vm_compute).
    change (Z.of_nat (length tiny)) with 87 in E. rewrite E in E0. injection E0 as ->. exists s'. split; [exact E|].
    destruct Hres as [[Hx _]|(_ & Hre & _ & Hl)]; [discriminate Hx|]. split; [exact Hre|].
    split; apply Hl; vm_compute; reflexivity.
Defined.

Lemma elf_load_refuses_witness : exists s', elf_load at_2mb 4 kd0 true (with_image [35; 33; 47; 98]) = Some (-1, s') /\
  own s' = own (with_image [35; 33; 47; 98]).
Proof.
  destruct (with_image_ok [35; 33; 47; 98]) as (F & Hv & Hu & Hi & _); [repeat constructor; lia|done|].
  apply (elf_load_refuses (with_image [35; 33; 47; 98]) F kd0 at_2mb [35; 33; 47; 98] Hv Hu log_init_wf Hi). by left.
Defined.

(** Loading into a directory that is not in use allocates pages there and stores through
    the one in use: a program at 0x8000010 makes the kernel fault, and one at 0x100010
    overwrites the kernel's own memory at that address. *)
Definition in_new_space (img : list Z) : option (Z * driver (loader pmm ramdisk) unit) :=
  let s := with_image img in
  let '(pd, v) := vmm_create_address_space (space (own s)) in
  elf_load at_2mb (Z.of_nat (length img)) pd true (set_space s v).
Definition tiny_low : list Z := <[60%nat := 16]> (<[62%nat := 16]> (<[63%nat := 0]> tiny)).

Example load_elsewhere_faults : in_new_space tiny = None.
Proof. vm_compute. reflexivity. Qed.

Example load_elsewhere_overwrites :
  (fun x => (fst x, load8 (vm (space (own (snd x)))) 1048592)) <$> in_new_space tiny_low = Some (0, 184).
Proof. vm_compute. reflexivity. Qed.
