(* ===== verification/Vesa.v ===== *)
(** kernel/drivers/video/vesa.c: the linear framebuffer.

    The boot loader's structure and the framebuffer are accessed at linear addresses
    (Linear): [None] is a page fault, a shift by the width of the type or more, or a
    loop that does not end.  A [screen_ok] state has its whole framebuffer mapped, and
    the drawing operations are described by the pixels that they paint. *)

From S2P Require Import Prelude Mem CString FrameAlloc Pmm Vmm Codec Effects Console Log Ports Linear.
Local Open Scope Z_scope.
Local Open Scope kernel_scope.

(** ** Definitions *)

Definition PAGE_CACHE_DISABLE : Z := 16.

Record vesa_mode_info := ModeInfo {
  width : Z; height : Z; pitch : Z; bpp : Z; mtype : Z; framebuffer : Z; framebuffer_size : Z;
  red_pos : Z; red_size : Z; green_pos : Z; green_size : Z; blue_pos : Z; blue_size : Z
}.

Record vesa (St : Type) := Vesa {
  current_mode : vesa_mode_info; vesa_available : bool; framebuffer_ptr : Z; space : vst St
}.
Arguments Vesa {St}. Arguments current_mode {St}. Arguments vesa_available {St}.
Arguments framebuffer_ptr {St}. Arguments space {St}.

Section vesa.
Context {St : Type} `{FrameAlloc St} {P : Type} `{Ports P}.
Notation E := (ST (driver (vesa St) P)).
Implicit Types (s : driver (vesa St) P) (v : vesa St).

Definition with_space v (m : vst St) : vesa St := Vesa (current_mode v) (vesa_available v) (framebuffer_ptr v) m.
Definition with_mode v (m : vesa_mode_info) : vesa St := Vesa m (vesa_available v) (framebuffer_ptr v) (space v).

(** Accesses through the address space in use. *)
Definition ld (n : nat) (a : Z) : E Z := fun s => x ← lin_word n (space (own s)) a; Some (x, s).
Definition lin (f : vst St -> option (vst St)) : ST (vesa St) unit := fun v => m ← f (space v); Some (tt, with_space v m).

Definition warn (msg : string) : E unit := say_log (fun now => log_warn now (Some (str msg))).

(** The loop that maps the pages of the framebuffer, from page [i] on. *)
Definition map_pages (page_dir fb : Z) (n i : Z) (m : vst St) : vst St :=
  for_range i n (fun m i =>
    snd (vmm_map_page m page_dir (u32 (fb + u32 (i * 4096))) (u32 (fb + u32 (i * 4096)))
           (Z.lor (Z.lor PAGE_PRESENT PAGE_WRITE) PAGE_CACHE_DISABLE))) m.

Definition vesa_init (mboot_info : Z) : E unit :=
  _ ← say_info "VESA: Initializing framebuffer driver";
  if mboot_info =? 0 then warn "VESA: No multiboot info provided" else
  flags ← ld 4 mboot_info;
  if Z.land flags (Z.shiftl 1 12) =? 0 then warn "VESA: No framebuffer information in multiboot" else
  let fb := u32 (mboot_info + 88) in
  framebuffer_type ← ld 1 (u32 (fb + 21));
  if negb (framebuffer_type =? 1) then say_warn "VESA: Unsupported framebuffer type: %d" framebuffer_type else
  w ← ld 4 (u32 (fb + 12)); h ← ld 4 (u32 (fb + 16)); p ← ld 4 (u32 (fb + 8)); b ← ld 1 (u32 (fb + 20));
  addr ← ld 4 fb;
  c0 ← ld 1 (u32 (fb + 22)); c1 ← ld 1 (u32 (fb + 23)); c2 ← ld 1 (u32 (fb + 24));
  c3 ← ld 1 (u32 (fb + 25)); c4 ← ld 1 (u32 (fb + 26)); c5 ← ld 1 (u32 (fb + 27));
  let mode := ModeInfo w h p b framebuffer_type addr (u32 (p * h)) c0 c1 c2 c3 c4 c5 in
  _ ← smod (fun s => with_own s (with_mode (own s) mode));
  _ ← smod (fun s =>
        let page_dir := vmm_get_current_directory (space (own s)) in
        let fb_pages := u32 (framebuffer_size mode + 4095) / 4096 in
        let m := map_pages page_dir (framebuffer mode) fb_pages 0 (space (own s)) in
        with_own s (Vesa mode true (framebuffer mode) m));
  say_info_fmt "VESA: Framebuffer at 0x%x, %dx%d, %d bpp, pitch %d"
    [AInt (framebuffer mode); AInt (width mode); AInt (height mode); AInt (bpp mode); AInt (pitch mode)].

Definition vesa_is_available v : bool := vesa_available v.
(** The result is what is stored through the pointer [info]; [have_info] says that it
    is not null. *)
Definition vesa_get_mode_info v (have_info : bool) : option vesa_mode_info :=
  if negb (vesa_available v) || negb have_info then None else Some (current_mode v).
Definition vesa_get_framebuffer v : Z := framebuffer (current_mode v).
Definition vesa_get_framebuffer_size v : Z := framebuffer_size (current_mode v).

Definition vesa_plot_pixel (x y color : Z) : ST (vesa St) unit :=
  v ← sget;
  let mode := current_mode v in
  if negb (vesa_available v) || (width mode <=? x) || (height mode <=? y) then mret tt else
  let offset := u32 (u32 (y * pitch mode) + u32 (x * (bpp mode / 8))) in
  if bpp mode =? 32 then lin (fun m => lin_put (le32 color) m (u32 (framebuffer_ptr v + offset)))
  else if bpp mode =? 24 then
    _ ← lin (fun m => lin_store m (u32 (framebuffer_ptr v + u32 (offset + 0))) (Z.land (Z.shiftr color 0) 255));
    _ ← lin (fun m => lin_store m (u32 (framebuffer_ptr v + u32 (offset + 1))) (Z.land (Z.shiftr color 8) 255));
    lin (fun m => lin_store m (u32 (framebuffer_ptr v + u32 (offset + 2))) (Z.land (Z.shiftr color 16) 255))
  else mret tt.

(** The loop from [x] to [x2]; the counter wraps, and without more fuel the loop has not
    ended. *)
Fixpoint hline_loop (fuel : nat) (x x2 y color : Z) : ST (vesa St) unit :=
  match fuel with
  | O => sfault
  | S fuel => if negb (x <=? x2) then mret tt else _ ← vesa_plot_pixel x y color; hline_loop fuel (u32 (x + 1)) x2 y color
  end.
Definition vesa_draw_hline (x1 x2 y color : Z) : ST (vesa St) unit :=
  let '(x1, x2) := if x2 <? x1 then (x2, x1) else (x1, x2) in
  hline_loop (Z.to_nat (x2 - x1 + 2)) x1 x2 y color.

Fixpoint vline_loop (fuel : nat) (x y y2 color : Z) : ST (vesa St) unit :=
  match fuel with
  | O => sfault
  | S fuel => if negb (y <=? y2) then mret tt else _ ← vesa_plot_pixel x y color; vline_loop fuel x (u32 (y + 1)) y2 color
  end.
Definition vesa_draw_vline (x y1 y2 color : Z) : ST (vesa St) unit :=
  let '(y1, y2) := if y2 <? y1 then (y2, y1) else (y1, y2) in
  vline_loop (Z.to_nat (y2 - y1 + 2)) x y1 y2 color.

Definition vesa_draw_rect (x y width height color : Z) : ST (vesa St) unit :=
  each (fun row => each (fun col => vesa_plot_pixel (u32 (x + col)) (u32 (y + row)) color) (seqZ 0 width)) (seqZ 0 height).

Definition vesa_clear_screen (color : Z) : ST (vesa St) unit :=
  v ← sget;
  let mode := current_mode v in
  if negb (vesa_available v) then mret tt else
  if bpp mode =? 32 then
    let pixels := u32 (pitch mode * height mode) / 4 in
    each (fun i => lin (fun m => lin_put (le32 color) m (u32 (framebuffer_ptr v + u32 (4 * i))))) (seqZ 0 pixels)
  else each (fun y => each (fun x => vesa_plot_pixel x y color) (seqZ 0 (width mode))) (seqZ 0 (height mode)).

(** [c << pos] on an [int]. *)
Definition shift_color (c pos : Z) : option Z := if pos <? 32 then Some (u32 (Z.shiftl c pos)) else None.
Definition vesa_rgb v (r g b : Z) : option Z :=
  let mode := current_mode v in
  r ← shift_color r (red_pos mode); g ← shift_color g (green_pos mode); b ← shift_color b (blue_pos mode);
  Some (Z.lor (Z.lor r g) b).

Definition vesa_get_width v : Z := width (current_mode v).
Definition vesa_get_height v : Z := height (current_mode v).
Definition vesa_get_bpp v : Z := bpp (current_mode v).
End vesa.

(** ** Pixels *)

(** The bytes of a pixel, a pixel that the mode has, and its bytes in memory. *)
Definition depth (mo : vesa_mode_info) : Z := bpp mo / 8.
Definition on_screen (mo : vesa_mode_info) (x y : Z) : bool := in_range 0 (width mo) x && in_range 0 (height mo) y.
Definition pixel_byte (mo : vesa_mode_info) (x y k : Z) : Z := framebuffer mo + (y * pitch mo + x * depth mo + k).
Definition pixel (m : mem) (mo : vesa_mode_info) (x y : Z) : Z :=
  le_value ((fun k => load8 m (pixel_byte mo x y k)) <$> seqZ 0 (depth mo)).

(** A mode with three or four bytes to a pixel, whose rows and whose framebuffer are
    large enough and do not wrap. *)
Record mode_ok (mo : vesa_mode_info) : Prop := {
  mk_bpp : bpp mo = 24 \/ bpp mo = 32;
  mk_width : 0 <= width mo < 4294967296;
  mk_height : 0 <= height mo < 4294967296;
  mk_pitch : width mo * depth mo <= pitch mo;
  mk_size : framebuffer_size mo = pitch mo * height mo;
  mk_base : 0 < framebuffer mo;
  mk_end : framebuffer mo + framebuffer_size mo <= 4294967296
}.

Definition color_byte (c k : Z) : Z := u8 (c / 256 ^ k).

(** From [m] to [m'] exactly the pixels of [R] have got the colour. *)
Definition painted (mo : vesa_mode_info) (R : Z -> Z -> bool) (c : Z) (m m' : mem) : Prop :=
  (forall x y k, on_screen mo x y = true -> 0 <= k < depth mo ->
     load8 m' (pixel_byte mo x y k) = if R x y then color_byte c k else load8 m (pixel_byte mo x y k)) /\
  (forall b, (forall x y k, on_screen mo x y = true -> 0 <= k < depth mo -> b <> pixel_byte mo x y k) -> load8 m' b = load8 m b).

Section pixels.
Context (mo : vesa_mode_info) (Hmo : mode_ok mo).

Lemma depth_range : depth mo = 3 \/ depth mo = 4.
Proof using Hmo. unfold depth. destruct (mk_bpp _ Hmo) as [-> | ->]; [by left|by right]. Qed.

Lemma on_screen_range x y : on_screen mo x y = true <-> 0 <= x < width mo /\ 0 <= y < height mo.
Proof. unfold on_screen. rewrite andb_true_iff. destruct (in_range_spec 0 (width mo) x), (in_range_spec 0 (height mo) y); intuition (done || lia). Qed.

(** The bytes of the pixels on the screen lie in the framebuffer, and no two are the same. *)
Lemma pixel_byte_range x y k : on_screen mo x y = true -> 0 <= k < depth mo ->
  0 <= y * pitch mo + x * depth mo + k < framebuffer_size mo.
Proof using Hmo.
  intros [Hx Hy]%on_screen_range Hk. destruct Hmo as [_ Hw Hh Hp Hs _ _]. rewrite Hs.
  assert (H0 : 0 <= pitch mo) by (destruct depth_range as [E|E]; rewrite E in *; lia).
  pose proof (Z.mul_le_mono_nonneg_r (y + 1) (height mo) (pitch mo) H0 ltac:(lia)).
  pose proof (Z.mul_nonneg_nonneg y (pitch mo) ltac:(lia) H0).
  destruct depth_range as [E|E]; rewrite E in *; lia.
Qed.

Lemma pixel_byte_inj x y k x' y' k' : on_screen mo x y = true -> on_screen mo x' y' = true ->
  0 <= k < depth mo -> 0 <= k' < depth mo -> pixel_byte mo x y k = pixel_byte mo x' y' k' -> x = x' /\ y = y' /\ k = k'.
Proof using Hmo.
  intros [Hx Hy]%on_screen_range [Hx' Hy']%on_screen_range Hk Hk' He. unfold pixel_byte in He.
  destruct Hmo as [_ Hw Hh Hp _ _ _].
  assert (y = y') as <-.
  { destruct (Z.lt_trichotomy y y') as [Hlt|[?|Hlt]]; [|done|]; exfalso.
    - pose proof (Z.mul_le_mono_nonneg_r (y + 1) y' (pitch mo) ltac:(destruct depth_range as [E|E]; rewrite E in *; lia) ltac:(lia)).
      destruct depth_range as [E|E]; rewrite E in *; lia.
    - pose proof (Z.mul_le_mono_nonneg_r (y' + 1) y (pitch mo) ltac:(destruct depth_range as [E|E]; rewrite E in *; lia) ltac:(lia)).
      destruct depth_range as [E|E]; rewrite E in *; lia. }
  destruct depth_range as [E|E]; rewrite E in *; lia.
Qed.

Lemma painted_refl R c m : (forall x y, on_screen mo x y = true -> R x y = false) -> painted mo R c m m.
Proof. intros HR. split; [|done]. intros x y k Ho _. by rewrite HR. Qed.

Lemma painted_trans R1 R2 c m1 m2 m3 : painted mo R1 c m1 m2 -> painted mo R2 c m2 m3 -> painted mo (fun x y => R1 x y || R2 x y) c m1 m3.
Proof.
  intros [A1 B1] [A2 B2]. split; [|intros b Hb; by rewrite B2, B1].
  intros x y k Ho Hk. rewrite A2, A1 by done. by destruct (R1 x y), (R2 x y).
Qed.

Lemma painted_ext R R' c m m' : (forall x y, on_screen mo x y = true -> R' x y = R x y) -> painted mo R c m m' -> painted mo R' c m m'.
Proof. intros He [A B]. split; [|done]. intros x y k Ho Hk. rewrite He by done. by apply A. Qed.

Lemma color_value c : le_value (color_byte c <$> seqZ 0 (depth mo)) = c mod 256 ^ depth mo.
Proof using Hmo.
  unfold color_byte, u8. assert (E2 : c / 65536 = c / 256 / 256) by (by rewrite Z.div_div).
  assert (E3 : c / 16777216 = c / 256 / 256 / 256) by (by rewrite !Z.div_div).
  destruct depth_range as [-> | ->]; change (seqZ 0 3) with [0; 1; 2]; change (seqZ 0 4) with [0; 1; 2; 3]; cbn [fmap list_fmap le_value];
    change (256 ^ 0) with 1; change (256 ^ 1) with 256; change (256 ^ 2) with 65536; change (256 ^ 3) with 16777216; change (256 ^ 4) with 4294967296;
    rewrite Z.div_1_r, E2, ?E3; zdm.
Qed.

(** The value of a painted pixel is the colour, cut to the pixel's bytes. *)
Lemma painted_pixel R c m m' x y : painted mo R c m m' -> on_screen mo x y = true ->
  pixel m' mo x y = if R x y then c mod 256 ^ depth mo else pixel m mo x y.
Proof using Hmo.
  intros [A _] Ho. unfold pixel. destruct (R x y) eqn:ER.
  - transitivity (le_value (color_byte c <$> seqZ 0 (depth mo))).
    + f_equal. apply list_fmap_ext. intros i k Hk%lookup_seqZ. rewrite A by (done || lia). by rewrite ER.
    + apply color_value.
  - f_equal. apply list_fmap_ext. intros i k Hk%lookup_seqZ. rewrite A by (done || lia). by rewrite ER.
Qed.
End pixels.

(** ** Drawing *)

Section drawing.
Context {St : Type} `{FrameAllocLaws St} (F : gset Z) (pd : Z) (mo : vesa_mode_info).
Implicit Types (v : vesa St).

(** The driver is in the mode [mo], and its framebuffer is mapped to itself. *)
Record screen_ok v : Prop := {
  so_mode : current_mode v = mo;
  so_ok : mode_ok mo;
  so_available : vesa_available v = true;
  so_ptr : framebuffer_ptr v = framebuffer mo;
  so_vinv : vinv (space v) F pd;
  so_use : in_use (space v) pd;
  so_map : at_range (space v) F pd (framebuffer mo) (framebuffer_size mo) (fun i => framebuffer mo + i)
}.

(** [v'] is [v] with the pixels of [R] painted. *)
Definition paints v (R : Z -> Z -> bool) (c : Z) v' : Prop :=
  exists m', v' = with_space v (with_vm (space v) m') /\ foreign_change (space v) F pd m' /\ painted mo R c (vm (space v)) m'.

Lemma paints_ok v R c v' : screen_ok v -> paints v R c v' -> screen_ok v'.
Proof.
  intros [A B C D Hv Hu Hm] (m' & -> & Hc & _). split; cbn; try done.
  - by apply foreign_vinv.
  - by apply at_range_change.
Qed.

Lemma paints_none v R c : screen_ok v -> (forall x y, on_screen mo x y = true -> R x y = false) -> paints v R c v.
Proof.
  intros Ho HR. exists (vm (space v)). split; [by destruct v as [? ? ? []]|]. split; [by intros b _|]. by apply painted_refl.
Qed.

Lemma paints_trans v1 R1 v2 R2 v3 c : screen_ok v1 -> paints v1 R1 c v2 -> paints v2 R2 c v3 ->
  paints v1 (fun x y => R1 x y || R2 x y) c v3.
Proof.
  intros Ho (m1 & -> & C1 & P1) (m2 & -> & C2 & P2). exists m2. split; [done|].
  split; [apply (foreign_change_trans _ _ _ m1 m2 (so_vinv _ Ho) C1 C2)|by eapply painted_trans].
Qed.

Lemma paints_ext v R R' c v' : (forall x y, on_screen mo x y = true -> R' x y = R x y) -> paints v R c v' -> paints v R' c v'.
Proof. intros He (m & A & B & C). exists m. split; [done|]. split; [done|]. by eapply painted_ext. Qed.

(** Storing the bytes of the colour paints one pixel. *)
Lemma put_pixel v (l : list Z) x y c : screen_ok v -> on_screen mo x y = true -> l = (color_byte c) <$> seqZ 0 (depth mo) ->
  exists v', lin (fun m => lin_put l m (framebuffer mo + (y * pitch mo + x * depth mo))) v = Some (tt, v') /\
    paints v (fun x' y' => (x' =? x) && (y' =? y)) c v'.
Proof.
  intros Ho Hs ->. pose proof (so_ok _ Ho) as Hmo. pose proof (depth_range _ Hmo) as Hd. destruct (so_map _ Ho) as (_ & _ & _ & Hat).
  assert (Hlen : Z.of_nat (length (color_byte c <$> seqZ 0 (depth mo))) = depth mo) by (rewrite length_fmap, length_seqZ; lia).
  pose proof (fun k => pixel_byte_range mo Hmo x y k Hs) as Hrange.
  destruct (lin_put_spec (color_byte c <$> seqZ 0 (depth mo)) (space v) F pd (framebuffer mo + (y * pitch mo + x * depth mo))
    (fun i => pixel_byte mo x y i) (so_vinv _ Ho) (so_use _ Ho)) as (m' & E & Hc & Hin & Hout).
  - rewrite Hlen. pose proof (Hrange 0 ltac:(lia)). pose proof (Hrange (depth mo - 1) ltac:(lia)). destruct Hmo.
    split; [lia|]. split; [lia|]. split; [lia|]. intros i Hi. unfold pixel_byte. rewrite <- Z.add_assoc.
    apply (Hat (y * pitch mo + x * depth mo + i)). by apply Hrange.
  - intros i j _ _ He. unfold pixel_byte in He. lia.
  - rewrite Hlen in Hout. exists (with_space v (with_vm (space v) m')). split; [unfold lin; by rewrite E|]. exists m'. split; [done|]. split; [done|]. split.
    + intros x' y' k Hs' Hk. destruct (Z.eqb_spec x' x) as [->|Hx], (Z.eqb_spec y' y) as [->|Hy]; cbn [andb].
      * rewrite <- (Z2Nat.id k), (Hin (Z.to_nat k) (color_byte c k)) by (lia || (rewrite list_lookup_fmap, lookup_seqZ_lt by lia; cbn; do 2 f_equal; lia)).
        unfold color_byte. rewrite u8_idemp. do 3 f_equal. lia.
      * apply Hout. intros i Hi He. by destruct (pixel_byte_inj mo Hmo x y' k x y i Hs' Hs Hk Hi He) as (_ & -> & _).
      * apply Hout. intros i Hi He. by destruct (pixel_byte_inj mo Hmo x' y k x y i Hs' Hs Hk Hi He) as (-> & _).
      * apply Hout. intros i Hi He. by destruct (pixel_byte_inj mo Hmo x' y' k x y i Hs' Hs Hk Hi He) as (-> & _).
    + intros b Hb. apply Hout. intros i Hi. by apply Hb.
Qed.

Lemma color_bytes c : color_byte c <$> [0; 1; 2] = u8 <$> [Z.land (Z.shiftr c 0) 255; Z.land (Z.shiftr c 8) 255; Z.land (Z.shiftr c 16) 255].
Proof.
  cbn [fmap list_fmap]. unfold color_byte. rewrite !Z.shiftr_div_pow2 by lia. change 255 with (Z.ones 8). rewrite !Z.land_ones by lia.
  change (2 ^ 0) with 1. change (2 ^ 8) with 256. change (2 ^ 16) with 65536. change (256 ^ 0) with 1. change (256 ^ 1) with 256. change (256 ^ 2) with 65536.
  unfold u8. by rewrite !Z.mod_mod by lia.
Qed.

Lemma store_u8 (s : vst St) a b : lin_store s a (u8 b) = lin_store s a b.
Proof. unfold lin_store, store8. destruct (translate s a); [|done]. cbn. by rewrite u8_idemp. Qed.

Lemma lin_three (f g h : vst St -> option (vst St)) v :
  (_ ← lin f; _ ← lin g; lin h) v = lin (fun m => m1 ← f m; m2 ← g m1; h m2) v.
Proof.
  unfold lin, mbind, ST_bind, option_bind. destruct (f (space v)) as [m1|]; [|done]. cbn [with_space space].
  destruct (g m1) as [m2|]; [|done]. cbn [with_space space]. by destruct (h m2).
Qed.

(** A pixel on the screen is painted, one off the screen is not. *)
Lemma plot_ok v x y c : screen_ok v -> 0 <= x -> 0 <= y ->
  exists v', vesa_plot_pixel x y c v = Some (tt, v') /\ paints v (fun x' y' => (x' =? x) && (y' =? y)) c v'.
Proof.
  intros Ho Hx Hy. unfold vesa_plot_pixel. rewrite run_get, (so_available _ Ho), (so_mode _ Ho), (so_ptr _ Ho). cbn [negb orb].
  destruct ((width mo <=? x) || (height mo <=? y)) eqn:Hoff.
  { exists v. split; [done|]. apply paints_none; [done|]. intros x' y' [Hx' Hy']%on_screen_range. lia. }
  assert (Hs : on_screen mo x y = true) by (apply on_screen_range; lia).
  pose proof (so_ok _ Ho) as Hmo. pose proof (depth_range _ Hmo) as Hd.
  pose proof (pixel_byte_range mo Hmo x y 0 Hs ltac:(lia)) as H1'. pose proof (pixel_byte_range mo Hmo x y (depth mo - 1) Hs ltac:(lia)) as H2'.
  pose proof (mk_base _ Hmo) as Hb. pose proof (mk_end _ Hmo) as He. pose proof (mk_pitch _ Hmo) as Hp. pose proof (mk_width _ Hmo) as Hw.
  fold (depth mo). assert (Hxd : 0 <= x * depth mo) by nia. assert (Hyp : 0 <= y * pitch mo) by (destruct Hd as [E|E]; rewrite E in *; nia).
  assert (Hoffs : u32 (u32 (y * pitch mo) + u32 (x * depth mo)) = y * pitch mo + x * depth mo)
    by (rewrite (u32_small (y * _)), (u32_small (x * _)), u32_small by lia; lia).
  destruct (mk_bpp _ Hmo) as [Eb|Eb]; rewrite Eb; change (24 =? 32) with false; change (24 =? 24) with true; change (32 =? 32) with true; cbv iota;
    rewrite Hoffs; assert (Hd' : depth mo = bpp mo / 8) by done; rewrite Eb in Hd'; [change (24 / 8) with 3 in Hd'|change (32 / 8) with 4 in Hd'].
  - rewrite !(u32_small (y * pitch mo + x * depth mo + _)), !(u32_small (framebuffer mo + _)) by lia.
    destruct (put_pixel v _ x y c Ho Hs eq_refl) as (v' & E & Hv'). exists v'. split; [|done]. rewrite <- E, Hd'. change (seqZ 0 3) with [0; 1; 2].
    rewrite color_bytes. cbn [fmap list_fmap]. rewrite lin_three. unfold lin. cbn [lin_put].
    rewrite Z.add_0_r, (u32_small (framebuffer mo + (y * pitch mo + x * 3) + 1)), (u32_small (framebuffer mo + (y * pitch mo + x * 3) + 1 + 1)) by lia.
    rewrite <- (Z.add_assoc _ 1 1), <- !(Z.add_assoc (framebuffer mo)). change (1 + 1) with 2. rewrite store_u8.
    destruct (lin_store (space v) _ _) as [m1|]; [|done]. cbn [mbind option_bind]. rewrite store_u8.
    destruct (lin_store m1 _ _) as [m2|]; [|done]. cbn [mbind option_bind]. rewrite store_u8. by destruct (lin_store m2 _ _).
  - rewrite u32_small by lia. apply put_pixel; [done|done|]. rewrite Hd'. change (seqZ 0 4) with [0; 1; 2; 3].
    cbn [fmap list_fmap]. unfold color_byte, le32. by rewrite Z.div_1_r.
Qed.

(** A loop over plots paints the union. *)
Lemma each_paints {A} (f : A -> ST (vesa St) unit) (R : A -> Z -> Z -> bool) c l v : screen_ok v ->
  (forall a v1, a ∈ l -> screen_ok v1 -> exists v2, f a v1 = Some (tt, v2) /\ paints v1 (R a) c v2) ->
  exists v', each f l v = Some (tt, v') /\ paints v (fun x y => existsb (fun a => R a x y) l) c v'.
Proof.
  revert v. induction l as [|a l IH]; intros v Ho Hf; [exists v; split; [done|by apply paints_none]|].
  destruct (Hf a v ltac:(by left) Ho) as (v1 & E1 & P1). destruct (IH v1) as (v2 & E2 & P2).
  { by eapply paints_ok. } { intros b w Hb. apply Hf. by right. }
  exists v2. split; [cbn [each]; by rewrite (run_bind _ _ _ _ _ E1)|]. by apply (paints_trans v _ v1 _ v2).
Qed.

Lemma existsb_seqZ (g : Z -> bool) a n p : 0 <= n -> (forall i, a <= i < a + n -> g i = (p =? i)) ->
  existsb g (seqZ a n) = in_range a n p.
Proof.
  intros Hn Hg. destruct (existsb g (seqZ a n)) eqn:E.
  - apply existsb_exists in E as (i & Hi%list_elem_of_In%elem_of_seqZ & Hgi). rewrite Hg in Hgi by lia. rcases.
  - rcases. rewrite <- E. apply existsb_exists. exists p. split; [apply list_elem_of_In, elem_of_seqZ; lia|]. rewrite Hg by lia. lia.
Qed.

(** A horizontal line that does not reach the largest coordinate ends and paints its
    pixels; one that does never ends. *)
Lemma hline_loop_ok fuel v x x2 y c : screen_ok v -> 0 <= x -> x <= x2 + 1 -> x2 < 4294967295 -> 0 <= y -> x2 - x + 1 < Z.of_nat fuel ->
  exists v', hline_loop fuel x x2 y c v = Some (tt, v') /\ paints v (fun px py => in_range x (x2 + 1 - x) px && (py =? y)) c v'.
Proof.
  revert v x. induction fuel as [|fuel IH]; intros v x Ho Hx Hx2 Hm Hy Hf; [lia|]. cbn [hline_loop].
  destruct (Z.leb_spec x x2) as [Hle|Hgt]; cbn [negb].
  - destruct (plot_ok v x y c Ho Hx Hy) as (v1 & E1 & P1). rewrite (run_bind _ _ _ _ _ E1), u32_small by lia.
    destruct (IH v1 (x + 1)) as (v' & E & P); [by eapply paints_ok|lia..|]. exists v'. split; [exact E|].
    eapply paints_ext; [|exact (paints_trans v _ v1 _ v' c Ho P1 P)]. intros px py _. cbn beta. unfold in_range. zcases; try lia; done.
  - exists v. split; [done|]. apply paints_none; [done|]. intros px py _. unfold in_range. zcases; try lia; done.
Qed.

Lemma hline_endless fuel v x y c : screen_ok v -> is_u32 x -> 0 <= y -> hline_loop fuel x 4294967295 y c v = None.
Proof.
  intros Ho Hx Hy. revert v x Ho Hx. induction fuel as [|fuel IH]; intros v x Ho Hx; [done|]. cbn [hline_loop].
  replace (x <=? 4294967295) with true by (unfold is_u32 in Hx; lia). cbn [negb].
  destruct (plot_ok v x y c Ho ltac:(apply Hx) Hy) as (v1 & E1 & P1). rewrite (run_bind _ _ _ _ _ E1).
  apply IH; [by eapply paints_ok|apply u32_range].
Qed.
End drawing.

(** ** Initialisation *)

(** The mode that the boot loader's structure describes. *)
Definition multiboot_mode (l : list Z) : vesa_mode_info :=
  ModeInfo (img_le l 4 100) (img_le l 4 104) (img_le l 4 96) (img_le l 1 108) (img_le l 1 109) (img_le l 4 88)
    (u32 (img_le l 4 96 * img_le l 4 104)) (img_le l 1 110) (img_le l 1 111) (img_le l 1 112) (img_le l 1 113) (img_le l 1 114) (img_le l 1 115).

Section init.
Context {St : Type} `{FrameAllocLaws St} {P : Type} `{Ports P}.
Implicit Types (s : vst St) (F : gset Z).

Definition fb_pages (mo : vesa_mode_info) : Z := (framebuffer_size mo + 4095) / 4096.

(** The pages that were mapped, the others, and the memory. *)
Record pages_mapped s F pd fb n s' F' : Prop := {
  pm_vinv : vinv s' F' pd;
  pm_use : in_use s' pd;
  pm_current : vmm_get_current_directory s' = pd;
  pm_sub : F' ⊆ F;
  pm_size : Z.of_nat (stdpp.base.size F) <= n + Z.of_nat (stdpp.base.size F');
  pm_new : forall j, 0 <= j < n -> pte (vm s') pd (fb + 4096 * j) = fb + 4096 * j + 19;
  pm_old : forall a, 0 <= a < 4294967296 -> ~ (fb <= a < fb + 4096 * n) -> pte (vm s') pd a = pte (vm s) pd a;
  pm_leaves : leaves s F s' F' pd
}.

Lemma map_pages_spec s F pd fb n : vinv s F pd -> in_use s pd -> vmm_get_current_directory s = pd ->
  fb mod 4096 = 0 -> 0 <= fb -> 0 <= n -> fb + 4096 * n <= 4294967296 -> n < Z.of_nat (stdpp.base.size F) ->
  exists F', pages_mapped s F pd fb n (map_pages pd fb n 0 s) F'.
Proof.
  intros Hv Hu Hcur Hal Hfb Hn Hend Hsize. unfold map_pages.
  apply (for_range_ind (fun i t => exists F', pages_mapped s F pd fb i t F')); [done|..].
  { exists F. split; try done; lia. }
  intros i t Hi (F' & Hm). destruct Hm as [Hv1 Hu1 Hc1 Hs1 Hz1 Hn1 Ho1 Hl1].
  rewrite Z.add_0_l, (u32_small (i * 4096)), u32_small by lia.
  change (Z.lor (Z.lor PAGE_PRESENT PAGE_WRITE) PAGE_CACHE_DISABLE) with 19.
  pose proof (map_page_spec t F' pd (fb + i * 4096) (fb + i * 4096) 19 Hv1 ltac:(lia) ltac:(lia) ltac:(split; lia)) as Hp.
  destruct (vmm_map_page t pd (fb + i * 4096) (fb + i * 4096) 19) as [r t2].
  destruct Hp as [(_ & _ & -> & _)|(F2 & _ & [Hsub Hsz] & Hv2 & _ & Hnew & Hold & HL & Hvs)]; [rewrite size_empty in Hz1; lia|].
  exists F2. cbn [snd]. split; try done.
  - unfold in_use, paging in *. rewrite Hvs. by destruct (pd =? _).
  - unfold vmm_get_current_directory in *. rewrite Hvs. by destruct (pd =? _).
  - by etrans.
  - lia.
  - intros j Hj. destruct (decide (j = i)) as [->|Hne].
    + rewrite (Z.mul_comm 4096), Hnew, page_of_eq by lia. zdm.
    + rewrite Hold by zdm. apply Hn1. lia.
  - intros a Ha Hr. rewrite Hold; [apply Ho1; lia|done|zdm].
  - by eapply leaves_trans.
Qed.

(** A mapped framebuffer that is foreign to the tables is a screen. *)
Lemma mapped_screen s F pd mo s' F' : mode_ok mo -> framebuffer mo mod 4096 = 0 ->
  pages_mapped s F pd (framebuffer mo) (fb_pages mo) s' F' ->
  (forall b, in_range (framebuffer mo) (framebuffer_size mo) b = true -> foreign s F pd b) ->
  screen_ok F' pd mo (Vesa mo true (framebuffer mo) s').
Proof.
  intros Hmo Hal Hm Hfor. pose proof (mk_base _ Hmo) as Hb. pose proof (mk_end _ Hmo) as He. destruct Hm as [Hv Hu Hc Hs Hz Hn Ho Hl].
  unfold fb_pages in *. split; cbn; try done.
  assert (Hsz : 0 <= framebuffer_size mo).
  { rewrite (mk_size _ Hmo). pose proof (mk_width _ Hmo). pose proof (mk_height _ Hmo). pose proof (mk_pitch _ Hmo). pose proof (depth_range _ Hmo). nia. }
  split; [lia|]. split; [lia|]. split; [lia|]. intros i Hi. unfold at_byte.
  assert (Hpte : pte (vm s') pd (framebuffer mo + i) = (framebuffer mo + i) / 4096 * 4096 + 19).
  { rewrite <- (pte_page (vm s') pd), page_of_eq by lia.
    replace (4096 * ((framebuffer mo + i) / 4096)) with (framebuffer mo + 4096 * (i / 4096)) by zdm.
    rewrite Hn by zdm. zdm. }
  assert (Hfr : is_frame ((framebuffer mo + i) / 4096 * 4096)) by (split; zdm).
  destruct (entry_parts _ 19 Hfr ltac:(lia)) as (_ & _ & Hpo & _). rewrite Hpte.
  split; [by rewrite has_parts|]. split; [rewrite Hpo, offset_of_eq; zdm|]. apply Hl. apply Hfor. rcases; done.
Qed.
End init.

(** ** Claims *)

Section claims.
Context {St : Type} `{FrameAllocLaws St} {P : Type} `{Ports P}.
Implicit Types (F : gset Z) (v : vesa St).

Lemma ld_held (s : driver (vesa St) P) F pd a l k n : vinv (space (own s)) F pd -> in_use (space (own s)) pd ->
  holds_at (space (own s)) F pd a l -> 0 <= k -> k + Z.of_nat n <= Z.of_nat (length l) -> ld n (u32 (a + k)) s = Some (img_le l n k, s).
Proof.
  intros Hv Hu Hh Hk Hn. pose proof Hh as (Q & (A & _ & B & _) & _). unfold ld. destruct n as [|n]; [done|].
  rewrite u32_small by lia. by rewrite (lin_word_held _ F pd a l k (S n)).
Qed.

(** Given a boot loader's structure that describes a usable framebuffer, and frames
    enough for its page tables, [vesa_init] maps every page of the framebuffer to
    itself, takes the mode from the structure, and changes no other translation and no
    memory outside the page tables: the result is a screen that can be drawn on. *)
Theorem vesa_init_maps (s : driver (vesa St) P) F pd mb l :
  vinv (space (own s)) F pd -> in_use (space (own s)) pd -> vmm_get_current_directory (space (own s)) = pd ->
  log_wf (klog s) -> mb <> 0 -> holds_at (space (own s)) F pd mb l -> 116 <= Z.of_nat (length l) ->
  Z.testbit (img_le l 4 0) 12 = true -> img_le l 1 109 = 1 ->
  let mo := multiboot_mode l in
  mode_ok mo -> framebuffer mo mod 4096 = 0 ->
  (forall b, in_range (framebuffer mo) (framebuffer_size mo) b = true -> foreign (space (own s)) F pd b) ->
  fb_pages mo < Z.of_nat (stdpp.base.size F) ->
  exists s' F', vesa_init mb s = Some (tt, s') /\ F' ⊆ F /\ screen_ok F' pd mo (own s') /\
    (forall a, 0 <= a < 4294967296 -> ~ (framebuffer mo <= a < framebuffer mo + 4096 * fb_pages mo) ->
       pte (vm (space (own s'))) pd a = pte (vm (space (own s))) pd a) /\
    (forall b, foreign (space (own s)) F pd b -> load8 (vm (space (own s'))) b = load8 (vm (space (own s))) b).
Proof.
  intros Hv Hu Hc Hl Hmb Hh Hlen Hbit Hty mo Hmo Hal Hfor Hsz.
  assert (Hf : forall (s1 : driver (vesa St) P) n k, own s1 = own s -> 0 <= k -> k + Z.of_nat n <= 116 -> ld n (u32 (mb + k)) s1 = Some (img_le l n k, s1)).
  { intros s1 n k Ho Hk Hn. apply (ld_held s1 F pd); [by rewrite Ho..|lia|lia]. }
  pose proof Hh as (Q & (A & _ & B & _) & _). assert (Hadd : forall k, 0 <= k < 28 -> u32 (u32 (mb + 88) + k) = u32 (mb + (88 + k)))
    by (intros k Hk; rewrite (u32_small (mb + 88)) by lia; by rewrite Z.add_assoc).
  unfold vesa_init. destruct (say_info_ok "VESA: Initializing framebuffer driver" s Hl) as (l1 & E1 & Hl1). rewrite (run_bind _ _ _ _ _ E1).
  replace (mb =? 0) with false by lia.
  assert (E0 : ld 4 mb (with_log s l1) = Some (img_le l 4 0, with_log s l1)).
  { rewrite <- (Hf (with_log s l1) 4%nat 0) by (done || lia). by rewrite Z.add_0_r, u32_small by lia. }
  rewrite (run_bind _ _ _ _ _ E0). replace (Z.land _ _ =? 0) with false.
  2: { symmetry. apply Z.eqb_neq. rewrite land_pow2_eq0 by lia. by rewrite Hbit. }
  rewrite !Hadd by lia. 
  repeat match goal with |- context [88 + Zpos ?k] => let r := eval vm_compute in (88 + Zpos k) in change (88 + Zpos k) with r end.
  assert (Hg : forall n k (K : Z -> ST (driver (vesa St) P) unit), 0 <= k -> k + Z.of_nat n <= 116 ->
    (v ← ld n (u32 (mb + k)); K v) (with_log s l1) = K (img_le l n k) (with_log s l1)).
  { intros n k K Hk Hn. apply run_bind. by apply Hf. }
  rewrite Hg, Hty by lia. change (negb (1 =? 1)) with false. cbv iota.
  do 4 (rewrite Hg by lia).  do 7 (rewrite Hg by lia).
  rewrite !run_mod. cbn [own with_own with_mode space with_log]. rewrite Hc.
  rewrite <- Hty. change (ModeInfo _ _ _ _ _ _ _ _ _ _ _ _ _) with mo.
  pose proof (mk_base _ Hmo) as Hb. pose proof (mk_end _ Hmo) as He.
  assert (Hs0 : 0 <= framebuffer_size mo < 4294967296) by apply u32_range.
  rewrite (u32_small (framebuffer_size mo + 4095)) by zdm. fold (fb_pages mo).
  destruct (map_pages_spec (space (own s)) F pd (framebuffer mo) (fb_pages mo) Hv Hu Hc Hal ltac:(lia)) as (F' & Hm);
    [unfold fb_pages; zdm|unfold fb_pages; zdm|exact Hsz|].
  match goal with |- context [say_info_fmt ?f ?a ?st] => destruct (say_info_fmt_ok f a st) as (l2 & E2 & Hl2); [renders|exact Hl1|] end.
  rewrite E2. eexists _, F'. split; [reflexivity|]. cbn [own with_log with_own space]. split; [apply Hm|].
  split; [by apply (mapped_screen (space (own s)) F)|]. split; [apply Hm|]. intros b Hbf. apply (pm_leaves _ _ _ _ _ _ _ Hm b Hbf).
Qed.

(** C17: A rectangle is clipped to the screen and filled: afterwards exactly its pixels on
    the screen have the colour, cut to the bytes of a pixel, and no other byte of the
    memory has changed. *)
Theorem vesa_draw_rect_fills F pd mo v x y w h c :
  screen_ok F pd mo v -> 0 <= x -> 0 <= w -> x + w <= 4294967296 -> 0 <= y -> 0 <= h -> y + h <= 4294967296 ->
  exists v', vesa_draw_rect x y w h c v = Some (tt, v') /\ screen_ok F pd mo v' /\
    (forall px py, on_screen mo px py = true -> pixel (vm (space v')) mo px py =
       if in_range x w px && in_range y h py then c mod 256 ^ depth mo else pixel (vm (space v)) mo px py) /\
    (forall b, (forall px py k, on_screen mo px py = true -> 0 <= k < depth mo -> b <> pixel_byte mo px py k) ->
       load8 (vm (space v')) b = load8 (vm (space v)) b).
Proof.
  intros Ho Hx Hw Hxw Hy Hh Hyh. unfold vesa_draw_rect.
  destruct (each_paints F pd mo (fun row => each (fun col => vesa_plot_pixel (u32 (x + col)) (u32 (y + row)) c) (seqZ 0 w))
    (fun row px py => in_range x w px && (py =? y + row)) c (seqZ 0 h) v Ho) as (v' & E & Hp).
  { intros row v1 Hrow%elem_of_seqZ Ho1. rewrite (u32_small (y + row)) by lia.
    destruct (each_paints F pd mo (fun col => vesa_plot_pixel (u32 (x + col)) (y + row) c) (fun col px py => (px =? x + col) && (py =? y + row))
      c (seqZ 0 w) v1 Ho1) as (v2 & E2 & Hp2).
    { intros col v3 Hcol%elem_of_seqZ Ho3. rewrite u32_small by lia. apply (plot_ok F pd mo); [done|lia|lia]. }
    exists v2. split; [exact E2|]. eapply paints_ext; [|exact Hp2]. intros px py _. cbn beta.
    destruct (Z.eqb_spec py (y + row)); [|rewrite andb_false_r; symmetry; apply not_true_iff_false; intros (? & _ & Hb)%existsb_exists; by rewrite andb_false_r in Hb].
    rewrite andb_true_r, (existsb_seqZ _ 0 w (px - x)) by (lia || (intros i Hi; rewrite andb_true_r; zcases; lia || done)).
    unfold in_range. zcases; try lia; done. }
  exists v'. split; [exact E|]. split; [by eapply paints_ok|]. destruct Hp as (m' & -> & _ & Hp).
  split; [|apply Hp]. intros px py Hs. cbn [space with_space vm with_vm].
  rewrite (painted_pixel mo (so_ok _ _ _ _ Ho) _ _ _ _ px py Hp Hs). cbn beta.
  replace (existsb _ _) with (in_range x w px && in_range y h py); [done|]. symmetry. destruct (in_range x w px).
  - rewrite (existsb_seqZ _ 0 h (py - y)) by (lia || (intros i Hi; cbn [andb]; zcases; lia || done)). unfold in_range. zcases; try lia; done.
  - apply not_true_iff_false. by intros (? & _ & Hb)%existsb_exists.
Qed.
End claims.

(** The two ends of a line may come in either order. *)
Theorem vesa_draw_hline_paints {St} `{FrameAllocLaws St} F pd mo (v : vesa St) x1 x2 y c :
  screen_ok F pd mo v -> is_u32 x1 -> is_u32 x2 -> 0 <= y ->
  if Z.max x1 x2 =? 4294967295 then vesa_draw_hline x1 x2 y c v = None
  else exists v', vesa_draw_hline x1 x2 y c v = Some (tt, v') /\
    paints F pd mo v (fun px py => in_range (Z.min x1 x2) (Z.abs (x2 - x1) + 1) px && (py =? y)) c v'.
Proof.
  intros Ho [H1' H2'] [H3' H4'] Hy. unfold vesa_draw_hline. destruct (Z.eqb_spec (Z.max x1 x2) 4294967295) as [Hm|Hm].
  - destruct (Z.ltb_spec x2 x1); [replace x1 with 4294967295 by lia|replace x2 with 4294967295 by lia];
      (apply (hline_endless F pd mo); [done|by split|done]).
  - destruct (Z.ltb_spec x2 x1).
    + destruct (hline_loop_ok F pd mo (Z.to_nat (x1 - x2 + 2)) v x2 x1 y c Ho) as (v' & E & Hp); [lia..|]. exists v'. split; [exact E|].
      replace (Z.min x1 x2) with x2 by lia. by replace (Z.abs (x2 - x1) + 1) with (x1 + 1 - x2) by lia.
    + destruct (hline_loop_ok F pd mo (Z.to_nat (x2 - x1 + 2)) v x1 x2 y c Ho) as (v' & E & Hp); [lia..|]. exists v'. split; [exact E|].
      replace (Z.min x1 x2) with x1 by lia. by replace (Z.abs (x2 - x1) + 1) with (x2 + 1 - x1) by lia.
Qed.

(** ** A screen of four by four pixels

    Its framebuffer is at 16 MB, and the boot loader's structure at 2 MB. *)

Definition boot_info : list Z :=
  [0; 16; 0; 0] ++ replicate 84 0 ++ [0; 0; 0; 1] ++ [0; 0; 0; 0] ++ [16; 0; 0; 0] ++ [4; 0; 0; 0] ++ [4; 0; 0; 0] ++
  [32; 1; 16; 8; 8; 8; 0; 8].
Definition small_mode : vesa_mode_info := multiboot_mode boot_info.
Definition booted_vesa : driver (vesa pmm) unit :=
  Driver (Vesa (multiboot_mode []) false 0 (default Vmm.booted (lin_put boot_info Vmm.booted 2097152))) tt log_init.
#[local] Opaque Vmm.booted kd0.

Lemma small_mode_ok : mode_ok small_mode.
Proof. by split; vm_compute; try (right; reflexivity); try split. Qed.

Lemma booted_vesa_ok : exists F, identity_map (space (own booted_vesa)) kd0 F /\ holds_at (space (own booted_vesa)) F kd0 2097152 boot_info /\
  1 < Z.of_nat (stdpp.base.size F).
Proof.
  destruct booted_ok as (F & Hi). exists F. destruct (identity_put _ _ _ 2097152 boot_info Hi) as (m' & E & Hc & Hh); [|done|done|].
  { apply Forall_forall. intros x Hx. assert (E : forallb (fun x => (0 <=? x) && (x <? 256)) boot_info = true) by done.
    rewrite forallb_forall in E. apply list_elem_of_In in Hx. specialize (E x Hx). unfold is_u8. lia. }
  assert (Es : space (own booted_vesa) = with_vm Vmm.booted m') by (unfold booted_vesa; cbn [own space]; by rewrite E).
  rewrite Es. split; [by apply identity_change|]. split; [done|]. rewrite (im_frames _ _ _ Hi).
  assert (Ec : pmm_max_blocks (al Vmm.booted) - pmm_used_blocks (al Vmm.booted) >? 1 = true) by (vm_compute; reflexivity). lia.
Qed.

(** Drawing on the screen that [vesa_init] has set up. *)
Lemma vesa_init_maps_witness : exists s' F, vesa_init 2097152 booted_vesa = Some (tt, s') /\ screen_ok F kd0 small_mode (own s').
Proof.
  destruct booted_vesa_ok as (F & Hi & Hh & Hs).
  destruct (vesa_init_maps booted_vesa F kd0 2097152 boot_info (im_vinv _ _ _ Hi) (im_use _ _ _ Hi) (im_current _ _ _ Hi) log_init_wf
    ltac:(done) Hh ltac:(done) eq_refl eq_refl small_mode_ok eq_refl) as (s' & F' & E & _ & Ho & _).
  - intros b Hb. apply (im_foreign _ _ _ Hi). unfold in_range in Hb. change (framebuffer (multiboot_mode boot_info)) with 16777216 in Hb. lia.
  - exact Hs.
  - exists s', F'. split; [exact E|exact Ho].
Defined.

Lemma small_screen : exists v F, screen_ok (St := pmm) F kd0 small_mode v.
Proof. destruct vesa_init_maps_witness as (s' & F & _ & Ho). by exists (own s'), F. Qed.

Lemma vesa_draw_rect_fills_witness : exists (v v' : vesa pmm), vesa_draw_rect 1 1 2 2 65535 v = Some (tt, v') /\
  pixel (vm (space v')) small_mode 2 2 = 65535 /\ pixel (vm (space v')) small_mode 3 2 = pixel (vm (space v)) small_mode 3 2.
Proof.
  destruct small_screen as (v & F & Ho).
  destruct (vesa_draw_rect_fills F kd0 small_mode v 1 1 2 2 65535 Ho) as (v' & E & _ & Hp & _); [lia..|].
  exists v, v'. split; [exact E|]. split; rewrite Hp; done.
Defined.
