(* ===== verification/Gdt.v ===== *)
(** arch/i686/gdt.c: the descriptor table and the task state segment.

    The addresses of the table and of the segment are parameters.  What the processor
    makes of a descriptor, as its manual has it, is [segment]; loading the table and the
    task register is recorded. *)

From S2P Require Import Prelude.
Local Open Scope Z_scope.

(** ** Definitions *)

Definition KERNEL_CS : Z := 8.
Definition KERNEL_DS : Z := 16.

Record gdt_entry := GdtEntry { limit_low : Z; base_low : Z; base_mid : Z; access : Z; granularity : Z; base_high : Z }.
Definition zero_gdt_entry : gdt_entry := GdtEntry 0 0 0 0 0 0.

Record gdt_ptr := GdtPtr { gp_limit : Z; gp_base : Z }.

Record tss_entry := Tss {
  prev_tss : Z; esp0 : Z; ss0 : Z; esp1 : Z; ss1 : Z; esp2 : Z; ss2 : Z; cr3 : Z; eip : Z; eflags : Z;
  eax : Z; ecx : Z; edx : Z; ebx : Z; esp : Z; ebp : Z; esi : Z; edi : Z;
  es : Z; cs : Z; ss : Z; ds : Z; fs : Z; gs : Z; ldt : Z; trap : Z; iomap_base : Z
}.
(** sizeof(struct gdt_entry), sizeof(struct tss_entry) *)
Definition GDT_ENTRY_BYTES : Z := 8.
Definition TSS_BYTES : Z := 104.

(** [loaded] and [task_loaded] are what [gdt_flush] and [tss_flush] loaded. *)
Record gdt := Gdt { gdt_entries : list gdt_entry; gdt_pointer : gdt_ptr; tss : tss_entry; loaded : option Z; task_loaded : bool }.

Definition set_entries (g : gdt) (l : list gdt_entry) : gdt := Gdt l (gdt_pointer g) (tss g) (loaded g) (task_loaded g).
Definition set_tss (g : gdt) (t : tss_entry) : gdt := Gdt (gdt_entries g) (gdt_pointer g) t (loaded g) (task_loaded g).

Definition gdt_set_gate (num : Z) (base limit acc gran : Z) (g : gdt) : gdt :=
  set_entries g (<[Z.to_nat num :=
    GdtEntry (Z.land limit 65535) (Z.land base 65535) (Z.land (Z.shiftr base 16) 255) acc
      (Z.lor (Z.land (Z.shiftr limit 16) 15) (Z.land gran 240)) (Z.land (Z.shiftr base 24) 255)]> (gdt_entries g)).

Section addresses.
Variables (gdt_address tss_address : Z).

Definition tss_write (num ss0 esp0 : Z) (g : gdt) : gdt :=
  let base := tss_address in
  let limit := u32 (base + TSS_BYTES) in
  let g := gdt_set_gate num base limit 233 0 g in
  set_tss g (Tss 0 esp0 ss0 0 0 0 0 0 0 0 0 0 0 0 0 0 0 0 KERNEL_DS KERNEL_CS KERNEL_DS KERNEL_DS KERNEL_DS KERNEL_DS 0 0 TSS_BYTES).

Definition gdt_init (g : gdt) : gdt :=
  let g := Gdt (gdt_entries g) (GdtPtr (GDT_ENTRY_BYTES * 6 - 1) gdt_address) (tss g) (loaded g) (task_loaded g) in
  let g := gdt_set_gate 0 0 0 0 0 g in
  let g := gdt_set_gate 1 0 4294967295 154 207 g in
  let g := gdt_set_gate 2 0 4294967295 146 207 g in
  let g := gdt_set_gate 3 0 4294967295 250 207 g in
  let g := gdt_set_gate 4 0 4294967295 242 207 g in
  let g := tss_write 5 KERNEL_DS 0 g in
  Gdt (gdt_entries g) (gdt_pointer g) (tss g) (Some (gp_base (gdt_pointer g))) true.
End addresses.

Definition tss_set_kernel_stack (stack : Z) (g : gdt) : gdt :=
  let t := tss g in
  set_tss g (Tss (prev_tss t) stack (ss0 t) (esp1 t) (ss1 t) (esp2 t) (ss2 t) (cr3 t) (eip t) (eflags t)
    (eax t) (ecx t) (edx t) (ebx t) (esp t) (ebp t) (esi t) (edi t) (es t) (cs t) (ss t) (ds t) (fs t) (gs t) (ldt t) (trap t) (iomap_base t)).

(** ** What the processor reads *)

(** The base, the last offset, the access byte and the high flags of a descriptor. *)
Record segment := Segment { s_base : Z; s_last : Z; s_access : Z; s_flags : Z }.
Definition decode (e : gdt_entry) : segment :=
  let limit := limit_low e + 65536 * Z.land (granularity e) 15 in
  Segment (base_low e + 65536 * base_mid e + 16777216 * base_high e)
    (if Z.testbit (granularity e) 7 then 4096 * limit + 4095 else limit) (access e) (Z.land (granularity e) 240).
Definition dpl (e : gdt_entry) : Z := Z.land (Z.shiftr (access e) 5) 3.

Lemma land_mask x k n : n = Z.ones k -> 0 <= k -> Z.land x n = x mod 2 ^ k.
Proof. intros -> Hk. by apply Z.land_ones. Qed.

Lemma granularity_parts x g : let v := Z.lor (Z.land x 15) (Z.land g 240) in
  Z.land v 15 = Z.land x 15 /\ Z.land v 240 = Z.land g 240 /\ Z.testbit v 7 = Z.testbit g 7.
Proof.
  cbv zeta. rewrite !Z.land_lor_distr_l, <- !Z.land_assoc. change (Z.land 15 15) with 15. change (Z.land 240 15) with 0.
  change (Z.land 15 240) with 0. change (Z.land 240 240) with 240. rewrite !Z.land_0_r, Z.lor_0_r. split; [done|]. split; [done|].
  rewrite Z.lor_spec, !Z.land_spec. change (Z.testbit 15 7) with false. change (Z.testbit 240 7) with true.
  by rewrite andb_false_r, andb_true_r.
Qed.

(** The processor reads back what [gdt_set_gate] was given: the whole base, the low 20
    bits of the limit, the access byte and the high half of the flags; the other
    entries stay. *)
Lemma set_gate_decodes num base limit acc gran g : 0 <= num < Z.of_nat (length (gdt_entries g)) -> is_u32 base -> is_u32 limit ->
  exists e, gdt_entries (gdt_set_gate num base limit acc gran g) !! Z.to_nat num = Some e /\
    decode e = Segment base (if Z.testbit gran 7 then 4096 * (limit mod 1048576) + 4095 else limit mod 1048576) acc (Z.land gran 240).
Proof.
  intros Hn Hb Hl. unfold gdt_set_gate, set_entries. cbn [gdt_entries]. rewrite list_lookup_insert_eq by lia. eexists. split; [reflexivity|].
  unfold decode. cbn [limit_low base_low base_mid access granularity base_high].
  destruct (granularity_parts (Z.shiftr limit 16) gran) as (-> & -> & ->).
  rewrite !(land_mask _ 16 65535), !(land_mask _ 8 255), (land_mask _ 4 15) by done. rewrite !Z.shiftr_div_pow2 by lia.
  change (2 ^ 16) with 65536. change (2 ^ 24) with 16777216. change (2 ^ 8) with 256. change (2 ^ 4) with 16. unfold is_u32 in *.
  assert (E : limit mod 65536 + 65536 * (limit / 65536 mod 16) = limit mod 1048576) by zdm. rewrite E. f_equal. zdm.
Qed.

Lemma set_gate_others num base limit acc gran g j : 0 <= num -> 0 <= j -> j <> num ->
  gdt_entries (gdt_set_gate num base limit acc gran g) !! Z.to_nat j = gdt_entries g !! Z.to_nat j.
Proof. intros. unfold gdt_set_gate. cbn. apply list_lookup_insert_ne. lia. Qed.

(** Descriptor [i] of a table. *)
Definition descriptor (g : gdt) (i : Z) : option segment := decode <$> gdt_entries g !! Z.to_nat i.

Lemma set_gate_at num base limit acc gran g j : 0 <= num < Z.of_nat (length (gdt_entries g)) -> 0 <= j -> is_u32 base -> is_u32 limit ->
  descriptor (gdt_set_gate num base limit acc gran g) j =
    if j =? num then Some (Segment base (if Z.testbit gran 7 then 4096 * (limit mod 1048576) + 4095 else limit mod 1048576) acc (Z.land gran 240))
    else descriptor g j.
Proof.
  intros Hn Hj Hb Hl. unfold descriptor. destruct (Z.eqb_spec j num) as [->|Hne].
  - destruct (set_gate_decodes num base limit acc gran g Hn Hb Hl) as (e & -> & He). cbn. by rewrite He.
  - by rewrite set_gate_others by lia.
Qed.

Lemma length_set_gate num base limit acc gran g : length (gdt_entries (gdt_set_gate num base limit acc gran g)) = length (gdt_entries g).
Proof. apply length_insert. Qed.

(** After [gdt_init] the processor has the table at its address, the null descriptor,
    code and data segments of the kernel and of the users that cover all 4 GB, and a
    task segment at the address of the TSS, whose stack segment is the kernel's.  The
    last offset of the task segment is that of its end in memory, not its size. *)
Theorem gdt_init_flat gdt_address tss_address g : length (gdt_entries g) = 6%nat -> is_u32 tss_address -> tss_address + TSS_BYTES < 4294967296 ->
  let g' := gdt_init gdt_address tss_address g in
  loaded g' = Some gdt_address /\ gp_limit (gdt_pointer g') = 6 * GDT_ENTRY_BYTES - 1 /\ task_loaded g' = true /\
  ss0 (tss g') = KERNEL_DS /\ iomap_base (tss g') = TSS_BYTES /\
  descriptor g' 0 = Some (Segment 0 0 0 0) /\
  descriptor g' (KERNEL_CS / 8) = Some (Segment 0 4294967295 154 192) /\
  descriptor g' (KERNEL_DS / 8) = Some (Segment 0 4294967295 146 192) /\
  descriptor g' 3 = Some (Segment 0 4294967295 250 192) /\
  descriptor g' 4 = Some (Segment 0 4294967295 242 192) /\
  descriptor g' 5 = Some (Segment tss_address ((tss_address + TSS_BYTES) mod 1048576) 233 0).
Proof.
  intros Hl Ht Htop. unfold gdt_init, tss_write. cbn [loaded gdt_pointer task_loaded tss set_tss set_entries gdt_set_gate].
  split; [done|]. split; [done|]. split; [done|]. split; [done|]. split; [done|].
  unfold descriptor at 1 2 3 4 5 6. cbn [gdt_entries set_tss].
  repeat match goal with |- context [decode <$> gdt_entries ?h !! Z.to_nat ?i] => change (decode <$> gdt_entries h !! Z.to_nat i) with (descriptor h i) end.
  assert (Hu : u32 (tss_address + TSS_BYTES) = tss_address + TSS_BYTES) by (apply u32_small; unfold is_u32, TSS_BYTES in *; lia). rewrite Hu.
  change (KERNEL_CS / 8) with 1. change (KERNEL_DS / 8) with 2.
  rewrite !set_gate_at by (first [ rewrite ?length_set_gate; cbn [gdt_entries set_entries]; rewrite Hl; lia | lia | done | unfold is_u32, TSS_BYTES in *; lia ]).
  split_and!; reflexivity.
Qed.

Definition empty_gdt : gdt :=
  Gdt (replicate 6 zero_gdt_entry) (GdtPtr 0 0) (Tss 0 0 0 0 0 0 0 0 0 0 0 0 0 0 0 0 0 0 0 0 0 0 0 0 0 0 0) None false.

Lemma gdt_init_flat_witness : descriptor (gdt_init 1048576 1052672 empty_gdt) 5 = Some (Segment 1052672 4200 233 0).
Proof. apply (gdt_init_flat 1048576 1052672 empty_gdt); [reflexivity|done|reflexivity]. Defined.
