(* ===== verification/Debug.v ===== *)
(** lib/debug_utils.c: the function trace and the dumps.

    The trace is a ring of 64 entries (Ring).  The dumps read words of memory through
    [word], which is [None] where no page is mapped; the time that [debug_trace] takes
    from [timer_get_ticks] is an argument. *)

From S2P Require Import Prelude Ring Effects Console.
Local Open Scope Z_scope.

(** ** Definitions *)

Definition DEBUG_TRACE_SIZE : Z := 64.
Definition DEBUG_TRACE_MSG_LEN : nat := 80.

Record trace_entry := TraceEntry { function_name : list Z; t_message : list Z; t_timestamp : Z }.
Definition zero_trace : trace_entry := TraceEntry [] [] 0.

Record trace := Trace { trace_buffer : list trace_entry; trace_head : Z; trace_count : Z }.

Definition debug_utils_init : trace := Trace (replicate (Z.to_nat DEBUG_TRACE_SIZE) zero_trace) 0 0.

(** NULL is [None]; a fault is [None] too. *)
Definition debug_trace (now : Z) (func_name msg : option (list Z)) (s : trace) : option trace :=
  match func_name, msg with
  | Some func_name, Some msg =>
      if (0 <=? trace_head s) && (trace_head s <? Z.of_nat (length (trace_buffer s))) then
        let entry := TraceEntry (take (32 - 1) func_name) (take (DEBUG_TRACE_MSG_LEN - 1) msg) now in
        Some (Trace (<[Z.to_nat (trace_head s) := entry]> (trace_buffer s))
                    (u32 (trace_head s + 1) mod DEBUG_TRACE_SIZE)
                    (if trace_count s <? DEBUG_TRACE_SIZE then u32 (trace_count s + 1) else trace_count s))
      else None
  | _, _ => Some s
  end.

Section printing.
Context {C : Type} `{Console C}.

Definition debug_dump_registers (eax ebx ecx edx esi edi ebp esp eip : Z) : ST C unit :=
  _ ← console_write (NL :: str "=== Register Dump ===" ++ [NL]);
  _ ← console_write (str "EAX: "); _ ← console_write_hex eax;
  _ ← console_write (str "  EBX: "); _ ← console_write_hex ebx;
  _ ← console_write (NL :: str "ECX: "); _ ← console_write_hex ecx;
  _ ← console_write (str "  EDX: "); _ ← console_write_hex edx;
  _ ← console_write (NL :: str "ESI: "); _ ← console_write_hex esi;
  _ ← console_write (str "  EDI: "); _ ← console_write_hex edi;
  _ ← console_write (NL :: str "EBP: "); _ ← console_write_hex ebp;
  _ ← console_write (str "  ESP: "); _ ← console_write_hex esp;
  _ ← console_write (NL :: str "EIP: "); _ ← console_write_hex eip;
  console_write [NL; NL].

Definition debug_dump_memory (word : Z -> option Z) (addr count : Z) : ST C unit :=
  if addr =? 0 then console_write (str "Invalid address" ++ [NL]) else
  _ ← console_write (NL :: str "=== Memory Dump ===" ++ [NL]);
  _ ← console_write (str "Address: ");
  _ ← console_write_hex addr;
  _ ← console_write [NL; NL];
  _ ← each (fun i =>
        _ ← (if i mod 4 =? 0 then _ ← console_write_hex (u32 (addr + 4 * i)); console_write (str ": ") else mret tt);
        v ← sopt (word (u32 (addr + 4 * i))); _ ← console_write_hex v;
        _ ← console_write (str " ");
        if u32 (i + 1) mod 4 =? 0 then console_write [NL] else mret tt) (seqZ 0 count);
  if negb (count mod 4 =? 0) then console_write [NL] else mret tt.

Definition print_trace_entry (e : trace_entry) : ST C unit :=
  _ ← console_write (str "["); _ ← console_write_dec (t_timestamp e); _ ← console_write (str "] ");
  _ ← console_write (function_name e); _ ← console_write (str ": "); _ ← console_write (t_message e);
  console_write [NL].

Definition debug_print_trace (s : trace) : ST C unit :=
  _ ← console_write (NL :: str "=== Function Trace ===" ++ [NL; NL]);
  if trace_count s =? 0 then console_write (str "(empty)" ++ [NL]) else
  let '(start_idx, entries) :=
    if DEBUG_TRACE_SIZE <=? trace_count s then (trace_head s, DEBUG_TRACE_SIZE) else (0, trace_count s) in
  each (fun i =>
    let idx := u32 (start_idx + i) mod DEBUG_TRACE_SIZE in
    match trace_buffer s !! Z.to_nat idx with Some entry => print_trace_entry entry | None => sfault end) (seqZ 0 entries).

Definition debug_clear_trace (s : trace) : ST C trace :=
  _ ← console_write (str "Trace buffer cleared" ++ [NL]); mret debug_utils_init.

Definition debug_dump_stack (word : Z -> option Z) (stack_ptr count : Z) : ST C unit :=
  if stack_ptr =? 0 then console_write (str "Invalid stack pointer" ++ [NL]) else
  _ ← console_write (NL :: str "=== Stack Dump ===" ++ [NL]);
  _ ← console_write (str "Stack pointer: 0x");
  _ ← console_write_hex stack_ptr;
  _ ← console_write [NL; NL];
  each (fun i =>
    _ ← console_write (str "ESP+"); _ ← console_write_dec (u32 (i * 4)); _ ← console_write (str ": 0x");
    v ← sopt (word (u32 (stack_ptr + 4 * i))); _ ← console_write_hex v;
    console_write [NL]) (seqZ 0 count).
End printing.

(** ** Specification *)

Definition traced (s : trace) : list trace_entry := ring_entries DEBUG_TRACE_SIZE (trace_buffer s) (trace_head s) (trace_count s).
Definition trace_wf (s : trace) : Prop := ring_wf DEBUG_TRACE_SIZE (trace_buffer s) (trace_head s) (trace_count s).

(** A call of [debug_trace], and the entry that it leaves. *)
Record call := Call { when : Z; who : list Z; what : list Z }.
Definition entry_of (c : call) : trace_entry := TraceEntry (take 31 (who c)) (take 79 (what c)) (when c).
Fixpoint trace_all (cs : list call) (s : trace) : option trace :=
  match cs with [] => Some s | c :: cs => s ← debug_trace (when c) (Some (who c)) (Some (what c)) s; trace_all cs s end.

Definition trace_line (e : trace_entry) : list Z :=
  str "[" ++ dec_text (t_timestamp e) ++ str "] " ++ function_name e ++ str ": " ++ t_message e ++ [NL].
Definition trace_text (es : list trace_entry) : list Z :=
  (NL :: str "=== Function Trace ===" ++ [NL; NL]) ++ (if decide (es = []) then str "(empty)" ++ [NL] else es ≫= trace_line).

Lemma trace_init_wf : trace_wf debug_utils_init.
Proof. by split. Qed.

Lemma trace_all_spec cs s : trace_wf s -> exists s', trace_all cs s = Some s' /\ trace_wf s' /\
  traced s' = last_n (Z.to_nat DEBUG_TRACE_SIZE) (traced s ++ (entry_of <$> cs)).
Proof.
  revert s. induction cs as [|c cs IH]; intros s Hw; cbn [trace_all].
  { exists s. split; [done|]. split; [done|]. rewrite app_nil_r, last_n_all; [done|]. unfold traced.
    rewrite length_ring by done. destruct Hw; lia. }
  pose proof (ring_push DEBUG_TRACE_SIZE _ _ _ (entry_of c) ltac:(done) Hw) as [Hw1 He1].
  unfold debug_trace. destruct Hw as [Hl Hh _ _]. replace ((0 <=? trace_head s) && _) with true by (unfold DEBUG_TRACE_SIZE in *; lia).
  cbn [mbind option_bind]. match goal with |- context [trace_all cs ?t] => set (s1 := t) end.
  destruct (IH s1 Hw1) as (s2 & E & Hw2 & He2). exists s2. split; [done|]. split; [done|].
  change (traced s1) with (ring_entries DEBUG_TRACE_SIZE (trace_buffer s1) (trace_head s1) (trace_count s1)) in He2.
  rewrite He2. cbn [s1 trace_buffer trace_head trace_count]. change (TraceEntry _ _ _) with (entry_of c). rewrite He1, last_n_app.
  by rewrite <- app_assoc.
Qed.

Section claims.
Context {C : Type} `{ConsoleLaws C}.

Lemma print_entry_line e : is_u32 (t_timestamp e) -> prints (print_trace_entry e) (trace_line e).
Proof. intros Ht. unfold print_trace_entry, trace_line. prints. exact Ht. Qed.

Lemma print_trace_spec s : trace_wf s -> Forall (fun e => is_u32 (t_timestamp e)) (traced s) -> prints (debug_print_trace s) (trace_text (traced s)).
Proof.
  intros Hw Ht. pose proof (length_ring _ _ _ _ Hw) as Hlen. fold (traced s) in Hlen.
  pose proof (rw_head _ _ _ _ Hw) as Hh. pose proof (rw_count _ _ _ _ Hw) as Hc. unfold DEBUG_TRACE_SIZE in *.
  unfold debug_print_trace, trace_text. apply prints_bind; [apply prints_write|]. destruct (Z.eqb_spec (trace_count s) 0) as [Hz|Hz].
  { rewrite decide_True by (apply length_zero_iff_nil; lia). apply prints_write. }
  rewrite decide_False by (intros E; rewrite E in Hlen; cbn in Hlen; lia).
  assert (E : (if 64 <=? trace_count s then (trace_head s, 64) else (0, trace_count s)) = (if trace_count s <? 64 then 0 else trace_head s, trace_count s))
    by (zcases; try lia; try done; f_equal; lia).
  unfold DEBUG_TRACE_SIZE. rewrite E. clear E.
  assert (Hl : traced s = (fun i => default zero_trace (traced s !! Z.to_nat i)) <$> seqZ 0 (trace_count s)).
  { apply list_eq. intros i. rewrite list_lookup_fmap. destruct (decide (Z.of_nat i < trace_count s)).
    - rewrite lookup_seqZ_lt by lia. cbn [fmap option_fmap option_map]. replace (Z.to_nat (0 + Z.of_nat i)) with i by lia. destruct (lookup_lt_is_Some_2 (traced s) i) as [e ->]; [lia|done].
    - rewrite lookup_seqZ_ge by lia. apply lookup_ge_None_2. lia. }
  eapply prints_eq; [apply (prints_each _ (fun i => trace_line (default zero_trace (traced s !! Z.to_nat i))))|].
  - intros i Hi%elem_of_seqZ.
    assert (Hx : traced s !! Z.to_nat i = trace_buffer s !! Z.to_nat (u32 ((if trace_count s <? 64 then 0 else trace_head s) + i) mod 64)).
    { unfold traced. rewrite (ring_lookup DEBUG_TRACE_SIZE) by (done || lia). unfold DEBUG_TRACE_SIZE. do 2 f_equal. zcases; rewrite u32_small by lia; [|done].
      symmetry. apply Z.mod_small. lia. }
    rewrite <- Hx. destruct (lookup_lt_is_Some_2 (traced s) (Z.to_nat i)) as [e He]; [lia|]. rewrite He.
    apply print_entry_line. by apply (Forall_lookup_1 _ _ _ _ Ht He).
  - symmetry. etransitivity; [apply (f_equal (fun l => l ≫= trace_line) Hl)|]. apply list_fmap_bind.
Qed.

(** The trace is the list of the last 64 calls: after any sequence of calls of
    [debug_trace], [debug_print_trace] prints a heading and one line for each of the
    last 64 of them, oldest first, with the name cut at 31 and the message at 79
    characters, or "(empty)" when there was none. *)
Theorem debug_trace_prints_last cs (c : C) : Forall (fun x => is_u32 (when x)) cs -> con_ok c ->
  exists s c', trace_all cs debug_utils_init = Some s /\ debug_print_trace s c = Some (tt, c') /\ con_ok c' /\
    con_text c' = con_text c ++ trace_text (last_n 64 (entry_of <$> cs)).
Proof.
  intros Hcs Hc. destruct (trace_all_spec cs debug_utils_init trace_init_wf) as (s & E & Hw & He).
  change (traced debug_utils_init ++ (entry_of <$> cs)) with (entry_of <$> cs) in He.
  destruct (prints_run _ _ c (print_trace_spec s Hw ltac:(rewrite He; apply Forall_drop, Forall_fmap; done)) Hc) as (c' & E' & Hc' & Ht).
  exists s, c'. rewrite Ht, He. done.
Qed.
End claims.

Lemma debug_trace_prints_last_witness : exists s c',
  trace_all [Call 5 (str "kmalloc") (str "out of memory")] debug_utils_init = Some s /\
  debug_print_trace s ([] : teletype) = Some (tt, c') /\
  c' = NL :: str "=== Function Trace ===" ++ [NL; NL] ++ str "[5] kmalloc: out of memory" ++ [NL].
Proof.
  destruct (debug_trace_prints_last [Call 5 (str "kmalloc") (str "out of memory")] ([] : teletype)) as (s & c' & E & E' & _ & Ht).
  - by repeat constructor.
  - exact I.
  - exists s, c'. split; [exact E|]. split; [exact E'|exact Ht].
Defined.
