(* ===== verification/Sysmon.v ===== *)
(** sys/sysmon.c: statistics of memory, processor and processes.

    The statistics are read from the states of the physical memory manager (Pmm), the
    heap (Heap), the scheduler (Sched) and the timer, whose ticks are an argument.
    [None] is a walk along a queue that is not a list. *)

From S2P Require Import Prelude Mem Pmm KAlloc Heap Sched Effects Console.
Local Open Scope Z_scope.

(** ** Definitions *)

Record memory_stats := MemoryStats { total_memory : Z; used_memory : Z; free_memory : Z; kernel_memory : Z }.
Record cpu_stats := CpuStats { uptime_ticks : Z; idle_ticks : Z; kernel_ticks : Z; usage_percent : Z }.
Record process_stats := ProcessStats { total_processes : Z; running_processes : Z; blocked_processes : Z; zombie_processes : Z }.

(** The static variables of the monitor. *)
Record sysmon := Sysmon { own_stats : cpu_stats; last_update_tick : Z }.

Definition sysmon_init : sysmon := Sysmon (CpuStats 0 0 0 0) 0.

(** The structures are filled through a pointer: null leaves nothing. *)
Definition sysmon_get_memory_stats (p : pmm) (h : heap) : memory_stats :=
  MemoryStats (u32 (pmm_get_block_count p * 4096)) (u32 (pmm_get_used_block_count p * 4096))
    (u32 (pmm_get_free_block_count p * 4096)) (heap_get_used h).

Section scheduler.
Context {St : Type} `{KAlloc St}.
Implicit Types (s : sched St).

Definition sysmon_get_cpu_stats (now : Z) s : option cpu_stats :=
  let total_ticks := sched_get_total_ticks s in
  idle ← sched_get_idle_task s;
  idle_t ← (if negb (idle =? 0) then t_cpu_ticks <$> tasks s !! idle else Some 0);
  let usage := if 0 <? total_ticks then u32 (u32 (total_ticks - idle_t) * 100) / total_ticks else 0 in
  Some (CpuStats now idle_t (u32 (total_ticks - idle_t)) usage).

(** One turn of the loop over the queue. *)
Definition count_task (t : task) (c : process_stats) : process_stats :=
  let '(ProcessStats total running blocked zombie) := c in
  let total := u32 (total + 1) in
  if (t_state t =? TASK_RUNNING) || (t_state t =? TASK_READY) then ProcessStats total (u32 (running + 1)) blocked zombie
  else if t_state t =? TASK_BLOCKED then ProcessStats total running (u32 (blocked + 1)) zombie
  else if t_state t =? TASK_ZOMBIE then ProcessStats total running blocked (u32 (zombie + 1))
  else ProcessStats total running blocked zombie.
Fixpoint count_from (fuel : nat) (m : gmap Z task) (p : Z) (c : process_stats) : option process_stats :=
  if p =? 0 then Some c else
  match fuel with
  | O => None
  | S fuel => t ← m !! p; count_from fuel m (t_next t) (count_task t c)
  end.
Definition sysmon_get_process_stats s : option process_stats :=
  count_from (size (tasks s)) (tasks s) (sched_get_task_list s) (ProcessStats 0 0 0 0).

Section printing.
Context {C : Type} `{Console C}.

Definition print_memory_size (bytes : Z) : ST C unit :=
  if 1024 * 1024 <=? bytes then _ ← console_write_dec (bytes / (1024 * 1024)); console_write (str " MB")
  else if 1024 <=? bytes then _ ← console_write_dec (bytes / 1024); console_write (str " KB")
  else _ ← console_write_dec bytes; console_write (str " B").

Definition sysmon_print_summary (p : pmm) (h : heap) (now : Z) s : ST C unit :=
  let mem := sysmon_get_memory_stats p h in
  cpu ← sopt (sysmon_get_cpu_stats now s);
  proc ← sopt (sysmon_get_process_stats s);
  _ ← console_write (NL :: str "=== System Monitor ===" ++ [NL; NL]);
  _ ← console_write (str "Memory:" ++ [NL]);
  _ ← console_write (str "  Total:  ");
  _ ← print_memory_size (total_memory mem);
  _ ← console_write (NL :: str "  Used:   ");
  _ ← print_memory_size (used_memory mem);
  _ ← console_write (NL :: str "  Free:   ");
  _ ← print_memory_size (free_memory mem);
  _ ← console_write (NL :: str "  Kernel: ");
  _ ← print_memory_size (kernel_memory mem);
  _ ← console_write [NL; NL];
  _ ← console_write (str "CPU:" ++ [NL]);
  _ ← console_write (str "  Usage:  ");
  _ ← console_write_dec (usage_percent cpu);
  _ ← console_write (str "%" ++ [NL]);
  _ ← console_write (str "  Uptime: ");
  let seconds := uptime_ticks cpu / 100 in
  let minutes := seconds / 60 in
  let hours := minutes / 60 in
  _ ← console_write_dec hours; _ ← console_write (str "h ");
  _ ← console_write_dec (minutes mod 60); _ ← console_write (str "m ");
  _ ← console_write_dec (seconds mod 60); _ ← console_write (str "s" ++ [NL; NL]);
  _ ← console_write (str "Processes:" ++ [NL]);
  _ ← console_write (str "  Total:   "); _ ← console_write_dec (total_processes proc);
  _ ← console_write (NL :: str "  Running: "); _ ← console_write_dec (running_processes proc);
  _ ← console_write (NL :: str "  Blocked: "); _ ← console_write_dec (blocked_processes proc);
  _ ← console_write (NL :: str "  Zombie:  "); _ ← console_write_dec (zombie_processes proc);
  console_write [NL].
End printing.
End scheduler.

Definition sysmon_update (current_tick : Z) (s : sysmon) : sysmon :=
  if 100 <=? u32 (current_tick - last_update_tick s) then
    let c := own_stats s in
    Sysmon (CpuStats current_tick (idle_ticks c) (kernel_ticks c) (usage_percent c)) current_tick
  else s.

(** ** What the numbers mean *)

(** How many tasks of a queue are in a state that passes a test. *)
Definition state_is (m : gmap Z task) (P : Z -> bool) (a : Z) : bool := match m !! a with Some t => P (t_state t) | None => false end.
Definition how_many (m : gmap Z task) (P : Z -> bool) (q : list Z) : Z := Z.of_nat (length (filter (fun a => state_is m P a = true) q)).
Definition runs (v : Z) : bool := (v =? TASK_RUNNING) || (v =? TASK_READY).
Definition counts (m : gmap Z task) (q : list Z) : process_stats :=
  ProcessStats (Z.of_nat (length q)) (how_many m runs q) (how_many m (fun v => v =? TASK_BLOCKED) q) (how_many m (fun v => v =? TASK_ZOMBIE) q).

Lemma how_many_app m P q a t : m !! a = Some t -> how_many m P (q ++ [a]) = how_many m P q + if P (t_state t) then 1 else 0.
Proof.
  intros Ha. unfold how_many. rewrite filter_app, length_app. assert (Hs : state_is m P a = P (t_state t)) by (unfold state_is; by rewrite Ha).
  rewrite filter_cons, filter_nil. case_decide as Hd; rewrite Hs in Hd; destruct (P (t_state t)); try done; cbn [length]; lia.
Qed.

Lemma how_many_le m P q : 0 <= how_many m P q <= Z.of_nat (length q).
Proof. unfold how_many. pose proof (length_filter (fun a => state_is m P a = true) q). lia. Qed.

Lemma count_task_spec m q a t : m !! a = Some t -> Z.of_nat (length q) < 4294967295 -> count_task t (counts m q) = counts m (q ++ [a]).
Proof.
  intros Ha Hl. unfold count_task, counts. rewrite !(how_many_app m _ q a t Ha), length_app.
  pose proof (how_many_le m runs q). pose proof (how_many_le m (fun v => v =? TASK_BLOCKED) q). pose proof (how_many_le m (fun v => v =? TASK_ZOMBIE) q).
  rewrite !u32_small by lia. change (runs (t_state t)) with ((t_state t =? TASK_RUNNING) || (t_state t =? TASK_READY)). unfold TASK_RUNNING, TASK_READY, TASK_BLOCKED, TASK_ZOMBIE in *.
  destruct (t_state t =? 0) eqn:E0, (t_state t =? 1) eqn:E1, (t_state t =? 2) eqn:E2, (t_state t =? 3) eqn:E3; try lia; cbn [orb]; f_equal; cbn [length]; lia.
Qed.

Lemma count_from_spec fuel m p l q : qseg m p q -> (length q <= fuel)%nat -> Z.of_nat (length (l ++ q)) < 4294967296 ->
  count_from fuel m p (counts m l) = Some (counts m (l ++ q)).
Proof.
  revert p l q. induction fuel as [|fuel IH]; intros p l q Hq Hf Hl.
  - destruct q; [|cbn in Hf; lia]. cbn in Hq. subst p. by rewrite app_nil_r.
  - destruct q as [|a q]; [cbn in Hq; subst p; by rewrite app_nil_r|]. destruct Hq as (-> & Ha & t & Ht & Hq).
    cbn [count_from]. replace (a =? 0) with false by lia. rewrite Ht. cbn [mbind option_bind].
    rewrite length_app in Hl. cbn [length] in Hl, Hf. rewrite (count_task_spec m l a t) by (done || lia).
    replace (l ++ a :: q) with ((l ++ [a]) ++ q) by (by rewrite <- app_assoc). apply IH; [done|lia|]. rewrite !length_app. cbn [length]. lia.
Qed.

(** Every task of a queue is in one of the three counts. *)
Lemma counts_sum m q : (forall a, a ∈ q -> exists t, m !! a = Some t /\ 0 <= t_state t <= 3) ->
  total_processes (counts m q) = running_processes (counts m q) + blocked_processes (counts m q) + zombie_processes (counts m q).
Proof.
  intros Hq. cbn [counts total_processes running_processes blocked_processes zombie_processes].
  induction q as [|a q IH] using rev_ind; [done|]. destruct (Hq a) as (t & Ht & Hs); [apply elem_of_app; right; by left|].
  rewrite !(how_many_app m _ q a t Ht), length_app. cbn [length].
  change (runs (t_state t)) with ((t_state t =? TASK_RUNNING) || (t_state t =? TASK_READY)).
  assert (IH' := IH (fun b Hb => Hq b ltac:(apply elem_of_app; by left))). unfold TASK_RUNNING, TASK_READY, TASK_BLOCKED, TASK_ZOMBIE in *.
  destruct (t_state t =? 0) eqn:E0, (t_state t =? 1) eqn:E1, (t_state t =? 2) eqn:E2, (t_state t =? 3) eqn:E3; cbn [orb]; lia.
Qed.

Section claims.
Context {St : Type} `{KAllocLaws St}.
Implicit Types (s : sched St) (L : gmap Z Z) (q : list Z).

(** The process statistics are the numbers of tasks of the run queue: all of them, those
    RUNNING or READY, those BLOCKED and the ZOMBIEs. *)
Theorem sysmon_counts_processes s L q : score s L q -> Z.of_nat (length q) < 4294967296 ->
  sysmon_get_process_stats s = Some (counts (tasks s) q).
Proof.
  intros Hs Hl. unfold sysmon_get_process_stats, sched_get_task_list. change (ProcessStats 0 0 0 0) with (counts (tasks s) []).
  apply (count_from_spec _ _ _ []); [apply Hs|by eapply score_size|done].
Qed.

(** The processor statistics: the ticks of the idle task and the rest are the total,
    and the usage is the rest in percent, as long as a hundred times the rest fits into
    32 bits; beyond that it is computed from what is left after the wrap. *)
Theorem sysmon_cpu_usage s now idle t : sched_get_idle_task s = Some idle -> tasks s !! idle = Some t -> idle <> 0 ->
  let total := sched_get_total_ticks s in let busy := total - t_cpu_ticks t in
  0 <= t_cpu_ticks t <= total -> 0 < total < 4294967296 ->
  exists c, sysmon_get_cpu_stats now s = Some c /\ uptime_ticks c = now /\ idle_ticks c = t_cpu_ticks t /\ kernel_ticks c = busy /\
    usage_percent c = u32 (busy * 100) / total /\ (busy * 100 < 4294967296 -> usage_percent c = busy * 100 / total /\ usage_percent c <= 100).
Proof.
  intros Hi Ht Hn total busy Hc Htot. unfold sysmon_get_cpu_stats. rewrite Hi. cbn [mbind option_bind].
  replace (idle =? 0) with false by lia. cbn [negb]. rewrite Ht. cbn [fmap option_fmap option_map mbind option_bind]. fold total.
  replace (0 <? total) with true by lia. fold busy. rewrite !(u32_small busy) by lia. eexists. split; [reflexivity|]. cbn [uptime_ticks idle_ticks kernel_ticks usage_percent].
  split; [done|]. split; [done|]. split; [done|]. split; [done|]. intros Hw. rewrite u32_small by lia. split; [done|].
  apply Z.div_le_upper_bound; lia.
Qed.

(** A monitor that is full of work for 43 million ticks reports no work at all. *)
Example usage_wraps : u32 (43000000 * 100) / 43000000 = 0.
Proof. reflexivity. Qed.
End claims.

Lemma sysmon_counts_processes_witness : exists q, length q = 3%nat /\ sysmon_get_process_stats d5 = Some (counts (tasks d5) q) /\
  counts (tasks d5) q = ProcessStats 3 3 0 0.
Proof.
  destruct (good_of d5 d5_reachable) as (L & q & Hs).
  assert (E : sysmon_get_process_stats d5 = Some (ProcessStats 3 3 0 0)) by (vm_compute; reflexivity).
  assert (Hsz : (length q <= 3)%nat) by (etrans; [exact (score_size d5 L q Hs)|apply Nat.leb_le; vm_compute; reflexivity]).
  pose proof (sysmon_counts_processes d5 L q Hs ltac:(lia)) as E2. exists q. rewrite E2 in E.
  assert (E3 : counts (tasks d5) q = ProcessStats 3 3 0 0) by congruence.
  split; [apply (f_equal total_processes) in E3; cbn in E3; lia|]. split; [exact E2|exact E3].
Defined.
