(* ===== verification/Syscall.v ===== *)
(** kernel/core/syscall.c: the system calls.

    [machine] puts the components together: the scheduler and the ports (Sched, Ipc), the
    pages (Vmm), the terminals and the keyboard (Vterm, Keyboard), the files (Fs), the
    real-time clock, the PCI bus and the framebuffer (Rtc, Pci, Vesa), the devices behind
    the ports and the kernel log.  There is one memory: the heap, the stacks and the
    queues of the ports are in it, and the page tables too.  A pointer of the user is
    followed through the address space in use (Linear).

    A call ends with [Done] and the value for the caller's [eax], or the caller sleeps in
    the loop of [task_wait], [msg_send] or [msg_receive] ([Blocked]), whose iteration it
    repeats when it runs again: that of [task_wait] is the call itself, those of the
    messages are [sys_send_step] and [sys_recv_step].  [None] is a fault. *)

From S2P Require Import Prelude Mem CString FrameAlloc Pmm KAlloc Heap Vmm Codec BlockDev DiskFs Fs Effects Console Log.
From S2P Require Import Vterm Keyboard Ports Irq Rtc Pci Linear Elf Vesa Sched Ipc.
Local Open Scope Z_scope.
Local Open Scope kernel_scope.

(** ** Definitions *)

Definition SYS_EXIT : Z := 0.
Definition SYS_WRITE : Z := 1.
Definition SYS_READ : Z := 2.
Definition SYS_YIELD : Z := 3.
Definition SYS_GETPID : Z := 4.
Definition SYS_FORK : Z := 5.
Definition SYS_WAIT : Z := 6.
Definition SYS_EXEC : Z := 7.
Definition SYS_SEND : Z := 10.
Definition SYS_RECV : Z := 11.
Definition SYS_PORT_CREATE : Z := 12.
Definition SYS_PORT_DESTROY : Z := 13.
Definition SYS_IOCTL : Z := 14.
Definition SYS_MMAP : Z := 15.
Definition SYS_GETTIME : Z := 16.
Definition SYS_SETTIME : Z := 17.

(** sizeof(struct vesa_mode_info), sizeof(struct rtc_time), and their bytes; the padding of
    a [vesa_mode_info] is copied with it, that of a [rtc_time] is not touched. *)
Definition MODE_INFO_BYTES : Z := 32.
Definition RTC_TIME_BYTES : Z := 10.
Definition mode_bytes (m : vesa_mode_info) : list Z :=
  le32 (width m) ++ le32 (height m) ++ le32 (pitch m) ++ [bpp m; mtype m; 0; 0] ++ le32 (framebuffer m) ++ le32 (framebuffer_size m) ++
  [red_pos m; red_size m; green_pos m; green_size m; blue_pos m; blue_size m; 0; 0].

Record machine (K St D P : Type) := Machine {
  m_ipc : ipc K;
  m_vmm : vmm;
  m_frames : St;
  m_keys : keyboard;
  m_files : fs D;
  m_rtc : rtc_own;
  m_pci : list (Z * pci_device);
  m_mode : vesa_mode_info;
  m_video : bool;
  m_io : P
}.
Arguments Machine {K St D P}. Arguments m_ipc {K St D P}. Arguments m_vmm {K St D P}. Arguments m_frames {K St D P}.
Arguments m_keys {K St D P}. Arguments m_files {K St D P}. Arguments m_rtc {K St D P}. Arguments m_pci {K St D P}.
Arguments m_mode {K St D P}. Arguments m_video {K St D P}. Arguments m_io {K St D P}.

Section syscall.
Context {K : Type} `{KAlloc K} {St : Type} `{FrameAlloc St} {D : Type} `{BlockDev D} {P : Type} `{Ports P}.
Notation machine := (machine K St D P).
Notation M := (ST machine).
Implicit Types (s : machine).

(** *** The parts of the machine *)

Definition msched s : sched K := sc (m_ipc s).
Definition space s : vst St := Vst (m_vmm s) (m_frames s) (kmem (msched s)).
Definition klog s : log := Vterm.klog (kb_tty (m_keys s)).

Definition with_ipc s (i : ipc K) : machine :=
  Machine i (m_vmm s) (m_frames s) (m_keys s) (m_files s) (m_rtc s) (m_pci s) (m_mode s) (m_video s) (m_io s).
Definition with_sched s (c : sched K) : machine := with_ipc s (with_sc (m_ipc s) c).
Definition with_space s (v : vst St) : machine :=
  Machine (with_sc (m_ipc s) (set_kmem (msched s) (vm v))) (vs v) (al v) (m_keys s) (m_files s) (m_rtc s) (m_pci s) (m_mode s) (m_video s) (m_io s).
Definition with_keys s (k : keyboard) : machine :=
  Machine (m_ipc s) (m_vmm s) (m_frames s) k (m_files s) (m_rtc s) (m_pci s) (m_mode s) (m_video s) (m_io s).
Definition with_files s (f : fs D) : machine :=
  Machine (m_ipc s) (m_vmm s) (m_frames s) (m_keys s) f (m_rtc s) (m_pci s) (m_mode s) (m_video s) (m_io s).
Definition with_rtc s (r : rtc_own) : machine :=
  Machine (m_ipc s) (m_vmm s) (m_frames s) (m_keys s) (m_files s) r (m_pci s) (m_mode s) (m_video s) (m_io s).
(** The devices and the log, which the terminals hold. *)
Definition with_devices s (p : P) (l : log) : machine :=
  let k := m_keys s in
  Machine (m_ipc s) (m_vmm s) (m_frames s)
    (Keyboard (key_buffer k) (buffer_head k) (buffer_tail k) (shift_pressed k) (extended_scancode k) (put_klog (kb_tty k) l))
    (m_files s) (m_rtc s) (m_pci s) (m_mode s) (m_video s) p.

Definition on_keys {A} (m : ST keyboard A) : M A := zoom m_keys (fun k s => with_keys s k) m.
Definition on_driver {O A} (get : machine -> O) (put : machine -> O -> machine) (m : ST (driver O P) A) : M A :=
  zoom (fun s => Driver (get s) (m_io s) (klog s)) (fun d s => with_devices (put s (own d)) (io d) (Ports.klog d)) m.
Definition on_space {A} (f : vst St -> A * vst St) : M A := fun s => let '(a, v) := f (space s) in Some (a, with_space s v).
Definition on_ipc {A} (f : ipc K -> option (A * ipc K)) : M A := fun s => '(a, i) ← f (m_ipc s); Some (a, with_ipc s i).
Definition on_sched (f : sched K -> option (sched K)) : M unit := fun s => c ← f (msched s); Some (tt, with_sched s c).

(** *** Pointers of the caller *)

Definition check_ptr (ptr len : Z) (write : bool) : M bool := s ← sget; sopt (vmm_check_user_ptr (space s) ptr len write).
Definition user_byte (a : Z) : M Z := fun s => v ← lin_load (space s) a; Some (v, s).
Definition user_word (n : nat) (a : Z) : M Z := fun s => v ← lin_word n (space s) a; Some (v, s).
Definition user_put (a : Z) (l : list Z) : M unit := fun s => v ← lin_put l (space s) a; Some (tt, with_space s v).
(** The characters up to the terminator, [n] at most: what the file system copies of a
    path. *)
Fixpoint user_string (n : nat) (a : Z) : M (list Z) :=
  match n with
  | O => mret []
  | S n => c ← user_byte a; if c =? 0 then mret [] else l ← user_string n (u32 (a + 1)); mret (c :: l)
  end.

(** *** The calls *)

(** The task that runs, if any. *)
Definition current : M (option task) :=
  s ← sget;
  let a := sched_get_current (msched s) in
  if a =? 0 then mret None else t ← sopt (tasks (msched s) !! a); mret (Some t).

Definition sys_exit (code : Z) : M outcome :=
  t ← current;
  _ ← match t with Some t => on_sched (fun c => task_exit c (t_id t) (i32 code)) | None => mret tt end;
  _ ← on_sched schedule;
  mret (Done 0).

(** The loop of [SYS_WRITE]: the number of characters written. *)
Fixpoint write_loop (fuel : nat) (vt : option Z) (str len i : Z) : M Z :=
  match fuel with
  | O => sfault
  | S fuel =>
      if negb (i <? len) then mret i else
      c ← user_byte (u32 (str + i));
      if c =? 0 then mret i else
      _ ← on_keys (kb_terminals (vterm_putchar vt c));
      write_loop fuel vt str len (u32 (i + 1))
  end.
(** The terminal written to: the task's, or the one on the screen. *)
Definition writer : M (option Z) :=
  t ← current;
  term_id ← match t with Some t => on_keys (kb_terminals (vterm_get_by_pid (t_pid t))) | None => mret (-1) end;
  if 0 <=? term_id then mret (vterm_get term_id) else on_keys (kb_terminals vterm_get_active).
Definition sys_write (str len : Z) : M outcome :=
  ok ← check_ptr str len false;
  if negb ok then mret (Done (-1)) else
  vt ← writer;
  i ← write_loop (S (Z.to_nat len)) vt str len 0;
  mret (Done (i32 i)).

Fixpoint read_loop (fuel : nat) (buf len count : Z) : M Z :=
  match fuel with
  | O => sfault
  | S fuel =>
      if negb (count <? len) then mret count else
      s ← sget;
      if keyboard_has_data (m_keys s) then
        c ← on_keys keyboard_getchar;
        c ← sopt c;
        _ ← user_put (u32 (buf + count)) [u8 c];
        read_loop fuel buf len (u32 (count + 1))
      else mret count
  end.
Definition sys_read (buf len : Z) : M outcome :=
  ok ← check_ptr buf len true;
  if negb ok then mret (Done (-1)) else
  count ← read_loop (S (Z.to_nat len)) buf len 0;
  mret (Done (i32 count)).

Definition sys_fork : M outcome := fun s => '(r, c) ← task_fork (msched s); Some (Done r, with_sched s c).

Definition sys_wait (pid status_ptr : Z) : M outcome :=
  r ← (fun s => '(r, c) ← task_wait (msched s) (i32 pid); Some (r, with_sched s c));
  let give (result status : Z) : M outcome :=
    _ ← (if negb (status_ptr =? 0) then
           ok ← check_ptr status_ptr 4 true;
           if ok : bool then user_put status_ptr (le32 status) else mret tt
         else mret tt);
    mret (Done result) in
  match r with
  | WReaped pid code => give pid code
  | WNone => give (-1) 0
  | WBlocked => mret Blocked
  end.

(** The user stack of a new program: its page. *)
Definition USER_STACK_VADDR : Z := 3221221376.

Variable (uninit : Z -> list Z) (file_buffer : Z).

Definition on_loader {A} (m : ST (driver (loader St D) P) A) : M (A * elf_load_result) := fun s =>
  match m (Driver (Loader (space s) (m_files s) (LoadResult 0 0)) (m_io s) (klog s)) with
  | Some (a, d) => Some ((a, Elf.result (own d)), with_devices (with_files (with_space s (Elf.space (own d))) (files (own d))) (io d) (Ports.klog d))
  | None => None
  end.

(** [current->context.eip = ...; current->context.cr3 = ...; current->kernel_mode = false] *)
Definition become (t : task) (eip cr3 : Z) : task :=
  let c := t_context t in
  Task (t_id t) (t_pid t) (t_parent_pid t) (t_state t) (t_priority t) (t_time_slice t) false
    (t_kernel_stack t) (t_kernel_stack_top t) (t_user_stack t) (t_user_stack_top t) (t_cpu_ticks t) (t_exit_code t) (t_waiting_for t)
    (Context (c_edi c) (c_esi c) (c_ebp c) (c_esp c) (c_ebx c) (c_edx c) (c_ecx c) (c_eax c) eip (c_eflags c) cr3) (t_next t).

Definition do_exec (path : Z) : M Z :=
  if path =? 0 then mret (-1) else
  new_pd ← on_space vmm_create_address_space;
  if new_pd =? 0 then mret (-1) else
  let fail : M Z := _ ← on_space (fun v => (tt, vmm_destroy_address_space v new_pd)); mret (-1) in
  name ← user_string (FS_MAX_PATH - 1) path;
  '(r, elf_result) ← on_loader (elf_load_file uninit file_buffer (Some name) new_pd true);
  if negb (r =? 0) then fail else
  s ← sget;
  let a := sched_get_current (msched s) in
  if a =? 0 then fail else
  r ← on_space (fun v => vmm_alloc_page v new_pd USER_STACK_VADDR (Z.lor (Z.lor PAGE_PRESENT PAGE_WRITE) PAGE_USER));
  if negb (r =? 0) then fail else
  _ ← on_sched (fun c => t ← tasks c !! a; Some (put c a (become t (entry_point elf_result) new_pd)));
  _ ← on_space (fun v => (tt, vmm_switch_address_space v new_pd));
  mret 0.

Definition sys_exec (path : Z) : M outcome :=
  ok ← check_ptr path 1 false;
  if negb ok then mret (Done (-1)) else r ← do_exec path; mret (Done r).

(** The copies of a message between the caller's buffer and the queue of a port. *)
Definition lin_memcpy s (dst src : Z) (m : mem) : option mem :=
  vm <$> lin_copy (Z.to_nat MSG_BYTES) (with_vm (space s) m) dst src.
Definition sys_send_step (port_id msg flags : Z) : M outcome := fun s =>
  on_ipc (fun i => send_step_by (fun m dst => lin_memcpy s dst msg m) i port_id flags) s.
Definition sys_recv_step (port_id msg flags : Z) : M outcome := fun s =>
  on_ipc (fun i => receive_step_by (fun m src => lin_memcpy s msg src m) i port_id flags) s.
Definition sys_send (port_id msg flags : Z) : M outcome :=
  ok ← check_ptr msg MSG_BYTES false;
  if negb ok then mret (Done (-1)) else
  fun s => on_ipc (fun i => msg_send_by (fun m dst => lin_memcpy s dst msg m) i (i32 port_id) msg flags) s.
Definition sys_recv (port_id msg flags : Z) : M outcome :=
  ok ← check_ptr msg MSG_BYTES true;
  if negb ok then mret (Done (-1)) else
  fun s => on_ipc (fun i => msg_receive_by (fun m src => lin_memcpy s msg src m) i (i32 port_id) msg flags) s.

Definition sys_port_create (pid : Z) : M outcome := r ← on_ipc (fun i => port_create i pid); mret (Done r).
Definition sys_port_destroy (port_id : Z) : M outcome := r ← on_ipc (fun i => port_destroy i (i32 port_id)); mret (Done r).

Definition sys_ioctl (device request : Z) : M outcome :=
  if (device =? 2) && (request =? 0) then
    _ ← on_driver (fun s => PciOwn (m_pci s) (ks (msched s)) (kmem (msched s))) (fun s _ => s) pci_list_devices;
    mret (Done 0)
  else mret (Done (-1)).

Definition sys_mmap (info : Z) : M outcome :=
  s ← sget;
  if negb (m_video s) then mret (Done 0) else
  ok ← check_ptr info MODE_INFO_BYTES true;
  if negb ok then mret (Done (-1)) else
  match vesa_get_mode_info (Vesa (m_mode s) (m_video s) (framebuffer (m_mode s)) (space s)) true with
  | Some mode => _ ← user_put info (mode_bytes mode); mret (Done (i32 (framebuffer mode)))
  | None => mret (Done 0)
  end.

Definition sys_gettime (time : Z) : M outcome :=
  ok ← check_ptr time RTC_TIME_BYTES true;
  if negb ok then mret (Done (-1)) else
  t ← on_driver m_rtc with_rtc rtc_read_time;
  _ ← user_put time [second t; minute t; hour t; day t; month t];
  _ ← user_put (u32 (time + 6)) [u8 (year t); u8 (year t / 256); weekday t];
  mret (Done 0).

Definition sys_settime (time : Z) : M outcome :=
  ok ← check_ptr time RTC_TIME_BYTES false;
  if negb ok then mret (Done (-1)) else
  sec ← user_word 1 time; min ← user_word 1 (u32 (time + 1)); hr ← user_word 1 (u32 (time + 2));
  dy ← user_word 1 (u32 (time + 3)); mon ← user_word 1 (u32 (time + 4)); yr ← user_word 2 (u32 (time + 6));
  wd ← user_word 1 (u32 (time + 8));
  _ ← on_driver m_rtc with_rtc (rtc_write_time (Time sec min hr dy mon yr wd));
  mret (Done 0).

Definition syscall_handler (regs : registers) : M outcome :=
  let num := r_eax regs in
  let arg1 := r_ebx regs in
  let arg2 := r_ecx regs in
  let arg3 := r_edx regs in
  if num =? SYS_EXIT then sys_exit arg1 else
  if num =? SYS_WRITE then sys_write arg1 arg2 else
  if num =? SYS_READ then sys_read arg1 arg2 else
  if num =? SYS_YIELD then _ ← on_sched sched_yield; mret (Done 0) else
  if num =? SYS_GETPID then t ← current; mret (Done (match t with Some t => t_pid t | None => -1 end)) else
  if num =? SYS_FORK then sys_fork else
  if num =? SYS_WAIT then sys_wait arg1 arg2 else
  if num =? SYS_EXEC then sys_exec arg1 else
  if num =? SYS_SEND then sys_send arg1 arg2 arg3 else
  if num =? SYS_RECV then sys_recv arg1 arg2 arg3 else
  if num =? SYS_PORT_CREATE then
    t ← current;
    match t with Some t => sys_port_create (t_pid t) | None => mret (Done (-1)) end else
  if num =? SYS_PORT_DESTROY then sys_port_destroy arg1 else
  if num =? SYS_IOCTL then sys_ioctl arg1 arg2 else
  if num =? SYS_MMAP then sys_mmap arg1 else
  if num =? SYS_GETTIME then sys_gettime arg1 else
  if num =? SYS_SETTIME then sys_settime arg1 else
  mret (Done (-1)).

(** The handler of interrupt 128: the frame with the result, or nothing while the caller
    sleeps. *)
Definition syscall_isr (regs : registers) : M (option registers) :=
  r ← syscall_handler regs;
  mret (match r with
        | Done v => Some (Regs (r_ds regs) (r_edi regs) (r_esi regs) (r_ebp regs) (r_esp regs) (r_ebx regs) (r_edx regs) (r_ecx regs)
                            (u32 v) (int_no regs) (err_code regs) (r_eip regs) (r_cs regs) (r_eflags regs) (useresp regs) (r_ss regs))
        | Blocked => None
        end).
End syscall.

Definition syscall_init (handlers : list (option routine)) : list (option routine) :=
  register_interrupt_handler 128 syscall_routine handlers.

(** ** Specification *)

(** The pointer that a call checks before it does anything else: where it is, how many
    bytes it covers and whether the kernel will write them.  Of the path of SYS_EXEC one
    byte is checked; SYS_MMAP asks for a framebuffer first; the pointer of SYS_WAIT is only
    looked at when there is a result, and is not among them. *)
Definition checked (video : bool) (num arg1 arg2 : Z) : option (Z * Z * bool) :=
  if num =? SYS_WRITE then Some (arg1, arg2, false) else
  if num =? SYS_READ then Some (arg1, arg2, true) else
  if num =? SYS_EXEC then Some (arg1, 1, false) else
  if num =? SYS_SEND then Some (arg2, MSG_BYTES, false) else
  if num =? SYS_RECV then Some (arg2, MSG_BYTES, true) else
  if num =? SYS_MMAP then (if video then Some (arg1, MODE_INFO_BYTES, true) else None) else
  if num =? SYS_GETTIME then Some (arg1, RTC_TIME_BYTES, true) else
  if num =? SYS_SETTIME then Some (arg1, RTC_TIME_BYTES, false) else
  None.

Section specification.
Context {K : Type} `{KAlloc K} {St : Type} `{FrameAllocLaws St} {D : Type} `{BlockDev D} {P : Type} `{Ports P}.
Notation machine := (machine K St D P).
Implicit Types (s : machine).

Definition with_tty s (t : tty) : machine := with_keys s
  (let k := m_keys s in Keyboard (key_buffer k) (buffer_head k) (buffer_tail k) (shift_pressed k) (extended_scancode k) t).

Lemma with_tty_twice s t t' : with_tty (with_tty s t) t' = with_tty s t'.
Proof. done. Qed.

Lemma with_tty_same s : with_tty s (kb_tty (m_keys s)) = s.
Proof. by destruct s as [? ? ? [] ? ? ? ? ? ?]. Qed.

(** A computation on the terminals changes nothing else. *)
Lemma on_terminals {A} (m : T A) s l (Q : A -> tty -> Prop) : tri (Vterm.good l) m Q -> Vterm.good l (kb_tty (m_keys s)) ->
  exists a t, on_keys (kb_terminals m) s = Some (a, with_tty s t) /\ Q a t.
Proof.
  intros Hm Hg. destruct (Hm _ Hg) as (a & t & E & Hq). exists a, t. split; [|done].
  unfold on_keys, kb_terminals, zoom. by rewrite E.
Qed.

Lemma check_ptr_run s ptr len w b : vmm_check_user_ptr (space s) ptr len w = Some b -> check_ptr ptr len w s = Some (b, s).
Proof. intros E. unfold check_ptr. rewrite run_get. unfold sopt. by rewrite E. Qed.

(** [check_ptr] followed by the rest of a call. *)
Lemma refused {A} (k : bool -> ST machine A) s ptr len w b : vmm_check_user_ptr (space s) ptr len w = Some b ->
  mbind k (check_ptr ptr len w) s = k b s.
Proof. intros E. by rewrite (run_bind _ _ _ _ _ (check_ptr_run _ _ _ _ _ E)). Qed.

(** ** Errors *)

(** A page that the caller may not access in this way. *)
Definition bad_byte s (a : Z) (w : bool) : Prop :=
  USER_SPACE_END < a \/ page_ok (vm (space s)) (current_directory (m_vmm s)) a w = false.

Lemma bad_pointer s F ptr len w : vinv (space s) F (current_directory (m_vmm s)) -> 0 <= ptr -> 0 < len -> ptr + len <= 4294967296 ->
  ptr = 0 \/ (exists a, ptr <= a < ptr + len /\ bad_byte s a w) -> vmm_check_user_ptr (space s) ptr len w = Some false.
Proof.
  intros Hv Hp Hl Hw Hbad. destruct (decide (ptr = 0)) as [->|Hne]; [done|].
  destruct Hbad as [|(a & Ha & Hb)]; [lia|].
  destruct (check_user_ptr_spec (space s) F ptr len w Hv) as (b & E & Hiff); [lia..|].
  destruct b; [|done]. destruct (proj1 Hiff eq_refl a Ha) as [H4 H5]. destruct Hb as [?|Hb]; [lia|].
  change (current_directory (vs (space s))) with (current_directory (m_vmm s)) in H5. congruence.
Qed.

Variable (uninit : Z -> list Z) (file_buffer : Z).
Notation syscall_handler := (syscall_handler uninit file_buffer).

(** C15: a call that checks a pointer first (SYS_WRITE, SYS_READ, SYS_SEND, SYS_RECV,
    SYS_GETTIME, SYS_SETTIME, SYS_MMAP with a framebuffer, and SYS_EXEC for the first byte of
    its path) and is given one of which some byte is not the caller's, in a buffer that does
    not wrap around the address space, returns -1 and changes nothing; and so does a call of
    a number that the handler does not know, SYS_OPEN and SYS_CLOSE among them. *)
Theorem syscall_refuses s F regs ptr len w :
  vinv (space s) F (current_directory (m_vmm s)) ->
  (checked (m_video s) (r_eax regs) (r_ebx regs) (r_ecx regs) = Some (ptr, len, w) /\ 0 <= ptr /\ 0 < len /\ ptr + len <= 4294967296 /\
   (ptr = 0 \/ exists a, ptr <= a < ptr + len /\ bad_byte s a w)) \/
  (SYS_SETTIME < r_eax regs \/ r_eax regs = 8 \/ r_eax regs = 9) ->
  syscall_handler regs s = Some (Done (-1), s).
Proof.
  intros Hv [(Hc & Hp & Hl & Hw & Hbad)|Hn].
  - pose proof (bad_pointer s F ptr len w Hv Hp Hl Hw Hbad) as E. revert Hc E.
    unfold checked, Syscall.syscall_handler. cbv zeta. generalize (r_eax regs) (r_ebx regs) (r_ecx regs) (r_edx regs). intros num a1 a2 a3.
    repeat match goal with |- context [num =? ?c] => destruct (Z.eqb_spec num c) as [->|] end; try discriminate; try (destruct (m_video s) eqn:Evid; [|discriminate]); intros [= <- <- <-] E'.
    all: cbv [Z.eqb Pos.eqb SYS_EXIT SYS_WRITE SYS_READ SYS_YIELD SYS_GETPID SYS_FORK SYS_WAIT SYS_EXEC SYS_SEND SYS_RECV
      SYS_PORT_CREATE SYS_PORT_DESTROY SYS_IOCTL SYS_MMAP SYS_GETTIME SYS_SETTIME].
    all: unfold sys_write, sys_read, sys_exec, sys_send, sys_recv, sys_mmap, sys_gettime, sys_settime.
    all: rewrite ?run_get; try (rewrite Evid; cbn [negb]); by rewrite (refused _ _ _ _ _ _ E').
  - unfold Syscall.syscall_handler. cbv zeta. unfold SYS_EXIT, SYS_WRITE, SYS_READ, SYS_YIELD, SYS_GETPID, SYS_FORK, SYS_WAIT, SYS_EXEC, SYS_SEND, SYS_RECV,
      SYS_PORT_CREATE, SYS_PORT_DESTROY, SYS_IOCTL, SYS_MMAP, SYS_GETTIME, SYS_SETTIME in *.
    repeat match goal with |- context [?a =? ?b] => replace (a =? b) with false by lia end. done.
Qed.

(** ** Writing *)

(** A task that runs is one the scheduler knows. *)
Definition current_known s : Prop :=
  sched_get_current (msched s) = 0 \/ exists t, tasks (msched s) !! sched_get_current (msched s) = Some t.

Lemma current_run s : current_known s -> exists t, current s = Some (t, s).
Proof.
  intros Hc. unfold current. rewrite run_get. destruct (Z.eqb_spec (sched_get_current (msched s)) 0); [by exists None|].
  destruct Hc as [?|[t Ht]]; [done|]. exists (Some t). unfold sopt. by rewrite Ht.
Qed.

(** A question to the terminals leaves the machine as it is. *)
Lemma ask_terminals {A} (f : tty -> A) s : on_keys (kb_terminals (t ← sget; mret (f t))) s = Some (f (kb_tty (m_keys s)), s).
Proof. by destruct s as [? ? ? [] ? ? ? ? ? ?]. Qed.

(** The terminal that the running task owns, the first if there are several; otherwise the one
    on the screen. *)
Definition owned_by (y : tty) (pid : Z) (id : Z) : Prop := exists v, terminals y !! Z.to_nat id = Some v /\ owner_pid v = pid.
Inductive target s : Z -> Prop :=
| target_own t id : current_task (msched s) <> 0 -> tasks (msched s) !! current_task (msched s) = Some t -> Vterm.valid id ->
    owned_by (kb_tty (m_keys s)) (t_pid t) id -> (forall j, 0 <= j < id -> ~ owned_by (kb_tty (m_keys s)) (t_pid t) j) -> target s id
| target_none : current_task (msched s) = 0 -> target s (active_terminal (kb_tty (m_keys s)))
| target_active t : tasks (msched s) !! current_task (msched s) = Some t ->
    (forall j, Vterm.valid j -> ~ owned_by (kb_tty (m_keys s)) (t_pid t) j) -> target s (active_terminal (kb_tty (m_keys s))).

Lemma writer_run s l : Vterm.good l (kb_tty (m_keys s)) -> current_known s ->
  exists id, Vterm.valid id /\ target s id /\ writer s = Some (Some id, s).
Proof.
  intros Hg Hc. set (y := kb_tty (m_keys s)) in *.
  assert (Hact : Vterm.valid (active_terminal y) /\ on_keys (kb_terminals vterm_get_active) s = Some (Some (active_terminal y), s)).
  { split; [by apply tw_active, Hg|]. exact (ask_terminals (fun t => Some (active_terminal t)) s). }
  destruct Hact as [Hva Ea]. assert (Ecur : current s = Some (if sched_get_current (msched s) =? 0 then None else tasks (msched s) !! sched_get_current (msched s), s)).
  { unfold current. rewrite run_get. destruct Hc as [Hz|[t Ht]]; [by rewrite Hz|].
    destruct (Z.eqb_spec (sched_get_current (msched s)) 0); [done|]. unfold sopt. by rewrite Ht. }
  unfold writer. rewrite (run_bind _ _ _ _ _ Ecur). clear Ecur.
  destruct (Z.eqb_spec (sched_get_current (msched s)) 0) as [Hz|Hz].
  { exists (active_terminal y). split; [done|]. split; [by apply target_none|]. exact Ea. }
  destruct Hc as [?|[t Ht]]; [done|]. rewrite Ht.
  set (f := fun y => match list_find (fun v => owner_pid v = t_pid t) (terminals y) with Some (i, _) => Z.of_nat i | None => -1 end).
  change (exists id, Vterm.valid id /\ target s id /\ (term_id ← on_keys (kb_terminals (vterm_get_by_pid (t_pid t)));
    if 0 <=? term_id then mret (vterm_get term_id) else on_keys (kb_terminals vterm_get_active)) s = Some (Some id, s)).
  rewrite (run_bind (on_keys (kb_terminals (vterm_get_by_pid (t_pid t)))) _ _ _ _ (ask_terminals f s)). unfold f. fold y.
  destruct (list_find _ _) as [[i v]|] eqn:Ef.
  - apply list_find_Some in Ef as (Hi & Hp & Hmin). pose proof (lookup_lt_Some _ _ _ Hi) as Hlt. rewrite (tw_terms _ (proj1 Hg)) in Hlt.
    assert (Hv : Vterm.valid (Z.of_nat i)) by (unfold Vterm.valid, VTERM_MAX_COUNT; lia).
    replace (0 <=? Z.of_nat i) with true by lia. exists (Z.of_nat i). split; [done|]. split.
    + apply (target_own s t); [done..| |].
      * exists v. by rewrite Nat2Z.id.
      * intros j Hj (u & Hu & Hpu). apply (Hmin (Z.to_nat j) u); [done|lia|done].
    + unfold vterm_get. by replace (VTERM_MAX_COUNT <=? Z.of_nat i) with false by (unfold VTERM_MAX_COUNT in *; lia).
  - apply list_find_None in Ef. exists (active_terminal y). split; [done|]. split; [|exact Ea]. apply (target_active s t); [done|].
    intros j Hj (u & Hu & Hpu). rewrite Forall_forall in Ef. apply (Ef u); [by eapply list_elem_of_lookup_2|done].
Qed.

(** The loop of SYS_WRITE prints up to the terminator. *)
Lemma write_loop_run id str len l : Vterm.valid id -> forall fuel i s txt, (length l < fuel)%nat -> Vterm.good txt (kb_tty (m_keys s)) ->
  0 <= i -> len = i + Z.of_nat (length l) -> len < 4294967296 ->
  lin_bytes (length l) (space s) (u32 (str + i)) = Some l ->
  exists t, write_loop fuel (Some id) str len i s = Some (i + Z.of_nat (length (until_nul l)), with_tty s t) /\
    Vterm.good (txt ++ until_nul l) t /\ typed_on id (kb_tty (m_keys s)) t (until_nul l).
Proof.
  intros Hid. induction l as [|c l IH]; intros [|fuel] i s txt Hf Hg Hi Hlen Hmax Hb; cbn [length] in *; try lia.
  - exists (kb_tty (m_keys s)). cbn [write_loop until_nul length]. replace (i <? len) with false by lia.
    rewrite app_nil_r, with_tty_same. split; [|split; [done|apply typed_nil]]. by replace (i + Z.of_nat 0) with i by lia.
  - cbn [lin_bytes] in Hb. destruct (lin_load (space s) (u32 (str + i))) as [v|] eqn:Ev; [|done]. cbn [mbind option_bind] in Hb.
    destruct (lin_bytes (length l) (space s) (u32 (u32 (str + i) + 1))) as [l'|] eqn:El; [|done]. injection Hb as -> ->.
    cbn [write_loop]. replace (i <? len) with true by lia. cbn [negb].
    assert (Eb : user_byte (u32 (str + i)) s = Some (c, s)) by (unfold user_byte; by rewrite Ev).
    rewrite (run_bind _ _ _ _ _ Eb). cbn [until_nul]. destruct (c =? 0).
    { exists (kb_tty (m_keys s)). cbn [length]. rewrite app_nil_r, with_tty_same. split; [|split; [done|apply typed_nil]]. by replace (i + Z.of_nat 0) with i by lia. }
    destruct (putchar_types id c txt _ Hid Hg) as (t & E0 & Hg' & Hty).
    assert (E : on_keys (kb_terminals (vterm_putchar (Some id) c)) s = Some (tt, with_tty s t)) by (unfold on_keys, kb_terminals, zoom; by rewrite E0).
    rewrite (run_bind _ _ _ _ _ E).
    rewrite (u32_small (i + 1)) by lia. destruct (IH fuel (i + 1) (with_tty s t) (txt ++ [c])) as (t' & E' & Hg2 & Hty2); [lia|exact Hg'|lia|lia|lia| |].
    + change (space (with_tty s t)) with (space s). rewrite <- El. f_equal. unfold u32. rewrite Zplus_mod_idemp_l. f_equal. lia.
    + exists t'. rewrite with_tty_twice in E'. rewrite E'. rewrite <- app_assoc in Hg2.
      split; [do 2 f_equal; cbn [length]; lia|]. split; [done|]. by apply (typed_app id _ t t' [c]).
Qed.

(** C16: SYS_WRITE of a buffer that the caller may read types the characters before the first
    zero byte on the caller's terminal: the first that the running task owns, or else the one
    on the screen.  The page of that terminal becomes what typing makes of it, cell by cell;
    the other terminals stay, and the screen shows the active one; the same characters go
    to the serial line.  The call returns how many they are and changes nothing but the
    terminals. *)
Theorem sys_write_prints s regs l txt :
  r_eax regs = SYS_WRITE -> r_ecx regs = Z.of_nat (length l) -> Z.of_nat (length l) < 2147483648 ->
  vmm_check_user_ptr (space s) (r_ebx regs) (r_ecx regs) false = Some true ->
  lin_bytes (length l) (space s) (u32 (r_ebx regs)) = Some l -> current_known s -> Vterm.good txt (kb_tty (m_keys s)) ->
  exists id v t v', syscall_handler regs s = Some (Done (Z.of_nat (length (until_nul l))), with_tty s t) /\
    target s id /\ terminals (kb_tty (m_keys s)) !! Z.to_nat id = Some v /\ terminals t !! Z.to_nat id = Some v' /\
    page_is v (shown v) /\ page_is v' (foldl (type_page (color v)) (shown v) (until_nul l)) /\ same_owner v v' /\
    (forall j, j <> Z.to_nat id -> terminals t !! j = terminals (kb_tty (m_keys s)) !! j) /\
    active_terminal t = active_terminal (kb_tty (m_keys s)) /\ Vterm.good (txt ++ until_nul l) t.
Proof.
  intros En El Hl Hok Hb Hc Hg. unfold Syscall.syscall_handler. cbv zeta. rewrite En. cbn [Z.eqb Pos.eqb SYS_WRITE SYS_EXIT].
  unfold sys_write. rewrite (refused _ _ _ _ _ _ Hok). cbn [negb].
  destruct (writer_run s txt Hg Hc) as (id & Hid & Htg & Ew). rewrite (run_bind _ _ _ _ _ Ew). rewrite El, Nat2Z.id.
  destruct (write_loop_run id (r_ebx regs) (Z.of_nat (length l)) l Hid (S (length l)) 0 s txt) as (t & E & Hg' & Ha & Ho & Ht); [lia|done|lia|lia|lia|by rewrite Z.add_0_r|].
  destruct (term_some _ id (proj1 Hg) Hid) as (v & Hv & _). destruct (Ht v Hv) as (v' & Hv' & Hs & Hp).
  destruct (tw_wf _ (proj1 Hg) _ _ Hv) as [Hw _]. pose proof (shown_is v Hw) as Hpage.
  rewrite (run_bind _ _ _ _ _ E). exists id, v, t, v'. split; [|split_and!; try done; by apply Hp].
  assert (Hle : (length (until_nul l) <= length l)%nat).
  { clear. induction l as [|c l IH]; cbn; [lia|]. destruct (c =? 0); cbn; lia. }
  rewrite i32_small by lia. done.
Qed.

(** ** Reading *)

(** The first [n] characters of the keyboard's queue. *)
Lemma read_loop_run buf len : len < 4294967296 -> forall fuel count s v, kb_wf (m_keys s) -> 0 <= count <= len -> (Z.to_nat (len - count) < fuel)%nat ->
  let l := take (Z.to_nat (len - count)) (pending (m_keys s)) in
  lin_put (u8 <$> l) (space s) (u32 (buf + count)) = Some v ->
  exists k, read_loop fuel buf len count s = Some (count + Z.of_nat (length l), with_space (with_keys s k) v) /\
    kb_wf k /\ kb_tty k = kb_tty (m_keys s) /\ pending k = drop (length l) (pending (m_keys s)).
Proof.
  intros Hmax fuel. induction fuel as [|fuel IH]; intros count s v Hw Hc Hf; [lia|]. cbn [read_loop]. cbv zeta.
  assert (Hstop : lin_put (u8 <$> []) (space s) (u32 (buf + count)) = Some v -> with_space (with_keys s (m_keys s)) v = s).
  { intros [= <-]. destruct s as [[? ? []] ? ? ? ? ? ? ? ? ?]. done. }
  destruct (Z.ltb_spec count len) as [Hlt|Hge]; cbn [negb].
  2: { replace (Z.to_nat (len - count)) with O by lia. cbn [take]. intros E. exists (m_keys s).
       rewrite Hstop by exact E. cbn [length]. rewrite Z.add_0_r. by split. }
  rewrite run_get. pose proof (getchar_spec (m_keys s) Hw) as Hg.
  destruct (pending (m_keys s)) as [|c q] eqn:Ep.
  { destruct Hg as [-> _]. rewrite take_nil. intros E. exists (m_keys s). rewrite Hstop by exact E. cbn [length].
    rewrite Z.add_0_r. rewrite Ep. by split. }
  destruct Hg as (-> & k & Ek & Hwk & Hq & Hty). replace (Z.to_nat (len - count)) with (S (Z.to_nat (len - (count + 1)))) by lia.
  cbn [take fmap list_fmap lin_put length]. intros E.
  destruct (lin_store (space s) (u32 (buf + count)) (u8 c)) as [v1|] eqn:Est; [|done]. cbn [mbind option_bind] in E.
  assert (E1 : on_keys keyboard_getchar s = Some (Some c, with_keys s k)) by (unfold on_keys, zoom; by rewrite Ek).
  rewrite (run_bind _ _ _ _ _ E1). rewrite (run_bind (sopt (Some c)) _ _ _ _ eq_refl).
  assert (E2 : user_put (u32 (buf + count)) [u8 c] (with_keys s k) = Some (tt, with_space (with_keys s k) v1)).
  { unfold user_put. change (space (with_keys s k)) with (space s). cbn [lin_put]. by rewrite Est. }
  rewrite (run_bind _ _ _ _ _ E2). rewrite (u32_small (count + 1)) by lia.
  destruct (IH (count + 1) (with_space (with_keys s k) v1) v) as (k' & E' & Hwk' & Hty' & Hq'); [exact Hwk|lia|lia| |].
  - change (m_keys (with_space (with_keys s k) v1)) with k. rewrite Hq. change (space (with_space (with_keys s k) v1)) with (Vst (vs v1) (al v1) (vm v1)).
    rewrite <- E. destruct v1. f_equal. unfold u32. rewrite Zplus_mod_idemp_l. f_equal. lia.
  - exists k'. change (m_keys (with_space (with_keys s k) v1)) with k in *. rewrite Hq in *. rewrite E'.
    split; [|split; [done|split; [congruence|done]]].
    replace (count + 1 + Z.of_nat (length (take (Z.to_nat (len - (count + 1))) q))) with
      (count + Z.of_nat (S (length (take (Z.to_nat (len - (count + 1))) q)))) by lia. done.
Qed.

(** SYS_READ never waits: it takes what has been typed, [len] characters at most, leaves
    the rest in the queue and stores the characters one after the other at the caller's
    buffer. *)
Theorem sys_read_delivers s regs v :
  r_eax regs = SYS_READ -> 0 <= r_ecx regs < 2147483648 -> kb_wf (m_keys s) ->
  vmm_check_user_ptr (space s) (r_ebx regs) (r_ecx regs) true = Some true ->
  let l := take (Z.to_nat (r_ecx regs)) (pending (m_keys s)) in
  lin_put (u8 <$> l) (space s) (u32 (r_ebx regs)) = Some v ->
  exists k, syscall_handler regs s = Some (Done (Z.of_nat (length l)), with_space (with_keys s k) v) /\
    kb_wf k /\ kb_tty k = kb_tty (m_keys s) /\ pending k = drop (length l) (pending (m_keys s)).
Proof.
  intros En Hl Hw Hok l Hp. unfold Syscall.syscall_handler. cbv zeta. rewrite En. cbn [Z.eqb Pos.eqb SYS_READ SYS_WRITE SYS_EXIT].
  unfold sys_read. rewrite (refused _ _ _ _ _ _ Hok). cbn [negb].
  destruct (read_loop_run (r_ebx regs) (r_ecx regs) ltac:(lia) (S (Z.to_nat (r_ecx regs))) 0 s v Hw ltac:(lia) ltac:(lia)) as (k & E & Hk).
  { rewrite Z.sub_0_r, Z.add_0_r. exact Hp. }
  rewrite Z.sub_0_r in *. fold l in E, Hk. rewrite (run_bind _ _ _ _ _ E). exists k. split; [|exact Hk].
  rewrite i32_small; [done|]. unfold l. rewrite length_take. lia.
Qed.

End specification.

(** ** Messages between address spaces *)

Section messages.
Context {K : Type} `{KAllocLaws K} {St : Type} `{FrameAllocLaws St} {D : Type} `{BlockDev D} {P : Type} `{Ports P}.
Notation machine := (machine K St D P).
Implicit Types (s : machine).

Definition QUEUE_BYTES : Z := MSG_BYTES * MSG_QUEUE_SIZE.

(** The copy from the caller's pages to the queue, which the kernel maps to itself. *)
Lemma lin_memcpy_stores s L q F pd i p msg Q data : iinv (m_ipc s) L q -> live_port (m_ipc s) i p ->
  vinv (space s) F pd -> in_use (space s) pd -> at_range (space s) F pd (queue p) QUEUE_BYTES (fun k => queue p + k) ->
  at_range (space s) F pd msg MSG_BYTES Q -> (forall k, 0 <= k < MSG_BYTES -> Q k < queue p \/ queue p + QUEUE_BYTES <= Q k) ->
  lin_bytes (Z.to_nat MSG_BYTES) (space s) msg = Some data ->
  stores (fun m dst => lin_memcpy s dst msg m) (kmem (msched s)) p data.
Proof.
  intros Hi Hl Hv Hu (A & _ & B & C) Hm Hout Hb. destruct (live_opened _ _ _ _ _ Hi Hl) as (_ & _ & _ & Ht & _).
  unfold QUEUE_BYTES, MSG_QUEUE_SIZE in *. set (dst := queue p + MSG_BYTES * queue_tail p).
  assert (Hn : Z.of_nat (Z.to_nat MSG_BYTES) = MSG_BYTES) by done.
  assert (Hd : at_range (space s) F pd dst MSG_BYTES (fun k => dst + k)).
  { unfold dst, MSG_BYTES, MAX_MSG_SIZE in *. split; [lia|]. split; [lia|]. split; [lia|]. intros k Hk.
    replace (queue p + (16 + 256) * queue_tail p + k) with (queue p + ((16 + 256) * queue_tail p + k)) by lia. apply C. lia. }
  rewrite (lin_bytes_spec (space s) F pd _ msg Q Hv Hu) in Hb by by rewrite Hn. rewrite Hn in Hb. apply (inj Some) in Hb.
  assert (Hlen : Z.of_nat (length data) = MSG_BYTES) by (subst data; rewrite length_fmap, length_seqZ; done).
  destruct (lin_put_spec data (space s) F pd dst (fun k => dst + k) Hv Hu) as (m' & E & _ & Hin & Hfr); [by rewrite Hlen|intros a b; lia|].
  exists m'. split.
  - unfold lin_memcpy. change (with_vm (space s) (kmem (msched s))) with (space s).
    rewrite (lin_copy_put _ (space s) F pd dst msg (fun k => dst + k) Q Hv Hu); rewrite ?Hn; [|done|done|].
    + rewrite Hb, E. done.
    + intros a b Ha Hb'. specialize (Hout b Hb'). unfold dst, MSG_BYTES, MAX_MSG_SIZE in *. lia.
  - fold dst. split.
    + intros b Hbd. apply Hfr. intros k Hk. rewrite Hlen in Hk. lia.
    + apply list_eq. intros k. unfold bytes. rewrite list_lookup_fmap. destruct (decide (k < length data)%nat) as [Hk|Hk].
      * rewrite lookup_seqZ_lt by lia. destruct (lookup_lt_is_Some_2 data k Hk) as [v Hv']. rewrite Hv'. cbn.
        rewrite Z.add_0_l, (Hin _ _ Hv'). f_equal. rewrite <- Hb in Hv'. apply list_lookup_fmap_Some in Hv' as (y & -> & _).
        apply u8_small. apply load8_range.
      * rewrite lookup_seqZ_ge by lia. symmetry. apply lookup_ge_None_2. lia.
Qed.

Variable (uninit : Z -> list Z) (file_buffer : Z).

(** C14: SYS_SEND from a task that may read the message: the bytes that its address space
    shows at the pointer join the port's queue in kernel memory, or the caller sleeps or
    is refused as [msg_send] says.  The ports, the heap and the scheduler keep their
    invariant, the page tables theirs, and nothing but memory and tasks changes. *)
Theorem sys_send_enqueues s regs L q F pd i p Q :
  iinv (m_ipc s) L q -> live_port (m_ipc s) i p -> vinv (space s) F pd -> in_use (space s) pd ->
  at_range (space s) F pd (queue p) QUEUE_BYTES (fun k => queue p + k) ->
  r_eax regs = SYS_SEND -> r_ebx regs = i -> r_ecx regs <> 0 ->
  vmm_check_user_ptr (space s) (r_ecx regs) MSG_BYTES false = Some true ->
  at_range (space s) F pd (r_ecx regs) MSG_BYTES Q ->
  (forall k, 0 <= k < MSG_BYTES -> Q k < queue p \/ queue p + QUEUE_BYTES <= Q k) ->
  exists data o i', lin_bytes (Z.to_nat MSG_BYTES) (space s) (r_ecx regs) = Some data /\
    syscall_handler uninit file_buffer regs s = Some (o, with_ipc s i') /\
    sent (m_ipc s) i p data (r_edx regs) o i' /\ iinv i' L q /\ vinv (space (with_ipc s i')) F pd.
Proof.
  intros Hi Hl Hv Hu Hq En Ei Hne Hok Hm Hout.
  pose proof (lin_bytes_spec (space s) F pd (Z.to_nat MSG_BYTES) (r_ecx regs) Q Hv Hu Hm) as Hb.
  set (data := _ <$> _) in Hb. exists data. clearbody data.
  destruct (guards (m_ipc s) i p (r_ecx regs) Hl Hne) as (G1 & G2 & G3).
  destruct (send_step_by_spec (m_ipc s) L q i p _ data (r_edx regs) Hi Hl
    (lin_memcpy_stores s L q F pd i p (r_ecx regs) Q data Hi Hl Hv Hu Hq Hm Hout Hb)) as (o & i' & E & Hi' & Hs & Hfr).
  exists o, i'. split; [exact Hb|]. split; [|split; [exact Hs|split; [exact Hi'|]]].
  - unfold Syscall.syscall_handler. cbv zeta. rewrite En. cbn [Z.eqb Pos.eqb SYS_READ SYS_WRITE SYS_EXIT SYS_YIELD SYS_GETPID SYS_FORK SYS_WAIT SYS_EXEC SYS_SEND].
    unfold sys_send. rewrite (refused _ _ _ _ _ _ Hok). cbn [negb]. rewrite Ei, i32_small by (unfold MAX_PORTS in *; destruct Hl; lia).
    unfold on_ipc, msg_send_by. rewrite G1, G2, G3, E. done.
  - change (space (with_ipc s i')) with (with_vm (space s) (kmem (sc i'))). apply foreign_vinv; [done|].
    intros b Hb'. apply Hfr. intros Hr. apply Hb'. destruct Hq as (_ & _ & _ & Hq).
    destruct (Hq (b - queue p)) as (_ & _ & Hf); [unfold QUEUE_BYTES; lia|]. by replace (queue p + (b - queue p)) with b in Hf by lia.
Qed.
End messages.

(** ** A machine in use

    The machine that booted in Vmm, with the page at 128 MB given to a user and "hi" on it,
    64 KB of heap at 1 MB, a port of process 1 and the key [a] typed. *)

Definition at_128mb : Z := 134217728.
Definition user_page : vst pmm := snd (vmm_map_page Vmm.booted kd0 at_128mb 2097152 7).
Definition greeting : list Z := [104; 105; 0].
Definition base : vst pmm := with_vm user_page (write_bytes (vm user_page) 2097152 greeting).
Definition idle : sched heap := let '(_, h, m) := heap_init (vm base) 1048576 65536 in Sched 0 0 1 0 ∅ 0 [] h m.
Definition one_port : ipc heap := match port_create (ipc_init (Ipc [] 0 idle)) 1 with Some (_, i) => i | None => Ipc [] 0 idle end.
Definition typed : keyboard := match keyboard_callback 30 kb0 with Some (_, k) => k | None => kb0 end.
Definition machine1 : machine heap pmm ramdisk unit :=
  Machine one_port (vs base) (al base) typed Fs.booted (RtcOwn 0 []) [] (multiboot_mode []) false tt.

(** The frame of a call. *)
Definition call (num a1 a2 a3 : Z) : registers := Regs 0 0 0 0 0 a1 a3 a2 num 128 0 0 0 0 0 0.

Lemma port_create_frame {K : Type} `{KAllocLaws K} (s : ipc K) L q own i s' : iinv s L q -> port_create s own = Some (i, s') ->
  Mem.frame (ka_lo (ks (sc s))) (ka_len (ks (sc s))) (kmem (sc s)) (kmem (sc s')).
Proof.
  intros Hi. unfold port_create. destruct (MAX_PORTS <=? port_count s); [intros [= <- <-]; apply frame_refl|].
  destruct (find_port s _) as [j|]; [|intros [= <- <-]; apply frame_refl].
  destruct (ka_malloc_ok (ks (sc s)) (kmem (sc s)) L (MSG_BYTES * MSG_QUEUE_SIZE) (si_alloc _ _ _ (si_core _ _ _ (ii_sched _ _ _ Hi))))
    as (a & k' & m' & E & Hlo & Hlen & _ & Hfr & Hc); [unfold MSG_BYTES, MSG_QUEUE_SIZE, MAX_MSG_SIZE; lia|].
  unfold do_kmalloc. rewrite E. cbn [mbind option_bind]. destruct (Z.eqb_spec a 0) as [|Ha]; intros [= <- <-]; [exact Hfr|].
  destruct Hc as [[? _]|(k & Hle & _ & Hk)]; [done|]. destruct (ka_range _ _ _ a k Hk) as (_ & _ & Hr1 & Hr2 & _); [apply lookup_insert_eq|].
  eapply frame_trans; [exact Hfr|]. unfold MSG_BYTES, MSG_QUEUE_SIZE, MAX_MSG_SIZE in *.
  eapply frame_weaken; [apply frame_memset|..]; lia.
Qed.

#[local] Opaque Vmm.booted kd0.

(** The tables after the page is given to the user. *)
Lemma user_page_ok : exists F, vinv user_page F kd0 /\ (forall b, 131072 <= b -> foreign user_page F kd0 b) /\
  (forall a, 131072 <= a < 8388608 -> at_byte user_page F kd0 a a) /\
  (forall k, 0 <= k < 4096 -> at_byte user_page F kd0 (at_128mb + k) (2097152 + k)).
Proof.
  destruct booted_ok as (F0 & Hi). pose proof (map_page_spec Vmm.booted F0 kd0 at_128mb 2097152 7 (im_vinv _ _ _ Hi)) as Hs.
  assert (Er : fst (vmm_map_page Vmm.booted kd0 at_128mb 2097152 7) = 0) by (vm_compute; reflexivity).
  unfold user_page. destruct (vmm_map_page Vmm.booted kd0 at_128mb 2097152 7) as [r v]. cbn [fst snd] in *. subst r.
  unfold at_128mb in *. destruct Hs as [[? _]|(F & _ & _ & Hv & _ & Hnew & Hold & Hf & _)]; [lia|lia|unfold flags_ok; lia|done|].
  assert (Hfor : forall b, 131072 <= b -> foreign v F kd0 b) by (intros b Hb; by apply Hf, (im_foreign _ _ _ Hi)).
  exists F. split; [done|]. split; [done|]. split.
  - intros a Ha. apply identity_at; [apply Hfor; lia|done|]. rewrite Hold by zdm. rewrite (im_pte _ _ _ Hi) by lia.
    by replace (a <? 8388608) with true by lia.
  - intros k Hk. assert (Hpte : pte (vm v) kd0 (134217728 + k) = 2097152 + 7).
    { rewrite <- (pte_page (vm v) kd0 (134217728 + k)) by lia. replace (page_of (134217728 + k)) with 134217728 by (rewrite page_of_eq by lia; zdm).
      rewrite Hnew. reflexivity. }
    split; [by rewrite Hpte|]. split; [rewrite Hpte, offset_of_eq by lia; change (page_of (2097152 + 7)) with 2097152; zdm|apply Hfor; lia].
Qed.

Lemma idle_initial : initial idle.
Proof.
  unfold idle. pose proof (heap_init_inv (vm base) 1048576 65536) as Hi. destruct (heap_init _ _ _) as [[a h] m]. 
  split; [done|]. split; [done|]. split; [done|]. split; [done|]. destruct Hi as [_ Hi]; [lia..|].
  exists (live_map h [(65536 - HDR, false)]). exists [(65536 - HDR, false)]. split; [exact Hi|]. split; [done|]. by intros q k ?%not_elem_of_nil.
Qed.

Lemma one_port_created : fst <$> port_create (ipc_init (Ipc [] 0 idle)) 1 = Some 0.
Proof. vm_compute. reflexivity. Qed.
Lemma one_port_heap : ka_lo (ks (sc one_port)) = 1048576 /\ ka_len (ks (sc one_port)) = 65536 /\ ka_lo (ks idle) = 1048576 /\ ka_len (ks idle) = 65536.
Proof. vm_compute. auto. Qed.
Lemma machine1_use : in_use (space machine1) kd0.
Proof. by split; vm_compute. Qed.

Lemma space_of (v : vst pmm) m (i : ipc heap) ks (f : fs ramdisk) r pl mo b : 
  space (Machine i (vs (with_vm v m)) (al (with_vm v m)) ks f r pl mo b tt) = with_vm v (kmem (sc i)).
Proof. done. Qed.
Lemma machine1_space : space machine1 = with_vm user_page (kmem (sc one_port)).
Proof. unfold machine1, base. apply space_of. Qed.

Lemma heap_init_frame m start size : 12 <= size -> Mem.frame start size m (snd (heap_init m start size)).
Proof.
  intros Hs. unfold heap_init, Heap.set_size, set_flag, set_next. cbn [snd].
  do 3 (eapply frame_trans; [|first [apply frame_store32; unfold HDR; lia|apply frame_store8; unfold HDR; lia]]). apply frame_refl.
Qed.

Lemma machine1_directory : current_directory (m_vmm machine1) = kd0.
Proof. vm_compute. reflexivity. Qed.

Lemma idle_frame : Mem.frame 1048576 65536 (vm base) (kmem idle).
Proof.
  pose proof (heap_init_frame (vm base) 1048576 65536) as Hf. unfold idle. destruct (heap_init _ _ _) as [[a h] m]. apply Hf. lia.
Qed.

Lemma one_port_ok : exists L p, iinv one_port L [] /\ live_port one_port 0 p /\ contents (kmem (sc one_port)) p = [] /\ Mem.frame 1048576 65536 (kmem idle) (kmem (sc one_port)).
Proof.
  destruct (initial_sinv _ idle_initial) as (L & Hs). pose proof (init_iinv (Ipc [] 0 idle) L [] Hs) as Hi.
  destruct one_port_heap as (_ & _ & Hlo & Hlen).
  destruct (some_fst _ 0 one_port_created) as (s & E). assert (Es : one_port = s) by (unfold one_port; by rewrite E).
  pose proof (port_create_frame _ L [] 1 0 s Hi E) as Hfr. cbn [sc ipc_init] in Hfr. rewrite Hlo, Hlen in Hfr. rewrite Es.
  destruct (port_create_spec _ L [] 1 Hi) as [[E' _]|(i & _ & _ & [(a & k & s' & p & E' & _ & H1 & Hl & _ & _ & Hco & _)|(s' & E' & _)])]; [lia|congruence| |congruence].
  rewrite E in E'. injection E' as <- <-. exists (<[a := k]> L), p. exact (conj H1 (conj Hl (conj Hco Hfr))).
Qed.

(** The memory of the components is foreign to the tables. *)
Lemma machine1_foreign F : (forall b, 131072 <= b -> foreign user_page F kd0 b) -> foreign_change user_page F kd0 (kmem (sc one_port)).
Proof.
  intros Hfor b Hb. destruct one_port_ok as (_ & _ & _ & _ & _ & Hfr). assert (Hn : ~ 131072 <= b) by (intros Hr; exact (Hb (Hfor b Hr))).
  rewrite (Hfr b) by lia. rewrite (idle_frame b) by lia.
  apply (frame_write_bytes (vm user_page) 2097152 greeting b). change (Z.of_nat (length greeting)) with 3. lia.
Qed.

Lemma machine1_ok : exists L F p, iinv (m_ipc machine1) L [] /\ live_port (m_ipc machine1) 0 p /\
  contents (kmem (msched machine1)) p = [] /\ vinv (space machine1) F kd0 /\
  in_use (space machine1) kd0 /\ at_range (space machine1) F kd0 (queue p) QUEUE_BYTES (fun k => queue p + k) /\
  at_range (space machine1) F kd0 at_128mb MSG_BYTES (fun k => 2097152 + k) /\
  forall k, 0 <= k < MSG_BYTES -> 2097152 + k < queue p \/ queue p + QUEUE_BYTES <= 2097152 + k.
Proof.
  destruct user_page_ok as (F & Hv & Hfor & Hlow & Hpage). destruct one_port_ok as (L & p & Hi & Hl & Hco & _).
  destruct one_port_heap as (Hlo & Hlen & _).
  pose proof (machine1_foreign F Hfor) as Hc.
  exists L, F, p. split; [exact Hi|]. split; [exact Hl|]. split; [exact Hco|]. pose proof machine1_use as Hu. rewrite machine1_space in Hu |- *.
  destruct (live_opened _ _ _ _ _ Hi Hl) as (_ & _ & _ & _ & k & Hk & Hle).
  destruct (ka_range _ _ _ _ _ (si_alloc _ _ _ (si_core _ _ _ (ii_sched _ _ _ Hi))) Hk) as (_ & _ & Hr1 & Hr2 & _).
  rewrite Hlo in Hr1, Hr2. rewrite Hlen in Hr2.
  unfold QUEUE_BYTES, at_128mb, MSG_BYTES, MSG_QUEUE_SIZE, MAX_MSG_SIZE in *.
  split; [by apply foreign_vinv|]. split; [exact Hu|]. split; [|split; [|intros; lia]].
  - apply at_range_change; [done|done|]. split; [lia|]. split; [lia|]. split; [lia|]. intros j Hj. apply Hlow. lia.
  - apply at_range_change; [done|done|]. split; [lia|]. split; [lia|]. split; [lia|]. intros j Hj. apply Hpage. lia.
Qed.

(** A buffer in the kernel's part of memory is refused. *)
Lemma syscall_refuses_witness :
  syscall_handler (fun _ => []) 0 (call SYS_READ 2097152 16 0) machine1 = Some (Done (-1), machine1).
Proof.
  destruct machine1_ok as (L & F & p & _ & _ & _ & Hv & _). rewrite <- machine1_directory in Hv.
  apply (syscall_refuses (fun _ => []) 0 machine1 F (call SYS_READ 2097152 16 0) 2097152 16 true); [exact Hv|].
  left. split; [reflexivity|]. split; [lia|]. split; [lia|]. split; [lia|]. right. exists 2097152. split; [lia|]. right. vm_compute. reflexivity.
Defined.

Lemma machine1_text : exists txt, Vterm.good txt (kb_tty (m_keys machine1)) /\ kb_wf (m_keys machine1).
Proof.
  change (m_keys machine1) with typed.
  destruct (callback_spec kb0 30 kb0_wf ltac:(lia)) as (k & E & Hw & _). assert (Ek : typed = k) by (unfold typed; by rewrite E).
  rewrite Ek. destruct (kw_tty _ Hw) as (l & Hl). by exists l.
Qed.

(** No task runs, so the text goes to the terminal on the screen. *)
Lemma sys_write_prints_witness : exists v t v', syscall_handler (fun _ => []) 0 (call SYS_WRITE at_128mb 3 0) machine1 = Some (Done 2, with_tty machine1 t) /\
  terminals (kb_tty (m_keys machine1)) !! 0%nat = Some v /\ terminals t !! 0%nat = Some v' /\
  page_is v' (foldl (type_page (color v)) (shown v) [104; 105]).
Proof.
  destruct machine1_text as (txt & Hg & _).
  destruct (sys_write_prints (fun _ => []) 0 machine1 (call SYS_WRITE at_128mb 3 0) greeting txt) as (id & v & t & v' & E & Htg & Hv & Hv' & _ & Hp & _).
  - reflexivity.
  - reflexivity.
  - vm_compute. reflexivity.
  - vm_compute. reflexivity.
  - vm_compute. reflexivity.
  - left. vm_compute. reflexivity.
  - exact Hg.
  - assert (Hid : id = 0).
    { destruct Htg as [u j H0 _ _ _ _|_|u Hu _]; [|vm_compute; reflexivity|].
      - exfalso. apply H0. vm_compute. reflexivity.
      - vm_compute. reflexivity. }
    rewrite Hid in Hv, Hv'. exists v, t, v'. exact (conj E (conj Hv (conj Hv' Hp))).
Defined.

(** The key typed is stored at the user's buffer. *)
Lemma typed_pending : pending (m_keys machine1) = [97].
Proof. vm_compute. reflexivity. Qed.

Lemma put_key : exists v, lin_put [97] (space machine1) (u32 at_128mb) = Some v.
Proof.
  assert (E : match lin_put [97] (space machine1) (u32 at_128mb) with Some _ => true | None => false end = true) by (vm_compute; reflexivity).
  destruct (lin_put [97] _ _) as [v|]; [by exists v|discriminate E].
Qed.

Lemma key_may_be_stored : vmm_check_user_ptr (space machine1) at_128mb 16 true = Some true.
Proof. vm_compute. reflexivity. Qed.

Lemma sys_read_delivers_witness : exists k v, pending k = [] /\ lin_put [97] (space machine1) (u32 at_128mb) = Some v /\
  syscall_handler (fun _ => []) 0 (call SYS_READ at_128mb 16 0) machine1 = Some (Done 1, with_space (with_keys machine1 k) v).
Proof.
  destruct put_key as (v & Ev). destruct machine1_text as (txt & _ & Hw).
  destruct (sys_read_delivers (fun _ => []) 0 machine1 (call SYS_READ at_128mb 16 0) v eq_refl) as (k & E & _ & _ & Hq).
  - change (0 <= 16 < 2147483648). lia.
  - exact Hw.
  - exact key_may_be_stored.
  - rewrite typed_pending. exact Ev.
  - rewrite typed_pending in E, Hq. exists k, v. split; [exact Hq|]. split; [exact Ev|exact E].
Defined.

Definition send_hi : option (outcome * machine heap pmm ramdisk unit) :=
  syscall_handler (fun _ => []) 0 (call SYS_SEND 0 at_128mb IPC_NONBLOCK) machine1.
Lemma send_hi_done : fst <$> send_hi = Some (Done 0).
Proof. vm_compute. reflexivity. Qed.

Lemma sys_send_enqueues_witness : exists i p data, send_hi = Some (Done 0, with_ipc machine1 i) /\
  lin_bytes (Z.to_nat MSG_BYTES) (space machine1) at_128mb = Some data /\ contents (kmem (sc i)) p = [data].
Proof.
  destruct machine1_ok as (L & F & p & Hi & Hl & Hco & Hv & Hu & Hq & Hm & Hout).
  destruct (sys_send_enqueues (fun _ => []) 0 machine1 (call SYS_SEND 0 at_128mb IPC_NONBLOCK) L [] F kd0 0 p (fun k => 2097152 + k) Hi Hl Hv Hu Hq
    eq_refl eq_refl) as (data & o & i & Eb & E & Hs & _).
  - intros Hx. discriminate Hx.
  - vm_compute. reflexivity.
  - exact Hm.
  - exact Hout.
  - pose proof (fst_some _ _ _ _ send_hi_done E) as Eo. rewrite Eo in E, Hs. unfold sent in Hs.
    destruct Hs as [(_ & _ & p' & _ & Hc & _)|[(Hx & _)|(Hx & _)]]; [|discriminate Hx|discriminate Hx].
    exists i, p', data. split; [exact E|]. split; [exact Eb|].
    change (contents (kmem (sc (m_ipc machine1))) p) with (contents (kmem (msched machine1)) p) in Hc. rewrite Hco in Hc. exact Hc.
Defined.
