(* ===== verification/Shell.v ===== *)
(** ui/shell.c: the commands of the shell, and [shell_run] over the command line (Line).

    [shell] is everything the commands act on: the editor with the interpreter, the
    console, the files and the characters still to be typed (Editor), the scheduler with
    the heap and the memory (Sched, Heap), the pages and the frames (Vmm, Pmm), the
    monitor, the trace and the devices.  Its console is the one of Vterm, which holds the
    terminals and the kernel log; the shell is a console too, by its part.

    A command returns, or waits for a key that nobody presses, or stops the machine
    ([ran]); [None] is a fault. *)

From S2P Require Import Prelude Mem CString FrameAlloc Pmm KAlloc Heap Vmm Codec BlockDev DiskFs Fs Effects Console Log.
From S2P Require Import Vterm Keyboard Line Basic Editor Ports Linear Elf Debug Sysmon Sched.
Local Open Scope Z_scope.

(** ** Definitions *)

Definition VGA_LIGHT_CYAN : Z := 11.
Definition VTERM_INIT : Z := 1.

Inductive ran := Returned | Waiting | Halted.

Record shell (D P : Type) := Shell {
  s_ed : editor console D;
  s_sched : sched heap;
  s_vmm : vmm;
  s_frames : pmm;
  s_sysmon : sysmon;
  s_trace : trace;
  s_io : P
}.
Arguments Shell {D P}. Arguments s_ed {D P}. Arguments s_sched {D P}. Arguments s_vmm {D P}. Arguments s_frames {D P}.
Arguments s_sysmon {D P}. Arguments s_trace {D P}. Arguments s_io {D P}.

(** *** The parts *)

Section parts.
Context {D : Type} `{BlockDev D} {P : Type} `{Ports P}.
Implicit Types (s : shell D P).

Definition con_of s : console := con (interp (s_ed s)).
Definition fs_of s : fs D := Editor.files (s_ed s).
Definition klog_of s : log := Vterm.klog (tty_of (con_of s)).
Definition space_of s : vst pmm := Vst (s_vmm s) (s_frames s) (kmem (s_sched s)).

Definition with_ed s (e : editor console D) : shell D P := Shell e (s_sched s) (s_vmm s) (s_frames s) (s_sysmon s) (s_trace s) (s_io s).
Definition with_sched s (c : sched heap) : shell D P := Shell (s_ed s) c (s_vmm s) (s_frames s) (s_sysmon s) (s_trace s) (s_io s).
Definition with_sysmon s (m : sysmon) : shell D P := Shell (s_ed s) (s_sched s) (s_vmm s) (s_frames s) m (s_trace s) (s_io s).
Definition with_trace s (t : trace) : shell D P := Shell (s_ed s) (s_sched s) (s_vmm s) (s_frames s) (s_sysmon s) t (s_io s).
Definition with_io s (p : P) : shell D P := Shell (s_ed s) (s_sched s) (s_vmm s) (s_frames s) (s_sysmon s) (s_trace s) p.
Definition with_space s (v : vst pmm) : shell D P :=
  Shell (s_ed s) (set_kmem (s_sched s) (vm v)) (vs v) (al v) (s_sysmon s) (s_trace s) (s_io s).

Definition ed_con (e : editor console D) (c : console) : editor console D :=
  let b := interp e in
  Editor (filename e) (ebuffer e) (line_buffer e) (buffer_size e) (mode e) (modified e) (erunning e)
    (Basic (variables b) (area b) (line_count b) (pc b) (stack_ptr b) (running b) c) (Editor.files e) (input e).
Definition ed_files (e : editor console D) (f : fs D) : editor console D :=
  Editor (filename e) (ebuffer e) (line_buffer e) (buffer_size e) (mode e) (modified e) (erunning e) (interp e) f (input e).
Definition with_con s (c : console) : shell D P := with_ed s (ed_con (s_ed s) c).
Definition with_fs s (f : fs D) : shell D P := with_ed s (ed_files (s_ed s) f).
Definition with_klog s (l : log) : shell D P := with_con s (Cons (vterm_initialized (con_of s)) (put_klog (tty_of (con_of s)) l)).
End parts.

Notation Sh D P := (ST (shell D P)).

Section effects.
Context {D : Type} `{BlockDev D} {P : Type} `{Ports P}.

Definition on_ed {A} (m : ST (editor console D) A) : Sh D P A := zoom s_ed (fun e s => with_ed s e) m.
Definition on_con {A} (m : ST console A) : Sh D P A := zoom con_of (fun c s => with_con s c) m.
Definition on_fs {A} (m : F A) : Sh D P A := zoom fs_of (fun f s => with_fs s f) m.
Definition on_io {A} (m : ST P A) : Sh D P A := zoom s_io (fun p s => with_io s p) m.
Definition on_sched (f : sched heap -> option (sched heap)) : Sh D P unit := fun s => c ← f (s_sched s); Some (tt, with_sched s c).
Definition on_heap {A} (f : heap -> mem -> option (A * mem)) : Sh D P A := fun s =>
  '(a, m) ← f (ks (s_sched s)) (kmem (s_sched s)); Some (a, with_sched s (set_kmem (s_sched s) m)).
Definition log_by (f : Z -> log -> option log) : Sh D P unit := fun s =>
  l ← f (Ports.ticks (s_io s)) (klog_of s); Some (tt, with_klog s l).
Definition info (msg : string) : Sh D P unit := log_by (fun now => log_info now (Some (str msg))).
Definition warn (msg : string) : Sh D P unit := log_by (fun now => log_warn now (Some (str msg))).

#[export] Instance shell_console : Console (shell D P) := {|
  console_putchar c := on_con (console_putchar c);
  console_write l := on_con (console_write l);
  console_write_dec v := on_con (console_write_dec v);
  console_set_color fg bg := on_con (console_set_color fg bg);
  console_clear := on_con console_clear
|}.

Definition say (s : string) : Sh D P unit := console_write (str s).
Definition say_line (s : string) : Sh D P unit := console_write (str s ++ [NL]).
Definition say_lines (l : list string) : Sh D P unit := each say_line l.
Definition newline : Sh D P unit := console_write [NL].
End effects.

(** *** Pure helpers of the commands *)

(** The tasks of a queue; [None] is a queue that does not end. *)
Fixpoint queue_tasks (fuel : nat) (m : gmap Z task) (p : Z) : option (list task) :=
  if p =? 0 then Some [] else
  match fuel with
  | O => None
  | S fuel => t ← m !! p; l ← queue_tasks fuel m (t_next t); Some (t :: l)
  end.
Definition task_list (s : sched heap) : option (list task) := queue_tasks (base.size (tasks s)) (tasks s) (sched_get_task_list s).

Definition state_name (v : Z) : string :=
  if v =? TASK_RUNNING then "RUNNING" else if v =? TASK_READY then "READY" else if v =? TASK_BLOCKED then "BLOCKED"
  else if v =? TASK_ZOMBIE then "ZOMBIE" else "UNKNOWN".
(** The column of [cmd_ps], nine characters wide. *)
Definition state_column (v : Z) : string :=
  if v =? TASK_RUNNING then "RUNNING  " else if v =? TASK_READY then "READY    " else if v =? TASK_BLOCKED then "BLOCKED  "
  else if v =? TASK_ZOMBIE then "ZOMBIE   " else "UNKNOWN  ".

(** The PID of [kill], a [uint8_t]. *)
Fixpoint parse_pid (l : list Z) (pid : Z) : option Z :=
  match l with
  | [] => Some pid
  | c :: l => if (c <? 48) || (57 <? c) then None else parse_pid l (u8 (pid * 10 + (c - 48)))
  end.

(** The address of [memdump]: what is not a hexadecimal digit is skipped. *)
Definition hex_digit (addr c : Z) : Z :=
  if (48 <=? c) && (c <=? 57) then u32 (addr * 16 + (c - 48))
  else if (97 <=? c) && (c <=? 102) then u32 (addr * 16 + (c - 97 + 10))
  else if (65 <=? c) && (c <=? 70) then u32 (addr * 16 + (c - 65 + 10))
  else addr.
Fixpoint parse_count (l : list Z) (count : Z) : Z :=
  match l with
  | c :: l => if is_digit c then parse_count l (u32 (count * 10 + (c - 48))) else count
  | [] => count
  end.

(** [while (ext > filename && *ext != '.') ext--;] *)
Fixpoint back_to_dot (name : list Z) (ext : nat) : nat :=
  match ext with
  | O => O
  | S n => if decide (name !! ext = Some 46) then ext else back_to_dot name n
  end.
Definition extension (name : list Z) : list Z := drop (back_to_dot name (length name)) name.

(** The loop of [cmd_write]: the words, separated by blanks. *)
Fixpoint write_words (first : bool) (args : list (list Z)) (content : list Z) : list Z :=
  match args with
  | [] => content
  | w :: args =>
      let pos := Z.of_nat (length content) in
      if negb (pos <? FS_MAX_FILE_SIZE - 2) then content
      else if FS_MAX_FILE_SIZE <=? pos + Z.of_nat (length w) + 1 then content
      else write_words false args (content ++ (if first then [] else [32]) ++ w)
  end.

(** The hexadecimal digits of the entry point, without a prefix. *)
Definition hex8 (v : Z) : list Z := hex_digits 8 v [].

(** *** The commands *)

Section commands.
Context {D : Type} `{BlockDev D} {P : Type} `{Ports P}.
Notation S := (Sh D P).
(** What an uninitialised directory entry holds; the addresses of [user_task_entry] and
    [fork_test_child]; the program linked into the kernel; the processor's registers, from
    [eax] to [eip]; how often RUN may start a program from within a program, and the turns
    that unbounded loops may take. *)
Variables (uninit : Z -> list Z) (user_task_entry fork_test_entry initrd_get_init initrd_get_init_size : Z).
Variables (arch_get_registers : shell D P -> Z * Z * Z * Z * Z * Z * Z * Z * Z) (depth polls : nat).
(** The disk installer, the dashboard and the unit tests. *)
Variables (disk_installer_dialog : S (option Z)) (dashboard : S ran) (has_suite : list Z -> bool).
Variables (run_all_tests_console : S unit) (run_suite_console : list Z -> S unit) (run_single_test_console : list Z -> list Z -> S unit).

Definition cmd_help : S unit :=
  _ ← say_lines
    ["Available commands:"; "  help    - Show this help message"; "  clear   - Clear the screen"; "  ps      - List running tasks";
     "  kill    - Terminate a task by PID"; "  mem     - Show memory usage"; "  defrag  - Defragment kernel heap";
     "  echo    - Echo arguments"; "  uptime  - Show system uptime"; "  ver     - Show version info"; "  ls      - List directory contents";
     "  cd      - Change directory"; "  pwd     - Print working directory"; "  cat     - Display file contents";
     "  mkdir   - Create a new directory"; "  rm      - Remove a file or directory"; "  rmdir   - Remove an empty directory";
     "  touch   - Create an empty file"; "  edit    - Edit a file"; "  write   - Write text to file"; "  log     - Show system log";
     "  clcache - Clear filesystem cache"; "  sync    - Sync filesystem to disk"; "  diskinfo- Show disk filesystem status";
     "  disksetup-Configure persistent disk storage"; "  shutdown- Shutdown the system"; "  reboot  - Reboot the system";
     "  cpu     - Show CPU Task usage"; "  sysmon  - Show system statistics"; "  trace   - Show function trace";
     "  clrtrace- Clear trace buffer"; "  memdump - Dump memory region"; "  registers- Dump CPU registers";
     "  basic   - Enter BASIC interpreter"; "  spawn   - Spawn user-mode init process"; "  forktest- Test fork() syscall";
     "  tty     - Show current terminal info"; "  tty N   - Switch to terminal N (0-3)"; "  test    - Run unit tests"]%string;
  _ ← say "  dash    - Show System Dashboard";
  say_lines ["Shortcuts:"; "  Alt+F1-F4     - Switch terminals"; "  PageUp/Down   - Scroll terminal history"; "  Alt+Home/End  - Scroll to top/bottom"]%string.

Definition cmd_clear : S unit := console_clear.

(** A walk along the queue; what is printed for a task does not change the queue. *)
Definition each_task (f : task -> S unit) : S unit := s ← sget; l ← sopt (task_list (s_sched s)); each f l.

Definition print_task (t : task) : S unit :=
  _ ← say "  "; _ ← console_write_dec (u32 (t_pid t)); _ ← say "  ";
  _ ← say (state_column (t_state t));
  _ ← console_write_dec (t_priority t); newline.
Definition cmd_ps : S unit :=
  _ ← say_line "PID  STATE    PRIORITY"; _ ← say_line "----------------------"; each_task print_task.

Definition cmd_kill (pid : Z) : S unit :=
  s ← sget;
  a ← sopt (find_task (s_sched s) (fun t => t_pid t =? pid));
  if a =? 0 then _ ← say "No such task with PID "; _ ← console_write_dec pid; say_line "." else
  t ← sopt (tasks (s_sched s) !! a);
  _ ← on_sched (fun c => task_destroy c (t_id t));
  _ ← say "Task "; _ ← console_write_dec pid; say_line " terminated.".

(** [heap_get_fragmentation], whose loop takes at most 10000 turns between two merges. *)
Definition fragmentation : S (Z * Z) := on_heap (fun h m => '(count, largest, m) ← heap_get_fragmentation polls h m; Some ((count, largest), m)).

Definition cmd_mem : S unit :=
  s ← sget; let p := s_frames s in
  _ ← say_line "Physical Memory:";
  _ ← say "  Total blocks: "; _ ← console_write_dec (pmm_get_block_count p);
  _ ← console_write (NL :: str "  Used blocks:  "); _ ← console_write_dec (pmm_get_used_block_count p);
  _ ← console_write (NL :: str "  Free blocks:  "); _ ← console_write_dec (pmm_get_free_block_count p);
  _ ← console_write (NL :: str "  Free memory:  "); _ ← console_write_dec (u32 (pmm_get_free_block_count p * 4));
  _ ← say_line " KB";
  '(free_blocks, largest_free) ← fragmentation;
  s ← sget; let h := ks (s_sched s) in
  _ ← say_line "Kernel Heap:";
  _ ← say "  Total: "; _ ← console_write_dec (u32 (heap_get_used h + heap_get_free h));
  _ ← console_write (str " bytes" ++ NL :: str "  Used:  "); _ ← console_write_dec (heap_get_used h);
  _ ← console_write (str " bytes" ++ NL :: str "  Free: "); _ ← console_write_dec (heap_get_free h);
  _ ← console_write (str " bytes" ++ NL :: str "  Free blocks: "); _ ← console_write_dec free_blocks;
  _ ← console_write (NL :: str "  Largest free block: "); _ ← console_write_dec largest_free;
  say_line " bytes".

Definition cmd_defrag : S unit :=
  '(free_before, largest_before) ← fragmentation;
  _ ← on_heap (fun h m => m ← heap_defragment h m; Some (tt, m));
  '(free_after, largest_after) ← fragmentation;
  _ ← say_line "Heap defragmentation completed.";
  _ ← say "Free blocks: "; _ ← console_write_dec free_before; _ ← say " -> "; _ ← console_write_dec free_after;
  _ ← console_write (NL :: str "Largest free block: "); _ ← console_write_dec largest_before; _ ← say " -> ";
  _ ← console_write_dec largest_after;
  say_line " bytes".

(** [argv] without the command. *)
Fixpoint echo_args (args : list (list Z)) : S unit :=
  match args with
  | [] => mret tt
  | [w] => console_write w
  | w :: args => _ ← console_write w; _ ← console_putchar 32; echo_args args
  end.
Definition cmd_echo (args : list (list Z)) : S unit := _ ← echo_args args; console_putchar NL.

Definition cmd_uptime : S unit :=
  s ← sget;
  let seconds := Ports.ticks (s_io s) / 100 in
  let minutes := seconds / 60 in
  let hours := minutes / 60 in
  _ ← say "Uptime: "; _ ← console_write_dec hours; _ ← say "h "; _ ← console_write_dec (minutes mod 60); _ ← say "m ";
  _ ← console_write_dec (seconds mod 60); say_line "s".

Definition cmd_version : S unit := say_lines ["mexOS Microkernel v0.1"; "Architecture: i686"]%string.

(** A command of files whose result may be one of the codes that it reports. *)
Fixpoint report (ret : Z) (l : list (Z * string)) : S unit :=
  match l with [] => mret tt | (code, msg) :: l => if ret =? code then say_line msg else report ret l end.

Definition cmd_ls (args : list (list Z)) : S unit :=
  let path := default (str ".") (head args) in
  '(ret, buffer) ← on_fs (fs_list_dir path 1024);
  if ret =? FS_ERR_NOT_FOUND then say_line "ls: directory not found" else
  if ret =? FS_ERR_NOT_DIR then say_line "ls: not a directory" else
  if ret =? 0 then say_line "(empty)" else
  (* the terminator is stored at buffer[ret] *)
  if (ret <? 0) || (1024 <=? ret) then sfault else console_write (until_nul buffer).

Definition cmd_cd (args : list (list Z)) : S unit :=
  ret ← on_fs (fs_change_dir (default (str "/") (head args)));
  report ret [(FS_ERR_NOT_FOUND, "cd: directory not found"); (FS_ERR_NOT_DIR, "cd: not a directory")]%string.

Definition cmd_pwd : S unit := s ← sget; _ ← console_write (fs_get_cwd (fs_of s)); newline.

Definition cmd_cat (args : list (list Z)) : S unit :=
  match args with
  | [] => say_line "cat: missing file operand"
  | path :: _ =>
      '(ret, buffer) ← on_fs (fs_read uninit path FS_MAX_FILE_SIZE);
      if ret =? FS_ERR_NOT_FOUND then say_line "cat: file not found" else
      if ret =? FS_ERR_IS_DIR then say_line "cat: is a directory" else
      if ret =? 0 then mret tt else
      (* buffer[ret] = '\0' *)
      if (ret <? 0) || (FS_MAX_FILE_SIZE <? ret) then sfault else
      _ ← console_write (until_nul (take (Z.to_nat ret) buffer));
      c ← sopt (buffer !! Z.to_nat (ret - 1));
      if negb (c =? NL) then newline else mret tt
  end.

Definition cmd_mkdir (args : list (list Z)) : S unit :=
  match args with
  | [] => say_line "mkdir: missing directory name"
  | path :: _ =>
      ret ← on_fs (fs_create_dir path);
      report ret [(FS_ERR_EXISTS, "mkdir: directory already exists"); (FS_ERR_FULL, "mkdir: filesystem full");
                  (FS_ERR_NOT_FOUND, "mkdir: parent directory not found")]%string
  end.

Definition cmd_rm (args : list (list Z)) : S unit :=
  match args with
  | [] => say_line "rm: missing operand"
  | path :: _ =>
      ret ← on_fs (fs_remove path);
      report ret [(FS_ERR_NOT_FOUND, "rm: file or directory not found"); (FS_ERR_NOT_EMPTY, "rm: directory not empty");
                  (FS_ERR_INVALID, "rm: cannot remove root directory")]%string
  end.

Definition cmd_rmdir (args : list (list Z)) : S unit :=
  match args with
  | [] => say_line "rmdir: missing directory name"
  | path :: _ =>
      ret ← on_fs (fs_remove path);
      report ret [(FS_ERR_NOT_FOUND, "rmdir: directory not found"); (FS_ERR_NOT_EMPTY, "rmdir: directory not empty");
                  (FS_ERR_INVALID, "rmdir: cannot remove root directory")]%string
  end.

Definition cmd_touch (args : list (list Z)) : S unit :=
  match args with
  | [] => say_line "touch: missing file operand"
  | path :: _ =>
      there ← on_fs (fs_exists path);
      if there : bool then mret tt else
      ret ← on_fs (fs_create_file uninit path);
      report ret [(FS_ERR_FULL, "touch: filesystem full"); (FS_ERR_NOT_FOUND, "touch: parent directory not found")]%string
  end.

Definition cmd_clear_cache : S unit :=
  _ ← on_fs fs_clear_cache; _ ← info "Filesystem cache cleared"; say_line "Filesystem cache cleared".

Definition cmd_log : S unit := s ← sget; on_con (log_dump (klog_of s)).

Definition cmd_sync : S unit :=
  s ← sget;
  if fs_is_disk_enabled (fs_of s) then
    _ ← on_fs fs_sync; _ ← info "Filesystem synced to disk"; say_line "Filesystem synced to disk"
  else say_line "Disk filesystem not enabled".

Definition cmd_diskinfo : S unit :=
  s ← sget;
  if fs_is_disk_enabled (fs_of s) then
    say_lines ["Persistent disk filesystem: ENABLED"; "Files are saved to disk automatically"]%string
  else say_lines ["Persistent disk filesystem: DISABLED"; "Files are stored in RAM only (lost on reboot)"]%string.

(** [None] while the dialog waits for a key. *)
Definition cmd_disksetup : S ran :=
  _ ← console_write (str "Starting disk installer..." ++ [NL; NL]);
  drive ← disk_installer_dialog;
  match drive with
  | None => mret Waiting
  | Some drive =>
      _ ← (if 0 <=? drive then
             s ← sget;
             _ ← (if fs_is_disk_enabled (fs_of s) then _ ← on_fs fs_sync; _ ← on_fs (on_disk diskfs_unmount); mret tt else mret tt);
             r ← on_fs (fs_enable_disk uninit (u8 drive));
             _ ← console_clear;
             say_line (if r =? 0 then "Disk filesystem enabled successfully!" else "Failed to enable disk filesystem")
           else _ ← console_clear; say_line "Disk setup cancelled");
      mret Returned
  end.

(** The machine may be off before [cmd_shutdown] halts. *)
Definition cmd_shutdown : S ran :=
  _ ← info "Shutdown initiated by user"; _ ← say_line "Shutting down...";
  _ ← info "Attempting QEMU ACPI shutdown"; _ ← on_io (Ports.outw 1540 8192);
  _ ← info "Attempting Bochs ACPI shutdown"; _ ← on_io (Ports.outw 45060 8192);
  _ ← info "Attempting VirtualBox ACPI shutdown"; _ ← on_io (Ports.outw 16388 13312);
  _ ← warn "ACPI shutdown failed, halting CPU";
  _ ← say_line "System halted. You may power off now.";
  mret Halted.

(** [do status = inb(0x64); while (status & 0x02);] *)
Fixpoint wait_controller (fuel : nat) : ST P unit :=
  match fuel with
  | O => sfault
  | Datatypes.S fuel => status ← Ports.inb 100; if negb (Z.land status 2 =? 0) then wait_controller fuel else mret tt
  end.
Definition cmd_reboot : S ran :=
  _ ← info "Reboot initiated by user"; _ ← say_line "Rebooting...";
  _ ← info "Waiting for keyboard controller"; _ ← on_io (wait_controller polls);
  _ ← info "Sending reset command to keyboard controller"; _ ← on_io (Ports.outb 100 254);
  _ ← warn "Keyboard reset failed, halting CPU";
  mret Halted.

Definition ended (b : bool) : ran := if b then Returned else Waiting.

Definition cmd_edit (args : list (list Z)) : S ran :=
  match args with
  | [] => _ ← say_line "edit: missing file operand"; mret Returned
  | filename :: _ =>
      let ext := extension filename in
      let mode := if bool_decide (ext = str ".bas") || bool_decide (ext = str ".BAS") then EDITOR_MODE_BASIC else EDITOR_MODE_TEXT in
      r ← on_ed (editor_open uninit filename mode);
      if r =? 0 then b ← on_ed (editor_run uninit depth); mret (ended b) else mret Returned
  end.

Definition cmd_write (args : list (list Z)) : S unit :=
  match args with
  | filename :: w :: ws =>
      there ← on_fs (fs_exists filename);
      let fill : S unit :=
        let content := write_words true (w :: ws) [] in
        (* content[pos++] = '\n'; content[pos] = '\0' *)
        if FS_MAX_FILE_SIZE <? Z.of_nat (length content) + 2 then sfault else
        _ ← on_fs (fs_write uninit filename (content ++ [NL]) (Z.of_nat (length content) + 1)); mret tt in
      if negb there then
        ret ← on_fs (fs_create_file uninit filename);
        if negb (ret =? FS_ERR_OK) then say_line "write: cannot create file" else fill
      else
        dir ← on_fs (fs_is_dir filename);
        if dir : bool then say_line "write: is a directory" else fill
  | _ => say_line "write: usage: write <file> <text>"
  end.

Definition print_cpu (total_ticks : Z) (t : task) : S unit :=
  let cpu_percent := if 0 <? t_cpu_ticks t then u32 (t_cpu_ticks t * 100) / total_ticks else 0 in
  _ ← console_write_dec (u32 (t_pid t)); _ ← say "   ";
  _ ← console_write_dec cpu_percent; _ ← say "%   ";
  _ ← say (state_name (t_state t)); newline.
Definition cmd_cpu : S unit :=
  s ← sget;
  let total_ticks := sched_get_total_ticks (s_sched s) in
  if total_ticks =? 0 then say_line "No CPU data yet." else
  _ ← say_line "PID  CPU%   STATE"; _ ← say_line "------------------";
  _ ← each_task (print_cpu total_ticks);
  idle ← sopt (sched_get_idle_task (s_sched s));
  if idle =? 0 then mret tt else
  t ← sopt (tasks (s_sched s) !! idle);
  let idle_percent := u32 (t_cpu_ticks t * 100) / total_ticks in
  _ ← console_write (NL :: str "Total CPU used: "); _ ← console_write_dec (u32 (100 - idle_percent)); say_line "%".

Definition cmd_sysmon : S unit :=
  s ← sget; sysmon_print_summary (s_frames s) (ks (s_sched s)) (Ports.ticks (s_io s)) (s_sched s).
Definition cmd_trace : S unit := s ← sget; debug_print_trace (s_trace s).
Definition cmd_clear_trace : S unit := s ← sget; t ← debug_clear_trace (s_trace s); smod (fun s => with_trace s t).

Definition cmd_memdump (args : list (list Z)) : S unit :=
  match args with
  | [] => say_line "memdump: usage: memdump <address> [count]"
  | a :: rest =>
      let addr := foldl hex_digit 0 a in
      let count := match rest with c :: _ => parse_count c 0 | [] => 16 end in
      s ← sget; debug_dump_memory (lin_word 4 (space_of s)) addr count
  end.

Definition cmd_register_dump (eax ebx ecx edx esi edi ebp esp eip : Z) : S unit :=
  debug_dump_registers eax ebx ecx edx esi edi ebp esp eip.

Definition cmd_basic : S ran :=
  s ← sget;
  o ← on_ed (on_basic (basic_interactive_mode depth (input (s_ed s))));
  match o with
  | None => mret Waiting
  | Some rest =>
      _ ← on_ed (put_input rest);
      _ ← console_write (NL :: str "Exited BASIC interpreter" ++ [NL]); mret Returned
  end.

Definition on_loader {A} (m : ST (driver (loader pmm D) P) A) : S (A * elf_load_result) := fun s =>
  match m (Driver (Loader (space_of s) (fs_of s) (LoadResult 0 0)) (s_io s) (klog_of s)) with
  | Some (a, d) => Some ((a, Elf.result (own d)),
      with_klog (with_io (with_fs (with_space s (Elf.space (own d))) (Elf.files (own d))) (io d)) (Ports.klog d))
  | None => None
  end.
Definition on_creation (f : sched heap -> option (Z * sched heap)) : S (option task) := fun s =>
  '(a, c) ← f (s_sched s);
  if a =? 0 then Some (None, with_sched s c) else t ← tasks c !! a; Some (Some t, with_sched s c).

Definition cmd_spawn : S unit :=
  _ ← say_line "Loading init.elf from initrd...";
  let elf_size := initrd_get_init_size in
  if elf_size =? 0 then say_line "Error: No init binary in initrd" else
  _ ← say "Init binary size: "; _ ← console_write_dec elf_size; _ ← say_line " bytes";
  s ← sget;
  '(r, result) ← on_loader (elf_load initrd_get_init elf_size (current_directory (s_vmm s)) true);
  if negb (r =? 0) then say_line "Error: Failed to load ELF binary" else
  _ ← say "Entry point: 0x"; _ ← console_write (hex8 (entry_point result)); _ ← newline;
  t ← on_creation (fun c => task_create_user user_task_entry c (entry_point result) 1);
  match t with
  | Some t =>
      _ ← on_con (on_tty (vterm_set_owner VTERM_INIT (t_pid t)));
      _ ← info "User init spawned on terminal 1 (Alt+F2)";
      _ ← say "Created user task with PID "; _ ← console_write_dec (u32 (t_pid t)); say_line " on terminal 1 (Alt+F2 to view)"
  | None => _ ← log_by (fun now => log_error now (Some (str "Failed to create user task"))); say_line "Failed to create user task"
  end.

Definition print_terminal (i : Z) : S unit :=
  vt ← on_con (on_tty (term i));
  _ ← say "  "; _ ← console_write_dec i; _ ← say ": "; _ ← console_write (vname vt);
  _ ← (if 0 <=? owner_pid vt then _ ← say " (PID "; _ ← console_write_dec (owner_pid vt); say ")" else mret tt);
  _ ← (if active vt then say " [active]" else mret tt);
  newline.
Definition cmd_tty (args : list (list Z)) : S unit :=
  match args with
  | [] =>
      _ ← say "Current terminal: "; id ← on_con (on_tty vterm_get_active_id); _ ← console_write_dec id; _ ← newline;
      _ ← say_line "Terminals:";
      _ ← each print_terminal (seqZ 0 VTERM_MAX_COUNT);
      say_line "Use Alt+F1-F4 to switch, or 'tty N'"
  | a :: _ =>
      let term_id := match a with c :: _ => c - 48 | [] => -48 end in
      if (0 <=? term_id) && (term_id <? VTERM_MAX_COUNT) then _ ← on_con (on_tty (vterm_switch term_id)); mret tt
      else say_line "Invalid terminal ID (0-3)"
  end.

(** The body of the task that [forktest] creates. *)
Definition fork_test_child : S ran :=
  _ ← say_line "[child] Child process running";
  _ ← each (fun i => _ ← say "[child] tick "; _ ← console_write_dec i; newline) (seqZ 0 3);
  _ ← say_line "[child] Child exiting";
  s ← sget;
  let a := sched_get_current (s_sched s) in
  _ ← (if negb (a =? 0) then t ← sopt (tasks (s_sched s) !! a); on_sched (fun c => task_exit c (t_id t) 0) else mret tt);
  mret Halted.
Definition cmd_forktest : S unit :=
  _ ← say_line "Creating fork test task...";
  t ← on_creation (fun c => task_create user_task_entry c fork_test_entry 1 true);
  match t with
  | Some t => _ ← say "Created test task with PID "; _ ← console_write_dec (u32 (t_pid t)); newline
  | None => say_line "Failed to create test task"
  end.

Definition suite_line (name text : string) : S unit :=
  _ ← console_set_color VGA_LIGHT_CYAN VGA_BLACK; _ ← say name; _ ← console_set_color VGA_LIGHT_GREY VGA_BLACK; say_line text.
Definition cmd_test (args : list (list Z)) : S unit :=
  match args with
  | [] =>
      _ ← say_lines ["Usage: test <command>"; "Commands:"; "  all           - Run all test suites"; "  list          - List available suites";
                     "  <suite>       - Run a specific suite"; "  <suite> <test>- Run a specific test"]%string;
      console_write (NL :: str "Suites: pmm, heap, string, fs, ipc, sched" ++ [NL])
  | a :: rest =>
      if bool_decide (a = str "all") then run_all_tests_console else
      if bool_decide (a = str "list") then
        _ ← say_line "Available test suites:";
        _ ← suite_line "  pmm    " "- Physical Memory Manager (8 tests)"; _ ← suite_line "  heap   " "- Kernel Heap (12 tests)";
        _ ← suite_line "  string " "- String Functions (22 tests)"; _ ← suite_line "  fs     " "- Filesystem (19 tests)";
        _ ← suite_line "  ipc    " "- Inter-Process Communication (11 tests)"; _ ← suite_line "  sched  " "- Scheduler (11 tests)";
        _ ← say "  types  "; _ ← console_set_color VGA_LIGHT_GREY VGA_BLACK; _ ← say_line "- Types (4 tests)";
        _ ← say "  String  "; _ ← console_set_color VGA_LIGHT_GREY VGA_BLACK; _ ← say_line "- String (13 tests)";
        console_write (NL :: str "Total: 93 unit tests" ++ [NL])
      else match rest with
      | [] =>
          if has_suite a then run_suite_console a
          else _ ← say "Unknown test suite: "; _ ← console_write a; console_write (NL :: str "Use 'test list' to see available suites." ++ [NL])
      | b :: _ =>
          if has_suite a then run_single_test_console a b
          else _ ← say "Unknown test suite: "; _ ← console_write a; newline
      end
  end.

Definition cmd_unknown (cmd : list Z) : S unit :=
  _ ← say "Unknown command: "; _ ← console_write cmd; console_write (NL :: str "Type 'help' for available commands." ++ [NL]).

Definition returns (m : S unit) : S ran := _ ← m; mret Returned.

Definition cmd_kill_arg (args : list (list Z)) : S unit :=
  match args with
  | [] => say_line "kill: missing PID operand"
  | a :: _ => match parse_pid a 0 with None => say_line "kill: invalid PID" | Some pid => cmd_kill pid end
  end.

(** [strcmp(argv[0], name) == 0] *)
Definition is_cmd (argv0 : list Z) (name : string) : bool := bool_decide (argv0 = str name).
Definition dispatch (argv0 : list Z) (args : list (list Z)) : S ran :=
  if is_cmd argv0 "help" then returns cmd_help else
  if is_cmd argv0 "clear" then returns cmd_clear else
  if is_cmd argv0 "ps" then returns cmd_ps else
  if is_cmd argv0 "kill" then returns (cmd_kill_arg args) else
  if is_cmd argv0 "mem" then returns cmd_mem else
  if is_cmd argv0 "defrag" then returns cmd_defrag else
  if is_cmd argv0 "echo" then returns (cmd_echo args) else
  if is_cmd argv0 "uptime" then returns cmd_uptime else
  if is_cmd argv0 "ver" || is_cmd argv0 "version" then returns cmd_version else
  if is_cmd argv0 "ls" then returns (cmd_ls args) else
  if is_cmd argv0 "cd" then returns (cmd_cd args) else
  if is_cmd argv0 "pwd" then returns cmd_pwd else
  if is_cmd argv0 "cat" then returns (cmd_cat args) else
  if is_cmd argv0 "mkdir" then returns (cmd_mkdir args) else
  if is_cmd argv0 "rm" then returns (cmd_rm args) else
  if is_cmd argv0 "rmdir" then returns (cmd_rmdir args) else
  if is_cmd argv0 "touch" then returns (cmd_touch args) else
  if is_cmd argv0 "edit" then cmd_edit args else
  if is_cmd argv0 "write" then returns (cmd_write args) else
  if is_cmd argv0 "log" then returns cmd_log else
  if is_cmd argv0 "clcache" then returns cmd_clear_cache else
  if is_cmd argv0 "shutdown" then cmd_shutdown else
  if is_cmd argv0 "reboot" then cmd_reboot else
  if is_cmd argv0 "cpu" then returns cmd_cpu else
  if is_cmd argv0 "sysmon" then returns cmd_sysmon else
  if is_cmd argv0 "trace" then returns cmd_trace else
  if is_cmd argv0 "clrtrace" then returns cmd_clear_trace else
  if is_cmd argv0 "memdump" then returns (cmd_memdump args) else
  if is_cmd argv0 "registers" then
    s ← sget;
    let '(eax, ebx, ecx, edx, esi, edi, ebp, esp, eip) := arch_get_registers s in
    returns (cmd_register_dump eax ebx ecx edx esi edi ebp esp eip) else
  if is_cmd argv0 "basic" then cmd_basic else
  if is_cmd argv0 "spawn" then returns cmd_spawn else
  if is_cmd argv0 "forktest" then returns cmd_forktest else
  if is_cmd argv0 "tty" then returns (cmd_tty args) else
  if is_cmd argv0 "sync" then returns cmd_sync else
  if is_cmd argv0 "diskinfo" then returns cmd_diskinfo else
  if is_cmd argv0 "disksetup" then cmd_disksetup else
  if is_cmd argv0 "test" then returns (cmd_test args) else
  if is_cmd argv0 "dash" then dashboard else
  returns (cmd_unknown argv0).

Definition execute_command (cmd : list Z) : S ran :=
  match parse_args cmd with [] => mret Returned | argv0 :: args => dispatch argv0 args end.

(** *** The loop *)

Variable timer_wait : Z -> S unit.
(** A command that does not return has no result here. *)
Definition execute (cmd : list Z) : S unit := r ← execute_command cmd; match r with Returned => mret tt | _ => sfault end.

Notation L := (ST (line (shell D P))).

Definition shell_init : L unit :=
  _ ← smod (fun s => set_pos s 0);
  _ ← store_cmd 0 (replicate CMD_BUFFER_SIZE 0);
  on_world (
    _ ← on_fs fs_init;
    _ ← smod (fun s => with_trace (with_sysmon s sysmon_init) debug_utils_init);
    _ ← on_ed (on_basic basic_init);
    _ ← on_ed editor_init;
    _ ← info "Filesystem initialized"; _ ← info "System monitoring initialized"; _ ← info "Debug utilities initialized";
    _ ← info "BASIC interpreter initialized"; info "Editor initialized").

(** The endless loop, up to the last of the keys that will be pressed: a turn takes one
    at least. *)
Fixpoint shell_loop (fuel : nat) : L unit :=
  match fuel with
  | O => mret tt
  | Datatypes.S fuel =>
      s ← sget;
      match input (s_ed (world s)) with
      | [] => mret tt
      | c :: rest => _ ← on_world (on_ed (put_input rest)); _ ← shell_key execute timer_wait c; shell_loop fuel
      end
  end.

Definition shell_run : L unit :=
  _ ← shell_init;
  _ ← on_world (
    _ ← info "Shell started";
    _ ← console_write (NL :: str "mexOS Shell - Type 'help' for commands" ++ [NL; NL]);
    shell_prompt);
  _ ← smod (fun s => set_history_pos s (i32 (history_count s)));
  _ ← store_temp 0 (replicate CMD_BUFFER_SIZE 0);
  s ← sget; shell_loop (Datatypes.S (length (input (s_ed (world s))))).
End commands.

(** ** What a command prints *)

Lemma on_zoom_law {D P A} (m : ST console A) (Q : A -> console -> Prop) (P0 : console -> Prop) : tri P0 m Q ->
  tri (fun s : shell D P => P0 (con_of s)) (on_con m) (fun a s => Q a (con_of s)).
Proof. intros Hm. unfold on_con. eapply tri_zoom; [exact Hm|done|done]. Qed.

(** The console of the shell keeps its promises. *)
#[export, refine] Instance shell_console_laws {D P} `{BlockDev D} `{Ports P} : ConsoleLaws (shell D P) :=
  {| con_ok s := con_ok (con_of s); con_text s := con_text (con_of s) |}.
Proof.
  - intros t c. apply (on_zoom_law _ (fun _ x => con_ok x /\ con_text x = t ++ [c]) (fun x => con_ok x /\ con_text x = t)), console_putchar_law.
  - intros t l. apply (on_zoom_law _ (fun _ x => con_ok x /\ con_text x = t ++ l) (fun x => con_ok x /\ con_text x = t)), console_write_law.
  - intros t v Hv. apply (on_zoom_law _ (fun _ x => con_ok x /\ con_text x = t ++ dec_text v) (fun x => con_ok x /\ con_text x = t)).
    by apply console_write_dec_law.
  - intros t fg bg. apply (on_zoom_law _ (fun _ x => con_ok x /\ con_text x = t) (fun x => con_ok x /\ con_text x = t)), console_set_color_law.
  - intros t. apply (on_zoom_law _ (fun _ x => con_ok x /\ con_text x = t) (fun x => con_ok x /\ con_text x = t)), console_clear_law.
Defined.

Section proofs.
Context {D : Type} `{BlockDevLaws D} {P : Type} `{Ports P}.
Implicit Types (s : shell D P).
Notation S := (Sh D P).

Lemma with_con_twice s c c' : with_con (with_con s c) c' = with_con s c'.
Proof. done. Qed.
Lemma with_con_same s : with_con s (con_of s) = s.
Proof. by destruct s as [[? ? ? ? ? ? ? [] ? ?] ? ? ? ? ? ?]. Qed.
Lemma with_fs_same s : with_fs s (fs_of s) = s.
Proof. by destruct s as [[] ? ? ? ? ? ?]. Qed.

(** The computation prints [l] and changes nothing but the console. *)
Definition writes (m : S unit) (l : list Z) : Prop := forall s, con_ok (con_of s) ->
  exists c, m s = Some (tt, with_con s c) /\ con_ok c /\ con_text c = con_text (con_of s) ++ l.

Lemma writes_on (m : ST console unit) l : Console.prints m l -> writes (on_con m) l.
Proof. intros Hm s Hs. destruct (Console.prints_run _ _ _ Hm Hs) as (c & E & Hc). exists c. split; [|done]. unfold on_con, zoom. by rewrite E. Qed.
Lemma writes_write l : writes (console_write l) l.
Proof. apply writes_on, Console.prints_write. Qed.
Lemma writes_say x : writes (say x) (str x).
Proof. apply writes_write. Qed.
Lemma writes_line x : writes (say_line x) (str x ++ [NL]).
Proof. apply writes_write. Qed.
Lemma writes_newline : writes newline [NL].
Proof. apply writes_write. Qed.
Lemma writes_putchar c : writes (console_putchar c) [c].
Proof. apply writes_on, Console.prints_putchar. Qed.
Lemma writes_dec v : is_u32 v -> writes (console_write_dec v) (dec_text v).
Proof. intros Hv. by apply writes_on, Console.prints_dec. Qed.
Lemma writes_clear : writes console_clear [].
Proof. apply writes_on, Console.prints_clear. Qed.
Lemma writes_color fg bg : writes (console_set_color fg bg) [].
Proof. apply writes_on, Console.prints_color. Qed.
Lemma writes_ret : writes (mret tt) [].
Proof. intros s Hs. exists (con_of s). by rewrite with_con_same, app_nil_r. Qed.
Lemma writes_bind m1 m2 l1 l2 : writes m1 l1 -> writes m2 l2 -> writes (_ ← m1; m2) (l1 ++ l2).
Proof.
  intros Hm1 Hm2 s Hs. destruct (Hm1 s Hs) as (c1 & E1 & Hc1 & T1). destruct (Hm2 (with_con s c1) Hc1) as (c2 & E2 & Hc2 & T2).
  exists c2. rewrite (run_bind _ _ _ _ _ E1), E2. split; [done|]. split; [done|]. change (con_of (with_con s c1)) with c1 in T2.
  by rewrite T2, T1, app_assoc.
Qed.
Lemma writes_if (b : bool) m1 m2 l1 l2 : writes m1 l1 -> writes m2 l2 -> writes (if b then m1 else m2) (if b then l1 else l2).
Proof. by destruct b. Qed.
Lemma writes_each {X} (f : X -> S unit) (g : X -> list Z) l : (forall x, x ∈ l -> writes (f x) (g x)) -> writes (each f l) (l ≫= g).
Proof.
  intros Hf. induction l as [|x l IH]; [apply writes_ret|]. cbn [each mbind list_bind].
  apply writes_bind; [apply Hf; by left|]. apply IH. intros y Hy. apply Hf. by right.
Qed.

(** A command that only prints. *)
Lemma writes_returns m l s : writes m l -> con_ok (con_of s) ->
  exists c, returns m s = Some (Returned, with_con s c) /\ con_ok c /\ con_text c = con_text (con_of s) ++ l.
Proof. intros Hm Hs. destruct (Hm s Hs) as (c & E & Hc). exists c. split; [|done]. unfold returns. by rewrite (run_bind _ _ _ _ _ E). Qed.
End proofs.

Ltac writes :=
  repeat lazymatch goal with
  | |- writes (say _) _ => apply writes_say
  | |- writes (say_line _) _ => apply writes_line
  | |- writes newline _ => apply writes_newline
  | |- writes (console_write _) _ => apply writes_write
  | |- writes (console_putchar _) _ => apply writes_putchar
  | |- writes (console_write_dec _) _ => apply writes_dec
  | |- writes console_clear _ => apply writes_clear
  | |- writes (console_set_color _ _) _ => apply writes_color
  | |- writes (mret tt) _ => apply writes_ret
  | |- writes (mbind _ _) _ => apply writes_bind
  end.

(** ** Commands that only print *)

(** The commands that [execute_command] knows. *)
Definition command_names : list string :=
  ["help"; "clear"; "ps"; "kill"; "mem"; "defrag"; "echo"; "uptime"; "ver"; "version"; "ls"; "cd"; "pwd"; "cat"; "mkdir"; "rm"; "rmdir";
   "touch"; "edit"; "write"; "log"; "clcache"; "shutdown"; "reboot"; "cpu"; "sysmon"; "trace"; "clrtrace"; "memdump"; "registers"; "basic";
   "spawn"; "forktest"; "tty"; "sync"; "diskinfo"; "disksetup"; "test"; "dash"]%string.

Definition unknown_text (w : list Z) : list Z :=
  str "Unknown command: " ++ w ++ NL :: str "Type 'help' for available commands." ++ [NL].

(** One line of [ps]. *)
Definition ps_line (t : task) : list Z :=
  str "  " ++ dec_text (t_pid t) ++ str "  " ++ str (state_column (t_state t)) ++ dec_text (t_priority t) ++ [NL].
Definition ps_head : list Z := (str "PID  STATE    PRIORITY" ++ [NL]) ++ str "----------------------" ++ [NL].

Lemma queue_tasks_spec m fuel p q : qseg m p q -> (length q <= fuel)%nat ->
  exists ts, queue_tasks fuel m p = Some ts /\ Forall2 (fun a t => m !! a = Some t) q ts.
Proof.
  revert p q. induction fuel as [|fuel IH]; intros p [|a q] Hq Hl; cbn [length] in Hl; try lia; cbn in Hq.
  1,2: subst p; exists []; done.
  destruct Hq as (-> & Ha & t & Ht & Hq). destruct (IH _ _ Hq ltac:(lia)) as (ts & E & Hts).
  exists (t :: ts). cbn [queue_tasks]. replace (a =? 0) with false by lia. rewrite Ht. cbn [mbind option_bind]. rewrite E. split; [done|by constructor].
Qed.

Lemma each_task_writes {D P} `{BlockDev D} `{Ports P} (f : task -> Sh D P unit) g (s : shell D P) L q :
  sinv (s_sched s) L q -> con_ok (con_of s) -> (forall a t, tasks (s_sched s) !! a = Some t -> writes (f t) (g t)) ->
  exists ts c, Forall2 (fun a t => tasks (s_sched s) !! a = Some t) q ts /\ each_task f s = Some (tt, with_con s c) /\
    con_ok c /\ con_text c = con_text (con_of s) ++ (ts ≫= g).
Proof.
  intros Hq Hc Hf. destruct (queue_tasks_spec _ _ _ _ (si_queue _ _ _ (si_core _ _ _ Hq)) (score_size _ _ _ (si_core _ _ _ Hq))) as (ts & E & Hts).
  assert (Hw : writes (each f ts) (ts ≫= g)).
  { apply writes_each. intros t (i & Hi)%list_elem_of_lookup. destruct (Forall2_lookup_r _ _ _ _ _ Hts Hi) as (a & _ & Ha). by apply (Hf a). }
  destruct (Hw s Hc) as (c & Ec & Hc'). exists ts, c. split; [done|]. split; [|done].
  unfold each_task. rewrite run_get. unfold task_list, sched_get_task_list. rewrite E. exact Ec.
Qed.

Section printing.
Context {D : Type} `{BlockDevLaws D} {P : Type} `{Ports P}.
Implicit Types (s : shell D P).
Notation S := (Sh D P).
Variables (uninit : Z -> list Z) (user_task_entry fork_test_entry initrd_get_init initrd_get_init_size : Z).
Variables (arch_get_registers : shell D P -> Z * Z * Z * Z * Z * Z * Z * Z * Z) (depth polls : nat).
Variables (disk_installer_dialog : S (option Z)) (dashboard : S ran) (has_suite : list Z -> bool).
Variables (run_all_tests_console : S unit) (run_suite_console : list Z -> S unit) (run_single_test_console : list Z -> list Z -> S unit).
Notation execute_command := (execute_command uninit user_task_entry fork_test_entry initrd_get_init initrd_get_init_size arch_get_registers depth polls
  disk_installer_dialog dashboard has_suite run_all_tests_console run_suite_console run_single_test_console).
Notation dispatch := (dispatch uninit user_task_entry fork_test_entry initrd_get_init initrd_get_init_size arch_get_registers depth polls
  disk_installer_dialog dashboard has_suite run_all_tests_console run_suite_console run_single_test_console).

Lemma dispatch_unknown w args : (forall n, n ∈ command_names -> w <> str n) -> dispatch w args = returns (cmd_unknown w).
Proof.
  intros Hn. assert (Hf : forall n, n ∈ command_names -> is_cmd w n = false) by (intros n Hin; apply bool_decide_eq_false_2; by apply Hn).
  unfold Shell.dispatch. rewrite !Hf by (apply (bool_decide_unpack _); vm_compute; exact I). done.
Qed.

Lemma dispatch_ps args : dispatch (str "ps") args = returns cmd_ps.
Proof. reflexivity. Qed.

(** a line whose first word is no command is reported with that word, and changes nothing
    but the terminals; an empty line changes nothing at all. *)
Theorem shell_unknown_command s cmd w args :
  con_ok (con_of s) -> parse_args cmd = w :: args -> (forall n, n ∈ command_names -> w <> str n) ->
  exists c, execute_command cmd s = Some (Returned, with_con s c) /\ con_ok c /\ con_text c = con_text (con_of s) ++ unknown_text w /\
    execute_command [] s = Some (Returned, s).
Proof.
  intros Hc Hp Hn. destruct (writes_returns (cmd_unknown w) (unknown_text w) s) as (c & E & Hc' & Ht); [|done|].
  { unfold cmd_unknown, unknown_text. writes. }
  exists c. split; [|done]. unfold Shell.execute_command. rewrite Hp, dispatch_unknown by done. exact E.
Qed.

(** [ps] prints a line for every task of the run queue, in its order, with the PID, the
    state and the priority of the task, and changes nothing. *)
Theorem shell_ps_lists_queue s L q args cmd :
  con_ok (con_of s) -> sinv (s_sched s) L q -> (forall a t, tasks (s_sched s) !! a = Some t -> is_u8 (t_priority t)) ->
  parse_args cmd = str "ps" :: args ->
  exists ts c, Forall2 (fun a t => tasks (s_sched s) !! a = Some t) q ts /\
    execute_command cmd s = Some (Returned, with_con s c) /\ con_ok c /\ con_text c = con_text (con_of s) ++ ps_head ++ (ts ≫= ps_line).
Proof.
  intros Hc Hq Hprio Hp. set (m := _ ← say_line "PID  STATE    PRIORITY"; say_line "----------------------" : S unit).
  destruct ((ltac:(unfold m, ps_head; writes) : writes m ps_head) s Hc) as (c1 & E1 & Hc1 & T1).
  destruct (each_task_writes print_task ps_line (with_con s c1) L q Hq Hc1) as (ts & c & Hts & E2 & Hc2 & T2).
  { intros a t Ha. pose proof (Hprio a t Ha) as Hpr. destruct (si_ids _ _ _ (si_core _ _ _ Hq) a t Ha) as (Hid & Hpid & _).
    pose proof (si_tid _ _ _ (si_core _ _ _ Hq)). unfold print_task, ps_line. unfold is_u8 in Hpr. rewrite u32_small by lia.
    writes; unfold is_u32; lia. }
  exists ts, c. split; [done|]. split; [|split; [done|]].
  - unfold Shell.execute_command. rewrite Hp, dispatch_ps. unfold returns.
    assert (E : cmd_ps s = Some (tt, with_con s c)); [|by rewrite (run_bind _ _ _ _ _ E)].
    unfold cmd_ps. rewrite <- (bind_assoc _ _ _ s). rewrite (run_bind _ _ _ _ _ E1), E2. done.
  - change (con_of (with_con s c1)) with c1 in T2. by rewrite T2, T1, app_assoc.
Qed.
End printing.

(** ** kill *)

Lemma parse_pid_value l pid : Forall (fun c => 48 <= c <= 57) l -> 0 <= pid < 256 ->
  parse_pid l pid = Some ((pid * 10 ^ Z.of_nat (length l) + dec_value l) mod 256).
Proof.
  intros Hl. revert pid. induction Hl as [|c l Hc Hl IH]; intros pid Hp; cbn [parse_pid length].
  - cbn. f_equal. rewrite Z.mul_1_r, Z.add_0_r, Z.mod_small; lia.
  - replace ((c <? 48) || (57 <? c)) with false by lia. unfold u8. rewrite IH by (apply Z.mod_pos_bound; lia). f_equal.
    rewrite dec_value_cons, Nat2Z.inj_succ, Z.pow_succ_r by lia. generalize (10 ^ Z.of_nat (length l)), (dec_value l). intros T v.
    rewrite Z.add_mod, Z.mul_mod_idemp_l, <- Z.add_mod by lia. f_equal. ring.
Qed.

(** The argument of [kill] is taken modulo 256. *)
Lemma parse_pid_text v : is_u32 v -> parse_pid (dec_text v) 0 = Some (v mod 256).
Proof.
  intros Hv. rewrite parse_pid_value; [by rewrite dec_text_value| |lia].
  eapply Forall_impl; [apply Basic.dec_text_digits; apply Hv|]. intros c. unfold is_digit. lia.
Qed.

Section kill.
Context {D : Type} `{BlockDevLaws D} {P : Type} `{Ports P}.
Implicit Types (s : shell D P).
Notation S := (Sh D P).

(** What [kill] of the PID [pid] leaves of the scheduler, and what it prints. *)
Inductive killed (c : sched heap) (L : gmap Z Z) (q : list Z) (pid : Z) (k : sched heap) : list Z -> Prop :=
| killed_task b t l r : b <> current_task c -> tasks c !! b = Some t -> t_pid t = pid -> q = l ++ b :: r ->
    sinv k (drop_blocks L b t) (l ++ r) -> tasks k !! b = None -> current_task k = current_task c ->
    (forall b' u, b' <> b -> tasks c !! b' = Some u -> exists n, tasks k !! b' = Some (Sched.set_next u n)) ->
    killed c L q pid k (str "Task " ++ dec_text pid ++ str " terminated." ++ [NL])
| killed_current t l r : let b := current_task c in tasks c !! b = Some t -> t_pid t = pid -> q = l ++ b :: r ->
    score k (drop_blocks L b t) (l ++ r) -> tasks k !! b = None -> current_task k = b -> sched_tick k = None ->
    (forall b' u, b' <> b -> tasks c !! b' = Some u -> exists n, tasks k !! b' = Some (Sched.set_next u n)) ->
    killed c L q pid k (str "Task " ++ dec_text pid ++ str " terminated." ++ [NL])
| killed_none : (forall b t, tasks c !! b = Some t -> t_pid t <> pid) -> k = c ->
    killed c L q pid k (str "No such task with PID " ++ dec_text pid ++ str "." ++ [NL]).

Lemma cmd_kill_run s L q pid : con_ok (con_of s) -> sinv (s_sched s) L q -> is_u8 pid ->
  exists k c l, cmd_kill pid s = Some (tt, with_con (with_sched s k) c) /\ con_ok c /\ con_text c = con_text (con_of s) ++ l /\
    killed (s_sched s) L q pid k l.
Proof.
  intros Hc Hq Hpid. unfold is_u8 in Hpid. unfold cmd_kill. rewrite run_get.
  destruct (find_task_spec _ L q (fun t => t_pid t =? pid) (si_core _ _ _ Hq)) as [[Ef Hn]|(l & b & r & t & Hl & Ef & Hb & Ht & Hp & _)]; rewrite Ef.
  - change (mbind ?k (sopt (Some 0)) s) with (k 0 s). cbn beta. cbn [Z.eqb]. destruct (writes_bind (say "No such task with PID ")
      (_ ← console_write_dec pid; say_line ".") _ (dec_text pid ++ str "." ++ [NL]) ltac:(writes) ltac:(writes; unfold is_u32; lia) s Hc) as (c & E & Hc' & T).
    exists (s_sched s), c, (str "No such task with PID " ++ dec_text pid ++ str "." ++ [NL]).
    split; [|split; [done|]; split; [done|]]; [by destruct s|]. apply killed_none; [|done]. intros b t Ht. specialize (Hn b t Ht). cbv beta in Hn. lia.
  - change (mbind ?k (sopt (Some b)) s) with (k b s). cbn beta. replace (b =? 0) with false by lia. rewrite Ht.
    change (mbind ?k (sopt (Some t)) s) with (k t s). cbn beta. cbv beta in Hp. apply Z.eqb_eq in Hp.
    assert (Hout : exists k l', task_destroy (s_sched s) (t_id t) = Some k /\ killed (s_sched s) L q pid k l' /\
      l' = str "Task " ++ dec_text pid ++ str " terminated." ++ [NL]).
    { destruct (decide (b = current_task (s_sched s))) as [->|Hne].
      - destruct (destroy_running _ L q t Hq Ht) as (l' & r' & k & Hl' & Ek & Hk & Hck & Hkb & Hko & Htick).
        exists k. eexists. split; [done|]. split; [by eapply killed_current|done].
      - destruct (destroy_sinv _ L q b t Hq Ht Hne) as (l' & r' & k & Hl' & Ek & Hk & Hck & Hkb & Hko & _).
        exists k. eexists. split; [done|]. split; [by eapply killed_task|done]. }
    destruct Hout as (k & l' & Ek & Hk & ->).
    assert (E1 : on_sched (fun c => task_destroy c (t_id t)) s = Some (tt, with_sched s k)) by (unfold on_sched; by rewrite Ek).
    rewrite (run_bind _ _ _ _ _ E1).
    destruct (writes_bind (say "Task ") (_ ← console_write_dec pid; say_line " terminated.") _ (dec_text pid ++ str " terminated." ++ [NL])
      ltac:(writes) ltac:(writes; unfold is_u32; lia) (with_sched s k) Hc) as (c & E & Hc' & T).
    exists k, c, (str "Task " ++ dec_text pid ++ str " terminated." ++ [NL]). by split_and!.
Qed.

Variables (uninit : Z -> list Z) (user_task_entry fork_test_entry initrd_get_init initrd_get_init_size : Z).
Variables (arch_get_registers : shell D P -> Z * Z * Z * Z * Z * Z * Z * Z * Z) (depth polls : nat).
Variables (disk_installer_dialog : S (option Z)) (dashboard : S ran) (has_suite : list Z -> bool).
Variables (run_all_tests_console : S unit) (run_suite_console : list Z -> S unit) (run_single_test_console : list Z -> list Z -> S unit).
Notation execute_command := (execute_command uninit user_task_entry fork_test_entry initrd_get_init initrd_get_init_size arch_get_registers depth polls
  disk_installer_dialog dashboard has_suite run_all_tests_console run_suite_console run_single_test_console).

(** C27: "kill" with the number [v] removes the task whose PID is [v] modulo 256 from the
    scheduler, releases what it holds and leaves the others alone, or reports that there is
    no such task and changes nothing.  The task that runs is removed like any other, and
    then [current_task] is left at its released structure, where the next timer tick
    faults. *)
Theorem shell_kill_terminates s L q v args cmd :
  con_ok (con_of s) -> sinv (s_sched s) L q -> is_u32 v -> parse_args cmd = str "kill" :: dec_text v :: args ->
  exists k c l, execute_command cmd s = Some (Returned, with_con (with_sched s k) c) /\ con_ok c /\
    con_text c = con_text (con_of s) ++ l /\ killed (s_sched s) L q (v mod 256) k l.
Proof.
  intros Hc Hq Hv Hp. destruct (cmd_kill_run s L q (v mod 256) Hc Hq) as (k & c & l & E & Hrest); [unfold is_u8; apply Z.mod_pos_bound; lia|].
  exists k, c, l. split; [|done]. unfold Shell.execute_command. rewrite Hp.
  change (Shell.dispatch _ _ _ _ _ _ _ _ _ _ _ _ _ _ (str "kill") ?a) with (returns (cmd_kill_arg (D:=D) (P:=P) a)).
  unfold cmd_kill_arg. rewrite parse_pid_text by done. unfold returns. by rewrite (run_bind _ _ _ _ _ E).
Qed.
End kill.

(** ** A session: write a file, then show it *)

(** A word of a command line, and words with blanks between them. *)
Definition plain (w : list Z) : Prop := w <> [] /\ Forall (fun c => printable c = true /\ c <> 32) w.
Fixpoint join (ws : list (list Z)) : list Z :=
  match ws with [] => [] | [w] => w | w :: ws => w ++ 32 :: join ws end.

Lemma plain_check w : w <> [] -> forallb (fun c => printable c && negb (c =? 32)) w = true -> plain w.
Proof.
  intros Hn Hw. split; [done|]. apply Forall_forall. intros c Hc. rewrite forallb_forall in Hw.
  specialize (Hw c (proj1 (list_elem_of_In _ _) Hc)). apply andb_true_iff in Hw as [? ?%negb_true_iff%Z.eqb_neq]. done.
Qed.

Lemma join_cons w ws : ws <> [] -> join (w :: ws) = w ++ 32 :: join ws.
Proof. by destruct ws. Qed.

Lemma words_from_word w rest acc : plain w \/ (acc <> [] /\ Forall (fun c => printable c = true /\ c <> 32) w) ->
  words_from (w ++ 32 :: rest) acc = (acc ++ w) :: words rest /\ words_from w acc = [acc ++ w].
Proof.
  revert acc. induction w as [|c w IH]; intros acc Hw.
  - destruct Hw as [[[] _]|[Ha _]]; [done|]. cbn. rewrite app_nil_r. by destruct acc.
  - assert (Hc : c <> 32 /\ Forall (fun c => printable c = true /\ c <> 32) w).
    { destruct Hw as [[_ Hw]|[_ Hw]]; apply Forall_cons in Hw as [[_ ?] ?]; done. }
    destruct Hc as [Hc Hw']. cbn [words_from app]. replace (c =? 32) with false by lia.
    replace (acc ++ c :: w) with ((acc ++ [c]) ++ w) by (by rewrite <- app_assoc). apply IH. right. split; [by destruct acc|done].
Qed.

Lemma words_join ws : Forall plain ws -> words (join ws) = ws.
Proof.
  intros Hws. induction Hws as [|w ws Hw Hws IH]; [done|]. destruct ws as [|w' ws].
  - cbn [join]. unfold words. by rewrite (proj2 (words_from_word w [] [] (or_introl Hw))).
  - rewrite join_cons by done. unfold words at 1. rewrite (proj1 (words_from_word w _ [] (or_introl Hw))). cbn [app]. by rewrite IH.
Qed.

Lemma parse_join ws : Forall plain ws -> (length ws <= MAX_ARGS)%nat -> parse_args (join ws) = ws.
Proof. intros Hws Hl. rewrite parse_args_eq, words_join by done. by apply take_ge. Qed.

Lemma join_printable ws : Forall plain ws -> Forall (fun c => printable c = true) (join ws).
Proof.
  intros Hws. induction Hws as [|w ws [_ Hw] Hws IH]; [constructor|].
  assert (Hw' : Forall (fun c => printable c = true) w) by (eapply Forall_impl; [exact Hw|]; by intros c [? _]).
  destruct ws as [|w' ws]; [done|]. rewrite join_cons by done. apply Forall_app. split; [done|]. by constructor.
Qed.

Lemma printable_nonzero l : Forall (fun c => printable c = true) l -> Forall (fun c => c <> 0) l.
Proof. intros Hl. eapply Forall_impl; [exact Hl|]. intros c Hc. unfold printable in Hc. lia. Qed.

Lemma write_words_tail ws acc : Z.of_nat (length acc + length (join ws)) + 3 < FS_MAX_FILE_SIZE -> ws <> [] ->
  write_words false ws acc = acc ++ 32 :: join ws.
Proof.
  revert acc. induction ws as [|w ws IH]; intros acc Hl Hne; [done|]. cbn [write_words].
  destruct ws as [|w' ws].
  - cbn [join] in *. replace (negb _) with false by (unfold FS_MAX_FILE_SIZE in *; lia). replace (FS_MAX_FILE_SIZE <=? _) with false by (unfold FS_MAX_FILE_SIZE in *; lia). done.
  - rewrite join_cons in * by done. rewrite length_app in Hl. cbn [length] in Hl.
    replace (negb _) with false by (unfold FS_MAX_FILE_SIZE in *; lia). replace (FS_MAX_FILE_SIZE <=? _) with false by (unfold FS_MAX_FILE_SIZE in *; lia).
    rewrite IH; [by rewrite <- !app_assoc|rewrite !length_app; cbn [length]; unfold FS_MAX_FILE_SIZE in *; lia|done].
Qed.

(** [cmd_write] stores the words as they were typed. *)
Lemma write_words_join w ws : Z.of_nat (length (join (w :: ws))) + 3 < FS_MAX_FILE_SIZE -> write_words true (w :: ws) [] = join (w :: ws).
Proof.
  intros Hl. cbn [write_words length]. change (negb (Z.of_nat 0 <? FS_MAX_FILE_SIZE - 2)) with false. cbv iota.
  assert (Hw : (length w <= length (join (w :: ws)))%nat) by (destruct ws; [done|rewrite join_cons, length_app by done; lia]).
  change (Z.of_nat 0) with 0. rewrite (proj2 (Z.leb_gt _ _)) by (unfold FS_MAX_FILE_SIZE in *; lia). cbn [app].
  destruct ws as [|w' ws]; [done|]. rewrite join_cons in * by done. rewrite length_app in Hl. cbn [length] in Hl.
  apply write_words_tail; [unfold FS_MAX_FILE_SIZE in *; lia|done].
Qed.

(** Printable keys are echoed and added as long as there is room. *)
Lemma echo_plain ks t : Forall (fun c => printable c = true) ks -> (length t + length ks < CMD_BUFFER_SIZE)%nat ->
  echo t ks = ks /\ foldl edit1 t ks = t ++ ks.
Proof.
  intros Hks. revert t. induction Hks as [|c ks Hc Hks IH]; intros t Hl; cbn [length echo foldl] in *; [by rewrite app_nil_r|].
  assert (Hb : (c =? BACKSPACE) = false) by (unfold printable in Hc; unfold BACKSPACE; lia).
  assert (Ht : (length t <? CMD_BUFFER_SIZE - 1)%nat = true) by (apply Nat.ltb_lt; lia).
  assert (Ee : echo1 t c = [c] /\ edit1 t c = t ++ [c]) by (unfold echo1, edit1; by rewrite Hb, Ht).
  destruct Ee as [-> ->]. destruct (IH (t ++ [c])) as [-> ->]; [rewrite length_app; cbn; lia|]. by rewrite <- app_assoc.
Qed.

Section session.
Context {D : Type} `{BlockDevLaws D} {P : Type} `{Ports P}.
Implicit Types (w : shell D P) (s : line (shell D P)).
Notation S := (Sh D P).
Variable uninit : Z -> list Z.

(** The shell [w0] up to its console: the laws hold with that as well. *)
#[refine, local] Instance frozen_laws (w0 : shell D P) : ConsoleLaws (shell D P) :=
  {| con_ok w := con_ok (con_of w) /\ exists c, w = with_con w0 c; con_text w := con_text (con_of w) |}.
Proof.
  all: set (I := fun (w : shell D P) => con_ok (con_of w) /\ exists c, w = with_con w0 c).
  all: assert (Hw : forall (m : S unit) l t, writes m l -> tri (fun w => I w /\ con_text (con_of w) = t) m (fun _ w => I w /\ con_text (con_of w) = t ++ l)).
  1,3,5,7,9: intros m l t Hm w [[Hc [c0 ->]] <-]; destruct (Hm _ Hc) as (c & E & Hc' & T); eexists tt, _; split; [exact E|];
    split; [split; [done|by exists c]|done].
  - intros t c. apply Hw, writes_putchar.
  - intros t l. apply Hw, writes_write.
  - intros t v Hv. by apply Hw, writes_dec.
  - intros t fg bg. pose proof (Hw _ _ t (writes_color fg bg)) as X. rewrite app_nil_r in X. exact X.
  - intros t. pose proof (Hw _ _ t writes_clear) as X. rewrite app_nil_r in X. exact X.
Defined.

Variables (execute : list Z -> S unit) (timer_wait : Z -> S unit).
Notation shell_key := (shell_key execute timer_wait).
Notation line_wf := (line_wf (H0 := shell_console_laws)).

Lemma line_wf_frozen s w0 : Line.line_wf (H0 := frozen_laws w0) s <-> line_wf s /\ exists c, world s = with_con w0 c.
Proof.
  split.
  - intros [? ? ? ? ? ? ? ? ? [Hw Hc]]. split; [by split|done].
  - intros [[] Hc]. by split.
Qed.

(** A line is typed: only the terminals change. *)
Lemma typed_line s t : line_wf s -> empty_line s -> Forall (fun c => printable c = true) t -> (length t < CMD_BUFFER_SIZE)%nat ->
  exists s1 c, each shell_key t s = Some (tt, s1) /\ world s1 = with_con (world s) c /\ line_wf s1 /\ shows s1 t /\
    history_count s1 = history_count s /\ con_text c = con_text (con_of (world s)) ++ t.
Proof.
  intros Hs (Ht & _) Hp Hl. assert (Hf : Line.line_wf (H0 := frozen_laws (world s)) s).
  { apply line_wf_frozen. split; [done|]. exists (con_of (world s)). by rewrite with_con_same. }
  destruct (type_run (H0 := frozen_laws (world s)) execute timer_wait t s [] Hf Ht) as (s1 & E & Hs1 & Ht1 & (_ & Hn & _) & T).
  { eapply Forall_impl; [exact Hp|]. intros c Hc. by left. }
  apply line_wf_frozen in Hs1 as [Hs1 [c Hw]]. destruct (echo_plain t [] Hp ltac:(done)) as [He Hed]. rewrite Hed in Ht1. rewrite He in T.
  exists s1, c. split; [done|]. split; [done|]. split; [done|]. split; [done|]. split; [done|].
  change (con_text (con_of (world s1)) = con_text (con_of (world s)) ++ t) in T. by rewrite Hw in T.
Qed.

(** A line is typed and executed. *)
Lemma entered_line s t out (Q : shell D P -> Prop) : line_wf s -> empty_line s -> Forall (fun c => printable c = true) t ->
  (length t < CMD_BUFFER_SIZE)%nat -> history_count s < 2147483647 ->
  (forall c, con_ok c -> exists w2, execute t (with_con (world s) c) = Some (tt, w2) /\ con_ok (con_of w2) /\
     con_text (con_of w2) = con_text c ++ out /\ forall c', Q (with_con w2 c')) ->
  exists s', each shell_key (t ++ [NL]) s = Some (tt, s') /\ line_wf s' /\ empty_line s' /\ history_count s' <= history_count s + 1 /\
    Q (world s') /\ con_text (con_of (world s')) = con_text (con_of (world s)) ++ t ++ [NL] ++ out ++ str "mexOS> ".
Proof.
  intros Hs He Hp Hl Hn Hex. destruct (typed_line s t Hs He Hp Hl) as (s1 & c1 & E1 & Hw1 & Hs1 & Ht1 & Hn1 & T1).
  destruct (writes_putchar NL (world s1) (lw_world _ Hs1)) as (c & E & Hcc & T2). destruct (Hex c Hcc) as (w2 & E2 & Hok & T3 & HQ).
  assert (Ew : with_con (world s1) c = with_con (world s) c) by (by rewrite Hw1).
  assert (Hent : entered execute s1 t = Some w2) by (unfold entered; by rewrite (run_bind _ _ _ _ _ E), Ew, E2).
  destruct (enter_runs execute timer_wait s1 t w2 Hs1 Ht1 ltac:(lia) Hent Hok) as (w1 & s' & _ & _ & _ & Epr & Ek & Hs' & He' & _ & Hc' & T').
  exists s'. split.
  { rewrite each_app. rewrite (run_bind _ _ _ _ _ E1). cbn [each]. by rewrite (run_bind (shell_key NL) _ _ _ _ Ek). }
  split; [done|]. split; [done|]. split; [lia|].
  assert (Hpr : writes (shell_prompt : S unit) (str "mexOS> ")).
  { change (str "mexOS> ") with ([] ++ str "mexOS" ++ [] ++ str "> "). unfold shell_prompt. writes. }
  destruct (Hpr w2 Hok) as (c3 & E3 & _ & T4). rewrite Epr in E3. injection E3 as ->. split; [apply HQ|].
  change (con_of (with_con w2 c3)) with c3. rewrite T4, T3, T2, Hw1. change (con_of (with_con (world s) c1)) with c1.
  by rewrite T1, <- !app_assoc.
Qed.

(** The file is there, or it can be made. *)
Definition writable (f : fs D) (path : list Z) : Prop :=
  (exists n, file_at f path n) \/
  (exists idx rp parent base f', resolve_full_path (fs_nodes f) (cwd_idx f) path = Some idx /\ idx < 0 /\
     resolve_path (fs_nodes f) (cwd_idx f) path = Some (rp, parent, base) /\ base <> dot /\ base <> dotdot /\
     fs_create_file uninit path f = Some (FS_ERR_OK, f')).

Lemma on_fs_run {A} (m : F A) w a f : m (fs_of w) = Some (a, f) -> on_fs m w = Some (a, with_fs w f).
Proof. intros E. unfold on_fs, zoom. by rewrite E. Qed.

Lemma cmd_write_run w path x ws : fs_wf (fs_of w) -> writable (fs_of w) path -> Z.of_nat (length (join (x :: ws))) + 3 < FS_MAX_FILE_SIZE ->
  exists f n, cmd_write uninit (path :: x :: ws) w = Some (tt, with_fs w f) /\ fs_wf f /\ file_at f path n /\
    content n = join (x :: ws) ++ [NL] /\ Fs.size n = Z.of_nat (length (join (x :: ws))) + 1.
Proof.
  intros Hwf Hwr Hl. set (text := join (x :: ws)) in *. set (m := _ ← on_fs (fs_write uninit path (text ++ [NL]) (Z.of_nat (length text) + 1)); mret tt : S unit).
  assert (Hfill : forall w1 n, fs_wf (fs_of w1) -> file_at (fs_of w1) path n -> exists f n', m w1 = Some (tt, with_fs w1 f) /\ fs_wf f /\ file_at f path n' /\
      content n' = text ++ [NL] /\ Fs.size n' = Z.of_nat (length text) + 1).
  { intros w1 n Hw1 Hn. destruct (Fs.write_file uninit (fs_of w1) path n (text ++ [NL]) (Z.of_nat (length text) + 1) Hw1) as (f & n' & E & Hf & Hn' & Hsz & Hct); [rewrite length_app; cbn; lia|done|].
    rewrite Z.min_l in * by (unfold FS_MAX_FILE_SIZE in *; lia). exists f, n'. unfold m. rewrite (run_bind _ _ _ _ _ (on_fs_run _ _ _ _ E)).
    split; [done|]. split; [done|]. split; [done|]. split; [|done]. rewrite Hct. apply take_ge. rewrite length_app. cbn. lia. }
  unfold cmd_write. rewrite write_words_join by done. fold text. replace (FS_MAX_FILE_SIZE <? _) with false by (unfold FS_MAX_FILE_SIZE in *; lia). fold m.
  destruct Hwr as [[n Hn]|(idx & rp & pa & base & f' & Er & Hi & Erp & Hd & Hdd & Ec)].
  - destruct Hn as (idx & Er & Hi & Hlk & Hu & Ht). pose proof (fs_exists_spec _ _ _ Er) as Ee. replace (0 <=? idx) with true in Ee by lia.
    rewrite (run_bind _ _ _ _ _ (on_fs_run _ _ _ _ Ee)), with_fs_same. cbn [negb].
    rewrite (run_bind _ _ _ _ _ (on_fs_run _ _ _ _ (fs_is_dir_spec _ _ _ _ Er Hi Hlk))), with_fs_same, Ht. apply (Hfill w n); [done|by exists idx].
  - pose proof (fs_exists_spec _ _ _ Er) as Ee. replace (0 <=? idx) with false in Ee by lia.
    rewrite (run_bind _ _ _ _ _ (on_fs_run _ _ _ _ Ee)), with_fs_same. cbn [negb]. rewrite (run_bind _ _ _ _ _ (on_fs_run _ _ _ _ Ec)).
    change (negb (FS_ERR_OK =? FS_ERR_OK)) with false. cbv iota. destruct (created_file uninit _ _ _ _ _ _ Hwf Ec Erp Hd Hdd) as [Hwf' [n Hn]].
    exact (Hfill (with_fs w f') n Hwf' Hn).
Qed.

Lemma cmd_cat_run w path n text : fs_wf (fs_of w) -> file_at (fs_of w) path n -> content n = text ++ [NL] -> Fs.size n = Z.of_nat (length text) + 1 ->
  Forall (fun c => c <> 0) text -> Z.of_nat (length text) < FS_MAX_FILE_SIZE -> con_ok (con_of w) ->
  exists c, cmd_cat uninit [path] w = Some (tt, with_con w c) /\ con_ok c /\ con_text c = con_text (con_of w) ++ text ++ [NL].
Proof.
  intros Hwf Hn Hct Hsz Hz Hl Hc. unfold cmd_cat. pose proof (Fs.read_file uninit (fs_of w) path n FS_MAX_FILE_SIZE Hwf ltac:(done) Hn) as E.
  unfold FS_MAX_FILE_SIZE in *. rewrite Hct, Hsz, Z.min_r in E by lia. rewrite (run_bind _ _ _ _ _ (on_fs_run _ _ _ _ E)), with_fs_same.
  cbn beta iota. unfold FS_ERR_NOT_FOUND, FS_ERR_IS_DIR. set (r := Z.of_nat (length text) + 1).
  replace (r =? -1) with false by lia. replace (r =? -6) with false by lia. replace (r =? 0) with false by lia.
  replace ((r <? 0) || (4096 <? r)) with false by lia. rewrite (take_ge (text ++ [NL])) by (rewrite length_app; cbn; lia).
  rewrite (take_ge (text ++ [NL])) by (rewrite length_app; cbn; lia).
  rewrite until_nul_id by (apply Forall_app; split; [done|by repeat constructor]).
  destruct (writes_write (text ++ [NL]) w Hc) as (c & Ec & Hc' & T). rewrite (run_bind _ _ _ _ _ Ec).
  replace (Z.to_nat (r - 1)) with (length text) by lia. rewrite lookup_app_r, Nat.sub_diag by lia. exists c. split; [reflexivity|done].
Qed.
End session.

Section claims.
Context {D : Type} `{BlockDevLaws D} {P : Type} `{Ports P}.
Implicit Types (s : line (shell D P)).
Notation S := (Sh D P).
Variables (uninit : Z -> list Z) (user_task_entry fork_test_entry initrd_get_init initrd_get_init_size : Z).
Variables (arch_get_registers : shell D P -> Z * Z * Z * Z * Z * Z * Z * Z * Z) (depth polls : nat).
Variables (disk_installer_dialog : S (option Z)) (dashboard : S ran) (has_suite : list Z -> bool).
Variables (run_all_tests_console : S unit) (run_suite_console : list Z -> S unit) (run_single_test_console : list Z -> list Z -> S unit).
Variable timer_wait : Z -> S unit.
Notation execute := (execute uninit user_task_entry fork_test_entry initrd_get_init initrd_get_init_size arch_get_registers depth polls
  disk_installer_dialog dashboard has_suite run_all_tests_console run_suite_console run_single_test_console).

Lemma execute_write ws path x args w w' : parse_args ws = str "write" :: path :: x :: args ->
  cmd_write uninit (path :: x :: args) w = Some (tt, w') -> execute ws w = Some (tt, w').
Proof.
  intros Hp E. unfold Shell.execute, execute_command. rewrite Hp.
  change (dispatch _ _ _ _ _ _ _ _ _ _ _ _ _ _ (str "write") ?a) with (returns (cmd_write (D:=D) (P:=P) uninit a)).
  unfold returns. unfold mbind, ST_bind in *. by rewrite E.
Qed.
Lemma execute_cat ws args w w' : parse_args ws = str "cat" :: args ->
  cmd_cat uninit args w = Some (tt, w') -> execute ws w = Some (tt, w').
Proof.
  intros Hp E. unfold Shell.execute, execute_command. rewrite Hp.
  change (dispatch _ _ _ _ _ _ _ _ _ _ _ _ _ _ (str "cat") ?a) with (returns (cmd_cat (D:=D) (P:=P) uninit a)).
  unfold returns. unfold mbind, ST_bind in *. by rewrite E.
Qed.

(** C5: what is typed is stored, and what is stored is shown.  The keys of "write file words"
    and "cat file", each with Enter, make the file hold the words and a newline, and the
    terminal shows both lines as they were typed, the contents of the file, and the
    prompt. *)
Theorem shell_write_cat s path ws :
  line_wf s -> empty_line s -> fs_wf (fs_of (world s)) -> writable uninit (fs_of (world s)) path ->
  plain path -> ws <> [] -> Forall plain ws -> (length ws <= 14)%nat ->
  (length (join (str "write" :: path :: ws)) < CMD_BUFFER_SIZE)%nat -> history_count s + 2 < 2147483648 ->
  exists s' n, each (shell_key execute timer_wait) (join (str "write" :: path :: ws) ++ [NL] ++ join [str "cat"; path] ++ [NL]) s = Some (tt, s') /\
    line_wf s' /\ empty_line s' /\ fs_wf (fs_of (world s')) /\ file_at (fs_of (world s')) path n /\ content n = join ws ++ [NL] /\
    con_text (world s') = con_text (world s) ++ (join (str "write" :: path :: ws) ++ [NL]) ++ str "mexOS> " ++
      (join [str "cat"; path] ++ [NL]) ++ (join ws ++ [NL]) ++ str "mexOS> ".
Proof.
  intros Hs He Hwf Hwr Hpath Hne Hws Hlw Hl Hn. destruct ws as [|x ws]; [done|]. clear Hne.
  assert (Hp1 : Forall plain (str "write" :: path :: x :: ws)) by (constructor; [by apply plain_check|by constructor]).
  assert (Hp2 : Forall plain [str "cat"; path]) by (constructor; [by apply plain_check|by apply Forall_singleton]).
  assert (Htl : (length (join (x :: ws)) + length path < CMD_BUFFER_SIZE - 6)%nat).
  { rewrite (join_cons (str "write")), (join_cons path), !length_app in Hl by done. cbn [length] in Hl. rewrite length_app in Hl. cbn [length] in Hl.
    change (length (str "write")) with 5%nat in Hl. unfold CMD_BUFFER_SIZE in *. lia. }
  assert (Hcl : (length (join [str "cat"; path]) < CMD_BUFFER_SIZE)%nat) by (rewrite join_cons, length_app by done; change (length (str "cat")) with 3%nat; cbn [join length]; unfold CMD_BUFFER_SIZE in *; lia).
  destruct (entered_line execute timer_wait s (join (str "write" :: path :: x :: ws)) []
    (fun w => fs_wf (fs_of w) /\ exists n, file_at (fs_of w) path n /\ content n = join (x :: ws) ++ [NL] /\ Fs.size n = Z.of_nat (length (join (x :: ws))) + 1)
    Hs He (join_printable _ Hp1) Hl ltac:(lia)) as (s1 & E1 & Hs1 & He1 & Hn1 & (Hwf1 & n & Hf & Hct & Hsz) & T1).
  { intros c Hc. destruct (cmd_write_run uninit (with_con (world s) c) path x ws Hwf Hwr) as (f & n & E & Hf); [unfold FS_MAX_FILE_SIZE; unfold CMD_BUFFER_SIZE in *; lia|].
    eexists. split; [eapply execute_write; [apply parse_join; [exact Hp1|cbn [length] in *; unfold MAX_ARGS; lia]|exact E]|].
    split; [exact Hc|]. split; [by rewrite app_nil_r|]. intros c'. split; [apply Hf|]. exists n. apply Hf. }
  destruct (entered_line execute timer_wait s1 (join [str "cat"; path]) (join (x :: ws) ++ [NL])
    (fun w => fs_wf (fs_of w) /\ file_at (fs_of w) path n) Hs1 He1 (join_printable _ Hp2) Hcl ltac:(lia)) as (s2 & E2 & Hs2 & He2 & _ & (Hwf2 & Hf2) & T2).
  { intros c Hc. apply Forall_cons in Hp1 as [_ [_ Hxs]%Forall_cons].
    destruct (cmd_cat_run uninit (with_con (world s1) c) path n (join (x :: ws)) Hwf1 Hf Hct Hsz) as (c' & E & Hc' & T);
      [by apply printable_nonzero, join_printable|unfold FS_MAX_FILE_SIZE; unfold CMD_BUFFER_SIZE in *; lia|exact Hc|].
    exists (with_con (world s1) c'). split; [eapply execute_cat; [apply parse_join; [exact Hp2|cbn; unfold MAX_ARGS; lia]|exact E]|]. by split. }
  exists s2, n. split; [|split; [done|split; [done|split; [done|split; [done|split; [done|]]]]]].
  - rewrite app_assoc, each_app, (run_bind _ _ _ _ _ E1). exact E2.
  - change (con_text (world s2)) with (con_text (con_of (world s2))). rewrite T2, T1. by rewrite <- !app_assoc.
Qed.
End claims.

(** ** A shell *)

Definition tty1 : tty := match vterm_init power_on with Some (_, t) => t | None => power_on end.
Lemma tty1_good : Vterm.good [] tty1.
Proof. destruct (tri_init [] power_on power_on_unready) as ([] & t & E & Hg). unfold tty1. by rewrite E. Qed.

Definition shell1 : shell ramdisk unit :=
  Shell (Editor [] zero_buffer [] 0 EDITOR_MODE_TEXT false false (Basic (replicate BASIC_MAX_VARS 0) (replicate AREA 0) 0 0 0 false (Cons true tty1)) Fs.booted [])
    d3 (Vmm 0 0 0 0 0 []) demo_pmm sysmon_init debug_utils_init tt.
Lemma shell1_ok : con_ok (con_of shell1).
Proof. change (cons_ok (Cons true tty1)). unfold cons_ok. cbn [vterm_initialized tty_of]. destruct tty1_good as (A & B & Ht). rewrite Ht. by split. Qed.

(** The commands of this shell. *)
Definition run1 : list Z -> Sh ramdisk unit ran :=
  execute_command unread 99 0 0 0 (fun _ => (0, 0, 0, 0, 0, 0, 0, 0, 0)) 1 100 (mret None) (mret Returned) (fun _ => false) (mret tt) (fun _ => mret tt) (fun _ _ => mret tt).

Lemma shell_unknown_command_witness : exists c, run1 (str "  foo bar") shell1 = Some (Returned, with_con shell1 c) /\
  con_text c = con_text (con_of shell1) ++ unknown_text (str "foo").
Proof.
  assert (Hn : forall n, n ∈ command_names -> str "foo" <> str n).
  { intros n Hn E. assert (Hb : existsb (fun n => bool_decide (str "foo" = str n)) command_names = true).
    { apply existsb_exists. exists n. split; [by apply list_elem_of_In|by apply bool_decide_eq_true_2]. }
    vm_compute in Hb. discriminate Hb. }
  destruct (shell_unknown_command unread 99 0 0 0 (fun _ => (0, 0, 0, 0, 0, 0, 0, 0, 0)) 1 100 (mret None) (mret Returned) (fun _ => false) (mret tt) (fun _ => mret tt)
    (fun _ _ => mret tt) shell1 (str "  foo bar") (str "foo") [str "bar"] shell1_ok eq_refl Hn) as (c & E & _ & T & _).
  exact (ex_intro _ c (conj E T)).
Defined.

Lemma d3_priority a t : tasks d3 !! a = Some t -> is_u8 (t_priority t).
Proof.
  intros Ha. assert (Hall : forallb (fun x => (0 <=? t_priority (snd x)) && (t_priority (snd x) <? 256)) (map_to_list (tasks d3)) = true) by (vm_compute; reflexivity).
  pose proof (proj1 (forallb_forall _ _) Hall (a, t) (proj1 (list_elem_of_In _ _) (proj2 (elem_of_map_to_list _ _ _) Ha))) as Hx.
  clear Hall Ha. cbn [snd] in Hx. unfold is_u8. lia.
Qed.

Lemma shell_ps_lists_queue_witness : exists q ts c, Forall2 (fun a t => tasks d3 !! a = Some t) q ts /\
  run1 (str "ps") shell1 = Some (Returned, with_con shell1 c) /\ con_text c = con_text (con_of shell1) ++ ps_head ++ (ts ≫= ps_line).
Proof.
  destruct (good_of d3 d3_reachable) as (L & q & Hq). 
  destruct (shell_ps_lists_queue unread 99 0 0 0 (fun _ => (0, 0, 0, 0, 0, 0, 0, 0, 0)) 1 100 (mret None) (mret Returned) (fun _ => false) (mret tt) (fun _ => mret tt)
    (fun _ _ => mret tt) shell1 L q [] (str "ps") shell1_ok Hq d3_priority eq_refl) as (ts & c & Hts & E & _ & T).
  exact (ex_intro _ q (ex_intro _ ts (ex_intro _ c (conj Hts (conj E T))))).
Defined.

(** "kill 258" terminates the task with PID 2, and "kill 1" the task that runs. *)
Lemma shell_kill_terminates_witness : exists L q,
  (exists k c l, run1 (str "kill 258") shell1 = Some (Returned, with_con (with_sched shell1 k) c) /\
    con_text c = con_text (con_of shell1) ++ l /\ killed d3 L q 2 k l) /\
  (exists k c l, run1 (str "kill 1") shell1 = Some (Returned, with_con (with_sched shell1 k) c) /\
    con_text c = con_text (con_of shell1) ++ l /\ killed d3 L q 1 k l) /\
  t_pid <$> tasks d3 !! current_task d3 = Some 1.
Proof.
  destruct (good_of d3 d3_reachable) as (L & q & Hq).
  pose proof (shell_kill_terminates unread 99 0 0 0 (fun _ => (0, 0, 0, 0, 0, 0, 0, 0, 0)) 1 100 (mret None) (mret Returned) (fun _ => false) (mret tt) (fun _ => mret tt)
    (fun _ _ => mret tt) shell1 L q) as T.
  destruct (T 258 [] (str "kill 258") shell1_ok Hq ltac:(by split) eq_refl) as (k & c & l & E & _ & Tx & Hk).
  destruct (T 1 [] (str "kill 1") shell1_ok Hq ltac:(by split) eq_refl) as (k' & c' & l' & E' & _ & Tx' & Hk').
  exists L, q. split; [exact (ex_intro _ k (ex_intro _ c (ex_intro _ l (conj E (conj Tx Hk)))))|].
  split; [exact (ex_intro _ k' (ex_intro _ c' (ex_intro _ l' (conj E' (conj Tx' Hk')))))|vm_compute; reflexivity].
Defined.

Definition line1 : line (shell ramdisk unit) :=
  Line (replicate 256 0) 0 (replicate 32 (replicate 256 0)) 0 0 (replicate 256 0) shell1.
Lemma line1_ok : line_wf line1 /\ empty_line line1.
Proof.
  split; [|by split_and!].
  split; match goal with |- forall _, _ => intros r Hr | |- con_ok _ => exact shell1_ok | |- _ = _ => reflexivity | |- _ <= _ < _ => by split | _ => reflexivity end.
  change (r ∈ replicate 32 (replicate 256 0)) in Hr. apply elem_of_replicate in Hr as [-> _]. by vm_compute.
Qed.

(** The keys of "echi", Backspace and "o hi", with Enter, execute "echo hi". *)
Definition execute1 : list Z -> Sh ramdisk unit unit :=
  execute unread 99 0 0 0 (fun _ => (0, 0, 0, 0, 0, 0, 0, 0, 0)) 1 100 (mret None) (mret Returned) (fun _ => false) (mret tt) (fun _ => mret tt) (fun _ _ => mret tt).
Definition echo_keys : list Z := str "echi" ++ [BACKSPACE] ++ str "o hi".
Lemma echo_keys_typing : Forall typing echo_keys.
Proof. unfold echo_keys. cbn. repeat (apply Forall_cons; split; [by (left; reflexivity) || (right; reflexivity)|]). apply Forall_nil. exact I. Qed.
Lemma echo_runs c : con_ok c -> exists c', execute1 (str "echo hi") (with_con shell1 c) = Some (tt, with_con shell1 c') /\ con_ok c'.
Proof.
  intros Hc. assert (Hw : writes (cmd_echo [str "hi"] : Sh ramdisk unit unit) (str "hi" ++ [NL])) by (unfold cmd_echo, echo_args; writes).
  destruct (Hw (with_con shell1 c) Hc) as (c' & E & Hc' & _). exists c'. split; [|exact Hc']. unfold execute1, Shell.execute, execute_command.
  change (parse_args (str "echo hi")) with [str "echo"; str "hi"]. cbv iota.
  change (dispatch _ _ _ _ _ _ _ _ _ _ _ _ _ _ (str "echo") ?a) with (returns (cmd_echo a : Sh ramdisk unit unit)).
  unfold returns. unfold mbind, ST_bind in *. by rewrite E.
Qed.

Lemma line_typed_is_executed_witness : exists s', each (shell_key execute1 (fun _ => mret tt)) (echo_keys ++ [NL]) line1 = Some (tt, s') /\
  commands s' = [str "echo hi"].
Proof.
  destruct line1_ok as [Hw He]. assert (Hf : Line.line_wf (H0 := frozen_laws shell1) line1).
  { apply line_wf_frozen. split; [exact Hw|]. exists (con_of shell1). reflexivity. }
  destruct (line_typed_is_executed (H0 := frozen_laws shell1) execute1 (fun _ => mret tt) line1 echo_keys Hf He echo_keys_typing eq_refl)
    as (s1 & w1 & _ & _ & (Hc & c & Ew) & _ & Hr).
  rewrite Ew in Hc, Hr. destruct (echo_runs c Hc) as (c' & E & Hc').
  destruct (Hr _ E (conj Hc' (ex_intro _ c' eq_refl))) as (s' & Es & _ & _ & _ & Hcm & _).
  exists s'. split; [exact Es|]. rewrite Hcm. vm_compute. reflexivity.
Defined.

Definition a_txt : list Z := str "a.txt".
Lemma a_writable : writable unread Fs.booted a_txt.
Proof.
  right. assert (E : fst <$> fs_create_file unread a_txt Fs.booted = Some 0) by (vm_compute; reflexivity).
  exists (-1), 0, 0, a_txt, (fs_after (fs_create_file unread a_txt Fs.booted)). split; [vm_compute; reflexivity|]. split; [reflexivity|].
  split; [vm_compute; reflexivity|]. split; [discriminate|]. split; [discriminate|]. exact (fs_after_eq _ _ E).
Qed.

Lemma shell_write_cat_witness : exists s' n,
  each (shell_key (execute unread 99 0 0 0 (fun _ => (0, 0, 0, 0, 0, 0, 0, 0, 0)) 1 100 (mret None) (mret Returned) (fun _ => false) (mret tt) (fun _ => mret tt)
    (fun _ _ => mret tt)) (fun _ => mret tt)) (str "write a.txt hello world" ++ [NL] ++ str "cat a.txt" ++ [NL]) line1 = Some (tt, s') /\
  file_at (fs_of (world s')) a_txt n /\ content n = str "hello world" ++ [NL].
Proof.
  destruct line1_ok as [Hw He]. assert (Hf : fs_wf (fs_of (world line1))) by exact booted_wf.
  assert (Hws : Forall plain [str "hello"; str "world"]) by (apply Forall_cons; split; [by apply plain_check|by apply Forall_singleton, plain_check]).
  destruct (shell_write_cat unread 99 0 0 0 (fun _ => (0, 0, 0, 0, 0, 0, 0, 0, 0)) 1 100 (mret None) (mret Returned) (fun _ => false) (mret tt) (fun _ => mret tt)
    (fun _ _ => mret tt) (fun _ => mret tt) line1 a_txt [str "hello"; str "world"] Hw He Hf a_writable (plain_check a_txt ltac:(discriminate) eq_refl) ltac:(discriminate) Hws
    ltac:(cbn; lia) ltac:(cbn; unfold CMD_BUFFER_SIZE; lia) ltac:(reflexivity)) as (s' & n & E & _ & _ & _ & Hn & Hc & _).
  exact (ex_intro _ s' (ex_intro _ n (conj E (conj Hn Hc)))).
Defined.
