(* ===== verification/Installer.v ===== *)
(** ui/disk_installer.c: the dialog that chooses, formats and mounts a drive.

    The dialog is written against the interface [Disks], what it asks of the drivers and of
    the disk file system, on a state that is a console; the shell with its disks implements
    the interface ([shell_disks], on Ata, Ahci and DiskFs).

    The keys are the list of characters that [keyboard_getchar] will return; the result is
    the value returned and the keys that are left, [None] while the dialog waits.  The
    dialog calls itself only after a key, so that the keys bound the calls. *)

From S2P Require Import Prelude Console Log Ports Codec BlockDev DiskFs Fs Editor Ata AtaDev Ahci Vterm Shell.
From S2P Require Import Effects.
Local Open Scope Z_scope.

(** ** Definitions *)

Class Disks (X : Type) := {
  ide_exists : Z -> ST X bool;
  ide_size : Z -> ST X Z;
  (** The first sector: the code and the bytes. *)
  ide_first : Z -> ST X (Z * list Z);
  sata_exists : Z -> ST X bool;
  sata_size : Z -> ST X Z;
  sata_first : Z -> ST X (Z * list Z);
  mount : Z -> ST X Z;
  format : Z -> ST X Z
}.

(** [drive_size_mb], [has_diskfs] and [drive_type] of a drive that exists. *)
Record found := Found { drive_size_mb : Z; has_diskfs : bool; drive_type : string }.

Section dialog.
Context {X : Type} `{Console X} `{Disks X}.

Definition has_magic (r : Z * list Z) : bool := (fst r =? 0) && (unle32 (snd r) =? DISKFS_MAGIC).
Definition scan_ide (drive : Z) : ST X (option found) :=
  e ← ide_exists drive;
  if e : bool then
    size ← ide_size drive; r ← ide_first drive;
    mret (Some (Found (u32 (size * 512) / (1024 * 1024)) (has_magic r) "IDE"))
  else mret None.
Definition scan_sata (port : Z) : ST X (option found) :=
  e ← sata_exists port;
  if e : bool then
    size ← sata_size port; r ← sata_first port;
    mret (Some (Found (u32 ((size * 512) mod 2 ^ 64 / (1024 * 1024))) (has_magic r) "SATA"))
  else mret None.
Fixpoint scan {A} (f : Z -> ST X A) (l : list Z) : ST X (list A) :=
  match l with [] => mret [] | i :: l => x ← f i; r ← scan f l; mret (x :: r) end.
(** The tables, by index: four IDE drives and 32 ports. *)
Definition scan_all : ST X (list (option found)) :=
  ide ← scan scan_ide (seqZ 0 4); sata ← scan scan_sata (seqZ 0 32); mret (ide ++ sata).

Definition say (s : string) : ST X unit := console_write (str s).
Definition say_line (s : string) : ST X unit := console_write (str s ++ [NL]).

(** [itoa(v, buf, 10)] (CString). *)
Definition itoa_text (v : Z) : list Z := if i32 v <? 0 then 45 :: dec_text (- i32 v) else dec_text (i32 v).
(** The lines of the menu: the number counts the drives that exist. *)
Definition menu_line (drive_num : Z) (f : found) : ST X unit :=
  _ ← console_set_color 14 0;
  _ ← say "  ["; _ ← console_putchar (u8 (48 + drive_num)); _ ← say "] ";
  _ ← say (drive_type f); _ ← say " Drive: ";
  _ ← console_write (itoa_text (drive_size_mb f)); _ ← say " MB";
  _ ← (if has_diskfs f then _ ← console_set_color 10 0; say " [Has mexFS]"
       else _ ← console_set_color 8 0; say " [Unformatted]");
  _ ← console_set_color 7 0; console_write [NL].
Fixpoint menu_lines (drive_num : Z) (l : list (option found)) : ST X unit :=
  match l with
  | [] => mret tt
  | None :: l => menu_lines drive_num l
  | Some f :: l => _ ← menu_line drive_num f; menu_lines (drive_num + 1) l
  end.
Definition menu (l : list (option found)) : ST X unit :=
  _ ← console_clear;
  _ ← console_set_color 15 1; _ ← say_line "mexOS Disk Installer"; _ ← console_set_color 7 0; _ ← console_write [NL];
  _ ← console_write (str "Available disks:" ++ [NL; NL]);
  _ ← menu_lines 0 l;
  _ ← console_write [NL]; _ ← say_line "Options:";
  _ ← say_line "  [0-3] - Select drive and mount (will format if needed)";
  _ ← say_line "  [S]   - Skip disk support (RAM-only mode)";
  _ ← say_line "  [R]   - Rescan drives";
  _ ← console_write [NL]; say "Your choice: ".
Definition no_disks : ST X unit :=
  _ ← console_clear; _ ← console_set_color 12 0; _ ← say_line "No ATA drives detected!";
  _ ← console_set_color 7 0; say_line "Continue in RAM-only mode...".

Definition bright (color : Z) (text : string) : ST X unit := _ ← console_set_color color 0; _ ← say_line text; console_set_color 7 0.
(** A key is waited for before the dialog returns [v]. *)
Definition after_key (v : Z) (keys : list Z) : ST X (option (Z * list Z)) :=
  match keys with [] => mret None | _ :: keys => mret (Some (v, keys)) end.

(** A drive with a file system; one without, once formatting is confirmed. *)
Definition mount_existing (key : Z) (keys : list Z) : ST X (option (Z * list Z)) :=
  _ ← console_set_color 10 0; _ ← say "Mounting existing mexFS on drive "; _ ← console_putchar key; _ ← say_line "...";
  _ ← console_set_color 7 0;
  r ← mount (key - 48);
  if r =? 0 then _ ← say_line "Mount successful!"; after_key (key - 48) keys
  else _ ← bright 12 "Mount failed!"; after_key (-1) keys.
Definition format_new (key : Z) (keys : list Z) : ST X (option (Z * list Z)) :=
  _ ← say "Formatting drive "; _ ← console_putchar key; _ ← say_line "...";
  r ← format (key - 48);
  m ← (if r =? 0 then mount (key - 48) else mret (-1));
  if (r =? 0) && (m =? 0) then _ ← bright 10 "Format and mount successful!"; after_key (key - 48) keys
  else _ ← bright 12 "Format failed!"; after_key (-1) keys.

(** From the scan of the drives to the menu; [next] is the loop for a key. *)
Definition start (next : list (option found) -> ST X (option (Z * list Z))) (keys : list Z) : ST X (option (Z * list Z)) :=
  l ← scan_all;
  if decide (Forall (fun o => o = None) l) then _ ← no_disks; mret (Some (-1, keys)) else _ ← menu l; next l.

(** The loop for a key, with the tables in [l]. *)
Fixpoint choose (l : list (option found)) (keys : list Z) : ST X (option (Z * list Z)) :=
  match keys with
  | [] => mret None
  | key :: keys =>
      if (48 <=? key) && (key <=? 51) then
        match l !! Z.to_nat (key - 48) with
        | Some (Some f) =>
            _ ← console_putchar key; _ ← console_write [NL; NL];
            if has_diskfs f then mount_existing key keys else
            _ ← console_set_color 14 0; _ ← say "Drive "; _ ← console_putchar key;
            _ ← say " is not formatted. Format now? [Y/N]: "; _ ← console_set_color 7 0;
            match keys with
            | [] => mret None
            | confirm :: keys =>
                _ ← console_putchar confirm; _ ← console_write [NL];
                if (confirm =? 121) || (confirm =? 89) then format_new key keys
                else start (fun l => choose l keys) keys
            end
        | _ =>
            _ ← console_set_color 12 0; _ ← console_write ([NL; NL] ++ str "Drive does not exist!" ++ [NL]);
            _ ← console_set_color 7 0; _ ← say "Press any key...";
            match keys with
            | [] => mret None
            | _ :: keys => start (fun l => choose l keys) keys
            end
        end
      else if (key =? 115) || (key =? 83) then
        _ ← console_putchar key; _ ← console_write [NL; NL];
        _ ← console_set_color 8 0; _ ← say_line "Skipping disk support. Running in RAM-only mode."; _ ← console_set_color 7 0;
        after_key (-1) keys
      else if (key =? 114) || (key =? 82) then start (fun l => choose l keys) keys
      else choose l keys
  end.
Definition disk_installer_dialog (keys : list Z) : ST X (option (Z * list Z)) :=
  start (fun l => choose l keys) keys.
End dialog.

(** *** The disks of the shell *)

(** What the dialog asks of the devices beside [BlockDev]. *)
Class Storage (D : Type) := {
  drive_size : Z -> ST D Z;
  port_exists : Z -> ST D bool;
  port_size : Z -> ST D Z;
  port_first : Z -> ST D (Z * list Z)
}.

(** The two drivers on one machine. *)
Section drivers.
Context {P : Type} `{Ports P} `{Hba P}.
Variables (polls : nat) (sector_buf : Z).
Notation storage := (driver (list ata_drive * ahci) P).

Definition as_ata (d : storage) : ata P := Driver (fst (own d)) (io d) (Ports.klog d).
Definition as_ahci (d : storage) : driver ahci P := Driver (snd (own d)) (io d) (Ports.klog d).
Definition on_ata {A} (m : ST (ata P) A) : ST storage A := zoom as_ata (fun a d => Driver (own a, snd (own d)) (io a) (Ports.klog a)) m.
Definition on_ahci {A} (m : ST (driver ahci P) A) : ST storage A := zoom as_ahci (fun a d => Driver (fst (own d), own a) (io a) (Ports.klog a)) m.

#[export] Instance storage_dev : BlockDev storage := {|
  BlockDev.ata_drive_exists d v := BlockDev.ata_drive_exists (as_ata d) v;
  BlockDev.ata_read_sectors d v lba count :=
    let '(r, a) := BlockDev.ata_read_sectors (as_ata d) v lba count in (r, Driver (own a, snd (own d)) (io a) (Ports.klog a));
  BlockDev.ata_write_sectors d v lba count data :=
    let '(r, a) := BlockDev.ata_write_sectors (as_ata d) v lba count data in (r, Driver (own a, snd (own d)) (io a) (Ports.klog a));
  BlockDev.timer_get_ticks d := BlockDev.timer_get_ticks (as_ata d)
|}.
#[export] Instance storage_drivers : Storage storage := {|
  drive_size v := on_ata (ata_get_drive_size v);
  port_exists p := on_ahci (ahci_port_exists p);
  port_size p := on_ahci (ahci_get_port_size p);
  port_first p := on_ahci (
    r ← ahci_read_sectors polls p 0 1 sector_buf;
    s ← sget; mret (r, (fun i => Mem.load8 (mem_of s) (u32 (sector_buf + i))) <$> seqZ 0 512))
|}.
End drivers.

Section shell.
Context {D : Type} `{BlockDev D} `{Storage D} {P : Type} `{Ports P}.

Definition on_disks {A} (m : ST (dfs D) A) : Sh D P A := on_fs (on_disk m).
Definition on_dev {A} (m : ST D A) : Sh D P A := on_disks (zoom dev (fun d x => with_dev x d) m).
#[export] Instance shell_disks : Disks (shell D P) := {|
  ide_exists v := s ← sget; mret (BlockDev.ata_drive_exists (dev (Fs.disk (fs_of s))) v);
  ide_size v := on_dev (drive_size v);
  ide_first v := on_disks (disk_read v 0 1);
  sata_exists p := on_dev (port_exists p);
  sata_size p := on_dev (port_size p);
  sata_first p := on_dev (port_first p);
  mount v := on_disks (diskfs_mount v);
  format v := on_disks (diskfs_format v)
|}.

(** The dialog of [cmd_disksetup]: it takes its keys from those still to be typed. *)
Definition shell_installer : Sh D P (option Z) :=
  s ← sget;
  r ← disk_installer_dialog (input (s_ed s));
  match r with
  | None => mret None
  | Some (v, rest) => _ ← on_ed (put_input rest); mret (Some v)
  end.
End shell.

(** ** What the dialog can do *)

(** From a state in [I], [m] can only return in [Q] of its result. *)
Definition yields {S A} (I : S -> Prop) (m : ST S A) (Q : A -> S -> Prop) : Prop := forall s a s', I s -> m s = Some (a, s') -> Q a s'.

Lemma yields_bind {S A B} (I : S -> Prop) (R : A -> S -> Prop) (Q : B -> S -> Prop) (m : ST S A) (k : A -> ST S B) :
  yields I m R -> (forall a, yields (R a) (k a) Q) -> yields I (mbind k m) Q.
Proof.
  intros Hm Hk s b s' Hs E. unfold mbind, ST_bind in E. destruct (m s) as [[a s1]|] eqn:Em; [|done].
  eapply Hk; [|exact E]. by eapply Hm.
Qed.

Lemma yields_after {S A B} (I : S -> Prop) (Q : B -> S -> Prop) (m : ST S A) (k : A -> ST S B) :
  keeps I m -> (forall a, yields I (k a) Q) -> yields I (mbind k m) Q.
Proof. intros Hm Hk. by apply (yields_bind _ (fun _ => I)). Qed.

Lemma yields_ret {S A} (I : S -> Prop) (Q : A -> S -> Prop) a : (forall s, I s -> Q a s) -> yields I (mret a) Q.
Proof. intros HQ s ? ? Hs [= <- <-]. auto. Qed.

Lemma yields_weaken {S A} (I I' : S -> Prop) (Q : A -> S -> Prop) m : yields I m Q -> (forall s, I' s -> I s) -> yields I' m Q.
Proof. intros Hm HI s a s' Hs. by apply Hm, HI. Qed.

Section outcomes.
Context {X : Type} `{Console X} `{Disks X}.

(** Everything that the dialog does beside formatting and mounting keeps [I]. *)
Record looks (I : X -> Prop) : Prop := {
  looks_putchar c : keeps I (console_putchar c);
  looks_write l : keeps I (console_write l);
  looks_color fg bg : keeps I (console_set_color fg bg);
  looks_clear : keeps I console_clear;
  looks_exists v : keeps I (ide_exists v);
  looks_size v : keeps I (ide_size v);
  looks_first v : keeps I (ide_first v);
  looks_sata_exists v : keeps I (sata_exists v);
  looks_sata_size v : keeps I (sata_size v);
  looks_sata_first v : keeps I (sata_first v)
}.

Variables (I : X -> Prop) (J : Z -> X -> Prop).
Hypotheses (HI : looks I) (HJ : forall v, looks (fun s => I s /\ J v s)).
(** Mounting keeps [I], and succeeds in [J]; so does formatting when [allowed]. *)
Variable allowed : bool.
Hypothesis Hmount : forall v, 0 <= v < 4 -> yields I (mount v) (fun r s => I s /\ (r = 0 -> J v s)).
Hypothesis Hformat : allowed = true -> forall v, keeps I (format v).

Ltac looking :=
  repeat match goal with
  | |- ends _ _ (mret _) => apply keeps_ret
  | |- ends _ _ (mbind _ _) => apply keeps_bind; [|intros ?]
  | |- ends _ _ (if ?b then _ else _) => destruct b
  | |- ends _ _ (match ?b with Some _ => _ | None => _ end) => destruct b
  | H : forall _, ends _ _ _ |- ends _ _ _ => apply H
  | HI : looks ?I |- ends ?I _ _ => solve [apply HI]
  | |- ends _ _ (console_write _) => fail 1
  | |- ends _ _ ?m => let f := head m in unfold f
  end.

Lemma scan_keeps {A} (f : Z -> ST X A) l : (forall i, keeps I (f i)) -> keeps I (scan f l).
Proof. intros Hf. induction l; cbn [scan]; looking. done. Qed.

Lemma scan_all_keeps : keeps I scan_all.
Proof. unfold scan_all. apply keeps_bind; [|intros ?; apply keeps_bind; [|intros ?; apply keeps_ret]]; apply scan_keeps; intros i; looking. Qed.

Lemma menu_keeps l : keeps I (menu l).
Proof.
  assert (Hl : forall n, keeps I (menu_lines n l)).
  { induction l as [|[f|] l IH]; intros n; cbn [menu_lines]; looking. }
  unfold menu. looking.
Qed.

(** The value returned is -1 or a drive that has been mounted. *)
Definition outcome (r : option (Z * list Z)) (x : X) : Prop :=
  I x /\ match r with Some (v, _) => v = -1 \/ 0 <= v < 4 /\ J v x | None => True end.

Lemma after_key_failed keys : yields I (after_key (-1) keys) outcome.
Proof. destruct keys; apply yields_ret; intros s Hs; split; auto. Qed.

Lemma after_key_mounted v keys : 0 <= v < 4 -> yields (fun s => I s /\ J v s) (after_key v keys) outcome.
Proof. intros Hv. destruct keys; apply yields_ret; intros s [Hs Hj]; split; auto. Qed.

Lemma mount_existing_outcome key keys : 48 <= key <= 51 -> yields I (mount_existing key keys) outcome.
Proof.
  intros Hk. unfold mount_existing. do 5 (apply yields_after; [looking|intros _]).
  eapply yields_bind; [apply Hmount; lia|]. intros r. destruct (r =? 0) eqn:Er.
  - apply (yields_weaken (fun s => I s /\ J (key - 48) s)); [|intros s [Hs Hj]; split; [done|apply Hj; lia]].
    specialize (HJ (key - 48)). apply yields_after; [looking|]. intros _. apply after_key_mounted. lia.
  - apply (yields_weaken I); [|by intros s []]. apply yields_after; [looking|]. intros _. apply after_key_failed.
Qed.

Lemma format_new_outcome key keys : allowed = true -> 48 <= key <= 51 -> yields I (format_new key keys) outcome.
Proof.
  intros Ha Hk. specialize (Hformat Ha). unfold format_new. do 3 (apply yields_after; [looking|intros _]).
  apply yields_after; [apply Hformat|]. intros r.
  apply (yields_bind _ (fun m s => I s /\ (m = 0 -> r = 0 -> J (key - 48) s))).
  { destruct (r =? 0) eqn:Er; [|by apply yields_ret; intros s Hs].
    intros s m s' Hs E. destruct (Hmount (key - 48) ltac:(lia) s m s' Hs E) as [Hs' Hj]. auto. }
  intros m. destruct ((r =? 0) && (m =? 0)) eqn:Er.
  - apply (yields_weaken (fun s => I s /\ J (key - 48) s)); [|intros s [Hs Hj]; split; [done|apply Hj; lia]].
    specialize (HJ (key - 48)). apply yields_after; [looking|]. intros _. apply after_key_mounted. lia.
  - apply (yields_weaken I); [|by intros s []]. apply yields_after; [looking|]. intros _. apply after_key_failed.
Qed.

Lemma start_outcome next keys : (forall l, yields I (next l) outcome) -> yields I (start next keys) outcome.
Proof.
  intros Hn. unfold start. apply yields_after; [apply scan_all_keeps|]. intros l. case_decide.
  - apply yields_after; [looking|]. intros _. apply yields_ret. intros s Hs. split; auto.
  - apply yields_after; [apply menu_keeps|]. intros _. apply Hn.
Qed.

(** The keys that confirm are only in the list when formatting is allowed. *)
Definition confirmed (keys : list Z) : Prop := allowed = true \/ (121 ∉ keys /\ 89 ∉ keys).

Lemma confirmed_tail key keys : confirmed (key :: keys) -> confirmed keys.
Proof. intros [?|[H1 H2]]; [by left|right]. split; by intros ?%(list_elem_of_further _ key). Qed.

Lemma choose_outcome n : forall l keys, (length keys <= n)%nat -> confirmed keys -> yields I (choose l keys) outcome.
Proof.
  induction n as [|n IH]; intros l keys Hn Hc; (destruct keys as [|key keys]; [apply yields_ret; intros s Hs; by split|]);
    cbn [length] in Hn; [lia|].
  assert (Hc' : confirmed keys) by (by apply (confirmed_tail key)).
  cbn [choose]. destruct ((48 <=? key) && (key <=? 51)) eqn:Ek.
  - destruct (l !! Z.to_nat (key - 48)) as [[f|]|].
    + do 2 (apply yields_after; [looking|intros _]). destruct (has_diskfs f); [apply mount_existing_outcome; lia|].
      do 5 (apply yields_after; [looking|intros _]). destruct keys as [|confirm keys]; [apply yields_ret; intros s Hs; by split|].
      do 2 (apply yields_after; [looking|intros _]). destruct ((confirm =? 121) || (confirm =? 89)) eqn:Ey.
      * apply format_new_outcome; [|lia]. destruct Hc' as [Ha|[H1 H2]]; [done|]. exfalso.
        apply orb_true_iff in Ey as [->%Z.eqb_eq| ->%Z.eqb_eq]; [apply H1|apply H2]; by left.
      * cbn [length] in Hn. apply start_outcome. intros l'. apply IH; [lia|]. by apply (confirmed_tail confirm).
    + do 4 (apply yields_after; [looking|intros _]). destruct keys as [|any keys]; [apply yields_ret; intros s Hs; by split|].
      cbn [length] in Hn. apply start_outcome. intros l'. apply IH; [lia|]. by apply (confirmed_tail any).
    + do 4 (apply yields_after; [looking|intros _]). destruct keys as [|any keys]; [apply yields_ret; intros s Hs; by split|].
      cbn [length] in Hn. apply start_outcome. intros l'. apply IH; [lia|]. by apply (confirmed_tail any).
  - destruct ((key =? 115) || (key =? 83)).
    { do 5 (apply yields_after; [looking|intros _]). apply after_key_failed. }
    destruct ((key =? 114) || (key =? 82)); [apply start_outcome; intros l'|]; apply IH; (lia || done).
Qed.

Lemma dialog_outcome keys : confirmed keys -> yields I (disk_installer_dialog keys) outcome.
Proof. intros Hc. apply start_outcome. intros l. by apply (choose_outcome (length keys)). Qed.
End outcomes.

(** ** The dialog of the shell *)

Section on_shell.
Context {D : Type} `{BlockDev D} `{Storage D} {P : Type} `{Ports P}.
Implicit Types (s : shell D P).

Definition disk_of s : dfs D := Fs.disk (fs_of s).

(** What a request that only reads keeps of a device. *)
Record kept_by_reads (J : D -> Prop) : Prop := {
  kept_read d v lba n r l d' : J d -> BlockDev.ata_read_sectors d v lba n = (r, l, d') -> J d';
  kept_size v : keeps J (drive_size v);
  kept_port_exists p : keeps J (port_exists p);
  kept_port_size p : keeps J (port_size p);
  kept_port_first p : keeps J (port_first p)
}.

Lemma keeps_disks {A} (I : dfs D -> Prop) (m : ST (dfs D) A) : keeps I m -> keeps (fun s => I (disk_of s)) (on_disks m).
Proof.
  intros Hm s a s' Hs E. unfold on_disks, on_fs, zoom, on_disk in E. destruct (m (Fs.disk (fs_of s))) as [[a1 d]|] eqn:Em; [|done].
  injection E as <- <-. exact (Hm _ _ _ Hs Em).
Qed.

Lemma keeps_con {A} (I : dfs D -> Prop) (m : ST console A) : keeps (fun s => I (disk_of s)) (on_con m).
Proof. apply keeps_zoom. by intros. Qed.

Lemma shell_looks (J : D -> Prop) (I : dfs D -> Prop) : kept_by_reads J ->
  (forall x, I x -> J (dev x)) -> (forall x d, I x -> J d -> I (with_dev x d)) -> looks (fun s => I (disk_of s)).
Proof.
  intros HJ HI Hd.
  assert (Hdev : forall {A} (m : ST D A), keeps J m -> keeps (fun s => I (disk_of s)) (on_dev m)).
  { intros A m Hm. apply keeps_disks. intros x a x' Hx E. unfold zoom in E. destruct (m (dev x)) as [[a1 d]|] eqn:Em; [|done].
    injection E as <- <-. apply Hd; [done|]. eapply Hm; [|exact Em]. auto. }
  split; intros; try apply keeps_con; try apply Hdev; try apply HJ.
  - intros s a s' Hs [= <- <-]. done.
  - apply keeps_disks. intros x a x' Hx E. unfold disk_read in E.
    destruct (BlockDev.ata_read_sectors (dev x) v 0 1) as [[r l] d] eqn:Er. injection E as <- <-.
    apply (Hd x d); [done|]. eapply kept_read; [done| |exact Er]. auto.
Qed.
(** Mounting reads the superblock and the bitmaps, and changes the variables only. *)
Lemma mount_reads (J : D -> Prop) v : kept_by_reads J ->
  yields (fun x => J (dev x)) (diskfs_mount v) (fun r x => J (dev x) /\ (r = 0 -> mounted_drive x = v)).
Proof.
  intros HJ.
  assert (Hr : forall lba n, keeps (fun x => J (dev x)) (disk_read v lba n)).
  { intros lba n x [r l] x' Hx E. unfold disk_read in E. destruct (BlockDev.ata_read_sectors (dev x) v lba n) as [[r' l'] d] eqn:Er.
    injection E as <- <- <-. eapply kept_read; eauto. }
  assert (Hlog : forall lv msg args, keeps (fun x : dfs D => J (dev x)) (DiskFs.log lv msg args)) by (intros lv msg args x [] x' Hx [= <-]; exact Hx).
  assert (Hs : keeps (fun x => J (dev x)) (read_superblock v)).
  { unfold read_superblock. apply (keeps_bind (S := dfs D)); [apply Hr|]. intros [r data]. intros x a x' Hx [= <- <-]. exact Hx. }
  assert (Hb : keeps (fun x => J (dev x)) (read_bitmaps v)).
  { unfold read_bitmaps. apply (keeps_bind (S := dfs D)); [apply Hr|]. intros [r data].
    apply (keeps_bind (S := dfs D)); [apply keeps_get|]. intros x0. apply (keeps_bind (S := dfs D)); [intros x [] x' Hx [= <-]; exact Hx|]. intros _.
    destruct (negb _); [apply keeps_ret|].
    apply (keeps_bind (S := dfs D)); [apply Hr|]. intros [r' data']. intros x a x' Hx [= <- <-]. exact Hx. }
  assert (Hfail : forall lv msg args, yields (fun x : dfs D => J (dev x)) (_ ← DiskFs.log lv msg args; mret (-1)) (fun r x => J (dev x) /\ (r = 0 -> mounted_drive x = v))).
  { intros lv msg args x r x' Hx [= <- <-]. by split. }
  unfold diskfs_mount. apply (yields_after (S := dfs D)); [apply keeps_get|]. intros x0.
  destruct (negb _); [apply Hfail|].
  apply (yields_after (S := dfs D)); [apply Hlog|]. intros _. apply (yields_after (S := dfs D)); [apply Hs|]. intros r.
  destruct (negb _); [apply Hfail|].
  apply (yields_after (S := dfs D)); [apply keeps_get|]. intros x1. destruct (negb _); [apply Hfail|].
  apply (yields_after (S := dfs D)); [apply Hb|]. intros r2. destruct (negb _); [apply Hfail|].
  apply (yields_after (S := dfs D)); [apply keeps_get|]. intros x2.
  intros x a x' Hx [= <- <-]. by split.
Qed.

(** The dialog of the shell. *)
Lemma installer_outcome (J : D -> Prop) allowed s r s' : kept_by_reads J ->
  (allowed = true -> forall v, keeps (fun x => J (dev x)) (diskfs_format v)) ->
  confirmed allowed (input (s_ed s)) -> J (dev (disk_of s)) -> shell_installer s = Some (r, s') ->
  J (dev (disk_of s')) /\ forall v, r = Some v -> v = -1 \/ 0 <= v < 4 /\ mounted_drive (disk_of s') = v.
Proof.
  intros HJ Hf Hc Hs E. unfold shell_installer in E. rewrite run_get in E.
  unfold mbind, ST_bind in E. destruct (disk_installer_dialog (input (s_ed s)) s) as [[o s1]|] eqn:E1; [|done].
  assert (Ho : outcome (fun s => J (dev (disk_of s))) (fun v s => mounted_drive (disk_of s) = v) o s1).
  { refine (dialog_outcome _ _ _ _ allowed _ _ (input (s_ed s)) Hc s o s1 Hs E1).
    - apply (shell_looks J (fun x => J (dev x))); by intros.
    - intros v. apply (shell_looks J (fun x => J (dev x) /\ mounted_drive x = v)); [done|by intros x []|by intros x d []].
    - intros v _ s2 a s3 Hs2 E2. cbn in E2. unfold on_disks, on_fs, zoom, on_disk in E2.
      destruct (diskfs_mount v (Fs.disk (fs_of s2))) as [[a1 x]|] eqn:Em; [|done]. injection E2 as <- <-.
      exact (mount_reads J v HJ _ _ _ Hs2 Em).
    - intros Ha v. apply (keeps_disks (fun x => J (dev x))), (Hf Ha). }
  destruct o as [[v rest]|]; destruct Ho as [HJ1 Hv].
  - cbn in E. injection E as <- <-. split; [exact HJ1|]. intros v' [= <-]. exact Hv.
  - injection E as <- <-. split; [exact HJ1|done].
Qed.
End on_shell.

(** ** The claims *)

Section claims.
Context {D : Type} `{BlockDev D} `{Storage D} {P : Type} `{Ports P}.
Implicit Types (s : shell D P).

(** C8: the disk installer never formats a drive unless the key Y is typed: whatever else is typed, in whatever order, rescans and failures included, every property of the devices that reading requests keep is kept, that is, nothing is ever written. *)
Theorem installer_formats_only_on_yes (J : D -> Prop) s r s' : kept_by_reads J ->
  121 ∉ input (s_ed s) -> 89 ∉ input (s_ed s) -> J (dev (disk_of s)) ->
  shell_installer s = Some (r, s') -> J (dev (disk_of s')).
Proof. intros HJ Hy HY Hs E. eapply (installer_outcome J false); [exact HJ|done|by right|exact Hs|exact E]. Qed.

(** what the disk installer answers is -1 or the number, from 0 to 3, of a drive that is then mounted. *)
Theorem installer_mounts_its_answer s v s' : shell_installer s = Some (Some v, s') ->
  v = -1 \/ 0 <= v < 4 /\ mounted_drive (disk_of s') = v.
Proof.
  intros E. eapply (installer_outcome (fun _ => True) true); [by split; repeat intro|by repeat intro|by left|done|exact E|done].
Qed.
End claims.

(** ** A disk

    One blank drive of 4 GB, and a console that has only its serial line. *)

#[local] Instance no_sata : Storage ramdisk := {|
  drive_size _ := mret 8388608; port_exists _ := mret false; port_size _ := mret 0; port_first _ := mret (-1, [])
|}.
Definition typing (keys : list Z) : shell ramdisk unit :=
  let e := s_ed shell1 in let b := interp e in
  with_ed shell1 (Editor.Editor (filename e) (ebuffer e) (line_buffer e) (buffer_size e) (mode e) (modified e) (erunning e)
    (Basic.Basic (Basic.variables b) (Basic.area b) (Basic.line_count b) (Basic.pc b) (Basic.stack_ptr b) (Basic.running b) (Cons false power_on)) (Editor.files e) keys).
(** What the dialog answers, the drive that is mounted and the sectors written. *)
Definition answer (keys : list Z) : option (option Z * Z * nat) :=
  (fun p => (fst p, mounted_drive (disk_of (snd p)), base.size (rd_sectors (dev (disk_of (snd p)))))) <$> shell_installer (typing keys).
(** What is printed. *)
Definition printed (keys : list Z) : option (list Z) := (fun p => con_text (con_of (snd p))) <$> shell_installer (typing keys).

(** The text is somewhere in what is printed. *)
Definition shows (l : list Z) (text : string) : bool :=
  existsb (fun k => bool_decide (take (length (str text)) (drop k l) = str text)) (seq 0 (length l)).

(** A drive of 4 GB is listed with 0 MB, for its bytes are counted in 32 bits. *)
Example menu_shows_0_MB : (fun l => shows l "[0] IDE Drive: 0 MB [Unformatted]") <$> printed (str "s ") = Some true.
Proof. vm_compute. reflexivity. Qed.

(** Drive 1 alone is listed as number 0, and the key 0 answers that the drive does not exist. *)
Definition second : shell ramdisk unit :=
  let s := typing (str "0 s ") in let f := fs_of s in
  with_fs s (Fs.Fs (fs_nodes f) (disk_enabled f) (cwd f) (cwd_idx f) (with_dev (Fs.disk f) (Ramdisk 1 ∅ 0))).
Example menu_numbers_by_order :
  (fun p => let l := con_text (con_of (snd p)) in (shows l "[0] IDE Drive", shows l "Drive does not exist!")) <$> shell_installer second = Some (true, true).
Proof. vm_compute. reflexivity. Qed.

Lemma answer_some keys v m n : answer keys = Some (v, m, n) -> exists s', shell_installer (typing keys) = Some (v, s') /\
  mounted_drive (disk_of s') = m /\ base.size (rd_sectors (dev (disk_of s'))) = n.
Proof. unfold answer. intros ([r s'] & E & Hr)%fmap_Some. cbn [fst snd] in Hr. exists s'. split; [rewrite E; congruence|]. split; congruence. Qed.

(** Formatting is refused, a drive that does not exist is chosen, the dialog is left: nothing is written. *)
Lemma installer_formats_only_on_yes_witness : exists s', shell_installer (typing (str "0n5s ")) = Some (Some (-1), s') /\
  rd_sectors (dev (disk_of s')) = ∅.
Proof.
  destruct (answer_some (str "0n5s ") (Some (-1)) 255 0) as (s' & E & _); [vm_compute; reflexivity|].
  exists s'. split; [exact E|].
  apply (installer_formats_only_on_yes (fun d => rd_sectors d = ∅) (typing (str "0n5s ")) (Some (-1)) s');
    [|change (121 ∉ str "0n5s "); by apply (bool_decide_unpack _)|change (89 ∉ str "0n5s "); by apply (bool_decide_unpack _)
    |change (rd_sectors (dev (Fs.disk Fs.booted)) = ∅); vm_compute; reflexivity|exact E].
  split; [|intros; apply keeps_ret..].
  intros d v lba n r l d' Hd Er. cbn in Er. destruct (v =? rd_drive d); by injection Er as <- <- <-.
Defined.

Lemma installer_mounts_its_answer_witness : exists s', shell_installer (typing (str "0y ")) = Some (Some 0, s') /\
  (0 = -1 \/ 0 <= 0 < 4 /\ mounted_drive (disk_of s') = 0) /\ base.size (rd_sectors (dev (disk_of s'))) = 34%nat.
Proof.
  destruct (answer_some (str "0y ") (Some 0) 0 34) as (s' & E & _ & Hn); [vm_compute; reflexivity|].
  exists s'. split; [exact E|]. split; [|exact Hn]. exact (installer_mounts_its_answer (typing (str "0y ")) 0 s' E).
Defined.
