(* ===== verification/Tui.v ===== *)
(** ui/tui.c: panels on the VGA text screen, the dashboard and the other five screens.

    The drawing functions write cells of the screen ([vga_buffer] of Vterm) behind the
    back of the terminals.  The screens read the other components, so their state is the
    shell's with the panels beside it ([tui]).  Text is put together in arrays of the stack
    ([buf]); a computation is [None] when it leaves one. *)

From S2P Require Import Prelude Mem CString FrameAlloc Pmm KAlloc Heap Codec BlockDev DiskFs Fs Effects Console Log.
From S2P Require Import Vterm Keyboard Line Basic Editor Ports Sched Shell.
Local Open Scope Z_scope.

(** ** Definitions *)

Definition VGA_WIDTH : Z := 80.
Definition VGA_HEIGHT : Z := 25.
Definition TUI_MAX_PANELS : Z := 8.
Definition TUI_BORDER_SINGLE : Z := 0.
Definition TUI_BORDER_DOUBLE : Z := 1.
Definition VGA_YELLOW : Z := 16.
Definition VGA_WHITE : Z := 15.
(** '-', '=', '|', '+', '#'. *)
Definition CHAR_HLINE_SINGLE : Z := 45.
Definition CHAR_HLINE_DOUBLE : Z := 61.
Definition CHAR_VLINE : Z := 124.
Definition CHAR_CORNER : Z := 43.
Definition CHAR_BLOCK_FULL : Z := 35.

Record tui_panel := Panel {
  p_x : Z; p_y : Z; p_width : Z; p_height : Z; p_border : Z; p_fg : Z; p_bg : Z; p_title : list Z; p_visible : bool
}.
Definition zero_panel : tui_panel := Panel 0 0 0 0 0 0 0 [] false.

Record tui_progress_bar := Bar { b_x : Z; b_y : Z; b_width : Z; b_value : Z; b_fg : Z; b_bg : Z; b_label : list Z }.

(** *** Cells *)

(** A [char] is signed: from 128 on it sets all the bits of the colour. *)
Definition tui_cell (c fg bg : Z) : Z :=
  u16 (Z.lor (Z.shiftl (u8 (Z.lor (Z.shiftl bg 4) fg)) 8) (if c <? 128 then c else c - 256)).

Definition tui_put_char_at (x y c fg bg : Z) : T unit :=
  if (VGA_WIDTH <=? x) || (VGA_HEIGHT <=? y) then mret tt else
  smod (fun s => put_vga s (<[Z.to_nat (y * VGA_WIDTH + x) := tui_cell c fg bg]> (vga_buffer s))).

Fixpoint tui_write_string_at (x y : Z) (l : list Z) (fg bg : Z) : T unit :=
  match l with
  | [] => mret tt
  | c :: l => if x <? VGA_WIDTH then _ ← tui_put_char_at (u8 x) y c fg bg; tui_write_string_at (x + 1) y l fg bg else mret tt
  end.

Definition tui_draw_hline (x y length style : Z) : T unit :=
  let c := if style =? TUI_BORDER_DOUBLE then CHAR_HLINE_DOUBLE else CHAR_HLINE_SINGLE in
  each (fun i => tui_put_char_at (u8 (x + i)) y c VGA_LIGHT_GREY VGA_BLACK) (seqZ 0 length).
Definition tui_draw_vline (x y length style : Z) : T unit :=
  each (fun i => tui_put_char_at x (u8 (y + i)) CHAR_VLINE VGA_LIGHT_GREY VGA_BLACK) (seqZ 0 length).

Definition draw_panel (p : tui_panel) : T unit :=
  if negb (p_visible p) then mret tt else
  let fg := p_fg p in
  let bg := p_bg p in
  let right := u8 (p_x p + p_width p - 1) in
  let bottom := u8 (p_y p + p_height p - 1) in
  _ ← tui_put_char_at (p_x p) (p_y p) CHAR_CORNER fg bg;
  _ ← tui_put_char_at right (p_y p) CHAR_CORNER fg bg;
  _ ← tui_put_char_at (p_x p) bottom CHAR_CORNER fg bg;
  _ ← tui_put_char_at right bottom CHAR_CORNER fg bg;
  _ ← tui_draw_hline (u8 (p_x p + 1)) (p_y p) (u8 (p_width p - 2)) (p_border p);
  _ ← tui_draw_hline (u8 (p_x p + 1)) bottom (u8 (p_width p - 2)) (p_border p);
  _ ← tui_draw_vline (p_x p) (u8 (p_y p + 1)) (u8 (p_height p - 2)) (p_border p);
  _ ← tui_draw_vline right (u8 (p_y p + 1)) (u8 (p_height p - 2)) (p_border p);
  let title_len := Z.of_nat (length (p_title p)) in
  if (0 <? title_len) && (title_len <? p_width p - 4) then
    let title_x := u8 (p_x p + 2) in
    _ ← tui_put_char_at (u8 (title_x - 1)) (p_y p) 32 fg bg;
    _ ← tui_write_string_at title_x (p_y p) (p_title p) VGA_WHITE bg;
    tui_put_char_at (u8 (title_x + title_len)) (p_y p) 32 fg bg
  else mret tt.

Definition clear_panel (p : tui_panel) : T unit :=
  each (fun y => each (fun x => tui_put_char_at (u8 (p_x p + x)) (u8 (p_y p + y)) 32 (p_fg p) (p_bg p)) (seqZ 1 (p_width p - 2)))
    (seqZ 1 (p_height p - 2)).

Definition panel_write (p : tui_panel) (x y : Z) (text : list Z) : T unit :=
  let screen_x := u8 (p_x p + x + 1) in
  let screen_y := u8 (p_y p + y + 1) in
  if (p_x p + p_width p - 1 <=? screen_x) || (p_y p + p_height p - 1 <=? screen_y) then mret tt
  else tui_write_string_at screen_x screen_y text (p_fg p) (p_bg p).

(** [int_to_str_pad(value, _, 1)]. *)
Definition num (value : Z) : list Z := reverse (str_pad_temp (i32 value) 1).

Definition tui_draw_progress_bar (b : tui_progress_bar) : T unit :=
  if 100 <? b_value b then mret tt else
  _ ← (if decide (b_label b = []) then mret tt else tui_write_string_at (b_x b) (b_y b) (b_label b) (b_fg b) (b_bg b));
  let filled := u8 (b_width b * b_value b / 100) in
  _ ← tui_put_char_at (b_x b) (b_y b) 91 (b_fg b) (b_bg b);
  _ ← each (fun i => tui_put_char_at (u8 (b_x b + i + 1)) (b_y b) (if i <? filled then CHAR_BLOCK_FULL else 32) (b_fg b) (b_bg b)) (seqZ 0 (b_width b));
  _ ← tui_put_char_at (u8 (b_x b + b_width b + 1)) (b_y b) 93 (b_fg b) (b_bg b);
  tui_write_string_at (u8 (b_x b + b_width b + 3)) (b_y b) (num (b_value b) ++ str "%") (b_fg b) (b_bg b).

Definition tui_draw_status_bar (text : list Z) : T unit :=
  _ ← each (fun x => tui_put_char_at x (VGA_HEIGHT - 1) 32 VGA_BLACK VGA_LIGHT_GREY) (seqZ 0 VGA_WIDTH);
  tui_write_string_at 1 (VGA_HEIGHT - 1) text VGA_BLACK VGA_LIGHT_GREY.

Definition tui_write_number_at (x y n fg bg : Z) : T unit := tui_write_string_at x y (num n) fg bg.

(** *** Panels *)

Record tui (D P : Type) := Tui { panels : list tui_panel; panel_count : Z; t_shell : shell D P }.
Arguments Tui {D P}. Arguments panels {D P}. Arguments panel_count {D P}. Arguments t_shell {D P}.

Section screens.
Context {D : Type} `{BlockDev D} {P : Type} `{Ports P}.
Notation U := (ST (tui D P)).
Variables (uninit : Z -> list Z) (depth polls : nat) (timer_wait : Z -> Sh D P unit).

Definition on_shell {A} (m : Sh D P A) : U A := zoom t_shell (fun x s => Tui (panels s) (panel_count s) x) m.
Definition draw (m : T unit) : U unit := on_shell (on_con (on_tty m)).
Definition shell_state : U (shell D P) := s ← sget; mret (t_shell s).
(** A string in an array of [n] bytes. *)
Definition buf (n : nat) (l : list Z) : U (list Z) := if (length l <? n)%nat then mret l else sfault.

Definition tui_init : U unit := smod (fun s => Tui (replicate (Z.to_nat TUI_MAX_PANELS) zero_panel) 0 (t_shell s)).

(** NULL is [None]. *)
Definition tui_create_panel (x y width height : Z) (title : option (list Z)) : U Z :=
  s ← sget;
  if TUI_MAX_PANELS <=? panel_count s then mret (-1) else
  let p := Panel x y width height TUI_BORDER_SINGLE VGA_LIGHT_GREY VGA_BLACK (take 63 (default [] title)) true in
  _ ← smod (fun s => Tui (<[Z.to_nat (panel_count s) := p]> (panels s)) (u8 (panel_count s + 1)) (t_shell s));
  mret (panel_count s).

(** Nothing happens for a number that no panel has. *)
Definition with_panel (id : Z) (f : tui_panel -> U unit) : U unit :=
  s ← sget;
  if (id <? 0) || (panel_count s <=? id) then mret tt else p ← sopt (panels s !! Z.to_nat id); f p.
Definition tui_set_panel_colors (id fg bg : Z) : U unit :=
  with_panel id (fun p => smod (fun s =>
    Tui (<[Z.to_nat id := Panel (p_x p) (p_y p) (p_width p) (p_height p) (p_border p) fg bg (p_title p) (p_visible p)]> (panels s)) (panel_count s) (t_shell s))).
Definition tui_draw_panel (id : Z) : U unit := with_panel id (fun p => draw (draw_panel p)).
Definition tui_clear_panel (id : Z) : U unit := with_panel id (fun p => draw (clear_panel p)).
Definition tui_panel_write (id x y : Z) (text : list Z) : U unit := with_panel id (fun p => draw (panel_write p x y text)).
Definition write (id x y : Z) (text : string) : U unit := tui_panel_write id x y (str text).

(** The head of a screen: the panel with its title. *)
Definition open_screen (title : string) : U Z :=
  panel ← tui_create_panel 0 0 VGA_WIDTH (VGA_HEIGHT - 1) (Some (str title));
  _ ← tui_set_panel_colors panel VGA_LIGHT_GREY VGA_BLACK;
  _ ← tui_draw_panel panel;
  mret panel.
Definition rule (y : Z) : U unit := draw (tui_draw_hline 1 y (VGA_WIDTH - 2) TUI_BORDER_SINGLE).

(** *** The dashboard *)

(** [int] divisions and products of values that were unsigned. *)
Definition idiv (a b : Z) : Z := Z.quot (i32 a) b.
Definition imul (a b : Z) : Z := i32 (i32 a * b).

(** [used * 100 / total]: no total is a division by zero. *)
Definition percent_of (used total : Z) : U Z := if total =? 0 then sfault else mret (u32 (used * 100) / total).
Definition heap_total (h : heap) : Z := u32 (heap_get_used h + heap_get_free h).

(** A name, a colon of two digits: [h:mm:ss]. *)
Definition two_digits (v : Z) : list Z := (if v <? 10 then str "0" else []) ++ num v.
Definition uptime_text (uptime_sec : Z) : list Z :=
  num (uptime_sec / 60 / 60) ++ str ":" ++ two_digits (uptime_sec / 60 mod 60) ++ str ":" ++ two_digits (uptime_sec mod 60).

Definition task_cpu (total_ticks : Z) (t : task) : Z := if 0 <? total_ticks then u32 (t_cpu_ticks t * 100) / total_ticks else 0.
Definition state_str (v : Z) : string :=
  if v =? TASK_RUNNING then "RUNNING " else if v =? TASK_READY then "READY   " else if v =? TASK_BLOCKED then "BLOCKED "
  else if v =? TASK_ZOMBIE then "ZOMBIE  " else "UNKNOWN ".
(** The name of a task; [pad] ends it. *)
Definition task_name (t : task) (pad : string) : list Z :=
  (if t_pid t =? 0 then str "idle " else if t_pid t =? 1 then str "init " else if t_pid t =? 2 then str "shell"
   else str "task" ++ num (t_pid t)) ++ str pad.

Definition dashboard_row (panel total_ticks : Z) (row : Z) (t : task) : U unit :=
  pid_str ← buf 8 (num (t_pid t));
  let cpu := task_cpu total_ticks t in
  cpu_str ← buf 8 (num cpu);
  line ← buf 80 (str " " ++ (if t_pid t <? 10 then str " " else []) ++ pid_str ++ str "   " ++
    task_name t "    " ++ str (state_str (t_state t)) ++ str " " ++ (if cpu <? 10 then str " " else []) ++ cpu_str ++ str "%  " ++
    (if t_kernel_stack t =? 0 then [] else str "4KB"));
  tui_panel_write panel 0 row line.
Fixpoint dashboard_rows (panel total_ticks row : Z) (ts : list task) : U unit :=
  match ts with [] => mret tt | t :: ts => _ ← dashboard_row panel total_ticks row t; dashboard_rows panel total_ticks (row + 1) ts end.

Definition bar (y value high low : Z) : U unit :=
  draw (tui_draw_progress_bar (Bar 13 y 20 (u8 value) (if 80 <? value then high else low) VGA_BLACK [])).

(** The figures of the components. *)
Definition cpu_figure (c : sched heap) : U Z :=
  idle ← sopt (sched_get_idle_task c);
  let total_ticks := sched_get_total_ticks c in
  if negb (idle =? 0) && (0 <? total_ticks) then
    t ← sopt (tasks c !! idle);
    let idle_percent := u32 (t_cpu_ticks t * 100) / total_ticks in
    mret (if idle_percent <? 100 then 100 - idle_percent else 0)
  else mret 0.
Definition kb (v : Z) : list Z := num v ++ str " KB".

Definition tui_update_dashboard : U unit :=
  s ← sget;
  if panel_count s =? 0 then mret tt else
  let sh := t_shell s in
  let h := ks (s_sched sh) in
  let uptime_sec := u32 (Ports.ticks (s_io sh) * 10) / 1000 in
  mem_percent ← percent_of (heap_get_used h) (heap_total h);
  cpu_percent ← cpu_figure (s_sched sh);
  _ ← bar 1 cpu_percent VGA_LIGHT_RED VGA_LIGHT_GREEN;
  _ ← bar 2 mem_percent VGA_LIGHT_RED VGA_LIGHT_CYAN;
  uptime_str ← buf 32 (uptime_text uptime_sec);
  _ ← tui_panel_write 0 48 0 uptime_str;
  ts ← sopt (task_list (s_sched sh));
  _ ← draw (tui_write_number_at 48 2 (Z.of_nat (length ts)) VGA_LIGHT_GREY VGA_BLACK);
  heap_str ← buf 32 (kb (idiv (heap_get_free h) 1024));
  _ ← tui_panel_write 0 12 2 heap_str;
  pmm_str ← buf 32 (kb (imul (pmm_get_free_block_count (s_frames sh)) 4));
  _ ← tui_panel_write 0 51 2 pmm_str;
  _ ← dashboard_rows 0 (sched_get_total_ticks (s_sched sh)) 5 (take 8 ts);
  _ ← each (fun row => tui_panel_write 0 0 row (replicate 50 32)) (seqZ (5 + Z.of_nat (length (take 8 ts))) (8 - Z.of_nat (length (take 8 ts))));
  '(free_blocks, largest_free) ← on_shell (fragmentation polls);
  sh ← shell_state;
  detail ← buf 80 (str "  Heap: " ++ num (idiv (heap_total h) 1024) ++ str " KB total, " ++ num (idiv (heap_get_used h) 1024) ++ str " KB used, " ++
    num free_blocks ++ str " blocks");
  _ ← tui_panel_write 0 0 15 detail;
  let p := s_frames sh in
  detail ← buf 80 (str "  PMM:  " ++ num (Z.quot (imul (pmm_get_block_count p) 4) 1024) ++ str " MB total, " ++
    num (imul (u32 (pmm_get_block_count p - pmm_get_free_block_count p)) 4) ++ str " KB used");
  _ ← tui_panel_write 0 0 16 detail;
  detail ← buf 80 (str "  Largest free block: " ++ num (idiv largest_free 1024) ++ str " KB");
  _ ← tui_panel_write 0 0 17 detail;
  write 0 0 20 "  System running normally. Press any key to exit.".

Definition tui_draw_dashboard : U unit :=
  _ ← on_shell console_clear;
  main_panel ← open_screen " mexOS System Dashboard ";
  _ ← rule 4; _ ← rule 14; _ ← rule 19;
  _ ← write main_panel 1 0 "CPU Usage:"; _ ← write main_panel 40 0 "Uptime:"; _ ← write main_panel 1 1 "Memory:";
  _ ← write main_panel 40 1 "Tasks:"; _ ← write main_panel 1 2 "Heap Free:"; _ ← write main_panel 40 2 "PMM Free:";
  _ ← write main_panel 1 4 "PID  Name       State     CPU%  Stack";
  _ ← write main_panel 1 14 "Memory Details:";
  _ ← write main_panel 1 19 "System Log (last 3 entries):";
  _ ← draw (tui_draw_status_bar (str " ESC:Exit  F2:Shell  F3:Tests  Arrow Keys:Scroll  Auto-refresh:500ms "));
  tui_update_dashboard.

(** *** The log viewer *)

Definition level_tag (level : Z) : string :=
  if level =? LOG_LEVEL_DEBUG then "DBG " else if level =? LOG_LEVEL_INFO then "INF " else if level =? LOG_LEVEL_WARN then "WRN "
  else if level =? LOG_LEVEL_ERROR then "ERR " else "??? ".
Definition log_row (panel row : Z) (e : log_entry) : U unit :=
  time_str ← buf 16 (num (timestamp e / 100) ++ str "." ++ num (Z.quot (i32 (timestamp e mod 100 * 10)) 100));
  line ← buf 80 (time_str ++ replicate (8 - length time_str) 32 ++ str (level_tag (level e)) ++ str " " ++ take 60 (message e));
  tui_panel_write panel 0 row line.

Definition tui_show_log_viewer : U unit :=
  _ ← on_shell console_clear; _ ← tui_init;
  log_panel ← open_screen " System Log Viewer ";
  _ ← write log_panel 1 0 "Time    Level  Message";
  _ ← rule 2;
  sh ← shell_state;
  let l := klog_of sh in
  let count := log_get_count l in
  let max_display := 18 in
  let start_idx := if max_display <? count then count - max_display else 0 in
  _ ← each (fun i => match log_get_entry (start_idx + i) l with Some e => log_row log_panel (u8 (i + 3)) e | None => mret tt end)
        (seqZ 0 (Z.min max_display (count - start_idx)));
  status ← buf 80 (str "Showing " ++ num count ++ str " log entries");
  draw (tui_draw_status_bar status).

(** *** The file browser *)

(** At most [n] characters of the line at the front, and what follows it. *)
Fixpoint line_of (n : nat) (l : list Z) : list Z * list Z :=
  match l with
  | [] => ([], [])
  | c :: rest =>
      if c =? NL then ([], rest)
      else match n with O => ([], l) | S n => let '(a, b) := line_of n rest in (c :: a, b) end
  end.
Fixpoint browser_rows (fuel : nat) (panel row : Z) (l : list Z) : U unit :=
  match fuel, l with
  | S fuel, _ :: _ => let '(a, rest) := line_of 70 l in _ ← tui_panel_write panel 1 row a; browser_rows fuel panel (row + 1) rest
  | _, _ => mret tt
  end.

(** NULL is [None]; the listing is a string in an array of [n] bytes. *)
Definition listing (n : Z) (path : list Z) : U (Z * list Z) :=
  '(ret, buffer) ← on_shell (on_fs (fs_list_dir path n));
  if n <=? ret then sfault else mret (ret, until_nul buffer).

Definition tui_show_file_browser (path : option (list Z)) : U unit :=
  _ ← on_shell console_clear; _ ← tui_init;
  file_panel ← open_screen " File Browser ";
  sh ← shell_state;
  cwd ← buf 256 (str "Current: " ++ fs_get_cwd (fs_of sh));
  _ ← tui_panel_write file_panel 1 0 cwd;
  _ ← rule 2;
  '(ret, buffer) ← listing 1024 (default (str ".") path);
  _ ← (if ret =? FS_ERR_NOT_FOUND then write file_panel 1 4 "Directory not found"
       else if ret =? FS_ERR_NOT_DIR then write file_panel 1 4 "Not a directory"
       else if ret =? 0 then write file_panel 1 4 "(empty directory)"
       else if ret <? 0 then sfault
       else browser_rows 17 file_panel 3 buffer);
  draw (tui_draw_status_bar (str " Arrow Keys:Navigate  Enter:Open  ESC:Back  mkdir/touch/rm in shell ")).

(** *** The task manager *)

Definition state_color (v : Z) : Z :=
  if v =? TASK_RUNNING then VGA_LIGHT_GREEN else if v =? TASK_READY then VGA_LIGHT_GREY else if v =? TASK_BLOCKED then VGA_YELLOW
  else if v =? TASK_ZOMBIE then VGA_LIGHT_RED else VGA_LIGHT_GREY.
Definition manager_row (total_ticks row : Z) (t : task) : U unit :=
  pid_str ← buf 8 (num (t_pid t));
  pri_str ← buf 8 (num (t_priority t));
  let cpu := task_cpu total_ticks t in
  cpu_str ← buf 8 (num cpu);
  line ← buf 80 (str " " ++ (if t_pid t <? 10 then str " " else []) ++ pid_str ++ str "   " ++ task_name t "     " ++
    str (state_str (t_state t)) ++ str "  " ++ pri_str ++ str "         " ++ (if cpu <? 10 then str " " else []) ++ cpu_str ++ str "%    " ++
    (if t_kernel_stack t =? 0 then str "N/A" else str "4KB"));
  draw (tui_write_string_at 2 row line (state_color (t_state t)) VGA_BLACK).
Fixpoint manager_rows (total_ticks row : Z) (ts : list task) : U unit :=
  match ts with [] => mret tt | t :: ts => _ ← manager_row total_ticks row t; manager_rows total_ticks (row + 1) ts end.

Definition tui_show_task_manager : U unit :=
  _ ← on_shell console_clear; _ ← tui_init;
  task_panel ← open_screen " Task Manager ";
  _ ← write task_panel 1 0 "PID  Name        State     Priority  CPU%   Stack";
  _ ← rule 2;
  sh ← shell_state;
  ts ← sopt (task_list (s_sched sh));
  let shown := take 17 ts in
  _ ← manager_rows (sched_get_total_ticks (s_sched sh)) 3 shown;
  status ← buf 80 (str "Total tasks: " ++ num (Z.of_nat (length shown)) ++ str "  |  k:Kill  r:Renice  ESC:Back");
  draw (tui_draw_status_bar status).

(** *** The memory monitor *)

Definition tui_show_memory_monitor : U unit :=
  _ ← on_shell console_clear; _ ← tui_init;
  mem_panel ← open_screen " Memory Monitor ";
  _ ← write mem_panel 1 0 "Kernel Heap:";
  _ ← rule 2;
  sh ← shell_state;
  let h := ks (s_sched sh) in
  let line (y : Z) (l : list Z) : U unit := l ← buf 80 l; tui_panel_write mem_panel 0 y l in
  _ ← line 3 (str "  Total:  " ++ num (idiv (heap_total h) 1024) ++ str " KB (" ++ num (heap_total h) ++ str " bytes)");
  used ← percent_of (heap_get_used h) (heap_total h);
  _ ← line 4 (str "  Used:   " ++ num (idiv (heap_get_used h) 1024) ++ str " KB (" ++ num used ++ str "%)");
  free ← percent_of (heap_get_free h) (heap_total h);
  _ ← line 5 (str "  Free:   " ++ num (idiv (heap_get_free h) 1024) ++ str " KB (" ++ num free ++ str "%)");
  '(free_blocks, largest_free) ← on_shell (fragmentation polls);
  _ ← line 6 (str "  Free blocks: " ++ num free_blocks);
  _ ← line 7 (str "  Largest block: " ++ kb (idiv largest_free 1024));
  _ ← write mem_panel 1 9 "Physical Memory:";
  _ ← rule 11;
  let p := s_frames sh in
  _ ← line 12 (str "  Total blocks:  " ++ num (pmm_get_block_count p) ++ str " (" ++ num (Z.quot (imul (pmm_get_block_count p) 4) 1024) ++ str " MB)");
  _ ← line 13 (str "  Used blocks:   " ++ num (pmm_get_used_block_count p) ++ str " (" ++ num (imul (pmm_get_used_block_count p) 4) ++ str " KB)");
  _ ← line 14 (str "  Free blocks:   " ++ num (pmm_get_free_block_count p) ++ str " (" ++ num (imul (pmm_get_free_block_count p) 4) ++ str " KB)");
  draw (tui_draw_status_bar (str " d:Defragment Heap  ESC:Back ")).

(** *** The editor screen *)

(** The rest of a line and its newline are skipped. *)
Fixpoint skip_line (l : list Z) : list Z := match l with c :: rest => if c =? NL then rest else skip_line rest | [] => [] end.
(** The first characters of a line, 60 at most. *)
Fixpoint name_of (n : nat) (l : list Z) : list Z :=
  match n, l with S n, c :: rest => if c =? NL then [] else c :: name_of n rest | _, _ => [] end.
(** The files of a listing, eight at most; directories begin with a bracket. *)
Fixpoint recent_files (fuel : nat) (panel row count : Z) (l : list Z) : U unit :=
  match fuel, l with
  | S fuel, c :: _ =>
      if negb ((row <? 15) && (count <? 8)) then mret tt else
      if c =? 91 then recent_files fuel panel row count (skip_line l)
      else _ ← tui_panel_write panel 1 row (str "  " ++ name_of 60 l); recent_files fuel panel (row + 1) (count + 1) (skip_line l)
  | _, _ => mret tt
  end.

Definition tui_show_editor : U unit :=
  _ ← on_shell console_clear; _ ← tui_init;
  editor_panel ← open_screen " Text Editor ";
  _ ← write editor_panel 1 0 "Quick File Editor - Enter filename to edit:";
  _ ← rule 2;
  _ ← write editor_panel 1 4 "Recent files:";
  '(ret, buffer) ← listing 512 (str ".");
  _ ← (if 0 <? ret then recent_files (length buffer) editor_panel 5 0 buffer
       else write editor_panel 1 5 "  (no files in current directory)");
  _ ← write editor_panel 1 16 "Commands:";
  _ ← write editor_panel 1 17 "  e - Open text editor (new/existing file)";
  _ ← write editor_panel 1 18 "  b - Start BASIC interpreter";
  _ ← write editor_panel 1 19 "  ESC - Return to menu";
  draw (tui_draw_status_bar (str " Press 'e' for text editor, 'b' for BASIC, ESC to go back ")).

(** *** The application *)

Definition tui_show (screen : Z) : U unit :=
  if screen =? 0 then tui_draw_dashboard else if screen =? 1 then tui_show_log_viewer
  else if screen =? 2 then tui_show_file_browser (Some (str ".")) else if screen =? 3 then tui_show_task_manager
  else if screen =? 4 then tui_show_memory_monitor else if screen =? 5 then tui_show_editor else mret tt.

(** What a key leads to: the application ends, a screen is drawn, the keys go on with the
    time of the last update, or an editor waits for ever. *)
Inductive app_next := Leave | Redraw (screen : Z) | Stay (last_update : Z) | Stuck.

Definition edit_file (name : list Z) (mode : Z) : U ran :=
  on_shell (r ← on_ed (editor_open uninit name mode);
            if r =? 0 then b ← on_ed (editor_run uninit depth); mret (ended b) else mret Returned).
Definition after_edit (screen : Z) (r : ran) : app_next := match r with Returned => Redraw screen | _ => Stuck end.

Definition ask_and_edit (screen : Z) : U app_next :=
  _ ← on_shell console_clear;
  _ ← on_shell (say "Enter filename to edit (or press Enter for new file): ");
  sh ← shell_state;
  o ← on_shell (read_line 128 (input (s_ed sh)) []);
  match o with
  | None => mret Stuck
  | Some (typed, rest) =>
      _ ← on_shell (on_ed (put_input rest));
      let name := if decide (typed = []) then str "untitled.txt" else typed in
      let ext := extension name in
      let mode := if bool_decide (ext = str ".bas") || bool_decide (ext = str ".BAS") then EDITOR_MODE_BASIC else EDITOR_MODE_TEXT in
      r ← edit_file name mode; mret (after_edit screen r)
  end.

Definition app_key (c screen last_update : Z) : U app_next :=
  if c =? 27 then _ ← on_shell console_clear; mret Leave
  else if (c =? KEY_ARROW_LEFT) && (0 <? screen) then mret (Redraw (screen - 1))
  else if (c =? KEY_ARROW_RIGHT) && (screen <? 5 - 1) then mret (Redraw (screen + 1))
  else if (49 <=? c) && (c <=? 54) then mret (Redraw (c - 49))
  else if (screen =? 5) && ((c =? 101) || (c =? 69)) then ask_and_edit screen
  else if (screen =? 5) && ((c =? 98) || (c =? 66)) then
    r ← edit_file (str "untitled.bas") EDITOR_MODE_BASIC; mret (after_edit screen r)
  else
    sh ← shell_state;
    let now := Ports.ticks (s_io sh) in
    last_update ← (if (screen =? 0) && (50 <=? u32 (now - last_update)) then _ ← tui_update_dashboard; mret now else mret last_update);
    _ ← on_shell (timer_wait 5);
    mret (Stay last_update).

(** A turn takes one key at least. *)
Fixpoint app_loop (fuel : nat) (screen last_update : Z) : U ran :=
  match fuel with
  | O => mret Waiting
  | S fuel =>
      sh ← shell_state;
      match input (s_ed sh) with
      | [] => mret Waiting
      | c :: rest =>
          _ ← on_shell (on_ed (put_input rest));
          n ← app_key c screen last_update;
          match n with
          | Leave => mret Returned
          | Stuck => mret Waiting
          | Stay last_update => app_loop fuel screen last_update
          | Redraw screen =>
              _ ← tui_show screen; sh ← shell_state; app_loop fuel screen (Ports.ticks (s_io sh))
          end
      end
  end.

Definition tui_run_app : U ran :=
  _ ← tui_show 0;
  sh ← shell_state;
  app_loop (S (length (input (s_ed sh)))) 0 (Ports.ticks (s_io sh)).

(** [cmd_dashboard] of the shell: the panels do not outlive it. *)
Definition cmd_dashboard : Sh D P ran := fun s =>
  match (_ ← tui_init; tui_run_app) (Tui [] 0 s) with Some (r, u) => Some (r, t_shell u) | None => None end.
End screens.

(** ** What is painted *)

Definition SCREEN_CELLS : nat := 2000.
Definition cell_at (x y : Z) : nat := Z.to_nat (y * VGA_WIDTH + x).
Definition on_screen_at (x y : Z) : Prop := 0 <= x < VGA_WIDTH /\ 0 <= y < VGA_HEIGHT.

(** A picture: what the cells become, [None] where they stay. *)
Definition picture : Type := Z -> Z -> option Z.
Definition over (f g : picture) : picture := fun x y => match f x y with Some c => Some c | None => g x y end.

(** The computation paints [f] on the screen and does nothing else. *)
Definition paints (m : T unit) (f : picture) : Prop := forall s, length (vga_buffer s) = SCREEN_CELLS ->
  exists v, m s = Some (tt, put_vga s v) /\ length v = SCREEN_CELLS /\
    forall x y, on_screen_at x y -> v !! cell_at x y = match f x y with Some c => Some c | None => vga_buffer s !! cell_at x y end.

Definition blank_picture : picture := fun _ _ => None.
Definition dot_picture (px py c : Z) : picture := fun x y => if (x =? px) && (y =? py) then Some c else None.
(** A row of cells from [px] on; a column from [py] on. *)
Definition row_picture (px py n : Z) (f : Z -> Z) : picture := fun x y =>
  if (y =? py) && (px <=? x) && (x <? px + n) then Some (f (x - px)) else None.
Definition column_picture (px py n c : Z) : picture := fun x y =>
  if (x =? px) && (py <=? y) && (y <? py + n) then Some c else None.

Lemma paints_same m f g : paints m f -> (forall x y, on_screen_at x y -> f x y = g x y) -> paints m g.
Proof.
  intros Hm He s Hs. destruct (Hm s Hs) as (v & E & Hv & Hc). exists v. split; [done|]. split; [done|].
  intros x y Hxy. by rewrite <- He, Hc.
Qed.

Lemma paints_ret : paints (mret tt) blank_picture.
Proof. intros s Hs. exists (vga_buffer s). by destruct s. Qed.

Lemma paints_bind m1 m2 f1 f2 : paints m1 f1 -> paints m2 f2 -> paints (_ ← m1; m2) (over f2 f1).
Proof.
  intros H1 H2 s Hs. destruct (H1 s Hs) as (v1 & E1 & Hv1 & Hc1). destruct (H2 (put_vga s v1) Hv1) as (v2 & E2 & Hv2 & Hc2).
  exists v2. rewrite (run_bind _ _ _ _ _ E1), E2. split; [done|]. split; [done|]. intros x y Hxy. rewrite Hc2 by done.
  unfold over. destruct (f2 x y); [done|]. by apply Hc1.
Qed.

Lemma cell_at_inj x y px py : on_screen_at x y -> on_screen_at px py -> cell_at x y = cell_at px py -> x = px /\ y = py.
Proof. unfold on_screen_at, cell_at, VGA_WIDTH, VGA_HEIGHT. lia. Qed.

(** Outside of the screen nothing is painted. *)
Lemma paints_put x y c fg bg : 0 <= x -> 0 <= y -> paints (tui_put_char_at x y c fg bg) (dot_picture x y (tui_cell c fg bg)).
Proof.
  intros Hx Hy s Hs. unfold tui_put_char_at. destruct ((VGA_WIDTH <=? x) || (VGA_HEIGHT <=? y)) eqn:Eb.
  - exists (vga_buffer s). split; [by destruct s|]. split; [done|]. intros x' y' [Hx' Hy']. unfold dot_picture, VGA_WIDTH, VGA_HEIGHT in *.
    by replace ((x' =? x) && (y' =? y)) with false by lia.
  - exists (<[cell_at x y := tui_cell c fg bg]> (vga_buffer s)). split; [done|]. split; [by rewrite length_insert|].
    assert (Hin : on_screen_at x y) by (unfold on_screen_at, VGA_WIDTH, VGA_HEIGHT in *; lia).
    intros x' y' Hxy. unfold dot_picture. destruct (Z.eqb_spec x' x) as [->|Hx'], (Z.eqb_spec y' y) as [->|Hy']; cbn [andb].
    1: apply list_lookup_insert_eq; rewrite Hs; unfold cell_at, on_screen_at, VGA_WIDTH, VGA_HEIGHT, SCREEN_CELLS in *; lia.
    all: apply list_lookup_insert_ne; intros Hc; symmetry in Hc; apply cell_at_inj in Hc; tauto.
Qed.

(** A loop of cells in a row, from left to right. *)
Lemma paints_row x y n c fg bg : 0 <= x -> 0 <= y -> 0 <= n -> x + n <= 256 ->
  paints (each (fun i => tui_put_char_at (u8 (x + i)) y (c i) fg bg) (seqZ 0 n)) (row_picture x y n (fun i => tui_cell (c i) fg bg)).
Proof.
  intros Hx Hy Hn. revert n Hn. apply (natlike_ind (fun n => x + n <= 256 -> paints (each (fun i => tui_put_char_at (u8 (x + i)) y (c i) fg bg) (seqZ 0 n))
    (row_picture x y n (fun i => tui_cell (c i) fg bg)))).
  - intros _. cbn. eapply paints_same; [apply paints_ret|]. intros x' y' _. unfold blank_picture, row_picture. destruct (Z.ltb_spec x' (x + 0)), (Z.leb_spec x x'); cbn [andb]; rewrite ?andb_false_r; done || lia.
  - intros n Hn IH Hl. rewrite <- Z.add_1_r, seqZ_app, Z.add_0_l by lia. change (seqZ n 1) with [n].
    intros s Hs. rewrite each_app. revert s Hs. eapply paints_same; [apply paints_bind; [apply IH; lia|]|].
    + cbn [each]. eapply paints_bind; [|apply paints_ret]. apply paints_put; [unfold u8; apply Z.mod_pos_bound; lia|lia].
    + intros x' y' _. unfold over, blank_picture, dot_picture, row_picture, u8. rewrite Z.mod_small by lia.
      destruct (Z.eqb_spec x' (x + n)) as [->|Hx'], (Z.eqb_spec y' y); cbn [andb]; try done.
      * replace ((x <=? x + n) && (x + n <? x + (n + 1))) with true by lia. by replace (x + n - x) with n by lia.
      * by replace (x' <? x + (n + 1)) with (x' <? x + n) by lia.
Qed.

(** Decides the comparisons of a goal that the context decides. *)
Ltac compare := repeat match goal with
  | |- context [?a =? ?b] => first [rewrite (proj2 (Z.eqb_eq a b)) by lia | rewrite (proj2 (Z.eqb_neq a b)) by lia]
  | |- context [?a <=? ?b] => first [rewrite (proj2 (Z.leb_le a b)) by lia | rewrite (proj2 (Z.leb_gt a b)) by lia]
  | |- context [?a <? ?b] => first [rewrite (proj2 (Z.ltb_lt a b)) by lia | rewrite (proj2 (Z.ltb_ge a b)) by lia]
  end; cbn [andb orb negb].

Lemma paints_column x y n c fg bg : 0 <= x -> 0 <= y -> 0 <= n -> y + n <= 256 ->
  paints (each (fun i => tui_put_char_at x (u8 (y + i)) c fg bg) (seqZ 0 n)) (column_picture x y n (tui_cell c fg bg)).
Proof.
  intros Hx Hy Hn. revert n Hn. apply (natlike_ind (fun n => y + n <= 256 -> paints (each (fun i => tui_put_char_at x (u8 (y + i)) c fg bg) (seqZ 0 n))
    (column_picture x y n (tui_cell c fg bg)))).
  - intros _. cbn. eapply paints_same; [apply paints_ret|]. intros x' y' _. unfold blank_picture, column_picture.
    destruct (Z.ltb_spec y' (y + 0)), (Z.leb_spec y y'); cbn [andb]; rewrite ?andb_false_r; done || lia.
  - intros n Hn IH Hl. rewrite <- Z.add_1_r, seqZ_app, Z.add_0_l by lia. change (seqZ n 1) with [n].
    intros s Hs. rewrite each_app. revert s Hs. eapply paints_same; [apply paints_bind; [apply IH; lia|]|].
    + cbn [each]. eapply paints_bind; [|apply paints_ret]. apply paints_put; [lia|unfold u8; apply Z.mod_pos_bound; lia].
    + intros x' y' _. unfold over, blank_picture, dot_picture, column_picture, u8. rewrite Z.mod_small by lia.
      destruct (Z.eqb_spec x' x) as [->|Hx'], (Z.eqb_spec y' (y + n)) as [->|Hy']; cbn [andb]; try done.
      * by replace ((y <=? y + n) && (y + n <? y + (n + 1))) with true by lia.
      * by replace (y' <? y + (n + 1)) with (y' <? y + n) by lia.
Qed.

(** A string is cut at the right edge. *)
Lemma paints_string l x y fg bg : 0 <= x -> 0 <= y ->
  paints (tui_write_string_at x y l fg bg) (row_picture x y (Z.of_nat (length l)) (fun i => tui_cell (l !!! Z.to_nat i) fg bg)).
Proof.
  revert x. induction l as [|c l IH]; intros x Hx Hy; cbn [tui_write_string_at length].
  - eapply paints_same; [apply paints_ret|]. intros x' y' _. unfold blank_picture, row_picture.
    destruct (Z.ltb_spec x' (x + Z.of_nat 0)), (Z.leb_spec x x'); cbn [andb]; rewrite ?andb_false_r; done || lia.
  - destruct (Z.ltb_spec x VGA_WIDTH) as [Hlt|Hge].
    + eapply paints_same; [apply paints_bind; [apply paints_put; [unfold u8; apply Z.mod_pos_bound; lia|done]|apply IH; [lia|done]]|].
      intros x' y' _. unfold over, dot_picture, row_picture, u8, VGA_WIDTH in *. rewrite Z.mod_small by lia. rewrite Nat2Z.inj_succ.
      destruct (Z.eqb_spec y' y) as [->|]; cbn [andb]; [|by rewrite andb_false_r].
      destruct (Z.eqb_spec x' x) as [->|Hne].
      * compare. by replace (x - x) with 0 by lia.
      * destruct (Z.leb_spec (x + 1) x'), (Z.ltb_spec x' (x + 1 + Z.of_nat (length l))); compare; try (done || lia).
        do 2 f_equal. by replace (Z.to_nat (x' - x)) with (S (Z.to_nat (x' - (x + 1)))) by lia.
    + eapply paints_same; [apply paints_ret|]. intros x' y' [Hx' _]. unfold blank_picture, row_picture.
      destruct (Z.leb_spec x x'); [lia|]. by rewrite andb_false_r.
Qed.

(** ** Panels *)

(** The frame of a panel with its title. *)
Definition titled (p : tui_panel) : bool := (0 <? Z.of_nat (length (p_title p))) && (Z.of_nat (length (p_title p)) <? p_width p - 4).
Definition frame_picture (p : tui_panel) : picture := fun x y =>
  let right := p_x p + p_width p - 1 in
  let bottom := p_y p + p_height p - 1 in
  let last := p_x p + 2 + Z.of_nat (length (p_title p)) in
  if negb ((p_x p <=? x) && (x <=? right) && (p_y p <=? y) && (y <=? bottom)) then None
  else if (y =? p_y p) && titled p && (p_x p <? x) && (x <=? last) then
    Some (if (x =? p_x p + 1) || (x =? last) then tui_cell 32 (p_fg p) (p_bg p)
          else tui_cell (p_title p !!! Z.to_nat (x - (p_x p + 2))) VGA_WHITE (p_bg p))
  else if ((x =? p_x p) || (x =? right)) && ((y =? p_y p) || (y =? bottom)) then Some (tui_cell CHAR_CORNER (p_fg p) (p_bg p))
  else if (y =? p_y p) || (y =? bottom) then
    Some (tui_cell (if p_border p =? TUI_BORDER_DOUBLE then CHAR_HLINE_DOUBLE else CHAR_HLINE_SINGLE) VGA_LIGHT_GREY VGA_BLACK)
  else if (x =? p_x p) || (x =? right) then Some (tui_cell CHAR_VLINE VGA_LIGHT_GREY VGA_BLACK)
  else None.

(** A panel whose far corner is a pair of bytes. *)
Definition panel_ok (p : tui_panel) : Prop :=
  p_visible p = true /\ 0 <= p_x p /\ 0 <= p_y p /\ 2 <= p_width p /\ 2 <= p_height p /\ p_x p + p_width p <= 256 /\ p_y p + p_height p <= 256.

Lemma between a n x : 0 < n -> x < a \/ x = a \/ a < x < a + n \/ x = a + n \/ a + n < x.
Proof. lia. Qed.

Definition title_picture (p : tui_panel) : picture :=
  over (over (dot_picture (p_x p + 2 + Z.of_nat (length (p_title p))) (p_y p) (tui_cell 32 (p_fg p) (p_bg p)))
             (row_picture (p_x p + 2) (p_y p) (Z.of_nat (length (p_title p))) (fun i => tui_cell (p_title p !!! Z.to_nat i) VGA_WHITE (p_bg p))))
       (dot_picture (p_x p + 1) (p_y p) (tui_cell 32 (p_fg p) (p_bg p))).
(** What is painted, the last first. *)
Definition panel_picture (p : tui_panel) : picture :=
  let right := p_x p + p_width p - 1 in
  let bottom := p_y p + p_height p - 1 in
  let line := tui_cell (if p_border p =? TUI_BORDER_DOUBLE then CHAR_HLINE_DOUBLE else CHAR_HLINE_SINGLE) VGA_LIGHT_GREY VGA_BLACK in
  let side x := column_picture x (p_y p + 1) (p_height p - 2) (tui_cell CHAR_VLINE VGA_LIGHT_GREY VGA_BLACK) in
  let edge y := row_picture (p_x p + 1) y (p_width p - 2) (fun _ => line) in
  let corner x y := dot_picture x y (tui_cell CHAR_CORNER (p_fg p) (p_bg p)) in
  over (over (over (over (over (over (over (over (if titled p then title_picture p else blank_picture)
    (side right)) (side (p_x p))) (edge bottom)) (edge (p_y p))) (corner right bottom)) (corner (p_x p) bottom)) (corner right (p_y p))) (corner (p_x p) (p_y p)).

Lemma frame_is_border p x y : panel_ok p -> panel_picture p x y = frame_picture p x y.
Proof.
  intros (_ & Hx & Hy & Hw & Hh & _). unfold frame_picture, panel_picture, title_picture, over, dot_picture, row_picture, column_picture, blank_picture.
  cbv zeta. destruct (titled p) eqn:Et; [unfold titled in Et; apply andb_true_iff in Et as [Et1%Z.ltb_lt Et2%Z.ltb_lt]|].
  all: destruct (between (p_x p) (p_width p - 1) x ltac:(lia)) as [?|[?|[?|[?|?]]]];
    destruct (between (p_y p) (p_height p - 1) y ltac:(lia)) as [?|[?|[?|[?|?]]]]; try (compare; done).
  all: destruct (Z.ltb_spec x (p_x p + 2 + Z.of_nat (length (p_title p)))), (Z.eqb_spec x (p_x p + 2 + Z.of_nat (length (p_title p)))), (Z.eqb_spec x (p_x p + 1));
    try lia; compare; done.
Qed.

Lemma draw_panel_paints p : panel_ok p -> paints (draw_panel p) (frame_picture p).
Proof.
  intros Hp. pose proof Hp as (Hv & Hx & Hy & Hw & Hh & Hr & Hb).
  eapply paints_same; [|intros x y _; by apply frame_is_border].
  assert (Hu : forall v, 0 <= v < 256 -> u8 v = v) by (intros v ?; unfold u8; apply Z.mod_small; lia).
  unfold draw_panel. rewrite Hv. cbn [negb]. cbv zeta.
  rewrite (Hu (p_x p + p_width p - 1)), (Hu (p_y p + p_height p - 1)), (Hu (p_x p + 1)), (Hu (p_y p + 1)), (Hu (p_width p - 2)), (Hu (p_height p - 2)) by lia.
  set (title := if _ : bool then _ else _). assert (Ht : paints title (if titled p then title_picture p else blank_picture)).
  { unfold title, titled. destruct ((0 <? _) && _) eqn:Et; [|apply paints_ret]. apply andb_true_iff in Et as [Et1%Z.ltb_lt Et2%Z.ltb_lt].
    rewrite (Hu (p_x p + 2)) by lia. rewrite !Hu by lia. unfold title_picture.
    apply paints_bind; [replace (p_x p + 1) with (p_x p + 2 - 1) by lia; apply paints_put; lia|].
    apply paints_bind; [apply paints_string; lia|apply paints_put; lia]. }
  clearbody title. eapply paints_same.
  - repeat (eapply paints_bind; [first [apply paints_put; lia | apply paints_row; lia | apply paints_column; lia]|]). exact Ht.
  - reflexivity.
Qed.

(** C23: [tui_draw_panel] paints the frame of the panel, its corners, sides and edges, and the
    title in its upper edge when there is room for it, clipped to the screen, and changes
    nothing else. *)
Theorem tui_draw_panel_frame {D P} `{BlockDev D} `{Ports P} (s : tui D P) id p : 0 <= id < panel_count s -> panels s !! Z.to_nat id = Some p -> panel_ok p ->
  let c := con_of (t_shell s) in length (vga_buffer (tty_of c)) = SCREEN_CELLS ->
  exists v, tui_draw_panel id s = Some (tt, Tui (panels s) (panel_count s) (with_con (t_shell s) (Cons (vterm_initialized c) (put_vga (tty_of c) v)))) /\
    length v = SCREEN_CELLS /\
    forall x y, on_screen_at x y -> v !! cell_at x y = match frame_picture p x y with Some b => Some b | None => vga_buffer (tty_of c) !! cell_at x y end.
Proof.
  intros Hid Hp Hok c Hl. destruct (draw_panel_paints p Hok (tty_of c) Hl) as (v & E & Hv & Hc). exists v. split; [|done].
  unfold tui_draw_panel, with_panel. rewrite run_get. replace ((id <? 0) || (panel_count s <=? id)) with false by lia. rewrite Hp.
  change (mbind ?k (sopt (Some p)) s) with (k p s). cbn beta. unfold draw, on_shell, on_con, on_tty, zoom. fold c. by rewrite E.
Qed.

(** ** The panel of the dashboard *)

Definition panel1 : tui_panel := Panel 0 0 80 24 0 7 0 (str " mexOS System Dashboard ") true.
Definition tui1 : tui ramdisk unit := Tui [panel1] 1 shell1.
Lemma tui1_cells : length (vga_buffer (tty_of (con_of (t_shell tui1)))) = SCREEN_CELLS.
Proof. vm_compute. reflexivity. Qed.

#[local] Opaque tty1.

Lemma tui_draw_panel_frame_witness : exists v,
  tui_draw_panel 0 tui1 = Some (tt, Tui [panel1] 1 (with_con shell1 (Cons true (put_vga tty1 v)))) /\
  v !! cell_at 0 0 = Some (tui_cell CHAR_CORNER 7 0) /\ v !! cell_at 3 0 = Some (tui_cell 109 15 0) /\ v !! cell_at 79 12 = Some (tui_cell CHAR_VLINE 7 0) /\
  v !! cell_at 40 12 = vga_buffer tty1 !! cell_at 40 12.
Proof.
  destruct (tui_draw_panel_frame tui1 0 panel1 ltac:(by split) eq_refl ltac:(repeat split; discriminate) tui1_cells) as (v & E & _ & Hc).
  exists v. split; [exact E|]. clear E.
  assert (E1 : frame_picture panel1 0 0 = Some (tui_cell CHAR_CORNER 7 0)) by (vm_compute; reflexivity).
  assert (E2 : frame_picture panel1 3 0 = Some (tui_cell 109 15 0)) by (vm_compute; reflexivity).
  assert (E3 : frame_picture panel1 79 12 = Some (tui_cell CHAR_VLINE 7 0)) by (vm_compute; reflexivity).
  assert (E4 : frame_picture panel1 40 12 = None) by (vm_compute; reflexivity).
  rewrite !Hc, E1, E2, E3, E4 by (by split). split; [|split; [|split]]; reflexivity.
Defined.
